(* ===== verification/_CoqProject ===== *)
-Q . S2P
Prelude.v
Machine.v
Serial.v
Printf.v
Gic.v
TimerApp.v
Hello.v
Blink.v
Host.v
Loader.v
ArmWrap.v
Bingen.v
NxGpio.v
NxTimer.v
UStr.v
Vsprintf.v
UMem.v
Crc.v
QSort.v
HashTable.v
EnvText.v
EnvSafe.v
EnvVars.v
EnvStore.v
EnvPrint.v
MmcPart.v
Ext4Img.v
Fields.v
MmcBlk.v
MmcInit.v
SdCard.v
Cli.v
MmcCmd.v
SdRecovery.v
CmdShell.v
Recovery.v
CardStack.v
EnvCard.v
NxClock.v
NxTimeBase.v
Lmb.v
BootMem.v
