(* ===== verification/Prelude.v ===== *)
(** Bare-metal programs and boot tools for the NanoPi Fire3 (Samsung S5P6818).

    * The parts and how they interact

    The repository holds small programs that run on the bare board, host tools
    that prepare and send them, and the U-Boot of the board, of which this
    development takes the code written for the board and the library code the
    environment rests on.

    - Bare-metal programs.  [Machine] gives the language they are translated
      into: a run makes volatile loads and stores of 32-bit registers and reads
      and writes system registers, and what a device answers is the interface
      [Machine] (its law class [Storage] says which addresses are plain memory).
      [Serial] is the UART driver (src/Timer/serial.c, src/Hello1/serial.c);
      [Printf] the formatted output on top of it (src/Timer/printf.c,
      src/Hello1/printf.c); [Gic] the interrupt controller
      (src/Timer/intcon_gic400.c); [TimerApp] the Timer program
      (src/Timer/timer.c, trap.c, main.c), the client of these three; [Hello] the
      Hello1 program (src/Hello1/hello.c); [Blink] the LED programs
      (src/Blink32/blink.c, src/Blink64/boot.c, src/BlinkEL/blink.c).
    - Host tools.  [Host] has what they share: byte buffers, little-endian words,
      [strtol].  [Loader] is the USB loader (src/USB_loader/loader.c), [ArmWrap]
      the ELF wrapper (src/Arm_wrap/arm_wrap.c), [Bingen] the generator of boot
      images (src/U-Boot/tools/nexell/BOOT_BINGEN.c), whose header is the one
      [Loader] writes by hand.
    - Board support of U-Boot (src/U-Boot/arch/arm/mach-nexell).  [NxGpio] is
      nx_gpio.c, [NxClock] clock.c, [NxTimer] timer.c, and [NxTimeBase] puts the
      last two together: the timer asks a clock tree, through the interface
      [ClkTree], for the rate of its input, and clock.c implements that interface.
    - The environment of U-Boot (src/U-Boot/lib).  [UStr] and [UMem] are string.c,
      strto.c and ctype.c, what reads and what writes, [QSort] qsort.c, [HashTable] the hash table of
      hashtable.c, [EnvText] its text form, written by [hexport_r] and read by
      [himport_r], which call [UStr] and these two, and [EnvSafe] what holds of the
      reading of arbitrary bytes.  On top of them (src/U-Boot/common), [EnvVars] is
      how variables are read, before the import and after, and set
      (cmd_nvedit.c, env_common.c), [EnvStore] where the environment is kept: the
      defaults, the check sum, the card (env_common.c, env_mmc.c), and [EnvPrint]
      numbers, printing and editing (cmd_nvedit.c).  They use the check sums of
      [Crc] (crc32.c, crc16.c, crc7.c) and the formatted text of [Vsprintf]
      (vsprintf.c); the card is the interface [Mmc].
    - Memory at boot.  [Lmb] is the bookkeeping of memory blocks
      (src/U-Boot/lib/lmb.c), and [BootMem] what is reserved and where the RAM disk
      and the device tree go (parts of src/U-Boot/common/image.c, image-fdt.c,
      bootm.c and src/U-Boot/arch/arm/lib/bootm.c), the client of [Lmb] and [UStr].
    - Cards and commands (src/U-Boot/common).  [MmcPart] makes and reads the
      partition tables of a card (cmd_mmc_fdisk.c, src/U-Boot/disk/part_dos.c);
      [Ext4Img] writes a sparse image to a partition (cmd_ext4_img_write.c), with
      command lines that a shell runs; [Cli] is the simple command line
      (cli_simple.c, command.c, parts of cli.c); [SdRecovery] reads the partition
      map of a recovery card and prints the command lines that do what it says
      (cmd_sd_recovery.c).  [CmdShell] makes shells of [Cli] with these commands in
      their table, one in the other, and [Recovery] is what a recovery does.  The
      numbers are printed by [Vsprintf] and read by [UStr], images are moved by the
      [memcpy] of [UMem].  Below them are the driver of memory cards
      (src/U-Boot/drivers/mmc) and its command: [MmcBlk] reads, writes and erases
      blocks (mmc.c, mmc_write.c), [MmcInit] brings a device up and partitions it
      (mmc.c), [SdCard] is what an SD card does when it is brought up, [MmcCmd] the
      mmc command (cmd_mmc.c), and [CardStack] puts the command and the driver, with
      the card behind it, below the recovery, as [EnvCard] puts the driver below the
      environment.  The records are set with the notation of [Fields].

    * The models

    Each file opens with what it holds.  A C function is a definition of its
    name; an inner loop or a part of a function is a definition of its own, used
    where the code has it.  Integers are [Z], cut to their width by [u8], [u32],
    [s32], ... (below) where the code's types do it.  Undefined behaviour, and
    above all an access outside an object, is a value: [None] in the files that
    work on memory, a reason to stop in the files on [Machine].  Calls that can
    fail (allocation, files, the USB library) are parameters.  Device registers
    are named by the fields of the C structures ([Machine], [Gic], [NxGpio], ...).

    Interfaces, each with the laws its clients use: [Machine] and [Storage] (the
    hardware), [UartReady] and [UartRx] (the UART becomes ready, delivers what it
    received), [GicHw] (the enable registers of the distributor), [TickCounter]
    (a counter that counts down the ticks of a clock, which goes on by at least one of
    its cycles at each load, and reloads), [ClkTree] (implemented by
    [NxTimeBase.clock_tree]), [Slre] (regular expressions), [Mmc] and [GoodMmc] (a
    card that can be brought up and gives back what was written; [EnvCard] implements
    them by the driver, for a device that is an [EnvDevice]), [BlockDev] and [GoodDev] (the same for
    single sectors, in [MmcPart]), [Shell] and [GoodShell] (a shell that runs the two
    lines of [Ext4Img]), [RecoveryShell] (one that calls [fdisk] and
    [ext4_img_write]; [CmdShell] implements both), [GoodMmcCmd] (the [mmc] command;
    [CardStack] implements it, and [BlockDev] and [GoodDev], by the driver), [Files] and
    [GoodFiles] (a card with files), [CardHost] (the host of a card: commands, and the
    functions of [struct mmc_ops]), [GoodCard] (what a card that is ready promises),
    [Ticking] (a clock that goes on while one waits), [SdCard] (the states of an SD
    card while it is brought up, and what it must be told to get ready), [Bringing] (a device that comes up again as it was).

    * What the theorems show

    - Output: [printf] sends exactly the text its format denotes and returns;
      the numbers read back; the digit buffer is never left ([Printf]).
    - Interrupts: initialisation, enabling, disabling and acknowledging change
      exactly what they should ([Gic]); the Timer program starts in the right
      order, waits for ever unless a count cannot be printed, and serves any interleaving of interrupts, counting those of the timer
      ([TimerApp]); [Hello] faults where it means to; the LED programs flash as
      often as they should, for ever ([Blink]).
    - Host tools: the header of a boot image is well formed, what is sent is what
      is written, addresses read back ([Loader]); the output is an ELF file whose
      sections select the image, the names and the symbols, except that too many
      symbols overflow their array ([ArmWrap]); the text of a header is read as its
      bytes, and overruns its block if it is too long, the image written is header,
      input and check sums as asked for, and the check sums check ([Bingen]).
    - Board support: the GPIO driver refines pins with attributes ([NxGpio]); the
      clock driver finds the nearest rate and programs it, and disabling and
      enabling restore every register ([NxClock]); the timer finds the best
      divisors, its time stamp advances by the ticks less one for each reload, its
      delays end in time ([NxTimer]); both together run the timer from the bus
      clock the registers say ([NxTimeBase]).
    - Strings: overlapping regions are moved exactly, copying by words is copying
      by bytes, bounded copies stay in bounds, splitting gives the tokens ([UMem]);
      numbers read back, searching by words finds what searching by bytes finds
      ([UStr]).
    - Environment: the table refines a map from names to values as long as some
      slot was never used, and loses an entry when none is left ([HashTable]); the
      sort sorts ([QSort]); an exported environment imports as the same map
      without its empty values, and the room counted is enough unless the
      separator is NUL and a value has backslashes ([EnvText]); any bytes import
      safely ([EnvSafe]).  Setting and reading variables refines a map, and what is
      read before the import agrees with what is read after it as far as the short
      buffer goes ([EnvVars], [EnvStore]); a saved environment comes back, damage to
      it is detected, and the start always ends with a sound table ([EnvStore]);
      numbers come back too, and printing overruns the stack for long values
      ([EnvPrint]).
    - Check sums and text: the tables and loops compute the bitwise check sums,
      which tell messages apart that differ in a short burst ([Crc]); numbers are
      printed as a reference with divisions says, a format of characters and
      conversions prints what it denotes, and the buffers are kept to only with a
      configuration that the board has not set ([Vsprintf]).
    - Memory: the tables of blocks stay ordered and bounded, the operations refine
      two sets of addresses, the allocator finds the highest free block ([Lmb]), so
      that the images of a boot are apart, unless the device tree stays in place
      ([BootMem]); where the code errs, the
      theorems show how.
    - Cards and commands: the partitions that are made are read back, and only
      tables are written, but for the first sector of the fourth partition if there
      are more than four ([MmcPart]); an image goes to its partition sector by
      sector ([Ext4Img]); a line is run piece by piece, whatever its variables hold
      its buffers are kept to unless a name in it is too long, and a name finds its command ([Cli]); a partition map
      reads back ([SdRecovery]), and a recovery makes its table and writes every
      image to its place ([Recovery]), down to the card behind the driver ([CardStack];
      the device is the current one, and has been brought up).  Blocks that are
      written are read back however the request is cut, whole groups are erased,
      writing ends whatever the card answers ([MmcBlk]); so does bringing up a device,
      which is in use or not by the result, unless the card names a unit of its rate
      that the code has not ([MmcInit]), and an SD card of high
      capacity comes up as its registers say ([SdCard]).  The environment is kept on
      such a card, through the driver, from one start to the next ([EnvCard]).  Where the code errs
      (unaligned chunks, tables that lead back to themselves, comments in a map,
      failures that nobody sees, cards that are ready at the last moment), the theorems
      show how.

    * Bounds and fuel

    A loop that is not structural takes fuel.  Polling loops on [Machine] take the
    fuel of the run, and the laws of the device ([UartReady], ...) bound what they
    need.  Elsewhere the definition that starts the loop gives the fuel: the
    number of elements for the loops of [qsort], the number of slots for a search
    of the table (a probe sequence is a permutation of the slots, the size being
    prime), the number of bytes for the loops of [himport_r]; the theorems show
    that it is enough.  [hcreate_r] looks for a prime with a fuel that its
    theorems bound by 33000, the largest table size they cover being 65521.  The
    loops over a table of blocks get one more than its length, the search of the
    text of the environment two more than its size, the scan of a format the length
    of the format: [Vsprintf] shows that more changes nothing.  A table of partitions
    is followed to a depth that is a parameter: one more than the partitions is
    enough, and nothing is enough for a table that leads back to itself ([MmcPart]).
    A raw chunk takes one round more than it has runs of 65536 sectors ([Ext4Img]),
    the loops of [Cli] and [SdRecovery] one more than the length of their text.
    Transfers take one round more than there are blocks, polls of a status one more
    than the retries and the time allow ([MmcBlk]), a card is asked 1002 times whether
    it has powered up; how often an eMMC is asked again depends on the clock, the fuel
    is a parameter, and more than 10012 is enough ([MmcInit]).

    * Not modelled

    Assembly (the start.S files, src/Mini, reg-call.S, nx_sec_reg.c): only the C
    code from its entry points on.  The disassemblies and dumps in src/Bootrom,
    src/Boot1, src/Boot_NSIH and the images in src/SDcard are no source.  Of
    U-Boot, the code for other boards and processors, drivers but for those named
    above, file systems, network, scripts and host tools are vendored and not
    modelled, nor are the driver of the host of the cards, the kind of table that
    [init_part] finds on a card, and what is configured out of the driver (SPI, the
    boot and replay protected partitions of an eMMC); nor are the
    commands other than those named above, the other command parser (cli_hush.c,
    which the board has switched on; [Recovery] relies on its shell through the
    interfaces, which [CmdShell] shows to hold of the simple one), what is in the
    images of a boot and the start of the kernel; nor
    are the pin tables and the reset of the board, which write constants, and
    SECURE_BINGEN.c, which calls a cryptographic library for its work.
    Messages to the console of U-Boot and debug output leave no trace, but for what
    [EnvPrint] prints. *)

From Stdlib Require Export ZArith Lia Ascii Zquot.
From stdpp Require Export strings base list list_numbers numbers gmap.
From Stdlib Require Import Btauto.

#[global] Open Scope Z_scope.

(** ** Fixed-width C integers *)

(** Conversion to an unsigned type: reduction modulo the width. *)
Definition u8 (x : Z) : Z := x mod 2 ^ 8.
Definition u16 (x : Z) : Z := x mod 2 ^ 16.
Definition u32 (x : Z) : Z := x mod 2 ^ 32.
Definition u64 (x : Z) : Z := x mod 2 ^ 64.

(** Conversion to a signed type: the two's complement reading. *)
Definition s8 (x : Z) : Z := (x + 2 ^ 7) mod 2 ^ 8 - 2 ^ 7.
Definition s16 (x : Z) : Z := (x + 2 ^ 15) mod 2 ^ 16 - 2 ^ 15.
Definition s32 (x : Z) : Z := (x + 2 ^ 31) mod 2 ^ 32 - 2 ^ 31.
Definition s64 (x : Z) : Z := (x + 2 ^ 63) mod 2 ^ 64 - 2 ^ 63.

(** The ranges of the types, as decidable propositions. *)
Definition is_u8 (x : Z) : Prop := 0 <= x < 2 ^ 8.
Definition is_u32 (x : Z) : Prop := 0 <= x < 2 ^ 32.
Definition is_u64 (x : Z) : Prop := 0 <= x < 2 ^ 64.
Definition is_s32 (x : Z) : Prop := - 2 ^ 31 <= x < 2 ^ 31.
Definition is_s64 (x : Z) : Prop := - 2 ^ 63 <= x < 2 ^ 63.

#[global] Instance is_u8_dec x : Decision (is_u8 x).
Proof. unfold is_u8; apply _. Defined.
#[global] Instance is_u32_dec x : Decision (is_u32 x).
Proof. unfold is_u32; apply _. Defined.
#[global] Instance is_u64_dec x : Decision (is_u64 x).
Proof. unfold is_u64; apply _. Defined.
#[global] Instance is_s32_dec x : Decision (is_s32 x).
Proof. unfold is_s32; apply _. Defined.
#[global] Instance is_s64_dec x : Decision (is_s64 x).
Proof. unfold is_s64; apply _. Defined.

(** C's [~x] on a 32-bit unsigned operand. *)
Definition not32 (x : Z) : Z := u32 (Z.lnot x).

(** C's shifts on a 32-bit unsigned operand (count below 32). *)
Definition shl32 (x n : Z) : Z := u32 (Z.shiftl x n).

(** ** Byte sequences *)

(** The bytes of a 32-bit little-endian word, and the word they spell. *)
Definition le32 (v : Z) : list Z :=
  [Z.land v 255; Z.land (Z.shiftr v 8) 255;
   Z.land (Z.shiftr v 16) 255; Z.land (Z.shiftr v 24) 255].

Definition le16 (v : Z) : list Z :=
  [Z.land v 255; Z.land (Z.shiftr v 8) 255].

Fixpoint le_word (bs : list Z) : Z :=
  match bs with
  | [] => 0
  | b :: r => b + 2 ^ 8 * le_word r
  end.

(** The characters of a C string literal, its [\n] escapes read. *)
Fixpoint chars (s : string) : list Z :=
  match s with
  | EmptyString => []
  | String "\" (String "n" r) => 10 :: chars r
  | String c r => Z.of_N (N_of_ascii c) :: chars r
  end.

(** The [n] elements of [l] from position [o]. *)
Definition slice {A} (o n : nat) (l : list A) : list A := take n (drop o l).

(** ** Tactics and hint databases *)

Create HintDb cint.
Create Rewrite HintDb cint.
Create Rewrite HintDb bits.
Create Rewrite HintDb lens.

Ltac unfold_cint :=
  unfold is_u8, is_u32, is_u64, is_s32, is_s64, u8, u16, u32, u64,
    s8, s16, s32, s64 in *.

(** Linear goals about C integers once the wraps are arithmetic. *)
Ltac cint := unfold_cint; Z.div_mod_to_equations; lia.

(** [case_bool] splits every boolean test in the goal that [lia] understands. *)
Ltac case_tests :=
  repeat match goal with
  | |- context [Z.eqb ?a ?b] => destruct (Z.eqb_spec a b)
  | |- context [Z.ltb ?a ?b] => destruct (Z.ltb_spec a b)
  | |- context [Z.leb ?a ?b] => destruct (Z.leb_spec a b)
  end.

(** Destructures conjunctions and existentials of the context. *)
Ltac break :=
  repeat match goal with
  | H : _ /\ _ |- _ => destruct H
  | H : exists _, _ |- _ => destruct H
  end.

(** ** Lemmas on C integers *)

Section CInt.

Lemma u8_range x : is_u8 (u8 x).
Proof. unfold is_u8, u8. apply Z.mod_pos_bound. lia. Qed.

Lemma u32_range x : is_u32 (u32 x).
Proof. unfold is_u32, u32. apply Z.mod_pos_bound. lia. Qed.

Lemma u64_range x : is_u64 (u64 x).
Proof. unfold is_u64, u64. apply Z.mod_pos_bound. lia. Qed.

Lemma s32_range x : is_s32 (s32 x).
Proof.
  unfold is_s32, s32. pose proof (Z.mod_pos_bound (x + 2 ^ 31) (2 ^ 32)). lia.
Qed.

Lemma u8_small x : is_u8 x -> u8 x = x.
Proof. apply Z.mod_small. Qed.

Lemma u32_small x : is_u32 x -> u32 x = x.
Proof. apply Z.mod_small. Qed.

Lemma u64_small x : is_u64 x -> u64 x = x.
Proof. apply Z.mod_small. Qed.

Lemma s32_small x : is_s32 x -> s32 x = x.
Proof. intros H. unfold is_s32, s32 in *. rewrite Z.mod_small; lia. Qed.

Lemma s64_small x : is_s64 x -> s64 x = x.
Proof. intros H. unfold is_s64, s64 in *. rewrite Z.mod_small; lia. Qed.

Lemma u32_idem x : u32 (u32 x) = u32 x.
Proof. apply u32_small, u32_range. Qed.

(** Reading an unsigned word as signed and back loses nothing. *)
Lemma u32_s32 x : u32 (s32 x) = u32 x.
Proof.
  unfold u32, s32. rewrite Zminus_mod_idemp_l. f_equal. lia.
Qed.

Lemma s32_u32 x : s32 (u32 x) = s32 x.
Proof. unfold u32, s32. by rewrite Zplus_mod_idemp_l. Qed.

Lemma s32_neg x : 2 ^ 31 <= x < 2 ^ 32 -> s32 x = x - 2 ^ 32.
Proof.
  intros H. unfold s32.
  rewrite <- (Z.mod_unique (x + 2 ^ 31) (2 ^ 32) 1 (x - 2 ^ 31)); lia.
Qed.

End CInt.

#[export] Hint Resolve u8_range u32_range u64_range s32_range : cint.
#[export] Hint Rewrite u32_idem u32_s32 s32_u32 : cint.

(** ** Bitwise reasoning *)

Lemma testbit_high x n i : 0 <= x < 2 ^ n -> n <= i -> Z.testbit x i = false.
Proof.
  intros Hx Hi. destruct (Z_lt_le_dec n 0) as [Hn|Hn].
  - rewrite Z.pow_neg_r in Hx by lia. lia.
  - rewrite <- (Z.mod_small x (2 ^ n)) by lia.
    by rewrite Z.mod_pow2_bits_high.
Qed.

Lemma testbit_u32 x i :
  0 <= i -> Z.testbit (u32 x) i = (i <? 32) && Z.testbit x i.
Proof.
  intros Hi. unfold u32. destruct (Z.ltb_spec i 32); simpl.
  - by rewrite Z.mod_pow2_bits_low.
  - by rewrite Z.mod_pow2_bits_high by lia.
Qed.

Lemma testbit_pow2 n i : 0 <= n -> Z.testbit (2 ^ n) i = (i =? n).
Proof. intros Hn. rewrite Z.pow2_bits_eqb by lia. apply Z.eqb_sym. Qed.

Lemma testbit_shiftl1 n i :
  0 <= n -> Z.testbit (Z.shiftl 1 n) i = (i =? n).
Proof. intros. rewrite Z.shiftl_1_l. by apply testbit_pow2. Qed.

(** Equality of two words from their bits below the width. *)
Lemma word_eq n x y :
  0 <= x < 2 ^ n -> 0 <= y < 2 ^ n ->
  (forall i, 0 <= i < n -> Z.testbit x i = Z.testbit y i) -> x = y.
Proof.
  intros Hx Hy H. apply Z.bits_inj'. intros i Hi.
  destruct (Z_lt_le_dec i n); [by apply H; lia|].
  by rewrite !(testbit_high _ n) by lia.
Qed.

Lemma land_bound n x y :
  0 <= n -> 0 <= x < 2 ^ n -> 0 <= Z.land x y < 2 ^ n.
Proof.
  intros Hn Hx.
  assert (Hnn : 0 <= Z.land x y) by (apply Z.land_nonneg; lia).
  split; [done|].
  rewrite <- (Z.mod_small x (2 ^ n)) by done.
  rewrite <- Z.land_ones, <- Z.land_assoc, (Z.land_comm (Z.ones n)),
    Z.land_assoc, Z.land_ones by lia.
  apply Z.mod_pos_bound. lia.
Qed.

Lemma lor_bound n x y :
  0 <= n -> 0 <= x < 2 ^ n -> 0 <= y < 2 ^ n -> 0 <= Z.lor x y < 2 ^ n.
Proof.
  intros Hn Hx Hy.
  assert (Hnn : 0 <= Z.lor x y) by (apply Z.lor_nonneg; lia).
  split; [done|].
  replace (Z.lor x y) with (Z.lor x y mod 2 ^ n); [apply Z.mod_pos_bound; lia|].
  apply Z.bits_inj'. intros i Hi. destruct (Z_lt_le_dec i n).
  - by rewrite Z.mod_pow2_bits_low by lia.
  - rewrite Z.mod_pow2_bits_high by lia.
    by rewrite Z.lor_spec, !(testbit_high _ n) by lia.
Qed.

Lemma lxor_bound n x y :
  0 <= n -> 0 <= x < 2 ^ n -> 0 <= y < 2 ^ n -> 0 <= Z.lxor x y < 2 ^ n.
Proof.
  intros Hn Hx Hy.
  replace (Z.lxor x y) with (Z.lxor x y mod 2 ^ n); [apply Z.mod_pos_bound; lia|].
  apply Z.bits_inj'. intros i Hi. destruct (Z_lt_le_dec i n).
  - by rewrite Z.mod_pow2_bits_low by lia.
  - rewrite Z.mod_pow2_bits_high by lia.
    by rewrite Z.lxor_spec, !(testbit_high _ n) by lia.
Qed.

Lemma land_bound_r n x y :
  0 <= n -> 0 <= y < 2 ^ n -> 0 <= Z.land x y < 2 ^ n.
Proof. rewrite Z.land_comm. apply land_bound. Qed.

Lemma shiftr_bound n x k :
  0 <= k -> 0 <= x < 2 ^ n -> 0 <= Z.shiftr x k < 2 ^ n.
Proof.
  intros Hk Hx. rewrite Z.shiftr_div_pow2 by lia.
  assert (0 < 2 ^ k) by (apply Z.pow_pos_nonneg; lia).
  split; [by apply Z.div_pos; lia|].
  apply Z.le_lt_trans with x; [|lia]. apply Z.div_le_upper_bound; nia.
Qed.

Lemma land_byte v : is_u8 (Z.land v 255).
Proof.
  unfold is_u8. change 255 with (Z.ones 8).
  rewrite Z.land_ones by lia. apply Z.mod_pos_bound. lia.
Qed.

#[export] Hint Resolve land_byte : cint.

(** The rewriting system that computes a bit of a bitwise expression. *)
#[export] Hint Rewrite Z.land_spec Z.lor_spec Z.lxor_spec Z.ldiff_spec
  Z.testbit_0_l andb_true_r andb_false_r orb_false_r orb_true_r
  andb_true_l andb_false_l orb_false_l orb_true_l : bits.
#[export] Hint Rewrite Z.shiftr_spec Z.lnot_spec testbit_u32 testbit_shiftl1
  testbit_pow2 using lia : bits.

(** [bitwise i] turns an equation between integers into one on the [i]-th bit
    and normalises it. *)
Ltac bitwise i :=
  apply Z.bits_inj'; intros i ?; autorewrite with bits; try btauto.

(** C's [v & ~m] on a 32-bit word. *)
Lemma land_not32 v m : is_u32 v -> Z.land v (not32 m) = Z.land v (Z.lnot m).
Proof.
  intros Hv. unfold not32. bitwise i. destruct (Z.ltb_spec i 32); [btauto|].
  by rewrite (testbit_high v 32) by (first [exact Hv|lia]).
Qed.

(** ** Lemmas on byte sequences *)

Lemma byte_at v k : 0 <= k -> Z.land (Z.shiftr v k) 255 = (v / 2 ^ k) mod 2 ^ 8.
Proof.
  intros Hk. change 255 with (Z.ones 8).
  by rewrite Z.land_ones, Z.shiftr_div_pow2 by lia.
Qed.

Lemma byte_at_0 v : Z.land v 255 = v mod 2 ^ 8.
Proof. change 255 with (Z.ones 8). by rewrite Z.land_ones. Qed.

(** Encoding then decoding a 32-bit word is the identity on its low bits. *)
Lemma le_word_le32 v : le_word (le32 v) = u32 v.
Proof.
  unfold le32. cbn [le_word]. rewrite !byte_at, byte_at_0 by lia.
  unfold u32. change (2 ^ 16) with (2 ^ 8 * 2 ^ 8).
  change (2 ^ 24) with (2 ^ 8 * 2 ^ 8 * 2 ^ 8).
  rewrite <- !Z.div_div by lia.
  Z.div_mod_to_equations. lia.
Qed.

Lemma le32_length v : length (le32 v) = 4%nat.
Proof. done. Qed.

Lemma le32_bytes v : Forall is_u8 (le32 v).
Proof. unfold le32. repeat constructor; apply land_byte. Qed.

(** A word is determined by its encoding. *)
Lemma le32_inj v w : is_u32 v -> is_u32 w -> le32 v = le32 w -> v = w.
Proof.
  intros Hv Hw H. rewrite <- (u32_small v), <- (u32_small w) by done.
  by rewrite <- !le_word_le32, H.
Qed.

Lemma le_word_bound bs :
  Forall is_u8 bs -> 0 <= le_word bs < 2 ^ (8 * Z.of_nat (length bs)).
Proof.
  induction 1 as [|b bs Hb _ IH]; [by cbn; lia|].
  cbn [le_word length]. rewrite Nat2Z.inj_succ.
  replace (8 * Z.succ (Z.of_nat (length bs)))
    with (8 + 8 * Z.of_nat (length bs)) by lia.
  rewrite Z.pow_add_r by lia. unfold is_u8 in Hb. nia.
Qed.

Lemma le_word_inj a b :
  Forall is_u8 a -> Forall is_u8 b -> length a = length b -> le_word a = le_word b -> a = b.
Proof.
  intros Ha. revert b. induction Ha as [|x a Hx Ha IH]; intros b Hb Hl He;
    destruct Hb as [|y b Hy Hb]; try done.
  cbn [le_word length] in *. unfold is_u8 in *.
  assert (x = y /\ le_word a = le_word b) as [-> He'] by lia. f_equal. apply IH; [done|lia|done].
Qed.

Lemma slice_app_mid {A} (l1 l2 l3 : list A) o n :
  o = length l1 -> n = length l2 -> slice o n (l1 ++ l2 ++ l3) = l2.
Proof.
  intros -> ->. unfold slice. by rewrite drop_app_length, take_app_length.
Qed.

#[export] Hint Rewrite @length_app @length_replicate @length_take @length_drop
  @length_insert @length_map @length_fmap @length_seqZ : lens.

(** Goals about list lengths, after pushing [length] inwards. *)
Ltac lens := autorewrite with lens in *; simpl length in *; try lia.

(** A loop that runs [body] for [i = lo .. hi - 1], threading a state. *)
Definition for_Z {S} (lo hi : Z) (body : Z -> S -> S) (s : S) : S :=
  foldl (fun s i => body i s) s (seqZ lo (hi - lo)).

Lemma for_Z_nil {S} lo hi (body : Z -> S -> S) s : hi <= lo -> for_Z lo hi body s = s.
Proof. intros H. unfold for_Z. by rewrite seqZ_nil by lia. Qed.

Lemma for_Z_step {S} lo hi (body : Z -> S -> S) s :
  lo < hi -> for_Z lo hi body s = for_Z (lo + 1) hi body (body lo s).
Proof.
  intros H. unfold for_Z. rewrite (seqZ_cons lo) by lia. simpl.
  by replace (hi - (lo + 1)) with (Z.pred (hi - lo)) by lia.
Qed.

(** ** Bit fields *)

(** The [w]-bit field of [v] at bit [sh], and [v] with [x] stored in it. *)
Definition bits_get (w sh v : Z) : Z := Z.land (Z.shiftr v sh) (Z.ones w).
Definition bits_put (w sh v x : Z) : Z :=
  Z.lor (Z.land v (Z.lnot (Z.shiftl (Z.ones w) sh))) (Z.shiftl x sh).

Section BitFields.

Lemma testbit_ones_shift w sh i :
  0 <= w -> 0 <= sh -> 0 <= i ->
  Z.testbit (Z.shiftl (Z.ones w) sh) i = (sh <=? i) && (i <? sh + w).
Proof.
  intros Hw Hs Hi. rewrite Z.shiftl_spec by lia.
  destruct (Z.leb_spec sh i); [|by rewrite Z.testbit_neg_r by lia].
  rewrite Z.testbit_ones by lia. cbn [andb].
  destruct (Z.leb_spec 0 (i - sh)), (Z.ltb_spec (i - sh) w), (Z.ltb_spec i (sh + w)); lia.
Qed.

Lemma bits_put_testbit w sh v x i :
  0 <= w -> 0 <= sh -> 0 <= x < 2 ^ w -> 0 <= i ->
  Z.testbit (bits_put w sh v x) i =
    if (sh <=? i) && (i <? sh + w) then Z.testbit x (i - sh) else Z.testbit v i.
Proof.
  intros Hw Hs Hx Hi. unfold bits_put.
  rewrite Z.lor_spec, Z.land_spec, Z.lnot_spec, testbit_ones_shift, Z.shiftl_spec by lia.
  destruct (Z.leb_spec sh i); cbn [andb].
  - destruct (Z.ltb_spec i (sh + w)); cbn [negb].
    + by rewrite andb_false_r.
    + rewrite (testbit_high x w) by lia. by rewrite andb_true_r, orb_false_r.
  - rewrite (Z.testbit_neg_r x) by lia. by rewrite andb_true_r, orb_false_r.
Qed.

Lemma bits_get_testbit w sh v i :
  0 <= w -> 0 <= i -> Z.testbit (bits_get w sh v) i = (i <? w) && Z.testbit v (i + sh).
Proof.
  intros Hw Hi. unfold bits_get.
  rewrite Z.land_spec, Z.shiftr_spec, Z.testbit_ones by lia.
  destruct (Z.leb_spec 0 i), (Z.ltb_spec i w); try lia; btauto.
Qed.

Lemma bits_get_range w sh v : 0 <= w -> 0 <= bits_get w sh v < 2 ^ w.
Proof.
  intros Hw. unfold bits_get. rewrite Z.land_ones by lia.
  apply Z.mod_pos_bound, Z.pow_pos_nonneg; lia.
Qed.

Lemma bits_get_put w sh v x :
  0 <= w -> 0 <= sh -> 0 <= x < 2 ^ w -> bits_get w sh (bits_put w sh v x) = x.
Proof.
  intros Hw Hs Hx. apply Z.bits_inj'. intros i Hi.
  rewrite bits_get_testbit by lia. destruct (Z.ltb_spec i w).
  - rewrite bits_put_testbit by lia.
    destruct (Z.leb_spec sh (i + sh)), (Z.ltb_spec (i + sh) (sh + w)); try lia.
    cbn [andb]. f_equal. lia.
  - by rewrite (testbit_high x w) by lia.
Qed.

Lemma bits_get_put_ne w sh v x w' sh' :
  0 <= w -> 0 <= sh -> 0 <= w' -> 0 <= sh' -> 0 <= x < 2 ^ w ->
  sh + w <= sh' \/ sh' + w' <= sh ->
  bits_get w' sh' (bits_put w sh v x) = bits_get w' sh' v.
Proof.
  intros Hw Hs Hw' Hs' Hx Hd. apply Z.bits_inj'. intros i Hi.
  rewrite !bits_get_testbit by lia. destruct (Z.ltb_spec i w'); [|done]. cbn [andb].
  rewrite bits_put_testbit by lia.
  destruct (Z.leb_spec sh (i + sh')), (Z.ltb_spec (i + sh') (sh + w)); try lia; done.
Qed.

Lemma bits_put_range n w sh v x :
  0 <= w -> 0 <= sh -> sh + w <= n -> 0 <= v < 2 ^ n -> 0 <= x < 2 ^ w ->
  0 <= bits_put w sh v x < 2 ^ n.
Proof.
  intros Hw Hs Hn Hv Hx. unfold bits_put. apply lor_bound; [lia| |].
  - apply land_bound; lia.
  - rewrite Z.shiftl_mul_pow2 by lia. split; [nia|].
    apply Z.lt_le_trans with (2 ^ w * 2 ^ sh).
    + apply Z.mul_lt_mono_pos_r; [|lia]. apply Z.pow_pos_nonneg; lia.
    + rewrite <- Z.pow_add_r by lia. apply Z.pow_le_mono_r; lia.
Qed.

(** A field that is out of the stored value's way is all that a store can lose. *)
Lemma bits_put_get w sh v :
  0 <= w -> 0 <= sh -> bits_put w sh v (bits_get w sh v) = v.
Proof.
  intros Hw Hs. apply Z.bits_inj'. intros i Hi.
  rewrite bits_put_testbit by (try lia; apply bits_get_range; lia).
  destruct (Z.leb_spec sh i), (Z.ltb_spec i (sh + w)); try done. cbn [andb].
  rewrite bits_get_testbit by lia. destruct (Z.ltb_spec (i - sh) w); [|lia].
  cbn [andb]. f_equal. lia.
Qed.

Lemma bits_get_1 sh v : 0 <= sh -> bits_get 1 sh v = Z.b2z (Z.testbit v sh).
Proof.
  intros Hs. unfold bits_get. rewrite Z.land_ones by lia.
  change (2 ^ 1) with 2. rewrite <- Z.bit0_mod, Z.shiftr_spec by lia. done.
Qed.
End BitFields.
