(* ===== verification/Machine.v ===== *)
(** The machine a bare-metal program runs on, and the monad its C code is
    translated into.

    A program sees a device only through volatile loads and stores of 32-bit
    registers and through the [mrs]/[msr] instructions.  What a device answers
    is not part of the program, so it is the interface [Machine]: every model
    is proved for every device, or for every device with the documented
    behaviour a law class states.  A run yields the value, the final state and
    the list of accesses it made, oldest first; a run that spins for ever, that
    exhausts the fuel of a polling loop or that meets undefined behaviour stops
    with that reason and with the accesses made so far. *)

From S2P Require Import Prelude.

(** The AArch64 system registers the programs name. *)
Inductive sysreg :=
  | CurrentEL | HCR_EL2 | SCTLR_EL2 | MPIDR_EL1
  | PMCNTENSET_EL0 | PMCR_EL0 | PMCCNTR_EL0 | DAIFSet | DAIFClr.

#[global] Instance sysreg_eq_dec : EqDecision sysreg.
Proof. solve_decision. Defined.

(** Where a program that runs under an operating system sends bytes: a standard
    stream, a file it opened by name, an endpoint of a USB device. *)
Inductive port :=
  | Stdout
  | Stderr
  | ToFile (name : list Z)
  | Bulk (ep : Z).

#[global] Instance port_eq_dec : EqDecision port.
Proof. solve_decision. Defined.

(** One access of the program to the hardware, or to the world outside. *)
Inductive event :=
  | ERd (a v : Z)
  | EWr (a v : Z)
  | EMrs (r : sysreg) (v : Z)
  | EMsr (r : sysreg) (v : Z)
  | EIsb
  | EOut (p : port) (bs : list Z).

#[global] Instance event_eq_dec : EqDecision event.
Proof. solve_decision. Defined.

(** What the hardware does on an access; [D] is its state. *)
Class Machine (D : Type) := {
  hw_rd : Z -> D -> Z * D;
  hw_wr : Z -> Z -> D -> D;
  hw_mrs : sysreg -> D -> Z * D;
  hw_msr : sysreg -> Z -> D -> D;
}.

(** Why a run does not return: it spins for ever, a polling loop exhausts its
    fuel, the behaviour is undefined, the process exits with a code. *)
Inductive stop := Spin | NoFuel | Undef | Exit (code : Z).

Record st (D G : Type) := St { dev : D; glb : G }.
Arguments St {D G} _ _.
Arguments dev {D G} _.
Arguments glb {D G} _.

Inductive outcome (D G A : Type) :=
  | Ok (a : A) (s : st D G) (t : list event)
  | Stop (w : stop) (s : st D G) (t : list event).
Arguments Ok {D G A} _ _ _.
Arguments Stop {D G A} _ _ _.

Definition prog (D G A : Type) : Type := st D G -> outcome D G A.

Section Monad.
Context {D G : Type}.

Definition ret {A} (a : A) : prog D G A := fun s => Ok a s [].

Definition halt {A} (w : stop) : prog D G A := fun s => Stop w s [].

Definition bind {A B} (m : prog D G A) (f : A -> prog D G B) : prog D G B :=
  fun s =>
    match m s with
    | Ok a s1 t1 =>
        match f a s1 with
        | Ok b s2 t2 => Ok b s2 (t1 ++ t2)
        | Stop w s2 t2 => Stop w s2 (t1 ++ t2)
        end
    | Stop w s1 t1 => Stop w s1 t1
    end.

(** The program's global variables. *)
Definition gget : prog D G G := fun s => Ok (glb s) s [].
Definition gput (g : G) : prog D G unit := fun s => Ok tt (St (dev s) g) [].

(** Output of bytes. *)
Definition output (p : port) (bs : list Z) : prog D G unit := fun s => Ok tt s [EOut p bs].
End Monad.

Declare Scope prog_scope.
Delimit Scope prog_scope with prog.
Open Scope prog_scope.
Notation "x <-- m ;; k" := (bind m (fun x => k))
  (at level 100, m at next level, right associativity) : prog_scope.
Notation "m ;;; k" := (bind m (fun _ => k))
  (at level 100, right associativity) : prog_scope.

Section Ops.
Context {D G : Type} `{Machine D}.

(** A volatile 32-bit load and store: a register holds a 32-bit word. *)
Definition rd32 (a : Z) : prog D G Z := fun s =>
  let '(v, d) := hw_rd a (dev s) in Ok (u32 v) (St d (glb s)) [ERd a (u32 v)].

Definition wr32 (a v : Z) : prog D G unit := fun s =>
  Ok tt (St (hw_wr a (u32 v) (dev s)) (glb s)) [EWr a (u32 v)].

Definition mrs (r : sysreg) : prog D G Z := fun s =>
  let '(v, d) := hw_mrs r (dev s) in Ok (u64 v) (St d (glb s)) [EMrs r (u64 v)].

Definition msr (r : sysreg) (v : Z) : prog D G unit := fun s =>
  Ok tt (St (hw_msr r (u64 v) (dev s)) (glb s)) [EMsr r (u64 v)].

Definition isb : prog D G unit := fun s => Ok tt s [EIsb].

(** [while ( reg & mask ) ;] and [while ( ! (reg & mask) ) ;] *)
Fixpoint poll_while_set (fuel : nat) (a mask : Z) : prog D G unit :=
  match fuel with
  | O => halt NoFuel
  | S n =>
      v <-- rd32 a ;;
      if Z.land v mask =? 0 then ret tt else poll_while_set n a mask
  end.

Fixpoint poll_while_clear (fuel : nat) (a mask : Z) : prog D G unit :=
  match fuel with
  | O => halt NoFuel
  | S n =>
      v <-- rd32 a ;;
      if Z.land v mask =? 0 then poll_while_clear n a mask else ret tt
  end.

(** [for ( i=lo; i<hi; i++ ) body] with the body run in order. *)
Fixpoint each (ks : list Z) (body : Z -> prog D G unit) : prog D G unit :=
  match ks with
  | [] => ret tt
  | i :: r => body i ;;; each r body
  end.

Definition for_each (lo hi : Z) (body : Z -> prog D G unit) : prog D G unit :=
  each (seqZ lo (hi - lo)) body.
End Ops.

(** ** Register blocks

    A block is a C struct of 32-bit words and byte padding: its fields in
    order, with the number of bytes of each.  The address of a field is
    computed from the struct, as the compiler does. *)
Record field := Field { fname : string; fsize : Z }.

Definition words (n : string) (k : Z) : field := Field n (4 * k).
Definition word (n : string) : field := words n 1.

Fixpoint offsetof_from (o : Z) (fs : list field) (n : string) : option Z :=
  match fs with
  | [] => None
  | f :: r => if decide (fname f = n) then Some o else offsetof_from (o + fsize f) r n
  end.

(** Offset of a field; a field the struct does not have gets [-1]. *)
Definition offsetof (fs : list field) (n : string) : Z :=
  default (-1) (offsetof_from 0 fs n).

Fixpoint sizeof (fs : list field) : Z :=
  match fs with
  | [] => 0
  | f :: r => fsize f + sizeof r
  end.

(** Number of words of a field, 0 when absent. *)
Fixpoint countof (fs : list field) (n : string) : Z :=
  match fs with
  | [] => 0
  | f :: r => if decide (fname f = n) then fsize f / 4 else countof r n
  end.

(** ** Plain registers

    [Storage plain]: the registers [plain] selects hold the last word stored in
    them; reading one, or storing into another, does not change it. *)
Class Storage (D : Type) `{Machine D} (plain : Z -> bool) := {
  reg : D -> Z -> Z;
  storage_rd : forall a d v d', plain a = true -> hw_rd a d = (v, d') ->
    v = reg d a /\ forall b, plain b = true -> reg d' b = reg d b;
  storage_wr : forall a v d b, plain a = true -> plain b = true -> is_u32 v ->
    reg (hw_wr a v d) b = if b =? a then v else reg d b;
  storage_word : forall a d, plain a = true -> is_u32 (reg d a);
}.

(** A machine all of whose registers are plain; as in the architecture, only
    bits 3:2 of CurrentEL can be set. *)
Record ram := Ram { cells : gmap Z Z; sysregs : sysreg -> Z }.

#[global] Instance ram_machine : Machine ram := {
  hw_rd a d := (u32 (default 0 (cells d !! a)), d);
  hw_wr a v d := Ram (<[a := v]> (cells d)) (sysregs d);
  hw_mrs r d := (if decide (r = CurrentEL) then Z.land (sysregs d r) 12 else sysregs d r, d);
  hw_msr r v d := Ram (cells d) (fun x => if decide (x = r) then v else sysregs d x) }.

#[global] Instance ram_storage plain : Storage ram plain.
Proof.
  refine {| reg d a := u32 (default 0 (cells d !! a)) |}.
  - intros a d v d' _ Hrd. by injection Hrd as <- <-.
  - intros a v d b _ _ Hv. cbn. destruct (Z.eqb_spec b a) as [->|Hne].
    + rewrite lookup_insert_eq. by apply u32_small.
    + by rewrite lookup_insert_ne by done.
  - intros a d _. apply u32_range.
Defined.

(** ** Traces *)

(** The words a run stored in one register, in order. *)
Definition writes_to (a : Z) (t : list event) : list Z :=
  omap (fun e => match e with EWr b v => if a =? b then Some v else None | _ => None end) t.

(** The stores of a run, in order. *)
Definition stores (t : list event) : list (Z * Z) :=
  omap (fun e => match e with EWr b v => Some (b, v) | _ => None end) t.

(** The bytes a run sent to a port, in order. *)
Definition output_to (p : port) (t : list event) : list Z :=
  flat_map (fun e => match e with
    | EOut q bs => if decide (p = q) then bs else []
    | _ => []
    end) t.

(** ** Reasoning about runs *)

(** [returns m s Q]: the run from [s] returns, and [Q] holds of the result. *)
Definition returns {D G A} (m : prog D G A) (s : st D G)
    (Q : A -> st D G -> list event -> Prop) : Prop :=
  match m s with Ok a s' t => Q a s' t | Stop _ _ _ => False end.

(** [ends m s w Q]: the run from [s] stops for the reason [w]. *)
Definition ends {D G A} (m : prog D G A) (s : st D G) (w : stop)
    (Q : st D G -> list event -> Prop) : Prop :=
  match m s with Ok _ _ _ => False | Stop w' s' t => w' = w /\ Q s' t end.

(** [results m s R Q]: the run from [s] returns with [R], or stops with [Q]. *)
Definition results {D G A} (m : prog D G A) (s : st D G)
    (R : A -> st D G -> list event -> Prop) (Q : stop -> st D G -> list event -> Prop) : Prop :=
  match m s with Ok a s' t => R a s' t | Stop w s' t => Q w s' t end.

(** [stops m s Q]: the run from [s] stops. *)
Definition stops {D G A} (m : prog D G A) (s : st D G) (Q : stop -> st D G -> list event -> Prop) : Prop :=
  results m s (fun _ _ _ => False) Q.

(** Programs equal on every state. *)
Definition prog_eq {D G A} (m n : prog D G A) : Prop := forall s, m s = n s.
Infix "≈" := prog_eq (at level 70, no associativity) : prog_scope.

Section Laws.
Context {D G : Type}.

#[global] Instance prog_eq_equiv {A} : Equivalence (@prog_eq D G A).
Proof.
  split; [done|by intros x y Hxy s|].
  intros x y z Hxy Hyz s. by rewrite Hxy.
Qed.

#[global] Instance bind_proper {A B} :
  Proper (prog_eq ==> pointwise_relation A prog_eq ==> prog_eq) (@bind D G A B).
Proof.
  intros m n Hmn f g Hfg s. unfold bind. rewrite Hmn.
  destruct (n s) as [a s1 t1|]; [|done]. by rewrite Hfg.
Qed.

#[global] Instance returns_proper {A} :
  Proper (prog_eq ==> eq ==> eq ==> iff) (@returns D G A).
Proof. intros m n Hmn s ? <- Q ? <-. unfold returns. by rewrite Hmn. Qed.

#[global] Instance stops_proper {A} :
  Proper (prog_eq ==> eq ==> eq ==> iff) (@stops D G A).
Proof. intros m n Hmn s ? <- Q ? <-. unfold stops, results. by rewrite Hmn. Qed.

Lemma bind_ret_l {A B} (a : A) (f : A -> prog D G B) : bind (ret a) f ≈ f a.
Proof. intros s. unfold bind, ret. by destruct (f a s). Qed.

Lemma bind_ret_r {A} (m : prog D G A) : bind m ret ≈ m.
Proof.
  intros s. unfold bind, ret. destruct (m s); [|done]. by rewrite app_nil_r.
Qed.

Lemma bind_assoc {A B C} (m : prog D G A) (f : A -> prog D G B) (g : B -> prog D G C) :
  bind (bind m f) g ≈ bind m (fun a => bind (f a) g).
Proof.
  intros s. unfold bind. destruct (m s) as [a s1 t1|]; [|done].
  destruct (f a s1) as [b s2 t2|]; [|done].
  destruct (g b s2); by rewrite app_assoc.
Qed.

(** Stepping over a run known to make no access. *)
Lemma bind_quiet {A B} (m : prog D G A) (f : A -> prog D G B) s a s1 :
  m s = Ok a s1 [] -> bind m f s = f a s1.
Proof. unfold bind. intros ->. by destruct (f a s1). Qed.

(** The rule of sequencing: traces concatenate. *)
Lemma returns_bind {A B} (m : prog D G A) (f : A -> prog D G B) s Q :
  returns m s (fun a s1 t1 => returns (f a) s1 (fun b s2 t2 => Q b s2 (t1 ++ t2))) ->
  returns (bind m f) s Q.
Proof.
  unfold returns, bind. destruct (m s) as [a s1 t1|]; [|done].
  by destruct (f a s1).
Qed.

Lemma returns_weaken {A} (m : prog D G A) s (P Q : A -> st D G -> list event -> Prop) :
  returns m s P -> (forall a s' t, P a s' t -> Q a s' t) -> returns m s Q.
Proof. unfold returns. destruct (m s); eauto. Qed.

Lemma ends_weaken {A} (m : prog D G A) s w (P Q : st D G -> list event -> Prop) :
  ends m s w P -> (forall s' t, P s' t -> Q s' t) -> ends m s w Q.
Proof. unfold ends. destruct (m s); [done|]. intros [-> HP] HPQ. eauto. Qed.

Lemma returns_ret {A} (a : A) s (Q : A -> st D G -> list event -> Prop) :
  Q a s [] -> returns (ret a) s Q.
Proof. done. Qed.

Lemma ends_bind_l {A B} (m : prog D G A) (f : A -> prog D G B) s w Q :
  ends m s w Q -> ends (bind m f) s w Q.
Proof. unfold ends, bind. by destruct (m s). Qed.

Lemma ends_bind {A B} (m : prog D G A) (f : A -> prog D G B) s w Q :
  returns m s (fun a s1 t1 => ends (f a) s1 w (fun s2 t2 => Q s2 (t1 ++ t2))) ->
  ends (bind m f) s w Q.
Proof.
  unfold ends, returns, bind. destruct (m s) as [a s1 t1|]; [|done].
  by destruct (f a s1).
Qed.

Lemma results_returns {A} (m : prog D G A) s R Q : returns m s R -> results m s R Q.
Proof. unfold returns, results. by destruct (m s). Qed.

Lemma results_bind {A B} (m : prog D G A) (f : A -> prog D G B) s R Q :
  results m s (fun a s1 t1 => results (f a) s1 (fun b s2 t2 => R b s2 (t1 ++ t2)) (fun w s2 t2 => Q w s2 (t1 ++ t2))) Q ->
  results (bind m f) s R Q.
Proof.
  unfold results, bind. destruct (m s) as [a s1 t1|]; [|done]. by destruct (f a s1).
Qed.

Lemma results_weaken {A} (m : prog D G A) s (R R' : A -> st D G -> list event -> Prop) (Q Q' : stop -> st D G -> list event -> Prop) :
  results m s R Q -> (forall a s' t, R a s' t -> R' a s' t) -> (forall w s' t, Q w s' t -> Q' w s' t) -> results m s R' Q'.
Proof. unfold results. destruct (m s); eauto. Qed.

Lemma stops_weaken {A} (m : prog D G A) s (P Q : stop -> st D G -> list event -> Prop) :
  stops m s P -> (forall w s' t, P w s' t -> Q w s' t) -> stops m s Q.
Proof. intros HP HPQ. by eapply results_weaken. Qed.

Lemma results_each (body : Z -> prog D G unit) ks s (I : st D G -> list event -> Prop) (Q : stop -> st D G -> list event -> Prop) :
  I s [] ->
  (forall i s1 t1, I s1 t1 -> results (body i) s1 (fun _ s2 t2 => I s2 (t1 ++ t2)) (fun w s2 t2 => Q w s2 (t1 ++ t2))) ->
  results (each ks body) s (fun _ s' t => I s' t) Q.
Proof.
  intros H0 Hstep.
  enough (Hg : forall s1 t1, I s1 t1 -> results (each ks body) s1 (fun _ s' t => I s' (t1 ++ t)) (fun w s' t => Q w s' (t1 ++ t)))
    by exact (Hg s [] H0).
  induction ks as [|i ks IH]; intros s1 t1 HI; simpl.
  - apply results_returns, returns_ret. by rewrite app_nil_r.
  - apply results_bind. eapply results_weaken; [by apply Hstep| |done]. cbn beta. intros _ s2 t2 HI2.
    eapply results_weaken; [by apply (IH s2 (t1 ++ t2))| |]; cbn beta; intros ? s3 t3; by rewrite <- app_assoc.
Qed.

Lemma each_app (body : Z -> prog D G unit) ks js :
  each (ks ++ js) body ≈ (each ks body ;;; each js body).
Proof.
  induction ks as [|i ks IH]; simpl; [by rewrite bind_ret_l|].
  rewrite bind_assoc. f_equiv. intros _. apply IH.
Qed.

(** Loop rule: an invariant on the indices done so far and the trace. *)
Lemma returns_each (body : Z -> prog D G unit) ks s
    (I : list Z -> st D G -> list event -> Prop) :
  I [] s [] ->
  (forall done i rest s1 t1, ks = done ++ i :: rest -> I done s1 t1 ->
     returns (body i) s1 (fun _ s2 t2 => I (done ++ [i]) s2 (t1 ++ t2))) ->
  returns (each ks body) s (fun _ s' t => I ks s' t).
Proof.
  intros H0 Hstep.
  enough (Hg : forall done rest s1 t1, ks = done ++ rest -> I done s1 t1 ->
    returns (each rest body) s1 (fun _ s' t => I ks s' (t1 ++ t)))
    by exact (Hg [] ks s [] eq_refl H0).
  intros done rest. revert done. induction rest as [|i rest IH];
    intros done s1 t1 His HI; simpl.
  - rewrite app_nil_r in His. subst. apply returns_ret. by rewrite app_nil_r.
  - apply returns_bind. eapply returns_weaken; [by eapply Hstep|].
    intros u s2 t2 HI2. eapply returns_weaken.
    + apply (IH (done ++ [i]) s2 (t1 ++ t2)); [by rewrite <- app_assoc|exact HI2].
    + intros u3 s3 t3. cbn. by rewrite <- app_assoc.
Qed.
End Laws.

Lemma returns_gget {D G} (s : st D G) (Q : G -> st D G -> list event -> Prop) :
  Q (glb s) s [] -> returns gget s Q.
Proof. done. Qed.

Lemma returns_gput {D G} g (s : st D G) (Q : unit -> st D G -> list event -> Prop) :
  Q tt (St (dev s) g) [] -> returns (gput g) s Q.
Proof. done. Qed.

Lemma returns_output {D G} p bs (s : st D G) (Q : unit -> st D G -> list event -> Prop) :
  Q tt s [EOut p bs] -> returns (output p bs) s Q.
Proof. done. Qed.

Section OpLaws.
Context {D G : Type} `{Machine D}.

Lemma returns_wr32 a v s (Q : unit -> st D G -> list event -> Prop) :
  Q tt (St (hw_wr a (u32 v) (dev s)) (glb s)) [EWr a (u32 v)] ->
  returns (wr32 a v) s Q.
Proof. done. Qed.

Lemma returns_rd32 a s (Q : Z -> st D G -> list event -> Prop) :
  (forall v d, hw_rd a (dev s) = (v, d) -> Q (u32 v) (St d (glb s)) [ERd a (u32 v)]) ->
  returns (rd32 a) s Q.
Proof.
  unfold returns, rd32. destruct (hw_rd a (dev s)) as [v d]. intros HQ.
  by apply (HQ v d).
Qed.

Lemma returns_msr r v s (Q : unit -> st D G -> list event -> Prop) :
  Q tt (St (hw_msr r (u64 v) (dev s)) (glb s)) [EMsr r (u64 v)] ->
  returns (msr r v) s Q.
Proof. done. Qed.

Lemma returns_isb s (Q : unit -> st D G -> list event -> Prop) :
  Q tt s [EIsb] -> returns isb s Q.
Proof. done. Qed.

Lemma returns_mrs r s (Q : Z -> st D G -> list event -> Prop) :
  (forall v d, hw_mrs r (dev s) = (v, d) -> Q (u64 v) (St d (glb s)) [EMrs r (u64 v)]) ->
  returns (mrs r) s Q.
Proof.
  unfold returns, mrs. destruct (hw_mrs r (dev s)) as [v d]. intros HQ.
  by apply (HQ v d).
Qed.
End OpLaws.

Section StorageLaws.
Context {D G : Type} `{Storage D plain}.

(** A load of a plain register yields its word and changes no plain register. *)
Lemma returns_rd32_plain a (s : st D G) (Q : Z -> st D G -> list event -> Prop) :
  plain a = true ->
  (forall d, (forall b, plain b = true -> reg d b = reg (dev s) b) ->
     Q (reg (dev s) a) (St d (glb s)) [ERd a (reg (dev s) a)]) ->
  returns (rd32 a) s Q.
Proof.
  intros Ha HQ. apply returns_rd32. intros v d Hrd.
  destruct (storage_rd a (dev s) v d Ha Hrd) as [-> Hb].
  rewrite u32_small by by apply storage_word. by apply HQ.
Qed.

(** A store to a plain register changes it and no other. *)
Lemma returns_wr32_plain a v (s : st D G) (Q : unit -> st D G -> list event -> Prop) :
  plain a = true ->
  (forall d, (forall b, plain b = true ->
       reg d b = if b =? a then u32 v else reg (dev s) b) ->
     Q tt (St d (glb s)) [EWr a (u32 v)]) ->
  returns (wr32 a v) s Q.
Proof.
  intros Ha HQ. apply returns_wr32, HQ. intros b Hb.
  apply storage_wr; [done|done|apply u32_range].
Qed.
End StorageLaws.

Lemma writes_to_app a t1 t2 : writes_to a (t1 ++ t2) = writes_to a t1 ++ writes_to a t2.
Proof. unfold writes_to. by rewrite omap_app. Qed.

Lemma stores_app t1 t2 : stores (t1 ++ t2) = stores t1 ++ stores t2.
Proof. unfold stores. by rewrite omap_app. Qed.

Lemma output_to_app p t1 t2 : output_to p (t1 ++ t2) = output_to p t1 ++ output_to p t2.
Proof. apply flat_map_app. Qed.

Lemma output_to_here p bs t : output_to p (EOut p bs :: t) = bs ++ output_to p t.
Proof. unfold output_to. cbn. by rewrite decide_True. Qed.

Lemma output_to_std p bs t :
  (match p with Stdout | Stderr => True | _ => False end) ->
  forall n, output_to (ToFile n) (EOut p bs :: t) = output_to (ToFile n) t.
Proof. intros Hp n. unfold output_to. cbn. by rewrite decide_False by (intros <-; done). Qed.

Create Rewrite HintDb trace.
#[export] Hint Rewrite writes_to_app stores_app output_to_app output_to_here : trace.
#[export] Hint Rewrite output_to_std using exact I : trace.

(** [go] steps through the sequencing rules of a run. *)
Ltac go1 :=
  match goal with
  | |- returns (bind _ _) _ _ => apply returns_bind
  | |- returns (wr32 _ _) _ _ => apply returns_wr32
  | |- returns (rd32 _) _ _ => apply returns_rd32; intros ?v ?d ?Hrd
  | |- returns (mrs _) _ _ => apply returns_mrs; intros ?v ?d ?Hrd
  | |- returns (msr _ _) _ _ => apply returns_msr
  | |- returns isb _ _ => apply returns_isb
  | |- returns (output _ _) _ _ => apply returns_output
  | |- returns (ret _) _ _ => apply returns_ret
  | |- returns (gput _) _ _ => apply returns_gput
  | |- returns gget _ _ => apply returns_gget
  end; cbn [dev glb app].
Ltac go := repeat go1.

(** Class instances are found by the shape of a run, never by computing it. *)
#[global] Typeclasses Opaque ret halt bind gget gput output rd32 wr32 mrs msr isb
  poll_while_set poll_while_clear each for_each.
