(* ===== verification/Serial.v ===== *)
(** The console UART driver shared by the Timer and Hello1 programs
    (src/Timer/serial.c, src/Hello1/serial.c): the register block, the
    blocking character output and input, and the interface [UartReady] that
    states what the output path needs of the hardware. *)

From S2P Require Import Prelude Machine.

(** [struct serial] *)
Definition serial : list field :=
  [word "lcon"; word "con"; word "fcon"; word "mcon"; word "status";
   word "re_stat"; word "fstat"; word "mstat"; word "txh"; word "rxh";
   word "brdiv"; word "fract"; word "intp"; word "ints"; word "intm"].

(** The six UARTs, the console first. *)
Definition uart_base : list Z :=
  [0xC00a1000; 0xC00a0000; 0xC00a2000; 0xC00a3000; 0xC006d000; 0xC006f000].

Definition CONSOLE_BASE : Z := 0xC00a1000.
Definition FIFO_FULL : Z := 0x01000000.
Definition RX_FIFO_COUNT : Z := 0x0000007f.

(** Address of a console register, [&up->n]. *)
Definition up (n : string) : Z := CONSOLE_BASE + offsetof serial n.

Definition FSTAT : Z := Eval vm_compute in up "fstat".
Definition TXH : Z := Eval vm_compute in up "txh".
Definition RXH : Z := Eval vm_compute in up "rxh".

Section Driver.
Context {D G : Type} `{Machine D}.
(** Number of status reads after which a polling loop is given up. *)
Context (fuel : nat).

Definition serial_init : prog D G unit := ret tt.

(** The body of [serial_putc], the recursive call abstracted. *)
Definition serial_putc_body (self : Z -> prog D G unit) (c : Z) : prog D G unit :=
  (if c =? 10 then self 13 else ret tt) ;;;
  poll_while_set fuel FSTAT FIFO_FULL ;;;
  wr32 TXH c.

(** The recursive call is made on a carriage return, which makes none. *)
Definition serial_putc : Z -> prog D G unit :=
  serial_putc_body (serial_putc_body (fun _ => halt NoFuel)).

Definition serial_getc : prog D G Z :=
  poll_while_clear fuel FSTAT RX_FIFO_COUNT ;;;
  v <-- rd32 RXH ;;
  ret (Z.land v 0xff).
End Driver.

(** ** What the transmitter is relied on for

    [tx_busy] is how many more times the status register will read as full;
    it decreases with every read and never exceeds [tx_bound]. *)
Class UartReady (D : Type) `{Machine D} := {
  tx_busy : D -> nat;
  tx_bound : nat;
  tx_busy_bound : forall d, (tx_busy d <= tx_bound)%nat;
  tx_idle_reads_free : forall d v d',
    hw_rd FSTAT d = (v, d') -> tx_busy d = 0%nat -> Z.land (u32 v) FIFO_FULL = 0;
  tx_drains : forall d v d',
    hw_rd FSTAT d = (v, d') -> tx_busy d <> 0%nat -> (tx_busy d' < tx_busy d)%nat;
}.

(** What the receiver is relied on for: the characters waiting, oldest first. *)
Class UartRx (D : Type) `{Machine D} := {
  rx_queue : D -> list Z;
  rx_status : forall d v d',
    hw_rd FSTAT d = (v, d') -> rx_queue d' = rx_queue d /\
    Z.land (u32 v) RX_FIFO_COUNT = Z.min (Z.of_nat (length (rx_queue d))) 127;
  rx_pop : forall d c r, rx_queue d = c :: r ->
    exists v d', hw_rd RXH d = (v, d') /\ Z.land (u32 v) 0xff = c /\ rx_queue d' = r;
}.

(** ** A simulated console: a transmitter that is busy for a few reads after
    every character, and a queue of received characters. *)
Record uart_sim := UartSim { sim_busy : nat; sim_rx : list Z; sim_tx : list Z }.

#[global] Instance uart_sim_machine : Machine uart_sim := {
  hw_rd a d :=
    if a =? FSTAT then
      ((if (sim_busy d =? 0)%nat then 0 else FIFO_FULL)
         + Z.min (Z.of_nat (length (sim_rx d))) 127,
       UartSim (pred (Nat.min (sim_busy d) 3)) (sim_rx d) (sim_tx d))
    else if a =? RXH then
      match sim_rx d with
      | [] => (0, d)
      | c :: r => (c, UartSim (sim_busy d) r (sim_tx d))
      end
    else (0, d);
  hw_wr a v d :=
    if a =? TXH then UartSim 3 (sim_rx d) (sim_tx d ++ [v]) else d;
  hw_mrs _ d := (0, d);
  hw_msr _ _ d := d }.

(** ** What a run did

    [sent] is what it sent to the console; [effects] everything else it did to
    the machine, in order: stores to other registers and system register
    writes. *)
Definition sent (t : list event) : list Z := writes_to TXH t.

Definition effects (t : list event) : list event :=
  omap (fun e => match e with
    | ERd _ _ | EMrs _ _ => None
    | EWr a _ => if a =? TXH then None else Some e
    | EMsr _ _ | EIsb | EOut _ _ => Some e
    end) t.

Lemma sent_app t1 t2 : sent (t1 ++ t2) = sent t1 ++ sent t2.
Proof. apply writes_to_app. Qed.

Lemma effects_app t1 t2 : effects (t1 ++ t2) = effects t1 ++ effects t2.
Proof. unfold effects. by rewrite omap_app. Qed.

Lemma effects_rd a v t : effects (ERd a v :: t) = effects t.
Proof. done. Qed.

Lemma effects_mrs r v t : effects (EMrs r v :: t) = effects t.
Proof. done. Qed.

Lemma effects_msr r v t : effects (EMsr r v :: t) = EMsr r v :: effects t.
Proof. done. Qed.

Lemma effects_wr a v t : (a =? TXH) = false -> effects (EWr a v :: t) = EWr a v :: effects t.
Proof. intros H. unfold effects. simpl. by rewrite H. Qed.

#[export] Hint Rewrite sent_app effects_app effects_rd effects_mrs effects_msr : trace.
#[export] Hint Rewrite effects_wr using reflexivity : trace.

(** The run sent the characters [cs] and did nothing else. *)
Definition says (cs : list Z) (t : list event) : Prop := sent t = cs /\ effects t = [].

Lemma says_app cs ds t1 t2 : says cs t1 -> says ds t2 -> says (cs ++ ds) (t1 ++ t2).
Proof.
  intros [H1 H2] [H3 H4]. unfold says.
  by rewrite sent_app, effects_app, H1, H2, H3, H4.
Qed.

(** ** Results *)

(** The text the console shows for a C text: a newline becomes CR LF. *)
Fixpoint crlf (cs : list Z) : list Z :=
  match cs with
  | [] => []
  | c :: r => if c =? 10 then 13 :: 10 :: crlf r else c :: crlf r
  end.

Lemma crlf_app cs ds : crlf (cs ++ ds) = crlf cs ++ crlf ds.
Proof.
  induction cs as [|c cs IH]; [done|]. simpl. rewrite IH. by destruct (c =? 10).
Qed.

(** Line ends can be recovered when the text itself has no CR. *)
Fixpoint strip_cr (cs : list Z) : list Z :=
  match cs with
  | [] => []
  | c :: r => if c =? 13 then strip_cr r else c :: strip_cr r
  end.

Lemma strip_cr_crlf cs : 13 ∉ cs -> strip_cr (crlf cs) = cs.
Proof.
  induction cs as [|c cs IH]; [done|]. rewrite not_elem_of_cons. intros [Hc Hcs].
  simpl. destruct (Z.eqb_spec c 10) as [->|]; simpl.
  - by rewrite IH.
  - destruct (Z.eqb_spec c 13); [congruence|]. by rewrite IH.
Qed.

Section Facts.
Context {D G : Type} `{Machine D}.

(** The definition is the recursion the C function makes. *)
Lemma serial_putc_unfold fuel c :
  serial_putc (D:=D) (G:=G) fuel c ≈ serial_putc_body fuel (serial_putc fuel) c.
Proof.
  intros s. unfold serial_putc, serial_putc_body. by destruct (c =? 10).
Qed.

Context `{!UartReady D}.

Lemma poll_tx_ready fuel (s : st D G) :
  (tx_busy (dev s) < fuel)%nat ->
  returns (poll_while_set fuel FSTAT FIFO_FULL) s
    (fun _ s' t => glb s' = glb s /\ says [] t).
Proof.
  revert s. induction fuel as [|n IH]; intros s Hn; [lia|].
  cbn [poll_while_set]. go.
  destruct (Z.eqb_spec (Z.land (u32 v) FIFO_FULL) 0) as [Hz|Hnz].
  - by apply returns_ret.
  - assert (Hb : tx_busy (dev s) <> 0%nat)
      by (intros Hb; by apply Hnz, (tx_idle_reads_free _ _ _ Hrd)).
    pose proof (tx_drains _ _ _ Hrd Hb).
    eapply returns_weaken; [apply IH; cbn; lia|]. by cbn.
Qed.

Definition enough (fuel : nat) : Prop := (tx_bound < fuel)%nat.

Lemma putc_raw fuel c (s : st D G) :
  enough fuel ->
  returns (poll_while_set fuel FSTAT FIFO_FULL ;;; wr32 TXH c) s
    (fun _ s' t => glb s' = glb s /\ says [u32 c] t).
Proof.
  intros Hf. go. pose proof (tx_busy_bound (dev s)). unfold enough in Hf.
  eapply returns_weaken; [apply poll_tx_ready; lia|]. cbn.
  intros _ s1 t1 [Hg Hs]. split; [done|]. by apply (says_app [] [u32 c]).
Qed.

(** Output of one character: it returns, touches no other register and sends
    the character, with a carriage return before a newline. *)
Lemma serial_putc_ok fuel c (s : st D G) :
  enough fuel -> is_u8 c ->
  returns (serial_putc fuel c) s
    (fun _ s' t => glb s' = glb s /\ says (crlf [c]) t).
Proof.
  intros Hf Hc. unfold serial_putc, serial_putc_body at 1. simpl crlf.
  assert (Hu : u32 c = c) by (apply u32_small; unfold is_u8, is_u32 in *; lia).
  destruct (Z.eqb_spec c 10) as [->|].
  - apply returns_bind. unfold serial_putc_body. simpl. apply returns_bind, returns_ret.
    cbn [app]. eapply returns_weaken; [by apply putc_raw|]. cbn.
    intros _ s1 t1 [Hg1 Ht1].
    eapply returns_weaken; [by apply putc_raw|]. cbn.
    intros _ s2 t2 [Hg2 Ht2]. split; [congruence|]. by apply (says_app [13] [10]).
  - apply returns_bind, returns_ret. cbn [app].
    eapply returns_weaken; [by apply putc_raw|]. cbn.
    intros _ s1 t1 [Hg1 Ht1]. by rewrite Hu in Ht1.
Qed.
End Facts.

(** The simulated console satisfies the interfaces. *)
Lemma land_full_low x : 0 <= x <= 127 -> Z.land x FIFO_FULL = 0.
Proof.
  intros Hx. bitwise i. change FIFO_FULL with (2 ^ 24). rewrite testbit_pow2 by lia.
  destruct (Z.eqb_spec i 24) as [->|]; [|apply andb_false_r].
  by rewrite (testbit_high _ 7) by lia.
Qed.

#[global] Instance uart_sim_ready : UartReady uart_sim.
Proof.
  refine {| tx_busy d := Nat.min (sim_busy d) 3; tx_bound := 3 |}.
  - intros d. apply Nat.le_min_r.
  - intros d v d' Hrd Hb. cbn in Hrd.
    destruct (Nat.eqb_spec (sim_busy d) 0) as [Hz|]; [|lia].
    injection Hrd as <- <-. rewrite Z.add_0_l.
    rewrite u32_small by (unfold is_u32; lia). apply land_full_low. lia.
  - intros d v d' Hrd Hb. cbn in Hrd. injection Hrd as <- <-. cbn. lia.
Defined.

Lemma land_count x n : 0 <= n <= 127 ->
  Z.land (u32 ((if (x =? 0)%nat then 0 else FIFO_FULL) + n)) RX_FIFO_COUNT = n.
Proof.
  intros Hn. change RX_FIFO_COUNT with (Z.ones 7). rewrite Z.land_ones by lia.
  unfold u32, FIFO_FULL. destruct (x =? 0)%nat; Z.div_mod_to_equations; lia.
Qed.

#[global] Instance uart_sim_rx : UartRx uart_sim.
Proof.
  refine {| rx_queue d := map (fun c => Z.land c 0xff) (sim_rx d) |}.
  - intros d v d' Hrd. cbn in Hrd. injection Hrd as <- <-. split; [done|].
    rewrite length_map. apply land_count. lia.
  - intros d c r Hq. cbn. destruct (sim_rx d) as [|c' r'] eqn:Er; [done|].
    injection Hq as <- <-. exists c'. eexists. split; [done|]. split; [|done].
    bitwise i. change 255 with (Z.ones 8).
    destruct (Z_lt_le_dec i 8); [|rewrite Z.ones_spec_high by lia; by rewrite !andb_false_r].
    destruct (Z.ltb_spec i 32); [done|lia].
Defined.

Section Receive.
Context {D G : Type} `{UartRx D}.

(** Input of one character: with a character waiting, one status read is
    enough, and the oldest character is taken off the queue. *)
Lemma serial_getc_ok fuel c r (s : st D G) :
  (0 < fuel)%nat -> rx_queue (dev s) = c :: r ->
  returns (serial_getc fuel) s
    (fun a s' t => a = c /\ glb s' = glb s /\ rx_queue (dev s') = r /\ says [] t).
Proof.
  intros Hf Hq. destruct fuel as [|n]; [lia|]. unfold serial_getc.
  cbn [poll_while_clear]. go.
  destruct (rx_status _ _ _ Hrd) as [Hd Hc]. rewrite Hq in Hc. simpl length in Hc.
  destruct (Z.eqb_spec (Z.land (u32 v) RX_FIFO_COUNT) 0) as [Hz|_]; [lia|].
  apply returns_ret. go.
  destruct (rx_pop d c r) as (v1 & d1 & Hrd1 & Hv1 & Hd1); [congruence|].
  cbn in Hrd0. rewrite Hrd0 in Hrd1. injection Hrd1 as -> ->. by rewrite Hv1, Hd1.
Qed.
End Receive.
