(* ===== verification/Printf.v ===== *)
(** The small formatted-output library of the bare-metal programs
    (src/Timer/printf.c and src/Hello1/printf.c): [printchar], [prints],
    [printi], [printu], [print] and [printf].

    Section [Code] translates the C functions into runs that send characters to
    the console or to a buffer.  Section [Spec] gives the text a format denotes
    as a pure function, and the lemmas of section [Correct] show that the code
    sends exactly that text. *)

From S2P Require Import Prelude Machine Serial.

(** Character constants of the C source. *)
Definition c_space := 32.
Definition c_percent := 37.
Definition c_minus := 45.
Definition c_zero := 48.
Definition c_nine := 57.
Definition c_X := 88.
Definition c_c := 99.
Definition c_d := 100.
Definition c_s := 115.
Definition c_u := 117.
Definition c_x := 120.
Definition c_a := 97.
Definition c_A := 65.

Definition PAD_RIGHT : Z := 1.
Definition PAD_ZERO : Z := 2.
Definition PRINT_BUF_LEN : nat := 22.

(** Where characters go: [Some b] is the buffer [*out] filled with [b] so far,
    [None] is the null pointer, which selects the console. *)
Abbreviation sink := (option (list Z)).

(** A variable argument: an [int] slot (what [va_arg(args,int)] finds there is
    its low 32 bits) or a character pointer, null or a string. *)
Inductive arg :=
  | AInt (v : Z)
  | AStr (s : option (list Z)).

(** [getquotient]/[getremainder]: signed division, whatever the operands were. *)
Definition getquotient (dividend divisor : Z) : Z := Z.quot (s32 dividend) divisor.
Definition getremainder (dividend divisor : Z) : Z := Z.rem (s32 dividend) divisor.

(** [ugetq]/[ugetr]: the unsigned versions. *)
Definition ugetq (dividend divisor : Z) : Z := s32 (u32 dividend / u32 divisor).
Definition ugetr (dividend divisor : Z) : Z := s32 (u32 dividend mod u32 divisor).

(** The conversion loop [while (u)]: digits are stored downwards from the end
    of [print_buf]; [room] is how many cells are left below [s], and a store
    below the buffer is undefined. *)
Fixpoint digit_loop (quot rem : Z -> Z -> Z) (b letbase : Z) (room : nat)
    (u : Z) (s : list Z) : option (nat * list Z) :=
  if u =? 0 then Some (room, s) else
  match room with
  | O => None
  | S room' =>
      let t := rem u b in
      let t := if 10 <=? t then t + (letbase - c_zero - 10) else t in
      digit_loop quot rem b letbase room' (u32 (quot u b)) (u8 (t + c_zero) :: s)
  end.

(** [while ( *format == '0' ) { ++format; pad |= PAD_ZERO; }] *)
Fixpoint skip_zeros (pad : Z) (fmt : list Z) : Z * list Z :=
  match fmt with
  | c :: r => if c =? c_zero then skip_zeros (Z.lor pad PAD_ZERO) r else (pad, fmt)
  | [] => (pad, [])
  end.

(** [for (; *format >= '0' && *format <= '9'; ++format) width = width*10 + ...];
    a width beyond [int] overflows. *)
Fixpoint get_width (width : Z) (fmt : list Z) : option (Z * list Z) :=
  match fmt with
  | c :: r =>
      if (c_zero <=? c) && (c <=? c_nine) then
        let width := width * 10 + (c - c_zero) in
        if width <? 2 ^ 31 then get_width width r else None
      else Some (width, fmt)
  | [] => Some (width, [])
  end.

Section Code.
Context {D G : Type} `{Machine D}.
Context (fuel : nat).

Definition printchar (str : sink) (c : Z) : prog D G sink :=
  match str with
  | Some b => ret (Some (b ++ [u8 c]))
  | None => serial_putc fuel c ;;; ret None
  end.

(** [for (; width > 0; --width) { printchar(out, padchar); ++pc; }] *)
Fixpoint pad_loop (width : nat) (out : sink) (padchar pc : Z) : prog D G (sink * Z) :=
  match width with
  | O => ret (out, pc)
  | S w => out <-- printchar out padchar ;; pad_loop w out padchar (pc + 1)
  end.

(** [for (; *string; ++string) { printchar(out, *string); ++pc; }] *)
Fixpoint str_loop (s : list Z) (out : sink) (pc : Z) : prog D G (sink * Z) :=
  match s with
  | [] => ret (out, pc)
  | c :: r => out <-- printchar out c ;; str_loop r out (pc + 1)
  end.

Definition prints (out : sink) (s : list Z) (width pad : Z) : prog D G (sink * Z) :=
  let len := Z.of_nat (length s) in
  let padchar :=
    if (0 <? width) && negb (Z.land pad PAD_ZERO =? 0) then c_zero else c_space in
  let width := if 0 <? width then (if width <=? len then 0 else width - len) else width in
  p <-- (if Z.land pad PAD_RIGHT =? 0 then pad_loop (Z.to_nat width) out padchar 0
         else ret (out, 0)) ;;
  let width := if Z.land pad PAD_RIGHT =? 0 then Z.min width 0 else width in
  p <-- str_loop s p.1 p.2 ;;
  pad_loop (Z.to_nat width) p.1 padchar p.2.

(** [printi] of the Timer program; [sg] is the extra argument of the Hello1
    version, which the Timer version fixes to 1. *)
Definition printi (out : sink) (i b sg width pad letbase : Z) : prog D G (sink * Z) :=
  let i := s32 i in
  if i =? 0 then prints out [c_zero] width pad else
  let neg := negb (sg =? 0) && (b =? 10) && (i <? 0) in
  if neg && (i =? - 2 ^ 31) then halt Undef else
  let u := if neg then u32 (- i) else u32 i in
  match digit_loop getquotient getremainder b letbase (PRINT_BUF_LEN - 1) u [] with
  | None => halt Undef
  | Some (room, s) =>
      if neg then
        if negb (width =? 0) && negb (Z.land pad PAD_ZERO =? 0) then
          out <-- printchar out c_minus ;;
          p <-- prints out s (width - 1) pad ;;
          ret (p.1, 1 + p.2)
        else match room with
             | O => halt Undef
             | S _ => prints out (c_minus :: s) width pad
             end
      else prints out s width pad
  end.

Definition printu (out : sink) (u b width pad letbase : Z) : prog D G (sink * Z) :=
  let u := u32 u in
  if u =? 0 then prints out [c_zero] width pad else
  match digit_loop ugetq ugetr b letbase (PRINT_BUF_LEN - 1) u [] with
  | None => halt Undef
  | Some (_, s) => prints out s width pad
  end.

(** The integer conversions of one program: what [print] calls for a letter. *)
Definition conversions : Type :=
  Z -> option (sink -> Z -> Z -> Z -> prog D G (sink * Z)).

(** src/Timer/printf.c: [%d] through [printi], [%u %x %X] through [printu]. *)
Definition conv_timer : conversions := fun k =>
  if k =? c_d then Some (fun out v width pad => printi out v 10 1 width pad c_a)
  else if k =? c_u then Some (fun out v width pad => printu out v 10 width pad c_a)
  else if k =? c_x then Some (fun out v width pad => printu out v 16 width pad c_a)
  else if k =? c_X then Some (fun out v width pad => printu out v 16 width pad c_A)
  else None.

(** src/Hello1/printf.c: every conversion through [printi]. *)
Definition conv_hello : conversions := fun k =>
  if k =? c_d then Some (fun out v width pad => printi out v 10 1 width pad c_a)
  else if k =? c_x then Some (fun out v width pad => printi out v 16 0 width pad c_a)
  else if k =? c_X then Some (fun out v width pad => printi out v 16 0 width pad c_A)
  else if k =? c_u then Some (fun out v width pad => printi out v 10 0 width pad c_a)
  else None.

(** The loop of [print] over the format; [n] bounds the number of rounds. *)
Fixpoint print_loop (conv : conversions) (n : nat) (out : sink) (fmt : list Z)
    (args : list arg) (pc : Z) : prog D G (sink * Z) :=
  match n with
  | O => halt NoFuel
  | S n =>
    match fmt with
    | [] => ret (out, pc)
    | c :: r =>
      if c =? c_percent then
        match r with
        | [] => ret (out, pc)
        | c1 :: r1 =>
          if c1 =? c_percent then
            out <-- printchar out c1 ;; print_loop conv n out r1 args (pc + 1)
          else
            let '(pad, r2) := if c1 =? c_minus then (PAD_RIGHT, r1) else (0, r) in
            let '(pad, r3) := skip_zeros pad r2 in
            match get_width 0 r3 with
            | None => halt Undef
            | Some (width, []) => halt Undef
            | Some (width, k :: r5) =>
              if k =? c_s then
                match args with
                | AStr s :: args =>
                  p <-- prints out (default (chars "(null)") s) width pad ;;
                  print_loop conv n p.1 r5 args (pc + p.2)
                | _ => halt Undef
                end
              else if k =? c_c then
                match args with
                | AInt v :: args =>
                  let scr := if u8 v =? 0 then [] else [u8 v] in
                  p <-- prints out scr width pad ;;
                  print_loop conv n p.1 r5 args (pc + p.2)
                | _ => halt Undef
                end
              else match conv k with
                | Some f =>
                  match args with
                  | AInt v :: args =>
                    p <-- f out v width pad ;;
                    print_loop conv n p.1 r5 args (pc + p.2)
                  | _ => halt Undef
                  end
                | None => print_loop conv n out r5 args pc
                end
            end
        end
      else
        out <-- printchar out c ;; print_loop conv n out r args (pc + 1)
    end
  end.

Definition print (conv : conversions) (out : sink) (fmt : list Z) (args : list arg)
    : prog D G (sink * Z) :=
  p <-- print_loop conv (S (length fmt)) out fmt args 0 ;;
  match p.1 with
  | Some b => ret (Some (b ++ [0]), p.2)
  | None => ret p
  end.

(** [printf(format, ...)]: print to the console. *)
Definition printf_with (conv : conversions) (fmt : string) (args : list arg)
    : prog D G Z :=
  p <-- print conv None (chars fmt) args ;; ret p.2.

Definition printf := printf_with conv_timer.
Definition hello_printf := printf_with conv_hello.
End Code.

(** ** The text a format denotes *)

Section Spec.

(** A field of at least [width] characters. *)
Definition pad_text (s : list Z) (width pad : Z) : list Z :=
  let padchar :=
    if (0 <? width) && negb (Z.land pad PAD_ZERO =? 0) then c_zero else c_space in
  let fill := replicate (Z.to_nat (width - Z.of_nat (length s))) padchar in
  if Z.land pad PAD_RIGHT =? 0 then fill ++ s else s ++ fill.

(** The digit of value [t] and the value of a digit. *)
Definition digit (letbase t : Z) : Z := if 10 <=? t then letbase + (t - 10) else c_zero + t.
Definition digit_value (letbase c : Z) : Z := if c <=? c_nine then c - c_zero else c - letbase + 10.

(** Positional notation: [u] written with at most [room] digits, and the value
    of a digit string. *)
Fixpoint numeral (b letbase : Z) (room : nat) (u : Z) : list Z :=
  match room with
  | O => []
  | S r => if u =? 0 then [] else numeral b letbase r (u / b) ++ [digit letbase (u mod b)]
  end.

Definition numeral_value (b letbase : Z) (cs : list Z) : Z :=
  foldl (fun a c => a * b + digit_value letbase c) 0 cs.

(** Text of the conversions, [None] where the C code is undefined. *)
Definition printi_text (i b sg width pad letbase : Z) : option (list Z) :=
  let i := s32 i in
  if i =? 0 then Some (pad_text [c_zero] width pad) else
  let neg := negb (sg =? 0) && (b =? 10) && (i <? 0) in
  if neg && (i =? - 2 ^ 31) then None else
  let u := if neg then u32 (- i) else u32 i in
  p ← digit_loop getquotient getremainder b letbase (PRINT_BUF_LEN - 1) u [];
  if neg then
    if negb (width =? 0) && negb (Z.land pad PAD_ZERO =? 0)
    then Some (c_minus :: pad_text p.2 (width - 1) pad)
    else if (p.1 =? 0)%nat then None else Some (pad_text (c_minus :: p.2) width pad)
  else Some (pad_text p.2 width pad).

Definition printu_text (u b width pad letbase : Z) : option (list Z) :=
  let u := u32 u in
  if u =? 0 then Some (pad_text [c_zero] width pad) else
  p ← digit_loop ugetq ugetr b letbase (PRINT_BUF_LEN - 1) u [];
  Some (pad_text p.2 width pad).

Definition text_conversions : Type := Z -> option (Z -> Z -> Z -> option (list Z)).

Definition text_timer : text_conversions := fun k =>
  if k =? c_d then Some (fun v width pad => printi_text v 10 1 width pad c_a)
  else if k =? c_u then Some (fun v width pad => printu_text v 10 width pad c_a)
  else if k =? c_x then Some (fun v width pad => printu_text v 16 width pad c_a)
  else if k =? c_X then Some (fun v width pad => printu_text v 16 width pad c_A)
  else None.

Definition text_hello : text_conversions := fun k =>
  if k =? c_d then Some (fun v width pad => printi_text v 10 1 width pad c_a)
  else if k =? c_x then Some (fun v width pad => printi_text v 16 0 width pad c_a)
  else if k =? c_X then Some (fun v width pad => printi_text v 16 0 width pad c_A)
  else if k =? c_u then Some (fun v width pad => printi_text v 10 0 width pad c_a)
  else None.

(** One conversion: the text it produces and the arguments it leaves. *)
Definition conv_text (tc : text_conversions) (k width pad : Z) (args : list arg)
    : option (list Z * list arg) :=
  if k =? c_s then
    match args with
    | AStr s :: args => Some (pad_text (default (chars "(null)") s) width pad, args)
    | _ => None
    end
  else if k =? c_c then
    match args with
    | AInt v :: args =>
        Some (pad_text (if u8 v =? 0 then [] else [u8 v]) width pad, args)
    | _ => None
    end
  else match tc k with
    | Some f =>
      match args with
      | AInt v :: args => t ← f v width pad; Some (t, args)
      | _ => None
      end
    | None => Some ([], args)
    end.

(** A directive of the format, the part before [%] removed: flags, width,
    letter, rest. *)
Definition directive (r : list Z) : option (Z * Z * Z * list Z) :=
  let '(pad, r2) :=
    match r with
    | c1 :: r1 => if c1 =? c_minus then (PAD_RIGHT, r1) else (0, r)
    | [] => (0, r)
    end in
  let '(pad, r3) := skip_zeros pad r2 in
  match get_width 0 r3 with
  | Some (width, k :: r5) => Some (pad, width, k, r5)
  | _ => None
  end.

Fixpoint render (tc : text_conversions) (n : nat) (fmt : list Z) (args : list arg)
    : option (list Z) :=
  match n with
  | O => None
  | S n =>
    match fmt with
    | [] => Some []
    | c :: r =>
      if c =? c_percent then
        match r with
        | [] => Some []
        | c1 :: r1 =>
          if c1 =? c_percent then cons c1 <$> render tc n r1 args
          else
            '(pad, width, k, r5) ← directive r;
            '(t, args) ← conv_text tc k width pad args;
            app t <$> render tc n r5 args
        end
      else cons c <$> render tc n r args
    end
  end.

(** The text of [printf(fmt, args)], [None] where the call is undefined. *)
Definition text (tc : text_conversions) (fmt : string) (args : list arg) : option (list Z) :=
  render tc (S (length (chars fmt))) (chars fmt) args.
End Spec.

Example text_1 : text text_timer "T0 = %08x\n" [AInt 0xf4240] = Some (chars "T0 = 000f4240\n").
Proof. reflexivity. Qed.
Example text_2 : text text_timer "[%5d|%-5d|%05d|%s]" [AInt (-42); AInt 42; AInt (-42); AStr None]
  = Some (chars "[  -42|42   |-0042|(null)]").
Proof. reflexivity. Qed.
Example text_3 : text text_hello "%x" [AInt 0x80000000] = Some (chars "(0000000").
Proof. reflexivity. Qed.
Example text_4 : text text_timer "%x %u" [AInt 0xfedc1234; AInt (-1)] = Some (chars "fedc1234 4294967295").
Proof. reflexivity. Qed.
Example text_5 : text text_timer "%-05d" [AInt 42] = Some (chars "42000").
Proof. reflexivity. Qed.

(** ** The code sends the text *)

Section Correct.
Context {D G : Type} `{Machine D}.
Context (fuel : nat).

(** Sending a text, one [printchar] after the other. *)
Fixpoint emit (cs : list Z) (out : sink) : prog D G sink :=
  match cs with
  | [] => ret out
  | c :: r => out <-- printchar fuel out c ;; emit r out
  end.

Lemma emit_app cs ds out :
  emit (cs ++ ds) out ≈ (out <-- emit cs out ;; emit ds out).
Proof.
  revert out. induction cs as [|c cs IH]; intros out; simpl.
  - by rewrite bind_ret_l.
  - rewrite bind_assoc. f_equiv. intros o. apply IH.
Qed.

(** [sends m out cs pc]: the run [m] sends [cs] and returns the count [pc]. *)
Definition sends (m : prog D G (sink * Z)) (out : sink) (cs : list Z) (pc : Z) : Prop :=
  m ≈ (out <-- emit cs out ;; ret (out, pc)).

Lemma sends_ret out pc : sends (ret (out, pc)) out [] pc.
Proof. unfold sends. simpl. by rewrite bind_ret_l. Qed.

Lemma sends_char (f : sink -> prog D G (sink * Z)) c out cs pc :
  (forall o, sends (f o) o cs pc) ->
  sends (out <-- printchar fuel out c ;; f out) out (c :: cs) pc.
Proof.
  intros Hf. unfold sends in *. simpl. rewrite bind_assoc.
  f_equiv. intros o. apply Hf.
Qed.

Lemma sends_bind m (f : sink * Z -> prog D G (sink * Z)) out cs ds pc pc' :
  sends m out cs pc -> (forall o, sends (f (o, pc)) o ds pc') ->
  sends (p <-- m ;; f p) out (cs ++ ds) pc'.
Proof.
  unfold sends. intros Hm Hf. rewrite Hm, emit_app, !bind_assoc.
  f_equiv. intros o. rewrite bind_ret_l. apply Hf.
Qed.

Lemma sends_eq m out cs cs' pc pc' :
  sends m out cs pc -> cs = cs' -> pc = pc' -> sends m out cs' pc'.
Proof. by intros ? <- <-. Qed.

Lemma pad_loop_sends w out padchar pc :
  sends (pad_loop fuel w out padchar pc) out (replicate w padchar) (pc + Z.of_nat w).
Proof.
  revert out pc. induction w as [|w IH]; intros out pc; simpl.
  - rewrite Z.add_0_r. apply sends_ret.
  - eapply sends_eq; [apply sends_char; intros o; apply IH|done|lia].
Qed.

Lemma str_loop_sends s out pc :
  sends (str_loop fuel s out pc) out s (pc + Z.of_nat (length s)).
Proof.
  revert out pc. induction s as [|c s IH]; intros out pc; simpl.
  - rewrite Z.add_0_r. apply sends_ret.
  - eapply sends_eq; [apply sends_char; intros o; apply IH|done|lia].
Qed.

(** Width left to fill once the string is measured. *)
Lemma fill_width width len : 0 <= len ->
  Z.to_nat (if 0 <? width then (if width <=? len then 0 else width - len) else width)
  = Z.to_nat (width - len).
Proof. intros. case_tests; lia. Qed.

Lemma prints_sends out s width pad :
  sends (prints fuel out s width pad) out (pad_text s width pad)
    (Z.of_nat (length (pad_text s width pad))).
Proof.
  unfold prints, pad_text. set (pc := if _ && _ then c_zero else c_space).
  set (w := if 0 <? width then _ else _).
  assert (Hw : Z.to_nat w = Z.to_nat (width - Z.of_nat (length s)))
    by (apply fill_width; lia).
  destruct (Z.land pad PAD_RIGHT =? 0).
  - eapply sends_eq; [| |reflexivity].
    + eapply sends_bind; [apply pad_loop_sends|]. intros o. cbn [fst snd].
      eapply sends_bind; [apply str_loop_sends|]. intros o'. cbn [fst snd].
      replace (Z.to_nat (Z.min w 0)) with 0%nat by lia. simpl.
      eapply sends_eq; [apply sends_ret|done|]. rewrite Hw. lens.
    + by rewrite Hw, app_nil_r.
  - eapply sends_eq; [| |reflexivity].
    + eapply (sends_bind _ _ _ []); [apply sends_ret|]. intros o. cbn [fst snd].
      eapply sends_bind; [apply str_loop_sends|]. intros o'. cbn [fst snd].
      eapply sends_eq; [apply pad_loop_sends|by rewrite Hw|]. lens.
    + done.
Qed.

Lemma printi_sends out i b sg width pad letbase t :
  printi_text i b sg width pad letbase = Some t ->
  sends (printi fuel out i b sg width pad letbase) out t (Z.of_nat (length t)).
Proof.
  unfold printi_text, printi.
  destruct (s32 i =? 0); [by intros [= <-]; apply prints_sends|].
  set (neg := negb (sg =? 0) && _ && _).
  destruct (neg && _); [done|].
  destruct (digit_loop _ _ _ _ _ _ _) as [[room s]|]; [|done]. simpl.
  destruct neg; [|by intros [= <-]; apply prints_sends].
  destruct (negb _ && negb _).
  - intros [= <-]. apply sends_char. intros o. eapply sends_eq.
    + eapply sends_bind; [apply prints_sends|]. intros o'. cbn [fst snd]. apply sends_ret.
    + apply app_nil_r.
    + simpl length. lia.
  - destruct room; simpl; [done|]. intros [= <-]. apply prints_sends.
Qed.

Lemma printu_sends out u b width pad letbase t :
  printu_text u b width pad letbase = Some t ->
  sends (printu fuel out u b width pad letbase) out t (Z.of_nat (length t)).
Proof.
  unfold printu_text, printu.
  destruct (u32 u =? 0); [by intros [= <-]; apply prints_sends|].
  destruct (digit_loop _ _ _ _ _ _ _) as [[room s]|]; [|done]. simpl.
  intros [= <-]. apply prints_sends.
Qed.

(** Code and text conversions that agree: the same letters, and the code sends
    the text. *)
Definition conv_agree (conv : conversions (D:=D) (G:=G)) (tc : text_conversions) : Prop :=
  forall k, match conv k, tc k with
  | Some f, Some g => forall out v width pad t,
      g v width pad = Some t -> sends (f out v width pad) out t (Z.of_nat (length t))
  | None, None => True
  | _, _ => False
  end.

Lemma conv_timer_agree : conv_agree (conv_timer fuel) text_timer.
Proof.
  intros k. unfold conv_timer, text_timer.
  case_tests; try done; intros; cbv beta in *; eauto using printi_sends, printu_sends.
Qed.

Lemma conv_hello_agree : conv_agree (conv_hello fuel) text_hello.
Proof.
  intros k. unfold conv_hello, text_hello.
  case_tests; try done; intros; cbv beta in *; eauto using printi_sends.
Qed.

(** One conversion of [print_loop] followed by the rest of the format. *)
Lemma sends_conv f (g : sink -> Z -> prog D G (sink * Z)) out t u pc :
  sends f out t (Z.of_nat (length t)) ->
  (forall o, sends (g o (pc + Z.of_nat (length t))) o u
               (pc + Z.of_nat (length t) + Z.of_nat (length u))) ->
  sends (p <-- f ;; g p.1 (pc + p.2)) out (t ++ u) (pc + Z.of_nat (length (t ++ u))).
Proof.
  intros Hf Hg. eapply sends_eq; [eapply sends_bind; [exact Hf|exact Hg]|done|lens].
Qed.

(** The text before the first directive is sent first. *)
Lemma print_loop_prefix conv p fmt n out args pc : Forall (fun c => c <> c_percent) p ->
  print_loop fuel conv (length p + n) out (p ++ fmt) args pc ≈
    (o <-- emit p out ;; print_loop fuel conv n o fmt args (pc + Z.of_nat (length p))).
Proof.
  intros Hp. revert out pc. induction Hp as [|c p Hc _ IH]; intros out pc.
  - simpl. rewrite bind_ret_l. by rewrite Z.add_0_r.
  - cbn [length Nat.add app print_loop emit]. apply Z.eqb_neq in Hc. rewrite Hc, bind_assoc. f_equiv. intros o. rewrite IH.
    f_equiv. intros o'. by replace (pc + 1 + Z.of_nat (length p)) with (pc + Z.of_nat (S (length p))) by lia.
Qed.

(** A decimal directive whose argument is the least [int] goes no further. *)
Lemma print_loop_int_min n out r v args pc : s32 v = - 2 ^ 31 ->
  print_loop fuel (conv_timer fuel) (S n) out (c_percent :: c_d :: r) (AInt v :: args) pc ≈ @halt D G _ Undef.
Proof.
  intros Hv. cbn [print_loop]. change (c_percent =? c_percent) with true. change (c_d =? c_percent) with false. change (c_d =? c_minus) with false. cbn iota.
  change (skip_zeros 0 (c_d :: r)) with (0, c_d :: r). cbn iota. change (get_width 0 (c_d :: r)) with (Some (0, c_d :: r)). cbn iota.
  change (c_d =? c_s) with false. change (c_d =? c_c) with false. cbn iota. unfold conv_timer. change (c_d =? c_d) with true. cbn iota.
  cbn beta. unfold printi. rewrite Hv. done.
Qed.

Lemma print_loop_sends conv tc n out fmt args pc t :
  conv_agree conv tc -> render tc n fmt args = Some t ->
  sends (print_loop fuel conv n out fmt args pc) out t (pc + Z.of_nat (length t)).
Proof.
  intros Hag. revert out fmt args pc t.
  induction n as [|n IH]; intros out fmt args pc t; [done|]. cbn [render print_loop].
  destruct fmt as [|c r].
  { intros [= <-]. eapply sends_eq; [apply sends_ret|done|simpl; lia]. }
  destruct (c =? c_percent).
  2: { intros (u & Hu & ->)%fmap_Some. eapply sends_eq;
         [apply sends_char; intros o; by apply IH|done|simpl length; lia]. }
  destruct r as [|c1 r1].
  { intros [= <-]. eapply sends_eq; [apply sends_ret|done|simpl; lia]. }
  destruct (c1 =? c_percent).
  { intros (u & Hu & ->)%fmap_Some. eapply sends_eq;
      [apply sends_char; intros o; by apply IH|done|simpl length; lia]. }
  unfold directive. destruct (if c1 =? c_minus then _ else _) as [pad0 r2].
  destruct (skip_zeros pad0 r2) as [pad r3].
  destruct (get_width 0 r3) as [[width [|k r5]]|]; simpl; [done| |done].
  intros ([u args'] & Hc & (v & Hr & ->)%fmap_Some)%bind_Some. revert Hc.
  unfold conv_text. specialize (Hag k). destruct (k =? c_s).
  { destruct args as [|[|s] args]; [done|done|]. intros [= <- <-].
    apply (sends_conv _ (fun o pc => print_loop fuel conv n o r5 args pc));
      [apply prints_sends|]. intros o. by apply IH. }
  destruct (k =? c_c).
  { destruct args as [|[w|] args]; [done| |done]. intros [= <- <-].
    apply (sends_conv _ (fun o pc => print_loop fuel conv n o r5 args pc));
      [apply prints_sends|]. intros o. by apply IH. }
  destruct (conv k) as [f|], (tc k) as [g|]; [|done|done|].
  - destruct args as [|[w|] args]; [done| |done].
    intros (w' & Hw & [= <- <-])%bind_Some.
    apply (sends_conv _ (fun o pc => print_loop fuel conv n o r5 args pc));
      [by apply Hag|]. intros o. by apply IH.
  - intros [= <- <-]. by apply IH.
Qed.

(** The rounds [print] allows are enough: every round consumes a character. *)
Lemma skip_zeros_length pad r : (length (skip_zeros pad r).2 <= length r)%nat.
Proof.
  revert pad. induction r as [|c r IH]; intros pad; simpl; [lia|].
  destruct (c =? c_zero); simpl; [|lia]. specialize (IH (Z.lor pad PAD_ZERO)). lia.
Qed.

Lemma get_width_length w r w' r' :
  get_width w r = Some (w', r') -> (length r' <= length r)%nat.
Proof.
  revert w. induction r as [|c r IH]; intros w; simpl; [by intros [= _ <-]|].
  destruct (_ && _); [|by intros [= _ <-]].
  destruct (_ <? _); [|done]. intros Hw. specialize (IH _ Hw). lia.
Qed.

Lemma directive_length r pad w k r' :
  directive r = Some (pad, w, k, r') -> (length r' < length r)%nat.
Proof.
  unfold directive. destruct r as [|c1 r1]; [done|].
  destruct (if c1 =? c_minus then _ else _) as [pad0 r2] eqn:E2.
  assert (Hr2 : (length r2 <= length (c1 :: r1))%nat)
    by (destruct (c1 =? c_minus); injection E2 as <- <-; simpl; lia).
  pose proof (skip_zeros_length pad0 r2) as Hz.
  destruct (skip_zeros pad0 r2) as [pad1 r3].
  destruct (get_width 0 r3) as [[w' [|k' r5]]|] eqn:Ew; [done| |done].
  apply get_width_length in Ew. intros [= _ _ _ <-]. simpl in *. lia.
Qed.

(** Runs on a buffer: they return a buffer, or stop as undefined; they touch no
    register and never run out of rounds. *)
Definition buffered (m : prog D G (sink * Z)) : Prop :=
  forall s, match m s with
  | Ok (Some _, _) _ [] => True
  | Stop Undef _ [] => True
  | _ => False
  end.

Lemma buffered_ret b n : buffered (ret (Some b, n)).
Proof. done. Qed.

Lemma buffered_undef : buffered (halt Undef).
Proof. done. Qed.

Lemma buffered_bind m f :
  buffered m -> (forall b n, buffered (f (Some b, n))) -> buffered (p <-- m ;; f p).
Proof.
  intros Hm Hf s. specialize (Hm s). unfold bind.
  destruct (m s) as [[[b|] n] s1 [|e t1]|[] s1 [|e t1]]; try done.
  specialize (Hf b n s1). by destruct (f (Some b, n) s1).
Qed.

Lemma buffered_char b c (f : sink -> prog D G (sink * Z)) :
  (forall b, buffered (f (Some b))) ->
  buffered (out <-- printchar fuel (Some b) c ;; f out).
Proof.
  intros Hf s. unfold bind, printchar, ret.
  specialize (Hf (b ++ [u8 c]) s). by destruct (f (Some (b ++ [u8 c])) s).
Qed.

Lemma buffered_pad w b c pc : buffered (pad_loop fuel w (Some b) c pc).
Proof.
  revert b pc. induction w as [|w IH]; intros b pc; cbn [pad_loop].
  - apply buffered_ret.
  - apply buffered_char. intros b'. apply IH.
Qed.

Lemma buffered_str cs b pc : buffered (str_loop fuel cs (Some b) pc).
Proof.
  revert b pc. induction cs as [|c cs IH]; intros b pc; cbn [str_loop].
  - apply buffered_ret.
  - apply buffered_char. intros b'. apply IH.
Qed.

Lemma buffered_prints cs b width pad : buffered (prints fuel (Some b) cs width pad).
Proof.
  unfold prints. apply buffered_bind.
  - destruct (_ =? 0); [apply buffered_pad|apply buffered_ret].
  - intros b1 n1. apply buffered_bind; [apply buffered_str|].
    intros b2 n2. apply buffered_pad.
Qed.

Lemma buffered_printi b i base sg width pad letbase :
  buffered (printi fuel (Some b) i base sg width pad letbase).
Proof.
  unfold printi. destruct (s32 i =? 0); [apply buffered_prints|].
  destruct (_ && (s32 i =? _)); [apply buffered_undef|].
  destruct (digit_loop _ _ _ _ _ _ _) as [[room ds]|]; [|apply buffered_undef].
  destruct (_ && (s32 i <? 0)); [|apply buffered_prints].
  destruct (negb _ && _).
  - apply buffered_char. intros b1. apply buffered_bind; [apply buffered_prints|].
    intros b2 n2. apply buffered_ret.
  - destruct room; [apply buffered_undef|apply buffered_prints].
Qed.

Lemma buffered_printu b u base width pad letbase :
  buffered (printu fuel (Some b) u base width pad letbase).
Proof.
  unfold printu. destruct (u32 u =? 0); [apply buffered_prints|].
  destruct (digit_loop _ _ _ _ _ _ _) as [[room ds]|]; [|apply buffered_undef].
  apply buffered_prints.
Qed.

Definition conv_buffered (conv : conversions (D:=D) (G:=G)) : Prop :=
  forall k f b v width pad, conv k = Some f -> buffered (f (Some b) v width pad).

Lemma conv_timer_buffered : conv_buffered (conv_timer fuel).
Proof.
  intros k f b v width pad. unfold conv_timer.
  case_tests; try done; intros [= <-]; auto using buffered_printi, buffered_printu.
Qed.

Lemma conv_hello_buffered : conv_buffered (conv_hello fuel).
Proof.
  intros k f b v width pad. unfold conv_hello.
  case_tests; try done; intros [= <-]; auto using buffered_printi.
Qed.

Lemma print_loop_buffered conv n b fmt args pc :
  conv_buffered conv -> (length fmt < n)%nat ->
  buffered (print_loop fuel conv n (Some b) fmt args pc).
Proof.
  intros Hconv. revert b fmt args pc.
  induction n as [|n IH]; intros b fmt args pc Hn; [lia|]. cbn [print_loop].
  destruct fmt as [|c r]; [apply buffered_ret|]. simpl in Hn.
  destruct (c =? c_percent).
  2: { apply buffered_char. intros b'. apply IH. lia. }
  destruct r as [|c1 r1]; [apply buffered_ret|]. simpl in Hn.
  destruct (c1 =? c_percent).
  { apply buffered_char. intros b'. apply IH. lia. }
  pose proof (directive_length (c1 :: r1)) as Hd. unfold directive in Hd.
  destruct (if c1 =? c_minus then _ else _) as [pad0 r2].
  destruct (skip_zeros pad0 r2) as [pad r3].
  destruct (get_width 0 r3) as [[width [|k r5]]|];
    [apply buffered_undef| |apply buffered_undef].
  specialize (Hd _ _ _ _ eq_refl). simpl in Hd.
  assert (Hnext : forall b args pc, buffered (print_loop fuel conv n (Some b) r5 args pc))
    by (intros; apply IH; lia).
  destruct (k =? c_s).
  { destruct args as [|[v|s] args]; try apply buffered_undef.
    apply buffered_bind; [apply buffered_prints|]. intros; apply Hnext. }
  destruct (k =? c_c).
  { destruct args as [|[v|s] args]; try apply buffered_undef.
    apply buffered_bind; [apply buffered_prints|]. intros; apply Hnext. }
  destruct (conv k) as [f|] eqn:Ek; [|apply Hnext].
  destruct args as [|[v|s] args]; try apply buffered_undef.
  apply buffered_bind; [by eapply Hconv|]. intros; apply Hnext.
Qed.

(** ** The console as the sink *)
Context `{!UartReady D}.

Lemma emit_console cs (s : st D G) :
  enough fuel -> Forall is_u8 cs ->
  returns (emit cs None) s
    (fun o s' t => o = None /\ glb s' = glb s /\ says (crlf cs) t).
Proof.
  intros Hf Hcs. revert s. induction Hcs as [|c cs Hc _ IH]; intros s; cbn [emit].
  - by apply returns_ret.
  - apply returns_bind. unfold printchar. apply returns_bind.
    eapply returns_weaken; [by apply serial_putc_ok|]. cbn beta.
    intros _ s1 t1 [Hg1 Ht1]. apply returns_ret. eapply returns_weaken; [apply IH|].
    cbn beta. intros o s2 t2 (-> & Hg2 & Ht2). split; [done|]. split; [congruence|].
    rewrite app_nil_r. change (c :: cs) with ([c] ++ cs). rewrite crlf_app.
    by apply says_app.
Qed.

Lemma emit_buffer cs b (s : st D G) :
  emit cs (Some b) s = Ok (Some (b ++ map u8 cs)) s [].
Proof.
  revert b. induction cs as [|c cs IH]; intros b; cbn [emit].
  - by rewrite app_nil_r.
  - unfold bind, printchar, ret. rewrite IH. simpl. by rewrite <- app_assoc.
Qed.
End Correct.

(** Running [printf]: the console receives the text and nothing else happens. *)
Section Console.
Context {D G : Type} `{UartReady D}.

Lemma printf_with_ok fuel conv tc fmt args t (s : st D G) :
  conv_agree fuel conv tc -> enough fuel ->
  text tc fmt args = Some t -> Forall is_u8 t ->
  returns (printf_with fuel conv fmt args) s
    (fun n s' tr => n = Z.of_nat (length t) /\ glb s' = glb s /\
       says (crlf t) tr).
Proof.
  intros Hag Hf Ht Hb. unfold text in Ht.
  pose proof (print_loop_sends fuel conv tc _ None _ _ 0 _ Hag Ht) as Hs.
  unfold sends in Hs. unfold printf_with, print. rewrite Hs, !bind_assoc.
  apply returns_bind. eapply returns_weaken; [by eapply emit_console|]. cbn beta.
  intros o s' tr (-> & Hg & Hw). go. cbn [fst snd]. go.
  by rewrite app_nil_r.
Qed.
End Console.

(** ** Numerals: the digit loops compute positional notation *)

Lemma digit_value_digit letbase t :
  0 <= t < 16 -> letbase = c_a \/ letbase = c_A ->
  digit_value letbase (digit letbase t) = t /\ is_u8 (digit letbase t).
Proof.
  unfold digit, digit_value, c_zero, c_nine, c_a, c_A, is_u8. intros Ht Hl.
  destruct (Z.leb_spec 10 t).
  - destruct (Z.leb_spec (letbase + (t - 10)) 57); lia.
  - destruct (Z.leb_spec (48 + t) 57); lia.
Qed.

Section Numerals.
Context (b letbase : Z).
Context (Hb : 2 <= b <= 16) (Hl : letbase = c_a \/ letbase = c_A).

Lemma numeral_value_snoc cs c :
  numeral_value b letbase (cs ++ [c]) = numeral_value b letbase cs * b + digit_value letbase c.
Proof. unfold numeral_value. by rewrite foldl_app. Qed.

Lemma numeral_correct room u :
  0 <= u < b ^ Z.of_nat room -> numeral_value b letbase (numeral b letbase room u) = u.
Proof.
  revert u. induction room as [|r IH]; intros u Hu; cbn [numeral].
  - simpl in Hu. cbn. lia.
  - rewrite Nat2Z.inj_succ, Z.pow_succ_r in Hu by lia.
    destruct (Z.eqb_spec u 0) as [->|]; [done|].
    pose proof (Z.mod_pos_bound u b ltac:(lia)).
    rewrite numeral_value_snoc, IH.
    + destruct (digit_value_digit letbase (u mod b)) as [-> _]; [lia|done|].
      rewrite (Z.div_mod u b) at 3 by lia. lia.
    + split; [apply Z.div_pos; lia|]. apply Z.div_lt_upper_bound; lia.
Qed.

Lemma numeral_length room u : (length (numeral b letbase room u) <= room)%nat.
Proof.
  revert u. induction room as [|r IH]; intros u; cbn [numeral]; [done|].
  destruct (u =? 0); [simpl; lia|]. specialize (IH (u / b)). lens.
Qed.

Lemma numeral_bytes room u : Forall is_u8 (numeral b letbase room u).
Proof.
  revert u. induction room as [|r IH]; intros u; cbn [numeral]; [constructor|].
  destruct (u =? 0); [constructor|]. apply Forall_app. split; [apply IH|].
  pose proof (Z.mod_pos_bound u b ltac:(lia)).
  constructor; [|constructor]. apply digit_value_digit; [lia|done].
Qed.

(** More room than a numeral needs changes nothing. *)
Lemma numeral_room room room' u :
  0 <= u < b ^ Z.of_nat room -> (room <= room')%nat ->
  numeral b letbase room' u = numeral b letbase room u.
Proof.
  revert room' u. induction room as [|r IH]; intros room' u Hu Hr.
  - simpl in Hu. assert (u = 0) as -> by lia. by destruct room'.
  - destruct room' as [|r']; [lia|]. cbn [numeral].
    rewrite Nat2Z.inj_succ, Z.pow_succ_r in Hu by lia.
    destruct (u =? 0); [done|]. f_equal. apply IH; [|lia].
    split; [apply Z.div_pos; lia|]. apply Z.div_lt_upper_bound; lia.
Qed.

(** No leading zero. *)
Lemma numeral_leading room u :
  0 < u < b ^ Z.of_nat room ->
  exists c cs, numeral b letbase room u = c :: cs /\ digit_value letbase c <> 0.
Proof.
  revert u. induction room as [|r IH]; intros u Hu; [simpl in Hu; lia|].
  rewrite Nat2Z.inj_succ, Z.pow_succ_r in Hu by lia. cbn [numeral].
  destruct (Z.eqb_spec u 0); [lia|].
  pose proof (Z.mod_pos_bound u b ltac:(lia)).
  destruct (Z.eq_dec (u / b) 0) as [Hz|Hnz].
  - rewrite Hz. exists (digit letbase (u mod b)), [].
    destruct (digit_value_digit letbase (u mod b)) as [-> _]; [lia|done|].
    split; [by destruct r|]. rewrite Z.mod_eq, Hz by lia. lia.
  - destruct (IH (u / b)) as (c & cs & -> & Hc).
    { split; [|apply Z.div_lt_upper_bound; lia].
      pose proof (Z.div_pos u b). lia. }
    by exists c, (cs ++ [digit letbase (u mod b)]).
Qed.

(** A digit loop whose division is exact up to [bound] computes the numeral. *)
Lemma digit_loop_numeral quot rem bound room u s :
  (forall x, 0 <= x <= bound -> quot x b = x / b /\ rem x b = x mod b) ->
  bound < 2 ^ 32 -> 0 <= u <= bound -> u < b ^ Z.of_nat room ->
  digit_loop quot rem b letbase room u s =
    Some ((room - length (numeral b letbase room u))%nat, numeral b letbase room u ++ s).
Proof.
  intros Hqr Hbound. revert u s. induction room as [|r IH]; intros u s Hu Hr.
  - simpl in Hr. assert (u = 0) as -> by lia. done.
  - cbn [digit_loop numeral]. destruct (Z.eqb_spec u 0) as [->|]; [done|].
    rewrite Nat2Z.inj_succ, Z.pow_succ_r in Hr by lia.
    destruct (Hqr u) as [-> ->]; [lia|].
    assert (Hd : 0 <= u / b <= bound).
    { split; [apply Z.div_pos; lia|]. apply Z.div_le_upper_bound; nia. }
    pose proof (Z.mod_pos_bound u b ltac:(lia)).
    rewrite (u32_small (u / b)) by (unfold is_u32; lia).
    rewrite IH by (try apply Z.div_lt_upper_bound; lia).
    pose proof (numeral_length r (u / b)). rewrite <- app_assoc.
    assert (Ht : u8 ((if 10 <=? u mod b then u mod b + (letbase - c_zero - 10) else u mod b) + c_zero)
                 = digit letbase (u mod b)).
    { destruct (digit_value_digit letbase (u mod b)) as [_ Hd8]; [lia|done|].
      rewrite <- (u8_small (digit letbase (u mod b))) by done. f_equal.
      unfold digit. destruct (10 <=? u mod b); lia. }
    rewrite Ht. f_equal. f_equal. lens.
Qed.
End Numerals.

Lemma getq_exact b x : 2 <= b <= 16 -> 0 <= x <= 2 ^ 31 - 1 ->
  getquotient x b = x / b /\ getremainder x b = x mod b.
Proof.
  intros Hb Hx. unfold getquotient, getremainder.
  rewrite s32_small by (unfold is_s32; lia).
  by rewrite Z.quot_div_nonneg, Z.rem_mod_nonneg by lia.
Qed.

Lemma ugetq_exact b x : 2 <= b <= 16 -> 0 <= x <= 2 ^ 32 - 1 ->
  ugetq x b = x / b /\ ugetr x b = x mod b.
Proof.
  intros Hb Hx. unfold ugetq, ugetr.
  rewrite !(u32_small x), !(u32_small b) by (unfold is_u32; lia).
  pose proof (Z.mod_pos_bound x b ltac:(lia)).
  assert (0 <= x / b < 2 ^ 31)
    by (split; [apply Z.div_pos; lia|apply Z.div_lt_upper_bound; nia]).
  by rewrite !s32_small by (unfold is_s32; lia).
Qed.

Lemma room_enough b : 2 <= b -> forall u, u < 2 ^ 32 -> u < b ^ Z.of_nat 32.
Proof.
  intros Hb u Hu. apply Z.lt_le_trans with (2 ^ 32); [done|].
  apply (Z.pow_le_mono_l 2 b 32). lia.
Qed.

(** The text of an unsigned number and of a decimal [int]. *)
Definition utext (b letbase u : Z) : list Z :=
  if u =? 0 then [c_zero] else numeral b letbase 21 u.

Definition itext (i : Z) : list Z :=
  if i <? 0 then c_minus :: utext 10 c_a (- i) else utext 10 c_a i.

(** Reading them back. *)
Definition read_int (cs : list Z) : Z :=
  match cs with
  | c :: r => if c =? c_minus then - numeral_value 10 c_a r else numeral_value 10 c_a cs
  | [] => 0
  end.

Lemma base_21 b u : b = 10 \/ b = 16 -> u < 2 ^ 32 -> u < b ^ Z.of_nat 21.
Proof.
  intros Hb Hu. apply Z.lt_trans with (2 ^ 32); [done|]. by destruct Hb as [-> | ->].
Qed.

Lemma utext_value b letbase u :
  b = 10 \/ b = 16 -> letbase = c_a \/ letbase = c_A -> is_u32 u ->
  numeral_value b letbase (utext b letbase u) = u.
Proof.
  intros Hb Hl Hu. unfold utext. destruct (Z.eqb_spec u 0) as [->|]; [done|].
  apply numeral_correct; [lia|done|]. unfold is_u32 in Hu.
  split; [lia|]. apply base_21; [done|lia].
Qed.

Lemma utext_bytes b letbase u :
  b = 10 \/ b = 16 -> letbase = c_a \/ letbase = c_A -> Forall is_u8 (utext b letbase u).
Proof.
  intros Hb Hl. unfold utext. destruct (u =? 0).
  - constructor; [done|constructor].
  - apply numeral_bytes; [lia|done].
Qed.

Lemma utext_head b letbase u :
  b = 10 \/ b = 16 -> letbase = c_a \/ letbase = c_A -> is_u32 u ->
  exists c cs, utext b letbase u = c :: cs /\ c <> c_minus.
Proof.
  intros Hb Hl Hu. unfold utext. destruct (Z.eqb_spec u 0) as [->|].
  - by eexists _, _.
  - destruct (numeral_leading b letbase ltac:(lia) Hl 21 u) as (c & cs & Heq & Hc).
    { unfold is_u32 in Hu. split; [lia|]. apply base_21; [done|lia]. }
    exists c, cs. split; [done|]. intros ->.
    pose proof (utext_bytes b letbase u Hb Hl) as Hby. unfold utext in Hby.
    (* every character of a numeral is a digit, and a minus sign is not one *)
    assert (Hd : forall room v, c_minus ∉ numeral b letbase room v).
    { clear -Hb Hl. induction room as [|r IH]; intros v; cbn [numeral];
        [apply not_elem_of_nil|].
      destruct (v =? 0); [apply not_elem_of_nil|].
      rewrite elem_of_app, list_elem_of_singleton. intros [Hin|Hin]; [by eapply IH|].
      pose proof (Z.mod_pos_bound v b ltac:(lia)).
      unfold digit, c_minus, c_zero, c_a, c_A in *.
      destruct (Z.leb_spec 10 (v mod b)); lia. }
    apply (Hd 21%nat u). rewrite Heq. apply list_elem_of_here.
Qed.

(** Base-16 conversion through the signed division, as in Hello1: the leading
    character of a value with its top bit set is below the digit zero. *)
Lemma digit_loop_negative letbase room n s :
  0 < n <= 2 ^ 31 -> n < 16 ^ Z.of_nat room ->
  exists room' c cs,
    digit_loop getquotient getremainder 16 letbase room (u32 (- n)) s = Some (room', c :: cs) /\
    33 <= c < c_zero.
Proof.
  revert n s. induction room as [|r IH]; intros n s Hn Hr; [simpl in Hr; lia|].
  rewrite Nat2Z.inj_succ, Z.pow_succ_r in Hr by lia. cbn [digit_loop].
  assert (Hs : s32 (u32 (- n)) = - n) by (rewrite s32_u32; apply s32_small; unfold is_s32; lia).
  destruct (Z.eqb_spec (u32 (- n)) 0) as [Hz|_].
  { rewrite Hz in Hs. change (s32 0) with 0 in Hs. lia. }
  assert (Hgq : getquotient (u32 (- n)) 16 = - (n / 16))
    by (unfold getquotient; rewrite Hs, Z.quot_opp_l, Z.quot_div_nonneg by lia; done).
  assert (Hgr : getremainder (u32 (- n)) 16 = - (n mod 16))
    by (unfold getremainder; rewrite Hs, Z.rem_opp_l', Z.rem_mod_nonneg by lia; done).
  rewrite Hgq, Hgr.
  pose proof (Z.mod_pos_bound n 16 ltac:(lia)).
  destruct (Z.leb_spec 10 (- (n mod 16))) as [|_]; [lia|].
  destruct (Z.eq_dec (n / 16) 0) as [Hq|Hq].
  - rewrite Hq. simpl (u32 (- 0)).
    assert (Hmod : n mod 16 = n) by (rewrite Z.mod_eq, Hq; lia). rewrite Hmod.
    eexists _, _, _. split; [by destruct r|].
    unfold u8, c_zero. rewrite Z.mod_small; lia.
  - apply IH.
    + pose proof (Z.div_pos n 16 ltac:(lia)). split; [lia|].
      apply Z.div_le_upper_bound; lia.
    + apply Z.div_lt_upper_bound; lia.
Qed.

#[local] Arguments numeral : simpl never.
#[local] Arguments digit_loop : simpl never.

(** The unsigned conversions of the Timer program write the number in full. *)
Lemma printu_text_correct u b width pad letbase :
  b = 10 \/ b = 16 -> letbase = c_a \/ letbase = c_A ->
  printu_text u b width pad letbase = Some (pad_text (utext b letbase (u32 u)) width pad).
Proof.
  intros Hb Hl. unfold printu_text, utext. pose proof (u32_range u) as Hu.
  destruct (u32 u =? 0); [done|]. unfold is_u32 in Hu.
  change (PRINT_BUF_LEN - 1)%nat with 21%nat.
  rewrite (digit_loop_numeral b letbase ltac:(lia) Hl ugetq ugetr (2 ^ 32 - 1)).
  - simpl. by rewrite app_nil_r.
  - intros x Hx. apply ugetq_exact; lia.
  - lia.
  - lia.
  - apply base_21; [done|lia].
Qed.

(** [printi] in base ten, the most negative [int] apart. *)
Lemma printi_text_correct i :
  s32 i <> - 2 ^ 31 -> printi_text i 10 1 0 0 c_a = Some (itext (s32 i)).
Proof.
  intros Hmin. unfold printi_text, itext, utext. pose proof (s32_range i) as Hr.
  set (x := s32 i) in *. unfold is_s32 in Hr.
  change (negb (1 =? 0) && (10 =? 10)) with true. cbn [andb].
  destruct (Z.eqb_spec x 0) as [->|Hnz]; [done|].
  destruct (Z.eqb_spec x (- 2 ^ 31)); [done|].
  rewrite andb_false_r. change (PRINT_BUF_LEN - 1)%nat with 21%nat.
  destruct (Z.ltb_spec x 0) as [Hneg|Hpos].
  - rewrite (u32_small (- x)) by (unfold is_u32; lia).
    rewrite (digit_loop_numeral 10 c_a ltac:(lia) (or_introl eq_refl) getquotient getremainder (2 ^ 31 - 1)).
    + simpl. destruct (Z.eqb_spec (- x) 0); [lia|].
      pose proof (numeral_length 10 c_a 21 (- x)) as Hlen.
      destruct (Nat.eqb_spec (21 - length (numeral 10 c_a 21 (- x))) 0) as [Hz|].
      * (* at most ten digits, so a cell is left for the sign *)
        rewrite (numeral_room 10 c_a ltac:(lia) 10 21) in Hz
          by (try change (10 ^ Z.of_nat 10) with 10000000000; lia).
        pose proof (numeral_length 10 c_a 10 (- x)). lia.
      * unfold pad_text. simpl. by rewrite app_nil_r.
    + intros y Hy. apply getq_exact; lia.
    + lia.
    + lia.
    + apply base_21; [by left|lia].
  - rewrite (u32_small x) by (unfold is_u32; lia).
    rewrite (digit_loop_numeral 10 c_a ltac:(lia) (or_introl eq_refl) getquotient getremainder (2 ^ 31 - 1)).
    + simpl. rewrite app_nil_r. unfold pad_text.
      replace (Z.to_nat (0 - _)) with 0%nat by lia. done.
    + intros y Hy. apply getq_exact; lia.
    + lia.
    + lia.
    + apply base_21; [by left|lia].
Qed.

Lemma read_int_itext i : is_s32 i -> read_int (itext i) = i.
Proof.
  intros Hi. unfold itext, is_s32 in *. destruct (Z.ltb_spec i 0).
  - cbn [read_int]. change (c_minus =? c_minus) with true. cbn.
    rewrite (utext_value 10 c_a) by (unfold is_u32; auto; lia). lia.
  - assert (Hu : is_u32 i) by (unfold is_u32; lia).
    destruct (utext_head 10 c_a i) as (c & cs & Heq & Hc); [auto|auto|done|].
    unfold read_int. rewrite Heq. destruct (Z.eqb_spec c c_minus); [done|].
    rewrite <- Heq. apply utext_value; auto.
Qed.

Lemma pad_text_length s width pad :
  length (pad_text s width pad) = Nat.max (length s) (Z.to_nat width).
Proof. unfold pad_text. destruct (Z.land pad PAD_RIGHT =? 0); lens. Qed.

(** Zeros in front of a numeral do not change its value. *)
Lemma numeral_value_zeros b letbase n cs :
  numeral_value b letbase (replicate n c_zero ++ cs) = numeral_value b letbase cs.
Proof.
  unfold numeral_value. rewrite foldl_app. f_equal.
  induction n as [|n IH]; [done|]. simpl.
  by replace (0 * b + digit_value letbase c_zero) with 0 by (unfold digit_value; simpl; lia).
Qed.


(** ** Every character of a text is a byte *)

Definition arg_bytes (a : arg) : Prop :=
  match a with AInt _ => True | AStr s => Forall is_u8 (default [] s) end.

Lemma chars_bytes s : Forall is_u8 (chars s).
Proof.
  assert (Hc : forall c, is_u8 (Z.of_N (N_of_ascii c))).
  { intros c. pose proof (N_ascii_bounded c). unfold is_u8. lia. }
  enough (H : forall n s, (String.length s <= n)%nat -> Forall is_u8 (chars s))
    by (by apply (H (String.length s))).
  intros n. induction n as [|n IH]; intros [|c r] Hn; simpl in Hn; try by constructor || lia.
  destruct (decide (c = "\"%char)) as [->|Hne].
  - destruct r as [|c2 r2]; [by repeat constructor|].
    destruct (decide (c2 = "n"%char)) as [->|Hne2].
    + cbn [chars]. constructor; [done|]. apply IH. simpl in Hn. lia.
    + enough (chars (String "\" (String c2 r2)) = 92 :: chars (String c2 r2)) as ->
        by (constructor; [done|apply IH; simpl in *; lia]).
      destruct c2 as [[] [] [] [] [] [] [] []]; done.
  - enough (chars (String c r) = Z.of_N (N_of_ascii c) :: chars r) as ->
      by (constructor; [done|apply IH; lia]).
    destruct c as [[] [] [] [] [] [] [] []]; done.
Qed.

Lemma pad_text_bytes s width pad : Forall is_u8 s -> Forall is_u8 (pad_text s width pad).
Proof.
  intros Hs. unfold pad_text. set (pc := if _ && _ then c_zero else c_space).
  assert (Hpc : is_u8 pc) by (unfold pc; by destruct (_ && _)).
  assert (Hf : forall n, Forall is_u8 (replicate n pc))
    by (intros n; apply Forall_replicate; done).
  destruct (Z.land pad PAD_RIGHT =? 0); apply Forall_app; auto.
Qed.

Lemma digit_loop_bytes quot rem b letbase room u s room' s' :
  digit_loop quot rem b letbase room u s = Some (room', s') ->
  Forall is_u8 s -> Forall is_u8 s'.
Proof.
  revert u s. induction room as [|r IH]; intros u s; unfold digit_loop; fold digit_loop;
    destruct (u =? 0); try done; try by intros [= _ <-].
  intros Hd Hs. eapply IH; [exact Hd|]. constructor; [apply u8_range|done].
Qed.

Lemma printi_text_bytes i b sg width pad letbase t :
  printi_text i b sg width pad letbase = Some t -> Forall is_u8 t.
Proof.
  unfold printi_text. destruct (s32 i =? 0).
  { intros [= <-]. apply pad_text_bytes. by repeat constructor. }
  destruct (_ && (_ =? _)); [done|].
  destruct (digit_loop _ _ _ _ _ _ _) as [[room ds]|] eqn:Hd; [|done]. simpl.
  apply digit_loop_bytes in Hd; [|constructor].
  repeat case_match; try done; intros [= <-].
  - constructor; [done|]. by apply pad_text_bytes.
  - apply pad_text_bytes. by constructor.
  - by apply pad_text_bytes.
Qed.

Lemma printu_text_bytes u b width pad letbase t :
  printu_text u b width pad letbase = Some t -> Forall is_u8 t.
Proof.
  unfold printu_text. destruct (u32 u =? 0).
  { intros [= <-]. apply pad_text_bytes. by repeat constructor. }
  destruct (digit_loop _ _ _ _ _ _ _) as [[room ds]|] eqn:Hd; [|done]. simpl.
  apply digit_loop_bytes in Hd; [|constructor]. intros [= <-]. by apply pad_text_bytes.
Qed.

Definition conv_bytes (tc : text_conversions) : Prop :=
  forall k f v width pad t, tc k = Some f -> f v width pad = Some t -> Forall is_u8 t.

Lemma text_timer_bytes : conv_bytes text_timer.
Proof.
  intros k f v width pad t. unfold text_timer.
  case_tests; try done; intros [= <-]; eauto using printi_text_bytes, printu_text_bytes.
Qed.

Lemma conv_text_bytes tc k width pad args t args' :
  conv_bytes tc -> Forall arg_bytes args ->
  conv_text tc k width pad args = Some (t, args') -> Forall is_u8 t /\ Forall arg_bytes args'.
Proof.
  intros Htc Ha. unfold conv_text. destruct (k =? c_s).
  { destruct Ha as [|[v|s] args Ha1 Ha]; [done|done|]. intros [= <- <-]. split; [|done].
    apply pad_text_bytes. destruct s as [s|]; [done|exact (chars_bytes "(null)")]. }
  destruct (k =? c_c).
  { destruct Ha as [|[v|s] args Ha1 Ha]; [done| |done]. intros [= <- <-]. split; [|done].
    apply pad_text_bytes. destruct (u8 v =? 0); [constructor|].
    constructor; [apply u8_range|constructor]. }
  destruct (tc k) as [f|] eqn:Ek; [|intros [= <- <-]; by split].
  destruct Ha as [|[v|s] args Ha1 Ha]; [done| |done].
  intros (u & Hu & [= <- <-])%bind_Some. split; [by eapply Htc|done].
Qed.

Lemma skip_zeros_bytes pad r : Forall is_u8 r -> Forall is_u8 (skip_zeros pad r).2.
Proof.
  intros Hr. revert pad. induction Hr as [|c r Hc Hr IH]; intros pad; simpl; [constructor|].
  destruct (c =? c_zero); [apply IH|]. by constructor.
Qed.

Lemma get_width_bytes w r w' r' :
  get_width w r = Some (w', r') -> Forall is_u8 r -> Forall is_u8 r'.
Proof.
  intros Hw Hr. revert w Hw. induction Hr as [|c r Hc Hr IH]; intros w; simpl.
  { intros [= _ <-]. constructor. }
  destruct (_ && _); [|intros [= _ <-]; by constructor].
  destruct (_ <? _); [apply IH|done].
Qed.

Lemma directive_bytes r pad w k r' :
  directive r = Some (pad, w, k, r') -> Forall is_u8 r -> Forall is_u8 r'.
Proof.
  unfold directive. intros Hd Hr.
  assert (H2 : Forall is_u8 (match r with
     | c1 :: r1 => if c1 =? c_minus then (PAD_RIGHT, r1) else (0, r) | [] => (0, r) end).2).
  { destruct Hr as [|c1 r1 Hc Hr]; [constructor|].
    destruct (c1 =? c_minus); [done|]. by constructor. }
  destruct (match r with [] => _ | _ => _ end) as [pad0 r2]. simpl in H2.
  pose proof (skip_zeros_bytes pad0 r2 H2) as H3.
  destruct (skip_zeros pad0 r2) as [pad1 r3]. simpl in H3.
  destruct (get_width 0 r3) as [[w1 [|k1 r5]]|] eqn:Ew; [done| |done].
  injection Hd as <- <- <- <-. eapply get_width_bytes in Ew; [|done].
  by apply Forall_inv_tail in Ew.
Qed.

Lemma render_bytes tc n fmt args t :
  conv_bytes tc -> Forall is_u8 fmt -> Forall arg_bytes args ->
  render tc n fmt args = Some t -> Forall is_u8 t.
Proof.
  intros Htc. revert fmt args t. induction n as [|n IH]; intros fmt args t Hf Ha; [done|].
  cbn [render]. destruct Hf as [|c r Hc Hf]; [intros [= <-]; constructor|].
  destruct (c =? c_percent).
  2: { intros (u & Hu & ->)%fmap_Some. constructor; [done|]. by eapply IH. }
  destruct r as [|c1 r1]; [intros [= <-]; constructor|].
  pose proof (Forall_inv Hf) as Hc1. pose proof (Forall_inv_tail Hf) as Hr1.
  destruct (c1 =? c_percent).
  { intros (u & Hu & ->)%fmap_Some. constructor; [done|]. by eapply IH. }
  intros ([[[pad w] k] r5] & Hd & ([u args'] & Hct & (v & Hr & ->)%fmap_Some)%bind_Some)%bind_Some.
  destruct (conv_text_bytes _ _ _ _ _ _ _ Htc Ha Hct) as [Hu Ha'].
  apply Forall_app. split; [done|]. eapply IH; [|exact Ha'|exact Hr].
  by eapply directive_bytes.
Qed.

(** A format that is one integer directive. *)
Lemma text_directive tc fmt c1 r pad width k v f t :
  chars fmt = c_percent :: c1 :: r -> (c1 =? c_percent) = false ->
  directive (c1 :: r) = Some (pad, width, k, []) ->
  (k =? c_s) = false -> (k =? c_c) = false -> tc k = Some f -> f v width pad = Some t ->
  text tc fmt [AInt v] = Some t.
Proof.
  intros Hf Hc Hd Hs Hk Htc Ht. unfold text. rewrite Hf. cbn [length render].
  rewrite Z.eqb_refl, Hc, Hd. cbn [mbind option_bind].
  unfold conv_text. rewrite Hs, Hk, Htc. rewrite Ht. simpl. by rewrite app_nil_r.
Qed.

(** ** Formats that always have a text

    A check on the shape of the format and the kinds of its arguments; the only
    value it looks at is that of a [%d] argument. *)
Fixpoint fmt_ok (n : nat) (fmt : list Z) (args : list arg) : bool :=
  match n with
  | O => false
  | S n =>
    match fmt with
    | [] => true
    | c :: r =>
      if c =? c_percent then
        match r with
        | [] => true
        | c1 :: r1 =>
          if c1 =? c_percent then fmt_ok n r1 args else
          match directive r with
          | None => false
          | Some (_, _, k, r5) =>
            if k =? c_s then
              match args with AStr _ :: args => fmt_ok n r5 args | _ => false end
            else if k =? c_d then
              match args with
              | AInt v :: args => fmt_ok n r5 args && negb (s32 v =? - 2 ^ 31)
              | _ => false
              end
            else if existsb (Z.eqb k) [c_c; c_u; c_x; c_X] then
              match args with AInt _ :: args => fmt_ok n r5 args | _ => false end
            else fmt_ok n r5 args
          end
        end
      else fmt_ok n r args
    end
  end.

Definition printf_ok (fmt : string) (args : list arg) : bool :=
  fmt_ok (S (length (chars fmt))) (chars fmt) args.

Lemma printi_text_total v width pad :
  s32 v <> - 2 ^ 31 -> is_Some (printi_text v 10 1 width pad c_a).
Proof.
  intros Hmin. pose proof (s32_range v) as Hr. unfold is_s32 in Hr. unfold printi_text.
  destruct (Z.eqb_spec (s32 v) 0); [by eexists|].
  change (negb (1 =? 0) && (10 =? 10)) with true. cbn [andb].
  destruct (Z.eqb_spec (s32 v) (- 2 ^ 31)); [done|]. rewrite andb_false_r.
  change (PRINT_BUF_LEN - 1)%nat with 21%nat.
  set (u := if s32 v <? 0 then u32 (- s32 v) else u32 (s32 v)).
  assert (Hu : 0 <= u <= 2 ^ 31 - 1)
    by (unfold u; destruct (Z.ltb_spec (s32 v) 0); rewrite u32_small; unfold is_u32; lia).
  rewrite (digit_loop_numeral 10 c_a ltac:(lia) (or_introl eq_refl) getquotient getremainder (2 ^ 31 - 1)).
  - assert (Hlen : (length (numeral 10 c_a 21 u) <= 10)%nat).
    { rewrite (numeral_room 10 c_a ltac:(lia) 10 21)
        by (try change (10 ^ Z.of_nat 10) with 10000000000; lia).
      apply numeral_length. }
    simpl. destruct (Nat.eqb_spec (21 - length (numeral 10 c_a 21 u)) 0); [lia|].
    by repeat case_match; eexists.
  - intros y Hy. apply getq_exact; lia.
  - lia.
  - lia.
  - apply base_21; [by left|lia].
Qed.

Lemma fmt_ok_render n fmt args :
  fmt_ok n fmt args = true -> is_Some (render text_timer n fmt args).
Proof.
  revert fmt args. induction n as [|n IH]; intros fmt args; [done|]. cbn [fmt_ok render].
  destruct fmt as [|c r]; [by eexists|].
  assert (Hmap : forall (f : list Z -> list Z) r args, fmt_ok n r args = true ->
    is_Some (f <$> render text_timer n r args)) by (intros; rewrite fmap_is_Some; by apply IH).
  destruct (c =? c_percent); [|apply Hmap].
  destruct r as [|c1 r1]; [by eexists|].
  destruct (c1 =? c_percent); [apply Hmap|].
  destruct (directive (c1 :: r1)) as [[[[pad w] k] r5]|]; [|done]. simpl.
  unfold conv_text, text_timer.
  destruct (Z.eqb_spec k c_s) as [->|].
  { destruct args as [|[v|s] args]; try done. apply Hmap. }
  destruct (Z.eqb_spec k c_d) as [->|].
  { destruct args as [|[v|s] args]; try done.
    intros [Hok Hv]%andb_true_iff. apply negb_true_iff, Z.eqb_neq in Hv. simpl.
    destruct (printi_text_total v w pad Hv) as [t ->]. by apply Hmap. }
  simpl existsb. destruct (Z.eqb_spec k c_c) as [->|].
  { destruct args as [|[v|s] args]; try done. apply Hmap. }
  destruct (Z.eqb_spec k c_u) as [->|].
  { destruct args as [|[v|s] args]; try done. simpl.
    rewrite printu_text_correct by auto. apply Hmap. }
  destruct (Z.eqb_spec k c_x) as [->|].
  { destruct args as [|[v|s] args]; try done. simpl.
    rewrite printu_text_correct by auto. apply Hmap. }
  destruct (Z.eqb_spec k c_X) as [->|].
  { destruct args as [|[v|s] args]; try done. simpl.
    rewrite printu_text_correct by auto. apply Hmap. }
  simpl. apply Hmap.
Qed.

(** Such a [printf] returns having only sent characters. *)
Lemma printf_quiet {D G} `{UartReady D} fuel fmt args (s : st D G) :
  enough fuel -> Forall arg_bytes args -> printf_ok fmt args = true ->
  returns (printf fuel fmt args) s
    (fun _ s' tr => glb s' = glb s /\ effects tr = []).
Proof.
  intros Hf Ha Hok. destruct (fmt_ok_render _ _ _ Hok) as [t Ht].
  eapply returns_weaken.
  - apply (printf_with_ok fuel _ text_timer fmt args t); auto using conv_timer_agree.
    eapply render_bytes; [apply text_timer_bytes|apply chars_bytes|exact Ha|exact Ht].
  - cbn beta. intros n s' tr (_ & Hg & Hs & He). by split.
Qed.

(** ** The results on [printf] *)

(** C1: on a console whose transmitter drains, [printf] of the Timer program
    returns, for every format and arguments the format defines a text for; what
    the run sends to the console is exactly that text, in order, with a carriage
    return before each newline; no other register is written, no global changes,
    and the result is the number of characters of the text. *)
Theorem printf_sends_text {D G} `{UartReady D} fuel fmt args t (s : st D G) :
  enough fuel -> Forall arg_bytes args -> text text_timer fmt args = Some t ->
  returns (printf fuel fmt args) s
    (fun n s' tr => n = Z.of_nat (length t) /\ glb s' = glb s /\
       says (crlf t) tr).
Proof.
  intros Hf Ha Ht. apply printf_with_ok with text_timer; auto using conv_timer_agree.
  eapply render_bytes; [apply text_timer_bytes|apply chars_bytes|exact Ha|exact Ht].
Qed.

Lemma printf_sends_text_witness :
  returns (printf 10 "T0 = %08x\n" [AInt 0xf4240]) (St (UartSim 2 [] []) tt)
    (fun n s' tr => n = 14 /\ glb s' = tt /\
       says (crlf (chars "T0 = 000f4240\n")) tr).
Proof.
  apply (printf_sends_text (D:=uart_sim) 10 "T0 = %08x\n" [AInt 0xf4240]
    (chars "T0 = 000f4240\n")); [unfold enough; simpl; lia| |reflexivity].
  repeat constructor.
Defined.

(** Printing into a buffer always ends: for every format and arguments the
    loop over the format needs no more rounds than the format has characters,
    so the run returns the filled buffer or stops as undefined, without
    touching the hardware; and when the format defines a text, the buffer
    receives that text and the terminator, and the result is its length. *)
Theorem print_buffer_total {D G} `{Machine D} fuel b fmt args (s : st D G) :
  buffered (D:=D) (G:=G) (print fuel (conv_timer fuel) (Some b) fmt args) /\
  (forall t, render text_timer (S (length fmt)) fmt args = Some t ->
   print fuel (conv_timer fuel) (Some b) fmt args s =
     Ok (Some (b ++ map u8 t ++ [0]), Z.of_nat (length t)) s []).
Proof.
  split.
  - unfold print. apply buffered_bind.
    + apply print_loop_buffered; [apply conv_timer_buffered|lia].
    + intros b' n. cbn [fst snd]. apply buffered_ret.
  - intros t Ht. unfold print.
    pose proof (print_loop_sends fuel _ _ _ (Some b) _ _ 0 _ (conv_timer_agree fuel) Ht s) as Hs.
    unfold bind at 1. rewrite Hs. unfold bind. rewrite emit_buffer. simpl.
    by rewrite <- app_assoc.
Qed.

(** [%d] prints a decimal numeral that reads back as the argument, for
    every [int] but the most negative one (whose negation overflows). *)
Theorem printf_d_roundtrip i :
  s32 i <> - 2 ^ 31 ->
  exists t, text text_timer "%d" [AInt i] = Some t /\ read_int t = s32 i.
Proof.
  intros Hi. exists (itext (s32 i)). split.
  - eapply text_directive; try reflexivity. by apply printi_text_correct.
  - apply read_int_itext, s32_range.
Qed.

Lemma printf_d_roundtrip_witness :
  exists t, text text_timer "%d" [AInt (-1234)] = Some t /\ read_int t = -1234.
Proof. apply (printf_d_roundtrip (-1234)). vm_compute. discriminate. Defined.

(** [%08x] of the Timer program prints exactly eight hexadecimal digits
    whose value is the argument as an unsigned word, for every argument. *)
Theorem printf_08x_exact v :
  exists t, text text_timer "%08x" [AInt v] = Some t /\
    length t = 8%nat /\ numeral_value 16 c_a t = u32 v.
Proof.
  exists (pad_text (utext 16 c_a (u32 v)) 8 PAD_ZERO).
  assert (Hl : (length (utext 16 c_a (u32 v)) <= 8)%nat).
  { unfold utext. destruct (u32 v =? 0); [simpl; lia|]. pose proof (u32_range v) as Hu.
    unfold is_u32 in Hu.
    rewrite (numeral_room 16 c_a ltac:(lia) 8 21)
      by (try change (16 ^ Z.of_nat 8) with (2 ^ 32); lia).
    apply numeral_length. }
  split; [|split].
  - eapply text_directive; try reflexivity. cbn beta. apply printu_text_correct; auto.
  - rewrite pad_text_length. lia.
  - unfold pad_text. simpl. rewrite numeral_value_zeros.
    apply utext_value; auto. apply u32_range.
Qed.

(** [%x] of the Hello1 program, which divides as [int], is wrong for every
    argument with its top bit set: the text starts with a character below the
    digit zero, which is no hexadecimal digit. *)
Theorem hello_hex_wrong v :
  2 ^ 31 <= u32 v ->
  exists c cs, text text_hello "%x" [AInt v] = Some (c :: cs) /\ 33 <= c < c_zero.
Proof.
  intros Hv. pose proof (u32_range v) as Hu. unfold is_u32 in Hu.
  assert (Hs : s32 v = u32 v - 2 ^ 32) by (rewrite <- s32_u32; apply s32_neg; lia).
  destruct (digit_loop_negative c_a 21 (2 ^ 32 - u32 v) []) as (room & c & cs & Hd & Hc).
  { lia. }
  { apply base_21; [by right|lia]. }
  exists c, cs. split; [|done].
  eapply text_directive; try reflexivity. cbn beta. unfold printi_text. rewrite Hs.
  destruct (Z.eqb_spec (u32 v - 2 ^ 32) 0); [lia|]. simpl negb. cbn [andb].
  change (PRINT_BUF_LEN - 1)%nat with 21%nat.
  replace (u32 (u32 v - 2 ^ 32)) with (u32 (- (2 ^ 32 - u32 v))) by (f_equal; lia).
  by rewrite Hd.
Qed.

Lemma hello_hex_wrong_witness :
  exists c cs, text text_hello "%x" [AInt 0xfedc1234] = Some (c :: cs) /\ 33 <= c < c_zero.
Proof. apply (hello_hex_wrong 0xfedc1234). vm_compute. discriminate. Defined.
