(* ===== verification/Gic.v ===== *)
(** The GIC-400 interrupt controller driver of the Timer program
    (src/Timer/intcon_gic400.c): the two register blocks, enabling, disabling,
    raising, acknowledging and initialising interrupts, and the interface
    [GicHw] that states what the distributor's enable registers do. *)

From S2P Require Import Prelude Machine.

(** src/Timer/fire3_ints.h *)
Definition IRQ_SGI_0 : Z := 0.
Definition IRQ_PPI_0 : Z := 16.
Definition IRQ_BASE : Z := 32.
Definition IRQ_TIMER0 : Z := IRQ_BASE + 23.
Definition IRQ_UART0 : Z := IRQ_BASE + 7.

Definition NUM_CONFIG : Z := 32.
Definition NUM_TARGET : Z := 128.
Definition NUM_PRIO : Z := 128.
Definition NUM_MASK : Z := 16.

(** [struct gic400_dist] *)
Definition gic400_dist : list field :=
  [word "ctrl"; word "type"; word "iidr"; words "__pad0" 29;
   words "group" NUM_MASK; words "__pad00" 16;
   words "eset" NUM_MASK; words "__pad1" 16;
   words "eclear" NUM_MASK; words "__pad2" 16;
   words "pset" NUM_MASK; words "__pad3" 16;
   words "pclear" NUM_MASK; words "__pad4" 16;
   words "aset" NUM_MASK; words "__pad5" 16;
   words "aclear" NUM_MASK; words "__pad55" 16;
   words "prio" NUM_PRIO; words "__pad6" 128;
   words "target" NUM_TARGET; words "__pad7" 128;
   words "config" NUM_CONFIG; words "__pad8" 32;
   word "ppi_stat"; words "spi_stat" 15; words "__pad9" 112;
   word "sgi"; words "__pad10" 3; words "sgi_pclear" 4; words "sgi_pset" 4;
   words "__pad11" 40;
   word "pid4"; word "pid5"; word "pid6"; word "pid7";
   word "pid0"; word "pid1"; word "pid2"; word "pid3";
   word "cid0"; word "cid1"; word "cid2"; word "cid3"].

(** [struct gic400_cpu] *)
Definition gic400_cpu : list field :=
  [word "ctrl"; word "primask"; word "bpr"; word "iack"; word "eoi";
   word "run_pri"; word "high_pri"; word "abpr"; word "aiack"; word "aeoi";
   word "ahigh_pri"; words "_pad0" 41; word "apr0"; words "_pad1" 3;
   word "nsapr0"; words "_pad2" 6; word "iid"; words "_pad3" 960; word "dir"].

Definition GIC_DIST_BASE : Z := 0xc0009000.
Definition GIC_CPU_BASE : Z := 0xc000a000.
Definition G0_ENABLE : Z := 0x01.
Definition G1_ENABLE : Z := 0x02.
Definition SGI_LIST : Z := 0.
Definition SGI_ALL : Z := Z.shiftl 1 24.
Definition SGI_SELF : Z := Z.shiftl 2 24.

(** Addresses of [gp->n], [gp->n[x]] and [cp->n]; as in C, an index beyond the
    array is an address beyond it. *)
Definition gp (n : string) : Z := GIC_DIST_BASE + offsetof gic400_dist n.
Definition gpx (n : string) (x : Z) : Z := gp n + 4 * x.
Definition cp (n : string) : Z := GIC_CPU_BASE + offsetof gic400_cpu n.

(** [unsigned long mask = 1 << (irq%32)]: the shift is of an [int]. *)
Definition irq_mask (irq : Z) : Z := u64 (s32 (Z.shiftl 1 (Z.rem irq 32))).

Section Driver.
Context {D G : Type} `{Machine D}.

(** The common shape of the three functions below: one store of the mask into
    one of the bit arrays; a negative remainder makes the shift undefined. *)
Definition mask_store (n : string) (irq : Z) : prog D G unit :=
  let x := Z.quot irq 32 in
  if Z.rem irq 32 <? 0 then halt Undef else wr32 (gpx n x) (irq_mask irq).

Definition intcon_ena (irq : Z) : prog D G unit := mask_store "eset" irq.
Definition intcon_dis (irq : Z) : prog D G unit := mask_store "eclear" irq.
Definition gic_unpend (irq : Z) : prog D G unit := mask_store "pclear" irq.

Definition gic_soft (sgi_num cpu : Z) : prog D G unit :=
  if (16 + cpu <? 0) || (32 <=? 16 + cpu) then halt Undef else
  wr32 (gp "sgi") (Z.lor (Z.lor SGI_LIST (s32 (Z.shiftl 1 (16 + cpu)))) sgi_num).

Definition gic_soft_self (sgi_num : Z) : prog D G unit :=
  wr32 (gp "sgi") (Z.lor SGI_SELF sgi_num).

Definition intcon_irqwho : prog D G Z := v <-- rd32 (cp "iack") ;; ret (s32 v).

Definition intcon_irqack (irq : Z) : prog D G unit :=
  wr32 (cp "eoi") irq ;;; gic_unpend irq.

Definition gic_cpu_init : prog D G unit :=
  wr32 (gpx "eclear" 0) 0xffff0000 ;;;
  wr32 (gpx "eset" 0) 0x0000ffff ;;;
  for_each 0 8 (fun i => wr32 (gpx "prio" i) 0xa0a0a0a0) ;;;
  wr32 (cp "primask") 0xf0 ;;;
  wr32 (cp "ctrl") 1.

Definition gic_init : prog D G unit :=
  wr32 (gp "ctrl") 3 ;;;
  for_each 2 NUM_CONFIG (fun i => wr32 (gpx "config" i) 0) ;;;
  for_each 8 NUM_TARGET (fun i => wr32 (gpx "target" i) 0x01010101) ;;;
  for_each 8 NUM_PRIO (fun i => wr32 (gpx "prio" i) 0xa0a0a0a0) ;;;
  for_each 0 NUM_MASK (fun i => wr32 (gpx "group" i) 0xffffffff) ;;;
  for_each 1 NUM_MASK (fun i => wr32 (gpx "eclear" i) 0xffffffff) ;;;
  for_each 0 NUM_MASK (fun i => wr32 (gpx "pclear" i) 0xffffffff) ;;;
  wr32 (gp "ctrl") G0_ENABLE ;;;
  gic_cpu_init.
End Driver.

(** ** What the distributor does with its enable registers

    Writing a one to a bit of a set-enable register enables that interrupt,
    writing a one to a clear-enable register disables it, a zero changes
    nothing, and no other access changes what is enabled. *)

Definition ESET : Z := Eval vm_compute in gpx "eset" 0.
Definition ECLEAR : Z := Eval vm_compute in gpx "eclear" 0.

(** Which word of the array the address [a] is. *)
Definition array_index (base a : Z) : option Z :=
  if (base <=? a) && (a <? base + 4 * NUM_MASK) then Some ((a - base) / 4) else None.
Definition eset_index (a : Z) : option Z := array_index ESET a.
Definition eclear_index (a : Z) : option Z := array_index ECLEAR a.

(** Bit of interrupt [i] in word [x] of a bit array holding [v]. *)
Definition mask_hits (x v i : Z) : bool := (i / 32 =? x) && Z.testbit v (i mod 32).

(** Effect of one access on whether interrupt [i] is enabled. *)
Definition enable_step (i : Z) (b : bool) (e : event) : bool :=
  match e with
  | EWr a v =>
      match eset_index a, eclear_index a with
      | Some x, _ => b || mask_hits x v i
      | _, Some x => b && negb (mask_hits x v i)
      | _, _ => b
      end
  | _ => b
  end.

Class GicHw (D : Type) `{Machine D} := {
  enabled : D -> Z -> bool;
  enabled_wr : forall a v d i,
    enabled (hw_wr a v d) i = enable_step i (enabled d i) (EWr a v);
  enabled_rd : forall a d i, enabled (hw_rd a d).2 i = enabled d i;
  enabled_mrs : forall r d i, enabled (hw_mrs r d).2 i = enabled d i;
  enabled_msr : forall r v d i, enabled (hw_msr r v d) i = enabled d i;
}.

(** ** Runs that are determined by their accesses

    [tracked m]: after any run of [m], complete or not, the set of enabled
    interrupts is the one its trace yields. *)
Section Tracked.
Context {D G : Type} `{GicHw D}.

Definition after (i : Z) (b : bool) (t : list event) : bool := foldl (enable_step i) b t.

Class Tracked {A} (m : prog D G A) : Prop :=
  tracked : forall s i,
    match m s with
    | Ok _ s' t | Stop _ s' t => enabled (dev s') i = after i (enabled (dev s) i) t
    end.

Lemma after_app i b t1 t2 : after i b (t1 ++ t2) = after i (after i b t1) t2.
Proof. apply foldl_app. Qed.

#[export] Instance tracked_ret {A} (a : A) : Tracked (ret a).
Proof. done. Qed.

#[export] Instance tracked_halt {A} w : Tracked (@halt D G A w).
Proof. done. Qed.

#[export] Instance tracked_bind {A B} (m : prog D G A) (f : A -> prog D G B) :
  Tracked m -> (forall a, Tracked (f a)) -> Tracked (bind m f).
Proof.
  intros Hm Hf s i. specialize (Hm s i). unfold bind.
  destruct (m s) as [a s1 t1|w s1 t1]; [|done].
  specialize (Hf a s1 i).
  destruct (f a s1); by rewrite after_app, <- Hm.
Qed.

#[export] Instance tracked_wr32 a v : Tracked (wr32 a v).
Proof. intros s i. simpl. apply enabled_wr. Qed.

#[export] Instance tracked_rd32 a : Tracked (rd32 a).
Proof.
  intros s i. unfold rd32. pose proof (enabled_rd a (dev s) i) as Hr.
  by destruct (hw_rd a (dev s)).
Qed.

#[export] Instance tracked_mrs r : Tracked (mrs r).
Proof.
  intros s i. unfold mrs. pose proof (enabled_mrs r (dev s) i) as Hr.
  by destruct (hw_mrs r (dev s)).
Qed.

#[export] Instance tracked_msr r v : Tracked (msr r v).
Proof. intros s i. simpl. apply enabled_msr. Qed.

#[export] Instance tracked_gput g : Tracked (gput g).
Proof. done. Qed.

#[export] Instance tracked_gget : Tracked gget.
Proof. done. Qed.

#[export] Instance tracked_if {A} (b : bool) (m n : prog D G A) :
  Tracked m -> Tracked n -> Tracked (if b then m else n).
Proof. by destruct b. Qed.

#[export] Instance tracked_each ks body :
  (forall i, Tracked (body i)) -> Tracked (each (D:=D) (G:=G) ks body).
Proof. intros Hb. induction ks; simpl; apply _. Qed.

#[export] Instance tracked_for_each lo hi body :
  (forall i, Tracked (body i)) -> Tracked (for_each (D:=D) (G:=G) lo hi body).
Proof. unfold for_each. apply _. Qed.

#[export] Instance tracked_mask_store n irq : Tracked (mask_store n irq).
Proof. unfold mask_store. apply _. Qed.

#[export] Instance tracked_intcon_ena irq : Tracked (intcon_ena irq).
Proof. unfold intcon_ena. apply _. Qed.

#[export] Instance tracked_intcon_irqack irq : Tracked (intcon_irqack irq).
Proof. unfold intcon_irqack, gic_unpend. apply _. Qed.

#[export] Instance tracked_intcon_irqwho : Tracked intcon_irqwho.
Proof. unfold intcon_irqwho. apply _. Qed.

#[export] Instance tracked_gic_init : Tracked gic_init.
Proof. unfold gic_init, gic_cpu_init. apply _. Qed.

(** Only the stores of a trace matter. *)
Lemma after_stores i b t :
  after i b t = after i b (map (fun p => EWr p.1 p.2) (stores t)).
Proof.
  revert b. induction t as [|[a v|a v|r v|r v| |p bs] t IH]; intros b; simpl; try apply IH; done.
Qed.

Lemma tracked_returns {A} (m : prog D G A) `{!Tracked m} s Q :
  returns m s Q ->
  returns m s (fun a s' t => Q a s' t /\
    forall i, enabled (dev s') i = after i (enabled (dev s) i) t).
Proof.
  unfold returns. intros HQ. pose proof (tracked (m:=m) s) as Ht.
  by destruct (m s).
Qed.

Lemma tracked_ends {A} (m : prog D G A) `{!Tracked m} s w Q :
  ends m s w Q ->
  ends m s w (fun s' t => Q s' t /\
    forall i, enabled (dev s') i = after i (enabled (dev s) i) t).
Proof.
  unfold ends. intros HQ. pose proof (tracked (m:=m) s) as Ht.
  destruct (m s); [done|]. by destruct HQ.
Qed.

Lemma tracked_stops {A} (m : prog D G A) `{!Tracked m} s Q :
  stops m s Q ->
  stops m s (fun w s' t => Q w s' t /\
    forall i, enabled (dev s') i = after i (enabled (dev s) i) t).
Proof.
  unfold stops, results. intros HQ. pose proof (tracked (m:=m) s) as Ht.
  by destruct (m s).
Qed.

(** A run whose accesses are known leaves enabled what they enable. *)
Lemma tracked_determines {A} (m : prog D G A) `{!Tracked m} s Q L lo hi f :
  returns m s (fun a s' t => Q a s' t /\ t = L) ->
  (forall b i, lo <= i < hi -> after i b L = f i) ->
  returns m s (fun a s' t => Q a s' t /\ forall i, lo <= i < hi -> enabled (dev s') i = f i).
Proof.
  intros HL Hf. apply tracked_returns in HL; [|done].
  eapply returns_weaken; [exact HL|]. cbn beta. intros a s' t [[HQ ->] Hen].
  split; [done|]. intros i Hi. rewrite Hen. by apply Hf.
Qed.
End Tracked.

(** ** A simulated distributor: the set of enabled interrupts. *)
Record gic_sim := GicSim { gic_on : Z -> bool; gic_iack : Z }.

#[global] Instance gic_sim_machine : Machine gic_sim := {
  hw_rd a d := (if a =? cp "iack" then gic_iack d else 0, d);
  hw_wr a v d := GicSim (fun i => enable_step i (gic_on d i) (EWr a v)) (gic_iack d);
  hw_mrs _ d := (0, d);
  hw_msr _ _ d := d }.

#[global] Instance gic_sim_hw : GicHw gic_sim.
Proof. by refine {| enabled := gic_on |}. Defined.

(** ** Results *)

(** One bit of the mask: the interrupt asked for and no other. *)
Lemma irq_mask_word irq : 0 <= irq -> u32 (irq_mask irq) = 2 ^ (irq mod 32).
Proof.
  intros H. unfold irq_mask. rewrite Z.rem_mod_nonneg by lia.
  pose proof (Z.mod_pos_bound irq 32 ltac:(lia)) as Hm.
  set (k := irq mod 32) in *. rewrite Z.shiftl_1_l.
  assert (Hp : 0 < 2 ^ k < 2 ^ 32)
    by (split; [apply Z.pow_pos_nonneg; lia|apply Z.pow_lt_mono_r; lia]).
  assert (Hu : forall x, u32 (u64 x) = u32 x).
  { intros x. unfold u32, u64. change (2 ^ 64) with (2 ^ 32 * 2 ^ 32).
    rewrite Z.rem_mul_r by lia.
    rewrite (Z.mul_comm (2 ^ 32)), Z.mod_add, Z.mod_mod by lia. done. }
  rewrite Hu, u32_s32. apply u32_small. unfold is_u32. lia.
Qed.

Lemma mask_hits_irq irq i : 0 <= irq ->
  mask_hits (irq / 32) (2 ^ (irq mod 32)) i = (i =? irq).
Proof.
  intros H. unfold mask_hits.
  pose proof (Z.mod_pos_bound irq 32 ltac:(lia)).
  rewrite testbit_pow2 by lia.
  destruct (Z.eqb_spec i irq) as [->|Hne]; [by rewrite !Z.eqb_refl|].
  destruct (Z.eqb_spec (i / 32) (irq / 32)) as [Hq|]; [|done].
  destruct (Z.eqb_spec (i mod 32) (irq mod 32)) as [Hr|]; [|done].
  exfalso. apply Hne. rewrite (Z.div_mod i 32), (Z.div_mod irq 32) by lia. congruence.
Qed.

Lemma array_index_in base x : 0 <= x < 16 -> array_index base (base + 4 * x) = Some x.
Proof.
  intros H. unfold array_index, NUM_MASK.
  destruct (Z.leb_spec base (base + 4 * x)); [|lia].
  destruct (Z.ltb_spec (base + 4 * x) (base + 4 * 16)); [|lia].
  simpl. f_equal. rewrite Z.add_simpl_l, Z.mul_comm. by apply Z.div_mul.
Qed.

Lemma array_index_out base a : a < base \/ base + 64 <= a -> array_index base a = None.
Proof.
  intros H. unfold array_index, NUM_MASK.
  destruct (Z.leb_spec base a), (Z.ltb_spec a (base + 4 * 16)); try done; lia.
Qed.

Lemma gpx_eset x : 0 <= x < 16 -> eset_index (gpx "eset" x) = Some x.
Proof. apply (array_index_in ESET). Qed.

Lemma gpx_eclear x : 0 <= x < 16 ->
  eset_index (gpx "eclear" x) = None /\ eclear_index (gpx "eclear" x) = Some x.
Proof.
  intros H. split; [|by apply (array_index_in ECLEAR)].
  apply array_index_out. unfold gpx. change (gp "eclear") with (ESET + 128). lia.
Qed.

Section Results.
Context {D G : Type} `{Machine D}.

Lemma mask_store_returns n irq (s : st D G) :
  0 <= irq ->
  returns (mask_store n irq) s (fun _ s' t =>
    s' = St (hw_wr (gpx n (irq / 32)) (2 ^ (irq mod 32)) (dev s)) (glb s) /\
    t = [EWr (gpx n (irq / 32)) (2 ^ (irq mod 32))]).
Proof.
  intros Hi. unfold mask_store. rewrite Z.rem_mod_nonneg, Z.quot_div_nonneg by lia.
  pose proof (Z.mod_pos_bound irq 32 ltac:(lia)).
  destruct (Z.ltb_spec (irq mod 32) 0); [lia|]. go. by rewrite irq_mask_word.
Qed.

(** The stores of the whole initialisation, as computed from the code. *)
Definition gic_init_stores : list (Z * Z) :=
  Eval vm_compute in
    [(gp "ctrl", 3)]
    ++ map (fun i => (gpx "config" i, 0)) (seqZ 2 30)
    ++ map (fun i => (gpx "target" i, 0x01010101)) (seqZ 8 120)
    ++ map (fun i => (gpx "prio" i, 0xa0a0a0a0)) (seqZ 8 120)
    ++ map (fun i => (gpx "group" i, 0xffffffff)) (seqZ 0 16)
    ++ map (fun i => (gpx "eclear" i, 0xffffffff)) (seqZ 1 15)
    ++ map (fun i => (gpx "pclear" i, 0xffffffff)) (seqZ 0 16)
    ++ [(gp "ctrl", 1); (gpx "eclear" 0, 0xffff0000); (gpx "eset" 0, 0x0000ffff)]
    ++ map (fun i => (gpx "prio" i, 0xa0a0a0a0)) (seqZ 0 8)
    ++ [(cp "primask", 0xf0); (cp "ctrl", 1)].

Lemma gic_init_returns (s : st D G) :
  returns gic_init s (fun _ s' t => glb s' = glb s /\ t = map (fun p => EWr p.1 p.2) gic_init_stores).
Proof. destruct s as [d g]. vm_compute. by split. Qed.
End Results.

(** What those stores enable, from any starting point. *)
Lemma after_gic_init b i : 0 <= i < 512 ->
  after i b (map (fun p => EWr p.1 p.2) gic_init_stores) = (i <? 16).
Proof.
  intros Hi.
  assert (Hall : forallb (fun i =>
    Bool.eqb (after i true (map (fun p => EWr p.1 p.2) gic_init_stores)) (i <? 16) &&
    Bool.eqb (after i false (map (fun p => EWr p.1 p.2) gic_init_stores)) (i <? 16))
    (seqZ 0 512) = true) by (vm_compute; reflexivity).
  rewrite forallb_forall in Hall.
  assert (Hin : In i (seqZ 0 512)) by (apply list_elem_of_In, elem_of_seqZ; lia).
  apply Hall, andb_true_iff in Hin. destruct Hin as [Ht Hf].
  destruct b; [exact (Bool.eqb_prop _ _ Ht)|exact (Bool.eqb_prop _ _ Hf)].
Qed.

(** The register blocks are laid out as the comments of the source say:
    every named field of the distributor and of the CPU interface is at the
    offset the hardware manual gives, and the distributor fills one page. *)
Theorem gic400_layout :
  map (offsetof gic400_dist)
    ["ctrl"; "type"; "iidr"; "group"; "eset"; "eclear"; "pset"; "pclear"; "aset"; "aclear";
     "prio"; "target"; "config"; "ppi_stat"; "spi_stat"; "sgi"; "sgi_pclear"; "sgi_pset";
     "pid4"; "pid0"; "cid0"; "cid3"]
  = [0; 4; 8; 0x80; 0x100; 0x180; 0x200; 0x280; 0x300; 0x380;
     0x400; 0x800; 0xc00; 0xd00; 0xd04; 0xf00; 0xf10; 0xf20;
     0xfd0; 0xfe0; 0xff0; 0xffc]
  /\ sizeof gic400_dist = 0x1000
  /\ map (offsetof gic400_cpu)
       ["ctrl"; "primask"; "bpr"; "iack"; "eoi"; "run_pri"; "high_pri"; "abpr"; "aiack";
        "aeoi"; "ahigh_pri"; "apr0"; "nsapr0"; "iid"; "dir"]
     = [0; 4; 8; 0xc; 0x10; 0x14; 0x18; 0x1c; 0x20; 0x24; 0x28; 0xd0; 0xe0; 0xfc; 0x1000].
Proof. by vm_compute. Qed.

(** Enabling (disabling) one of the 512 interrupts makes a single store,
    inside the set-enable (clear-enable) array, and on a distributor that obeys
    [GicHw] it enables (disables) that interrupt and leaves every other one as
    it was. *)
Theorem intcon_ena_dis_exact {D G} `{GicHw D} irq (s : st D G) :
  0 <= irq < 512 ->
  returns (intcon_ena irq) s (fun _ s' t =>
    (exists x v, 0 <= x < countof gic400_dist "eset" /\ t = [EWr (gpx "eset" x) v]) /\
    forall i, enabled (dev s') i = enabled (dev s) i || (i =? irq)) /\
  returns (intcon_dis irq) s (fun _ s' t =>
    (exists x v, 0 <= x < countof gic400_dist "eclear" /\ t = [EWr (gpx "eclear" x) v]) /\
    forall i, enabled (dev s') i = enabled (dev s) i && negb (i =? irq)).
Proof.
  intros Hi. assert (Hx : 0 <= irq / 32 < 16)
    by (split; [apply Z.div_pos; lia|apply Z.div_lt_upper_bound; lia]).
  split.
  - eapply returns_weaken; [apply mask_store_returns; lia|]. cbn beta.
    intros _ s' t (-> & ->). split; [by eexists _, _|]. intros i. cbn [dev].
    rewrite enabled_wr. cbn [enable_step]. by rewrite gpx_eset, mask_hits_irq by lia.
  - eapply returns_weaken; [apply mask_store_returns; lia|]. cbn beta.
    intros _ s' t (-> & ->). split; [by eexists _, _|]. intros i. cbn [dev].
    rewrite enabled_wr. cbn [enable_step]. destruct (gpx_eclear _ Hx) as [-> ->].
    by rewrite mask_hits_irq by lia.
Qed.

Lemma intcon_ena_dis_exact_witness :
  let s := St (GicSim (fun i => i =? 3) 0) tt in
  returns (intcon_ena 55) s (fun _ s' t =>
    (exists x v, 0 <= x < countof gic400_dist "eset" /\ t = [EWr (gpx "eset" x) v]) /\
    forall i, enabled (dev s') i = enabled (dev s) i || (i =? 55)) /\
  returns (intcon_dis 55) s (fun _ s' t =>
    (exists x v, 0 <= x < countof gic400_dist "eclear" /\ t = [EWr (gpx "eclear" x) v]) /\
    forall i, enabled (dev s') i = enabled (dev s) i && negb (i =? 55)).
Proof. apply (intcon_ena_dis_exact 55 (St (GicSim (fun i => i =? 3) 0) tt)). lia. Defined.

(** Whatever was enabled before, [gic_init] leaves exactly the sixteen
    software interrupts enabled, among the 512 of the distributor, on every
    distributor that obeys [GicHw]. *)
Theorem gic_init_enables_sgis {D G} `{GicHw D} (s : st D G) :
  returns gic_init s (fun _ s' t =>
    glb s' = glb s /\ forall i, 0 <= i < 512 -> enabled (dev s') i = (i <? 16)).
Proof.
  exact (tracked_determines gic_init s _ _ 0 512 _ (gic_init_returns s) after_gic_init).
Qed.

(** Acknowledging: for an interrupt of the distributor, [intcon_irqack]
    signals the end of exactly that interrupt and then clears exactly its
    pending bit. *)
Theorem intcon_irqack_ok {D G} `{Machine D} irq (s : st D G) :
  0 <= irq < 512 ->
  returns (intcon_irqack irq) s (fun _ s' t =>
    t = [EWr (cp "eoi") irq; EWr (gpx "pclear" (irq / 32)) (2 ^ (irq mod 32))] /\
    0 <= irq / 32 < countof gic400_dist "pclear").
Proof.
  intros Hi. unfold intcon_irqack. go.
  eapply returns_weaken; [apply mask_store_returns; lia|]. cbn beta.
  intros _ s' t (-> & ->). rewrite u32_small by (unfold is_u32; lia). split; [done|].
  change (countof gic400_dist "pclear") with 16.
  split; [apply Z.div_pos; lia|apply Z.div_lt_upper_bound; lia].
Qed.

Lemma intcon_irqack_ok_witness :
  returns (intcon_irqack 55) (St (GicSim (fun _ => false) 55) tt) (fun _ s' t =>
    t = [EWr (cp "eoi") 55; EWr (gpx "pclear" (55 / 32)) (2 ^ (55 mod 32))] /\
    0 <= 55 / 32 < countof gic400_dist "pclear").
Proof. apply (intcon_irqack_ok 55 (St (GicSim (fun _ => false) 55) tt)). lia. Defined.

(** The value the CPU interface returns for a software interrupt raised by
    another core carries that core's number above the interrupt number; given
    such a value, [intcon_irqack] stores outside the pending-clear array: for
    core 1 into the set-active register of the software interrupts, for core 2
    into the clear-active one, for core 3 into the priorities of interrupts 0
    to 3. *)
Theorem intcon_irqack_foreign_sgi {D G} `{Machine D} core n (s : st D G) :
  1 <= core <= 7 -> 0 <= n < 16 ->
  returns (intcon_irqack (core * 2 ^ 10 + n)) s (fun _ s' t =>
    exists a, stores t = [(cp "eoi", core * 2 ^ 10 + n); (a, 2 ^ n)] /\
    ~ (gpx "pclear" 0 <= a < gpx "pclear" (countof gic400_dist "pclear")) /\
    (core = 1 -> a = gpx "aset" 0) /\ (core = 2 -> a = gpx "aclear" 0) /\
    (core = 3 -> a = gpx "prio" 0)).
Proof.
  intros Hc Hn. unfold intcon_irqack. go.
  eapply returns_weaken; [apply mask_store_returns; lia|]. cbn beta.
  intros _ s' t (-> & ->).
  assert (Hd : (core * 2 ^ 10 + n) / 32 = 32 * core) by (symmetry; apply Z.div_unique with n; lia).
  assert (Hm : (core * 2 ^ 10 + n) mod 32 = n) by (symmetry; apply Z.mod_unique with (32 * core); lia).
  rewrite Hd, Hm, u32_small by (unfold is_u32; lia).
  exists (gpx "pclear" (32 * core)). split; [done|].
  change (countof gic400_dist "pclear") with 16.
  unfold gpx. change (gp "aset") with (gp "pclear" + 0x80).
  change (gp "aclear") with (gp "pclear" + 0x100).
  change (gp "prio") with (gp "pclear" + 0x180). lia.
Qed.

Lemma intcon_irqack_foreign_sgi_witness :
  returns (intcon_irqack (1 * 2 ^ 10 + 5)) (St (GicSim (fun _ => false) 0) tt) (fun _ s' t =>
    exists a, stores t = [(cp "eoi", 1 * 2 ^ 10 + 5); (a, 2 ^ 5)] /\
    ~ (gpx "pclear" 0 <= a < gpx "pclear" (countof gic400_dist "pclear")) /\
    (1 = 1 -> a = gpx "aset" 0) /\ (1 = 2 -> a = gpx "aclear" 0) /\
    (1 = 3 -> a = gpx "prio" 0)).
Proof.
  apply (intcon_irqack_foreign_sgi 1 5 (St (GicSim (fun _ => false) 0) tt)); lia.
Defined.
