(* ===== verification/TimerApp.v ===== *)
(** The Timer program: the timer driver (src/Timer/timer.c), the exception
    handlers (src/Timer/trap.c) and the main program (src/Timer/main.c), on top
    of the console, [printf] and the interrupt controller. *)

From S2P Require Import Prelude Machine Serial Printf Gic.

(** ** Registers *)

Definition N_TIMERS : Z := 5.

(** [struct timer]; [timer\[i\]] are four [struct tmr] of three words. *)
Definition tmr : list field := [word "count"; word "cmp"; word "obs"].
Definition timer : list field :=
  [word "config0"; word "config1"; word "control";
   Field "timer" ((N_TIMERS - 1) * sizeof tmr);
   word "t4_count"; word "t4_obs"; word "int_cstat"].

Definition TIMER_BASE : Z := 0xc0017000.

(** Addresses of [tp->n] and [tp->timer\[i\].n]. *)
Definition tp (n : string) : Z := TIMER_BASE + offsetof timer n.
Definition tpx (i : Z) (n : string) : Z := tp "timer" + i * sizeof tmr + offsetof tmr n.

Definition T0_AUTO : Z := 0x8.
Definition T0_LOAD : Z := 0x2.
Definition T0_RUN : Z := 0x1.
Definition T0_IENABLE : Z := 0x1.
Definition T0_ISTAT : Z := 0x20.
Definition LOAD_VALUE : Z := 1000000.

(** [struct b_reset] of the board reset registers. *)
Definition b_reset : list field := [word "_pad"; word "areg"; word "breg"].
Definition rp (n : string) : Z := 0xC0010220 + offsetof b_reset n.

(** The variables of the program: the tick count, and the dummy [shutup]. *)
Record vars := Vars { tcount : Z; shutup : Z }.

Section Code.
Context {D : Type} `{Machine D}.
Context (fuel : nat).
Abbreviation prog := (Machine.prog D vars).
Abbreviation printf := (Printf.printf (D:=D) (G:=vars) fuel).

Definition set_tcount (n : Z) : prog unit :=
  g <-- gget ;; gput (Vars n (shutup g)).

(** ** timer.c *)

Definition timer_init : prog unit :=
  wr32 (tp "control") 0 ;;;
  wr32 (tpx 0 "count") LOAD_VALUE ;;;
  wr32 (tpx 0 "cmp") 0 ;;;
  wr32 (tp "control") (Z.lor T0_AUTO T0_LOAD) ;;;
  wr32 (tp "control") T0_AUTO ;;;
  o1 <-- rd32 (tpx 0 "obs") ;; printf "T0 = %08x\n" [AInt o1] ;;;
  o2 <-- rd32 (tpx 0 "obs") ;; printf "T0 = %08x\n" [AInt o2] ;;;
  printf "--\n" [] ;;;
  c <-- rd32 (tp "int_cstat") ;; wr32 (tp "int_cstat") (Z.lor c T0_IENABLE) ;;;
  intcon_ena IRQ_TIMER0 ;;;
  k <-- rd32 (tp "control") ;; wr32 (tp "control") (Z.lor k T0_RUN) ;;;
  set_tcount 0 ;;;
  printf "Go\n" [] ;;;
  ret tt.

Definition timer_handler : prog unit :=
  c <-- rd32 (tp "int_cstat") ;; wr32 (tp "int_cstat") (Z.lor c T0_ISTAT) ;;;
  g <-- gget ;;
  if tcount g =? 2 ^ 31 - 1 then halt Undef else
  set_tcount (tcount g + 1) ;;;
  g <-- gget ;;
  printf "Timer count (interrupt) = %d\n" [AInt (tcount g)] ;;;
  ret tt.

(** ** trap.c *)

Definition boardReset : prog unit :=
  printf "\nBoard reset.\n" [] ;;;
  wr32 (rp "areg") 0x8 ;;;
  wr32 (rp "breg") 0x1000 ;;;
  halt Spin.

Definition handle_irq : prog unit :=
  n <-- intcon_irqwho ;;
  (if n =? IRQ_TIMER0 then timer_handler
   else printf "IRQ: %d\n" [AInt n] ;;; ret tt) ;;;
  intcon_irqack n.

(** The two assembly routines [sync_handler] calls (src/Timer/start.S). *)
Definition GetCPUID : prog Z :=
  x1 <-- mrs MPIDR_EL1 ;;
  let x0 := Z.land x1 3 in
  ret (if Z.land x1 0xff00 =? 0 then x0 else Z.lor x0 4).

Definition GetCurrentSMode : prog Z :=
  x0 <-- mrs CurrentEL ;; ret (Z.shiftr x0 2).

(** [exc] and [esr] are [unsigned], [regs0] is [regs\[0\]]. *)
Definition sync_handler (exc esr regs0 : Z) : prog unit :=
  let exc := u32 exc in
  let class := Z.shiftr (u32 esr) 26 in
  let syndrome := Z.land (u32 esr) 0x1ffffff in
  g <-- gget ;;
  gput (Vars (tcount g) (s32 regs0)) ;;;
  let panic :=
    id <-- GetCPUID ;;
    el <-- GetCurrentSMode ;;
    printf "\n--- PANIC! exception 0x%x on CPU%d EL %d, class=0x%x syndrome=0x%x\n"
      [AInt exc; AInt id; AInt el; AInt class; AInt syndrome] ;;;
    boardReset in
  if exc =? 0x280 then handle_irq
  else if exc =? 0x400 then
    (if (class =? 0x17) && (syndrome =? 0) then ret tt else panic)
  else panic.

(** ** main.c *)

Definition show_hcr : prog unit :=
  lval <-- mrs HCR_EL2 ;; printf "HCR = %x\n" [AInt lval] ;;; ret tt.

Definition get_el : prog Z :=
  v <-- mrs CurrentEL ;; ret (Z.shiftr (u32 v) 2).

Definition INT_unlock : prog unit := msr DAIFClr 3.
Definition INT_lock : prog unit := msr DAIFSet 3.

Definition show_el : prog unit :=
  el <-- get_el ;; printf "Current EL = %d\n" [AInt (s32 el)] ;;; ret tt.

Definition pm_test : prog unit :=
  val <-- mrs PMCNTENSET_EL0 ;; printf "PMCNTENSET = %x\n" [AInt val] ;;;
  val <-- mrs PMCR_EL0 ;; printf "PMCR = %x\n" [AInt val] ;;;
  msr PMCNTENSET_EL0 0x80000000 ;;;
  msr PMCR_EL0 1 ;;;
  val <-- mrs PMCNTENSET_EL0 ;; printf "PMCNTENSET = %x\n" [AInt val] ;;;
  val <-- mrs PMCR_EL0 ;; printf "PMCR = %x\n" [AInt val] ;;;
  for_each 0 5 (fun _ =>
    ccval <-- mrs PMCCNTR_EL0 ;; printf "CCNT = %d\n" [AInt ccval] ;;; ret tt).

Definition main : prog unit :=
  serial_init ;;;
  gic_init ;;;
  timer_init ;;;
  printf "\n" [] ;;;
  printf "Hello world\n" [] ;;;
  show_el ;;;
  show_hcr ;;;
  printf "Enable interrupts\n" [] ;;;
  INT_unlock ;;;
  printf "int is: %d bytes\n" [AInt 4] ;;;
  printf "long is: %d bytes\n" [AInt 8] ;;;
  printf "ll is: %d bytes\n" [AInt 8] ;;;
  printf "Waiting ...\n" [] ;;;
  pm_test ;;;
  halt Spin.
End Code.

(** ** A simulated board: the console, the interrupt controller and a bank of
    plain registers for everything else. *)
Record board_sim := BoardSim {
  b_uart : uart_sim; b_gic : gic_sim; b_regs : gmap Z Z; b_sys : sysreg -> Z }.

#[global] Instance board_sim_machine : Machine board_sim := {
  hw_rd a d :=
    if (a =? FSTAT) || (a =? RXH) then
      let '(v, u) := hw_rd a (b_uart d) in (v, BoardSim u (b_gic d) (b_regs d) (b_sys d))
    else if a =? cp "iack" then (gic_iack (b_gic d), d)
    else (default 0 (b_regs d !! a), d);
  hw_wr a v d :=
    BoardSim (hw_wr a v (b_uart d)) (hw_wr a v (b_gic d)) (<[a := v]> (b_regs d)) (b_sys d);
  hw_mrs r d :=
    (match r with
     | CurrentEL => Z.land (b_sys d r) 12
     | _ => b_sys d r
     end, d);
  hw_msr r v d :=
    BoardSim (b_uart d) (b_gic d) (b_regs d) (fun x => if decide (x = r) then v else b_sys d x) }.

#[global] Instance board_sim_ready : UartReady board_sim.
Proof.
  refine {| tx_busy d := tx_busy (b_uart d); tx_bound := 3 |}.
  - intros d. apply Nat.le_min_r.
  - intros d v d' Hrd. unfold hw_rd, board_sim_machine in Hrd.
    destruct (hw_rd FSTAT (b_uart d)) as [x u] eqn:Hu. injection Hrd as <- <-.
    exact (tx_idle_reads_free (b_uart d) x u Hu).
  - intros d v d' Hrd. unfold hw_rd, board_sim_machine in Hrd.
    destruct (hw_rd FSTAT (b_uart d)) as [x u] eqn:Hu. injection Hrd as <- <-.
    exact (tx_drains (b_uart d) x u Hu).
Defined.

#[global] Instance board_sim_gic : GicHw board_sim.
Proof.
  refine {| enabled d := gic_on (b_gic d) |}; [done| |done|done].
  intros a d i. unfold hw_rd, board_sim_machine.
  destruct ((a =? FSTAT) || (a =? RXH)); [by destruct (hw_rd a (b_uart d))|].
  by destruct (a =? cp "iack").
Defined.

(** A board as U-Boot leaves it: EL2, interrupts routed to EL2. *)
Definition board_reset_state (iack : Z) : board_sim :=
  BoardSim (UartSim 1 [] []) (GicSim (fun _ => false) iack) ∅
    (fun r => match r with CurrentEL => 8 | HCR_EL2 => 0x80000012 | _ => 0 end).

(** ** The runs of the handlers *)

(** Step over a [printf] whose format is well formed. *)
Ltac pf :=
  eapply returns_weaken;
  [apply printf_quiet; [assumption|repeat constructor|reflexivity]
  |cbn beta; intros ?n ?s ?t [?Hg ?He]].

Ltac run := repeat first [progress go | apply returns_bind; pf | pf]; cbn [glb dev] in *.

(** Step over a call by its lemma. *)
Tactic Notation "call" uconstr(L) :=
  eapply returns_weaken; [eapply L|]; cbn beta.

(** The effects of a trace made of known pieces. *)
Ltac eff :=
  autorewrite with trace;
  repeat match goal with H : effects ?t = _ |- context [effects ?t] => rewrite H end;
  rewrite ?app_nil_r; try reflexivity.

Section Runs.
Context {D : Type} {HM : Machine D} `{!UartReady D}.
Context (fuel : nat) (Hfuel : enough fuel).
Implicit Types s : st D vars.

Lemma set_tcount_returns n s :
  returns (set_tcount n) s
    (fun _ s' t => glb s' = Vars n (shutup (glb s)) /\ t = []).
Proof. unfold set_tcount. by go. Qed.

Lemma intcon_ena_returns irq s :
  0 <= irq ->
  returns (intcon_ena irq) s (fun _ s' t => glb s' = glb s /\
    t = [EWr (gpx "eset" (irq / 32)) (2 ^ (irq mod 32))]).
Proof.
  intros Hi. eapply returns_weaken; [by apply mask_store_returns|].
  cbn beta. by intros _ s' t [-> ->].
Qed.

Lemma intcon_irqack_returns n s :
  is_u32 n ->
  returns (intcon_irqack n) s (fun _ s' t => glb s' = glb s /\
    t = [EWr (cp "eoi") n; EWr (gpx "pclear" (n / 32)) (2 ^ (n mod 32))]).
Proof.
  intros Hn. unfold intcon_irqack. go.
  eapply returns_weaken; [apply mask_store_returns; unfold is_u32 in Hn; lia|].
  cbn beta. intros _ s' t [-> ->]. by rewrite u32_small.
Qed.
End Runs.

(** What [timer_init] does to the machine, given what it read. *)
Definition timer_init_effects (c k : Z) : list event :=
  [EWr (tp "control") 0; EWr (tpx 0 "count") 1000000; EWr (tpx 0 "cmp") 0;
   EWr (tp "control") 0xa; EWr (tp "control") 8;
   EWr (tp "int_cstat") (u32 (Z.lor (u32 c) 1));
   EWr (gpx "eset" 1) (2 ^ 23);
   EWr (tp "control") (u32 (Z.lor (u32 k) 1))].

Section TimerRuns.
Context {D : Type} {HM : Machine D} `{!UartReady D}.
Context (fuel : nat) (Hfuel : enough fuel).
Implicit Types s : st D vars.

Lemma timer_init_returns s :
  returns (timer_init fuel) s (fun _ s' t =>
    glb s' = Vars 0 (shutup (glb s)) /\ exists c k, effects t = timer_init_effects c k).
Proof.
  unfold timer_init. run.
  call (intcon_ena_returns IRQ_TIMER0). { done. }
  intros _ s3 t3 [Hg3 ->]. run.
  call set_tcount_returns. intros _ s4 t4 [Hg4 ->]. run.
  split; [congruence|]. exists v1, v2. cbn [app]. by eff.
Qed.

(** Values that may be printed with [%d]. *)
Lemma printf_d_ok x : s32 x <> - 2 ^ 31 ->
  printf_ok "Timer count (interrupt) = %d\n" [AInt x] = true /\
  printf_ok "IRQ: %d\n" [AInt x] = true /\
  printf_ok "Current EL = %d\n" [AInt x] = true /\
  printf_ok "CCNT = %d\n" [AInt x] = true.
Proof.
  intros Hx. apply Z.eqb_neq in Hx.
  repeat split; (transitivity (negb (s32 x =? - 2 ^ 31)); [reflexivity|by rewrite Hx]).
Qed.

Lemma s32_nonneg x : 0 <= x < 2 ^ 31 -> s32 x <> - 2 ^ 31.
Proof. intros H. rewrite s32_small; unfold is_s32; lia. Qed.

Lemma timer_handler_returns s :
  0 <= tcount (glb s) < 2 ^ 31 - 1 ->
  returns (timer_handler fuel) s (fun _ s' t =>
    glb s' = Vars (tcount (glb s) + 1) (shutup (glb s)) /\
    exists c, effects t = [EWr (tp "int_cstat") (u32 (Z.lor (u32 c) T0_ISTAT))]).
Proof.
  intros Hc. unfold timer_handler. run.
  destruct (Z.eqb_spec (tcount (glb s)) (2 ^ 31 - 1)); [lia|]. run.
  call set_tcount_returns. cbn [glb]. intros _ s1 t1 [Hg1 ->]. run.
  call printf_quiet; [done|repeat constructor|apply printf_d_ok, s32_nonneg; rewrite Hg1; simpl; lia|].
  intros m s2 t2 [Hg2 He2]. run. split; [congruence|]. exists v. cbn [app]. by eff.
Qed.

(** The interrupt the controller reports in a state. *)
Definition iar s : Z := u32 (hw_rd (cp "iack") (dev s)).1.

(** What one interrupt does to the machine, given what the timer's status
    register read. *)
Definition irq_effects (n c : Z) : list event :=
  (if n =? IRQ_TIMER0 then [EWr (tp "int_cstat") (u32 (Z.lor (u32 c) T0_ISTAT))] else [])
  ++ [EWr (cp "eoi") n; EWr (gpx "pclear" (n / 32)) (2 ^ (n mod 32))].

Lemma handle_irq_returns s :
  0 <= tcount (glb s) < 2 ^ 31 - 1 -> iar s < 2 ^ 13 ->
  returns (handle_irq fuel) s (fun _ s' t =>
    glb s' = Vars (tcount (glb s) + (if iar s =? IRQ_TIMER0 then 1 else 0)) (shutup (glb s)) /\
    exists c, effects t = irq_effects (iar s) c).
Proof.
  intros Hc Hi. unfold handle_irq, intcon_irqwho. run.
  assert (Hv : u32 v = iar s) by (unfold iar; by rewrite Hrd).
  assert (Hn : s32 (u32 v) = iar s).
  { rewrite Hv. pose proof (u32_range v) as Hu. rewrite Hv in Hu.
    apply s32_small. unfold is_u32, is_s32 in *. lia. }
  rewrite Hn. pose proof (u32_range v) as Hu. rewrite Hv in Hu.
  assert (Hpc : (gpx "pclear" (iar s / 32) =? TXH) = false).
  { apply Z.eqb_neq. unfold gpx. change (gp "pclear") with 0xc0009280.
    unfold TXH, is_u32 in *. Z.div_mod_to_equations. lia. }
  unfold irq_effects. destruct (iar s =? IRQ_TIMER0) eqn:En.
  - run. call timer_handler_returns; [done|]. intros _ s1 t1 [Hg1 [c He1]]. run.
    call intcon_irqack_returns; [done|]. intros _ s2 t2 [Hg2 ->].
    split; [congruence|]. exists c. cbn [app]. eff. by rewrite (effects_wr _ _ _ Hpc).
  - run. call printf_quiet;
      [done|repeat constructor|apply printf_d_ok, s32_nonneg; unfold is_u32 in Hu; lia|].
    intros m s1 t1 [Hg1 He1]. run.
    call intcon_irqack_returns; [done|]. intros _ s2 t2 [Hg2 ->].
    split; [destruct (glb s) eqn:Eg; rewrite Hg2, Hg1; simpl; f_equal; lia|].
    exists 0. cbn [app]. eff. by rewrite (effects_wr _ _ _ Hpc).
Qed.
End TimerRuns.

(** ** Every run of the program obeys the enable registers *)

Section TrackedRuns.
Context {D G : Type} `{GicHw D}.

#[export] Instance tracked_poll_while_set n a mask :
  Tracked (poll_while_set (D:=D) (G:=G) n a mask).
Proof. induction n; simpl; apply _. Qed.

#[export] Instance tracked_serial_putc fuel c : Tracked (serial_putc (D:=D) (G:=G) fuel c).
Proof. unfold serial_putc, serial_putc_body. apply _. Qed.

#[export] Instance tracked_printchar fuel o c : Tracked (printchar (D:=D) (G:=G) fuel o c).
Proof. unfold printchar. destruct o; apply _. Qed.

#[export] Instance tracked_pad_loop fuel w : forall o p c,
  Tracked (pad_loop (D:=D) (G:=G) fuel w o p c).
Proof. induction w; intros; simpl; apply _. Qed.

#[export] Instance tracked_str_loop fuel cs : forall o c,
  Tracked (str_loop (D:=D) (G:=G) fuel cs o c).
Proof. induction cs; intros; simpl; apply _. Qed.

#[export] Instance tracked_prints fuel o cs w p : Tracked (prints (D:=D) (G:=G) fuel o cs w p).
Proof. unfold prints. apply _. Qed.

#[export] Instance tracked_printi fuel o i b sg w p l :
  Tracked (printi (D:=D) (G:=G) fuel o i b sg w p l).
Proof. unfold printi. repeat case_match; apply _. Qed.

#[export] Instance tracked_printu fuel o u b w p l :
  Tracked (printu (D:=D) (G:=G) fuel o u b w p l).
Proof. unfold printu. repeat case_match; apply _. Qed.

Lemma tracked_conv_timer fuel k f :
  conv_timer (D:=D) (G:=G) fuel k = Some f -> forall o v w p, Tracked (f o v w p).
Proof. unfold conv_timer. repeat case_match; intros [= <-]; apply _. Qed.

#[export] Instance tracked_print_loop fuel n : forall o fmt args pc,
  Tracked (print_loop (D:=D) (G:=G) fuel (conv_timer fuel) n o fmt args pc).
Proof.
  induction n as [|n IH]; intros; cbn [print_loop]; [apply _|].
  repeat case_match; try apply _.
  all: eapply tracked_bind; [by eapply tracked_conv_timer|apply _].
Qed.

#[export] Instance tracked_printf fuel fmt args : Tracked (printf (D:=D) (G:=G) fuel fmt args).
Proof.
  unfold printf, printf_with, print. apply tracked_bind; [|apply _].
  apply tracked_bind; [apply _|]. intros [[b|] c]; apply _.
Qed.

(** The console is outside the enable registers. *)
Lemma after_effects i b t : after i b t = after i b (effects t).
Proof.
  revert b. induction t as [|e t IH]; intros b; [done|].
  destruct e as [a v|a v|r v|r v| |p bs]; try apply IH.
  destruct (Z.eqb_spec a TXH) as [->|Ha]; [apply IH|].
  rewrite effects_wr by (by apply Z.eqb_neq). apply IH.
Qed.
End TrackedRuns.

(** ** The exception handler *)

(** Run lemmas for runs that do not return. *)
Ltac ends1 := apply ends_bind; run.

Section Handler.
Context {D : Type} {HM : Machine D} `{!UartReady D}.
Context (fuel : nat) (Hfuel : enough fuel).
Implicit Types s : st D vars.

(** What resetting the board does. *)
Definition reset_effects : list event := [EWr (rp "areg") 8; EWr (rp "breg") 0x1000].

Lemma boardReset_ends s :
  ends (boardReset fuel) s Spin (fun s' t => glb s' = glb s /\ effects t = reset_effects).
Proof.
  unfold boardReset. ends1. apply ends_bind. go. apply ends_bind. go.
  split; [done|]. split; [done|]. cbn [app]. eff.
Qed.

(** CurrentEL holds the exception level in bits 3:2, the other bits read 0. *)
Definition el_register : Prop := forall d, 0 <= (hw_mrs CurrentEL d).1 < 16.

Lemma panic_printf_ok exc id el class syn :
  0 <= id < 2 ^ 31 -> 0 <= el < 2 ^ 31 ->
  printf_ok "\n--- PANIC! exception 0x%x on CPU%d EL %d, class=0x%x syndrome=0x%x\n"
    [AInt exc; AInt id; AInt el; AInt class; AInt syn] = true.
Proof.
  intros Hi%s32_nonneg He%s32_nonneg. apply Z.eqb_neq in Hi, He.
  transitivity ((true && negb (s32 el =? - 2 ^ 31)) && negb (s32 id =? - 2 ^ 31)); [reflexivity|].
  by rewrite Hi, He.
Qed.

Lemma GetCPUID_returns s :
  returns GetCPUID s (fun id s' t => 0 <= id < 8 /\ glb s' = glb s /\ effects t = []).
Proof.
  unfold GetCPUID. go. split; [|done].
  set (x := u64 v). pose proof (Z.land_ones x 2 ltac:(lia)) as H3. change (Z.ones 2) with 3 in H3.
  pose proof (Z.mod_pos_bound x (2 ^ 2) ltac:(lia)).
  destruct (Z.land x 0xff00 =? 0); [lia|].
  apply (lor_bound 3); lia.
Qed.

Lemma GetCurrentSMode_returns s : el_register ->
  returns GetCurrentSMode s (fun el s' t => 0 <= el < 4 /\ glb s' = glb s /\ effects t = []).
Proof.
  intros Hel. unfold GetCurrentSMode. go. split; [|done].
  pose proof (Hel (dev s)) as Hv. rewrite Hrd in Hv. cbn in Hv.
  rewrite u64_small by (unfold is_u64; lia). rewrite Z.shiftr_div_pow2 by lia.
  Z.div_mod_to_equations. lia.
Qed.

Lemma sync_handler_irq_returns esr r0 s :
  0 <= tcount (glb s) < 2 ^ 31 - 1 -> iar s < 2 ^ 13 ->
  returns (sync_handler fuel 0x280 esr r0) s (fun _ s' t =>
    glb s' = Vars (tcount (glb s) + (if iar s =? IRQ_TIMER0 then 1 else 0)) (s32 r0) /\
    exists c, effects t = irq_effects (iar s) c).
Proof.
  intros Hc Hi. unfold sync_handler. go. change (u32 0x280 =? 0x280) with true. cbn beta iota.
  by call handle_irq_returns.
Qed.

Lemma sync_handler_panic_ends exc esr r0 s :
  el_register -> is_u32 exc -> is_u32 esr -> exc <> 0x280 ->
  (exc = 0x400 -> Z.shiftr esr 26 = 0x17 -> Z.land esr 0x1ffffff <> 0) ->
  ends (sync_handler fuel exc esr r0) s Spin (fun s' t => effects t = reset_effects).
Proof.
  intros Hel Hexc Hesr Hirq Hsmc. unfold sync_handler. rewrite !(u32_small exc), !(u32_small esr) by done.
  apply ends_bind. go. apply ends_bind. go.
  destruct (Z.eqb_spec exc 0x280); [done|].
  match goal with |- context [bind GetCPUID ?k] => set (panic := bind GetCPUID k) end.
  assert (Hp : forall s, ends panic s Spin (fun s' t => effects t = reset_effects)).
  { intros s1. unfold panic. apply ends_bind. call GetCPUID_returns.
    intros id s2 t2 (Hid & _ & He2). apply ends_bind. call GetCurrentSMode_returns; [done|].
    intros el s3 t3 (Hl & _ & He3). apply ends_bind. call printf_quiet;
      [done|repeat constructor|apply panic_printf_ok; lia|].
    intros m s4 t4 [_ He4]. pose proof (boardReset_ends s4) as Hb. unfold ends in *.
    destruct (boardReset fuel s4); [done|]. destruct Hb as (-> & _ & Hb). split; [done|]. eff. }
  cbn [app]. destruct (Z.eqb_spec exc 0x400) as [H4|]; [|apply Hp].
  destruct (Z.eqb_spec (Z.shiftr esr 26) 0x17) as [Hk|]; cbn [andb]; [|apply Hp].
  destruct (Z.eqb_spec (Z.land esr 0x1ffffff) 0); [by destruct (Hsmc H4 Hk)|apply Hp].
Qed.
End Handler.

(** ** The start of the program *)

Ltac res1 := apply results_bind, results_returns; run.

Section Start.
Context {D : Type} {HM : Machine D} `{!UartReady D}.
Context (fuel : nat) (Hfuel : enough fuel).
Implicit Types s : st D vars.

(** A cycle count was read that has 2^31 in its low word: the one [int] whose negation
    the [%d] of [printf] cannot form. *)
Definition unprintable (t : list event) : Prop := exists v, EMrs PMCCNTR_EL0 v ∈ t /\ s32 v = - 2 ^ 31.

(** Of such a count only the text before it is printed. *)
Lemma printf_int_min v s : s32 v = - 2 ^ 31 ->
  stops (printf fuel "CCNT = %d\n" [AInt v]) s (fun w s' t => w = Undef /\ glb s' = glb s /\ effects t = []).
Proof.
  intros Hv. assert (E : printf fuel "CCNT = %d\n" [AInt v] ≈ (o <-- emit fuel (chars "CCNT = ") None ;; @halt D vars Z Undef)).
  { unfold printf, printf_with, print. change (chars "CCNT = %d\n") with (chars "CCNT = " ++ [c_percent; c_d; 10]).
    change (S (length (chars "CCNT = " ++ [c_percent; c_d; 10]))) with (length (chars "CCNT = ") + 4)%nat.
    rewrite print_loop_prefix by (repeat constructor; discriminate). rewrite !bind_assoc. f_equiv. intros o. by rewrite print_loop_int_min. }
  rewrite E. apply results_bind, results_returns.
  eapply returns_weaken; [exact (emit_console fuel _ s Hfuel (chars_bytes _))|]. cbn beta. intros o s' t (_ & Hg & _ & He). split; [done|]. split; [done|]. eff.
Qed.

Lemma show_el_returns s : el_register ->
  returns (show_el fuel) s (fun _ s' t => glb s' = glb s /\ effects t = []).
Proof.
  intros Hel. unfold show_el, get_el. go.
  pose proof (Hel (dev s)) as Hv. rewrite Hrd in Hv. cbn in Hv.
  rewrite u64_small, u32_small by (unfold is_u32, is_u64; lia).
  assert (He : 0 <= Z.shiftr v 2 < 4)
    by (rewrite Z.shiftr_div_pow2 by lia; Z.div_mod_to_equations; lia).
  call printf_quiet; [done|repeat constructor|apply printf_d_ok, s32_nonneg|].
  { rewrite s32_small by (unfold is_s32; lia). lia. }
  intros m s1 t1 [Hg1 He1]. go. split; [done|]. eff.
Qed.

Lemma show_hcr_returns s :
  returns (show_hcr fuel) s (fun _ s' t => glb s' = glb s /\ effects t = []).
Proof. unfold show_hcr. run. split; [congruence|]. cbn [app]. eff. Qed.

Lemma unprintable_app t t' : unprintable t' -> unprintable (t ++ t').
Proof. intros (v & Hin & E). exists v. split; [|done]. apply elem_of_app. by right. Qed.

Lemma unprintable_cons e t : unprintable t -> unprintable (e :: t).
Proof. apply (unprintable_app [e]). Qed.

(** Five counts are printed, as far as that is defined. *)
Lemma counts_results s :
  results (for_each 0 5 (fun _ => ccval <-- mrs PMCCNTR_EL0 ;; printf fuel "CCNT = %d\n" [AInt ccval] ;;; ret tt)) s
    (fun _ s' t => glb s' = glb s /\ effects t = [])
    (fun w s' t => w = Undef /\ unprintable t /\ glb s' = glb s /\ effects t = []).
Proof.
  apply (results_each _ _ _ (fun s' t => glb s' = glb s /\ effects t = [])); [done|]. intros _ s1 t1 [Hg1 He1]. res1.
  apply results_bind. destruct (Z.eqb_spec (s32 (u64 v)) (- 2 ^ 31)) as [E|E].
  - eapply results_weaken; [by apply printf_int_min|done|]. cbn beta. intros w s2 t2 (-> & Hg2 & He2). split; [done|].
    split; [|split; [cbn in *; congruence|eff]]. exists (u64 v). split; [|done]. apply elem_of_app. right. by left.
  - apply results_returns. call printf_quiet; [assumption|repeat constructor|by apply printf_d_ok|].
    intros m s2 t2 [Hg2 He2]. apply results_returns. go. split; [cbn in *; congruence|eff].
Qed.

Lemma pm_test_results s :
  let P s' t := glb s' = glb s /\ effects t = [EMsr PMCNTENSET_EL0 0x80000000; EMsr PMCR_EL0 1] in
  results (pm_test fuel) s (fun _ s' t => P s' t) (fun w s' t => w = Undef /\ unprintable t /\ P s' t).
Proof.
  intros P. unfold pm_test. do 10 res1. unfold P.
  eapply results_weaken; [apply counts_results| |]; cbn beta.
  - intros _ s6 t6 [Hg6 He6]. split; [cbn in *; congruence|eff].
  - intros w s6 t6 (-> & Hu & Hg6 & He6). split; [done|]. split; [|split; [cbn in *; congruence|eff]].
    repeat (apply unprintable_cons || apply unprintable_app); exact Hu.
Qed.

(** The stores of [gic_init] as events. *)
Definition gic_effects : list event := map (fun p => EWr p.1 p.2) gic_init_stores.

Lemma effects_gic : effects gic_effects = gic_effects.
Proof. vm_compute. reflexivity. Qed.

(** What starting the program does to the machine, in order: the interrupt
    controller, the timer with its interrupt, and only then the unmasking of
    interrupts in the CPU; then the cycle counter. *)
Definition main_effects (c k : Z) : list event :=
  gic_effects ++ timer_init_effects c k ++
  [EMsr DAIFClr 3; EMsr PMCNTENSET_EL0 0x80000000; EMsr PMCR_EL0 1].

Lemma main_stops s : el_register ->
  stops (main fuel) s (fun w s' t => (w = Spin \/ w = Undef /\ unprintable t) /\
    glb s' = Vars 0 (shutup (glb s)) /\ exists c k, effects t = main_effects c k).
Proof.
  intros Hel. unfold stops, main, serial_init, main_effects. res1. apply results_bind, results_returns.
  call gic_init_returns. intros _ sm1 tm1 [Hgm1 ->]. fold gic_effects.
  apply results_bind, results_returns. call timer_init_returns; [done|]. intros _ sm2 tm2 [Hgm2 (c & k & Hem2)].
  do 2 res1. apply results_bind, results_returns. call show_el_returns; [done|]. intros _ sm3 tm3 [Hgm3 Hem3].
  apply results_bind, results_returns. call show_hcr_returns. intros _ sm4 tm4 [Hgm4 Hem4].
  unfold INT_unlock. do 6 res1. apply results_bind. generalize effects_gic. generalize gic_effects. intros L HL.
  eapply results_weaken; [apply pm_test_results| |]; cbn beta; change (u64 3) with 3.
  - intros _ sm5 tm5 [Hgm5 Hem5]. split; [by left|]. split; [cbn in *; congruence|]. exists c, k. eff.
  - intros w sm5 tm5 (-> & Hu & Hgm5 & Hem5). split; [right; split; [done|]|split; [cbn in *; congruence|exists c, k; eff]].
    repeat (apply unprintable_cons || apply unprintable_app); exact Hu.
Qed.
End Start.

(** ** Results *)

(** The timer block and the reset block are laid out as the hardware is:
    the offsets of every register the driver names, [timer\[i\]] included. *)
Theorem timer_layout :
  map (offsetof timer) ["config0"; "config1"; "control"; "t4_count"; "t4_obs"; "int_cstat"]
    = [0; 4; 8; 0x3c; 0x40; 0x44] /\
  map (fun i => tpx i "obs" - TIMER_BASE) [0; 1; 2; 3] = [0x14; 0x20; 0x2c; 0x38] /\
  tpx 3 "obs" + 4 = tp "t4_count" /\ rp "areg" = 0xC0010224 /\ rp "breg" = 0xC0010228.
Proof. by vm_compute. Qed.

(** An interrupt exception returns, with interrupt [n] read once from the
    controller: the timer's pending flag is cleared and the tick count goes up
    by one exactly when [n] is the timer's interrupt, then the end of exactly
    interrupt [n] is signalled, last of all its pending bit is cleared, and
    nothing else but the console is touched. *)
Theorem sync_handler_irq {D} `{UartReady D} fuel esr r0 (s : st D vars) :
  enough fuel -> 0 <= tcount (glb s) < 2 ^ 31 - 1 -> iar s < 2 ^ 13 ->
  returns (sync_handler fuel 0x280 esr r0) s (fun _ s' t =>
    glb s' = Vars (tcount (glb s) + (if iar s =? IRQ_TIMER0 then 1 else 0)) (s32 r0) /\
    exists c, effects t = irq_effects (iar s) c).
Proof. intros. by apply sync_handler_irq_returns. Qed.

Lemma sync_handler_irq_witness :
  let s := St (board_reset_state 55) (Vars 41 0) in
  iar s = 55 /\
  returns (sync_handler 10 0x280 7 0) s (fun _ s' t =>
    glb s' = Vars (tcount (glb s) + (if iar s =? IRQ_TIMER0 then 1 else 0)) (s32 0) /\
    exists c, effects t = irq_effects (iar s) c).
Proof.
  intros s. split; [by vm_compute|].
  refine (sync_handler_irq 10 7 0 s _ _ _); [unfold enough; simpl; lia|simpl; lia|by vm_compute].
Defined.

(** Every other exception, a null system call from a lower level apart, is
    a panic: the report is printed, the board is reset through its two reset
    registers in order, nothing else is stored, and the handler never
    returns. *)
Theorem sync_handler_panics {D} `{UartReady D} fuel exc esr r0 (s : st D vars) :
  enough fuel -> el_register (D:=D) -> is_u32 exc -> is_u32 esr -> exc <> 0x280 ->
  ~ (exc = 0x400 /\ Z.shiftr esr 26 = 0x17 /\ Z.land esr 0x1ffffff = 0) ->
  ends (sync_handler fuel exc esr r0) s Spin (fun s' t =>
    effects t = [EWr 0xC0010224 8; EWr 0xC0010228 0x1000]).
Proof.
  intros Hf Hel Hexc Hesr Hirq Hsmc. change 0xC0010224 with (rp "areg").
  change 0xC0010228 with (rp "breg"). apply sync_handler_panic_ends; try done.
  intros ? ? ?. by apply Hsmc.
Qed.

Lemma board_el_register : el_register (D:=board_sim).
Proof. intros d. simpl. apply (land_bound_r 4); lia. Qed.

Lemma sync_handler_panics_witness :
  ends (sync_handler 10 0x200 0x96000045 0) (St (board_reset_state 55) (Vars 41 0)) Spin
    (fun s' t => effects t = [EWr 0xC0010224 8; EWr 0xC0010228 0x1000]).
Proof.
  refine (sync_handler_panics 10 0x200 0x96000045 0 (St (board_reset_state 55) (Vars 41 0))
    _ board_el_register _ _ _ _); [unfold enough; simpl; lia|unfold is_u32; lia..|lia].
Defined.

(** What the stores after [gic_init] enable. *)
Lemma after_main_effects i b c k : 0 <= i < 512 ->
  after i b (main_effects c k) = (i <? 16) || (i =? IRQ_TIMER0).
Proof.
  intros Hi. unfold main_effects. rewrite after_app. unfold gic_effects.
  rewrite after_gic_init by done. cbn [timer_init_effects app].
  change (after i (i <? 16) ?t) with (enable_step i (i <? 16) (EWr (gpx "eset" (IRQ_TIMER0 / 32)) (2 ^ (IRQ_TIMER0 mod 32)))).
  unfold enable_step. by rewrite gpx_eset, mask_hits_irq.
Qed.

(** C3: the program starts up and then waits for ever: the controller is
    initialised, then the timer is programmed, its interrupt enabled and the
    timer started, and only after all of that are interrupts unmasked in the
    CPU; the tick count is 0 then, and the interrupts left enabled are the
    sixteen software interrupts and the timer's.  All of that is done too if the
    wait is not reached: it is not only if a cycle count is read that [printf] cannot
    print, the least [int]. *)
Theorem main_starts {D} `{UartReady D} `{!GicHw D} fuel (s : st D vars) :
  enough fuel -> el_register (D:=D) ->
  stops (main fuel) s (fun w s' t =>
    (w = Spin \/ w = Undef /\ unprintable t) /\
    tcount (glb s') = 0 /\
    (exists c k, effects t = gic_effects ++ timer_init_effects c k ++
       [EMsr DAIFClr 3; EMsr PMCNTENSET_EL0 0x80000000; EMsr PMCR_EL0 1]) /\
    forall i, 0 <= i < 512 -> enabled (dev s') i = (i <? 16) || (i =? IRQ_TIMER0)).
Proof.
  intros Hf Hel. pose proof (main_stops fuel Hf s Hel) as Hm.
  assert (Htr : Tracked (main (D:=D) fuel)).
  { unfold main, serial_init, timer_init, set_tcount, show_el, get_el, show_hcr, INT_unlock,
      pm_test. apply _. }
  eapply stops_weaken; [exact (tracked_stops _ _ _ Hm)|]. cbn beta.
  intros w s' t [(Hw & Hg & c & k & He) Hen]. split; [done|]. split; [by rewrite Hg|].
  unfold main_effects in He. split; [exists c, k; exact He|]. intros i Hi.
  rewrite Hen, after_effects, He. exact (after_main_effects i _ c k Hi).
Qed.

Lemma main_starts_witness :
  let s := St (board_reset_state 55) (Vars 7 0) in
  stops (main 10) s (fun w s' t =>
    (w = Spin \/ w = Undef /\ unprintable t) /\
    tcount (glb s') = 0 /\
    (exists c k, effects t = gic_effects ++ timer_init_effects c k ++
       [EMsr DAIFClr 3; EMsr PMCNTENSET_EL0 0x80000000; EMsr PMCR_EL0 1]) /\
    forall i, 0 <= i < 512 -> enabled (dev s') i = (i <? 16) || (i =? IRQ_TIMER0)).
Proof.
  intros s.
  refine (main_starts 10 s _ board_el_register); unfold enough; simpl; lia.
Defined.

(** The board gets to the wait, and one whose cycle counter reads 2^31 does not. *)
Definition stop_of {D G A} (o : outcome D G A) : option stop := match o with Ok _ _ _ => None | Stop w _ _ => Some w end.

Example main_waits : stop_of (main 10 (St (board_reset_state 55) (Vars 7 0))) = Some Spin.
Proof. vm_compute. reflexivity. Qed.

Example main_int_min :
  let d := board_reset_state 55 in
  stop_of (main 10 (St (BoardSim (b_uart d) (b_gic d) (b_regs d) (fun r => match r with PMCCNTR_EL0 => 2 ^ 31 | _ => b_sys d r end)) (Vars 7 0))) = Some Undef.
Proof. vm_compute. reflexivity. Qed.

(** ** Serving interrupts *)

(** The program after [main] has reached its waiting loop: the hardware may
    change state by itself, and every interrupt it raises is served by
    [sync_handler].  [serves s ns s'] lists the interrupts served. *)
Inductive serves {D} `{GicHw D} (fuel : nat) : st D vars -> list Z -> st D vars -> Prop :=
  | serves_done s : serves fuel s [] s
  | serves_hw s d ns s' :
      (forall i, enabled d i = enabled (dev s) i) ->
      serves fuel (St d (glb s)) ns s' -> serves fuel s ns s'
  | serves_irq s esr r0 s1 t ns s' :
      iar s < 2 ^ 13 ->
      sync_handler fuel 0x280 esr r0 s = Ok tt s1 t ->
      serves fuel s1 ns s' -> serves fuel s (iar s :: ns) s'.

(** Number of timer interrupts among those served. *)
Definition ticks (ns : list Z) : Z := Z.of_nat (length (filter (fun n => n = IRQ_TIMER0) ns)).

Lemma ticks_cons n ns : ticks (n :: ns) = (if n =? IRQ_TIMER0 then 1 else 0) + ticks ns.
Proof.
  unfold ticks. rewrite filter_cons. destruct (Z.eqb_spec n IRQ_TIMER0).
  - rewrite decide_True by done. cbn [length]. lia.
  - by rewrite decide_False.
Qed.

Lemma after_irq_effects i b n c : 0 <= n < 2 ^ 13 -> after i b (irq_effects n c) = b.
Proof.
  intros Hn. unfold irq_effects. rewrite after_app.
  assert (Hb : after i b (if n =? IRQ_TIMER0 then
    [EWr (tp "int_cstat") (u32 (Z.lor (u32 c) T0_ISTAT))] else []) = b)
    by (by destruct (n =? IRQ_TIMER0)).
  rewrite Hb. cbn [after foldl enable_step].
  assert (Hp : eset_index (gpx "pclear" (n / 32)) = None /\ eclear_index (gpx "pclear" (n / 32)) = None).
  { split; apply array_index_out; unfold gpx; change (gp "pclear") with (ECLEAR + 256);
      change ESET with (ECLEAR - 128); Z.div_mod_to_equations; lia. }
  by destruct Hp as [-> ->].
Qed.

Section Serving.
Context {D : Type} {HM : Machine D} {HU : UartReady D} {HG : GicHw D}.
Context (fuel : nat) (Hfuel : enough fuel).

#[local] Instance tracked_sync_handler exc esr r0 :
  Tracked (sync_handler (D:=D) fuel exc esr r0).
Proof.
  unfold sync_handler, handle_irq, timer_handler, set_tcount, GetCPUID, GetCurrentSMode,
    boardReset. apply _.
Qed.

(** One interrupt served: the tick count, and what is enabled. *)
Lemma serve_one (s : st D vars) esr r0 s1 t :
  0 <= tcount (glb s) < 2 ^ 31 - 1 -> iar s < 2 ^ 13 ->
  sync_handler fuel 0x280 esr r0 s = Ok tt s1 t ->
  tcount (glb s1) = tcount (glb s) + (if iar s =? IRQ_TIMER0 then 1 else 0) /\
  forall i, enabled (dev s1) i = enabled (dev s) i.
Proof.
  intros Hc Hi Hrun. assert (Hn : 0 <= iar s) by apply u32_range.
  pose proof (tracked_returns _ _ _ (sync_handler_irq_returns fuel Hfuel esr r0 s Hc Hi)) as Hr.
  unfold returns in Hr. rewrite Hrun in Hr. destruct Hr as [[Hg [c He]] Hen].
  split; [by rewrite Hg|]. intros i. rewrite Hen, after_effects, He.
  apply after_irq_effects. lia.
Qed.
End Serving.

(** C2: serving any sequence of interrupts, interleaved with any activity of
    the hardware, counts exactly the timer interrupts among them (as long as
    the count stays an [int]) and never changes which interrupts are enabled. *)
Theorem serves_counts_ticks {D} `{GicHw D} `{!UartReady D} fuel (s s' : st D vars) ns :
  enough fuel -> serves fuel s ns s' ->
  0 <= tcount (glb s) -> tcount (glb s) + ticks ns < 2 ^ 31 - 1 ->
  tcount (glb s') = tcount (glb s) + ticks ns /\
  forall i, enabled (dev s') i = enabled (dev s) i.
Proof.
  intros Hf Hs. induction Hs as [s|s d ns s' Hd _ IH|s esr r0 s1 t ns s' Hi Hrun Hs IH];
    intros Hc Hmax.
  - unfold ticks in *. cbn in *. split; [lia|done].
  - destruct (IH Hc Hmax) as [IHc IHe]. split; [done|]. intros i. by rewrite IHe, <- Hd.
  - rewrite ticks_cons in Hmax |- *.
    assert (Ht : 0 <= ticks ns) by (unfold ticks; lia).
    destruct (serve_one fuel Hf s esr r0 s1 t) as [H1 H1e]; [|done|done|].
    { destruct (iar s =? IRQ_TIMER0); lia. }
    destruct IH as [IHc IHe]; [destruct (iar s =? IRQ_TIMER0); lia|lia|].
    split; [lia|]. intros i. by rewrite IHe, H1e.
Qed.

(** The state after one timer interrupt of the simulated board. *)
Definition one_tick : st board_sim vars :=
  match sync_handler 10 0x280 7 0 (St (board_reset_state 55) (Vars 41 0)) with
  | Ok _ s _ | Stop _ s _ => s
  end.

Lemma serves_counts_ticks_witness :
  serves 10 (St (board_reset_state 55) (Vars 41 0)) [55] one_tick /\
  tcount (glb one_tick) = 41 + ticks [55] /\
  forall i, enabled (dev one_tick) i = enabled (board_reset_state 55) i.
Proof.
  assert (Hs : serves 10 (St (board_reset_state 55) (Vars 41 0)) [55] one_tick).
  { assert (Hrun : exists t, sync_handler 10 0x280 7 0 (St (board_reset_state 55) (Vars 41 0))
      = Ok tt one_tick t).
    { unfold one_tick. set (r := sync_handler _ _ _ _ _).
      assert (Hok : match r with Ok _ _ _ => true | Stop _ _ _ => false end = true)
        by (unfold r; vm_compute; reflexivity).
      destruct r as [[] s t|]; [by exists t|done]. }
    destruct Hrun as [t Hrun].
    refine (serves_irq 10 (St (board_reset_state 55) (Vars 41 0)) 7 0 one_tick t [] one_tick
      _ Hrun (serves_done 10 _)). by vm_compute. }
  split; [exact Hs|].
  refine (serves_counts_ticks 10 _ _ _ _ Hs _ _); [unfold enough; simpl; lia|simpl; lia|].
  by vm_compute.
Defined.
