(* ===== verification/Hello.v ===== *)
(** The Hello1 program (src/Hello1/hello.c): it prints the exception level and
    the system control register, then reads a word from an aligned and from a
    misaligned address of a byte buffer. *)

From S2P Require Import Prelude Machine Serial Printf.

Section Code.
Context {D : Type} `{Machine D}.
Context (fuel : nat).

(** The address the linker gave [buf], the only global variable. *)
Context (buf_addr : Z).
Abbreviation prog := (Machine.prog D (list Z)).
Abbreviation printf := (Printf.hello_printf (D:=D) (G:=list Z) fuel).

Definition get_el : prog Z := v <-- mrs CurrentEL ;; ret (Z.shiftr (u32 v) 2).
Definition get_sctlr : prog Z := v <-- mrs SCTLR_EL2 ;; ret (u32 v).
Definition set_sctlr (val : Z) : prog unit := msr SCTLR_EL2 (u32 val) ;;; isb.

(** [buf\[i\] = v] *)
Definition buf_set (i : nat) (v : Z) : prog unit :=
  b <-- gget ;; if (i <? length b)%nat then gput (<[i := u8 v]> b) else halt Undef.

(** [val = *p] for [p = (unsigned int * ) &buf\[i\]]: a load from an address that
    is not a multiple of 4 faults. *)
Definition load_word (i : nat) : prog Z :=
  if negb ((buf_addr + Z.of_nat i) mod 4 =? 0) then halt Undef else
  b <-- gget ;; if (i + 4 <=? length b)%nat then ret (le_word (slice i 4 b)) else halt Undef.

Definition main : prog unit :=
  serial_init ;;;
  val <-- get_el ;; printf " EL = %d\n" [AInt val] ;;;
  val <-- get_sctlr ;; printf " SCTLR = 0x%08x\n" [AInt val] ;;;
  printf " value = 0x%08x\n" [AInt 0x1234] ;;;
  printf "Hello world\n" [] ;;;
  buf_set 0 0x11 ;;; buf_set 1 0x22 ;;; buf_set 2 0x33 ;;; buf_set 3 0x44 ;;;
  buf_set 4 0x55 ;;; buf_set 5 0x66 ;;; buf_set 6 0x77 ;;; buf_set 7 0x88 ;;;
  printf "Read from 0x%08x\n" [AInt buf_addr] ;;;
  val <-- load_word 0 ;;
  printf "Value = 0x%08x\n" [AInt val] ;;;
  printf "Done with 0x%08x\n" [AInt buf_addr] ;;;
  printf "\n" [] ;;;
  printf "Read from 0x%08x\n" [AInt (buf_addr + 2)] ;;;
  val <-- load_word 2 ;;
  printf "Value = 0x%08x\n" [AInt val] ;;;
  printf "Done with 0x%08x\n" [AInt (buf_addr + 2)] ;;;
  printf "Finished\n" [] ;;;
  printf "Goodbye world\n" [] ;;;
  ret tt.

Definition buf0 : list Z := replicate 8 0.
End Code.

(** ** The text of the program's lines *)

#[local] Arguments numeral : simpl never.
#[local] Arguments digit_loop : simpl never.

(** Eight hexadecimal digits. *)
Definition hex8 (v : Z) : list Z := pad_text (utext 16 c_a v) 8 PAD_ZERO.

(** The conversion [%08x] of this [printf] is right for small values. *)
Lemma hello_printi_hex v width pad : 0 <= v < 2 ^ 31 ->
  printi_text v 16 0 width pad c_a = Some (pad_text (utext 16 c_a v) width pad).
Proof.
  intros Hv. unfold printi_text, utext. rewrite s32_small by (unfold is_s32; lia).
  destruct (Z.eqb_spec v 0); [done|]. simpl negb. cbn [andb].
  rewrite u32_small by (unfold is_u32; lia). change (PRINT_BUF_LEN - 1)%nat with 21%nat.
  rewrite (digit_loop_numeral 16 c_a ltac:(lia) (or_introl eq_refl) getquotient getremainder (2 ^ 31 - 1)).
  - simpl. by rewrite app_nil_r.
  - intros y Hy. apply getq_exact; lia.
  - lia.
  - lia.
  - apply base_21; [by right|lia].
Qed.

(** The text of a format with one [%08x] in it. *)
Definition hex_line (pre : string) (v : Z) : list Z := chars pre ++ hex8 v ++ [10].

Section Lines.
Context {D G : Type} `{UartReady D}.
Context (fuel : nat) (Hfuel : enough fuel).
Implicit Types s : st D G.

Lemma hex8_bytes v : Forall is_u8 (hex8 v).
Proof.
  apply pad_text_bytes. apply utext_bytes; [by right|by left].
Qed.

Lemma says_line fmt args t s :
  text text_hello fmt args = Some t -> Forall is_u8 t ->
  returns (hello_printf fuel fmt args) s (fun _ s' tr => glb s' = glb s /\ says (crlf t) tr).
Proof.
  intros Ht Hb. eapply returns_weaken.
  - eapply printf_with_ok; [apply conv_hello_agree|exact Hfuel|exact Ht|exact Hb].
  - by intros n s' tr (_ & Hg & Hs).
Qed.
End Lines.

(** The lines with a number in them. *)
Lemma hex_texts v : 0 <= v < 2 ^ 31 ->
  text text_hello " SCTLR = 0x%08x\n" [AInt v] = Some (hex_line " SCTLR = 0x" v) /\
  text text_hello "Read from 0x%08x\n" [AInt v] = Some (hex_line "Read from 0x" v) /\
  text text_hello "Value = 0x%08x\n" [AInt v] = Some (hex_line "Value = 0x" v) /\
  text text_hello "Done with 0x%08x\n" [AInt v] = Some (hex_line "Done with 0x" v).
Proof.
  intros Hv. pose proof (hello_printi_hex v 8 2 Hv) as E. unfold hex_line, hex8, text.
  clear Hv. split_and!; cbv -[printi_text pad_text utext] in E |- *; rewrite E; reflexivity.
Qed.

Lemma el_text v : 0 <= v < 4 ->
  text text_hello " EL = %d\n" [AInt v] = Some (chars " EL = " ++ itext v ++ [10]).
Proof. intros Hv. assert (v = 0 \/ v = 1 \/ v = 2 \/ v = 3) as [->|[->|[->| ->]]] by lia; reflexivity. Qed.

(** What the program says before it faults, first from the control register on. *)
Definition tail_transcript (sctlr buf_addr : Z) : list Z :=
  hex_line " SCTLR = 0x" sctlr ++
  hex_line " value = 0x" 0x1234 ++
  chars "Hello world\n" ++
  hex_line "Read from 0x" buf_addr ++
  hex_line "Value = 0x" 0x44332211 ++
  hex_line "Done with 0x" buf_addr ++
  chars "\n" ++
  hex_line "Read from 0x" (buf_addr + 2) ++ [].

Definition transcript (el sctlr buf_addr : Z) : list Z :=
  (chars " EL = " ++ itext el ++ [10]) ++ tail_transcript sctlr buf_addr.

Section Run.
Context {D : Type} `{UartReady D}.
Context (fuel : nat) (Hfuel : enough fuel).
Implicit Types s : st D (list Z).

(** A run from [s] that says [cs] and then stops as undefined. *)
Definition dies {A} (m : prog D (list Z) A) s (cs : list Z) : Prop :=
  ends m s Undef (fun _ t => says (crlf cs) t).

Lemma dies_line {A} fmt args t (k : prog D (list Z) A) s cs :
  text text_hello fmt args = Some t -> Forall is_u8 t ->
  (forall s1, glb s1 = glb s -> dies k s1 cs) ->
  dies (hello_printf fuel fmt args ;;; k) s (t ++ cs).
Proof.
  intros Ht Hb Hk. apply ends_bind. eapply returns_weaken; [by apply says_line|]. cbn beta.
  intros _ s1 t1 [Hg1 Hs1]. eapply ends_weaken; [by apply Hk|]. cbn beta.
  intros _ t2 Hs2. rewrite crlf_app. by apply says_app.
Qed.

(** Steps that make no access, or only read system registers. *)
Lemma dies_quiet {A B} (m : prog D (list Z) A) (f : A -> prog D (list Z) B) s cs P :
  returns m s (fun a s1 t1 => P a s1 /\ says [] t1) ->
  (forall a s1, P a s1 -> dies (f a) s1 cs) -> dies (bind m f) s cs.
Proof.
  intros Hm Hf. apply ends_bind. eapply returns_weaken; [exact Hm|]. cbn beta.
  intros a s1 t1 [HP Ht1]. eapply ends_weaken; [by apply Hf|]. cbn beta.
  intros _ t2 Ht2. by apply (says_app []).
Qed.

Lemma buf_set_ok i v s : (i < length (glb s))%nat ->
  returns (buf_set i v) s (fun _ s1 t1 => glb s1 = <[i := u8 v]> (glb s) /\ says [] t1).
Proof.
  intros Hi. unfold buf_set. go. destruct (Nat.ltb_spec i (length (glb s))); [|lia]. by go.
Qed.

Lemma hex_line_bytes pre v : Forall is_u8 (hex_line pre v).
Proof.
  unfold hex_line. apply Forall_app; split; [apply chars_bytes|].
  apply Forall_app; split; [apply hex8_bytes|by repeat constructor].
Qed.

Lemma load_word_ok addr i s : (addr + Z.of_nat i) mod 4 = 0 -> (i + 4 <= length (glb s))%nat ->
  returns (load_word addr i) s (fun a s1 t1 =>
    (a = le_word (slice i 4 (glb s)) /\ glb s1 = glb s) /\ says [] t1).
Proof.
  intros Ha Hi. unfold load_word. rewrite Ha. cbn [negb Z.eqb]. go.
  destruct (Nat.leb_spec (i + 4) (length (glb s))); [|lia]. by go.
Qed.
End Run.

(** The buffer after the eight stores. *)
Definition buf_filled : list Z := [0x11; 0x22; 0x33; 0x44; 0x55; 0x66; 0x77; 0x88].

(** One store into the eight-byte buffer. *)
Ltac buf_step :=
  eapply (dies_quiet _ _ _ _ (fun _ s1 => glb s1 = _));
  [eapply returns_weaken;
     [apply buf_set_ok; match goal with E : glb _ = _ |- _ => rewrite E end; simpl; lia|];
   cbn beta; intros ? ? ? [-> ?]; split; [|done];
   match goal with E : glb _ = _ |- _ => rewrite E end; reflexivity
  |];
  cbn beta; intros ? ? ?Hg.

(** One [printf] of a line, by the equation of its text. *)
Tactic Notation "line_step" uconstr(E) :=
  match goal with Hf : enough ?f |- _ => apply (dies_line f Hf _ _ _ _ _ _ E) end;
  [first [apply hex_line_bytes|apply chars_bytes]|intros ? ?Hg].

Lemma value_text : text text_hello " value = 0x%08x\n" [AInt 0x1234] = Some (hex_line " value = 0x" 0x1234).
Proof. by vm_compute. Qed.

Lemma hello_text : text text_hello "Hello world\n" [] = Some (chars "Hello world\n").
Proof. by vm_compute. Qed.

Lemma nl_text : text text_hello "\n" [] = Some (chars "\n").
Proof. by vm_compute. Qed.

(** The program from the print of the control register on. *)
Lemma tail_dies {D} `{UartReady D} fuel sctlr buf_addr (s : st D (list Z)) :
  enough fuel -> glb s = buf0 -> buf_addr mod 4 = 0 -> 0 <= buf_addr < 2 ^ 31 - 2 ->
  0 <= sctlr < 2 ^ 31 ->
  dies (
    hello_printf fuel " SCTLR = 0x%08x\n" [AInt sctlr] ;;;
    hello_printf fuel " value = 0x%08x\n" [AInt 0x1234] ;;;
    hello_printf fuel "Hello world\n" [] ;;;
    buf_set 0 0x11 ;;; buf_set 1 0x22 ;;; buf_set 2 0x33 ;;; buf_set 3 0x44 ;;;
    buf_set 4 0x55 ;;; buf_set 5 0x66 ;;; buf_set 6 0x77 ;;; buf_set 7 0x88 ;;;
    hello_printf fuel "Read from 0x%08x\n" [AInt buf_addr] ;;;
    val <-- load_word buf_addr 0 ;;
    hello_printf fuel "Value = 0x%08x\n" [AInt val] ;;;
    hello_printf fuel "Done with 0x%08x\n" [AInt buf_addr] ;;;
    hello_printf fuel "\n" [] ;;;
    hello_printf fuel "Read from 0x%08x\n" [AInt (buf_addr + 2)] ;;;
    val <-- load_word buf_addr 2 ;;
    hello_printf fuel "Value = 0x%08x\n" [AInt val] ;;;
    hello_printf fuel "Done with 0x%08x\n" [AInt (buf_addr + 2)] ;;;
    hello_printf fuel "Finished\n" [] ;;;
    hello_printf fuel "Goodbye world\n" [] ;;;
    ret tt) s (tail_transcript sctlr buf_addr).
Proof.
  intros Hf Hs Hal Hba Hsc. unfold tail_transcript.
  destruct (hex_texts sctlr ltac:(lia)) as [Es _].
  destruct (hex_texts buf_addr ltac:(lia)) as (_ & Er & _ & Ed).
  destruct (hex_texts (buf_addr + 2) ltac:(lia)) as (_ & Er2 & _ & _).
  destruct (hex_texts 0x44332211 ltac:(lia)) as (_ & _ & Ev & _).
  line_step Es. line_step value_text. line_step hello_text.
  assert (Hg2 : glb s2 = buf0) by congruence. do 8 buf_step.
  assert (Hfill : glb s10 = buf_filled) by (rewrite Hg10; reflexivity).
  clear - Hf Hal Hfill Er Ed Er2 Ev.
  line_step Er. rewrite Hfill in Hg.
  eapply (dies_quiet _ _ _ _ (fun v s1 => v = 0x44332211 /\ glb s1 = buf_filled)).
  { eapply returns_weaken; [apply load_word_ok; [by rewrite Z.add_0_r|rewrite Hg; simpl; lia]|].
    cbn beta. rewrite Hg. intros v s2 t2 [[-> ->] Ht]. split; [split|exact Ht]; by vm_compute. }
  cbn beta. intros v s2 [-> Hg2]. line_step Ev. line_step Ed. line_step nl_text. line_step Er2.
  apply ends_bind_l. unfold load_word.
  replace ((buf_addr + Z.of_nat 2) mod 4) with 2 by (Z.div_mod_to_equations; lia).
  by repeat split.
Qed.

(** On a 4-aligned buffer the program reports the exception level and the
    control register, reads the aligned word 0x44332211, and faults on the
    misaligned read: what it sends ends there, the lines after the misaligned
    read are never printed, and nothing but the console is touched. *)
Theorem hello_faults {D} `{UartReady D} fuel buf_addr (s : st D (list Z)) :
  enough fuel -> glb s = buf0 -> buf_addr mod 4 = 0 -> 0 <= buf_addr < 2 ^ 31 - 2 ->
  (forall d, 0 <= (hw_mrs CurrentEL d).1 < 16) ->
  (forall d, 0 <= (hw_mrs SCTLR_EL2 d).1 < 2 ^ 31) ->
  ends (main fuel buf_addr) s Undef (fun _ t => exists e sctlr,
    In (EMrs CurrentEL e) t /\ In (EMrs SCTLR_EL2 sctlr) t /\
    says (crlf (transcript (Z.shiftr e 2) sctlr buf_addr)) t).
Proof.
  intros Hf Hs Hal Hba Hel Hsc. unfold main, serial_init, get_el, get_sctlr.
  apply ends_bind. go. apply ends_bind. go.
  pose proof (Hel (dev s)) as He. rewrite Hrd in He. cbn in He.
  rewrite u64_small, u32_small by (unfold is_u32, is_u64; lia).
  assert (He4 : 0 <= Z.shiftr v 2 < 4)
    by (rewrite Z.shiftr_div_pow2 by lia; Z.div_mod_to_equations; lia).
  apply ends_bind. eapply returns_weaken; [apply says_line; [done|by apply el_text|]|].
  { apply Forall_app; split; [apply chars_bytes|]. apply Forall_app; split; [|by repeat constructor].
    unfold itext. destruct (Z.ltb_spec (Z.shiftr v 2) 0); [lia|]. by apply utext_bytes; auto. }
  cbn beta. intros _ s1 t1 [Hg1 Ht1]. apply ends_bind. go.
  pose proof (Hsc (dev s1)) as Hv. rewrite Hrd0 in Hv. cbn in Hv.
  rewrite u64_small, u32_small by (unfold is_u32, is_u64; lia).
  eapply ends_weaken; [apply tail_dies; [done|cbn in *; congruence|done..]|].
  cbn beta. intros _ t2 Ht2. exists v, v0. split; [by left|]. split.
  { right. apply in_or_app. right. by left. }
  refine (says_app [] (crlf (transcript _ _ _)) [EMrs CurrentEL v] _ _ _); [done|].
  unfold transcript.
  rewrite (crlf_app (chars " EL = " ++ itext (Z.shiftr v 2) ++ [10])).
  refine (says_app _ _ t1 _ Ht1 _).
  by apply (says_app [] _ [EMrs SCTLR_EL2 v0]).
Qed.

Lemma hello_faults_witness :
  ends (main 10 0x40001000) (St (UartSim 1 [] []) buf0) Undef (fun _ t => exists e sctlr,
    In (EMrs CurrentEL e) t /\ In (EMrs SCTLR_EL2 sctlr) t /\
    says (crlf (transcript (Z.shiftr e 2) sctlr 0x40001000)) t).
Proof.
  refine (hello_faults 10 0x40001000 (St (UartSim 1 [] []) buf0) _ _ _ _ _ _);
    [unfold enough; simpl; lia|done|done|lia|intros d; simpl; lia..].
Defined.
