(* ===== verification/Blink.v ===== *)
(** The LED programs: src/Blink32/blink.c, src/Blink64/boot.c,
    src/BlinkEL/blink.c, and the same LED code kept in src/Timer/serial.c and
    src/Hello1/serial.c.  They share the GPIO block, the busy-wait and the pulse;
    they differ in what the number of pulses of a round tells. *)

From S2P Require Import Prelude Machine.

Definition gpio_regs : list field :=
  [word "out"; word "oe"; word "dm0"; word "dm1"; word "ie"; word "xdet"; word "xpad";
   word "__pad0"; word "alt0"; word "alt1"; word "dmx"; words "__pad1" 4;
   word "dmen"; word "slew"; word "slewdis"; word "drv1"; word "drv1dis"; word "drv0";
   word "drv0dis"; word "pull"; word "pulldis"; word "pullen"; word "pullendis"].

Definition GPIOB_BASE : Z := 0xC001B000.
Definition gpio (n : string) : Z := GPIOB_BASE + offsetof gpio_regs n.

Definition LED_BIT : Z := Z.shiftl 1 12.
Definition LONG : Z := 800000.
Definition MEDIUM : Z := 200000.
Definition SHORT : Z := 100000.

Definition NUM_CPU : Z := 8.

Section Code.
Context {D G : Type} `{Machine D}.

(** [while ( count ) count--;]: counting down from a negative [int] ends in
    overflow.  [delay] gives the loop all the rounds an [int] can need. *)
Fixpoint delay_loop (n : nat) (count : Z) : prog D G unit :=
  match n with
  | O => halt NoFuel
  | S n =>
      if count =? 0 then ret tt
      else if count =? - 2 ^ 31 then halt Undef
      else delay_loop n (count - 1)
  end.

Definition rounds (count : Z) : nat :=
  S (Z.to_nat (if count <? 0 then count + 2 ^ 31 else count)).

Definition delay (count : Z) : prog D G unit := delay_loop (rounds count) count.

Definition pulse : prog D G unit :=
  wr32 (gpio "out") LED_BIT ;;;
  delay MEDIUM ;;;
  wr32 (gpio "out") 0 ;;;
  delay SHORT ;;;
  wr32 (gpio "out") LED_BIT.

(** [while ( num-- ) pulse ();] *)
Fixpoint pulses_loop (n : nat) (num : Z) : prog D G unit :=
  match n with
  | O => halt NoFuel
  | S n =>
      if num =? - 2 ^ 31 then halt Undef
      else if num =? 0 then ret tt
      else pulse ;;; pulses_loop n (num - 1)
  end.

Definition pulses (num : Z) : prog D G unit := pulses_loop (rounds num) num.

(** [for ( ;; ) body]: the first [k] rounds. *)
Fixpoint forever (k : nat) (body : prog D G unit) : prog D G unit :=
  match k with
  | O => halt NoFuel
  | S k => body ;;; forever k body
  end.

(** Configure the pin and turn the LED off: the start of every program. *)
Definition blink_config : prog D G unit :=
  v <-- rd32 (gpio "alt0") ;; wr32 (gpio "alt0") (Z.land v (Z.lnot (Z.shiftl 3 24))) ;;;
  v <-- rd32 (gpio "alt0") ;; wr32 (gpio "alt0") (Z.lor v (Z.shiftl 2 24)) ;;;
  wr32 (gpio "oe") LED_BIT.

(** src/Blink32/blink.c *)
Definition blink_main (k : nat) : prog D G unit :=
  blink_config ;;;
  wr32 (gpio "out") LED_BIT ;;;
  forever k (delay LONG ;;; pulses 2).

(** src/BlinkEL/blink.c *)
Definition get_el : prog D G Z := v <-- mrs CurrentEL ;; ret (Z.shiftr (u32 v) 2).

Definition boot_master_el (k : nat) : prog D G unit :=
  blink_config ;;;
  count <-- get_el ;;
  wr32 (gpio "out") LED_BIT ;;;
  forever k (delay LONG ;;; pulses (s32 count)).

(** src/Timer/serial.c and src/Hello1/serial.c *)
Definition blink_init : prog D G unit :=
  blink_config ;;; wr32 (gpio "out") LED_BIT.

Definition blink_run (k : nat) : prog D G unit :=
  count <-- get_el ;; forever k (delay LONG ;;; pulses (s32 count)).
End Code.

(** src/Blink64/boot.c: the state is the array [cpu_active]. *)
Section Boot64.
Context {D : Type} `{Machine D}.

Definition boot_slave (who : Z) : prog D (list Z) unit :=
  a <-- gget ;;
  if (who <? 0) || (NUM_CPU <=? who) then halt Undef else
  match a !! Z.to_nat who with
  | Some n =>
      if n =? 2 ^ 31 - 1 then halt Undef else gput (<[Z.to_nat who := n + 1]> a)
  | None => halt Undef
  end.

(** [count = 1; for (...) if ( cpu_active\[i\] ) count++;] *)
Definition active_count (a : list Z) : Z :=
  foldl (fun count n => if n =? 0 then count else count + 1) 1 a.

Definition boot_master (k : nat) : prog D (list Z) unit :=
  blink_config ;;;
  wr32 (gpio "out") LED_BIT ;;;
  forever k (delay LONG ;;; a <-- gget ;; pulses (active_count a)).

Definition cpu_active0 : list Z := replicate 8 0.
End Boot64.

(** ** What an observer of the LED sees

    The LED is lit while its bit is 0; a flash is a change from off to lit. *)
Definition led (v : Z) : bool := negb (Z.testbit v 12).

Fixpoint flashes_from (lit : bool) (vs : list Z) : Z :=
  match vs with
  | [] => 0
  | v :: r => (if negb lit && led v then 1 else 0) + flashes_from (led v) r
  end.

(** Flashes of a run that starts with the LED off. *)
Definition flashes (t : list event) : Z := flashes_from false (writes_to (gpio "out") t).

Definition pulse_writes : list Z := [LED_BIT; 0; LED_BIT].

(** [n] pulses. *)
Definition pulse_seq (n : nat) : list Z := concat (replicate n pulse_writes).

Lemma flashes_pulse_seq n vs :
  flashes_from false (pulse_seq n ++ vs) = Z.of_nat n + flashes_from false vs.
Proof.
  induction n as [|n IH]; [done|].
  transitivity (1 + flashes_from false (pulse_seq n ++ vs)); [reflexivity|rewrite IH; lia].
Qed.

Section Runs.
Context {D G : Type} `{Machine D}.
Implicit Types s : st D G.

Lemma delay_loop_ok n count s :
  0 <= count < Z.of_nat n -> delay_loop n count s = Ok tt s [].
Proof.
  revert count. induction n as [|n IH]; intros count Hc; [lia|]. cbn [delay_loop].
  destruct (Z.eqb_spec count 0); [done|]. destruct (Z.eqb_spec count (- 2 ^ 31)); [lia|].
  apply IH. lia.
Qed.

Lemma rounds_enough count : 0 <= count -> count < Z.of_nat (rounds count).
Proof. intros Hc. unfold rounds. destruct (Z.ltb_spec count 0); lia. Qed.

(** The busy-wait always ends, and does nothing. *)
Lemma delay_ok count s : 0 <= count -> delay count s = Ok tt s [].
Proof. intros Hc. apply delay_loop_ok. split; [done|]. by apply rounds_enough. Qed.

(** A run that only stores [vs] into the LED register. *)
Definition led_writes (vs : list Z) (t : list event) : Prop :=
  t = (EWr (gpio "out") <$> vs).

Lemma led_writes_app vs ws t1 t2 :
  led_writes vs t1 -> led_writes ws t2 -> led_writes (vs ++ ws) (t1 ++ t2).
Proof. unfold led_writes. intros -> ->. by rewrite fmap_app. Qed.

Lemma pulse_ok s :
  returns pulse s (fun _ s' t => glb s' = glb s /\ led_writes pulse_writes t).
Proof.
  unfold pulse. go. unfold returns at 1. rewrite delay_ok by done. go.
  unfold returns at 1. rewrite delay_ok by done. by go.
Qed.

Lemma pulses_loop_ok n num s : 0 <= num < Z.of_nat n ->
  returns (pulses_loop n num) s (fun _ s' t =>
    glb s' = glb s /\ led_writes (pulse_seq (Z.to_nat num)) t).
Proof.
  revert num s. induction n as [|n IH]; intros num s Hn; [lia|]. cbn [pulses_loop].
  destruct (Z.eqb_spec num (- 2 ^ 31)); [lia|].
  destruct (Z.eqb_spec num 0) as [->|]; [by apply returns_ret|].
  apply returns_bind. eapply returns_weaken; [apply pulse_ok|]. cbn beta.
  intros _ s1 t1 [Hg1 Ht1]. eapply returns_weaken; [apply (IH (num - 1)); lia|]. cbn beta.
  intros _ s2 t2 [Hg2 Ht2]. split; [congruence|].
  replace (Z.to_nat num) with (S (Z.to_nat (num - 1))) by lia. by apply (led_writes_app pulse_writes).
Qed.

Lemma pulses_ok num s : 0 <= num ->
  returns (pulses num) s (fun _ s' t =>
    glb s' = glb s /\ led_writes (pulse_seq (Z.to_nat num)) t).
Proof. intros Hn. apply pulses_loop_ok. split; [done|]. by apply rounds_enough. Qed.

Lemma concat_pulses k n : pulse_seq (k * n) = concat (replicate k (pulse_seq n)).
Proof.
  unfold pulse_seq. induction k as [|k IH]; [done|]. cbn [Nat.mul replicate concat].
  by rewrite replicate_add, concat_app, IH.
Qed.

(** [k] rounds of a body that always makes [n] pulses and keeps an invariant. *)
Lemma forever_ends (P : G -> Prop) (body : prog D G unit) n k s :
  P (glb s) ->
  (forall s, P (glb s) -> returns body s (fun _ s' t =>
     P (glb s') /\ led_writes (pulse_seq n) t)) ->
  ends (forever k body) s NoFuel (fun _ t => led_writes (pulse_seq (k * n)) t).
Proof.
  intros Hs Hbody. rewrite concat_pulses. revert s Hs. induction k as [|k IH]; intros s Hs; [done|].
  cbn [forever replicate concat]. apply ends_bind. eapply returns_weaken; [by apply Hbody|].
  cbn beta. intros _ s1 t1 [Hs1 Ht1]. eapply ends_weaken; [by apply IH|].
  cbn beta. intros _ t2 Ht2. by apply led_writes_app.
Qed.

Lemma round_ok (P : G -> Prop) num s : 0 <= num -> P (glb s) ->
  returns (delay LONG ;;; pulses num) s (fun _ s' t =>
    P (glb s') /\ led_writes (pulse_seq (Z.to_nat num)) t).
Proof.
  intros Hn HP. apply returns_bind. unfold returns at 1. rewrite delay_ok by done.
  eapply returns_weaken; [by apply pulses_ok|]. cbn beta. by intros _ s' t [-> Ht].
Qed.

Lemma writes_to_led vs : writes_to (gpio "out") (EWr (gpio "out") <$> vs) = vs.
Proof. induction vs as [|v vs IH]; [done|]. cbn. f_equal. exact IH. Qed.
End Runs.

(** ** The configuration of the pin *)

(** The registers of the block are plain registers. *)
Definition gpio_plain (a : Z) : bool :=
  (GPIOB_BASE <=? a) && (a <? GPIOB_BASE + sizeof gpio_regs).

Definition alt_cleared (v : Z) : Z := Z.land v (Z.lnot (Z.shiftl 3 24)).
Definition alt_led (v : Z) : Z := Z.lor (alt_cleared v) (Z.shiftl 2 24).

(** The stores of the configuration, for the value the function register had. *)
Definition config_stores (v : Z) : list (Z * Z) :=
  [(gpio "alt0", alt_cleared v); (gpio "alt0", alt_led v); (gpio "oe", LED_BIT)].

Lemma alt_cleared_word v : is_u32 v -> is_u32 (alt_cleared v).
Proof. intros Hv. by apply (land_bound 32). Qed.

Lemma alt_led_word v : is_u32 v -> is_u32 (alt_led v).
Proof. intros Hv. apply (lor_bound 32); [done|by apply alt_cleared_word|done]. Qed.

(** Pin 12's two-bit field is set to 2, every other field is kept. *)
Lemma alt_led_bits v i : 0 <= i ->
  Z.testbit (alt_led v) i = if i =? 25 then true else if i =? 24 then false else Z.testbit v i.
Proof.
  intros Hi. unfold alt_led, alt_cleared.
  change (Z.shiftl 3 24) with (Z.lor (2 ^ 24) (2 ^ 25)). change (Z.shiftl 2 24) with (2 ^ 25).
  rewrite Z.lor_spec, Z.land_spec, Z.lnot_spec, Z.lor_spec, !testbit_pow2 by lia.
  destruct (Z.eqb_spec i 25) as [->|]; [by rewrite orb_true_r|].
  destruct (Z.eqb_spec i 24) as [->|]; cbn [orb negb]; by rewrite ?andb_false_r, ?andb_true_r, ?orb_false_r.
Qed.

Section Config.
Context {D G : Type} `{Storage D gpio_plain}.

Lemma blink_config_ok (s : st D G) :
  returns blink_config s (fun _ s' t =>
    glb s' = glb s /\ stores t = config_stores (reg (dev s) (gpio "alt0")) /\
    writes_to (gpio "out") t = []).
Proof.
  unfold blink_config. set (a0 := gpio "alt0").
  pose proof (storage_word a0 (dev s) eq_refl) as Hw.
  apply returns_bind, returns_rd32_plain; [done|]. intros d1 Hd1.
  apply returns_bind, returns_wr32_plain; [done|]. cbn [dev glb]. intros d2 Hd2.
  apply returns_bind, returns_rd32_plain; [done|]. cbn [dev glb]. intros d3 Hd3.
  go. split; [done|]. rewrite (Hd2 a0 eq_refl), Z.eqb_refl.
  change (Z.land (reg (dev s) a0) (Z.lnot (Z.shiftl 3 24))) with (alt_cleared (reg (dev s) a0)).
  change (Z.lor (u32 (alt_cleared (reg (dev s) a0))) (Z.shiftl 2 24))
    with (Z.lor (u32 (alt_cleared (reg (dev s) a0))) (2 * 2 ^ 24)).
  rewrite (u32_small (alt_cleared _)) by by apply alt_cleared_word.
  change (Z.lor (alt_cleared (reg (dev s) a0)) (2 * 2 ^ 24)) with (alt_led (reg (dev s) a0)).
  by rewrite (u32_small (alt_led _)) by by apply alt_led_word.
Qed.
End Config.

(** ** Results *)

#[local] Opaque delay pulses rounds.

Lemma stores_led vs : stores (EWr (gpio "out") <$> vs) = map (fun v => (gpio "out", v)) vs.
Proof. induction vs as [|v vs IH]; [done|]. cbn. f_equal. exact IH. Qed.

(** The stores of a whole program: the configuration, the LED off, [k] rounds
    of [n] pulses; and the flashes seen. *)
Definition led_program (v : Z) (k n : nat) (t : list event) : Prop :=
  stores t = config_stores v ++ map (fun v => (gpio "out", v)) (LED_BIT :: pulse_seq (k * n)) /\
  flashes t = Z.of_nat (k * n).

Lemma led_program_app v k n t1 t2 t3 :
  stores t1 = config_stores v -> writes_to (gpio "out") t1 = [] ->
  stores t2 = [(gpio "out", LED_BIT)] -> writes_to (gpio "out") t2 = [LED_BIT] ->
  led_writes (pulse_seq (k * n)) t3 -> led_program v k n (t1 ++ t2 ++ t3).
Proof.
  intros H1 H2 H3 H4 ->. unfold led_program, flashes. autorewrite with trace.
  rewrite H1, H2, H3, H4, stores_led, writes_to_led. split; [done|].
  transitivity (flashes_from false (pulse_seq (k * n) ++ [])).
  { by rewrite app_nil_r. }
  rewrite flashes_pulse_seq. cbn [flashes_from]. lia.
Qed.

Section Programs.
Context {D G : Type} `{Storage D gpio_plain}.

Lemma led_program_ends (P : G -> Prop) (body : prog D G unit) n k (s : st D G) :
  P (glb s) ->
  (forall s, P (glb s) -> returns body s (fun _ s' t =>
     P (glb s') /\ led_writes (pulse_seq n) t)) ->
  ends (blink_config ;;; wr32 (gpio "out") LED_BIT ;;; forever k body) s NoFuel
    (fun _ t => led_program (reg (dev s) (gpio "alt0")) k n t).
Proof.
  intros Hs Hbody. apply ends_bind. eapply returns_weaken; [apply blink_config_ok|]. cbn beta.
  intros _ s1 t1 (Hg1 & Ht1 & Hw1). apply ends_bind. go.
  eapply ends_weaken; [apply (forever_ends P body n); [cbn; congruence|done]|].
  cbn beta. intros _ t3 Ht3. by apply (led_program_app _ _ _ t1 [_]).
Qed.
End Programs.

(** C14: [blink_main] never stops by itself: after any number [k] of rounds it
    has set pin 12's function field to 2 and kept every other bit of the
    function register, driven the pin, and flashed the LED twice a round. *)
Theorem blink_main_flashes {D G} `{Storage D gpio_plain} k (s : st D G) :
  let v := reg (dev s) (gpio "alt0") in
  ends (blink_main k) s NoFuel (fun _ t =>
    stores t = [(gpio "alt0", alt_cleared v); (gpio "alt0", alt_led v); (gpio "oe", LED_BIT)]
      ++ map (fun v => (gpio "out", v)) (LED_BIT :: pulse_seq (k * 2)) /\
    flashes t = Z.of_nat (k * 2) /\
    forall i, 0 <= i -> Z.testbit (alt_led v) i =
      if i =? 25 then true else if i =? 24 then false else Z.testbit v i).
Proof.
  intros v. eapply ends_weaken.
  - apply (led_program_ends (fun _ => True)); [done|]. intros s1 _. by apply (round_ok (fun _ => True) 2 s1).
  - cbn beta. intros _ t [H1 H2]. split_and!; [exact H1|exact H2|].
    intros i Hi. by apply alt_led_bits.
Qed.

(** The exception-level program flashes, in every round, as many times as
    the exception level the processor is at. *)
Theorem blink_el_flashes {D G} `{Storage D gpio_plain} k (s : st D G) :
  (forall d, 0 <= (hw_mrs CurrentEL d).1 < 16) ->
  ends (boot_master_el k) s NoFuel (fun _ t => exists x,
    In (EMrs CurrentEL x) t /\ 0 <= Z.shiftr x 2 < 4 /\
    flashes t = Z.of_nat k * Z.shiftr x 2).
Proof.
  intros Hel. unfold boot_master_el. apply ends_bind.
  eapply returns_weaken; [apply blink_config_ok|]. cbn beta. intros _ s1 t1 (Hg1 & Ht1 & Hw1).
  unfold get_el. apply ends_bind. go.
  pose proof (Hel (dev s1)) as Hv. rewrite Hrd in Hv. cbn in Hv.
  assert (He : 0 <= Z.shiftr v 2 < 4)
    by (rewrite Z.shiftr_div_pow2 by lia; Z.div_mod_to_equations; lia).
  rewrite u64_small, u32_small by (unfold is_u32, is_u64; lia).
  rewrite s32_small by (unfold is_s32; lia). apply ends_bind. go.
  eapply ends_weaken.
  - apply (forever_ends (fun _ => True) _ (Z.to_nat (Z.shiftr v 2))); [done|].
    intros s2 _. apply (round_ok (fun _ => True) (Z.shiftr v 2) s2); [lia|done].
  - cbn beta. intros _ t3 Ht3. exists v. split; [|split; [done|]].
    { apply in_or_app. right. by left. }
    assert (Hp : led_program (reg (dev s) (gpio "alt0")) k (Z.to_nat (Z.shiftr v 2))
      (t1 ++ [EMrs CurrentEL v; EWr (gpio "out") LED_BIT] ++ t3)) by by apply led_program_app.
    cbn [app] in Hp |- *. destruct Hp as [_ Hp]. etransitivity; [exact Hp|lia].
Qed.

Lemma blink_el_flashes_witness :
  ends (boot_master_el 3) (St (Ram ∅ (fun _ => 8)) tt) NoFuel (fun _ t => exists x,
    In (EMrs CurrentEL x) t /\ 0 <= Z.shiftr x 2 < 4 /\
    flashes t = Z.of_nat 3 * Z.shiftr x 2).
Proof.
  refine (blink_el_flashes 3 (St (Ram ∅ (fun _ => 8)) tt) _).
  intros d. apply (land_bound_r 4); lia.
Defined.

(** ** Other cores *)

(** The cores that have called [boot_slave]. *)
Lemma boot_slave_marks {D} `{Machine D} who (s : st D (list Z)) n :
  0 <= who < 8 -> glb s !! Z.to_nat who = Some n -> n <> 2 ^ 31 - 1 ->
  boot_slave who s = Ok tt (St (dev s) (<[Z.to_nat who := n + 1]> (glb s))) [].
Proof.
  intros Hw Hn Hm. unfold boot_slave, bind, gget.
  destruct (Z.ltb_spec who 0); [lia|]. destruct (Z.leb_spec NUM_CPU who); [unfold NUM_CPU in *; lia|].
  cbn [orb]. rewrite Hn. by destruct (Z.eqb_spec n (2 ^ 31 - 1)).
Qed.

(** [boot_slave] on the cores [ws], one after the other. *)
Fixpoint slaves {D} `{Machine D} (ws : list Z) : prog D (list Z) unit :=
  match ws with
  | [] => ret tt
  | w :: ws => boot_slave w ;;; slaves ws
  end.

(** How often each core has called. *)
Definition calls (ws : list Z) : list Z :=
  map (fun i => Z.of_nat (count_occ Z.eq_dec ws i)) (seqZ 0 8).

Lemma slaves_ok {D} `{Machine D} ws seen (s : st D (list Z)) :
  Forall (fun w => 0 <= w < 8) ws -> Z.of_nat (length (seen ++ ws)) < 2 ^ 31 ->
  glb s = calls seen -> slaves ws s = Ok tt (St (dev s) (calls (seen ++ ws))) [].
Proof.
  revert seen s. induction ws as [|w ws IH]; intros seen s Hw Hlen Hs; cbn [slaves].
  { rewrite app_nil_r, <- Hs. by destruct s. }
  apply Forall_cons in Hw as [Hw Hws]. rewrite length_app in Hlen. simpl length in Hlen.
  assert (Hn : glb s !! Z.to_nat w = Some (Z.of_nat (count_occ Z.eq_dec seen w))).
  { rewrite Hs. unfold calls. rewrite list_lookup_fmap, lookup_seqZ_lt by lia. cbn.
    by rewrite Z2Nat.id by lia. }
  assert (Hb : Z.of_nat (count_occ Z.eq_dec seen w) <> 2 ^ 31 - 1).
  { pose proof (count_occ_bound Z.eq_dec w seen). lia. }
  rewrite (bind_quiet _ _ _ _ _ (boot_slave_marks w s _ Hw Hn Hb)).
  rewrite (IH (seen ++ [w])); [by rewrite <- app_assoc|done| |].
  - rewrite !length_app. simpl length. lia.
  - cbn [glb]. rewrite Hs. unfold calls. apply list_eq. intros j.
    destruct (decide (j < 8)%nat) as [Hj|Hj].
    2: { rewrite !lookup_ge_None_2; [done|lens..]. }
    rewrite (list_lookup_fmap _ _ j), lookup_seqZ_lt by lia. cbn [fmap option_fmap option_map].
    rewrite count_occ_app. cbn [count_occ].
    destruct (decide (j = Z.to_nat w)) as [->|Hne].
    + rewrite list_lookup_insert_eq by lens. rewrite Z.add_0_l, Z2Nat.id by lia.
      destruct (Z.eq_dec w w); [f_equal; lia|done].
    + rewrite list_lookup_insert_ne by done. rewrite list_lookup_fmap, lookup_seqZ_lt by lia.
      cbn [fmap option_fmap option_map]. rewrite !Z.add_0_l.
      destruct (Z.eq_dec w (Z.of_nat j)); [lia|]. by rewrite Nat.add_0_r.
Qed.

(** The number of different cores in a list of calls. *)
Definition distinct (ws : list Z) : nat := length (nodup Z.eq_dec ws).

Lemma active_count_calls ws :
  Forall (fun w => 0 <= w < 8) ws -> active_count (calls ws) = 1 + Z.of_nat (distinct ws).
Proof.
  intros Hw. unfold active_count.
  assert (Hf : forall l a, foldl (fun count n => if n =? 0 then count else count + 1) a
      (map (fun i => Z.of_nat (count_occ Z.eq_dec ws i)) l)
    = a + Z.of_nat (length (List.filter (fun i => if in_dec Z.eq_dec i ws then true else false) l))).
  { induction l as [|i l IH]; intros a; cbn [map foldl List.filter length]; [lia|]. rewrite IH.
    destruct (in_dec Z.eq_dec i ws) as [Hin|Hin].
    - apply (count_occ_In Z.eq_dec) in Hin.
      destruct (Z.eqb_spec (Z.of_nat (count_occ Z.eq_dec ws i)) 0); cbn [length]; lia.
    - apply (count_occ_not_In Z.eq_dec) in Hin. by rewrite Hin. }
  unfold calls. rewrite Hf. f_equal. f_equal. unfold distinct.
  apply Permutation_length, NoDup_Permutation.
  - apply NoDup_ListNoDup, List.NoDup_filter, NoDup_ListNoDup, NoDup_seqZ.
  - apply NoDup_ListNoDup, List.NoDup_nodup.
  - intros i. rewrite !list_elem_of_In, filter_In, nodup_In, <- list_elem_of_In, elem_of_seqZ.
    destruct (in_dec Z.eq_dec i ws) as [Hin|]; [|naive_solver].
    rewrite Forall_forall in Hw. apply list_elem_of_In in Hin as Hin2. specialize (Hw i Hin2).
    naive_solver lia.
Qed.

(** The multi-core experiment reports what it is meant to: whichever cores
    have called [boot_slave] before, however often and in whatever order, every
    round of [boot_master] flashes once more than the number of different cores
    that called. *)
Theorem boot64_counts_cores {D} `{Storage D gpio_plain} ws k (d : D) :
  Forall (fun w => 0 <= w < 8) ws -> Z.of_nat (length ws) < 2 ^ 31 ->
  ends (slaves ws ;;; boot_master k) (St d cpu_active0) NoFuel (fun _ t =>
    flashes t = Z.of_nat k * (1 + Z.of_nat (distinct ws))).
Proof.
  intros Hw Hlen. apply ends_bind. unfold returns at 1.
  rewrite (slaves_ok ws []) by done. cbn [dev app].
  eapply ends_weaken.
  - apply (led_program_ends (fun a => a = calls ws) _ (1 + distinct ws)); [done|].
    intros s1 Hs1. apply returns_bind. unfold returns at 1. rewrite delay_ok by done.
    go. rewrite Hs1, active_count_calls by done.
    eapply returns_weaken; [apply (pulses_ok (1 + Z.of_nat (distinct ws)) s1); lia|].
    cbn beta. intros _ s' t [Hg Ht]. split; [congruence|].
    by replace (Z.to_nat (1 + Z.of_nat (distinct ws))) with (1 + distinct ws)%nat in Ht by lia.
  - cbn beta. intros _ t [_ ->]. lia.
Qed.

Lemma boot64_counts_cores_witness :
  ends (slaves [3; 5; 3; 1] ;;; boot_master 2) (St (Ram ∅ (fun _ => 0)) cpu_active0) NoFuel
    (fun _ t => flashes t = Z.of_nat 2 * (1 + Z.of_nat (distinct [3; 5; 3; 1]))).
Proof.
  refine (boot64_counts_cores [3; 5; 3; 1] 2 (Ram ∅ (fun _ => 0)) _ _);
    [repeat constructor; lia|simpl; lia].
Defined.
