(* ===== verification/Host.v ===== *)
(** What the host tools (the USB loader, the ELF wrapper, the boot image
    generator) share: a byte-addressed buffer, the little-endian words in it,
    and [strtol] of the C library. *)

From S2P Require Import Prelude Machine.
From S2P Require Printf.

(** ** Buffers

    A static buffer holds zero until it is stored to. *)
Abbreviation mem := (gmap Z Z).

Definition byte (m : mem) (a : Z) : Z := default 0 (m !! a).

Fixpoint store (m : mem) (a : Z) (bs : list Z) : mem :=
  match bs with
  | [] => m
  | b :: r => store (<[a := b]> m) (a + 1) r
  end.

Definition load (m : mem) (a n : Z) : list Z := byte m <$> seqZ a n.

(** The little-endian word at an address. *)
Definition word_at (m : mem) (a : Z) : Z := le_word (load m a 4).

(** A sequence of 32-bit stores. *)
Definition puts (m : mem) (l : list (Z * Z)) : mem :=
  foldl (fun m p => store m p.1 (le32 p.2)) m l.

(** The value the last store of the sequence to [a] leaves there. *)
Definition last_put (a : Z) (l : list (Z * Z)) : option Z :=
  foldl (fun o p => if p.1 =? a then Some p.2 else o) None l.

(** ** strtol

    Leading white space, a sign, for base 16 an optional [0x], then digits; the
    result is clamped to a 64-bit [long]. *)
Definition isspace (c : Z) : bool := (c =? 32) || ((9 <=? c) && (c <=? 13)).

Definition digit_val (c : Z) : Z :=
  if (48 <=? c) && (c <=? 57) then c - 48
  else if (97 <=? c) && (c <=? 122) then c - 87
  else if (65 <=? c) && (c <=? 90) then c - 55
  else 99.

Fixpoint skip_space (s : list Z) : list Z :=
  match s with
  | c :: r => if isspace c then skip_space r else s
  | [] => []
  end.

Fixpoint digits (base acc : Z) (s : list Z) : Z :=
  match s with
  | c :: r => if digit_val c <? base then digits base (acc * base + digit_val c) r else acc
  | [] => acc
  end.

Definition skip_0x (base : Z) (s : list Z) : list Z :=
  match s with
  | 48 :: x :: c :: r =>
      if (base =? 16) && ((x =? 120) || (x =? 88)) && (digit_val c <? 16) then c :: r else s
  | _ => s
  end.

Definition strtol (base : Z) (s : list Z) : Z :=
  let s := skip_space s in
  let '(neg, s) :=
    match s with
    | c :: r => if c =? 45 then (true, r) else if c =? 43 then (false, r) else (false, s)
    | [] => (false, [])
    end in
  let v := digits base 0 (skip_0x base s) in
  if neg then Z.max (- 2 ^ 63) (- v) else Z.min (2 ^ 63 - 1) v.

(** ** Reading hexadecimal *)

(** A lower-case hexadecimal digit, as [strtol] and as [printf] see it. *)
Definition hexdigit (c : Z) : Prop :=
  digit_val c < 16 /\ digit_val c = Printf.digit_value Printf.c_a c /\ 48 <= c <= 102.

Lemma hexdigit_digit t : 0 <= t < 16 -> hexdigit (Printf.digit Printf.c_a t).
Proof.
  intros Ht. assert (Hall : forallb (fun t => let c := Printf.digit Printf.c_a t in
      (digit_val c <? 16) && (digit_val c =? Printf.digit_value Printf.c_a c) &&
      ((48 <=? c) && (c <=? 102))) (seqZ 0 16) = true) by (vm_compute; reflexivity).
  rewrite forallb_forall in Hall. specialize (Hall t).
  rewrite <- list_elem_of_In, elem_of_seqZ in Hall. unfold hexdigit. specialize (Hall ltac:(lia)).
  cbn zeta in Hall. lia.
Qed.

Lemma numeral_hexdigits room u : Forall hexdigit (Printf.numeral 16 Printf.c_a room u).
Proof.
  revert u. induction room as [|r IH]; intros u; cbn [Printf.numeral]; [constructor|].
  destruct (u =? 0); [constructor|]. apply Forall_app. split; [apply IH|].
  constructor; [|constructor]. apply hexdigit_digit, Z.mod_pos_bound. lia.
Qed.

Lemma digits_hex acc cs : Forall hexdigit cs ->
  digits 16 acc cs = foldl (fun a c => a * 16 + Printf.digit_value Printf.c_a c) acc cs.
Proof.
  intros Hcs. revert acc. induction Hcs as [|c cs (Hc & Hv & _) _ IH]; intros acc; [done|].
  cbn [digits foldl]. destruct (Z.ltb_spec (digit_val c) 16); [|lia]. by rewrite Hv, IH.
Qed.

(** [strtol] reads the value of any text of hexadecimal digits. *)
Lemma strtol_hexdigits cs :
  cs <> [] -> Forall hexdigit cs -> 0 <= Printf.numeral_value 16 Printf.c_a cs < 2 ^ 63 ->
  strtol 16 cs = Printf.numeral_value 16 Printf.c_a cs.
Proof.
  intros Hne Hhex Hval. pose proof (digits_hex 0 _ Hhex) as Hd.
  destruct cs as [|c cs]; [done|].
  assert (Hc : hexdigit c) by (by inversion Hhex). destruct Hc as (_ & _ & Hc).
  assert (Hx : skip_0x 16 (c :: cs) = c :: cs).
  { unfold skip_0x. destruct cs as [|x [|y r]]; try by repeat case_match.
    apply Forall_cons in Hhex as [_ [(Hx88 & _ & Hx) _]%Forall_cons].
    assert (x <> 88) by (intros ->; by vm_compute in Hx88).
    assert (Hb : (x =? 120) || (x =? 88) = false) by lia.
    rewrite Hb, andb_false_r. by repeat case_match. }
  unfold strtol, skip_space, isspace.
  destruct (Z.eqb_spec c 32); [lia|]. destruct (Z.leb_spec 9 c); [|lia].
  destruct (Z.leb_spec c 13); [lia|]. cbn [orb andb].
  destruct (Z.eqb_spec c 45); [lia|]. destruct (Z.eqb_spec c 43); [lia|].
  rewrite Hx, Hd. by rewrite Z.min_r by (unfold Printf.numeral_value in Hval; lia).
Qed.

Lemma utext_hexdigits v : Forall hexdigit (Printf.utext 16 Printf.c_a v).
Proof.
  unfold Printf.utext. destruct (v =? 0); [|apply numeral_hexdigits].
  constructor; [|constructor]. by apply (hexdigit_digit 0).
Qed.

(** [strtol] reads back the hexadecimal text of a word. *)
Lemma strtol_hex v : is_u32 v -> u32 (strtol 16 (Printf.utext 16 Printf.c_a v)) = v.
Proof.
  intros Hv. pose proof (Printf.utext_value 16 Printf.c_a v (or_intror eq_refl) (or_introl eq_refl) Hv) as Hval.
  destruct (Printf.utext_head 16 Printf.c_a v (or_intror eq_refl) (or_introl eq_refl) Hv) as (c & cs & E & _).
  rewrite strtol_hexdigits, Hval; [by apply u32_small|by rewrite E|apply utext_hexdigits|].
  unfold is_u32 in Hv. lia.
Qed.

(** A word in exactly eight digits, and how it is read. *)
Definition hex8 (v : Z) : list Z := Printf.pad_text (Printf.utext 16 Printf.c_a (u32 v)) 8 2.

Lemma hex8_replicate v :
  hex8 v = replicate (Z.to_nat (8 - Z.of_nat (length (Printf.utext 16 Printf.c_a (u32 v))))) 48
    ++ Printf.utext 16 Printf.c_a (u32 v).
Proof. done. Qed.

Lemma utext_short v : is_u32 v -> (length (Printf.utext 16 Printf.c_a v) <= 8)%nat.
Proof.
  intros Hu. unfold Printf.utext. destruct (v =? 0); [simpl; lia|]. unfold is_u32 in Hu.
  rewrite (Printf.numeral_room 16 Printf.c_a ltac:(lia) 8 21)
    by (try change (16 ^ Z.of_nat 8) with (2 ^ 32); lia).
  apply Printf.numeral_length.
Qed.

Lemma hex8_length v : length (hex8 v) = 8%nat.
Proof.
  rewrite hex8_replicate. pose proof (utext_short (u32 v) (u32_range v)). lens.
Qed.

Lemma hex8_hexdigits v : Forall hexdigit (hex8 v).
Proof.
  rewrite hex8_replicate. apply Forall_app. split; [|apply utext_hexdigits].
  apply Forall_replicate. by apply (hexdigit_digit 0).
Qed.

Lemma strtol_hex8 v : is_u32 v -> u32 (strtol 16 (hex8 v)) = v.
Proof.
  intros Hv. assert (Hval : Printf.numeral_value 16 Printf.c_a (hex8 v) = v).
  { rewrite hex8_replicate. rewrite (Printf.numeral_value_zeros 16 Printf.c_a).
    rewrite Printf.utext_value; [by apply u32_small|by right|by left|apply u32_range]. }
  rewrite strtol_hexdigits, Hval; [by apply u32_small| |apply hex8_hexdigits|unfold is_u32 in Hv; lia].
  intros E. pose proof (hex8_length v) as Hl. by rewrite E in Hl.
Qed.

(** ** Lemmas on buffers *)

Section Buffers.
Implicit Types m : mem.

Lemma byte_insert m a b i : byte (<[a := b]> m) i = if i =? a then b else byte m i.
Proof.
  unfold byte. destruct (Z.eqb_spec i a) as [->|Hne].
  - by rewrite lookup_insert_eq.
  - by rewrite lookup_insert_ne by done.
Qed.

Lemma byte_store_out m a bs i :
  i < a \/ a + Z.of_nat (length bs) <= i -> byte (store m a bs) i = byte m i.
Proof.
  revert m a. induction bs as [|b bs IH]; intros m a Hi; [done|]. simpl length in Hi.
  cbn [store]. rewrite IH, byte_insert by lia. by destruct (Z.eqb_spec i a); [lia|].
Qed.

Lemma byte_store_in m a bs (k : nat) b :
  bs !! k = Some b -> byte (store m a bs) (a + Z.of_nat k) = b.
Proof.
  revert m a k. induction bs as [|c bs IH]; intros m a k Hk; [done|].
  destruct k as [|k]; cbn [store].
  - injection Hk as ->. rewrite byte_store_out by lia. rewrite Z.add_0_r, byte_insert.
    by rewrite Z.eqb_refl.
  - replace (a + Z.of_nat (S k)) with (a + 1 + Z.of_nat k) by lia. by apply IH.
Qed.

Lemma load_length m a n : length (load m a n) = Z.to_nat n.
Proof. unfold load. by rewrite length_fmap, length_seqZ. Qed.

Lemma load_lookup m a n (k : nat) :
  Z.of_nat k < n -> load m a n !! k = Some (byte m (a + Z.of_nat k)).
Proof.
  intros Hk. unfold load. rewrite list_lookup_fmap, lookup_seqZ_lt by lia. done.
Qed.

Lemma load_ext m m' a n :
  (forall i, a <= i < a + n -> byte m i = byte m' i) -> load m a n = load m' a n.
Proof.
  intros Heq. unfold load. apply list_fmap_ext. intros k x Hx.
  apply lookup_seqZ in Hx. apply Heq. lia.
Qed.

Lemma load_split m a n k : 0 <= k <= n -> load m a n = load m a k ++ load m (a + k) (n - k).
Proof.
  intros Hk. unfold load. rewrite <- fmap_app. f_equal.
  replace n with (k + (n - k)) at 1 by lia. by rewrite seqZ_app by lia.
Qed.

Lemma load_store_same m a bs : load (store m a bs) a (Z.of_nat (length bs)) = bs.
Proof.
  apply list_eq. intros k. destruct (decide (k < length bs)%nat) as [Hk|Hk].
  - rewrite load_lookup by lia. destruct (lookup_lt_is_Some_2 bs k Hk) as [b Hb].
    rewrite Hb. f_equal. by apply byte_store_in.
  - rewrite (lookup_ge_None_2 bs k) by lia. apply lookup_ge_None_2. rewrite load_length. lia.
Qed.

Lemma load_store_out m a bs b n :
  b + n <= a \/ a + Z.of_nat (length bs) <= b -> load (store m a bs) b n = load m b n.
Proof. intros H. apply load_ext. intros i Hi. apply byte_store_out. lia. Qed.

(** Every byte of a sequence of words stored below an address is below it. *)
Lemma byte_puts_out m l i :
  Forall (fun p => i < p.1 \/ p.1 + 4 <= i) l -> byte (puts m l) i = byte m i.
Proof.
  revert m. induction l as [|[a v] l IH]; intros m Hl; [done|].
  apply Forall_cons in Hl as [Ha Hl]. unfold puts in *. cbn [foldl].
  rewrite IH by done. apply byte_store_out. cbn [fst snd] in *. rewrite le32_length. lia.
Qed.

Lemma word_at_store m a v : word_at (store m a (le32 v)) a = u32 v.
Proof.
  unfold word_at. change 4 with (Z.of_nat (length (le32 v))).
  rewrite load_store_same. apply le_word_le32.
Qed.

Lemma word_at_puts m l a :
  forallb (fun p => p.1 mod 4 =? 0) l = true -> a mod 4 = 0 ->
  word_at (puts m l) a = match last_put a l with Some v => u32 v | None => word_at m a end.
Proof.
  intros Hl Ha. induction l as [|[b v] l IH] using rev_ind; [done|].
  rewrite forallb_app in Hl. apply andb_true_iff in Hl as [Hl Hb].
  cbn in Hb. rewrite andb_true_r in Hb. apply Z.eqb_eq in Hb.
  unfold puts, last_put in *. rewrite !foldl_app. cbn [foldl fst snd].
  destruct (Z.eqb_spec b a) as [->|Hne].
  - apply word_at_store.
  - rewrite <- IH by done. unfold word_at. f_equal. apply load_store_out. simpl length.
    Z.div_mod_to_equations. lia.
Qed.

Lemma puts_app m l1 l2 : puts m (l1 ++ l2) = puts (puts m l1) l2.
Proof. apply foldl_app. Qed.
End Buffers.

#[export] Hint Rewrite load_length : lens.
