(* ===== verification/Loader.v ===== *)
(** The USB loader (src/USB_loader/loader.c): it puts a boot header (NSIH) in
    front of an image or into it, pads the image, fixes the size field and sends
    the result over USB or to the standard output. *)

From S2P Require Import Prelude Machine Host.
From S2P Require Printf.

Definition S5P6818_INTERFACE : Z := 0.
Definition S5P6818_EP_OUT : Z := 2.

(** [enum { NOHEADER, H32, H64 }] *)
Inductive header := NOHEADER | H32 | H64.

#[global] Instance header_eq_dec : EqDecision header.
Proof. solve_decision. Defined.

Definition H32_SIZE : Z := 512.
Definition H64_SIZE : Z := 2048.
Definition BUF_SIZE : Z := 16 * 1024 * 1024.
Definition ALIGN : Z := 16.
Definition MIN_SIZE : Z := 512 + ALIGN.

(** The globals. *)
Record vars := Vars {
  buf : mem; header_type : header; load_size : Z; load_addr : Z; launch_addr : Z }.

Definition set_buf (b : mem) (g : vars) : vars :=
  Vars b (header_type g) (load_size g) (load_addr g) (launch_addr g).
Definition set_load_size (n : Z) (g : vars) : vars :=
  Vars (buf g) (header_type g) n (load_addr g) (launch_addr g).
Definition set_header (h : header) (g : vars) : vars :=
  Vars (buf g) h (load_size g) (load_addr g) (launch_addr g).
Definition set_addrs (l s : Z) (g : vars) : vars :=
  Vars (buf g) (header_type g) (load_size g) l s.

Definition vars0 : vars := Vars ∅ NOHEADER 0 0xffff0000 0xffff0000.

Definition code64_at_0 : list Z :=
  [0xea000015; 0xea00003c; 0xea00003b; 0xea00003a;
   0xea000039; 0xea000038; 0xea000037; 0xea000036].

Definition code64_at_5c : list Z :=
  [0xe3010000; 0xe34c0001; 0xe30c1200; 0xe3431fff; 0xe3002000; 0xe3402000;
   0xe5801140; 0xe5802144; 0xe5801148; 0xe580214c; 0xe5801150; 0xe5802154;
   0xe5801158; 0xe580215c; 0xe5801184; 0xe5802188; 0xe580118c; 0xe5802190;
   0xe5801194; 0xe5802198; 0xe580119c; 0xe58021a0; 0xe590113c; 0xe3811a0f;
   0xe580113c; 0xe5901180; 0xe38110f0; 0xe5801180; 0xe5901138; 0xe381160f;
   0xe5801138; 0xe590117c; 0xe3811a0f; 0xe580117c; 0xe3000000; 0xe34c0001;
   0xe59012ac; 0xe3811001; 0xe58012ac; 0xe320f003; 0xe30b0000; 0xe34c0001;
   0xe5901020; 0xe3c11403; 0xe3811402; 0xe5801020; 0xe5901000; 0xe3811a01;
   0xe5801000; 0xe5901004; 0xe3811a01; 0xe5801004; 0xeafffffe].

(** The USB library: what each call returns.  A bulk transfer takes the bytes
    and returns its status and how many of them were transferred. *)
Record libusb := Libusb {
  libusb_init : Z;
  libusb_get_device_list : Z;
  libusb_open_device_with_vid_pid : bool;
  libusb_claim_interface : Z;
  libusb_bulk_transfer : list Z -> Z * Z }.

(** The local variables of [main] that the options set. *)
Record locals := Locals {
  inject_header : bool; emit_file : bool; set_next : bool; next_addr : Z }.
Definition locals0 : locals := Locals false false false 0.

(** One option, the text after the dash. *)
Definition option_step (o : list Z) (p : vars * locals) : vars * locals :=
  let '(g, l) := p in
  let g := if decide (chars "h64" = o) then set_header H64 g else g in
  let g := if decide (chars "h32" = o) then set_header H32 g else g in
  let l := if decide (chars "inject" = o)
           then Locals true (emit_file l) (set_next l) (next_addr l) else l in
  let c := default 0 (head o) in
  let a := tail o in
  let l := if c =? 111 then Locals (inject_header l) true (set_next l) (next_addr l) else l in
  let g := if c =? 108 then set_addrs (u32 (strtol 16 a)) (u32 (strtol 16 a)) g else g in
  let g := if c =? 115 then set_addrs (load_addr g) (u32 (strtol 16 a)) g else g in
  let l := if c =? 97
           then Locals (inject_header l) (emit_file l) true (u32 (u32 (strtol 10 a) * 512))
           else l in
  (g, l).

(** [while ( argc && argv\[0\]\[0\] == '-' )] *)
Fixpoint options (argv : list (list Z)) (p : vars * locals) : vars * locals * list (list Z) :=
  match argv with
  | [] => (p, [])
  | a :: r =>
      if default 0 (head a) =? 45 then options r (option_step (tail a) p) else (p, argv)
  end.

Section Code.
Context (fs : list Z -> option (list Z)) (usb : libusb).
Abbreviation prog := (Machine.prog unit vars).

Definition perror (cs : list Z) : prog unit := output Stderr cs.

Definition write_long (addr data : Z) : prog unit :=
  if (0 <=? addr) && (addr + 4 <=? BUF_SIZE) then
    g <-- gget ;; gput (set_buf (store (buf g) addr (le32 data)) g)
  else halt Undef.

(** [for ( i=0; i<num; i++ ) { write_long ( p, code\[i\] ); p += 4; }] *)
Fixpoint write_code (p : Z) (code : list Z) : prog unit :=
  match code with
  | [] => ret tt
  | w :: r => write_long p w ;;; write_code (p + 4) r
  end.

Definition mk_header64 (b : Z) : prog unit :=
  write_code b code64_at_0 ;;;
  write_code (b + 0x5c) code64_at_5c ;;;
  g <-- gget ;;
  write_long (b + 0x44) (u32 (load_size g - 512)) ;;;
  write_long (b + 0x48) (load_addr g) ;;;
  write_long (b + 0x4c) (launch_addr g) ;;;
  write_long (b + 0x1fc) 0x4849534e.

Definition mk_header32 (b : Z) : prog unit :=
  write_long (b + 0) 0xea00007e ;;;
  g <-- gget ;;
  write_long (b + 0x44) (u32 (load_size g - 512)) ;;;
  write_long (b + 0x48) (load_addr g) ;;;
  write_long (b + 0x4c) (launch_addr g) ;;;
  write_long (b + 0x1fc) 0x4849534e.

Definition fix_size : prog unit :=
  g <-- gget ;; write_long 0x44 (u32 (load_size g - 512)).

Definition set_next_addr (addr : Z) : prog unit := write_long 0x40 addr.

(** [memset ( buf, 0x00, n )] *)
Definition clear (n : Z) : prog unit :=
  g <-- gget ;; gput (set_buf (store (buf g) 0 (replicate (Z.to_nat n) 0)) g).

(** [readBin ( &buf\[off\], filepath )]: [fread] stores up to [BUF_SIZE] bytes;
    beyond the end of [buf] that is undefined. *)
Definition readBin (off : Z) (filepath : list Z) : prog Z :=
  match fs filepath with
  | None => perror (chars "Unable to open: " ++ filepath ++ [10]) ;;; ret (-1)
  | Some content =>
      let len := Z.of_nat (length content) in
      let got := if len <=? BUF_SIZE then content else take (Z.to_nat BUF_SIZE) content in
      let size := Z.min len BUF_SIZE in
      if BUF_SIZE <? off + size then halt Undef else
      g <-- gget ;; gput (set_buf (store (buf g) off got) g) ;;;
      if size <=? 0 then perror (chars "Empty file: " ++ filepath ++ [10]) ;;; ret (-1) else
      ret (if negb (Z.rem size ALIGN =? 0) then (Z.quot size ALIGN + 1) * ALIGN else size)
  end.

Definition usbLoad (size : Z) : prog Z :=
  if libusb_init usb <? 0 then perror (chars "Cannot initialize libusb\n") ;;; ret (-1)
  else if libusb_get_device_list usb <? 1 then
    perror (chars "No USB devices found\n") ;;; ret (-1)
  else if negb (libusb_open_device_with_vid_pid usb) then
    perror (chars "USB device for S5P6818 download not found\n") ;;;
    perror (chars "perhaps you need to be root or to reset the board\n") ;;; ret (-1)
  else if libusb_claim_interface usb <? 0 then
    perror (chars "cannot claim USB device for S5P6818 download\n") ;;; ret (-1)
  else
    perror (chars "Start transfer, size = " ++ Printf.itext size ++ [10]) ;;;
    g <-- gget ;;
    let bs := load (buf g) 0 size in
    output (Bulk S5P6818_EP_OUT) bs ;;;
    let '(err, transfered) := libusb_bulk_transfer usb bs in
    if err <? 0 then perror (chars "USB bulk transfer failed\n") ;;; ret (-1)
    else
      (if negb (size =? transfered) then
         perror (chars "Transferred only " ++ Printf.itext transfered ++ chars " of "
                 ++ Printf.itext size ++ chars " bytes\n") ;;;
         perror (chars "This may fail to run\n")
       else perror (chars "Transfer successful\n")) ;;;
      ret 0.

Definition usage {A} : prog A :=
  perror (chars "Usage: loader [options] image\n") ;;; halt (Exit 1).

(** [main] after the options: build the image in [buf]. *)
Definition build (l : locals) (path : list Z) : prog unit :=
  clear MIN_SIZE ;;;
  g <-- gget ;;
  let offset := match header_type g with NOHEADER => 0 | H32 => H32_SIZE | H64 => H64_SIZE end in
  let offset := if inject_header l then 0 else offset in
  (if negb (offset =? 0) then clear offset else ret tt) ;;;
  file_size <-- readBin offset path ;;
  if file_size <=? 0 then halt (Exit 1) else
  g <-- gget ;;
  let size := file_size + offset in
  gput (set_load_size (if size <=? 512 then MIN_SIZE else size) g) ;;;
  (if decide (header_type g = H32) then mk_header32 0 else ret tt) ;;;
  (if decide (header_type g = H64) then mk_header64 0 else ret tt) ;;;
  fix_size ;;;
  (if set_next l then set_next_addr (next_addr l) else ret tt).

Definition main (argv : list (list Z)) : prog unit :=
  match argv with
  | [] => halt Undef
  | _ :: argv =>
      g <-- gget ;;
      let '(g, l, argv) := options argv (g, locals0) in
      gput g ;;;
      match argv with
      | [path] =>
          build l path ;;;
          g <-- gget ;;
          (if emit_file l then
             output Stdout (load (buf g) 0 (load_size g)) ;;; halt (Exit 0)
           else
             ret' <-- usbLoad (load_size g) ;;
             if ret' <? 0 then perror (chars "Download failed\n") ;;; halt (Exit 1)
             else halt (Exit 0))
      | _ => usage
      end
  end.
End Code.

(** ** What the code leaves in the buffer *)

(** The words of consecutive stores. *)
Fixpoint code_words (p : Z) (code : list Z) : list (Z * Z) :=
  match code with
  | [] => []
  | w :: r => (p, w) :: code_words (p + 4) r
  end.

(** The stores of a header, for the load size and the two addresses. *)
Definition header_fields (size la sa : Z) : list (Z * Z) :=
  [(0x44, u32 (size - 512)); (0x48, la); (0x4c, sa); (0x1fc, 0x4849534e)].

Definition header_words (h : header) (size la sa : Z) : list (Z * Z) :=
  match h with
  | NOHEADER => []
  | H32 => (0, 0xea00007e) :: header_fields size la sa
  | H64 => code_words 0 code64_at_0 ++ code_words 0x5c code64_at_5c ++ header_fields size la sa
  end.

(** Where the file goes and how many bytes are sent. *)
Definition file_offset (h : header) (inject : bool) : Z :=
  if inject then 0 else match h with NOHEADER => 0 | H32 => 512 | H64 => 2048 end.

Definition pad16 (n : Z) : Z := (n + 15) / 16 * 16.

Definition image_size (h : header) (inject : bool) (len : Z) : Z :=
  let size := pad16 len + file_offset h inject in
  if size <=? 512 then 528 else size.

Section Runs.
Context (fs : list Z -> option (list Z)).
Implicit Types g : vars.

(** A run that does nothing but the stores [l] into the buffer. *)
Definition puts_only (m : Machine.prog unit vars unit) (g : vars) (l : list (Z * Z)) : Prop :=
  m (St tt g) = Ok tt (St tt (set_buf (puts (buf g) l) g)) [].

Lemma puts_only_ret g : puts_only (ret tt) g [].
Proof. unfold puts_only, set_buf, puts. by destruct g. Qed.

Lemma puts_only_bind m k g l1 l2 :
  puts_only m g l1 -> puts_only k (set_buf (puts (buf g) l1) g) l2 ->
  puts_only (m ;;; k) g (l1 ++ l2).
Proof.
  unfold puts_only, bind. intros -> ->. cbn. by rewrite puts_app.
Qed.

Lemma puts_only_gget (k : vars -> Machine.prog unit vars unit) g l :
  puts_only (k g) g l -> puts_only (x <-- gget ;; k x) g l.
Proof. unfold puts_only, bind, gget. cbn. by intros ->. Qed.

Lemma puts_only_write_long a v g :
  0 <= a -> a + 4 <= BUF_SIZE -> puts_only (write_long a v) g [(a, v)].
Proof.
  intros H0 H1. unfold puts_only, write_long.
  destruct (Z.leb_spec 0 a); [|lia]. destruct (Z.leb_spec (a + 4) BUF_SIZE); [|lia]. done.
Qed.

Lemma puts_only_code p code g :
  0 <= p -> p + 4 * Z.of_nat (length code) <= BUF_SIZE ->
  puts_only (write_code p code) g (code_words p code).
Proof.
  revert p g. induction code as [|w code IH]; intros p g H0 H1; [apply puts_only_ret|].
  simpl length in H1. cbn [write_code code_words].
  apply (puts_only_bind _ _ _ [_]); [apply puts_only_write_long; lia|apply IH; lia].
Qed.

Lemma puts_only_fields g :
  puts_only (
    write_long (0 + 0x44) (u32 (load_size g - 512)) ;;;
    write_long (0 + 0x48) (load_addr g) ;;;
    write_long (0 + 0x4c) (launch_addr g) ;;;
    write_long (0 + 0x1fc) 0x4849534e) g
    (header_fields (load_size g) (load_addr g) (launch_addr g)).
Proof.
  do 3 (eapply (puts_only_bind _ _ _ [_]);
    [by apply puts_only_write_long; unfold BUF_SIZE; lia|]).
  apply puts_only_write_long; unfold BUF_SIZE; lia.
Qed.

Lemma puts_only_header h g :
  puts_only ((if decide (h = H32) then mk_header32 0 else ret tt) ;;;
             (if decide (h = H64) then mk_header64 0 else ret tt)) g
    (header_words h (load_size g) (load_addr g) (launch_addr g)).
Proof.
  destruct h; repeat first [rewrite decide_True by done|rewrite decide_False by done].
  - apply (puts_only_bind _ _ _ []); apply puts_only_ret.
  - rewrite <- (app_nil_r (header_words _ _ _ _)).
    apply puts_only_bind; [|apply puts_only_ret].
    apply (puts_only_bind _ _ _ [_]); [by apply puts_only_write_long|].
    apply puts_only_gget. exact (puts_only_fields (set_buf _ _)).
  - apply (puts_only_bind _ _ _ []); [apply puts_only_ret|].
    unfold header_words, mk_header64.
    apply (puts_only_bind _ _ _ (code_words 0 code64_at_0)); [by apply puts_only_code|].
    apply (puts_only_bind _ _ _ (code_words 0x5c code64_at_5c)); [by apply puts_only_code|].
    apply puts_only_gget. exact (puts_only_fields (set_buf _ _)).
Qed.

(** The buffer and the load size [build] leaves. *)
Definition body (b : mem) (off : Z) (file : list Z) : mem :=
  let b := store b 0 (replicate (Z.to_nat MIN_SIZE) 0) in
  let b := if off =? 0 then b else store b 0 (replicate (Z.to_nat off) 0) in
  store b off file.

Definition words_of (g : vars) (l : locals) (size : Z) : list (Z * Z) :=
  header_words (header_type g) size (load_addr g) (launch_addr g)
  ++ [(0x44, u32 (size - 512))] ++ (if set_next l then [(0x40, next_addr l)] else []).

Definition built (g : vars) (l : locals) (file : list Z) : vars :=
  let size := image_size (header_type g) (inject_header l) (Z.of_nat (length file)) in
  let off := file_offset (header_type g) (inject_header l) in
  set_buf (puts (body (buf g) off file) (words_of g l size)) (set_load_size size g).

Lemma pad16_rem n : 0 <= n ->
  (if negb (Z.rem n ALIGN =? 0) then (Z.quot n ALIGN + 1) * ALIGN else n) = pad16 n.
Proof.
  intros Hn. unfold pad16, ALIGN. rewrite Z.rem_mod_nonneg, Z.quot_div_nonneg by lia.
  destruct (Z.eqb_spec (n mod 16) 0); cbn [negb]; Z.div_mod_to_equations; lia.
Qed.

Lemma readBin_ok off path file g :
  fs path = Some file -> 0 < Z.of_nat (length file) ->
  off + Z.of_nat (length file) <= BUF_SIZE -> 0 <= off ->
  readBin fs off path (St tt g) =
    Ok (pad16 (Z.of_nat (length file))) (St tt (set_buf (store (buf g) off file) g)) [].
Proof.
  intros Hfs Hlen Hfit Hoff. unfold readBin. rewrite Hfs.
  destruct (Z.leb_spec (Z.of_nat (length file)) BUF_SIZE); [|lia].
  rewrite Z.min_l by lia.
  destruct (Z.ltb_spec BUF_SIZE (off + Z.of_nat (length file))); [lia|].
  unfold bind, gget, gput, ret. cbn [glb dev].
  destruct (Z.leb_spec (Z.of_nat (length file)) 0); [lia|]. by rewrite pad16_rem by lia.
Qed.

Lemma clear_run n g :
  clear n (St tt g)
  = Ok tt (St tt (set_buf (store (buf g) 0 (replicate (Z.to_nat n) 0)) g)) [].
Proof. done. Qed.

Lemma build_ok l path file g :
  fs path = Some file -> 0 < Z.of_nat (length file) ->
  file_offset (header_type g) (inject_header l) + Z.of_nat (length file) <= BUF_SIZE ->
  build fs l path (St tt g) = Ok tt (St tt (built g l file)) [].
Proof.
  intros Hfs Hlen Hfit. unfold build. rewrite (bind_quiet _ _ _ _ _ (clear_run _ _)).
  set (g1 := set_buf _ g). erewrite bind_quiet by reflexivity. cbn [glb].
  change (header_type g1) with (header_type g).
  set (off := file_offset (header_type g) (inject_header l)) in *.
  assert (Hoff : (if inject_header l then 0 else
    match header_type g with NOHEADER => 0 | H32 => H32_SIZE | H64 => H64_SIZE end) = off)
    by (unfold off, file_offset; by destruct (inject_header l), (header_type g)).
  rewrite Hoff. assert (Hoff0 : 0 <= off)
    by (unfold off, file_offset; destruct (inject_header l), (header_type g); lia).
  set (b := body (buf g) off file).
  assert (Hclr : (if negb (off =? 0) then clear off else ret tt) (St tt g1)
    = Ok tt (St tt (set_buf (if off =? 0 then buf g1 else
        store (buf g1) 0 (replicate (Z.to_nat off) 0)) g)) [])
    by (by destruct (Z.eqb_spec off 0)).
  rewrite (bind_quiet _ _ _ _ _ Hclr).
  erewrite bind_quiet by (by apply readBin_ok).
  assert (Hpad : 0 < pad16 (Z.of_nat (length file)))
    by (unfold pad16; Z.div_mod_to_equations; lia).
  destruct (Z.leb_spec (pad16 (Z.of_nat (length file))) 0); [lia|].
  erewrite bind_quiet by reflexivity. erewrite bind_quiet by reflexivity. cbn [glb dev].
  match goal with |- _ (St _ ?x) = _ => set (g2 := x) end.
  assert (Hrun : forall h (m n o : Machine.prog unit vars unit), puts_only ((m ;;; n) ;;; o) g2 h -> (m ;;; n ;;; o) (St tt g2)
    = Ok tt (St tt (set_buf (puts (buf g2) h) g2)) []).
  { intros h m n o Hp. rewrite <- (bind_assoc m (fun _ => n) (fun _ => o) (St tt g2)).
    exact Hp. }
  rewrite (Hrun (words_of g l (image_size (header_type g) (inject_header l)
    (Z.of_nat (length file))))); [done|].
  apply puts_only_bind; [apply (puts_only_header (header_type g) g2)|].
  apply puts_only_bind.
  - apply puts_only_gget. by apply puts_only_write_long.
  - destruct (set_next l); [by apply puts_only_write_long|apply puts_only_ret].
Qed.
End Runs.

(** ** The bytes of the image *)

Definition image (g : vars) (l : locals) (file : list Z) : list Z :=
  load (buf (built g l file)) 0 (load_size (built g l file)).

Lemma slice_load m n (a k : nat) :
  Z.of_nat a + Z.of_nat k <= n -> slice a k (load m 0 n) = load m (Z.of_nat a) (Z.of_nat k).
Proof.
  intros H. unfold slice.
  rewrite (load_split m 0 n (Z.of_nat a)), (load_split m _ (n - _) (Z.of_nat k)) by lia.
  rewrite drop_app_length' by (rewrite load_length; lia).
  by rewrite take_app_length' by (rewrite load_length; lia).
Qed.

(** The file byte that belongs at position [i] of an image, 0 where there is none. *)
Definition file_byte (off : Z) (file : list Z) (i : Z) : Z :=
  if i <? off then 0 else default 0 (file !! Z.to_nat (i - off)).

Lemma byte_zeros m n i : byte m i = 0 -> byte (store m 0 (replicate n 0)) i = 0.
Proof.
  intros Hm. destruct (decide (0 <= i < Z.of_nat n)) as [Hi|Hi].
  - replace i with (0 + Z.of_nat (Z.to_nat i)) by lia.
    apply byte_store_in, lookup_replicate_2. lia.
  - rewrite byte_store_out; [done|]. rewrite length_replicate. lia.
Qed.

Lemma byte_body off file i : 0 <= off -> byte (body ∅ off file) i = file_byte off file i.
Proof.
  intros Hoff. unfold body, file_byte.
  assert (H0 : forall o, byte (if o =? 0 then store ∅ 0 (replicate (Z.to_nat MIN_SIZE) 0) else
    store (store ∅ 0 (replicate (Z.to_nat MIN_SIZE) 0)) 0 (replicate (Z.to_nat o) 0)) i = 0).
  { intros o. assert (Hm : byte (store ∅ 0 (replicate (Z.to_nat MIN_SIZE) 0)) i = 0)
      by by apply byte_zeros. destruct (o =? 0); [done|by apply byte_zeros]. }
  destruct (Z.ltb_spec i off); [rewrite byte_store_out by lia; apply H0|].
  destruct (file !! Z.to_nat (i - off)) as [c|] eqn:Ec.
  - replace i with (off + Z.of_nat (Z.to_nat (i - off))) by lia. by apply byte_store_in.
  - apply lookup_ge_None in Ec. rewrite byte_store_out by lia. apply H0.
Qed.

Lemma words_aligned g l size : forallb (fun p => p.1 mod 4 =? 0) (words_of g l size) = true.
Proof. unfold words_of. by destruct (header_type g), (set_next l). Qed.

Lemma words_low g l size i : 0x200 <= i ->
  Forall (fun p => i < p.1 \/ p.1 + 4 <= i) (words_of g l size).
Proof.
  intros Hi. assert (Hb : forallb (fun p => p.1 + 4 <=? 0x200) (words_of g l size) = true)
    by (unfold words_of; by destruct (header_type g), (set_next l)).
  apply Forall_forall. intros p Hp. rewrite forallb_forall in Hb.
  apply list_elem_of_In in Hp. specialize (Hb _ Hp). lia.
Qed.

Section Image.
Context (g : vars) (l : locals) (file : list Z).
Let len := Z.of_nat (length file).
Let off := file_offset (header_type g) (inject_header l).
Let size := image_size (header_type g) (inject_header l) len.

Lemma image_size_facts : 0 < len ->
  size mod 16 = 0 /\ 528 <= size /\ off + len <= size /\ 0 <= off.
Proof.
  intros Hlen. unfold size, image_size. fold off.
  assert (Ho : off = 0 \/ off = 512 \/ off = 2048)
    by (unfold off, file_offset; destruct (inject_header l), (header_type g); lia).
  unfold pad16. destruct (Z.leb_spec ((len + 15) / 16 * 16 + off) 512);
    Z.div_mod_to_equations; lia.
Qed.

Lemma image_length : length (image g l file) = Z.to_nat size.
Proof. unfold image. apply load_length. Qed.

Lemma image_high i : buf g = ∅ -> 0 < len -> 0x200 <= i < size ->
  image g l file !! Z.to_nat i = Some (file_byte off file i).
Proof.
  intros Hb Hlen Hi. destruct (image_size_facts Hlen) as (_ & _ & _ & Hoff).
  unfold image. rewrite load_lookup by (cbn; fold len size; lia). f_equal.
  replace (0 + Z.of_nat (Z.to_nat i)) with i by lia. cbn [built buf set_buf set_load_size].
  rewrite byte_puts_out by (apply words_low; lia). rewrite Hb. by apply byte_body.
Qed.

Lemma image_word (a : nat) v :
  0 < len -> (Z.of_nat a) mod 4 = 0 -> Z.of_nat a + 4 <= 0x200 ->
  last_put (Z.of_nat a) (words_of g l size) = Some v ->
  le_word (slice a 4 (image g l file)) = u32 v.
Proof.
  intros Hlen Ha Hle Hput. destruct (image_size_facts Hlen) as (_ & Hs & _ & _).
  unfold image. rewrite slice_load by (cbn; fold len size; lia).
  change (Z.of_nat 4) with 4. change (le_word (load ?m ?a 4)) with (word_at m a).
  cbn [built buf set_buf set_load_size]. fold len size.
  rewrite word_at_puts by (done || apply words_aligned). by rewrite Hput.
Qed.
End Image.

(** ** Runs of the whole program *)

Section Main.
Context (fs : list Z -> option (list Z)) (usb : libusb).
Context (argv0 : list Z) (argv : list (list Z)) (g : vars) (l : locals) (path file : list Z).
Context (Hopt : options argv (vars0, locals0) = (g, l, [path])).
Context (Hfs : fs path = Some file) (Hlen : 0 < Z.of_nat (length file)).
Context (Hfit : file_offset (header_type g) (inject_header l) + Z.of_nat (length file) <= BUF_SIZE).
Abbreviation img := (image g l file).

Lemma main_emits : emit_file l = true ->
  ends (main fs usb (argv0 :: argv)) (St tt vars0) (Exit 0) (fun _ t => t = [EOut Stdout img]).
Proof.
  intros He. unfold main. apply ends_bind. go. rewrite Hopt. apply ends_bind. go.
  apply ends_bind. unfold returns. cbn [dev]. rewrite (build_ok _ _ _ file) by done.
  apply ends_bind. go. rewrite He. apply ends_bind. by go.
Qed.

Lemma main_sends : emit_file l = false ->
  0 <= libusb_init usb -> 1 <= libusb_get_device_list usb ->
  libusb_open_device_with_vid_pid usb = true -> 0 <= libusb_claim_interface usb ->
  ends (main fs usb (argv0 :: argv)) (St tt vars0)
    (Exit (if (libusb_bulk_transfer usb img).1 <? 0 then 1 else 0))
    (fun _ t => output_to (Bulk S5P6818_EP_OUT) t = img /\ output_to Stdout t = []).
Proof.
  intros He Hi Hd Ho Hc. unfold main. apply ends_bind. go. rewrite Hopt. apply ends_bind. go.
  apply ends_bind. unfold returns. cbn [dev]. rewrite (build_ok _ _ _ file) by done.
  apply ends_bind. go. rewrite He. apply ends_bind. unfold usbLoad.
  destruct (Z.ltb_spec (libusb_init usb) 0); [lia|].
  destruct (Z.ltb_spec (libusb_get_device_list usb) 1); [lia|]. rewrite Ho. cbn [negb].
  destruct (Z.ltb_spec (libusb_claim_interface usb) 0); [lia|].
  unfold perror. go. change (load _ _ _) with img.
  destruct (libusb_bulk_transfer usb img) as [err tr]. cbn [fst].
  destruct (err <? 0).
  - go. change (-1 <? 0) with true. apply ends_bind. go. split; [done|]. simpl. by rewrite app_nil_r.
  - destruct (negb _); go; (split; [done|]); simpl; by rewrite app_nil_r.
Qed.
End Main.

(** The options leave the buffer alone. *)
Lemma option_step_buf o p : buf (option_step o p).1 = buf p.1.
Proof.
  destruct p as [g l]. unfold option_step. cbn zeta. cbn [fst].
  destruct (default 0 (head o) =? 115), (default 0 (head o) =? 108),
    (decide (chars "h32" = o)), (decide (chars "h64" = o)); done.
Qed.

Lemma options_buf argv p g' l' rest :
  options argv p = (g', l', rest) -> buf g' = buf p.1.
Proof.
  revert p. induction argv as [|a argv IH]; intros p Ho; cbn [options] in Ho.
  - by injection Ho as -> _.
  - destruct (_ =? 45).
    + by rewrite (IH _ Ho), option_step_buf.
    + by injection Ho as -> _.
Qed.

(** Locals that differ in [-o] only. *)
Definition same_but_emit (l l' : locals) : Prop :=
  inject_header l' = inject_header l /\ set_next l' = set_next l /\ next_addr l' = next_addr l.

Lemma option_step_emit o g l l' : same_but_emit l l' -> emit_file l' = true ->
  exists l2, option_step o (g, l') = ((option_step o (g, l)).1, l2) /\
    same_but_emit (option_step o (g, l)).2 l2 /\ emit_file l2 = true.
Proof.
  unfold same_but_emit, option_step. intros (H1 & H2 & H3) He.
  destruct l as [i e n a], l' as [i' e' n' a']. cbn [inject_header emit_file set_next next_addr] in *.
  subst. destruct (decide (chars "inject" = o)), (default 0 (head o) =? 111),
    (default 0 (head o) =? 97); (eexists; split; [reflexivity|]);
    cbn [fst snd inject_header emit_file set_next next_addr]; done.
Qed.

Lemma options_emit_from argv : forall g l l' g2 l2 rest,
  same_but_emit l l' -> emit_file l' = true -> options argv (g, l) = (g2, l2, rest) ->
  exists l2', options argv (g, l') = (g2, l2', rest) /\ same_but_emit l2 l2' /\
    emit_file l2' = true.
Proof.
  induction argv as [|a argv IH]; intros g l l' g2 l2 rest Hs He Ho; cbn [options] in *.
  { injection Ho as <- <- <-. by exists l'. }
  destruct (_ =? 45).
  - destruct (option_step_emit (tail a) g l l' Hs He) as (l3 & -> & Hs3 & He3).
    destruct (option_step (tail a) (g, l)) as [g1 l1]. by apply (IH g1 l1 l3).
  - injection Ho as <- <- <-. by exists l'.
Qed.

Lemma options_emit argv g l path :
  options argv (vars0, locals0) = (g, l, [path]) ->
  exists l', options ([45; 111] :: argv) (vars0, locals0) = (g, l', [path]) /\
    emit_file l' = true /\ inject_header l' = inject_header l /\ set_next l' = set_next l /\
    next_addr l' = next_addr l.
Proof.
  intros Ho. destruct (options_emit_from argv vars0 locals0 (Locals false true false 0) g l [path])
    as (l' & Ho' & (H1 & H2 & H3) & He); [done|done|done|]. by exists l'.
Qed.

(** ** Results *)

(** C11: [loader -h32] and [loader -h64]: with a header asked for, the image
    written with [-o] is a well-formed boot image.  Its length is a multiple of
    16, at least 528, and enough for the file at its place; the header says the
    signature NSIH, the two addresses and the load size (the length less the
    512 bytes of the header block); and from the end of that block on every byte
    is the file's byte at its place, or zero. *)
Theorem loader_header fs usb argv0 argv g l path file :
  options argv (vars0, locals0) = (g, l, [path]) ->
  header_type g <> NOHEADER -> emit_file l = true ->
  fs path = Some file -> 0 < Z.of_nat (length file) ->
  file_offset (header_type g) (inject_header l) + Z.of_nat (length file) <= BUF_SIZE ->
  ends (main fs usb (argv0 :: argv)) (St tt vars0) (Exit 0) (fun _ t =>
    let out := output_to Stdout t in
    let size := Z.of_nat (length out) in
    let off := file_offset (header_type g) (inject_header l) in
    size mod 16 = 0 /\ 528 <= size /\ off + Z.of_nat (length file) <= size /\
    le_word (slice 0x1fc 4 out) = 0x4849534e /\
    le_word (slice 0x44 4 out) = u32 (size - 512) /\
    le_word (slice 0x48 4 out) = u32 (load_addr g) /\
    le_word (slice 0x4c 4 out) = u32 (launch_addr g) /\
    forall i, 0x200 <= i < size -> out !! Z.to_nat i = Some (file_byte off file i)).
Proof.
  intros Hopt Hh He Hfs Hlen Hfit.
  eapply ends_weaken; [exact (main_emits fs usb argv0 argv g l path file Hopt Hfs Hlen Hfit He)|].
  cbn beta. intros _ t ->.
  assert (Hb : buf g = ∅) by (by rewrite (options_buf argv _ _ _ _ Hopt)).
  assert (Ho : output_to Stdout [EOut Stdout (image g l file)] = image g l file)
    by apply app_nil_r.
  cbn zeta. rewrite Ho. clear Ho. rewrite image_length.
  destruct (image_size_facts g l file Hlen) as (H16 & H528 & Hfile & Hoff).
  rewrite Z2Nat.id by lia. split_and!; try done.
  - apply image_word with (v := 0x4849534e); try done. unfold words_of.
    by destruct (header_type g), (set_next l).
  - rewrite <- u32_idem. apply image_word; try done. unfold words_of.
    by destruct (header_type g), (set_next l).
  - apply image_word; try done. unfold words_of. by destruct (header_type g), (set_next l).
  - apply image_word; try done. unfold words_of. by destruct (header_type g), (set_next l).
  - intros i Hi. by apply image_high.
Qed.

(** A file system with one file, and options that ask for each kind of image. *)
Definition demo_file : list Z := [0x11; 0x22; 0x33; 0x44; 0x55].
Definition demo_fs (p : list Z) : option (list Z) :=
  if decide (p = chars "image") then Some demo_file else None.
Definition demo_usb : libusb := Libusb 0 1 true 0 (fun bs => (0, Z.of_nat (length bs))).
Definition demo_argv (o : string) : list (list Z) := [chars "-lffff0000"; chars o; chars "-o"; chars "image"].
Definition demo_vars (h : header) : vars := Vars ∅ h 0 0xffff0000 0xffff0000.
Definition demo_locals : locals := Locals false true false 0.

Lemma loader_header_witness :
  ends (main demo_fs demo_usb (chars "loader" :: demo_argv "-h64")) (St tt vars0) (Exit 0) (fun _ t =>
    let out := output_to Stdout t in
    let size := Z.of_nat (length out) in
    let off := file_offset (header_type (demo_vars H64)) (inject_header demo_locals) in
    size mod 16 = 0 /\ 528 <= size /\ off + Z.of_nat (length demo_file) <= size /\
    le_word (slice 0x1fc 4 out) = 0x4849534e /\
    le_word (slice 0x44 4 out) = u32 (size - 512) /\
    le_word (slice 0x48 4 out) = u32 (load_addr (demo_vars H64)) /\
    le_word (slice 0x4c 4 out) = u32 (launch_addr (demo_vars H64)) /\
    forall i, 0x200 <= i < size -> out !! Z.to_nat i = Some (file_byte off demo_file i)).
Proof.
  refine (loader_header demo_fs demo_usb (chars "loader") (demo_argv "-h64") (demo_vars H64)
    demo_locals (chars "image") demo_file _ _ _ _ _ _); try done.
Defined.

(** [loader image]: without a header the image is the file verbatim, padded
    with zeros, but for the four bytes of the size field. *)
Theorem loader_verbatim fs usb argv0 argv g l path file :
  options argv (vars0, locals0) = (g, l, [path]) ->
  header_type g = NOHEADER -> emit_file l = true -> set_next l = false ->
  fs path = Some file -> 0 < Z.of_nat (length file) <= BUF_SIZE ->
  ends (main fs usb (argv0 :: argv)) (St tt vars0) (Exit 0) (fun _ t =>
    let out := output_to Stdout t in
    let size := Z.of_nat (length out) in
    size = (if Z.of_nat (length file) <=? 512 then 528 else pad16 (Z.of_nat (length file))) /\
    le_word (slice 0x44 4 out) = u32 (size - 512) /\
    forall i, 0 <= i < size -> ~ (0x44 <= i < 0x48) ->
      out !! Z.to_nat i = Some (file_byte 0 file i)).
Proof.
  intros Hopt Hh He Hn Hfs [Hlen Hfit].
  assert (Hoff : file_offset (header_type g) (inject_header l) = 0)
    by (rewrite Hh; by destruct (inject_header l)).
  eapply ends_weaken;
    [apply (main_emits fs usb argv0 argv g l path file); by rewrite ?Hoff|].
  cbn beta. intros _ t ->.
  assert (Hb : buf g = ∅) by (by rewrite (options_buf argv _ _ _ _ Hopt)).
  assert (Ho : output_to Stdout [EOut Stdout (image g l file)] = image g l file)
    by apply app_nil_r.
  cbn zeta. rewrite Ho. clear Ho. rewrite image_length.
  destruct (image_size_facts g l file Hlen) as (H16 & H528 & Hfile & _).
  rewrite Z2Nat.id by lia. split_and!.
  - unfold image_size. rewrite Hoff, Z.add_0_r. unfold pad16.
    destruct (Z.leb_spec ((Z.of_nat (length file) + 15) / 16 * 16) 512),
      (Z.leb_spec (Z.of_nat (length file)) 512); Z.div_mod_to_equations; lia.
  - rewrite <- u32_idem. apply image_word; try done. unfold words_of. by rewrite Hh, Hn.
  - intros i Hi Hout. unfold image.
    rewrite load_lookup by (cbn [built load_size set_load_size set_buf]; lia). f_equal.
    replace (0 + Z.of_nat (Z.to_nat i)) with i by lia. cbn [built buf set_buf set_load_size].
    unfold words_of. rewrite Hoff, Hh, Hn, Hb. cbn [header_words app].
    rewrite byte_puts_out by (apply Forall_singleton; cbn [fst]; lia). by apply byte_body.
Qed.

Lemma loader_verbatim_witness :
  ends (main demo_fs demo_usb [chars "loader"; chars "-o"; chars "image"]) (St tt vars0) (Exit 0) (fun _ t =>
    let out := output_to Stdout t in
    let size := Z.of_nat (length out) in
    size = (if Z.of_nat (length demo_file) <=? 512 then 528
            else pad16 (Z.of_nat (length demo_file))) /\
    le_word (slice 0x44 4 out) = u32 (size - 512) /\
    forall i, 0 <= i < size -> ~ (0x44 <= i < 0x48) ->
      out !! Z.to_nat i = Some (file_byte 0 demo_file i)).
Proof.
  refine (loader_verbatim demo_fs demo_usb (chars "loader") [chars "-o"; chars "image"]
    (demo_vars NOHEADER) demo_locals (chars "image") demo_file _ _ _ _ _ _); done.
Defined.

(** With the board found on the bus, the loader sends over the bulk endpoint
    exactly the image it would have written with [-o], nothing to the standard
    output, and its exit code is 0 exactly when the library reports no error
    (however many bytes were transferred). *)
Theorem loader_sends_image fs usb argv0 argv g l path file :
  options argv (vars0, locals0) = (g, l, [path]) -> emit_file l = false ->
  fs path = Some file -> 0 < Z.of_nat (length file) ->
  file_offset (header_type g) (inject_header l) + Z.of_nat (length file) <= BUF_SIZE ->
  0 <= libusb_init usb -> 1 <= libusb_get_device_list usb ->
  libusb_open_device_with_vid_pid usb = true -> 0 <= libusb_claim_interface usb ->
  exists code,
    ends (main fs usb (argv0 :: argv)) (St tt vars0) (Exit code) (fun _ t =>
      output_to Stdout t = [] /\
      (code = 0 <-> 0 <= (libusb_bulk_transfer usb (output_to (Bulk 2) t)).1) /\
      ends (main fs usb (argv0 :: [45; 111] :: argv)) (St tt vars0) (Exit 0) (fun _ t' =>
        output_to Stdout t' = output_to (Bulk 2) t)).
Proof.
  intros Hopt He Hfs Hlen Hfit Hi Hd Ho Hc.
  set (img := image g l file). exists (if (libusb_bulk_transfer usb img).1 <? 0 then 1 else 0).
  eapply ends_weaken; [by apply (main_sends fs usb argv0 argv g l path file)|].
  cbn beta. intros _ t [Hb Hs]. change (Bulk S5P6818_EP_OUT) with (Bulk 2) in Hb.
  fold img in Hb. rewrite Hb. split; [done|]. split.
  { destruct (Z.ltb_spec (libusb_bulk_transfer usb img).1 0); lia. }
  assert (Hopt' : exists l', options ([45; 111] :: argv) (vars0, locals0) = (g, l', [path]) /\
    emit_file l' = true /\ inject_header l' = inject_header l /\ set_next l' = set_next l /\
    next_addr l' = next_addr l) by (by apply options_emit).
  destruct Hopt' as (l' & Ho' & He' & Hin & Hsn & Hna).
  eapply ends_weaken; [apply (main_emits fs usb argv0 _ g l' path file); by rewrite ?Hin|].
  cbn beta. intros _ t' ->. transitivity (image g l' file); [apply app_nil_r|].
  unfold img, image, built, words_of. by rewrite Hin, Hsn, Hna.
Qed.

Lemma loader_sends_image_witness :
  exists code,
    ends (main demo_fs demo_usb [chars "loader"; chars "-h32"; chars "image"])
      (St tt vars0) (Exit code) (fun _ t =>
      output_to Stdout t = [] /\
      (code = 0 <-> 0 <= (libusb_bulk_transfer demo_usb (output_to (Bulk 2) t)).1) /\
      ends (main demo_fs demo_usb [chars "loader"; chars "-o"; chars "-h32"; chars "image"])
        (St tt vars0) (Exit 0) (fun _ t' =>
        output_to Stdout t' = output_to (Bulk 2) t)).
Proof.
  refine (loader_sends_image demo_fs demo_usb (chars "loader") [chars "-h32"; chars "image"]
    (demo_vars H32) locals0 (chars "image") demo_file _ _ _ _ _ _ _ _ _); done.
Defined.

(** [-l] and [-s] with the hexadecimal text of an address set the load and
    launch address to it; [-s] after [-l] overrides the launch address only,
    while [-s] before [-l] is lost. *)
Theorem loader_addresses la sa path :
  is_u32 la -> is_u32 sa -> head path <> Some 45 ->
  let l := 45 :: 108 :: Printf.utext 16 Printf.c_a la in
  let s := 45 :: 115 :: Printf.utext 16 Printf.c_a sa in
  options [l; s; path] (vars0, locals0) = (Vars ∅ NOHEADER 0 la sa, locals0, [path]) /\
  options [s; l; path] (vars0, locals0) = (Vars ∅ NOHEADER 0 la la, locals0, [path]) /\
  options [l; path] (vars0, locals0) = (Vars ∅ NOHEADER 0 la la, locals0, [path]).
Proof.
  intros Hl Hs Hp l s. pose proof (strtol_hex la Hl) as El. pose proof (strtol_hex sa Hs) as Es.
  revert l s El Es. generalize (Printf.utext 16 Printf.c_a la), (Printf.utext 16 Printf.c_a sa).
  intros ltxt stxt l s El Es.
  assert (Hpath : forall p, options [path] p = (p, [path])).
  { intros p. cbn [options]. destruct path as [|c r]; [done|]. cbn.
    destruct (Z.eqb_spec c 45); [by subst|done]. }
  assert (HL : forall g m, option_step (108 :: ltxt) (g, m) = (set_addrs la la g, m)).
  { intros g m. unfold option_step. repeat (rewrite decide_False by done). cbn. by rewrite El. }
  assert (HS : forall g m, option_step (115 :: stxt) (g, m) = (set_addrs (load_addr g) sa g, m)).
  { intros g m. unfold option_step. repeat (rewrite decide_False by done). cbn. by rewrite Es. }
  assert (HO : forall o r p, options ((45 :: o) :: r) p = options r (option_step o p)) by done.
  unfold l, s. split_and!; rewrite !HO; rewrite ?HL, ?HS, ?HL, Hpath; done.
Qed.

Lemma loader_addresses_witness :
  let l := 45 :: 108 :: Printf.utext 16 Printf.c_a 0xfffe0000 in
  let s := 45 :: 115 :: Printf.utext 16 Printf.c_a 0xfffe0800 in
  options [l; s; chars "image"] (vars0, locals0)
    = (Vars ∅ NOHEADER 0 0xfffe0000 0xfffe0800, locals0, [chars "image"]) /\
  options [s; l; chars "image"] (vars0, locals0)
    = (Vars ∅ NOHEADER 0 0xfffe0000 0xfffe0000, locals0, [chars "image"]) /\
  options [l; chars "image"] (vars0, locals0)
    = (Vars ∅ NOHEADER 0 0xfffe0000 0xfffe0000, locals0, [chars "image"]).
Proof.
  apply (loader_addresses 0xfffe0000 0xfffe0800 (chars "image")); [unfold is_u32; lia..|done].
Defined.

Lemma readBin_overflow fs off path file g :
  fs path = Some file -> 0 <= off <= BUF_SIZE -> BUF_SIZE - off < Z.of_nat (length file) ->
  0 < off -> readBin fs off path (St tt g) = Stop Undef (St tt g) [].
Proof.
  intros Hfs Hoff Hlen Hpos. unfold readBin. rewrite Hfs.
  by destruct (Z.ltb_spec BUF_SIZE (off + Z.min (Z.of_nat (length file)) BUF_SIZE)); [|lia].
Qed.

(** [readBin] reads up to the size of the whole buffer at the place behind
    the header: with a header in front, a file of more than [BUF_SIZE] less the
    header is stored past the end of [buf], and nothing has been sent then. *)
Theorem loader_overflow fs usb argv0 argv g l path file :
  options argv (vars0, locals0) = (g, l, [path]) ->
  header_type g <> NOHEADER -> inject_header l = false ->
  fs path = Some file ->
  BUF_SIZE - file_offset (header_type g) false < Z.of_nat (length file) ->
  ends (main fs usb (argv0 :: argv)) (St tt vars0) Undef (fun _ t => t = []).
Proof.
  intros Hopt Hh Hin Hfs Hlen. unfold main. apply ends_bind. go. rewrite Hopt.
  apply ends_bind. go. apply ends_bind_l. unfold build. apply ends_bind. unfold returns.
  rewrite clear_run. apply ends_bind. go. rewrite Hin.
  cbn [header_type set_buf].
  assert (Hoff : exists off, 0 < off <= BUF_SIZE /\ off = file_offset (header_type g) false /\
    match header_type g with NOHEADER => 0 | H32 => H32_SIZE | H64 => H64_SIZE end = off)
    by (destruct (header_type g); [done|by exists 512|by exists 2048]).
  destruct Hoff as (off & Hpos & Hfile & ->). rewrite <- Hfile in Hlen.
  destruct (Z.eqb_spec off 0); [lia|]. cbn [negb]. apply ends_bind. unfold returns.
  rewrite clear_run. apply ends_bind_l. unfold ends.
  by rewrite (readBin_overflow _ _ _ _ _ Hfs) by lia.
Qed.

(** A file one byte too long for the buffer behind a 32-bit header. *)
Definition big_fs (p : list Z) : option (list Z) :=
  if decide (p = chars "image") then Some (replicate (Z.to_nat (BUF_SIZE - 511)) 0) else None.

Lemma loader_overflow_witness :
  ends (main big_fs demo_usb [chars "loader"; chars "-h32"; chars "image"]) (St tt vars0) Undef
    (fun _ t => t = []).
Proof.
  refine (loader_overflow big_fs demo_usb (chars "loader") [chars "-h32"; chars "image"]
    (demo_vars H32) locals0 (chars "image") (replicate (Z.to_nat (BUF_SIZE - 511)) 0)
    _ _ _ _ _); [done|done|done|reflexivity|].
  rewrite length_replicate, Z2Nat.id by (unfold BUF_SIZE; lia).
  change (file_offset (header_type (demo_vars H32)) false) with 512. lia.
Defined.

(** A file that cannot be opened or is empty sends nothing and exits with
    code 1, after a message. *)
Theorem loader_no_file fs usb argv0 argv g l path :
  options argv (vars0, locals0) = (g, l, [path]) ->
  fs path = None \/ fs path = Some [] ->
  ends (main fs usb (argv0 :: argv)) (St tt vars0) (Exit 1) (fun _ t =>
    exists msg, t = [EOut Stderr (msg ++ path ++ [10])]).
Proof.
  intros Hopt Hfs. unfold main. apply ends_bind. go. rewrite Hopt.
  apply ends_bind. go. apply ends_bind_l. unfold build. apply ends_bind. unfold returns.
  rewrite clear_run. apply ends_bind. go.
  match goal with |- context [if inject_header l then 0 else ?x] =>
    set (off := if inject_header l then 0 else x) end.
  assert (Hoff : off <= 2048)
    by (unfold off; cbn [header_type set_buf glb];
        destruct (inject_header l), (header_type g); unfold H32_SIZE, H64_SIZE; lia).
  apply ends_bind. unfold returns at 1.
  assert (Hclr : forall s, exists s1, (if negb (off =? 0) then clear off else ret tt) s = Ok tt s1 [])
    by (intros s; destruct (negb (off =? 0)); [by eexists|by eexists]).
  match goal with |- match ?m ?s with _ => _ end => destruct (Hclr s) as [s1 ->] end.
  apply ends_bind. unfold readBin, perror. destruct Hfs as [->| ->].
  - go. split; [done|]. by eexists.
  - change (Z.of_nat (length [])) with 0. cbn beta iota zeta.
    destruct (Z.leb_spec 0 BUF_SIZE); [|unfold BUF_SIZE in *; lia]. rewrite Z.min_l by done.
    destruct (Z.ltb_spec BUF_SIZE (off + 0)); [unfold BUF_SIZE in *; lia|].
    go. split; [done|]. by eexists.
Qed.

Lemma loader_no_file_witness :
  ends (main demo_fs demo_usb [chars "loader"; chars "nope"]) (St tt vars0) (Exit 1) (fun _ t =>
    exists msg, t = [EOut Stderr (msg ++ chars "nope" ++ [10])]).
Proof.
  refine (loader_no_file demo_fs demo_usb (chars "loader") [chars "nope"] vars0 locals0
    (chars "nope") _ _); [done|by left].
Defined.
