(* ===== verification/ArmWrap.v ===== *)
(** The ELF wrapper (src/Arm_wrap/arm_wrap.c): it puts a ROM image into a 32-bit
    ELF file, with a program header, a section table, and on request a symbol
    table read from a text file. *)

From S2P Require Import Prelude Machine Host.
From S2P Require Printf.

(** ** The structures of elf.h *)

Definition EM_ARM : Z := 40.
Definition EM_AARCH64 : Z := 183.
Definition CLASS_32 : Z := 1.
Definition CLASS_64 : Z := 2.
Definition ELF_ENDIAN : Z := 1.
Definition SHT_PROGBITS : Z := 1.
Definition SHT_SYMTAB : Z := 2.
Definition SHT_STRTAB : Z := 3.
Definition SHN_UNDEF : Z := 0.
Definition STB_GLOBAL : Z := 1.
Definition STT_FUNC : Z := 2.
Definition ELF32_ST_INFO (b t : Z) : Z := Z.shiftl b 4 + Z.land t 0xf.

Definition PGSIZE : Z := 8192.
Definition MAX_ROMSIZE : Z := 65536.
Definition MAX_SYM : Z := 400.
Definition MAXLINE : Z := 256.

(** [swap_short] and [swap_long]: the host has the target's byte order. *)
Definition swap_short (x : Z) : Z := x.
Definition swap_long (x : Z) : Z := x.

Record Elf32_Ehdr := Ehdr {
  e_ident : list Z; e_type : Z; e_machine : Z; e_version : Z; e_entry : Z; e_phoff : Z;
  e_shoff : Z; e_flags : Z; e_ehsize : Z; e_phentsize : Z; e_phnum : Z; e_shentsize : Z;
  e_shnum : Z; e_shstrndx : Z }.

Definition ehdr_bytes (h : Elf32_Ehdr) : list Z :=
  e_ident h ++ le16 (e_type h) ++ le16 (e_machine h) ++ le32 (e_version h) ++ le32 (e_entry h)
  ++ le32 (e_phoff h) ++ le32 (e_shoff h) ++ le32 (e_flags h) ++ le16 (e_ehsize h)
  ++ le16 (e_phentsize h) ++ le16 (e_phnum h) ++ le16 (e_shentsize h) ++ le16 (e_shnum h)
  ++ le16 (e_shstrndx h).

Record Elf32_Phdr := Phdr {
  p_type : Z; p_offset : Z; p_vaddr : Z; p_paddr : Z; p_filesz : Z; p_memsz : Z;
  p_flags : Z; p_align : Z }.

Definition phdr_bytes (h : Elf32_Phdr) : list Z :=
  le32 (p_type h) ++ le32 (p_offset h) ++ le32 (p_vaddr h) ++ le32 (p_paddr h)
  ++ le32 (p_filesz h) ++ le32 (p_memsz h) ++ le32 (p_flags h) ++ le32 (p_align h).

Record Elf32_Shdr := Shdr {
  sh_name : Z; sh_type : Z; sh_flags : Z; sh_addr : Z; sh_offset : Z; sh_size : Z;
  sh_link : Z; sh_info : Z; sh_addralign : Z; sh_entsize : Z }.

Definition shdr_words (h : Elf32_Shdr) : list Z :=
  [sh_name h; sh_type h; sh_flags h; sh_addr h; sh_offset h; sh_size h; sh_link h; sh_info h;
   sh_addralign h; sh_entsize h].

(** [swap_shdr]: every word of the structure in place, which is then written. *)
Definition swap_shdr (ws : list Z) : list Z := map swap_long ws.
Definition shdr_bytes (h : Elf32_Shdr) : list Z := concat (map le32 (swap_shdr (shdr_words h))).

Record Elf32_Sym := Sym {
  st_name : Z; st_value : Z; st_size : Z; st_info : Z; st_other : Z; st_shndx : Z }.

Definition sym_bytes (s : Elf32_Sym) : list Z :=
  le32 (st_name s) ++ le32 (st_value s) ++ le32 (st_size s)
  ++ [u8 (st_info s); u8 (st_other s)] ++ le16 (st_shndx s).

Definition sym_zero : Elf32_Sym := Sym 0 0 0 0 0 0.

(** ** State *)

(** [struct string]: the bytes stored so far ([off] is their number), and
    [limit].  The buffer has [PGSIZE] bytes. *)
Record str_tab := StrTab { s_buf : list Z; s_limit : Z }.
Definition s_off (t : str_tab) : Z := Z.of_nat (length (s_buf t)).

(** [struct symtab]: the entries in use ([count] is their number). *)
Record symtab := SymTab { sym : list Elf32_Sym; size : Z; limit : Z }.

Record vars := Vars {
  rombase : Z; entry : Z; buf : list Z; offset : Z;
  seg_strings : str_tab; sym_strings : str_tab; syms : symtab }.

Definition set_rombase v g := Vars v (entry g) (buf g) (offset g) (seg_strings g) (sym_strings g) (syms g).
Definition set_entry v g := Vars (rombase g) v (buf g) (offset g) (seg_strings g) (sym_strings g) (syms g).
Definition set_buf v g := Vars (rombase g) (entry g) v (offset g) (seg_strings g) (sym_strings g) (syms g).
Definition set_offset v g := Vars (rombase g) (entry g) (buf g) v (seg_strings g) (sym_strings g) (syms g).
Definition set_seg v g := Vars (rombase g) (entry g) (buf g) (offset g) v (sym_strings g) (syms g).
Definition set_symstr v g := Vars (rombase g) (entry g) (buf g) (offset g) (seg_strings g) v (syms g).
Definition set_syms v g := Vars (rombase g) (entry g) (buf g) (offset g) (seg_strings g) (sym_strings g) v.

Definition str_none : str_tab := StrTab [] 0.
Definition vars0 : vars := Vars 0 0 [] 0 str_none str_none (SymTab [] 0 0).

(** The number of bytes read from the image. *)
Definition romsize (g : vars) : Z := Z.of_nat (length (buf g)).

Definition gnu_extra : list Z := chars "GCC: (GNU) 4.7.2" ++ [0].
Definition gnusize : Z := Z.of_nat (length gnu_extra).

(** ** String tables *)

Definition init_string : str_tab := StrTab [] PGSIZE.

(** [add_string] copies without looking at the limit: beyond the buffer it is
    undefined.  The result is the offset of the string. *)
Definition add_string (t : str_tab) (s : list Z) : option (Z * str_tab) :=
  if PGSIZE <? s_off t + Z.of_nat (length s) + 1 then None
  else Some (s_off t, StrTab (s_buf t ++ s ++ [0]) (s_limit t)).

Definition finish_string (t : str_tab) : option str_tab :=
  if s_off t mod 2 =? 1 then
    if PGSIZE <? s_off t + 1 then None else Some (StrTab (s_buf t ++ [0]) (s_limit t))
  else Some t.

(** The string at an offset of a table. *)
Fixpoint cstr (l : list Z) : list Z :=
  match l with
  | [] => []
  | c :: r => if c =? 0 then [] else c :: cstr r
  end.

Definition string_at (t : list Z) (ix : Z) : list Z := cstr (drop (Z.to_nat ix) t).

(** ** Symbols *)

(** An entry beyond the array is undefined. *)
Definition add_sym (s : symtab) (e : Elf32_Sym) : option symtab :=
  if MAX_SYM <=? Z.of_nat (length (sym s)) then None
  else Some (SymTab (sym s ++ [e]) (size s + 16) (limit s)).

Definition add_null (s : symtab) : option symtab :=
  add_sym s (Sym 0 0 0 0 0 SHN_UNDEF).

(** [memset] clears the limit that was just set. *)
Definition init_symbol (g : vars) : option vars :=
  s ← add_null (SymTab [] 0 0);
  Some (set_syms s (set_symstr init_string g)).

Definition add_symbol (name : list Z) (addr : Z) (g : vars) : option vars :=
  p ← add_string (sym_strings g) name;
  let info := ELF32_ST_INFO STB_GLOBAL STT_FUNC in
  s ← add_sym (syms g) (Sym (swap_long p.1) (swap_long addr) 0 info 0 (swap_short 1));
  Some (set_syms s (set_symstr p.2 g)).

Definition finish_symbol (g : vars) : option vars :=
  t ← finish_string (sym_strings g); Some (set_symstr t g).

(** ** Reading the symbol file *)

(** [fgets ( line, n + 1, fp )]: up to [n] characters, through a newline. *)
Fixpoint fgets (n : nat) (s : list Z) : list Z * list Z :=
  match n, s with
  | S n, c :: r => if c =? 10 then ([c], r) else let '(l, r) := fgets n r in (c :: l, r)
  | _, _ => ([], s)
  end.

(** Overwrite the start of an array. *)
Definition overwrite (bs a : list Z) : list Z := bs ++ drop (length bs) a.

(** One line: the array [line] still holds the previous line behind the
    terminator; [None] where the code is undefined (a line that starts with a
    NUL, or no terminator from index 9 on). *)
Definition parse_line (l line : list Z) : option (Z * list Z * list Z) :=
  let line := overwrite (l ++ [0]) line in
  let len := length (cstr line) in
  if (len =? 0)%nat then None else
  let line := <[(len - 1)%nat := 0]> line in
  let addr := u32 (strtol 16 (take 8 (cstr line))) in
  let tail := drop 9 line in
  if bool_decide (0 ∈ tail) then Some (addr, cstr tail, line) else None.

(** [while ( fgets ( line, MAXLINE, fp ) != NULL )]; [n] bounds the rounds. *)
Fixpoint read_syms (n : nat) (s line : list Z) (g : vars) (count : Z) : option (Z * vars) :=
  match s, n with
  | [], _ => Some (count, g)
  | _, O => None
  | _, S n =>
      let '(l, rest) := fgets 255 s in
      p ← parse_line l line;
      let '(addr, name, line) := p in
      g ← add_symbol name addr g;
      read_syms n rest line g (count + 1)
  end.

(** ** The program *)

Section Code.

(** The files: contents by name, and which names can be created.  [junk_line]
    and [g_index] are the values the uninitialised array of [load_syms] and the
    uninitialised variable of [main] happen to have. *)
Context (fs : list Z -> option (list Z)) (creatable : list Z -> bool).
Context (junk_line : list Z) (g_index : Z).
Abbreviation prog := (Machine.prog unit vars).

Definition say (cs : list Z) : prog unit := output Stdout cs.
Definition perror (cs : list Z) : prog unit := output Stderr cs.

Definition modify (f : vars -> vars) : prog unit := g <-- gget ;; gput (f g).
Definition attempt {A} (o : option A) : prog A :=
  match o with Some a => ret a | None => halt Undef end.

Definition use {A} : prog A :=
  perror (chars "Usage: wrap [options] bin elf [symfile]\n") ;;; halt (Exit 1).

(** [write ( fd, ... )]: the name stands for the descriptor. *)
Definition write (fd : list Z) (bs : list Z) : prog unit := output (ToFile fd) bs.

Definition mk_shdr_null (fd : list Z) : prog unit := write fd (shdr_bytes (Shdr 0 0 0 0 0 0 0 0 0 0)).

Definition mk_shdr_t (fd : list Z) (t_index : Z) : prog unit :=
  g <-- gget ;;
  let h := Shdr t_index SHT_PROGBITS 6 (rombase g) (offset g) (romsize g) 0 0 4 0 in
  gput (set_offset (offset g + romsize g) g) ;;;
  write fd (shdr_bytes h).

Definition mk_shdr_g (fd : list Z) (index : Z) : prog unit :=
  g <-- gget ;;
  let h := Shdr index SHT_PROGBITS 0x30 0 (offset g) gnusize 0 0 1 1 in
  gput (set_offset (offset g + gnusize) g) ;;;
  write fd (shdr_bytes h).

Definition mk_shdr_s (fd : list Z) (s_index size : Z) : prog unit :=
  g <-- gget ;;
  let h := Shdr s_index SHT_STRTAB 0 0 (offset g) size 0 0 1 0 in
  gput (set_offset (offset g + size) g) ;;;
  write fd (shdr_bytes h).

Definition mk_shdr_sy (fd : list Z) (s_index size string_index : Z) : prog unit :=
  g <-- gget ;;
  let h := Shdr s_index SHT_SYMTAB 0 0 (offset g) size string_index 0 1 16 in
  gput (set_offset (offset g + size) g) ;;;
  write fd (shdr_bytes h).

Definition mk_phdr (fd : list Z) : prog Z :=
  g <-- gget ;;
  write fd (phdr_bytes (Phdr (swap_long 1) (swap_long 0x2000) (swap_long (rombase g))
    (swap_long (rombase g)) (swap_long (romsize g)) (swap_long (romsize g)) (swap_long 5)
    (swap_long 0x2000))) ;;;
  ret 32.

Definition mk_string (t : str_tab) (fd : list Z) : prog Z := write fd (s_buf t) ;;; ret (s_off t).

Definition mk_symbol (fd : list Z) : prog Z :=
  g <-- gget ;;
  write fd (take (Z.to_nat (size (syms g))) (concat (map sym_bytes (sym (syms g))))) ;;;
  ret (size (syms g)).

(** [add_string ( &seg_strings, s )] *)
Definition seg_add (s : list Z) : prog Z :=
  g <-- gget ;;
  p <-- attempt (add_string (seg_strings g) s) ;;
  gput (set_seg p.2 g) ;;; ret p.1.

(** A file after [elf_image] has been created: creating it emptied it. *)
Definition after_creat (elf name : list Z) : option (list Z) :=
  if decide (name = elf) then Some [] else fs name.

Definition load_syms (elf file : list Z) : prog Z :=
  match after_creat elf file with
  | None => perror (chars "Cannot read symbol file: " ++ file ++ [10]) ;;; halt (Exit 1)
  | Some s =>
      g <-- gget ;;
      g <-- attempt (init_symbol g) ;;
      p <-- attempt (read_syms (S (length s)) s junk_line g 0) ;;
      g <-- attempt (finish_symbol p.2) ;;
      gput g ;;;
      ret p.1
  end.

(** The options; [None] when [-64] ends the program. *)
Fixpoint options (argv : list (list Z)) (g : vars) : prog (vars * list (list Z)) :=
  match argv with
  | [] => ret (g, [])
  | a :: r =>
      if default 0 (head a) =? 45 then
        let o := tail a in
        if default 0 (head o) =? 98 then
          let val := strtol 16 (tail o) in
          say (chars "Set base: " ++ hex8 val ++ [10]) ;;; options r (set_rombase (u32 val) g)
        else if default 0 (head o) =? 101 then
          let val := strtol 16 (tail o) in
          say (chars "Set entry: " ++ hex8 val ++ [10]) ;;; options r (set_entry (u32 val) g)
        else if decide (chars "64" = o) then
          say (chars "ARM 64 bit (aarch64) selected\n") ;;;
          say (chars "Sorry, 64 bit not ready yet\n") ;;; halt (Exit 1)
        else options r g
      else ret (g, argv)
  end.

(** The section name table: the offsets of the names. *)
Record names := Names { s_index : Z; t_index : Z; sy_index : Z; sys_index : Z }.

Definition build_names (sym_file : bool) : prog names :=
  g <-- gget ;; gput (set_seg init_string g) ;;;
  _ <-- seg_add [] ;;
  s_index <-- seg_add (chars ".shstrtab") ;;
  t_index <-- seg_add (chars ".text") ;;
  p <-- (if sym_file then
           sy <-- seg_add (chars ".symtab") ;; sys <-- seg_add (chars ".strtab") ;; ret (sy, sys)
         else ret (0, 0)) ;;
  g <-- gget ;;
  t <-- attempt (finish_string (seg_strings g)) ;;
  gput (set_seg t g) ;;;
  ret (Names s_index t_index p.1 p.2).

(** The ELF header. *)
Definition mk_ehdr (g : vars) (shnum sh_off : Z) : Elf32_Ehdr :=
  Ehdr [0x7f; 69; 76; 70; CLASS_32; ELF_ENDIAN; 1; 0; 0; 0; 0; 0; 0; 0; 0; 0]
    (swap_short 2) (swap_short EM_ARM) (swap_long 1) (swap_long (entry g)) (swap_long 52)
    (swap_long sh_off) (swap_long 0x01000000) (swap_short 52) (swap_short 0x20) (swap_short 1)
    (swap_short 40) (swap_short shnum) (swap_short 3).

(** Everything that is written, the section table apart. *)
Definition write_body (fd : list Z) (sym_file : bool) (shnum sh_off : Z) : prog (Z * Z * Z) :=
  g <-- gget ;;
  write fd (ehdr_bytes (mk_ehdr g shnum sh_off)) ;;;
  ph <-- mk_phdr fd ;;
  let npad := PGSIZE - 52 - ph in
  write fd (replicate (Z.to_nat npad) 0) ;;;
  write fd (buf g) ;;;
  write fd gnu_extra ;;;
  st_size <-- mk_string (seg_strings g) fd ;;
  p <-- (if sym_file then
           a <-- mk_symbol fd ;; b <-- mk_string (sym_strings g) fd ;; ret (a, b)
         else ret (0, 0)) ;;
  ret (st_size, p.1, p.2).

(** The section table. *)
Definition write_sections (fd : list Z) (sym_file : bool) (shnum : Z) (n : names) (sizes : Z * Z * Z)
    : prog unit :=
  modify (set_offset PGSIZE) ;;;
  mk_shdr_null fd ;;;
  mk_shdr_t fd (t_index n) ;;;
  mk_shdr_g fd g_index ;;;
  mk_shdr_s fd (s_index n) sizes.1.1 ;;;
  (if sym_file then
     mk_shdr_sy fd (sy_index n) sizes.1.2 (shnum - 1) ;;; mk_shdr_s fd (sys_index n) sizes.2
   else ret tt).

(** The part of [main] after the arguments have been read. *)
Definition wrap (rom_image elf_image : list Z) (sym_file : option (list Z)) : prog unit :=
  say (chars "Reading image: " ++ rom_image ++ [10]) ;;;
  match fs rom_image with
  | None => perror (chars "Cannot access file: " ++ rom_image ++ [10]) ;;; halt (Exit 1)
  | Some _ =>
    if negb (creatable elf_image) then
      perror (chars "Cannot create file: " ++ elf_image ++ [10]) ;;; halt (Exit 1) else
    rom <-- attempt (after_creat elf_image rom_image) ;;
    modify (set_buf (take (Z.to_nat MAX_ROMSIZE) rom)) ;;;
    g <-- gget ;;
    say (chars " ... " ++ Printf.itext (romsize g) ++ chars " bytes read\n") ;;;
    let has := bool_decide (is_Some sym_file) in
    let shnum := if has then 6 else 4 in
    (match sym_file with
     | Some f =>
         nsy <-- load_syms elf_image f ;; say (Printf.itext nsy ++ chars " symbols loaded\n")
     | None => ret tt
     end) ;;;
    n <-- build_names has ;;
    g <-- gget ;;
    let sh_off := PGSIZE + romsize g + gnusize + s_off (seg_strings g)
      + (if has then size (syms g) + s_off (sym_strings g) else 0) in
    sizes <-- write_body elf_image has shnum sh_off ;;
    write_sections elf_image has shnum n sizes ;;;
    halt (Exit 0)
  end.

Definition main (argv : list (list Z)) : prog unit :=
  match argv with
  | [] => halt Undef
  | _ :: argv =>
      g <-- gget ;;
      p <-- options argv g ;;
      gput p.1 ;;;
      match p.2 with
      | [rom; elf] => wrap rom elf None
      | [rom; elf; symf] => wrap rom elf (Some symf)
      | _ => use
      end
  end.
End Code.

(** ** String tables hold their strings *)

Section Strings.
Implicit Types t : str_tab.

Lemma cstr_app s r : 0 ∉ s -> cstr (s ++ 0 :: r) = s.
Proof.
  induction s as [|c s IH]; [done|]. rewrite not_elem_of_cons. intros [Hc Hs]. cbn.
  destruct (Z.eqb_spec c 0); [congruence|]. by rewrite IH.
Qed.

(** The string just added can be read at the offset returned, and every string
    that was in the table can be read where it was. *)
Lemma add_string_spec t s ix t' :
  add_string t s = Some (ix, t') -> 0 ∉ s ->
  string_at (s_buf t') ix = s /\ ix = s_off t /\ s_off t' = s_off t + Z.of_nat (length s) + 1.
Proof.
  unfold add_string. destruct (PGSIZE <? _); [done|]. intros [= <- <-] Hs. cbn [s_buf].
  unfold string_at, s_off. cbn [s_buf]. rewrite Nat2Z.id, drop_app_length.
  split; [by apply cstr_app|]. lens.
Qed.

(** A table only grows. *)
Definition extends t t' : Prop := exists r, s_buf t' = s_buf t ++ r.

#[global] Instance extends_preorder : PreOrder extends.
Proof.
  split; [intros t; exists []; by rewrite app_nil_r|].
  intros a b c [r Hr] [q Hq]. exists (r ++ q). by rewrite Hq, Hr, app_assoc.
Qed.

Lemma add_string_extends t s p : add_string t s = Some p -> extends t p.2.
Proof.
  unfold add_string. destruct (PGSIZE <? _); [done|]. intros [= <-]. by eexists.
Qed.

Lemma finish_string_extends t t' : finish_string t = Some t' -> extends t t'.
Proof.
  unfold finish_string. repeat case_match; intros [= <-]; [by eexists|reflexivity].
Qed.

Lemma cstr_prefix l r : 0 ∈ l -> cstr (l ++ r) = cstr l.
Proof.
  induction l as [|c l IH]; [by rewrite elem_of_nil|]. rewrite elem_of_cons. intros Hz. cbn.
  destruct (Z.eqb_spec c 0); [done|]. f_equal. apply IH. destruct Hz; [congruence|done].
Qed.

(** Strings stay readable as the table grows. *)
Lemma string_at_extends t t' ix :
  extends t t' -> 0 ∈ drop (Z.to_nat ix) (s_buf t) ->
  string_at (s_buf t') ix = string_at (s_buf t) ix.
Proof.
  intros [r Hr] Hz. unfold string_at. rewrite Hr, drop_app_le; [by apply cstr_prefix|].
  destruct (decide (Z.to_nat ix <= length (s_buf t))%nat) as [|Hgt]; [done|].
  rewrite drop_ge in Hz by lia. by apply elem_of_nil in Hz.
Qed.

Lemma add_string_terminated t s ix t' :
  add_string t s = Some (ix, t') -> 0 ∈ drop (Z.to_nat ix) (s_buf t').
Proof.
  unfold add_string. destruct (PGSIZE <? _); [done|]. intros [= <- <-]. cbn [s_buf].
  unfold s_off. rewrite Nat2Z.id, drop_app_length. apply elem_of_app. right. by left.
Qed.

(** An even number of bytes, so that the section table is aligned. *)
Lemma finish_string_even t t' : finish_string t = Some t' -> s_off t' mod 2 = 0.
Proof.
  unfold finish_string. destruct (Z.eqb_spec (s_off t mod 2) 1) as [Ho|Ho].
  - destruct (PGSIZE <? _); [done|]. intros [= <-]. unfold s_off in *. cbn [s_buf].
    rewrite length_app, Nat2Z.inj_add. cbn [length]. Z.div_mod_to_equations. lia.
  - intros [= <-]. Z.div_mod_to_equations. lia.
Qed.

End Strings.

(** ** Symbol files *)

(** One line of a symbol file: an address in eight digits, a space, a name. *)
Definition line_of (p : Z * list Z) : list Z := hex8 p.1 ++ [32] ++ p.2 ++ [10].

(** A symbol such a line can hold. *)
Definition symbol_ok (p : Z * list Z) : Prop :=
  is_u32 p.1 /\ (0 ∉ p.2) /\ (10 ∉ p.2) /\ (length p.2 <= 245)%nat.

(** Adding the symbols of a list in order. *)
Fixpoint add_all (ps : list (Z * list Z)) (g : vars) : option vars :=
  match ps with
  | [] => Some g
  | p :: ps => (g ← add_symbol p.2 p.1 g; add_all ps g)
  end.

Section SymbolFile.

Lemma fgets_line n l rest :
  10 ∉ l -> (length l < n)%nat -> fgets n (l ++ 10 :: rest) = (l ++ [10], rest).
Proof.
  revert n. induction l as [|c l IH]; intros [|n] Hl Hn; try (simpl in Hn; lia); [done|].
  apply not_elem_of_cons in Hl as [Hc Hl]. simpl length in Hn. cbn [app fgets].
  destruct (Z.eqb_spec c 10); [congruence|]. by rewrite IH by (done || lia).
Qed.

Lemma hexdigits_not c cs : Forall hexdigit cs -> c < 48 -> c ∉ cs.
Proof.
  intros Hcs Hc Hin. rewrite Forall_forall in Hcs. destruct (Hcs c Hin) as (_ & _ & H). lia.
Qed.

Lemma overwrite_length bs a : (length bs <= length a)%nat -> length (overwrite bs a) = length a.
Proof. intros H. unfold overwrite. lens. Qed.

Lemma cstr_take l : cstr (l ++ [0]) = cstr l.
Proof. induction l as [|c l IH]; [done|]. cbn. by rewrite IH. Qed.

(** A line is read as the symbol it was made from, whatever the array held. *)
Lemma parse_line_of p line :
  symbol_ok p -> length line = 256%nat ->
  exists line', parse_line (line_of p) line = Some (p.1, p.2, line') /\ length line' = 256%nat.
Proof.
  destruct p as [addr name]. intros (Ha & H0 & H10 & Hlen) Hline. cbn [fst snd] in *.
  set (body := hex8 addr ++ [32] ++ name).
  assert (Hbody : 0 ∉ body).
  { unfold body. rewrite !elem_of_app, list_elem_of_singleton. intros [Hin|[?|?]]; try done.
    by apply (hexdigits_not 0 _ (hex8_hexdigits addr)) in Hin. }
  assert (Hbl : length body = (9 + length name)%nat)
    by (unfold body; rewrite !length_app, hex8_length; simpl; lia).
  set (rest := drop (length body + 2) line).
  assert (Hover : overwrite (line_of (addr, name) ++ [0]) line = body ++ 10 :: 0 :: rest).
  { unfold overwrite, line_of, rest. cbn [fst snd]. fold body.
    replace (length ((hex8 addr ++ [32] ++ name ++ [10]) ++ [0])) with (length body + 2)%nat
      by (rewrite Hbl, !length_app, hex8_length; simpl; lia).
    unfold body. by rewrite <- !app_assoc. }
  unfold parse_line. rewrite Hover.
  assert (Hc1 : cstr (body ++ 10 :: 0 :: rest) = body ++ [10]).
  { rewrite (cons_middle 10), app_assoc. apply cstr_app.
    rewrite elem_of_app, list_elem_of_singleton. naive_solver. }
  rewrite Hc1, length_app, Hbl. cbn [length].
  destruct (Nat.eqb_spec (9 + length name + 1) 0); [lia|].
  replace (9 + length name + 1 - 1)%nat with (length body + 0)%nat by lia.
  rewrite insert_app_r. cbn [insert list_insert].
  rewrite (cstr_app body (0 :: rest) Hbody).
  assert (Hd9 : drop 9 (body ++ 0 :: 0 :: rest) = name ++ 0 :: 0 :: rest).
  { unfold body. rewrite (app_assoc (hex8 addr)), <- app_assoc. apply drop_app_length'.
    rewrite length_app, hex8_length. done. }
  rewrite Hd9. rewrite bool_decide_true by (apply elem_of_app; right; by left).
  rewrite (cstr_app name (0 :: rest) H0).
  assert (Ht8 : take 8 body = hex8 addr)
    by (unfold body; apply take_app_length'; by rewrite hex8_length).
  rewrite Ht8, strtol_hex8 by done. eexists. split; [done|].
  rewrite length_app. cbn [length]. unfold rest. rewrite length_drop, Hline, Hbl. lia.
Qed.

(** Reading a well-formed symbol file is adding its symbols in order. *)
Lemma read_syms_lines ps n line g count :
  Forall symbol_ok ps -> length line = 256%nat -> (length ps < n)%nat ->
  read_syms n (concat (map line_of ps)) line g count
  = (g' ← add_all ps g; Some (count + Z.of_nat (length ps), g')).
Proof.
  intros Hps. revert n line g count.
  induction Hps as [|p ps Hp _ IH]; intros n line g count Hline Hn.
  { cbn. destruct n; [lia|]. by rewrite Z.add_0_r. }
  destruct n as [|n]; [simpl in Hn; lia|]. cbn [map concat add_all].
  set (more := concat (map line_of ps)).
  assert (Hne : exists c r, line_of p ++ more = c :: r).
  { unfold line_of. destruct (hex8 p.1) as [|c r] eqn:E; [|by eexists _, _].
    pose proof (hex8_length p.1) as Hl. by rewrite E in Hl. }
  destruct Hne as (c & r & Hcr). rewrite Hcr. cbn [read_syms]. rewrite <- Hcr.
  assert (Hf : fgets 255 (line_of p ++ more) = (line_of p, more)).
  { destruct p as [addr name]. destruct Hp as (_ & _ & H10 & Hlen). unfold line_of. cbn [fst snd] in *.
    replace ((hex8 addr ++ [32] ++ name ++ [10]) ++ more)
      with ((hex8 addr ++ [32] ++ name) ++ 10 :: more) by (by rewrite <- !app_assoc).
    rewrite fgets_line; [by rewrite <- !app_assoc| |].
    - rewrite !elem_of_app, list_elem_of_singleton. intros [Hin|[?|?]]; try done.
      by apply (hexdigits_not 10 _ (hex8_hexdigits addr)) in Hin.
    - rewrite !length_app, hex8_length. simpl. lia. }
  rewrite Hf. destruct (parse_line_of p line Hp Hline) as (line' & -> & Hline').
  cbn [mbind option_bind]. destruct (add_symbol p.2 p.1 g) as [g1|]; [|done].
  cbn [mbind option_bind]. rewrite IH by (done || (simpl in Hn; lia)).
  destruct (add_all ps g1); [|done]. cbn. do 2 f_equal. lia.
Qed.
End SymbolFile.

(** ** The symbol table *)

(** The entry of a symbol, its name in the string table. *)
Definition sym_named (t : str_tab) (e : Elf32_Sym) (p : Z * list Z) : Prop :=
  st_value e = p.1 /\ string_at (s_buf t) (st_name e) = p.2 /\
  0 ∈ drop (Z.to_nat (st_name e)) (s_buf t) /\
  e = Sym (st_name e) p.1 0 0x12 0 1.

(** Bytes the names take. *)
Definition names_size (ps : list (Z * list Z)) : Z :=
  foldr (fun p n => Z.of_nat (length p.2) + 1 + n) 0 ps.

Section SymbolTable.

Lemma sym_named_extends t t' e p : extends t t' -> sym_named t e p -> sym_named t' e p.
Proof.
  intros Hext (Hv & Hn & Hz & He). split; [done|]. split; [by rewrite (string_at_extends t t')|].
  split; [|done]. destruct Hext as [r ->]. rewrite drop_app. apply elem_of_app. by left.
Qed.

(** The tables after a symbol. *)
Definition with_symbol (p : Z * list Z) (g : vars) : vars :=
  let s := syms g in
  set_syms (SymTab (sym s ++ [Sym (s_off (sym_strings g)) p.1 0 0x12 0 1]) (size s + 16) (limit s))
    (set_symstr (StrTab (s_buf (sym_strings g) ++ p.2 ++ [0]) (s_limit (sym_strings g))) g).

Lemma add_symbol_eq p g :
  add_symbol p.2 p.1 g =
    if (PGSIZE <? s_off (sym_strings g) + Z.of_nat (length p.2) + 1)
       || (MAX_SYM <=? Z.of_nat (length (sym (syms g))))
    then None else Some (with_symbol p g).
Proof.
  unfold add_symbol, add_string, add_sym.
  destruct (PGSIZE <? _); [done|]. cbn [mbind option_bind orb snd fst].
  by destruct (MAX_SYM <=? _).
Qed.

Lemma with_symbol_named p g : symbol_ok p ->
  sym_named (sym_strings (with_symbol p g)) (Sym (s_off (sym_strings g)) p.1 0 0x12 0 1) p.
Proof.
  intros (_ & H0 & _). unfold sym_named, string_at. cbn [with_symbol sym_strings set_syms set_symstr
    s_buf st_value st_name]. unfold s_off. rewrite Nat2Z.id, drop_app_length.
  split_and!; [done|by apply cstr_app| |done]. apply elem_of_app. right. by left.
Qed.

(** Which lists fit. *)
Lemma add_all_fits ps g :
  Z.of_nat (length (sym (syms g))) + Z.of_nat (length ps) <= MAX_SYM ->
  s_off (sym_strings g) + names_size ps <= PGSIZE ->
  add_all ps g = Some (foldl (fun g p => with_symbol p g) g ps).
Proof.
  assert (Hpos : forall l, 0 <= names_size l) by (induction l as [|q l IHl]; simpl; lia).
  revert g. induction ps as [|p ps IH]; intros g Hn Hs; [done|].
  cbn [add_all foldl names_size foldr length] in *. rewrite add_symbol_eq.
  pose proof (Hpos ps). unfold names_size in H.
  destruct (Z.ltb_spec PGSIZE (s_off (sym_strings g) + Z.of_nat (length p.2) + 1)); [lia|].
  destruct (Z.leb_spec MAX_SYM (Z.of_nat (length (sym (syms g))))); [lia|]. cbn [orb mbind option_bind].
  apply IH.
  - cbn [with_symbol set_syms syms sym]. lens.
  - unfold s_off in *. cbn [with_symbol set_syms set_symstr sym_strings s_buf]. fold (names_size ps) in *. lens.
Qed.

Lemma add_all_overflow ps g :
  MAX_SYM < Z.of_nat (length (sym (syms g))) + Z.of_nat (length ps) ->
  Z.of_nat (length (sym (syms g))) <= MAX_SYM -> add_all ps g = None.
Proof.
  revert g. induction ps as [|p ps IH]; intros g Hn Hle; [simpl in Hn; lia|].
  cbn [add_all length] in *. rewrite add_symbol_eq.
  destruct (PGSIZE <? _); [done|].
  destruct (Z.leb_spec MAX_SYM (Z.of_nat (length (sym (syms g))))); [done|].
  cbn [orb mbind option_bind]. apply IH; cbn [with_symbol set_syms syms sym]; lens.
Qed.

(** What the symbols of a list leave in the tables. *)
Lemma add_all_result ps g :
  Forall symbol_ok ps ->
  let g' := foldl (fun g p => with_symbol p g) g ps in
  exists es, sym (syms g') = sym (syms g) ++ es /\
    Forall2 (sym_named (sym_strings g')) es ps /\
    extends (sym_strings g) (sym_strings g') /\
    size (syms g') = size (syms g) + 16 * Z.of_nat (length ps) /\
    s_off (sym_strings g') = s_off (sym_strings g) + names_size ps /\
    g' = set_syms (syms g') (set_symstr (sym_strings g') g).
Proof.
  intros Hps. revert g. induction Hps as [|p ps Hp _ IH]; intros g; cbn zeta; cbn [foldl].
  { exists []. rewrite app_nil_r. split_and!; [done|constructor|reflexivity|cbn; lia|cbn; lia|by destruct g]. }
  destruct (IH (with_symbol p g)) as (es & He & Hf & Hx & Hsz & Ho & Hg).
  exists (Sym (s_off (sym_strings g)) p.1 0 0x12 0 1 :: es). split_and!.
  - rewrite He. cbn [with_symbol set_syms syms sym]. by rewrite <- app_assoc.
  - constructor; [|done]. eapply sym_named_extends; [exact Hx|]. by apply with_symbol_named.
  - etransitivity; [|exact Hx]. by eexists.
  - rewrite Hsz. cbn [with_symbol set_syms syms size length]. lia.
  - rewrite Ho. unfold s_off. cbn [with_symbol set_syms set_symstr sym_strings s_buf names_size foldr].
    fold (names_size ps). lens.
  - rewrite Hg at 1. done.
Qed.
End SymbolTable.

(** ** The file *)

(** The parts of the output before the section table. *)
Definition body_parts (g : vars) (has : bool) (shnum sh_off : Z) : list (list Z) :=
  [ehdr_bytes (mk_ehdr g shnum sh_off);
   phdr_bytes (Phdr 1 0x2000 (rombase g) (rombase g) (romsize g) (romsize g) 5 0x2000);
   replicate (Z.to_nat (PGSIZE - 52 - 32)) 0; buf g; gnu_extra; s_buf (seg_strings g)]
  ++ (if has then [take (Z.to_nat (size (syms g))) (concat (map sym_bytes (sym (syms g))));
                   s_buf (sym_strings g)] else []).

(** The section headers, each with the bytes it describes. *)
Definition section_list (g_index : Z) (g : vars) (has : bool) (n : names) : list (Elf32_Shdr * list Z) :=
  let o1 := PGSIZE + romsize g in
  let o2 := o1 + gnusize in
  let o3 := o2 + s_off (seg_strings g) in
  let o4 := o3 + size (syms g) in
  [(Shdr 0 0 0 0 0 0 0 0 0 0, []);
   (Shdr (t_index n) SHT_PROGBITS 6 (rombase g) PGSIZE (romsize g) 0 0 4 0, buf g);
   (Shdr g_index SHT_PROGBITS 0x30 0 o1 gnusize 0 0 1 1, gnu_extra);
   (Shdr (s_index n) SHT_STRTAB 0 0 o2 (s_off (seg_strings g)) 0 0 1 0, s_buf (seg_strings g))]
  ++ (if has then
        [(Shdr (sy_index n) SHT_SYMTAB 0 0 o3 (size (syms g)) 5 0 1 16,
          concat (map sym_bytes (sym (syms g))));
         (Shdr (sys_index n) SHT_STRTAB 0 0 o4 (s_off (sym_strings g)) 0 0 1 0,
          s_buf (sym_strings g))]
      else []).

Section File.

Lemma write_body_run fd has shnum sh_off g :
  write_body fd has shnum sh_off (St tt g) =
  Ok (s_off (seg_strings g), if has then size (syms g) else 0, if has then s_off (sym_strings g) else 0)
    (St tt g) (EOut (ToFile fd) <$> body_parts g has shnum sh_off).
Proof. by destruct has. Qed.

Lemma write_sections_run g_index fd has n g : exists g',
  write_sections g_index fd has (if has then 6 else 4) n
    (s_off (seg_strings g), if has then size (syms g) else 0, if has then s_off (sym_strings g) else 0)
    (St tt g) =
  Ok tt (St tt g') (EOut (ToFile fd) <$> map (fun p => shdr_bytes p.1) (section_list g_index g has n)).
Proof. destruct has; eexists; reflexivity. Qed.

(** The section name table is the same for every image. *)
Definition seg_names (has : bool) : list (list Z) :=
  [[]; chars ".shstrtab"; chars ".text"] ++ (if has then [chars ".symtab"; chars ".strtab"] else []).

Definition seg_bytes (has : bool) : list Z :=
  concat (map (fun s => s ++ [0]) (seg_names has)) ++ [0].

Lemma build_names_run has g :
  build_names has (St tt g) =
  Ok (Names 1 11 (if has then 17 else 0) (if has then 25 else 0))
    (St tt (set_seg (StrTab (seg_bytes has) PGSIZE) g)) [].
Proof. by destruct has; vm_compute. Qed.

(** The lengths of the fixed structures. *)
Lemma ehdr_length g shnum sh_off : length (ehdr_bytes (mk_ehdr g shnum sh_off)) = 52%nat.
Proof. done. Qed.

Lemma shdr_length h : length (shdr_bytes h) = 40%nat.
Proof. done. Qed.

Lemma sym_length s : length (sym_bytes s) = 16%nat.
Proof. done. Qed.

Lemma concat_length {A B} (f : A -> list B) l k :
  (forall x, length (f x) = k) -> length (concat (map f l)) = (k * length l)%nat.
Proof.
  intros Hf. induction l as [|x l IH]; [simpl; lia|]. cbn [map concat length].
  rewrite length_app, Hf, IH. lia.
Qed.

(** The pieces of a file of equal pieces behind a prefix. *)
Lemma slice_concat {A} (f : A -> list Z) pre l k (j : nat) x :
  (forall x, length (f x) = k) -> l !! j = Some x ->
  slice (length pre + k * j) k (pre ++ concat (map f l)) = f x.
Proof.
  intros Hf Hx. rewrite <- (take_drop_middle l j x Hx).
  rewrite map_app, concat_app. cbn [map concat]. rewrite app_assoc.
  apply slice_app_mid; [|by rewrite Hf].
  rewrite length_app, (concat_length f _ k) by done.
  rewrite length_take. apply lookup_lt_Some in Hx. lia.
Qed.

Lemma output_parts fd ps : output_to (ToFile fd) (EOut (ToFile fd) <$> ps) = concat ps.
Proof.
  induction ps as [|p ps IH]; [done|]. cbn [fmap list_fmap concat].
  by rewrite output_to_here, IH.
Qed.

(** The whole run of [wrap], given the state the symbol file leaves. *)
Definition wrap_output (g_index : Z) (g : vars) (has : bool) (sh_off : Z) : list Z :=
  concat (body_parts g has (if has then 6 else 4) sh_off)
  ++ concat (map (fun p => shdr_bytes p.1)
       (section_list g_index g has (Names 1 11 (if has then 17 else 0) (if has then 25 else 0)))).

Definition table_offset (g : vars) (has : bool) : Z :=
  PGSIZE + romsize g + gnusize + s_off (seg_strings g)
  + (if has then size (syms g) + s_off (sym_strings g) else 0).
End File.

Lemma slice_parts (ps : list (list Z)) (j : nat) d rest o n :
  ps !! j = Some d -> o = length (concat (take j ps)) -> n = length d ->
  slice o n (concat ps ++ rest) = d.
Proof.
  intros Hj -> ->. rewrite <- (take_drop_middle ps j d Hj) at 2.
  rewrite concat_app. cbn [concat]. rewrite <- !app_assoc.
  by apply slice_app_mid.
Qed.

(** What a state must satisfy for the file to be consistent. *)
Definition tables_ok (g : vars) (has : bool) : Prop :=
  seg_strings g = StrTab (seg_bytes has) PGSIZE /\ romsize g <= MAX_ROMSIZE /\
  size (syms g) = 16 * Z.of_nat (length (sym (syms g))) /\
  Z.of_nat (length (sym (syms g))) <= MAX_SYM /\ s_off (sym_strings g) <= PGSIZE.

Section Layout.
Context (g : vars) (has : bool) (g_index : Z) (Hok : tables_ok g has).
Let n := Names 1 11 (if has then 17 else 0) (if has then 25 else 0).
Let shnum := if has then 6 else 4.
Let out := wrap_output g_index g has (table_offset g has).

Lemma seg_length : s_off (seg_strings g) = if has then 34 else 18.
Proof. destruct Hok as [Hs _]. rewrite Hs. by destruct has. Qed.

Lemma sym_take : take (Z.to_nat (size (syms g))) (concat (map sym_bytes (sym (syms g))))
  = concat (map sym_bytes (sym (syms g))).
Proof.
  destruct Hok as (_ & _ & Hsz & _). apply take_ge. rewrite (concat_length _ _ 16) by done. lia.
Qed.

Lemma sym_bytes_length :
  Z.of_nat (length (concat (map sym_bytes (sym (syms g))))) = size (syms g).
Proof. destruct Hok as (_ & _ & Hsz & _). rewrite (concat_length _ _ 16) by done. lia. Qed.

(** Lengths of the parts. *)
Lemma parts_length (j : nat) : (3 <= j)%nat ->
  Z.of_nat (length (concat (take j (body_parts g has shnum (table_offset g has))))) =
  PGSIZE + (if decide (j <= 3)%nat then 0 else romsize g)
  + (if decide (j <= 4)%nat then 0 else gnusize)
  + (if decide (j <= 5)%nat then 0 else s_off (seg_strings g))
  + (if has then (if decide (j <= 6)%nat then 0 else size (syms g))
       + (if decide (j <= 7)%nat then 0 else s_off (sym_strings g)) else 0).
Proof.
  intros Hj. unfold body_parts. rewrite sym_take.
  assert (Hg : gnusize = Z.of_nat (length gnu_extra)) by done.
  assert (Hr : romsize g = Z.of_nat (length (buf g))) by done.
  assert (Ho : s_off (seg_strings g) = Z.of_nat (length (s_buf (seg_strings g)))) by done.
  assert (Ho2 : s_off (sym_strings g) = Z.of_nat (length (s_buf (sym_strings g)))) by done.
  pose proof sym_bytes_length as Hs.
  assert (He : length (ehdr_bytes (mk_ehdr g shnum (table_offset g has))) = 52%nat) by done.
  assert (Hp : length (phdr_bytes (Phdr 1 0x2000 (rombase g) (rombase g) (romsize g) (romsize g) 5 0x2000))
    = 32%nat) by done.
  destruct j as [|[|[|[|[|[|[|[|j]]]]]]]]; try lia; destruct has; cbn [app take concat];
    rewrite ?take_nil; cbn [concat];
    repeat (case_decide; [|try lia]); try lia; repeat (case_decide; [lia|]);
    rewrite ?length_app, ?He, ?Hp, ?length_replicate; cbn [length];
    unfold PGSIZE in *; lia.
Qed.
Lemma romsize_nonneg : 0 <= romsize g.
Proof. unfold romsize. lia. Qed.

Lemma table_offset_range : 0 <= table_offset g has < 2 ^ 32.
Proof.
  unfold table_offset. rewrite seg_length. destruct Hok as (_ & Hr & Hsz & Hn & Ho).
  pose proof romsize_nonneg. unfold s_off, PGSIZE, MAX_ROMSIZE, MAX_SYM in *.
  change gnusize with 17. destruct has; lia.
Qed.

Lemma body_length :
  Z.of_nat (length (concat (body_parts g has shnum (table_offset g has)))) = table_offset g has.
Proof.
  assert (Hl : take 8 (body_parts g has shnum (table_offset g has))
    = body_parts g has shnum (table_offset g has)) by (by destruct has).
  rewrite <- Hl, parts_length by lia. unfold table_offset.
  destruct has; repeat case_decide; lia.
Qed.

(** The data of a section is where its header says. *)
Lemma section_data (k : nat) h d :
  section_list g_index g has n !! k = Some (h, d) ->
  slice (Z.to_nat (sh_offset h)) (Z.to_nat (sh_size h)) out = d /\
  sh_size h = Z.of_nat (length d).
Proof.
  intros Hk. pose proof romsize_nonneg as Hr0.
  assert (Hpart : forall (j : nat), (3 <= j)%nat ->
    body_parts g has shnum (table_offset g has) !! j = Some d ->
    sh_offset h = Z.of_nat (length (concat (take j (body_parts g has shnum (table_offset g has))))) ->
    sh_size h = Z.of_nat (length d) ->
    slice (Z.to_nat (sh_offset h)) (Z.to_nat (sh_size h)) out = d /\ sh_size h = Z.of_nat (length d)).
  { intros j _ Hj Ho Hs. split; [|done]. unfold out, wrap_output.
    apply (slice_parts _ j); [done|by rewrite Ho, Nat2Z.id|by rewrite Hs, Nat2Z.id]. }
  unfold section_list in Hk.
  destruct k as [|[|[|[|k]]]]; cbn [app lookup list_lookup] in Hk.
  - injection Hk as <- <-. done.
  - injection Hk as <- <-. apply (Hpart 3%nat); [lia|done| |done].
    rewrite parts_length by lia. cbn [sh_offset]. repeat case_decide; try lia; destruct has; lia.
  - injection Hk as <- <-. apply (Hpart 4%nat); [lia|done| |done].
    rewrite parts_length by lia. cbn [sh_offset]. repeat case_decide; try lia; destruct has; lia.
  - injection Hk as <- <-. apply (Hpart 5%nat); [lia|done| |done].
    rewrite parts_length by lia. cbn [sh_offset]. repeat case_decide; try lia; destruct has; lia.
  - assert (Hcase : has = true \/ has = false) by (by destruct has; auto).
    destruct Hcase as [Eh|Eh]; rewrite Eh in Hk; [|done]. destruct k as [|[|k]]; [| |done];
      cbn [lookup list_lookup] in Hk; injection Hk as <- <-.
    + apply (Hpart 6%nat); [lia| | |].
      * unfold body_parts. rewrite ?Eh. cbn. by rewrite sym_take.
      * rewrite parts_length by lia. cbn [sh_offset]. rewrite ?Eh. repeat case_decide; lia.
      * cbn [sh_size]. by rewrite sym_bytes_length.
    + apply (Hpart 7%nat); [lia|by rewrite ?Eh| |done].
      rewrite parts_length by lia. cbn [sh_offset]. rewrite ?Eh. repeat case_decide; lia.
Qed.

Lemma section_header (k : nat) p :
  section_list g_index g has n !! k = Some p ->
  slice (Z.to_nat (table_offset g has) + 40 * k) 40 out = shdr_bytes p.1.
Proof.
  intros Hk. unfold out, wrap_output. fold shnum n.
  assert (Hl : length (concat (body_parts g has shnum (table_offset g has)))
    = Z.to_nat (table_offset g has)) by (pose proof body_length; lia).
  rewrite <- Hl.
  exact (slice_concat (fun p => shdr_bytes p.1) _ _ 40 k p (fun _ => eq_refl) Hk).
Qed.

Lemma header_fields :
  take 4 out = [0x7f; 69; 76; 70] /\
  le_word (slice 32 4 out) = table_offset g has /\
  le_word (slice 48 2 out) = shnum /\ le_word (slice 50 2 out) = 3 /\
  Z.of_nat (length out) = table_offset g has + 40 * shnum.
Proof.
  split; [done|]. split; [|split; [|split]].
  - change (slice 32 4 out) with (le32 (table_offset g has)). rewrite le_word_le32.
    apply u32_small, table_offset_range.
  - change (slice 48 2 out) with (le16 shnum). by unfold shnum; destruct has.
  - done.
  - unfold out, wrap_output. fold shnum n. rewrite length_app, Nat2Z.inj_add, body_length.
    rewrite (concat_length _ _ 40) by done. unfold shnum. destruct has; cbn [length app section_list]; lia.
Qed.
End Layout.

(** ** Loading the symbols *)

(** The state once the null entry is in the table. *)
Definition null_entry : Elf32_Sym := Sym 0 0 0 0 0 SHN_UNDEF.
Definition started (g : vars) : vars :=
  set_syms (SymTab [null_entry] 16 0) (set_symstr init_string g).

Definition padded (t : str_tab) : str_tab :=
  if s_off t mod 2 =? 1 then StrTab (s_buf t ++ [0]) (s_limit t) else t.

Definition loaded (ps : list (Z * list Z)) (g : vars) : vars :=
  let g := foldl (fun g p => with_symbol p g) (started g) ps in
  set_symstr (padded (sym_strings g)) g.

Section Load.
Context (fs : list Z -> option (list Z)) (junk_line : list Z) (Hjunk : length junk_line = 256%nat).
Context (ps : list (Z * list Z)) (Hps : Forall symbol_ok ps).

Lemma finish_padded t : s_off t <= PGSIZE -> finish_string t = Some (padded t).
Proof.
  intros Ht. unfold finish_string, padded. destruct (Z.eqb_spec (s_off t mod 2) 1) as [Ho|]; [|done].
  destruct (Z.ltb_spec PGSIZE (s_off t + 1)) as [Hlt|]; [|done].
  assert (s_off t = 8192) as Hs by (unfold PGSIZE in *; lia). by rewrite Hs in Ho.
Qed.

Lemma lines_length : (length ps < S (length (concat (map line_of ps))))%nat.
Proof.
  clear -ps. induction ps as [|p qs IH]; simpl; [lia|].
  rewrite length_app. unfold line_of at 1. rewrite !length_app, hex8_length. simpl. lia.
Qed.

Lemma load_syms_run elf f g :
  after_creat fs elf f = Some (concat (map line_of ps)) ->
  (length ps <= 399)%nat -> names_size ps <= PGSIZE ->
  load_syms fs junk_line elf f (St tt g) = Ok (Z.of_nat (length ps)) (St tt (loaded ps g)) [].
Proof.
  intros Hf Hn Hs. unfold load_syms. rewrite Hf.
  erewrite bind_quiet by reflexivity.
  rewrite (bind_quiet (attempt (init_symbol g)) _ _ (started g) (St tt g)) by reflexivity.
  rewrite (read_syms_lines ps _ junk_line (started g) 0 Hps Hjunk lines_length).
  rewrite add_all_fits;
    [|change (1 + Z.of_nat (length ps) <= 400); lia|exact Hs].
  cbn [mbind option_bind]. erewrite bind_quiet by reflexivity. cbn [snd fst].
  destruct (add_all_result ps (started g) Hps) as (es & _ & _ & _ & _ & Ho & _).
  unfold finish_symbol. rewrite finish_padded by (rewrite Ho; exact Hs).
  cbn [mbind option_bind]. erewrite bind_quiet by reflexivity. by erewrite bind_quiet by reflexivity.
Qed.

Lemma load_syms_overflow elf f g :
  after_creat fs elf f = Some (concat (map line_of ps)) -> (400 <= length ps)%nat ->
  load_syms fs junk_line elf f (St tt g) = Stop Undef (St tt g) [].
Proof.
  intros Hf Hn. unfold load_syms. rewrite Hf.
  erewrite bind_quiet by reflexivity.
  rewrite (bind_quiet (attempt (init_symbol g)) _ _ (started g) (St tt g)) by reflexivity.
  rewrite (read_syms_lines ps _ junk_line (started g) 0 Hps Hjunk lines_length).
  rewrite add_all_overflow; [done| |].
  - cbn [started syms set_syms sym length]. unfold MAX_SYM. lia.
  - by cbn [started syms set_syms sym length].
Qed.

(** The tables after loading. *)
Lemma loaded_tables g :
  (length ps <= 399)%nat -> names_size ps <= PGSIZE ->
  let g' := loaded ps g in
  (exists es, sym (syms g') = null_entry :: es /\ Forall2 (sym_named (sym_strings g')) es ps) /\
  size (syms g') = 16 * Z.of_nat (length (sym (syms g'))) /\
  Z.of_nat (length (sym (syms g'))) <= MAX_SYM /\
  s_off (sym_strings g') <= PGSIZE /\ s_off (sym_strings g') mod 2 = 0 /\
  g' = set_syms (syms g') (set_symstr (sym_strings g') g).
Proof.
  intros Hn Hs. destruct (add_all_result ps (started g) Hps) as (es & He & Hf & _ & Hsz & Ho & Hg).
  set (g1 := foldl (fun g p => with_symbol p g) (started g) ps) in *.
  assert (Hfit : s_off (sym_strings g1) <= PGSIZE) by (rewrite Ho; exact Hs).
  pose proof (finish_padded (sym_strings g1) Hfit) as Hfin.
  assert (Hlen : length es = length ps) by (by eapply Forall2_length).
  unfold loaded. fold g1. cbn zeta. cbn [set_symstr syms sym_strings].
  assert (Hsym : sym (syms g1) = null_entry :: es) by (rewrite He; done).
  split; [|split; [|split; [|split; [|split]]]].
  - exists es. split; [done|]. eapply Forall2_impl; [exact Hf|].
    intros e p. apply sym_named_extends. by apply finish_string_extends.
  - rewrite Hsz, Hsym. cbn [length started syms set_syms size]. lia.
  - rewrite Hsym. cbn [length]. unfold MAX_SYM. lia.
  - unfold padded. destruct (Z.eqb_spec (s_off (sym_strings g1) mod 2) 1) as [Hodd|]; [|done].
    unfold s_off in *. cbn [s_buf]. rewrite length_app, Nat2Z.inj_add. cbn [length].
    assert (Z.of_nat (length (s_buf (sym_strings g1))) <> 8192) by (intros E; by rewrite E in Hodd).
    unfold PGSIZE in *. lia.
  - by apply finish_string_even in Hfin.
  - generalize (padded (sym_strings g1)). intros t. clearbody g1. by rewrite Hg.
Qed.
End Load.

(** ** Results *)

(** [out] is an ELF file with the sections [secs]: the header says where the
    section table is and how many entries it has, the table holds the section
    headers and ends the file, and each header's offset and size select the
    section's bytes. *)
Definition elf_ok (out : list Z) (secs : list (Elf32_Shdr * list Z)) : Prop :=
  let shoff := Z.to_nat (le_word (slice 32 4 out)) in
  take 4 out = [0x7f; 69; 76; 70] /\
  le_word (slice 48 2 out) = Z.of_nat (length secs) /\
  le_word (slice 50 2 out) = 3 /\
  length out = (shoff + 40 * length secs)%nat /\
  forall (k : nat) h d, secs !! k = Some (h, d) ->
    slice (shoff + 40 * k) 40 out = shdr_bytes h /\
    slice (Z.to_nat (sh_offset h)) (Z.to_nat (sh_size h)) out = d /\
    sh_size h = Z.of_nat (length d).

Lemma layout_ok g has g_index : tables_ok g has ->
  elf_ok (wrap_output g_index g has (table_offset g has))
    (section_list g_index g has (Names 1 11 (if has then 17 else 0) (if has then 25 else 0))).
Proof.
  intros Hok. destruct (header_fields g has g_index Hok) as (Hm & Hsh & Hn & Hi & Hl).
  assert (Hsecs : forall n, length (section_list g_index g has n) = if has then 6%nat else 4%nat)
    by (by destruct has).
  pose proof (table_offset_range g has g_index Hok) as Hr.
  unfold elf_ok. cbn zeta. rewrite Hsh, Hn, Hi. split_and!; try done.
  - rewrite Hsecs. by destruct has.
  - rewrite Hsecs. destruct has; lia.
  - intros k h d Hk. split; [exact (section_header g has g_index Hok k (h, d) Hk)|].
    exact (section_data g has g_index Hok k h d Hk).
Qed.

Section Wrap.
Context (fs : list Z -> option (list Z)) (creatable : list Z -> bool).
Context (junk_line : list Z) (g_index : Z) (Hjunk : length junk_line = 256%nat).
Context (rom elf content : list Z) (g : vars).
Context (Hrom : fs rom = Some content) (Hne : rom <> elf) (Hcreat : creatable elf = true).

(** The symbols of the run: none, or those of a symbol file. *)
Context (symf : option (list Z)) (ps : list (Z * list Z)).
Definition symbols_given : Prop :=
  match symf with
  | Some f => after_creat fs elf f = Some (concat (map line_of ps)) /\ Forall symbol_ok ps /\
      (length ps <= 399)%nat /\ names_size ps <= PGSIZE
  | None => ps = []
  end.
Definition has : bool := bool_decide (is_Some symf).

(** The state the file is written from. *)
Definition final : vars :=
  let g := set_buf (take (Z.to_nat MAX_ROMSIZE) content) g in
  set_seg (StrTab (seg_bytes has) PGSIZE)
    (match symf with Some _ => loaded ps g | None => g end).

Lemma wrap_run : symbols_given ->
  ends (wrap fs creatable junk_line g_index rom elf symf) (St tt g) (Exit 0) (fun _ t =>
    output_to (ToFile elf) t = wrap_output g_index final has (table_offset final has)).
Proof.
  intros Hsym. unfold wrap, say, perror. apply ends_bind. go. rewrite Hrom, Hcreat. cbn [negb].
  unfold after_creat at 1. rewrite decide_False by done. rewrite Hrom. cbn [attempt].
  apply ends_bind. go. unfold modify. apply ends_bind. go. apply ends_bind. go. apply ends_bind. go.
  set (g1 := set_buf (take (Z.to_nat MAX_ROMSIZE) content) g).
  assert (Hload : exists t,
    (match symf with
     | Some f => nsy <-- load_syms fs junk_line elf f ;;
                 output Stdout (Printf.itext nsy ++ chars " symbols loaded\n")
     | None => ret tt
     end) (St tt g1) = Ok tt (St tt (match symf with Some _ => loaded ps g1 | None => g1 end)) t /\
    output_to (ToFile elf) t = []).
  { unfold symbols_given in Hsym. destruct symf as [f|].
    - destruct Hsym as (Hf & Hps & Hn & Hs).
      erewrite bind_quiet by (by apply load_syms_run). by eexists.
    - by eexists. }
  destruct Hload as (tl & Hload & Htl). apply ends_bind. unfold returns. rewrite Hload.
  fold has. apply ends_bind. unfold returns. rewrite build_names_run.
  fold g1. fold has. apply ends_bind. go.
  change (set_seg (StrTab (seg_bytes has) PGSIZE) (match symf with Some _ => loaded ps g1 | None => g1 end))
    with final.
  fold (table_offset final has). apply ends_bind. unfold returns. rewrite write_body_run.
  apply ends_bind. unfold returns.
  destruct (write_sections_run g_index elf has
    (Names 1 11 (if has then 17 else 0) (if has then 25 else 0)) final) as [g' ->].
  split; [done|]. autorewrite with trace. rewrite Htl, !output_parts. cbn [app].
  by rewrite app_nil_r.
Qed.

(** The memory of a fresh run: only the two addresses may have been set. *)
Context (Hfresh : g = set_entry (entry g) (set_rombase (rombase g) vars0)).

Lemma final_ok : symbols_given -> tables_ok final has.
Proof.
  intros Hsym. assert (Hrom64 : forall x : list Z, Z.of_nat (length (take (Z.to_nat MAX_ROMSIZE) x)) <= MAX_ROMSIZE).
  { intros x. rewrite length_take. unfold MAX_ROMSIZE. lia. }
  unfold tables_ok, final, symbols_given, has in *. destruct symf as [f|].
  - destruct Hsym as (_ & Hps & Hn & Hs).
    destruct (loaded_tables junk_line Hjunk ps Hps (set_buf (take (Z.to_nat MAX_ROMSIZE) content) g) Hn Hs)
      as (_ & H1 & H2 & H3 & _ & Hfr).
    split; [done|]. split; [|done]. unfold romsize. cbn [set_seg buf]. rewrite Hfr. apply Hrom64.
  - split; [done|]. split; [apply Hrom64|]. by rewrite Hfresh.
Qed.

(** What the run leaves alone, and the symbols it loaded. *)
Lemma final_facts : symbols_given ->
  rombase final = rombase g /\ entry final = entry g /\
  buf final = take (Z.to_nat MAX_ROMSIZE) content /\ seg_strings final = StrTab (seg_bytes has) PGSIZE /\
  (has = true -> exists es, sym (syms final) = null_entry :: es /\
     Forall2 (sym_named (sym_strings final)) es ps).
Proof.
  intros Hsym. unfold final, symbols_given, has in *. destruct symf as [f|]; [|by split_and!].
  destruct Hsym as (_ & Hps & Hn & Hs).
  destruct (loaded_tables junk_line Hjunk ps Hps (set_buf (take (Z.to_nat MAX_ROMSIZE) content) g) Hn Hs)
    as (Hes & _ & _ & _ & _ & Hfr).
  set (g' := loaded ps _) in *.
  assert (Hr : rombase g' = rombase g) by (by rewrite Hfr).
  assert (He : entry g' = entry g) by (by rewrite Hfr).
  assert (Hb : buf g' = take (Z.to_nat MAX_ROMSIZE) content) by (by rewrite Hfr).
  by split_and!.
Qed.
End Wrap.

(** The names of the sections; the third, which holds the compiler signature,
    has whatever name the uninitialised index selects. *)
Definition section_names : list (list Z) :=
  [[]; chars ".text"; []; chars ".shstrtab"; chars ".symtab"; chars ".strtab"].

Lemma section_names_ok g_index g has (k : nat) p :
  section_list g_index g has (Names 1 11 (if has then 17 else 0) (if has then 25 else 0)) !! k = Some p ->
  k <> 2%nat -> Some (string_at (seg_bytes has) (sh_name p.1)) = section_names !! k.
Proof.
  intros Hk Hne. destruct has; destruct k as [|[|[|[|[|[|k]]]]]]; cbn [section_list app lookup list_lookup] in Hk;
    try done; injection Hk as <-; by vm_compute.
Qed.

(** The options change the two addresses only and write to the standard output. *)
Lemma options_run argv g0 (s : st unit vars) :
  match options argv g0 s with
  | Ok p s' t => s' = s /\ p.1 = set_entry (entry p.1) (set_rombase (rombase p.1) g0) /\
      forall n, output_to (ToFile n) t = []
  | Stop w s' t => w = Exit 1 /\ forall n, output_to (ToFile n) t = []
  end.
Proof.
  revert g0. induction argv as [|a argv IH]; intros g0; cbn [options].
  { split; [done|]. split; [by destruct g0|done]. }
  destruct (default 0 (head a) =? 45); [|by destruct g0].
  destruct (_ =? 98); [|destruct (_ =? 101); [|destruct (decide _)]].
  - unfold bind, say, output. specialize (IH (set_rombase (u32 (strtol 16 (tail (tail a)))) g0)).
    destruct (options argv _ s) as [p s' t|w s' t].
    + destruct IH as (-> & Hp & Ht). split; [done|]. split; [by rewrite Hp|].
      intros n. by rewrite output_to_app, Ht.
    + destruct IH as [-> Ht]. split; [done|]. intros n. by rewrite output_to_app, Ht.
  - unfold bind, say, output. specialize (IH (set_entry (u32 (strtol 16 (tail (tail a)))) g0)).
    destruct (options argv _ s) as [p s' t|w s' t].
    + destruct IH as (-> & Hp & Ht). split; [done|]. split; [by rewrite Hp|].
      intros n. by rewrite output_to_app, Ht.
    + destruct IH as [-> Ht]. split; [done|]. intros n. by rewrite output_to_app, Ht.
  - by unfold bind, say, output, halt.
  - apply IH.
Qed.

(** The arguments [argv] ask for wrapping [rom] into [elf], with the symbols
    [ps] read from the file [symf] if there is one. *)
Definition asks (fs : list Z -> option (list Z)) (argv : list (list Z)) (g : vars)
    (rom elf : list Z) (symf : option (list Z)) (ps : list (Z * list Z)) : Prop :=
  (exists t0, options argv vars0 (St tt vars0)
     = Ok (g, [rom; elf] ++ option_list symf) (St tt vars0) t0) /\
  symbols_given fs elf symf ps.

(** C12: a successful run writes an ELF file: its header leads to a section table
    at the end of the file, and the table's entries select, in order, nothing,
    the ROM image (at most 64 KiB of it), the compiler signature, the section
    names, and with a symbol file the symbol table and the symbol names; every
    section has its name in the table of names (the signature's apart), the
    image is at the address given, and the entry point is the one given. *)
Theorem wrap_writes_elf fs creatable junk_line g_index argv0 argv g rom elf content symf ps :
  length junk_line = 256%nat -> asks fs argv g rom elf symf ps ->
  fs rom = Some content -> rom <> elf -> creatable elf = true ->
  ends (main fs creatable junk_line g_index (argv0 :: argv)) (St tt vars0) (Exit 0) (fun _ t =>
    let out := output_to (ToFile elf) t in
    let has := bool_decide (is_Some symf) in
    exists secs syms strtab, elf_ok out secs /\
      map snd secs = [[]; take (Z.to_nat MAX_ROMSIZE) content; gnu_extra; seg_bytes has]
        ++ (if has then [concat (map sym_bytes syms); strtab] else []) /\
      (has = true -> exists es, syms = null_entry :: es /\
         Forall2 (fun e p => st_value e = p.1 /\ string_at strtab (st_name e) = p.2) es ps) /\
      (forall (k : nat) p, secs !! k = Some p -> k <> 2%nat ->
         Some (string_at (seg_bytes has) (sh_name p.1)) = section_names !! k) /\
      sh_addr <$> (fst <$> secs !! 1%nat) = Some (rombase g) /\
      le_word (slice 24 4 out) = u32 (entry g)).
Proof.
  intros Hjunk [[t0 Hopt] Hsym] Hrom Hne Hcreat.
  pose proof (options_run argv vars0 (St tt vars0)) as Hopts. rewrite Hopt in Hopts.
  destruct Hopts as (_ & Hfresh & Hout0). cbn [fst] in Hfresh.
  unfold main. apply ends_bind. go. apply ends_bind. unfold returns. rewrite Hopt. cbn [fst snd].
  apply ends_bind. go.
  assert (Hw : ends (wrap fs creatable junk_line g_index rom elf symf) (St tt g) (Exit 0) (fun _ t =>
    output_to (ToFile elf) t
    = wrap_output g_index (final content g symf ps) (has symf)
        (table_offset (final content g symf ps) (has symf))))
    by (by apply (wrap_run fs)).
  assert (Hok : tables_ok (final content g symf ps) (has symf)) by (by eapply (final_ok fs)).
  destruct (final_facts fs junk_line Hjunk elf content g symf ps Hsym) as (Hr & He & Hb & Hs & Hes).
  set (g' := final content g symf ps) in *.
  apply (ends_weaken _ _ _ (fun _ t => output_to (ToFile elf) t
    = wrap_output g_index g' (has symf) (table_offset g' (has symf)))).
  { clear -Hw. destruct symf; exact Hw. }
  cbn beta zeta. intros _ t Ht.
  autorewrite with trace. rewrite Hout0. cbn [app]. rewrite Ht. fold (has symf).
  eexists _, (sym (syms g')), (s_buf (sym_strings g')). split; [apply layout_ok, Hok|].
  split; [|split; [|split; [|split]]].
  - unfold section_list. destruct (has symf); cbn [map app snd]; by rewrite Hb, Hs.
  - intros Hhas. destruct (Hes Hhas) as (es & Hsy & Hf). exists es. split; [done|].
    eapply Forall2_impl; [exact Hf|]. by intros e p (H1 & H2 & _).
  - apply section_names_ok.
  - by rewrite <- Hr.
  - rewrite <- He. change (slice 24 4 _) with (le32 (entry g')). apply le_word_le32.
Qed.

(** A ROM of three bytes and a file with two symbols. *)
Definition demo_syms : list (Z * list Z) := [(0xffff0000, chars "reset"); (0xffff0040, chars "main")].
Definition demo_fs (p : list Z) : option (list Z) :=
  if decide (p = chars "rom") then Some [1; 2; 3]
  else if decide (p = chars "syms") then Some (concat (map line_of demo_syms)) else None.
Definition demo_argv : list (list Z) := [chars "-bffff0000"; chars "rom"; chars "elf"; chars "syms"].

Lemma demo_syms_ok : Forall symbol_ok demo_syms.
Proof.
  repeat constructor; try (by vm_compute); try (by apply (bool_decide_unpack _); vm_compute).
Qed.

Lemma wrap_writes_elf_witness :
  ends (main demo_fs (fun _ => true) (replicate 256 7) 99 (chars "wrap" :: demo_argv)) (St tt vars0) (Exit 0)
    (fun _ t =>
    let out := output_to (ToFile (chars "elf")) t in
    let has := bool_decide (is_Some (Some (chars "syms"))) in
    exists secs syms strtab, elf_ok out secs /\
      map snd secs = [[]; take (Z.to_nat MAX_ROMSIZE) [1; 2; 3]; gnu_extra; seg_bytes has]
        ++ (if has then [concat (map sym_bytes syms); strtab] else []) /\
      (has = true -> exists es, syms = null_entry :: es /\
         Forall2 (fun e p => st_value e = p.1 /\ string_at strtab (st_name e) = p.2) es demo_syms) /\
      (forall (k : nat) p, secs !! k = Some p -> k <> 2%nat ->
         Some (string_at (seg_bytes has) (sh_name p.1)) = section_names !! k) /\
      sh_addr <$> (fst <$> secs !! 1%nat) = Some (rombase (set_rombase 0xffff0000 vars0)) /\
      le_word (slice 24 4 out) = u32 (entry (set_rombase 0xffff0000 vars0))).
Proof.
  refine (wrap_writes_elf demo_fs (fun _ => true) (replicate 256 7) 99 (chars "wrap") demo_argv
    (set_rombase 0xffff0000 vars0) (chars "rom") (chars "elf") [1; 2; 3] (Some (chars "syms")) demo_syms
    _ _ _ _ _); [done| |done|done|done].
  split; [eexists; vm_compute; reflexivity|]. split; [vm_compute; reflexivity|]. split; [exact demo_syms_ok|].
  split; [simpl; lia|by vm_compute].
Defined.

(** The symbol array is never checked against its size: with a well-formed
    symbol file of 400 lines or more the entry after the 399th symbol is stored
    beyond the array (the first entry is the null one). *)
Theorem symbols_overflow fs junk_line elf f ps g :
  length junk_line = 256%nat -> Forall symbol_ok ps ->
  after_creat fs elf f = Some (concat (map line_of ps)) -> (400 <= length ps)%nat ->
  load_syms fs junk_line elf f (St tt g) = Stop Undef (St tt g) [].
Proof. intros Hj Hps Hf Hn. by apply (load_syms_overflow fs junk_line Hj ps Hps elf f g). Qed.

(** Four hundred symbols. *)
Definition many_syms : list (Z * list Z) := replicate 400 (0x100, chars "f").

Lemma symbols_overflow_witness :
  load_syms (fun _ => Some (concat (map line_of many_syms))) (replicate 256 0) (chars "elf") (chars "syms")
    (St tt vars0) = Stop Undef (St tt vars0) [].
Proof.
  refine (symbols_overflow (fun _ => Some (concat (map line_of many_syms))) (replicate 256 0)
    (chars "elf") (chars "syms") many_syms vars0 _ _ _ _); [done| |done|].
  - apply Forall_replicate. repeat constructor; try (by vm_compute); try (by apply (bool_decide_unpack _); vm_compute).
  - unfold many_syms. rewrite length_replicate. lia.
Defined.
