(* ===== verification/Bingen.v ===== *)
(** The boot image generator of the board
    (src/U-Boot/tools/nexell/BOOT_BINGEN.c, BOOT_BINGEN.h): it reads a header
    (NSIH) written as hexadecimal text, puts it in front of an image, fills in
    sizes, addresses and check sums and writes the result.

    A heap object is the list of its bytes, an access outside is [None].  The
    files are a map from names to contents; whether a file can be written and what
    [malloc] can give are parameters, and so is the sequence of options [getopt]
    finds.  Messages leave no trace. *)

From S2P Require Import Prelude.
From S2P Require Host Printf.

(** ** BOOT_BINGEN.h *)

Definition HEADER_ID : Z :=
  Z.lor (Z.lor (Z.shiftl 78 0) (Z.shiftl 83 8)) (Z.lor (Z.shiftl 73 16) (Z.shiftl 72 24)).
Definition POLY : Z := 0x04C11DB7.
Definition NSIH_SIZE : Z := 0x200.
Definition CRCSIZE : Z := 4.
Definition ROMBOOT_STACK_SIZE : Z := 4 * 1024.
Definition NXP4330_SRAM_SIZE : Z := 16 * 1024.
Definition NXP5430_SRAM_SIZE : Z := 64 * 1024.
Definition S5P4418_SRAM_SIZE : Z := 32 * 1024.
Definition CHKSTRIDE : Z := 8.

(** [struct NX_SecondBootInfo]: the offsets of the fields that are set. *)
Definition DEVICEADDR : Z := 0x40.
Definition LOADSIZE : Z := 0x44.
Definition LOADADDR : Z := 0x48.
Definition LAUNCHADDR : Z := 0x4C.
Definition DBI_PortNumber : Z := 0x50.
Definition DBI_CRC32 : Z := 0x58.
Definition SIGNATURE : Z := 0x1FC.

(** ** Check sums *)

Fixpoint fcs_steps (n : nat) (fcs : Z) : Z :=
  match n with
  | O => fcs
  | S n => fcs_steps n (if negb (Z.land fcs 1 =? 0) then Z.lxor (Z.shiftr fcs 1) POLY else Z.shiftr fcs 1)
  end.

Definition iget_fcs (fcs data : Z) : Z := fcs_steps 32 (Z.lxor fcs data).

Definition get_fcs (fcs data : Z) : Z := fcs_steps 8 (Z.lxor fcs data).

(** [__icalc_crc] looks at every eighth word. *)
Fixpoint icalc_loop (n : nat) (crc : Z) (addr : list Z) : option Z :=
  match n with
  | O => Some crc
  | S n =>
      _ ← addr !! 3%nat;
      icalc_loop n (iget_fcs crc (le_word (take 4 addr))) (drop (Z.to_nat (4 * CHKSTRIDE)) addr)
  end.

Definition __icalc_crc (addr : list Z) (len : Z) : option Z :=
  let chkcnt := (len + 3) / 4 in
  icalc_loop (Z.to_nat ((chkcnt + CHKSTRIDE - 1) / CHKSTRIDE)) 0 addr.

(** [for (i = 0; len > i; i++)] over the bytes. *)
Fixpoint calc_loop (n : nat) (crc : Z) (c : list Z) : option Z :=
  match n with
  | O => Some crc
  | S n => match c with [] => None | x :: c => calc_loop n (get_fcs crc x) c end
  end.

Definition __calc_crc (addr : list Z) (len : Z) : option Z := calc_loop (Z.to_nat len) 0 addr.

(** ** Text *)

Definition toupper (c : Z) : Z := if (97 <=? c) && (c <=? 122) then c - 32 else c.
Definition tolower (c : Z) : Z := if (65 <=? c) && (c <=? 90) then c + 32 else c.

Definition to_upper (string : list Z) : list Z := map toupper string.
Definition to_lower (string : list Z) : list Z := map tolower string.

(** The value of a digit, by the three ranges the code tests. *)
Definition hex_value (ch : Z) : option Z :=
  if (48 <=? ch) && (ch <=? 57) then Some (ch - 48)
  else if (97 <=? ch) && (ch <=? 102) then Some (ch - 97 + 10)
  else if (65 <=? ch) && (ch <=? 70) then Some (ch - 65 + 10)
  else None.

(** Other characters are skipped. *)
Fixpoint hexa_loop (string : list Z) (result : Z) : Z :=
  match string with
  | [] => result
  | ch :: string =>
      hexa_loop string (match hex_value ch with Some d => u32 (result * 16 + d) | None => result end)
  end.

Definition hexa_toint (string : list Z) : Z := hexa_loop string 0.

(** ** The header *)

(** What [process_nsih] keeps between characters. *)
Record nsih := mkNsih {
  pOutData : list Z;
  bytesize : Z;
  writeval : Z;
  writesize : Z;
  skipline : bool;
}.

(** [pOutData[bytesize++] = writeval & 0xFF; writeval >>= 8;] *)
Fixpoint put_bytes (n : nat) (out : list Z) (bytesize writeval : Z) : option (list Z * Z * Z) :=
  match n with
  | O => Some (out, bytesize, writeval)
  | S n =>
      if (0 <=? bytesize) && (bytesize <? Z.of_nat (length out)) then
        put_bytes n (<[Z.to_nat bytesize := Z.land writeval 0xFF]> out) (bytesize + 1) (Z.shiftr writeval 8)
      else None
  end.

(** One character; the count of bits is an [int]. *)
Definition nsih_char (ch : Z) (s : nsih) : option nsih :=
  s ← (if skipline s then Some s else
    match hex_value ch with
    | Some d =>
        if writesize s + 4 <=? 2 ^ 31 - 1
        then Some (mkNsih (pOutData s) (bytesize s) (u32 (writeval s * 16 + d)) (writesize s + 4) false)
        else None
    | None =>
        '(out, bs, v) ← (if (writesize s =? 8) || (writesize s =? 16) || (writesize s =? 32)
          then put_bytes (Z.to_nat (writesize s / 8)) (pOutData s) (bytesize s) (writeval s)
          else Some (pOutData s, bytesize s, writeval s));
        Some (mkNsih out bs v 0 true)
    end);
  if ch =? 10 then Some (mkNsih (pOutData s) (bytesize s) 0 (writesize s) false) else Some s.

Fixpoint nsih_loop (text : list Z) (s : nsih) : option nsih :=
  match text with
  | [] => Some s
  | ch :: text => s ← nsih_char ch s; nsih_loop text s
  end.

(** [feof] becomes true only when the end has been read: the value [EOF], as a
    [char], goes through the loop too.  A file that is missing gives 0. *)
Definition process_nsih (file : option (list Z)) (out : list Z) : option (Z * list Z) :=
  match file with
  | None => Some (0, out)
  | Some text =>
      s ← nsih_loop (text ++ [255]) (mkNsih out 0 0 0 false);
      Some (bytesize s, pOutData s)
  end.

(** ** The image *)

(** The options. *)
Record config := mkConfig {
  cpu_name : list Z;
  option_name : list Z;
  nsih_name : list Z;
  input_name : list Z;
  output_name : list Z;
  g_device_addr : Z;
  g_device_portnum : Z;
  loaded_addr : Z;
  launch_addr : Z;
}.

(** A store into the buffer. *)
Definition put (off : Z) (bs : list Z) (buffer : list Z) : option (list Z) :=
  if off + Z.of_nat (length bs) <=? Z.of_nat (length buffer)
  then Some (list_inserts (Z.to_nat off) bs buffer) else None.

(** A field is set unless the option has its default, -1. *)
Definition put_option (v : Z) (off : Z) (bs : list Z) (buffer : list Z) : option (list Z) :=
  if negb (v =? u32 (-1)) then put off bs buffer else Some buffer.

Definition nsih_user_config (g : config) (input_size : Z) (buffer : list Z) : option (list Z) :=
  buffer ← put_option (g_device_portnum g) DBI_PortNumber [u8 (g_device_portnum g)] buffer;
  buffer ← put_option (g_device_addr g) DEVICEADDR (le32 (g_device_addr g)) buffer;
  buffer ← put LOADSIZE (le32 input_size) buffer;
  buffer ← put_option (loaded_addr g) LOADADDR (le32 (loaded_addr g)) buffer;
  buffer ← put_option (launch_addr g) LAUNCHADDR (le32 (launch_addr g)) buffer;
  buffer ← put SIGNATURE (le32 HEADER_ID) buffer;
  crc ← __calc_crc (drop (Z.to_nat NSIH_SIZE) buffer) (s32 input_size);
  buffer ← put DBI_CRC32 (le32 crc) buffer;
  if u32 (input_size + NSIH_SIZE) <=? NXP4330_SRAM_SIZE - 16 then
    iCrc ← __calc_crc buffer (NXP4330_SRAM_SIZE - 16);
    put (NXP4330_SRAM_SIZE - 16) (le32 iCrc) buffer
  else Some buffer.

(** The size of the output, or the failure. *)
Definition output_size_calcurate (g : config) (input_size : Z) : option Z :=
  out_size ← (if bool_decide (option_name g = chars "2ndboot") then
      if bool_decide (cpu_name g = chars "NXP4330") then
        if NXP4330_SRAM_SIZE - NSIH_SIZE <? input_size then None else Some NXP4330_SRAM_SIZE
      else if bool_decide (cpu_name g = chars "NXP5430") || bool_decide (cpu_name g = chars "S5P6818") then
        let out_size := u32 (input_size + NSIH_SIZE) in
        if NXP5430_SRAM_SIZE - ROMBOOT_STACK_SIZE <? out_size then None else Some out_size
      else if bool_decide (cpu_name g = chars "S5P4418") then
        let out_size := u32 (input_size + NSIH_SIZE) in
        if S5P4418_SRAM_SIZE - ROMBOOT_STACK_SIZE <? out_size then None
        else if out_size <? NXP4330_SRAM_SIZE then Some NXP4330_SRAM_SIZE else Some out_size
      else Some 0
    else if bool_decide (option_name g = chars "3rdboot") then Some (u32 (input_size + NSIH_SIZE))
    else Some 0);
  if out_size =? 0 then None
  else Some (if out_size <=? NXP4330_SRAM_SIZE - 16 then NXP4330_SRAM_SIZE else out_size).

Abbreviation files := (gmap (list Z) (list Z)).

Section Run.
Context (writable : list Z -> bool) (malloc : Z -> bool).

(** The return value and the files.  The output is created, and emptied, before
    anything is read; a null pointer from [malloc] is used. *)
Definition boot_bingen (g : config) (fs : files) : option (Z * files) :=
  let present := bool_decide (is_Some (fs !! input_name g)) in
  let fs := if writable (output_name g) then <[output_name g := []]> fs else fs in
  if negb present then Some (-1, fs) else
  if negb (writable (output_name g)) then Some (-1, fs) else
  content ← fs !! input_name g;
  let input_size := u32 (Z.of_nat (length content)) in
  match output_size_calcurate g input_size with
  | None => Some (-1, fs)
  | Some output_size =>
      if negb (malloc output_size) then None else
      '(n, buffer) ← process_nsih (fs !! nsih_name g) (replicate (Z.to_nat output_size) 0);
      if negb (n =? NSIH_SIZE) then Some (-1, fs) else
      buffer ← put NSIH_SIZE (take (Z.to_nat input_size) content) buffer;
      buffer ← nsih_user_config g input_size buffer;
      Some (0, <[output_name g := buffer]> fs)
  end.

(** The check of the header before: what it finds is printed and ignored.  A null
    pointer has no byte that can be written. *)
Definition nsih_parsing (g : config) (fs : files) : option (list Z) :=
  '(_, buf) ← process_nsih (fs !! nsih_name g)
    (if malloc NSIH_SIZE then replicate (Z.to_nat NSIH_SIZE) 0 else []);
  Some buf.

(** [strtoull(optarg, NULL, 0)], stored in a [uint32_t]. *)
Definition strtoull (s : list Z) : Z :=
  let s := Host.skip_space s in
  let '(neg, s) :=
    match s with
    | c :: r => if c =? 45 then (true, r) else if c =? 43 then (false, r) else (false, s)
    | [] => (false, [])
    end in
  let v :=
    match s with
    | 48 :: _ => if bool_decide (Host.skip_0x 16 s = s) then Host.digits 8 0 s else Host.digits 16 0 (Host.skip_0x 16 s)
    | _ => Host.digits 10 0 s
    end in
  if 2 ^ 64 <=? v then 2 ^ 64 - 1 else if neg : bool then u64 (- v) else v.

(** An option [getopt] has found; [None] is the end of the program. *)
Definition option_step (opt : Z) (optarg : list Z) (g : config) : option config :=
  let '(mkConfig c t n i o a u l e) := g in
  if opt =? 104 then None
  else if opt =? 99 then Some (mkConfig (to_upper optarg) t n i o a u l e)
  else if opt =? 116 then Some (mkConfig c (to_lower optarg) n i o a u l e)
  else if opt =? 110 then Some (mkConfig c t optarg i o a u l e)
  else if opt =? 105 then Some (mkConfig c t n optarg o a u l e)
  else if opt =? 111 then Some (mkConfig c t n i optarg a u l e)
  else if opt =? 108 then Some (mkConfig c t n i o a u (u32 (strtoull optarg)) e)
  else if opt =? 101 then Some (mkConfig c t n i o a u l (u32 (strtoull optarg)))
  else if opt =? 117 then Some (mkConfig c t n i o a (u32 (strtoull optarg)) l e)
  else if opt =? 97 then Some (mkConfig c t n i o (u32 (strtoull optarg)) u l e)
  else Some g.

Fixpoint options (opts : list (Z * list Z)) (g : config) : option config :=
  match opts with
  | [] => Some g
  | (opt, optarg) :: opts => g ← option_step opt optarg g; options opts g
  end.

Definition defaults : config :=
  mkConfig (chars "S5P4418") (chars "2ndboot") (chars "NSIH.txt") (chars "pyrope_2ndboot_spi.bin")
    (chars "2ndboot_spi.bin") (u32 (-1)) (u32 (-1)) (u32 (-1)) (u32 (-1)).

(** The exit status and the files. *)
Definition main (argc : Z) (opts : list (Z * list Z)) (fs : files) : option (Z * files) :=
  if argc =? 1 then Some (1, fs) else
  match options opts defaults with
  | None => Some (1, fs)
  | Some g =>
      _ ← nsih_parsing g fs;
      '(ret, fs) ← boot_bingen g fs;
      Some (if s32 ret <? 0 then -1 else 0, fs)
  end.
End Run.

(** ** The header as text *)

(** A line: digits, two for each byte, and what follows them up to the line feed. *)
Abbreviation hex_line := (list Z * list Z)%type.

Definition line_ok (l : hex_line) : Prop :=
  Forall (fun c => is_Some (hex_value c)) l.1 /\ (length l.1 ∈ [0; 2; 4; 8])%nat /\
  Forall (fun c => c <> 10) l.2 /\ (forall c, head l.2 = Some c -> hex_value c = None).

Definition text_of (ls : list hex_line) : list Z := flat_map (fun l => l.1 ++ l.2 ++ [10]) ls.

Definition value_of (ds : list Z) : Z := foldl (fun v c => u32 (v * 16 + default 0 (hex_value c))) 0 ds.

(** The low bytes of a word, the lowest first. *)
Fixpoint low_bytes (n : nat) (v : Z) : list Z :=
  match n with O => [] | S n => Z.land v 0xFF :: low_bytes n (Z.shiftr v 8) end.

Definition line_bytes (l : hex_line) : list Z := low_bytes (length l.1 / 2) (value_of l.1).

Definition bytes_of (ls : list hex_line) : list Z := flat_map line_bytes ls.

Lemma low_bytes_length n v : length (low_bytes n v) = n.
Proof. revert v. induction n as [|n IH]; intros v; [done|]. cbn. by rewrite IH. Qed.

Lemma put_bytes_ok n : forall A B v, let bs := low_bytes n v in
  put_bytes n (A ++ B) (Z.of_nat (length A)) v =
    if (n <=? length B)%nat
    then Some ((A ++ bs) ++ drop n B, Z.of_nat (length (A ++ bs)), Z.shiftr v (8 * Z.of_nat n)) else None.
Proof.
  induction n as [|n IH]; intros A B v bs; cbn [put_bytes].
  { unfold bs. cbn [low_bytes Nat.leb]. by rewrite app_nil_r, Z.shiftr_0_r. }
  rewrite length_app. destruct (Z.leb_spec 0 (Z.of_nat (length A))); [|lia].
  destruct B as [|b B]; cbn [length].
  { destruct (Z.ltb_spec (Z.of_nat (length A)) (Z.of_nat (length A + 0))); [lia|done]. }
  destruct (Z.ltb_spec (Z.of_nat (length A)) (Z.of_nat (length A + S (length B)))); [|lia]. cbn [andb].
  rewrite Nat2Z.id, insert_app_r_alt, Nat.sub_diag by lia. cbn [list_insert insert].
  replace (A ++ Z.land v 255 :: B) with ((A ++ [Z.land v 255]) ++ B) by by rewrite <- app_assoc.
  replace (Z.of_nat (length A) + 1) with (Z.of_nat (length (A ++ [Z.land v 255]))) by (rewrite length_app; simpl; lia).
  rewrite IH. change (S n <=? S (length B))%nat with (n <=? length B)%nat. destruct (n <=? length B)%nat; [|done].
  unfold bs. cbn [low_bytes drop]. rewrite <- !app_assoc. cbn [app].
  replace (Z.shiftr v (8 * Z.of_nat (S n))) with (Z.shiftr (Z.shiftr v 8) (8 * Z.of_nat n)); [done|].
  rewrite Z.shiftr_shiftr by lia. f_equal. lia.
Qed.

(** Digits add to the value and to the count of bits. *)
Lemma digits_read ds : forall rest out bs v n, Forall (fun c => is_Some (hex_value c)) ds ->
  n + 4 * Z.of_nat (length ds) <= 2 ^ 31 - 1 ->
  nsih_loop (ds ++ rest) (mkNsih out bs v n false) =
  nsih_loop rest (mkNsih out bs (foldl (fun v c => u32 (v * 16 + default 0 (hex_value c))) v ds)
    (n + 4 * Z.of_nat (length ds)) false).
Proof.
  induction ds as [|c ds IH]; intros rest out bs v n Hds Hn; cbn [app length foldl] in *.
  - by replace (n + 4 * Z.of_nat 0) with n by lia.
  - inversion_clear Hds as [|? ? [d Hc] Hds']. cbn [nsih_loop]. unfold nsih_char. cbn [skipline writesize writeval pOutData bytesize].
    rewrite Hc. destruct (Z.leb_spec (n + 4) (2 ^ 31 - 1)); [|lia]. cbn [mbind option_bind].
    assert (Hc10 : c <> 10) by (intros ->; discriminate Hc). apply Z.eqb_neq in Hc10. rewrite Hc10. cbn [mbind option_bind].
    rewrite IH by (done || lia). cbn [default]. do 2 f_equal. lia.
Qed.

(** The rest of a line is skipped. *)
Lemma rest_skipped r : forall rest s, Forall (fun c => c <> 10) r -> skipline s = true ->
  nsih_loop (r ++ 10 :: rest) s = nsih_loop rest (mkNsih (pOutData s) (bytesize s) 0 (writesize s) false).
Proof.
  induction r as [|c r IH]; intros rest s Hr Hs; cbn [app nsih_loop]; unfold nsih_char; rewrite Hs; cbn [mbind option_bind].
  - done.
  - inversion_clear Hr as [|? ? Hc Hr']. apply Z.eqb_neq in Hc. rewrite Hc. cbn [mbind option_bind]. by apply IH.
Qed.

Lemma line_read l A B rest : line_ok l ->
  let bs := line_bytes l in
  nsih_loop (l.1 ++ l.2 ++ 10 :: rest) (mkNsih (A ++ B) (Z.of_nat (length A)) 0 0 false) =
    if (length bs <=? length B)%nat
    then nsih_loop rest (mkNsih ((A ++ bs) ++ drop (length bs) B) (Z.of_nat (length (A ++ bs))) 0 0 false) else None.
Proof.
  destruct l as [ds r]. intros (Hds & Hlen & Hr & Hhead) bs. cbn [fst snd] in *.
  assert (Hn8 : (length ds <= 8)%nat).
  { rewrite !elem_of_cons, elem_of_nil in Hlen. lia. }
  rewrite digits_read by (done || lia). fold (value_of ds). rewrite Z.add_0_l.
  set (s := mkNsih (A ++ B) (Z.of_nat (length A)) (value_of ds) (4 * Z.of_nat (length ds)) false).
  (* the character that ends the digits *)
  assert (Hend : forall c t, hex_value c = None ->
    nsih_loop (c :: t) s = if (length bs <=? length B)%nat
      then nsih_loop t (mkNsih ((A ++ bs) ++ drop (length bs) B) (Z.of_nat (length (A ++ bs)))
        (if c =? 10 then 0 else Z.shiftr (value_of ds) (8 * Z.of_nat (length bs))) 0 (negb (c =? 10))) else None).
  { intros c t Hc. cbn [nsih_loop]. unfold nsih_char, s. cbn [skipline writesize writeval pOutData bytesize]. rewrite Hc.
    assert (Hput : (if (4 * Z.of_nat (length ds) =? 8) || (4 * Z.of_nat (length ds) =? 16) || (4 * Z.of_nat (length ds) =? 32)
      then put_bytes (Z.to_nat (4 * Z.of_nat (length ds) / 8)) (A ++ B) (Z.of_nat (length A)) (value_of ds)
      else Some (A ++ B, Z.of_nat (length A), value_of ds)) =
      if (length bs <=? length B)%nat
      then Some ((A ++ bs) ++ drop (length bs) B, Z.of_nat (length (A ++ bs)), Z.shiftr (value_of ds) (8 * Z.of_nat (length bs)))
      else None).
    { pose proof (put_bytes_ok (length ds / 2) A B (value_of ds)) as Hp. cbv zeta in Hp.
      unfold bs, line_bytes. cbn [fst]. rewrite low_bytes_length.
      rewrite !elem_of_cons, elem_of_nil in Hlen. destruct Hlen as [Hl|[Hl|[Hl|[Hl|[]]]]]; rewrite Hl in *;
        exact Hp. }
    rewrite Hput. destruct (length bs <=? length B)%nat; [|done]. cbn [mbind option_bind].
    destruct (c =? 10); done. }
  destruct r as [|c r].
  - cbn [app]. rewrite Hend by done. done.
  - cbn [app]. rewrite Hend by by apply Hhead. destruct (length bs <=? length B)%nat; [|done].
    inversion_clear Hr as [|? ? Hc Hr']. apply Z.eqb_neq in Hc. rewrite Hc. by rewrite rest_skipped.
Qed.

Lemma lines_read ls : Forall line_ok ls -> forall A B, let bs := bytes_of ls in
  nsih_loop (text_of ls ++ [255]) (mkNsih (A ++ B) (Z.of_nat (length A)) 0 0 false) =
    if (length bs <=? length B)%nat
    then Some (mkNsih ((A ++ bs) ++ drop (length bs) B) (Z.of_nat (length (A ++ bs))) 0 0 true) else None.
Proof.
  induction 1 as [|l ls Hl Hls IH]; intros A B bs.
  - unfold bs. cbn. by rewrite app_nil_r.
  - unfold text_of in *. cbn [flat_map]. rewrite <- !app_assoc. cbn [app].
    rewrite line_read by done. unfold bs, bytes_of. cbn [flat_map]. fold (bytes_of ls). rewrite (length_app (line_bytes l) (bytes_of ls)).
    destruct (Nat.leb_spec (length (line_bytes l)) (length B)).
    + rewrite IH. rewrite length_drop, drop_drop. 
      replace (length (bytes_of ls) <=? length B - length (line_bytes l))%nat
        with (length (line_bytes l) + length (bytes_of ls) <=? length B)%nat
        by (destruct (Nat.leb_spec (length (line_bytes l) + length (bytes_of ls)) (length B)); symmetry;
            [apply Nat.leb_le|apply Nat.leb_gt]; lia).
      by rewrite <- !app_assoc.
    + destruct (Nat.leb_spec (length (line_bytes l) + length (bytes_of ls)) (length B)); [lia|done].
Qed.

Lemma process_nsih_ok ls out : Forall line_ok ls ->
  process_nsih (Some (text_of ls)) out =
    if (length (bytes_of ls) <=? length out)%nat
    then Some (Z.of_nat (length (bytes_of ls)), bytes_of ls ++ drop (length (bytes_of ls)) out) else None.
Proof.
  intros Hls. unfold process_nsih. pose proof (lines_read ls Hls [] out) as Hr. cbn [app length] in Hr.
  change (Z.of_nat 0) with 0 in Hr. rewrite Hr. by destruct (length (bytes_of ls) <=? length out)%nat.
Qed.

(** The header text is read as it is meant: every line of two, four or eight
    hexadecimal digits gives its bytes, the lowest first, other lines give none,
    what follows the digits of a line is skipped; and the buffer is overrun
    exactly if the bytes are more than it has. *)
Theorem process_nsih_reads ls out : Forall line_ok ls ->
  process_nsih (Some (text_of ls)) out =
    if (length (bytes_of ls) <=? length out)%nat
    then Some (Z.of_nat (length (bytes_of ls)), bytes_of ls ++ drop (length (bytes_of ls)) out) else None.
Proof. apply process_nsih_ok. Qed.

(** ** The check sum *)

Lemma fcs_steps_low n : forall fcs, Z.land fcs (Z.ones (Z.of_nat n)) = 0 -> fcs_steps n fcs = Z.shiftr fcs (Z.of_nat n).
Proof.
  induction n as [|n IH]; intros fcs Hl; cbn [fcs_steps]; [by rewrite Z.shiftr_0_r|].
  rewrite Z.land_ones in Hl by lia.
  assert (H1 : Z.land fcs 1 = 0).
  { change 1 with (Z.ones 1). rewrite Z.land_ones by lia. rewrite Nat2Z.inj_succ, Z.pow_succ_r in Hl by lia.
    pose proof (Z.pow_pos_nonneg 2 (Z.of_nat n) ltac:(lia) ltac:(lia)).
    rewrite Z.rem_mul_r in Hl by lia. pose proof (Z.mod_pos_bound fcs 2 ltac:(lia)).
    pose proof (Z.mod_pos_bound (fcs / 2) (2 ^ Z.of_nat n) ltac:(lia)). change (2 ^ 1) with 2. nia. }
  rewrite H1. cbn [Z.eqb negb]. rewrite IH.
  - rewrite Z.shiftr_shiftr by lia. f_equal. lia.
  - rewrite Z.land_ones by lia. rewrite Z.shiftr_div_pow2 by lia. change (2 ^ 1) with 2.
    change 1 with (Z.ones 1) in H1. rewrite Z.land_ones in H1 by lia. change (2 ^ 1) with 2 in H1.
    rewrite Nat2Z.inj_succ, Z.pow_succ_r in Hl by lia.
    pose proof (Z.pow_pos_nonneg 2 (Z.of_nat n) ltac:(lia) ltac:(lia)).
    rewrite Z.rem_mul_r in Hl by lia. pose proof (Z.mod_pos_bound (fcs / 2) (2 ^ Z.of_nat n) ltac:(lia)). nia.
Qed.

(** A byte that is the low byte of the register shifts it out. *)
Lemma get_fcs_own fcs : get_fcs fcs (Z.land fcs 0xFF) = Z.shiftr fcs 8.
Proof.
  unfold get_fcs. rewrite (fcs_steps_low 8).
  - change (Z.of_nat 8) with 8. apply Z.bits_inj'. intros i Hi. rewrite !Z.shiftr_spec, Z.lxor_spec by lia.
    rewrite Z.land_spec. change 0xFF with (Z.ones 8). rewrite Z.testbit_ones_nonneg by lia.
    destruct (Z.ltb_spec (i + 8) 8); [lia|]. by rewrite andb_false_r, xorb_false_r.
  - change (Z.of_nat 8) with 8. apply Z.bits_inj'. intros i Hi. rewrite Z.land_spec, Z.lxor_spec, Z.land_spec, Z.bits_0.
    change 0xFF with (Z.ones 8). rewrite Z.testbit_ones_nonneg by lia.
    destruct (i <? 8); [|by rewrite andb_false_r]. by rewrite !andb_true_r, xorb_nilpotent.
Qed.

Lemma fcs_steps_range n : forall fcs, is_u32 fcs -> is_u32 (fcs_steps n fcs).
Proof.
  induction n as [|n IH]; intros fcs Hf; [done|]. cbn [fcs_steps]. apply IH.
  assert (Hs : is_u32 (Z.shiftr fcs 1)) by (apply (shiftr_bound 32); [lia|done]).
  destruct (negb _); [|done]. apply (lxor_bound 32); [lia|done|unfold POLY; lia].
Qed.

Lemma calc_loop_app a : forall n crc b, calc_loop (length a + n) crc (a ++ b) = calc_loop n (foldl get_fcs crc a) b.
Proof. induction a as [|x a IH]; intros n crc b; [done|]. cbn [length Nat.add app calc_loop foldl]. apply IH. Qed.

Lemma calc_crc_fold a b : __calc_crc (a ++ b) (Z.of_nat (length a)) = Some (foldl get_fcs 0 a).
Proof.
  unfold __calc_crc. rewrite Nat2Z.id. rewrite <- (Nat.add_0_r (length a)). by rewrite calc_loop_app.
Qed.

Lemma crc_range a : Forall is_u8 a -> is_u32 (foldl get_fcs 0 a).
Proof.
  intros Ha. assert (H0 : is_u32 0) by (unfold is_u32; lia). revert H0. generalize 0 as crc.
  induction Ha as [|x a Hx Ha IH]; intros crc Hc; [done|]. cbn [foldl]. apply IH, fcs_steps_range.
  apply (lxor_bound 32); [lia|done|unfold is_u8 in Hx; lia].
Qed.

Lemma crc_own c : is_u32 c -> foldl get_fcs c (le32 c) = 0.
Proof.
  intros Hc. unfold le32. cbn [foldl].
  rewrite get_fcs_own.
  replace (Z.land (Z.shiftr c 16) 255) with (Z.land (Z.shiftr (Z.shiftr c 8) 8) 255) by (by rewrite Z.shiftr_shiftr by lia).
  replace (Z.land (Z.shiftr c 24) 255) with (Z.land (Z.shiftr (Z.shiftr (Z.shiftr c 8) 8) 8) 255)
    by (by rewrite !Z.shiftr_shiftr by lia).
  rewrite !get_fcs_own, !Z.shiftr_shiftr by lia. change (8 + 8 + 8 + 8) with 32.
  rewrite Z.shiftr_div_pow2 by lia. apply Z.div_small. exact Hc.
Qed.

(** A block followed by its check sum has the check sum zero. *)
Theorem crc_residue data rest : Forall is_u8 data ->
  exists c, __calc_crc (data ++ rest) (Z.of_nat (length data)) = Some c /\ is_u32 c /\
    __calc_crc ((data ++ le32 c) ++ rest) (Z.of_nat (length data) + 4) = Some 0.
Proof.
  intros Hd. exists (foldl get_fcs 0 data). split; [apply calc_crc_fold|]. pose proof (crc_range data Hd) as Hr.
  split; [done|]. replace (Z.of_nat (length data) + 4) with (Z.of_nat (length (data ++ le32 (foldl get_fcs 0 data))))
    by (rewrite length_app, le32_length; lia).
  rewrite calc_crc_fold, foldl_app. by rewrite crc_own.
Qed.

(** The polynomial is not mirrored although the register shifts to the right: its
    top bit is clear, a step forgets a bit, and blocks of one word collide. *)
Theorem crc_collides : __calc_crc (le32 1) 4 = __calc_crc (le32 (2 * POLY)) 4 /\ le32 1 <> le32 (2 * POLY).
Proof. split; [vm_compute; reflexivity|]. vm_compute. discriminate. Qed.

(** ** The image *)

(** [n] bytes at an offset. *)
Definition field (off n : Z) (buf : list Z) : list Z := take (Z.to_nat n) (drop (Z.to_nat off) buf).

Lemma put_ok off bs buf : 0 <= off -> off + Z.of_nat (length bs) <= Z.of_nat (length buf) ->
  put off bs buf = Some (list_inserts (Z.to_nat off) bs buf).
Proof. intros Ho Hl. unfold put. by destruct (Z.leb_spec (off + Z.of_nat (length bs)) (Z.of_nat (length buf))); [|lia]. Qed.

Lemma field_lookup off n buf i : 0 <= off -> field off n buf !! i =
  if decide (Z.of_nat i < n) then buf !! (Z.to_nat off + i)%nat else None.
Proof.
  intros Ho. unfold field. destruct (decide (Z.of_nat i < n)).
  - rewrite lookup_take_lt by lia. apply lookup_drop.
  - apply lookup_take_ge. lia.
Qed.

Lemma field_same off bs buf : 0 <= off -> off + Z.of_nat (length bs) <= Z.of_nat (length buf) ->
  field off (Z.of_nat (length bs)) (list_inserts (Z.to_nat off) bs buf) = bs.
Proof.
  intros Ho Hl. apply list_eq. intros i. rewrite field_lookup by done. destruct (decide (Z.of_nat i < Z.of_nat (length bs))).
  - rewrite list_lookup_inserts by lia. f_equal. lia.
  - symmetry. apply lookup_ge_None. lia.
Qed.

Lemma field_other off bs buf o n : 0 <= off -> 0 <= o -> o + n <= off \/ off + Z.of_nat (length bs) <= o ->
  field o n (list_inserts (Z.to_nat off) bs buf) = field o n buf.
Proof.
  intros Ho Ho' Hd. apply list_eq. intros i. rewrite !field_lookup by done.
  destruct (decide (Z.of_nat i < n)); [|done]. destruct Hd.
  - apply list_lookup_inserts_lt. lia.
  - apply list_lookup_inserts_ge. lia.
Qed.

Lemma field_length off n buf : 0 <= off -> 0 <= n -> off + n <= Z.of_nat (length buf) -> Z.of_nat (length (field off n buf)) = n.
Proof. intros Ho Hn Hl. unfold field. rewrite length_take, length_drop. lia. Qed.

Lemma field_app off a b buf : 0 <= off -> 0 <= a -> 0 <= b ->
  field off (a + b) buf = field off a buf ++ field (off + a) b buf.
Proof.
  intros Ho Ha Hb. unfold field. replace (Z.to_nat (a + b)) with (Z.to_nat a + Z.to_nat b)%nat by lia.
  replace (Z.to_nat (off + a)) with (Z.to_nat off + Z.to_nat a)%nat by lia. by rewrite <- drop_drop, take_take_drop.
Qed.

Lemma calc_field off n buf : 0 <= off -> 0 <= n -> off + n <= Z.of_nat (length buf) ->
  __calc_crc (drop (Z.to_nat off) buf) n = Some (foldl get_fcs 0 (field off n buf)).
Proof.
  intros Ho Hn Hl. rewrite <- (take_drop (Z.to_nat n) (drop (Z.to_nat off) buf)). fold (field off n buf).
  pose proof (field_length off n buf Ho Hn Hl) as Hf. rewrite <- Hf at 3. apply calc_crc_fold.
Qed.

(** The store of a field that has a default. *)
Definition opt_put (v off : Z) (bs buf : list Z) : list Z :=
  if v =? u32 (-1) then buf else list_inserts (Z.to_nat off) bs buf.

Lemma opt_put_length v off bs buf : length (opt_put v off bs buf) = length buf.
Proof. unfold opt_put. destruct (v =? u32 (-1)); [done|apply length_inserts]. Qed.

Lemma put_option_ok v off bs buf : 0 <= off -> off + Z.of_nat (length bs) <= Z.of_nat (length buf) ->
  put_option v off bs buf = Some (opt_put v off bs buf).
Proof. intros Ho Hl. unfold put_option, opt_put. destruct (v =? u32 (-1)); [done|by apply put_ok]. Qed.

Lemma field_opt_same v off bs buf : 0 <= off -> off + Z.of_nat (length bs) <= Z.of_nat (length buf) ->
  field off (Z.of_nat (length bs)) (opt_put v off bs buf) =
    if v =? u32 (-1) then field off (Z.of_nat (length bs)) buf else bs.
Proof. intros Ho Hl. unfold opt_put. destruct (v =? u32 (-1)); [done|by apply field_same]. Qed.

Lemma field_opt_other v off bs buf o n : 0 <= off -> 0 <= o -> o + n <= off \/ off + Z.of_nat (length bs) <= o ->
  field o n (opt_put v off bs buf) = field o n buf.
Proof. intros Ho Ho' Hd. unfold opt_put. destruct (v =? u32 (-1)); [done|by apply field_other]. Qed.

Lemma bytes_inserts off bs buf : Forall is_u8 bs -> Forall is_u8 buf -> Forall is_u8 (list_inserts off bs buf).
Proof.
  intros Hbs. revert off. induction Hbs as [|b bs Hb Hbs IH]; intros off Hbuf; cbn [list_inserts]; [done|].
  apply Forall_insert; [by apply IH|done].
Qed.

Lemma opt_put_bytes v off bs buf : Forall is_u8 bs -> Forall is_u8 buf -> Forall is_u8 (opt_put v off bs buf).
Proof. intros Hb Hbuf. unfold opt_put. destruct (v =? u32 (-1)); [done|by apply bytes_inserts]. Qed.

Lemma field_word off v buf : 0 <= off -> off + 4 <= Z.of_nat (length buf) ->
  field off 4 (list_inserts (Z.to_nat off) (le32 v) buf) = le32 v.
Proof. intros Ho Hl. exact (field_same off (le32 v) buf Ho Hl). Qed.

(** The value of a field that has a default: what the header text says. *)
Definition chosen (v : Z) (text bs : list Z) : list Z := if v =? u32 (-1) then text else bs.

(** What the image says, given what was read: [g] the options, [n] the size of the
    input, [buf] the header text's bytes and the input. *)
Record image_ok (g : config) (n : Z) (buf img : list Z) : Prop := {
  image_length : length img = length buf;
  image_loadsize : field LOADSIZE 4 img = le32 n;
  image_signature : field SIGNATURE 4 img = le32 HEADER_ID;
  image_crc : __calc_crc (drop (Z.to_nat NSIH_SIZE) img) n = Some (le_word (field DBI_CRC32 4 img));
  image_port : field DBI_PortNumber 1 img =
    chosen (g_device_portnum g) (field DBI_PortNumber 1 buf) [u8 (g_device_portnum g)];
  image_device : field DEVICEADDR 4 img = chosen (g_device_addr g) (field DEVICEADDR 4 buf) (le32 (g_device_addr g));
  image_load : field LOADADDR 4 img = chosen (loaded_addr g) (field LOADADDR 4 buf) (le32 (loaded_addr g));
  image_launch : field LAUNCHADDR 4 img = chosen (launch_addr g) (field LAUNCHADDR 4 buf) (le32 (launch_addr g));
  image_vectors : field 0 0x40 img = field 0 0x40 buf;
  image_settings : field 0x5C (0x1FC - 0x5C) img = field 0x5C (0x1FC - 0x5C) buf;
  image_input : field NSIH_SIZE n img = field NSIH_SIZE n buf;
  image_end : n + NSIH_SIZE <= NXP4330_SRAM_SIZE - 16 -> __calc_crc img (NXP4330_SRAM_SIZE - 16 + CRCSIZE) = Some 0;
}.

Lemma chosen_put v off bs buf : 0 <= off -> off + Z.of_nat (length bs) <= Z.of_nat (length buf) ->
  field off (Z.of_nat (length bs)) (opt_put v off bs buf) = chosen v (field off (Z.of_nat (length bs)) buf) bs.
Proof. apply field_opt_same. Qed.

Lemma chosen_word v off buf : 0 <= off -> off + 4 <= Z.of_nat (length buf) ->
  field off 4 (opt_put v off (le32 v) buf) = chosen v (field off 4 buf) (le32 v).
Proof. intros Ho Hl. exact (chosen_put v off (le32 v) buf Ho Hl). Qed.

(** The image before the last check sum. *)
Definition stamped (g : config) (n : Z) (buf : list Z) : list Z :=
  let b := opt_put (g_device_portnum g) DBI_PortNumber [u8 (g_device_portnum g)] buf in
  let b := opt_put (g_device_addr g) DEVICEADDR (le32 (g_device_addr g)) b in
  let b := list_inserts (Z.to_nat LOADSIZE) (le32 n) b in
  let b := opt_put (loaded_addr g) LOADADDR (le32 (loaded_addr g)) b in
  let b := opt_put (launch_addr g) LAUNCHADDR (le32 (launch_addr g)) b in
  list_inserts (Z.to_nat SIGNATURE) (le32 HEADER_ID) b.

Ltac sizes := unfold NSIH_SIZE, NXP4330_SRAM_SIZE, CRCSIZE, LOADSIZE, SIGNATURE, DBI_CRC32, DBI_PortNumber, DEVICEADDR, LOADADDR,
  LAUNCHADDR in *; rewrite ?le32_length; cbn [length]; lia.

(** A field that none of the stores touches. *)
Ltac untouched := repeat first
  [rewrite field_opt_other by sizes | rewrite field_other by sizes].

Lemma stamped_length g n buf : length (stamped g n buf) = length buf.
Proof. unfold stamped. by rewrite !length_inserts, !opt_put_length, length_inserts, !opt_put_length. Qed.

Lemma stamped_bytes g n buf : Forall is_u8 buf -> Forall is_u8 (stamped g n buf).
Proof.
  intros Hb. unfold stamped.
  repeat first [apply bytes_inserts; [apply le32_bytes|] | apply opt_put_bytes; [first [apply le32_bytes | repeat constructor; apply u8_range]|]].
  done.
Qed.

(** The image with both check sums. *)
Definition imaged (g : config) (n : Z) (buf : list Z) : list Z :=
  let s := stamped g n buf in
  let s := list_inserts (Z.to_nat DBI_CRC32) (le32 (foldl get_fcs 0 (field NSIH_SIZE n buf))) s in
  if n + NSIH_SIZE <=? NXP4330_SRAM_SIZE - 16
  then list_inserts (Z.to_nat (NXP4330_SRAM_SIZE - 16)) (le32 (foldl get_fcs 0 (field 0 (NXP4330_SRAM_SIZE - 16) s))) s
  else s.

Section Imaged.
Context (g : config) (n : Z) (buf : list Z).
Context (Hn : 0 <= n < 2 ^ 31 - NSIH_SIZE) (Hlen : n + NSIH_SIZE <= Z.of_nat (length buf)).
Context (Hsmall : n + NSIH_SIZE <= NXP4330_SRAM_SIZE - 16 -> NXP4330_SRAM_SIZE <= Z.of_nat (length buf)).
Context (Hbytes : Forall is_u8 buf).

(** The fields of the header and the input are not touched by the last store. *)
Lemma imaged_field o k : 0 <= o -> o + k <= n + NSIH_SIZE ->
  field o k (imaged g n buf) =
  field o k (list_inserts (Z.to_nat DBI_CRC32) (le32 (foldl get_fcs 0 (field NSIH_SIZE n buf))) (stamped g n buf)).
Proof.
  intros Ho Hk. unfold imaged. cbv zeta. destruct (Z.leb_spec (n + NSIH_SIZE) (NXP4330_SRAM_SIZE - 16)); [|done].
  apply field_other; sizes.
Qed.

Lemma stamped_input : field NSIH_SIZE n (stamped g n buf) = field NSIH_SIZE n buf.
Proof. unfold stamped. cbv zeta. by untouched. Qed.

Lemma nsih_user_config_ok : nsih_user_config g n buf = Some (imaged g n buf).
Proof.
  unfold nsih_user_config. pose proof (stamped_length g n buf) as Hst. unfold stamped in Hst. cbv zeta in Hst.
  repeat first [rewrite put_option_ok by (rewrite ?opt_put_length, ?length_inserts, ?opt_put_length; sizes); cbn [mbind option_bind]
    | rewrite put_ok by (rewrite ?opt_put_length, ?length_inserts, ?opt_put_length, ?length_inserts, ?opt_put_length; sizes); cbn [mbind option_bind]].
  change (list_inserts (Z.to_nat SIGNATURE) (le32 HEADER_ID) _) with (stamped g n buf).
  clear Hst. pose proof (stamped_length g n buf) as Hst.
  rewrite s32_small by (unfold is_s32; sizes). rewrite calc_field by sizes. rewrite stamped_input.
  cbn [mbind option_bind]. rewrite put_ok by sizes. cbn [mbind option_bind].
  rewrite u32_small by (unfold is_u32; sizes). unfold imaged. cbv zeta.
  set (s := list_inserts (Z.to_nat DBI_CRC32) _ _).
  assert (Hs : length s = length buf) by (unfold s; by rewrite length_inserts).
  destruct (Z.leb_spec (n + NSIH_SIZE) (NXP4330_SRAM_SIZE - 16)) as [Hle|]; [|done].
  specialize (Hsmall Hle). pose proof (calc_field 0 (NXP4330_SRAM_SIZE - 16) s) as Hc.
  change (drop (Z.to_nat 0) s) with s in Hc. rewrite Hc by sizes. cbn [mbind option_bind].
  by rewrite put_ok by sizes.
Qed.

Lemma imaged_length : length (imaged g n buf) = length buf.
Proof.
  unfold imaged. cbv zeta. destruct (_ <=? _); rewrite ?length_inserts; apply stamped_length.
Qed.

Lemma imaged_end : n + NSIH_SIZE <= NXP4330_SRAM_SIZE - 16 ->
  __calc_crc (imaged g n buf) (NXP4330_SRAM_SIZE - 16 + CRCSIZE) = Some 0.
Proof.
  intros Hle. specialize (Hsmall Hle). pose proof (calc_field 0 (NXP4330_SRAM_SIZE - 16 + CRCSIZE) (imaged g n buf)) as Hc.
  change (drop (Z.to_nat 0) (imaged g n buf)) with (imaged g n buf) in Hc. rewrite Hc by (rewrite ?imaged_length; sizes).
  rewrite field_app by sizes. unfold imaged. cbv zeta.
  set (s := list_inserts (Z.to_nat DBI_CRC32) _ _).
  assert (Hs : length s = length buf) by (unfold s; rewrite length_inserts; apply stamped_length).
  assert (Hb : Forall is_u8 s) by (unfold s; apply bytes_inserts; [apply le32_bytes|by apply stamped_bytes]).
  destruct (Z.leb_spec (n + NSIH_SIZE) (NXP4330_SRAM_SIZE - 16)); [|lia].
  set (c := foldl get_fcs 0 (field 0 (NXP4330_SRAM_SIZE - 16) s)).
  rewrite field_other by sizes. rewrite Z.add_0_l.
  pose proof (field_same (NXP4330_SRAM_SIZE - 16) (le32 c) s) as Hsame. rewrite le32_length in Hsame.
  change (Z.of_nat 4) with CRCSIZE in Hsame. rewrite Hsame by sizes.
  rewrite foldl_app. fold c. rewrite crc_own; [done|]. apply crc_range. unfold field. by apply Forall_take, Forall_drop.
Qed.

(** The configured image says what the options and the text ask for. *)
Lemma imaged_ok : image_ok g n buf (imaged g n buf).
Proof.
  assert (Hcrc : field DBI_CRC32 4 (imaged g n buf) = le32 (foldl get_fcs 0 (field NSIH_SIZE n buf))).
  { rewrite imaged_field by sizes. apply (field_same DBI_CRC32 (le32 _)); [sizes|]. rewrite stamped_length. sizes. }
  assert (Hin : field NSIH_SIZE n (imaged g n buf) = field NSIH_SIZE n buf).
  { rewrite imaged_field by sizes. rewrite field_other by sizes. apply stamped_input. }
  split; try exact Hin; try exact imaged_end; [apply imaged_length|..];
    try (rewrite imaged_field by sizes; rewrite field_other by sizes; unfold stamped; cbv zeta; untouched).
  all: try first [apply field_word; rewrite ?opt_put_length, ?length_inserts, ?opt_put_length; sizes
    | rewrite chosen_word by (rewrite ?opt_put_length, ?length_inserts, ?opt_put_length; sizes); untouched; done
    | done].
  - rewrite calc_field by (rewrite ?imaged_length; sizes). rewrite Hin, Hcrc. f_equal. rewrite le_word_le32.
    symmetry. apply u32_small, crc_range. unfold field. by apply Forall_take, Forall_drop.
  - exact (chosen_put (g_device_portnum g) DBI_PortNumber [u8 (g_device_portnum g)] buf ltac:(sizes) ltac:(sizes)).
Qed.
End Imaged.

(** ** The run *)

(** The size of the output has room for the header and the input, and for the last
    check sum when there is one. *)
Lemma output_size_ok g n size : 0 <= n < 2 ^ 31 - NSIH_SIZE -> output_size_calcurate g n = Some size ->
  n + NSIH_SIZE <= size /\ (n + NSIH_SIZE <= NXP4330_SRAM_SIZE - 16 -> NXP4330_SRAM_SIZE <= size).
Proof.
  unfold output_size_calcurate. intros Hn Hs. apply bind_Some in Hs as (o & Ho & Hs).
  rewrite !u32_small in Ho by (unfold is_u32; sizes).
  assert (Hno : o = 0 \/ o = n + NSIH_SIZE \/ (o = NXP4330_SRAM_SIZE /\ n + NSIH_SIZE <= NXP4330_SRAM_SIZE)).
  { repeat (case_match; try discriminate Ho); injection Ho as <-; try (by left); right; try (by left); right;
      rewrite ?Z.ltb_ge, ?Z.ltb_lt in *; sizes. }
  clear Ho. destruct (Z.eqb_spec o 0); [done|]. destruct Hno as [|Hno]; [done|].
  destruct (Z.leb_spec o (NXP4330_SRAM_SIZE - 16)); injection Hs as <-; (split; [|intros Hle]); sizes.
Qed.

Section Main.
Context (writable : list Z -> bool) (malloc : Z -> bool).
Context (Hmalloc : forall n, malloc n = true).

(** Reading the header into the output buffer. *)
Lemma header_read ls size : Forall line_ok ls -> Z.of_nat (length (bytes_of ls)) = NSIH_SIZE -> NSIH_SIZE <= size ->
  process_nsih (Some (text_of ls)) (replicate (Z.to_nat size) 0) =
    Some (NSIH_SIZE, bytes_of ls ++ replicate (Z.to_nat (size - NSIH_SIZE)) 0).
Proof.
  intros Hls Hl Hsz. rewrite process_nsih_ok by done. rewrite length_replicate.
  destruct (Nat.leb_spec (length (bytes_of ls)) (Z.to_nat size)); [|lia].
  rewrite Hl, drop_replicate.
  by replace (Z.to_nat size - length (bytes_of ls))%nat with (Z.to_nat (size - NSIH_SIZE)) by lia.
Qed.

Lemma line_bytes_u8 ls : Forall is_u8 (bytes_of ls).
Proof.
  unfold bytes_of. apply Forall_flat_map. apply Forall_true. intros l. unfold line_bytes.
  generalize (length l.1 / 2)%nat, (value_of l.1). intros n. induction n as [|n IH]; intros v; cbn [low_bytes]; constructor; [|apply IH].
  apply land_byte.
Qed.

(** The buffer before the options are filled in. *)
Definition raw_image (ls : list hex_line) (content : list Z) (size : Z) : list Z :=
  bytes_of ls ++ content ++ replicate (Z.to_nat (size - NSIH_SIZE) - length content) 0.

Lemma boot_bingen_ok g fs ls content size :
  writable (output_name g) = true -> output_name g <> input_name g -> output_name g <> nsih_name g ->
  fs !! input_name g = Some content -> fs !! nsih_name g = Some (text_of ls) ->
  Forall line_ok ls -> Z.of_nat (length (bytes_of ls)) = NSIH_SIZE -> Forall is_u8 content ->
  Z.of_nat (length content) < 2 ^ 31 - NSIH_SIZE ->
  output_size_calcurate g (Z.of_nat (length content)) = Some size ->
  let img := imaged g (Z.of_nat (length content)) (raw_image ls content size) in
  boot_bingen writable malloc g fs = Some (0, <[output_name g := img]> fs) /\
  image_ok g (Z.of_nat (length content)) (raw_image ls content size) img /\
  Z.of_nat (length img) = size /\ field NSIH_SIZE (Z.of_nat (length content)) img = content.
Proof.
  intros Hw Hne Hne' Hin Hnsih Hls Hl Hc Hlt Hsz img.
  assert (Hn : 0 <= Z.of_nat (length content) < 2 ^ 31 - NSIH_SIZE) by lia.
  destruct (output_size_ok g _ size Hn Hsz) as [Hroom Hsmall].
  assert (Hraw : Z.of_nat (length (raw_image ls content size)) = size).
  { unfold raw_image. rewrite !length_app, length_replicate. unfold NSIH_SIZE in *. lia. }
  assert (Hb : Forall is_u8 (raw_image ls content size)).
  { unfold raw_image. apply Forall_app. split; [apply line_bytes_u8|]. apply Forall_app. split; [done|].
    apply Forall_replicate. unfold is_u8. lia. }
  rewrite <- Hraw in Hroom, Hsmall.
  pose proof (nsih_user_config_ok g _ (raw_image ls content size) Hn Hroom Hsmall) as Hcfg.
  pose proof (imaged_ok g _ (raw_image ls content size) Hn Hroom Hsmall Hb) as Hok. fold img in Hcfg, Hok.
  split; [|split; [done|split]].
  - unfold boot_bingen. rewrite Hin, Hw, bool_decide_eq_true_2 by done. cbn [negb].
    rewrite !lookup_insert_ne by done. rewrite Hin, Hnsih. cbn [mbind option_bind].
    rewrite u32_small by (unfold is_u32; sizes). rewrite Hsz, Hmalloc. cbn [negb].
    rewrite header_read by (done || lia). cbn [mbind option_bind]. rewrite Z.eqb_refl. cbn [negb].
    rewrite Nat2Z.id, take_ge by done.
    assert (Hput : put NSIH_SIZE content (bytes_of ls ++ replicate (Z.to_nat (size - NSIH_SIZE)) 0) = Some (raw_image ls content size)).
    { rewrite put_ok; [|done|rewrite length_app, length_replicate; lia]. f_equal. unfold raw_image.
      replace (Z.to_nat NSIH_SIZE) with (length (bytes_of ls) + 0)%nat by lia.
      rewrite list_inserts_app_r. f_equal.
      replace (Z.to_nat (size - NSIH_SIZE)) with (length content + (Z.to_nat (size - NSIH_SIZE) - length content))%nat at 1 by lia.
      rewrite replicate_add. apply list_inserts_0_r. by rewrite length_replicate. }
    rewrite Hput. cbn [mbind option_bind]. rewrite Hcfg. cbn [mbind option_bind]. by rewrite insert_insert_eq.
  - by rewrite (image_length _ _ _ _ Hok).
  - rewrite (image_input _ _ _ _ Hok). unfold field, raw_image.
    rewrite drop_app_length' by lia. apply take_app_length'. lia.
Qed.

(** The check of the header before does not overrun its buffer either. *)
Lemma nsih_parsing_ok g fs ls : fs !! nsih_name g = Some (text_of ls) ->
  Forall line_ok ls -> Z.of_nat (length (bytes_of ls)) = NSIH_SIZE -> exists buf, nsih_parsing malloc g fs = Some buf.
Proof.
  intros Hnsih Hls Hl. unfold nsih_parsing. rewrite Hnsih, Hmalloc.
  rewrite (header_read ls NSIH_SIZE) by done. cbn [mbind option_bind]. by eexists.
Qed.
End Main.

(** C13: a run with a header text of 512 bytes and an input that fits succeeds and
    writes the image: the header with the size of the input, the signature, the
    addresses and the port the options give and otherwise those of the text, the
    check sum of the input, everything else as in the text; then the input; padded
    with zeros to the size of the output; and, if the input ends before the last
    sixteen bytes of the first 16 KB, a check sum there that makes them check. *)
Theorem bingen_writes_image writable malloc argc opts g fs ls content size :
  argc <> 1 -> options opts defaults = Some g -> (forall n, malloc n = true) ->
  writable (output_name g) = true -> output_name g <> input_name g -> output_name g <> nsih_name g ->
  fs !! input_name g = Some content -> fs !! nsih_name g = Some (text_of ls) ->
  Forall line_ok ls -> Z.of_nat (length (bytes_of ls)) = NSIH_SIZE -> Forall is_u8 content ->
  Z.of_nat (length content) < 2 ^ 31 - NSIH_SIZE ->
  output_size_calcurate g (Z.of_nat (length content)) = Some size ->
  exists img, main writable malloc argc opts fs = Some (0, <[output_name g := img]> fs) /\
    Z.of_nat (length img) = size /\ field NSIH_SIZE (Z.of_nat (length content)) img = content /\
    image_ok g (Z.of_nat (length content)) (raw_image ls content size) img.
Proof.
  intros Hargc Hopts Hmalloc Hw Hne Hne' Hin Hnsih Hls Hl Hc Hlt Hsz.
  destruct (nsih_parsing_ok malloc Hmalloc g fs ls Hnsih Hls Hl) as [buf Hparse].
  destruct (boot_bingen_ok writable malloc Hmalloc g fs ls content size) as (Hrun & Hok & Hlen & Hfield); try done.
  eexists. split; [|by split; [|split]]. unfold main. apply Z.eqb_neq in Hargc. rewrite Hargc, Hopts, Hparse.
  cbn [mbind option_bind]. rewrite Hrun. done.
Qed.

(** A header text of more than 512 bytes overruns the block of 512 bytes the
    check reads it into. *)
Theorem nsih_overrun writable malloc argc opts g fs ls :
  argc <> 1 -> options opts defaults = Some g ->
  fs !! nsih_name g = Some (text_of ls) -> Forall line_ok ls -> NSIH_SIZE < Z.of_nat (length (bytes_of ls)) ->
  main writable malloc argc opts fs = None.
Proof.
  intros Hargc Hopts Hnsih Hls Hl. unfold main. apply Z.eqb_neq in Hargc. rewrite Hargc, Hopts.
  unfold nsih_parsing. rewrite Hnsih, process_nsih_ok by done.
  destruct (Nat.leb_spec (length (bytes_of ls)) (length (if malloc NSIH_SIZE then replicate (Z.to_nat NSIH_SIZE) 0%Z else [])));
    [|done].
  exfalso. destruct (malloc NSIH_SIZE); [rewrite length_replicate in *|simpl in *]; unfold NSIH_SIZE in *; lia.
Qed.

(** An input the chip has no room for, or a chip or a kind that is not known: the
    run fails, and the output file is empty. *)
Theorem bingen_refuses writable malloc argc opts g fs ls content :
  argc <> 1 -> options opts defaults = Some g -> (forall n, malloc n = true) ->
  writable (output_name g) = true -> output_name g <> input_name g ->
  fs !! input_name g = Some content -> fs !! nsih_name g = Some (text_of ls) ->
  Forall line_ok ls -> Z.of_nat (length (bytes_of ls)) = NSIH_SIZE ->
  output_size_calcurate g (u32 (Z.of_nat (length content))) = None ->
  main writable malloc argc opts fs = Some (-1, <[output_name g := []]> fs).
Proof.
  intros Hargc Hopts Hmalloc Hw Hne Hin Hnsih Hls Hl Hsz. unfold main. apply Z.eqb_neq in Hargc. rewrite Hargc, Hopts.
  destruct (nsih_parsing_ok malloc Hmalloc g fs ls Hnsih Hls Hl) as [buf ->]. cbn [mbind option_bind].
  unfold boot_bingen. rewrite Hin, Hw, bool_decide_eq_true_2 by done. cbn [negb].
  rewrite (lookup_insert_ne _ _ (input_name g)) by done. rewrite Hin. cbn [mbind option_bind]. rewrite Hsz. reflexivity.
Qed.

(** ** Witnesses *)

(** A header of 128 words. *)
Definition word_line (w : Z) : hex_line := (Host.hex8 w, chars " // word").

Definition head_lines : list hex_line :=
  ([], chars "// Header") :: map word_line (seqZ 0xE59FF018 128).

Lemma word_line_ok ws : bool_decide (Forall (fun c => c <> 10) (chars " // word")) = true ->
  forallb (fun w => forallb (fun c => match hex_value c with Some _ => true | None => false end) (Host.hex8 w)) ws = true ->
  Forall line_ok (map word_line ws).
Proof.
  intros Hr Hall. apply Forall_map. apply Forall_forall. intros w Hw. rewrite forallb_forall in Hall.
  specialize (Hall w (proj1 (list_elem_of_In _ _) Hw)). unfold word_line, line_ok. cbn [fst snd].
  split; [|split; [|split]].
  - apply Forall_forall. intros c Hc. rewrite forallb_forall in Hall. specialize (Hall c (proj1 (list_elem_of_In _ _) Hc)).
    cbn in *. by destruct (hex_value c).
  - rewrite Host.hex8_length. set_solver.
  - by apply bool_decide_eq_true in Hr.
  - intros c Hc. injection Hc as <-. done.
Qed.

Lemma head_lines_ok : Forall line_ok head_lines.
Proof.
  unfold head_lines. constructor; [|apply word_line_ok; vm_compute; reflexivity].
  split; [constructor|]. split; [left|]. split; [|intros c Hc; by injection Hc as <-].
  refine (bool_decide_eq_true_1 _ _). vm_compute. reflexivity.
Qed.

Definition sample_opts : list (Z * list Z) :=
  [(99, chars "s5p6818"); (110, chars "nsih.txt"); (105, chars "u-boot.bin"); (111, chars "out.bin");
   (108, chars "0x43C00000"); (101, chars "0x43C00000"); (117, chars "2")].

Definition sample_config : config :=
  mkConfig (chars "S5P6818") (chars "2ndboot") (chars "nsih.txt") (chars "u-boot.bin") (chars "out.bin")
    (u32 (-1)) 2 0x43C00000 0x43C00000.

Definition sample_files (ls : list hex_line) : files :=
  <[chars "nsih.txt" := text_of ls]> {[ chars "u-boot.bin" := chars "the boot loader" ]}.

Lemma bingen_writes_image_witness :
  exists img, main (fun _ => true) (fun _ => true) 9 sample_opts (sample_files head_lines) =
      Some (0, <[chars "out.bin" := img]> (sample_files head_lines)) /\
    Z.of_nat (length img) = 16384 /\ field NSIH_SIZE 15 img = chars "the boot loader" /\
    image_ok sample_config 15 (raw_image head_lines (chars "the boot loader") 16384) img.
Proof.
  refine (bingen_writes_image (fun _ => true) (fun _ => true) 9 sample_opts sample_config (sample_files head_lines)
    head_lines (chars "the boot loader") 16384 _ _ _ _ _ _ _ _ _ _ _ _ _).
  - lia.
  - vm_compute. reflexivity.
  - reflexivity.
  - reflexivity.
  - discriminate.
  - discriminate.
  - unfold sample_files. rewrite lookup_insert_ne by discriminate. apply lookup_singleton_eq.
  - unfold sample_files. apply lookup_insert_eq.
  - exact head_lines_ok.
  - vm_compute. reflexivity.
  - refine (bool_decide_eq_true_1 _ _). vm_compute. reflexivity.
  - vm_compute. reflexivity.
  - vm_compute. reflexivity.
Defined.

Definition long_lines : list hex_line := map word_line (seqZ 0 129).

Lemma nsih_overrun_witness : main (fun _ => true) (fun _ => true) 9 sample_opts (sample_files long_lines) = None.
Proof.
  refine (nsih_overrun (fun _ => true) (fun _ => true) 9 sample_opts sample_config (sample_files long_lines) long_lines _ _ _ _ _).
  - lia.
  - vm_compute. reflexivity.
  - unfold sample_files. apply lookup_insert_eq.
  - apply word_line_ok; vm_compute; reflexivity.
  - vm_compute. reflexivity.
Defined.

Lemma process_nsih_reads_witness :
  process_nsih (Some (text_of head_lines)) (replicate 600 0) =
    if (length (bytes_of head_lines) <=? length (replicate 600 0))%nat
    then Some (Z.of_nat (length (bytes_of head_lines)), bytes_of head_lines ++ drop (length (bytes_of head_lines)) (replicate 600 0))
    else None.
Proof. exact (process_nsih_reads head_lines (replicate 600 0) head_lines_ok). Defined.

Lemma crc_residue_witness :
  exists c, __calc_crc (chars "NSIH" ++ [0]) (Z.of_nat (length (chars "NSIH"))) = Some c /\ is_u32 c /\
    __calc_crc ((chars "NSIH" ++ le32 c) ++ [0]) (Z.of_nat (length (chars "NSIH")) + 4) = Some 0.
Proof. apply crc_residue. refine (bool_decide_eq_true_1 _ _). vm_compute. reflexivity. Defined.
