(* ===== verification/NxGpio.v ===== *)
(** The GPIO driver of the board support
    (src/U-Boot/arch/arm/mach-nexell/nx_gpio.c): the table of register blocks,
    every accessor of a pin, and the pins they implement: a driver call changes
    the attributes of one pin that its contract names, and nothing else. *)

From S2P Require Import Prelude Machine.

Definition NUMBER_OF_GPIO_MODULE : Z := 5.

(** [struct nx_gpio_register_set]; the padding at its end is bytes. *)
Definition nx_gpio_register_set : list field :=
  [word "gpioxout"; word "gpioxoutenb"; words "gpioxdetmode" 2; word "gpioxintenb";
   word "gpioxdet"; word "gpioxpad"; word "gpioxpuenb"; words "gpioxaltfn" 2;
   word "gpioxdetmodeex"; words "__reserved" 4; word "gpioxdetenb"; word "gpiox_slew";
   word "gpiox_slew_disable_default"; word "gpiox_drv1"; word "gpiox_drv1_disable_default";
   word "gpiox_drv0"; word "gpiox_drv0_disable_default"; word "gpiox_pullsel";
   word "gpiox_pullsel_disable_default"; word "gpiox_pullenb";
   word "gpiox_pullenb_disable_default"; word "gpiox_input_mux_select0";
   word "gpiox_input_mux_select1"; Field "__reserved1" (0x1000 - 0x70)].

Definition nx_gpio_pull_down : Z := 0.
Definition nx_gpio_pull_up : Z := 1.
Definition nx_gpio_pull_off : Z := 2.

Definition PHY_BASEADDR_GPIOA : Z := 0xC001A000.
Definition PHY_BASEADDR_GPIOB : Z := 0xC001B000.
Definition PHY_BASEADDR_GPIOC : Z := 0xC001C000.
Definition PHY_BASEADDR_GPIOD : Z := 0xC001D000.
Definition PHY_BASEADDR_GPIOE : Z := 0xC001E000.

(** The file's static variables: [__g_nx_gpio_valid_bit], the [pregister] of
    each of [__g_module_variables], and [binit]. *)
Record gpio_vars := GpioVars {
  valid_bit : list Z;
  pregisters : list Z;
  binit : bool;
}.

Definition NULL : Z := 0.

Definition vars0 : gpio_vars :=
  GpioVars (replicate 5 0xFFFFFFFF)
    [PHY_BASEADDR_GPIOA; PHY_BASEADDR_GPIOB; PHY_BASEADDR_GPIOC;
     PHY_BASEADDR_GPIOD; PHY_BASEADDR_GPIOE] false.

(** The address of a field of the block at [p]. *)
Definition gpio (p : Z) (n : string) : Z := p + offsetof nx_gpio_register_set n.

Section Code.
Context {D : Type} `{Machine D}.
#[local] Abbreviation code A := (prog D gpio_vars A).

(** A shift of a 32-bit operand by 32 or more is undefined. *)
Definition nx_gpio_set_bit (value bit enable : Z) : code unit :=
  newvalue <-- rd32 value ;;
  if bit <? 32 then
    wr32 value (Z.lor (Z.land newvalue (Z.lnot (Z.shiftl 1 bit))) (shl32 (u32 enable) bit))
  else halt Undef.

Definition nx_gpio_get_bit (value bit : Z) : code Z :=
  if bit <? 32 then ret (Z.land (Z.shiftr value bit) 1) else halt Undef.

Definition nx_gpio_set_bit2 (value bit bit_value : Z) : code unit :=
  newvalue <-- rd32 value ;;
  if u32 (bit * 2) <? 32 then
    wr32 value (Z.lor (u32 (Z.land newvalue (Z.lnot (Z.shiftl 3 (u32 (bit * 2))))))
                      (shl32 bit_value (u32 (bit * 2))))
  else halt Undef.

Definition nx_gpio_get_bit2 (value bit : Z) : code Z :=
  if u32 (bit * 2) <? 32 then ret (Z.land (Z.shiftr value (u32 (bit * 2))) 3) else halt Undef.

(** [binit] is cleared on every call, so the table always is. *)
Definition nx_gpio_initialize : code Z :=
  g <-- gget ;;
  gput (GpioVars (valid_bit g) (pregisters g) false) ;;;
  g <-- gget ;;
  (if binit g then ret tt
   else gput (GpioVars (valid_bit g)
                (for_Z 0 NUMBER_OF_GPIO_MODULE (fun i l => <[Z.to_nat i := NULL]> l)
                   (pregisters g)) true)) ;;;
  g <-- gget ;;
  gput (GpioVars (for_Z 0 NUMBER_OF_GPIO_MODULE (fun i l => <[Z.to_nat i := 0xFFFFFFFF]> l)
                    (valid_bit g)) (pregisters g) (binit g)) ;;;
  ret 1.

Definition nx_gpio_get_number_of_module : Z := NUMBER_OF_GPIO_MODULE.
Definition nx_gpio_get_size_of_register_set : Z := sizeof nx_gpio_register_set.

(** Access to [__g_module_variables[i]]: an index past the table is undefined. *)
Definition nx_gpio_set_base_address (module_index base_address : Z) : code unit :=
  g <-- gget ;;
  if module_index <? NUMBER_OF_GPIO_MODULE then
    gput (GpioVars (valid_bit g) (<[Z.to_nat module_index := base_address]> (pregisters g))
            (binit g))
  else halt Undef.

Definition nx_gpio_get_base_address (module_index : Z) : code Z :=
  g <-- gget ;;
  match pregisters g !! Z.to_nat module_index with
  | Some p => ret p
  | None => halt Undef
  end.

(** [pregister = __g_module_variables[module_index].pregister] *)
Definition pregister (module_index : Z) : code Z := nx_gpio_get_base_address module_index.

Definition nx_gpio_open_module (module_index : Z) : code Z :=
  p <-- pregister module_index ;;
  wr32 (gpio p "gpiox_slew_disable_default") 0xFFFFFFFF ;;;
  wr32 (gpio p "gpiox_drv1_disable_default") 0xFFFFFFFF ;;;
  wr32 (gpio p "gpiox_drv0_disable_default") 0xFFFFFFFF ;;;
  wr32 (gpio p "gpiox_pullsel_disable_default") 0xFFFFFFFF ;;;
  wr32 (gpio p "gpiox_pullenb_disable_default") 0xFFFFFFFF ;;;
  ret 1.

Definition nx_gpio_close_module (module_index : Z) : code Z := ret 1.
Definition nx_gpio_check_busy (module_index : Z) : code Z := ret 0.

(** [&pregister->gpioxaltfn[bit_number / 16]]: the array has two elements. *)
Definition altfn (p bit_number : Z) : code Z :=
  if bit_number / 16 <? countof nx_gpio_register_set "gpioxaltfn"
  then ret (gpio p "gpioxaltfn" + 4 * (bit_number / 16))
  else halt Undef.

Definition nx_gpio_set_pad_function (module_index bit_number padfunc : Z) : code unit :=
  p <-- pregister module_index ;;
  a <-- altfn p bit_number ;;
  nx_gpio_set_bit2 a (bit_number mod 16) padfunc.

Definition nx_gpio_set_pad_function32 (module_index msbvalue lsbvalue : Z) : code unit :=
  p <-- pregister module_index ;;
  wr32 (gpio p "gpioxaltfn" + 4 * 0) lsbvalue ;;;
  wr32 (gpio p "gpioxaltfn" + 4 * 1) msbvalue.

Definition nx_gpio_get_pad_function (module_index bit_number : Z) : code Z :=
  p <-- pregister module_index ;;
  a <-- altfn p bit_number ;;
  v <-- rd32 a ;;
  nx_gpio_get_bit2 v (bit_number mod 16).

(** The accessors of one bit, and of all 32, of one register. *)
Definition set_reg_bit (n : string) (module_index bit_number enb : Z) : code unit :=
  p <-- pregister module_index ;; nx_gpio_set_bit (gpio p n) bit_number enb.

Definition get_reg_bit (n : string) (module_index bit_number : Z) : code Z :=
  p <-- pregister module_index ;; v <-- rd32 (gpio p n) ;; nx_gpio_get_bit v bit_number.

Definition set_reg (n : string) (module_index v : Z) : code unit :=
  p <-- pregister module_index ;; wr32 (gpio p n) v.

Definition get_reg (n : string) (module_index : Z) : code Z :=
  p <-- pregister module_index ;; rd32 (gpio p n).

Definition nx_gpio_set_output_enable := set_reg_bit "gpioxoutenb".
Definition nx_gpio_get_output_enable := get_reg_bit "gpioxoutenb".
Definition nx_gpio_get_detect_enable := get_reg_bit "gpioxdetenb".
Definition nx_gpio_get_detect_enable32 := get_reg "gpioxdetenb".
Definition nx_gpio_set_detect_enable := set_reg_bit "gpioxdetenb".
Definition nx_gpio_set_detect_enable32 := set_reg "gpioxdetenb".

Definition nx_gpio_set_output_enable32 (module_index output_enb : Z) : code unit :=
  p <-- pregister module_index ;;
  if output_enb =? 0 then wr32 (gpio p "gpioxoutenb") 0x0
  else wr32 (gpio p "gpioxoutenb") 0xFFFFFFFF.

Definition nx_gpio_get_output_enable32 := get_reg "gpioxoutenb".
Definition nx_gpio_set_output_value := set_reg_bit "gpioxout".
Definition nx_gpio_get_output_value := get_reg_bit "gpioxout".
Definition nx_gpio_set_output_value32 := set_reg "gpioxout".
Definition nx_gpio_get_output_value32 := get_reg "gpioxout".
Definition nx_gpio_get_input_value := get_reg_bit "gpioxpad".

Definition nx_gpio_set_pull_select (module_index bit_number enable : Z) : code unit :=
  set_reg_bit "gpiox_pullsel_disable_default" module_index bit_number 1 ;;;
  set_reg_bit "gpiox_pullsel" module_index bit_number enable.

Definition nx_gpio_set_pull_select32 := set_reg "gpiox_pullsel".
Definition nx_gpio_get_pull_select := get_reg_bit "gpiox_pullsel".
Definition nx_gpio_get_pull_select32 := get_reg "gpiox_pullsel".

Definition nx_gpio_set_pull_mode (module_index bit_number mode : Z) : code unit :=
  set_reg_bit "gpiox_pullsel_disable_default" module_index bit_number 1 ;;;
  set_reg_bit "gpiox_pullenb_disable_default" module_index bit_number 1 ;;;
  if mode =? nx_gpio_pull_off then
    set_reg_bit "gpiox_pullenb" module_index bit_number 0 ;;;
    set_reg_bit "gpiox_pullsel" module_index bit_number 0
  else
    set_reg_bit "gpiox_pullsel" module_index bit_number
      (if Z.land mode 1 =? 0 then 0 else 1) ;;;
    set_reg_bit "gpiox_pullenb" module_index bit_number 1.

Definition nx_gpio_set_drive_strength (module_index bit_number drvstrength : Z) : code unit :=
  p <-- pregister module_index ;;
  nx_gpio_set_bit (gpio p "gpiox_drv1") bit_number (Z.land (Z.shiftr drvstrength 0) 0x1) ;;;
  nx_gpio_set_bit (gpio p "gpiox_drv0") bit_number (Z.land (Z.shiftr drvstrength 1) 0x1).

Definition nx_gpio_set_drive_strength_disable_default (module_index bit_number enable : Z)
    : code unit :=
  p <-- pregister module_index ;;
  nx_gpio_set_bit (gpio p "gpiox_drv1_disable_default") bit_number enable ;;;
  nx_gpio_set_bit (gpio p "gpiox_drv0_disable_default") bit_number enable.

Definition nx_gpio_get_drive_strength (module_index bit_number : Z) : code Z :=
  p <-- pregister module_index ;;
  v <-- rd32 (gpio p "gpiox_drv0") ;;
  b0 <-- nx_gpio_get_bit v bit_number ;;
  v <-- rd32 (gpio p "gpiox_drv1") ;;
  b1 <-- nx_gpio_get_bit v bit_number ;;
  ret (Z.lor (shl32 b0 1) (Z.shiftl b1 0)).
End Code.

(** ** The pins

    What the driver promises is in terms of pins: a pin of a module has the
    attributes below, each a bit field of one register of the module's block. *)
Inductive attr :=
  | Func | Out | OutEnable | Detect | PullSel | PullSelDis | PullEn | PullEnDis
  | Drv1 | Drv1Dis | Drv0 | Drv0Dis.

#[global] Instance attr_eq_dec : EqDecision attr.
Proof. solve_decision. Defined.

Definition attr_name (a : attr) : string :=
  match a with
  | Func => "gpioxaltfn"
  | Out => "gpioxout"
  | OutEnable => "gpioxoutenb"
  | Detect => "gpioxdetenb"
  | PullSel => "gpiox_pullsel"
  | PullSelDis => "gpiox_pullsel_disable_default"
  | PullEn => "gpiox_pullenb"
  | PullEnDis => "gpiox_pullenb_disable_default"
  | Drv1 => "gpiox_drv1"
  | Drv1Dis => "gpiox_drv1_disable_default"
  | Drv0 => "gpiox_drv0"
  | Drv0Dis => "gpiox_drv0_disable_default"
  end.

Definition attr_width (a : attr) : Z := match a with Func => 2 | _ => 1 end.

(** Where the attribute of pin [b] lies in the block: offset and first bit. *)
Definition attr_off (a : attr) (b : Z) : Z :=
  offsetof nx_gpio_register_set (attr_name a) + match a with Func => 4 * (b / 16) | _ => 0 end.

Definition attr_shift (a : attr) (b : Z) : Z :=
  match a with Func => b mod 16 * 2 | _ => b end.

Definition pin : Type := attr -> Z.

(** The pin [b] of the block at [p], from the words of the registers. *)
Definition view (R : Z -> Z) (p b : Z) : pin := fun a =>
  bits_get (attr_width a) (attr_shift a b) (R (p + attr_off a b)).

Definition upd (a : attr) (v : Z) (p : pin) : pin := fun x => if decide (x = a) then v else p x.

(** The calls that change a pin, what each does to it, and their arguments. *)
Inductive gpio_op :=
  | Pad_function (f : Z)
  | Output_enable (e : bool)
  | Output_value (e : bool)
  | Detect_enable (e : bool)
  | Pull_select (e : bool)
  | Pull_mode (mode : Z)
  | Drive_strength (n : Z)
  | Drive_default_off (e : bool).

Definition op_ok (op : gpio_op) : Prop :=
  match op with
  | Pad_function f => 0 <= f < 4
  | Pull_mode m => is_u32 m
  | Drive_strength n => is_u32 n
  | _ => True
  end.

Definition op_spec (op : gpio_op) (p : pin) : pin :=
  match op with
  | Pad_function f => upd Func f p
  | Output_enable e => upd OutEnable (Z.b2z e) p
  | Output_value e => upd Out (Z.b2z e) p
  | Detect_enable e => upd Detect (Z.b2z e) p
  | Pull_select e => upd PullSel (Z.b2z e) (upd PullSelDis 1 p)
  | Pull_mode m =>
      upd PullEn (Z.b2z (negb (m =? nx_gpio_pull_off)))
        (upd PullSel (if m =? nx_gpio_pull_off then 0 else m mod 2)
           (upd PullEnDis 1 (upd PullSelDis 1 p)))
  | Drive_strength n => upd Drv0 (n / 2 mod 2) (upd Drv1 (n mod 2) p)
  | Drive_default_off e => upd Drv0Dis (Z.b2z e) (upd Drv1Dis (Z.b2z e) p)
  end.

Definition op_run `{Machine D} (op : gpio_op) (m b : Z) : prog D gpio_vars unit :=
  match op with
  | Pad_function f => nx_gpio_set_pad_function m b f
  | Output_enable e => nx_gpio_set_output_enable m b (Z.b2z e)
  | Output_value e => nx_gpio_set_output_value m b (Z.b2z e)
  | Detect_enable e => nx_gpio_set_detect_enable m b (Z.b2z e)
  | Pull_select e => nx_gpio_set_pull_select m b (Z.b2z e)
  | Pull_mode mode => nx_gpio_set_pull_mode m b mode
  | Drive_strength n => nx_gpio_set_drive_strength m b n
  | Drive_default_off e => nx_gpio_set_drive_strength_disable_default m b (Z.b2z e)
  end.

(** The calls that tell an attribute of a pin, and what they tell. *)
Inductive gpio_query :=
  | Q_pad_function | Q_output_enable | Q_detect_enable | Q_output_value
  | Q_pull_select | Q_drive_strength.

Definition query_spec (q : gpio_query) (p : pin) : Z :=
  match q with
  | Q_pad_function => p Func
  | Q_output_enable => p OutEnable
  | Q_detect_enable => p Detect
  | Q_output_value => p Out
  | Q_pull_select => p PullSel
  | Q_drive_strength => 2 * p Drv0 + p Drv1
  end.

Definition query_run `{Machine D} (q : gpio_query) (m b : Z) : prog D gpio_vars Z :=
  match q with
  | Q_pad_function => nx_gpio_get_pad_function m b
  | Q_output_enable => nx_gpio_get_output_enable m b
  | Q_detect_enable => nx_gpio_get_detect_enable m b
  | Q_output_value => nx_gpio_get_output_value m b
  | Q_pull_select => nx_gpio_get_pull_select m b
  | Q_drive_strength => nx_gpio_get_drive_strength m b
  end.

(** Blocks that do not overlap. *)
Definition apart (bases : list Z) : Prop :=
  forall i j p q, bases !! i = Some p -> bases !! j = Some q -> i <> j -> 0x70 <= Z.abs (p - q).

(** ** Attributes are separate fields *)

Lemma attr_shift_ok a b : 0 <= b < 32 -> 0 <= attr_shift a b /\ attr_shift a b + attr_width a <= 32.
Proof. intros Hb. destruct a; cbn; Z.div_mod_to_equations; lia. Qed.

Lemma attr_width_pos a : 0 <= attr_width a.
Proof. by destruct a. Qed.

Lemma attr_off_range a b : 0 <= b < 32 -> 0 <= attr_off a b < 0x70.
Proof.
  intros Hb. unfold attr_off. destruct a; cbn [attr_name]; 
  match goal with |- context [offsetof ?l ?n] =>
    let v := eval vm_compute in (offsetof l n) in change (offsetof l n) with v end;
  Z.div_mod_to_equations; lia.
Qed.

(** The offset alone tells the register. *)
Lemma attr_off_inj a b a' b' :
  0 <= b < 32 -> 0 <= b' < 32 -> attr_off a b = attr_off a' b' -> a = a'.
Proof.
  intros Hb Hb' Ho. unfold attr_off in Ho.
  assert (0 <= b / 16 <= 1) by (Z.div_mod_to_equations; lia).
  assert (0 <= b' / 16 <= 1) by (Z.div_mod_to_equations; lia).
  set (q := b / 16) in *. set (q' := b' / 16) in *. clearbody q q'.
  destruct a, a'; first [reflexivity | exfalso; vm_compute in Ho; discriminate Ho |
    exfalso; cbn [attr_name] in Ho;
    repeat match type of Ho with context [offsetof ?l ?n] =>
      let v := eval vm_compute in (offsetof l n) in change (offsetof l n) with v in Ho end; lia].
Qed.

(** Two attributes of a block share no bit of a register. *)
Lemma attr_apart a b a' b' :
  0 <= b < 32 -> 0 <= b' < 32 -> attr_off a b = attr_off a' b' -> (a, b) <> (a', b') ->
  attr_shift a b + attr_width a <= attr_shift a' b' \/
  attr_shift a' b' + attr_width a' <= attr_shift a b.
Proof.
  intros Hb Hb' Ho Hne. pose proof (attr_off_inj a b a' b' Hb Hb' Ho) as <-.
  assert (b <> b') by congruence. unfold attr_off in Ho.
  destruct a; cbn [attr_shift attr_width]; try lia; Z.div_mod_to_equations; lia.
Qed.

Section Pins.
Context {D : Type} `{Storage D plain} (bases : list Z) (Hapart : apart bases).
Hypothesis Hplain : forall i p o,
  bases !! i = Some p -> 0 <= o < 0x70 -> plain (p + o) = true.

#[local] Abbreviation pst := (st D gpio_vars).

(** The pin [b] of module [m]. *)
Definition pin_at (s : pst) (m b : Z) : pin := fun a =>
  match bases !! Z.to_nat m with Some p => view (reg (dev s)) p b a | None => 0 end.

(** [s'] is [s] with the pins changed by [f] at pin [b] of module [m], and with
    every plain register that holds no attribute of that pin unchanged. *)
Definition only_pin (m b : Z) (f : pin -> pin) (s s' : pst) : Prop :=
  glb s' = glb s /\
  (forall m' b' a, 0 <= m' < Z.of_nat (length bases) -> 0 <= b' < 32 ->
     pin_at s' m' b' a = if decide (m' = m /\ b' = b) then f (pin_at s m b) a
                         else pin_at s m' b' a) /\
  (forall x, plain x = true ->
     (forall p a, bases !! Z.to_nat m = Some p -> x <> p + attr_off a b) ->
     reg (dev s') x = reg (dev s) x).

Lemma only_pin_refl m b s : 0 <= b < 32 -> only_pin m b (fun p => p) s s.
Proof. intros Hb. split_and!; [done| |done]. intros m' b' a _ _. by case_decide; break; subst. Qed.

Lemma only_pin_ext m b f g s s' :
  (forall p a, f p a = g p a) -> only_pin m b f s s' -> only_pin m b g s s'.
Proof.
  intros Hfg (Hg & Hp & Hr). split_and!; [done| |done].
  intros m' b' a Hm' Hb'. rewrite Hp by done. case_decide; [apply Hfg|done].
Qed.

(** One store of an attribute. *)
Lemma store_attr m b p a v s d :
  0 <= m < Z.of_nat (length bases) -> 0 <= b < 32 -> bases !! Z.to_nat m = Some p ->
  0 <= v < 2 ^ attr_width a ->
  (forall x, plain x = true -> reg d x =
     if x =? p + attr_off a b
     then bits_put (attr_width a) (attr_shift a b) (reg (dev s) x) v
     else reg (dev s) x) ->
  only_pin m b (upd a v) s (St d (glb s)).
Proof.
  intros Hm Hb Hp Hv Hd. split_and!; [done| |].
  - intros m' b' a' Hm' Hb'. unfold pin_at.
    destruct (lookup_lt_is_Some_2 bases (Z.to_nat m')) as [p' Hp']; [lia|].
    rewrite Hp, Hp'. unfold view. cbn [dev].
    pose proof (attr_off_range a b Hb). pose proof (attr_off_range a' b' Hb').
    pose proof (attr_width_pos a). pose proof (attr_width_pos a').
    pose proof (attr_shift_ok a b Hb). pose proof (attr_shift_ok a' b' Hb').
    rewrite Hd by by eapply Hplain. unfold upd.
    destruct (Z.eqb_spec (p' + attr_off a' b') (p + attr_off a b)) as [He|He].
    + assert (m' = m) as ->.
      { destruct (decide (m' = m)); [done|]. exfalso.
        assert (Z.to_nat m' <> Z.to_nat m) as Hne by lia.
        pose proof (Hapart _ _ _ _ Hp' Hp Hne). lia. }
      assert (p' = p) as -> by congruence.
      destruct (decide ((a, b) = (a', b'))) as [Hab|Hab].
      * injection Hab as <- <-. rewrite decide_True by done. rewrite decide_True by done.
        apply bits_get_put; lia.
      * rewrite bits_get_put_ne; try lia; [|apply attr_apart; [done|done|lia|done]].
        case_decide as Hc; [|done]. destruct Hc as [_ ->].
        rewrite decide_False by congruence. done.
    + case_decide as Hc; [|done]. destruct Hc as [-> ->].
      assert (p' = p) as -> by congruence.
      case_decide as Ha; [|done]. by subst.
  - intros x Hx Hne. cbn [dev]. rewrite Hd by done.
    destruct (Z.eqb_spec x (p + attr_off a b)) as [->|]; [|done].
    by destruct (Hne p a).
Qed.

Lemma only_pin_trans m b f g s1 s2 s3 :
  0 <= m < Z.of_nat (length bases) -> 0 <= b < 32 ->
  (forall p q, (forall a, p a = q a) -> forall a, g p a = g q a) ->
  only_pin m b f s1 s2 -> only_pin m b g s2 s3 -> only_pin m b (fun p => g (f p)) s1 s3.
Proof.
  intros Hm Hb Hg (Hg1 & Hp1 & Hr1) (Hg2 & Hp2 & Hr2). split_and!.
  - congruence.
  - intros m' b' a Hm' Hb'. rewrite Hp2 by done. case_decide as Hc.
    + apply Hg. intros a'. rewrite Hp1 by done. by rewrite decide_True.
    + rewrite Hp1 by done. by rewrite decide_False.
  - intros x Hx Hne. rewrite Hr2, Hr1 by done. done.
Qed.

Lemma upd_ext a v p q : (forall x, p x = q x) -> forall x, upd a v p x = upd a v q x.
Proof. intros Hpq x. unfold upd. by case_decide. Qed.

(** Setting a bit of a register is one store of a one-bit attribute. *)
Lemma set_bit_attr m b p n a e s :
  0 <= m < Z.of_nat (length bases) -> 0 <= b < 32 -> bases !! Z.to_nat m = Some p ->
  a <> Func -> n = attr_name a -> 0 <= e <= 1 ->
  returns (nx_gpio_set_bit (gpio p n) b e) s (fun _ s' _ => only_pin m b (upd a e) s s').
Proof.
  intros Hm Hb Hp Ha -> He. unfold nx_gpio_set_bit, gpio.
  assert (Hoff : offsetof nx_gpio_register_set (attr_name a) = attr_off a b)
    by (unfold attr_off; destruct a; try done; lia).
  assert (Hpl : plain (p + attr_off a b) = true)
    by (eapply Hplain; [done|by apply attr_off_range]).
  rewrite Hoff. destruct (Z.ltb_spec b 32); [|lia].
  apply returns_bind, returns_rd32_plain; [done|]. intros d1 Hd1.
  apply returns_wr32_plain; [done|]. intros d2 Hd2. cbn [dev glb] in *.
  apply (store_attr m b p); [done|done|done|destruct a; cbn; lia|].
  intros x Hx. rewrite Hd2 by done.
  destruct (Z.eqb_spec x (p + attr_off a b)) as [->|]; [|by apply Hd1].
  assert (Hw : attr_width a = 1) by by destruct a.
  assert (Hsh : attr_shift a b = b) by by destruct a.
  rewrite Hw, Hsh. unfold shl32. rewrite (u32_small e) by (unfold is_u32; lia).
  assert (Hfit : is_u32 (bits_put 1 b (reg (dev s) (p + attr_off a b)) e)).
  { apply bits_put_range; try lia. by apply storage_word. }
  change 1 with (Z.ones 1) in |- * at 1.
  rewrite (u32_small (Z.shiftl e b)); [by apply u32_small|].
  unfold is_u32. rewrite Z.shiftl_mul_pow2 by lia.
  assert (2 ^ b <= 2 ^ 31) by (apply Z.pow_le_mono_r; lia).
  assert (0 < 2 ^ b) by (apply Z.pow_pos_nonneg; lia). nia.
Qed.

Lemma returns_pregister m p s (Q : Z -> pst -> list event -> Prop) :
  pregisters (glb s) = bases -> bases !! Z.to_nat m = Some p -> Q p s [] ->
  returns (pregister m) s Q.
Proof.
  intros Hg Hp HQ. unfold pregister, nx_gpio_get_base_address.
  apply returns_bind, returns_gget. cbn [app]. by rewrite Hg, Hp.
Qed.

Lemma set_reg_bit_attr m b n a e s :
  pregisters (glb s) = bases -> 0 <= m < Z.of_nat (length bases) -> 0 <= b < 32 ->
  a <> Func -> n = attr_name a -> 0 <= e <= 1 ->
  returns (set_reg_bit n m b e) s (fun _ s' _ => only_pin m b (upd a e) s s').
Proof.
  intros Hg Hm Hb Ha Hn He.
  destruct (lookup_lt_is_Some_2 bases (Z.to_nat m)) as [p Hp]; [lia|].
  unfold set_reg_bit. apply returns_bind, (returns_pregister m p); [done|done|].
  by apply (set_bit_attr m b p n a).
Qed.

(** Two calls in a row change the pin twice. *)
Lemma only_pin_bind m b f g (c1 c2 : prog D gpio_vars unit) s :
  0 <= m < Z.of_nat (length bases) -> 0 <= b < 32 ->
  (forall p q, (forall a, p a = q a) -> forall a, g p a = g q a) ->
  returns c1 s (fun _ s' _ => only_pin m b f s s') ->
  (forall s1, glb s1 = glb s -> returns c2 s1 (fun _ s' _ => only_pin m b g s1 s')) ->
  returns (bind c1 (fun _ => c2)) s (fun _ s' _ => only_pin m b (fun p => g (f p)) s s').
Proof.
  intros Hm Hb Hg H1 H2. apply returns_bind. eapply returns_weaken; [exact H1|].
  intros [] s1 t1 Hs1. eapply returns_weaken; [apply H2, Hs1|].
  intros [] s2 t2 Hs2. cbn. by eapply only_pin_trans.
Qed.

Lemma b2z_bit e : 0 <= Z.b2z e <= 1.
Proof. destruct e; cbn; lia. Qed.

Lemma altfn_ok p b s (Q : Z -> pst -> list event -> Prop) :
  0 <= b < 32 -> Q (p + attr_off Func b) s [] -> returns (altfn p b) s Q.
Proof.
  intros Hb HQ. unfold altfn.
  change (countof nx_gpio_register_set "gpioxaltfn") with 2.
  destruct (Z.ltb_spec (b / 16) 2); [|Z.div_mod_to_equations; lia].
  apply returns_ret. unfold gpio. by rewrite <- Z.add_assoc.
Qed.

Lemma func_shift b : 0 <= b < 32 -> u32 (b mod 16 * 2) = attr_shift Func b.
Proof.
  intros Hb. cbn [attr_shift]. apply u32_small. unfold is_u32.
  pose proof (Z.mod_pos_bound b 16). lia.
Qed.

Lemma set_pad_function_attr m b f s :
  pregisters (glb s) = bases -> 0 <= m < Z.of_nat (length bases) -> 0 <= b < 32 ->
  0 <= f < 4 ->
  returns (nx_gpio_set_pad_function m b f) s (fun _ s' _ => only_pin m b (upd Func f) s s').
Proof.
  intros Hg Hm Hb Hf.
  destruct (lookup_lt_is_Some_2 bases (Z.to_nat m)) as [p Hp]; [lia|].
  unfold nx_gpio_set_pad_function.
  apply returns_bind, (returns_pregister m p); [done|done|].
  apply returns_bind, altfn_ok; [done|].
  assert (Hpl : plain (p + attr_off Func b) = true)
    by (eapply Hplain; [done|by apply attr_off_range]).
  pose proof (attr_shift_ok Func b Hb) as [Hs0 Hs1]. cbn [attr_width] in Hs1.
  unfold nx_gpio_set_bit2. rewrite func_shift by done.
  destruct (Z.ltb_spec (attr_shift Func b) 32); [|lia].
  apply returns_bind, returns_rd32_plain; [done|]. intros d1 Hd1.
  apply returns_wr32_plain; [done|]. intros d2 Hd2. cbn [dev glb app] in *.
  apply (store_attr m b p); [done|done|done|exact Hf|].
  intros x Hx. rewrite Hd2 by done.
  destruct (Z.eqb_spec x (p + attr_off Func b)) as [->|]; [|by apply Hd1].
  set (v := reg (dev s) (p + attr_off Func b)).
  assert (Hv : is_u32 v) by by apply storage_word.
  cbn [attr_width].
  assert (Hput : is_u32 (bits_put 2 (attr_shift Func b) v f)) by (apply bits_put_range; first [lia|exact Hv]).
  unfold shl32. rewrite (u32_small (Z.land _ _)) by by apply land_bound.
  rewrite (u32_small (Z.shiftl f _)); [by apply u32_small|].
  unfold is_u32. rewrite Z.shiftl_mul_pow2 by lia.
  assert (2 ^ attr_shift Func b <= 2 ^ 30) by (apply Z.pow_le_mono_r; lia).
  assert (0 < 2 ^ attr_shift Func b) by (apply Z.pow_pos_nonneg; lia). nia.
Qed.

Lemma reads_attr m b p a s (Q : Z -> pst -> list event -> Prop) :
  0 <= b < 32 -> bases !! Z.to_nat m = Some p ->
  (forall v s1 t, glb s1 = glb s ->
     (forall x, plain x = true -> reg (dev s1) x = reg (dev s) x) ->
     bits_get (attr_width a) (attr_shift a b) v = pin_at s m b a -> Q v s1 t) ->
  returns (rd32 (p + attr_off a b)) s Q.
Proof.
  intros Hb Hp HQ.
  apply returns_rd32_plain; [eapply Hplain; [done|by apply attr_off_range]|].
  intros d Hd. apply HQ; [done|exact Hd|]. unfold pin_at. by rewrite Hp.
Qed.

(** States with the same registers show the same pins. *)
Lemma pin_at_same s s' m b a :
  0 <= b < 32 -> (forall x, plain x = true -> reg (dev s') x = reg (dev s) x) ->
  pin_at s' m b a = pin_at s m b a.
Proof.
  intros Hb Hr. unfold pin_at. destruct (bases !! Z.to_nat m) as [p|] eqn:Hp; [|done].
  unfold view. rewrite Hr; [done|]. eapply Hplain; [done|by apply attr_off_range].
Qed.

Lemma get_bit_ok v b s (Q : Z -> pst -> list event -> Prop) :
  0 <= b < 32 -> Q (bits_get 1 b v) s [] -> returns (nx_gpio_get_bit v b) s Q.
Proof.
  intros Hb HQ. unfold nx_gpio_get_bit. destruct (Z.ltb_spec b 32); [|lia]. exact HQ.
Qed.

Lemma get_reg_bit_attr m b n a s :
  pregisters (glb s) = bases -> 0 <= m < Z.of_nat (length bases) -> 0 <= b < 32 ->
  a <> Func -> n = attr_name a ->
  returns (get_reg_bit n m b) s (fun v s' _ =>
    v = pin_at s m b a /\ glb s' = glb s /\
    forall x, plain x = true -> reg (dev s') x = reg (dev s) x).
Proof.
  intros Hg Hm Hb Ha ->.
  destruct (lookup_lt_is_Some_2 bases (Z.to_nat m)) as [p Hp]; [lia|].
  unfold get_reg_bit. apply returns_bind, (returns_pregister m p); [done|done|].
  unfold gpio.
  replace (offsetof nx_gpio_register_set (attr_name a)) with (attr_off a b)
    by (unfold attr_off; destruct a; try done; lia).
  apply returns_bind, (reads_attr m b p a); [done|done|].
  intros v s1 t1 Hg1 Hr1 Hv. apply get_bit_ok; [done|].
  split_and!; [|done|exact Hr1]. rewrite <- Hv. by destruct a.
Qed.

(** A state the driver has returned from has the same table. *)
Ltac same_table := cbn [dev glb] in *; congruence.

Lemma pull_mode_attr m b mode s :
  pregisters (glb s) = bases -> 0 <= m < Z.of_nat (length bases) -> 0 <= b < 32 ->
  returns (nx_gpio_set_pull_mode m b mode) s (fun _ s' _ =>
    only_pin m b (op_spec (Pull_mode mode)) s s').
Proof.
  intros Hg Hm Hb. unfold nx_gpio_set_pull_mode. cbn [op_spec].
  set (off := mode =? nx_gpio_pull_off).
  apply (only_pin_bind m b (upd PullSelDis 1)
    (fun p => upd PullEn (Z.b2z (negb off)) (upd PullSel (if off then 0 else mode mod 2)
       (upd PullEnDis 1 p)))); [done|done| | |].
  { intros p q Hpq a. by repeat apply upd_ext. }
  { by apply set_reg_bit_attr. }
  intros s1 Hs1.
  apply (only_pin_bind m b (upd PullEnDis 1)
    (fun p => upd PullEn (Z.b2z (negb off)) (upd PullSel (if off then 0 else mode mod 2) p)));
    [done|done| | |].
  { intros p q Hpq a. by repeat apply upd_ext. }
  { apply set_reg_bit_attr; try done. same_table. }
  intros s2 Hs2. pose proof (Z.mod_pos_bound mode 2).
  destruct off; cbn [negb Z.b2z].
  - eapply returns_weaken.
    + apply (only_pin_bind m b (upd PullEn 0) (upd PullSel 0)); try done.
      * apply upd_ext.
      * apply set_reg_bit_attr; try done. same_table.
      * intros s3 Hs3. apply set_reg_bit_attr; try done. same_table.
    + intros [] s3 t3. apply only_pin_ext. intros p a. unfold upd. repeat case_decide; by subst.
  - assert ((if Z.land mode 1 =? 0 then 0 else 1) = mode mod 2) as ->.
    { change 1 with (Z.ones 1) at 1. rewrite Z.land_ones by lia. change (2 ^ 1) with 2.
      destruct (Z.eqb_spec (mode mod 2) 0); lia. }
    apply (only_pin_bind m b (upd PullSel (mode mod 2)) (upd PullEn 1)); try done.
    + apply upd_ext.
    + apply set_reg_bit_attr; try done; [same_table|lia].
    + intros s3 Hs3. apply set_reg_bit_attr; try done. same_table.
Qed.

(** Two bits of the same block, set after one look-up of the block. *)
Lemma two_bits_attr m b n1 n2 a1 a2 e1 e2 s :
  pregisters (glb s) = bases -> 0 <= m < Z.of_nat (length bases) -> 0 <= b < 32 ->
  a1 <> Func -> a2 <> Func -> n1 = attr_name a1 -> n2 = attr_name a2 ->
  0 <= e1 <= 1 -> 0 <= e2 <= 1 ->
  returns (p <-- pregister m ;; nx_gpio_set_bit (gpio p n1) b e1 ;;;
           nx_gpio_set_bit (gpio p n2) b e2) s
    (fun _ s' _ => only_pin m b (fun q => upd a2 e2 (upd a1 e1 q)) s s').
Proof.
  intros Hg Hm Hb Ha1 Ha2 Hn1 Hn2 He1 He2.
  destruct (lookup_lt_is_Some_2 bases (Z.to_nat m)) as [p Hp]; [lia|].
  apply returns_bind, (returns_pregister m p); [done|done|].
  apply (only_pin_bind m b (upd a1 e1) (upd a2 e2)); [done|done|apply upd_ext| |].
  - by apply (set_bit_attr m b p).
  - intros s1 Hs1. by apply (set_bit_attr m b p).
Qed.

(** C15: the contract of the GPIO driver: a call that sets the function, the
    output, the direction, the detection, the pull or the drive of pin [b] of
    module [m] changes the attributes of that pin as [op_spec] says; every
    other pin of every module, and every other register, is as before. *)
Theorem gpio_refines op m b s :
  pregisters (glb s) = bases -> 0 <= m < Z.of_nat (length bases) -> 0 <= b < 32 -> op_ok op ->
  returns (op_run op m b) s (fun _ s' _ => only_pin m b (op_spec op) s s').
Proof.
  intros Hg Hm Hb Hop. pose proof b2z_bit as Hbit.
  destruct op as [f|e|e|e|e|mode|n|e]; cbn [op_run op_spec op_ok] in *.
  - by apply set_pad_function_attr.
  - by apply set_reg_bit_attr.
  - by apply set_reg_bit_attr.
  - by apply set_reg_bit_attr.
  - apply (only_pin_bind m b (upd PullSelDis 1) (upd PullSel (Z.b2z e))); [done|done|apply upd_ext| |].
    + by apply set_reg_bit_attr.
    + intros s1 Hs1. apply set_reg_bit_attr; try done. same_table.
  - by apply pull_mode_attr.
  - assert (Hn : forall k, 0 <= k -> Z.land (Z.shiftr n k) 1 = n / 2 ^ k mod 2).
    { intros k Hk. change 1 with (Z.ones 1). by rewrite Z.land_ones, Z.shiftr_div_pow2 by lia. }
    unfold nx_gpio_set_drive_strength. rewrite !Hn by lia.
    change (2 ^ 0) with 1. change (2 ^ 1) with 2. rewrite Z.div_1_r.
    pose proof (Z.mod_pos_bound n 2). pose proof (Z.mod_pos_bound (n / 2) 2).
    apply (two_bits_attr m b _ _ Drv1 Drv0); try done; lia.
  - by apply (two_bits_attr m b _ _ Drv1Dis Drv0Dis).
Qed.

(** What the driver tells about a pin is what the registers hold: each
    query returns the attribute [query_spec] names and changes no register. *)
Theorem gpio_tells q m b s :
  pregisters (glb s) = bases -> 0 <= m < Z.of_nat (length bases) -> 0 <= b < 32 ->
  returns (query_run q m b) s (fun v s' _ =>
    v = query_spec q (pin_at s m b) /\ glb s' = glb s /\
    forall x, plain x = true -> reg (dev s') x = reg (dev s) x).
Proof.
  intros Hg Hm Hb.
  destruct (lookup_lt_is_Some_2 bases (Z.to_nat m)) as [p Hp]; [lia|].
  destruct q; cbn [query_run query_spec]; try by apply get_reg_bit_attr.
  - unfold nx_gpio_get_pad_function.
    apply returns_bind, (returns_pregister m p); [done|done|].
    apply returns_bind, altfn_ok; [done|].
    apply returns_bind, (reads_attr m b p); [done|done|]. intros v s1 t1 Hg1 Hr1 Hv.
    unfold nx_gpio_get_bit2. rewrite func_shift by done.
    pose proof (attr_shift_ok Func b Hb). cbn [attr_width] in *.
    destruct (Z.ltb_spec (attr_shift Func b) 32); [|lia].
    apply returns_ret. split_and!; [|done|exact Hr1]. by rewrite <- Hv.
  - unfold nx_gpio_get_drive_strength.
    apply returns_bind, (returns_pregister m p); [done|done|].
    apply returns_bind.
    apply (reads_attr m b p Drv0); [done|done|]. intros v0 s1 t1 Hg1 Hr1 Hv0.
    apply returns_bind, get_bit_ok; [done|]. cbn [attr_width attr_shift] in Hv0. rewrite Hv0.
    apply returns_bind.
    apply (reads_attr m b p Drv1); [done|done|]. intros v1 s2 t2 Hg2 Hr2 Hv1.
    apply returns_bind, get_bit_ok; [done|]. cbn [attr_width attr_shift] in Hv1. rewrite Hv1.
    apply returns_ret. split_and!.
    + rewrite (pin_at_same s s1) by done.
      assert (H01 : forall d, 0 <= pin_at s m b d < 2 ^ attr_width d).
      { intros d. unfold pin_at, view. rewrite Hp. apply bits_get_range, attr_width_pos. }
      pose proof (H01 Drv0). pose proof (H01 Drv1). cbn [attr_width] in *.
      assert (pin_at s m b Drv0 = 0 \/ pin_at s m b Drv0 = 1) as [->| ->] by lia;
      assert (pin_at s m b Drv1 = 0 \/ pin_at s m b Drv1 = 1) as [->| ->] by lia; done.
    + congruence.
    + intros x Hx. by rewrite Hr2, Hr1.
Qed.
(** The value is not reduced to a truth value: setting the output of pin [b]
    to [v] stores the low bit of [v] in pin [b] and sets, besides, every higher
    pin whose bit of [v] is set. *)
Theorem gpio_output_spills m b v s :
  pregisters (glb s) = bases -> 0 <= m < Z.of_nat (length bases) -> 0 <= b < 32 ->
  returns (nx_gpio_set_output_value m b v) s (fun _ s' _ => forall b', 0 <= b' < 32 ->
    pin_at s' m b' Out =
      if b' <? b then pin_at s m b' Out
      else Z.lor (if b' =? b then 0 else pin_at s m b' Out) (Z.b2z (Z.testbit v (b' - b)))).
Proof.
  intros Hg Hm Hb.
  destruct (lookup_lt_is_Some_2 bases (Z.to_nat m)) as [p Hp]; [lia|].
  unfold nx_gpio_set_output_value, set_reg_bit, nx_gpio_set_bit.
  apply returns_bind, (returns_pregister m p); [done|done|].
  change (gpio p "gpioxout") with (p + attr_off Out 0).
  assert (Hpl : plain (p + attr_off Out 0) = true)
    by (eapply Hplain; [done|by apply attr_off_range]).
  apply returns_bind, returns_rd32_plain; [done|]. intros d1 Hd1.
  destruct (Z.ltb_spec b 32); [|lia].
  apply returns_wr32_plain; [done|]. intros d2 Hd2 b' Hb'.
  unfold pin_at, view. rewrite Hp. cbn [dev attr_width attr_shift].
  change (attr_off Out b') with (attr_off Out 0). rewrite Hd2, Z.eqb_refl by done.
  set (w := reg (dev s) (p + attr_off Out 0)).
  rewrite !bits_get_1 by lia. unfold shl32.
  rewrite testbit_u32, Z.lor_spec, Z.land_spec, Z.lnot_spec, testbit_shiftl1, testbit_u32,
    Z.shiftl_spec by lia.
  destruct (Z.ltb_spec b' 32); [|lia]. cbn [andb].
  destruct (Z.ltb_spec b' b) as [Hlt|Hge].
  - destruct (Z.eqb_spec b' b); [lia|]. cbn [negb].
    rewrite (Z.testbit_neg_r _ (b' - b)) by lia. by rewrite andb_true_r, orb_false_r.
  - rewrite (testbit_u32 v) by lia. destruct (Z.ltb_spec (b' - b) 32); [|lia]. cbn [andb].
    destruct (Z.eqb_spec b' b) as [->|]; cbn [negb].
    + rewrite andb_false_r. by destruct (Z.testbit v (b - b)).
    + rewrite andb_true_r. by destruct (Z.testbit w b'), (Z.testbit v (b' - b)).
Qed.
End Pins.

(** What initialising leaves does not depend on the variables before it. *)
Lemma initialize_ok {D} `{Machine D} (s : st D gpio_vars) :
  length (pregisters (glb s)) = 5%nat -> length (valid_bit (glb s)) = 5%nat ->
  nx_gpio_initialize s =
    Ok 1 (St (dev s) (GpioVars (replicate 5 0xFFFFFFFF) (replicate 5 NULL) true)) [].
Proof.
  intros Hl Hv. destruct s as [d [vb pr bi]]. cbn in Hl, Hv.
  do 5 (destruct pr as [|? pr]; [discriminate Hl|]). destruct pr; [|discriminate Hl].
  do 5 (destruct vb as [|? vb]; [discriminate Hv|]). by destruct vb; [|discriminate Hv].
Qed.

(** Initialising forgets every block, whatever was set before (the flag that
    should keep a second call from doing so is cleared by the call itself); a
    block set afterwards is the one that is used, and an index past the table
    is an error. *)
Theorem gpio_initialize_forgets {D} `{Machine D} (s : st D gpio_vars) m p v :
  length (pregisters (glb s)) = 5%nat -> length (valid_bit (glb s)) = 5%nat -> 0 <= m < 5 ->
  returns (nx_gpio_initialize ;;; nx_gpio_set_base_address m p ;;;
           nx_gpio_set_output_value32 m v) s (fun _ s' t =>
    pregisters (glb s') = <[Z.to_nat m := p]> (replicate 5 NULL) /\
    valid_bit (glb s') = replicate 5 0xFFFFFFFF /\ stores t = [(p, u32 v)]) /\
  forall k, 5 <= k -> ends (nx_gpio_set_base_address k p) s Undef (fun s' t => s' = s /\ t = []).
Proof.
  intros Hl Hv Hm. split.
  - apply returns_bind. unfold returns at 1. rewrite initialize_ok by done. cbn [app].
    unfold nx_gpio_set_base_address, NUMBER_OF_GPIO_MODULE.
    destruct (Z.ltb_spec m 5); [|lia]. do 4 go1.
    unfold nx_gpio_set_output_value32, set_reg.
    apply returns_bind, (returns_pregister (<[Z.to_nat m := p]> (replicate 5 NULL)) m p);
      [done|apply list_lookup_insert_eq; rewrite length_replicate; lia|].
    go1. split_and!; [done|done|]. cbn. unfold gpio.
    change (offsetof nx_gpio_register_set "gpioxout") with 0. by rewrite Z.add_0_r.
  - intros k Hk. unfold nx_gpio_set_base_address. apply ends_bind, returns_gget.
    destruct (Z.ltb_spec k NUMBER_OF_GPIO_MODULE); [unfold NUMBER_OF_GPIO_MODULE in *; lia|done].
Qed.

(** ** Witnesses: the machine whose registers are memory, the table as it starts *)

Lemma vars0_apart : apart (pregisters vars0).
Proof.
  intros i j p q Hi Hj Hne.
  do 5 (destruct i as [|i]; [injection Hi as <-; do 5 (destruct j as [|j];
    [injection Hj as <-; first [done|vm_compute; discriminate]|]); done|]). done.
Qed.

Definition fresh : st ram gpio_vars := St (Ram ∅ (fun _ => 0)) vars0.

Lemma gpio_refines_witness :
  returns (op_run (Pull_mode 1) 1 12) fresh (fun _ s' _ =>
    only_pin (plain := fun _ => true) (pregisters vars0) 1 12 (op_spec (Pull_mode 1)) fresh s').
Proof.
  apply (gpio_refines (plain := fun _ => true) (pregisters vars0) vars0_apart).
  - intros; reflexivity.
  - reflexivity.
  - split; vm_compute; [discriminate|reflexivity].
  - lia.
  - split; vm_compute; [discriminate|reflexivity].
Defined.

Lemma gpio_tells_witness :
  returns (query_run Q_drive_strength 4 31) fresh (fun v s' _ =>
    v = query_spec Q_drive_strength (pin_at (plain := fun _ => true) (pregisters vars0) fresh 4 31) /\
    glb s' = glb fresh /\
    forall x, true = true -> reg (plain := fun _ => true) (dev s') x = reg (plain := fun _ => true) (dev fresh) x).
Proof.
  apply (gpio_tells (plain := fun _ => true) (pregisters vars0)).
  - intros; reflexivity.
  - reflexivity.
  - split; vm_compute; [discriminate|reflexivity].
  - lia.
Defined.

Lemma gpio_output_spills_witness :
  returns (nx_gpio_set_output_value 0 3 2) fresh (fun _ s' _ => forall b', 0 <= b' < 32 ->
    pin_at (plain := fun _ => true) (pregisters vars0) s' 0 b' Out =
      if b' <? 3 then pin_at (plain := fun _ => true) (pregisters vars0) fresh 0 b' Out
      else Z.lor (if b' =? 3 then 0 else pin_at (plain := fun _ => true) (pregisters vars0) fresh 0 b' Out)
             (Z.b2z (Z.testbit 2 (b' - 3)))).
Proof.
  apply (gpio_output_spills (plain := fun _ => true) (pregisters vars0)).
  - intros; reflexivity.
  - reflexivity.
  - split; vm_compute; [discriminate|reflexivity].
  - lia.
Defined.

Lemma gpio_initialize_forgets_witness :
  returns (nx_gpio_initialize ;;; nx_gpio_set_base_address 2 0x5000 ;;;
           nx_gpio_set_output_value32 2 0xFF) fresh (fun _ s' t =>
    pregisters (glb s') = [NULL; NULL; 0x5000; NULL; NULL] /\
    valid_bit (glb s') = replicate 5 0xFFFFFFFF /\ stores t = [(0x5000, 0xFF)]) /\
  forall k, 5 <= k ->
    ends (nx_gpio_set_base_address k 0x5000) fresh Undef (fun s' t => s' = fresh /\ t = []).
Proof. apply (gpio_initialize_forgets fresh 2 0x5000 0xFF); [reflexivity|reflexivity|lia]. Defined.
