(* ===== verification/NxTimer.v ===== *)
(** The system timer of the board support
    (src/U-Boot/arch/arm/mach-nexell/timer.c): the PWM timer channel it runs, the
    choice of its divisors, the advancing time stamp kept from the decrementing
    counter, and the delays.  The clock tree it asks for the rate of its input
    is the interface [ClkTree]. *)

From S2P Require Import Prelude Machine.

Definition PHY_BASEADDR_TIMER : Z := 0xC0017000.
Definition CONFIG_TIMER_SYS_TICK_CH : Z := 0.
Definition CONFIG_SYS_HZ : Z := 1000.

Definition REG_TCFG0 : Z := 0x00.
Definition REG_TCFG1 : Z := 0x04.
Definition REG_TCON : Z := 0x08.
Definition REG_TCNTB0 : Z := 0x0C.
Definition REG_TCMPB0 : Z := 0x10.
Definition REG_TCNT0 : Z := 0x14.
Definition REG_CSTAT : Z := 0x44.

Definition TCON_BIT_AUTO : Z := Z.shiftl 1 3.
Definition TCON_BIT_UP : Z := Z.shiftl 1 1.
Definition TCON_BIT_RUN : Z := Z.shiftl 1 0.
Definition TCFG0_BIT_CH (ch : Z) : Z := if (ch =? 0) || (ch =? 1) then 0 else 8.
Definition TCFG1_BIT_CH (ch : Z) : Z := ch * 4.
Definition TCON_BIT_CH (ch : Z) : Z := if ch =? 0 then 0 else ch * 4 + 4.
Definition TINT_CSTAT_BIT_CH (ch : Z) : Z := ch + 5.
Definition TINT_CSTAT_MASK : Z := 0x1F.
Definition TIMER_TCNT_OFFS : Z := 0xC.

(** The file's static variables; [TIMER_COUNT] is never changed. *)
Record timer_vars := TimerVars {
  timestamp : Z;
  lastdec : Z;
  timerinit : Z;
  TIMER_FREQ : Z;
  TIMER_HZ : Z;
}.

Definition TIMER_COUNT : Z := 0xFFFFFFFF.

Definition vars0 : timer_vars := TimerVars 0 0 0 1000000 (1000000 / CONFIG_SYS_HZ).

(** What the timer asks of the clock tree, whose own variables are [C]: a handle
    for a name and the rate of a handle; once the tree has started ([tree_ok])
    there is a clock named pclk, and asking for its rate changes nothing. *)
Class ClkTree (D C : Type) := {
  clk_get : list Z -> prog D C Z;
  clk_get_rate : Z -> prog D C Z;
  tree_ok : C -> Prop;
  tree_rate : C -> Z;
  tree_rate_ok : forall s, tree_ok (glb s) ->
    (clk <-- clk_get (chars "pclk") ;; clk_get_rate clk) s = Ok (tree_rate (glb s)) s [];
  tree_rate_u64 : forall c, tree_ok c -> is_u64 (tree_rate c);
}.

Section Code.
Context {D C : Type} `{Machine D} `{ClkTree D C}.

#[local] Abbreviation code A := (prog D (timer_vars * C) A).

Definition tget : code timer_vars := g <-- gget ;; ret g.1.
Definition tput (v : timer_vars) : code unit := g <-- gget ;; gput (v, g.2).

Definition timer_clock (base ch mux scl : Z) : code unit :=
  v <-- rd32 (base + REG_TCFG0) ;;
  let val := Z.land v (not32 (Z.shiftl 0xFF (TCFG0_BIT_CH ch))) in
  wr32 (base + REG_TCFG0) (Z.lor val (Z.shiftl (scl - 1) (TCFG0_BIT_CH ch))) ;;;
  v <-- rd32 (base + REG_TCFG1) ;;
  let val := Z.land v (not32 (Z.shiftl 0xF (TCFG1_BIT_CH ch))) in
  wr32 (base + REG_TCFG1) (Z.lor val (Z.shiftl mux (TCFG1_BIT_CH ch))).

Definition timer_count (base ch cnt : Z) : code unit :=
  wr32 (base + REG_TCNTB0 + TIMER_TCNT_OFFS * ch) (u32 (cnt - 1)) ;;;
  wr32 (base + REG_TCMPB0 + TIMER_TCNT_OFFS * ch) (u32 (cnt - 1)).

(** [dmb ()], the barrier at the end of [timer_start], orders accesses that the
    model has in order already. *)
Definition timer_start (base ch : Z) : code unit :=
  let on := 0 in
  v <-- rd32 (base + REG_CSTAT) ;;
  let val := Z.land v (not32 (Z.lor (Z.shiftl TINT_CSTAT_MASK 5) (Z.shiftl 0x1 ch))) in
  wr32 (base + REG_CSTAT)
    (Z.lor val (Z.lor (Z.shiftl 0x1 (TINT_CSTAT_BIT_CH ch)) (Z.shiftl on ch))) ;;;
  v <-- rd32 (base + REG_TCON) ;;
  let val := Z.land v (not32 (Z.shiftl 0xE (TCON_BIT_CH ch))) in
  wr32 (base + REG_TCON) (Z.lor val (Z.shiftl TCON_BIT_UP (TCON_BIT_CH ch))) ;;;
  let val := Z.land val (not32 (Z.shiftl TCON_BIT_UP (TCON_BIT_CH ch))) in
  let val := Z.lor val (Z.shiftl (Z.lor TCON_BIT_AUTO TCON_BIT_RUN) (TCON_BIT_CH ch)) in
  wr32 (base + REG_TCON) val.

Definition timer_stop (base ch : Z) : code unit :=
  let on := 0 in
  v <-- rd32 (base + REG_CSTAT) ;;
  let val := Z.land v (not32 (Z.lor (Z.shiftl TINT_CSTAT_MASK 5) (Z.shiftl 0x1 ch))) in
  wr32 (base + REG_CSTAT)
    (Z.lor val (Z.lor (Z.shiftl 0x1 (TINT_CSTAT_BIT_CH ch)) (Z.shiftl on ch))) ;;;
  v <-- rd32 (base + REG_TCON) ;;
  let val := Z.land v (not32 (Z.shiftl TCON_BIT_RUN (TCON_BIT_CH ch))) in
  wr32 (base + REG_TCON) val.

Definition timer_read (base ch : Z) : code Z :=
  v <-- rd32 (base + REG_TCNT0 + TIMER_TCNT_OFFS * ch) ;;
  ret (u64 (TIMER_COUNT - v)).

Definition reset_timer_masked : code unit :=
  now <-- timer_read PHY_BASEADDR_TIMER CONFIG_TIMER_SYS_TICK_CH ;;
  g <-- tget ;;
  tput (TimerVars 0 now (timerinit g) (TIMER_FREQ g) (TIMER_HZ g)).

Definition reset_timer : code unit := reset_timer_masked.

Definition set_timer (t : Z) : code unit :=
  g <-- tget ;;
  tput (TimerVars t (lastdec g) (timerinit g) (TIMER_FREQ g) (TIMER_HZ g)).

Definition get_timer_masked : code Z :=
  now <-- timer_read PHY_BASEADDR_TIMER CONFIG_TIMER_SYS_TICK_CH ;;
  g <-- tget ;;
  let timestamp' :=
    if lastdec g <=? now then u64 (timestamp g + (now - lastdec g))
    else u64 (timestamp g + (now + TIMER_COUNT - lastdec g)) in
  tput (TimerVars timestamp' now (timerinit g) (TIMER_FREQ g) (TIMER_HZ g)) ;;;
  ret timestamp'.

(** A division by zero is undefined. *)
Definition get_timer (base : Z) : code Z :=
  time <-- get_timer_masked ;;
  g <-- tget ;;
  let hz := u64 (TIMER_HZ g) in
  if hz =? 0 then halt Undef else ret (u64 (time / hz - base)).

Definition get_ticks : code Z := get_timer_masked.
End Code.

(** The divisor search of [timer_init]: the input divided by [2^mux] and by
    [scl] is the tick rate.  [None] is a division by zero. *)
Fixpoint divisors (muxes : list Z) (rate freq cmp tclk tmux tscl : Z) : option (Z * Z * Z) :=
  match muxes with
  | [] => Some (tclk, tmux, tscl)
  | mux :: r =>
      if u64 freq =? 0 then None else
      let mout := rate / Z.shiftl 1 mux in
      let scl := s32 (mout / u64 freq) in
      if u64 scl =? 0 then None else
      let thz := mout / u64 scl in
      if (mout mod u64 freq =? 0) && (scl <? 256) then Some (thz, mux, scl)
      else if 256 <? scl then divisors r rate freq cmp tclk tmux tscl
      else if cmp <=? u64 (Z.abs (s64 (thz - freq))) then divisors r rate freq cmp tclk tmux tscl
      else divisors r rate freq (u64 (Z.abs (s64 (thz - freq)))) thz mux scl
  end.

Section Delays.
Context {D C : Type} `{Machine D} `{ClkTree D C}.

#[local] Abbreviation code A := (prog D (timer_vars * C) A).

(** A call into the clock tree: it has its own variables. *)
Definition in_tree {A} (m : prog D C A) : code A := fun s =>
  match m (St (dev s) (glb s).2) with
  | Ok a s' t => Ok a (St (dev s') ((glb s).1, glb s')) t
  | Stop w s' t => Stop w (St (dev s') ((glb s).1, glb s')) t
  end.

Definition timer_init : code Z :=
  let ch := CONFIG_TIMER_SYS_TICK_CH in
  let base := PHY_BASEADDR_TIMER in
  g <-- tget ;;
  if negb (timerinit g =? 0) then ret 0 else
  rate <-- in_tree (clk <-- clk_get (chars "pclk") ;; clk_get_rate clk) ;;
  match divisors [0; 1; 2; 3; 4] rate (TIMER_FREQ g) (2 ^ 64 - 1) 0 0 0 with
  | None => halt Undef
  | Some (tclk, tmux, tscl) =>
      let tcnt := s32 tclk in
      let freq := tcnt in
      let hz := Z.quot freq CONFIG_SYS_HZ in
      tput (TimerVars (timestamp g) (lastdec g) (timerinit g) freq hz) ;;;
      let tcnt := if TIMER_COUNT =? 0xFFFFFFFF then s32 (TIMER_COUNT + 1) else tcnt in
      timer_stop base ch ;;;
      timer_clock base ch tmux tscl ;;;
      timer_count base ch tcnt ;;;
      timer_start base ch ;;;
      reset_timer_masked ;;;
      g <-- tget ;;
      tput (TimerVars (timestamp g) (lastdec g) 1 (TIMER_FREQ g) (TIMER_HZ g)) ;;;
      ret 0
  end.

(** The ticks of a delay: both delays compute them. *)
Definition delay_ticks (usec freq : Z) : Z :=
  if 1000 <=? usec then u64 (usec / 1000 * freq) / 1000
  else u64 (usec * freq) / (1000 * 1000).

(** [do tmp = get_timer_masked(); while (tmo > tmp);] *)
Fixpoint udelay_loop (fuel : nat) (tmo : Z) : code unit :=
  match fuel with
  | O => halt NoFuel
  | S n =>
      tmp <-- get_timer_masked ;;
      if tmp <? tmo then udelay_loop n tmo else ret tt
  end.

Definition __udelay (fuel : nat) (usec : Z) : code unit :=
  g <-- tget ;;
  (if timerinit g =? 0 then timer_init ;;; ret tt else ret tt) ;;;
  g <-- tget ;;
  let tmo := delay_ticks usec (TIMER_FREQ g) in
  tmp <-- get_timer_masked ;;
  tmo <-- (if u64 (tmo + tmp + 1) <? tmp then reset_timer_masked ;;; ret tmo
           else ret (u64 (tmo + tmp))) ;;
  udelay_loop fuel tmo.

(** [do { now = get_timer_masked(); diff = endtime - now; } while (diff >= 0);] *)
Fixpoint udelay_masked_loop (fuel : nat) (endtime : Z) : code unit :=
  match fuel with
  | O => halt NoFuel
  | S n =>
      now <-- get_timer_masked ;;
      let diff := s64 (endtime - now) in
      if 0 <=? diff then udelay_masked_loop n endtime else ret tt
  end.

Definition udelay_masked (fuel : nat) (usec : Z) : code unit :=
  g <-- tget ;;
  let tmo := delay_ticks usec (TIMER_FREQ g) in
  now <-- get_timer_masked ;;
  udelay_masked_loop fuel (u64 (now + tmo)).
End Delays.

(** ** The divisors *)

(** Membership in a list built from others. *)
Ltac mem := rewrite ?elem_of_app, ?elem_of_cons, ?list_elem_of_singleton in *; tauto.

Section Divisors.
Context (rate : Z).
#[local] Abbreviation F := 1000000.

(** The prescaler and the tick rate the code computes for a multiplexer value. *)
Definition scl_of (mux : Z) : Z := rate / 2 ^ mux / 1000000.
Definition tick_of (mux : Z) : Z := rate / 2 ^ mux / scl_of mux.

(** The best multiplexer value of a list: its tick rate is the nearest above. *)
Definition best_of (muxes : list Z) (tclk tmux tscl : Z) : Prop :=
  tmux ∈ muxes /\ tscl = scl_of tmux /\ tscl <= 256 /\ tclk = tick_of tmux /\
  forall m, m ∈ muxes -> scl_of m <= 256 -> tclk <= tick_of m.

Hypothesis Hlo : 16 * F <= rate.
Hypothesis Hhi : rate < 2 ^ 50.

Lemma input_bounds mux : 0 <= mux <= 4 -> F <= rate / 2 ^ mux < 2 ^ 50.
Proof.
  intros Hm. split.
  - apply Z.div_le_lower_bound; [apply Z.pow_pos_nonneg; lia|].
    assert (2 ^ mux <= 2 ^ 4) by (apply Z.pow_le_mono_r; lia). nia.
  - apply Z.div_lt_upper_bound; [apply Z.pow_pos_nonneg; lia|].
    assert (0 < 2 ^ mux) by (apply Z.pow_pos_nonneg; lia). nia.
Qed.

Lemma scl_bounds mux : 0 <= mux <= 4 -> 1 <= scl_of mux < 2 ^ 31.
Proof.
  intros Hm. pose proof (input_bounds mux Hm). unfold scl_of. split.
  - apply Z.div_le_lower_bound; lia.
  - apply Z.div_lt_upper_bound; lia.
Qed.

(** The tick rate is one to two megahertz. *)
Lemma tick_bounds mux : 0 <= mux <= 4 -> F <= tick_of mux < 2 * F.
Proof.
  intros Hm. pose proof (input_bounds mux Hm). pose proof (scl_bounds mux Hm) as Hs.
  unfold tick_of. assert (Hx : F * scl_of mux <= rate / 2 ^ mux < F * scl_of mux + F).
  { unfold scl_of. pose proof (Z.div_mod (rate / 2 ^ mux) 1000000).
    pose proof (Z.mod_pos_bound (rate / 2 ^ mux) 1000000). lia. }
  split.
  - apply Z.div_le_lower_bound; lia.
  - apply Z.div_lt_upper_bound; nia.
Qed.

(** One round of the search. *)
Lemma divisors_round mux r cmp tclk tmux tscl :
  0 <= mux <= 4 ->
  divisors (mux :: r) rate F cmp tclk tmux tscl =
    if (rate / 2 ^ mux mod F =? 0) && (scl_of mux <? 256) then Some (tick_of mux, mux, scl_of mux)
    else if 256 <? scl_of mux then divisors r rate F cmp tclk tmux tscl
    else if cmp <=? tick_of mux - F then divisors r rate F cmp tclk tmux tscl
    else divisors r rate F (tick_of mux - F) (tick_of mux) mux (scl_of mux).
Proof.
  intros Hm. cbn [divisors]. change (u64 F) with F. change (F =? 0) with false. cbv match.
  rewrite Z.shiftl_1_l.
  pose proof (scl_bounds mux Hm) as Hs. pose proof (tick_bounds mux Hm) as Ht.
  fold (scl_of mux).
  rewrite (s32_small (scl_of mux)), (u64_small (scl_of mux)) by (unfold is_s32, is_u64; lia).
  destruct (Z.eqb_spec (scl_of mux) 0); [lia|]. fold (tick_of mux).
  rewrite s64_small by (unfold is_s64; lia).
  rewrite Z.abs_eq by lia. by rewrite u64_small by (unfold is_u64; lia).
Qed.

Lemma tick_exact mux : 0 <= mux <= 4 -> rate / 2 ^ mux mod F = 0 -> tick_of mux = F.
Proof.
  intros Hm He. pose proof (scl_bounds mux Hm). unfold tick_of.
  apply Z.mod_divide in He as [k Hk]; [|done].
  assert (scl_of mux = k) as Hsk by (unfold scl_of; rewrite Hk; by apply Z.div_mul).
  rewrite Hsk in *. rewrite Hk, Z.mul_comm. apply Z.div_mul. lia.
Qed.

(** A value that is out of range or no nearer leaves the best one. *)
Lemma best_of_skip muxes mux tclk tmux tscl :
  best_of muxes tclk tmux tscl -> 256 < scl_of mux \/ tclk <= tick_of mux ->
  best_of (muxes ++ [mux]) tclk tmux tscl.
Proof.
  intros (Hin & Hs & Hle & Ht & Hb) Hm. split_and!; [mem|done|done|done|].
  intros m [Hm'|Hm']%elem_of_app Hsm; [by apply Hb|].
  apply list_elem_of_singleton in Hm' as ->. lia.
Qed.

Lemma divisors_best muxes : forall seen cmp tclk tmux tscl,
  (forall m, m ∈ seen ++ muxes -> 0 <= m <= 4) ->
  (cmp = 2 ^ 64 - 1 /\ (forall m, m ∈ seen -> 256 < scl_of m)) \/
  (cmp = tclk - F /\ best_of seen tclk tmux tscl) ->
  exists a b c, divisors muxes rate F cmp tclk tmux tscl = Some (a, b, c) /\
    ((forall m, m ∈ seen ++ muxes -> 256 < scl_of m) \/ best_of (seen ++ muxes) a b c).
Proof.
  induction muxes as [|mux r IH]; intros seen cmp tclk tmux tscl Hin Hinv.
  { rewrite app_nil_r in *. exists tclk, tmux, tscl. split; [done|].
    destruct Hinv as [[_ Hn]|[_ Hb]]; auto. }
  assert (Hm : 0 <= mux <= 4) by (apply Hin; mem).
  rewrite divisors_round by done. pose proof (tick_bounds mux Hm) as Ht.
  replace (seen ++ mux :: r) with ((seen ++ [mux]) ++ r) in * by (by rewrite <- app_assoc).
  assert (Hin' : forall m, m ∈ seen ++ [mux] -> 0 <= m <= 4) by (intros m Hm'; apply Hin; mem).
  destruct ((rate / 2 ^ mux mod F =? 0) && (scl_of mux <? 256)) eqn:He.
  { apply andb_true_iff in He as [He Hs]. apply Z.eqb_eq in He. apply Z.ltb_lt in Hs.
    exists (tick_of mux), mux, (scl_of mux). split; [done|]. right.
    split_and!; [mem|done|lia|done|].
    intros m Hm' _. pose proof (tick_bounds m (Hin m Hm')).
    enough (tick_of mux = F) by lia. by apply tick_exact. }
  clear He. destruct (Z.ltb_spec 256 (scl_of mux)) as [Hs|Hs].
  { apply IH; [done|]. destruct Hinv as [[-> Hn]|[-> Hb]]; [left|right]; (split; [done|]).
    - intros m [Hm'|Hm']%elem_of_app; [by apply Hn|]. apply list_elem_of_singleton in Hm'. by subst.
    - by apply best_of_skip; [|lia]. }
  destruct (Z.leb_spec cmp (tick_of mux - F)) as [Hc|Hc].
  { apply IH; [done|]. right. destruct Hinv as [[-> Hn]|[-> Hb]]; [lia|]. split; [done|].
    apply best_of_skip; [done|lia]. }
  apply IH; [done|]. right. split; [done|]. split_and!; [mem|done|done|done|].
  intros m [Hm'|Hm']%elem_of_app Hsm.
  - destruct Hinv as [[_ Hn]|[-> (_ & _ & _ & _ & Hb)]]; [specialize (Hn m Hm'); lia|].
    specialize (Hb m Hm' Hsm). lia.
  - apply list_elem_of_singleton in Hm'. by subst.
Qed.

Lemma divisors_all :
  rate < 257 * 16 * F ->
  exists mux, divisors [0; 1; 2; 3; 4] rate F (2 ^ 64 - 1) 0 0 0 = Some (tick_of mux, mux, scl_of mux) /\
    best_of [0; 1; 2; 3; 4] (tick_of mux) mux (scl_of mux).
Proof.
  intros Hr. assert (Hin : forall m, m ∈ [] ++ [0; 1; 2; 3; 4] -> 0 <= m <= 4)
    by (intros m Hm; set_unfold; lia).
  destruct (divisors_best [0; 1; 2; 3; 4] [] (2 ^ 64 - 1) 0 0 0 Hin) as (a & b & c & He & Hb).
  { left. split; [done|]. intros m Hm. by apply not_elem_of_nil in Hm. }
  destruct Hb as [Hn|Hb].
  - assert (H4 : 4 ∈ [0; 1; 2; 3; 4]) by mem. specialize (Hn 4 H4).
    unfold scl_of in Hn. change (2 ^ 4) with 16 in Hn.
    assert (rate / 16 / F < 257); [|lia].
    apply Z.div_lt_upper_bound; [lia|]. apply Z.div_lt_upper_bound; lia.
  - exists b. destruct Hb as (Hin1 & -> & Hc & -> & Hb). by split.
Qed.
End Divisors.

(** ** The counter

    [TickCounter rate delta]: the time of a device state in cycles of the bus
    clock, [rate] of which make one tick of the timer. The counter register of
    the channel counts the ticks down from [0xFFFFFFFF] and reloads. A load takes
    at least one cycle, so that many loads in a row may read the same count, and
    at most the cycles of [delta] ticks, less than the counter's period. *)
Class TickCounter (D : Type) `{Machine D} (rate delta : Z) := {
  cycles : D -> Z;
  cycles_pos : forall d, 0 <= cycles d;
  cycles_rd : forall d v d', hw_rd (PHY_BASEADDR_TIMER + REG_TCNT0) d = (v, d') ->
    u32 v = 0xFFFFFFFF - (cycles d' / rate) mod 2 ^ 32 /\
    cycles d < cycles d' <= cycles d + delta * rate;
  rate_ok : 1 <= rate;
  delta_ok : 1 <= delta < 2 ^ 32;
}.

(** What the time stamp counts: one tick is lost each time the counter reloads. *)
Definition ticks (t : Z) : Z := t - t / 2 ^ 32.

Lemma ticks_mono a b : a <= b -> ticks a <= ticks b.
Proof. unfold ticks. intros H. Z.div_mod_to_equations. lia. Qed.

Lemma ticks_short a b : a <= b -> b - a - (b - a) / 2 ^ 32 - 1 <= ticks b - ticks a <= b - a.
Proof. unfold ticks. intros H. Z.div_mod_to_equations. lia. Qed.

Section Counter.
Context {D C : Type} `{HT : TickCounter D rate delta} `{ClkTree D C}.

#[local] Abbreviation tst := (st D (timer_vars * C)).

(** The ticks that have gone by. *)
Definition now (d : D) : Z := cycles d / rate.

Lemma now_pos d : 0 <= now d.
Proof. pose proof rate_ok. apply Z.div_pos; [apply cycles_pos|lia]. Qed.

Lemma now_mono d d' : cycles d <= cycles d' -> now d <= now d'.
Proof. pose proof rate_ok. intros. apply Z.div_le_mono; lia. Qed.

Lemma now_step d d' n : cycles d' <= cycles d + n * rate -> now d' <= now d + n.
Proof.
  pose proof rate_ok. intros. unfold now. rewrite <- Z.div_add by lia.
  apply Z.div_le_mono; lia.
Qed.

Lemma now_after d d' n : cycles d + n * rate <= cycles d' -> now d + n <= now d'.
Proof.
  pose proof rate_ok. intros. unfold now. rewrite <- Z.div_add by lia.
  apply Z.div_le_mono; lia.
Qed.

(** The last value the driver remembers is the counter's. *)
Definition synced (s : tst) : Prop := lastdec (glb s).1 = now (dev s) mod 2 ^ 32.

(** [s'] is [s] but for the time stamp and the last value. *)
Definition same_setup (s s' : tst) : Prop :=
  (glb s').2 = (glb s).2 /\ timerinit (glb s').1 = timerinit (glb s).1 /\
  TIMER_FREQ (glb s').1 = TIMER_FREQ (glb s).1 /\ TIMER_HZ (glb s').1 = TIMER_HZ (glb s).1.

Lemma timer_read_ticks s (Q : Z -> tst -> list event -> Prop) :
  (forall d t, cycles (dev s) < cycles d <= cycles (dev s) + delta * rate ->
     Q (now d mod 2 ^ 32) (St d (glb s)) t) ->
  returns (timer_read PHY_BASEADDR_TIMER CONFIG_TIMER_SYS_TICK_CH) s Q.
Proof.
  intros HQ. unfold timer_read, CONFIG_TIMER_SYS_TICK_CH.
  change (PHY_BASEADDR_TIMER + REG_TCNT0 + TIMER_TCNT_OFFS * 0)
    with (PHY_BASEADDR_TIMER + REG_TCNT0).
  apply returns_bind, returns_rd32. intros v d Hrd.
  destruct (cycles_rd _ _ _ Hrd) as [Hv Hd]. fold (now d) in Hv.
  apply returns_ret. pose proof (Z.mod_pos_bound (now d) (2 ^ 32)).
  replace (u64 (TIMER_COUNT - u32 v)) with (now d mod 2 ^ 32); [by apply HQ|].
  rewrite Hv. unfold TIMER_COUNT. rewrite u64_small; [lia|unfold is_u64; lia].
Qed.

(** One poll from a synchronised state adds the ticks since the last one. *)
Lemma masked_adds s (Q : Z -> tst -> list event -> Prop) :
  synced s ->
  (forall s' t, synced s' -> same_setup s s' ->
     cycles (dev s) < cycles (dev s') ->
     now (dev s) <= now (dev s') <= now (dev s) + delta ->
     timestamp (glb s').1 =
       u64 (timestamp (glb s).1 + (ticks (now (dev s')) - ticks (now (dev s)))) ->
     Q (timestamp (glb s').1) s' t) ->
  returns get_timer_masked s Q.
Proof.
  intros Hs HQ. unfold get_timer_masked. apply returns_bind, timer_read_ticks.
  intros d t Hd. unfold tget, tput. go. rewrite Hs.
  pose proof delta_ok. pose proof (now_pos (dev s)).
  assert (Hn : now (dev s) <= now d <= now (dev s) + delta)
    by (split; [apply now_mono|apply now_step]; lia).
  set (T := now (dev s)) in *. set (T' := now d) in *.
  assert (Hstamp :
    (if T mod 2 ^ 32 <=? T' mod 2 ^ 32
     then u64 (timestamp (glb s).1 + (T' mod 2 ^ 32 - T mod 2 ^ 32))
     else u64 (timestamp (glb s).1 + (T' mod 2 ^ 32 + TIMER_COUNT - T mod 2 ^ 32))) =
    u64 (timestamp (glb s).1 + (ticks T' - ticks T))).
  { unfold ticks, TIMER_COUNT. destruct (Z.leb_spec (T mod 2 ^ 32) (T' mod 2 ^ 32));
      f_equal; f_equal; Z.div_mod_to_equations; lia. }
  rewrite Hstamp. match goal with |- Q _ ?s' ?t' => apply (HQ s' t'); [done..|apply Hd|done|done] end.
Qed.
(** [k + 1] polls in a row. *)
Fixpoint polls (k : nat) : prog D (timer_vars * C) Z :=
  match k with
  | O => get_timer_masked
  | S k => get_timer_masked ;;; polls k
  end.

Lemma u64_add_l a b : u64 (u64 a + b) = u64 (a + b).
Proof. unfold u64. by rewrite Zplus_mod_idemp_l. Qed.

(** However often it is polled, the time stamp advances by the ticks of the
    counter less one for each reload between the first poll and the last: the
    code adds [TIMER_COUNT], one less than the counter's period. *)
Theorem timer_loses_reloads k s :
  synced s ->
  returns (polls k) s (fun v s' _ =>
    v = u64 (timestamp (glb s).1 + (now (dev s') - now (dev s))
             - (now (dev s') / 2 ^ 32 - now (dev s) / 2 ^ 32)) /\
    v = timestamp (glb s').1 /\ synced s' /\ cycles (dev s) < cycles (dev s')).
Proof.
  revert s. induction k as [|k IH]; intros s Hs; cbn [polls].
  - apply masked_adds; [done|]. intros s' t Hs' _ Hc Hn Ht.
    split_and!; [|done|done|lia]. rewrite Ht. unfold ticks. f_equal. lia.
  - apply returns_bind, masked_adds; [done|]. intros s1 t1 Hs1 _ Hc1 Hn1 Ht1.
    eapply returns_weaken; [by apply IH|]. cbn beta. intros v s2 t2 (Hv & Hv' & Hs2 & Hn2).
    split_and!; [|done|done|lia].
    rewrite Hv, Ht1, <- Z.add_sub_assoc, u64_add_l. unfold ticks. f_equal. lia.
Qed.

(** The loop of a delay: [R] ticks are to wait since the state [d0], when the
    stamp was [X0]; [k] polls of at least one cycle each have been made since. *)
Lemma udelay_loop_waits d0 X0 R n : forall k s,
  0 <= X0 -> 0 <= R < 2 ^ 32 - 1 -> X0 + R + 2 ^ 32 < 2 ^ 64 ->
  synced s -> timestamp (glb s).1 = X0 + (ticks (now (dev s)) - ticks (now d0)) ->
  cycles d0 + k <= cycles (dev s) -> now (dev s) <= now d0 + R -> 0 <= k ->
  (R + 2) * rate <= k + Z.of_nat n ->
  returns (udelay_loop n (X0 + R)) s (fun _ s' _ =>
    R <= now (dev s') - now d0 <= R + delta /\ synced s' /\ same_setup s s').
Proof.
  induction n as [|n IH]; intros k s HX HR Hov Hs Ht Hk Hk1 Hk0 Hfuel.
  { pose proof (now_after d0 (dev s) (R + 2)). lia. }
  cbn [udelay_loop]. apply returns_bind, masked_adds; [done|].
  intros s1 t1 Hs1 Hsame1 Hc1 Hn1 Ht1. set (T0 := now d0) in *.
  assert (T0 <= now (dev s)) by (apply now_mono; lia).
  pose proof delta_ok. pose proof (ticks_short T0 (now (dev s1))).
  pose proof (ticks_mono T0 (now (dev s1))).
  assert (Hx1 : timestamp (glb s1).1 = X0 + (ticks (now (dev s1)) - ticks T0)).
  { rewrite Ht1, Ht. rewrite u64_small; [lia|]. unfold is_u64. lia. }
  destruct (Z.ltb_spec (timestamp (glb s1).1) (X0 + R)) as [Hlt|Hge].
  - assert (now (dev s1) - T0 <= R).
    { assert (now (dev s1) - T0 - (now (dev s1) - T0) / 2 ^ 32 <= R) by lia.
      Z.div_mod_to_equations. lia. }
    eapply returns_weaken; [apply (IH (k + 1)); try done; lia|]. cbn beta.
    intros _ s2 t2 (Hb & Hs2 & Hsame2). split_and!; [lia|lia|done|].
    unfold same_setup in *. intuition congruence.
  - apply returns_ret. split_and!; [lia|lia|done|done].
Qed.

(** The microseconds a delay counts: from a millisecond on, whole milliseconds. *)
Definition whole (usec : Z) : Z := if usec <? 1000 then usec else usec - usec mod 1000.

Lemma delay_ticks_mhz usec : 0 <= usec < 2 ^ 32 -> delay_ticks usec 1000000 = whole usec.
Proof.
  intros Hu. unfold delay_ticks, whole.
  destruct (Z.leb_spec 1000 usec), (Z.ltb_spec usec 1000); try lia.
  - rewrite u64_small; [|unfold is_u64; Z.div_mod_to_equations; lia].
    Z.div_mod_to_equations. lia.
  - rewrite u64_small by (unfold is_u64; lia). change (1000 * 1000) with 1000000.
    by rewrite Z.div_mul.
Qed.

Lemma whole_bounds usec : 0 <= usec -> 0 <= whole usec <= usec.
Proof. intros. unfold whole. destruct (Z.ltb_spec usec 1000); Z.div_mod_to_equations; lia. Qed.

(** C16: with a running timer of one megahertz a delay returns, after as many
    ticks as it has microseconds rounded down to whole milliseconds (from one
    millisecond on: a delay of 1999 microseconds waits 1000), and at most the
    time of two polls more. A poll may find the count the last one found: the
    counter is taken to go on by at least one cycle of the bus clock a load, of
    which [rate] make a tick. *)
Theorem udelay_waits fuel usec s :
  synced s -> timerinit (glb s).1 <> 0 -> TIMER_FREQ (glb s).1 = 1000000 ->
  0 <= timestamp (glb s).1 < 2 ^ 63 -> 0 <= usec < 2 ^ 32 - 1 ->
  (whole usec + 2) * rate <= Z.of_nat fuel ->
  returns (__udelay fuel usec) s (fun _ s' _ =>
    whole usec <= now (dev s') - now (dev s) <= whole usec + 2 * delta /\
    synced s' /\ same_setup s s').
Proof.
  intros Hs Hinit Hfreq Hts Hu Hfuel. pose proof (whole_bounds usec).
  unfold __udelay, tget. apply returns_bind. go.
  destruct (Z.eqb_spec (timerinit (glb s).1) 0); [done|]. go.
  rewrite Hfreq, delay_ticks_mhz by lia.
  apply masked_adds; [done|]. intros s1 t1 Hs1 Hsame1 Hc1 Hn1 Ht1.
  pose proof delta_ok. pose proof (ticks_short (now (dev s)) (now (dev s1))).
  pose proof (ticks_mono (now (dev s)) (now (dev s1))).
  rewrite u64_small in Ht1 by (unfold is_u64; lia).
  rewrite u64_small by (unfold is_u64; lia).
  destruct (Z.ltb_spec (whole usec + timestamp (glb s1).1 + 1) (timestamp (glb s1).1)); [lia|].
  go. rewrite u64_small by (unfold is_u64; lia). rewrite Z.add_comm.
  eapply returns_weaken.
  - apply (udelay_loop_waits (dev s1) (timestamp (glb s1).1) (whole usec) fuel 0); try done; lia.
  - cbn beta. intros _ s2 t2 (Hb & Hs2 & Hsame2). split_and!; [lia|lia|done|].
    unfold same_setup in *. intuition congruence.
Qed.
End Counter.

(** ** Start-up *)

Section Init.
Context {D C : Type} `{Storage D plain} `{!ClkTree D C}.

#[local] Abbreviation tst := (st D (timer_vars * C)).
#[local] Abbreviation T := PHY_BASEADDR_TIMER.

(** The registers start-up programs, and the counter it loads. *)
Hypothesis Hplain : forall o, o ∈ [REG_TCFG0; REG_TCFG1; REG_TCON; REG_TCNTB0; REG_TCMPB0; REG_CSTAT] ->
  plain (T + o) = true.
Hypothesis Hcount : forall d v d', hw_rd (T + REG_TCNT0) d = (v, d') ->
  forall b, plain b = true -> reg d' b = reg d b.

(** The registers [R] with [v] stored at offset [o]. *)
Definition set (o v : Z) (R : Z -> Z) : Z -> Z := fun b => if b =? T + o then v else R b.

Lemma step_set o v (s : tst) (Q : unit -> tst -> list event -> Prop) :
  o ∈ [REG_TCFG0; REG_TCFG1; REG_TCON; REG_TCNTB0; REG_TCMPB0; REG_CSTAT] -> is_u32 v ->
  (forall d t, (forall b, plain b = true -> reg d b = set o v (reg (dev s)) b) ->
     Q tt (St d (glb s)) t) ->
  returns (wr32 (T + o) v) s Q.
Proof.
  intros Ho Hv HQ. apply returns_wr32_plain; [by apply Hplain|]. intros d Hd. apply HQ.
  intros b Hb. rewrite Hd by done. unfold set. by rewrite u32_small.
Qed.

Lemma step_get o (s : tst) (Q : Z -> tst -> list event -> Prop) :
  o ∈ [REG_TCFG0; REG_TCFG1; REG_TCON; REG_TCNTB0; REG_TCMPB0; REG_CSTAT] ->
  (forall d t, (forall b, plain b = true -> reg d b = reg (dev s) b) -> is_u32 (reg (dev s) (T + o)) ->
     Q (reg (dev s) (T + o)) (St d (glb s)) t) ->
  returns (rd32 (T + o)) s Q.
Proof.
  intros Ho HQ. apply returns_rd32_plain; [by apply Hplain|]. intros d Hd. apply HQ; [done|].
  by apply storage_word, Hplain.
Qed.

(** [d'] is [d] with the plain registers mapped by [E]. *)
Definition effect (E : (Z -> Z) -> Z -> Z) (s s' : tst) : Prop :=
  glb s' = glb s /\ forall b, plain b = true -> reg (dev s') b = E (reg (dev s)) b.

Ltac listed := unfold REG_TCFG0, REG_TCFG1, REG_TCON, REG_TCNTB0, REG_TCMPB0, REG_CSTAT;
  rewrite ?elem_of_cons; tauto.

(** Expresses the plain registers of every state by those of the first one. *)
Ltac resolve :=
  cbn [dev glb] in *; unfold set in *;
  repeat match goal with
  | H : forall b, plain b = true -> reg ?d b = _ |- context [reg ?d ?x] =>
      rewrite (H x) by (first [assumption | apply Hplain; listed]); cbv beta
  end;
  repeat match goal with
  | |- context [T + ?a =? T + ?b] =>
      let v := eval vm_compute in (T + a =? T + b) in change (T + a =? T + b) with v; cbv match
  end;
  case_tests; first [reflexivity | exfalso;
    match goal with
    | e : ?b = T + ?x, e' : ?b = T + ?y |- _ => rewrite e in e'; vm_compute in e'; discriminate e'
    end].

Definition cstat (v : Z) : Z := Z.lor (Z.land v (Z.lnot 0x3E1)) 0x20.

Lemma cstat_eq v : is_u32 v ->
  Z.lor (Z.land v (not32 (Z.lor (Z.shiftl TINT_CSTAT_MASK 5) (Z.shiftl 0x1 0))))
    (Z.lor (Z.shiftl 0x1 (TINT_CSTAT_BIT_CH 0)) (Z.shiftl 0 0)) = cstat v /\ is_u32 (cstat v).
Proof.
  intros Hv. rewrite land_not32 by done. split; [done|].
  apply lor_bound; [lia|by apply land_bound|lia].
Qed.

Lemma timer_stop_effect (s : tst) :
  returns (timer_stop T 0) s (fun _ s' _ => effect (fun R =>
    set REG_TCON (Z.land (R (T + REG_TCON)) (Z.lnot 1)) (set REG_CSTAT (cstat (R (T + REG_CSTAT))) R)) s s').
Proof.
  unfold timer_stop. apply returns_bind, step_get; [listed|]. intros d1 t1 H1 Hw1.
  destruct (cstat_eq _ Hw1) as [He Hu].
  apply returns_bind. rewrite He. apply step_set; [listed|done|]. intros d2 t2 H2.
  apply returns_bind, step_get; [listed|]. intros d3 t3 H3 Hw3.
  rewrite land_not32 by done.
  apply step_set; [listed|by apply land_bound|]. intros d4 t4 H4.
  split; [done|]. intros b Hb. resolve.
Qed.

Lemma timer_clock_effect mux scl (s : tst) :
  0 <= mux < 16 -> 0 <= scl - 1 < 256 ->
  returns (timer_clock T 0 mux scl) s (fun _ s' _ => effect (fun R =>
    set REG_TCFG0 (bits_put 8 0 (R (T + REG_TCFG0)) (scl - 1))
      (set REG_TCFG1 (bits_put 4 0 (R (T + REG_TCFG1)) mux) R)) s s').
Proof.
  intros Hm Hs. unfold timer_clock.
  apply returns_bind, step_get; [listed|]. intros d1 t1 H1 Hw1. rewrite land_not32 by done.
  apply returns_bind, step_set; [listed|by apply (bits_put_range 32 8 0); first [done|lia]|].
  intros d2 t2 H2.
  apply returns_bind, step_get; [listed|]. intros d3 t3 H3 Hw3. rewrite land_not32 by done.
  apply step_set; [listed|by apply (bits_put_range 32 4 0); first [done|lia]|].
  intros d4 t4 H4. split; [done|]. intros b Hb. resolve.
Qed.

Lemma timer_count_effect (s : tst) :
  returns (timer_count T 0 0) s (fun _ s' _ => effect (fun R =>
    set REG_TCNTB0 0xFFFFFFFF (set REG_TCMPB0 0xFFFFFFFF R)) s s').
Proof.
  unfold timer_count.
  change (T + REG_TCNTB0 + TIMER_TCNT_OFFS * 0) with (T + REG_TCNTB0).
  change (T + REG_TCMPB0 + TIMER_TCNT_OFFS * 0) with (T + REG_TCMPB0).
  apply returns_bind, step_set; [listed|apply u32_range|]. intros d1 t1 H1.
  apply step_set; [listed|apply u32_range|]. intros d2 t2 H2.
  split; [done|]. intros b Hb. resolve.
Qed.

Lemma timer_start_effect (s : tst) :
  returns (timer_start T 0) s (fun _ s' _ => effect (fun R =>
    set REG_TCON (Z.lor (Z.land (R (T + REG_TCON)) (Z.lnot 14)) 9)
      (set REG_CSTAT (cstat (R (T + REG_CSTAT))) R)) s s').
Proof.
  unfold timer_start. apply returns_bind, step_get; [listed|]. intros d1 t1 H1 Hw1.
  destruct (cstat_eq _ Hw1) as [He Hu].
  apply returns_bind. rewrite He. apply step_set; [listed|done|]. intros d2 t2 H2.
  apply returns_bind, step_get; [listed|]. intros d3 t3 H3 Hw3.
  rewrite land_not32 by done.
  set (v := reg _ (T + REG_TCON)) in *.
  assert (Hv : is_u32 (Z.land v (Z.lnot (Z.shiftl 0xE (TCON_BIT_CH 0))))) by by apply land_bound.
  apply returns_bind, step_set; [listed|by apply lor_bound; try done; vm_compute|].
  intros d4 t4 H4. rewrite land_not32, <- Z.land_assoc by done.
  change (Z.land (Z.lnot (Z.shiftl 0xE (TCON_BIT_CH 0))) (Z.lnot (Z.shiftl TCON_BIT_UP (TCON_BIT_CH 0))))
    with (Z.lnot 14).
  apply step_set; [listed|apply lor_bound; [lia|by apply land_bound|vm_compute; done]|].
  intros d5 t5 H5. split; [done|]. intros b Hb. subst v. resolve.
Qed.
Lemma reset_effect (s : tst) :
  returns reset_timer_masked s (fun _ s' _ => exists now,
    glb s' = (TimerVars 0 now (timerinit (glb s).1) (TIMER_FREQ (glb s).1) (TIMER_HZ (glb s).1), (glb s).2) /\
    forall b, plain b = true -> reg (dev s') b = reg (dev s) b).
Proof.
  unfold reset_timer_masked, timer_read, CONFIG_TIMER_SYS_TICK_CH, tget, tput.
  change (T + REG_TCNT0 + TIMER_TCNT_OFFS * 0) with (T + REG_TCNT0).
  go. eexists. split; [done|]. intros b Hb. by apply (Hcount _ _ _ Hrd).
Qed.

(** Clearing the channel's bits in two steps clears them. *)
Lemma tcon_eq v :
  Z.lor (Z.land (Z.land v (Z.lnot 1)) (Z.lnot 14)) 9 = bits_put 4 0 v 9.
Proof. unfold bits_put. by rewrite <- Z.land_assoc. Qed.

Lemma cstat_twice v : cstat (cstat v) = bits_put 5 5 (bits_put 1 0 v 0) 1.
Proof.
  unfold cstat, bits_put.
  change (Z.shiftl (Z.ones 5) 5) with 0x3E0. change (Z.shiftl (Z.ones 1) 0) with 1.
  change (Z.shiftl 0 0) with 0. change (Z.shiftl 1 5) with 0x20.
  rewrite Z.lor_0_r, <- Z.land_assoc. change (Z.land (Z.lnot 1) (Z.lnot 0x3E0)) with (Z.lnot 0x3E1).
  rewrite Z.land_lor_distr_l, <- Z.land_assoc. change (Z.land 0x20 (Z.lnot 0x3E1)) with 0.
  by rewrite Z.land_diag, Z.lor_0_r.
Qed.

(** Started with the multiplexer at [mux]: the variables and the registers. *)
Definition programmed (rate mux : Z) (s s' : tst) : Prop :=
  timerinit (glb s').1 = 1 /\ timestamp (glb s').1 = 0 /\
  TIMER_FREQ (glb s').1 = tick_of rate mux /\
  TIMER_HZ (glb s').1 = tick_of rate mux / 1000 /\ (glb s').2 = (glb s).2 /\
  forall b, plain b = true -> reg (dev s') b =
    set REG_TCON (bits_put 4 0 (reg (dev s) (T + REG_TCON)) 9)
      (set REG_TCNTB0 0xFFFFFFFF (set REG_TCMPB0 0xFFFFFFFF
        (set REG_TCFG0 (bits_put 8 0 (reg (dev s) (T + REG_TCFG0)) (scl_of rate mux - 1))
          (set REG_TCFG1 (bits_put 4 0 (reg (dev s) (T + REG_TCFG1)) mux)
            (set REG_CSTAT
               (bits_put 5 5 (bits_put 1 0 (reg (dev s) (T + REG_CSTAT)) 0) 1)
               (reg (dev s))))))) b.

Lemma timer_init_starts (s : tst) :
  let rate := tree_rate (glb s).2 in
  tree_ok (glb s).2 -> timerinit (glb s).1 = 0 -> TIMER_FREQ (glb s).1 = 1000000 ->
  16000000 <= rate < 257 * 16000000 ->
  returns timer_init s (fun r s' _ => r = 0 /\ exists mux,
    best_of rate [0; 1; 2; 3; 4] (tick_of rate mux) mux (scl_of rate mux) /\
    programmed rate mux s s').
Proof.
  intros rate Hok Hi Hf Hr.
  destruct (divisors_all rate) as (mux & Hdiv & Hbest); [lia|lia|lia|].
  unfold timer_init, CONFIG_TIMER_SYS_TICK_CH, tget. do 4 go1. rewrite Hi. cbn [Z.eqb negb].
  apply returns_bind. unfold returns at 1, in_tree. rewrite tree_rate_ok by done. cbn [dev glb].
  fold rate. rewrite Hf, Hdiv.
  assert (Hmux : 0 <= mux <= 4) by (destruct Hbest as [Hin _]; set_unfold; lia).
  assert (Hs : 0 <= scl_of rate mux - 1 < 256).
  { pose proof (scl_bounds rate ltac:(lia) ltac:(lia) mux Hmux).
    destruct Hbest as (_ & _ & Hle & _). lia. }
  pose proof (tick_bounds rate ltac:(lia) ltac:(lia) mux Hmux) as Htick.
  rewrite s32_small by (unfold is_s32; lia).
  change (if TIMER_COUNT =? 0xFFFFFFFF then s32 (TIMER_COUNT + 1) else tick_of rate mux) with 0.
  unfold tput. do 4 go1.
  apply returns_bind. eapply returns_weaken; [apply timer_stop_effect|]. intros [] s1 t1 [G1 E1].
  apply returns_bind. eapply returns_weaken; [apply timer_clock_effect; lia|]. intros [] s2 t2 [G2 E2].
  apply returns_bind. eapply returns_weaken; [apply timer_count_effect|]. intros [] s3 t3 [G3 E3].
  apply returns_bind. eapply returns_weaken; [apply timer_start_effect|]. intros [] s4 t4 [G4 E4].
  apply returns_bind. eapply returns_weaken; [apply reset_effect|]. intros [] s5 t5 (tm & G5 & E5).
  go. split; [done|]. exists mux. split; [done|]. unfold programmed. rewrite G5, G4, G3, G2, G1.
  cbn [dev glb fst snd timestamp timerinit TIMER_FREQ TIMER_HZ].
  split_and!; try done.
  - unfold CONFIG_SYS_HZ. apply Z.quot_div_nonneg; lia.
  - intros b Hb. rewrite <- tcon_eq, <- cstat_twice. cbn [dev glb] in *. resolve.
Qed.

(** From a clock of 16 MHz to 4 GHz start-up picks, of the five inputs of the
    multiplexer, the one whose prescaled rate is nearest to a megahertz (exactly
    a megahertz if one divides); it programs prescaler and multiplexer of the
    channel, and no other channel's, loads the counter with all ones, clears the
    pending interrupt and leaves the channel running with automatic reload; the
    time stamp is zero and the driver marked as started. *)
Theorem timer_init_programs (s : tst) :
  let rate := tree_rate (glb s).2 in
  tree_ok (glb s).2 -> timerinit (glb s).1 = 0 -> TIMER_FREQ (glb s).1 = 1000000 ->
  16000000 <= rate < 257 * 16000000 ->
  returns timer_init s (fun r s' _ => r = 0 /\ exists mux,
    best_of rate [0; 1; 2; 3; 4] (tick_of rate mux) mux (scl_of rate mux) /\
    programmed rate mux s s').
Proof. apply timer_init_starts. Qed.
End Init.

(** A clock below a megahertz is divided by a prescaler of zero. *)
Theorem timer_init_slow {D C} `{Machine D} `{!ClkTree D C} (s : st D (timer_vars * C)) :
  tree_ok (glb s).2 -> timerinit (glb s).1 = 0 -> TIMER_FREQ (glb s).1 = 1000000 ->
  tree_rate (glb s).2 < 1000000 ->
  ends timer_init s Undef (fun s' t => t = [] /\ glb s' = glb s).
Proof.
  intros Hok Hi Hf Hr. pose proof (tree_rate_u64 (glb s).2 Hok) as Hu.
  unfold timer_init, tget. apply ends_bind. do 3 go1. rewrite Hi. cbn [Z.eqb negb].
  apply ends_bind. unfold returns at 1, in_tree. rewrite tree_rate_ok by done. cbn [dev glb].
  rewrite Hf. cbn [divisors].
  change (u64 1000000 =? 0) with false. change (u64 1000000) with 1000000. cbv match.
  rewrite Z.shiftl_1_l. change (2 ^ 0) with 1. rewrite Z.div_1_r.
  unfold is_u64 in Hu. rewrite Z.div_small by lia.
  cbn. split_and!; [done|done|]. by destruct (glb s).
Qed.

(** ** Witnesses: a machine whose counter is one tick further every third load *)

Record tickram := TickRam { mem : gmap Z Z; loads : N }.

#[global] Instance tickram_machine : Machine tickram := {
  hw_rd a d :=
    if a =? PHY_BASEADDR_TIMER + REG_TCNT0
    then (0xFFFFFFFF - (Z.of_N (loads d + 1) / 3) mod 2 ^ 32, TickRam (mem d) (loads d + 1))
    else (u32 (default 0 (mem d !! a)), d);
  hw_wr a v d := TickRam (<[a := v]> (mem d)) (loads d);
  hw_mrs r d := (0, d);
  hw_msr r v d := d }.

Definition not_count (a : Z) : bool := negb (a =? PHY_BASEADDR_TIMER + REG_TCNT0).

#[global] Instance tickram_storage : Storage tickram not_count.
Proof.
  refine {| reg d a := u32 (default 0 (mem d !! a)) |}; unfold not_count.
  - intros a d v d' Ha Hrd. cbn in Hrd. destruct (a =? _); [done|]. by injection Hrd as <- <-.
  - intros a v d b _ _ Hv. cbn. destruct (Z.eqb_spec b a) as [->|Hne].
    + rewrite lookup_insert_eq. by apply u32_small.
    + by rewrite lookup_insert_ne by done.
  - intros a d _. apply u32_range.
Defined.

#[global] Instance tickram_counter : TickCounter tickram 3 1.
Proof.
  refine {| cycles d := Z.of_N (loads d) |}; [lia| |lia|lia].
  intros d v d' Hrd. cbn in Hrd. injection Hrd as <- <-. cbn [loads].
  pose proof (Z.mod_pos_bound (Z.of_N (loads d + 1) / 3) (2 ^ 32)).
  split; [apply u32_small; unfold is_u32; lia|lia].
Defined.

(** A clock tree of one rate. *)
#[local] Instance one_rate : ClkTree tickram N := {
  clk_get _ := ret 0;
  clk_get_rate _ := g <-- gget ;; ret (u64 (Z.of_N g));
  tree_ok _ := True;
  tree_rate c := u64 (Z.of_N c);
  tree_rate_ok s _ := eq_refl;
  tree_rate_u64 c _ := u64_range (Z.of_N c) }.

Definition started : st tickram (timer_vars * N) :=
  St (TickRam ∅ (3 * (2 ^ 32 - 2))) (TimerVars 0 (2 ^ 32 - 2) 1 1000000 1000, 200000000%N).

Definition unstarted (rate : N) : st tickram (timer_vars * N) := St (TickRam ∅ 7) (vars0, rate).

Lemma timer_loses_reloads_witness :
  synced started /\
  returns (polls 7) started (fun v s' _ =>
    v = u64 (timestamp (glb started).1 + (now (dev s') - now (dev started))
             - (now (dev s') / 2 ^ 32 - now (dev started) / 2 ^ 32)) /\
    v = timestamp (glb s').1 /\ synced s' /\ cycles (dev started) < cycles (dev s')).
Proof. split; [reflexivity|]. apply (timer_loses_reloads 7 started). reflexivity. Defined.

Lemma udelay_waits_witness :
  returns (__udelay 3006 1999) started (fun _ s' _ =>
    1000 <= now (dev s') - now (dev started) <= 1000 + 2 * 1 /\
    synced s' /\ same_setup started s').
Proof.
  apply (udelay_waits 3006 1999 started); cbn [glb fst started timerinit TIMER_FREQ timestamp];
    first [reflexivity|lia].
Defined.

Lemma timer_init_programs_witness :
  let rate := tree_rate (glb (unstarted 200000000)).2 in
  returns timer_init (unstarted 200000000) (fun r s' _ => r = 0 /\ exists mux,
    best_of rate [0; 1; 2; 3; 4] (tick_of rate mux) mux (scl_of rate mux) /\
    programmed (plain := not_count) rate mux (unstarted 200000000) s').
Proof.
  refine (timer_init_programs (plain := not_count) _ _ (unstarted 200000000) I _ _ _).
  - intros o Ho. unfold not_count. repeat (apply elem_of_cons in Ho as [->|Ho]; [reflexivity|]).
    by apply not_elem_of_nil in Ho.
  - intros d v d' Hrd b _. cbn in Hrd. injection Hrd as <- <-. reflexivity.
  - reflexivity.
  - reflexivity.
  - split; vm_compute; [discriminate|reflexivity].
Defined.

Lemma timer_init_slow_witness :
  ends timer_init (unstarted 32768) Undef (fun s' t => t = [] /\ glb s' = (vars0, 32768%N)).
Proof. apply (timer_init_slow (unstarted 32768)); [exact I|reflexivity..]. Defined.
