(* ===== verification/UStr.v ===== *)
(** The string library of the boot loader: src/U-Boot/lib/string.c,
    src/U-Boot/lib/strto.c and the character classes of src/U-Boot/lib/ctype.c.

    A pointer into an object that is only read is the list of the bytes from
    there to the end of the object, so that a read past the end of the object is
    [None]; the null pointer is [None] where a pointer may be null.  A [char] is
    unsigned, as on ARM.  The functions that write are in [UMem]. *)

From S2P Require Import Prelude Printf.

(** ** lib/ctype.c: the table of classes *)

Definition _U : Z := 0x01.
Definition _L : Z := 0x02.
Definition _D : Z := 0x04.
Definition _C : Z := 0x08.
Definition _P : Z := 0x10.
Definition _S : Z := 0x20.
Definition _X : Z := 0x40.
Definition _SP : Z := 0x80.

Definition _ctype : list Z :=
  replicate 9 _C ++ replicate 5 (Z.lor _C _S) ++ replicate 18 _C ++
  [Z.lor _S _SP] ++ replicate 15 _P ++ replicate 10 _D ++ replicate 7 _P ++
  replicate 6 (Z.lor _U _X) ++ replicate 20 _U ++ replicate 6 _P ++
  replicate 6 (Z.lor _L _X) ++ replicate 20 _L ++ replicate 4 _P ++ [_C] ++
  replicate 32 0 ++
  [Z.lor _S _SP] ++ replicate 31 _P ++ replicate 23 _U ++ [_P] ++ replicate 7 _U ++
  replicate 24 _L ++ [_P] ++ replicate 8 _L.

Definition __ismask (x : Z) : Z := nth (Z.to_nat (u8 x)) _ctype 0.

Definition isdigit (c : Z) : bool := negb (Z.land (__ismask c) _D =? 0).
Definition islower (c : Z) : bool := negb (Z.land (__ismask c) _L =? 0).
Definition isupper (c : Z) : bool := negb (Z.land (__ismask c) _U =? 0).
Definition isxdigit (c : Z) : bool := negb (Z.land (__ismask c) (Z.lor _D _X) =? 0).
Definition isblank (c : Z) : bool := (c =? 32) || (c =? 9).

Definition tolower (c : Z) : Z := if isupper c then u8 (c - (65 - 97)) else c.
Definition toupper (c : Z) : Z := if islower c then u8 (c - (97 - 65)) else c.

Section Reading.

(** ** lib/string.c: comparing *)

(** [__res] is a [signed char]: the difference is cut to eight bits. *)
Fixpoint strcmp (cs ct : list Z) : option Z :=
  match cs, ct with
  | c :: cs', d :: ct' =>
      let __res := s8 (c - d) in
      if negb (__res =? 0) || (c =? 0) then Some __res else strcmp cs' ct'
  | _, _ => None
  end.

(** [count] is tested before the bytes are read. *)
Fixpoint strncmp (cs ct : list Z) (count : Z) : option Z :=
  if count =? 0 then Some 0 else
  match cs, ct with
  | c :: cs', d :: ct' =>
      let __res := s8 (c - d) in
      if negb (__res =? 0) || (c =? 0) then Some __res else
      strncmp cs' ct' (count - 1)
  | _, _ => None
  end.

(** The [do] loop with [len] rounds left; a [continue] goes to its test. *)
Fixpoint strncasecmp_loop (s1 s2 : list Z) (len : Z) : option Z :=
  match s1, s2 with
  | c1 :: s1', c2 :: s2' =>
      let next := if len - 1 =? 0 then None else Some tt in
      if c1 =? 0 then Some (c1 - c2) else
      if c2 =? 0 then Some (c1 - c2) else
      if c1 =? c2 then
        match next with None => Some (c1 - c2) | Some _ => strncasecmp_loop s1' s2' (len - 1) end
      else
        let c1 := tolower c1 in
        let c2 := tolower c2 in
        if negb (c1 =? c2) then Some (c1 - c2) else
        match next with None => Some (c1 - c2) | Some _ => strncasecmp_loop s1' s2' (len - 1) end
  | _, _ => None
  end.

Definition strncasecmp (s1 s2 : list Z) (len : Z) : option Z :=
  if len =? 0 then Some 0 else strncasecmp_loop s1 s2 len.

Definition strcasecmp (s1 s2 : list Z) : option Z := strncasecmp s1 s2 0xFFFFFFFF.

Fixpoint memcmp (cs ct : list Z) (count : Z) : option Z :=
  if count <=? 0 then Some 0 else
  match cs, ct with
  | c :: cs', d :: ct' => if negb (c - d =? 0) then Some (c - d) else memcmp cs' ct' (count - 1)
  | _, _ => None
  end.

(** ** lib/string.c: lengths and searching *)

Fixpoint strlen (s : list Z) : option Z :=
  match s with
  | [] => None
  | c :: r => if c =? 0 then Some 0 else Z.succ <$> strlen r
  end.

Fixpoint strnlen (s : list Z) (count : Z) : option Z :=
  if count =? 0 then Some 0 else
  match s with
  | [] => None
  | c :: r => if c =? 0 then Some 0 else Z.succ <$> strnlen r (count - 1)
  end.

(** The result is a pointer: the bytes from the place found, or null. *)
Fixpoint strchr (s : list Z) (c : Z) : option (option (list Z)) :=
  match s with
  | [] => None
  | x :: r => if x =? u8 c then Some (Some s) else if x =? 0 then Some None else strchr r c
  end.

(** The [do] loop downwards from the end: [p] is at index [i]. *)
Fixpoint strrchr_loop (s : list Z) (c : Z) (i : nat) : option (list Z) :=
  if bool_decide (s !! i = Some (u8 c)) then Some (drop i s)
  else match i with O => None | S i => strrchr_loop s c i end.

Definition strrchr (s : list Z) (c : Z) : option (option (list Z)) :=
  n ← strlen s; Some (strrchr_loop s c (Z.to_nat n)).

(** The search of one character in a set: whether it ends before the NUL. *)
Fixpoint in_set (x : Z) (set : list Z) : option bool :=
  match set with
  | [] => None
  | a :: r => if a =? 0 then Some false else if x =? a then Some true else in_set x r
  end.

Fixpoint strspn (s accept : list Z) : option Z :=
  match s with
  | [] => None
  | x :: r =>
      if x =? 0 then Some 0 else
      b ← in_set x accept;
      if b : bool then Z.succ <$> strspn r accept else Some 0
  end.

Fixpoint strpbrk (s ct : list Z) : option (option (list Z)) :=
  match s with
  | [] => None
  | x :: r =>
      if x =? 0 then Some None else
      b ← in_set x ct;
      if b : bool then Some (Some s) else strpbrk r ct
  end.

(** [while (l1 >= l2)] runs at most once for each byte of [s1]. *)
Fixpoint strstr_loop (s1 s2 : list Z) (l1 l2 : Z) : option (option (list Z)) :=
  if l1 <? l2 then Some None else
  res ← memcmp s1 s2 l2;
  if res =? 0 then Some (Some s1) else
  match s1 with
  | [] => None
  | _ :: r => strstr_loop r s2 (l1 - 1) l2
  end.

Definition strstr (s1 s2 : list Z) : option (option (list Z)) :=
  l2 ← strlen s2;
  if l2 =? 0 then Some (Some s1) else
  l1 ← strlen s1;
  strstr_loop s1 s2 l1 l2.

Fixpoint memchr (s : list Z) (c n : Z) : option (option (list Z)) :=
  if n =? 0 then Some None else
  match s with
  | [] => None
  | x :: r => if u8 c =? x then Some (Some s) else memchr r c (n - 1)
  end.

(** The byte is compared with the whole of [c]. *)
Fixpoint memscan (addr : list Z) (c size : Z) : option (list Z) :=
  if size =? 0 then Some addr else
  match addr with
  | [] => None
  | x :: r => if x =? c then Some addr else memscan r c (size - 1)
  end.

(** ** [memchr_inv]: the first byte that differs, eight at a time *)

Fixpoint check_bytes8 (start : list Z) (value bytes : Z) : option (option (list Z)) :=
  if bytes =? 0 then Some None else
  match start with
  | [] => None
  | x :: r => if negb (x =? value) then Some (Some start) else check_bytes8 r value (bytes - 1)
  end.

(** A 64-bit little-endian load. *)
Definition load64 (s : list Z) : option Z :=
  if decide (8 <= length s)%nat then Some (le_word (take 8 s)) else None.

Fixpoint check_words (words : nat) (start : list Z) (value value64 bytes : Z)
    : option (option (list Z)) :=
  match words with
  | O => check_bytes8 start value (bytes mod 8)
  | S n =>
      w ← load64 start;
      if negb (w =? value64) then check_bytes8 start value 8
      else check_words n (drop 8 start) value value64 bytes
  end.

(** [addr] is the address of [start]. *)
Definition memchr_inv (addr : Z) (start : list Z) (c bytes : Z) : option (option (list Z)) :=
  let value := u8 c in
  if bytes <=? 16 then check_bytes8 start value bytes else
  let value64 := value in
  let value64 := Z.lor value64 (Z.shiftl value64 8) in
  let value64 := Z.lor value64 (Z.shiftl value64 16) in
  let value64 := Z.lor value64 (Z.shiftl value64 32) in
  let prefix := addr mod 8 in
  if negb (prefix =? 0) then
    let prefix := 8 - prefix in
    r ← check_bytes8 start value prefix;
    match r with
    | Some p => Some (Some p)
    | None =>
        let bytes := bytes - prefix in
        check_words (Z.to_nat (u32 (bytes / 8))) (drop (Z.to_nat prefix) start) value value64 bytes
    end
  else check_words (Z.to_nat (u32 (bytes / 8))) start value value64 bytes.
End Reading.

(** ** lib/strto.c *)

(** The value of a character that is a hexadecimal digit. *)
Definition digit_val (c : Z) : Z :=
  if isdigit c then c - 48 else (if islower c then toupper c else c) - 65 + 10.

(** The [while] loop: the result and the pointer where it stops. *)
Fixpoint strtoul_loop (cp : list Z) (base result : Z) : option (Z * list Z) :=
  match cp with
  | [] => None
  | c :: r =>
      if isxdigit c && (digit_val c <? base)
      then strtoul_loop r base (u64 (u64 (result * base) + digit_val c))
      else Some (result, cp)
  end.

(** The prefix of a number: the base it chooses and the pointer behind it. *)
Definition strtoul_prefix (cp : list Z) (base : Z) : option (Z * list Z) :=
  c ← head cp;
  if c =? 48 then
    let cp := tail cp in
    x ← head cp;
    b ← (if x =? 120 then y ← head (tail cp); Some (isxdigit y) else Some false);
    let '(base, cp) := if b : bool then (16, tail cp) else (base, cp) in
    Some (if base =? 0 then 8 else base, cp)
  else Some (base, cp).

Definition simple_strtoul (cp : list Z) (base : Z) : option (Z * list Z) :=
  '(base, cp) ← strtoul_prefix cp base;
  strtoul_loop cp (if base =? 0 then 10 else base) 0.

(** The 64-bit version has the same text: [long] has 64 bits. *)
Definition simple_strtoull := simple_strtoul.

Definition EINVAL : Z := 22.

(** The return value and the number stored through [res]. *)
Definition strict_strtoul (cp : list Z) (base : Z) : option (Z * Z) :=
  len ← strlen cp;
  if len =? 0 then Some (- EINVAL, 0) else
  '(val, tl) ← simple_strtoul cp base;
  let n := Z.of_nat (length cp - length tl) in
  if n =? 0 then Some (- EINVAL, 0) else
  c ← head tl;
  if (c =? 0) || ((len =? n + 1) && (c =? 10)) then Some (0, val) else Some (- EINVAL, 0).

Definition simple_strtol (cp : list Z) (base : Z) : option (Z * list Z) :=
  c ← head cp;
  if c =? 45 then
    '(v, e) ← simple_strtoul (tail cp) base; Some (s64 (- v), e)
  else '(v, e) ← simple_strtoul cp base; Some (s64 v, e).

(** The suffixes of a size; the multiplications fall through. *)
Definition size_suffix (result : Z) (endp : list Z) : option (Z * list Z) :=
  c ← head endp;
  let k (result : Z) :=
    let result := u64 (result * 1024) in
    i ← endp !! 1%nat;
    if i =? 105 then
      b ← endp !! 2%nat;
      Some (result, if b =? 66 then drop 3 endp else drop 2 endp)
    else Some (result, endp) in
  if c =? 71 then k (u64 (u64 (result * 1024) * 1024))
  else if c =? 77 then k (u64 (result * 1024))
  else if (c =? 75) || (c =? 107) then k result
  else Some (result, endp).

Definition ustrtoul (cp : list Z) (base : Z) : option (Z * list Z) :=
  '(result, endp) ← simple_strtoul cp base; size_suffix result endp.

Definition ustrtoull (cp : list Z) (base : Z) : option (Z * list Z) :=
  '(result, endp) ← simple_strtoull cp base; size_suffix result endp.

(** The loop downwards from [end - 1] to the second character. *)
Fixpoint trailing_loop (str : list Z) (i : nat) : option Z :=
  match i with
  | O => Some (-1)
  | S i' =>
      c ← str !! i;
      if negb (isdigit c) then fst <$> simple_strtoul (drop (S i) str) 10
      else trailing_loop str i'
  end.

(** [end] is the offset of the second argument, none if it is null. *)
Definition trailing_strtoln (str : list Z) (stop : option Z) : option Z :=
  e ← match stop with Some e => Some e | None => strlen str end;
  if e <=? 1 then Some (-1) else v ← trailing_loop str (Z.to_nat (e - 1)); Some (s64 v).

Definition trailing_strtol (str : list Z) : option Z := trailing_strtoln str None.

(** ** C strings *)

(** The characters of a C string: nonzero bytes. *)
Definition text_ok (a : list Z) : Prop := Forall (fun c => 0 < c < 256) a.

(** A C string in an object that goes on with [x]. *)
Definition cstr (a x : list Z) : list Z := a ++ 0 :: x.

(** The characters of a string, up to its NUL. *)
Fixpoint until0 (s : list Z) : list Z :=
  match s with
  | [] => []
  | c :: r => if c =? 0 then [] else c :: until0 r
  end.

Lemma until0_text a : text_ok a -> until0 a = a.
Proof.
  induction 1 as [|c a Hc Ha IH]; [done|]. cbn [until0]. destruct (Z.eqb_spec c 0); [lia|]. by rewrite IH.
Qed.

Lemma until0_cstr a x : text_ok a -> until0 (cstr a x) = a.
Proof.
  unfold cstr. induction 1 as [|c a Hc Ha IH]; [done|]. cbn [app until0].
  destruct (Z.eqb_spec c 0); [lia|]. by rewrite IH.
Qed.

Lemma strlen_cstr a x : text_ok a -> strlen (cstr a x) = Some (Z.of_nat (length a)).
Proof.
  induction 1 as [|c a Hc _ IH]; [done|]. cbn [cstr app strlen].
  destruct (Z.eqb_spec c 0); [lia|]. unfold cstr in IH. rewrite IH. cbn. f_equal. lia.
Qed.

Lemma s8_diff_zero c d : 0 <= c < 256 -> 0 <= d < 256 -> s8 (c - d) = 0 <-> c = d.
Proof. unfold s8. intros Hc Hd. Z.div_mod_to_equations. lia. Qed.

(** [strcmp] tells equality, whatever follows the strings. *)
Lemma strcmp_cstr a b x y :
  text_ok a -> text_ok b ->
  exists r, strcmp (cstr a x) (cstr b y) = Some r /\ (r = 0 <-> a = b).
Proof.
  intros Ha. revert b. induction Ha as [|c a Hc Ha IH]; intros b Hb;
    destruct Hb as [|d b Hd Hb]; cbn [cstr app strcmp].
  - by exists 0.
  - pose proof (s8_diff_zero 0 d ltac:(lia) ltac:(lia)).
    rewrite orb_true_r. exists (s8 (0 - d)). split; [done|]. split; [lia|done].
  - pose proof (s8_diff_zero c 0 ltac:(lia) ltac:(lia)).
    destruct (Z.eqb_spec (s8 (c - 0)) 0); [lia|]. cbn [negb orb].
    exists (s8 (c - 0)). split; [done|]. split; [lia|done].
  - pose proof (s8_diff_zero c d ltac:(lia) ltac:(lia)) as Hcd.
    destruct (Z.eqb_spec (s8 (c - d)) 0) as [He|He]; cbn [negb orb].
    + apply Hcd in He as ->. destruct (Z.eqb_spec d 0); [lia|].
      destruct (IH b Hb) as (r & Hr & Hab). exists r. split; [exact Hr|].
      rewrite Hab. split; [by intros ->|by injection 1].
    + exists (s8 (c - d)). split; [done|]. split; [lia|]. injection 1 as -> ->. tauto.
Qed.

(** The order of [strcmp] is not an order: the difference of two characters
    is cut to eight signed bits, so of these two strings each is below the
    other (and sorting by it is not determined). *)
Theorem strcmp_not_antisymmetric x y :
  exists r r', strcmp (cstr [1] x) (cstr [129] y) = Some r /\
    strcmp (cstr [129] y) (cstr [1] x) = Some r' /\ r < 0 /\ r' < 0.
Proof. exists (-128), (-128). by vm_compute. Qed.

Lemma strncmp_prefix a s x :
  text_ok a -> Forall is_u8 s ->
  strncmp (cstr a x) s (Z.of_nat (length a)) = Some 0 <-> take (length a) s = a.
Proof.
  intros Ha. revert s. induction Ha as [|c a Hc Ha IH]; intros s Hs; [done|].
  cbn [cstr app length strncmp]. destruct (Z.eqb_spec (Z.of_nat (S (length a))) 0); [lia|].
  destruct Hs as [|d s Hd Hs]; [done|]. unfold is_u8 in Hd. cbn [take].
  pose proof (s8_diff_zero c d ltac:(lia) ltac:(lia)) as Hcd.
  destruct (Z.eqb_spec (s8 (c - d)) 0) as [He|He]; cbn [negb orb].
  - apply Hcd in He as ->. destruct (Z.eqb_spec d 0); [lia|].
    replace (Z.of_nat (S (length a)) - 1) with (Z.of_nat (length a)) by lia.
    unfold cstr in IH. rewrite IH by done. split; congruence.
  - split; [intros Hr; injection Hr as Hr; lia|]. intros Hr. exfalso. apply He, Hcd. congruence.
Qed.

(** [strrchr] finds the last occurrence of a character of the string. *)
Lemma strrchr_last a b c x :
  text_ok a -> text_ok b -> 0 < c < 256 -> c ∉ b ->
  strrchr (cstr (a ++ c :: b) x) c = Some (Some (cstr (c :: b) x)).
Proof.
  intros Ha Hb Hc Hnb. unfold strrchr.
  rewrite strlen_cstr by (apply Forall_app; split; [done|by constructor]).
  cbn [mbind option_bind]. f_equal. rewrite Nat2Z.id, length_app. cbn [length].
  assert (Hu : u8 c = c) by (apply u8_small; unfold is_u8; lia).
  assert (Hgen : forall k, (k <= S (length b))%nat ->
    strrchr_loop (cstr (a ++ c :: b) x) c (length a + k) = Some (cstr (c :: b) x)); [|by apply Hgen].
  induction k as [|k IH]; intros Hk.
  - rewrite Nat.add_0_r.
    assert (Hat : cstr (a ++ c :: b) x !! length a = Some (u8 c)).
    { unfold cstr. rewrite <- app_assoc, lookup_app_r, Nat.sub_diag by lia. cbn. by rewrite Hu. }
    destruct (length a) eqn:Hl; unfold strrchr_loop; rewrite bool_decide_true by done.
    + destruct a; [|done]. done.
    + rewrite <- Hl. unfold cstr. by rewrite <- app_assoc, drop_app_length.
  - rewrite Nat.add_succ_r. cbn [strrchr_loop].
    rewrite bool_decide_false; [apply IH; lia|].
    unfold cstr. rewrite <- app_assoc, lookup_app_r by lia.
    replace (S (length a + k) - length a)%nat with (S k) by lia.
    change (((c :: b) ++ 0 :: x) !! S k) with ((b ++ 0 :: x) !! k).
    rewrite Hu. destruct (decide (k < length b)%nat).
    + rewrite lookup_app_l by done. intros Hin. apply Hnb. by eapply list_elem_of_lookup_2.
    + rewrite lookup_app_r by lia. replace (k - length b)%nat with O by lia.
      cbn. intros Hz. injection Hz as <-. lia.
Qed.

Lemma strrchr_none a c x :
  text_ok a -> 0 < c < 256 -> c ∉ a -> strrchr (cstr a x) c = Some None.
Proof.
  intros Ha Hc Hn. unfold strrchr. rewrite strlen_cstr by done.
  cbn [mbind option_bind]. f_equal. rewrite Nat2Z.id.
  assert (Hu : u8 c = c) by (apply u8_small; unfold is_u8; lia).
  assert (Hgen : forall k, (k <= length a)%nat -> strrchr_loop (cstr a x) c k = None); [|by apply Hgen].
  assert (Hne : forall k, (k <= length a)%nat -> cstr a x !! k <> Some (u8 c)).
  { intros k Hk. unfold cstr. rewrite Hu. destruct (decide (k < length a)%nat).
    - rewrite lookup_app_l by done. intros Hin. apply Hn. by eapply list_elem_of_lookup_2.
    - rewrite lookup_app_r by lia. replace (k - length a)%nat with O by lia.
      cbn. intros Hz. injection Hz as <-. lia. }
  induction k as [|k IH]; intros Hk; cbn [strrchr_loop];
    rewrite bool_decide_false by (by apply Hne); [done|]. apply IH. lia.
Qed.

(** ** Numbers *)

(** A digit of base [b], as [printf] writes and [simple_strtoul] reads it. *)
Definition is_digit_of (b c : Z) : Prop :=
  isxdigit c = true /\ digit_val c = digit_value c_a c /\ 0 <= digit_val c < b.

Lemma digit_is_digit b t : 2 <= b <= 16 -> 0 <= t < b -> is_digit_of b (digit c_a t).
Proof.
  intros Hb Ht. assert (Hall : forallb (fun t => let c := digit c_a t in
      isxdigit c && (digit_val c =? digit_value c_a c) && (digit_val c =? t)) (seqZ 0 16) = true)
    by (vm_compute; reflexivity).
  rewrite forallb_forall in Hall. specialize (Hall t).
  rewrite <- list_elem_of_In, elem_of_seqZ in Hall. specialize (Hall ltac:(lia)).
  cbn zeta in Hall. unfold is_digit_of. destruct (isxdigit _); [|done]. cbn [andb] in Hall.
  split_and!; [done|lia|lia|lia].
Qed.

Lemma numeral_digits b room u : 2 <= b <= 16 -> Forall (is_digit_of b) (numeral b c_a room u).
Proof.
  intros Hb. revert u. induction room as [|r IH]; intros u; cbn [numeral]; [constructor|].
  destruct (u =? 0); [constructor|]. apply Forall_app. split; [apply IH|].
  constructor; [|constructor]. apply digit_is_digit; [done|]. apply Z.mod_pos_bound. lia.
Qed.

(** The value of digits behind an accumulated one. *)
Definition horner (b acc : Z) (cs : list Z) : Z := foldl (fun a c => a * b + digit_value c_a c) acc cs.

Lemma horner_mono b acc cs :
  2 <= b -> 0 <= acc -> Forall (is_digit_of b) cs -> acc <= horner b acc cs.
Proof.
  intros Hb Ha Hcs. revert acc Ha. induction Hcs as [|c cs (_ & Hv & Hd) _ IH]; intros acc Ha;
    cbn [horner foldl]; [lia|].
  rewrite <- Hv. specialize (IH (acc * b + digit_val c) ltac:(nia)). unfold horner in IH. nia.
Qed.

(** A character that ends a number in base [b]. *)
Definition stops (b c : Z) : Prop := isxdigit c && (digit_val c <? b) = false.

Lemma strtoul_loop_horner b acc cs c rest :
  2 <= b -> 0 <= acc -> Forall (is_digit_of b) cs -> horner b acc cs < 2 ^ 64 -> stops b c ->
  strtoul_loop (cs ++ c :: rest) b acc = Some (horner b acc cs, c :: rest).
Proof.
  intros Hb Ha Hcs. revert acc Ha.
  induction Hcs as [|d cs (Hx & Hv & Hd) Hcs IH]; intros acc Ha Hh Hs;
    cbn [app strtoul_loop horner foldl] in *.
  - by rewrite Hs.
  - rewrite Hx. destruct (Z.ltb_spec (digit_val d) b); [|lia]. cbn [andb].
    rewrite <- Hv in *.
    pose proof (horner_mono b (acc * b + digit_val d) cs Hb ltac:(nia) Hcs) as Hm.
    unfold horner in Hm.
    rewrite (u64_small (acc * b)) by (unfold is_u64; nia).
    rewrite u64_small by (unfold is_u64; nia). apply IH; [nia|done|done].
Qed.

(** A number as it is written: without leading zeros, after [0x] for base 16. *)
Definition written (b u : Z) : list Z := if u =? 0 then [48] else numeral b c_a 64 u.

Lemma written_horner b u : 2 <= b <= 16 -> is_u64 u ->
  Forall (is_digit_of b) (written b u) /\ horner b 0 (written b u) = u.
Proof.
  intros Hb Hu. unfold written. destruct (Z.eqb_spec u 0) as [->|].
  - split; [|done]. constructor; [|constructor].
    apply (digit_is_digit b 0 Hb). lia.
  - split; [by apply numeral_digits|].
    apply (numeral_correct b c_a Hb (or_introl eq_refl)).
    unfold is_u64 in Hu. change (Z.of_nat 64) with 64.
    pose proof (Z.pow_le_mono_l 2 b 64). lia.
Qed.

Lemma written_text b v : 2 <= b <= 16 -> is_u64 v -> text_ok (written b v).
Proof.
  intros Hb Hv. destruct (written_horner b v Hb Hv) as [Hd _].
  assert (H8 : Forall is_u8 (written b v)).
  { unfold written. destruct (v =? 0); [by repeat constructor|]. apply numeral_bytes; lia. }
  apply Forall_forall. intros c Hc. rewrite Forall_forall in Hd, H8. destruct (Hd c Hc) as (Hx & _). specialize (H8 c Hc).
  destruct (Z.eq_dec c 0) as [->|]; [done|]. unfold is_u8 in H8. lia.
Qed.

(** A numeral has no other characters than digits. *)
Lemma written_without b v c : 2 <= b <= 16 -> is_u64 v -> isxdigit c = false -> c ∉ written b v.
Proof.
  intros Hb Hv Hc Hin. destruct (written_horner b v Hb Hv) as [Hd _]. rewrite Forall_forall in Hd.
  destruct (Hd c Hin) as [Hx _]. congruence.
Qed.

Lemma written_leading b u : 2 <= b <= 16 -> is_u64 u -> u <> 0 ->
  exists d ds, written b u = d :: ds /\ d <> 48.
Proof.
  intros Hb Hu Hu0. unfold written. destruct (Z.eqb_spec u 0); [done|].
  destruct (numeral_leading b c_a Hb (or_introl eq_refl) 64 u) as (d & ds & Hd & Hv).
  { unfold is_u64 in Hu. change (Z.of_nat 64) with 64. pose proof (Z.pow_le_mono_l 2 b 64). lia. }
  exists d, ds. split; [done|]. by intros ->.
Qed.

Lemma written_room b v k : 2 <= b <= 16 -> 0 <= v < b ^ Z.of_nat k -> (1 <= k <= 64)%nat -> (length (written b v) <= k)%nat.
Proof.
  intros Hb Hv Hk. unfold written. destruct (Z.eqb_spec v 0); [simpl; lia|].
  assert (E : numeral b c_a 64 v = numeral b c_a k v) by (apply numeral_room; lia).
  rewrite E. apply numeral_length.
Qed.

Lemma written_nonempty b v : 2 <= b <= 16 -> is_u64 v -> written b v <> [].
Proof.
  intros Hb Hv. destruct (Z.eq_dec v 0) as [->|Hne]; [done|]. by destruct (written_leading b v Hb Hv Hne) as (x & xs & -> & _).
Qed.

Lemma strtoul_loop_written b u c rest :
  2 <= b <= 16 -> is_u64 u -> stops b c ->
  strtoul_loop (written b u ++ c :: rest) b 0 = Some (u, c :: rest).
Proof.
  intros Hb Hu Hs. destruct (written_horner b u Hb Hu) as [Hd Hv].
  rewrite strtoul_loop_horner; [by rewrite Hv|lia|lia|done| |done].
  rewrite Hv. unfold is_u64 in Hu. lia.
Qed.

(** [simple_strtoul] reads back every unsigned 64-bit number: decimal text
    (no base, or base 10), and hexadecimal text after [0x] whatever the base
    asked for; the pointer it stores is the first character that is no digit. *)
Theorem strtoul_reads_back u c rest :
  is_u64 u ->
  (stops 10 c -> c <> 120 -> forall base, base = 0 \/ base = 10 -> u <> 0 \/ base = 10 ->
     simple_strtoul (written 10 u ++ c :: rest) base = Some (u, c :: rest)) /\
  (stops 16 c -> forall base,
     simple_strtoul ([48; 120] ++ written 16 u ++ c :: rest) base = Some (u, c :: rest)).
Proof.
  intros Hu. split.
  - intros Hs Hx base Hbase Hu0. unfold simple_strtoul, strtoul_prefix.
    destruct (Z.eq_dec u 0) as [->|Hne].
    + destruct Hu0 as [|Hb]; [lia|]. subst base. change (written 10 0) with [48].
      cbn [app head tail mbind option_bind]. change (48 =? 48) with true.
      cbn [mbind option_bind]. destruct (Z.eqb_spec c 120); [done|]. cbn.
      by rewrite Hs.
    + destruct (written_leading 10 u ltac:(lia) Hu Hne) as (d & ds & Hw & Hd).
      pose proof (strtoul_loop_written 10 u c rest ltac:(lia) Hu Hs) as Hl. rewrite Hw in *.
      cbn [app head mbind option_bind]. destruct (Z.eqb_spec d 48); [done|].
      cbn [mbind option_bind]. by destruct Hbase as [-> | ->].
  - intros Hs base. unfold simple_strtoul, strtoul_prefix.
    pose proof (strtoul_loop_written 16 u c rest ltac:(lia) Hu Hs) as Hl.
    destruct (written_horner 16 u ltac:(lia) Hu) as [Hd _].
    assert (Hw : exists y ds, written 16 u = y :: ds /\ isxdigit y = true).
    { destruct (Z.eq_dec u 0) as [->|Hne]; [by exists 48, []|].
      destruct (written_leading 16 u ltac:(lia) Hu Hne) as (y & ds & Hw & _).
      rewrite Hw in Hd. exists y, ds. split; [done|]. inversion Hd as [|? ? Hy]. apply Hy. }
    destruct Hw as (y & ds & Hw & Hy). rewrite Hw in *.
    cbn [app head tail mbind option_bind]. change (48 =? 48) with true.
    cbn [mbind option_bind head]. change (120 =? 120) with true. cbn [mbind option_bind].
    rewrite Hy. cbn [mbind option_bind]. exact Hl.
Qed.

Lemma strtoul_reads_back_witness :
  is_u64 4096 /\ simple_strtoul (chars "4096 kB") 10 = Some (4096, chars " kB") /\
  simple_strtoul (chars "0x1000,") 0 = Some (4096, chars ",").
Proof.
  destruct (strtoul_reads_back 4096 32 (chars "kB") ltac:(vm_compute; split; congruence)) as [Hd _].
  destruct (strtoul_reads_back 4096 44 [] ltac:(vm_compute; split; congruence)) as [_ Hx].
  split_and!.
  - vm_compute. split; congruence.
  - apply Hd; [reflexivity|lia|by right|by left].
  - apply Hx. reflexivity.
Defined.

(** ** The search for a byte that differs *)

(** The byte-wise loop finds the first byte that is not [value]. *)
Lemma check_bytes8_skip n s value bytes :
  take n s = replicate n value -> Z.of_nat n <= bytes ->
  check_bytes8 s value bytes = check_bytes8 (drop n s) value (bytes - Z.of_nat n).
Proof.
  revert s bytes. induction n as [|n IH]; intros s bytes Ht Hn.
  - by rewrite Z.sub_0_r.
  - destruct s as [|x s]; [done|]. cbn [take replicate] in Ht. injection Ht as -> Ht.
    cbn [check_bytes8 drop]. destruct (Z.eqb_spec bytes 0); [lia|].
    rewrite Z.eqb_refl. cbn [negb]. rewrite IH by (done || lia). f_equal. lia.
Qed.

Lemma check_bytes8_within n s value bytes :
  take n s <> replicate n value -> (n <= length s)%nat -> Z.of_nat n <= bytes ->
  check_bytes8 s value bytes = check_bytes8 s value (Z.of_nat n).
Proof.
  revert s bytes. induction n as [|n IH]; intros s bytes Ht Hl Hn; [done|].
  destruct s as [|x s]; [simpl in Hl; lia|]. cbn [check_bytes8].
  destruct (Z.eqb_spec bytes 0), (Z.eqb_spec (Z.of_nat (S n)) 0); try lia.
  destruct (Z.eqb_spec x value) as [->|]; [|done]. cbn [negb].
  replace (Z.of_nat (S n) - 1) with (Z.of_nat n) by lia. simpl in Hl.
  apply IH; [|lia|lia]. intros He. apply Ht. cbn. by rewrite He.
Qed.

Lemma check_bytes8_finds n s value :
  take n s <> replicate n value -> (n <= length s)%nat ->
  exists q, check_bytes8 s value (Z.of_nat n) = Some (Some q).
Proof.
  revert s. induction n as [|n IH]; intros s He Hl; [done|].
  destruct s as [|x s]; [simpl in Hl; lia|]. cbn [check_bytes8].
  destruct (Z.eqb_spec (Z.of_nat (S n)) 0); [lia|].
  destruct (Z.eqb_spec x value) as [->|]; cbn [negb]; [|by eexists].
  replace (Z.of_nat (S n) - 1) with (Z.of_nat n) by lia. simpl in Hl.
  apply IH; [|lia]. intros Ht. apply He. cbn. by rewrite Ht.
Qed.

(** The value the words are compared with has the byte in all eight places. *)
Lemma value64_spread v : is_u8 v ->
  (let v1 := Z.lor v (Z.shiftl v 8) in
   let v2 := Z.lor v1 (Z.shiftl v1 16) in
   Z.lor v2 (Z.shiftl v2 32)) = le_word (replicate 8 v).
Proof.
  intros Hv.
  assert (Hall : forallb (fun v => let v1 := Z.lor v (Z.shiftl v 8) in
    let v2 := Z.lor v1 (Z.shiftl v1 16) in
    Z.lor v2 (Z.shiftl v2 32) =? le_word (replicate 8 v)) (seqZ 0 256) = true)
    by (vm_compute; reflexivity).
  rewrite forallb_forall in Hall. apply Z.eqb_eq, Hall.
  rewrite <- list_elem_of_In, elem_of_seqZ. unfold is_u8 in Hv. lia.
Qed.

Lemma check_words_bytes words s value bytes :
  Forall is_u8 s -> is_u8 value -> (8 * words <= length s)%nat ->
  check_words words s value (le_word (replicate 8 value)) bytes =
    check_bytes8 s value (8 * Z.of_nat words + bytes mod 8).
Proof.
  intros Hs Hv. revert s Hs. induction words as [|n IH]; intros s Hs Hl; cbn [check_words].
  - done.
  - unfold load64. rewrite decide_True by lia. cbn [mbind option_bind].
    pose proof (Z.mod_pos_bound bytes 8).
    destruct (Z.eqb_spec (le_word (take 8 s)) (le_word (replicate 8 value))) as [He|He]; cbn [negb].
    + apply le_word_inj in He; [| by apply Forall_take |by apply Forall_replicate|lens].
      rewrite IH; [|by apply Forall_drop|lens].
      rewrite (check_bytes8_skip 8 s) by (done || lia). f_equal. lia.
    + symmetry. apply (check_bytes8_within 8); [congruence|lia|lia].
Qed.

(** C39: the search that compares eight bytes at a time finds what the search byte
    by byte finds, from every address, for every length the object has. *)
Theorem memchr_inv_bytewise addr s c bytes :
  Forall is_u8 s -> 0 <= bytes <= Z.of_nat (length s) -> bytes < 2 ^ 35 -> 0 <= addr ->
  memchr_inv addr s c bytes = check_bytes8 s (u8 c) bytes.
Proof.
  intros Hs Hb Hmax Ha. unfold memchr_inv. pose proof (u8_range c) as Hv.
  destruct (Z.leb_spec bytes 16); [done|]. cbv zeta. rewrite value64_spread by done.
  set (v := u8 c) in *. pose proof (Z.mod_pos_bound addr 8).
  assert (Hw : forall n, 0 <= n < 2 ^ 35 -> u32 (n / 8) = n / 8).
  { intros n Hn. apply u32_small. unfold is_u32. Z.div_mod_to_equations. lia. }
  destruct (Z.eqb_spec (addr mod 8) 0) as [Hz|Hz]; cbn [negb].
  - rewrite Hw, check_words_bytes by (done || lia || (Z.div_mod_to_equations; lia)).
    f_equal. Z.div_mod_to_equations. lia.
  - set (p := 8 - addr mod 8) in *. set (n := Z.to_nat p).
    assert (Hp : p = Z.of_nat n) by lia. rewrite Hp.
    destruct (decide (take n s = replicate n v)) as [He|He].
    + rewrite (check_bytes8_skip n s v bytes He) by lia.
      rewrite (check_bytes8_skip n s v (Z.of_nat n) He), Z.sub_diag by lia.
      assert (Hnil : check_bytes8 (drop n s) v 0 = Some None) by by destruct (drop n s).
      rewrite Hnil. cbn [mbind option_bind].
      rewrite Hw by lia. rewrite check_words_bytes; [|by apply Forall_drop|done|].
      * f_equal. rewrite Z2Nat.id by (Z.div_mod_to_equations; lia). Z.div_mod_to_equations. lia.
      * lens. Z.div_mod_to_equations. lia.
    + destruct (check_bytes8_finds n s v He ltac:(lia)) as [q Hq].
      rewrite Hq. cbn [mbind option_bind].
      rewrite <- Hq. symmetry. apply check_bytes8_within; [done|lia|lia].
Qed.

Lemma memchr_inv_bytewise_witness :
  memchr_inv 0x1003 (replicate 20 255 ++ [7; 255]) 255 22 =
    check_bytes8 (replicate 20 255 ++ [7; 255]) (u8 255) 22.
Proof.
  apply memchr_inv_bytewise.
  - refine (bool_decide_eq_true_1 _ _). vm_compute. reflexivity.
  - vm_compute; split; congruence.
  - lia.
  - lia.
Defined.
