(* ===== verification/Vsprintf.v ===== *)
(** Formatted text of the boot loader (src/U-Boot/lib/vsprintf.c).

    A function that writes through [ADDCH] is the list of the characters it passes to
    it, in order: nothing else depends on where they go.  [addchs] puts them into the
    buffer, with the test of the end that [CONFIG_SYS_VSNPRINTF] gives and without:
    the board does not set it, and then the sizes of [snprintf] and its kind are
    dropped.  A format is the list of its characters with the NUL, an argument has the
    type [va_arg] may ask it for, and what is undefined (another type, an [int] that
    overflows, a store outside the object) is [None].  The network, and with it the
    addresses [%p] can print, is switched off.

    The reference for the scan is [format_value], the text that a list of characters
    and conversions denotes, by recursion on the list and with the numbers of
    [number_text]; [format_prints] shows that the scan ends and gives it. *)

From S2P Require Import Prelude UStr.

(** ** Numbers *)

Definition is_digit (c : Z) : bool := (48 <=? c) && (c <=? 57).

(** The loop: the number and the pointer behind it. *)
Fixpoint skip_atoi_loop (s : list Z) (i : Z) : option (Z * list Z) :=
  match s with
  | [] => None
  | c :: r =>
      if is_digit c then
        if bool_decide (is_s32 (i * 10 + c)) then skip_atoi_loop r (i * 10 + c - 48) else None
      else Some (i, s)
  end.

Definition skip_atoi (s : list Z) : option (Z * list Z) := skip_atoi_loop s 0.

(** The digits stored from [buf] on, the lowest first. *)
Definition put_dec_trunc (q : Z) : list Z :=
  let d1 := Z.land (Z.shiftr q 4) 15 in
  let d2 := Z.land (Z.shiftr q 8) 15 in
  let d3 := Z.shiftr q 12 in
  let d0 := 6 * (d3 + d2 + d1) + Z.land q 15 in
  let q := Z.shiftr (d0 * 0xcd) 11 in
  let d0 := u32 (d0 - 10 * q) in
  u8 (d0 + 48) ::
  let d1 := q + 9 * d3 + 5 * d2 + d1 in
  if negb (d1 =? 0) then
    let q := Z.shiftr (d1 * 0xcd) 11 in
    let d1 := u32 (d1 - 10 * q) in
    u8 (d1 + 48) ::
    let d2 := q + 2 * d2 in
    if negb (d2 =? 0) || negb (d3 =? 0) then
      let q := Z.shiftr (d2 * 0xd) 7 in
      let d2 := u32 (d2 - 10 * q) in
      u8 (d2 + 48) ::
      let d3 := q + 4 * d3 in
      if negb (d3 =? 0) then
        let q := Z.shiftr (d3 * 0xcd) 11 in
        let d3 := u32 (d3 - 10 * q) in
        u8 (d3 + 48) :: if negb (q =? 0) then [u8 (q + 48)] else []
      else []
    else []
  else [].

Definition put_dec_full (q : Z) : list Z :=
  let d1 := Z.land (Z.shiftr q 4) 15 in
  let d2 := Z.land (Z.shiftr q 8) 15 in
  let d3 := Z.shiftr q 12 in
  let d0 := 6 * (d3 + d2 + d1) + Z.land q 15 in
  let q := Z.shiftr (d0 * 0xcd) 11 in
  let d0 := u32 (d0 - 10 * q) in
  let d1 := q + 9 * d3 + 5 * d2 + d1 in
  let q := Z.shiftr (d1 * 0xcd) 11 in
  let d1 := u32 (d1 - 10 * q) in
  let d2 := q + 2 * d2 in
  let q := Z.shiftr (d2 * 0xd) 7 in
  let d2 := u32 (d2 - 10 * q) in
  let d3 := q + 4 * d3 in
  let q := Z.shiftr (d3 * 0xcd) 11 in
  let d3 := u32 (d3 - 10 * q) in
  [u8 (d0 + 48); u8 (d1 + 48); u8 (d2 + 48); u8 (d3 + 48); u8 (q + 48)].

Fixpoint put_dec (fuel : nat) (num : Z) : option (list Z) :=
  match fuel with
  | O => None
  | S n =>
      if num <? 100000 then Some (put_dec_trunc num)
      else r ← put_dec n (num / 100000); Some (put_dec_full (num mod 100000) ++ r)
  end.

Definition ZEROPAD : Z := 1.
Definition SIGN : Z := 2.
Definition PLUS : Z := 4.
Definition SPACE : Z := 8.
Definition LEFT : Z := 16.
Definition SMALL : Z := 32.
Definition SPECIAL : Z := 64.

Definition has (type flag : Z) : bool := negb (Z.land type flag =? 0).

(** [static const char digits[16]] *)
Definition digits : list Z := chars "0123456789ABCDEF".

(** [--x] of an [int]. *)
Definition dec (x : Z) : option Z := if x =? - 2 ^ 31 then None else Some (x - 1).

(** [do ... while (num)]: the digits in the base of the mask, the lowest first. *)
Fixpoint digits_loop (fuel : nat) (mask shift locase num : Z) : option (list Z) :=
  match fuel with
  | O => None
  | S n =>
      let c := Z.lor (nth (Z.to_nat (Z.land (u8 num) mask)) digits 0) locase in
      let num := Z.shiftr num shift in
      if num =? 0 then Some [c] else r ← digits_loop n mask shift locase num; Some (c :: r)
  end.

(** [while (--size >= 0) ADDCH(buf, c)]: the characters and [size]. *)
Fixpoint pad_loop (fuel : nat) (c size : Z) : option (list Z * Z) :=
  size ← dec size;
  if negb (0 <=? size) then Some ([], size) else
  match fuel with
  | O => None
  | S n => '(l, size) ← pad_loop n c size; Some (c :: l, size)
  end.

Definition pad (c size : Z) : option (list Z * Z) := pad_loop (Z.to_nat size) c size.

(** [while (i <= --precision)] *)
Fixpoint zeros_loop (fuel : nat) (i precision : Z) : list Z :=
  match fuel with
  | O => []
  | S n => let precision := precision - 1 in if i <=? precision then 48 :: zeros_loop n i precision else []
  end.

(** The sign, the number without it, and the width left. *)
Definition number_sign (num size type : Z) : option (Z * Z * Z) :=
  if has type SIGN then
    if s64 num <? 0 then
      if s64 num =? - 2 ^ 63 then None else size ← dec size; Some (45, u64 (- s64 num), size)
    else if has type PLUS then size ← dec size; Some (43, num, size)
    else if has type SPACE then size ← dec size; Some (32, num, size)
    else Some (0, num, size)
  else Some (0, num, size).

(** The digits, the lowest first. *)
Definition number_digits (num base locase : Z) : option (list Z) :=
  if num =? 0 then Some [48]
  else if negb (base =? 10) then
    digits_loop 64 (base - 1) (if base =? 16 then 4 else 3) locase num
  else put_dec 5 num.

Definition number (num base size precision type : Z) : option (list Z) :=
  let need_pfx := has type SPECIAL && negb (base =? 10) in
  let locase := Z.land type SMALL in
  let type := if has type LEFT then Z.land type (Z.lnot ZEROPAD) else type in
  '(sign, num, size) ← number_sign num size type;
  size ← (if need_pfx then size ← dec size; if base =? 16 then dec size else Some size else Some size);
  tmp ← number_digits num base locase;
  let i := Z.of_nat (length tmp) in
  if 66 <? i then None else
  let precision := if precision <? i then i else precision in
  if negb (bool_decide (is_s32 (size - precision))) then None else
  let size := size - precision in
  '(lead, size) ← (if negb (has type (ZEROPAD + LEFT)) then pad 32 size else Some ([], size));
  let pfx := (if negb (sign =? 0) then [sign] else []) ++
    (if need_pfx then 48 :: (if base =? 16 then [Z.lor 88 locase] else []) else []) in
  '(fill, size) ← (if negb (has type LEFT) then pad (if has type ZEROPAD then 48 else 32) size else Some ([], size));
  let zeros := zeros_loop (Z.to_nat precision) i precision in
  '(trail, _) ← pad 32 size;
  Some (lead ++ pfx ++ fill ++ zeros ++ rev tmp ++ trail).

(** ** Strings and pointers *)

(** [while (len < field_width--) ADDCH(buf, ' ')] *)
Fixpoint width_loop (fuel : nat) (len field_width : Z) : option (list Z * Z) :=
  let more := len <? field_width in
  field_width ← dec field_width;
  if negb more then Some ([], field_width) else
  match fuel with
  | O => None
  | S n => '(l, field_width) ← width_loop n len field_width; Some (32 :: l, field_width)
  end.

Definition width (len field_width : Z) : option (list Z * Z) :=
  width_loop (Z.to_nat (field_width - len)) len field_width.

Definition string (s : option (list Z)) (field_width precision flags : Z) : option (list Z) :=
  let s := default (chars "<NULL>" ++ [0]) s in
  len ← strnlen s (u64 precision);
  '(lead, field_width) ← (if negb (has flags LEFT) then width len field_width else Some ([], field_width));
  '(trail, _) ← width len field_width;
  Some (lead ++ take (Z.to_nat len) s ++ trail).

Definition pointer (ptr field_width precision flags : Z) : option (list Z) :=
  let flags := Z.lor flags SMALL in
  let '(field_width, flags) :=
    if field_width =? -1 then (2 * 8, Z.lor flags ZEROPAD) else (field_width, flags) in
  number ptr 16 field_width precision flags.

(** ** The format *)

(** An argument: an [int] (or [unsigned int]), a [long] or another type of 64 bits, a
    string, a pointer, a place for [%n]. *)
Inductive va :=
  | Int (v : Z)
  | Long (v : Z)
  | Str (s : option (list Z))
  | Ptr (v : Z)
  | Out.

Definition va_int (args : list va) : option (Z * list va) :=
  match args with Int v :: args => Some (v, args) | _ => None end.

Definition va_long (args : list va) : option (Z * list va) :=
  match args with Long v :: args => Some (v, args) | _ => None end.

(** [repeat: ++fmt; switch ( *fmt)]: the flags and the pointer to what follows. *)
Fixpoint parse_flags (fmt : list Z) (flags : Z) : option (Z * list Z) :=
  match fmt with
  | [] => None
  | c :: r =>
      if c =? 45 then parse_flags r (Z.lor flags LEFT)
      else if c =? 43 then parse_flags r (Z.lor flags PLUS)
      else if c =? 32 then parse_flags r (Z.lor flags SPACE)
      else if c =? 35 then parse_flags r (Z.lor flags SPECIAL)
      else if c =? 48 then parse_flags r (Z.lor flags ZEROPAD)
      else Some (flags, fmt)
  end.

(** The field width, the flags, the pointer and the arguments left. *)
Definition parse_width (fmt : list Z) (args : list va) (flags : Z) : option (Z * Z * list Z * list va) :=
  c ← head fmt;
  if is_digit c then '(w, fmt) ← skip_atoi fmt; Some (w, flags, fmt, args)
  else if c =? 42 then
    '(v, args) ← va_int args;
    let w := s32 v in
    if w <? 0 then if w =? - 2 ^ 31 then None else Some (- w, Z.lor flags LEFT, tail fmt, args)
    else Some (w, flags, tail fmt, args)
  else Some (-1, flags, fmt, args).

Definition parse_precision (fmt : list Z) (args : list va) : option (Z * list Z * list va) :=
  c ← head fmt;
  if c =? 46 then
    let fmt := tail fmt in
    c ← head fmt;
    '(p, fmt, args) ← (if is_digit c then '(p, fmt) ← skip_atoi fmt; Some (p, fmt, args)
      else if c =? 42 then '(v, args) ← va_int args; Some (s32 v, tail fmt, args)
      else Some (-1, fmt, args));
    Some (if p <? 0 then 0 else p, fmt, args)
  else Some (-1, fmt, args).

Definition parse_qualifier (fmt : list Z) : option (Z * list Z) :=
  c ← head fmt;
  if bool_decide (c ∈ chars "hlLZzt") then
    let fmt := tail fmt in
    d ← head fmt;
    if (c =? 108) && (d =? 108) then Some (76, tail fmt) else Some (c, fmt)
  else Some (-1, fmt).

(** The number asked for, as the 64 bits of [num]. *)
Definition va_num (qualifier flags : Z) (args : list va) : option (Z * list va) :=
  let signed := has flags SIGN in
  if bool_decide (qualifier ∈ chars "LlZzt") then '(v, args) ← va_long args; Some (u64 v, args)
  else
    '(v, args) ← va_int args;
    Some (if qualifier =? 104 then (if signed then u64 (s16 v) else u16 v)
          else (if signed then u64 (s32 v) else u32 v), args).

(** [while (--field_width > 0) ADDCH(str, ' ')] *)
Fixpoint char_pad (fuel : nat) (field_width : Z) : option (list Z * Z) :=
  field_width ← dec field_width;
  if negb (0 <? field_width) then Some ([], field_width) else
  match fuel with
  | O => None
  | S n => '(l, field_width) ← char_pad n field_width; Some (32 :: l, field_width)
  end.

(** [while (isalnum(fmt[1])) fmt++], from [fmt + 1] on. *)
Fixpoint skip_suffix (fmt : list Z) : option (list Z) :=
  match fmt with
  | [] => None
  | c :: r => if negb (Z.land (__ismask c) (Z.lor (Z.lor _U _L) _D) =? 0) then skip_suffix r else Some fmt
  end.

(** What a conversion leaves: its characters, what it stores for [%n], the format and
    the arguments left. *)
Definition converted : Type := list Z * list Z * list Z * list va.

(** The [switch] on the conversion: [fmt] points to its letter, and [count] characters
    have been passed on before. *)
Definition convert (fmt : list Z) (args : list va) (field_width precision flags qualifier count : Z)
    : option converted :=
  c ← head fmt;
  let integer (base flags : Z) : option converted :=
    '(num, args) ← va_num qualifier flags args;
    t ← number num base field_width precision flags; Some (t, [], tail fmt, args) in
  if c =? 99 then
    '(lead, field_width) ← (if negb (has flags LEFT) then char_pad (Z.to_nat field_width) field_width else Some ([], field_width));
    '(v, args) ← va_int args;
    '(trail, _) ← char_pad (Z.to_nat field_width) field_width;
    Some (lead ++ u8 v :: trail, [], tail fmt, args)
  else if c =? 115 then
    match args with
    | Str s :: args => t ← string s field_width precision flags; Some (t, [], tail fmt, args)
    | _ => None
    end
  else if c =? 112 then
    match args with
    | Ptr v :: args =>
        t ← pointer v field_width precision flags; fmt ← skip_suffix (tail fmt); Some (t, [], fmt, args)
    | _ => None
    end
  else if c =? 110 then
    match args with
    | Out :: args => Some ([], [if qualifier =? 108 then count else s32 count], tail fmt, args)
    | _ => None
    end
  else if c =? 37 then Some ([37], [], tail fmt, args)
  else if c =? 111 then integer 8 flags
  else if c =? 120 then integer 16 (Z.lor flags SMALL)
  else if c =? 88 then integer 16 flags
  else if (c =? 100) || (c =? 105) then integer 10 (Z.lor flags SIGN)
  else if c =? 117 then integer 10 flags
  else if negb (c =? 0) then Some ([37; c], [], tail fmt, args)
  else Some ([37], [], fmt, args).

(** A conversion from behind its percent sign on. *)
Definition conversion (fmt : list Z) (args : list va) (count : Z) : option converted :=
  '(flags, fmt) ← parse_flags fmt 0;
  '(field_width, flags, fmt, args) ← parse_width fmt args flags;
  '(precision, fmt, args) ← parse_precision fmt args;
  '(qualifier, fmt) ← parse_qualifier fmt;
  convert fmt args field_width precision flags qualifier count.

(** [for (; *fmt; ++fmt)]: the characters of the whole text and what is stored for
    [%n]. *)
Fixpoint format (fuel : nat) (fmt : list Z) (args : list va) (count : Z) : option (list Z * list Z) :=
  match fuel with
  | O => None
  | S n =>
      c ← head fmt;
      if c =? 0 then Some ([], [])
      else if negb (c =? 37) then
        '(t, outs) ← format n (tail fmt) args (count + 1); Some (c :: t, outs)
      else
        '(t1, outs1, fmt, args) ← conversion (tail fmt) args count;
        '(t, outs) ← format n fmt args (count + Z.of_nat (length t1)); Some (t1 ++ t, outs1 ++ outs)
  end.

(** ** Into a buffer *)

Definition INT_MAX : Z := 2 ^ 31 - 1.
Definition CONFIG_SYS_CBSIZE : Z := 1024.

(** [CONFIG_SYS_PROMPT] is the string "s5p6818# ". *)
Definition CONFIG_SYS_PBSIZE : Z := CONFIG_SYS_CBSIZE + (Z.of_nat (length (chars "s5p6818# ")) + 1) + 16.

Section Buffers.
(** Whether [CONFIG_SYS_VSNPRINTF] is set. *)
Context (checked : bool).

(** [*str = ch] into the object [buf]. *)
Definition store_char (ch : Z) (buf : list Z) (str : Z) : option (list Z) :=
  if (0 <=? str) && (str <? Z.of_nat (length buf)) then Some (<[Z.to_nat str := ch]> buf) else None.

Definition ADDCH (end_ ch : Z) (buf : list Z) (str : Z) : option (list Z * Z) :=
  buf ← (if checked && negb (str <? end_) then Some buf else store_char ch buf str); Some (buf, str + 1).

Fixpoint addchs (end_ : Z) (text : list Z) (buf : list Z) (str : Z) : option (list Z * Z) :=
  match text with
  | [] => Some (buf, str)
  | c :: text => '(buf, str) ← ADDCH end_ c buf str; addchs end_ text buf str
  end.

(** The return value and the buffer; the buffer does not reach the end of the address
    space. *)
Definition vsnprintf_internal (buf : list Z) (size : Z) (fmt : list Z) (args : list va) : option (Z * list Z) :=
  '(text, _) ← format (length fmt) fmt args 0;
  '(buf, str) ← addchs size text buf 0;
  if checked then
    if 0 <? size then
      '(buf, str) ← ADDCH size 0 buf str;
      buf ← (if size <? str then store_char 0 buf (size - 1) else Some buf);
      Some (s32 (str - 1), buf)
    else Some (s32 str, buf)
  else buf ← store_char 0 buf str; Some (s32 str, buf).

Definition vsprintf (buf : list Z) (fmt : list Z) (args : list va) : option (Z * list Z) :=
  vsnprintf_internal buf INT_MAX fmt args.

Definition sprintf := vsprintf.

(** Without the configuration a macro drops the size. *)
Definition vsnprintf (buf : list Z) (size : Z) (fmt : list Z) (args : list va) : option (Z * list Z) :=
  if checked then vsnprintf_internal buf size fmt args else vsprintf buf fmt args.

Definition vscnprintf (buf : list Z) (size : Z) (fmt : list Z) (args : list va) : option (Z * list Z) :=
  if checked then
    '(i, buf) ← vsnprintf buf size fmt args;
    Some (if u64 i <? size then i else if negb (size =? 0) then s32 (size - 1) else 0, buf)
  else vsprintf buf fmt args.

Definition snprintf := vsnprintf.
Definition scnprintf := vscnprintf.

(** The return value and what [puts] sends; [printbuffer] is an object on the stack. *)
Definition vprintf (printbuffer : list Z) (fmt : list Z) (args : list va) : option (Z * list Z) :=
  '(i, buf) ← vscnprintf printbuffer CONFIG_SYS_PBSIZE fmt args;
  n ← strlen buf;
  Some (i, take (Z.to_nat n) buf).

Definition printf := vprintf.
End Buffers.

(** ** The other functions *)

(** The loop from [p] down; the characters from [p + 1] on at the end. *)
Fixpoint itoa_loop (fuel : nat) (p i : Z) (s : list Z) : option (list Z) :=
  match fuel with
  | O => None
  | S n =>
      if p <? 0 then None else
      let s := u8 (48 + i mod 10) :: s in
      let i := i / 10 in
      if 0 <? i then itoa_loop n (p - 1) i s else Some s
  end.

(** The string in [local[22]], whose last character is the NUL. *)
Definition simple_itoa (i : Z) : option (list Z) := itoa_loop 21 20 i [].

(** The result and [*num]. *)
Definition str2off (p : list Z) : option (bool * Z) :=
  '(num, endptr) ← simple_strtoull p 16;
  c ← head p; e ← head endptr;
  Some (negb (c =? 0) && (e =? 0), num).

Definition str2long (p : list Z) : option (bool * Z) :=
  '(num, endptr) ← simple_strtoul p 16;
  c ← head p; e ← head endptr;
  Some (negb (c =? 0) && (e =? 0), num).

(** ** Digits *)

(** The digits of a number, the lowest first, with no leading zeros. *)
Definition lowest (b letbase : Z) (room : nat) (u : Z) : list Z := rev (Printf.numeral b letbase room u).

Lemma lowest_step b letbase room u :
  lowest b letbase (S room) u = if u =? 0 then [] else Printf.digit letbase (u mod b) :: lowest b letbase room (u / b).
Proof. unfold lowest. cbn [Printf.numeral]. destruct (u =? 0); [done|]. by rewrite rev_app_distr. Qed.

Lemma lowest_0 b letbase room : lowest b letbase room 0 = [].
Proof. by destruct room. Qed.

Lemma lowest_room b letbase room room' u : 2 <= b <= 16 -> 0 <= u < b ^ Z.of_nat room -> (room <= room')%nat ->
  lowest b letbase room' u = lowest b letbase room u.
Proof. intros Hb Hu Hr. unfold lowest. f_equal. by apply Printf.numeral_room. Qed.

Lemma dec_digit letbase t : 0 <= t < 10 -> Printf.digit letbase t = 48 + t.
Proof. intros Ht. unfold Printf.digit, Printf.c_zero. by destruct (Z.leb_spec 10 t); [lia|]. Qed.

(** The multiplications that divide by ten. *)
Lemma tenth x : 0 <= x < 1000 -> Z.shiftr (x * 0xcd) 11 = x / 10.
Proof. intros Hx. rewrite Z.shiftr_div_pow2 by lia. Z.div_mod_to_equations. lia. Qed.

Lemma tenth_small x : 0 <= x < 69 -> Z.shiftr (x * 0xd) 7 = x / 10.
Proof. intros Hx. rewrite Z.shiftr_div_pow2 by lia. Z.div_mod_to_equations. lia. Qed.

Lemma digit_char d : 0 <= d -> u8 (u32 (d - 10 * (d / 10)) + 48) = 48 + d mod 10.
Proof. intros Hd. rewrite (Z.mul_comm 10), <- Zmod_eq_full by lia. pose proof (Z.mod_pos_bound d 10). unfold u8, u32. rewrite (Z.mod_small (d mod 10)), Z.mod_small by lia. lia. Qed.

(** With [n] the number, sums with the same last digits as [n], [n / 10], [n / 100] and
    [n / 1000]. *)
Section Decimal.
Context (n : Z) (Hn : 0 <= n < 100000).

Abbreviation d1 := (Z.land (Z.shiftr n 4) 15).
Abbreviation d2 := (Z.land (Z.shiftr n 8) 15).
Abbreviation d3 := (Z.shiftr n 12).
Abbreviation s0 := (6 * (d3 + d2 + d1) + Z.land n 15).
Abbreviation s1 := (s0 / 10 + 9 * d3 + 5 * d2 + d1).
Abbreviation s2 := (s1 / 10 + 2 * d2).
Abbreviation s3 := (s2 / 10 + 4 * d3).

Lemma nibbles : n = 4096 * d3 + 256 * d2 + 16 * d1 + Z.land n 15 /\
  0 <= d1 < 16 /\ 0 <= d2 < 16 /\ 0 <= d3 < 25 /\ 0 <= Z.land n 15 < 16.
Proof.
  change 15 with (Z.ones 4). rewrite !Z.land_ones, !Z.shiftr_div_pow2 by lia. Z.div_mod_to_equations. lia.
Qed.

Lemma sums_ok : 0 <= s0 < 1000 /\ 0 <= s1 < 1000 /\ 0 <= s2 < 69 /\ 0 <= s3 < 1000 /\
  n / 10 = 40 * (10 * d3) + 20 * d2 + s1 /\ n / 100 = 40 * d3 + s2 /\ n / 1000 = s3 /\ n / 10000 = s3 / 10 /\
  n mod 10 = s0 mod 10 /\ (n / 10) mod 10 = s1 mod 10 /\ (n / 100) mod 10 = s2 mod 10.
Proof.
  destruct nibbles as (E & H1 & H2 & H3 & H0). revert E H1 H2 H3 H0.
  generalize d1 d2 d3 (Z.land n 15). intros c b a e E Hc Hb Ha He.
  assert (Hs0 : 0 <= 6 * (a + b + c) + e < 1000) by lia.
  set (t0 := 6 * (a + b + c) + e) in *. set (t1 := t0 / 10 + 9 * a + 5 * b + c).
  assert (Ht0 : 0 <= t0 / 10 <= 33) by (subst t0; Z.div_mod_to_equations; lia).
  assert (Hs1 : 0 <= t1 < 1000) by (subst t1; lia). set (t2 := t1 / 10 + 2 * b).
  assert (Ht1 : 0 <= t1 / 10 <= 33) by (subst t1; Z.div_mod_to_equations; lia).
  assert (Hs2 : 0 <= t2 < 69) by (subst t2; lia). set (t3 := t2 / 10 + 4 * a).
  assert (Ht2 : 0 <= t2 / 10 <= 6) by (subst t2; Z.div_mod_to_equations; lia).
  assert (Hs3 : 0 <= t3 < 1000) by (subst t3; lia).
  assert (E1 : n / 10 = 400 * a + 20 * b + t1) by (subst t1 t0; Z.div_mod_to_equations; lia).
  assert (E2 : n / 100 = 40 * a + t2).
  { change 100 with (10 * 10). rewrite <- Z.div_div, E1 by lia. subst t2. clear E1. clearbody t1. Z.div_mod_to_equations. lia. }
  assert (E3 : n / 1000 = t3).
  { change 1000 with (100 * 10). rewrite <- Z.div_div, E2 by lia. subst t3. clear E1 E2. clearbody t2. Z.div_mod_to_equations. lia. }
  split_and!; try lia.
  - change 10000 with (1000 * 10). by rewrite <- Z.div_div, E3 by lia.
  - subst t0. Z.div_mod_to_equations. lia.
  - rewrite E1. replace (400 * a + 20 * b + t1) with (t1 + (40 * a + 2 * b) * 10) by lia. by rewrite Z.mod_add by lia.
  - rewrite E2. replace (40 * a + t2) with (t2 + (4 * a) * 10) by lia. by rewrite Z.mod_add by lia.
Qed.

Lemma put_dec_full_ok : put_dec_full n =
  [48 + n mod 10; 48 + (n / 10) mod 10; 48 + (n / 100) mod 10; 48 + (n / 1000) mod 10; 48 + (n / 10000) mod 10].
Proof.
  destruct sums_ok as (H0 & H1 & H2 & H3 & E1 & E2 & E3 & E4 & M0 & M1 & M2). unfold put_dec_full.
  rewrite (tenth s0), (tenth s1), (tenth_small s2), (tenth s3) by lia.
  rewrite !digit_char by lia. rewrite M0, M1, M2, E3, E4. do 5 f_equal.
  assert (Hq : 0 <= s3 / 10 < 10) by (rewrite <- E4; Z.div_mod_to_equations; lia).
  unfold u8. rewrite Z.mod_small, (Z.mod_small (s3 / 10)) by lia. lia.
Qed.

Lemma put_dec_trunc_ok letbase : put_dec_trunc n = if n =? 0 then [48] else lowest 10 letbase 5 n.
Proof.
  destruct sums_ok as (H0 & H1 & H2 & H3 & E1 & E2 & E3 & E4 & M0 & M1 & M2).
  destruct nibbles as (_ & N1 & N2 & N3 & N0). unfold put_dec_trunc.
  rewrite (tenth s0), (tenth s1), (tenth_small s2), (tenth s3) by lia. rewrite !digit_char by lia.
  assert (Hq : 0 <= s3 / 10 < 10) by (rewrite <- E4; Z.div_mod_to_equations; lia).
  assert (Hu : u8 (s3 / 10 + 48) = 48 + s3 / 10) by (unfold u8; rewrite Z.mod_small by lia; lia).
  rewrite Hu. rewrite !lowest_step, !dec_digit by (apply Z.mod_pos_bound; lia). rewrite !Z.div_div by lia.
  change (10 * 10) with 100. change (100 * 10) with 1000. change (1000 * 10) with 10000.
  rewrite <- E4, <- M0, <- M1, <- M2, <- E3.
  assert (P0 : 0 <= s0 / 10) by (apply Z.div_pos; lia). assert (P1 : 0 <= s1 / 10) by (apply Z.div_pos; lia).
  assert (Z1 : (s1 =? 0) = (n / 10 =? 0)) by (apply eq_true_iff_eq; rewrite !Z.eqb_eq; lia).
  assert (Z2 : negb (s2 =? 0) || negb (d3 =? 0) = negb (n / 100 =? 0)).
  { rewrite <- negb_andb. f_equal. apply eq_true_iff_eq. rewrite andb_true_iff, !Z.eqb_eq. lia. }
  rewrite Z1, Z2. destruct (Z.eqb_spec n 0) as [->|Hn0]; [done|].
  destruct (n / 10 =? 0); [done|]. cbn [negb]. destruct (n / 100 =? 0); [done|]. cbn [negb].
  destruct (n / 1000 =? 0); [done|]. cbn [negb]. destruct (n / 10000 =? 0); [done|]. cbn [negb].
  rewrite (Z.mod_small (n / 10000)) by lia. done.
Qed.
End Decimal.

Lemma lowest_split letbase room hi lo : 0 < hi -> 0 <= lo < 100000 ->
  lowest 10 letbase (5 + room) (hi * 100000 + lo) =
    [48 + lo mod 10; 48 + (lo / 10) mod 10; 48 + (lo / 100) mod 10; 48 + (lo / 1000) mod 10; 48 + (lo / 10000) mod 10] ++
    lowest 10 letbase room hi.
Proof.
  intros Hhi Hlo. cbn [Nat.add]. rewrite !lowest_step, !dec_digit by (apply Z.mod_pos_bound; lia).
  rewrite !Z.div_div by lia. change (10 * 10) with 100. change (100 * 10) with 1000. change (1000 * 10) with 10000.
  change (10 * 1000) with 10000.
  assert (D : forall k m, 0 < k -> 0 < m -> k * m = 100000 -> (hi * 100000 + lo) / k = lo / k + hi * m).
  { intros k m Hk Hm E. rewrite <- E. replace (hi * (k * m) + lo) with (lo + (hi * m) * k) by lia. by rewrite Z.div_add by lia. }
  rewrite (D 10 10000), (D 100 1000), (D 1000 100), (D 10000 10) by lia.
  replace ((hi * 100000 + lo) / (10000 * 10)) with hi by (Z.div_mod_to_equations; lia).
  assert (Hz : forall x, 0 < x -> (x =? 0) = false) by (intros; lia).
  assert (P : forall k, 0 < k -> 0 <= lo / k) by (intros; apply Z.div_pos; lia).
  rewrite !Hz by (first [lia | pose proof (P 10); lia | pose proof (P 100); lia | pose proof (P 1000); lia | pose proof (P 10000); lia]).
  assert (M : forall x m, (x + hi * (10 * m)) mod 10 = x mod 10).
  { intros x m. replace (x + hi * (10 * m)) with (x + (hi * m) * 10) by lia. by rewrite Z.mod_add by lia. }
  rewrite (Z.add_comm (hi * 100000)).
  rewrite (M lo 10000 : (lo + hi * 100000) mod 10 = _), (M (lo / 10) 1000 : (lo / 10 + hi * 10000) mod 10 = _),
    (M (lo / 100) 100 : (lo / 100 + hi * 1000) mod 10 = _), (M (lo / 1000) 10 : (lo / 1000 + hi * 100) mod 10 = _),
    (M (lo / 10000) 1 : (lo / 10000 + hi * 10) mod 10 = _). done.
Qed.

Lemma put_dec_ok letbase fuel : forall num, 0 <= num < 100000 ^ Z.of_nat fuel -> (0 < fuel)%nat ->
  put_dec fuel num = Some (if num =? 0 then [48] else lowest 10 letbase (5 * fuel) num).
Proof.
  induction fuel as [|fuel IH]; intros num Hnum Hf; [lia|]. cbn [put_dec].
  replace (5 * S fuel)%nat with (5 + 5 * fuel)%nat by lia. destruct (Z.ltb_spec num 100000).
  - rewrite (put_dec_trunc_ok num ltac:(lia) letbase). destruct (Z.eqb_spec num 0); [done|]. f_equal.
    symmetry. apply lowest_room; lia.
  - rewrite Nat2Z.inj_succ, Z.pow_succ_r in Hnum by lia.
    assert (Hhi : 0 < num / 100000) by (apply Z.div_str_pos; lia).
    assert (Hlo : 0 <= num mod 100000 < 100000) by (apply Z.mod_pos_bound; lia).
    rewrite IH.
    + cbn [mbind option_bind]. destruct (Z.eqb_spec (num / 100000) 0); [lia|]. destruct (Z.eqb_spec num 0); [lia|].
      rewrite put_dec_full_ok by lia. f_equal. rewrite <- lowest_split by lia. f_equal.
      rewrite (Z.div_mod num 100000) at 3 by lia. lia.
    + split; [lia|]. apply Z.div_lt_upper_bound; lia.
    + destruct fuel; [|lia]. cbn in Hnum. lia.
Qed.

(** The digits of the other bases. *)
Lemma digits_loop_ok base shift locase letbase :
  base = 2 ^ shift -> 0 < shift <= 4 -> (locase = 0 /\ letbase = 65) \/ (locase = 32 /\ letbase = 97) ->
  forall fuel num, 0 < num < base ^ Z.of_nat fuel ->
  digits_loop fuel (base - 1) shift locase num = Some (lowest base letbase fuel num).
Proof.
  intros Hb Hs Hl. assert (H2 : 2 <= base <= 16).
  { subst base. split; [apply (Z.pow_le_mono_r 2 1); lia|apply (Z.pow_le_mono_r 2 _ 4); lia]. }
  induction fuel as [|fuel IH]; intros num Hnum; [cbn in Hnum; lia|]. cbn [digits_loop]. rewrite lowest_step.
  destruct (Z.eqb_spec num 0); [lia|].
  assert (Hd : Z.lor (nth (Z.to_nat (Z.land (u8 num) (base - 1))) digits 0) locase = Printf.digit letbase (num mod base)).
  { assert (E : Z.land (u8 num) (base - 1) = num mod base).
    { rewrite Hb; change (2 ^ shift - 1) with (Z.pred (2 ^ shift)); rewrite <- Z.ones_equiv, Z.land_ones by lia. unfold u8.
      replace (2 ^ 8) with (2 ^ shift * 2 ^ (8 - shift)) by (rewrite <- Z.pow_add_r by lia; f_equal; lia).
      rewrite Z.rem_mul_r by lia. rewrite Z.add_mod, Z.mul_comm, Z.mod_mul, Z.add_0_r, !Z.mod_mod by lia. done. }
    rewrite E. pose proof (Z.mod_pos_bound num base ltac:(lia)) as Hm.
    assert (Hall : forall lo le, In (lo, le) [(0, 65); (32, 97)] -> forall t, In t (seqZ 0 16) ->
      (Z.lor (nth (Z.to_nat t) digits 0) lo =? Printf.digit le t) = true).
    { assert (Hc : forallb (fun '(lo, le) => forallb (fun t => Z.lor (nth (Z.to_nat t) digits 0) lo =? Printf.digit le t) (seqZ 0 16))
        [(0, 65); (32, 97)] = true) by (vm_compute; reflexivity).
      intros lo le Hin t Ht. rewrite forallb_forall in Hc. specialize (Hc _ Hin). cbn in Hc. rewrite forallb_forall in Hc. by apply Hc. }
    apply Z.eqb_eq, Hall.
    - destruct Hl as [[-> ->]|[-> ->]]; [by left|by right; left].
    - apply list_elem_of_In, elem_of_seqZ. lia. }
  rewrite Hd, Z.shiftr_div_pow2 by lia. rewrite <- Hb.
  rewrite Nat2Z.inj_succ, Z.pow_succ_r in Hnum by lia.
  destruct (Z.eqb_spec (num / base) 0) as [->|Hne]; [by rewrite lowest_0|].
  assert (0 <= num / base) by (apply Z.div_pos; lia).
  rewrite IH; [done|]. split; [lia|]. apply Z.div_lt_upper_bound; lia.
Qed.

(** ** Numbers as the standard describes them *)

(** The digits of a number without its sign. *)
Definition ref_digits (base num : Z) (lower : bool) : list Z :=
  if num =? 0 then [48] else Printf.numeral base (if lower then 97 else 65) 64 num.

Definition is_negative (num type : Z) : bool := has type SIGN && (s64 num <? 0).

Definition sign_text (num type : Z) : list Z :=
  if has type SIGN then
    if s64 num <? 0 then [45] else if has type PLUS then [43] else if has type SPACE then [32] else []
  else [].

Definition prefix_text (base type : Z) : list Z :=
  if has type SPECIAL && negb (base =? 10) then
    48 :: if base =? 16 then [if has type SMALL then 120 else 88] else []
  else [].

(** As many digits as the precision asks for, then the sign and the prefix, then the
    width: with blanks behind, zeros between, or blanks in front. *)
Definition number_text (num base width precision type : Z) : list Z :=
  let ds := ref_digits base (if is_negative num type then - s64 num else num) (has type SMALL) in
  let body := replicate (Z.to_nat (precision - Z.of_nat (length ds))) 48 ++ ds in
  let front := sign_text num type ++ prefix_text base type in
  let room := Z.to_nat (width - Z.of_nat (length (front ++ body))) in
  if has type LEFT then front ++ body ++ replicate room 32
  else if has type ZEROPAD then front ++ replicate room 48 ++ body
  else replicate room 32 ++ front ++ body.

Lemma pad_loop_ok c fuel : forall size, - 2 ^ 31 < size -> size <= Z.of_nat fuel ->
  pad_loop fuel c size = Some (replicate (Z.to_nat size) c, Z.min (size - 1) (-1)).
Proof.
  induction fuel as [|fuel IH]; intros size Hs Hf; cbn [pad_loop]; unfold dec;
    (destruct (Z.eqb_spec size (- 2 ^ 31)); [lia|]); cbn [mbind option_bind].
  - destruct (Z.leb_spec 0 (size - 1)); [lia|]. cbn [negb]. replace (Z.to_nat size) with 0%nat by lia. do 2 f_equal. lia.
  - destruct (Z.leb_spec 0 (size - 1)); cbn [negb].
    + rewrite IH by lia. cbn [mbind option_bind]. replace (Z.to_nat size) with (S (Z.to_nat (size - 1))) by lia.
      cbn [replicate]. do 2 f_equal. lia.
    + replace (Z.to_nat size) with 0%nat by lia. do 2 f_equal. lia.
Qed.

Lemma pad_ok c size : - 2 ^ 31 < size -> pad c size = Some (replicate (Z.to_nat size) c, Z.min (size - 1) (-1)).
Proof. intros Hs. apply pad_loop_ok; lia. Qed.

Lemma zeros_loop_ok i fuel : forall precision, precision - i <= Z.of_nat fuel ->
  zeros_loop fuel i precision = replicate (Z.to_nat (precision - i)) 48.
Proof.
  induction fuel as [|fuel IH]; intros precision Hf; cbn [zeros_loop].
  - by replace (Z.to_nat (precision - i)) with 0%nat by lia.
  - destruct (Z.leb_spec i (precision - 1)).
    + rewrite IH by lia. by replace (Z.to_nat (precision - i)) with (S (Z.to_nat (precision - 1 - i))) by lia.
    + by replace (Z.to_nat (precision - i)) with 0%nat by lia.
Qed.

(** The flags of [number], with and without the reset of [ZEROPAD]. *)
Definition same_flags (type type' : Z) : Prop :=
  has type' SIGN = has type SIGN /\ has type' PLUS = has type PLUS /\ has type' SPACE = has type SPACE /\
  has type' LEFT = has type LEFT /\ has type' ZEROPAD = has type ZEROPAD && negb (has type LEFT) /\
  has type' (ZEROPAD + LEFT) = has type ZEROPAD || has type LEFT /\
  Z.land type SMALL = if has type SMALL then 32 else 0.

#[global] Instance same_flags_dec type type' : Decision (same_flags type type').
Proof. unfold same_flags. apply _. Defined.

Lemma flags_ok type : 0 <= type < 128 -> same_flags type (if has type LEFT then Z.land type (Z.lnot ZEROPAD) else type).
Proof.
  intros Ht. assert (Hall : Forall (fun type => same_flags type (if has type LEFT then Z.land type (Z.lnot ZEROPAD) else type))
    (seqZ 0 128)) by (refine (bool_decide_eq_true_1 _ _); vm_compute; reflexivity).
  rewrite Forall_forall in Hall. apply Hall, elem_of_seqZ. lia.
Qed.

Lemma ref_digits_length base num lower : Z.of_nat (length (ref_digits base num lower)) <= 64 /\
  (num = 0 \/ 0 < num -> 2 <= base <= 16 -> num < 2 ^ 64 -> 1 <= Z.of_nat (length (ref_digits base num lower))).
Proof.
  unfold ref_digits. destruct (Z.eqb_spec num 0); [cbn; lia|]. split.
  - pose proof (Printf.numeral_length base (if lower then 97 else 65) 64 num). lia.
  - intros Hn Hb Hu. cbn [Printf.numeral]. destruct (Z.eqb_spec num 0); [lia|]. rewrite length_app. cbn [length]. lia.
Qed.

Lemma number_digits_ok base num (lower : bool) : base = 8 \/ base = 10 \/ base = 16 -> is_u64 num ->
  number_digits num base (if lower then 32 else 0) = Some (rev (ref_digits base num lower)).
Proof.
  intros Hb [Hn Hu]. unfold number_digits, ref_digits. destruct (Z.eqb_spec num 0) as [->|Hne]; [done|].
  fold (lowest base (if lower then 97 else 65) 64 num).
  assert (Hl : let l := if lower then 32 else 0 in let lb := if lower then 97 else 65 in (l = 0 /\ lb = 65) \/ (l = 32 /\ lb = 97))
    by (destruct lower; [by right|by left]).
  destruct Hb as [->|[->| ->]].
  - apply (digits_loop_ok 8 3 _ _ eq_refl ltac:(lia) Hl). change (Z.of_nat 64) with 64.
    pose proof (Z.pow_le_mono_l 2 8 64). lia.
  - change (negb (10 =? 10)) with false. cbn iota. rewrite (put_dec_ok (if lower then 97 else 65)); [|split; [lia|]|lia].
    + destruct (Z.eqb_spec num 0); [lia|]. rewrite (lowest_room 10 _ (5 * 5) 64); [reflexivity|lia| |lia]. split; [lia|].
      change (Z.of_nat (5 * 5)) with 25. apply (Z.lt_trans _ (2 ^ 64)); [lia|reflexivity].
    + change (Z.of_nat 5) with 5. apply (Z.lt_trans _ (2 ^ 64)); [lia|reflexivity].
  - apply (digits_loop_ok 16 4 _ _ eq_refl ltac:(lia) Hl). change (Z.of_nat 64) with 64.
    pose proof (Z.pow_le_mono_l 2 16 64). lia.
Qed.

Lemma number_sign_ok num size type : is_u64 num -> (has type SIGN = true -> s64 num <> - 2 ^ 63) -> - 2 ^ 31 < size ->
  exists sign, number_sign num size type =
    Some (sign, if is_negative num type then - s64 num else num, size - Z.of_nat (length (sign_text num type))) /\
    (if negb (sign =? 0) then [sign] else []) = sign_text num type /\
    is_u64 (if is_negative num type then - s64 num else num).
Proof.
  intros Hu Hm Hs. unfold number_sign, sign_text, is_negative, dec. destruct (Z.eqb_spec size (- 2 ^ 31)); [lia|].
  destruct (has type SIGN); cbn [andb]; [|exists 0; split_and!; [do 2 f_equal; simpl; lia|done|done]].
  specialize (Hm eq_refl). destruct (Z.ltb_spec (s64 num) 0).
  - destruct (Z.eqb_spec (s64 num) (- 2 ^ 63)); [done|]. exists 45. cbn [mbind option_bind].
    assert (is_u64 (- s64 num)) by (unfold is_u64, s64 in *; Z.div_mod_to_equations; lia).
    rewrite u64_small by done. by split_and!.
  - destruct (has type PLUS); [exists 43; by split_and!|]. destruct (has type SPACE); [exists 32; by split_and!|].
    exists 0. split_and!; [do 2 f_equal; simpl; lia|done|done].
Qed.

Lemma sign_text_length num type : Z.of_nat (length (sign_text num type)) <= 1.
Proof. unfold sign_text. destruct (has type SIGN), (s64 num <? 0), (has type PLUS), (has type SPACE); cbn; lia. Qed.

Lemma prefix_text_length base type : Z.of_nat (length (prefix_text base type)) <= 2.
Proof. unfold prefix_text. destruct (has type SPECIAL && negb (base =? 10)), (base =? 16); cbn; lia. Qed.

Lemma number_writes num base size precision type :
  base = 8 \/ base = 10 \/ base = 16 -> is_u64 num -> (has type SIGN = true -> s64 num <> - 2 ^ 63) ->
  0 <= type < 128 -> -1 <= size < 2 ^ 30 -> precision < 2 ^ 30 ->
  number num base size precision type = Some (number_text num base size precision type).
Proof.
  intros Hb Hu Hm Ht Hs Hp. unfold number.
  destruct (flags_ok type Ht) as (F1 & F2 & F3 & F4 & F5 & F6 & F7).
  set (type' := if has type LEFT then _ else _) in *. rewrite F7.
  assert (Hsig : is_negative num type' = is_negative num type /\ sign_text num type' = sign_text num type)
    by (unfold is_negative, sign_text; by rewrite F1, F2, F3).
  destruct (number_sign_ok num size type' Hu) as (sign & -> & Hsg & Hnum); [by rewrite F1|lia|].
  rewrite (proj1 Hsig), (proj2 Hsig) in *. cbn [mbind option_bind].
  set (m := if is_negative num type then _ else _) in *.
  pose proof (sign_text_length num type) as Hsl. pose proof (prefix_text_length base type) as Hpl.
  set (size1 := size - _).
  assert (Hpfx : (if has type SPECIAL && negb (base =? 10) then size ← dec size1; if base =? 16 then dec size else Some size
     else Some size1) = Some (size1 - Z.of_nat (length (prefix_text base type)))).
  { unfold prefix_text. destruct (has type SPECIAL && negb (base =? 10)); [|f_equal; simpl; lia]. unfold dec.
    assert (Hs1 : - 2 <= size1 < 2 ^ 30) by (unfold size1; lia). destruct (Z.eqb_spec size1 (- 2 ^ 31)); [lia|]. cbn [mbind option_bind].
    destruct (base =? 16); [|done]. destruct (Z.eqb_spec (size1 - 1) (- 2 ^ 31)); [lia|]. f_equal. simpl. lia. }
  rewrite Hpfx. cbn [mbind option_bind].
  rewrite number_digits_ok by done. cbn [mbind option_bind]. rewrite length_rev.
  set (ds := ref_digits base m (has type SMALL)). set (i := Z.of_nat (length ds)).
  assert (Hi : 1 <= i <= 64).
  { destruct (ref_digits_length base m (has type SMALL)) as [H1 H2]. unfold i, ds. split; [|done].
    apply H2; unfold is_u64 in Hnum; lia. }
  destruct (Z.ltb_spec 66 i); [lia|]. clear Hpfx. cbv zeta.
  set (prec := if precision <? i then i else precision).
  assert (Hprec : i <= prec < 2 ^ 30) by (unfold prec; destruct (Z.ltb_spec precision i); lia).
  set (size2 := size1 - _). assert (Hs2 : - 4 <= size2 < 2 ^ 30) by (unfold size2, size1; lia).
  rewrite bool_decide_eq_true_2 by (unfold is_s32; lia). cbn [negb].
  assert (Hz : Z.to_nat (precision - i) = Z.to_nat (prec - i)) by (unfold prec; destruct (Z.ltb_spec precision i); lia).
  assert (Hx : (if has type SPECIAL && negb (base =? 10)
      then 48 :: (if base =? 16 then [Z.lor 88 (if has type SMALL then 32 else 0)] else []) else []) = prefix_text base type)
    by (unfold prefix_text; destruct (has type SPECIAL && negb (base =? 10)); [|done]; by destruct (base =? 16), (has type SMALL)).
  rewrite Hx, Hsg, zeros_loop_ok, rev_involutive by lia.
  unfold number_text. fold m ds i. rewrite Hz, F6, F4, F5.
  set (body := replicate (Z.to_nat (prec - i)) 48 ++ ds). set (front := sign_text num type ++ prefix_text base type).
  assert (Hroom : Z.to_nat (size - Z.of_nat (length (front ++ body))) = Z.to_nat (size2 - prec)).
  { unfold front, body, size2, size1. rewrite !length_app, length_replicate. fold i. lia. }
  rewrite Hroom. destruct (has type LEFT), (has type ZEROPAD); cbn [orb andb negb mbind option_bind];
    repeat (rewrite pad_ok by lia; cbn [mbind option_bind app]);
    repeat match goal with |- context [Z.to_nat (Z.min ?a (-1))] => replace (Z.to_nat (Z.min a (-1))) with 0%nat by lia end;
    unfold front, body; cbn [replicate app]; rewrite ?app_nil_r, <- ?app_assoc; done.
Qed.

(** ** Into a buffer *)

(** A buffer with a text written over its start. *)
Definition overlay (text buf : list Z) : list Z := text ++ drop (length text) buf.

Lemma overlay_length text buf : (length text <= length buf)%nat -> length (overlay text buf) = length buf.
Proof. intros Hl. unfold overlay. rewrite length_app, length_drop. lia. Qed.

Lemma overlay_snoc text c buf : (length text < length buf)%nat ->
  <[length text := c]> (overlay text buf) = overlay (text ++ [c]) buf.
Proof.
  intros Hl. unfold overlay. rewrite insert_app_r_alt by lia. rewrite Nat.sub_diag, length_app, <- app_assoc. f_equal.
  destruct (drop (length text) buf) as [|x r] eqn:E.
  - apply (f_equal length) in E. rewrite length_drop in E. cbn [length] in E. lia.
  - cbn [app list_insert length]. rewrite (Nat.add_comm (length text) 1), <- drop_drop. by rewrite drop_drop, Nat.add_comm, <- drop_drop, E.
Qed.

Lemma store_char_next text c buf : (length text < length buf)%nat ->
  store_char c (overlay text buf) (Z.of_nat (length text)) = Some (overlay (text ++ [c]) buf).
Proof.
  intros Hl. unfold store_char. rewrite overlay_length by lia.
  destruct (Z.leb_spec 0 (Z.of_nat (length text))); [|lia].
  destruct (Z.ltb_spec (Z.of_nat (length text)) (Z.of_nat (length buf))); [|lia]. cbn [andb].
  by rewrite Nat2Z.id, overlay_snoc.
Qed.

(** Without the configuration every character is stored, or the first one that does not
    fit is undefined. *)
Lemma addchs_unchecked end_ buf text : forall done,
  (length done <= length buf)%nat ->
  addchs false end_ text (overlay done buf) (Z.of_nat (length done)) =
    if (length (done ++ text) <=? length buf)%nat
    then Some (overlay (done ++ text) buf, Z.of_nat (length (done ++ text))) else None.
Proof.
  induction text as [|c text IH]; intros dn Hd; cbn [addchs].
  - rewrite app_nil_r. by destruct (Nat.leb_spec (length dn) (length buf)); [|lia].
  - unfold ADDCH. cbn [andb]. destruct (decide (length dn < length buf)%nat) as [Hl|Hl].
    + rewrite store_char_next by done. cbn [mbind option_bind].
      replace (Z.of_nat (length dn) + 1) with (Z.of_nat (length (dn ++ [c]))) by (rewrite length_app; simpl; lia).
      rewrite IH by (rewrite length_app; simpl; lia). by rewrite <- app_assoc.
    + assert (E : store_char c (overlay dn buf) (Z.of_nat (length dn)) = None).
      { unfold store_char. rewrite overlay_length by lia. destruct (Z.ltb_spec (Z.of_nat (length dn)) (Z.of_nat (length buf))); [lia|].
        by rewrite andb_false_r. }
      rewrite E. cbn [mbind option_bind]. destruct (Nat.leb_spec (length (dn ++ c :: text)) (length buf)) as [Hle|]; [|done].
      rewrite length_app in Hle. cbn [length] in Hle. lia.
Qed.

(** With it the characters beyond the end are counted only. *)
Lemma addchs_checked (end_ : nat) buf text : forall done, (end_ <= length buf)%nat ->
  addchs true (Z.of_nat end_) text (overlay (take end_ done) buf) (Z.of_nat (length done)) =
    Some (overlay (take end_ (done ++ text)) buf, Z.of_nat (length (done ++ text))).
Proof.
  induction text as [|c text IH]; intros dn He; cbn [addchs].
  - by rewrite app_nil_r.
  - unfold ADDCH. cbn [andb].
    assert (E : (if negb (Z.of_nat (length dn) <? Z.of_nat end_) then Some (overlay (take end_ dn) buf)
        else store_char c (overlay (take end_ dn) buf) (Z.of_nat (length dn))) = Some (overlay (take end_ (dn ++ [c])) buf)).
    { destruct (Z.ltb_spec (Z.of_nat (length dn)) (Z.of_nat end_)); cbn [negb].
      - rewrite !take_ge by (rewrite ?length_app; simpl; lia). apply store_char_next. lia.
      - by rewrite take_app_le by lia. }
    rewrite E. cbn [mbind option_bind].
    replace (Z.of_nat (length dn) + 1) with (Z.of_nat (length (dn ++ [c]))) by (rewrite length_app; simpl; lia).
    rewrite IH by done. by rewrite <- app_assoc.
Qed.

Lemma internal_unchecked buf size fmt args text outs : format (length fmt) fmt args 0 = Some (text, outs) ->
  Z.of_nat (length text) < 2 ^ 31 ->
  vsnprintf_internal false buf size fmt args =
    if (length text <? length buf)%nat then Some (Z.of_nat (length text), overlay (text ++ [0]) buf) else None.
Proof.
  intros Hf Hl. unfold vsnprintf_internal. rewrite Hf. cbn [mbind option_bind].
  pose proof (addchs_unchecked size buf text [] ltac:(simpl; lia)) as Ha. cbn [app length] in Ha.
  unfold overlay at 1 in Ha. cbn [app length] in Ha. rewrite drop_0 in Ha. change (Z.of_nat 0) with 0 in Ha. rewrite Ha.
  destruct (Nat.ltb_spec (length text) (length buf)); destruct (Nat.leb_spec (length text) (length buf)); try lia.
  - cbn [mbind option_bind]. rewrite store_char_next by done. cbn [mbind option_bind].
    rewrite s32_small by (unfold is_s32; lia). done.
  - cbn [mbind option_bind]. unfold store_char. rewrite overlay_length by lia.
    destruct (Z.ltb_spec (Z.of_nat (length text)) (Z.of_nat (length buf))); [lia|]. by rewrite andb_false_r.
  - done.
Qed.

Lemma internal_checked buf size fmt args text outs : format (length fmt) fmt args 0 = Some (text, outs) ->
  Z.of_nat (length text) < 2 ^ 31 - 1 -> 0 <= size <= Z.of_nat (length buf) ->
  vsnprintf_internal true buf size fmt args =
    Some (Z.of_nat (length text), if size =? 0 then buf else overlay (take (Z.to_nat size - 1) text ++ [0]) buf).
Proof.
  intros Hf Hl Hs. unfold vsnprintf_internal. rewrite Hf. cbn [mbind option_bind].
  assert (Hn : exists n, size = Z.of_nat n /\ (n <= length buf)%nat) by (exists (Z.to_nat size); lia).
  destruct Hn as (n & -> & Hn). pose proof (addchs_checked n buf text [] Hn) as Ha. rewrite take_nil in Ha.
  cbn [app length] in Ha. unfold overlay at 1 in Ha. cbn [app length] in Ha. rewrite drop_0 in Ha. change (Z.of_nat 0) with 0 in Ha.
  rewrite Ha. cbn [mbind option_bind].
  destruct (Z.ltb_spec 0 (Z.of_nat n)), (Z.eqb_spec (Z.of_nat n) 0); try lia.
  - pose proof (addchs_checked n buf [0] text Hn) as Hz. cbn [addchs] in Hz.
    destruct (ADDCH true (Z.of_nat n) 0 (overlay (take n text) buf) (Z.of_nat (length text))) as [[b s]|]; [|done].
    cbn [mbind option_bind] in *. injection Hz as -> ->. rewrite length_app, Nat2Z.inj_add. cbn [length].
    rewrite Nat2Z.id. destruct (Z.ltb_spec (Z.of_nat n) (Z.of_nat (length text) + Z.of_nat 1)).
    + rewrite (take_app_le text) by lia. unfold store_char. rewrite overlay_length by (rewrite length_take; lia).
      destruct (Z.leb_spec 0 (Z.of_nat n - 1)); [|lia]. destruct (Z.ltb_spec (Z.of_nat n - 1) (Z.of_nat (length buf))); [|lia].
      cbn [andb mbind option_bind]. rewrite s32_small by (unfold is_s32; lia). do 2 f_equal; [lia|].
      replace (Z.to_nat (Z.of_nat n - 1)) with (n - 1)%nat by lia.
      assert (Ht : exists c, take n text = take (n - 1) text ++ [c]).
      { destruct (lookup_lt_is_Some_2 text (n - 1)) as [c Hc]; [lia|]. exists c. rewrite <- (take_S_r _ _ _ Hc). f_equal. lia. }
      destruct Ht as [c ->]. assert (Hlt : length (take (n - 1) text) = (n - 1)%nat) by (rewrite length_take; lia).
      rewrite <- Hlt at 1. unfold overlay. rewrite <- !app_assoc. rewrite insert_app_r_alt by lia. rewrite Hlt, Nat.sub_diag.
      rewrite !length_app. done.
    + cbn [mbind option_bind]. rewrite s32_small by (unfold is_s32; lia). rewrite !take_ge by (rewrite ?length_app; simpl; lia).
      do 2 f_equal. lia.
  - rewrite s32_small by (unfold is_s32; lia). assert (n = 0%nat) as -> by lia. done.
Qed.

(** ** The scan of a format ends *)

Lemma bind_pair {A B C} (x : option (A * B)) (f : A -> B -> option C) r :
  ('(a, b) ← x; f a b) = Some r -> exists a b, x = Some (a, b) /\ f a b = Some r.
Proof. destruct x as [[a b]|]; [|done]. by exists a, b. Qed.

Lemma skip_atoi_shorter s : forall i v r, skip_atoi_loop s i = Some (v, r) -> (length r <= length s)%nat.
Proof.
  induction s as [|c s IH]; intros i v r Hs; cbn [skip_atoi_loop] in Hs; [done|].
  destruct (is_digit c); [|by injection Hs as _ <-]. case_bool_decide; [|done]. apply IH in Hs. cbn [length]. lia.
Qed.

Lemma parse_flags_shorter fmt : forall flags f r, parse_flags fmt flags = Some (f, r) -> (length r <= length fmt)%nat.
Proof.
  induction fmt as [|c fmt IH]; intros flags f r Hs; cbn [parse_flags] in Hs; [done|]. cbn [length].
  repeat match type of Hs with (if ?b then _ else _) = _ => destruct b; [apply IH in Hs; lia|] end.
  injection Hs as _ <-. cbn [length]. lia.
Qed.

Lemma tail_shorter {A} (l : list A) : (length (tail l) <= length l)%nat.
Proof. destruct l; cbn [tail length]; lia. Qed.

Lemma parse_width_shorter fmt args flags w f r a : parse_width fmt args flags = Some (w, f, r, a) -> (length r <= length fmt)%nat.
Proof.
  pose proof (tail_shorter fmt) as Ht. unfold parse_width. intros Hp. apply bind_Some in Hp as (c & Hc & Hp). destruct (is_digit c).
  - apply bind_pair in Hp as (v & r' & Hs & Hp). injection Hp as _ _ <- _. by apply skip_atoi_shorter in Hs.
  - destruct (c =? 42); [|by injection Hp as _ _ <- _]. apply bind_pair in Hp as (v & a' & _ & Hp). cbv zeta in Hp.
    destruct (s32 v <? 0); [destruct (s32 v =? - 2 ^ 31); [done|]|]; by injection Hp as _ _ <- _.
Qed.

Lemma parse_precision_shorter fmt args p r a : parse_precision fmt args = Some (p, r, a) -> (length r <= length fmt)%nat.
Proof.
  pose proof (tail_shorter fmt) as Ht. pose proof (tail_shorter (tail fmt)) as Htt.
  unfold parse_precision. intros Hp. apply bind_Some in Hp as (c & Hc & Hp). destruct (c =? 46); [|by injection Hp as _ <- _].
  apply bind_Some in Hp as (d & Hd & Hp). apply bind_Some in Hp as ([[p' r'] a'] & Hx & Hp). injection Hp as _ <- _.
  destruct (is_digit d).
  - apply bind_pair in Hx as (v & r'' & Hs & Hx). injection Hx as _ <- _. apply skip_atoi_shorter in Hs. lia.
  - destruct (d =? 42); [|injection Hx as _ <- _; lia]. apply bind_pair in Hx as (v & a'' & _ & Hx). injection Hx as _ <- _. lia.
Qed.

Lemma parse_qualifier_shorter fmt q r : parse_qualifier fmt = Some (q, r) -> (length r <= length fmt)%nat.
Proof.
  pose proof (tail_shorter fmt) as Ht. pose proof (tail_shorter (tail fmt)) as Htt.
  unfold parse_qualifier. intros Hp. apply bind_Some in Hp as (c & Hc & Hp). case_bool_decide; [|by injection Hp as _ <-].
  apply bind_Some in Hp as (d & Hd & Hp). destruct ((c =? 108) && (d =? 108)); injection Hp as _ <-; lia.
Qed.

Lemma skip_suffix_shorter fmt : forall r, skip_suffix fmt = Some r -> (length r <= length fmt)%nat.
Proof.
  induction fmt as [|c fmt IH]; intros r Hs; cbn [skip_suffix] in Hs; [done|].
  destruct (negb _); [apply IH in Hs; cbn [length]; lia|by injection Hs as <-].
Qed.

Lemma convert_shorter fmt args w p f q n t o r a : convert fmt args w p f q n = Some (t, o, r, a) -> (length r <= length fmt)%nat.
Proof.
  pose proof (tail_shorter fmt) as Ht. unfold convert. intros Hc. apply bind_Some in Hc as (c & _ & Hc).
  assert (Hint : forall base flags, ('(num, args) ← va_num q flags args; t ← number num base w p flags; Some (t, [], tail fmt, args)) =
    Some (t, o, r, a) -> (length r <= length fmt)%nat).
  { intros base flags Hx. apply bind_pair in Hx as (num & a' & _ & Hx). apply bind_Some in Hx as (t' & _ & Hx). by injection Hx as _ _ <- _. }
  destruct (c =? 99).
  { apply bind_Some in Hc as ([lead w'] & _ & Hc). apply bind_pair in Hc as (v & a' & _ & Hc).
    apply bind_pair in Hc as (tr & w'' & _ & Hc). by injection Hc as _ _ <- _. }
  destruct (c =? 115).
  { destruct args as [|[| |s| |] args]; try done. apply bind_Some in Hc as (t' & _ & Hc). by injection Hc as _ _ <- _. }
  destruct (c =? 112).
  { destruct args as [|[| | |v|] args]; try done. apply bind_Some in Hc as (t' & _ & Hc).
    apply bind_Some in Hc as (r' & Hr & Hc). injection Hc as _ _ <- _. apply skip_suffix_shorter in Hr. lia. }
  destruct (c =? 110); [destruct args as [|[| | | |] args]; try done; by injection Hc as _ _ <- _|].
  destruct (c =? 37); [by injection Hc as _ _ <- _|].
  do 3 (match type of Hc with (if ?b then _ else _) = _ => destruct b; [by apply Hint in Hc|] end).
  destruct ((c =? 100) || (c =? 105)); [by apply Hint in Hc|]. destruct (c =? 117); [by apply Hint in Hc|].
  destruct (negb (c =? 0)); by injection Hc as _ _ <- _.
Qed.

Lemma conversion_shorter fmt args n t o r a : conversion fmt args n = Some (t, o, r, a) -> (length r <= length fmt)%nat.
Proof.
  unfold conversion. intros Hc. apply bind_pair in Hc as (f & r1 & H1 & Hc). apply parse_flags_shorter in H1.
  apply bind_Some in Hc as ([[[w f'] r2] a2] & H2 & Hc). apply parse_width_shorter in H2.
  apply bind_Some in Hc as ([[p r3] a3] & H3 & Hc). apply parse_precision_shorter in H3.
  apply bind_pair in Hc as (q & r4 & H4 & Hc). apply parse_qualifier_shorter in H4.
  apply convert_shorter in Hc. lia.
Qed.

(** Every round goes over at least one character of the format. *)
Lemma format_enough n : forall m fmt args count, (length fmt <= n)%nat -> (length fmt <= m)%nat ->
  format n fmt args count = format m fmt args count.
Proof.
  induction n as [|n IH]; intros m fmt args count Hn Hm.
  - destruct fmt; [|simpl in Hn; lia]. by destruct m.
  - destruct m as [|m]; [destruct fmt; [done|simpl in Hm; lia]|]. cbn [format].
    destruct fmt as [|c fmt]; [done|]. cbn [head mbind option_bind tail length] in *.
    destruct (c =? 0); [done|]. destruct (negb (c =? 37)); [by rewrite (IH m) by lia|].
    destruct (conversion fmt args count) as [[[[t o] r] a]|] eqn:E; [|done]. cbn [mbind option_bind].
    apply conversion_shorter in E. by rewrite (IH m) by lia.
Qed.

(** One round of the scan. *)
Lemma format_percent fuel rest args n : format (S fuel) (37 :: rest) args n =
  '(t1, outs1, fmt, args) ← conversion rest args n;
  '(t, outs) ← format fuel fmt args (n + Z.of_nat (length t1)); Some (t1 ++ t, outs1 ++ outs).
Proof. reflexivity. Qed.

Lemma format_char fuel c rest args n : c <> 0 -> c <> 37 -> format (S fuel) (c :: rest) args n =
  '(t, outs) ← format fuel rest args (n + 1); Some (c :: t, outs).
Proof.
  intros H0 H37. cbn [format head mbind option_bind tail]. destruct (Z.eqb_spec c 0); [done|].
  by destruct (Z.eqb_spec c 37).
Qed.

Lemma format_end fuel rest args n : format (S fuel) (0 :: rest) args n = Some ([], []).
Proof. reflexivity. Qed.

(** ** Formats as the standard describes them *)

(** A field width or a precision: none, a number, or an argument. *)
Inductive amount := Absent | Digits (v : Z) | Star.

Record spec := Spec {
  sp_flags : list Z;
  sp_width : amount;
  sp_precision : option amount;
  sp_qualifier : list Z;
  sp_letter : Z;
}.

(** A format is a list of characters that stand for themselves and of conversions. *)
Inductive piece := Lit (c : Z) | Conv (s : spec).

Definition amount_text (a : amount) : list Z :=
  match a with Absent => [] | Digits v => written 10 v | Star => [42] end.

Definition precision_text (p : option amount) : list Z :=
  match p with None => [] | Some a => 46 :: amount_text a end.

Definition spec_text (s : spec) : list Z :=
  sp_flags s ++ amount_text (sp_width s) ++ precision_text (sp_precision s) ++ sp_qualifier s ++ [sp_letter s].

Fixpoint format_text (ps : list piece) : list Z :=
  match ps with
  | [] => []
  | Lit c :: ps => c :: format_text ps
  | Conv s :: ps => 37 :: spec_text s ++ format_text ps
  end.

Definition amount_ok (least : Z) (a : amount) : Prop :=
  match a with Digits v => least <= v < 2 ^ 30 | _ => True end.

Definition qualifier_ok (q : list Z) : Prop := q ∈ [[]; chars "h"; chars "l"; chars "L"; chars "ll"; chars "Z"; chars "z"; chars "t"].

(** A letter that is not taken for a part of the conversion that comes before it. *)
Definition letter_ok (c : Z) : Prop := 0 < c < 256 /\ c ∉ chars "-+ #0123456789*.hlLZzt".

Definition piece_ok (p : piece) : Prop :=
  match p with
  | Lit c => 0 < c < 256 /\ c <> 37
  | Conv s => Forall (fun c => c ∈ chars "-+ #0") (sp_flags s) /\ amount_ok 1 (sp_width s) /\
      (forall a, sp_precision s = Some a -> amount_ok 0 a) /\ qualifier_ok (sp_qualifier s) /\ letter_ok (sp_letter s)
  end.

Definition flag_bit (c : Z) : Z :=
  if c =? 45 then LEFT else if c =? 43 then PLUS else if c =? 32 then SPACE else if c =? 35 then SPECIAL else ZEROPAD.

Definition flag_bits (flags : list Z) (t : Z) : Z := foldl (fun t c => Z.lor t (flag_bit c)) t flags.

(** The argument of a star: an [int] below 2^30. *)
Definition take_amount (a : amount) (args : list va) : option (option Z * list va) :=
  match a, args with
  | Absent, _ => Some (None, args)
  | Digits v, _ => Some (Some v, args)
  | Star, Int v :: args => if Z.abs (s32 v) <? 2 ^ 30 then Some (Some (s32 v), args) else None
  | Star, _ => None
  end.

(** A precision that is negative, or not given behind its dot, is none. *)
Definition take_precision (p : option amount) (args : list va) : option (option Z * list va) :=
  match p with
  | None => Some (None, args)
  | Some a => '(p, args) ← take_amount a args; Some (Some (Z.max 0 (default 0 p)), args)
  end.

(** The argument of a number: an [int], a [short], or one of 64 bits. *)
Definition take_number (q : list Z) (signed : bool) (args : list va) : option (Z * list va) :=
  match args with
  | Int v :: args =>
      if bool_decide (q = []) then Some (if signed then u64 (s32 v) else u32 v, args)
      else if bool_decide (q = chars "h") then Some (if signed then u64 (s16 v) else u16 v, args)
      else None
  | Long v :: args => if bool_decide (q = [] \/ q = chars "h") then None else Some (u64 v, args)
  | _ => None
  end.

(** A text in a field: blanks in front of it or behind it up to the width. *)
Definition field (left : bool) (width : Z) (t : list Z) : list Z :=
  let room := replicate (Z.to_nat (width - Z.of_nat (length t))) 32 in
  if left then t ++ room else room ++ t.

(** The characters of a conversion, what it stores for [%n], and the arguments left;
    [None] for an argument of another type, the least of the [long]s, and a string
    that does not end or that an [int] cannot count. *)
Definition letter_value (c : Z) (q : list Z) (type : Z) (w p : option Z) (args : list va) (count : Z)
    : option (list Z * list Z * list va) :=
  let width := default (-1) w in
  let precision := default (-1) p in
  let left := has type LEFT in
  let integer base type :=
    '(num, args) ← take_number q (has type SIGN) args;
    if has type SIGN && (s64 num =? - 2 ^ 63) then None
    else Some (number_text num base width precision type, [], args) in
  if c =? 99 then match args with Int v :: args => Some (field left width [u8 v], [], args) | _ => None end
  else if c =? 115 then
    match args with
    | Str s :: args =>
        let s := default (chars "<NULL>" ++ [0]) s in
        if bool_decide (0 ∈ s /\ Z.of_nat (length (until0 s)) < 2 ^ 31) then Some (field left width (match p with None => until0 s | Some p => take (Z.to_nat p) (until0 s) end), [], args)
        else None
    | _ => None
    end
  else if c =? 112 then
    match args with
    | Ptr v :: args =>
        if bool_decide (is_u64 v) then
          Some (match w with
                | None => number_text v 16 16 precision (Z.lor (Z.lor type SMALL) ZEROPAD)
                | Some w => number_text v 16 w precision (Z.lor type SMALL)
                end, [], args)
        else None
    | _ => None
    end
  else if c =? 110 then
    match args with Out :: args => Some ([], [if bool_decide (q = chars "l") then count else s32 count], args) | _ => None end
  else if c =? 37 then Some ([37], [], args)
  else if c =? 111 then integer 8 type
  else if c =? 120 then integer 16 (Z.lor type SMALL)
  else if c =? 88 then integer 16 type
  else if (c =? 100) || (c =? 105) then integer 10 (Z.lor type SIGN)
  else if c =? 117 then integer 10 type
  else Some ([37; c], [], args).

(** A star that is negative asks for blanks behind. *)
Definition spec_value (s : spec) (args : list va) (count : Z) : option (list Z * list Z * list va) :=
  let type := flag_bits (sp_flags s) 0 in
  '(w, args) ← take_amount (sp_width s) args;
  '(p, args) ← take_precision (sp_precision s) args;
  let type := if default 0 w <? 0 then Z.lor type LEFT else type in
  letter_value (sp_letter s) (sp_qualifier s) type (Z.abs <$> w) p args count.

Definition alnum (c : Z) : bool := negb (Z.land (__ismask c) (Z.lor (Z.lor _U _L) _D) =? 0).

(** The text of a format and what is stored for [%n]; letters and digits behind a
    pointer ([after] says so) are left out. *)
Fixpoint format_value (after : bool) (ps : list piece) (args : list va) (count : Z) : option (list Z * list Z) :=
  match ps with
  | [] => Some ([], [])
  | Lit c :: ps =>
      if after && alnum c then format_value true ps args count
      else '(t, outs) ← format_value false ps args (count + 1); Some (c :: t, outs)
  | Conv s :: ps =>
      '(t1, outs1, args) ← spec_value s args count;
      '(t, outs) ← format_value (sp_letter s =? 112) ps args (count + Z.of_nat (length t1));
      Some (t1 ++ t, outs1 ++ outs)
  end.

(** *** The parts of a conversion *)

Lemma parse_flags_ok flags : Forall (fun c => c ∈ chars "-+ #0") flags -> forall t c rest, c ∉ chars "-+ #0" ->
  parse_flags (flags ++ c :: rest) t = Some (flag_bits flags t, c :: rest).
Proof.
  induction 1 as [|f flags Hf Hfs IH]; intros t c rest Hc; cbn [app parse_flags].
  - cbn in Hc. rewrite !not_elem_of_cons in Hc. destruct Hc as (H1 & H2 & H3 & H4 & H5 & _).
    by repeat match goal with |- context [c =? ?x] => destruct (Z.eqb_spec c x); [done|] end.
  - cbn [chars] in Hf. rewrite !IH by done. unfold flag_bits, flag_bit. cbn [foldl].
    repeat (apply elem_of_cons in Hf as [->|Hf]; [reflexivity|]). by apply not_elem_of_nil in Hf.
Qed.

Lemma written_digits v : 0 <= v < 2 ^ 64 -> Forall (fun c => 48 <= c <= 57) (written 10 v).
Proof.
  intros Hv. assert (Hn : forall room u, 0 <= u -> Forall (fun c => 48 <= c <= 57) (Printf.numeral 10 Printf.c_a room u)).
  { induction room as [|room IH]; intros u Hu; cbn [Printf.numeral]; [constructor|]. destruct (u =? 0); [constructor|].
    apply Forall_app. split; [apply IH, Z.div_pos; lia|]. constructor; [|constructor].
    pose proof (Z.mod_pos_bound u 10). rewrite dec_digit by lia. lia. }
  unfold written. destruct (v =? 0); [by repeat constructor|]. apply Hn. lia.
Qed.

Lemma skip_atoi_digits ds c rest : Forall (fun c => 48 <= c <= 57) ds -> is_digit c = false -> forall i,
  0 <= i -> horner 10 i ds < 2 ^ 30 -> skip_atoi_loop (ds ++ c :: rest) i = Some (horner 10 i ds, c :: rest).
Proof.
  intros Hds Hc. induction Hds as [|d ds Hd Hds IH]; intros i Hi Hh; cbn [app skip_atoi_loop horner foldl] in *; [by rewrite Hc|].
  assert (Hv : Printf.digit_value Printf.c_a d = d - 48).
  { assert (Hall : Forall (fun d => Printf.digit_value Printf.c_a d = d - 48) (seqZ 48 10)) by (apply (bool_decide_unpack _); vm_compute; exact I).
    rewrite Forall_forall in Hall. apply Hall, elem_of_seqZ. lia. }
  rewrite Hv in *. assert (Hdig : is_digit d = true) by (unfold is_digit; lia). rewrite Hdig.
  assert (Hm : i * 10 + (d - 48) <= horner 10 (i * 10 + (d - 48)) ds).
  { apply horner_mono; [lia|lia|]. eapply Forall_impl; [exact Hds|]. intros x Hx. cbn beta in Hx.
    assert (E : Printf.digit Printf.c_a (x - 48) = x) by (rewrite dec_digit; lia). rewrite <- E. apply digit_is_digit; lia. }
  unfold horner in Hm. rewrite bool_decide_eq_true_2 by (unfold is_s32; lia).
  replace (i * 10 + d - 48) with (i * 10 + (d - 48)) by lia. apply IH; [lia|done].
Qed.

Lemma skip_atoi_written v c rest : 0 <= v < 2 ^ 30 -> is_digit c = false ->
  skip_atoi (written 10 v ++ c :: rest) = Some (v, c :: rest).
Proof.
  intros Hv Hc. assert (H64 : is_u64 v) by (unfold is_u64; lia).
  destruct (written_horner 10 v ltac:(lia) H64) as [_ Hh]. unfold skip_atoi.
  rewrite skip_atoi_digits; [by rewrite Hh|apply written_digits; lia|done|lia|lia].
Qed.

Lemma written_head v : 0 < v < 2 ^ 30 -> exists d ds, written 10 v = d :: ds /\ 49 <= d <= 57.
Proof.
  intros Hv. assert (H64 : is_u64 v) by (unfold is_u64; lia).
  destruct (written_leading 10 v ltac:(lia) H64) as (d & ds & Hw & Hd); [lia|]. exists d, ds. split; [done|].
  pose proof (written_digits v ltac:(lia)) as Hall. rewrite Hw in Hall. inversion_clear Hall. lia.
Qed.


(** What may follow the parts of a conversion. *)
Lemma qualifier_next q c rest : qualifier_ok q -> letter_ok c -> exists d r,
  q ++ c :: rest = d :: r /\ d ∉ chars "-+ #0123456789*.".
Proof.
  intros Hq [_ Hc].
  assert (Hc' : c ∉ chars "-+ #0123456789*.") by (intros Hin; apply Hc; by apply (elem_of_app (chars "-+ #0123456789*.") (chars "hlLZzt")); left).
  unfold qualifier_ok in Hq. apply elem_of_cons in Hq as [->|Hq]; [by exists c, rest|].
  repeat (apply elem_of_cons in Hq as [->|Hq]; [eexists _, _; split; [reflexivity|]; apply (bool_decide_unpack _); vm_compute; exact I|]).
  by apply not_elem_of_nil in Hq.
Qed.

Lemma precision_next p q c rest : qualifier_ok q -> letter_ok c -> exists d r,
  precision_text p ++ q ++ c :: rest = d :: r /\ d ∉ chars "-+ #0123456789*".
Proof.
  intros Hq Hc. destruct p as [a|]; cbn [precision_text app].
  - eexists _, _. split; [reflexivity|]. apply (bool_decide_unpack _). vm_compute. exact I.
  - destruct (qualifier_next q c rest Hq Hc) as (d & r & E & Hd). exists d, r. split; [done|].
    intros Hin. apply Hd. by apply (elem_of_app (chars "-+ #0123456789*") (chars ".")); left.
Qed.

Lemma not_digit d : d ∉ chars "-+ #0123456789*" -> is_digit d = false /\ d <> 42.
Proof.
  intros Hd. split; [|by intros ->; apply Hd; apply (bool_decide_unpack _); vm_compute; exact I].
  unfold is_digit. destruct (Z.leb_spec 48 d), (Z.leb_spec d 57); try done. exfalso. apply Hd.
  assert (Hall : Forall (fun d => d ∈ chars "-+ #0123456789*") (seqZ 48 10)) by (apply (bool_decide_unpack _); vm_compute; exact I).
  rewrite Forall_forall in Hall. apply Hall, elem_of_seqZ. lia.
Qed.

Lemma parse_width_ok a args type d r w args' : amount_ok 1 a -> d ∉ chars "-+ #0123456789*" -> take_amount a args = Some (w, args') ->
  parse_width (amount_text a ++ d :: r) args type =
    Some (default (-1) (Z.abs <$> w), if default 0 w <? 0 then Z.lor type LEFT else type, d :: r, args').
Proof.
  intros Ha Hd Ht. destruct (not_digit d Hd) as [Hdig H42]. unfold parse_width. destruct a as [|v|]; cbn [amount_text app].
  - injection Ht as <- <-. cbn [head mbind option_bind]. rewrite Hdig. by destruct (Z.eqb_spec d 42).
  - injection Ht as <- <-. cbn in Ha. destruct (written_head v ltac:(lia)) as (x & xs & Hw & Hx).
    rewrite Hw. cbn [app head mbind option_bind]. assert (is_digit x = true) as -> by (unfold is_digit; lia).
    change (x :: xs ++ d :: r) with ((x :: xs) ++ d :: r). rewrite <- Hw, skip_atoi_written by (done || lia).
    cbn [mbind option_bind default from_option id fmap option_fmap option_map]. destruct (Z.ltb_spec v 0); [lia|]. by rewrite Z.abs_eq by lia.
  - destruct args as [|[v| | | |] args]; try done. cbn [take_amount] in Ht. destruct (Z.ltb_spec (Z.abs (s32 v)) (2 ^ 30)); [|done].
    injection Ht as <- <-. cbn [head mbind option_bind va_int tail]. change (is_digit 42) with false. change (42 =? 42) with true. cbn iota.
    cbn [default from_option id fmap option_fmap option_map]. destruct (Z.ltb_spec (s32 v) 0); [|by rewrite Z.abs_eq by lia].
    destruct (Z.eqb_spec (s32 v) (- 2 ^ 31)); [lia|]. by rewrite Z.abs_neq by lia.
Qed.

Lemma parse_precision_ok p args d r v args' : (forall a, p = Some a -> amount_ok 0 a) -> d ∉ chars "-+ #0123456789*." ->
  take_precision p args = Some (v, args') ->
  parse_precision (precision_text p ++ d :: r) args = Some (default (-1) v, d :: r, args').
Proof.
  intros Ha Hd Ht. assert (Hd' : d ∉ chars "-+ #0123456789*").
  { intros Hin. apply Hd. by apply (elem_of_app (chars "-+ #0123456789*") (chars ".")); left. }
  assert (H46 : d <> 46) by (intros ->; apply Hd; apply (bool_decide_unpack _); vm_compute; exact I).
  destruct (not_digit d Hd') as [Hdig H42]. unfold parse_precision. destruct p as [a|]; cbn [precision_text app].
  2:{ injection Ht as <- <-. cbn [head mbind option_bind]. by destruct (Z.eqb_spec d 46). }
  specialize (Ha a eq_refl). cbn [take_precision] in Ht. apply bind_pair in Ht as (u & args1 & Ht & Hv). injection Hv as <- <-.
  cbn [head mbind option_bind tail]. change (46 =? 46) with true. cbn iota.
  assert (Hgoal : forall z, z = default 0 u \/ z < 0 /\ u = None -> (if z <? 0 then 0 else z) = Z.max 0 (default 0 u))
    by (intros z [->|[Hz ->]]; destruct (Z.ltb_spec z 0) || destruct (Z.ltb_spec (default 0 u) 0); cbn; lia).
  destruct a as [|x|]; cbn [amount_text app].
  - injection Ht as <- <-. cbn [head mbind option_bind]. rewrite Hdig. destruct (Z.eqb_spec d 42); [done|]. done.
  - injection Ht as <- <-. cbn in Ha. pose proof (written_digits x ltac:(lia)) as Hall.
    destruct (written 10 x) as [|y ys] eqn:Hw; [by apply written_nonempty in Hw; [|lia|unfold is_u64; lia]|].
    cbn [app head mbind option_bind]. apply Forall_cons_1 in Hall as [Hy _]. assert (is_digit y = true) as -> by (unfold is_digit; lia).
    change (y :: ys ++ d :: r) with ((y :: ys) ++ d :: r). rewrite <- Hw, skip_atoi_written by (done || lia).
    cbn [mbind option_bind default from_option id]. by rewrite (Hgoal x) by by left.
  - destruct args as [|[x| | | |] args]; try done. cbn [take_amount] in Ht. destruct (Z.abs (s32 x) <? 2 ^ 30); [|done].
    injection Ht as <- <-. cbn [head mbind option_bind va_int tail]. change (is_digit 42) with false. change (42 =? 42) with true. cbn iota.
    cbn [mbind option_bind default from_option id]. by rewrite (Hgoal (s32 x)) by by left.
Qed.

(** The qualifier as the code has it. *)
Definition qualifier_code (q : list Z) : Z := match q with [] => -1 | [c] => c | _ => 76 end.

Lemma parse_qualifier_ok q c rest : qualifier_ok q -> letter_ok c -> parse_qualifier (q ++ c :: rest) = Some (qualifier_code q, c :: rest).
Proof.
  intros Hq [_ Hc]. unfold parse_qualifier.
  assert (Hc' : c ∉ chars "hlLZzt") by (intros Hin; apply Hc; by apply (elem_of_app (chars "-+ #0123456789*.") (chars "hlLZzt")); right).
  assert (H108 : c <> 108) by (intros ->; apply Hc'; apply (bool_decide_unpack _); vm_compute; exact I).
  apply Z.eqb_neq in H108 as Ec.
  unfold qualifier_ok in Hq. apply elem_of_cons in Hq as [->|Hq].
  - cbn [app head mbind option_bind]. by rewrite bool_decide_eq_false_2.
  - repeat (apply elem_of_cons in Hq as [->|Hq]; [cbn [chars app head tail mbind option_bind]; (rewrite bool_decide_eq_true_2 by (apply (bool_decide_unpack _); vm_compute; exact I));
      cbn [head tail mbind option_bind]; rewrite ?Ec; reflexivity|]). by apply not_elem_of_nil in Hq.
Qed.

(** *** What is printed for a conversion *)

Lemma width_loop_ok fuel len : forall fw, - 2 ^ 31 < fw -> 0 <= len -> fw - len <= Z.of_nat fuel ->
  width_loop fuel len fw = Some (replicate (Z.to_nat (fw - len)) 32, Z.min fw len - 1).
Proof.
  induction fuel as [|fuel IH]; intros fw Hfw Hlen Hf; cbn [width_loop]; unfold dec; (destruct (Z.eqb_spec fw (- 2 ^ 31)); [lia|]);
    cbn [mbind option_bind]; destruct (Z.ltb_spec len fw); cbn [negb]; try lia.
  - replace (Z.to_nat (fw - len)) with 0%nat by lia. do 2 f_equal. lia.
  - rewrite IH by lia. cbn [mbind option_bind]. replace (Z.to_nat (fw - len)) with (S (Z.to_nat (fw - 1 - len))) by lia.
    cbn [replicate]. do 2 f_equal. lia.
  - replace (Z.to_nat (fw - len)) with 0%nat by lia. do 2 f_equal. lia.
Qed.

Lemma width_ok len fw : - 2 ^ 31 < fw -> 0 <= len -> width len fw = Some (replicate (Z.to_nat (fw - len)) 32, Z.min fw len - 1).
Proof. intros Hfw Hlen. apply width_loop_ok; lia. Qed.

Lemma char_pad_ok fuel : forall fw, - 2 ^ 31 < fw -> fw <= Z.of_nat fuel ->
  char_pad fuel fw = Some (replicate (Z.to_nat (fw - 1)) 32, Z.min (fw - 1) 0).
Proof.
  induction fuel as [|fuel IH]; intros fw Hfw Hf; cbn [char_pad]; unfold dec; (destruct (Z.eqb_spec fw (- 2 ^ 31)); [lia|]);
    cbn [mbind option_bind]; destruct (Z.ltb_spec 0 (fw - 1)); cbn [negb]; try lia.
  - replace (Z.to_nat (fw - 1)) with 0%nat by lia. do 2 f_equal. lia.
  - rewrite IH by lia. cbn [mbind option_bind]. replace (Z.to_nat (fw - 1)) with (S (Z.to_nat (fw - 1 - 1))) by lia.
    cbn [replicate]. do 2 f_equal. lia.
  - replace (Z.to_nat (fw - 1)) with 0%nat by lia. do 2 f_equal. lia.
Qed.

Lemma strnlen_ok s : 0 ∈ s -> forall n, 0 <= n ->
  strnlen s n = Some (Z.min n (Z.of_nat (length (until0 s)))) /\
  take (Z.to_nat (Z.min n (Z.of_nat (length (until0 s))))) s = take (Z.to_nat n) (until0 s).
Proof.
  induction s as [|c s IH]; intros Hin n Hn; [by apply not_elem_of_nil in Hin|]. cbn [strnlen until0].
  destruct (Z.eqb_spec n 0) as [->|Hn0]; [split; [f_equal; lia|by rewrite Z.min_l by lia]|].
  destruct (Z.eqb_spec c 0) as [->|Hc].
  - cbn [length]. rewrite Z.min_r by lia. by rewrite take_nil.
  - apply elem_of_cons in Hin as [E|Hin]; [by subst|]. destruct (IH Hin (n - 1) ltac:(lia)) as [-> E]. cbn [length fmap option_fmap option_map]. split; [f_equal; lia|].
    replace (Z.to_nat n) with (S (Z.to_nat (n - 1))) by lia. cbn [take]. rewrite <- E.
    replace (Z.to_nat (Z.min n (Z.of_nat (S (length (until0 s)))))) with (S (Z.to_nat (Z.min (n - 1) (Z.of_nat (length (until0 s)))))) by lia. done.
Qed.

(** A width or a precision that was found. *)
Definition small (w : option Z) : Prop := forall v, w = Some v -> 0 <= v < 2 ^ 30.

Lemma string_ok s w p type : 0 ∈ s -> Z.of_nat (length (until0 s)) < 2 ^ 31 -> small w -> small p ->
  string (Some s) (default (-1) w) (default (-1) p) type =
    Some (field (has type LEFT) (default (-1) w) (match p with None => until0 s | Some p => take (Z.to_nat p) (until0 s) end)).
Proof.
  intros Hs Hlen Hw Hp. unfold string. change (default (chars "<NULL>" ++ [0]) (Some s)) with s.
  set (t := match p with None => _ | Some p => _ end).
  assert (Ht : exists n, strnlen s (u64 (default (-1) p)) = Some n /\ take (Z.to_nat n) s = t /\ n = Z.of_nat (length t)).
  { destruct p as [p|]; unfold t; cbn [default from_option id].
    - specialize (Hp p eq_refl). rewrite u64_small by (unfold is_u64; lia). destruct (strnlen_ok s Hs p ltac:(lia)) as [-> E].
      eexists. split; [done|]. split; [exact E|]. rewrite length_take. lia.
    - change (u64 (-1)) with (2 ^ 64 - 1). destruct (strnlen_ok s Hs (2 ^ 64 - 1) ltac:(lia)) as [-> E].
      rewrite Z.min_r in * by lia. eexists. split; [done|]. split; [|done]. rewrite E. apply take_ge. lia. }
  destruct Ht as (n & -> & E & ->). cbn [mbind option_bind]. unfold field.
  assert (Hw' : -1 <= default (-1) w) by (destruct w as [w|]; cbn; [specialize (Hw w eq_refl)|]; lia).
  destruct (has type LEFT); cbn [negb mbind option_bind].
  - rewrite width_ok by lia. cbn [mbind option_bind app]. by rewrite E.
  - rewrite width_ok by lia. cbn [mbind option_bind]. rewrite width_ok by lia. cbn [mbind option_bind].
    replace (Z.to_nat (Z.min _ _ - 1 - _)) with 0%nat by lia. cbn [replicate]. by rewrite E, app_nil_r.
Qed.

Lemma va_num_ok q type args num args' : qualifier_ok q -> take_number q (has type SIGN) args = Some (num, args') ->
  va_num (qualifier_code q) type args = Some (num, args') /\ is_u64 num.
Proof.
  intros Hq Ht. assert (Hu : forall v, is_u64 (u32 v) /\ is_u64 (u16 v)).
  { intros v. pose proof (u32_range v). pose proof (Z.mod_pos_bound v (2 ^ 16)). unfold u16, is_u32, is_u64 in *. lia. }
  assert (Hr : is_u64 num).
  { destruct args as [|[v|v| | |] args]; cbn [take_number] in Ht; try done; repeat case_bool_decide; simplify_eq;
      try apply u64_range; destruct (has type SIGN); try apply u64_range; apply Hu. }
  split; [|done]. unfold va_num. unfold qualifier_ok in Hq.
  repeat (apply elem_of_cons in Hq as [->|Hq]; [destruct args as [|[v|v| | |] args]; try done; exact Ht|]). by apply not_elem_of_nil in Hq.
Qed.

(** Flags that a format can ask for: not [SIGN]. *)
Definition plain_flags (type : Z) : Prop := 0 <= type < 128 /\ has type SIGN = false.

Lemma plain_lor a b : plain_flags a -> plain_flags b -> plain_flags (Z.lor a b).
Proof.
  intros [Ha Sa] [Hb Sb]. split; [by apply (lor_bound 7)|]. unfold has in *. rewrite Z.land_lor_distr_l.
  destruct (Z.eqb_spec (Z.land a SIGN) 0) as [->|]; [|done]. destruct (Z.eqb_spec (Z.land b SIGN) 0) as [->|]; done.
Qed.

Lemma plain_flag type : type ∈ [0; ZEROPAD; PLUS; SPACE; LEFT; SMALL; SPECIAL] -> plain_flags type.
Proof. intros H. repeat (apply elem_of_cons in H as [->|H]; [by repeat split|]). by apply not_elem_of_nil in H. Qed.

Lemma flag_bits_plain flags : forall t, plain_flags t -> plain_flags (flag_bits flags t).
Proof.
  unfold flag_bits. induction flags as [|c flags IH]; intros t Ht; cbn [foldl]; [done|]. apply IH, plain_lor; [done|].
  apply plain_flag. unfold flag_bit. repeat case_match; apply (bool_decide_unpack _); vm_compute; exact I.
Qed.

Lemma convert_ok c q type w p args count t outs args' rest r : qualifier_ok q -> letter_ok c -> plain_flags type -> small w -> small p ->
  letter_value c q type w p args count = Some (t, outs, args') -> (if c =? 112 then skip_suffix rest = Some r else r = rest) ->
  convert (c :: rest) args (default (-1) w) (default (-1) p) type (qualifier_code q) count = Some (t, outs, r, args').
Proof.
  intros Hq Hc Ht Hw Hp Hv Hr. unfold convert. cbn [head tail mbind option_bind].
  assert (Hw' : -1 <= default (-1) w < 2 ^ 30) by (destruct w as [w|]; cbn; [specialize (Hw w eq_refl)|]; lia).
  assert (Hp' : default (-1) p < 2 ^ 30) by (destruct p as [p|]; cbn; [specialize (Hp p eq_refl)|]; lia).
  assert (Hint : forall base ty, base = 8 \/ base = 10 \/ base = 16 -> 0 <= ty < 128 ->
    ('(num, args) ← take_number q (has ty SIGN) args;
     if has ty SIGN && (s64 num =? - 2 ^ 63) then None else Some (number_text num base (default (-1) w) (default (-1) p) ty, [], args)) = Some (t, outs, args') ->
    ('(num, args) ← va_num (qualifier_code q) ty args; x ← number num base (default (-1) w) (default (-1) p) ty; Some (x, [] : list Z, rest, args)) =
      Some (t, outs, rest, args')).
  { intros base ty Hb Hty Hx. apply bind_pair in Hx as (num & a & Hn & Hx). destruct (va_num_ok _ _ _ _ _ Hq Hn) as [-> Hu]. cbn [mbind option_bind].
    destruct (has ty SIGN && (s64 num =? - 2 ^ 63)) eqn:Em; [done|]. injection Hx as <- <- <-.
    rewrite number_writes; [done|done|done| |done|done|done]. intros Hs E. rewrite Hs, E in Em. done. }
  pose proof (plain_lor type SMALL Ht (plain_flag SMALL ltac:(apply (bool_decide_unpack _); vm_compute; exact I))) as Hsm.
  pose proof (plain_lor _ ZEROPAD Hsm (plain_flag ZEROPAD ltac:(apply (bool_decide_unpack _); vm_compute; exact I))) as Hz.
  unfold letter_value in Hv.
  destruct (Z.eqb_spec c 99) as [->|_].
  { cbn in Hr. subst r. destruct args as [|[v| | | |] args]; try done. injection Hv as <- <- <-. unfold field. cbn [va_int length].
    destruct (has type LEFT); cbn [negb mbind option_bind].
    - rewrite char_pad_ok by lia. done.
    - rewrite char_pad_ok by lia. cbn [mbind option_bind]. rewrite char_pad_ok by lia. cbn [mbind option_bind].
      replace (Z.to_nat (Z.min _ 0 - 1)) with 0%nat by lia. done. }
  destruct (Z.eqb_spec c 115) as [->|_].
  { cbn in Hr. subst r. destruct args as [|[| |s| |] args]; try done. cbv zeta in Hv. case_bool_decide as Hs; [|done]. injection Hv as <- <- <-.
    destruct Hs as [Hs Hlen]. pose proof (string_ok _ w p type Hs Hlen Hw Hp) as E.
    change (string (Some (default (chars "<NULL>" ++ [0]) s)) (default (-1) w) (default (-1) p) type)
      with (string s (default (-1) w) (default (-1) p) type) in E. by rewrite E. }
  destruct (Z.eqb_spec c 112) as [->|_].
  { cbn [Z.eqb Pos.eqb] in Hr. destruct args as [|[| | |v|] args]; try done. case_bool_decide as Hv64; [|done]. injection Hv as <- <- <-. rewrite Hr. unfold pointer.
    assert (Hnum : forall ty size, plain_flags ty -> -1 <= size < 2 ^ 30 -> number v 16 size (default (-1) p) ty = Some (number_text v 16 size (default (-1) p) ty)).
    { intros ty size [Hty Hs] Hsz. apply number_writes; try done; [lia|]. by rewrite Hs. }
    destruct w as [w|]; cbn [default from_option id] in *.
    - destruct (Z.eqb_spec w (-1)); [specialize (Hw w eq_refl); lia|]. by rewrite Hnum.
    - change (-1 =? -1) with true. cbn iota. by rewrite Hnum. }
  destruct (Z.eqb_spec c 110) as [->|_].
  { cbn in Hr. subst r. destruct args as [|[| | | |] args]; try done. injection Hv as <- <- <-. do 4 f_equal. unfold qualifier_ok in Hq.
    repeat (apply elem_of_cons in Hq as [->|Hq]; [done|]). by apply not_elem_of_nil in Hq. }
  assert (Hlor : forall b, 0 <= b < 128 -> 0 <= Z.lor type b < 128) by (intros b; apply (lor_bound 7); [lia|apply Ht]).
  destruct (Z.eqb_spec c 37) as [->|_]; [cbn in Hr; subst r; by injection Hv as <- <- <-|].
  destruct (Z.eqb_spec c 111) as [->|_]; [cbn in Hr; subst r; apply Hint; [lia|apply Ht|done]|].
  destruct (Z.eqb_spec c 120) as [->|_]; [cbn in Hr; subst r; apply Hint; [lia|apply Hsm|done]|].
  destruct (Z.eqb_spec c 88) as [->|_]; [cbn in Hr; subst r; apply Hint; [lia|apply Ht|done]|].
  destruct ((c =? 100) || (c =? 105)) eqn:Ed.
  { assert (r = rest) as -> by (destruct (Z.eqb_spec c 112); [subst; done|done]). apply Hint; [lia| |done].
    apply (lor_bound 7); [lia|apply Ht|split; (discriminate || reflexivity)]. }
  assert (r = rest) as -> by (destruct (Z.eqb_spec c 112); [by subst|done]).
  destruct (c =? 117); [apply Hint; [lia|apply Ht|done]|].
  destruct (Z.eqb_spec c 0); [destruct Hc as [? _]; lia|]. cbn [negb]. by injection Hv as <- <- <-.
Qed.


Lemma take_amount_small least a args w args' : 0 <= least -> amount_ok least a -> take_amount a args = Some (w, args') ->
  small (Z.abs <$> w) /\ small (Some (Z.max 0 (default 0 w))).
Proof.
  intros Hl Ha Ht. destruct a as [|v|]; cbn in Ha.
  - injection Ht as <- <-. split; intros ? [= <-]. cbn. lia.
  - injection Ht as <- <-. split; intros ? [= <-]; cbn; lia.
  - destruct args as [|[v| | | |] args]; try done. cbn in Ht. destruct (Z.ltb_spec (Z.abs (s32 v)) (2 ^ 30)); [|done].
    injection Ht as <- <-. split; intros ? [= <-]; cbn; lia.
Qed.

Lemma conversion_ok s args count t outs args' rest r : piece_ok (Conv s) -> spec_value s args count = Some (t, outs, args') ->
  (if sp_letter s =? 112 then skip_suffix rest = Some r else r = rest) ->
  conversion (spec_text s ++ rest) args count = Some (t, outs, r, args').
Proof.
  intros (Hfl & Hw & Hp & Hq & Hc) Hv Hr. unfold spec_value in Hv. apply bind_pair in Hv as (w & args1 & Hw1 & Hv).
  apply bind_pair in Hv as (p & args2 & Hp2 & Hv). cbv zeta in Hv.
  unfold spec_text, conversion. rewrite <- !app_assoc. cbn [app].
  destruct (precision_next (sp_precision s) _ (sp_letter s) rest Hq Hc) as (d & r1 & E1 & Hd).
  destruct (qualifier_next _ (sp_letter s) rest Hq Hc) as (e & r2 & E2 & He).
  assert (Hfirst : exists x xs, amount_text (sp_width s) ++ d :: r1 = x :: xs /\ x ∉ chars "-+ #0").
  { destruct (sp_width s) as [|v|]; cbn [amount_text app].
    - exists d, r1. split; [done|]. intros Hin. apply Hd. by apply (elem_of_app (chars "-+ #0") (chars "123456789*")); left.
    - destruct (written_head v ltac:(cbn in Hw; lia)) as (x & xs & -> & Hx). eexists _, _. split; [reflexivity|].
      intros Hin. change (x ∈ [45; 43; 32; 35; 48]) in Hin. repeat (apply elem_of_cons in Hin as [->|Hin]; [lia|]). by apply not_elem_of_nil in Hin.
    - eexists _, _. split; [reflexivity|]. apply (bool_decide_unpack _). vm_compute. exact I. }
  destruct Hfirst as (x & xs & E & Hx). rewrite E1, E, parse_flags_ok by done. rewrite <- E. cbn [mbind option_bind].
  rewrite (parse_width_ok _ _ _ _ _ w args1) by done. cbn [mbind option_bind]. rewrite <- E1, E2.
  rewrite (parse_precision_ok _ _ _ _ p args2) by done. cbn [mbind option_bind]. rewrite <- E2.
  rewrite parse_qualifier_ok by done. cbn [mbind option_bind].
  apply (convert_ok _ _ _ _ p); try done.
  - pose proof (flag_bits_plain (sp_flags s) 0 (plain_flag 0 ltac:(apply (bool_decide_unpack _); vm_compute; exact I))).
    destruct (_ <? 0); [|done]. apply plain_lor; [done|]. apply plain_flag, (bool_decide_unpack _). vm_compute. exact I.
  - by apply (take_amount_small 1 _ _ _ _ ltac:(lia) Hw Hw1).
  - destruct (sp_precision s) as [a|]; cbn in Hp2; [|by injection Hp2 as <- <-].
    apply bind_pair in Hp2 as (u & a2 & Ha & Hp2). injection Hp2 as <- <-. by apply (take_amount_small 0 _ _ _ _ ltac:(lia) (Hp a eq_refl) Ha).
Qed.

Lemma skip_suffix_ends l x : exists r, skip_suffix (l ++ 0 :: x) = Some r.
Proof. induction l as [|c l IH]; cbn [app skip_suffix]; [by eexists|]. destruct (negb _); [done|by eexists]. Qed.

(** The scan of a format of pieces ends, with as much fuel as there are characters
    left, and prints the text the pieces denote. *)
Lemma format_prints ps x : Forall piece_ok ps -> forall after args count text outs r,
  format_value after ps args count = Some (text, outs) ->
  (if after then skip_suffix (format_text ps ++ 0 :: x) = Some r else r = format_text ps ++ 0 :: x) ->
  forall fuel, (length r <= fuel)%nat -> format fuel r args count = Some (text, outs).
Proof.
  assert (Hend : forall (l r : list Z) fuel, r = l -> (length r <= fuel)%nat -> (0 < length l)%nat -> exists n, fuel = S n)
    by (intros l r fuel -> H1 H2; exists (pred fuel); lia).
  induction 1 as [|[c|s] ps Hpc Hps IH]; intros after args count text outs r Hv Hr fuel Hf; cbn [format_value format_text app] in *.
  - injection Hv as <- <-. assert (r = 0 :: x) as -> by (destruct after; [by injection Hr|done]).
    by destruct fuel; [cbn in Hf; lia|].
  - destruct after; cbn [andb] in Hv.
    + cbn [skip_suffix] in Hr. unfold alnum in Hv. destruct (negb _); [by eapply (IH true)|]. injection Hr as <-.
      apply bind_pair in Hv as (t & o & Ht & Hv). injection Hv as <- <-. destruct fuel; [cbn in Hf; lia|].
      destruct Hpc as [Hc H37]. rewrite format_char by lia. rewrite (IH false _ _ _ _ _ Ht eq_refl) by (cbn in Hf; lia). done.
    + subst r. apply bind_pair in Hv as (t & o & Ht & Hv). injection Hv as <- <-. destruct fuel; [cbn in Hf; lia|].
      destruct Hpc as [Hc H37]. rewrite format_char by lia. rewrite (IH false _ _ _ _ _ Ht eq_refl) by (cbn in Hf; lia). done.
  - apply bind_Some in Hv as ([[t1 o1] args1] & Hs & Hv). apply bind_pair in Hv as (t & o & Ht & Hv). injection Hv as <- <-.
    assert (r = 37 :: (spec_text s ++ format_text ps) ++ 0 :: x) as -> by (destruct after; [by injection Hr|done]). clear Hr.
    destruct fuel; [cbn in Hf; lia|]. rewrite format_percent, <- app_assoc.
    assert (Hnext : exists r, (if sp_letter s =? 112 then skip_suffix (format_text ps ++ 0 :: x) = Some r else r = format_text ps ++ 0 :: x) /\
      (length r <= length (format_text ps ++ 0%Z :: x))%nat).
    { destruct (sp_letter s =? 112); [|by eexists]. destruct (skip_suffix_ends (format_text ps) x) as [r E]. exists r. split; [done|].
      by apply skip_suffix_shorter in E. }
    destruct Hnext as (r & Hr & Hlen). rewrite (conversion_ok s args count t1 o1 args1 _ r Hpc Hs Hr). cbn [mbind option_bind].
    rewrite (IH _ _ _ _ _ _ Ht Hr); [done|]. cbn [length] in Hf. rewrite !length_app in *. lia.
Qed.

(** ** The claims *)

(** C36: a number is printed as the standard describes it: its digits in the base asked
    for, at least as many as the precision, the sign or what stands for one, the
    prefix, and blanks or zeros up to the width on the side the flags say; the shifts
    and multiplications that replace the divisions by ten are exact. *)
Theorem number_prints num base size precision type :
  base = 8 \/ base = 10 \/ base = 16 -> is_u64 num -> (has type SIGN = true -> s64 num <> - 2 ^ 63) ->
  0 <= type < 128 -> -1 <= size < 2 ^ 30 -> precision < 2 ^ 30 ->
  number num base size precision type = Some (number_text num base size precision type).
Proof. apply number_writes. Qed.

(** C37: [snprintf] returns for every format of characters and conversions, with flags,
    widths, precisions, stars and qualifiers, whose arguments are there and have the
    types asked for (widths and precisions are below 2^30): the scan ends and prints the text the format denotes. With
    [CONFIG_SYS_VSNPRINTF] it returns the length of that text and stores as much of it
    as fits, ended by a NUL, and nothing outside the size given; without it the size is
    not looked at, and the text and its NUL are stored whole, or the object is overrun. *)
Theorem snprintf_bounds buf size ps x args text outs :
  Forall piece_ok ps -> format_value false ps args 0 = Some (text, outs) ->
  Z.of_nat (length text) < 2 ^ 31 - 1 -> 0 <= size <= Z.of_nat (length buf) ->
  snprintf true buf size (format_text ps ++ 0 :: x) args =
    Some (Z.of_nat (length text), if size =? 0 then buf else overlay (take (Z.to_nat size - 1) text ++ [0]) buf) /\
  snprintf false buf size (format_text ps ++ 0 :: x) args =
    if (length text <? length buf)%nat then Some (Z.of_nat (length text), overlay (text ++ [0]) buf) else None.
Proof.
  intros Hps Hv Hl Hs. pose proof (format_prints ps x Hps false args 0 text outs _ Hv eq_refl _ (le_n _)) as Hf. split.
  - by apply (internal_checked buf size _ args text outs).
  - unfold snprintf, vsnprintf, vsprintf. apply (internal_unchecked buf INT_MAX _ args text outs Hf). lia.
Qed.

(** The digits a conversion writes are those [simple_strtoul] reads. *)
Lemma ref_digits_written base num : ref_digits base num true = written base num.
Proof. reflexivity. Qed.

(** ** Plain conversions *)

Lemma numeral_letbase a b room : forall u, Printf.numeral 10 a room u = Printf.numeral 10 b room u.
Proof.
  induction room as [|room IH]; intros u; cbn [Printf.numeral]; [done|]. destruct (u =? 0); [done|].
  rewrite (IH (u / 10)). f_equal. f_equal. pose proof (Z.mod_pos_bound u 10 ltac:(lia)). by rewrite !dec_digit by lia.
Qed.

(** No flags, no width and no precision. *)
Lemma number_plain base v type : is_u64 v -> (base = 16 /\ type = SMALL) \/ (base = 10 /\ type = SIGN /\ v < 2 ^ 63) ->
  number v base (-1) (-1) type = Some (written base v).
Proof.
  intros Hv Hb. assert (Hs : has type SIGN = true -> s64 v = v) by (intros Ht; destruct Hb as [[_ ->]|(_ & -> & Hl)];
    [by vm_compute in Ht|apply s64_small; unfold is_s64, is_u64 in *; lia]).
  assert (H64 : 0 <= v) by (unfold is_u64 in Hv; lia).
  rewrite number_writes; [|lia|done|intros Ht; rewrite Hs by done; lia|destruct Hb as [[_ ->]|(_ & -> & _)]; split; (discriminate || reflexivity)|lia|lia].
  assert (Hn : is_negative v type = false).
  { unfold is_negative. destruct (has type SIGN) eqn:Ht; [|done]. rewrite Hs by done. cbn [andb]. destruct (Z.ltb_spec v 0); [lia|done]. }
  unfold number_text. rewrite Hn. assert (Hsg : sign_text v type = []). {
    unfold sign_text. unfold is_negative in Hn. destruct (has type SIGN); [|done]. cbn [andb] in Hn. rewrite Hn.
    by destruct Hb as [[_ ->]|(_ & -> & _)]. }
  assert (Hpf : prefix_text base type = []) by by destruct Hb as [[-> ->]|(-> & -> & _)].
  assert (Hd : ref_digits base v (has type SMALL) = written base v).
  { destruct Hb as [[-> ->]|(-> & -> & _)]; [reflexivity|]. unfold ref_digits, written. destruct (v =? 0); [done|]. apply numeral_letbase. }
  rewrite Hsg, Hpf, Hd. destruct (ref_digits_length base v (has type SMALL)) as [_ H1]. rewrite Hd in H1.
  assert (1 <= Z.of_nat (length (written base v))) by (destruct Hb as [[-> _]|(-> & _)]; apply H1; unfold is_u64 in Hv; lia).
  assert (Ht : has type LEFT = false /\ has type ZEROPAD = false) by by destruct Hb as [[_ ->]|(_ & -> & _)].
  destruct Ht as [-> ->]. cbn [app length].
  repeat match goal with |- context [Z.to_nat ?x] => replace (Z.to_nat x) with 0%nat by lia end. cbn [replicate app]. done.
Qed.

(** The parts of a conversion that has only a letter. *)
Lemma conversion_letter c rest args n : c = 115 \/ c = 120 \/ c = 100 \/ c = 117 ->
  conversion (c :: rest) args n = convert (c :: rest) args (-1) (-1) 0 (-1) n.
Proof. by intros [->|[->|[->| ->]]]. Qed.

Lemma conversion_x v rest args n : conversion (120 :: rest) (Int v :: args) n = Some (written 16 (u32 v), [], rest, args).
Proof.
  rewrite conversion_letter by lia. change (convert (120 :: rest) (Int v :: args) (-1) (-1) 0 (-1) n) with
    (t ← number (u32 v) 16 (-1) (-1) SMALL; Some (t, [] : list Z, rest, args)).
  rewrite number_plain; [done| |by left]. pose proof (u32_range v). unfold is_u32, is_u64 in *. lia.
Qed.

Lemma conversion_d v rest args n : 0 <= v < 2 ^ 31 -> conversion (100 :: rest) (Int v :: args) n = Some (written 10 v, [], rest, args).
Proof.
  intros Hv. rewrite conversion_letter by lia. change (convert (100 :: rest) (Int v :: args) (-1) (-1) 0 (-1) n) with
    (t ← number (u64 (s32 v)) 10 (-1) (-1) SIGN; Some (t, [] : list Z, rest, args)).
  rewrite s32_small, u64_small by (unfold is_s32, is_u64; lia). rewrite number_plain; [done|unfold is_u64; lia|right; split_and!; lia || done].
Qed.

Lemma conversion_llx v rest args n : is_u64 v ->
  conversion (108 :: 108 :: 120 :: rest) (Long v :: args) n = Some (written 16 v, [], rest, args).
Proof.
  intros Hv. change (conversion (108 :: 108 :: 120 :: rest) (Long v :: args) n) with
    (t ← number (u64 v) 16 (-1) (-1) SMALL; Some (t, [] : list Z, rest, args)).
  rewrite u64_small by done. rewrite number_plain; [done|done|by left].
Qed.

Lemma strnlen_text a x : text_ok a -> forall n, Z.of_nat (length a) < n -> strnlen (cstr a x) n = Some (Z.of_nat (length a)).
Proof.
  induction 1 as [|c a Hc Ha IH]; intros n Hn; cbn [cstr app strnlen length] in *.
  - destruct (Z.eqb_spec n 0); [lia|done].
  - destruct (Z.eqb_spec n 0); [lia|]. destruct (Z.eqb_spec c 0); [lia|]. unfold cstr in IH. rewrite IH by lia.
    cbn. f_equal. lia.
Qed.

(** A string with no width and no precision. *)
Lemma string_plain v : text_ok v -> Z.of_nat (length v) < 2 ^ 31 -> string (Some (cstr v [])) (-1) (-1) 0 = Some v.
Proof.
  intros Hv Hl. unfold string.
  change (default (chars "<NULL>" ++ [0]) (Some (cstr v []))) with (cstr v []). rewrite strnlen_text by (done || change (u64 (-1)) with (2 ^ 64 - 1); lia).
  cbn [mbind option_bind]. change (has 0 LEFT) with false. cbn [negb].
  assert (Hw : forall fw, -3 < fw < 0 -> width (Z.of_nat (length v)) fw = Some ([], fw - 1)).
  { intros fw Hfw. unfold width. replace (Z.to_nat (fw - Z.of_nat (length v))) with 0%nat by lia.
    cbn [width_loop]. destruct (Z.ltb_spec (Z.of_nat (length v)) fw); [lia|]. unfold dec.
    destruct (Z.eqb_spec fw (- 2 ^ 31)); [lia|]. done. }
  rewrite !Hw by lia. cbn [mbind option_bind app]. rewrite Hw by lia. cbn [mbind option_bind].
  rewrite Nat2Z.id. unfold cstr. by rewrite take_app_length, app_nil_r.
Qed.

(** The conversion of a string in a format. *)
Lemma conversion_s v rest args n : text_ok v -> Z.of_nat (length v) < 2 ^ 31 ->
  conversion (115 :: rest) (Str (Some (cstr v [])) :: args) n = Some (v, [], rest, args).
Proof.
  intros Hv Hl. unfold conversion.
  change (parse_flags (115 :: rest) 0) with (Some (0, 115 :: rest)). cbn [mbind option_bind].
  change (parse_width (115 :: rest) (Str (Some (cstr v [])) :: args) 0) with
    (Some (-1, 0, 115 :: rest, Str (Some (cstr v [])) :: args)). cbn [mbind option_bind].
  change (parse_precision (115 :: rest) (Str (Some (cstr v [])) :: args)) with
    (Some (-1, 115 :: rest, Str (Some (cstr v [])) :: args)). cbn [mbind option_bind].
  change (parse_qualifier (115 :: rest)) with (Some (-1, 115 :: rest)). cbn [mbind option_bind].
  change (convert (115 :: rest) (Str (Some (cstr v [])) :: args) (-1) (-1) 0 (-1) n) with
    (t ← string (Some (cstr v [])) (-1) (-1) 0; Some (t, [] : list Z, rest, args)).
  by rewrite string_plain.
Qed.

(** Runs a format that is known, one character or conversion at a time. *)
Ltac run_format :=
  repeat first
    [ rewrite format_end
    | rewrite format_percent; first [rewrite conversion_x | rewrite conversion_llx by done | rewrite conversion_d by lia | rewrite conversion_s by (done || lia)]
    | rewrite format_char by done
    | progress cbn [mbind option_bind] ].

(** The conversion that [setenv_hex] asks for. *)
Lemma format_lx v : is_u64 v -> format 4 (chars "%lx" ++ [0]) [Long v] 0 = Some (written 16 v, []).
Proof.
  intros Hv. change (chars "%lx" ++ [0]) with [37; 108; 120; 0]. rewrite format_percent.
  change (conversion [108; 120; 0] [Long v] 0) with (t ← number (u64 v) 16 (-1) (-1) SMALL; Some (t, [] : list Z, [0], [] : list va)).
  rewrite u64_small, number_plain by (done || by left). cbn [mbind option_bind]. rewrite format_end. cbn [mbind option_bind app].
  by rewrite app_nil_r.
Qed.

(** [printf] without the test of the end. *)
Lemma printf_unchecked buf fmt args text : format (length fmt) fmt args 0 = Some (text, []) -> text_ok text ->
  Z.of_nat (length text) < 2 ^ 31 ->
  printf false buf fmt args =
    if (length text <? length buf)%nat then Some (Z.of_nat (length text), text) else None.
Proof.
  intros Hf Ht Hl. unfold printf, vprintf, vscnprintf, vsprintf. rewrite (internal_unchecked _ _ _ _ _ _ Hf Hl).
  destruct (length text <? length buf)%nat; [|done]. cbn [mbind option_bind]. unfold overlay. rewrite <- app_assoc. cbn [app].
  match goal with |- context [strlen (text ++ 0 :: ?x)] => change (strlen (text ++ 0 :: x)) with (strlen (cstr text x)) end.
  rewrite strlen_cstr by done. cbn [mbind option_bind]. by rewrite Nat2Z.id, take_app_length.
Qed.

(** A text printed into an object that has the room. *)
Lemma sprintf_text buf fmt args text : format (length fmt) fmt args 0 = Some (text, []) -> text_ok text ->
  (length text < length buf)%nat -> Z.of_nat (length buf) < 2 ^ 31 ->
  exists buf', sprintf false buf fmt args = Some (Z.of_nat (length text), buf') /\ until0 buf' = text /\ length buf' = length buf.
Proof.
  intros Hf Ht Hl Hb. unfold sprintf, vsprintf. rewrite (internal_unchecked buf INT_MAX fmt args text [] Hf) by lia.
  destruct (Nat.ltb_spec (length text) (length buf)); [|lia]. eexists. split; [done|]. split.
  - unfold overlay. rewrite <- app_assoc. cbn [app]. by apply (until0_cstr text).
  - apply overlay_length. rewrite length_app. simpl. lia.
Qed.

Lemma itoa_loop_ok fuel : forall p i s, 0 < i < 10 ^ Z.of_nat fuel -> Z.of_nat fuel <= p + 1 ->
  itoa_loop fuel p i s = Some (Printf.numeral 10 97 fuel i ++ s).
Proof.
  induction fuel as [|fuel IH]; intros p i s Hi Hp; [cbn in Hi; lia|]. cbn [itoa_loop Printf.numeral].
  destruct (Z.ltb_spec p 0); [lia|]. destruct (Z.eqb_spec i 0); [lia|].
  rewrite Nat2Z.inj_succ, Z.pow_succ_r in Hi by lia. pose proof (Z.mod_pos_bound i 10 ltac:(lia)) as Hm.
  assert (Hd : u8 (48 + i mod 10) = Printf.digit 97 (i mod 10)) by (rewrite dec_digit by lia; unfold u8; rewrite Z.mod_small; lia).
  rewrite Hd, <- app_assoc. cbn [app]. destruct (Z.ltb_spec 0 (i / 10)) as [Hlt|Hge].
  - apply IH; [|lia]. split; [lia|]. apply Z.div_lt_upper_bound; lia.
  - assert (i / 10 = 0) as -> by (pose proof (Z.div_pos i 10); lia). by destruct fuel.
Qed.

Lemma simple_itoa_ok i : is_u64 i -> simple_itoa i = Some (written 10 i).
Proof.
  intros Hi. unfold is_u64 in Hi. unfold simple_itoa, written. destruct (Z.eqb_spec i 0) as [->|]; [done|].
  assert (Hb : 0 < i < 10 ^ Z.of_nat 21) by (split; [lia|]; apply (Z.lt_trans _ (2 ^ 64)); [lia|reflexivity]).
  assert (E : Printf.numeral 10 Printf.c_a 64 i = Printf.numeral 10 Printf.c_a 21 i) by (apply Printf.numeral_room; lia).
  rewrite E, itoa_loop_ok by (done || lia). by rewrite app_nil_r.
Qed.

Lemma strtoul_written b u rest : b = 10 \/ b = 16 -> is_u64 u ->
  simple_strtoul (written b u ++ 0 :: rest) b = Some (u, 0 :: rest).
Proof.
  intros Hb Hu. assert (H2 : 2 <= b <= 16) by lia. unfold simple_strtoul, strtoul_prefix.
  assert (Hs : stops b 0) by done.
  destruct (Z.eq_dec u 0) as [->|Hne].
  - change (written b 0) with [48]. by destruct Hb as [->| ->].
  - destruct (written_leading b u H2 Hu Hne) as (d & ds & Hw & Hd).
    pose proof (strtoul_loop_written b u 0 rest H2 Hu Hs) as Hl. rewrite Hw in *.
    cbn [app head mbind option_bind]. destruct (Z.eqb_spec d 48); [done|]. cbn [mbind option_bind].
    destruct (Z.eqb_spec b 0); [lia|done].
Qed.

(** [simple_itoa] and the conversion %lx write the digits of every number of 64
    bits, and [simple_strtoul] reads them back, up to the NUL. *)
Theorem itoa_reads_back v rest : is_u64 v ->
  (exists s, simple_itoa v = Some s /\ simple_strtoul (s ++ 0 :: rest) 10 = Some (v, 0 :: rest)) /\
  (exists s, format 4 (chars "%lx" ++ [0]) [Long v] 0 = Some (s, []) /\
     simple_strtoul (s ++ 0 :: rest) 16 = Some (v, 0 :: rest)).
Proof.
  intros Hv. split.
  - exists (written 10 v). split; [by apply simple_itoa_ok|]. apply strtoul_written; [by left|done].
  - exists (written 16 v). split; [by apply format_lx|]. apply strtoul_written; [by right|done].
Qed.

(** [printf] prints from a buffer on the stack: with [CONFIG_SYS_VSNPRINTF] a text
    that is too long for it is cut, without, as on this board, the stack behind the
    buffer is overwritten. *)
Theorem printf_overruns printbuffer fmt args text outs fuel :
  Z.of_nat (length printbuffer) = CONFIG_SYS_PBSIZE -> (length fmt <= fuel)%nat ->
  format fuel fmt args 0 = Some (text, outs) -> text_ok text ->
  CONFIG_SYS_PBSIZE <= Z.of_nat (length text) < 2 ^ 31 - 1 ->
  printf true printbuffer fmt args = Some (CONFIG_SYS_PBSIZE - 1, take (Z.to_nat CONFIG_SYS_PBSIZE - 1) text) /\
  printf false printbuffer fmt args = None.
Proof.
  intros Hb Hfuel Hf Ht [Hl Hl']. rewrite (format_enough fuel (length fmt)) in Hf by lia.
  unfold printf, vprintf, vscnprintf. split.
  - unfold vsnprintf. rewrite (internal_checked _ _ _ _ _ _ Hf) by (rewrite ?Hb; unfold CONFIG_SYS_PBSIZE, CONFIG_SYS_CBSIZE in *; cbn [length chars app] in *; lia).
    cbn [mbind option_bind]. rewrite u64_small by (unfold is_u64; lia).
    destruct (Z.ltb_spec (Z.of_nat (length text)) CONFIG_SYS_PBSIZE); [lia|].
    change (CONFIG_SYS_PBSIZE =? 0) with false. cbn [negb]. unfold overlay. rewrite <- app_assoc. cbn [app].
    set (n := (Z.to_nat CONFIG_SYS_PBSIZE - 1)%nat).
    match goal with |- context [strlen (take n text ++ 0 :: ?x)] =>
      change (strlen (take n text ++ 0 :: x)) with (strlen (cstr (take n text) x)) end.
    rewrite strlen_cstr by by apply Forall_take. cbn [mbind option_bind]. unfold cstr.
    rewrite Nat2Z.id, take_app_length. do 2 f_equal.
  - unfold vsprintf. rewrite (internal_unchecked _ _ _ _ _ _ Hf) by lia.
    destruct (Nat.ltb_spec (length text) (length printbuffer)); [lia|done].
Qed.

(** ** Witnesses *)

Example sample_text : format 80 (chars "[%5d|%-5d|%05d|%+d|%#x|%#o|%.3d|%8.3d|%.2s|%p|%c|%n%%|%i|%lX|%hd|%zu|%*d|%q]" ++ [0])
    [Int (-42); Int 42; Int (-42); Int 42; Int 255; Int 8; Int 7; Int 7; Str (Some (chars "hill" ++ [0])); Ptr 4096; Int 65;
     Out; Int 5; Long 0xABCDEF; Int 0x18000; Long 9; Int (-4); Int 3] 0 =
  Some (chars "[  -42|42   |-0042|+42|0xff|010|007|     007|hi|0000000000001000|A|%|5|ABCDEF|-32768|9|3   |%q]", [67]).
Proof. vm_compute. reflexivity. Qed.

Lemma number_prints_witness :
  number (u64 (-1234567890123)) 10 16 14 (Z.lor SIGN PLUS) = Some (chars " -01234567890123") /\
  number 0xbeef 16 10 (-1) (Z.lor (Z.lor SPECIAL SMALL) ZEROPAD) = Some (chars "0x0000beef").
Proof.
  split.
  - rewrite (number_prints (u64 (-1234567890123)) 10 16 14 (Z.lor SIGN PLUS)); [vm_compute; reflexivity|..].
    + right. left. reflexivity.
    + split; [discriminate|reflexivity].
    + discriminate.
    + split; [discriminate|reflexivity].
    + split; [discriminate|reflexivity].
    + reflexivity.
  - rewrite (number_prints 0xbeef 16 10 (-1) (Z.lor (Z.lor SPECIAL SMALL) ZEROPAD)); [vm_compute; reflexivity|..].
    + right. right. reflexivity.
    + split; [discriminate|reflexivity].
    + discriminate.
    + split; [discriminate|reflexivity].
    + split; [discriminate|reflexivity].
    + reflexivity.
Defined.

(** A width from an argument, a precision, letters behind a pointer. *)
Definition sample_pieces : list piece :=
  [Lit 60; Conv (Spec (chars "+") Star None [] 100); Lit 124; Conv (Spec (chars "-") (Digits 4) (Some (Digits 2)) [] 115);
   Conv (Spec [] Absent None [] 112); Lit 77; Lit 62].

Definition sample_args : list va := [Int 6; Int 1234; Str (Some (chars "hill" ++ [0])); Ptr 4096].

Example sample_format : format_text sample_pieces = chars "<%+*d|%-4.2s%pM>" /\
  format_value false sample_pieces sample_args 0 = Some (chars "< +1234|hi  0000000000001000>", []).
Proof. vm_compute. done. Qed.

Lemma snprintf_bounds_witness :
  snprintf true (replicate 32 7) 5 (chars "<%+*d|%-4.2s%pM>" ++ [0]) sample_args = Some (29, chars "< +1" ++ [0] ++ replicate 27 7) /\
  snprintf false (replicate 32 7) 5 (chars "<%+*d|%-4.2s%pM>" ++ [0]) sample_args =
    Some (29, chars "< +1234|hi  0000000000001000>" ++ [0; 7; 7]).
Proof.
  destruct (snprintf_bounds (replicate 32 7) 5 sample_pieces [] sample_args (chars "< +1234|hi  0000000000001000>") []) as [H1 H2].
  - assert (Hn : forall a : amount, None = Some a -> amount_ok 0 a) by discriminate.
    assert (H2 : forall a, Some (Digits 2) = Some a -> amount_ok 0 a) by (intros a [= <-]; split; [discriminate|reflexivity]).
    unfold sample_pieces. repeat constructor; try exact Hn; try exact H2; try discriminate; try (apply (bool_decide_unpack _); vm_compute; exact I).
  - vm_compute. reflexivity.
  - reflexivity.
  - split; discriminate.
  - split; [exact H1|exact H2].
Defined.

Lemma itoa_reads_back_witness :
  (exists s, simple_itoa 86400 = Some s /\ simple_strtoul (s ++ 0 :: []) 10 = Some (86400, [0])) /\
  (exists s, format 4 (chars "%lx" ++ [0]) [Long 86400] 0 = Some (s, []) /\ simple_strtoul (s ++ [0]) 16 = Some (86400, [0])).
Proof. apply (itoa_reads_back 86400 []). split; [discriminate|reflexivity]. Defined.

Definition long_value : list Z := replicate (Z.to_nat 2000) 97.

Lemma printf_overruns_witness :
  printf true (replicate (Z.to_nat CONFIG_SYS_PBSIZE) 0) (chars "%s" ++ [0]) [Str (Some (long_value ++ [0]))] =
    Some (1049, take 1049 long_value) /\
  printf false (replicate (Z.to_nat CONFIG_SYS_PBSIZE) 0) (chars "%s" ++ [0]) [Str (Some (long_value ++ [0]))] = None.
Proof.
  apply (printf_overruns (replicate (Z.to_nat CONFIG_SYS_PBSIZE) 0) (chars "%s" ++ [0])
    [Str (Some (long_value ++ [0]))] long_value [] 3).
  - rewrite length_replicate. reflexivity.
  - exact (le_n 3).
  - vm_compute. reflexivity.
  - apply Forall_replicate. lia.
  - split; [discriminate|reflexivity].
Defined.
