(* ===== verification/UMem.v ===== *)
(** The functions of src/U-Boot/lib/string.c that write: copying, filling,
    concatenating, splitting.  Memory is a finite map from addresses to bytes, so
    that source and destination may overlap; an address without a byte is not
    part of any object and accessing it is [None].  A word has eight bytes, the
    lowest first, as on AArch64.  Searching is that of [UStr], on the bytes from an
    address to the end of its object. *)

From S2P Require Import Prelude UStr.

Abbreviation mem := (gmap Z Z).

Definition load (m : mem) (p : Z) : option Z := m !! p.

Definition store (p c : Z) (m : mem) : option mem := _ ← m !! p; Some (<[p := c]> m).

(** Enough steps for a loop that reads another address each time. *)
Definition steps (m : mem) : nat := S (base.size m).

(** The bytes from an address on. *)
Fixpoint bytes_loop (n : nat) (m : mem) (p : Z) : list Z :=
  match n with
  | O => []
  | S n => match m !! p with Some c => c :: bytes_loop n m (p + 1) | None => [] end
  end.

Definition bytes_from (m : mem) (p : Z) : list Z := bytes_loop (steps m) m p.

(** The address of what a search from [p] has found. *)
Definition found_at (m : mem) (p : Z) (r : list Z) : Z :=
  p + (Z.of_nat (length (bytes_from m p)) - Z.of_nat (length r)).

(** ** Strings *)

(** [while (( *dest++ = *src++) != 0)] *)
Fixpoint strcpy_loop (fuel : nat) (dest src : Z) (m : mem) : option mem :=
  match fuel with
  | O => None
  | S n =>
      c ← load m src; m ← store dest c m;
      if c =? 0 then Some m else strcpy_loop n (dest + 1) (src + 1) m
  end.

Definition strcpy (dest src : Z) (m : mem) : option (Z * mem) :=
  m' ← strcpy_loop (steps m) dest src m; Some (dest, m').

Fixpoint strncpy_loop (count : nat) (dest src : Z) (m : mem) : option mem :=
  match count with
  | O => Some m
  | S n =>
      c ← load m src; m ← store dest c m;
      if c =? 0 then Some m else strncpy_loop n (dest + 1) (src + 1) m
  end.

Definition strncpy (dest src count : Z) (m : mem) : option (Z * mem) :=
  m' ← strncpy_loop (Z.to_nat count) dest src m; Some (dest, m').

(** ** Memory *)

(** [while (count--) *d8++ = *s8++;] *)
Fixpoint copy_up (count : nat) (d8 s8 : Z) (m : mem) : option mem :=
  match count with
  | O => Some m
  | S n => c ← load m s8; m ← store d8 c m; copy_up n (d8 + 1) (s8 + 1) m
  end.

(** [while (count--) *--tmp = *--s;] *)
Fixpoint copy_down (count : nat) (tmp s : Z) (m : mem) : option mem :=
  match count with
  | O => Some m
  | S n => c ← load m (s - 1); m ← store (tmp - 1) c m; copy_down n (tmp - 1) (s - 1) m
  end.

(** The eight bytes of a word, from the first. *)
Definition load_word (m : mem) (p : Z) : option (list Z) := mapM (load m) (seqZ p 8).

Fixpoint store_bytes (p : Z) (bs : list Z) (m : mem) : option mem :=
  match bs with
  | [] => Some m
  | c :: bs => m ← store p c m; store_bytes (p + 1) bs m
  end.

(** The word loop of [memcpy]: where it leaves the pointers and the count. *)
Fixpoint copy_words (n : nat) (dl sl count : Z) (m : mem) : option (Z * Z * Z * mem) :=
  match n with
  | O => Some (dl, sl, count, m)
  | S n =>
      if 8 <=? count then
        w ← load_word m sl; m ← store_bytes dl w m; copy_words n (dl + 8) (sl + 8) (count - 8) m
      else Some (dl, sl, count, m)
  end.

Definition memcpy (dest src count : Z) (m : mem) : option (Z * mem) :=
  if src =? dest then Some (dest, m) else
  '(dl, sl, count, m) ← (if Z.land (Z.lor dest src) (8 - 1) =? 0
    then copy_words (Z.to_nat (count / 8)) dest src count m else Some (dest, src, count, m));
  m ← copy_up (Z.to_nat count) dl sl m;
  Some (dest, m).

Definition memmove (dest src count : Z) (m : mem) : option (Z * mem) :=
  if src =? dest then Some (dest, m) else
  if dest <=? src then
    m ← copy_up (Z.to_nat count) dest src m; Some (dest, m)
  else
    m ← copy_down (Z.to_nat count) (dest + count) (src + count) m; Some (dest, m).

(** A negative count is decremented until it overflows. *)
Definition bcopy (src dest count : Z) (m : mem) : option (Z * mem) :=
  if count <? 0 then None else
  m ← copy_up (Z.to_nat count) dest src m; Some (dest, m).

(** The byte [c] eight times: [cl <<= 8; cl |= c & 0xff;] *)
Fixpoint fill_word (i : nat) (cl c : Z) : Z :=
  match i with
  | O => cl
  | S i => fill_word i (Z.lor (u64 (Z.shiftl cl 8)) (Z.land c 0xff)) c
  end.

Definition word_bytes (w : Z) : list Z := map (fun i => w / 2 ^ (8 * i) mod 2 ^ 8) (seqZ 0 8).

Fixpoint fill_words (n : nat) (sl cl count : Z) (m : mem) : option (Z * Z * mem) :=
  match n with
  | O => Some (sl, count, m)
  | S n =>
      if 8 <=? count then
        m ← store_bytes sl (word_bytes cl) m; fill_words n (sl + 8) cl (count - 8) m
      else Some (sl, count, m)
  end.

Fixpoint fill_up (count : nat) (s8 c : Z) (m : mem) : option mem :=
  match count with
  | O => Some m
  | S n => m ← store s8 (u8 c) m; fill_up n (s8 + 1) c m
  end.

Definition memset (s c count : Z) (m : mem) : option (Z * mem) :=
  '(sl, count, m) ← (if Z.land s (8 - 1) =? 0
    then fill_words (Z.to_nat (count / 8)) s (fill_word 8 0 c) count m else Some (s, count, m));
  m ← fill_up (Z.to_nat count) sl c m;
  Some (s, m).

(** ** Strings, again *)

Definition strlcpy (dest src size : Z) (m : mem) : option (Z * mem) :=
  ret ← strlen (bytes_from m src);
  if size =? 0 then Some (ret, m) else
  let len := if size <=? ret then size - 1 else ret in
  '(_, m) ← memcpy dest src len m;
  m ← store (dest + len) 0 m;
  Some (ret, m).

(** [while ( *dest) dest++;] *)
Fixpoint to_end (fuel : nat) (dest : Z) (m : mem) : option Z :=
  match fuel with
  | O => None
  | S n => c ← load m dest; if c =? 0 then Some dest else to_end n (dest + 1) m
  end.

Definition strcat (dest src : Z) (m : mem) : option (Z * mem) :=
  e ← to_end (steps m) dest m;
  m' ← strcpy_loop (steps m) e src m;
  Some (dest, m').

Fixpoint strncat_loop (count : nat) (dest src : Z) (m : mem) : option mem :=
  match count with
  | O => Some m
  | S n =>
      c ← load m src; m ← store dest c m;
      if c =? 0 then Some m else
      if (n =? 0)%nat then store (dest + 1) 0 m else strncat_loop n (dest + 1) (src + 1) m
  end.

Definition strncat (dest src count : Z) (m : mem) : option (Z * mem) :=
  if count =? 0 then Some (dest, m) else
  e ← to_end (steps m) dest m;
  m' ← strncat_loop (Z.to_nat count) e src m;
  Some (dest, m').

(** [malloc] gives the address of a block and the memory with it. *)
Definition strdup (malloc : Z -> mem -> option (Z * mem)) (s : option Z) (m : mem)
    : option (option Z * mem) :=
  match s with
  | None => Some (None, m)
  | Some s =>
      n ← strlen (bytes_from m s);
      match malloc (n + 1) m with
      | None => Some (None, m)
      | Some (new, m) => '(_, m) ← strcpy new s m; Some (Some new, m)
      end
  end.

(** ** Splitting *)

(** The result, what [___strtok] is left at, and the memory. *)
Definition strtok (s : option Z) (ct : Z) (___strtok : option Z) (m : mem)
    : option (option Z * option Z * mem) :=
  match (match s with Some s => Some s | None => ___strtok end) with
  | None => Some (None, ___strtok, m)
  | Some sbegin =>
      n ← strspn (bytes_from m sbegin) (bytes_from m ct);
      let sbegin := sbegin + n in
      c ← load m sbegin;
      if c =? 0 then Some (None, None, m) else
      send ← strpbrk (bytes_from m sbegin) (bytes_from m ct);
      match send with
      | None => Some (Some sbegin, None, m)
      | Some r =>
          let send := found_at m sbegin r in
          c ← load m send;
          if c =? 0 then Some (Some sbegin, Some send, m) else
          m ← store send 0 m; Some (Some sbegin, Some (send + 1), m)
      end
  end.

(** The result, what [*s] is left at, and the memory. *)
Definition strsep (s : option Z) (ct : Z) (m : mem) : option (option Z * option Z * mem) :=
  match s with
  | None => Some (None, None, m)
  | Some sbegin =>
      e ← strpbrk (bytes_from m sbegin) (bytes_from m ct);
      match e with
      | None => Some (Some sbegin, None, m)
      | Some r =>
          let e := found_at m sbegin r in
          m ← store e 0 m; Some (Some sbegin, Some (e + 1), m)
      end
  end.

(** The loop of [strswab]: pairs change places. *)
Fixpoint swab_loop (fuel : nat) (p q : Z) (m : mem) : option mem :=
  match fuel with
  | O => None
  | S n =>
      a ← load m p;
      if a =? 0 then Some m else
      b ← load m q;
      if b =? 0 then Some m else
      m ← store p b m; m ← store q a m;
      swab_loop n (p + 2) (q + 2) m
  end.

Definition strswab (s : option Z) (m : mem) : option (option Z * mem) :=
  match s with
  | None => Some (None, m)
  | Some s =>
      c ← load m s;
      if c =? 0 then Some (None, m) else
      m ← swab_loop (steps m) s (s + 1) m; Some (Some s, m)
  end.

(** ** Regions *)

(** The bytes [bs] are at [p]. *)
Definition holds (m : mem) (p : Z) (bs : list Z) : Prop :=
  forall i c, bs !! i = Some c -> m !! (p + Z.of_nat i) = Some c.

(** There are [n] bytes at [p]. *)
Definition fits (m : mem) (p n : Z) : Prop := forall q, p <= q < p + n -> is_Some (m !! q).

(** The memory with the bytes [bs] at [p]. *)
Fixpoint write (p : Z) (bs : list Z) (m : mem) : mem :=
  match bs with [] => m | c :: bs => write (p + 1) bs (<[p := c]> m) end.

Lemma holds_nil m p : holds m p [].
Proof. intros i c Hi. done. Qed.

Lemma holds_cons m p c bs : holds m p (c :: bs) <-> m !! p = Some c /\ holds m (p + 1) bs.
Proof.
  split.
  - intros Hh. split; [by rewrite <- (Hh 0%nat c eq_refl), Z.add_0_r|].
    intros i d Hi. rewrite <- (Hh (S i) d Hi). f_equal. lia.
  - intros [Hp Hh] [|i] d Hi; cbn in Hi; [injection Hi as <-; by rewrite Z.add_0_r|].
    rewrite <- (Hh i d Hi). f_equal. lia.
Qed.

Lemma holds_app m p a b : holds m p (a ++ b) <-> holds m p a /\ holds m (p + Z.of_nat (length a)) b.
Proof.
  revert p. induction a as [|c a IH]; intros p; cbn [app length].
  - replace (p + Z.of_nat 0) with p by lia. split; [|tauto]. intros Hh. split; [apply holds_nil|done].
  - rewrite !holds_cons, IH. replace (p + 1 + Z.of_nat (length a)) with (p + Z.of_nat (S (length a))) by lia. tauto.
Qed.

(** A store elsewhere does not disturb what is held. *)
Lemma holds_insert m p bs q c : holds m p bs -> q < p \/ p + Z.of_nat (length bs) <= q -> holds (<[q := c]> m) p bs.
Proof.
  intros Hh Hq i d Hi. rewrite lookup_insert_ne; [by apply Hh|]. apply lookup_lt_Some in Hi. lia.
Qed.

Lemma holds_fits m p bs : holds m p bs -> fits m p (Z.of_nat (length bs)).
Proof.
  intros Hh q Hq. destruct (lookup_lt_is_Some_2 bs (Z.to_nat (q - p))) as [c Hc]; [lia|].
  exists c. rewrite <- (Hh _ c Hc). f_equal. lia.
Qed.

Lemma fits_insert m p n q c : fits m p n -> fits (<[q := c]> m) p n.
Proof.
  intros Hf x Hx. destruct (decide (x = q)) as [->|]; [rewrite lookup_insert_eq; by eexists|].
  rewrite lookup_insert_ne by done. by apply Hf.
Qed.

Lemma fits_sub m p n p' n' : fits m p n -> p <= p' -> p' + n' <= p + n -> fits m p' n'.
Proof. intros Hf H1 H2 q Hq. apply Hf. lia. Qed.

Lemma write_in p bs : forall m q, p <= q < p + Z.of_nat (length bs) -> write p bs m !! q = bs !! Z.to_nat (q - p).
Proof.
  revert p. induction bs as [|c bs IH]; intros p m q Hq; cbn [length write] in *; [lia|].
  destruct (decide (q = p)) as [->|].
  - rewrite Z.sub_diag. cbn. clear IH Hq. assert (Hout : forall bs p' m', p < p' -> write p' bs m' !! p = m' !! p).
    { clear. induction bs as [|d bs IH]; intros p' m' Hp; cbn [write]; [done|].
      rewrite IH by lia. apply lookup_insert_ne. lia. }
    rewrite Hout by lia. apply lookup_insert_eq.
  - rewrite IH by lia. replace (Z.to_nat (q - p)) with (S (Z.to_nat (q - (p + 1)))) by lia. done.
Qed.

Lemma write_out p bs : forall m q, q < p \/ p + Z.of_nat (length bs) <= q -> write p bs m !! q = m !! q.
Proof.
  revert p. induction bs as [|c bs IH]; intros p m q Hq; cbn [length write] in *; [done|].
  rewrite IH by lia. apply lookup_insert_ne. lia.
Qed.

Lemma write_holds p bs m : holds (write p bs m) p bs.
Proof.
  intros i c Hi. pose proof (lookup_lt_Some _ _ _ Hi). rewrite write_in by lia.
  by replace (Z.to_nat (p + Z.of_nat i - p)) with i by lia.
Qed.

Lemma holds_write m p bs q bs' : holds m p bs ->
  q + Z.of_nat (length bs') <= p \/ p + Z.of_nat (length bs) <= q -> holds (write q bs' m) p bs.
Proof.
  intros Hh Hq i c Hi. pose proof (lookup_lt_Some _ _ _ Hi). rewrite write_out by lia. by apply Hh.
Qed.

Lemma fits_write m p n q bs : fits m p n -> fits (write q bs m) p n.
Proof.
  revert q m. induction bs as [|c bs IH]; intros q m Hf; [done|]. cbn [write]. apply IH. by apply fits_insert.
Qed.

Lemma write_app p a b m : write p (a ++ b) m = write (p + Z.of_nat (length a)) b (write p a m).
Proof.
  revert p m. induction a as [|c a IH]; intros p m; cbn [app write length].
  - by replace (p + Z.of_nat 0) with p by lia.
  - rewrite IH. f_equal. lia.
Qed.

(** Writing what is there. *)
Lemma write_same m p bs : holds m p bs -> write p bs m = m.
Proof.
  revert p. induction bs as [|c bs IH]; intros p Hh; [done|]. apply holds_cons in Hh as [Hp Hh]. cbn [write].
  rewrite insert_id by done. by apply IH.
Qed.

Lemma write_insert p bs m q c : q < p \/ p + Z.of_nat (length bs) <= q ->
  write p bs (<[q := c]> m) = <[q := c]> (write p bs m).
Proof.
  revert p m. induction bs as [|d bs IH]; intros p m Hq; cbn [write length] in *; [done|].
  rewrite insert_insert_ne by lia. apply IH. lia.
Qed.

Lemma store_ok m p c : is_Some (m !! p) -> store p c m = Some (<[p := c]> m).
Proof. intros [d Hd]. unfold store. by rewrite Hd. Qed.

Lemma store_bytes_ok bs : forall p m, fits m p (Z.of_nat (length bs)) -> store_bytes p bs m = Some (write p bs m).
Proof.
  induction bs as [|c bs IH]; intros p m Hf; cbn [store_bytes write length] in *; [done|].
  rewrite store_ok by (apply Hf; lia). cbn [mbind option_bind]. apply IH. apply fits_insert.
  eapply fits_sub; [exact Hf|lia|lia].
Qed.

(** What is held is no more than the memory has. *)
Lemma holds_size bs : forall m p, holds m p bs -> (length bs <= base.size m)%nat.
Proof.
  induction bs as [|c bs IH]; intros m p Hh; cbn [length]; [lia|]. apply holds_cons in Hh as [Hp Hh].
  rewrite <- (insert_delete_id m p c Hp). rewrite map_size_insert_None by apply lookup_delete_eq.
  apply le_n_S, (IH _ (p + 1)). intros i d Hi. rewrite lookup_delete_ne by lia. by apply Hh.
Qed.

Lemma bytes_loop_holds bs : forall n m p, holds m p bs -> (length bs <= n)%nat ->
  bytes_loop n m p = bs ++ bytes_loop (n - length bs) m (p + Z.of_nat (length bs)).
Proof.
  induction bs as [|c bs IH]; intros n m p Hh Hn; cbn [length app] in *.
  - by replace (p + Z.of_nat 0) with p by lia; rewrite Nat.sub_0_r.
  - destruct n as [|n]; [lia|]. apply holds_cons in Hh as [Hp Hh]. cbn [bytes_loop]. rewrite Hp.
    rewrite (IH n m (p + 1) Hh) by lia. do 2 f_equal. f_equal; lia.
Qed.

Lemma bytes_from_holds m p bs : holds m p bs -> exists rest, bytes_from m p = bs ++ rest.
Proof.
  intros Hh. pose proof (holds_size bs m p Hh). unfold bytes_from.
  eexists. apply bytes_loop_holds; [done|]. unfold steps. lia.
Qed.

(** ** Copying *)

Lemma copy_up_ok bs : forall d s m, holds m s bs -> fits m d (Z.of_nat (length bs)) ->
  d <= s \/ s + Z.of_nat (length bs) <= d -> copy_up (length bs) d s m = Some (write d bs m).
Proof.
  induction bs as [|c bs IH]; intros d s m Hh Hf Hd; cbn [length copy_up write] in *; [done|].
  apply holds_cons in Hh as [Hs Hh]. unfold load. rewrite Hs. cbn [mbind option_bind].
  rewrite store_ok by (apply Hf; lia). cbn [mbind option_bind]. apply IH; [|apply fits_insert|lia].
  - apply holds_insert; [done|lia].
  - eapply fits_sub; [exact Hf|lia|lia].
Qed.

Lemma copy_down_ok bs : forall d s m, holds m s bs -> fits m d (Z.of_nat (length bs)) -> s < d ->
  copy_down (length bs) (d + Z.of_nat (length bs)) (s + Z.of_nat (length bs)) m = Some (write d bs m).
Proof.
  induction bs as [|c bs IH] using rev_ind; intros d s m Hh Hf Hd; [done|].
  rewrite length_app in *. cbn [length] in *. rewrite Nat.add_1_r in *. cbn [copy_down].
  apply holds_app in Hh as [Hh Hc]. apply holds_cons in Hc as [Hc _].
  replace (s + Z.of_nat (S (length bs)) - 1) with (s + Z.of_nat (length bs)) by lia.
  replace (d + Z.of_nat (S (length bs)) - 1) with (d + Z.of_nat (length bs)) by lia.
  unfold load. rewrite Hc. cbn [mbind option_bind]. rewrite store_ok by (apply Hf; lia). cbn [mbind option_bind].
  rewrite IH; [|apply holds_insert; [done|lia]|apply fits_insert; eapply fits_sub; [exact Hf|lia|lia]|done].
  rewrite write_insert by lia. by rewrite write_app.
Qed.

Lemma memmove_ok m dest src bs : holds m src bs -> fits m dest (Z.of_nat (length bs)) ->
  memmove dest src (Z.of_nat (length bs)) m = Some (dest, write dest bs m).
Proof.
  intros Hh Hf. unfold memmove. rewrite Nat2Z.id. destruct (Z.eqb_spec src dest) as [->|].
  { by rewrite write_same. }
  destruct (Z.leb_spec dest src).
  - rewrite copy_up_ok by (done || lia). done.
  - rewrite copy_down_ok by (done || lia). done.
Qed.

(** [memmove] leaves at the destination what was at the source, however the
    two overlap, changes nothing else, and returns the destination. *)
Theorem memmove_moves m dest src bs : holds m src bs -> fits m dest (Z.of_nat (length bs)) ->
  exists m', memmove dest src (Z.of_nat (length bs)) m = Some (dest, m') /\ holds m' dest bs /\
    forall q, q < dest \/ dest + Z.of_nat (length bs) <= q -> m' !! q = m !! q.
Proof.
  intros Hh Hf. exists (write dest bs m). rewrite memmove_ok by done. split; [done|].
  split; [apply write_holds|]. intros q. apply write_out.
Qed.

Lemma load_word_holds m p w : holds m p w -> length w = 8%nat -> load_word m p = Some w.
Proof.
  intros Hh Hl. unfold load_word. apply mapM_Some. apply Forall2_same_length_lookup_2; [by rewrite Hl|].
  intros i q c Hq Hc. apply lookup_seqZ in Hq as [-> Hi]. unfold load. by apply Hh.
Qed.

(** The word loop copies the whole words of the region. *)
Lemma copy_words_ok n : forall d s bs m, holds m s bs -> fits m d (Z.of_nat (length bs)) ->
  d <= s \/ s + Z.of_nat (length bs) <= d -> Z.of_nat (length bs) / 8 = Z.of_nat n ->
  let k := (8 * n)%nat in
  copy_words n d s (Z.of_nat (length bs)) m =
    Some (d + Z.of_nat k, s + Z.of_nat k, Z.of_nat (length (drop k bs)), write d (take k bs) m).
Proof.
  induction n as [|n IH]; intros d s bs m Hh Hf Hd Hn k.
  { subst k. cbn [Nat.mul copy_words]. rewrite drop_0, take_0. cbn [write]. repeat f_equal; lia. }
  assert (H8 : 8 <= Z.of_nat (length bs)) by (Z.div_mod_to_equations; lia).
  cbn [copy_words]. destruct (Z.leb_spec 8 (Z.of_nat (length bs))); [|lia].
  assert (Hl : length (take 8 bs) = 8%nat) by (rewrite length_take; lia).
  rewrite <- (take_drop 8 bs) in Hh. apply holds_app in Hh as [Hw Hr]. rewrite Hl in Hr.
  rewrite (load_word_holds m s (take 8 bs)) by done. cbn [mbind option_bind].
  rewrite store_bytes_ok by (rewrite Hl; eapply fits_sub; [exact Hf|lia|lia]). cbn [mbind option_bind].
  assert (Hlr : Z.of_nat (length (drop 8 bs)) = Z.of_nat (length bs) - 8) by (rewrite length_drop; lia).
  specialize (IH (d + 8) (s + 8) (drop 8 bs) (write d (take 8 bs) m)). rewrite Hlr in IH. rewrite IH; clear IH.
  - assert (Hk : k = (8 + 8 * n)%nat) by lia. clearbody k. subst k. rewrite drop_drop, <- (take_take_drop bs 8 (8 * n)), write_app, Hl.
    replace (d + 8 + Z.of_nat (8 * n)) with (d + Z.of_nat (8 + 8 * n)) by lia.
    by replace (s + 8 + Z.of_nat (8 * n)) with (s + Z.of_nat (8 + 8 * n)) by lia.
  - apply holds_write; [done|]. rewrite Hl, Hlr. lia.
  - apply fits_write. eapply fits_sub; [exact Hf|lia|lia].
  - lia.
  - Z.div_mod_to_equations. lia.
Qed.

Lemma memcpy_ok m dest src bs : holds m src bs -> fits m dest (Z.of_nat (length bs)) ->
  dest <= src \/ src + Z.of_nat (length bs) <= dest ->
  memcpy dest src (Z.of_nat (length bs)) m = Some (dest, write dest bs m).
Proof.
  intros Hh Hf Hd. unfold memcpy. destruct (Z.eqb_spec src dest) as [->|]; [by rewrite write_same|].
  destruct (Z.land (Z.lor dest src) (8 - 1) =? 0).
  - set (w := Z.to_nat (Z.of_nat (length bs) / 8)).
    assert (Hn : Z.of_nat (length bs) / 8 = Z.of_nat w) by (unfold w; rewrite Z2Nat.id; [done|apply Z.div_pos; lia]).
    assert (Hk : (8 * w <= length bs)%nat) by (Z.div_mod_to_equations; lia).
    rewrite (copy_words_ok w dest src bs m) by done. cbn [mbind option_bind]. rewrite Nat2Z.id.
    set (k := (8 * w)%nat) in *. assert (Hlt : length (take k bs) = k) by (rewrite length_take; lia).
    pose proof Hh as Hh'. rewrite <- (take_drop k bs) in Hh'. apply holds_app in Hh' as [_ Hr]. rewrite Hlt in Hr.
    assert (Hld : Z.of_nat (length (drop k bs)) = Z.of_nat (length bs) - Z.of_nat k) by (rewrite length_drop; lia).
    rewrite copy_up_ok.
    + assert (He : write dest bs m = write (dest + Z.of_nat k) (drop k bs) (write dest (take k bs) m)).
      { rewrite <- (take_drop k bs) at 1. by rewrite write_app, Hlt. }
      by rewrite He.
    + apply holds_write; [done|]. rewrite Hlt, Hld. lia.
    + apply fits_write. rewrite Hld. eapply fits_sub; [exact Hf|lia|lia].
    + rewrite Hld. lia.
  - cbn [mbind option_bind]. rewrite Nat2Z.id, copy_up_ok by done. done.
Qed.

(** [memcpy], whether it can copy word by word or not, does what [memmove]
    does, unless the destination begins within the source. *)
Theorem memcpy_is_memmove m dest src bs : holds m src bs -> fits m dest (Z.of_nat (length bs)) ->
  dest <= src \/ src + Z.of_nat (length bs) <= dest ->
  memcpy dest src (Z.of_nat (length bs)) m = memmove dest src (Z.of_nat (length bs)) m.
Proof. intros Hh Hf Hd. by rewrite memcpy_ok, memmove_ok. Qed.

(** ** Filling *)

Lemma fill_up_ok c n : forall p m, fits m p (Z.of_nat n) -> fill_up n p c m = Some (write p (replicate n (u8 c)) m).
Proof.
  induction n as [|n IH]; intros p m Hf; cbn [fill_up replicate write] in *; [done|].
  rewrite store_ok by (apply Hf; lia). cbn [mbind option_bind]. apply IH. apply fits_insert.
  eapply fits_sub; [exact Hf|lia|lia].
Qed.

Lemma lor_byte x b : 0 <= b < 2 ^ 8 -> Z.lor (Z.shiftl x 8) b = x * 2 ^ 8 + b.
Proof.
  intros Hb. rewrite <- Z.shiftl_mul_pow2 by lia. rewrite <- Z.add_lor_land, (Z.add_comm (Z.lor _ _)).
  enough (Hz : Z.land (Z.shiftl x 8) b = 0) by lia.
  apply Z.bits_inj'. intros i Hi. rewrite Z.land_spec, Z.bits_0. destruct (Z.lt_ge_cases i 8).
  - by rewrite Z.shiftl_spec_low.
  - rewrite (testbit_high b 8 i) by lia. apply andb_false_r.
Qed.

(** The word is the byte eight times. *)
Lemma fill_word_bytes c : word_bytes (fill_word 8 0 c) = replicate 8 (u8 c).
Proof.
  assert (Hb : Z.land c 0xff = u8 c) by (change 0xff with (Z.ones 8); by apply Z.land_ones).
  pose proof (u8_range c) as Hr. unfold is_u8 in Hr. cbn [fill_word]. rewrite !Hb.
  generalize dependent (u8 c). clear. intros b _ Hb.
  assert (Hstep : forall x, 0 <= x < 2 ^ 56 -> Z.lor (u64 (Z.shiftl x 8)) b = x * 2 ^ 8 + b).
  { intros x Hx. rewrite u64_small by (unfold is_u64; rewrite Z.shiftl_mul_pow2; lia). by apply lor_byte. }
  unfold word_bytes. do 8 match goal with |- context [Z.lor (u64 (Z.shiftl ?x 8)) b] =>
    lazymatch x with context [Z.lor] => fail | _ => rewrite (Hstep x) by lia end end.
  change (seqZ 0 8) with [0; 1; 2; 3; 4; 5; 6; 7]. cbn [map replicate]. repeat f_equal; Z.div_mod_to_equations; lia.
Qed.

Lemma fill_words_ok c n : forall p count m, fits m p count -> count / 8 = Z.of_nat n -> 0 <= count ->
  fill_words n p (fill_word 8 0 c) count m =
    Some (p + Z.of_nat (8 * n), count - Z.of_nat (8 * n), write p (replicate (8 * n) (u8 c)) m).
Proof.
  induction n as [|n IH]; intros p count m Hf Hn Hc.
  { cbn [fill_words Nat.mul replicate write]. by rewrite Z.add_0_r, Z.sub_0_r. }
  assert (8 <= count) by (Z.div_mod_to_equations; lia).
  cbn [fill_words]. destruct (Z.leb_spec 8 count); [|lia]. rewrite fill_word_bytes.
  rewrite store_bytes_ok by (rewrite length_replicate; eapply fits_sub; [exact Hf|lia|lia]). cbn [mbind option_bind].
  rewrite IH; [|apply fits_write; eapply fits_sub; [exact Hf|lia|lia]|Z.div_mod_to_equations; lia|lia].
  replace (8 * S n)%nat with (8 + 8 * n)%nat by lia. rewrite replicate_add, write_app, length_replicate.
  replace (p + 8 + Z.of_nat (8 * n)) with (p + Z.of_nat (8 + 8 * n)) by lia.
  by replace (count - 8 - Z.of_nat (8 * n)) with (count - Z.of_nat (8 + 8 * n)) by lia.
Qed.

(** [memset] fills the region with the low byte of its argument, whether it can
    do so a word at a time or not, and changes nothing else. *)
Theorem memset_fills m s c count : 0 <= count -> fits m s count ->
  exists m', memset s c count m = Some (s, m') /\ holds m' s (replicate (Z.to_nat count) (u8 c)) /\
    forall q, q < s \/ s + count <= q -> m' !! q = m !! q.
Proof.
  intros Hc Hf. exists (write s (replicate (Z.to_nat count) (u8 c)) m).
  assert (Hms : memset s c count m = Some (s, write s (replicate (Z.to_nat count) (u8 c)) m)).
  { unfold memset. destruct (Z.land s (8 - 1) =? 0); cbn [mbind option_bind].
    - pose proof (Z.div_pos count 8 Hc ltac:(lia)).
      rewrite (fill_words_ok c (Z.to_nat (count / 8)) s count m) by (done || lia). cbn [mbind option_bind].
      set (k := (8 * Z.to_nat (count / 8))%nat).
      assert (Hk : Z.of_nat k <= count) by (unfold k; Z.div_mod_to_equations; lia).
      rewrite fill_up_ok by (apply fits_write; eapply fits_sub; [exact Hf|lia|lia]). cbn [mbind option_bind].
      replace (Z.to_nat count) with (k + Z.to_nat (count - Z.of_nat k))%nat by lia.
      by rewrite replicate_add, write_app, length_replicate.
    - rewrite fill_up_ok by (eapply fits_sub; [exact Hf|lia|lia]). done. }
  split; [done|]. split; [apply write_holds|]. intros q Hq. apply write_out. rewrite length_replicate. lia.
Qed.

(** ** Strings *)

(** The string [s] is at [p]. *)
Definition string_at (m : mem) (p : Z) (s : list Z) : Prop := text_ok s /\ holds m p (s ++ [0]).

Lemma string_cons m p c s : string_at m p (c :: s) <-> 0 < c < 256 /\ m !! p = Some c /\ string_at m (p + 1) s.
Proof.
  unfold string_at. cbn [app]. rewrite holds_cons. unfold text_ok. rewrite Forall_cons. tauto.
Qed.

Lemma string_nul m p : string_at m p [] <-> m !! p = Some 0.
Proof.
  unfold string_at. cbn [app]. rewrite holds_cons. split; [tauto|]. intros Hp.
  split; [constructor|]. split; [done|apply holds_nil].
Qed.

Lemma string_insert m p s q c : string_at m p s -> q < p \/ p + Z.of_nat (length s) < q ->
  string_at (<[q := c]> m) p s.
Proof.
  intros [Ht Hh] Hq. split; [done|]. apply holds_insert; [done|]. rewrite length_app. simpl. lia.
Qed.

Lemma string_length m p s : string_at m p s -> (length s < steps m)%nat.
Proof. intros [_ Hh]. apply holds_size in Hh. rewrite length_app in Hh. simpl in Hh. unfold steps. lia. Qed.

(** What a search sees of it. *)
Lemma string_view m p s : string_at m p s -> exists rest, bytes_from m p = cstr s rest.
Proof.
  intros [_ Hh]. destruct (bytes_from_holds m p _ Hh) as [rest Hv]. exists rest.
  rewrite Hv, <- app_assoc. done.
Qed.

Lemma strcpy_loop_ok s : forall fuel d p m, string_at m p s -> fits m d (Z.of_nat (length s) + 1) ->
  d <= p \/ p + Z.of_nat (length s) < d -> (length s < fuel)%nat ->
  strcpy_loop fuel d p m = Some (write d (s ++ [0]) m).
Proof.
  induction s as [|c s IH]; intros fuel d p m Hs Hf Hd Hfu; (destruct fuel as [|fuel]; [lia|]);
    cbn [strcpy_loop length app write] in *; unfold load.
  - apply string_nul in Hs. rewrite Hs. cbn [mbind option_bind]. by rewrite store_ok by (apply Hf; lia).
  - apply string_cons in Hs as (Hc & Hp & Hs). rewrite Hp. cbn [mbind option_bind].
    rewrite store_ok by (apply Hf; lia). cbn [mbind option_bind]. destruct (Z.eqb_spec c 0); [lia|].
    apply IH; [|apply fits_insert; eapply fits_sub; [exact Hf|lia|lia]|lia|lia].
    apply string_insert; [done|lia].
Qed.

Lemma strcpy_ok m d p s : string_at m p s -> fits m d (Z.of_nat (length s) + 1) ->
  d <= p \/ p + Z.of_nat (length s) < d -> strcpy d p m = Some (d, write d (s ++ [0]) m).
Proof.
  intros Hs Hf Hd. unfold strcpy. rewrite (strcpy_loop_ok s) by (done || by eapply string_length). done.
Qed.

(** The loop that is bounded copies the part of the string and its end that fits. *)
Lemma strncpy_ok m d p s count : string_at m p s -> 0 <= count ->
  fits m d (Z.min count (Z.of_nat (length s) + 1)) -> d <= p \/ p + Z.of_nat (length s) < d ->
  strncpy d p count m = Some (d, write d (take (Z.to_nat count) (s ++ [0])) m).
Proof.
  intros Hs Hc Hf Hd. unfold strncpy.
  enough (Hl : strncpy_loop (Z.to_nat count) d p m = Some (write d (take (Z.to_nat count) (s ++ [0])) m)) by by rewrite Hl.
  assert (Hf' : fits m d (Z.min (Z.of_nat (Z.to_nat count)) (Z.of_nat (length s) + 1))) by by rewrite Z2Nat.id.
  clear Hc Hf. revert Hf'. generalize (Z.to_nat count). clear count. intros count. revert count d p m Hs Hd.
  induction s as [|c s IH]; intros [|count] d p m Hs Hd Hf; cbn [strncpy_loop length app take write] in *; try done; unfold load.
  - apply string_nul in Hs. rewrite Hs. cbn [mbind option_bind]. rewrite store_ok by (apply Hf; lia).
    cbn [mbind option_bind]. by rewrite take_nil.
  - apply string_cons in Hs as (Hc & Hp & Hs). rewrite Hp. cbn [mbind option_bind].
    rewrite store_ok by (apply Hf; lia). cbn [mbind option_bind]. destruct (Z.eqb_spec c 0); [lia|].
    apply IH; [apply string_insert; [done|lia]|lia|]. apply fits_insert. eapply fits_sub; [exact Hf|lia|lia].
Qed.

(** [strlcpy] returns the length of the source, writes the part of it that fits
    and a NUL, and nothing else: never more than the size given, and nothing at
    all if that is zero. *)
Theorem strlcpy_bounded m dest src s size : string_at m src s -> 0 <= size ->
  fits m dest (Z.min size (Z.of_nat (length s) + 1)) -> dest <= src \/ src + Z.of_nat (length s) < dest ->
  exists m', strlcpy dest src size m = Some (Z.of_nat (length s), m') /\
    (0 < size -> string_at m' dest (take (Z.to_nat size - 1) s)) /\
    forall q, q < dest \/ dest + Z.min size (Z.of_nat (length s) + 1) <= q -> m' !! q = m !! q.
Proof.
  intros Hs Hsz Hf Hd. destruct (string_view m src s Hs) as [rest Hv]. pose proof Hs as [Ht Hh].
  unfold strlcpy. rewrite Hv, strlen_cstr by done. cbn [mbind option_bind].
  destruct (Z.eqb_spec size 0) as [->|]; [exists m; split; [done|]; split; [lia|done]|].
  set (len := if size <=? _ then _ else _). set (t := take (Z.to_nat size - 1) s).
  assert (Hlen : len = Z.of_nat (length t) /\ len <= Z.of_nat (length s) /\ len + 1 = Z.min size (Z.of_nat (length s) + 1)).
  { unfold len, t. rewrite length_take. destruct (Z.leb_spec size (Z.of_nat (length s))); lia. }
  destruct Hlen as (Hl & Hle & Hmin). rewrite Hl.
  apply holds_app in Hh as [Hh _].
  assert (Hht : holds m src t) by (rewrite <- (take_drop (Z.to_nat size - 1) s) in Hh; by apply holds_app in Hh as [? _]).
  rewrite memcpy_ok by first [done|lia|eapply fits_sub; [exact Hf|lia|lia]]. cbn [mbind option_bind].
  rewrite store_ok by (apply fits_write with (p := dest) (n := len + 1); [by rewrite Hmin|lia]). cbn [mbind option_bind].
  eexists. split; [done|]. replace (<[dest + Z.of_nat (length t) := 0]> (write dest t m)) with (write dest (t ++ [0]) m)
    by by rewrite write_app. split.
  - intros _. split; [by apply Forall_take|apply write_holds].
  - intros q Hq. apply write_out. rewrite length_app. simpl. lia.
Qed.

Lemma to_end_ok s : forall fuel p m, string_at m p s -> (length s < fuel)%nat ->
  to_end fuel p m = Some (p + Z.of_nat (length s)).
Proof.
  induction s as [|c s IH]; intros fuel p m Hs Hf; (destruct fuel as [|fuel]; [lia|]); cbn [to_end length] in *; unfold load.
  - apply string_nul in Hs. rewrite Hs. cbn. f_equal. lia.
  - apply string_cons in Hs as (Hc & Hp & Hs). rewrite Hp. cbn [mbind option_bind]. destruct (Z.eqb_spec c 0); [lia|].
    rewrite IH by (done || lia). f_equal. lia.
Qed.

(** The end of a string is replaced by another. *)
Lemma append_ok m d a b : string_at m d a -> text_ok b ->
  string_at (write (d + Z.of_nat (length a)) (b ++ [0]) m) d (a ++ b).
Proof.
  intros [Ha Hh] Hb. split; [by apply Forall_app|]. rewrite <- app_assoc. apply holds_app in Hh as [Hh _].
  apply holds_app. split; [|apply write_holds]. apply holds_write; [done|]. right. lia.
Qed.

Lemma strcat_joins m dest src a b : string_at m dest a -> string_at m src b ->
  fits m (dest + Z.of_nat (length a)) (Z.of_nat (length b) + 1) ->
  dest + Z.of_nat (length a) <= src \/ src + Z.of_nat (length b) < dest + Z.of_nat (length a) ->
  exists m', strcat dest src m = Some (dest, m') /\ string_at m' dest (a ++ b).
Proof.
  intros Ha Hb Hf Hd. unfold strcat. rewrite (to_end_ok a) by (done || by eapply string_length). cbn [mbind option_bind].
  rewrite (strcpy_loop_ok b) by (done || by eapply string_length). cbn [mbind option_bind].
  eexists. split; [done|]. apply append_ok; [done|by destruct Hb].
Qed.

Lemma strncat_loop_ok s : forall count d p m, string_at m p s -> (1 <= count)%nat ->
  fits m d (Z.min (Z.of_nat count) (Z.of_nat (length s)) + 1) -> d <= p \/ p + Z.of_nat (length s) < d ->
  strncat_loop count d p m = Some (write d (take count s ++ [0]) m).
Proof.
  induction s as [|c s IH]; intros [|count] d p m Hs Hn Hf Hd; cbn [strncat_loop length app take write] in *; try lia; unfold load.
  - apply string_nul in Hs. rewrite Hs. cbn [mbind option_bind]. rewrite store_ok by (apply Hf; lia). done.
  - apply string_cons in Hs as (Hc & Hp & Hs). rewrite Hp. cbn [mbind option_bind].
    rewrite store_ok by (apply Hf; lia). cbn [mbind option_bind]. destruct (Z.eqb_spec c 0); [lia|].
    destruct count as [|count]; cbn [Nat.eqb].
    + rewrite take_0. rewrite store_ok by (apply (fits_insert m d _ d c Hf); lia). done.
    + apply IH; [apply string_insert; [done|lia]|lia| |lia]. apply fits_insert. eapply fits_sub; [exact Hf|lia|lia].
Qed.

Lemma strncat_joins m dest src a b count : string_at m dest a -> string_at m src b -> 1 <= count ->
  fits m (dest + Z.of_nat (length a)) (Z.min count (Z.of_nat (length b)) + 1) ->
  dest + Z.of_nat (length a) <= src \/ src + Z.of_nat (length b) < dest + Z.of_nat (length a) ->
  exists m', strncat dest src count m = Some (dest, m') /\ string_at m' dest (a ++ take (Z.to_nat count) b).
Proof.
  intros Ha Hb Hc Hf Hd. unfold strncat. destruct (Z.eqb_spec count 0); [lia|].
  rewrite (to_end_ok a) by (done || by eapply string_length). cbn [mbind option_bind].
  rewrite (strncat_loop_ok b) by (done || lia || (rewrite Z2Nat.id by lia; done)). cbn [mbind option_bind].
  eexists. split; [done|]. apply append_ok; [done|]. destruct Hb as [Hb _]. by apply Forall_take.
Qed.

(** A copy on the heap: [malloc] gives a block of its own. *)
Lemma strdup_copies malloc m p s new m1 : string_at m p s ->
  malloc (Z.of_nat (length s) + 1) m = Some (new, m1) -> m ⊆ m1 -> fits m1 new (Z.of_nat (length s) + 1) ->
  (forall q, new <= q < new + (Z.of_nat (length s) + 1) -> m !! q = None) ->
  exists m', strdup malloc (Some p) m = Some (Some new, m') /\ string_at m' new s /\ m ⊆ m'.
Proof.
  intros Hs Hm Hsub Hf Hfresh. pose proof Hs as [Ht Hh]. destruct (string_view m p s Hs) as [rest Hv].
  unfold strdup. rewrite Hv, strlen_cstr by done. cbn [mbind option_bind]. rewrite Hm.
  assert (Hs1 : string_at m1 p s) by (split; [done|]; intros i c Hi; eapply lookup_weaken; [by apply Hh|done]).
  assert (Hd : new <= p \/ p + Z.of_nat (length s) < new).
  { destruct (Z_le_gt_dec new p); [by left|]. destruct (Z_lt_le_dec (p + Z.of_nat (length s)) new); [by right|]. exfalso.
    destruct (holds_fits m p _ Hh new) as [c Hc]; [rewrite length_app; simpl; lia|]. rewrite Hfresh in Hc by lia. done. }
  rewrite (strcpy_ok m1 new p s) by done. cbn [mbind option_bind]. eexists. split; [done|].
  split; [split; [done|apply write_holds]|]. apply map_subseteq_spec. intros q c Hq.
  rewrite write_out; [by eapply lookup_weaken|]. rewrite length_app. cbn [length].
  destruct (Z_lt_le_dec q new); [by left|]. destruct (Z_lt_le_dec q (new + (Z.of_nat (length s) + 1))); [|right; lia].
  rewrite Hfresh in Hq by lia. done.
Qed.

(** ** Splitting *)

Lemma in_set_text x ds rest : text_ok ds -> in_set x (cstr ds rest) = Some (bool_decide (x ∈ ds)).
Proof.
  unfold cstr. induction 1 as [|d ds Hd Hds IH]; cbn [in_set app].
  - by rewrite bool_decide_eq_false_2 by apply not_elem_of_nil.
  - destruct (Z.eqb_spec d 0); [lia|]. destruct (Z.eqb_spec x d) as [->|Hne].
    + rewrite bool_decide_eq_true_2; [done|left].
    + rewrite IH. f_equal. apply bool_decide_ext. rewrite elem_of_cons. tauto.
Qed.

(** A string up to its first delimiter. *)
Lemma strpbrk_first a t ds rest : text_ok ds -> text_ok a -> Forall (fun c => c ∉ ds) a ->
  strpbrk (a ++ t) (cstr ds rest) = strpbrk t (cstr ds rest).
Proof.
  intros Hds. induction 1 as [|c a Hc Ha IH]; intros Hn; [done|]. inversion_clear Hn. cbn [app strpbrk].
  destruct (Z.eqb_spec c 0); [lia|]. rewrite in_set_text by done. cbn [mbind option_bind].
  rewrite bool_decide_eq_false_2 by done. by apply IH.
Qed.

Lemma strspn_first a t ds rest : text_ok ds -> text_ok a -> Forall (fun c => c ∈ ds) a ->
  strspn (a ++ t) (cstr ds rest) = n ← strspn t (cstr ds rest); Some (Z.of_nat (length a) + n).
Proof.
  intros Hds. induction 1 as [|c a Hc Ha IH]; intros Hn; [cbn [app length]; by destruct (strspn t (cstr ds rest))|].
  inversion_clear Hn. cbn [app strspn].
  destruct (Z.eqb_spec c 0); [lia|]. rewrite in_set_text by done. cbn [mbind option_bind].
  rewrite bool_decide_eq_true_2 by done. rewrite IH by done. destruct (strspn t _); [|done]. cbn. f_equal. lia.
Qed.

(** The fields between delimiters, and the tokens: the fields that are not empty. *)
Fixpoint fields (ds s : list Z) : list (list Z) :=
  match s with
  | [] => [[]]
  | c :: s =>
      if bool_decide (c ∈ ds) then [] :: fields ds s
      else match fields ds s with [] => [[c]] | f :: fs => (c :: f) :: fs end
  end.

Definition tokens (ds s : list Z) : list (list Z) := filter (fun f => f <> []) (fields ds s).

Lemma fields_one (ds a : list Z) : Forall (fun c => c ∉ ds) a -> fields ds a = [a].
Proof.
  induction 1 as [|c a Hc Ha IH]; [done|]. cbn [fields]. rewrite bool_decide_eq_false_2 by done. by rewrite IH.
Qed.

Lemma fields_cons (ds a : list Z) c b : Forall (fun c => c ∉ ds) a -> c ∈ ds -> fields ds (a ++ c :: b) = a :: fields ds b.
Proof.
  intros Ha Hc. induction Ha as [|x a Hx Ha IH]; cbn [app fields]; [by rewrite bool_decide_eq_true_2|].
  rewrite bool_decide_eq_false_2 by done. by rewrite IH.
Qed.

(** Every string is a field, or a field, a delimiter and a string. *)
Lemma first_field (ds s : list Z) : Forall (fun c => c ∉ ds) s \/
  exists a c b, s = a ++ c :: b /\ Forall (fun c => c ∉ ds) a /\ c ∈ ds.
Proof.
  induction s as [|c s IH]; [by left|]. destruct (decide (c ∈ ds)) as [Hc|Hc]; [right; by exists [], c, s|].
  destruct IH as [Hs|(a & d & b & -> & Ha & Hd)]; [left; by constructor|].
  right. exists (c :: a), d, b. split; [done|]. split; [by constructor|done].
Qed.

(** Where a search in a string stops, as an address. *)
Lemma found_in m p a r : bytes_from m p = a ++ r -> found_at m p r = p + Z.of_nat (length a).
Proof. intros Hv. unfold found_at. rewrite Hv, length_app. lia. Qed.

(** A string cut by a NUL at a delimiter. *)
Lemma string_cut m p a c b : string_at m p (a ++ c :: b) ->
  let e := p + Z.of_nat (length a) in
  string_at (<[e := 0]> m) p a /\ string_at (<[e := 0]> m) (e + 1) b /\ m !! e = Some c.
Proof.
  intros [Ht Hh] e. apply Forall_app in Ht as [Ha Hcb]. apply Forall_cons in Hcb as [Hc Hb].
  rewrite <- app_assoc in Hh. apply holds_app in Hh as [Hha Hh]. cbn [app] in Hh. apply holds_cons in Hh as [Hp Hhb].
  split; [|split; [|done]].
  - split; [done|]. apply holds_app. split; [apply holds_insert; [done|lia]|].
    apply holds_cons. split; [apply lookup_insert_eq|apply holds_nil].
  - split; [done|]. apply holds_insert; [done|lia].
Qed.

Lemma string_suffix m p a b : string_at m p (a ++ b) -> string_at m (p + Z.of_nat (length a)) b.
Proof.
  intros [Ht Hh]. apply Forall_app in Ht as [_ Hb]. rewrite <- app_assoc in Hh. apply holds_app in Hh as [_ Hh]. by split.
Qed.

Section Split.
Context (ct : Z) (ds : list Z).

(** The first delimiter in a string: none, or its address. *)
Lemma strpbrk_string m p s : string_at m p s -> string_at m ct ds ->
  (Forall (fun c => c ∉ ds) s /\ strpbrk (bytes_from m p) (bytes_from m ct) = Some None) \/
  exists a c b r, s = a ++ c :: b /\ Forall (fun c => c ∉ ds) a /\ c ∈ ds /\
    strpbrk (bytes_from m p) (bytes_from m ct) = Some (Some r) /\ found_at m p r = p + Z.of_nat (length a).
Proof.
  intros Hs Hds. destruct (string_view m p s Hs) as [rest Hv], (string_view m ct ds Hds) as [rest' Hv'].
  pose proof Hs as [Ht _]. pose proof Hds as [Htd _]. rewrite Hv'.
  destruct (first_field ds s) as [Hn|(a & c & b & -> & Ha & Hc)].
  - left. split; [done|]. rewrite Hv. unfold cstr at 1. rewrite strpbrk_first by done. done.
  - right. pose proof Ht as Htac. apply Forall_app in Htac as [Hta Htc]. apply Forall_cons in Htc as [Hc0 _].
    assert (Hv2 : bytes_from m p = a ++ (c :: b ++ 0 :: rest)) by (rewrite Hv; unfold cstr; by rewrite <- app_assoc).
    exists a, c, b, (c :: b ++ 0 :: rest). split; [done|]. split; [done|]. split; [done|].
    split; [|by apply found_in]. rewrite Hv2, strpbrk_first by done. cbn [strpbrk]. destruct (Z.eqb_spec c 0); [lia|].
    rewrite in_set_text by done. cbn [mbind option_bind]. by rewrite bool_decide_eq_true_2 by done.
Qed.

(** The call on a string: the field it ends, and what is left. *)
Lemma strsep_step m p s : string_at m p s -> string_at m ct ds ->
  (Forall (fun c => c ∉ ds) s /\ strsep (Some p) ct m = Some (Some p, None, m)) \/
  exists a c b, s = a ++ c :: b /\ Forall (fun c => c ∉ ds) a /\ c ∈ ds /\
    let e := p + Z.of_nat (length a) in strsep (Some p) ct m = Some (Some p, Some (e + 1), <[e := 0]> m).
Proof.
  intros Hs Hds. unfold strsep.
  destruct (strpbrk_string m p s Hs Hds) as [(Hn & ->)|(a & c & b & r & -> & Ha & Hc & -> & Hr)]; [by left|right].
  exists a, c, b. split; [done|]. split; [done|]. split; [done|]. cbn [mbind option_bind]. rewrite Hr.
  destruct (string_cut m p a c b Hs) as (_ & _ & He). rewrite store_ok by by eexists. done.
Qed.

(** All calls until the end: the pointers they return. *)
Fixpoint sep_all (fuel : nat) (s : option Z) (m : mem) : option (list Z * mem) :=
  match fuel with
  | O => None
  | S n =>
      '(r, s, m) ← strsep s ct m;
      match r with
      | None => Some ([], m)
      | Some p => '(ps, m) ← sep_all n s m; Some (p :: ps, m)
      end
  end.

(** The delimiters are elsewhere. *)
Definition apart (p n : Z) : Prop := ct + Z.of_nat (length ds) < p \/ p + n <= ct.

Lemma sep_all_fields fuel : forall m p s, string_at m p s -> string_at m ct ds -> apart p (Z.of_nat (length s)) ->
  (S (length s) < fuel)%nat ->
  exists ps m', sep_all fuel (Some p) m = Some (ps, m') /\ Forall2 (string_at m') ps (fields ds s) /\
    forall q, q < p \/ p + Z.of_nat (length s) <= q -> m' !! q = m !! q.
Proof.
  induction fuel as [|fuel IH]; intros m p s Hs Hds Hap Hf; [lia|]. cbn [sep_all].
  destruct (strsep_step m p s Hs Hds) as [(Hn & ->)|(a & c & b & -> & Ha & Hc & ->)]; cbn [mbind option_bind].
  - destruct fuel as [|fuel]; [lia|]. cbn [sep_all strsep mbind option_bind].
    exists [p], m. split; [done|]. rewrite fields_one by done. split; [|done]. by apply Forall2_cons.
  - destruct (string_cut m p a c b Hs) as (Hsa & Hsb & He). set (e := p + Z.of_nat (length a)) in *.
    unfold apart in *. rewrite length_app in *. cbn [length] in *.
    destruct (IH (<[e := 0]> m) (e + 1) b Hsb) as (ps & m' & -> & Hps & Hout); [|unfold apart; lia|lia|].
    { apply string_insert; [done|lia]. }
    cbn [mbind option_bind]. exists (p :: ps), m'. split; [done|]. rewrite fields_cons by done. split.
    + constructor; [|done]. split; [by destruct Hsa|]. intros i x Hi. rewrite Hout.
      * by apply Hsa.
      * apply lookup_lt_Some in Hi. rewrite length_app in Hi. simpl in Hi. lia.
    + intros q Hq. rewrite Hout by lia. apply lookup_insert_ne. lia.
Qed.

(** Delimiters at the start. *)
Lemma leading (s : list Z) : exists z u, s = z ++ u /\ Forall (fun c => c ∈ ds) z /\
  (u = [] \/ exists c u', u = c :: u' /\ c ∉ ds).
Proof.
  induction s as [|c s IH]; [exists [], []; split; [done|]; split; [constructor|by left]|].
  destruct (decide (c ∈ ds)) as [Hc|Hc].
  - destruct IH as (z & u & -> & Hz & Hu). exists (c :: z), u. split; [done|]. split; [by constructor|done].
  - exists [], (c :: s). split; [done|]. split; [constructor|]. right. by exists c, s.
Qed.

Lemma tokens_leading z u : Forall (fun c => c ∈ ds) z -> tokens ds (z ++ u) = tokens ds u.
Proof.
  induction 1 as [|c z Hc Hz IH]; [done|]. cbn [app]. unfold tokens in *. cbn [fields].
  rewrite bool_decide_eq_true_2 by done. rewrite filter_cons. by rewrite decide_False by (intros Hx; by apply Hx).
Qed.

(** A call of [strtok]: delimiters are skipped, then it ends a token. *)
Lemma strtok_step m p s : string_at m p s -> string_at m ct ds ->
  exists z u, s = z ++ u /\ Forall (fun c => c ∈ ds) z /\
    let b := p + Z.of_nat (length z) in
    (tokens ds s = [] /\ strtok None ct (Some p) m = Some (None, None, m)) \/
    (tokens ds s = [u] /\ strtok None ct (Some p) m = Some (Some b, None, m)) \/
    exists t c r, u = t ++ c :: r /\ tokens ds s = t :: tokens ds r /\
      let e := b + Z.of_nat (length t) in
      strtok None ct (Some p) m = Some (Some b, Some (e + 1), <[e := 0]> m).
Proof.
  intros Hs Hds. destruct (leading s) as (z & u & -> & Hz & Hu). exists z, u. split; [done|]. split; [done|].
  set (b := p + Z.of_nat (length z)). pose proof Hs as [Ht _]. apply Forall_app in Ht as [Htz Htu].
  pose proof Hds as [Htd _]. pose proof (string_suffix m p z u Hs) as Hsu. fold b in Hsu.
  destruct (string_view m p _ Hs) as [rest Hv], (string_view m ct ds Hds) as [rest' Hv'].
  assert (Hspn : strspn (bytes_from m p) (bytes_from m ct) = Some (Z.of_nat (length z))).
  { rewrite Hv, Hv'. unfold cstr at 1. rewrite <- app_assoc, strspn_first by done.
    enough (He : strspn (u ++ 0 :: rest) (cstr ds rest') = Some 0) by (rewrite He; cbn; f_equal; lia).
    destruct Hu as [->|(c & u' & -> & Hc)]; [done|]. cbn [app strspn]. apply Forall_cons in Htu as [Hc0 _].
    destruct (Z.eqb_spec c 0); [lia|]. rewrite in_set_text by done. cbn [mbind option_bind].
    by rewrite bool_decide_eq_false_2. }
  unfold strtok. rewrite Hspn. cbn [mbind option_bind]. fold b. rewrite (tokens_leading z u Hz). change (load m b) with (m !! b).
  destruct Hu as [->|(c & u' & -> & Hc)].
  { left. split; [done|]. apply string_nul in Hsu. by rewrite Hsu. }
  right. apply string_cons in Hsu as Hsu'. destruct Hsu' as (Hc0 & Hpb & _). rewrite Hpb. cbn [mbind option_bind].
  destruct (Z.eqb_spec c 0); [lia|].
  destruct (strpbrk_string m b _ Hsu Hds) as [(Hn & ->)|(t & d & r & r' & Hu & Ha & Hd & -> & Hr)]; [left|right]; cbn [mbind option_bind].
  - split; [|done]. unfold tokens. rewrite fields_one by done. done.
  - exists t, d, r. split; [done|]. rewrite Hu in Hsu |- *. split.
    + unfold tokens. rewrite fields_cons by done. rewrite filter_cons. rewrite decide_True; [done|].
      intros ->. cbn in Hu. by injection Hu as -> _.
    + rewrite Hr. destruct (string_cut m b t d r Hsu) as (_ & _ & He). unfold load. rewrite He. cbn [mbind option_bind].
      destruct Hsu as [Htr _]. apply Forall_app in Htr as [_ Htr]. apply Forall_cons in Htr as [Hd0 _].
      destruct (Z.eqb_spec d 0); [lia|]. rewrite store_ok by by eexists. done.
Qed.

(** The first call on the string and all further ones: the pointers they return. *)
Fixpoint tok_all (fuel : nat) (s st : option Z) (m : mem) : option (list Z * mem) :=
  match fuel with
  | O => None
  | S n =>
      '(r, st, m) ← strtok s ct st m;
      match r with
      | None => Some ([], m)
      | Some p => '(ps, m) ← tok_all n None st m; Some (p :: ps, m)
      end
  end.

Lemma tok_all_tokens fuel : forall m p s, string_at m p s -> string_at m ct ds -> apart p (Z.of_nat (length s)) ->
  (S (length s) < fuel)%nat ->
  exists ps m', tok_all fuel None (Some p) m = Some (ps, m') /\ Forall2 (string_at m') ps (tokens ds s) /\
    forall q, q < p \/ p + Z.of_nat (length s) <= q -> m' !! q = m !! q.
Proof.
  induction fuel as [|fuel IH]; intros m p s Hs Hds Hap Hf; [lia|]. cbn [tok_all].
  destruct (strtok_step m p s Hs Hds) as (z & u & -> & Hz & Hstep). pose proof (string_suffix m p z u Hs) as Hsu.
  cbv zeta in Hstep. set (b := p + Z.of_nat (length z)) in *.
  destruct Hstep as [(-> & ->)|[(-> & ->)|(t & c & r & -> & -> & ->)]]; cbn [mbind option_bind].
  - exists [], m. split; [done|]. by split.
  - destruct fuel as [|fuel]; [lia|]. cbn [tok_all strtok mbind option_bind].
    exists [b], m. split; [done|]. split; [|done]. by apply Forall2_cons.
  - destruct (string_cut m b t c r Hsu) as (Hst & Hsr & He). set (e := b + Z.of_nat (length t)) in *.
    unfold apart in *. rewrite !length_app in *. cbn [length] in *.
    destruct (IH (<[e := 0]> m) (e + 1) r Hsr) as (ps & m' & -> & Hps & Hout); [|unfold apart; lia|lia|].
    { apply string_insert; [done|lia]. }
    cbn [mbind option_bind]. exists (b :: ps), m'. split; [done|]. split.
    + constructor; [|done]. split; [by destruct Hst|]. intros i x Hi. rewrite Hout.
      * by apply Hst.
      * apply lookup_lt_Some in Hi. rewrite length_app in Hi. simpl in Hi. lia.
    + intros q Hq. rewrite Hout by lia. apply lookup_insert_ne. lia.
Qed.
End Split.

(** Calling [strtok] on a string until it returns null gives, in order, exactly
    the parts of the string between delimiters that are not empty, as strings in
    memory, and changes nothing outside the string; [strsep] gives all the parts,
    the empty ones too. *)
Theorem strtok_splits m p s ct ds : string_at m p s -> string_at m ct ds ->
  apart ct ds p (Z.of_nat (length s)) ->
  (exists ps m', tok_all ct (length s + 2) (Some p) None m = Some (ps, m') /\ Forall2 (string_at m') ps (tokens ds s) /\
    forall q, q < p \/ p + Z.of_nat (length s) <= q -> m' !! q = m !! q) /\
  (exists ps m', sep_all ct (length s + 2) (Some p) m = Some (ps, m') /\ Forall2 (string_at m') ps (fields ds s) /\
    forall q, q < p \/ p + Z.of_nat (length s) <= q -> m' !! q = m !! q).
Proof.
  intros Hs Hds Hap. rewrite Nat.add_comm. split.
  - exact (tok_all_tokens ct ds (2 + length s) m p s Hs Hds Hap ltac:(lia)).
  - exact (sep_all_fields ct ds (2 + length s) m p s Hs Hds Hap ltac:(lia)).
Qed.

(** ** Witnesses *)

(** A memory with some bytes at an address. *)
Definition mem_of (p : Z) (bs : list Z) : mem := list_to_map (zip (seqZ p (Z.of_nat (length bs))) bs).

Lemma mem_of_holds p bs : holds (mem_of p bs) p bs.
Proof.
  unfold mem_of. revert p. induction bs as [|c bs IH]; intros p; [apply holds_nil|].
  cbn [length]. rewrite seqZ_cons by lia. replace (Z.pred (Z.of_nat (S (length bs)))) with (Z.of_nat (length bs)) by lia.
  cbn [zip zip_with list_to_map foldr fst snd]. apply holds_cons. split; [apply lookup_insert_eq|].
  apply holds_insert; [apply (IH (Z.succ p))|lia].
Qed.

Definition buffer16 : list Z := chars "one two, three" ++ [0; 0].

Lemma memmove_moves_witness :
  exists m', memmove 103 100 13 (mem_of 100 buffer16) = Some (103, m') /\ holds m' 103 (take 13 buffer16) /\
    forall q, q < 103 \/ 103 + 13 <= q -> m' !! q = mem_of 100 buffer16 !! q.
Proof.
  refine (memmove_moves (mem_of 100 buffer16) 103 100 (take 13 buffer16) _ _).
  - pose proof (mem_of_holds 100 buffer16) as Hh. rewrite <- (take_drop 13 buffer16) in Hh at 2.
    by apply holds_app in Hh as [? _].
  - eapply fits_sub; [apply (holds_fits _ _ _ (mem_of_holds 100 buffer16))|lia|vm_compute; discriminate].
Defined.

Lemma memcpy_is_memmove_witness :
  memcpy 96 104 16 (mem_of 96 (replicate 8 7 ++ buffer16)) = memmove 96 104 16 (mem_of 96 (replicate 8 7 ++ buffer16)).
Proof.
  refine (memcpy_is_memmove (mem_of 96 (replicate 8 7 ++ buffer16)) 96 104 buffer16 _ _ _).
  - pose proof (mem_of_holds 96 (replicate 8 7 ++ buffer16)) as Hh. by apply holds_app in Hh as [_ ?].
  - eapply fits_sub; [apply (holds_fits _ _ _ (mem_of_holds 96 (replicate 8 7 ++ buffer16)))|lia|vm_compute; discriminate].
  - left. lia.
Defined.

Lemma memset_fills_witness :
  exists m', memset 96 (-1) 13 (mem_of 96 buffer16) = Some (96, m') /\ holds m' 96 (replicate (Z.to_nat 13) (u8 (-1))) /\
    forall q, q < 96 \/ 96 + 13 <= q -> m' !! q = mem_of 96 buffer16 !! q.
Proof.
  apply (memset_fills (mem_of 96 buffer16) 96 (-1) 13); [lia|].
  eapply fits_sub; [apply (holds_fits _ _ _ (mem_of_holds 96 buffer16))|lia|vm_compute; discriminate].
Defined.

Definition names_at_100 : mem := mem_of 100 (chars "a-name" ++ 0 :: replicate 4 7).

Lemma strlcpy_bounded_witness :
  exists m', strlcpy 107 100 4 names_at_100 = Some (6, m') /\ (0 < 4 -> string_at m' 107 (take (Z.to_nat 4 - 1) (chars "a-name"))) /\
    forall q, q < 107 \/ 107 + Z.min 4 (6 + 1) <= q -> m' !! q = names_at_100 !! q.
Proof.
  refine (strlcpy_bounded names_at_100 107 100 (chars "a-name") 4 _ _ _ _).
  - split; [repeat constructor|]. pose proof (mem_of_holds 100 (chars "a-name" ++ 0 :: replicate 4 7)) as Hh.
    change (chars "a-name" ++ 0 :: replicate 4 7) with ((chars "a-name" ++ [0]) ++ replicate 4 7) in Hh.
    by apply holds_app in Hh as [? _].
  - lia.
  - eapply fits_sub; [apply (holds_fits _ _ _ (mem_of_holds 100 (chars "a-name" ++ 0 :: replicate 4 7)))|lia|vm_compute; discriminate].
  - right. vm_compute. reflexivity.
Defined.

Definition text_and_blanks : mem := mem_of 100 ((chars "one two, three" ++ [0]) ++ chars " ," ++ [0]).

Lemma strtok_splits_witness :
  (exists ps m', tok_all 115 16 (Some 100) None text_and_blanks = Some (ps, m') /\
    Forall2 (string_at m') ps (tokens (chars " ,") (chars "one two, three")) /\
    forall q, q < 100 \/ 100 + 14 <= q -> m' !! q = text_and_blanks !! q) /\
  (exists ps m', sep_all 115 16 (Some 100) text_and_blanks = Some (ps, m') /\
    Forall2 (string_at m') ps (fields (chars " ,") (chars "one two, three")) /\
    forall q, q < 100 \/ 100 + 14 <= q -> m' !! q = text_and_blanks !! q).
Proof.
  pose proof (mem_of_holds 100 ((chars "one two, three" ++ [0]) ++ chars " ," ++ [0])) as Hh.
  apply holds_app in Hh as [H1 H2].
  refine (strtok_splits text_and_blanks 100 (chars "one two, three") 115 (chars " ,") _ _ _).
  - split; [repeat constructor|exact H1].
  - split; [repeat constructor|exact H2].
  - right. vm_compute. discriminate.
Defined.
