(* ===== verification/Crc.v ===== *)
(** Cyclic redundancy checks (src/U-Boot/lib/crc32.c, crc16.c, crc7.c and
    include/linux/crc7.h).

    The tables are those of the code, and the loops run over the bytes from an
    address on, of which a read past the end is [None].  The processor is little
    endian.  The reference is the register that takes one bit at a time: the theorems
    show that the tables, and the loop that takes four bytes at a time once the
    address is aligned, compute it, and what differences between two messages it
    cannot miss. *)

From Stdlib Require Import Btauto.
From S2P Require Import Prelude.

(** ** CRC-32 *)

Definition crc_table : list Z :=
  [0x00000000; 0x77073096; 0xee0e612c; 0x990951ba; 0x076dc419; 0x706af48f; 0xe963a535; 0x9e6495a3;
   0x0edb8832; 0x79dcb8a4; 0xe0d5e91e; 0x97d2d988; 0x09b64c2b; 0x7eb17cbd; 0xe7b82d07; 0x90bf1d91;
   0x1db71064; 0x6ab020f2; 0xf3b97148; 0x84be41de; 0x1adad47d; 0x6ddde4eb; 0xf4d4b551; 0x83d385c7;
   0x136c9856; 0x646ba8c0; 0xfd62f97a; 0x8a65c9ec; 0x14015c4f; 0x63066cd9; 0xfa0f3d63; 0x8d080df5;
   0x3b6e20c8; 0x4c69105e; 0xd56041e4; 0xa2677172; 0x3c03e4d1; 0x4b04d447; 0xd20d85fd; 0xa50ab56b;
   0x35b5a8fa; 0x42b2986c; 0xdbbbc9d6; 0xacbcf940; 0x32d86ce3; 0x45df5c75; 0xdcd60dcf; 0xabd13d59;
   0x26d930ac; 0x51de003a; 0xc8d75180; 0xbfd06116; 0x21b4f4b5; 0x56b3c423; 0xcfba9599; 0xb8bda50f;
   0x2802b89e; 0x5f058808; 0xc60cd9b2; 0xb10be924; 0x2f6f7c87; 0x58684c11; 0xc1611dab; 0xb6662d3d;
   0x76dc4190; 0x01db7106; 0x98d220bc; 0xefd5102a; 0x71b18589; 0x06b6b51f; 0x9fbfe4a5; 0xe8b8d433;
   0x7807c9a2; 0x0f00f934; 0x9609a88e; 0xe10e9818; 0x7f6a0dbb; 0x086d3d2d; 0x91646c97; 0xe6635c01;
   0x6b6b51f4; 0x1c6c6162; 0x856530d8; 0xf262004e; 0x6c0695ed; 0x1b01a57b; 0x8208f4c1; 0xf50fc457;
   0x65b0d9c6; 0x12b7e950; 0x8bbeb8ea; 0xfcb9887c; 0x62dd1ddf; 0x15da2d49; 0x8cd37cf3; 0xfbd44c65;
   0x4db26158; 0x3ab551ce; 0xa3bc0074; 0xd4bb30e2; 0x4adfa541; 0x3dd895d7; 0xa4d1c46d; 0xd3d6f4fb;
   0x4369e96a; 0x346ed9fc; 0xad678846; 0xda60b8d0; 0x44042d73; 0x33031de5; 0xaa0a4c5f; 0xdd0d7cc9;
   0x5005713c; 0x270241aa; 0xbe0b1010; 0xc90c2086; 0x5768b525; 0x206f85b3; 0xb966d409; 0xce61e49f;
   0x5edef90e; 0x29d9c998; 0xb0d09822; 0xc7d7a8b4; 0x59b33d17; 0x2eb40d81; 0xb7bd5c3b; 0xc0ba6cad;
   0xedb88320; 0x9abfb3b6; 0x03b6e20c; 0x74b1d29a; 0xead54739; 0x9dd277af; 0x04db2615; 0x73dc1683;
   0xe3630b12; 0x94643b84; 0x0d6d6a3e; 0x7a6a5aa8; 0xe40ecf0b; 0x9309ff9d; 0x0a00ae27; 0x7d079eb1;
   0xf00f9344; 0x8708a3d2; 0x1e01f268; 0x6906c2fe; 0xf762575d; 0x806567cb; 0x196c3671; 0x6e6b06e7;
   0xfed41b76; 0x89d32be0; 0x10da7a5a; 0x67dd4acc; 0xf9b9df6f; 0x8ebeeff9; 0x17b7be43; 0x60b08ed5;
   0xd6d6a3e8; 0xa1d1937e; 0x38d8c2c4; 0x4fdff252; 0xd1bb67f1; 0xa6bc5767; 0x3fb506dd; 0x48b2364b;
   0xd80d2bda; 0xaf0a1b4c; 0x36034af6; 0x41047a60; 0xdf60efc3; 0xa867df55; 0x316e8eef; 0x4669be79;
   0xcb61b38c; 0xbc66831a; 0x256fd2a0; 0x5268e236; 0xcc0c7795; 0xbb0b4703; 0x220216b9; 0x5505262f;
   0xc5ba3bbe; 0xb2bd0b28; 0x2bb45a92; 0x5cb36a04; 0xc2d7ffa7; 0xb5d0cf31; 0x2cd99e8b; 0x5bdeae1d;
   0x9b64c2b0; 0xec63f226; 0x756aa39c; 0x026d930a; 0x9c0906a9; 0xeb0e363f; 0x72076785; 0x05005713;
   0x95bf4a82; 0xe2b87a14; 0x7bb12bae; 0x0cb61b38; 0x92d28e9b; 0xe5d5be0d; 0x7cdcefb7; 0x0bdbdf21;
   0x86d3d2d4; 0xf1d4e242; 0x68ddb3f8; 0x1fda836e; 0x81be16cd; 0xf6b9265b; 0x6fb077e1; 0x18b74777;
   0x88085ae6; 0xff0f6a70; 0x66063bca; 0x11010b5c; 0x8f659eff; 0xf862ae69; 0x616bffd3; 0x166ccf45;
   0xa00ae278; 0xd70dd2ee; 0x4e048354; 0x3903b3c2; 0xa7672661; 0xd06016f7; 0x4969474d; 0x3e6e77db;
   0xaed16a4a; 0xd9d65adc; 0x40df0b66; 0x37d83bf0; 0xa9bcae53; 0xdebb9ec5; 0x47b2cf7f; 0x30b5ffe9;
   0xbdbdf21c; 0xcabac28a; 0x53b39330; 0x24b4a3a6; 0xbad03605; 0xcdd70693; 0x54de5729; 0x23d967bf;
   0xb3667a2e; 0xc4614ab8; 0x5d681b02; 0x2a6f2b94; 0xb40bbe37; 0xc30c8ea1; 0x5a05df1b; 0x2d02ef8d].

(** The code that would make the table, and is left out: the terms of the polynomial
    but for the highest, the exclusive-or pattern, the eight steps for a byte. *)
Definition poly_terms : list Z := [0; 1; 2; 4; 5; 7; 8; 10; 11; 12; 16; 22; 23; 26].

Definition poly32 : Z := foldl (fun poly n => Z.lor poly (Z.shiftl 1 (31 - n))) 0 poly_terms.

Definition crc_bit (c : Z) : Z := if Z.odd c then Z.lxor poly32 (Z.shiftr c 1) else Z.shiftr c 1.

Definition make_crc_table : list Z := map (Nat.iter 8 crc_bit) (seqZ 0 256).

Definition DO_CRC (crc x : Z) : Z :=
  Z.lxor (nth (Z.to_nat (Z.land (Z.lxor crc x) 255)) crc_table 0) (Z.shiftr crc 8).

(** The loop up to an address that is a multiple of four. *)
Fixpoint align_loop (b : list Z) (addr crc len : Z) : option (Z * list Z * Z) :=
  match b with
  | [] => None
  | x :: b =>
      let crc := DO_CRC crc x in
      let len := u32 (len - 1) in
      if negb (len =? 0) && negb (Z.land (addr + 1) 3 =? 0) then align_loop b (addr + 1) crc len
      else Some (crc, b, len)
  end.

(** The loop over words. *)
Fixpoint word_loop (n : nat) (b : list Z) (crc : Z) : option (Z * list Z) :=
  match n with
  | O => Some (crc, b)
  | S n =>
      match b with
      | b0 :: b1 :: b2 :: b3 :: b =>
          let crc := Z.lxor crc (le_word [b0; b1; b2; b3]) in
          word_loop n b (DO_CRC (DO_CRC (DO_CRC (DO_CRC crc 0) 0) 0) 0)
      | _ => None
      end
  end.

(** The loop over the last bytes. *)
Fixpoint byte_loop (n : nat) (b : list Z) (crc : Z) : option Z :=
  match n with
  | O => Some crc
  | S n => match b with [] => None | x :: b => byte_loop n b (DO_CRC crc x) end
  end.

Definition crc32_no_comp (crc : Z) (addr : Z) (buf : list Z) (len : Z) : option Z :=
  '(crc, b, len) ←
    (if negb (Z.land addr 3 =? 0) && negb (len =? 0) then align_loop buf addr crc len else Some (crc, buf, len));
  let rem_len := Z.land len 3 in
  '(crc, b) ← word_loop (Z.to_nat (Z.shiftr len 2)) b crc;
  byte_loop (Z.to_nat rem_len) b crc.

Definition crc32 (crc : Z) (addr : Z) (p : list Z) (len : Z) : option Z :=
  c ← crc32_no_comp (Z.lxor crc 0xffffffff) addr p len; Some (Z.lxor c 0xffffffff).

(** There is no watchdog. *)
Definition crc32_wd (crc : Z) (addr : Z) (buf : list Z) (len chunk_sz : Z) : option Z := crc32 crc addr buf len.

Definition be32 (v : Z) : list Z := reverse (le32 v).

(** The four bytes stored at [output]. *)
Definition crc32_wd_buf (addr : Z) (input : list Z) (ilen chunk_sz : Z) : option (list Z) :=
  crc ← crc32_wd 0 addr input ilen chunk_sz; Some (be32 crc).

(** ** CRC-16 *)

Definition crc16_tab : list Z :=
  [0x0000; 0x1021; 0x2042; 0x3063; 0x4084; 0x50a5; 0x60c6; 0x70e7;
   0x8108; 0x9129; 0xa14a; 0xb16b; 0xc18c; 0xd1ad; 0xe1ce; 0xf1ef;
   0x1231; 0x0210; 0x3273; 0x2252; 0x52b5; 0x4294; 0x72f7; 0x62d6;
   0x9339; 0x8318; 0xb37b; 0xa35a; 0xd3bd; 0xc39c; 0xf3ff; 0xe3de;
   0x2462; 0x3443; 0x0420; 0x1401; 0x64e6; 0x74c7; 0x44a4; 0x5485;
   0xa56a; 0xb54b; 0x8528; 0x9509; 0xe5ee; 0xf5cf; 0xc5ac; 0xd58d;
   0x3653; 0x2672; 0x1611; 0x0630; 0x76d7; 0x66f6; 0x5695; 0x46b4;
   0xb75b; 0xa77a; 0x9719; 0x8738; 0xf7df; 0xe7fe; 0xd79d; 0xc7bc;
   0x48c4; 0x58e5; 0x6886; 0x78a7; 0x0840; 0x1861; 0x2802; 0x3823;
   0xc9cc; 0xd9ed; 0xe98e; 0xf9af; 0x8948; 0x9969; 0xa90a; 0xb92b;
   0x5af5; 0x4ad4; 0x7ab7; 0x6a96; 0x1a71; 0x0a50; 0x3a33; 0x2a12;
   0xdbfd; 0xcbdc; 0xfbbf; 0xeb9e; 0x9b79; 0x8b58; 0xbb3b; 0xab1a;
   0x6ca6; 0x7c87; 0x4ce4; 0x5cc5; 0x2c22; 0x3c03; 0x0c60; 0x1c41;
   0xedae; 0xfd8f; 0xcdec; 0xddcd; 0xad2a; 0xbd0b; 0x8d68; 0x9d49;
   0x7e97; 0x6eb6; 0x5ed5; 0x4ef4; 0x3e13; 0x2e32; 0x1e51; 0x0e70;
   0xff9f; 0xefbe; 0xdfdd; 0xcffc; 0xbf1b; 0xaf3a; 0x9f59; 0x8f78;
   0x9188; 0x81a9; 0xb1ca; 0xa1eb; 0xd10c; 0xc12d; 0xf14e; 0xe16f;
   0x1080; 0x00a1; 0x30c2; 0x20e3; 0x5004; 0x4025; 0x7046; 0x6067;
   0x83b9; 0x9398; 0xa3fb; 0xb3da; 0xc33d; 0xd31c; 0xe37f; 0xf35e;
   0x02b1; 0x1290; 0x22f3; 0x32d2; 0x4235; 0x5214; 0x6277; 0x7256;
   0xb5ea; 0xa5cb; 0x95a8; 0x8589; 0xf56e; 0xe54f; 0xd52c; 0xc50d;
   0x34e2; 0x24c3; 0x14a0; 0x0481; 0x7466; 0x6447; 0x5424; 0x4405;
   0xa7db; 0xb7fa; 0x8799; 0x97b8; 0xe75f; 0xf77e; 0xc71d; 0xd73c;
   0x26d3; 0x36f2; 0x0691; 0x16b0; 0x6657; 0x7676; 0x4615; 0x5634;
   0xd94c; 0xc96d; 0xf90e; 0xe92f; 0x99c8; 0x89e9; 0xb98a; 0xa9ab;
   0x5844; 0x4865; 0x7806; 0x6827; 0x18c0; 0x08e1; 0x3882; 0x28a3;
   0xcb7d; 0xdb5c; 0xeb3f; 0xfb1e; 0x8bf9; 0x9bd8; 0xabbb; 0xbb9a;
   0x4a75; 0x5a54; 0x6a37; 0x7a16; 0x0af1; 0x1ad0; 0x2ab3; 0x3a92;
   0xfd2e; 0xed0f; 0xdd6c; 0xcd4d; 0xbdaa; 0xad8b; 0x9de8; 0x8dc9;
   0x7c26; 0x6c07; 0x5c64; 0x4c45; 0x3ca2; 0x2c83; 0x1ce0; 0x0cc1;
   0xef1f; 0xff3e; 0xcf5d; 0xdf7c; 0xaf9b; 0xbfba; 0x8fd9; 0x9ff8;
   0x6e17; 0x7e36; 0x4e55; 0x5e74; 0x2e93; 0x3eb2; 0x0ed1; 0x1ef0].

Fixpoint crc16_loop (n : nat) (buf : list Z) (cksum : Z) : option Z :=
  match n with
  | O => Some cksum
  | S n =>
      match buf with
      | [] => None
      | x :: buf =>
          crc16_loop n buf
            (u16 (Z.lxor (nth (Z.to_nat (Z.land (Z.lxor (Z.shiftr cksum 8) x) 0xFF)) crc16_tab 0) (Z.shiftl cksum 8)))
      end
  end.

Definition cyg_crc16 (buf : list Z) (len : Z) : option Z := crc16_loop (Z.to_nat len) buf 0.

(** ** CRC-7 *)

Definition crc7_syndrome_table : list Z :=
  [0x00; 0x09; 0x12; 0x1b; 0x24; 0x2d; 0x36; 0x3f;
   0x48; 0x41; 0x5a; 0x53; 0x6c; 0x65; 0x7e; 0x77;
   0x19; 0x10; 0x0b; 0x02; 0x3d; 0x34; 0x2f; 0x26;
   0x51; 0x58; 0x43; 0x4a; 0x75; 0x7c; 0x67; 0x6e;
   0x32; 0x3b; 0x20; 0x29; 0x16; 0x1f; 0x04; 0x0d;
   0x7a; 0x73; 0x68; 0x61; 0x5e; 0x57; 0x4c; 0x45;
   0x2b; 0x22; 0x39; 0x30; 0x0f; 0x06; 0x1d; 0x14;
   0x63; 0x6a; 0x71; 0x78; 0x47; 0x4e; 0x55; 0x5c;
   0x64; 0x6d; 0x76; 0x7f; 0x40; 0x49; 0x52; 0x5b;
   0x2c; 0x25; 0x3e; 0x37; 0x08; 0x01; 0x1a; 0x13;
   0x7d; 0x74; 0x6f; 0x66; 0x59; 0x50; 0x4b; 0x42;
   0x35; 0x3c; 0x27; 0x2e; 0x11; 0x18; 0x03; 0x0a;
   0x56; 0x5f; 0x44; 0x4d; 0x72; 0x7b; 0x60; 0x69;
   0x1e; 0x17; 0x0c; 0x05; 0x3a; 0x33; 0x28; 0x21;
   0x4f; 0x46; 0x5d; 0x54; 0x6b; 0x62; 0x79; 0x70;
   0x07; 0x0e; 0x15; 0x1c; 0x23; 0x2a; 0x31; 0x38;
   0x41; 0x48; 0x53; 0x5a; 0x65; 0x6c; 0x77; 0x7e;
   0x09; 0x00; 0x1b; 0x12; 0x2d; 0x24; 0x3f; 0x36;
   0x58; 0x51; 0x4a; 0x43; 0x7c; 0x75; 0x6e; 0x67;
   0x10; 0x19; 0x02; 0x0b; 0x34; 0x3d; 0x26; 0x2f;
   0x73; 0x7a; 0x61; 0x68; 0x57; 0x5e; 0x45; 0x4c;
   0x3b; 0x32; 0x29; 0x20; 0x1f; 0x16; 0x0d; 0x04;
   0x6a; 0x63; 0x78; 0x71; 0x4e; 0x47; 0x5c; 0x55;
   0x22; 0x2b; 0x30; 0x39; 0x06; 0x0f; 0x14; 0x1d;
   0x25; 0x2c; 0x37; 0x3e; 0x01; 0x08; 0x13; 0x1a;
   0x6d; 0x64; 0x7f; 0x76; 0x49; 0x40; 0x5b; 0x52;
   0x3c; 0x35; 0x2e; 0x27; 0x18; 0x11; 0x0a; 0x03;
   0x74; 0x7d; 0x66; 0x6f; 0x50; 0x59; 0x42; 0x4b;
   0x17; 0x1e; 0x05; 0x0c; 0x33; 0x3a; 0x21; 0x28;
   0x5f; 0x56; 0x4d; 0x44; 0x7b; 0x72; 0x69; 0x60;
   0x0e; 0x07; 0x1c; 0x15; 0x2a; 0x23; 0x38; 0x31;
   0x46; 0x4f; 0x54; 0x5d; 0x62; 0x6b; 0x70; 0x79].

(** The index has no more than eight bits only if [crc] has no more than seven. *)
Definition crc7_byte (crc data : Z) : option Z :=
  crc7_syndrome_table !! Z.to_nat (Z.lxor (Z.shiftl crc 1) data).

Fixpoint crc7_loop (n : nat) (buffer : list Z) (crc : Z) : option Z :=
  match n with
  | O => Some crc
  | S n => match buffer with [] => None | x :: buffer => crc ← crc7_byte crc x; crc7_loop n buffer crc end
  end.

Definition crc7 (crc : Z) (buffer : list Z) (len : Z) : option Z := crc7_loop (Z.to_nat len) buffer crc.

(** ** The registers *)

(** A register that takes [k] bits at a time from the lowest on. *)
Definition crc_bits (k : nat) (c : Z) : Z := Nat.iter k crc_bit c.

Definition crc_bytes (c : Z) (bs : list Z) : Z := foldl (fun c x => crc_bits 8 (Z.lxor c x)) c bs.

(** The registers that take them from the highest on. *)
Definition bit16 (c : Z) : Z :=
  if Z.testbit c 15 then Z.lxor (u16 (Z.shiftl c 1)) 0x1021 else u16 (Z.shiftl c 1).

Definition crc16_bytes (c : Z) (bs : list Z) : Z :=
  foldl (fun c x => Nat.iter 8 bit16 (Z.lxor c (Z.shiftl x 8))) c bs.

Definition bit7 (c : Z) : Z :=
  if Z.testbit c 7 then Z.lxor (u8 (Z.shiftl c 1)) (2 * 0x09) else u8 (Z.shiftl c 1).

Definition crc7_bytes (c : Z) (bs : list Z) : Z :=
  foldl (fun c x => Z.shiftr (Nat.iter 8 bit7 (Z.lxor (Z.shiftl c 1) x)) 1) c bs.

(** *** One bit *)

Lemma crc_bit_xor a b : crc_bit (Z.lxor a b) = Z.lxor (crc_bit a) (crc_bit b).
Proof.
  assert (Hodd : Z.odd (Z.lxor a b) = xorb (Z.odd a) (Z.odd b)) by (by rewrite <- !Z.bit0_odd, Z.lxor_spec).
  unfold crc_bit. rewrite Hodd, Z.shiftr_lxor.
  destruct (Z.odd a), (Z.odd b); cbn [xorb]; apply Z.bits_inj'; intros i _; rewrite !Z.lxor_spec; btauto.
Qed.

Lemma crc_bits_xor k a b : crc_bits k (Z.lxor a b) = Z.lxor (crc_bits k a) (crc_bits k b).
Proof. unfold crc_bits. induction k as [|k IH]; [done|]. rewrite ?Nat.iter_succ. by rewrite IH, crc_bit_xor. Qed.

Lemma crc_bits_add j k c : crc_bits (j + k) c = crc_bits j (crc_bits k c).
Proof. unfold crc_bits. induction j as [|j IH]; [done|]. cbn [Nat.add]. rewrite ?Nat.iter_succ. by rewrite IH. Qed.

(** Bits of zero are shifted out. *)
Lemma crc_bits_shift k c : crc_bits k (Z.shiftl c (Z.of_nat k)) = c.
Proof.
  revert c. induction k as [|k IH]; intros c; [by rewrite Z.shiftl_0_r|].
  replace (S k) with (k + 1)%nat by lia. rewrite crc_bits_add.
  replace (Z.shiftl c (Z.of_nat (k + 1))) with (2 * Z.shiftl c (Z.of_nat k)).
  2: { rewrite !Z.shiftl_mul_pow2 by lia. rewrite Nat2Z.inj_add, Z.pow_add_r by lia. lia. }
  replace (crc_bits 1 (2 * Z.shiftl c (Z.of_nat k))) with (Z.shiftl c (Z.of_nat k)); [apply IH|].
  match goal with |- context [crc_bits 1 ?x] => change (crc_bits 1 x) with (crc_bit x) end.
  unfold crc_bit. rewrite Z.odd_mul. cbn [Z.odd andb].
  rewrite Z.shiftr_div_pow2 by lia. change (2 ^ 1) with 2. by rewrite Z.mul_comm, Z.div_mul.
Qed.

Lemma crc_bit_range c : is_u32 c -> is_u32 (crc_bit c).
Proof.
  intros Hc. unfold crc_bit, is_u32. pose proof (shiftr_bound 32 c 1 ltac:(lia) Hc).
  destruct (Z.odd c); [apply lxor_bound; [lia|by vm_compute|done]|done].
Qed.

Lemma crc_bits_range k c : is_u32 c -> is_u32 (crc_bits k c).
Proof. intros Hc. unfold crc_bits. induction k; [done|]. rewrite ?Nat.iter_succ. by apply crc_bit_range. Qed.

(** The highest bit of the polynomial tells which way a step went. *)
Lemma crc_bit_zero c : is_u32 c -> crc_bit c = 0 -> c = 0.
Proof.
  intros Hc H0. unfold crc_bit in H0. destruct (Z.odd c) eqn:Ho.
  - exfalso. assert (Hb : Z.testbit (Z.lxor poly32 (Z.shiftr c 1)) 31 = true).
    { rewrite Z.lxor_spec, Z.shiftr_spec by lia. rewrite (testbit_high c 32) by (unfold is_u32 in Hc; lia). by vm_compute. }
    by rewrite H0, Z.testbit_0_l in Hb.
  - rewrite Z.shiftr_div_pow2 in H0 by lia. change (2 ^ 1) with 2 in H0. pose proof (Z.div_mod c 2 ltac:(lia)).
    rewrite Zmod_odd, Ho in H. lia.
Qed.

Lemma lxor_zero_eq a b : Z.lxor a b = 0 -> a = b.
Proof. apply Z.lxor_eq. Qed.

Lemma crc_bits_inj k a b : is_u32 a -> is_u32 b -> crc_bits k a = crc_bits k b -> a = b.
Proof.
  intros Ha Hb E. apply Z.lxor_eq. assert (Hx : is_u32 (Z.lxor a b)) by (apply lxor_bound; [lia|done..]).
  assert (H0 : crc_bits k (Z.lxor a b) = 0) by (by rewrite crc_bits_xor, E, Z.lxor_nilpotent).
  clear E. induction k as [|k IH]; [done|]. apply IH. unfold crc_bits in *. rewrite Nat.iter_succ in H0.
  apply crc_bit_zero; [|done]. by apply (crc_bits_range k).
Qed.

(** *** A byte *)

Lemma table_made : crc_table = make_crc_table.
Proof. vm_compute. reflexivity. Qed.

Lemma table_at x : is_u8 x -> nth (Z.to_nat x) crc_table 0 = crc_bits 8 x.
Proof.
  intros Hx. unfold is_u8 in Hx. rewrite table_made. unfold make_crc_table.
  assert (Hl : seqZ 0 256 !! Z.to_nat x = Some x) by (apply lookup_seqZ; lia).
  apply nth_lookup_Some. by rewrite list_lookup_fmap, Hl.
Qed.

(** A number is its low byte and the rest. *)
Lemma low_byte_split w : w = Z.lxor (Z.land w 255) (Z.shiftl (Z.shiftr w 8) 8).
Proof.
  apply Z.bits_inj'. intros i Hi. rewrite Z.lxor_spec, Z.land_spec. change 255 with (Z.ones 8).
  rewrite Z.testbit_ones, Z.shiftl_spec by lia. destruct (Z.leb_spec 0 i), (Z.ltb_spec i 8); try lia; cbn [andb].
  - rewrite (Z.testbit_neg_r _ (i - 8)) by lia. btauto.
  - rewrite Z.shiftr_spec by lia. replace (i - 8 + 8) with i by lia. btauto.
Qed.

Lemma DO_CRC_ok c x : is_u8 x -> DO_CRC c x = crc_bits 8 (Z.lxor c x).
Proof.
  intros Hx. unfold DO_CRC. rewrite table_at by apply land_byte.
  rewrite (low_byte_split (Z.lxor c x)) at 2. rewrite crc_bits_xor. f_equal.
  rewrite (crc_bits_shift 8), Z.shiftr_lxor.
  replace (Z.shiftr x 8) with 0; [by rewrite Z.lxor_0_r|].
  rewrite Z.shiftr_div_pow2 by lia. symmetry. by apply Z.div_small.
Qed.

Lemma lxor_byte c x : is_u32 c -> is_u8 x -> is_u32 (Z.lxor c x).
Proof. intros Hc Hx. apply lxor_bound; [lia|done|]. unfold is_u8 in Hx. lia. Qed.

Lemma crc_bytes_cons c x bs : crc_bytes c (x :: bs) = crc_bytes (crc_bits 8 (Z.lxor c x)) bs.
Proof. done. Qed.

Lemma crc_bytes_range bs : forall c, is_u32 c -> Forall is_u8 bs -> is_u32 (crc_bytes c bs).
Proof.
  induction bs as [|x bs IH]; intros c Hc Hb; [done|]. apply Forall_cons in Hb as [Hx Hb].
  rewrite crc_bytes_cons. apply IH; [|done]. by apply crc_bits_range, lxor_byte.
Qed.

Lemma crc_bytes_app c a b : crc_bytes c (a ++ b) = crc_bytes (crc_bytes c a) b.
Proof. apply foldl_app. Qed.

Lemma crc_bytes_inj bs : forall a b, is_u32 a -> is_u32 b -> Forall is_u8 bs -> crc_bytes a bs = crc_bytes b bs -> a = b.
Proof.
  induction bs as [|x bs IH]; intros a b Ha Hb Hbs E; [done|]. apply Forall_cons in Hbs as [Hx Hbs]. rewrite !crc_bytes_cons in E.
  apply IH in E; [|by apply crc_bits_range, lxor_byte..|done].
  apply crc_bits_inj in E; [|by apply lxor_byte..]. rewrite <- (Z.lxor_0_r a), <- (Z.lxor_0_r b), <- (Z.lxor_nilpotent x).
  by rewrite <- !Z.lxor_assoc, E.
Qed.

Lemma le_word_lxor x bs : is_u8 x -> le_word (x :: bs) = Z.lxor x (Z.shiftl (le_word bs) 8).
Proof.
  intros Hx. cbn [le_word]. rewrite Z.mul_comm, <- Z.shiftl_mul_pow2 by lia.
  rewrite Z.add_nocarry_lxor; [done|]. apply Z.bits_inj'. intros i Hi. rewrite Z.land_spec, Z.testbit_0_l, Z.shiftl_spec by lia.
  destruct (Z.ltb_spec i 8); [rewrite (Z.testbit_neg_r _ (i - 8)) by lia; btauto|].
  rewrite (testbit_high x 8) by (done || lia). btauto.
Qed.

(** Bytes taken at once, as a word. *)
Lemma crc_bytes_word bs : forall c, Forall is_u8 bs ->
  crc_bytes c bs = crc_bits (8 * length bs) (Z.lxor c (le_word bs)).
Proof.
  induction bs as [|x bs IH]; intros c Hb; [by rewrite Z.lxor_0_r|]. apply Forall_cons in Hb as [Hx Hb].
  rewrite crc_bytes_cons, IH by done.
  replace (8 * length (x :: bs))%nat with (8 * length bs + 8)%nat by (cbn [length]; lia). rewrite crc_bits_add. f_equal.
  rewrite le_word_lxor, <- Z.lxor_assoc, (crc_bits_xor 8 (Z.lxor c x)) by done. by rewrite (crc_bits_shift 8).
Qed.

(** ** The loops *)

Lemma align_loop_ok buf : forall addr crc len, Forall is_u8 buf -> 0 < len < 2 ^ 32 -> len <= Z.of_nat (length buf) ->
  exists m b, buf = m ++ b /\ Z.of_nat (length m) <= len /\
    align_loop buf addr crc len = Some (crc_bytes crc m, b, len - Z.of_nat (length m)).
Proof.
  induction buf as [|x buf IH]; intros addr crc len Hb Hlen Hl; [simpl in Hl; lia|].
  apply Forall_cons in Hb as [Hx Hb]. cbn [align_loop]. rewrite DO_CRC_ok by done.
  rewrite (u32_small (len - 1)) by (unfold is_u32; lia).
  destruct (negb (len - 1 =? 0) && negb (Z.land (addr + 1) 3 =? 0)) eqn:E.
  - apply andb_true_iff in E as [E%negb_true_iff%Z.eqb_neq _]. cbn [length] in Hl.
    destruct (IH (addr + 1) (crc_bits 8 (Z.lxor crc x)) (len - 1) Hb ltac:(lia) ltac:(lia)) as (m & b & -> & Hm & ->).
    exists (x :: m), b. split; [done|]. cbn [length]. split; [lia|]. rewrite crc_bytes_cons. do 2 f_equal. lia.
  - exists [x], buf. split; [done|]. cbn [length]. split; [lia|]. by rewrite crc_bytes_cons.
Qed.

Lemma word_loop_ok n : forall buf crc, is_u32 crc -> Forall is_u8 buf -> (4 * n <= length buf)%nat ->
  word_loop n buf crc = Some (crc_bytes crc (take (4 * n) buf), drop (4 * n) buf).
Proof.
  induction n as [|n IH]; intros buf crc Hc Hb Hl; [done|].
  destruct buf as [|b0 [|b1 [|b2 [|b3 buf]]]]; try (simpl in Hl; lia). cbn [word_loop].
  replace (4 * S n)%nat with (4 + 4 * n)%nat by lia. cbn [Nat.add take drop].
  assert (H4 : Forall is_u8 [b0; b1; b2; b3] /\ Forall is_u8 buf) by (by apply (Forall_app _ [b0; b1; b2; b3])).
  destruct H4 as [H4 Hbuf].
  assert (Hword : DO_CRC (DO_CRC (DO_CRC (DO_CRC (Z.lxor crc (le_word [b0; b1; b2; b3])) 0) 0) 0) 0 =
    crc_bytes crc [b0; b1; b2; b3]).
  { rewrite crc_bytes_word by done. assert (H0 : is_u8 0) by (unfold is_u8; lia). rewrite !DO_CRC_ok, !Z.lxor_0_r by done.
    change (8 * length [b0; b1; b2; b3])%nat with (8 + (8 + (8 + 8)))%nat. by rewrite !crc_bits_add. }
  rewrite Hword, IH; [|by apply crc_bytes_range|done|simpl in Hl; lia].
  by rewrite <- crc_bytes_app.
Qed.

Lemma byte_loop_ok n : forall buf crc, Forall is_u8 buf -> (n <= length buf)%nat ->
  byte_loop n buf crc = Some (crc_bytes crc (take n buf)).
Proof.
  induction n as [|n IH]; intros buf crc Hb Hl; [done|]. destruct buf as [|x buf]; [simpl in Hl; lia|].
  apply Forall_cons in Hb as [Hx Hb]. cbn [byte_loop take]. rewrite DO_CRC_ok, IH by (done || simpl in Hl; lia). done.
Qed.

Lemma no_comp_ok crc addr buf len : is_u32 crc -> Forall is_u8 buf -> 0 <= len < 2 ^ 32 -> len <= Z.of_nat (length buf) ->
  crc32_no_comp crc addr buf len = Some (crc_bytes crc (take (Z.to_nat len) buf)).
Proof.
  intros Hc Hb Hlen Hl. unfold crc32_no_comp.
  assert (Hpre : exists m b, buf = m ++ b /\ Z.of_nat (length m) <= len /\
    (if negb (Z.land addr 3 =? 0) && negb (len =? 0) then align_loop buf addr crc len else Some (crc, buf, len)) =
      Some (crc_bytes crc m, b, len - Z.of_nat (length m))).
  { destruct (negb (Z.land addr 3 =? 0) && negb (len =? 0)) eqn:E.
    - apply andb_true_iff in E as [_ E%negb_true_iff%Z.eqb_neq]. apply align_loop_ok; (done || lia).
    - exists [], buf. split; [done|]. split; [simpl; lia|]. cbn [length]. by rewrite Z.sub_0_r. }
  destruct Hpre as (m & b & -> & Hm & ->). cbn [mbind option_bind]. set (n := len - Z.of_nat (length m)).
  rewrite length_app in Hl. apply Forall_app in Hb as [Hbm Hbb].
  assert (Hn : n = 4 * Z.shiftr n 2 + Z.land n 3).
  { rewrite Z.shiftr_div_pow2 by lia. change 3 with (Z.ones 2). rewrite Z.land_ones by lia. apply Z.div_mod. lia. }
  assert (Hr : 0 <= Z.land n 3 < 4) by (change 3 with (Z.ones 2); rewrite Z.land_ones by lia; apply Z.mod_pos_bound; lia).
  assert (Hq : 0 <= Z.shiftr n 2) by (apply Z.shiftr_nonneg; lia).
  rewrite word_loop_ok; [|by apply crc_bytes_range|done|lia]. cbn [mbind option_bind].
  rewrite byte_loop_ok; [|by apply Forall_drop|rewrite length_drop; lia].
  rewrite <- !crc_bytes_app. do 2 f_equal.
  replace (Z.to_nat len) with (length m + (4 * Z.to_nat (Z.shiftr n 2) + Z.to_nat (Z.land n 3)))%nat by lia.
  by rewrite take_app_add, take_take_drop.
Qed.

Definition all_ones : Z := 0xffffffff.

(** What [crc32] computes. *)
Definition crc32_of (c : Z) (bs : list Z) : Z := Z.lxor (crc_bytes (Z.lxor c all_ones) bs) all_ones.

Lemma ones_range c : is_u32 c -> is_u32 (Z.lxor c all_ones).
Proof. intros Hc. apply lxor_bound; [lia|done|by vm_compute]. Qed.

Lemma crc32_ok crc addr buf len : is_u32 crc -> Forall is_u8 buf -> 0 <= len < 2 ^ 32 -> len <= Z.of_nat (length buf) ->
  crc32 crc addr buf len = Some (crc32_of crc (take (Z.to_nat len) buf)).
Proof.
  intros Hc Hb Hlen Hl. unfold crc32. fold all_ones. by rewrite no_comp_ok by (done || by apply ones_range).
Qed.

Lemma crc32_of_range c bs : is_u32 c -> Forall is_u8 bs -> is_u32 (crc32_of c bs).
Proof. intros Hc Hb. by apply ones_range, crc_bytes_range, Hb; apply ones_range. Qed.

Lemma crc32_of_app c a b : crc32_of c (a ++ b) = crc32_of (crc32_of c a) b.
Proof.
  unfold crc32_of. rewrite crc_bytes_app. do 2 f_equal. by rewrite Z.lxor_assoc, Z.lxor_nilpotent, Z.lxor_0_r.
Qed.

(** A difference in up to four bytes in a row is never lost. *)
Lemma crc32_of_burst c p w w' s :
  is_u32 c -> Forall is_u8 (p ++ w ++ s) -> Forall is_u8 w' -> length w = length w' -> (length w <= 4)%nat ->
  crc32_of c (p ++ w ++ s) = crc32_of c (p ++ w' ++ s) -> w = w'.
Proof.
  intros Hc Hb Hw' Hlen H4 E. apply Forall_app in Hb as [Hp Hb]. apply Forall_app in Hb as [Hw Hs].
  unfold crc32_of in E. apply (f_equal (fun x => Z.lxor x all_ones)) in E.
  rewrite !Z.lxor_assoc, Z.lxor_nilpotent, !Z.lxor_0_r, !crc_bytes_app in E.
  set (r := crc_bytes (Z.lxor c all_ones) p) in *.
  assert (Hr : is_u32 r) by (apply crc_bytes_range; [by apply ones_range|done]).
  apply crc_bytes_inj in E; [|by apply crc_bytes_range..|done]. rewrite !crc_bytes_word, <- Hlen in E by done.
  assert (Hword : forall v, Forall is_u8 v -> length v = length w -> is_u32 (le_word v)).
  { intros v Hv Hl. pose proof (le_word_bound v Hv) as Hbd. rewrite Hl in Hbd. unfold is_u32.
    assert (2 ^ (8 * Z.of_nat (length w)) <= 2 ^ 32) by (apply Z.pow_le_mono_r; lia). lia. }
  assert (Hx : forall v, Forall is_u8 v -> length v = length w -> is_u32 (Z.lxor r (le_word v))).
  { intros v Hv Hl. apply lxor_bound; [lia|done|by apply Hword]. }
  apply crc_bits_inj in E; [|by apply Hx..].
  apply (f_equal (Z.lxor r)) in E. rewrite <- !Z.lxor_assoc, Z.lxor_nilpotent, !Z.lxor_0_l in E.
  by apply le_word_inj.
Qed.

(** ** The other two *)

Definition is_u16 (x : Z) : Prop := 0 <= x < 2 ^ 16.
Definition is_u7 (x : Z) : Prop := 0 <= x < 2 ^ 7.

Lemma u16_xor a b : u16 (Z.lxor a b) = Z.lxor (u16 a) (u16 b).
Proof.
  unfold u16. rewrite <- !Z.land_ones by lia. apply Z.bits_inj'. intros i _.
  rewrite ?Z.land_spec, ?Z.lxor_spec, ?Z.land_spec. btauto.
Qed.

Lemma bit16_xor a b : bit16 (Z.lxor a b) = Z.lxor (bit16 a) (bit16 b).
Proof.
  unfold bit16. rewrite Z.lxor_spec, Z.shiftl_lxor, u16_xor.
  destruct (Z.testbit a 15), (Z.testbit b 15); cbn [xorb]; apply Z.bits_inj'; intros i _; rewrite !Z.lxor_spec; btauto.
Qed.

Lemma bits16_xor k a b : Nat.iter k bit16 (Z.lxor a b) = Z.lxor (Nat.iter k bit16 a) (Nat.iter k bit16 b).
Proof. induction k as [|k IH]; [done|]. by rewrite !Nat.iter_succ, IH, bit16_xor. Qed.

(** A statement about a byte holds if it holds of the 256. *)
Lemma every_byte (P : Z -> bool) x : is_u8 x -> forallb P (seqZ 0 256) = true -> P x = true.
Proof.
  intros Hx Hall. rewrite forallb_forall in Hall. apply Hall. apply list_elem_of_In, elem_of_seqZ.
  unfold is_u8 in Hx. lia.
Qed.

Lemma high_byte16 h : is_u8 h -> Nat.iter 8 bit16 (Z.shiftl h 8) = nth (Z.to_nat h) crc16_tab 0.
Proof.
  intros Hh. apply Z.eqb_eq.
  refine (every_byte (fun h => Nat.iter 8 bit16 (Z.shiftl h 8) =? nth (Z.to_nat h) crc16_tab 0) h Hh _). by vm_compute.
Qed.

Lemma low_byte16 v : is_u8 v -> Nat.iter 8 bit16 v = Z.shiftl v 8.
Proof.
  intros Hv. apply Z.eqb_eq. refine (every_byte (fun v => Nat.iter 8 bit16 v =? Z.shiftl v 8) v Hv _). by vm_compute.
Qed.

Lemma tab16_range h : is_u8 h -> is_u16 (nth (Z.to_nat h) crc16_tab 0).
Proof.
  intros Hh. apply (bool_decide_eq_true_1 (0 <= nth (Z.to_nat h) crc16_tab 0 < 2 ^ 16)).
  refine (every_byte (fun h => bool_decide (0 <= nth (Z.to_nat h) crc16_tab 0 < 2 ^ 16)) h Hh _). by vm_compute.
Qed.

Lemma step16 c x : is_u16 c -> is_u8 x ->
  u16 (Z.lxor (nth (Z.to_nat (Z.land (Z.lxor (Z.shiftr c 8) x) 0xFF)) crc16_tab 0) (Z.shiftl c 8)) =
  Nat.iter 8 bit16 (Z.lxor c (Z.shiftl x 8)).
Proof.
  intros Hc Hx.
  assert (Hch : is_u8 (Z.shiftr c 8)).
  { unfold is_u8, is_u16 in *. rewrite Z.shiftr_div_pow2 by lia. split; [apply Z.div_pos; lia|apply Z.div_lt_upper_bound; lia]. }
  assert (Hh : is_u8 (Z.lxor (Z.shiftr c 8) x)) by (apply lxor_bound; [lia|done..]).
  replace (Z.land (Z.lxor (Z.shiftr c 8) x) 0xFF) with (Z.lxor (Z.shiftr c 8) x).
  2: { change 0xFF with (Z.ones 8). rewrite Z.land_ones by lia. symmetry. by apply Z.mod_small. }
  rewrite <- high_byte16 by done.
  assert (Hsplit : Z.lxor c (Z.shiftl x 8) = Z.lxor (Z.shiftl (Z.lxor (Z.shiftr c 8) x) 8) (Z.land c 255)).
  { rewrite (low_byte_split c) at 1. rewrite Z.shiftl_lxor. apply Z.bits_inj'. intros i _. rewrite !Z.lxor_spec. btauto. }
  rewrite Hsplit, bits16_xor, u16_xor, high_byte16, (low_byte16 (Z.land c 255)) by (done || apply land_byte). f_equal.
  - unfold u16. apply Z.mod_small, tab16_range, Hh.
  - unfold u16. rewrite !Z.shiftl_mul_pow2 by lia. change 255 with (Z.ones 8). rewrite Z.land_ones by lia.
    change (2 ^ 16) with (2 ^ 8 * 2 ^ 8). by rewrite Z.mul_mod_distr_r by lia.
Qed.

Lemma bits16_range k c : is_u16 c -> is_u16 (Nat.iter k bit16 c).
Proof.
  intros Hc. induction k as [|k IH]; [done|]. rewrite Nat.iter_succ. unfold bit16.
  assert (Hu : forall v, 0 <= u16 v < 2 ^ 16) by (intros v; apply Z.mod_pos_bound; lia).
  destruct (Z.testbit _ 15); [apply lxor_bound; [lia|done|by vm_compute]|apply Hu].
Qed.

Lemma crc16_loop_ok n : forall buf c, is_u16 c -> Forall is_u8 buf -> (n <= length buf)%nat ->
  crc16_loop n buf c = Some (crc16_bytes c (take n buf)).
Proof.
  induction n as [|n IH]; intros buf c Hc Hb Hl; [done|]. destruct buf as [|x buf]; [simpl in Hl; lia|].
  apply Forall_cons in Hb as [Hx Hb]. cbn [crc16_loop take]. rewrite step16 by done. rewrite IH; [done| |done|simpl in Hl; lia].
  apply bits16_range, lxor_bound; [lia|done|]. unfold is_u8 in Hx. rewrite Z.shiftl_mul_pow2 by lia. lia.
Qed.

Lemma crc7_byte_ok c x : is_u7 c -> is_u8 x ->
  crc7_byte c x = Some (Z.shiftr (Nat.iter 8 bit7 (Z.lxor (Z.shiftl c 1) x)) 1) /\
  is_u7 (Z.shiftr (Nat.iter 8 bit7 (Z.lxor (Z.shiftl c 1) x)) 1).
Proof.
  intros Hc Hx. unfold crc7_byte. set (v := Z.lxor (Z.shiftl c 1) x).
  assert (Hv : is_u8 v). { apply lxor_bound; [lia| |done]. unfold is_u7 in Hc. rewrite Z.shiftl_mul_pow2 by lia. lia. }
  split.
  - apply (bool_decide_eq_true_1 (crc7_syndrome_table !! Z.to_nat v = Some (Z.shiftr (Nat.iter 8 bit7 v) 1))).
    refine (every_byte (fun v => bool_decide (crc7_syndrome_table !! Z.to_nat v = Some (Z.shiftr (Nat.iter 8 bit7 v) 1))) v Hv _).
    by vm_compute.
  - apply (bool_decide_eq_true_1 (0 <= Z.shiftr (Nat.iter 8 bit7 v) 1 < 2 ^ 7)).
    refine (every_byte (fun v => bool_decide (0 <= Z.shiftr (Nat.iter 8 bit7 v) 1 < 2 ^ 7)) v Hv _). by vm_compute.
Qed.

Lemma crc7_loop_ok n : forall buf c, is_u7 c -> Forall is_u8 buf -> (n <= length buf)%nat ->
  crc7_loop n buf c = Some (crc7_bytes c (take n buf)).
Proof.
  induction n as [|n IH]; intros buf c Hc Hb Hl; [done|]. destruct buf as [|x buf]; [simpl in Hl; lia|].
  apply Forall_cons in Hb as [Hx Hb]. cbn [crc7_loop take]. destruct (crc7_byte_ok c x Hc Hx) as [-> Hr].
  cbn [mbind option_bind]. rewrite IH; [done..|simpl in Hl; lia].
Qed.

(** ** The theorems *)

(** C40: the tables are those of the polynomials, and the loops, from any address and
    for any length, compute what a register that takes one bit at a time does; CRC-7
    does so from a register of seven bits. *)
Theorem crc_bitwise addr buf len c c7 :
  Forall is_u8 buf -> 0 <= len < 2 ^ 31 -> len <= Z.of_nat (length buf) -> is_u32 c -> is_u7 c7 ->
  let bs := take (Z.to_nat len) buf in
  crc_table = make_crc_table /\ poly32 = 0xedb88320 /\
  crc32_no_comp c addr buf len = Some (crc_bytes c bs) /\
  crc32 c addr buf len = Some (crc32_of c bs) /\
  cyg_crc16 buf len = Some (crc16_bytes 0 bs) /\
  crc7 c7 buf len = Some (crc7_bytes c7 bs).
Proof.
  intros Hb Hlen Hl Hc H7 bs. split; [exact table_made|]. split; [reflexivity|].
  split; [apply no_comp_ok; (done || lia)|]. split; [apply crc32_ok; (done || lia)|].
  split; [apply crc16_loop_ok; (done || lia)|apply crc7_loop_ok; (done || lia)].
Qed.

(** The check sum of a message that comes in two parts is that of the second part,
    started from the check sum of the first. *)
Theorem crc32_streams addr c a b :
  is_u32 c -> Forall is_u8 (a ++ b) -> Z.of_nat (length (a ++ b)) < 2 ^ 32 ->
  crc32 c addr (a ++ b) (Z.of_nat (length (a ++ b))) =
  (c ← crc32 c addr (a ++ b) (Z.of_nat (length a)); crc32 c (addr + Z.of_nat (length a)) b (Z.of_nat (length b))).
Proof.
  intros Hc Hb Hl. pose proof Hb as [Ha Hb']%Forall_app. rewrite length_app in *.
  rewrite !crc32_ok by (done || rewrite ?length_app; lia). cbn [mbind option_bind]. rewrite !Nat2Z.id.
  rewrite take_app_length, (take_ge (a ++ b)) by (rewrite length_app; lia).
  rewrite crc32_ok by (try apply crc32_of_range; done || lia). by rewrite Nat2Z.id, take_ge, crc32_of_app.
Qed.

(** Two messages that differ in no more than four bytes in a row never have the
    same check sum. *)
Theorem crc32_detects_bursts addr addr' c p w w' s :
  is_u32 c -> Forall is_u8 (p ++ w ++ s) -> Forall is_u8 w' -> length w = length w' -> (length w <= 4)%nat ->
  Z.of_nat (length (p ++ w ++ s)) < 2 ^ 32 -> w <> w' ->
  crc32 c addr (p ++ w ++ s) (Z.of_nat (length (p ++ w ++ s))) <>
    crc32 c addr' (p ++ w' ++ s) (Z.of_nat (length (p ++ w' ++ s))).
Proof.
  intros Hc Hb Hw' Hlen H4 Hl Hne E. apply Hne. pose proof Hb as [Hp [Hw Hs]%Forall_app]%Forall_app.
  assert (Hb' : Forall is_u8 (p ++ w' ++ s)) by (by rewrite !Forall_app).
  assert (Hl' : length (p ++ w' ++ s) = length (p ++ w ++ s)) by (rewrite !length_app; lia).
  rewrite !crc32_ok in E by (done || lia). rewrite Hl', Nat2Z.id in E.
  rewrite !take_ge in E by lia. injection E as E. by apply (crc32_of_burst c p w w' s).
Qed.

(** ** Witnesses *)

Lemma crc_bitwise_witness :
  let bs := take (Z.to_nat 9) (chars "123456789") in
  crc_table = make_crc_table /\ poly32 = 0xedb88320 /\
  crc32_no_comp 0 0x1001 (chars "123456789") 9 = Some (crc_bytes 0 bs) /\
  crc32 0 0x1001 (chars "123456789") 9 = Some (crc32_of 0 bs) /\
  cyg_crc16 (chars "123456789") 9 = Some (crc16_bytes 0 bs) /\
  crc7 0 (chars "123456789") 9 = Some (crc7_bytes 0 bs).
Proof.
  refine (crc_bitwise 0x1001 (chars "123456789") 9 0 0 _ _ _ _ _).
  - refine (bool_decide_eq_true_1 _ _). vm_compute. reflexivity.
  - lia.
  - simpl. lia.
  - unfold is_u32. lia.
  - unfold is_u7. lia.
Defined.

(** The check values of the three in the literature. *)
Example crc_check_values :
  crc32 0 0x1001 (chars "123456789") 9 = Some 0xCBF43926 /\
  cyg_crc16 (chars "123456789") 9 = Some 0x31C3 /\ crc7 0 (chars "123456789") 9 = Some 0x75.
Proof. vm_compute. auto. Qed.

Lemma crc32_streams_witness :
  crc32 0 0x1001 (chars "12345" ++ chars "6789") 9 =
  (c ← crc32 0 0x1001 (chars "12345" ++ chars "6789") 5; crc32 c (0x1001 + 5) (chars "6789") 4).
Proof.
  refine (crc32_streams 0x1001 0 (chars "12345") (chars "6789") _ _ _).
  - unfold is_u32. lia.
  - refine (bool_decide_eq_true_1 _ _). vm_compute. reflexivity.
  - simpl. lia.
Defined.

Lemma crc32_detects_bursts_witness :
  crc32 0 0 (chars "12" ++ chars "34" ++ chars "56") 6 <> crc32 0 1 (chars "12" ++ chars "43" ++ chars "56") 6.
Proof.
  refine (crc32_detects_bursts 0 1 0 (chars "12") (chars "34") (chars "43") (chars "56") _ _ _ _ _ _ _).
  - unfold is_u32. lia.
  - refine (bool_decide_eq_true_1 _ _). vm_compute. reflexivity.
  - refine (bool_decide_eq_true_1 _ _). vm_compute. reflexivity.
  - reflexivity.
  - simpl. lia.
  - simpl. lia.
  - discriminate.
Defined.
