(* ===== verification/QSort.v ===== *)
(** The sorting routine of the boot loader (src/U-Boot/lib/qsort.c): Shell's
    sort with the gaps 1, 4, 13, ...; the array is a list of elements, and the
    exchange of two elements byte by byte is their exchange. *)

From stdpp Require Import sorting.
From S2P Require Import Prelude UStr.

Section Code.
Context {A : Type} (comp : A -> A -> option Z).

(** [do ... while (--k)]: the bytes of the two elements change places. *)
Definition swap (i j : nat) (base : list A) : option (list A) :=
  x ← base !! i; y ← base !! j; Some (<[i := y]> (<[j := x]> base)).

(** The innermost loop moves an element down by [wgap] until it is in order. *)
Fixpoint sift (fuel : nat) (wgap j : Z) (base : list A) : option (list A) :=
  match fuel with
  | O => None
  | S n =>
      let j := j - wgap in
      a ← base !! Z.to_nat j;
      b ← base !! Z.to_nat (j + wgap);
      c ← comp a b;
      if c <=? 0 then Some base else
      base ← swap (Z.to_nat j) (Z.to_nat (j + wgap)) base;
      if wgap <=? j then sift n wgap j base else Some base
  end.

(** One gap: [do ... i += width; while (i < nel)]. *)
Fixpoint pass (fuel : nat) (wgap i nel : Z) (base : list A) : option (list A) :=
  match fuel with
  | O => None
  | S n =>
      base ← sift (Z.to_nat nel) wgap i base;
      if i + 1 <? nel then pass n wgap (i + 1) nel base else Some base
  end.

(** All gaps, down to 1. *)
Fixpoint gaps (fuel : nat) (wgap nel : Z) (base : list A) : option (list A) :=
  match fuel with
  | O => None
  | S n =>
      base ← pass (Z.to_nat nel) wgap wgap nel base;
      let wgap := (wgap - 1) / 3 in
      if wgap =? 0 then Some base else gaps n wgap nel base
  end.

(** [do wgap = 3 * wgap + 1; while (wgap < (nel-1)/3);] *)
Fixpoint first_gap (fuel : nat) (wgap nel : Z) : option Z :=
  match fuel with
  | O => None
  | S n =>
      let wgap := 3 * wgap + 1 in
      if wgap <? (nel - 1) / 3 then first_gap n wgap nel else Some wgap
  end.

(** The number of elements is fuel enough for every loop. *)
Definition qsort (base : list A) : option (list A) :=
  let nel := Z.of_nat (length base) in
  if 1 <? nel then
    wgap ← first_gap (length base) 0 nel;
    gaps (length base) wgap nel base
  else Some base.
End Code.

Definition strcmp_compar (p1 p2 : list Z) : option Z := strcmp p1 p2.

(** ** It sorts *)

Section Correct.
Context {A : Type} (comp : A -> A -> option Z) (ok : A -> Prop).
Context (Hcomp : forall a b, ok a -> ok b -> exists c, comp a b = Some c).

Lemma swap_perm i j (l : list A) x y :
  l !! i = Some x -> l !! j = Some y ->
  exists l', swap i j l = Some l' /\ l' ≡ₚ l /\ length l' = length l.
Proof.
  intros Hx Hy. unfold swap. rewrite Hx, Hy. cbn [mbind option_bind].
  eexists. split; [done|]. split; [by apply Permutation_insert_swap|]. by rewrite !length_insert.
Qed.

(** Every loop returns, and rearranges. *)
Definition rearranged (l l' : list A) : Prop := l' ≡ₚ l /\ length l' = length l /\ Forall ok l'.

Lemma rearranged_perm l l' : Forall ok l -> l' ≡ₚ l -> rearranged l l'.
Proof.
  intros Hok Hp. split; [done|]. split; [by apply Permutation_length|]. by rewrite Hp.
Qed.

Lemma sift_rearranges fuel : forall wgap j l,
  Forall ok l -> 1 <= wgap <= j -> j < Z.of_nat (length l) -> j <= Z.of_nat fuel ->
  exists l', sift comp fuel wgap j l = Some l' /\ rearranged l l'.
Proof.
  induction fuel as [|fuel IH]; intros wgap j l Hok Hw Hj Hf; [lia|]. cbn [sift].
  destruct (lookup_lt_is_Some_2 l (Z.to_nat (j - wgap))) as [a Ha]; [lia|].
  destruct (lookup_lt_is_Some_2 l (Z.to_nat (j - wgap + wgap))) as [b Hb]; [lia|].
  rewrite Ha, Hb. cbn [mbind option_bind].
  destruct (Hcomp a b) as [c ->]; [by eapply Forall_lookup_1|by eapply Forall_lookup_1|].
  cbn [mbind option_bind]. destruct (c <=? 0); [exists l; split; [done|by apply rearranged_perm]|].
  destruct (swap_perm _ _ l a b Ha Hb) as (l1 & -> & Hp & Hl). cbn [mbind option_bind].
  assert (Hok1 : Forall ok l1) by by rewrite Hp.
  destruct (Z.leb_spec wgap (j - wgap)); [|exists l1; split; [done|by apply rearranged_perm]].
  destruct (IH wgap (j - wgap) l1) as (l2 & -> & Hp2 & _); [done|lia|lia|lia|].
  exists l2. split; [done|]. apply rearranged_perm; [done|]. by rewrite Hp2.
Qed.

Lemma pass_rearranges fuel : forall wgap i nel l,
  Forall ok l -> nel = Z.of_nat (length l) -> 1 <= wgap <= i -> i < nel -> nel - i <= Z.of_nat fuel ->
  exists l', pass comp fuel wgap i nel l = Some l' /\ rearranged l l'.
Proof.
  induction fuel as [|fuel IH]; intros wgap i nel l Hok Hn Hw Hi Hf; [lia|]. cbn [pass].
  destruct (sift_rearranges (Z.to_nat nel) wgap i l) as (l1 & -> & Hp & Hl & Hok1); [done|lia|lia|lia|].
  cbn [mbind option_bind]. destruct (Z.ltb_spec (i + 1) nel); [|by exists l1].
  destruct (IH wgap (i + 1) nel l1) as (l2 & -> & Hp2 & Hl2 & Hok2); [done|lia|lia|lia|lia|].
  exists l2. split; [done|]. apply rearranged_perm; [done|]. by rewrite Hp2.
Qed.

(** *** The gaps *)

(** The gaps are 1, 4, 13, ...: half of a power of three less one. *)
Definition shell_gap (w : Z) : Prop := exists k, 0 <= k /\ 2 * w + 1 = 3 ^ k.

Lemma first_gap_ok fuel : forall w nel,
  1 < nel -> shell_gap w -> 0 <= w -> w = 0 \/ w < (nel - 1) / 3 ->
  (nel - 1) / 3 - w < Z.of_nat fuel ->
  exists g, first_gap fuel w nel = Some g /\ shell_gap g /\ 1 <= g < nel.
Proof.
  induction fuel as [|fuel IH]; intros w nel Hn Hs Hw Hlt Hf;
    pose proof (Z.div_pos (nel - 1) 3 ltac:(lia) ltac:(lia)); [lia|]. cbn [first_gap].
  assert (Hs3 : shell_gap (3 * w + 1)).
  { destruct Hs as (k & Hk & Hs). exists (k + 1). split; [lia|]. rewrite Z.pow_add_r, <- Hs by lia. lia. }
  pose proof (Z.div_mod (nel - 1) 3 ltac:(lia)). pose proof (Z.mod_pos_bound (nel - 1) 3 ltac:(lia)).
  destruct (Z.ltb_spec (3 * w + 1) ((nel - 1) / 3)).
  - apply IH; [done|done|lia|by right|lia].
  - exists (3 * w + 1). split; [done|]. split; [done|]. lia.
Qed.

(** The next gap is one of them too, and after the gap 1 there is none. *)
Lemma next_gap w : shell_gap w -> 1 <= w ->
  shell_gap ((w - 1) / 3) /\ (w - 1) / 3 < w /\ 0 <= (w - 1) / 3 /\ ((w - 1) / 3 = 0 -> w = 1).
Proof.
  intros (k & Hk & Hs) Hw. assert (k <> 0) by (intros ->; lia).
  assert (H3 : 3 ^ k = 3 * 3 ^ (k - 1)) by (rewrite <- Z.pow_succ_r by lia; f_equal; lia).
  assert (Hd : exists v, w = 3 * v + 1).
  { exists ((3 ^ (k - 1) - 1) / 2).
    assert (Hodd : 3 ^ (k - 1) mod 2 = 1).
    { rewrite <- Z.mod_pow_l. change (3 mod 2) with 1. by rewrite Z.pow_1_l by lia. }
    Z.div_mod_to_equations. lia. }
  destruct Hd as [v Hv]. replace ((w - 1) / 3) with v by (Z.div_mod_to_equations; lia).
  split; [exists (k - 1); lia|]. lia.
Qed.
(** *** The last gap sorts by insertion *)

Context (le : A -> A -> Prop).
Context (Hle : forall a b c, ok a -> ok b -> comp a b = Some c -> (c <= 0 -> le a b) /\ (0 < c -> le b a)).
Context (Htrans : forall a b c, ok a -> ok b -> ok c -> le a b -> le b c -> le a c).

Lemma sorted_snoc P y : StronglySorted le P -> (forall x, x ∈ P -> le x y) -> StronglySorted le (P ++ [y]).
Proof.
  intros HP Hy. apply StronglySorted_app. split; [|split; [done|by repeat constructor]].
  intros x1 x2 H1 ->%list_elem_of_singleton. auto.
Qed.

Lemma sift_one fuel : forall P x S,
  Forall ok (P ++ x :: S) -> StronglySorted le P -> (1 <= length P <= fuel)%nat ->
  exists P', sift comp fuel 1 (Z.of_nat (length P)) (P ++ x :: S) = Some (P' ++ S) /\
    StronglySorted le P' /\ P' ≡ₚ P ++ [x].
Proof.
  induction fuel as [|fuel IH]; intros P x S Hok HP Hlen; [lia|].
  destruct P as [|y Q _] using rev_ind; [simpl in Hlen; lia|].
  rewrite length_app in *. cbn [length] in *. cbn [sift].
  replace (Z.to_nat (Z.of_nat (length Q + 1) - 1)) with (length Q) by lia.
  replace (Z.to_nat (Z.of_nat (length Q + 1) - 1 + 1)) with (length Q + 1)%nat by lia.
  rewrite <- app_assoc. cbn [app]. rewrite <- app_assoc in Hok. cbn [app] in Hok.
  assert (Hy : (Q ++ y :: x :: S) !! length Q = Some y) by by apply list_lookup_middle.
  assert (Hx : (Q ++ y :: x :: S) !! (length Q + 1)%nat = Some x).
  { rewrite lookup_app_r by lia. by replace (length Q + 1 - length Q)%nat with 1%nat by lia. }
  rewrite Hy, Hx. cbn [mbind option_bind].
  assert (Hoky : ok y) by by eapply Forall_lookup_1. assert (Hokx : ok x) by by eapply Forall_lookup_1.
  destruct (Hcomp y x) as [c Hc]; [done|done|]. rewrite Hc. cbn [mbind option_bind].
  destruct (Hle y x c Hoky Hokx Hc) as [Hyx Hxy].
  assert (HQ : StronglySorted le Q) by by eapply StronglySorted_app_1_l.
  assert (HQy : forall q, q ∈ Q -> le q y).
  { intros q Hq. eapply StronglySorted_app_1_elem_of; [exact HP|done|by left]. }
  assert (HokQ : forall q, q ∈ Q -> ok q).
  { intros q Hq. rewrite Forall_forall in Hok. apply Hok, elem_of_app. by left. }
  destruct (Z.leb_spec c 0).
  - exists (Q ++ [y; x]). split; [by rewrite <- app_assoc|]. split; [|by rewrite <- app_assoc].
    change (Q ++ [y; x]) with (Q ++ [y] ++ [x]). rewrite app_assoc. apply sorted_snoc; [done|].
    intros q [Hq| ->%list_elem_of_singleton]%elem_of_app; [|by apply Hyx].
    apply (Htrans q y x); auto.
  - unfold swap. rewrite Hy, Hx. cbn [mbind option_bind].
    assert (Hsw : <[length Q := x]> (<[(length Q + 1)%nat := y]> (Q ++ y :: x :: S)) = Q ++ x :: y :: S).
    { rewrite insert_app_r. cbn. replace (length Q) with (length Q + 0)%nat at 1 by lia.
      by rewrite insert_app_r. }
    rewrite Hsw. destruct (Z.leb_spec 1 (Z.of_nat (length Q + 1) - 1)).
    + replace (Z.of_nat (length Q + 1) - 1) with (Z.of_nat (length Q)) by lia.
      destruct (IH Q x (y :: S)) as (P' & -> & HP' & Hperm).
      { revert Hok. rewrite !Forall_app, !Forall_cons. tauto. }
      { done. }
      { lia. }
      exists (P' ++ [y]). split; [by rewrite <- app_assoc|]. split.
      * apply sorted_snoc; [done|]. intros q Hq. rewrite Hperm in Hq.
        apply elem_of_app in Hq as [Hq| ->%list_elem_of_singleton]; [by apply HQy|apply Hxy; lia].
      * rewrite Hperm, <- !app_assoc. apply Permutation_app_head, Permutation_app_comm.
    + assert (Q = []) as -> by (apply nil_length_inv; lia). exists [x; y]. split; [done|].
      split; [|by apply perm_swap]. repeat constructor. apply Hxy. lia.
Qed.

Lemma pass_one fuel : forall nel P S,
  Forall ok (P ++ S) -> StronglySorted le P -> (1 <= length P)%nat -> S <> [] ->
  nel = Z.of_nat (length (P ++ S)) -> nel - Z.of_nat (length P) <= Z.of_nat fuel ->
  exists l, pass comp fuel 1 (Z.of_nat (length P)) nel (P ++ S) = Some l /\
    StronglySorted le l /\ l ≡ₚ P ++ S.
Proof.
  induction fuel as [|fuel IH]; intros nel P S Hok HP Hlen HS Hn Hf;
    (destruct S as [|x S]; [done|]); rewrite length_app in Hn; cbn [length] in Hn; [lia|]. cbn [pass].
  destruct (sift_one (Z.to_nat nel) P x S) as (P' & -> & HP' & Hperm); [done|done|lia|].
  cbn [mbind option_bind].
  assert (HlP : length P' = (length P + 1)%nat) by (rewrite Hperm, length_app; done).
  assert (Hall : P' ++ S ≡ₚ P ++ x :: S) by (rewrite Hperm, <- app_assoc; done).
  destruct (Z.ltb_spec (Z.of_nat (length P) + 1) nel).
  - replace (Z.of_nat (length P) + 1) with (Z.of_nat (length P')) by lia.
    destruct (IH nel P' S) as (l & -> & Hl & Hp); [by rewrite Hall|done|lia| | |lia|].
    + intros ->. simpl in *. lia.
    + rewrite length_app. lia.
    + exists l. split; [done|]. split; [done|]. by rewrite Hp.
  - assert (S = []) as -> by (apply nil_length_inv; lia). exists P'. rewrite app_nil_r in *.
    by split.
Qed.

Lemma gaps_sort fuel : forall w nel l,
  Forall ok l -> nel = Z.of_nat (length l) -> shell_gap w -> 1 <= w < nel -> w <= Z.of_nat fuel ->
  exists l', gaps comp fuel w nel l = Some l' /\ StronglySorted le l' /\ l' ≡ₚ l.
Proof.
  induction fuel as [|fuel IH]; intros w nel l Hok Hn Hs Hw Hf; [lia|]. cbn [gaps].
  destruct (next_gap w Hs) as (Hs' & Hlt & Hnn & H1); [lia|].
  destruct (Z.eqb_spec ((w - 1) / 3) 0) as [He|He].
  - specialize (H1 He) as ->. destruct l as [|x S]; [simpl in *; lia|].
    destruct (pass_one (Z.to_nat nel) nel [x] S) as (l' & Hp & Hl & Hperm); try done.
    + by repeat constructor.
    + intros ->. simpl in *. lia.
    + simpl. lia.
    + exists l'. change (Z.of_nat (length [x])) with 1 in Hp. change ([x] ++ S) with (x :: S) in *.
      rewrite Hp. by split.
  - destruct (pass_rearranges (Z.to_nat nel) w w nel l) as (l1 & -> & Hp & Hl & Hok1); [done|lia|lia|lia|lia|].
    cbn [mbind option_bind].
    destruct (IH ((w - 1) / 3) nel l1) as (l2 & -> & Hs2 & Hp2); [done|lia|done|lia|lia|].
    exists l2. split; [done|]. split; [done|]. by rewrite Hp2.
Qed.

Lemma qsort_ok l : Forall ok l ->
  exists l', qsort comp l = Some l' /\ StronglySorted le l' /\ l' ≡ₚ l.
Proof.
  intros Hok. unfold qsort. destruct (Z.ltb_spec 1 (Z.of_nat (length l))).
  - destruct (first_gap_ok (length l) 0 (Z.of_nat (length l))) as (g & -> & Hs & Hg);
      [done|by exists 0|done|by left| |].
    { rewrite Z.sub_0_r. apply Z.div_lt_upper_bound; lia. }
    cbn [mbind option_bind]. apply gaps_sort; [done|done|done|done|lia].
  - exists l. split; [done|]. split; [|done].
    destruct l as [|x [|y l]]; [constructor|by repeat constructor|simpl in *; lia].
Qed.
End Correct.

(** C38: for every comparison that is a total order of the elements (a result at
    most zero when the first is not behind the second), [qsort] returns, without
    an access outside the array, and the array is then a rearrangement in
    order. *)
Theorem qsort_sorts {A} (comp : A -> A -> option Z) (ok : A -> Prop) (le : A -> A -> Prop) l :
  (forall a b, ok a -> ok b -> exists c, comp a b = Some c) ->
  (forall a b c, ok a -> ok b -> comp a b = Some c -> (c <= 0 -> le a b) /\ (0 < c -> le b a)) ->
  (forall a b c, ok a -> ok b -> ok c -> le a b -> le b c -> le a c) -> Forall ok l ->
  exists l', qsort comp l = Some l' /\ StronglySorted le l' /\ l' ≡ₚ l.
Proof. intros H1 H2 H3. exact (qsort_ok comp ok H1 le H2 H3 l). Qed.

(** ** Names in order *)

(** Plain text: characters below 128, so that their differences fit a [signed char]. *)
Definition ascii_text (a : list Z) : Prop := Forall (fun c => 0 < c < 128) a.

(** The order of a dictionary. *)
Fixpoint lex (a b : list Z) : bool :=
  match a, b with
  | [], _ => true
  | _, [] => false
  | c :: a, d :: b => (c <? d) || ((c =? d) && lex a b)
  end.

Lemma ascii_is_text a : ascii_text a -> text_ok a.
Proof. intros Ha. eapply Forall_impl; [exact Ha|]. intros c Hc. cbn beta in *. lia. Qed.

Lemma s8_small c : - 128 <= c < 128 -> s8 c = c.
Proof. intros Hc. cint. Qed.

Lemma strcmp_lex a : forall b x y, ascii_text a -> ascii_text b ->
  exists r, strcmp (cstr a x) (cstr b y) = Some r /\ (r <= 0 <-> lex a b = true) /\
    (r = 0 <-> a = b).
Proof.
  induction a as [|c a IH]; intros [|d b] x y Ha Hb; unfold cstr in *; cbn [app strcmp lex].
  - by exists 0.
  - inversion_clear Hb as [|? ? Hd]. rewrite s8_small by lia. rewrite orb_true_r.
    exists (0 - d). split; [done|]. split; [split; [done|lia]|]. split; [lia|done].
  - inversion_clear Ha as [|? ? Hc]. rewrite s8_small by lia.
    destruct (Z.eqb_spec (c - 0) 0); [lia|]. exists (c - 0). split; [done|].
    split; [split; [lia|done]|]. split; [lia|done].
  - inversion_clear Ha as [|? ? Hc Ha']. inversion_clear Hb as [|? ? Hd Hb']. rewrite s8_small by lia.
    destruct (Z.eqb_spec (c - d) 0) as [He|He]; cbn [negb orb].
    + assert (c = d) as -> by lia. destruct (Z.eqb_spec d 0); [lia|].
      destruct (IH b x y Ha' Hb') as (r & -> & Hr & Hr0). exists r. split; [done|].
      rewrite Z.eqb_refl, Z.ltb_irrefl. cbn [andb orb]. split; [done|]. rewrite Hr0.
      split; congruence.
    + exists (c - d). split; [done|]. destruct (Z.ltb_spec c d), (Z.eqb_spec c d); try lia; cbn [orb andb].
      * split; [split; [done|lia]|]. split; [lia|congruence].
      * split; [split; [lia|done]|]. split; [lia|congruence].
Qed.

Lemma lex_trans a : forall b c, lex a b = true -> lex b c = true -> lex a c = true.
Proof.
  induction a as [|x a IH]; intros [|y b] [|z c]; cbn [lex]; try done.
  rewrite !orb_true_iff, !andb_true_iff, !Z.ltb_lt, !Z.eqb_eq. intros [H1|[H1 H1']] [H2|[H2 H2']].
  - left. lia.
  - left. lia.
  - left. lia.
  - right. split; [lia|]. by eapply IH.
Qed.

Lemma lex_total a : forall b, lex a b = true \/ lex b a = true.
Proof.
  induction a as [|x a IH]; intros [|y b]; cbn [lex]; auto.
  rewrite !orb_true_iff, !andb_true_iff, !Z.ltb_lt, !Z.eqb_eq.
  destruct (Z.lt_trichotomy x y) as [|[->|]]; auto. destruct (IH b); auto.
Qed.

(** The comparison of strings meets what [qsort] asks for. *)
Lemma names_compare a b : ascii_text a -> ascii_text b ->
  exists c, strcmp_compar (cstr a []) (cstr b []) = Some c.
Proof. intros Ha Hb. destruct (strcmp_lex a b [] [] Ha Hb) as (r & Hr & _). by exists r. Qed.

Lemma names_order a b c : ascii_text a -> ascii_text b ->
  strcmp_compar (cstr a []) (cstr b []) = Some c ->
  (c <= 0 -> lex a b = true) /\ (0 < c -> lex b a = true).
Proof.
  intros Ha Hb Hc. destruct (strcmp_lex a b [] [] Ha Hb) as (r & Hr & Hl & _).
  unfold strcmp_compar in Hc. rewrite Hc in Hr. injection Hr as <-.
  split; [apply Hl|]. intros Hpos. destruct (lex_total a b) as [Ht|]; [|done]. apply Hl in Ht. lia.
Qed.

Lemma qsort_sorts_witness :
  let names := map chars ["pear"; "apple"; "fig"; "apples"; "date"]%string in
  exists l', qsort (fun a b => strcmp_compar (cstr a []) (cstr b [])) names = Some l' /\
    StronglySorted (fun a b => lex a b = true) l' /\ l' ≡ₚ names.
Proof.
  apply (qsort_sorts (fun a b => strcmp_compar (cstr a []) (cstr b [])) ascii_text).
  - exact names_compare.
  - exact names_order.
  - intros a b c _ _ _. apply lex_trans.
  - repeat constructor.
Defined.

Example qsort_five :
  qsort (fun a b => strcmp_compar (cstr a []) (cstr b [])) (map chars ["pear"; "apple"; "fig"; "apples"; "date"]%string)
  = Some (map chars ["apple"; "apples"; "date"; "fig"; "pear"]%string).
Proof. by vm_compute. Qed.
