(* ===== verification/HashTable.v ===== *)
(** The hash table of environment variables
    (src/U-Boot/lib/hashtable.c): creation, double hashing with open addressing,
    deletion, prefix search and the walk over all entries.  The pointers to
    functions kept in the table and its entries are functions here; [strdup],
    which can run out of memory, is a parameter. *)

From Stdlib Require Import Znumtheory.
From S2P Require Import Prelude UStr.

(** include/search.h *)
Inductive env_op := env_op_create | env_op_delete | env_op_overwrite.

Inductive ACTION := FIND | ENTER.

(** A callback: the name, the value if there is one, the operation and the
    flags; nonzero rejects. *)
Definition callback_fn : Type := list Z -> option (list Z) -> env_op -> Z -> bool.

(** [ENTRY]: strings are lists of characters, the null pointer is [None]. *)
Record ENTRY := mkENTRY {
  key : option (list Z);
  data : option (list Z);
  callback : option callback_fn;
  flags : Z;
}.

(** [struct _ENTRY]: [used] is 0 for a slot never used, -1 for a deleted one,
    the first hash index of its key for a live one. *)
Record _ENTRY := mk_ENTRY {
  used : Z;
  entry : ENTRY;
}.

Definition zero_entry : _ENTRY := mk_ENTRY 0 (mkENTRY None None None 0).

(** [change_ok]: the entry, the new value, the operation and the flags. *)
Definition change_fn : Type := ENTRY -> option (list Z) -> env_op -> Z -> bool.

(** [struct hsearch_data], with [errno] beside it. *)
Record hsearch_data := mkHtab {
  table : option (list _ENTRY);
  size : Z;
  filled : Z;
  change_ok : option change_fn;
  errno : Z;
}.

Definition EPERM : Z := 1.
Definition ESRCH : Z := 3.
Definition ENOMEM : Z := 12.
Definition EINVAL : Z := 22.

Definition set_errno (e : Z) (h : hsearch_data) : hsearch_data :=
  mkHtab (table h) (size h) (filled h) (change_ok h) e.

Definition set_slot (h : hsearch_data) (i : Z) (s : _ENTRY) : hsearch_data :=
  mkHtab ((fun t => <[Z.to_nat i := s]> t) <$> table h) (size h) (filled h) (change_ok h) (errno h).

Definition set_filled (h : hsearch_data) (n : Z) : hsearch_data :=
  mkHtab (table h) (size h) (u32 n) (change_ok h) (errno h).

(** [htab->table[i]]: a null table or an index past its end is undefined. *)
Definition slot (h : hsearch_data) (i : Z) : option _ENTRY :=
  t ← table h; t !! Z.to_nat i.

(** ** hcreate *)

(** [while (div * div < number && number % div != 0) div += 2;] *)
Fixpoint isprime_loop (fuel : nat) (number div : Z) : option Z :=
  match fuel with
  | O => None
  | S n =>
      if (u32 (div * div) <? number) && negb (number mod div =? 0)
      then isprime_loop n number (u32 (div + 2))
      else Some div
  end.

Definition isprime (fuel : nat) (number : Z) : option bool :=
  div ← isprime_loop fuel number 3; Some (negb (number mod div =? 0)).

(** [while (!isprime(nel)) nel += 2;] *)
Fixpoint next_prime (fuel : nat) (nel : Z) : option Z :=
  match fuel with
  | O => None
  | S n =>
      p ← isprime fuel (u32 nel);
      if p : bool then Some nel else next_prime n (u64 (nel + 2))
  end.

(** [calloc] is asked for room; the result is the return value and the table. *)
Definition hcreate_r (fuel : nat) (calloc : Z -> bool) (nel : Z) (htab : hsearch_data)
    : option (Z * hsearch_data) :=
  match table htab with
  | Some _ => Some (0, htab)
  | None =>
      nel ← next_prime fuel (Z.lor nel 1);
      let size := u32 nel in
      if calloc (u32 (size + 1))
      then Some (1, mkHtab (Some (replicate (Z.to_nat (u32 (size + 1))) zero_entry)) size 0
                      (change_ok htab) (errno htab))
      else Some (0, mkHtab None size 0 (change_ok htab) (errno htab))
  end.

(** The loop reads every slot; freeing leaves no trace in the model. *)
Definition hdestroy_r (htab : hsearch_data) : option hsearch_data :=
  _ ← table htab;
  Some (mkHtab None (size htab) (filled htab) (change_ok htab) (errno htab)).

(** ** hsearch *)

(** The number for a key: the length, then the characters from the last to the
    first, four bits apart. *)
Definition hash_number (k : list Z) : Z :=
  foldr (fun c h => u32 (u32 (h * 2 ^ 4) + c)) (u32 (Z.of_nat (length k))) k.

(** First hash function: the remainder, but not zero. *)
Definition hash1 (k : list Z) (size : Z) : Z :=
  let hval := hash_number k mod size in if hval =? 0 then 1 else hval.

(** Second hash function: the step. *)
Definition hash2 (hval size : Z) : Z := 1 + hval mod u32 (size - 2).

Definition next_idx (idx hval2 size : Z) : Z :=
  if idx <=? hval2 then u32 (size + idx - hval2) else idx - hval2.

(** [if (cb) cb(...)] *)
Definition rejects (cb : option callback_fn) (k : list Z) (v : option (list Z)) (op : env_op)
    (flag : Z) : bool :=
  match cb with Some f => f k v op flag | None => false end.

Definition denies (c : option change_fn) (e : ENTRY) (v : option (list Z)) (op : env_op)
    (flag : Z) : bool :=
  match c with Some f => f e v op flag | None => false end.

Section Search.
Context (strdup : list Z -> option (list Z)).
Context (callback_init : list Z -> option callback_fn) (flags_init : list Z -> Z).

(** A result: the return value, the entry [retval] points to, the table.
    [None] in place of a result is undefined behaviour. *)
Definition result : Type := Z * option Z * hsearch_data.

Definition same_key (k : list Z) (e : ENTRY) : option bool :=
  k' ← key e; r ← strcmp (cstr k []) (cstr k' []); Some (r =? 0).

(** The return value -1 means: keep searching. *)
Definition _compare_and_overwrite_entry (k : list Z) (d : option (list Z)) (action : ACTION)
    (htab : hsearch_data) (flag hval idx : Z) : option result :=
  s ← slot htab idx;
  same ← (if u32 (used s) =? hval then same_key k (entry s) else Some false);
  if same : bool then
    match action, d with
    | ENTER, Some v =>
        let e := entry s in
        if denies (change_ok htab) e (Some v) env_op_overwrite flag
        then Some (0, None, set_errno EPERM htab)
        else if rejects (callback e) k (Some v) env_op_overwrite flag
        then Some (0, None, set_errno EINVAL htab)
        else
          let htab := set_slot htab idx
            (mk_ENTRY (used s) (mkENTRY (key e) (strdup v) (callback e) (flags e))) in
          match strdup v with
          | None => Some (0, None, set_errno ENOMEM htab)
          | Some _ => Some (idx, Some idx, htab)
          end
    | _, _ => Some (idx, Some idx, htab)
    end
  else Some (-1, None, htab).

(** The [do] loop over the probe sequence: a result, or the index where it ended. *)
Fixpoint probe (fuel : nat) (k : list Z) (d : option (list Z)) (action : ACTION)
    (htab : hsearch_data) (flag hval hval2 idx : Z) : option (result + Z) :=
  match fuel with
  | O => None
  | S n =>
      let idx := next_idx idx hval2 (size htab) in
      if idx =? hval then Some (inr idx) else
      '(ret, rv, h) ← _compare_and_overwrite_entry k d action htab flag hval idx;
      if negb (ret =? -1) then Some (inl (ret, rv, h)) else
      s ← slot htab idx;
      if used s =? 0 then Some (inr idx) else probe n k d action htab flag hval hval2 idx
  end.

Definition _hdelete (htab : hsearch_data) (idx : Z) : option hsearch_data :=
  s ← slot htab idx;
  let e := entry s in
  Some (set_filled (set_slot htab idx (mk_ENTRY (-1) (mkENTRY (key e) (data e) None 0)))
          (filled htab - 1)).

(** What follows the search (a null value is copied to a null value): an empty slot has been found, or all were seen. *)
Definition enter_new (k : list Z) (d : option (list Z)) (htab : hsearch_data)
    (flag hval idx first_deleted : Z) : option result :=
  if filled htab =? size htab then Some (0, None, set_errno ENOMEM htab) else
  let idx := if first_deleted =? 0 then idx else first_deleted in
  s ← slot htab idx;
  let e := entry s in
  let v := v ← d; strdup v in
  let e := mkENTRY (strdup k) v (callback e) (flags e) in
  let htab := set_slot htab idx (mk_ENTRY (s32 hval) e) in
  match strdup k, v with
  | Some k', Some v' =>
      let htab := set_filled htab (filled htab + 1) in
      let e := mkENTRY (Some k') (Some v') (callback_init k') (flags_init k') in
      let htab := set_slot htab idx (mk_ENTRY (s32 hval) e) in
      if denies (change_ok htab) e d env_op_create flag then
        h ← _hdelete htab idx; Some (0, None, set_errno EPERM h)
      else if rejects (callback e) k d env_op_create flag then
        h ← _hdelete htab idx; Some (0, None, set_errno EINVAL h)
      else Some (1, Some idx, htab)
  | _, _ => Some (0, None, set_errno ENOMEM htab)
  end.

(** The fuel of the search is the number of slots. *)
Definition hsearch_r (k : list Z) (d : option (list Z)) (action : ACTION)
    (htab : hsearch_data) (flag : Z) : option result :=
  let hval := hash1 k (size htab) in
  let idx := hval in
  s ← slot htab idx;
  let finish (idx first_deleted : Z) : option result :=
    match action with
    | ENTER => enter_new k d htab flag hval idx first_deleted
    | FIND => Some (0, None, set_errno ESRCH htab)
    end in
  if used s =? 0 then finish idx 0 else
  let first_deleted := if used s =? -1 then idx else 0 in
  '(ret, rv, h) ← _compare_and_overwrite_entry k d action htab flag hval idx;
  if negb (ret =? -1) then Some (ret, rv, h) else
  let hval2 := hash2 hval (size htab) in
  p ← probe (Z.to_nat (size htab)) k d action htab flag hval hval2 idx;
  match p with
  | inl r => Some r
  | inr idx => finish idx first_deleted
  end.

(** ** hdelete *)

Definition hdelete_r (k : list Z) (htab : hsearch_data) (flag : Z)
    : option (Z * hsearch_data) :=
  '(idx, ep, htab) ← hsearch_r k None FIND htab 0;
  if idx =? 0 then Some (0, set_errno ESRCH htab) else
  s ← slot htab idx;
  if denies (change_ok htab) (entry s) None env_op_delete flag
  then Some (0, set_errno EPERM htab)
  else if rejects (callback (entry s)) k None env_op_delete flag
  then Some (0, set_errno EINVAL htab)
  else h ← _hdelete htab idx; Some (1, h).

(** ** hmatch and hwalk *)

(** The loop over [idx < htab->size]. *)
Fixpoint hmatch_loop (idxs : list Z) (m : list Z) (htab : hsearch_data) : option (option Z) :=
  match idxs with
  | [] => Some None
  | idx :: r =>
      s ← slot htab idx;
      if used s <=? 0 then hmatch_loop r m htab else
      k ← key (entry s);
      c ← strncmp (cstr m []) (cstr k []) (Z.of_nat (length m));
      if c =? 0 then Some (Some idx) else hmatch_loop r m htab
  end.

Definition hmatch_r (m : list Z) (last_idx : Z) (htab : hsearch_data)
    : option (Z * option Z * hsearch_data) :=
  r ← hmatch_loop (seqZ (last_idx + 1) (size htab - (last_idx + 1))) m htab;
  match r with
  | Some idx => Some (idx, Some idx, htab)
  | None => Some (0, None, set_errno ESRCH htab)
  end.

(** The walk: [f] is called for each live entry until it returns nonzero; the
    calls made are listed. *)
Fixpoint hwalk_loop (idxs : list Z) (htab : hsearch_data) (f : ENTRY -> Z)
    : option (Z * list ENTRY) :=
  match idxs with
  | [] => Some (0, [])
  | i :: r =>
      s ← slot htab i;
      if 0 <? used s then
        let retval := f (entry s) in
        if retval =? 0 then
          '(v, es) ← hwalk_loop r htab f; Some (v, entry s :: es)
        else Some (retval, [entry s])
      else hwalk_loop r htab f
  end.

Definition hwalk_r (htab : hsearch_data) (f : ENTRY -> Z) : option (Z * list ENTRY) :=
  hwalk_loop (seqZ 1 (size htab)) htab f.
End Search.

(** ** The probe sequence *)

Section Path.
Context (hval step p : Z).
Context (Hp : Z.prime p) (Hp5 : 5 <= p < 2 ^ 31) (Hh : 1 <= hval < p) (Hs : 1 <= step < p).

(** The index after [j] steps. *)
Definition at_step (j : Z) : Z :=
  let r := (hval - j * step) mod p in if r =? 0 then p else r.

Lemma at_range j : 1 <= at_step j <= p.
Proof.
  unfold at_step. pose proof (Z.mod_pos_bound (hval - j * step) p ltac:(lia)).
  destruct (Z.eqb_spec ((hval - j * step) mod p) 0); lia.
Qed.

Lemma at_cong j : (p | at_step j - (hval - j * step)).
Proof.
  unfold at_step. destruct (Z.eqb_spec ((hval - j * step) mod p) 0) as [He|He].
  - apply Z.divide_sub_r; [apply Z.divide_refl|]. by apply Z.mod_divide; [lia|].
  - exists (- ((hval - j * step) / p)).
    pose proof (Z.div_mod (hval - j * step) p ltac:(lia)). lia.
Qed.

(** An index is determined by its residue. *)
Lemma index_unique a b : 1 <= a <= p -> 1 <= b <= p -> (p | a - b) -> a = b.
Proof. intros Ha Hb [q Hq]. assert (q = 0) by nia. lia. Qed.

Lemma at_0 : at_step 0 = hval.
Proof. unfold at_step. rewrite Z.mul_0_l, Z.sub_0_r, Z.mod_small by lia. case_tests; lia. Qed.

Lemma at_full : at_step p = hval.
Proof.
  apply index_unique; [apply at_range|lia|]. destruct (at_cong p) as [q Hq].
  exists (q - step). lia.
Qed.

Lemma next_at j : next_idx (at_step j) step p = at_step (j + 1).
Proof.
  pose proof (at_range j). unfold next_idx.
  assert (Hd : forall x, (p | x - (at_step j - step)) -> (p | x - at_step (j + 1))).
  { intros x [a Ha]. destruct (at_cong j) as [b Hb], (at_cong (j + 1)) as [c Hc].
    exists (a + b - c). lia. }
  destruct (Z.leb_spec (at_step j) step).
  - rewrite u32_small by (unfold is_u32; lia).
    apply index_unique; [lia|apply at_range|]. apply Hd. exists 1. lia.
  - apply index_unique; [lia|apply at_range|]. apply Hd. exists 0. lia.
Qed.

Lemma at_inj i j : 0 <= i < p -> 0 <= j < p -> at_step i = at_step j -> i = j.
Proof.
  intros Hi Hj He. assert (Hd : (p | (i - j) * step)).
  { destruct (at_cong i) as [a Ha], (at_cong j) as [b Hb]. exists (a - b). lia. }
 apply Z.divide_prime_mul in Hd as [[q Hq]|Hq]; [| |done].
  - assert (q = 0) by nia. lia.
  - apply Z.divide_pos_le in Hq; lia.
Qed.

Lemma at_hval j : 0 <= j <= p -> at_step j = hval -> j = 0 \/ j = p.
Proof.
  intros Hj He. destruct (Z.eq_dec j p); [by right|left].
  apply at_inj; [lia|lia|]. by rewrite at_0.
Qed.

(** Because the size is prime, every index is stepped on. *)
Lemma at_surj i : 1 <= i <= p -> exists j, 0 <= j < p /\ at_step j = i.
Proof.
  intros Hi. assert (Hr : Z.coprime p step) by (by apply Z.coprime_prime_small).
  apply Z.Bezout_coprime in Hr as (v & u & Huv).
  exists ((hval - i) * u mod p). split; [apply Z.mod_pos_bound; lia|].
  apply index_unique; [apply at_range|done|].
  set (j := (hval - i) * u mod p). destruct (at_cong j) as [a Ha].
  pose proof (Z.div_mod ((hval - i) * u) p ltac:(lia)) as Hdm. fold j in Hdm.
  set (q := (hval - i) * u / p) in *.
  exists (a + q * step + (hval - i) * v).
  assert (Hu : u * step = 1 - v * p) by lia.
  assert (Hj : j * step = (hval - i) * (u * step) - p * (q * step)) by (rewrite <- (Z.add_simpl_l (p * q) j), <- Hdm; ring).
  rewrite Hu in Hj. lia.
Qed.
End Path.

(** ** The invariant *)

Section Invariant.
Context (strdup : list Z -> option (list Z)).
Context (callback_init : list Z -> option callback_fn) (flags_init : list Z -> Z).

(** Neither the permission check nor a callback rejects anything. *)
Definition permissive (h : hsearch_data) : Prop :=
  forall e v op fl, denies (change_ok h) e v op fl = false.

Definition consents (e : ENTRY) : Prop := forall k v op fl, rejects (callback e) k v op fl = false.

Hypothesis Hdup : forall v, strdup v = Some v.
Hypothesis Hcb : forall k f, callback_init k = Some f -> forall k' v op fl, f k' v op fl = false.

(** The probe sequence of a key. *)
Definition path (h : hsearch_data) (k : list Z) (j : Z) : Z :=
  at_step (hash1 k (size h)) (hash2 (hash1 k (size h)) (size h)) (size h) j.

(** Slot [i] is live and has key [k] and value [v]. *)
Definition holds_at (h : hsearch_data) (k v : list Z) (i : Z) : Prop :=
  1 <= i <= size h /\ exists s, slot h i = Some s /\ 0 < used s /\
    key (entry s) = Some k /\ data (entry s) = Some v.

Definition not_empty (h : hsearch_data) (i : Z) : Prop :=
  exists s, slot h i = Some s /\ used s <> 0.

(** A live slot: its key's first index, and no gap before it on the key's path. *)
Definition live_ok (h : hsearch_data) (i : Z) (s : _ENTRY) : Prop :=
  exists k v, key (entry s) = Some k /\ data (entry s) = Some v /\ text_ok k /\
    used s = hash1 k (size h) /\ consents (entry s) /\
    exists j, 0 <= j < size h /\ path h k j = i /\ forall j', 0 <= j' < j -> not_empty h (path h k j').

Fixpoint count_by (P : _ENTRY -> bool) (t : list _ENTRY) : Z :=
  match t with
  | [] => 0
  | s :: r => (if P s then 1 else 0) + count_by P r
  end.

Definition count_live : list _ENTRY -> Z := count_by (fun s => 0 <? used s).

(** The number of slots that have been used. *)
Definition touched (h : hsearch_data) : Z :=
  match table h with Some t => count_by (fun s => negb (used s =? 0)) t | None => 0 end.

Record wf (h : hsearch_data) : Prop := {
  wf_size : Z.prime (size h) /\ 5 <= size h < 2 ^ 31;
  wf_table : exists t, table h = Some t /\ Z.of_nat (length t) = size h + 1 /\
    filled h = count_live t /\ (forall s, t !! 0%nat = Some s -> used s = 0);
  wf_slot : forall i s, 1 <= i <= size h -> slot h i = Some s ->
    used s = 0 \/ used s = -1 \/ live_ok h i s;
  wf_unique : forall k v v' i i', holds_at h k v i -> holds_at h k v' i' -> i = i';
  wf_permissive : permissive h;
}.

(** The table represents a finite map from names to values. *)
Definition represents (h : hsearch_data) (m : gmap (list Z) (list Z)) : Prop :=
  wf h /\ forall k v, m !! k = Some v <-> exists i, holds_at h k v i.

(** Some slot has never been used. *)
Definition roomy (h : hsearch_data) : Prop :=
  exists i s, 1 <= i <= size h /\ slot h i = Some s /\ used s = 0.

Lemma hash1_range k h : wf h -> 1 <= hash1 k (size h) < size h.
Proof.
  intros [[_ Hs] _ _ _ _]. unfold hash1.
  pose proof (Z.mod_pos_bound (hash_number k) (size h)). case_tests; lia.
Qed.

Lemma hash2_range x h : wf h -> 1 <= hash2 x (size h) < size h.
Proof.
  intros [[_ Hs] _ _ _ _]. unfold hash2. rewrite u32_small by (unfold is_u32; lia).
  pose proof (Z.mod_pos_bound x (size h - 2)). lia.
Qed.

Lemma path_range h k j : wf h -> 1 <= path h k j <= size h.
Proof. intros Hw. destruct (wf_size h Hw). by apply at_range. Qed.

Lemma slot_some h i : wf h -> 0 <= i <= size h -> exists s, slot h i = Some s.
Proof.
  intros Hw Hi. destruct (wf_table h Hw) as (t & Ht & Hl & _). unfold slot. rewrite Ht.
  apply lookup_lt_is_Some_2. lia.
Qed.

(** What one comparison finds. *)
Definition matches (h : hsearch_data) (k : list Z) (i : Z) : Prop := exists v, holds_at h k v i.

Lemma live_used h i s : wf h -> live_ok h i s -> 0 < used s.
Proof.
  intros Hw (k & v & _ & _ & _ & -> & _). pose proof (hash1_range k h Hw). lia.
Qed.

(** The comparison recognises exactly the slot that holds the key. *)
Lemma same_iff h k i :
  wf h -> text_ok k -> 1 <= i <= size h ->
  exists s b, slot h i = Some s /\
    (if u32 (used s) =? hash1 k (size h) then same_key k (entry s) else Some false) = Some b /\
    (b = true <-> matches h k i) /\ (matches h k i -> live_ok h i s).
Proof.
  intros Hw Hk Hi. destruct (slot_some h i Hw) as [s Hs]; [lia|]. exists s.
  pose proof (hash1_range k h Hw) as Hh. destruct (wf_size h Hw) as [_ Hsz].
  assert (Hm : matches h k i -> 0 < used s /\ key (entry s) = Some k).
  { intros (v & _ & s' & Hs' & Hu & Hkey & _). rewrite Hs in Hs'. by injection Hs' as <-. }
  destruct (wf_slot h Hw i s Hi Hs) as [Hu|[Hu|Hl]].
  - exists false. rewrite Hu. change (u32 0) with 0.
    destruct (Z.eqb_spec 0 (hash1 k (size h))); [lia|].
    split; [done|]. split; [done|].
    split; [split; [done|]|]; intros Hx; destruct (Hm Hx); lia.
  - exists false. rewrite Hu. change (u32 (-1)) with (2 ^ 32 - 1).
    destruct (Z.eqb_spec (2 ^ 32 - 1) (hash1 k (size h))); [lia|].
    split; [done|]. split; [done|].
    split; [split; [done|]|]; intros Hx; destruct (Hm Hx); lia.
  - pose proof (live_used h i s Hw Hl) as Hpos.
    destruct Hl as (k' & v & Hkey & Hdata & Hk' & Hu & Hrest). rewrite Hu in *.
    pose proof (hash1_range k' h Hw).
    rewrite u32_small by (unfold is_u32; lia).
    assert (Hlive : live_ok h i s) by (exists k', v; rewrite Hu; tauto).
    destruct (Z.eqb_spec (hash1 k' (size h)) (hash1 k (size h))) as [He|He].
    + unfold same_key. rewrite Hkey. cbn [mbind option_bind].
      destruct (strcmp_cstr k k' [] [] Hk Hk') as (r & -> & Hr). cbn [mbind option_bind].
      exists (r =? 0). split; [done|]. split; [done|]. split; [|done]. split.
      * intros Hz. apply Z.eqb_eq, Hr in Hz as ->.
        exists v. split; [lia|]. exists s. rewrite Hu. tauto.
      * intros Hx. destruct (Hm Hx) as [_ Hkk]. apply Z.eqb_eq, Hr. congruence.
    + exists false. split; [done|]. split; [done|]. split; [|done]. split; [done|].
      intros Hx. destruct (Hm Hx) as [_ Hkk]. rewrite Hkey in Hkk. congruence.
Qed.
Lemma compare_no k d action h flag i :
  wf h -> text_ok k -> 1 <= i <= size h -> ~ matches h k i ->
  _compare_and_overwrite_entry strdup k d action h flag (hash1 k (size h)) i = Some (-1, None, h).
Proof.
  intros Hw Hk Hi Hn. unfold _compare_and_overwrite_entry.
  destruct (same_iff h k i Hw Hk Hi) as (s & b & Hs & Hb & Hm & _).
  rewrite Hs. cbn [mbind option_bind]. rewrite Hb. cbn [mbind option_bind].
  destruct b; [tauto|done].
Qed.

(** What a match returns: the slot, with the value replaced when entering. *)
Definition overwritten (h : hsearch_data) (i : Z) (d : option (list Z)) (action : ACTION)
    : option hsearch_data :=
  match action, d with
  | ENTER, Some v => s ← slot h i;
      let e := entry s in
      Some (set_slot h i (mk_ENTRY (used s) (mkENTRY (key e) (Some v) (callback e) (flags e))))
  | _, _ => Some h
  end.

Lemma compare_yes k d action h flag i :
  wf h -> text_ok k -> 1 <= i <= size h -> matches h k i ->
  exists h', overwritten h i d action = Some h' /\
  _compare_and_overwrite_entry strdup k d action h flag (hash1 k (size h)) i
    = Some (i, Some i, h').
Proof.
  intros Hw Hk Hi Hy. unfold _compare_and_overwrite_entry, overwritten.
  destruct (same_iff h k i Hw Hk Hi) as (s & b & Hs & Hb & Hm & Hl).
  rewrite Hs. cbn [mbind option_bind]. rewrite Hb. cbn [mbind option_bind].
  destruct b; [|by apply Hm in Hy].
  destruct action; [by eexists|]. destruct d as [v|]; [|by eexists].
  rewrite (wf_permissive h Hw).
  destruct (Hl Hy) as (k' & v' & _ & _ & _ & _ & Hc & _).
  rewrite Hc, Hdup. by eexists.
Qed.

(** The loop from step [j] of the key's path. *)
Definition probe_from (n : nat) (k : list Z) (d : option (list Z)) (action : ACTION)
    (h : hsearch_data) (flag j : Z) : option (result + Z) :=
  probe strdup n k d action h flag (hash1 k (size h)) (hash2 (hash1 k (size h)) (size h)) (path h k j).

(** It ends at a match, at a gap, or back at the start after all slots. *)
Definition probe_result (h : hsearch_data) (k : list Z) (d : option (list Z)) (action : ACTION)
    (j : Z) (r : option (result + Z)) : Prop :=
  (j < size h /\ matches h k (path h k j) /\
     exists h', overwritten h (path h k j) d action = Some h' /\
       r = Some (inl (path h k j, Some (path h k j), h'))) \/
  ((j = size h \/ exists s, slot h (path h k j) = Some s /\ used s = 0) /\
     r = Some (inr (path h k j))).

Lemma probe_step n k d action h flag j :
  wf h -> text_ok k -> 0 <= j < size h ->
  probe_result h k d action (j + 1) (probe_from (S n) k d action h flag j) \/
  (j + 1 < size h /\ ~ matches h k (path h k (j + 1)) /\ not_empty h (path h k (j + 1)) /\
   probe_from (S n) k d action h flag j = probe_from n k d action h flag (j + 1)).
Proof.
  intros Hw Hk Hj.
  pose proof (wf_size h Hw) as [Hp Hsz]. pose proof (hash1_range k h Hw) as Hh.
  pose proof (hash2_range (hash1 k (size h)) h Hw) as Hst.
  pose proof (path_range h k (j + 1) Hw) as Hr.
  assert (Hnext : next_idx (path h k j) (hash2 (hash1 k (size h)) (size h)) (size h) = path h k (j + 1))
    by by apply next_at.
  unfold probe_from. cbn [probe]. rewrite Hnext.
  destruct (Z.eqb_spec (path h k (j + 1)) (hash1 k (size h))) as [He|He].
  { left. right. split; [|done]. left.
    destruct (at_hval _ _ _ Hp Hsz Hh Hst (j + 1) ltac:(lia) He); lia. }
  assert (j + 1 < size h).
  { destruct (Z.eq_dec (j + 1) (size h)) as [Hf|]; [|lia].
    exfalso. apply He. unfold path. rewrite Hf. by apply at_full. }
  destruct (same_iff h k (path h k (j + 1)) Hw Hk Hr) as (s & b & Hs & _ & Hm & _).
  destruct b.
  - assert (Hy : matches h k (path h k (j + 1))) by by apply Hm. left. left.
    destruct (compare_yes k d action h flag _ Hw Hk Hr Hy) as (h' & Ho & ->).
    cbn [mbind option_bind]. destruct (Z.eqb_spec (path h k (j + 1)) (-1)); [lia|].
    cbn [negb]. split; [done|]. split; [done|]. by exists h'.
  - assert (Hn : ~ matches h k (path h k (j + 1))) by (intros Hx; by apply Hm in Hx).
    rewrite compare_no by done. cbn [mbind option_bind]. cbn [Z.eqb negb].
    rewrite Hs. cbn [mbind option_bind].
    destruct (Z.eqb_spec (used s) 0) as [Hu|Hu].
    + left. right. split; [|done]. right. by exists s.
    + right. split_and!; [done|done|by exists s|done].
Qed.

Lemma probe_ends k d action h flag n : forall j,
  wf h -> text_ok k -> 0 <= j < size h -> size h - j <= Z.of_nat n ->
  exists j', j < j' <= size h /\
    (forall i, j < i < j' -> ~ matches h k (path h k i) /\ not_empty h (path h k i)) /\
    probe_result h k d action j' (probe_from n k d action h flag j).
Proof.
  induction n as [|n IH]; intros j Hw Hk Hj Hn; [lia|].
  destruct (probe_step n k d action h flag j Hw Hk Hj) as [Hr|(Hlt & Hno & Hne & ->)].
  - exists (j + 1). split; [lia|]. split; [lia|done].
  - destruct (IH (j + 1) Hw Hk ltac:(lia) ltac:(lia)) as (j' & Hj' & Hbetween & Hres).
    exists j'. split; [lia|]. split; [|done].
    intros i Hi. destruct (Z.eq_dec i (j + 1)) as [->|]; [done|]. apply Hbetween. lia.
Qed.

(** A key that is held is met before any gap. *)
Lemma held_before_gap k h v i :
  wf h -> holds_at h k v i ->
  exists j, 0 <= j < size h /\ path h k j = i /\ forall j', 0 <= j' < j -> not_empty h (path h k j').
Proof.
  intros Hw (Hi & s & Hs & Hu & Hkey & _).
  destruct (wf_slot h Hw i s Hi Hs) as [|[|(k' & v' & Hk' & _ & _ & _ & _ & Hj)]]; [lia|lia|].
  assert (k' = k) as -> by congruence. exact Hj.
Qed.

(** Where a search ends: at the slot that holds the key, or, when no slot holds
    it, at the first gap of its path if there is one. *)
Lemma search_ends k d action h flag :
  wf h -> text_ok k ->
  (exists i h', matches h k i /\ overwritten h i d action = Some h' /\
     hsearch_r strdup callback_init flags_init k d action h flag = Some (i, Some i, h')) \/
  ((forall i, ~ matches h k i) /\ exists j fd, 0 <= j <= size h /\
     (forall i, 0 <= i < j -> not_empty h (path h k i)) /\
     (j = size h \/ exists s, slot h (path h k j) = Some s /\ used s = 0) /\
     (fd = 0 \/ (fd = path h k 0 /\ exists s, slot h fd = Some s /\ used s = -1)) /\
     hsearch_r strdup callback_init flags_init k d action h flag =
       match action with
       | ENTER => enter_new strdup callback_init flags_init k d h flag (hash1 k (size h)) (path h k j) fd
       | FIND => Some (0, None, set_errno ESRCH h)
       end).
Proof.
  intros Hw Hk. pose proof (wf_size h Hw) as [Hp Hsz]. pose proof (hash1_range k h Hw) as Hh.
  pose proof (hash2_range (hash1 k (size h)) h Hw) as Hst.
  assert (H0 : path h k 0 = hash1 k (size h)) by by apply at_0.
  assert (Hr0 : 1 <= path h k 0 <= size h) by by apply path_range.
  assert (Habsent : forall j, 0 <= j <= size h ->
    (forall i, 0 <= i < j -> ~ matches h k (path h k i)) ->
    (j = size h \/ exists s, slot h (path h k j) = Some s /\ used s = 0) ->
    forall i, ~ matches h k i).
  { intros j Hj Hno Hend i [v Hv].
    destruct (held_before_gap k h v i Hw Hv) as (j0 & Hj0 & <- & Hgap).
    destruct (Z_lt_le_dec j0 j) as [Hlt|Hge]; [by apply (Hno j0); [lia|exists v]|].
    destruct Hend as [->|(s & Hs & Hu)]; [lia|].
    destruct (Z.eq_dec j0 j) as [->|].
    - destruct Hv as (_ & s' & Hs' & Hu' & _). rewrite Hs in Hs'. injection Hs' as <-. lia.
    - destruct (Hgap j ltac:(lia)) as (s' & Hs' & Hu'). rewrite Hs in Hs'. by injection Hs' as <-. }
  destruct (same_iff h k (path h k 0) Hw Hk Hr0) as (s & b & Hs & Hb & Hm & _).
  unfold hsearch_r. rewrite H0 in Hs. rewrite Hs. cbn [mbind option_bind].
  destruct (Z.eqb_spec (used s) 0) as [Hu|Hu].
  { right. assert (Hgap : exists s, slot h (path h k 0) = Some s /\ used s = 0)
      by (exists s; by rewrite H0).
    split; [apply (Habsent 0); [lia|lia|by right]|].
    exists 0, 0. split; [lia|]. split; [lia|]. split; [by right|]. split; [by left|]. by rewrite H0. }
  destruct b.
  - left. assert (Hy : matches h k (path h k 0)) by by apply Hm.
    destruct (compare_yes k d action h flag _ Hw Hk Hr0 Hy) as (h' & Ho & Hc).
    exists (path h k 0), h'. split; [done|]. split; [done|].
    rewrite H0 in Hc. rewrite Hc, H0. cbn [mbind option_bind].
    by destruct (Z.eqb_spec (hash1 k (size h)) (-1)); [lia|].
  - assert (Hn : ~ matches h k (path h k 0)) by (intros Hx; by apply Hm in Hx).
    pose proof (compare_no k d action h flag _ Hw Hk Hr0 Hn) as Hc. rewrite H0 in Hc.
    rewrite Hc. cbn [mbind option_bind Z.eqb negb].
    destruct (probe_ends k d action h flag (Z.to_nat (size h)) 0 Hw Hk ltac:(lia) ltac:(lia))
      as (j & Hj & Hbetween & Hres).
    unfold probe_from in Hres. rewrite H0 in Hres.
    destruct Hres as [(Hlt & Hy & h' & Ho & Hr)|(Hend & Hr)]; rewrite Hr; cbn [mbind option_bind].
    + left. by exists (path h k j), h'.
    + right. split.
      { apply (Habsent j); [lia| |done]. intros i Hi. destruct (Z.eq_dec i 0) as [->|]; [done|].
        apply Hbetween. lia. }
      exists j, (if used s =? -1 then hash1 k (size h) else 0). split; [lia|]. split.
      { intros i Hi. destruct (Z.eq_dec i 0) as [->|]; [rewrite H0; by exists s|].
        apply Hbetween. lia. }
      split; [done|]. split; [|done].
      destruct (Z.eqb_spec (used s) (-1)) as [Hu1|]; [right|by left].
      split; [done|]. by exists s.
Qed.

(** Not finding a key and the value of a found one. *)
Lemma represents_none h m k : represents h m -> (forall i, ~ matches h k i) -> m !! k = None.
Proof.
  intros [_ Hm] Hn. destruct (m !! k) as [v|] eqn:He; [|done].
  apply Hm in He as [i Hi]. exfalso. apply (Hn i). by exists v.
Qed.

(** Looking a name up finds the slot that holds its value if the table has the
    name, and reports that there is none otherwise; the table is unchanged. *)
Lemma hsearch_finds h m k flag :
  represents h m -> text_ok k ->
  match m !! k with
  | Some v => exists i, holds_at h k v i /\
      hsearch_r strdup callback_init flags_init k None FIND h flag = Some (i, Some i, h)
  | None =>
      hsearch_r strdup callback_init flags_init k None FIND h flag = Some (0, None, set_errno ESRCH h)
  end.
Proof.
  intros Hr Hk. pose proof Hr as [Hw Hm].
  destruct (search_ends k None FIND h flag Hw Hk) as [(i & h' & [v Hv] & Ho & Hs)|(Hn & j & fd & _ & _ & _ & _ & Hs)].
  - cbn in Ho. injection Ho as <-. rewrite (proj2 (Hm k v)) by by exists i. by exists i.
  - by rewrite (represents_none h m k Hr Hn).
Qed.
(** ** Changing one slot *)

Definition live_b (s : _ENTRY) : Z := if 0 <? used s then 1 else 0.

Lemma count_by_insert P t i old s :
  t !! i = Some old ->
  count_by P (<[i := s]> t) = count_by P t - (if P old then 1 else 0) + (if P s then 1 else 0).
Proof.
  revert i. induction t as [|x t IH]; intros i Hi; [done|]. destruct i as [|i].
  - injection Hi as ->. change (<[0%nat := s]> (old :: t)) with (s :: t). cbn [count_by]. lia.
  - change (<[S i := s]> (x :: t)) with (x :: <[i := s]> t). cbn [count_by].
    rewrite (IH i Hi). lia.
Qed.

Lemma count_by_bound P t : 0 <= count_by P t <= Z.of_nat (length t).
Proof. induction t as [|x t IH]; cbn [count_by length]; [lia|]. destruct (P x); lia. Qed.

(** Fewer than all: some element is not counted. *)
Lemma count_by_gap P t : count_by P t < Z.of_nat (length t) -> exists i s, t !! i = Some s /\ P s = false.
Proof.
  induction t as [|x t IH]; cbn [count_by length]; [lia|]. intros Hc.
  destruct (P x) eqn:Hx; [|by exists 0%nat, x].
  destruct IH as (i & s & Hi & Hs); [lia|]. by exists (S i), s.
Qed.

Lemma count_live_insert t i old s :
  t !! i = Some old -> count_live (<[i := s]> t) = count_live t - live_b old + live_b s.
Proof. apply count_by_insert. Qed.

Lemma count_live_bound t : 0 <= count_live t <= Z.of_nat (length t).
Proof. apply count_by_bound. Qed.

(** Two slots that are not live leave the table less than full. *)
Lemma count_live_two t i j s s' :
  t !! i = Some s -> t !! j = Some s' -> i <> j -> used s = 0 -> used s' = 0 ->
  count_live t <= Z.of_nat (length t) - 2.
Proof.
  intros Hi Hj Hne Hs Hs'.
  set (one := mk_ENTRY 1 (mkENTRY None None None 0)).
  pose proof (count_live_insert t i s one Hi) as H1.
  assert (Hj' : <[i := one]> t !! j = Some s') by by rewrite list_lookup_insert_ne.
  pose proof (count_live_insert (<[i := one]> t) j s' one Hj') as H2.
  pose proof (count_live_bound (<[j := one]> (<[i := one]> t))) as Hb.
  rewrite !length_insert in Hb.
  unfold live_b in H1, H2. rewrite Hs in H1. rewrite Hs' in H2.
  cbn [used one Z.ltb Z.compare] in H1, H2. lia.
Qed.

(** The table [h] with slot [i] replaced and the live slots counted anew. *)
Definition replaced (h : hsearch_data) (i : Z) (s : _ENTRY) (n : Z) : hsearch_data :=
  mkHtab ((fun t => <[Z.to_nat i := s]> t) <$> table h) (size h) n (change_ok h) (errno h).

Lemma slot_replaced h i s n j :
  wf h -> 0 <= i <= size h -> 0 <= j ->
  slot (replaced h i s n) j = if decide (j = i) then Some s else slot h j.
Proof.
  intros Hw Hi Hj. destruct (wf_table h Hw) as (t & Ht & Hl & _). unfold slot, replaced.
  cbn [table]. rewrite Ht. cbn [fmap option_fmap option_map mbind option_bind].
  case_decide as He.
  - subst j. apply list_lookup_insert_eq. lia.
  - apply list_lookup_insert_ne. lia.
Qed.

Section Replace.
Context (h : hsearch_data) (i : Z) (old s : _ENTRY).
Hypothesis Hw : wf h.
Hypothesis Hi : 1 <= i <= size h.
Hypothesis Hold : slot h i = Some old.
Hypothesis Hs : used s = -1 \/ live_ok h i s.

Let n := filled h - live_b old + live_b s.
Let h' := replaced h i s n.

Lemma replaced_slot j : 0 <= j -> slot h' j = if decide (j = i) then Some s else slot h j.
Proof. intros Hj. apply slot_replaced; [done|lia|done]. Qed.

Lemma replaced_not_empty j : 0 <= j -> not_empty h j -> not_empty h' j.
Proof.
  intros Hj (x & Hx & Hu). unfold not_empty. rewrite replaced_slot by done.
  case_decide; [|by exists x]. exists s. split; [done|].
  destruct Hs as [->|Hl]; [done|]. pose proof (live_used h i s Hw Hl). lia.
Qed.

Lemma replaced_live_ok j x : live_ok h j x -> live_ok h' j x.
Proof.
  intros (k & v & H1 & H2 & H3 & H4 & H5 & j0 & Hj0 & Hp & Hg).
  exists k, v. split_and!; try done. exists j0. split; [exact Hj0|]. split; [exact Hp|].
  intros j' Hj'. apply replaced_not_empty; [|by apply Hg].
  pose proof (path_range h k j' Hw). unfold path in *. cbn. lia.
Qed.

Lemma replaced_holds k v j :
  holds_at h' k v j <->
  (j = i /\ 0 < used s /\ key (entry s) = Some k /\ data (entry s) = Some v) \/
  (j <> i /\ holds_at h k v j).
Proof.
  unfold holds_at. change (size h') with (size h). split.
  - intros (Hj & x & Hx & Hr). rewrite replaced_slot in Hx by lia.
    case_decide; [injection Hx as <-; by left|right; split; [done|split; [done|by exists x]]].
  - intros [(-> & Hr)|(Hne & Hj & x & Hx & Hr)].
    + split; [done|]. exists s. rewrite replaced_slot, decide_True by (done || lia). done.
    + split; [done|]. exists x. rewrite replaced_slot, decide_False by (done || lia). done.
Qed.

Hypothesis Hnew : forall k v v' j, 0 < used s -> key (entry s) = Some k -> j <> i ->
  data (entry s) = Some v' -> ~ holds_at h k v j.

Lemma replaced_wf : wf h'.
Proof.
  destruct (wf_table h Hw) as (t & Ht & Hl & Hc & H0). split.
  - apply (wf_size h Hw).
  - exists (<[Z.to_nat i := s]> t). cbn. rewrite Ht. split; [done|].
    rewrite length_insert. split; [done|]. split.
    + rewrite (count_live_insert t _ old); [unfold n; lia|].
      unfold slot in Hold. rewrite Ht in Hold. exact Hold.
    + intros x Hx. rewrite list_lookup_insert_ne in Hx by lia. by apply H0.
  - intros j x Hj Hx. change (size h') with (size h) in Hj.
    rewrite replaced_slot in Hx by lia. case_decide.
    + injection Hx as <-. subst j. destruct Hs as [|Hl']; [by right; left|].
      right; right. by apply replaced_live_ok.
    + destruct (wf_slot h Hw j x Hj Hx) as [|[|Hlv]]; [by left|by right; left|].
      right; right. by apply replaced_live_ok.
  - intros k v v' j j' Hj Hj'. apply replaced_holds in Hj, Hj'.
    destruct Hj as [(-> & Hu & Hk & Hv)|(Hne & Hj)], Hj' as [(-> & Hu' & Hk' & Hv')|(Hne' & Hj')];
      [done| | |by apply (wf_unique h Hw k v v')].
    + by destruct (Hnew k v' v j').
    + by destruct (Hnew k v v' j).
  - apply (wf_permissive h Hw).
Qed.
End Replace.
Lemma set_slot_replaced h i s : set_slot h i s = replaced h i s (filled h).
Proof. done. Qed.

Lemma set_errno_wf e h m : represents h m -> represents (set_errno e h) m.
Proof. intros [[H1 H2 H3 H4 H5] Hm]. split; [split; assumption|exact Hm]. Qed.

Lemma filled_bounds h : wf h -> 0 <= filled h <= size h + 1.
Proof.
  intros Hw. destruct (wf_table h Hw) as (t & _ & Hl & -> & _).
  pose proof (count_live_bound t). lia.
Qed.

(** A live slot counts. *)
Lemma filled_pos h i s : wf h -> 1 <= i <= size h -> slot h i = Some s -> 0 < used s -> 1 <= filled h.
Proof.
  intros Hw Hi Hs Hu. destruct (wf_table h Hw) as (t & Ht & _ & Hf & _).
  unfold slot in Hs. rewrite Ht in Hs. cbn [mbind option_bind] in Hs.
  pose proof (count_live_insert t _ s zero_entry Hs) as Hc.
  pose proof (count_live_bound (<[Z.to_nat i := zero_entry]> t)).
  unfold live_b in Hc. cbn [used zero_entry Z.ltb Z.compare] in Hc.
  destruct (Z.ltb_spec 0 (used s)); lia.
Qed.

(** With a slot never used the table is not full, and some gap ends each path. *)
Lemma roomy_filled h : wf h -> roomy h -> filled h < size h.
Proof.
  intros Hw (i & s & Hi & Hs & Hu). destruct (wf_table h Hw) as (t & Ht & Hl & Hf & H0).
  unfold slot in Hs. rewrite Ht in Hs. cbn [mbind option_bind] in Hs.
  destruct (lookup_lt_is_Some_2 t 0) as [z Hz]; [lia|].
  pose proof (count_live_two t 0 (Z.to_nat i) z s Hz Hs ltac:(lia) (H0 z Hz) Hu). lia.
Qed.

Lemma roomy_gap h k : wf h -> roomy h ->
  exists j s, 0 <= j < size h /\ slot h (path h k j) = Some s /\ used s = 0.
Proof.
  intros Hw (i & s & Hi & Hs & Hu). pose proof (wf_size h Hw) as [Hp Hsz].
  destruct (at_surj (hash1 k (size h)) (hash2 (hash1 k (size h)) (size h)) (size h) Hp Hsz
    ltac:(by apply hash2_range) i Hi) as (j & Hj & He).
  exists j, s. split; [done|]. unfold path. by rewrite He.
Qed.

Lemma touched_replaced h i old s n :
  wf h -> 1 <= i <= size h -> slot h i = Some old ->
  touched (replaced h i s n) = touched h - (if negb (used old =? 0) then 1 else 0)
    + (if negb (used s =? 0) then 1 else 0).
Proof.
  intros Hw Hi Hold. destruct (wf_table h Hw) as (t & Ht & _).
  unfold slot in Hold. unfold touched, replaced. cbn [table]. rewrite Ht in *.
  exact (count_by_insert (fun s => negb (used s =? 0)) t _ old s Hold).
Qed.

(** Fewer slots used than the size leave one never used. *)
Lemma touched_roomy h : wf h -> touched h < size h -> roomy h.
Proof.
  intros Hw Ht. destruct (wf_table h Hw) as (t & Htab & Hl & _ & H0).
  unfold touched in Ht. rewrite Htab in Ht.
  destruct t as [|z t]; [simpl in Hl; pose proof (wf_size h Hw); lia|].
  specialize (H0 z eq_refl). cbn [count_by length] in *. rewrite H0 in Ht. cbn [negb Z.eqb] in Ht.
  destruct (count_by_gap (fun s => negb (used s =? 0)) t ltac:(lia)) as (i & s & Hi & Hs).
  apply negb_false_iff, Z.eqb_eq in Hs.
  pose proof (lookup_lt_Some _ _ _ Hi).
  exists (Z.of_nat (S i)), s. split; [lia|]. split; [|done].
  unfold slot. rewrite Htab. cbn [mbind option_bind]. by rewrite Nat2Z.id.
Qed.

(** The entry made for a new name, at a slot that is not live. *)
Definition new_entry (k v : list Z) (h : hsearch_data) : _ENTRY :=
  mk_ENTRY (hash1 k (size h)) (mkENTRY (Some k) (Some v) (callback_init k) (flags_init k)).

Lemma new_entry_live k v h j :
  wf h -> text_ok k -> 0 <= j < size h -> (forall i, 0 <= i < j -> not_empty h (path h k i)) ->
  live_ok h (path h k j) (new_entry k v h).
Proof.
  intros Hw Hk Hj Hgap. exists k, v. split_and!; try done.
  - intros k' v' op fl. cbn. destruct (callback_init k) as [f|] eqn:Hf; [|done].
    cbn. by apply (Hcb k f).
  - by exists j.
Qed.

Lemma enter_new_ok k v h flag idx fd i :
  wf h -> filled h < size h -> i = (if fd =? 0 then idx else fd) -> 1 <= i <= size h ->
  (exists s, slot h i = Some s) ->
  enter_new strdup callback_init flags_init k (Some v) h flag (hash1 k (size h)) idx fd =
    Some (1, Some i, replaced h i (new_entry k v h) (filled h + 1)).
Proof.
  intros Hw Hf -> Hi [s Hs]. set (i := if fd =? 0 then idx else fd) in *.
  pose proof (wf_size h Hw) as [_ Hsz]. pose proof (filled_bounds h Hw).
  pose proof (hash1_range k h Hw).
  unfold enter_new. destruct (Z.eqb_spec (filled h) (size h)); [lia|].
  fold i. rewrite Hs. cbn [mbind option_bind]. rewrite !Hdup.
  rewrite s32_small by (unfold is_s32; lia).
  match goal with |- context [denies ?c ?e ?d ?op ?fl] =>
    change (denies c e d op fl) with (denies (change_ok h) e d op fl);
    rewrite (wf_permissive h Hw e d op fl) end.
  assert (Hr : rejects (callback_init k) k (Some v) env_op_create flag = false).
  { destruct (callback_init k) as [f|] eqn:Hc; [|done]. cbn. by apply (Hcb k f). }
  cbn [callback]. rewrite Hr. f_equal. f_equal.
  destruct (wf_table h Hw) as (t & Ht & _). unfold set_filled, set_slot, replaced, new_entry.
  cbn [table size filled change_ok errno]. rewrite Ht.
  cbn [fmap option_fmap option_map mbind option_bind].
  rewrite list_insert_insert_eq, u32_small by (unfold is_u32; lia). done.
Qed.

(** Storing name [k] with value [v] at a slot that held [k] or nothing. *)
Lemma represents_insert h m i old s k v :
  represents h m -> 1 <= i <= size h -> slot h i = Some old ->
  live_ok h i s -> key (entry s) = Some k -> data (entry s) = Some v ->
  (forall k', 0 < used old -> key (entry old) = Some k' -> k' = k) ->
  (forall j v', j <> i -> ~ holds_at h k v' j) ->
  let h' := replaced h i s (filled h - live_b old + live_b s) in
  represents h' (<[k := v]> m) /\ holds_at h' k v i.
Proof.
  intros [Hw Hm] Hi Hold Hl Hkey Hdata Hwas Hno h'.
  pose proof (live_used h i s Hw Hl) as Hu.
  assert (Hh : forall k0 v0 j, holds_at h' k0 v0 j <-> _)
    by (intros; exact (replaced_holds h i old s Hw Hi k0 v0 j)).
  assert (Hat : holds_at h' k v i) by (apply Hh; by left).
  split; [|done]. split.
  - apply replaced_wf; [done|done|done|by right|].
    intros k0 v0 v' j _ Hk0 Hne _ Hx. assert (k0 = k) as -> by congruence. by apply (Hno j v0).
  - intros k0 v0. destruct (decide (k0 = k)) as [->|Hne].
    + rewrite lookup_insert_eq. split.
      * intros He. injection He as <-. by exists i.
      * intros [j Hj]. apply Hh in Hj as [(_ & _ & _ & Hd)|(Hji & Hj)]; [congruence|].
        by destruct (Hno j v0).
    + rewrite lookup_insert_ne by done. rewrite Hm. split; intros [j Hj].
      * exists j. apply Hh. right. split; [|done]. intros ->.
        destruct Hj as (_ & x & Hx & Hux & Hkx & _). rewrite Hold in Hx. injection Hx as <-.
        by apply Hne, Hwas.
      * exists j. apply Hh in Hj as [(_ & _ & Hk0 & _)|(_ & Hj)]; [congruence|done].
Qed.

(** The slot a value is replaced in. *)
Lemma overwrite_ok h m i k v0 v h' :
  represents h m -> holds_at h k v0 i -> overwritten h i (Some v) ENTER = Some h' ->
  represents h' (<[k := v]> m) /\ holds_at h' k v i /\ size h' = size h /\ touched h' = touched h.
Proof.
  intros Hr Hat Ho. pose proof Hr as [Hw Hm]. destruct Hat as (Hi & s & Hs & Hu & Hk & Hd).
  unfold overwritten in Ho. rewrite Hs in Ho. cbn [mbind option_bind] in Ho. injection Ho as <-.
  set (s' := mk_ENTRY (used s) (mkENTRY (key (entry s)) (Some v) (callback (entry s)) (flags (entry s)))).
  rewrite set_slot_replaced.
  assert (Hl : live_ok h i s').
  { destruct (wf_slot h Hw i s Hi Hs) as [|[|(k' & v' & H1 & H2 & H3 & H4 & H5 & H6)]]; [lia|lia|].
    by exists k', v. }
  replace (filled h) with (filled h - live_b s + live_b s') by (unfold live_b; cbn; lia).
  pose proof (touched_replaced h i s s' (filled h - live_b s + live_b s') Hw Hi Hs) as Htouch.
  destruct (represents_insert h m i s s' k v Hr Hi Hs Hl) as [H1 H2]; try done.
  - intros k' _ Hk'. congruence.
  - intros j v' Hne Hj. apply Hne. apply (wf_unique h Hw k v' v0); [done|].
    split; [done|by exists s].
  - split_and!; try done. rewrite Htouch. cbn. lia.
Qed.

(** Entering a name and a value into a table with a slot never used makes the
    table represent the map with that name set to that value, whatever was
    deleted before and wherever its probe sequence collides. *)
Lemma hsearch_enters h m k v flag :
  represents h m -> roomy h -> text_ok k ->
  exists ret i h',
    hsearch_r strdup callback_init flags_init k (Some v) ENTER h flag = Some (ret, Some i, h') /\
    0 < ret /\ represents h' (<[k := v]> m) /\ holds_at h' k v i /\ size h' = size h /\
    touched h' <= touched h + 1.
Proof.
  intros Hr Hroom Hk. pose proof Hr as [Hw Hm].
  destruct (search_ends k (Some v) ENTER h flag Hw Hk)
    as [(i & h' & [v0 Hv] & Ho & Hs)|(Hn & j & fd & Hj & Hgap & Hend & Hfd & Hs)].
  - destruct (overwrite_ok h m i k v0 v h' Hr Hv Ho) as (H1 & H2 & H3 & H4).
    exists i, i, h'. destruct Hv as [Hi _]. split_and!; (done || lia).
  - destruct (roomy_gap h k Hw Hroom) as (j0 & s0 & Hj0 & Hs0 & Hu0).
    assert (Hjlt : j < size h).
    { destruct Hend as [->|]; [|destruct (Z.eq_dec j (size h)) as [->|]; [|lia]];
      destruct (Hgap j0 ltac:(lia)) as (x & Hx & Hux); rewrite Hs0 in Hx; by injection Hx as <-. }
    assert (Hfresh : exists i old j1, i = (if fd =? 0 then path h k j else fd) /\ 1 <= i <= size h /\
      slot h i = Some old /\ used old <= 0 /\ 0 <= j1 < size h /\ path h k j1 = i /\
      forall x, 0 <= x < j1 -> not_empty h (path h k x)).
    { destruct Hfd as [->|(-> & s & Hsl & Hu)].
      - destruct Hend as [|(s & Hsl & Hu)]; [lia|].
        exists (path h k j), s, j. split_and!; try done; try lia; by apply path_range.
      - pose proof (path_range h k 0 Hw). exists (path h k 0), s, 0.
        destruct (Z.eqb_spec (path h k 0) 0); [lia|]. split_and!; try done; lia. }
    destruct Hfresh as (i & old & j1 & Hi & Hir & Hold & Huo & Hj1 & Hp1 & Hgap1).
    rewrite (enter_new_ok k v h flag (path h k j) fd i Hw (roomy_filled h Hw Hroom) Hi Hir) in Hs
      by (by exists old).
    exists 1, i, (replaced h i (new_entry k v h) (filled h + 1)). split; [done|]. split; [lia|].
    assert (Hl : live_ok h i (new_entry k v h)) by (rewrite <- Hp1; by apply new_entry_live).
    pose proof (live_used h i _ Hw Hl) as Hul.
    replace (filled h + 1) with (filled h - live_b old + live_b (new_entry k v h)).
    2: { unfold live_b. destruct (Z.ltb_spec 0 (used old)), (Z.ltb_spec 0 (used (new_entry k v h))); lia. }
    pose proof (touched_replaced h i old (new_entry k v h)
      (filled h - live_b old + live_b (new_entry k v h)) Hw Hir Hold) as Htouch.
    destruct (represents_insert h m i old (new_entry k v h) k v Hr Hir Hold Hl) as [H1 H2]; try done.
    + lia.
    + intros j' v' _ Hj'. apply (Hn j'). by exists v'.
    + split_and!; try done. rewrite Htouch. destruct (used old =? 0), (used (new_entry k v h) =? 0); cbn; lia.
Qed.
(** Deleting a name the table has removes it and keeps every other name; a name
    it does not have is reported, and nothing changes. *)
Lemma hdelete_deletes h m k flag :
  represents h m -> text_ok k ->
  match m !! k with
  | Some _ => exists h', hdelete_r strdup callback_init flags_init k h flag = Some (1, h') /\
      represents h' (delete k m) /\ size h' = size h /\ touched h' = touched h
  | None => exists h', hdelete_r strdup callback_init flags_init k h flag = Some (0, h') /\
      table h' = table h /\ represents h' m /\ size h' = size h
  end.
Proof.
  intros Hr Hk. pose proof Hr as [Hw Hm]. unfold hdelete_r.
  pose proof (hsearch_finds h m k 0 Hr Hk) as Hf.
  destruct (m !! k) as [v|] eqn:Hmk.
  - destruct Hf as (i & Hat & ->). cbn [mbind option_bind].
    pose proof Hat as (Hi & s & Hs & Hu & Hks & Hd).
    destruct (Z.eqb_spec i 0); [lia|]. rewrite Hs. cbn [mbind option_bind].
    rewrite (wf_permissive h Hw).
    destruct (wf_slot h Hw i s Hi Hs) as [|[|(k' & v' & _ & _ & _ & _ & Hc & _)]]; [lia|lia|].
    rewrite Hc. unfold _hdelete. rewrite Hs. cbn [mbind option_bind].
    set (gone := mk_ENTRY (-1) (mkENTRY (key (entry s)) (data (entry s)) None 0)).
    pose proof (filled_pos h i s Hw Hi Hs Hu). pose proof (filled_bounds h Hw).
    pose proof (wf_size h Hw) as [_ Hsz].
    pose proof (touched_replaced h i s gone (filled h - live_b s + live_b gone) Hw Hi Hs) as Htouch.
    exists (replaced h i gone (filled h - live_b s + live_b gone)). split_and!; [|split|done|].
    + f_equal. f_equal. unfold set_filled, set_slot, replaced. cbn [table size filled change_ok errno].
      rewrite u32_small by (unfold is_u32; lia). f_equal.
      unfold live_b. destruct (Z.ltb_spec 0 (used s)); [cbn; lia|lia].
    + apply replaced_wf; [done|done|done|by left|]. intros ? ? ? ? Hneg. cbn in Hneg. lia.
    + intros k0 v0. pose proof (fun j => replaced_holds h i s gone Hw Hi k0 v0 j) as Hh.
      split.
      * intros Hl. apply lookup_delete_Some in Hl as [Hne Hl]. apply Hm in Hl as [j Hj].
        exists j. apply Hh. right. split; [|done]. intros ->.
        destruct Hj as (_ & x & Hx & _ & Hkx & _). rewrite Hs in Hx. injection Hx as <-. congruence.
      * intros [j Hj]. apply Hh in Hj as [(_ & Hneg & _)|(Hne & Hj)]; [cbn in Hneg; lia|].
        apply lookup_delete_Some. split; [|apply Hm; by exists j].
        intros <-. apply Hne. by apply (wf_unique h Hw k v0 v).
    + rewrite Htouch. destruct (Z.eqb_spec (used s) 0); cbn; lia.
  - rewrite Hf. cbn [mbind option_bind]. cbn [Z.eqb]. eexists. split; [done|]. split; [done|].
    split; [|done]. by apply set_errno_wf, set_errno_wf.
Qed.
End Invariant.

(** ** Creating a table *)

(** No odd number from 3 to below [div] divides [number]. *)
Definition no_divisor (number div : Z) : Prop :=
  forall d, 3 <= d < div -> Z.odd d = true -> ~ (d | number).

Lemma prime_by_divisors number div :
  Z.odd number = true -> 5 <= number -> 3 <= div -> no_divisor number div ->
  number <= div * div -> ~ (div | number) -> Z.prime number.
Proof.
  intros Hodd Hn Hd Hno Hsq Hdiv. split; [lia|]. intros q Hq [c Hc].
  assert (Hco : Z.odd c = true /\ Z.odd q = true) by (rewrite Hc, Z.odd_mul in Hodd; by apply andb_true_iff).
  assert (Hbig : forall x, 1 < x -> Z.odd x = true -> (x | number) -> div < x).
  { intros x Hx Hox Hxd. assert (x <> 2) by (by intros ->).
    destruct (Z_lt_le_dec x div); [by destruct (Hno x); [lia|..]|].
    destruct (Z.eq_dec x div) as [->|]; [done|lia]. }
  assert (1 < c) by nia.
  pose proof (Hbig q ltac:(lia) ltac:(tauto) ltac:(by exists c)).
  pose proof (Hbig c ltac:(lia) ltac:(tauto) ltac:(exists q; lia)). nia.
Qed.

Lemma isprime_loop_ends number fuel : forall div,
  Z.odd number = true -> 5 <= number < 2 ^ 16 -> Z.odd div = true ->
  3 <= div -> div = 3 \/ (div - 2) * (div - 2) < number ->
  no_divisor number div -> 259 - div < 2 * Z.of_nat fuel ->
  exists r, isprime_loop fuel number div = Some r /\
    ((number mod r = 0 /\ 1 < r < number) \/ (number mod r <> 0 /\ Z.prime number)).
Proof.
  induction fuel as [|fuel IH]; intros div Hodd Hn Hdo Hd Hsq Hno Hf.
  { exfalso. nia. }
  assert (Hlt : div < number) by nia. assert (Hb : div <= 257) by nia.
  cbn [isprime_loop]. rewrite (u32_small (div * div)) by (unfold is_u32; nia).
  assert (Hdn : number mod div = 0 <-> (div | number)) by (apply Z.mod_divide; lia).
  destruct (Z.eqb_spec (number mod div) 0) as [He|He].
  { rewrite andb_false_r. exists div. split; [done|]. left. lia. }
  destruct (Z.ltb_spec (div * div) number) as [Hs|Hs]; cbn [andb negb].
  - rewrite u32_small by (unfold is_u32; lia).
    apply IH; try done; try lia.
    + rewrite Z.odd_add. by rewrite Hdo.
    + intros d Hd' Hod. destruct (Z_lt_le_dec d div); [by apply Hno; [lia|]|].
      assert (d <> div + 1) by (intros ->; rewrite Z.odd_add, Hdo in Hod; done).
      assert (d = div) as -> by lia. tauto.
  - exists div. split; [done|]. right. split; [done|].
    apply (prime_by_divisors number div); try done; [lia|tauto].
Qed.

(** The test is right for the odd numbers a table size can be. *)
Lemma isprime_ok number fuel :
  Z.odd number = true -> 5 <= number < 2 ^ 16 -> (129 <= fuel)%nat ->
  exists b : bool, isprime fuel number = Some b /\ (b = true <-> Z.prime number).
Proof.
  intros Hodd Hn Hf. unfold isprime.
  destruct (isprime_loop_ends number fuel 3 Hodd Hn eq_refl) as (r & -> & Hr); [lia|by left| |lia|].
  { intros d Hd. lia. }
  cbn [mbind option_bind]. exists (negb (number mod r =? 0)). split; [done|].
  destruct Hr as [(Hz & Hr)|(Hz & Hp)].
  - rewrite Hz. cbn. split; [done|]. intros [_ Hp]. exfalso. apply (Hp r Hr). apply Z.mod_divide; lia.
  - apply Z.eqb_neq in Hz. rewrite Hz. done.
Qed.

(** The search for the size ends: 65521 is prime. *)
Lemma next_prime_ends fuel : forall nel,
  Z.odd nel = true -> 5 <= nel <= 65521 -> (129 <= fuel)%nat -> 65521 - nel < 2 * (Z.of_nat fuel - 129) ->
  exists p, next_prime fuel nel = Some p /\ Z.prime p /\ nel <= p <= 65521 /\
    forall q, Z.odd q = true -> nel <= q < p -> ~ Z.prime q.
Proof.
  assert (Hmax : Z.prime 65521).
  { destruct (isprime_ok 65521 129 eq_refl ltac:(lia) ltac:(lia)) as (b & Hb & Hp).
    apply Hp. vm_compute in Hb. by injection Hb as <-. }
  induction fuel as [|fuel IH]; intros nel Hodd Hn Hf Hm; [lia|].
  cbn [next_prime]. rewrite u32_small by (unfold is_u32; lia).
  destruct (isprime_ok nel (S fuel) Hodd ltac:(lia) Hf) as (b & Hb & Hp).
  rewrite Hb. cbn [mbind option_bind]. destruct b.
  - exists nel. split; [done|]. split; [by apply Hp|]. split; [lia|]. lia.
  - assert (nel <> 65521) by (intros ->; by apply Hp in Hmax).
    assert (nel <> 65520) by (by intros ->).
    rewrite u64_small by (unfold is_u64; lia).
    destruct (IH (nel + 2)) as (p & Hnext & Hpp & Hpr & Hno); [by rewrite Z.odd_add, Hodd|lia|lia|lia|].
    exists p. split_and!; try done; try lia.
    intros q Hq Hqr. destruct (Z.eq_dec q nel) as [->|]; [by intros Hx%Hp|].
    assert (q <> nel + 1) by (intros ->; rewrite Z.odd_add, Hodd in Hq; done).
    apply Hno; [done|lia].
Qed.

Lemma lor_1 n : Z.lor n 1 = n + 1 - n mod 2.
Proof.
  pose proof (Z.add_lor_land n 1) as H. change 1 with (Z.ones 1) in H at 2.
  rewrite Z.land_ones in H by lia. change (2 ^ 1) with 2 in H. lia.
Qed.

Lemma even_not_prime q : Z.odd q = false -> 4 <= q -> ~ Z.prime q.
Proof.
  intros Ho Hq [_ Hp]. apply (Hp 2); [lia|].
  apply Z.mod_divide; [done|]. by rewrite Zmod_odd, Ho.
Qed.

(** A table of empty slots. *)
Lemma empty_table p c e :
  Z.prime p -> 5 <= p < 2 ^ 31 -> (forall x v op fl, denies c x v op fl = false) ->
  let h := mkHtab (Some (replicate (Z.to_nat (p + 1)) zero_entry)) p 0 c e in
  represents h ∅ /\ roomy h.
Proof.
  intros Hp Hp5 Hperm h.
  assert (Hslot : forall i s, slot h i = Some s -> s = zero_entry).
  { intros i s Hs. cbn in Hs. by apply lookup_replicate in Hs as [-> _]. }
  assert (Hcount : forall n, count_live (replicate n zero_entry) = 0)
    by (induction n as [|n IH]; [done|exact IH]).
  assert (Hnone : forall k v i, ~ holds_at h k v i).
  { intros k v i (_ & s & Hs & Hu & _). rewrite (Hslot i s Hs) in Hu. cbn in Hu. lia. }
  split; [split; [split|]|].
  - done.
  - eexists. split; [done|]. split; [rewrite length_replicate; cbn; lia|].
    split; [by rewrite Hcount|]. intros s Hs. by apply lookup_replicate in Hs as [-> _].
  - intros i s _ Hs. rewrite (Hslot i s Hs). by left.
  - intros k v v' i i' Hi. by apply Hnone in Hi.
  - intros x v op fl. apply Hperm.
  - intros k v. rewrite lookup_empty. split; [done|]. intros [i Hi]. by apply Hnone in Hi.
  - exists 1, zero_entry. split; [cbn; lia|]. split; [|done].
    cbn. apply lookup_replicate. split; [done|lia].
Qed.

(** No slot of a new table has been used. *)
Lemma touched_fresh n p c e f :
  touched (mkHtab (Some (replicate n zero_entry)) p f c e) = 0.
Proof. cbn. induction n as [|n IH]; [done|exact IH]. Qed.

Lemma hcreate_ok fuel nel h :
  table h = None -> permissive h -> 4 <= nel <= 65521 -> 33000 <= Z.of_nat fuel ->
  exists p h', hcreate_r fuel (fun _ => true) nel h = Some (1, h') /\
    size h' = p /\ Z.prime p /\ nel <= p <= 65521 /\ (forall q, nel <= q < p -> ~ Z.prime q) /\
    represents h' ∅ /\ roomy h' /\ touched h' = 0.
Proof.
  intros Ht Hperm Hn Hf. unfold hcreate_r. rewrite Ht.
  assert (Hodd : Z.odd (Z.lor nel 1) = true).
  { rewrite <- Z.bit0_odd, Z.lor_spec, Z.bit0_odd. by rewrite orb_true_r. }
  pose proof (lor_1 nel) as Hl. pose proof (Z.mod_pos_bound nel 2 ltac:(lia)) as Hm.
  rewrite Zmod_odd in Hl, Hm.
  assert (Hle : nel <= Z.lor nel 1 <= 65521).
  { destruct (Z.odd nel) eqn:Ho; [lia|].
    assert (nel <> 65521) by (by intros ->). lia. }
  assert (H4 : nel <> 4 \/ Z.lor nel 1 = 5) by (destruct (Z.eq_dec nel 4) as [->|]; [by right|by left]).
  destruct (next_prime_ends fuel (Z.lor nel 1) Hodd) as (p & -> & Hp & Hpr & Hno); [lia|lia|lia|].
  destruct (empty_table p (change_ok h) (errno h) Hp ltac:(lia) Hperm) as [Hrep Hroom].
  exists p. eexists. split.
  { cbn [mbind option_bind]. rewrite (u32_small p) by (unfold is_u32; lia).
    by rewrite (u32_small (p + 1)) by (unfold is_u32; lia). }
  split; [done|]. split; [done|]. split; [lia|].
  split; [|split; [done|split; [done|apply touched_fresh]]].
  intros q Hq Hqp. destruct (Z.odd q) eqn:Hqo; [|by apply (even_not_prime q); [|lia|]].
  apply (Hno q); [done| |done]. destruct (Z.odd nel) eqn:Ho; [lia|].
  assert (q <> nel) by congruence. lia.
Qed.

(** Creating a table ends with a table whose size is the least prime that is
    at least the size asked for; it represents the empty map, and all its slots
    have never been used. *)
Theorem hcreate_makes fuel nel h :
  table h = None -> permissive h -> 4 <= nel <= 65521 -> 33000 <= Z.of_nat fuel ->
  exists p h', hcreate_r fuel (fun _ => true) nel h = Some (1, h') /\
    size h' = p /\ Z.prime p /\ nel <= p <= 65521 /\ (forall q, nel <= q < p -> ~ Z.prime q) /\
    represents h' ∅ /\ roomy h'.
Proof.
  intros Ht Hperm Hn Hf.
  destruct (hcreate_ok fuel nel h Ht Hperm Hn Hf) as (p & h' & H1 & H2 & H3 & H4 & H5 & H6 & H7 & _).
  by exists p, h'.
Qed.

(** ** Runs, and what goes wrong in them *)

(** A change of the environment: set a name or delete it. *)
Inductive change :=
  | Set_var (k v : list Z)
  | Del_var (k : list Z).

(** The changes in order, with no callbacks, no flags and memory enough. *)
Fixpoint changes (cs : list change) (h : hsearch_data) : option hsearch_data :=
  match cs with
  | [] => Some h
  | Set_var k v :: r =>
      '(_, _, h) ← hsearch_r Some (fun _ => None) (fun _ => 0) k (Some v) ENTER h 0; changes r h
  | Del_var k :: r =>
      '(_, h) ← hdelete_r Some (fun _ => None) (fun _ => 0) k h 0; changes r h
  end.

(** The value the table has for a name. *)
Definition value_of (k : list Z) (h : hsearch_data) : option (list Z) :=
  '(_, rv, h) ← hsearch_r Some (fun _ => None) (fun _ => 0) k None FIND h 0;
  i ← rv; s ← slot h i; data (entry s).

(** What the changes mean for a map. *)
Definition change_map (m : gmap (list Z) (list Z)) (c : change) : gmap (list Z) (list Z) :=
  match c with Set_var k v => <[k := v]> m | Del_var k => delete k m end.

Definition change_name (c : change) : list Z := match c with Set_var k _ | Del_var k => k end.

(** The number of names set: each can use up a slot. *)
Fixpoint sets (cs : list change) : Z :=
  match cs with
  | [] => 0
  | Set_var _ _ :: r => 1 + sets r
  | Del_var _ :: r => sets r
  end.

Lemma sets_nonneg cs : 0 <= sets cs.
Proof. induction cs as [|[k v|k] cs IH]; cbn [sets]; lia. Qed.

Lemma value_of_map h m k : represents h m -> text_ok k -> value_of k h = m !! k.
Proof.
  intros Hr Hk. unfold value_of.
  pose proof (hsearch_finds Some (fun _ => None) (fun _ => 0) ltac:(done) h m k 0 Hr Hk) as Hf.
  destruct (m !! k) as [v|].
  - destruct Hf as (i & (_ & s & Hs & _ & _ & Hd) & ->). cbn [mbind option_bind].
    by rewrite Hs.
  - by rewrite Hf.
Qed.

Lemma changes_ok cs : forall h m,
  represents h m -> Forall (fun c => text_ok (change_name c)) cs -> touched h + sets cs < size h ->
  exists h', changes cs h = Some h' /\ represents h' (foldl change_map m cs) /\
    forall k, text_ok k -> value_of k h' = foldl change_map m cs !! k.
Proof.
  induction cs as [|c cs IH]; intros h m Hr Hn Hroom.
  - exists h. split; [done|]. split; [done|]. intros k Hk. by apply value_of_map.
  - inversion Hn as [|? ? Hk Hn']; subst. pose proof Hr as [Hw _]. pose proof (sets_nonneg cs).
    destruct c as [k v|k]; cbn [changes sets change_name foldl change_map] in *.
    + destruct (hsearch_enters Some (fun _ => None) (fun _ => 0) ltac:(done) ltac:(done) h m k v 0 Hr)
        as (ret & i & h1 & -> & _ & Hr1 & _ & Hs1 & Ht1); [apply touched_roomy; [done|lia]|done|].
      cbn [mbind option_bind]. apply IH; [done|done|lia].
    + pose proof (hdelete_deletes Some (fun _ => None) (fun _ => 0) ltac:(done) h m k 0 Hr Hk) as Hd.
      destruct (m !! k) as [v|] eqn:Hmk.
      * destruct Hd as (h1 & -> & Hr1 & Hs1 & Ht1). cbn [mbind option_bind]. apply IH; [done|done|lia].
      * destruct Hd as (h1 & -> & Ht1 & Hr1 & Hs1). cbn [mbind option_bind].
        rewrite delete_id by done. apply IH; [done|done|]. unfold touched. rewrite Ht1.
        unfold touched in Hroom. lia.
Qed.

(** C33: the table refines a map from names to values: after any sequence of
    settings and deletions, in whatever order and however the names collide, it
    has exactly the names and values the map has, as long as the slots that were
    ever used and the names set are together fewer than the slots. *)
Theorem table_refines_map cs : forall h m,
  represents h m -> Forall (fun c => text_ok (change_name c)) cs -> touched h + sets cs < size h ->
  exists h', changes cs h = Some h' /\ represents h' (foldl change_map m cs) /\
    forall k, text_ok k -> value_of k h' = foldl change_map m cs !! k.
Proof. exact (changes_ok cs). Qed.

Definition no_table : hsearch_data := mkHtab None 0 0 None 0.

Definition one (name : string) : change := Set_var (chars name) (chars "1").

(** Five names in a table of size five, the first of them deleted. *)
Definition full_then_deleted : option hsearch_data :=
  '(_, h) ← hcreate_r 200 (fun _ => true) 4 no_table;
  changes [one "a"; one "b"; one "c"; one "d"; one "e"; Del_var (chars "a")] h.

(** When every slot has been used, entering a new name can destroy another:
    deleting [a] leaves no slot that was never used, the search for [g] comes
    back to its first slot, which is not a deleted one, and [g] replaces [b]
    there although [a]'s slot is free. *)
Theorem hsearch_clobbers :
  exists h h', full_then_deleted = Some h /\
    value_of (chars "b") h = Some (chars "1") /\ filled h = 4 /\
    changes [one "g"] h = Some h' /\
    value_of (chars "g") h' = Some (chars "1") /\ value_of (chars "b") h' = None.
Proof.
  do 2 eexists. split; [vm_compute; reflexivity|]. split; [vm_compute; reflexivity|].
  split; [vm_compute; reflexivity|]. split; [vm_compute; reflexivity|]. by vm_compute.
Qed.

(** The completion of names never sees the last slot: [e] is in it. *)
Theorem hmatch_misses_last :
  exists h, full_then_deleted = Some h /\ value_of (chars "e") h = Some (chars "1") /\
    hmatch_r (chars "e") 0 h = Some (0, None, set_errno ESRCH h).
Proof.
  eexists. split; [vm_compute; reflexivity|]. split; vm_compute; reflexivity.
Qed.

(** ** Witnesses *)

Definition fresh : hsearch_data :=
  mkHtab (Some (replicate 6 zero_entry)) 5 0 None 0.

Lemma prime_5 : Z.prime 5.
Proof.
  destruct (isprime_ok 5 129 eq_refl) as (b & Hb & Hp); [lia|lia|].
  apply Hp. vm_compute in Hb. by injection Hb as <-.
Qed.

Lemma fresh_represents : represents fresh ∅.
Proof. apply (empty_table 5 None 0 prime_5); [lia|done]. Qed.

Lemma table_refines_map_witness :
  exists h', changes [one "boot"; one "ip"; Del_var (chars "boot"); one "gw"] fresh = Some h' /\
    represents h' (foldl change_map ∅ [one "boot"; one "ip"; Del_var (chars "boot"); one "gw"]) /\
    forall k, text_ok k ->
      value_of k h' = foldl change_map ∅ [one "boot"; one "ip"; Del_var (chars "boot"); one "gw"] !! k.
Proof.
  apply (table_refines_map _ fresh ∅ fresh_represents).
  - refine (bool_decide_eq_true_1 _ _). vm_compute. reflexivity.
  - reflexivity.
Defined.

Lemma hcreate_makes_witness :
  exists p h', hcreate_r (Z.to_nat 33000) (fun _ => true) 64 no_table = Some (1, h') /\
    size h' = p /\ Z.prime p /\ 64 <= p <= 65521 /\ (forall q, 64 <= q < p -> ~ Z.prime q) /\
    represents h' ∅ /\ roomy h'.
Proof.
  apply (hcreate_makes (Z.to_nat 33000) 64 no_table); [reflexivity|intros e v op fl; reflexivity|lia|].
  rewrite Z2Nat.id; lia.
Defined.
