(* ===== verification/EnvText.v ===== *)
(** The environment as text (src/U-Boot/lib/hashtable.c): [hexport_r] writes the
    entries of the hash table as "name=value" strings in the order of the names,
    [himport_r] reads such a text into a table.  Both work in byte buffers
    through pointers; here a buffer is a list and a pointer an index into it, and
    an access outside is [None].  Messages to the console leave no trace. *)

From stdpp Require Import sorting.
From S2P Require Import Prelude UStr QSort HashTable.

(** include/search.h *)
Definition H_NOCLEAR : Z := Z.shiftl 1 0.
Definition H_HIDE_DOT : Z := Z.shiftl 1 3.
Definition H_MATCH_KEY : Z := Z.shiftl 1 4.
Definition H_MATCH_DATA : Z := Z.shiftl 1 5.
Definition H_MATCH_IDENT : Z := Z.shiftl 1 6.
Definition H_MATCH_SUBSTR : Z := Z.shiftl 1 7.
Definition H_MATCH_REGEX : Z := Z.shiftl 1 8.
Definition H_MATCH_METHOD : Z := Z.lor (Z.lor H_MATCH_IDENT H_MATCH_SUBSTR) H_MATCH_REGEX.

Definition CONFIG_ENV_MIN_ENTRIES : Z := 64.
Definition CONFIG_ENV_MAX_ENTRIES : Z := 512.

(** What the export asks of the regular expression library: compiling, which can
    fail, and matching. *)
Class Slre := {
  slre : Type;
  slre_compile : list Z -> option slre;
  slre_match : slre -> list Z -> bool;
}.

(** ** hexport *)

(** Names are not null in live entries; a null pointer is undefined. *)
Definition cmpkey (e1 e2 : ENTRY) : option Z :=
  k1 ← key e1; k2 ← key e2; strcmp (cstr k1 []) (cstr k2 []).

(** [*p++ = c] into a buffer: a place outside is undefined. *)
Definition put (c : Z) (st : list Z * Z) : option (list Z * Z) :=
  if st.2 <? Z.of_nat (length st.1) then Some (<[Z.to_nat st.2 := c]> st.1, st.2 + 1) else None.

(** The copying of a name. *)
Fixpoint put_key (s : list Z) (st : list Z * Z) : option (list Z * Z) :=
  match s with
  | [] => Some st
  | c :: r => st ← put c st; put_key r st
  end.

(** The value, with a backslash before each separator and backslash. *)
Fixpoint put_data (sep : Z) (s : list Z) (st : list Z * Z) : option (list Z * Z) :=
  match s with
  | [] => Some st
  | c :: r =>
      st ← (if (c =? sep) || (c =? 92) then put 92 st else Some st);
      st ← put c st; put_data sep r st
  end.

(** Pass 2: the entries in order. *)
Fixpoint put_entries (sep : Z) (l : list ENTRY) (st : list Z * Z) : option (list Z * Z) :=
  match l with
  | [] => Some st
  | e :: l =>
      k ← key e; d ← data e;
      st ← put_key (until0 k) st;
      st ← put 61 st;
      st ← put_data sep (until0 d) st;
      st ← put sep st;
      put_entries sep l st
  end.

(** The length pass 1 counts for a value. *)
Fixpoint escaped_len (sep : Z) (s : list Z) : Z :=
  match s with
  | [] => 0
  | c :: r => 1 + (if (c =? sep) || (c =? 92) then 1 else 0) + escaped_len sep r
  end.

Section Matching.
Context `{Slre}.

Definition match_string (flag : Z) (str pat : list Z) (priv : slre) : option bool :=
  let method := Z.land flag H_MATCH_METHOD in
  if method =? H_MATCH_IDENT then r ← strcmp (cstr str []) (cstr pat []); Some (r =? 0)
  else if method =? H_MATCH_SUBSTR then r ← strstr (cstr str []) (cstr pat []); Some (bool_decide (is_Some r))
  else if method =? H_MATCH_REGEX then Some (slre_match priv str)
  else Some false.

Fixpoint match_entry (ep : ENTRY) (flag : Z) (argv : list (list Z)) : option bool :=
  match argv with
  | [] => Some false
  | arg :: argv =>
      match slre_compile arg with
      | None => Some false
      | Some priv =>
          k ← key ep; d ← data ep;
          a ← (if negb (Z.land flag H_MATCH_KEY =? 0) then match_string flag k arg priv else Some false);
          if a : bool then Some true else
          b ← (if negb (Z.land flag H_MATCH_DATA =? 0) then match_string flag d arg priv else Some false);
          if b : bool then Some true else match_entry ep flag argv
      end
  end.

(** Pass 1: the entries to export, in the order of the slots, and the length
    their text is taken to have. *)
Fixpoint collect (idxs : list Z) (htab : hsearch_data) (sep flag : Z) (argv : list (list Z))
    : option (list ENTRY * Z) :=
  match idxs with
  | [] => Some ([], 0)
  | i :: r =>
      s ← slot htab i;
      if 0 <? used s then
        let ep := entry s in
        found ← match_entry ep flag argv;
        if (0 <? Z.of_nat (length argv)) && negb found then collect r htab sep flag argv else
        k ← key ep;
        if negb (Z.land flag H_HIDE_DOT =? 0) && (default 0 (head k) =? 46)
        then collect r htab sep flag argv else
        klen ← strlen (cstr k []);
        d ← data ep;
        dlen ← (if sep =? 0 then strlen (cstr d []) else Some (escaped_len sep (until0 d)));
        '(l, totlen) ← collect r htab sep flag argv;
        Some (ep :: l, klen + 2 + dlen + 2 + totlen)
      else collect r htab sep flag argv
  end.

(** The result: the return value, the buffer and the table with [errno].  The
    buffer of the caller is cleared; one of its own is asked of [calloc]. *)
Definition hexport_r (calloc : Z -> bool) (htab : hsearch_data) (sep flag : Z)
    (resp : option (list Z)) (size : Z) (argv : list (list Z))
    : option (Z * option (list Z) * hsearch_data) :=
  '(l, totlen) ← collect (seqZ 1 (HashTable.size htab)) htab sep flag argv;
  l ← qsort cmpkey l;
  if negb (size =? 0) && (size <? totlen + 1) then Some (-1, resp, set_errno ENOMEM htab) else
  let size := if size =? 0 then totlen + 1 else size in
  match resp with
  | Some buf =>
      if Z.of_nat (length buf) <? size then None else
      '(buf, p) ← put_entries sep l (replicate (Z.to_nat size) 0 ++ drop (Z.to_nat size) buf, 0);
      '(buf, _) ← put 0 (buf, p);
      Some (size, Some buf, htab)
  | None =>
      if calloc size then
        '(buf, p) ← put_entries sep l (replicate (Z.to_nat size) 0, 0);
        '(buf, _) ← put 0 (buf, p);
        Some (size, Some buf, htab)
      else Some (-1, None, set_errno ENOMEM htab)
  end.
End Matching.

(** ** himport *)

(** [*dp], and [*sp = c]. *)
Definition ld (data : list Z) (i : Z) : option Z := if i <? 0 then None else data !! Z.to_nat i.

Definition store (i c : Z) (data : list Z) : option (list Z) :=
  if (0 <=? i) && (i <? Z.of_nat (length data)) then Some (<[Z.to_nat i := c]> data) else None.

(** The string at an index: it must end within the buffer. *)
Definition string_from (data : list Z) (i : Z) : option (list Z) :=
  _ ← strlen (drop (Z.to_nat i) data); Some (until0 (drop (Z.to_nat i) data)).

(** The variables asked for that are left; all occurrences of a name are
    dropped, and the result tells whether there were any. *)
Definition drop_var_from_set (nm : list Z) (vars : list (option (list Z)))
    : option (bool * list (option (list Z))) :=
  if (length vars =? 0)%nat then Some (true, vars) else
  foldr (fun v acc =>
    '(res, vs) ← acc;
    match v with
    | None => Some (res, None :: vs)
    | Some v' =>
        r ← strcmp (cstr nm []) (cstr v' []);
        Some (if r =? 0 then (true, None :: vs) else (res, Some v' :: vs))
    end) (Some (false, [])) vars.

(** [for (;dp < data + size && *dp; ++dp)]: carriage returns before line feeds
    are squeezed out. *)
Fixpoint squeeze_crs (fuel : nat) (data : list Z) (size dp ignored_crs : Z) : option (list Z * Z) :=
  match fuel with
  | O => None
  | S n =>
      if negb (dp <? size) then Some (data, ignored_crs) else
      c ← ld data dp;
      if c =? 0 then Some (data, ignored_crs) else
      lf ← (if (c =? 13) && (dp <? size - 1) then ld data (dp + 1) else Some 0);
      if (c =? 13) && (dp <? size - 1) && (lf =? 10)
      then squeeze_crs n data size (dp + 1) (ignored_crs + 1)
      else
        data ← store (dp - ignored_crs) c data;
        squeeze_crs n data size (dp + 1) ignored_crs
  end.

(** [while (isblank(c)) ++dp;] *)
Fixpoint skip_blanks (fuel : nat) (data : list Z) (dp : Z) : option Z :=
  match fuel with
  | O => None
  | S n => c ← ld data dp; if isblank c then skip_blanks n data (dp + 1) else Some dp
  end.

(** [while ( *dp && ( *dp != sep)) ++dp;] and, with ['='] a stop too, the name. *)
Fixpoint skip_to (fuel : nat) (stops : list Z) (data : list Z) (dp : Z) : option Z :=
  match fuel with
  | O => None
  | S n =>
      c ← ld data dp;
      if (c =? 0) || bool_decide (c ∈ stops) then Some dp else skip_to n stops data (dp + 1)
  end.

(** The value is copied down over its escapes. *)
Fixpoint unescape (fuel : nat) (sep : Z) (data : list Z) (dp sp : Z) : option (list Z * Z * Z) :=
  match fuel with
  | O => None
  | S n =>
      c ← ld data dp;
      if (c =? 0) || (c =? sep) then Some (data, dp, sp) else
      c1 ← (if c =? 92 then ld data (dp + 1) else Some 0);
      let dp := if (c =? 92) && negb (c1 =? 0) then dp + 1 else dp in
      c ← ld data dp;
      data ← store sp c data;
      unescape n sep data (dp + 1) (sp + 1)
  end.

Section Importing.
Context (strdup : list Z -> option (list Z)).
Context (callback_init : list Z -> option callback_fn) (flags_init : list Z -> Z).

(** What a round of the parser leaves: the buffer, where it stands, the
    variables left and the table; or the failure for an empty name. *)
Inductive round_result :=
  | Going (data : list Z) (dp : Z) (vars : list (option (list Z))) (htab : hsearch_data)
  | Bad (htab : hsearch_data).

(** The body of [do ... while]: [continue] goes on to the loop's test too. *)
Definition import_round (fuel : nat) (sep flag : Z) (data : list Z) (dp : Z)
    (vars : list (option (list Z))) (htab : hsearch_data) : option round_result :=
  dp ← skip_blanks fuel data dp;
  c ← ld data dp;
  if c =? 35 then
    dp ← skip_to fuel [sep] data dp; Some (Going data (dp + 1) vars htab)
  else
  let name := dp in
  dp ← skip_to fuel [61; sep] data dp;
  c ← ld data dp;
  del ← (if c =? 0 then Some true else
           c1 ← ld data (dp + 1); Some ((c1 =? 0) || (c =? sep) || (c1 =? sep)));
  if del : bool then
    '(data, dp) ← (if c =? 61 then data ← store dp 0 data; Some (data, dp + 1) else Some (data, dp));
    data ← store dp 0 data;
    let dp := dp + 1 in
    nm ← string_from data name;
    '(wanted, vars) ← drop_var_from_set nm vars;
    if negb wanted then Some (Going data dp vars htab) else
    '(_, htab) ← hdelete_r strdup callback_init flags_init nm htab flag;
    Some (Going data dp vars htab)
  else
    data ← store dp 0 data;
    let value := dp + 1 in
    '(data, dp, sp) ← unescape fuel sep data value value;
    data ← store sp 0 data;
    let dp := dp + 1 in
    nm ← string_from data name;
    if (length nm =? 0)%nat then Some (Bad (set_errno EINVAL htab)) else
    '(wanted, vars) ← drop_var_from_set nm vars;
    if negb wanted then Some (Going data dp vars htab) else
    v ← string_from data value;
    '(_, _, htab) ← hsearch_r strdup callback_init flags_init nm (Some v) ENTER htab flag;
    Some (Going data dp vars htab).

(** [while ((dp < data + size) && *dp)] *)
Fixpoint import_rounds (rounds fuel : nat) (size sep flag : Z) (data : list Z) (dp : Z)
    (vars : list (option (list Z))) (htab : hsearch_data) : option round_result :=
  match rounds with
  | O => None
  | S n =>
      r ← import_round fuel sep flag data dp vars htab;
      match r with
      | Bad h => Some (Bad h)
      | Going data dp vars htab =>
          more ← (if dp <? size then c ← ld data dp; Some (negb (c =? 0)) else Some false);
          if more : bool then import_rounds n fuel size sep flag data dp vars htab
          else Some (Going data dp vars htab)
      end
  end.

(** The variables asked for that the text did not have are deleted. *)
Fixpoint delete_left (vars : list (option (list Z))) (flag : Z) (htab : hsearch_data)
    : option hsearch_data :=
  match vars with
  | [] => Some htab
  | None :: vars => delete_left vars flag htab
  | Some v :: vars =>
      '(_, htab) ← hdelete_r strdup callback_init flags_init v htab flag;
      delete_left vars flag htab
  end.

(** [env] is an object of at least [size] bytes. *)
Definition himport_r (fuel : nat) (malloc : Z -> bool) (htab : hsearch_data) (env : list Z)
    (size sep flag : Z) (crlf_is_lf : bool) (vars : list (list Z)) : option (Z * hsearch_data) :=
  if negb (malloc (size + 1)) then Some (0, set_errno ENOMEM htab) else
  if Z.of_nat (length env) <? size then None else
  let data := take (Z.to_nat size) env ++ [0] in
  htab ← (if (Z.land flag H_NOCLEAR =? 0) && bool_decide (is_Some (table htab))
          then hdestroy_r htab else Some htab);
  '(made, htab) ← (match table htab with
    | Some _ => Some (1, htab)
    | None =>
        let nent := s32 (CONFIG_ENV_MIN_ENTRIES + size / 8) in
        let nent := if CONFIG_ENV_MAX_ENTRIES <? nent then CONFIG_ENV_MAX_ENTRIES else nent in
        hcreate_r fuel malloc (u64 nent) htab
    end);
  if made =? 0 then Some (0, htab) else
  if size =? 0 then Some (1, htab) else
  '(data, size) ← (if crlf_is_lf then
      '(data, ignored) ← squeeze_crs (S (length data)) data size 0 0; Some (data, size - ignored)
    else Some (data, size));
  r ← import_rounds (S (length data)) (S (length data)) size sep flag data 0 (map Some vars) htab;
  match r with
  | Bad h => Some (0, h)
  | Going _ _ vars htab => htab ← delete_left vars flag htab; Some (1, htab)
  end.
End Importing.

(** ** The text of an environment *)

Definition escape (sep : Z) (v : list Z) : list Z :=
  flat_map (fun c => if (c =? sep) || (c =? 92) then [92; c] else [c]) v.

(** "name=value", ended by the separator. *)
Definition line (sep : Z) (kv : list Z * list Z) : list Z := kv.1 ++ 61 :: escape sep kv.2 ++ [sep].

Definition text_of (sep : Z) (kvs : list (list Z * list Z)) : list Z := flat_map (line sep) kvs.

(** An entry with a name and a value, both of them strings. *)
Definition entry_is (e : ENTRY) (kv : list Z * list Z) : Prop :=
  key e = Some kv.1 /\ data e = Some kv.2 /\ text_ok kv.1 /\ text_ok kv.2.

Lemma escaped_len_escape sep v : escaped_len sep v = Z.of_nat (length (escape sep v)).
Proof.
  induction v as [|c v IH]; [done|]. cbn [escaped_len]. unfold escape in *. cbn [flat_map].
  rewrite length_app, IH. destruct ((c =? sep) || (c =? 92)); simpl; lia.
Qed.

Lemma escape_longer sep v : (length v <= length (escape sep v))%nat.
Proof.
  unfold escape. induction v as [|c v IH]; [done|]. cbn [flat_map length]. rewrite length_app.
  destruct ((c =? sep) || (c =? 92)); cbn [length]; lia.
Qed.

Lemma text_of_length sep kvs : (length kvs <= length (text_of sep kvs))%nat.
Proof.
  unfold text_of. induction kvs as [|kv kvs IH]; [done|]. cbn [flat_map length]. rewrite length_app.
  unfold line at 1. rewrite length_app. cbn [length]. lia.
Qed.

(** *** Writing *)

(** A buffer of which [P] has been written and [B] is left, and the place of [p]. *)
Definition wrote (P B : list Z) : list Z * Z := (P ++ B, Z.of_nat (length P)).

Lemma put_wrote c P b B : put c (wrote P (b :: B)) = Some (wrote (P ++ [c]) B).
Proof.
  unfold put, wrote. cbn [fst snd]. rewrite length_app. cbn [length].
  destruct (Z.ltb_spec (Z.of_nat (length P)) (Z.of_nat (length P + S (length B)))); [|lia].
  rewrite Nat2Z.id. do 2 f_equal.
  - replace (length P) with (length P + 0)%nat by lia. rewrite insert_app_r. by rewrite <- app_assoc.
  - rewrite length_app. simpl. lia.
Qed.

(** There is room for one more. *)
Lemma put_room c P B : (1 <= length B)%nat -> put c (wrote P B) = Some (wrote (P ++ [c]) (drop 1 B)).
Proof. destruct B as [|b B]; simpl; [lia|]. intros _. by rewrite put_wrote, drop_0. Qed.

Lemma wrote_assoc P w w' B : wrote ((P ++ w) ++ w') B = wrote (P ++ w ++ w') B.
Proof. by rewrite <- app_assoc. Qed.

Lemma put_key_wrote k : forall P B, (length k <= length B)%nat ->
  put_key k (wrote P B) = Some (wrote (P ++ k) (drop (length k) B)).
Proof.
  induction k as [|c k IH]; intros P B Hl; cbn [put_key length] in *; [by rewrite app_nil_r|].
  rewrite put_room by lia. cbn [mbind option_bind].
  rewrite IH by (rewrite length_drop; lia). by rewrite drop_drop, wrote_assoc.
Qed.

Lemma put_data_wrote sep v : forall P B, (length (escape sep v) <= length B)%nat ->
  put_data sep v (wrote P B) = Some (wrote (P ++ escape sep v) (drop (length (escape sep v)) B)).
Proof.
  induction v as [|c v IH]; intros P B Hl; cbn [put_data]; [by rewrite app_nil_r|].
  unfold escape in *. cbn [flat_map] in *. rewrite length_app in Hl.
  destruct ((c =? sep) || (c =? 92)); cbn [length] in Hl.
  - rewrite put_room by lia. cbn [mbind option_bind].
    rewrite put_room by (rewrite length_drop; lia). cbn [mbind option_bind].
    rewrite IH by (rewrite !length_drop; lia). by rewrite !drop_drop, !wrote_assoc, length_app.
  - cbn [mbind option_bind]. rewrite put_room by lia. cbn [mbind option_bind].
    rewrite IH by (rewrite !length_drop; lia). by rewrite !drop_drop, !wrote_assoc, length_app.
Qed.

Lemma put_entries_wrote sep l kvs : Forall2 entry_is l kvs -> forall P B,
  (length (text_of sep kvs) <= length B)%nat ->
  put_entries sep l (wrote P B) = Some (wrote (P ++ text_of sep kvs) (drop (length (text_of sep kvs)) B)).
Proof.
  induction 1 as [|e [k v] l kvs (Hk & Hd & Htk & Htv) Hl IH]; intros P B Hlen; cbn [put_entries].
  { by rewrite app_nil_r. }
  unfold text_of in *. cbn [flat_map fst snd] in *. unfold line in *. cbn [fst snd] in *.
  rewrite Hk, Hd. cbn [mbind option_bind]. rewrite !until0_text by done.
  repeat (rewrite length_app in Hlen; cbn [length] in Hlen).
  rewrite put_key_wrote by lia. cbn [mbind option_bind].
  rewrite put_room by (rewrite length_drop; lia). cbn [mbind option_bind].
  rewrite put_data_wrote by (rewrite !length_drop; lia). cbn [mbind option_bind].
  rewrite put_room by (rewrite !length_drop; lia). cbn [mbind option_bind].
  rewrite IH by (rewrite !length_drop; lia). rewrite !drop_drop, !wrote_assoc.
  f_equal. f_equal.
  - rewrite <- !app_assoc. cbn [app]. by rewrite <- !app_assoc.
  - f_equal. rewrite !length_app. cbn [length]. rewrite !length_app. simpl. lia.
Qed.

(** *** Collecting *)

(** The length pass 1 counts for an entry: four more than the key and the value
    take, and for a NUL separator without the escapes. *)
Definition counted (sep : Z) (kv : list Z * list Z) : Z :=
  Z.of_nat (length kv.1) + 2 +
    (if sep =? 0 then Z.of_nat (length kv.2) else Z.of_nat (length (escape sep kv.2))) + 2.

Definition counted_all (sep : Z) (kvs : list (list Z * list Z)) : Z :=
  foldr (fun kv n => counted sep kv + n) 0 kvs.

Lemma counted_all_cons sep kv kvs : counted_all sep (kv :: kvs) = counted sep kv + counted_all sep kvs.
Proof. done. Qed.

(** The values of a map are strings. *)
Definition values_ok (m : gmap (list Z) (list Z)) : Prop := forall k v, m !! k = Some v -> text_ok v.

Section Exporting.
Context `{Slre}.
Context (h : hsearch_data) (m : gmap (list Z) (list Z)) (Hrep : represents h m) (Hval : values_ok m).

(** A live slot has a name and a value, both strings. *)
Lemma live_entry i s : 1 <= i <= size h -> slot h i = Some s -> 0 < used s ->
  exists kv, entry_is (entry s) kv /\ holds_at h kv.1 kv.2 i.
Proof.
  intros Hi Hs Hu. destruct Hrep as [Hw Hm].
  destruct (wf_slot h Hw i s Hi Hs) as [|[|(k & v & Hk & Hv & Htk & _)]]; [lia|lia|].
  assert (Hat : holds_at h k v i) by (split; [done|]; by exists s).
  exists (k, v). split; [|done]. split; [done|]. split; [done|]. split; [done|].
  apply (Hval k). apply Hm. by exists i.
Qed.

(** Pass 1 over a set of slots: the entries they hold, in order. *)
Lemma collect_ok sep flag idxs :
  Z.land flag H_HIDE_DOT = 0 -> NoDup idxs -> (forall i, i ∈ idxs -> 1 <= i <= size h) ->
  exists l kvs, collect idxs h sep flag [] = Some (l, counted_all sep kvs) /\ Forall2 entry_is l kvs /\
    NoDup kvs.*1 /\ (forall k v, (k, v) ∈ kvs <-> exists i, i ∈ idxs /\ holds_at h k v i).
Proof.
  intros Hf. induction idxs as [|i idxs IH]; intros Hnd Hin.
  { exists [], []. split; [done|]. split; [done|]. split; [constructor|]. intros k v.
    rewrite elem_of_nil. split; [done|]. intros (i & Hi & _). by apply elem_of_nil in Hi. }
  apply NoDup_cons in Hnd as [Hni Hnd].
  destruct IH as (l & kvs & Hc & Hl & Hkd & Hiff); [done|intros j Hj; apply Hin; by right|].
  assert (Hi : 1 <= i <= size h) by (apply Hin; left). destruct Hrep as [Hw Hm].
  destruct (slot_some h i Hw) as [s Hs]; [lia|]. cbn [collect]. rewrite Hs. cbn [mbind option_bind].
  destruct (Z.ltb_spec 0 (used s)) as [Hu|Hu].
  - destruct (live_entry i s Hi Hs Hu) as ([k v] & He & Hat). pose proof He as (Hk & Hd & Htk & Htv).
    cbn [fst snd] in *. cbn [match_entry mbind option_bind length]. change (0 <? Z.of_nat 0) with false.
    cbn [andb]. rewrite Hk, Hd, Hf. change (0 =? 0) with true. cbn [negb andb mbind option_bind].
    rewrite !strlen_cstr by done. cbn [mbind option_bind]. rewrite until0_text by done.
    exists (entry s :: l), ((k, v) :: kvs).
    split; [|split; [by constructor|split]].
    + rewrite counted_all_cons. unfold counted at 1. cbn [fst snd].
      destruct (sep =? 0); cbn [mbind option_bind]; rewrite Hc; cbn [mbind option_bind];
        rewrite ?escaped_len_escape; reflexivity.
    + cbn. constructor; [|done]. intros ([k' v'] & Heq & Hin')%list_elem_of_fmap. cbn in Heq. subst k'.
      apply Hiff in Hin' as (j & Hj & Hatj). by rewrite (wf_unique h Hw k v v' i j Hat Hatj) in Hni.
    + intros k' v'. rewrite elem_of_cons, Hiff. split.
      * intros [Heq|(j & Hj & Hatj)]; [injection Heq as -> ->; exists i; split; [left|done]|].
        exists j. split; [by right|done].
      * intros (j & [->|Hj]%elem_of_cons & Hatj); [left|right; by exists j].
        destruct Hatj as (_ & s' & Hs' & _ & Hk' & Hd'). rewrite Hs in Hs'. injection Hs' as <-. congruence.
  - exists l, kvs. split; [done|]. split; [done|]. split; [done|]. intros k v. rewrite Hiff. split.
    + intros (j & Hj & Hatj). exists j. split; [by right|done].
    + intros (j & [->|Hj]%elem_of_cons & Hatj); [|by exists j].
      destruct Hatj as (_ & s' & Hs' & Hu' & _). rewrite Hs in Hs'. injection Hs' as <-. lia.
Qed.

(** All slots: the entries are the names and values of the map. *)
Lemma collect_all sep flag : Z.land flag H_HIDE_DOT = 0 ->
  exists l kvs, collect (seqZ 1 (size h)) h sep flag [] = Some (l, counted_all sep kvs) /\
    Forall2 entry_is l kvs /\ NoDup kvs.*1 /\ (forall k v, (k, v) ∈ kvs <-> m !! k = Some v).
Proof.
  intros Hf. destruct (collect_ok sep flag (seqZ 1 (size h)) Hf) as (l & kvs & H1 & H2 & H3 & H4).
  { apply NoDup_seqZ. }
  { intros i Hi%elem_of_seqZ. lia. }
  exists l, kvs. split; [done|]. split; [done|]. split; [done|]. intros k v. rewrite H4.
  destruct Hrep as [_ Hm]. rewrite Hm. split.
  - intros (i & _ & Hat). by exists i.
  - intros [i Hat]. exists i. split; [|done]. destruct Hat as [Hi _]. apply elem_of_seqZ. lia.
Qed.
(** *** Sorting *)

Definition pair_of (e : ENTRY) : list Z * list Z := (default [] (key e), default [] (data e)).

Lemma entry_pair e kv : entry_is e kv -> pair_of e = kv.
Proof. destruct kv as [k v]. intros (Hk & Hd & _). unfold pair_of. by rewrite Hk, Hd. Qed.

Lemma entries_pairs l kvs : Forall2 entry_is l kvs -> kvs = map pair_of l.
Proof. induction 1 as [|e kv l kvs He _ IH]; [done|]. cbn [map]. by rewrite (entry_pair e kv He), <- IH. Qed.

(** What the export lists: the pairs of the map, in the order of the names. *)
Definition listing (kvs : list (list Z * list Z)) : Prop :=
  NoDup kvs.*1 /\ StronglySorted (fun a b => lex a.1 b.1 = true) kvs /\
  (forall k v, (k, v) ∈ kvs <-> m !! k = Some v).

(** Names are plain text. *)
Hypothesis Hnames : forall k v, m !! k = Some v -> ascii_text k.

Definition sortable (e : ENTRY) : Prop := exists kv, entry_is e kv /\ ascii_text kv.1.

Lemma cmpkey_sorts l : Forall sortable l ->
  exists l', qsort cmpkey l = Some l' /\
    StronglySorted (fun a b => lex (pair_of a).1 (pair_of b).1 = true) l' /\ l' ≡ₚ l.
Proof.
  assert (Hc : forall a b, sortable a -> sortable b ->
    cmpkey a b = strcmp_compar (cstr (pair_of a).1 []) (cstr (pair_of b).1 []) /\
    ascii_text (pair_of a).1 /\ ascii_text (pair_of b).1).
  { intros a b (kva & Ha & Hta) (kvb & Hb & Htb). rewrite (entry_pair a kva Ha), (entry_pair b kvb Hb).
    destruct Ha as (Ha & _), Hb as (Hb & _). unfold cmpkey. by rewrite Ha, Hb. }
  apply (qsort_ok cmpkey sortable).
  - intros a b Ha Hb. destruct (Hc a b Ha Hb) as (-> & Hta & Htb). by apply names_compare.
  - intros a b c Ha Hb. destruct (Hc a b Ha Hb) as (-> & Hta & Htb). by apply names_order.
  - intros a b c _ _ _. apply lex_trans.
Qed.

Lemma counted_all_perm sep kvs kvs' : kvs ≡ₚ kvs' -> counted_all sep kvs = counted_all sep kvs'.
Proof. induction 1; rewrite ?counted_all_cons; lia. Qed.

(** Pass 1 and the sorting together. *)
Lemma sorted_entries sep flag : Z.land flag H_HIDE_DOT = 0 ->
  exists l l' kvs, collect (seqZ 1 (size h)) h sep flag [] = Some (l, counted_all sep kvs) /\
    qsort cmpkey l = Some l' /\ Forall2 entry_is l' kvs /\ listing kvs.
Proof.
  intros Hf. destruct (collect_all sep flag Hf) as (l & kvs & Hc & Hl & Hnd & Hiff).
  assert (Hkv : forall kv, kv ∈ kvs -> ascii_text kv.1)
    by (intros [k v] Hin; apply (Hnames k v); by apply Hiff).
  assert (Hs : Forall (fun e => exists kv, kv ∈ kvs /\ entry_is e kv) l).
  { clear -Hl. induction Hl as [|e kv l kvs He _ IH]; constructor.
    - exists kv. split; [by left|done].
    - eapply Forall_impl; [exact IH|]. intros e' (kv' & Hin & He'). exists kv'. split; [by right|done]. }
  destruct (cmpkey_sorts l) as (l' & Hq & Hsort & Hperm).
  { eapply Forall_impl; [exact Hs|]. intros e (kv & Hin & He). exists kv. split; [done|by apply Hkv]. }
  assert (Hp : map pair_of l' ≡ₚ kvs) by (rewrite (entries_pairs l kvs Hl); by apply Permutation_map).
  exists l, l', (map pair_of l'). split; [by rewrite (counted_all_perm sep _ _ Hp)|]. split; [done|]. split; [|split; [|split]].
  - rewrite <- Hperm in Hs. clear -Hs. induction Hs as [|e l' (kv & _ & He) _ IH]; constructor; [|done].
    by rewrite (entry_pair e kv He).
  - by rewrite Hp.
  - clear -Hsort. induction Hsort as [|e l' Hs IH Hall]; constructor; [done|].
    by apply Forall_map.
  - intros k v. by rewrite Hp.
Qed.

(** *** The text fits *)

(** The room counted is enough for a separator that is not NUL, and for a NUL as
    long as no value has a backslash. *)
Definition escapes_counted (sep : Z) : Prop :=
  sep <> 0 \/ forall k v, m !! k = Some v -> 92 ∉ v.

Lemma escape_plain v : text_ok v -> 92 ∉ v -> escape 0 v = v.
Proof.
  unfold escape. induction 1 as [|c v Hc Hv IH]; [done|]. intros [Hne Hnin]%not_elem_of_cons.
  cbn [flat_map]. destruct (Z.eqb_spec c 0); [lia|]. destruct (Z.eqb_spec c 92); [lia|].
  cbn [orb app]. by rewrite IH.
Qed.

Lemma text_counted sep kvs : escapes_counted sep -> (forall k v, (k, v) ∈ kvs -> m !! k = Some v) ->
  Z.of_nat (length (text_of sep kvs)) + 2 * Z.of_nat (length kvs) = counted_all sep kvs.
Proof.
  intros Hesc. induction kvs as [|[k v] kvs IH]; intros Hin; [done|].
  rewrite counted_all_cons, <- IH by (intros; apply Hin; by right).
  unfold text_of. cbn [flat_map]. unfold line, counted. cbn [fst snd length].
  rewrite length_app, length_app. cbn [length]. rewrite length_app. cbn [length].
  assert (Hv : m !! k = Some v) by (apply Hin; left).
  destruct (Z.eqb_spec sep 0) as [->|]; [|lia].
  destruct Hesc as [|Hb]; [done|]. rewrite escape_plain; [lia| |].
  - by apply (Hval k).
  - by apply (Hb k).
Qed.

(** Pass 2 into a buffer with room for the text and its end. *)
Lemma entries_written sep l kvs (B : list Z) : Forall2 entry_is l kvs ->
  (length (text_of sep kvs) < length B)%nat ->
  exists buf p, put_entries sep l (B, 0) = Some (buf, p) /\
    put 0 (buf, p) = Some (wrote (text_of sep kvs ++ [0]) (drop (S (length (text_of sep kvs))) B)).
Proof.
  intros Hl Hlen. pose proof (put_entries_wrote sep l kvs Hl [] B ltac:(lia)) as Hp.
  pose proof (put_room 0 (text_of sep kvs) (drop (length (text_of sep kvs)) B)) as Hq.
  do 2 eexists. split; [exact Hp|]. cbn [app]. rewrite drop_drop in Hq.
  replace (S (length (text_of sep kvs))) with (length (text_of sep kvs) + 1)%nat by lia.
  apply Hq. rewrite length_drop. lia.
Qed.

(** An export: a buffer that is too small, or the text, its end, and what was
    there before beyond the size given. *)
Definition export_buffer (sep size : Z) (kvs : list (list Z * list Z)) (rest : list Z) : list Z :=
  let text := text_of sep kvs in
  text ++ [0] ++ replicate (Z.to_nat size - S (length text)) 0 ++ rest.

Lemma export_filled sep size l kvs rest : Forall2 entry_is l kvs ->
  Z.of_nat (length (text_of sep kvs)) < size ->
  exists buf p q, put_entries sep l (replicate (Z.to_nat size) 0 ++ rest, 0) = Some (buf, p) /\
    put 0 (buf, p) = Some (export_buffer sep size kvs rest, q).
Proof.
  intros Hl Hlen.
  destruct (entries_written sep l kvs (replicate (Z.to_nat size) 0 ++ rest) Hl) as (buf & p & Hb & Hp).
  { rewrite length_app, length_replicate. lia. }
  exists buf, p, (Z.of_nat (length (text_of sep kvs ++ [0]))). split; [done|]. rewrite Hp.
  unfold wrote, export_buffer. do 2 f_equal. rewrite <- app_assoc. do 2 f_equal.
  rewrite drop_app_le by (rewrite length_replicate; lia). by rewrite drop_replicate.
Qed.

(** An export that allocates its own buffer. *)
Lemma hexport_allocates calloc sep flag :
  Z.land flag H_HIDE_DOT = 0 -> escapes_counted sep ->
  exists kvs, listing kvs /\
    let size := Z.of_nat (length (text_of sep kvs)) + 2 * Z.of_nat (length kvs) + 1 in
    hexport_r calloc h sep flag None 0 [] =
      if calloc size then Some (size, Some (export_buffer sep size kvs []), h)
      else Some (-1, None, set_errno ENOMEM h).
Proof.
  intros Hf Hesc. destruct (sorted_entries sep flag Hf) as (l & l' & kvs & Hc & Hq & Hl & Hk).
  exists kvs. split; [done|]. intros size. unfold hexport_r. rewrite Hc. cbn [mbind option_bind].
  rewrite Hq. cbn [mbind option_bind]. change (0 =? 0) with true. cbn [negb andb].
  rewrite <- (text_counted sep kvs Hesc) by (by intros; apply Hk). fold size.
  destruct (calloc size); [|done].
  destruct (export_filled sep size l' kvs [] Hl) as (buf & p & q & Hb & Hp); [unfold size; lia|].
  rewrite app_nil_r in Hb. rewrite Hb. cbn [mbind option_bind]. rewrite Hp. done.
Qed.

(** An export into the buffer of the caller. *)
Lemma hexport_into calloc sep flag buf size :
  Z.land flag H_HIDE_DOT = 0 -> escapes_counted sep -> 0 < size <= Z.of_nat (length buf) ->
  exists kvs, listing kvs /\
    hexport_r calloc h sep flag (Some buf) size [] =
      if size <? Z.of_nat (length (text_of sep kvs)) + 2 * Z.of_nat (length kvs) + 1
      then Some (-1, Some buf, set_errno ENOMEM h)
      else Some (size, Some (export_buffer sep size kvs (drop (Z.to_nat size) buf)), h).
Proof.
  intros Hf Hesc Hsz. destruct (sorted_entries sep flag Hf) as (l & l' & kvs & Hc & Hq & Hl & Hk).
  exists kvs. split; [done|]. unfold hexport_r. rewrite Hc. cbn [mbind option_bind].
  rewrite Hq. cbn [mbind option_bind]. destruct (Z.eqb_spec size 0); [lia|]. cbn [negb andb].
  rewrite <- (text_counted sep kvs Hesc) by (by intros; apply Hk).
  destruct (Z.ltb_spec size (Z.of_nat (length (text_of sep kvs)) + 2 * Z.of_nat (length kvs) + 1)); [done|].
  destruct (Z.ltb_spec (Z.of_nat (length buf)) size); [lia|].
  destruct (export_filled sep size l' kvs (drop (Z.to_nat size) buf) Hl) as (buf' & p & q & Hb & Hp); [lia|].
  rewrite Hb. cbn [mbind option_bind]. rewrite Hp. done.
Qed.
End Exporting.

(** *** Reading *)

Lemma ld_app (P R : list Z) c : ld (P ++ c :: R) (Z.of_nat (length P)) = Some c.
Proof.
  unfold ld. destruct (Z.ltb_spec (Z.of_nat (length P)) 0); [lia|]. rewrite Nat2Z.id. by apply list_lookup_middle.
Qed.

Lemma ld_at (P R : list Z) c i : i = Z.of_nat (length P) -> ld (P ++ c :: R) i = Some c.
Proof. intros ->. apply ld_app. Qed.

Lemma store_at (P R : list Z) c d i : i = Z.of_nat (length P) -> store i d (P ++ c :: R) = Some (P ++ d :: R).
Proof.
  intros ->. unfold store. rewrite length_app. cbn [length].
  destruct (Z.leb_spec 0 (Z.of_nat (length P))); [|lia].
  destruct (Z.ltb_spec (Z.of_nat (length P)) (Z.of_nat (length P + S (length R)))); [|lia].
  cbn [andb]. rewrite Nat2Z.id. replace (length P) with (length P + 0)%nat at 1 by lia.
  by rewrite insert_app_r.
Qed.

(** The string that a NUL after [k] ends. *)
Lemma string_at (P k R : list Z) i : i = Z.of_nat (length P) -> text_ok k ->
  string_from (P ++ k ++ 0 :: R) i = Some k.
Proof.
  intros -> Hk. unfold string_from. rewrite Nat2Z.id, drop_app_length.
  change (k ++ 0 :: R) with (cstr k R). rewrite strlen_cstr by done. cbn [mbind option_bind].
  by rewrite until0_cstr.
Qed.

(** Going over a name, to the character that stops there. *)
Lemma skip_to_stop stops k c R : text_ok k -> Forall (fun c => c ∉ stops) k -> c = 0 \/ c ∈ stops ->
  forall fuel P i, i = Z.of_nat (length P) -> (length k < fuel)%nat ->
  skip_to fuel stops (P ++ k ++ c :: R) i = Some (i + Z.of_nat (length k)).
Proof.
  intros Hk. induction Hk as [|d k Hd Hk IH]; intros Hs Hc fuel P i Hi Hf;
    (destruct fuel as [|fuel]; [simpl in Hf; lia|]); cbn [skip_to app length] in *.
  - rewrite (ld_at P R c i Hi). cbn [mbind option_bind].
    replace ((c =? 0) || bool_decide (c ∈ stops)) with true; [f_equal; lia|].
    symmetry. apply orb_true_iff. rewrite Z.eqb_eq, bool_decide_eq_true. done.
  - inversion_clear Hs as [|? ? Hds Hks]. rewrite (ld_at P (k ++ c :: R) d i Hi). cbn [mbind option_bind].
    destruct (Z.eqb_spec d 0); [lia|]. rewrite bool_decide_eq_false_2 by done. cbn [orb].
    change (d :: k ++ c :: R) with ([d] ++ k ++ c :: R). rewrite app_assoc.
    rewrite (IH Hks Hc fuel (P ++ [d]) (i + 1)); [f_equal; lia|rewrite length_app; simpl; lia|lia].
Qed.

(** A character in the text of a value. *)
Definition escape1 (sep c : Z) : list Z := if (c =? sep) || (c =? 92) then [92; c] else [c].

(** Copying one down over its escape: [A] is what is before [sp], [M] what is
    between [sp] and [dp]. *)
Lemma unescape_char sep c X A M fuel : sep <> 92 -> c <> 0 ->
  let M' := drop 1 (M ++ escape1 sep c) in
  unescape (S fuel) sep (A ++ M ++ escape1 sep c ++ X) (Z.of_nat (length (A ++ M))) (Z.of_nat (length A)) =
  unescape fuel sep ((A ++ [c]) ++ M' ++ X) (Z.of_nat (length ((A ++ [c]) ++ M'))) (Z.of_nat (length (A ++ [c]))).
Proof.
  intros Hsep Hc M'. set (e := escape1 sep c) in *.
  assert (Hm : exists m, M ++ e = m :: M').
  { subst M'. destruct M as [|m M]; [|by exists m]. unfold e, escape1.
    destruct ((c =? sep) || (c =? 92)); by eexists. }
  destruct Hm as [m Hm].
  assert (Hst : store (Z.of_nat (length A)) c (A ++ M ++ e ++ X) = Some ((A ++ [c]) ++ M' ++ X)).
  { rewrite (app_assoc M), Hm. cbn [app]. rewrite (store_at A _ m c) by done. by rewrite <- app_assoc. }
  assert (Hlen : Z.of_nat (length ((A ++ [c]) ++ M')) = Z.of_nat (length (A ++ M)) + Z.of_nat (length e)).
  { apply (f_equal length) in Hm. rewrite !length_app in *. cbn [length] in *. lia. }
  assert (Hsp : Z.of_nat (length (A ++ [c])) = Z.of_nat (length A) + 1) by (rewrite length_app; simpl; lia).
  rewrite Hlen, Hsp. clearbody M'. clear Hm Hlen Hsp. cbn [unescape]. revert Hst. unfold e, escape1. clear e.
  rewrite (app_assoc A M). set (P := A ++ M). clearbody P.
  destruct ((c =? sep) || (c =? 92)) eqn:He; cbn [app length]; intros Hst; rewrite ld_app; cbn [mbind option_bind].
  - destruct (Z.eqb_spec 92 sep); [lia|]. cbn [Z.eqb orb Pos.eqb].
    assert (Hld : ld (P ++ 92 :: c :: X) (Z.of_nat (length P) + 1) = Some c).
    { change (92 :: c :: X) with ([92] ++ c :: X). rewrite app_assoc. apply ld_at. rewrite length_app. simpl. lia. }
    rewrite Hld. cbn [mbind option_bind]. destruct (Z.eqb_spec c 0); [lia|]. cbn [negb andb].
    rewrite Hld. cbn [mbind option_bind]. rewrite Hst. cbn [mbind option_bind]. f_equal. lia.
  - apply orb_false_iff in He as [Hs H9]. rewrite Hs, H9. destruct (Z.eqb_spec c 0); [lia|].
    cbn [orb andb mbind option_bind]. rewrite ld_app. cbn [mbind option_bind].
    rewrite Hst. reflexivity.
Qed.

(** The whole value. *)
Lemma unescape_escape sep T v : sep <> 92 -> text_ok v ->
  forall fuel A M, (length v < fuel)%nat ->
  exists M', unescape fuel sep (A ++ M ++ escape sep v ++ sep :: T) (Z.of_nat (length (A ++ M))) (Z.of_nat (length A)) =
      Some (A ++ v ++ M' ++ sep :: T, Z.of_nat (length (A ++ v ++ M')), Z.of_nat (length (A ++ v))) /\
    length (v ++ M') = length (M ++ escape sep v).
Proof.
  intros Hsep Hv. induction Hv as [|c v Hc Hv IH]; intros fuel A M Hf;
    (destruct fuel as [|fuel]; [simpl in Hf; lia|]).
  - exists M. cbn [escape flat_map app unescape]. rewrite app_nil_r, app_assoc, ld_app. cbn [mbind option_bind].
    rewrite Z.eqb_refl, orb_true_r. by rewrite app_nil_r, <- app_assoc.
  - change (escape sep (c :: v)) with (escape1 sep c ++ escape sep v).
    destruct (IH fuel (A ++ [c]) (drop 1 (M ++ escape1 sep c))) as (M' & Hu & Hl); [simpl in Hf; lia|].
    exists M'. rewrite <- app_assoc, unescape_char by lia. rewrite Hu. split.
    + by rewrite <- !app_assoc.
    + assert (1 <= length (escape1 sep c))%nat by (unfold escape1; destruct ((c =? sep) || (c =? 92)); simpl; lia).
      rewrite !length_app in *. rewrite length_drop, length_app in Hl. cbn [length]. lia.
Qed.

(** Reading the value and ending it. *)
Lemma value_read sep R v fuel Q : sep <> 92 -> text_ok v -> (length (escape sep v) < fuel)%nat ->
  exists d sp W,
    unescape fuel sep (Q ++ escape sep v ++ sep :: R) (Z.of_nat (length Q)) (Z.of_nat (length Q)) =
      Some (d, Z.of_nat (length Q) + Z.of_nat (length (escape sep v)), sp) /\
    store sp 0 d = Some (Q ++ v ++ 0 :: W ++ R) /\ length (v ++ W) = length (escape sep v).
Proof.
  intros Hsep Hv Hf. pose proof (escape_longer sep v).
  destruct (unescape_escape sep R v Hsep Hv fuel Q []) as (M & Hu & Hl); [lia|].
  rewrite app_nil_r in Hu. cbn [app] in *.
  assert (HW : exists x W, M ++ [sep] = x :: W) by (destruct M as [|x M]; by eexists _, _).
  destruct HW as (x & W & HW).
  do 2 eexists. exists W. split; [|split].
  - rewrite Hu. do 3 f_equal. rewrite length_app, Hl. lia.
  - replace (Q ++ v ++ M ++ sep :: R) with ((Q ++ v) ++ x :: W ++ R).
    + rewrite store_at by done. by rewrite <- app_assoc.
    + change (x :: W ++ R) with ((x :: W) ++ R). rewrite <- HW, <- !app_assoc. done.
  - apply (f_equal length) in HW. rewrite !length_app in *. cbn [length] in *. lia.
Qed.

(** *** Carriage returns *)

(** A text without the carriage returns that are before line feeds. *)
Fixpoint unix_text (s : list Z) : list Z :=
  match s with
  | [] => []
  | c :: r => if (c =? 13) && bool_decide (head r = Some 10) then unix_text r else c :: unix_text r
  end.

(** They are squeezed out: what is before [dp - ignored_crs] is done, and as many
    characters as there were carriage returns are left over at the end. *)
Lemma squeeze_ok T : text_ok T -> forall fuel A M Z0 sz, (length T < fuel)%nat ->
  sz = Z.of_nat (length (A ++ M ++ T)) ->
  exists M', squeeze_crs fuel (A ++ M ++ T ++ Z0) sz (Z.of_nat (length (A ++ M))) (Z.of_nat (length M)) =
      Some (A ++ unix_text T ++ M' ++ Z0, Z.of_nat (length M')) /\
    length (unix_text T ++ M') = length (M ++ T).
Proof.
  induction 1 as [|c T Hc HT IH]; intros fuel A M Z0 sz Hf Hsz; (destruct fuel as [|fuel]; [simpl in Hf; lia|]);
    cbn [squeeze_crs unix_text length] in *.
  - rewrite app_nil_r in Hsz. rewrite Hsz, Z.ltb_irrefl. cbn [negb]. exists M. by rewrite app_nil_r.
  - rewrite !length_app in Hsz. cbn [length] in Hsz. cbn [app].
    destruct (Z.ltb_spec (Z.of_nat (length (A ++ M))) sz) as [_|]; [|rewrite length_app in *; lia].
    rewrite app_assoc, ld_app. cbn [negb mbind option_bind]. destruct (Z.eqb_spec c 0); [lia|].
    assert (Hnext : forall b : bool, (c =? 13) && (Z.of_nat (length (A ++ M)) <? sz - 1) = b ->
      exists lf, (if b then ld ((A ++ M) ++ c :: T ++ Z0) (Z.of_nat (length (A ++ M)) + 1) else Some 0) = Some lf /\
        b && (lf =? 10) = (c =? 13) && bool_decide (head T = Some 10)).
    { intros b <-. destruct (Z.eqb_spec c 13); cbn [andb]; [|by exists 0].
      destruct (Z.ltb_spec (Z.of_nat (length (A ++ M))) (sz - 1)); rewrite length_app in *.
      - destruct T as [|d T]; [simpl in *; lia|]. exists d. split.
        + change (c :: (d :: T) ++ Z0) with ([c] ++ d :: T ++ Z0). rewrite app_assoc. apply ld_at.
          rewrite !length_app. simpl. lia.
        + cbn [head andb]. destruct (Z.eqb_spec d 10) as [->|]; [done|].
          rewrite bool_decide_eq_false_2; [done|congruence].
      - exists 0. split; [done|]. destruct T as [|d T]; [done|]. simpl in *. lia. }
    destruct (Hnext _ eq_refl) as (lf & Hlf & Htest). rewrite Hlf. cbn [mbind option_bind]. rewrite Htest. clear Hnext Hlf Htest.
    destruct ((c =? 13) && bool_decide (head T = Some 10)).
    + destruct (IH fuel A (M ++ [c]) Z0 sz) as (M' & Hs & Hl); [lia|rewrite !length_app; simpl; lia|].
      exists M'. split; [|by rewrite <- app_assoc in Hl]. rewrite <- Hs. rewrite <- !app_assoc. cbn [app].
      f_equal; rewrite !length_app; simpl; lia.
    + assert (Hm : exists m, M ++ [c] = m :: drop 1 (M ++ [c])) by (destruct M; by eexists).
      destruct Hm as [m Hm]. set (M1 := drop 1 (M ++ [c])) in *.
      assert (HlM : length M1 = length M) by (apply (f_equal length) in Hm; rewrite length_app in Hm; simpl in Hm; lia).
      destruct (IH fuel (A ++ [c]) M1 Z0 sz) as (M' & Hs & Hl); [lia|rewrite !length_app; simpl; lia|].
      exists M'. replace ((A ++ M) ++ c :: T ++ Z0) with (A ++ m :: M1 ++ T ++ Z0).
      * rewrite (store_at A _ m c) by (rewrite length_app; lia). cbn [mbind option_bind]. split.
        -- rewrite HlM, <- !app_assoc in Hs. cbn [app] in *. rewrite <- Hs.
           f_equal. rewrite !length_app. cbn [length]. lia.
        -- cbn [app length]. rewrite Hl, !length_app, HlM. simpl. lia.
      * change (m :: M1 ++ T ++ Z0) with ((m :: M1) ++ T ++ Z0). rewrite <- Hm, <- !app_assoc. done.
Qed.

(** *** A line *)

(** What a name must be for its line to be read back. *)
Record name_ok (sep : Z) (k : list Z) : Prop := {
  name_text : text_ok k;
  name_head : exists c, head k = Some c /\ isblank c = false /\ c <> 35;
  name_stops : Forall (fun c => c ∉ [61; sep]) k;
}.

Definition set_or_delete (m : gmap (list Z) (list Z)) (kv : list Z * list Z) : gmap (list Z) (list Z) :=
  match kv.2 with [] => delete kv.1 m | _ => <[kv.1 := kv.2]> m end.

Section ImportOk.
Context (strdup : list Z -> option (list Z)).
Context (callback_init : list Z -> option callback_fn) (flags_init : list Z -> Z).
Hypothesis Hdup : forall v, strdup v = Some v.
Hypothesis Hcb : forall k f, callback_init k = Some f -> forall k' v op fl, f k' v op fl = false.
Context (sep : Z) (Hsep : sep <> 92) (Hsep' : sep <> 61).

Abbreviation round := (import_round strdup callback_init flags_init).
Abbreviation rounds := (import_rounds strdup callback_init flags_init).

(** The start of a round: the name is found, and what is after it. *)
Lemma round_name fuel P k c R : name_ok sep k -> c ∈ [61; sep] -> (length k < fuel)%nat ->
  skip_blanks fuel (P ++ k ++ c :: R) (Z.of_nat (length P)) = Some (Z.of_nat (length P)) /\
  (exists d, ld (P ++ k ++ c :: R) (Z.of_nat (length P)) = Some d /\ (d =? 35) = false) /\
  skip_to fuel [61; sep] (P ++ k ++ c :: R) (Z.of_nat (length P)) = Some (Z.of_nat (length (P ++ k))).
Proof.
  intros [Hk (d & Hd & Hb & H35) Hs] Hc Hf. split; [|split].
  - destruct k as [|x k]; [done|]. injection Hd as ->. destruct fuel as [|fuel]; [lia|]. cbn [skip_blanks app].
    rewrite ld_app. cbn [mbind option_bind]. by rewrite Hb.
  - destruct k as [|x k]; [done|]. injection Hd as ->. exists d. split; [apply ld_app|]. by apply Z.eqb_neq.
  - rewrite (skip_to_stop [61; sep] k c R Hk Hs) by (done || by right). f_equal. rewrite length_app. lia.
Qed.

Lemma round_line fuel flag P k v R h m :
  represents h m -> roomy h -> name_ok sep k -> text_ok v ->
  (length (line sep (k, v)) < fuel)%nat ->
  exists P' h', round fuel sep flag (P ++ line sep (k, v) ++ R) (Z.of_nat (length P)) [] h =
      Some (Going (P' ++ R) (Z.of_nat (length P')) [] h') /\
    length P' = length (P ++ line sep (k, v)) /\ represents h' (set_or_delete m (k, v)) /\
    size h' = size h /\ touched h' <= touched h + 1.
Proof.
  intros Hr Hroom Hk Hv Hf. unfold line in *. cbn [fst snd] in *.
  rewrite length_app in Hf. cbn [length] in Hf. rewrite length_app in Hf. cbn [length] in Hf.
  rewrite <- app_assoc. cbn [app]. rewrite <- app_assoc. cbn [app].
  destruct (round_name fuel P k 61 (escape sep v ++ sep :: R) Hk) as (H1 & (d & H2 & H2') & H3); [left|lia|].
  unfold import_round. rewrite H1. cbn [mbind option_bind]. rewrite H2. cbn [mbind option_bind]. rewrite H2', H3.
  cbn [mbind option_bind]. clear H1 H2 H2' H3 d.
  rewrite (app_assoc P k). rewrite ld_app. cbn [mbind option_bind].
  replace ((P ++ k) ++ 61 :: escape sep v ++ sep :: R) with (((P ++ k) ++ [61]) ++ escape sep v ++ sep :: R)
    by by rewrite <- app_assoc.
  assert (HlP : Z.of_nat (length (P ++ k)) + 1 = Z.of_nat (length ((P ++ k) ++ [61])))
    by (rewrite (length_app (P ++ k)); simpl; lia).
  rewrite HlP. change (61 =? 0) with false. cbn iota. pose proof (name_text sep k Hk) as Hkt.
  destruct v as [|c v].
  - cbn [escape flat_map app]. rewrite ld_app. cbn [mbind option_bind]. rewrite Z.eqb_refl, orb_true_r.
    change (61 =? 61) with true. cbn iota. rewrite <- (app_assoc (P ++ k)). cbn [app].
    rewrite (store_at (P ++ k) (sep :: R) 61 0) by done. cbn [mbind option_bind].
    replace ((P ++ k) ++ 0 :: sep :: R) with (((P ++ k) ++ [0]) ++ sep :: R) by by rewrite <- app_assoc.
    rewrite (store_at ((P ++ k) ++ [0]) R sep 0) by (rewrite !(length_app (P ++ k)); done).
    cbn [mbind option_bind]. rewrite <- !app_assoc. cbn [app]. rewrite (string_at P k (0 :: R)) by done.
    cbn [mbind option_bind]. unfold drop_var_from_set. cbn [length Nat.eqb mbind option_bind negb].
    exists ((P ++ k) ++ [0; 0]).
    pose proof (hdelete_deletes strdup callback_init flags_init Hdup h m k flag Hr Hkt) as Hdel.
    assert (Hfin : exists r h', hdelete_r strdup callback_init flags_init k h flag = Some (r, h') /\
      represents h' (delete k m) /\ size h' = size h /\ touched h' = touched h).
    { destruct (m !! k) eqn:Hmk.
      - destruct Hdel as (h' & ? & ? & ? & ?). by exists 1, h'.
      - destruct Hdel as (h' & ? & Ht & ? & ?). exists 0, h'. rewrite delete_id by done.
        split; [done|]. split; [done|]. split; [done|]. unfold touched. by rewrite Ht. }
    destruct Hfin as (r & h' & -> & Hr' & Hs' & Ht'). exists h'. cbn [mbind option_bind]. split.
    + do 2 f_equal; [by rewrite <- !app_assoc|]. rewrite !length_app. simpl. lia.
    + split; [rewrite !length_app; simpl; lia|]. split; [done|]. split; [done|lia].
  - assert (Hne : exists d E, escape sep (c :: v) = d :: E /\ (d =? 0) || (d =? sep) = false).
    { change (escape sep (c :: v)) with (escape1 sep c ++ escape sep v). unfold escape1.
      inversion_clear Hv as [|? ? Hc _]. destruct ((c =? sep) || (c =? 92)) eqn:Hcs.
      - exists 92, (c :: escape sep v). split; [done|]. destruct (Z.eqb_spec 92 sep); [lia|]. done.
      - exists c, (escape sep v). split; [done|]. apply orb_false_iff in Hcs as [-> _].
        destruct (Z.eqb_spec c 0); [lia|]. done. }
    destruct Hne as (d & E & HE & Hd).
    assert (Hld : forall Q T, ld (Q ++ escape sep (c :: v) ++ T) (Z.of_nat (length Q)) = Some d)
      by (intros Q T; rewrite HE; apply ld_app).
    rewrite Hld. cbn [mbind option_bind].
    destruct (Z.eqb_spec 61 sep); [lia|]. apply orb_false_iff in Hd as [-> ->]. cbn [orb]. clear d E HE Hld.
    rewrite <- (app_assoc (P ++ k)). cbn [app]. rewrite (store_at (P ++ k) _ 61 0) by done. cbn [mbind option_bind].
    replace ((P ++ k) ++ 0 :: escape sep (c :: v) ++ sep :: R) with
      (((P ++ k) ++ [0]) ++ escape sep (c :: v) ++ sep :: R) by by rewrite <- app_assoc.
    replace (length ((P ++ k) ++ [61])) with (length ((P ++ k) ++ [0])) in * by by rewrite !(length_app (P ++ k)).
    set (Q := (P ++ k) ++ [0]) in *.
    destruct (value_read sep R (c :: v) fuel Q Hsep Hv) as (d & sp & W & -> & Hst & Hl); [lia|].
    cbn [mbind option_bind]. rewrite Hst. cbn [mbind option_bind].
    set (V := c :: v) in *. assert (HQ : Q ++ V ++ 0 :: W ++ R = P ++ k ++ 0 :: V ++ 0 :: W ++ R)
      by (unfold Q; by rewrite <- !app_assoc).
    rewrite HQ, (string_at P k _ (Z.of_nat (length P)) eq_refl Hkt). rewrite <- HQ. cbn [mbind option_bind].
    destruct k as [|k0 k]; [by destruct (name_head sep [] Hk) as (? & ? & _)|].
    cbn [length Nat.eqb]. unfold drop_var_from_set. cbn [length Nat.eqb mbind option_bind negb].
    rewrite (string_at Q V) by done. cbn [mbind option_bind].
    destruct (hsearch_enters strdup callback_init flags_init Hdup Hcb h m (k0 :: k) V flag Hr Hroom Hkt)
      as (ret & i & h' & -> & _ & Hr' & _ & Hs' & Ht'). cbn [mbind option_bind].
    exists (Q ++ V ++ 0 :: W), h'.
    assert (HP' : Z.of_nat (length (Q ++ V ++ 0 :: W)) = Z.of_nat (length Q) + Z.of_nat (length (escape sep V)) + 1).
    { rewrite <- Hl, !length_app. cbn [length]. lia. }
    split; [|split; [|split; [done|by split]]].
    + rewrite HP'. do 2 f_equal. by rewrite <- !app_assoc.
    + apply Nat2Z.inj. rewrite HP'. unfold Q. rewrite !length_app. cbn [length]. rewrite length_app. simpl. lia.
Qed.

(** *** All lines *)

(** Lines that are read back. *)
Definition lines_ok (kvs : list (list Z * list Z)) : Prop :=
  Forall (fun kv => name_ok sep kv.1 /\ text_ok kv.2) kvs.

Lemma line_first kv R : name_ok sep kv.1 -> exists d S, line sep kv ++ R = d :: S /\ d <> 0.
Proof.
  destruct kv as [k v]. intros [Hk (d & Hd & _) _]. destruct k as [|x k]; [done|]. injection Hd as ->.
  inversion_clear Hk as [|? ? Hd _]. do 2 eexists. split; [done|lia].
Qed.

(** The end of the text: a NUL, or the size given. *)
Definition ended (sz : Z) (T R : list Z) : Prop := head R = Some 0 \/ sz = Z.of_nat (length T).

Lemma rounds_ok flag fuel sz : forall kvs n P R h m,
  kvs <> [] -> lines_ok kvs -> represents h m -> touched h + Z.of_nat (length kvs) < size h ->
  (length kvs <= n)%nat -> (length (text_of sep kvs) < fuel)%nat ->
  Z.of_nat (length (P ++ text_of sep kvs)) <= sz -> ended sz (P ++ text_of sep kvs) R ->
  exists P' h', rounds n fuel sz sep flag (P ++ text_of sep kvs ++ R) (Z.of_nat (length P)) [] h =
      Some (Going (P' ++ R) (Z.of_nat (length P')) [] h') /\
    represents h' (foldl set_or_delete m kvs).
Proof.
  induction kvs as [|[k v] kvs IH]; intros n P R h m Hne Hok Hr Hroom Hn Hf Hsz Hend; [done|].
  destruct n as [|n]; [simpl in Hn; lia|]. inversion_clear Hok as [|? ? [Hk Hv] Hok'].
  cbn [fst snd length] in *. unfold text_of in *. cbn [flat_map] in *. rewrite length_app in Hf.
  pose proof Hr as [Hw _]. cbn [import_rounds]. rewrite <- app_assoc.
  destruct (round_line fuel flag P k v (flat_map (line sep) kvs ++ R) h m) as (P1 & h1 & -> & Hl1 & Hr1 & Hs1 & Ht1);
    [done|apply touched_roomy; [done|lia]|done|done|lia|].
  cbn [mbind option_bind]. assert (Hlen : length (P1 ++ flat_map (line sep) kvs) = length (P ++ line sep (k, v) ++ flat_map (line sep) kvs))
    by (rewrite app_assoc, !length_app, Hl1, length_app; lia).
  destruct kvs as [|kv2 kvs].
  - cbn [flat_map app foldl]. exists P1, h1. split; [|done].
    cbn [flat_map] in *. rewrite app_nil_r in *. destruct Hend as [HR|Hend].
    + destruct R as [|y R]; [done|]. injection HR as ->.
      destruct (Z.of_nat (length P1) <? sz); [|done]. by rewrite ld_app.
    + destruct (Z.ltb_spec (Z.of_nat (length P1)) sz); [lia|done].
  - pose proof Hok' as Hok2. inversion_clear Hok2 as [|? ? [Hk2 _] _].
    destruct (line_first kv2 (flat_map (line sep) kvs) Hk2) as (d & S & HS & Hd).
    cbn [flat_map] in *. rewrite HS in *. rewrite <- Hlen, length_app in Hsz. cbn [length] in Hsz.
    destruct (Z.ltb_spec (Z.of_nat (length P1)) sz); [|lia].
    cbn [app]. rewrite ld_app. cbn [mbind option_bind]. destruct (Z.eqb_spec d 0); [lia|]. cbn [negb].
    change (d :: S ++ R) with ((d :: S) ++ R).
    destruct (IH n P1 R h1 (set_or_delete m (k, v))) as (P' & h' & H1 & H2); [done|done|done|lia|lia|..].
    + cbn [length] in *. lia.
    + rewrite length_app. cbn [length]. lia.
    + destruct Hend as [|Hend]; [by left|right]. by rewrite Hlen.
    + exists P', h'. by split.
Qed.

(** A text of no lines deletes the empty name. *)
Lemma rounds_none flag fuel sz n R h m :
  represents h m -> 1 <= sz -> (1 <= fuel)%nat ->
  exists h', rounds (S n) fuel sz sep flag (0 :: 0 :: R) 0 [] h = Some (Going (0 :: 0 :: R) 1 [] h') /\
    represents h' (delete [] m).
Proof.
  intros Hr Hsz Hf. destruct fuel as [|fuel]; [lia|]. cbn [import_rounds]. unfold import_round.
  pose proof (hdelete_deletes strdup callback_init flags_init Hdup h m [] flag Hr ltac:(constructor)) as Hdel.
  assert (Hfin : exists r h', hdelete_r strdup callback_init flags_init [] h flag = Some (r, h') /\
    represents h' (delete [] m)).
  { destruct (m !! []) eqn:Hmk.
    - destruct Hdel as (h' & ? & ? & _). by exists 1, h'.
    - destruct Hdel as (h' & ? & _ & ? & _). exists 0, h'. by rewrite delete_id. }
  destruct Hfin as (r & h' & Hd & Hr'). exists h'. split; [|done].
  assert (Hld : ld (0 :: 0 :: R) 0 = Some 0) by done.
  cbn [skip_blanks skip_to]. rewrite Hld. cbn [mbind option_bind isblank Z.eqb orb].
  rewrite Hld. cbn [mbind option_bind Z.eqb orb]. rewrite Hld. cbn [mbind option_bind Z.eqb].
  rewrite (store_at [] (0 :: R) 0 0) by done. cbn [mbind option_bind app].
  change (string_from (0 :: 0 :: R) 0) with (Some ([] : list Z)).
  cbn [mbind option_bind drop_var_from_set length Nat.eqb negb]. rewrite Hd. cbn [mbind option_bind].
  change (0 + 1) with 1. destruct (1 <? sz); reflexivity.
Qed.

(** What the parser makes of the lines: a text without any deletes the empty name. *)
Definition as_read (kvs : list (list Z * list Z)) : list (list Z * list Z) :=
  match kvs with [] => [([], [])] | _ => kvs end.

(** The parser on a text and the zeros after it. *)
Lemma parse_ok flag kvs j h m :
  let data := text_of sep kvs ++ 0 :: replicate (S j) 0 in
  lines_ok kvs -> represents h m -> touched h + Z.of_nat (length kvs) < size h ->
  exists d dp h', rounds (S (length data)) (S (length data)) (Z.of_nat (length (text_of sep kvs) + S j))
      sep flag data 0 [] h = Some (Going d dp [] h') /\ represents h' (foldl set_or_delete m (as_read kvs)).
Proof.
  intros data Hok Hr Hroom. destruct kvs as [|kv kvs].
  - destruct (rounds_none flag (S (length data)) (Z.of_nat (S j)) (length data) (replicate j 0) h m)
      as (h' & Hres & Hr'); [done|lia|lia|]. by exists (0 :: 0 :: replicate j 0), 1, h'.
  - destruct (rounds_ok flag (S (length data)) (Z.of_nat (length (text_of sep (kv :: kvs)) + S j)) (kv :: kvs)
      (S (length data)) [] (0 :: replicate (S j) 0) h m) as (P' & h' & Hres & Hr'); try done.
    + pose proof (text_of_length sep (kv :: kvs)). unfold data. rewrite length_app. lia.
    + unfold data. rewrite length_app. lia.
    + cbn [app]. lia.
    + by left.
    + by exists (P' ++ 0 :: replicate (S j) 0), (Z.of_nat (length P')), h'.
Qed.

(** The whole import, once there is a table for it. *)
Lemma himport_ok fuel flag kvs j h0 h m env sz :
  sz = Z.of_nat (length (text_of sep kvs) + S j) ->
  take (Z.to_nat sz) env = text_of sep kvs ++ 0 :: replicate j 0 ->
  (htab ← (if (Z.land flag H_NOCLEAR =? 0) && bool_decide (is_Some (table h0)) then hdestroy_r h0 else Some h0);
   (match table htab with
   | Some _ => Some (1, htab)
   | None =>
       let nent := s32 (CONFIG_ENV_MIN_ENTRIES + sz / 8) in
       let nent := if CONFIG_ENV_MAX_ENTRIES <? nent then CONFIG_ENV_MAX_ENTRIES else nent in
       hcreate_r fuel (fun _ => true) (u64 nent) htab
   end)) = Some (1, h) ->
  lines_ok kvs -> represents h m -> touched h + Z.of_nat (length kvs) < size h ->
  exists h', himport_r strdup callback_init flags_init fuel (fun _ => true) h0 env sz sep flag false [] = Some (1, h') /\
    represents h' (foldl set_or_delete m (as_read kvs)).
Proof.
  intros Hsz Htake Htab Hok Hr Hroom. unfold himport_r. cbn [negb].
  assert (Hle : (Z.of_nat (length env) <? sz) = false).
  { apply Z.ltb_ge. apply (f_equal length) in Htake. rewrite length_take, length_app in Htake.
    cbn [length] in Htake. rewrite length_replicate in Htake. lia. }
  rewrite Hle, Htake. apply bind_Some in Htab as (h1 & -> & Htab). cbn [mbind option_bind] in *. rewrite Htab.
  cbn [mbind option_bind]. change (1 =? 0) with false. cbn iota.
  destruct (Z.eqb_spec sz 0); [lia|].
  replace ((text_of sep kvs ++ 0 :: replicate j 0) ++ [0]) with (text_of sep kvs ++ 0 :: replicate (S j) 0).
  2: { rewrite <- app_assoc. cbn [app]. by rewrite <- replicate_S_end. }
  destruct (parse_ok flag kvs j h m Hok Hr Hroom) as (d & dp & h' & Hres & Hr'). rewrite <- Hsz in Hres.
  exists h'. split; [|done]. cbn [map]. rewrite Hres. done.
Qed.
End ImportOk.

(** *** The map a text stands for *)

Lemma fold_out kvs : forall m k, k ∉ kvs.*1 -> foldl set_or_delete m kvs !! k = m !! k.
Proof.
  induction kvs as [|[k' v'] kvs IH]; intros m k Hk; [done|]. cbn [foldl].
  cbn in Hk. apply not_elem_of_cons in Hk as [Hne Hk]. rewrite IH by done. unfold set_or_delete. cbn [fst snd].
  destruct v'; [by rewrite lookup_delete_ne|by rewrite lookup_insert_ne].
Qed.

Lemma fold_in kvs : forall m k v, NoDup kvs.*1 -> (k, v) ∈ kvs ->
  foldl set_or_delete m kvs !! k = match v with [] => None | _ => Some v end.
Proof.
  induction kvs as [|[k' v'] kvs IH]; intros m k v Hnd Hin; [by apply elem_of_nil in Hin|]. cbn [foldl].
  cbn in Hnd. apply NoDup_cons in Hnd as [Hni Hnd]. apply elem_of_cons in Hin as [Heq|Hin].
  - injection Heq as -> ->. rewrite fold_out by done. unfold set_or_delete. cbn [fst snd].
    destruct v'; [by rewrite lookup_delete_eq|by rewrite lookup_insert_eq].
  - by apply IH.
Qed.

(** The names with a value that is not empty. *)
Definition nonempty (m : gmap (list Z) (list Z)) : gmap (list Z) (list Z) :=
  filter (fun kv => kv.2 <> []) m.

Lemma fold_listing m kvs : listing m kvs -> foldl set_or_delete ∅ (as_read kvs) = nonempty m.
Proof.
  intros (Hnd & _ & Hiff). apply map_eq. intros k. unfold nonempty.
  assert (Hin : forall v, (k, v) ∈ kvs ->
    foldl set_or_delete ∅ (as_read kvs) !! k = match v with [] => None | _ => Some v end).
  { intros v Hin. destruct kvs as [|kv kvs]; [by apply elem_of_nil in Hin|]. by apply fold_in. }
  destruct (m !! k) as [v|] eqn:Hk.
  - rewrite (Hin v) by by apply Hiff. symmetry. destruct v as [|c v].
    + apply map_lookup_filter_None. right. intros x Hx Hne. cbn in Hne. congruence.
    + by apply map_lookup_filter_Some.
  - transitivity (None : option (list Z)).
    + destruct kvs as [|kv kvs]; [cbn; by rewrite delete_empty, lookup_empty|]. cbn [as_read].
      rewrite fold_out; [done|]. intros ([k' v] & -> & Hkv)%list_elem_of_fmap. apply Hiff in Hkv. cbn in Hk. congruence.
    + symmetry. apply map_lookup_filter_None. by left.
Qed.

Lemma listing_length m kvs : listing m kvs -> length kvs = base.size m.
Proof.
  intros (Hnd & _ & Hiff). replace m with (list_to_map kvs : gmap (list Z) (list Z)).
  - symmetry. by apply map_size_list_to_map.
  - apply map_eq. intros k. apply option_eq. intros v. rewrite <- Hiff. symmetry. by apply elem_of_list_to_map.
Qed.

(** ** The claims *)

(** The room an export needs: its text, two for each entry, and the end. *)
Definition needed (sep : Z) (kvs : list (list Z * list Z)) : Z :=
  Z.of_nat (length (text_of sep kvs)) + 2 * Z.of_nat (length kvs) + 1.

(** The export of the whole table into a buffer of the caller lists every
    name with its value once, in the order of the names, ended by a NUL and
    padded with NULs to the size given, and touches nothing beyond; a size less
    than needed is reported and leaves the buffer alone.  Nothing is accessed
    outside the buffer, for a separator other than NUL, and for NUL when no value
    has a backslash. *)
Theorem hexport_into_ok `{Slre} (h : hsearch_data) (m : gmap (list Z) (list Z)) calloc sep flag buf sz :
  represents h m -> values_ok m -> (forall k v, m !! k = Some v -> ascii_text k) ->
  Z.land flag H_HIDE_DOT = 0 -> escapes_counted m sep -> 0 < sz <= Z.of_nat (length buf) ->
  exists kvs, listing m kvs /\
    hexport_r calloc h sep flag (Some buf) sz [] =
      if sz <? needed sep kvs then Some (-1, Some buf, set_errno ENOMEM h)
      else Some (sz, Some (export_buffer sep sz kvs (drop (Z.to_nat sz) buf)), h).
Proof. intros Hr Hv Hn Hf Hesc Hsz. exact (hexport_into h m Hr Hv Hn calloc sep flag buf sz Hf Hesc Hsz). Qed.

(** What the names of an environment must be. *)
Definition names_ok (sep : Z) (m : gmap (list Z) (list Z)) : Prop :=
  forall k v, m !! k = Some v -> ascii_text k /\ name_ok sep k.

Lemma listing_lines sep m kvs : names_ok sep m -> values_ok m -> listing m kvs -> lines_ok sep kvs.
Proof.
  intros Hn Hv (_ & _ & Hiff). apply Forall_forall. intros [k v] Hin. apply Hiff in Hin.
  split; [by apply (Hn k v)|by apply (Hv k)].
Qed.

(** The number of slots an import asks for. *)
Definition import_slots (sz : Z) : Z := Z.min CONFIG_ENV_MAX_ENTRIES (CONFIG_ENV_MIN_ENTRIES + sz / 8).

(** The table made for an import without [H_NOCLEAR]. *)
Lemma import_table fuel h0 sz :
  permissive h0 -> 0 < sz < 2 ^ 31 -> 33000 <= Z.of_nat fuel ->
  exists h, (htab ← (if (Z.land 0 H_NOCLEAR =? 0) && bool_decide (is_Some (table h0)) then hdestroy_r h0 else Some h0);
   (match table htab with
   | Some _ => Some (1, htab)
   | None =>
       let nent := s32 (CONFIG_ENV_MIN_ENTRIES + sz / 8) in
       let nent := if CONFIG_ENV_MAX_ENTRIES <? nent then CONFIG_ENV_MAX_ENTRIES else nent in
       hcreate_r fuel (fun _ => true) (u64 nent) htab
   end)) = Some (1, h) /\ represents h ∅ /\ touched h = 0 /\ import_slots sz <= size h.
Proof.
  intros Hp Hsz Hf. change (Z.land 0 H_NOCLEAR =? 0) with true. cbn [andb].
  assert (Hmk : exists h1, (if bool_decide (is_Some (table h0)) then hdestroy_r h0 else Some h0) = Some h1 /\
    table h1 = None /\ permissive h1).
  { unfold hdestroy_r. destruct (table h0) as [t|] eqn:Ht.
    - rewrite bool_decide_eq_true_2 by done. cbn [mbind option_bind]. by eexists.
    - rewrite bool_decide_eq_false_2 by (by intros [? ?]). by exists h0. }
  destruct Hmk as (h1 & -> & Ht & Hp1). cbn [mbind option_bind]. rewrite Ht.
  assert (Hd : 0 <= sz / 8 < 2 ^ 28) by (split; [apply Z.div_pos; lia|apply Z.div_lt_upper_bound; lia]).
  rewrite s32_small by (unfold is_s32, CONFIG_ENV_MIN_ENTRIES; lia). cbv zeta.
  set (n := if CONFIG_ENV_MAX_ENTRIES <? _ then _ else _).
  assert (Hn : n = import_slots sz /\ 4 <= n <= 512).
  { unfold n, import_slots, CONFIG_ENV_MAX_ENTRIES, CONFIG_ENV_MIN_ENTRIES. case_tests; lia. }
  rewrite u64_small by (unfold is_u64; lia).
  destruct (hcreate_ok fuel n h1 Ht Hp1) as (p & h & -> & Hs & _ & Hpr & _ & Hr & _ & Htc); [lia|done|].
  exists h. split; [done|]. split; [done|]. split; [done|]. lia.
Qed.

Lemma listing_needed sep m kvs : listing m kvs -> needed sep kvs = needed sep (map_to_list m).
Proof.
  intros (Hnd & _ & Hiff). assert (Hp : kvs ≡ₚ map_to_list m).
  { apply NoDup_Permutation; [by eapply NoDup_fmap_1|apply NoDup_map_to_list|].
    intros [k v]. by rewrite Hiff, elem_of_map_to_list. }
  unfold needed, text_of. rewrite (Permutation_length (Permutation_flat_map (line sep) Hp)).
  by rewrite (Permutation_length Hp).
Qed.

Lemma export_taken sep sz kvs buf : needed sep kvs <= sz <= Z.of_nat (length buf) ->
  exists j, sz = Z.of_nat (length (text_of sep kvs) + S j) /\
    take (Z.to_nat sz) (export_buffer sep sz kvs (drop (Z.to_nat sz) buf)) = text_of sep kvs ++ 0 :: replicate j 0.
Proof.
  unfold needed. intros Hsz. exists (Z.to_nat sz - S (length (text_of sep kvs)))%nat. split; [lia|].
  unfold export_buffer. rewrite (app_assoc [0]), app_assoc, take_app_length'; [done|].
  rewrite !length_app, length_replicate. simpl. lia.
Qed.

(** What an export has written is imported as the map without its empty values. *)
Lemma import_exported (strdup : list Z -> option (list Z))
    (callback_init : list Z -> option callback_fn) (flags_init : list Z -> Z)
    (h0 : hsearch_data) (m : gmap (list Z) (list Z)) kvs sep buf sz fuel :
  (forall v, strdup v = Some v) ->
  (forall k f, callback_init k = Some f -> forall k' v op fl, f k' v op fl = false) ->
  listing m kvs -> values_ok m -> names_ok sep m -> sep <> 92 -> sep <> 61 ->
  permissive h0 -> 0 < sz <= Z.of_nat (length buf) -> sz < 2 ^ 31 ->
  Z.of_nat (base.size m) < import_slots sz -> 33000 <= Z.of_nat fuel -> needed sep kvs <= sz ->
  exists h', himport_r strdup callback_init flags_init fuel (fun _ => true) h0
      (export_buffer sep sz kvs (drop (Z.to_nat sz) buf)) sz sep 0 false [] = Some (1, h') /\
    represents h' (nonempty m).
Proof.
  intros Hdup Hcb Hk Hv Hn H92 H61 Hp Hsz Hs31 Hroom Hf Hne.
  destruct (export_taken sep sz kvs buf) as (j & Hj & Htake); [lia|].
  destruct (import_table fuel h0 sz Hp) as (h1 & Htab & Hr1 & Ht1 & Hs1); [lia|done|].
  pose proof (listing_length m kvs Hk) as Hlen.
  destruct (himport_ok strdup callback_init flags_init Hdup Hcb sep H92 H61 fuel 0 kvs j h0 h1 ∅ _ sz
    Hj Htake Htab (listing_lines sep m kvs Hn Hv Hk) Hr1) as (h' & Himp & Hr'); [lia|].
  exists h'. split; [done|]. by rewrite <- (fold_listing m kvs Hk).
Qed.

(** C34: exporting an environment and importing the text, into whatever table
    there was before, gives a table that has exactly the names whose values are
    not empty, with their values, as long as the names are fewer than the slots
    an import makes and the buffer has the room needed. *)
Theorem env_roundtrip `{Slre} (strdup : list Z -> option (list Z))
    (callback_init : list Z -> option callback_fn) (flags_init : list Z -> Z)
    (h h0 : hsearch_data) (m : gmap (list Z) (list Z))
    calloc sep buf sz fuel :
  (forall v, strdup v = Some v) ->
  (forall k f, callback_init k = Some f -> forall k' v op fl, f k' v op fl = false) ->
  represents h m -> values_ok m -> names_ok sep m -> escapes_counted m sep -> sep <> 92 -> sep <> 61 ->
  permissive h0 -> 0 < sz <= Z.of_nat (length buf) -> sz < 2 ^ 31 ->
  Z.of_nat (base.size m) < import_slots sz -> 33000 <= Z.of_nat fuel ->
  needed sep (map_to_list m) <= sz ->
  exists text h', hexport_r calloc h sep 0 (Some buf) sz [] = Some (sz, Some text, h) /\
    himport_r strdup callback_init flags_init fuel (fun _ => true) h0 text sz sep 0 false [] = Some (1, h') /\
    represents h' (nonempty m).
Proof.
  intros Hdup Hcb Hr Hv Hn Hesc H92 H61 Hp Hsz Hs31 Hroom Hf Hne.
  destruct (hexport_into h m Hr Hv (fun k v Hk => proj1 (Hn k v Hk)) calloc sep 0 buf sz eq_refl Hesc Hsz)
    as (kvs & Hk & Hexp).
  fold (needed sep kvs) in Hexp. rewrite <- (listing_needed sep m kvs Hk) in Hne.
  destruct (Z.ltb_spec sz (needed sep kvs)); [lia|].
  destruct (import_exported strdup callback_init flags_init h0 m kvs sep buf sz fuel) as (h' & Himp & Hr'); try done.
  by exists (export_buffer sep sz kvs (drop (Z.to_nat sz) buf)), h'.
Qed.

(** With [H_NOCLEAR] the lines of a text are applied to the table there is,
    from first to last: a name with a value is set, a name without is deleted. *)
Theorem himport_merges (strdup : list Z -> option (list Z))
    (callback_init : list Z -> option callback_fn) (flags_init : list Z -> Z)
    (h : hsearch_data) (m : gmap (list Z) (list Z))
    sep kvs fuel :
  (forall v, strdup v = Some v) ->
  (forall k f, callback_init k = Some f -> forall k' v op fl, f k' v op fl = false) ->
  represents h m -> sep <> 92 -> sep <> 61 -> kvs <> [] -> lines_ok sep kvs ->
  touched h + Z.of_nat (length kvs) < size h ->
  exists h', himport_r strdup callback_init flags_init fuel (fun _ => true) h (text_of sep kvs ++ [0])
      (Z.of_nat (length (text_of sep kvs) + 1)) sep H_NOCLEAR false [] = Some (1, h') /\
    represents h' (foldl set_or_delete m kvs).
Proof.
  intros Hdup Hcb Hr H92 H61 Hne Hok Hroom. replace (foldl set_or_delete m kvs) with (foldl set_or_delete m (as_read kvs))
    by (by destruct kvs).
  apply (himport_ok strdup callback_init flags_init Hdup Hcb sep H92 H61 fuel H_NOCLEAR kvs 0 h h m); try done.
  - rewrite Nat2Z.id, take_ge; [done|]. rewrite length_app. simpl. lia.
  - pose proof Hr as [Hw _]. destruct (wf_table h Hw) as (t & Ht & _).
    change (Z.land H_NOCLEAR H_NOCLEAR =? 0) with false. cbn [andb mbind option_bind]. by rewrite Ht.
Qed.

(** A text with carriage returns, every line of which ends in a line feed, is
    imported as the text without the carriage returns before its line feeds. *)
Theorem himport_crlf (strdup : list Z -> option (list Z))
    (callback_init : list Z -> option callback_fn) (flags_init : list Z -> Z)
    (h : hsearch_data) (m : gmap (list Z) (list Z)) T kvs fuel :
  (forall v, strdup v = Some v) ->
  (forall k f, callback_init k = Some f -> forall k' v op fl, f k' v op fl = false) ->
  represents h m -> text_ok T -> unix_text T = text_of 10 kvs -> kvs <> [] -> lines_ok 10 kvs ->
  touched h + Z.of_nat (length kvs) < size h ->
  exists h', himport_r strdup callback_init flags_init fuel (fun _ => true) h T
      (Z.of_nat (length T)) 10 H_NOCLEAR true [] = Some (1, h') /\
    represents h' (foldl set_or_delete m kvs).
Proof.
  intros Hdup Hcb Hr HT Hux Hne Hok Hroom. unfold himport_r. rewrite Z.ltb_irrefl, Nat2Z.id, take_ge by done.
  change (Z.land H_NOCLEAR H_NOCLEAR =? 0) with false. cbn [negb andb mbind option_bind].
  pose proof Hr as [Hw _]. destruct (wf_table h Hw) as (t & -> & _). cbn [mbind option_bind].
  change (1 =? 0) with false. cbn iota.
  destruct (squeeze_ok T HT (S (length (T ++ [0]))) [] [] [0] (Z.of_nat (length T))) as (M' & Hs & Hl);
    [rewrite length_app; lia|done|].
  cbn [app length] in Hs, Hl. change (Z.of_nat 0) with 0 in Hs. rewrite Hs. cbn [mbind option_bind map].
  rewrite Hux in *. assert (Hl' := Hl). rewrite length_app in Hl'.
  pose proof (text_of_length 10 kvs). assert (length kvs <> 0%nat) by by destruct kvs.
  destruct (Z.eqb_spec (Z.of_nat (length T)) 0); [lia|].
  set (data := text_of 10 kvs ++ M' ++ [0]).
  assert (Hd : (length (text_of 10 kvs) < length data)%nat) by (unfold data; rewrite !length_app; simpl; lia).
  destruct (rounds_ok strdup callback_init flags_init Hdup Hcb 10 ltac:(done) ltac:(done) H_NOCLEAR (S (length data))
    (Z.of_nat (length T) - Z.of_nat (length M')) kvs (S (length data)) [] (M' ++ [0]) h m) as (P' & h' & Hres & Hr');
    try done; try (cbn [app]; lia).
  - right. cbn [app]. lia.
  - exists h'. split; [|done]. cbn [app length] in Hres. change (Z.of_nat 0) with 0 in Hres. fold data in Hres.
    rewrite Hres. done.
Qed.

(** ** What goes wrong *)

Definition no_regex : Slre := {| slre := unit; slre_compile _ := None; slre_match _ _ := false |}.

(** A value of nothing but backslashes, in a table of its own. *)
Definition backslashes : option hsearch_data := changes [Set_var (chars "a") (replicate 12 92)] fresh.

(** With the separator NUL the room counted for a value leaves its escapes
    out, although they are written: the export of one name with twelve
    backslashes for its value runs out of the buffer it has asked for itself. *)
Theorem hexport_overflows :
  exists h, backslashes = Some h /\ @hexport_r no_regex (fun _ => true) h 0 0 None 0 [] = None /\
    exists l, collect (H := no_regex) (seqZ 1 (size h)) h 0 0 [] = Some (l, 17) /\
      length (text_of 0 [(chars "a", replicate 12 92)]) = 27%nat.
Proof.
  eexists. split; [vm_compute; reflexivity|]. split; [vm_compute; reflexivity|].
  eexists. split; vm_compute; reflexivity.
Qed.

(** Two lines, and no line feed after the last. *)
Definition dos_text : list Z := chars "a=1" ++ [13; 10] ++ chars "b=2".

(** Without a line feed at the end the characters left over by the squeezing
    are read as well: "b=2" is imported as "22". *)
Theorem himport_crlf_stale :
  exists h, himport_r Some (fun _ => None) (fun _ => 0) 0 (fun _ => true) fresh dos_text
      (Z.of_nat (length dos_text)) 10 H_NOCLEAR true [] = Some (1, h) /\
    value_of (chars "a") h = Some (chars "1") /\ value_of (chars "b") h = Some (chars "22").
Proof. eexists. split; [vm_compute; reflexivity|]. split; vm_compute; reflexivity. Qed.

(** ** Witnesses *)

Definition sample_changes : list change :=
  [one "ip"; one "boot"; Set_var (chars "path") [92; 47]; Set_var (chars "gone") []].

Definition sample_map : gmap (list Z) (list Z) := foldl change_map ∅ sample_changes.

Definition sample : hsearch_data := default fresh (changes sample_changes fresh).

Lemma sample_represents : represents sample sample_map.
Proof.
  destruct (changes_ok sample_changes fresh ∅ fresh_represents) as (h' & Hc & Hr & _).
  - refine (bool_decide_eq_true_1 _ _). vm_compute. reflexivity.
  - reflexivity.
  - unfold sample. rewrite Hc. exact Hr.
Qed.

(** What holds of every pair of the map. *)
Lemma sample_all (P : list Z -> list Z -> Prop) :
  P (chars "ip") (chars "1") -> P (chars "boot") (chars "1") -> P (chars "path") [92; 47] -> P (chars "gone") [] ->
  forall k v, sample_map !! k = Some v -> P k v.
Proof.
  intros H1 H2 H3 H4 k v Hk. cbn [sample_map sample_changes foldl change_map one] in Hk.
  repeat (apply lookup_insert_Some in Hk as [[<- <-]|[_ Hk]]; [done|]). by rewrite lookup_empty in Hk.
Qed.

Lemma sample_values : values_ok sample_map.
Proof. refine (sample_all (fun _ v => text_ok v) _ _ _ _); repeat constructor. Qed.

Lemma name_ok_by sep c k : text_ok (c :: k) -> isblank c = false -> c <> 35 ->
  bool_decide (Forall (fun c => c ∉ [61; sep]) (c :: k)) = true -> name_ok sep (c :: k).
Proof. intros Ht Hb H35 Hs. split; [done|by exists c|by apply bool_decide_eq_true in Hs]. Qed.

Lemma sample_names : names_ok 10 sample_map.
Proof.
  refine (sample_all (fun k _ => ascii_text k /\ name_ok 10 k) _ _ _ _); (split; [repeat constructor|apply name_ok_by; [repeat constructor|done|done|done]]).
Qed.

Lemma hexport_into_ok_witness : exists kvs, listing sample_map kvs /\
  @hexport_r no_regex (fun _ => false) sample 10 0 (Some (replicate 100 255)) 64 [] =
    if 64 <? needed 10 kvs then Some (-1, Some (replicate 100 255), set_errno ENOMEM sample)
    else Some (64, Some (export_buffer 10 64 kvs (drop (Z.to_nat 64) (replicate 100 255))), sample).
Proof.
  apply (@hexport_into_ok no_regex sample sample_map (fun _ => false) 10 0 (replicate 100 255) 64 sample_represents sample_values).
  - exact (fun k v Hk => proj1 (sample_names k v Hk)).
  - reflexivity.
  - left. lia.
  - rewrite length_replicate. lia.
Defined.

Lemma env_roundtrip_witness : exists text h', @hexport_r no_regex (fun _ => false) sample 10 0 (Some (replicate 64 0)) 64 [] = Some (64, Some text, sample) /\
    himport_r Some (fun _ => None) (fun _ => 0) (Z.to_nat 33000) (fun _ => true) fresh text 64 10 0 false [] = Some (1, h') /\
    represents h' (nonempty sample_map).
Proof.
  apply (@env_roundtrip no_regex Some (fun _ => None) (fun _ => 0) sample fresh sample_map (fun _ => false) 10
    (replicate 64 0) 64 (Z.to_nat 33000)); try exact sample_represents; try exact sample_values; try exact sample_names.
  - reflexivity.
  - intros k f Hf. discriminate Hf.
  - left. lia.
  - lia.
  - lia.
  - intros e v op fl. reflexivity.
  - rewrite length_replicate. lia.
  - lia.
  - vm_compute. reflexivity.
  - rewrite Z2Nat.id; lia.
  - vm_compute. discriminate.
Defined.

Definition sample_lines : list (list Z * list Z) := [(chars "ip", []); (chars "gw", chars "a b")].

Lemma sample_lines_ok : lines_ok 10 sample_lines.
Proof.
  assert (Hn : name_ok 10 (chars "ip") /\ name_ok 10 (chars "gw"))
    by (split; (apply name_ok_by; [repeat constructor|done|done|done])).
  unfold lines_ok, sample_lines. destruct Hn as [Hi Hg].
  apply Forall_cons. split; [split; [exact Hi|constructor]|].
  apply Forall_cons. split; [split; [exact Hg|repeat constructor]|constructor].
Qed.

Lemma himport_merges_witness :
  exists h', himport_r Some (fun _ => None) (fun _ => 0) 0 (fun _ => true) fresh (text_of 10 sample_lines ++ [0])
      (Z.of_nat (length (text_of 10 sample_lines) + 1)) 10 H_NOCLEAR false [] = Some (1, h') /\
    represents h' (foldl set_or_delete ∅ sample_lines).
Proof.
  apply (himport_merges Some (fun _ => None) (fun _ => 0) fresh ∅ 10 sample_lines 0); try exact sample_lines_ok; try exact fresh_represents.
  - reflexivity.
  - intros k f Hf. discriminate Hf.
  - lia.
  - lia.
  - discriminate.
  - reflexivity.
Defined.

Definition sample_dos : list Z := chars "ip=" ++ [13; 10] ++ chars "gw=a b" ++ [13; 10].

Lemma himport_crlf_witness :
  exists h', himport_r Some (fun _ => None) (fun _ => 0) 0 (fun _ => true) fresh sample_dos
      (Z.of_nat (length sample_dos)) 10 H_NOCLEAR true [] = Some (1, h') /\
    represents h' (foldl set_or_delete ∅ sample_lines).
Proof.
  apply (himport_crlf Some (fun _ => None) (fun _ => 0) fresh ∅ sample_dos sample_lines 0); try exact sample_lines_ok; try exact fresh_represents.
  - reflexivity.
  - intros k f Hf. discriminate Hf.
  - repeat constructor.
  - vm_compute. reflexivity.
  - discriminate.
  - reflexivity.
Defined.
