(* ===== verification/EnvSafe.v ===== *)
(** The import of arbitrary bytes (src/U-Boot/lib/hashtable.c, [himport_r]): it
    never leaves its buffer, always returns, and leaves a sound table. *)

From S2P Require Import Prelude UStr QSort HashTable EnvText.

(** ** The buffer *)

(** A buffer of [N] bytes, the last of which is NUL. *)
Record buffer (N : Z) (d : list Z) : Prop := {
  buffer_length : Z.of_nat (length d) = N;
  buffer_end : ld d (N - 1) = Some 0;
  buffer_bytes : Forall (fun c => 0 <= c < 256) d;
}.

(** The same from [i] on. *)
Definition same_from (i : Z) (d d' : list Z) : Prop := forall j, i <= j -> ld d' j = ld d j.

Lemma same_from_trans i j d d' d'' : same_from i d d' -> same_from j d' d'' -> i <= j -> same_from j d d''.
Proof. intros H1 H2 Hij k Hk. rewrite H2 by lia. apply H1. lia. Qed.

Lemma same_from_le i j d d' : same_from i d d' -> i <= j -> same_from j d d'.
Proof. intros H1 Hij k Hk. apply H1. lia. Qed.

Section Buffer.
Context (N : Z).

Lemma ld_in d i : buffer N d -> 0 <= i < N -> exists c, ld d i = Some c /\ 0 <= c < 256.
Proof.
  intros [Hl _ Hb] Hi. destruct (lookup_lt_is_Some_2 d (Z.to_nat i)) as [c Hc]; [lia|].
  exists c. unfold ld. destruct (Z.ltb_spec i 0); [lia|]. split; [done|]. by eapply Forall_lookup_1 in Hb.
Qed.

(** A character that is not NUL has one after it. *)
Lemma ld_nonzero d i c : buffer N d -> ld d i = Some c -> c <> 0 -> 0 <= i < N - 1.
Proof.
  intros [Hl He _] Hc Hz. assert (i <> N - 1) by (intros ->; congruence).
  unfold ld in Hc. destruct (Z.ltb_spec i 0); [done|]. apply lookup_lt_Some in Hc. lia.
Qed.

Lemma ld_store d i c j : 0 <= i < Z.of_nat (length d) ->
  ld (<[Z.to_nat i := c]> d) j = if j =? i then Some c else ld d j.
Proof.
  intros Hi. unfold ld. destruct (Z.ltb_spec j 0), (Z.eqb_spec j i) as [->|]; try lia; try done.
  - apply list_lookup_insert_eq. lia.
  - apply list_lookup_insert_ne. lia.
Qed.

Lemma store_in d i c : buffer N d -> 0 <= i < N -> 0 <= c < 256 -> i < N - 1 \/ c = 0 ->
  exists d', store i c d = Some d' /\ buffer N d' /\ same_from (i + 1) d d' /\ ld d' i = Some c.
Proof.
  intros [Hl He Hb] Hi Hc Hor. unfold store. rewrite Hl.
  destruct (Z.leb_spec 0 i), (Z.ltb_spec i N); try lia. cbn [andb].
  exists (<[Z.to_nat i := c]> d). split; [done|]. split; [split|split].
  - by rewrite length_insert.
  - rewrite ld_store by lia. destruct (Z.eqb_spec (N - 1) i); [|done]. destruct Hor as [| ->]; [lia|done].
  - by apply Forall_insert.
  - intros j Hj. rewrite ld_store by lia. destruct (Z.eqb_spec j i); [lia|done].
  - rewrite ld_store by lia. by rewrite Z.eqb_refl.
Qed.

Lemma skip_blanks_in d : buffer N d -> forall fuel dp, 0 <= dp < N -> N - dp <= Z.of_nat fuel ->
  exists p, skip_blanks fuel d dp = Some p /\ dp <= p < N /\ (ld d dp = Some 0 -> p = dp).
Proof.
  intros Hb. induction fuel as [|fuel IH]; intros dp Hdp Hf; [lia|]. cbn [skip_blanks].
  destruct (ld_in d dp Hb Hdp) as (c & Hc & _). rewrite Hc. cbn [mbind option_bind].
  destruct (isblank c) eqn:Hbl; [|exists dp; split; [done|]; split; [lia|done]].
  assert (Hz : c <> 0) by (intros ->; done). pose proof (ld_nonzero d dp c Hb Hc Hz).
  destruct (IH (dp + 1)) as (p & -> & Hp & _); [lia|lia|]. exists p. split; [done|]. split; [lia|congruence].
Qed.

Lemma skip_to_in stops d : buffer N d -> forall fuel dp, 0 <= dp < N -> N - dp <= Z.of_nat fuel ->
  exists p c, skip_to fuel stops d dp = Some p /\ dp <= p < N /\ ld d p = Some c /\ (c = 0 \/ c ∈ stops).
Proof.
  intros Hb. induction fuel as [|fuel IH]; intros dp Hdp Hf; [lia|]. cbn [skip_to].
  destruct (ld_in d dp Hb Hdp) as (c & Hc & _). rewrite Hc. cbn [mbind option_bind].
  destruct ((c =? 0) || bool_decide (c ∈ stops)) eqn:Hs.
  - exists dp, c. split; [done|]. split; [lia|]. split; [done|].
    apply orb_true_iff in Hs. by rewrite Z.eqb_eq, bool_decide_eq_true in Hs.
  - apply orb_false_iff in Hs as [Hz%Z.eqb_neq _]. pose proof (ld_nonzero d dp c Hb Hc Hz).
    destruct (IH (dp + 1)) as (p & c' & -> & Hp & Hrest); [lia|lia|]. exists p, c'. split; [done|]. split; [lia|done].
Qed.

Lemma unescape_in sep : forall fuel d dp sp, buffer N d -> 0 <= sp <= dp -> dp < N -> N - dp <= Z.of_nat fuel ->
  exists d' dp' sp' c, unescape fuel sep d dp sp = Some (d', dp', sp') /\ buffer N d' /\ sp <= sp' <= dp' /\
    dp <= dp' < N /\ ld d dp' = Some c /\ (c = 0 \/ c = sep) /\ same_from dp' d d'.
Proof.
  induction fuel as [|fuel IH]; intros d dp sp Hb Hsp Hdp Hf; [lia|]. cbn [unescape].
  destruct (ld_in d dp Hb) as (c & Hc & Hcb); [lia|]. rewrite Hc. cbn [mbind option_bind].
  destruct ((c =? 0) || (c =? sep)) eqn:Hs.
  { exists d, dp, sp, c. apply orb_true_iff in Hs. rewrite !Z.eqb_eq in Hs.
    split; [done|]. split; [done|]. split; [lia|]. split; [lia|]. by split. }
  apply orb_false_iff in Hs as [Hz%Z.eqb_neq _]. pose proof (ld_nonzero d dp c Hb Hc Hz).
  assert (Hesc : exists c1, (if c =? 92 then ld d (dp + 1) else Some 0) = Some c1 /\
    (c1 <> 0 -> ld d (dp + 1) = Some c1)).
  { destruct (c =? 92); [|by exists 0]. destruct (ld_in d (dp + 1) Hb) as (c1 & Hc1 & _); [lia|]. by exists c1. }
  destruct Hesc as (c1 & -> & Hc1). cbn [mbind option_bind].
  set (dp1 := if (c =? 92) && negb (c1 =? 0) then dp + 1 else dp).
  assert (Hdp1 : exists c2, ld d dp1 = Some c2 /\ c2 <> 0 /\ dp <= dp1).
  { unfold dp1. destruct ((c =? 92) && negb (c1 =? 0)) eqn:He.
    - apply andb_true_iff in He as [_ Hc1z%negb_true_iff%Z.eqb_neq]. exists c1. split; [by apply Hc1|lia].
    - exists c. split; [done|lia]. }
  destruct Hdp1 as (c2 & Hc2 & Hz2 & Hle). rewrite Hc2. cbn [mbind option_bind].
  pose proof (ld_nonzero d dp1 c2 Hb Hc2 Hz2).
  destruct (ld_in d dp1 Hb) as (c2' & Hc2' & Hcb2); [lia|]. assert (c2' = c2) as -> by congruence.
  destruct (store_in d sp c2 Hb) as (d1 & -> & Hb1 & Hsame & _); [lia|done|lia|]. cbn [mbind option_bind].
  destruct (IH d1 (dp1 + 1) (sp + 1) Hb1) as (d' & dp' & sp' & c3 & -> & Hb' & Hsp' & Hdp' & Hc3 & Hor & Hs');
    [lia|lia|lia|].
  exists d', dp', sp', c3. split; [done|]. split; [done|]. split; [lia|]. split; [lia|].
  rewrite Hsame in Hc3 by lia. split; [done|]. split; [done|].
  apply (same_from_trans (sp + 1) dp' d d1 d' Hsame Hs'). lia.
Qed.

(** A string starts anywhere in the buffer. *)
Lemma string_in d i : buffer N d -> 0 <= i < N -> exists s, string_from d i = Some s /\ text_ok s.
Proof.
  intros [Hl He Hb] Hi. unfold string_from.
  assert (Hz : 0 ∈ drop (Z.to_nat i) d).
  { unfold ld in He. destruct (Z.ltb_spec (N - 1) 0); [lia|].
    apply list_elem_of_lookup. exists (Z.to_nat (N - 1) - Z.to_nat i)%nat. rewrite lookup_drop.
    by replace (Z.to_nat i + (Z.to_nat (N - 1) - Z.to_nat i))%nat with (Z.to_nat (N - 1)) by lia. }
  assert (Hbd : Forall (fun c => 0 <= c < 256) (drop (Z.to_nat i) d)) by by apply Forall_drop.
  revert Hz Hbd. generalize (drop (Z.to_nat i) d). clear. intros s Hz Hb.
  assert (Hs : exists n, strlen s = Some n).
  { induction s as [|c s IH]; [by apply elem_of_nil in Hz|]. cbn [strlen]. destruct (Z.eqb_spec c 0); [by exists 0|].
    apply elem_of_cons in Hz as [|Hz]; [lia|]. inversion_clear Hb. destruct IH as [k ->]; [done|done|]. by exists (Z.succ k). }
  destruct Hs as [n ->]. cbn [mbind option_bind]. eexists. split; [done|]. clear Hz.
  induction Hb as [|c s Hc Hb IH]; [constructor|]. cbn [until0]. destruct (Z.eqb_spec c 0); [constructor|].
  constructor; [lia|done].
Qed.
End Buffer.

(** ** Lines *)

(** The lines of a text: the places that end in the separator, or before a NUL
    without being one. *)
Fixpoint lines (sep : Z) (l : list Z) : Z :=
  match l with
  | [] => 0
  | c :: r =>
      (if negb (c =? 0) && ((c =? sep) || bool_decide (head r = Some 0)) then 1 else 0) + lines sep r
  end.

Lemma lines_app sep a b : lines sep b <= lines sep (a ++ b).
Proof. induction a as [|c a IH]; cbn [app lines]; [lia|]. case_match; lia. Qed.

Lemma lines_nonneg sep l : 0 <= lines sep l.
Proof. rewrite <- (app_nil_r l). apply (lines_app sep l []). Qed.

Lemma lines_segment sep a b : (exists c, head a = Some c /\ c <> 0) -> (exists c, c ∈ a /\ (c = 0 \/ c = sep)) ->
  lines sep b + 1 <= lines sep (a ++ b).
Proof.
  induction a as [|c a IH]; intros (x & Hx & Hz) (t & Ht & Hor); [done|]. injection Hx as ->.
  cbn [app lines]. destruct (Z.eqb_spec x 0); [lia|]. cbn [negb andb].
  pose proof (lines_app sep a b). destruct (Z.eqb_spec x sep) as [|Hne]; cbn [orb]; [lia|].
  apply elem_of_cons in Ht as [->|Ht]; [lia|]. destruct a as [|y a]; [by apply elem_of_nil in Ht|].
  cbn [app head] in *. destruct (decide (y = 0)) as [->|Hy]; [rewrite bool_decide_eq_true_2 by done; lia|].
  rewrite bool_decide_eq_false_2 by congruence. cbn [app] in IH. specialize (IH ltac:(by exists y) ltac:(by exists t)). lia.
Qed.

Definition lines_from (sep : Z) (d : list Z) (i : Z) : Z := lines sep (drop (Z.to_nat i) d).

Section Lines.
Context (N sep : Z).

Lemma drop_split (d : list Z) i j : 0 <= i <= j ->
  drop (Z.to_nat i) d = take (Z.to_nat j - Z.to_nat i) (drop (Z.to_nat i) d) ++ drop (Z.to_nat j) d.
Proof.
  intros Hij. rewrite <- (take_drop (Z.to_nat j - Z.to_nat i) (drop (Z.to_nat i) d)) at 1.
  rewrite drop_drop. do 2 f_equal. lia.
Qed.

Lemma lines_from_same d d' i : buffer N d -> buffer N d' -> same_from i d d' -> 0 <= i ->
  lines_from sep d' i = lines_from sep d i.
Proof.
  intros [Hl _ _] [Hl' _ _] Hs Hi. unfold lines_from. f_equal. apply list_eq. intros n. rewrite !lookup_drop.
  specialize (Hs (i + Z.of_nat n)). unfold ld in Hs. destruct (Z.ltb_spec (i + Z.of_nat n) 0); [lia|].
  replace (Z.to_nat (i + Z.of_nat n)) with (Z.to_nat i + n)%nat in Hs by lia. apply Hs. lia.
Qed.

(** Going on from [i] to [j] over a place that ends a line. *)
Lemma lines_from_less d i j p c t : 0 <= i <= p -> p < j ->
  ld d i = Some c -> ld d p = Some t -> t = 0 \/ t = sep ->
  lines_from sep d j + (if c =? 0 then 0 else 1) <= lines_from sep d i.
Proof.
  intros Hip Hpj Hc Ht Hor. unfold lines_from. rewrite (drop_split d i j) by lia.
  destruct (Z.eqb_spec c 0) as [->|Hz].
  { rewrite Z.add_0_r. apply lines_app. }
  apply lines_segment.
  - exists c. split; [|done]. unfold ld in Hc. destruct (Z.ltb_spec i 0); [done|].
    rewrite head_lookup, lookup_take_lt by lia. rewrite lookup_drop. by rewrite Nat.add_0_r.
  - exists t. split; [|done]. apply list_elem_of_lookup. exists (Z.to_nat p - Z.to_nat i)%nat.
    rewrite lookup_take_lt by lia. rewrite lookup_drop. unfold ld in Ht. destruct (Z.ltb_spec p 0); [done|].
    by replace (Z.to_nat i + (Z.to_nat p - Z.to_nat i))%nat with (Z.to_nat p) by lia.
Qed.
End Lines.

(** ** The variables asked for *)

Definition var_ok (v : option (list Z)) : Prop := match v with Some v => text_ok v | None => True end.

Lemma drop_var_in nm vars : text_ok nm -> Forall var_ok vars ->
  exists b vars', drop_var_from_set nm vars = Some (b, vars') /\ Forall var_ok vars'.
Proof.
  intros Hn Hv. unfold drop_var_from_set. destruct (length vars =? 0)%nat; [by exists true, vars|].
  induction Hv as [|v vars Hv Hvs IH]; cbn [foldr]; [by exists false, []|].
  destruct IH as (b & vars' & -> & Hok). cbn [mbind option_bind]. destruct v as [v|].
  - destruct (strcmp_cstr nm v [] [] Hn Hv) as (r & -> & _). cbn [mbind option_bind].
    destruct (r =? 0); do 2 eexists; (split; [done|]); by constructor.
  - do 2 eexists. split; [done|]. by constructor.
Qed.

(** ** A round *)

Section Round.
Context (strdup : list Z -> option (list Z)).
Context (callback_init : list Z -> option callback_fn) (flags_init : list Z -> Z).
Hypothesis Hdup : forall v, strdup v = Some v.
Hypothesis Hcb : forall k f, callback_init k = Some f -> forall k' v op fl, f k' v op fl = false.
Context (N sep flag : Z).

Abbreviation round := (import_round strdup callback_init flags_init).
Abbreviation rounds := (import_rounds strdup callback_init flags_init).

(** What a change of the table may do. *)
Definition table_step (h h' : hsearch_data) : Prop :=
  (exists m, represents h' m) /\ size h' = size h /\ touched h' <= touched h + 1.

Lemma table_same h m : represents h m -> table_step h h.
Proof. intros Hr. split; [by exists m|]. lia. Qed.

Lemma deletes h m k : represents h m -> text_ok k ->
  exists r h', hdelete_r strdup callback_init flags_init k h flag = Some (r, h') /\ table_step h h'.
Proof.
  intros Hr Hk. pose proof (hdelete_deletes strdup callback_init flags_init Hdup h m k flag Hr Hk) as Hd.
  destruct (m !! k).
  - destruct Hd as (h' & -> & Hr' & Hs & Ht). exists 1, h'. split; [done|]. split; [by eexists|]. lia.
  - destruct Hd as (h' & -> & Ht & Hr' & Hs). exists 0, h'. split; [done|]. split; [by eexists|].
    unfold touched. rewrite Ht. unfold touched. lia.
Qed.

Lemma enters h m k v : represents h m -> roomy h -> text_ok k ->
  exists r i h', hsearch_r strdup callback_init flags_init k (Some v) ENTER h flag = Some (r, i, h') /\ table_step h h'.
Proof.
  intros Hr Hroom Hk.
  destruct (hsearch_enters strdup callback_init flags_init Hdup Hcb h m k v flag Hr Hroom Hk)
    as (r & i & h' & -> & _ & Hr' & _ & Hs & Ht).
  exists r, (Some i), h'. split; [done|]. split; [by eexists|]. lia.
Qed.

(** What a round must leave, if it started at [dp] on the character [c0]. *)
Definition round_ok (d : list Z) (dp c0 : Z) (h : hsearch_data) (r : round_result) : Prop :=
  match r with
  | Bad h' => table_step h h'
  | Going d' dp' vars' h' =>
      buffer N d' /\ dp < dp' /\ Forall var_ok vars' /\ table_step h h' /\
      lines_from sep d' dp' + (if c0 =? 0 then 0 else 1) <= lines_from sep d dp
  end.

(** The place the next round starts at is behind one that ends a line. *)
Lemma moved_on d d' dp dp' c0 p t :
  buffer N d -> buffer N d' -> same_from dp' d d' -> 0 <= dp <= p -> p < dp' ->
  ld d dp = Some c0 -> ld d p = Some t -> t = 0 \/ t = sep ->
  lines_from sep d' dp' + (if c0 =? 0 then 0 else 1) <= lines_from sep d dp.
Proof.
  intros Hb Hb' Hs Hp Hpd Hc Ht Hor. rewrite (lines_from_same N sep d d' dp') by (done || lia).
  by apply (lines_from_less sep d dp dp' p c0 t).
Qed.

(** The name alone: the variable is deleted if it is wanted. *)
Lemma delete_name d q name vars h m :
  buffer N d -> 0 <= name < N -> Forall var_ok vars -> represents h m ->
  exists vars' h',
    (nm ← string_from d name;
     '(wanted, vars) ← drop_var_from_set nm vars;
     if negb wanted then Some (Going d q vars h) else
     '(_, htab) ← hdelete_r strdup callback_init flags_init nm h flag;
     Some (Going d q vars htab)) = Some (Going d q vars' h') /\ Forall var_ok vars' /\ table_step h h'.
Proof.
  intros Hb Hn Hv Hr. destruct (string_in N d name Hb Hn) as (nm & -> & Hnm). cbn [mbind option_bind].
  destruct (drop_var_in nm vars Hnm Hv) as (b & vars' & -> & Hv'). cbn [mbind option_bind].
  destruct b; cbn [negb].
  - destruct (deletes h m nm Hr Hnm) as (r & h' & -> & Hstep). cbn [mbind option_bind]. by exists vars', h'.
  - exists vars', h. split; [done|]. split; [done|]. by apply (table_same h m).
Qed.

(** A name and a value: the variable is entered if it is wanted. *)
Lemma enter_name d q name value vars h m :
  buffer N d -> 0 <= name < N -> 0 <= value < N -> Forall var_ok vars -> represents h m -> roomy h ->
  exists r,
    (nm ← string_from d name;
     if (length nm =? 0)%nat then Some (Bad (set_errno EINVAL h)) else
     '(wanted, vars) ← drop_var_from_set nm vars;
     if negb wanted then Some (Going d q vars h) else
     v ← string_from d value;
     '(_, _, htab) ← hsearch_r strdup callback_init flags_init nm (Some v) ENTER h flag;
     Some (Going d q vars htab)) = Some r /\
    ((exists h', r = Bad h' /\ table_step h h') \/
     exists vars' h', r = Going d q vars' h' /\ Forall var_ok vars' /\ table_step h h').
Proof.
  intros Hb Hn Hval Hv Hr Hroom. destruct (string_in N d name Hb Hn) as (nm & -> & Hnm). cbn [mbind option_bind].
  destruct (length nm =? 0)%nat.
  { eexists. split; [done|]. left. eexists. split; [done|].
    split; [exists m; by apply set_errno_wf|]. split; [done|]. change (touched (set_errno EINVAL h)) with (touched h). lia. }
  destruct (drop_var_in nm vars Hnm Hv) as (b & vars' & -> & Hv'). cbn [mbind option_bind].
  destruct b; cbn [negb].
  - destruct (string_in N d value Hb Hval) as (v & -> & _). cbn [mbind option_bind].
    destruct (enters h m nm v Hr Hroom Hnm) as (r & i & h' & -> & Hstep). cbn [mbind option_bind].
    eexists. split; [done|]. right. by exists vars', h'.
  - eexists. split; [done|]. right. exists vars', h. split; [done|]. split; [done|]. by apply (table_same h m).
Qed.

(** Whether the line is a name alone, and where it then ends. *)
Lemma name_alone d p c : buffer N d -> ld d p = Some c -> c = 0 \/ c = 61 \/ c = sep ->
  exists del, (if c =? 0 then Some true else
      c1 ← ld d (p + 1); Some ((c1 =? 0) || (c =? sep) || (c1 =? sep))) = Some del /\
    if del : bool
    then if c =? 61 then p + 1 < N /\ exists e t, ld d e = Some t /\ p <= e < p + 2 /\ (t = 0 \/ t = sep)
         else c = 0 \/ c = sep
    else c <> 0 /\ c <> sep.
Proof.
  intros Hb Hc Hor. destruct (Z.eqb_spec c 0) as [->|Hz]; [exists true; split; [done|by left]|].
  pose proof (ld_nonzero N d p c Hb Hc Hz). destruct (ld_in N d (p + 1) Hb) as (c1 & Hc1 & _); [lia|].
  rewrite Hc1. cbn [mbind option_bind]. eexists. split; [done|].
  destruct ((c1 =? 0) || (c =? sep) || (c1 =? sep)) eqn:He.
  - destruct (Z.eqb_spec c 61) as [->|]; [|destruct Hor as [|[|]]; [done|done|by right]]. split; [lia|].
    rewrite !orb_true_iff, !Z.eqb_eq in He. destruct He as [[He|He]|He].
    + exists (p + 1), c1. split; [done|]. split; [lia|by left].
    + exists p, 61. split; [done|]. split; [lia|by right].
    + exists (p + 1), c1. split; [done|]. split; [lia|by right].
  - rewrite !orb_false_iff, !Z.eqb_neq in He. tauto.
Qed.

Lemma round_safe fuel d dp c0 vars h m :
  buffer N d -> 0 <= dp < N -> ld d dp = Some c0 -> N <= Z.of_nat fuel -> Forall var_ok vars ->
  represents h m -> roomy h ->
  exists r, round fuel sep flag d dp vars h = Some r /\ round_ok d dp c0 h r.
Proof.
  intros Hb Hdp Hc0 Hf Hv Hr Hroom. unfold import_round.
  destruct (skip_blanks_in N d Hb fuel dp) as (p0 & -> & Hp0 & _); [lia|lia|]. cbn [mbind option_bind].
  destruct (ld_in N d p0 Hb) as (x & Hx & _); [lia|]. rewrite Hx. cbn [mbind option_bind].
  destruct (x =? 35).
  { destruct (skip_to_in N [sep] d Hb fuel p0) as (p & t & -> & Hp & Ht & Hor); [lia|lia|]. cbn [mbind option_bind].
    eexists. split; [done|]. split; [done|]. split; [lia|]. split; [done|]. split; [by apply (table_same h m)|].
    apply (moved_on d d dp (p + 1) c0 p t); try done; try lia.
    destruct Hor as [|Hin]; [by left|right]. by apply list_elem_of_singleton in Hin. }
  destruct (skip_to_in N [61; sep] d Hb fuel p0) as (p & c & -> & Hp & Hc & Hor); [lia|lia|]. cbn [mbind option_bind].
  rewrite Hc. cbn [mbind option_bind].
  destruct (name_alone d p c Hb Hc) as (del & -> & Hdel).
  { destruct Hor as [|[-> | ->%list_elem_of_singleton]%elem_of_cons]; auto. }
  cbn [mbind option_bind]. destruct del.
  - destruct (Z.eqb_spec c 61) as [->|Hc61].
    + destruct Hdel as (HpN & e & t & He & Her & Heor).
      destruct (store_in N d p 0 Hb) as (d1 & -> & Hb1 & Hs1 & _); [lia|lia|by right|]. cbn [mbind option_bind].
      destruct (store_in N d1 (p + 1) 0 Hb1) as (d2 & -> & Hb2 & Hs2 & _); [lia|lia|by right|]. cbn [mbind option_bind].
      destruct (delete_name d2 (p + 1 + 1) p0 vars h m) as (vars' & h' & -> & Hv' & Hstep); [done|lia|done|done|].
      eexists. split; [done|]. split; [done|]. split; [lia|]. split; [done|]. split; [done|].
      apply (moved_on d d2 dp (p + 1 + 1) c0 e t); try done; try lia.
      apply (same_from_trans (p + 1) _ d d1); [done|done|lia].
    + destruct (store_in N d p 0 Hb) as (d1 & Hst & Hb1 & Hs1 & _); [lia|lia|by right|].
      cbn [mbind option_bind]. rewrite Hst. cbn [mbind option_bind].
      destruct (delete_name d1 (p + 1) p0 vars h m) as (vars' & h' & -> & Hv' & Hstep); [done|lia|done|done|].
      eexists. split; [done|]. split; [done|]. split; [lia|]. split; [done|]. split; [done|].
      by apply (moved_on d d1 dp (p + 1) c0 p c); try done; try lia.
  - destruct Hdel as [Hz _]. pose proof (ld_nonzero N d p c Hb Hc Hz).
    destruct (store_in N d p 0 Hb) as (d1 & -> & Hb1 & Hs1 & _); [lia|lia|by right|]. cbn [mbind option_bind].
    destruct (unescape_in N sep fuel d1 (p + 1) (p + 1) Hb1) as (d2 & dp2 & sp2 & t & -> & Hb2 & Hsp2 & Hdp2 & Ht & Hto & Hs2);
      [lia|lia|lia|]. cbn [mbind option_bind].
    destruct (store_in N d2 sp2 0 Hb2) as (d3 & -> & Hb3 & Hs3 & _); [lia|lia|by right|]. cbn [mbind option_bind].
    destruct (enter_name d3 (dp2 + 1) p0 (p + 1) vars h m) as (r & -> & Hr3); [done|lia|lia|done|done|done|].
    eexists. split; [done|]. destruct Hr3 as [(h' & -> & Hstep)|(vars' & h' & -> & Hv' & Hstep)]; [done|].
    split; [done|]. split; [lia|]. split; [done|]. split; [done|].
    apply (moved_on d d3 dp (dp2 + 1) c0 dp2 t); try done; try lia.
    + apply (same_from_trans dp2 _ d d2); [|by apply (same_from_le (sp2 + 1)); [done|lia]|lia].
      apply (same_from_trans (p + 1) _ d d1); [done|done|lia].
    + rewrite <- (Hs1 dp2) by lia. done.
Qed.

(** All rounds: each of them moves on, and none but the first starts on a NUL. *)
Lemma rounds_safe fuel sz : sz <= N - 1 -> N <= Z.of_nat fuel ->
  forall n d dp c0 vars h m, buffer N d -> 0 <= dp < N -> ld d dp = Some c0 -> Forall var_ok vars ->
  represents h m -> touched h + lines_from sep d dp + (if c0 =? 0 then 1 else 0) < size h ->
  N - dp <= Z.of_nat n ->
  exists r, rounds n fuel sz sep flag d dp vars h = Some r /\
    match r with
    | Bad h' => exists m', represents h' m'
    | Going _ _ vars' h' => Forall var_ok vars' /\ exists m', represents h' m'
    end.
Proof.
  intros Hsz Hf. induction n as [|n IH]; intros d dp c0 vars h m Hb Hdp Hc0 Hv Hr Hroom Hn; [lia|].
  cbn [import_rounds]. pose proof (lines_nonneg sep (drop (Z.to_nat dp) d)) as Hnn.
  fold (lines_from sep d dp) in Hnn. pose proof Hr as [Hw _].
  destruct (round_safe fuel d dp c0 vars h m) as (r & -> & Hok);
    [done|done|done|done|done|done|apply touched_roomy; [done|]; case_match; lia|].
  cbn [mbind option_bind]. destruct r as [d' dp' vars' h'|h']; cbn [round_ok] in Hok.
  - destruct Hok as (Hb' & Hlt & Hv' & ([m' Hr'] & Hs & Ht) & Hl).
    destruct (Z.ltb_spec dp' sz) as [Hin|Hout].
    + destruct (ld_in N d' dp' Hb') as (c & Hc & _); [lia|]. rewrite Hc. cbn [mbind option_bind].
      destruct (Z.eqb_spec c 0) as [->|Hz]; cbn [negb].
      * eexists. split; [done|]. split; [done|]. by exists m'.
      * apply (IH d' dp' c vars' h' m'); try done; try lia. apply Z.eqb_neq in Hz. rewrite Hz.
        destruct (c0 =? 0); lia.
    + cbn [mbind option_bind]. eexists. split; [done|]. split; [done|]. by exists m'.
  - destruct Hok as ([m' Hr'] & _). eexists. split; [done|]. by exists m'.
Qed.

Lemma delete_left_safe vars : Forall var_ok vars -> forall h m, represents h m ->
  exists h' m', delete_left strdup callback_init flags_init vars flag h = Some h' /\ represents h' m'.
Proof.
  induction 1 as [|v vars Hv Hvs IH]; intros h m Hr; cbn [delete_left]; [by exists h, m|].
  destruct v as [v|]; [|by apply (IH h m)].
  destruct (deletes h m v Hr Hv) as (r & h' & -> & ([m' Hr'] & _)). cbn [mbind option_bind]. by apply (IH h' m').
Qed.
End Round.

(** ** Squeezing *)

Definition separators (sep : Z) (l : list Z) : Z := Z.of_nat (length (filter (fun c => c = sep) l)).

Lemma separators_app sep a b : separators sep (a ++ b) = separators sep a + separators sep b.
Proof. unfold separators. rewrite filter_app, length_app. lia. Qed.

Lemma separators_snoc sep a c : separators sep (a ++ [c]) = separators sep a + (if decide (c = sep) then 1 else 0).
Proof. rewrite separators_app. unfold separators at 2. rewrite filter_cons. by destruct (decide (c = sep)). Qed.

(** In a text without NULs only the separators end lines, and perhaps its end. *)
Lemma lines_separators sep a b : Forall (fun c => c <> 0) a ->
  separators sep a <= lines sep (a ++ b) /\ lines sep (a ++ b) <= separators sep a + 1 + lines sep b.
Proof.
  induction 1 as [|c a Hc Ha IH]; [change (separators sep []) with 0; cbn [app]; pose proof (lines_nonneg sep b); lia|].
  assert (Hs : separators sep (c :: a) = (if c =? sep then 1 else 0) + separators sep a).
  { unfold separators. rewrite filter_cons. destruct (decide (c = sep)), (Z.eqb_spec c sep); cbn [length]; lia. }
  rewrite Hs. cbn [app lines]. destruct (Z.eqb_spec c 0); [lia|]. cbn [negb andb].
  destruct (Z.eqb_spec c sep); cbn [orb]; [lia|]. destruct a as [|x a].
  - change (separators sep []) with 0 in *. pose proof (lines_nonneg sep b). cbn [app]. case_match; lia.
  - inversion_clear Ha. rewrite bool_decide_eq_false_2; [lia|]. cbn. congruence.
Qed.

(** A buffer squeezed up to [w], with [dp] characters read. *)
Definition squeezed (sep : Z) (d0 d : list Z) (dp w : Z) : Prop :=
  same_from w d0 d /\ Forall (fun c => c <> 0) (take (Z.to_nat w) d) /\ Forall (fun c => c <> 0) (take (Z.to_nat dp) d0) /\
  separators sep (take (Z.to_nat w) d) <= separators sep (take (Z.to_nat dp) d0).

Lemma take_ld (d : list Z) i c : 0 <= i -> ld d i = Some c -> take (Z.to_nat (i + 1)) d = take (Z.to_nat i) d ++ [c].
Proof.
  intros Hi Hc. unfold ld in Hc. destruct (Z.ltb_spec i 0); [done|].
  replace (Z.to_nat (i + 1)) with (S (Z.to_nat i)) by lia. by apply take_S_r.
Qed.

Lemma squeeze_in N sep d0 sz : buffer N d0 -> sz <= N - 1 -> forall fuel d dp ign,
  buffer N d -> 0 <= ign <= dp -> dp <= sz -> sz - dp < Z.of_nat fuel -> squeezed sep d0 d dp (dp - ign) ->
  exists d' ign' e, squeeze_crs fuel d sz dp ign = Some (d', ign') /\ buffer N d' /\ 0 <= ign' <= e /\ e <= sz /\
    squeezed sep d0 d' e (e - ign').
Proof.
  intros Hb0 Hsz. induction fuel as [|fuel IH]; intros d dp ign Hb Hi Hdp Hf Hq; cbn [squeeze_crs].
  { lia. }
  destruct (Z.ltb_spec dp sz) as [Hlt|]; cbn [negb]; [|by exists d, ign, dp].
  destruct (ld_in N d dp Hb) as (c & Hc & Hcb); [lia|]. rewrite Hc. cbn [mbind option_bind].
  destruct (Z.eqb_spec c 0) as [|Hz]; [by exists d, ign, dp|]. pose proof (ld_nonzero N d dp c Hb Hc Hz).
  destruct Hq as (Hsame & Hnz & Hnz0 & Hsep).
  assert (Hc0 : ld d0 dp = Some c) by (rewrite <- Hsame by lia; done).
  assert (Hnz0' : Forall (fun c => c <> 0) (take (Z.to_nat (dp + 1)) d0)).
  { rewrite (take_ld d0 dp c) by (done || lia). apply Forall_app. by repeat constructor. }
  assert (Hsep0 : separators sep (take (Z.to_nat (dp + 1)) d0) =
    separators sep (take (Z.to_nat dp) d0) + (if decide (c = sep) then 1 else 0)).
  { rewrite (take_ld d0 dp c) by (done || lia). apply separators_snoc. }
  assert (Hlf : exists lf, (if (c =? 13) && (dp <? sz - 1) then ld d (dp + 1) else Some 0) = Some lf).
  { destruct ((c =? 13) && (dp <? sz - 1)); [|by eexists]. destruct (ld_in N d (dp + 1) Hb) as (lf & Hlf & _); [lia|by exists lf]. }
  destruct Hlf as [lf ->]. cbn [mbind option_bind].
  destruct ((c =? 13) && (dp <? sz - 1) && (lf =? 10)).
  - apply IH; try done; try lia. replace (dp + 1 - (ign + 1)) with (dp - ign) by lia.
    split; [done|]. split; [done|]. split; [done|]. rewrite Hsep0. case_decide; lia.
  - destruct (store_in N d (dp - ign) c Hb) as (d1 & Hst & Hb1 & Hs1 & Hat); [lia|lia|lia|]. rewrite Hst. cbn [mbind option_bind].
    apply IH; try done; try lia. replace (dp + 1 - ign) with (dp - ign + 1) by lia.
    assert (Htake : take (Z.to_nat (dp - ign + 1)) d1 = take (Z.to_nat (dp - ign)) d ++ [c]).
    { rewrite (take_ld d1 (dp - ign) c) by (done || lia). f_equal. unfold store in Hst.
      destruct (_ && _); [|done]. injection Hst as <-. by rewrite take_insert_ge by lia. }
    split; [|split; [|split]].
    + apply (same_from_trans (dp - ign) _ d0 d d1); [done|done|lia].
    + rewrite Htake. apply Forall_app. by repeat constructor.
    + done.
    + rewrite Htake, separators_snoc, Hsep0. lia.
Qed.

(** The lines there can be after the squeezing. *)
Lemma squeezed_lines N sep d0 d e w : buffer N d0 -> buffer N d -> 0 <= w -> squeezed sep d0 d e w ->
  lines sep d <= 2 * lines sep d0 + 1.
Proof.
  intros Hb0 Hb Hw (Hsame & Hnz & Hnz0 & Hsep).
  rewrite <- (take_drop (Z.to_nat w) d) at 1.
  pose proof (proj2 (lines_separators sep _ (drop (Z.to_nat w) d) Hnz)) as H1.
  pose proof (proj1 (lines_separators sep _ (drop (Z.to_nat e) d0) Hnz0)) as H2. rewrite take_drop in H2.
  pose proof (lines_from_same N sep d0 d w Hb0 Hb Hsame Hw) as H3. unfold lines_from in H3.
  pose proof (lines_app sep (take (Z.to_nat w) d0) (drop (Z.to_nat w) d0)) as H4. rewrite take_drop in H4. lia.
Qed.

(** ** The import *)

(** The lines an import can find in [sz] bytes. *)
Definition import_lines (sep : Z) (crlf_is_lf : bool) (env : list Z) (sz : Z) : Z :=
  let n := lines sep (take (Z.to_nat sz) env ++ [0]) in if crlf_is_lf then 2 * n + 1 else n.

Lemma himport_any (strdup : list Z -> option (list Z))
    (callback_init : list Z -> option callback_fn) (flags_init : list Z -> Z)
    (h0 : hsearch_data) env sz sep crlf_is_lf vars fuel :
  (forall v, strdup v = Some v) ->
  (forall k f, callback_init k = Some f -> forall k' v op fl, f k' v op fl = false) ->
  permissive h0 -> Forall (fun c => 0 <= c < 256) env -> Forall text_ok vars ->
  0 < sz <= Z.of_nat (length env) -> sz < 2 ^ 31 ->
  import_lines sep crlf_is_lf env sz + 1 < import_slots sz -> 33000 <= Z.of_nat fuel ->
  exists ret h' m', himport_r strdup callback_init flags_init fuel (fun _ => true) h0 env sz sep 0 crlf_is_lf vars =
    Some (ret, h') /\ (ret = 0 \/ ret = 1) /\ represents h' m'.
Proof.
  intros Hdup Hcb Hp Hbytes Hvars Hsz H31 Hlines Hf. unfold himport_r. cbn [negb].
  destruct (Z.ltb_spec (Z.of_nat (length env)) sz); [lia|].
  destruct (import_table fuel h0 sz Hp) as (h & Htab & Hr & Ht & Hs); [lia|done|].
  apply bind_Some in Htab as (h1 & -> & Htab). cbn [mbind option_bind] in *. rewrite Htab.
  cbn [mbind option_bind]. change (1 =? 0) with false. cbn iota. destruct (Z.eqb_spec sz 0); [lia|].
  set (data := take (Z.to_nat sz) env ++ [0]).
  assert (Hlen : Z.of_nat (length data) = sz + 1) by (unfold data; rewrite length_app, length_take; simpl; lia).
  assert (Hb : buffer (sz + 1) data).
  { split; [done| |].
    - unfold data. apply ld_at. rewrite length_take. lia.
    - apply Forall_app. split; [by apply Forall_take|repeat constructor; lia]. }
  assert (Hsq : exists d ign, (if crlf_is_lf then
      '(data, ignored) ← squeeze_crs (S (length data)) data sz 0 0; Some (data, sz - ignored) else Some (data, sz)) =
      Some (d, sz - ign) /\ 0 <= ign /\ buffer (sz + 1) d /\ lines sep d <= import_lines sep crlf_is_lf env sz).
  { unfold import_lines. fold data. destruct crlf_is_lf.
    - destruct (squeeze_in (sz + 1) sep data sz Hb ltac:(lia) (S (length data)) data 0 0 Hb)
        as (d & ign & e & -> & Hb' & Hi & He & Hq); [lia|lia|lia|by split|].
      exists d, ign. split; [done|]. split; [lia|]. split; [done|].
      by apply (squeezed_lines (sz + 1) sep data d e (e - ign)); [..|lia|].
    - exists data, 0. split; [by rewrite Z.sub_0_r|]. split; [lia|]. by split. }
  destruct Hsq as (d & ign & -> & Hi & Hb' & Hl). cbn [mbind option_bind].
  destruct (ld_in (sz + 1) d 0 Hb') as (c0 & Hc0 & _); [lia|].
  pose proof (buffer_length _ _ Hb') as Hlen'.
  destruct (rounds_safe strdup callback_init flags_init Hdup Hcb (sz + 1) sep 0 (S (length d)) (sz - ign)
    ltac:(lia) ltac:(lia) (S (length d)) d 0 c0 (map Some vars) h ∅) as (r & -> & Hres); try done; try lia.
  { apply Forall_map. done. }
  { unfold lines_from. change (drop (Z.to_nat 0) d) with d. destruct (c0 =? 0); lia. }
  cbn [mbind option_bind]. destruct r as [d' dp' vars' h'|h'].
  - destruct Hres as (Hv' & m' & Hr').
    destruct (delete_left_safe strdup callback_init flags_init Hdup 0 vars' Hv' h' m' Hr') as (h2 & m2 & -> & Hr2).
    cbn [mbind option_bind]. exists 1, h2, m2. split; [done|]. split; [by right|done].
  - destruct Hres as (m' & Hr'). exists 0, h', m'. split; [done|]. split; [by left|done].
Qed.

(** C35: importing any bytes whatever, with or without carriage returns to squeeze
    and with or without a choice of variables, returns, never accesses a byte
    outside its buffer, and leaves a sound table, as long as the text has fewer
    lines than the table made for it has slots. *)
Theorem himport_safe (strdup : list Z -> option (list Z))
    (callback_init : list Z -> option callback_fn) (flags_init : list Z -> Z)
    (h0 : hsearch_data) env sz sep crlf_is_lf vars fuel :
  (forall v, strdup v = Some v) ->
  (forall k f, callback_init k = Some f -> forall k' v op fl, f k' v op fl = false) ->
  permissive h0 -> Forall (fun c => 0 <= c < 256) env -> Forall text_ok vars ->
  0 < sz <= Z.of_nat (length env) -> sz < 2 ^ 31 ->
  import_lines sep crlf_is_lf env sz + 1 < import_slots sz -> 33000 <= Z.of_nat fuel ->
  exists ret h' m', himport_r strdup callback_init flags_init fuel (fun _ => true) h0 env sz sep 0 crlf_is_lf vars =
    Some (ret, h') /\ (ret = 0 \/ ret = 1) /\ represents h' m'.
Proof. apply himport_any. Qed.

(** Lines of all kinds: a comment, blanks, a name alone, an empty name, escapes,
    bytes that are no text, and no end to the last value. *)
Definition any_bytes : list Z :=
  chars "# c" ++ [10; 13; 10; 32; 9] ++ chars "a=\\" ++ [10; 61; 61; 10; 200; 255; 61; 92; 10; 128].

Lemma himport_safe_witness : exists ret h' m',
  himport_r Some (fun _ => None) (fun _ => 0) (Z.to_nat 33000) (fun _ => true) fresh any_bytes
    (Z.of_nat (length any_bytes)) 10 0 true [chars "a"; chars "b"] = Some (ret, h') /\
  (ret = 0 \/ ret = 1) /\ represents h' m'.
Proof.
  apply (himport_safe Some (fun _ => None) (fun _ => 0) fresh any_bytes (Z.of_nat (length any_bytes)) 10 true
    [chars "a"; chars "b"] (Z.to_nat 33000)).
  - reflexivity.
  - intros k f Hf. discriminate Hf.
  - intros e v op fl. reflexivity.
  - refine (bool_decide_eq_true_1 _ _). vm_compute. reflexivity.
  - refine (bool_decide_eq_true_1 _ _). vm_compute. reflexivity.
  - split; [reflexivity|lia].
  - reflexivity.
  - reflexivity.
  - rewrite Z2Nat.id; lia.
Defined.
