(* ===== verification/EnvVars.v ===== *)
(** The variables of the environment as the rest of U-Boot sees them
    (src/U-Boot/common/cmd_nvedit.c, and the readers of single characters and the
    default environment in env_common.c).

    A variable is looked up in the hash table once the environment has been
    imported, and in the text of the default environment, through a buffer of 32
    bytes, before.  Setting one only works afterwards.  The state is the table and
    the fields of [gd] these functions use; the memory the environment lies in
    before is a list of bytes.  The commands get their arguments as [argc] and
    [argv], a list whose null pointers are [None].  Messages leave no trace. *)

From S2P Require Import Prelude UStr HashTable EnvText.

(** ** The state *)

(** [env_valid] is the field of [gd], [env_mem] the bytes its [env_addr] points to,
    [env_ready] and [reloc] are [GD_FLG_ENV_READY] and [GD_FLG_RELOC]. *)
Record env_state := mkEnv {
  env_htab : hsearch_data;
  env_ready : bool;
  reloc : bool;
  env_valid : Z;
  env_mem : list Z;
  env_id : Z;
}.

Definition set_htab (h : hsearch_data) (st : env_state) : env_state :=
  mkEnv h (env_ready st) (reloc st) (env_valid st) (env_mem st) (env_id st).

Definition set_ready (b : bool) (st : env_state) : env_state :=
  mkEnv (env_htab st) b (reloc st) (env_valid st) (env_mem st) (env_id st).

Definition set_valid (v : Z) (st : env_state) : env_state :=
  mkEnv (env_htab st) (env_ready st) (reloc st) v (env_mem st) (env_id st).

Definition set_id (n : Z) (st : env_state) : env_state :=
  mkEnv (env_htab st) (env_ready st) (reloc st) (env_valid st) (env_mem st) n.

(** include/search.h and include/command.h *)
Definition H_FORCE : Z := Z.shiftl 1 1.
Definition H_INTERACTIVE : Z := Z.shiftl 1 2.
Definition H_PROGRAMMATIC : Z := Z.shiftl 1 9.
Definition CMD_RET_USAGE : Z := -1.

(** include/configs/s5p6818_drone.h *)
Definition CONFIG_ENV_SIZE : Z := 4 * 1024.

(** The size of [gd->env_buf]. *)
Definition env_buf_size : Z := 32.

(** The text of the board: its boot command, its delay, its baud rate and the
    settings of its own; the string literal ends in a NUL more. *)
Definition CONFIG_BOOTCOMMAND : list Z :=
  chars "ext4load mmc 0:1 0x48000000 uImage; " ++
  chars "ext4load mmc 0:1 0x49000000 ramdisk.gz; " ++
  chars "ext4load mmc 0:1 0x4a000000 s5p6818-drone.dtb; " ++
  chars "bootm 0x48000000 - 0x4a000000".

Definition default_environment : list Z :=
  chars "bootcmd=" ++ CONFIG_BOOTCOMMAND ++ [0] ++
  chars "bootdelay=3" ++ [0] ++
  chars "baudrate=115200" ++ [0] ++
  chars "fdt_high=0xffffffffffffffff" ++ [0] ++ [0].

Section EnvVars.
Context (strdup : list Z -> option (list Z)) (malloc : Z -> bool).
Context (callback_init : list Z -> option callback_fn) (flags_init : list Z -> Z).
Context (default_env : list Z).

Abbreviation search := (hsearch_r strdup callback_init flags_init).
Abbreviation remove := (hdelete_r strdup callback_init flags_init).

(** ** Single characters *)

Definition env_get_char_spec (st : env_state) (index : Z) : option Z := ld (env_mem st) index.

Definition env_get_char_init (st : env_state) (index : Z) : option Z :=
  if negb (env_valid st =? 0) then env_get_char_spec st index else ld default_env index.

(** [*env_get_addr(index)]. *)
Definition env_get_char_memory (st : env_state) (index : Z) : option Z :=
  if negb (env_valid st =? 0) then ld (env_mem st) index else ld default_env index.

Definition env_get_char (st : env_state) (index : Z) : option Z :=
  if reloc st then env_get_char_memory st index else env_get_char_init st index.

(** ** Looking up *)

(** [s1] is a string with its NUL and what follows it. *)
Fixpoint envmatch (st : env_state) (s1 : list Z) (i2 : Z) : option Z :=
  match s1 with
  | [] => None
  | c :: s1 =>
      e ← env_get_char st i2;
      if c =? e then if c =? 61 then Some (i2 + 1) else envmatch st s1 (i2 + 1)
      else if (c =? 0) && (e =? 61) then Some (i2 + 1) else Some (-1)
  end.

(** The end of the entry; [Some None] is the return of -1. *)
Fixpoint entry_end (fuel : nat) (st : env_state) (nxt : Z) : option (option Z) :=
  match fuel with
  | O => None
  | S n =>
      c ← env_get_char st nxt;
      if c =? 0 then Some (Some nxt) else
      if CONFIG_ENV_SIZE <=? nxt then Some None else entry_end n st (nxt + 1)
  end.

(** The copying: the bytes written, and whether the NUL is among them. *)
Fixpoint copy_value (n : nat) (st : env_state) (val : Z) : option (list Z * bool) :=
  match n with
  | O => Some ([], false)
  | S n =>
      c ← env_get_char st val;
      if c =? 0 then Some ([0], true) else
      '(r, ended) ← copy_value n st (val + 1); Some (c :: r, ended)
  end.

(** The return value and the bytes written to [buf]; a value that is too long is
    cut. *)
Definition copy_out (st : env_state) (val len : Z) : option (Z * list Z) :=
  '(buf, ended) ← copy_value (Z.to_nat len) st val;
  if ended : bool then Some (Z.of_nat (length buf) - 1, buf)
  else Some (len, match buf with [] => [] | _ => take (length buf - 1) buf ++ [0] end).

Fixpoint getenv_f_loop (fuel : nat) (st : env_state) (name : list Z) (len i : Z) : option (Z * list Z) :=
  match fuel with
  | O => None
  | S n =>
      c ← env_get_char st i;
      if c =? 0 then Some (-1, []) else
      nxt ← entry_end (Z.to_nat CONFIG_ENV_SIZE + 2) st i;
      match nxt with
      | None => Some (-1, [])
      | Some nxt =>
          val ← envmatch st (cstr name []) i;
          if val <? 0 then getenv_f_loop n st name len (nxt + 1) else copy_out st val len
      end
  end.

(** No entry starts beyond the size, or the end of it is not found. *)
Definition getenv_f (st : env_state) (name : list Z) (len : Z) : option (Z * list Z) :=
  getenv_f_loop (Z.to_nat CONFIG_ENV_SIZE + 2) st name len 0.

(** The value is a string, in the table or in [gd->env_buf]. *)
Definition getenv (name : list Z) (st : env_state) : option (option (list Z) * env_state) :=
  if env_ready st then
    '(_, ep, h) ← search name None FIND (env_htab st) 0;
    match ep with
    | None => Some (None, set_htab h st)
    | Some i => s ← slot h i; Some (data (entry s), set_htab h st)
    end
  else
    '(n, buf) ← getenv_f st name env_buf_size;
    Some (if 0 <? n then Some (until0 buf) else None, st).

Definition getenv_yesno (var : list Z) (st : env_state) : option (Z * env_state) :=
  '(s, st) ← getenv var st;
  match s with
  | None => Some (-1, st)
  | Some s => Some (if bool_decide (default 0 (head s) ∈ chars "1yYtT") then 1 else 0, st)
  end.

Definition getenv_ulong (name : list Z) (base default_val : Z) (st : env_state) : option (Z * env_state) :=
  '(str, st) ← getenv name st;
  match str with
  | None => Some (default_val, st)
  | Some s => '(v, _) ← simple_strtoul (cstr s []) base; Some (v, st)
  end.

(** A number that has no digits is not there. *)
Definition getenv_hex (varname : list Z) (default_val : Z) (st : env_state) : option (Z * env_state) :=
  '(s, st) ← getenv varname st;
  match s with
  | None => Some (default_val, st)
  | Some s =>
      '(value, endp) ← simple_strtoul (cstr s []) 16;
      Some (if (length endp =? length (cstr s []))%nat then default_val else value, st)
  end.

(** The image is taken to be bad, and everything is as before afterwards. *)
Definition getenv_default (name : list Z) (st : env_state) : option (option (list Z) * env_state) :=
  '(ret_val, st') ← getenv name (set_valid 0 (set_ready false st));
  Some (ret_val, set_ready (env_ready st) (set_valid (env_valid st) st')).

(** ** Setting *)

(** The letters behind the dash of an option; [None] is one that is not known. *)
Fixpoint force_letters (s : list Z) (env_flag : Z) : option Z :=
  match s with
  | [] => Some env_flag
  | c :: r => if c =? 102 then force_letters r (Z.lor env_flag H_FORCE) else None
  end.

(** [while (argc > 1 && **(argv + 1) == '-')]: [args] is [argv + 1].  [Some None] is
    the return for the usage. *)
Fixpoint skip_options (args : list (option (list Z))) (argc env_flag : Z)
    : option (option (list (option (list Z)) * Z * Z)) :=
  if negb (1 <? argc) then Some (Some (args, argc, env_flag)) else
  match args with
  | Some s :: rest =>
      if default 0 (head s) =? 45 then
        match force_letters (drop 1 s) env_flag with
        | None => Some None
        | Some env_flag => skip_options rest (argc - 1) env_flag
        end
      else Some (Some (args, argc, env_flag))
  | _ => None
  end.

(** The arguments, each with a blank behind it. *)
Fixpoint join_args (args : list (option (list Z))) : option (list Z) :=
  match args with
  | [] => Some []
  | Some v :: args => r ← join_args args; Some (v ++ 32 :: r)
  | None :: _ => None
  end.

(** What is stored at [value]: the last blank is made the end. *)
Definition joined (s : list Z) : list Z := <[(length s - 1)%nat := 0]> s.

Definition _do_env_set (argc : Z) (argv : list (option (list Z))) (env_flag : Z) (st : env_state)
    : option (Z * env_state) :=
  o ← skip_options (drop 1 argv) argc env_flag;
  match o with
  | None => Some (CMD_RET_USAGE, st)
  | Some (args, argc, env_flag) =>
      name ← mjoin (args !! 0%nat);
      eq ← strchr (cstr name []) 61;
      match eq with
      | Some _ => Some (1, st)
      | None =>
          let st := set_id (s32 (env_id st + 1)) st in
          no_value ← (if argc <? 3 then Some true else v ← args !! 1%nat; Some (bool_decide (v = None)));
          if no_value : bool then
            '(rc, h) ← remove name (env_htab st) env_flag;
            Some (if rc =? 0 then 1 else 0, set_htab h st)
          else if Z.of_nat (length args) <? argc - 1 then None else
          value ← join_args (take (Z.to_nat (argc - 2)) (drop 1 args));
          if negb (malloc (Z.of_nat (length value))) then Some (1, st) else
          '(_, ep, h) ← search name (Some (until0 (joined value))) ENTER (env_htab st) env_flag;
          Some (match ep with None => 1 | Some _ => 0 end, set_htab h st)
      end
  end.

Definition setenv (varname : list Z) (varvalue : option (list Z)) (st : env_state) : option (Z * env_state) :=
  let argv := [Some (chars "setenv"); Some varname; varvalue; None] in
  if negb (env_ready st) then Some (1, st) else
  match varvalue with
  | None | Some [] => _do_env_set 2 argv H_PROGRAMMATIC st
  | Some _ => _do_env_set 3 argv H_PROGRAMMATIC st
  end.

(** ** Commands *)

Definition do_env_set (argc : Z) (argv : list (option (list Z))) (st : env_state) : option (Z * env_state) :=
  if argc <? 2 then Some (CMD_RET_USAGE, st) else _do_env_set argc argv H_INTERACTIVE st.

(** [while (--argc > 0)], over the names. *)
Fixpoint delete_args (args : list (option (list Z))) (argc env_flag ret : Z) (st : env_state)
    : option (Z * env_state) :=
  if negb (0 <? argc - 1) then Some (ret, st) else
  match args with
  | Some name :: args =>
      '(rc, h) ← remove name (env_htab st) env_flag;
      delete_args args (argc - 1) env_flag (if rc =? 0 then 1 else ret) (set_htab h st)
  | _ => None
  end.

Definition do_env_delete (argc : Z) (argv : list (option (list Z))) (st : env_state) : option (Z * env_state) :=
  o ← skip_options (drop 1 argv) argc H_INTERACTIVE;
  match o with
  | None => Some (CMD_RET_USAGE, st)
  | Some (args, argc, env_flag) => delete_args args argc env_flag 0 (set_id (s32 (env_id st + 1)) st)
  end.

Definition do_env_exists (argc : Z) (argv : list (option (list Z))) (st : env_state) : option (Z * env_state) :=
  if argc <? 2 then Some (CMD_RET_USAGE, st) else
  name ← mjoin (argv !! 1%nat);
  '(_, ep, h) ← search name None FIND (env_htab st) 0;
  Some (match ep with None => 1 | Some _ => 0 end, set_htab h st).
End EnvVars.

(** ** Before the environment has been imported *)

(** A name that can be looked up: a string without an equals sign. *)
Definition plain_name (k : list Z) : Prop := text_ok k /\ 61 ∉ k.

Section Early.
Context (default_env : list Z) (st : env_state).

Abbreviation get_char := (env_get_char default_env st).

(** The characters from an index on. *)
Definition chars_at (i : Z) (L : list Z) : Prop :=
  forall j c, L !! j = Some c -> get_char (i + Z.of_nat j) = Some c.

Lemma chars_at_cons i c L : chars_at i (c :: L) -> get_char i = Some c /\ chars_at (i + 1) L.
Proof.
  intros Hat. split.
  - rewrite <- (Z.add_0_r i). by apply (Hat 0%nat).
  - intros j d Hj. rewrite <- (Hat (S j) d Hj). f_equal. lia.
Qed.

Lemma chars_at_app i A B : chars_at i (A ++ B) -> chars_at (i + Z.of_nat (length A)) B.
Proof.
  intros Hat j c Hj. rewrite <- (Hat (length A + j)%nat c).
  - f_equal. lia.
  - rewrite lookup_app_r by lia. by replace (length A + j - length A)%nat with j by lia.
Qed.

(** An entry matches the name it has, and no other. *)
Lemma envmatch_entry R name : plain_name name -> forall k i, plain_name k -> chars_at i (k ++ 61 :: R) ->
  envmatch default_env st (cstr name []) i = Some (if decide (name = k) then i + Z.of_nat (length k) + 1 else -1).
Proof.
  intros [Ht He]. induction name as [|c name IH]; intros [|d k] i [Hk Hke] Hat;
    cbn [cstr app envmatch]; apply chars_at_cons in Hat as [Hd Hat]; rewrite Hd; cbn [mbind option_bind];
    rewrite ?not_elem_of_cons in He; rewrite ?not_elem_of_cons in Hke.
  - change (0 =? 61) with false. change (61 =? 61) with true. cbn [andb].
    rewrite decide_True by done. f_equal. simpl. lia.
  - inversion Hk; subst. destruct (Z.eqb_spec 0 d); [lia|]. destruct (Z.eqb_spec d 61) as [->|]; [by destruct Hke|]. by rewrite andb_false_r.
  - inversion Ht; subst. destruct (Z.eqb_spec c 61) as [->|]; [by destruct He|]. destruct (Z.eqb_spec c 0); [lia|].
    by rewrite decide_False.
  - inversion Ht; subst. inversion Hk; subst. destruct (Z.eqb_spec c d) as [->|Hne].
    + destruct He as [He1 He]. destruct Hke as [Hd1 Hke]. destruct (Z.eqb_spec d 61) as [->|]; [done|].
      unfold cstr in IH. rewrite (IH ltac:(done) He k) by (by split || done).
      f_equal. do 2 case_decide; simplify_eq; [simpl; lia|done..].
    + destruct (Z.eqb_spec c 0); [lia|]. cbn [andb]. rewrite decide_False; [done|congruence].
Qed.

Lemma entry_end_ok R L : text_ok L -> forall fuel i, chars_at i (L ++ 0 :: R) ->
  i + Z.of_nat (length L) <= CONFIG_ENV_SIZE -> (length L < fuel)%nat ->
  entry_end default_env fuel st i = Some (Some (i + Z.of_nat (length L))).
Proof.
  induction 1 as [|c L Hc HL IH]; intros [|fuel] i Hat Hlen Hf; try (simpl in Hf; lia);
    apply chars_at_cons in Hat as [Hd Hat]; cbn [entry_end]; rewrite Hd; cbn [mbind option_bind].
  - change (0 =? 0) with true. cbn. do 2 f_equal. lia.
  - destruct (Z.eqb_spec c 0); [lia|]. cbn [length] in *. destruct (Z.leb_spec CONFIG_ENV_SIZE i); [lia|].
    rewrite IH by (done || lia). do 2 f_equal. lia.
Qed.

Lemma copy_value_ok R w : text_ok w -> forall n i, chars_at i (w ++ 0 :: R) ->
  copy_value default_env n st i =
    Some (if (length w <? n)%nat then (w ++ [0], true) else (take n w, false)).
Proof.
  induction 1 as [|c w Hc Hw IH]; intros [|n] i Hat; try done;
    apply chars_at_cons in Hat as [Hd Hat]; cbn [copy_value]; rewrite Hd; cbn [mbind option_bind].
  - done.
  - destruct (Z.eqb_spec c 0); [lia|]. rewrite IH by done. cbn [mbind option_bind length].
    change (S (length w) <? S n)%nat with (length w <? n)%nat. by destruct (length w <? n)%nat.
Qed.

Lemma copy_out_ok R w i : text_ok w -> chars_at i (w ++ 0 :: R) ->
  copy_out default_env st i env_buf_size =
    Some (Z.min (Z.of_nat (length w)) env_buf_size, take (Z.to_nat env_buf_size - 1) w ++ [0]).
Proof.
  intros Hw Hat. unfold copy_out. rewrite (copy_value_ok R w Hw _ i Hat). cbn [mbind option_bind].
  unfold env_buf_size. change (Z.to_nat 32) with 32%nat. destruct (Nat.ltb_spec (length w) 32).
  - rewrite length_app, take_ge by lia. simpl. do 2 f_equal. lia.
  - rewrite Z.min_r by lia. rewrite length_take, Nat.min_l, take_take by lia.
    destruct (take 32 w) as [|c r] eqn:E; [|done]. apply (f_equal length) in E. rewrite length_take in E. cbn [length] in E. lia.
Qed.

(** The first entry with a name. *)
Fixpoint first_value (kvs : list (list Z * list Z)) (name : list Z) : option (list Z) :=
  match kvs with
  | [] => None
  | (k, v) :: kvs => if decide (name = k) then Some v else first_value kvs name
  end.

(** The entries of a text: names without equals signs, values that are strings. *)
Definition entries_ok (kvs : list (list Z * list Z)) : Prop := Forall (fun kv => plain_name kv.1 /\ text_ok kv.2) kvs.

Lemma escape_text sep v : 0 < sep < 256 \/ sep = 0 -> text_ok v -> text_ok (escape sep v).
Proof.
  intros Hs. unfold escape. induction 1 as [|c v Hc Hv IH]; [constructor|]. cbn [flat_map]. apply Forall_app. split; [|done].
  destruct ((c =? sep) || (c =? 92)); repeat constructor; lia.
Qed.

(** Early on the value is read as it is written, and only as much of it as the buffer
    holds. *)
Definition early_value (v : list Z) : option (list Z) :=
  match v with [] => None | _ => Some (take (Z.to_nat env_buf_size - 1) (escape 0 v)) end.

Lemma getenv_f_finds name kvs : plain_name name -> entries_ok kvs -> forall fuel i,
  chars_at i (text_of 0 kvs ++ [0]) -> 0 <= i -> i + Z.of_nat (length (text_of 0 kvs)) <= CONFIG_ENV_SIZE + 1 ->
  (length kvs < fuel)%nat ->
  getenv_f_loop default_env fuel st name env_buf_size i =
    Some (match first_value kvs name with
          | Some v => (Z.min (Z.of_nat (length (escape 0 v))) env_buf_size, take (Z.to_nat env_buf_size - 1) (escape 0 v) ++ [0])
          | None => (-1, [])
          end).
Proof.
  intros Hname. induction 1 as [|[k v] kvs [Hk Hv] Hkvs IH]; intros [|fuel] i Hat Hi Hlen Hf; try (simpl in Hf; lia).
  - cbn [getenv_f_loop]. cbn [text_of flat_map app] in Hat. apply chars_at_cons in Hat as [-> _]. done.
  - cbn [getenv_f_loop first_value]. unfold text_of in *. cbn [flat_map fst snd] in *. fold (text_of 0 kvs) in *.
    assert (Hl : line 0 (k, v) ++ text_of 0 kvs ++ [0] = (k ++ 61 :: escape 0 v) ++ 0 :: text_of 0 kvs ++ [0]).
    { unfold line. cbn [fst snd]. by rewrite <- !app_assoc, <- !app_comm_cons, <- !app_assoc. }
    rewrite <- app_assoc, Hl in Hat. rewrite length_app in Hlen.
    assert (Hll : length (line 0 (k, v)) = S (length (k ++ 61 :: escape 0 v))).
    { unfold line. cbn [fst snd]. rewrite !length_app. cbn [length]. rewrite length_app. simpl. lia. }
    assert (Htxt : text_ok (k ++ 61 :: escape 0 v)).
    { apply Forall_app. split; [apply Hk|]. constructor; [lia|]. by apply escape_text; [right|]. }
    assert (Hc0 : exists c, get_char i = Some c /\ c <> 0).
    { destruct (k ++ 61 :: escape 0 v) as [|c r] eqn:E; [by destruct k|]. apply chars_at_cons in Hat as [Hc _].
      inversion Htxt; subst. exists c. split; [done|lia]. }
    destruct Hc0 as (c & -> & Hc). cbn [mbind option_bind]. destruct (Z.eqb_spec c 0); [lia|].
    rewrite (entry_end_ok _ _ Htxt _ i Hat) by (rewrite ?Z2Nat.inj_add by (unfold CONFIG_ENV_SIZE; lia); unfold CONFIG_ENV_SIZE in *; lia).
    cbn [mbind option_bind].
    rewrite (envmatch_entry (escape 0 v ++ 0 :: text_of 0 kvs ++ [0]) name Hname k i Hk) by (by rewrite <- app_assoc in Hat).
    cbn [mbind option_bind]. case_decide as Hd.
    + destruct (Z.ltb_spec (i + Z.of_nat (length k) + 1) 0); [lia|]. rewrite (copy_out_ok (text_of 0 kvs ++ [0]) (escape 0 v)).
      * done.
      * by apply escape_text; [right|].
      * rewrite <- app_assoc in Hat. apply chars_at_app in Hat. cbn [app] in Hat. by apply chars_at_cons in Hat as [_ Hat].
    + apply chars_at_app in Hat. apply chars_at_cons in Hat as [_ Hat]. cbn [length] in Hf.
      change (-1 <? 0) with true. cbn iota. apply IH; [done|lia|lia|lia].
Qed.
End Early.

Lemma getenv_early strdup callback_init flags_init default_env name kvs st :
  env_ready st = false -> chars_at default_env st 0 (text_of 0 kvs ++ [0]) -> entries_ok kvs ->
  Z.of_nat (length (text_of 0 kvs)) <= CONFIG_ENV_SIZE + 1 -> plain_name name ->
  getenv strdup callback_init flags_init default_env name st =
    Some (v ← first_value kvs name; early_value v, st).
Proof.
  intros Hr Hat Hok Hlen Hname. unfold getenv, getenv_f. rewrite Hr.
  pose proof (text_of_length 0 kvs) as Hl. assert (Hf : (length kvs < Z.to_nat CONFIG_ENV_SIZE + 2)%nat).
  { clear - Hl Hlen. unfold CONFIG_ENV_SIZE in *. lia. }
  rewrite (getenv_f_finds default_env st name kvs Hname Hok _ 0 Hat ltac:(done) Hlen Hf).
  assert (Hv : forall v, first_value kvs name = Some v -> text_ok v).
  { intros v. clear -Hok. induction Hok as [|[k w] kvs [_ Hw] _ IH]; [done|]. cbn [first_value]. case_decide; [|done].
    by intros [= <-]. }
  destruct (first_value kvs name) as [v|]; [|done]. cbn [mbind option_bind]. specialize (Hv v eq_refl).
  destruct v as [|c v]; [done|].
  assert (Hne : (1 <= length (escape 0 (c :: v)))%nat) by (pose proof (escape_longer 0 (c :: v)) as Hle; cbn [length] in Hle; lia).
  destruct (Z.ltb_spec 0 (Z.min (Z.of_nat (length (escape 0 (c :: v)))) env_buf_size)).
  - unfold early_value. do 2 f_equal. f_equal. apply (until0_cstr _ []). by apply Forall_take, escape_text; [right|].
  - unfold env_buf_size in *. lia.
Qed.

(** ** After it has been imported *)

(** The names of variables that can be set: one with a dash in front is an option. *)
Definition settable (k : list Z) : Prop := plain_name k /\ head k <> Some 45.

Section Ready.
Context (strdup : list Z -> option (list Z)) (malloc : Z -> bool).
Context (callback_init : list Z -> option callback_fn) (flags_init : list Z -> Z).
Context (default_env : list Z).
Hypothesis Hdup : forall v, strdup v = Some v.
Hypothesis Hmalloc : forall n, malloc n = true.
Hypothesis Hcb : forall k f, callback_init k = Some f -> forall k' v op fl, f k' v op fl = false.

Abbreviation get := (getenv strdup callback_init flags_init default_env).
Abbreviation set := (setenv strdup malloc callback_init flags_init).

(** The environment has been imported, and the table represents a map. *)
Definition ready (st : env_state) (m : gmap (list Z) (list Z)) : Prop :=
  env_ready st = true /\ represents (env_htab st) m.

Lemma getenv_ready st m k : ready st m -> text_ok k ->
  exists h, get k st = Some (m !! k, set_htab h st) /\ represents h m /\ table h = table (env_htab st).
Proof.
  intros [He Hr] Hk. unfold getenv. rewrite He.
  pose proof (hsearch_finds strdup callback_init flags_init Hdup (env_htab st) m k 0 Hr Hk) as Hs.
  destruct (m !! k) as [v|].
  - destruct Hs as (i & (Hi & s & Hsl & _ & _ & Hd) & ->). cbn [mbind option_bind]. rewrite Hsl. cbn [mbind option_bind].
    rewrite Hd. by eexists.
  - rewrite Hs. cbn [mbind option_bind]. eexists. split; [done|]. split; [by apply set_errno_wf|done].
Qed.

Lemma strchr_none k c : text_ok k -> is_u8 c -> c <> 0 -> c ∉ k -> strchr (cstr k []) c = Some None.
Proof.
  intros Hk Hc Hc0. assert (Hu : u8 c = c) by (apply Z.mod_small; apply Hc).
  induction Hk as [|d k Hd Hk IH]; intros Hin; cbn [cstr app strchr]; rewrite Hu.
  - destruct (Z.eqb_spec 0 c); [lia|done].
  - apply not_elem_of_cons in Hin as [Hne Hin]. destruct (Z.eqb_spec d c) as [->|_]; [done|].
    destruct (Z.eqb_spec d 0); [lia|]. by apply IH.
Qed.

(** No options, and a name without an equals sign. *)
Lemma set_named k v flag argc st rest : settable k -> 1 < argc -> argc = 2 \/ argc = 3 -> (argc = 3 -> exists w, v = Some w) ->
  _do_env_set strdup malloc callback_init flags_init argc (Some (chars "setenv") :: Some k :: v :: rest) flag st =
  let st := set_id (s32 (env_id st + 1)) st in
  match (if argc =? 2 then None else v) with
  | None =>
      '(rc, h) ← hdelete_r strdup callback_init flags_init k (env_htab st) flag;
      Some (if rc =? 0 then 1 else 0, set_htab h st)
  | Some w =>
      '(_, ep, h) ← hsearch_r strdup callback_init flags_init k (Some (until0 (joined (w ++ [32])))) ENTER (env_htab st) flag;
      Some (match ep with None => 1 | Some _ => 0 end, set_htab h st)
  end.
Proof.
  intros [[Ht He] Hd] H1 Ha Hv. unfold _do_env_set. cbn [drop skip_options].
  destruct (Z.ltb_spec 1 argc); [|lia]. cbn [negb].
  assert (E : (default 0 (head k) =? 45) = false) by (destruct k as [|c k]; [done|]; apply Z.eqb_neq; intros Hc; apply Hd; cbn in *; by rewrite Hc).
  rewrite E. cbn [mbind option_bind mjoin option_join lookup list_lookup].
  rewrite strchr_none by (done || unfold is_u8; lia). cbn [mbind option_bind]. cbv zeta.
  destruct Ha as [->| ->].
  - done.
  - destruct (Hv eq_refl) as (w & ->). change (3 <? 3) with false. change (3 =? 2) with false. cbn iota. cbn [mbind option_bind].
    rewrite bool_decide_eq_false_2 by done. cbn [length].
    destruct (Z.ltb_spec (Z.of_nat (S (S (length rest)))) (3 - 1)); [lia|].
    change (Z.to_nat (3 - 2)) with 1%nat. cbn [drop take join_args mbind option_bind].
    rewrite take_0. cbn [join_args mbind option_bind]. by rewrite Hmalloc.
Qed.

Lemma joined_blank w : text_ok w -> until0 (joined (w ++ [32])) = w.
Proof.
  intros Hw. unfold joined. rewrite length_app. cbn [length]. replace (length w + 1 - 1)%nat with (length w + 0)%nat by lia.
  rewrite insert_app_r. cbn. exact (until0_cstr w [] Hw).
Qed.

(** The change a call asks for: no value, or an empty one, deletes. *)
Definition var_change (m : gmap (list Z) (list Z)) (c : list Z * option (list Z)) : gmap (list Z) (list Z) :=
  match c.2 with Some ((_ :: _) as v) => <[c.1 := v]> m | _ => delete c.1 m end.

(** It fails only if there is nothing to delete. *)
Definition change_ret (m : gmap (list Z) (list Z)) (c : list Z * option (list Z)) : Z :=
  match c.2 with Some (_ :: _) => 0 | _ => if decide (is_Some (m !! c.1)) then 0 else 1 end.

Definition call_ok (c : list Z * option (list Z)) : Prop := settable c.1 /\ from_option text_ok True c.2.

Lemma setenv_ready st m c : ready st m -> call_ok c -> roomy (env_htab st) ->
  exists h, set c.1 c.2 st = Some (change_ret m c, set_htab h (set_id (s32 (env_id st + 1)) st)) /\
    represents h (var_change m c) /\ size h = size (env_htab st) /\ touched h <= touched (env_htab st) + 1.
Proof.
  destruct c as [k v]. intros [He Hr] [Hk Hv] Hroom. cbn [fst snd] in *. unfold setenv. rewrite He. cbn [negb].
  assert (Hdel : exists h, ('(rc, h) ← hdelete_r strdup callback_init flags_init k (env_htab st) H_PROGRAMMATIC;
      Some (if rc =? 0 then 1 else 0, set_htab h (set_id (s32 (env_id st + 1)) st))) =
      Some (if decide (is_Some (m !! k)) then 0 else 1, set_htab h (set_id (s32 (env_id st + 1)) st)) /\
      represents h (delete k m) /\ size h = size (env_htab st) /\ touched h <= touched (env_htab st) + 1).
  { pose proof (hdelete_deletes strdup callback_init flags_init Hdup (env_htab st) m k H_PROGRAMMATIC Hr (proj1 (proj1 Hk))) as Hd.
    destruct (m !! k) as [w|] eqn:E.
    - destruct Hd as (h & -> & Hr' & Hs & Ht). cbn [mbind option_bind]. exists h. rewrite decide_True by done.
      split_and!; (done || lia).
    - destruct Hd as (h & -> & Ht & Hr' & Hs). cbn [mbind option_bind]. exists h. rewrite decide_False by (by intros [? ?]).
      rewrite delete_id by done. split_and!; try done. unfold touched. rewrite Ht. lia. }
  destruct v as [[|a v]|].
  - rewrite set_named by (done || lia || by left). exact Hdel.
  - rewrite set_named by (done || lia || by right || by eexists). cbv zeta. change (3 =? 2) with false. cbn iota.
    rewrite joined_blank by done. cbn [env_htab set_id].
    destruct (hsearch_enters strdup callback_init flags_init Hdup Hcb (env_htab st) m k (a :: v) H_PROGRAMMATIC Hr Hroom (proj1 (proj1 Hk)))
      as (ret & i & h & -> & _ & Hr' & _ & Hs & Ht). cbn [mbind option_bind]. by exists h.
  - rewrite set_named by (done || lia || by left). exact Hdel.
Qed.

(** Calls in order, whatever they return. *)
Fixpoint setenvs (cs : list (list Z * option (list Z))) (st : env_state) : option env_state :=
  match cs with
  | [] => Some st
  | c :: cs => '(_, st) ← set c.1 c.2 st; setenvs cs st
  end.

Lemma setenvs_ok cs : forall st m, ready st m -> Forall call_ok cs ->
  touched (env_htab st) + Z.of_nat (length cs) < size (env_htab st) ->
  exists st', setenvs cs st = Some st' /\ ready st' (foldl var_change m cs) /\ env_id st' = Nat.iter (length cs) (fun i => s32 (i + 1)) (env_id st).
Proof.
  induction cs as [|c cs IH]; intros st m Hrd Hok Hroom.
  - exists st. by split_and!.
  - inversion Hok; subst. cbn [length] in Hroom.
    destruct (setenv_ready st m c Hrd ltac:(done)) as (h & Hs & Hr & Hsz & Ht).
    { apply touched_roomy; [apply Hrd|]. lia. }
    destruct (IH (set_htab h (set_id (s32 (env_id st + 1)) st)) (var_change m c)) as (st' & Hs' & Hrd' & Hid).
    + split; [apply Hrd|done].
    + done.
    + cbn [env_htab set_htab set_id]. lia.
    + exists st'. cbn [setenvs foldl length]. rewrite Hs. cbn [mbind option_bind]. split_and!; [done..|].
      rewrite Hid. cbn [env_id set_htab set_id]. symmetry. exact (Nat.iter_succ_r (length cs) (fun i => s32 (i + 1)) (env_id st)).
Qed.
End Ready.

(** ** The claims *)

(** C8: once the environment has been imported [setenv] and [getenv] are the changes
    and the lookups of a map: after any calls in whatever order every name has the
    value last given to it, or none if it was deleted or set to nothing, as long as
    the slots of the table that were ever used and the calls are together fewer than
    the slots; each call counts in [env_id], an int. *)
Theorem setenv_refines_map strdup malloc callback_init flags_init default_env cs st m :
  (forall v, strdup v = Some v) -> (forall n, malloc n = true) ->
  (forall k f, callback_init k = Some f -> forall k' v op fl, f k' v op fl = false) ->
  ready st m -> Forall call_ok cs ->
  touched (env_htab st) + Z.of_nat (length cs) < size (env_htab st) ->
  exists st', setenvs strdup malloc callback_init flags_init cs st = Some st' /\
    ready st' (foldl var_change m cs) /\ env_id st' = Nat.iter (length cs) (fun i => s32 (i + 1)) (env_id st) /\
    forall k, text_ok k -> exists h, getenv strdup callback_init flags_init default_env k st' =
      Some (foldl var_change m cs !! k, set_htab h st') /\ represents h (foldl var_change m cs).
Proof.
  intros Hdup Hm Hcb Hrd Hok Hroom.
  destruct (setenvs_ok strdup malloc callback_init flags_init Hdup Hm Hcb cs st m Hrd Hok Hroom) as (st' & Hs & Hrd' & Hid).
  exists st'. split_and!; [done..|]. intros k Hk.
  destruct (getenv_ready strdup callback_init flags_init default_env Hdup st' _ k Hrd' Hk) as (h & Hg & Hr & _). by exists h.
Qed.

(** Before the import a variable is read from the text of the default
    environment: the first entry of the name counts, an empty value is none, and of
    any other no more than 31 characters are seen, escapes and all. *)
Theorem getenv_early_reads strdup callback_init flags_init default_env name kvs st :
  env_ready st = false -> chars_at default_env st 0 (text_of 0 kvs ++ [0]) -> entries_ok kvs ->
  Z.of_nat (length (text_of 0 kvs)) <= CONFIG_ENV_SIZE + 1 -> plain_name name ->
  getenv strdup callback_init flags_init default_env name st = Some (v ← first_value kvs name; early_value v, st).
Proof. apply getenv_early. Qed.

(** ** What goes wrong *)

(** An option and no name: the null pointer at the end of the arguments is taken for
    the name. *)
Theorem do_env_set_no_name strdup malloc callback_init flags_init st :
  do_env_set strdup malloc callback_init flags_init 2 [Some (chars "setenv"); Some (chars "-f"); None] st = None.
Proof. reflexivity. Qed.

(** [setenv] looks for options too: a variable of the name -f is not set, but the
    variable its value names is deleted. *)
Theorem setenv_deletes_value strdup malloc callback_init flags_init st m k :
  (forall v, strdup v = Some v) -> ready st m -> settable k -> k <> [] -> is_Some (m !! k) ->
  exists h, setenv strdup malloc callback_init flags_init (chars "-f") (Some k) st =
    Some (0, set_htab h (set_id (s32 (env_id st + 1)) st)) /\ represents h (delete k m).
Proof.
  intros Hdup [He Hr] [[Ht Hq] Hd] Hne [v Hv].
  destruct k as [|c k]; [done|]. unfold setenv. rewrite He. cbn [negb]. unfold _do_env_set.
  assert (Ho : skip_options (drop 1 [Some (chars "setenv"); Some (chars "-f"); Some (c :: k); None]) 3 H_PROGRAMMATIC =
    Some (Some ([Some (c :: k); None], 2, Z.lor H_PROGRAMMATIC H_FORCE))).
  { cbn. destruct (Z.eqb_spec c 45) as [->|]; [by destruct Hd|done]. }
  rewrite Ho. cbn [mbind option_bind mjoin option_join lookup list_lookup].
  rewrite strchr_none by (done || unfold is_u8; lia). cbn [mbind option_bind]. cbv zeta. change (2 <? 3) with true. cbn iota.
  cbn [mbind option_bind env_htab set_id].
  pose proof (hdelete_deletes strdup callback_init flags_init Hdup (env_htab st) m (c :: k)
    (Z.lor H_PROGRAMMATIC H_FORCE) Hr Ht) as Hdel.
  rewrite Hv in Hdel. destruct Hdel as (h & -> & Hr' & _). by exists h.
Qed.

(** ** Witnesses *)

(** The state before relocation, and after the import of an empty environment. *)
Definition early_state : env_state := mkEnv no_table false false 1 default_environment 1.

Definition fresh_state : env_state := mkEnv fresh true true 1 [] 1.

Definition board_entries : list (list Z * list Z) :=
  [(chars "bootcmd", CONFIG_BOOTCOMMAND); (chars "bootdelay", chars "3"); (chars "baudrate", chars "115200");
   (chars "fdt_high", chars "0xffffffffffffffff")].

Lemma board_text : default_environment = text_of 0 board_entries ++ [0].
Proof. vm_compute. reflexivity. Qed.

Lemma early_chars st kvs : reloc st = false -> env_valid st <> 0 -> env_mem st = text_of 0 kvs ++ [0] ->
  forall d, chars_at d st 0 (text_of 0 kvs ++ [0]).
Proof.
  intros Hr Hv Hm d j c Hj. unfold env_get_char, env_get_char_init, env_get_char_spec. rewrite Hr.
  destruct (Z.eqb_spec (env_valid st) 0); [done|]. cbn [negb]. rewrite Hm. unfold ld.
  destruct (Z.ltb_spec (0 + Z.of_nat j) 0); [lia|]. by replace (Z.to_nat (0 + Z.of_nat j)) with j by lia.
Qed.

#[global] Instance plain_name_dec k : Decision (plain_name k).
Proof. unfold plain_name, text_ok. apply _. Defined.

#[global] Instance settable_dec k : Decision (settable k).
Proof. unfold settable. apply _. Defined.

#[global] Instance entries_ok_dec kvs : Decision (entries_ok kvs).
Proof. unfold entries_ok, text_ok. apply _. Defined.

Lemma getenv_early_reads_witness :
  getenv Some (fun _ => None) (fun _ => 0) default_environment (chars "bootcmd") early_state =
    Some (Some (chars "ext4load mmc 0:1 0x48000000 uIm"), early_state).
Proof.
  assert (E : (v ← first_value board_entries (chars "bootcmd"); early_value v) =
    Some (chars "ext4load mmc 0:1 0x48000000 uIm")) by (vm_compute; reflexivity).
  rewrite <- E. apply (getenv_early_reads Some (fun _ => None) (fun _ => 0) default_environment (chars "bootcmd") board_entries early_state).
  - reflexivity.
  - apply early_chars; [reflexivity|discriminate|exact board_text].
  - refine (bool_decide_eq_true_1 _ _). vm_compute. reflexivity.
  - vm_compute. discriminate.
  - refine (bool_decide_eq_true_1 _ _). vm_compute. reflexivity.
Defined.

(** The default a variable is compared with when only its default may be overwritten
    is cut the same way. *)
Example getenv_default_cut : getenv_default Some (fun _ => None) (fun _ => 0) default_environment (chars "bootcmd") fresh_state =
  Some (Some (take 31 CONFIG_BOOTCOMMAND), fresh_state) /\ (31 < length CONFIG_BOOTCOMMAND)%nat.
Proof. split; vm_compute; [reflexivity|repeat constructor]. Qed.

Definition sample_calls : list (list Z * option (list Z)) :=
  [(chars "ipaddr", Some (chars "10.0.0.2")); (chars "gone", Some (chars "x")); (chars "ipaddr", Some (chars "10.0.0.3"));
   (chars "gone", None)].

Lemma setenv_refines_map_witness :
  exists st', setenvs Some (fun _ => true) (fun _ => None) (fun _ => 0) sample_calls fresh_state = Some st' /\
    ready st' (foldl var_change ∅ sample_calls) /\ env_id st' = 5 /\
    forall k, text_ok k -> exists h, getenv Some (fun _ => None) (fun _ => 0) default_environment k st' =
      Some (foldl var_change ∅ sample_calls !! k, set_htab h st') /\ represents h (foldl var_change ∅ sample_calls).
Proof.
  apply (setenv_refines_map Some (fun _ => true) (fun _ => None) (fun _ => 0) default_environment sample_calls fresh_state ∅).
  - reflexivity.
  - reflexivity.
  - intros k f Hf. discriminate Hf.
  - split; [reflexivity|exact fresh_represents].
  - assert (Hs : Forall (fun c => settable c.1) sample_calls) by (refine (bool_decide_eq_true_1 _ _); vm_compute; reflexivity).
    assert (Hv : Forall (fun c => from_option text_ok True c.2) sample_calls) by (repeat constructor).
    apply Forall_and; split; [exact Hs|exact Hv].
  - vm_compute. reflexivity.
Defined.
