(* ===== verification/EnvStore.v ===== *)
(** The environment in storage (src/U-Boot/common/env_common.c and env_mmc.c, the
    save and default commands of cmd_nvedit.c).

    The table is exported into a block of 4 KB, the check sum of [Crc] in front of the
    text of [EnvText], and the block is written to the card; at the start it is read
    back, and the default environment takes its place if there is no card or the
    check sum is wrong.  The card is the interface [Mmc]; [GoodMmc] has the laws of
    one that keeps what is written to it.  The board keeps one copy of the
    environment, does not encrypt it, and has no partition to select for it. *)

From S2P Require Import Prelude UStr Crc QSort HashTable EnvText EnvSafe EnvVars.

(** ** The card *)

(** What the block device of the card answers: whether there is one, whether it can be
    initialised (0 is success), the sizes of its blocks, how many blocks were written,
    and how many were read with the bytes stored at the buffer. *)
Class Mmc := {
  card : Type;
  find_mmc_device : Z -> card -> bool;
  mmc_init : card -> Z * card;
  write_bl_len : card -> Z;
  read_bl_len : card -> Z;
  block_write : Z -> Z -> Z -> list Z -> card -> Z * card;
  block_read : Z -> Z -> Z -> card -> Z * list Z * card;
}.

(** include/configs/s5p6818_drone.h *)
Definition CONFIG_2NDBOOT_OFFSET : Z := 512.
Definition CONFIG_2NDBOOT_SIZE : Z := 64 * 1024.
Definition CONFIG_FIP_OFFSET : Z := CONFIG_2NDBOOT_OFFSET + CONFIG_2NDBOOT_SIZE.
Definition CONFIG_FIP_SIZE : Z := 3 * 1024 * 1024.
Definition CONFIG_ENV_OFFSET : Z := CONFIG_FIP_OFFSET + CONFIG_FIP_SIZE.

(** The board's own function, in place of the weak one that takes the device of the
    configuration. *)
Definition mmc_get_env_dev : Z := 0.

(** include/environment.h *)
Definition ENV_HEADER_SIZE : Z := 4.
Definition ENV_SIZE : Z := CONFIG_ENV_SIZE - ENV_HEADER_SIZE.

(** The steps [hcreate_r] may take to find a prime. *)
Definition prime_fuel : nat := Z.to_nat 33000.

Section EnvStore.
Context `{Slre} `{Mmc}.
Context (strdup : list Z -> option (list Z)) (malloc : Z -> bool).
Context (callback_init : list Z -> option callback_fn) (flags_init : list Z -> Z).
Context (default_env : list Z).

Abbreviation import := (himport_r strdup callback_init flags_init prime_fuel malloc).

(** ** The default environment *)

(** The first character of the message tells whether a user asked for it. *)
Definition set_default_env (s : option (list Z)) (st : env_state) : option env_state :=
  let size := Z.of_nat (length default_env) in
  if ENV_SIZE <? size then Some st else
  let flags := match s with Some s => if default 0 (head s) =? 33 then 0 else H_INTERACTIVE | None => 0 end in
  '(_, h) ← import (env_htab st) default_env size 0 flags false [];
  Some (set_ready true (set_htab h st)).

Definition set_default_vars (vars : list (list Z)) (st : env_state) : option (Z * env_state) :=
  '(ret, h) ← import (env_htab st) default_env (Z.of_nat (length default_env)) 0
    (Z.lor H_NOCLEAR H_INTERACTIVE) false vars;
  Some (ret, set_htab h st).

(** ** Import and export *)

(** [buf] is an [env_t] at [addr]: the check sum, then the data. *)
Definition env_import (addr : Z) (buf : list Z) (check : bool) (st : env_state) : option (Z * env_state) :=
  let data := drop 4 buf in
  good ← (if check then
      crc ← crc32 0 (addr + 4) data ENV_SIZE; Some (crc =? le_word (take 4 buf))
    else Some true);
  if negb good then st ← set_default_env (Some (chars "!bad CRC")) st; Some (0, st)
  else
    '(ret, h) ← import (env_htab st) data ENV_SIZE 0 0 false [];
    if negb (ret =? 0) then Some (1, set_ready true (set_htab h st))
    else st ← set_default_env (Some (chars "!import failed")) (set_htab h st); Some (0, st).

(** The return value, what is at [env_out] afterwards, and the state. *)
Definition env_export (addr : Z) (env_out : list Z) (st : env_state) : option (Z * list Z * env_state) :=
  '(len, res, h) ← hexport_r malloc (env_htab st) 0 0 (Some (drop 4 env_out)) ENV_SIZE [];
  let st := set_htab h st in
  if len <? 0 then Some (1, env_out, st)
  else
    data ← res;
    crc ← crc32 0 (addr + 4) data ENV_SIZE;
    Some (0, le32 crc ++ data, st).

(** ** The card *)

(** [ALIGN] of an [unsigned long]. *)
Definition ALIGN (x a : Z) : Z := Z.land (u64 (x + (a - 1))) (u64 (Z.lnot (a - 1))).

(** The blocks of a place: the first and the number, or no such block size. *)
Definition blocks (bl_len size offset : Z) : option (Z * Z) :=
  if bl_len =? 0 then None
  else Some (u32 (ALIGN offset bl_len / bl_len), u32 (ALIGN size bl_len / bl_len)).

(** The second result is [*env_addr]. *)
Definition mmc_get_env_addr : Z * Z := (0, CONFIG_ENV_OFFSET).

Definition init_mmc_for_env (dev : Z) (c : card) : option (list Z) * card :=
  if negb (find_mmc_device dev c) then (Some (chars "!No MMC card found"), c)
  else
    let '(err, c) := mmc_init c in
    if negb (err =? 0) then (Some (chars "!MMC init failed"), c) else (None, c).

(** The card reads whole blocks from the buffer. *)
Definition write_env (size offset : Z) (buffer : list Z) (c : card) : option (Z * card) :=
  '(blk_start, blk_cnt) ← blocks (write_bl_len c) size offset;
  let len := blk_cnt * write_bl_len c in
  if Z.of_nat (length buffer) <? len then None
  else
    let '(n, c) := block_write mmc_get_env_dev blk_start blk_cnt (take (Z.to_nat len) buffer) c in
    Some (if u32 n =? blk_cnt then 0 else -1, c).

(** The return value, the buffer and the card. *)
Definition read_env (size offset : Z) (buffer : list Z) (c : card) : option (Z * list Z * card) :=
  '(blk_start, blk_cnt) ← blocks (read_bl_len c) size offset;
  let '(n, bytes, c) := block_read mmc_get_env_dev blk_start blk_cnt c in
  if Z.of_nat (length buffer) <? Z.of_nat (length bytes) then None
  else Some (if u32 n =? blk_cnt then 0 else -1, bytes ++ drop (length bytes) buffer, c).

(** [env_new] is an object on the stack at [addr]. *)
Definition saveenv (addr : Z) (env_new : list Z) (st : env_state) (c : card) : option (Z * env_state * card) :=
  let '(errmsg, c) := init_mmc_for_env mmc_get_env_dev c in
  match errmsg with
  | Some _ => Some (1, st, c)
  | None =>
      '(ret, env_new, st) ← env_export addr env_new st;
      if negb (ret =? 0) then Some (ret, st, c) else
      let '(err, offset) := mmc_get_env_addr in
      if negb (err =? 0) then Some (1, st, c) else
      '(failed, c) ← write_env CONFIG_ENV_SIZE offset env_new c;
      if negb (failed =? 0) then Some (1, st, c) else Some (0, st, c)
  end.

(** [buf] is an object on the stack at [addr]; [ret] and [errmsg] at the end say
    whether the default environment is taken. *)
Definition env_relocate_spec (addr : Z) (buf : list Z) (st : env_state) (c : card) : option (env_state * card) :=
  let '(errmsg, c) := init_mmc_for_env mmc_get_env_dev c in
  match errmsg with
  | Some _ => st ← set_default_env errmsg st; Some (st, c)
  | None =>
      let '(err, offset) := mmc_get_env_addr in
      if negb (err =? 0) then st ← set_default_env errmsg st; Some (st, c) else
      '(failed, buf, c) ← read_env CONFIG_ENV_SIZE offset buf c;
      if negb (failed =? 0) then st ← set_default_env (Some (chars "!read failed")) st; Some (st, c)
      else '(_, st) ← env_import addr buf true st; Some (st, c)
  end.

Definition env_init (st : env_state) : env_state :=
  mkEnv (env_htab st) (env_ready st) (reloc st) 1 default_env (env_id st).

Definition env_relocate (addr : Z) (buf : list Z) (st : env_state) (c : card) : option (env_state * card) :=
  if env_valid st =? 0 then st ← set_default_env (Some (chars "!bad CRC")) st; Some (st, c)
  else env_relocate_spec addr buf st c.

(** ** Commands *)

Definition do_env_save (addr : Z) (env_new : list Z) (st : env_state) (c : card) : option (Z * env_state * card) :=
  '(ret, st, c) ← saveenv addr env_new st c; Some (if ret =? 0 then 0 else 1, st, c).

(** The letters of an option: [all] and [flag], or one that is not known. *)
Fixpoint default_letters (s : list Z) (all : bool) (flag : Z) : option (bool * Z) :=
  match s with
  | [] => Some (all, flag)
  | c :: r =>
      if c =? 97 then default_letters r true flag
      else if c =? 102 then default_letters r all (Z.lor flag H_FORCE)
      else None
  end.

(** [while (--argc > 0 && **++argv == '-')]: [args] is [argv + 1].  The result has the
    arguments left, or is the return for the usage. *)
Fixpoint default_options (args : list (option (list Z))) (argc : Z) (all : bool) (flag : Z)
    : option (option (list (option (list Z)) * Z * bool)) :=
  let argc := argc - 1 in
  if negb (0 <? argc) then Some (Some (args, argc, all)) else
  match args with
  | Some s :: rest =>
      if default 0 (head s) =? 45 then
        match default_letters (drop 1 s) all flag with
        | None => Some None
        | Some (all, flag) => default_options rest argc all flag
        end
      else Some (Some (args, argc, all))
  | _ => None
  end.

(** [cmd_usage] returns 1; the names are no null pointers. *)
Definition do_env_default (argc : Z) (argv : list (option (list Z))) (st : env_state) : option (Z * env_state) :=
  o ← default_options (drop 1 argv) argc false 0;
  match o with
  | None => Some (1, st)
  | Some (args, argc, all) =>
      if all && (argc =? 0) then
        st ← set_default_env (Some (chars "## Resetting to default environment\n")) st; Some (0, st)
      else if negb all && (0 <? argc) then
        if Z.of_nat (length args) <? argc then None else
        vars ← mapM id (take (Z.to_nat argc) args);
        '(_, st) ← set_default_vars vars st; Some (0, st)
      else Some (1, st)
  end.
End EnvStore.

(** ** A card that keeps what is written to it *)

(** [good] cards are there and can be brought up; then they are [up], and read and write
    blocks of 512 bytes, as far as the environment reaches; [content] is the byte at a
    place. *)
Class GoodMmc `{Mmc} (good up : card -> Prop) (content : card -> Z -> Z) := {
  good_found c : good c -> find_mmc_device mmc_get_env_dev c = true;
  good_init c : good c -> exists c', mmc_init c = (0, c') /\ up c' /\ forall a, content c' a = content c a;
  good_up c : up c -> good c;
  good_blocks c : up c -> write_bl_len c = 512 /\ read_bl_len c = 512;
  good_bytes c a : good c -> 0 <= content c a < 256;
  good_write c start cnt data : up c -> 0 <= start -> 0 < cnt -> 512 * (start + cnt) <= CONFIG_ENV_OFFSET + CONFIG_ENV_SIZE ->
    Z.of_nat (length data) = 512 * cnt -> Forall (fun x => 0 <= x < 256) data ->
    exists c', block_write mmc_get_env_dev start cnt data c = (cnt, c') /\ up c' /\
      forall a, content c' a =
        (if (512 * start <=? a) && (a <? 512 * (start + cnt))
         then nth (Z.to_nat (a - 512 * start)) data 0 else content c a);
  good_read c start cnt : up c -> 0 <= start -> 0 < cnt -> 512 * (start + cnt) <= CONFIG_ENV_OFFSET + CONFIG_ENV_SIZE ->
    exists c', block_read mmc_get_env_dev start cnt c =
        (cnt, map (content c) (seqZ (512 * start) (512 * cnt)), c') /\ up c' /\
      forall a, content c' a = content c a;
}.

(** The block of the environment on the card. *)
Definition outside_env (a : Z) : Prop := a < CONFIG_ENV_OFFSET \/ CONFIG_ENV_OFFSET + CONFIG_ENV_SIZE <= a.

Definition env_block {C} (content : C -> Z -> Z) (c : C) : list Z :=
  map (content c) (seqZ CONFIG_ENV_OFFSET CONFIG_ENV_SIZE).

Section Storing.
Context `{Slre} `{HM : Mmc} {good up : card -> Prop} {content : card -> Z -> Z} `{HG : !GoodMmc good up content}.
Context (strdup : list Z -> option (list Z)).
Context (callback_init : list Z -> option callback_fn) (flags_init : list Z -> Z).
Context (default_env : list Z).
Hypothesis Hdup : forall v, strdup v = Some v.
Hypothesis Hcb : forall k f, callback_init k = Some f -> forall k' v op fl, f k' v op fl = false.

Abbreviation memory := (fun _ : Z => true).
Abbreviation imported := (env_import strdup memory callback_init flags_init default_env).
Abbreviation defaulted := (set_default_env strdup memory callback_init flags_init default_env).
Abbreviation relocated := (env_relocate strdup memory callback_init flags_init default_env).

Lemma prime_fuel_enough : 33000 <= Z.of_nat prime_fuel.
Proof. unfold prime_fuel. rewrite Z2Nat.id; lia. Qed.

Lemma nat_4096 : Z.to_nat 4096 = Z.to_nat CONFIG_ENV_SIZE.
Proof. reflexivity. Qed.

Lemma env_block_length c : Z.of_nat (length (env_block content c)) = CONFIG_ENV_SIZE.
Proof. unfold env_block. rewrite length_map, length_seqZ. unfold CONFIG_ENV_SIZE. lia. Qed.

Lemma env_block_bytes c : good c -> Forall is_u8 (env_block content c).
Proof.
  intros Hg. unfold env_block. apply Forall_map, Forall_forall. intros a _. cbn. pose proof (good_bytes c a Hg).
  unfold is_u8. lia.
Qed.

Lemma env_block_same c c' : (forall a, content c' a = content c a) -> env_block content c' = env_block content c.
Proof. intros H'. unfold env_block. apply map_ext_in. intros a _. apply H'. Qed.

Lemma init_ok c : good c -> exists c', init_mmc_for_env mmc_get_env_dev c = (None, c') /\ up c' /\ forall a, content c' a = content c a.
Proof.
  intros Hg. unfold init_mmc_for_env. rewrite good_found by done. cbn [negb].
  destruct (good_init c Hg) as (c' & -> & Hg' & Hc). change (negb (0 =? 0)) with false. cbn iota. by exists c'.
Qed.

Lemma env_blocks : exists start cnt, blocks 512 CONFIG_ENV_SIZE CONFIG_ENV_OFFSET = Some (start, cnt) /\
  0 <= start /\ 0 < cnt /\ 512 * start = CONFIG_ENV_OFFSET /\ 512 * cnt = CONFIG_ENV_SIZE.
Proof. exists 6273, 8. by vm_compute. Qed.

Lemma env_block_at c a n : a = CONFIG_ENV_OFFSET -> n = CONFIG_ENV_SIZE -> map (content c) (seqZ a n) = env_block content c.
Proof. by intros -> ->. Qed.

Lemma read_ok c buf : up c -> Z.of_nat (length buf) = CONFIG_ENV_SIZE ->
  exists c', read_env CONFIG_ENV_SIZE CONFIG_ENV_OFFSET buf c = Some (0, env_block content c, c') /\ up c' /\
    env_block content c' = env_block content c.
Proof.
  intros Hg Hb. unfold read_env. destruct (good_blocks c Hg) as [_ ->].
  destruct env_blocks as (start & cnt & -> & Hs0 & Hc0 & Hs & Hc). cbn [mbind option_bind]. destruct (good_read c start cnt Hg Hs0 Hc0 ltac:(lia)) as (c' & -> & Hg' & Hk).
  rewrite (env_block_at c _ _ Hs Hc).
  pose proof (env_block_length c) as Hl.
  destruct (Z.ltb_spec (Z.of_nat (length buf)) (Z.of_nat (length (env_block content c)))); [lia|].
  rewrite u32_small, Z.eqb_refl by (unfold is_u32, CONFIG_ENV_SIZE in *; lia). exists c'. rewrite drop_ge, app_nil_r by lia. split_and!; [done..|]. by apply env_block_same.
Qed.

Lemma write_ok c buf : up c -> Z.of_nat (length buf) = CONFIG_ENV_SIZE -> Forall is_u8 buf ->
  exists c', write_env CONFIG_ENV_SIZE CONFIG_ENV_OFFSET buf c = Some (0, c') /\ up c' /\
    env_block content c' = buf /\ forall a, outside_env a -> content c' a = content c a.
Proof.
  intros Hg Hb Hbytes. unfold write_env. destruct (good_blocks c Hg) as [-> _].
  destruct env_blocks as (start & cnt & -> & Hs0 & Hc0 & Hs & Hc). cbn [mbind option_bind]. replace (cnt * 512) with CONFIG_ENV_SIZE by lia. rewrite <- Hb, Z.ltb_irrefl, Nat2Z.id, take_ge by done.
  destruct (good_write c start cnt buf Hg Hs0 Hc0 ltac:(lia)) as (c' & -> & Hg' & Hk).
  - lia.
  - eapply Forall_impl; [exact Hbytes|]. unfold is_u8. lia.
  - rewrite u32_small, Z.eqb_refl by (unfold is_u32, CONFIG_ENV_SIZE in *; lia). exists c'. split_and!; [done..| |].
    2:{ intros a Ha. rewrite Hk. destruct (Z.leb_spec (512 * start) a), (Z.ltb_spec a (512 * (start + cnt))); cbn [andb]; try done. destruct Ha; lia. }
    apply list_eq. intros j. unfold env_block.
    rewrite list_lookup_fmap. destruct (decide (j < length buf)%nat) as [Hj|Hj].
    + rewrite lookup_seqZ_lt by lia. cbn. rewrite Hk, Hs.
      destruct (Z.leb_spec CONFIG_ENV_OFFSET (CONFIG_ENV_OFFSET + Z.of_nat j)); [|lia].
      destruct (Z.ltb_spec (CONFIG_ENV_OFFSET + Z.of_nat j) (512 * (start + cnt))); [|lia]. cbn [andb].
      destruct (lookup_lt_is_Some_2 buf j Hj) as [x Hx].
      replace (Z.to_nat _) with j by lia. by rewrite nth_lookup, Hx.
    + rewrite lookup_seqZ_ge by lia. cbn. by rewrite lookup_ge_None_2 by lia.
Qed.

(** *** The default environment *)

(** A default environment that is the text of some entries. *)
Record default_text (kvs : list (list Z * list Z)) : Prop := {
  def_text : default_env = text_of 0 kvs ++ [0];
  def_lines : lines_ok 0 kvs;
  def_some : kvs <> [];
  def_fits : Z.of_nat (length default_env) <= ENV_SIZE;
  def_slots : Z.of_nat (length kvs) < CONFIG_ENV_MIN_ENTRIES;
}.

Lemma default_ok kvs s st : default_text kvs -> permissive (env_htab st) ->
  exists h, defaulted s st = Some (set_ready true (set_htab h st)) /\ represents h (foldl set_or_delete ∅ kvs).
Proof.
  intros [Ht Hl Hne Hfit Hsl] Hp. unfold set_default_env. destruct (Z.ltb_spec ENV_SIZE (Z.of_nat (length default_env))); [lia|].
  set (flags := match s with Some _ => _ | None => _ end).
  assert (Hfl : (Z.land flags H_NOCLEAR =? 0) = true).
  { unfold flags. destruct s as [s|]; [|done]. by destruct (default 0 (head s) =? 33). }
  pose proof prime_fuel_enough as Hf. clearbody flags.
  assert (Hlen : Z.of_nat (length default_env) = Z.of_nat (length (text_of 0 kvs) + 1)) by (rewrite Ht, length_app; done).
  assert (Hsz : 0 < Z.of_nat (length default_env) < 2 ^ 31) by (unfold ENV_SIZE, CONFIG_ENV_SIZE, ENV_HEADER_SIZE in *; lia).
  destruct (import_table prime_fuel (env_htab st) (Z.of_nat (length default_env)) Hp Hsz Hf) as (h1 & Htab & Hr1 & Ht1 & Hs1).
  assert (Hslots : Z.of_nat (length kvs) < import_slots (Z.of_nat (length default_env))).
  { unfold import_slots, CONFIG_ENV_MIN_ENTRIES, CONFIG_ENV_MAX_ENTRIES in *.
    pose proof (Z.div_pos (Z.of_nat (length default_env)) 8). lia. }
  destruct (himport_ok strdup callback_init flags_init Hdup Hcb 0 ltac:(done) ltac:(done) prime_fuel flags kvs 0 (env_htab st) h1 ∅
    default_env (Z.of_nat (length default_env))) as (h' & Hi & Hr'); try done.
  - rewrite Nat2Z.id, take_ge by done. by rewrite Ht.
  - change (Z.land 0 H_NOCLEAR =? 0) with true in Htab. by rewrite Hfl.
  - lia.
  - rewrite Hi. cbn [mbind option_bind]. exists h'. split; [done|]. by destruct kvs.
Qed.

(** *** The block *)

(** What an export of a map leaves: the text of its listing, filled up with NULs, and
    its check sum in front. *)
Definition data_of (kvs : list (list Z * list Z)) : list Z := export_buffer 0 ENV_SIZE kvs [].

Definition image_of (m : gmap (list Z) (list Z)) (image : list Z) : Prop :=
  exists kvs, listing m kvs /\ needed 0 kvs <= ENV_SIZE /\ image = le32 (crc32_of 0 (data_of kvs)) ++ data_of kvs.

Lemma text_bytes kvs : Forall (fun kv => text_ok kv.1 /\ text_ok kv.2) kvs -> Forall is_u8 (text_of 0 kvs).
Proof.
  assert (Ht : forall a, text_ok a -> Forall is_u8 a) by (intros a Ha; eapply Forall_impl; [exact Ha|]; unfold is_u8; lia).
  unfold text_of. induction 1 as [|kv kvs [Hk Hv] Hkvs IH]; [constructor|]. cbn [flat_map]. apply Forall_app. split; [|done].
  unfold line. apply Forall_app. split; [by apply Ht|]. constructor; [unfold is_u8; lia|].
  apply Forall_app. split; [|repeat constructor; unfold is_u8; lia]. by apply Ht, escape_text; [right|].
Qed.

Lemma listing_texts m kvs : listing m kvs -> values_ok m -> names_ok 0 m -> Forall (fun kv => text_ok kv.1 /\ text_ok kv.2) kvs.
Proof.
  intros (_ & _ & Hiff) Hv Hn. apply Forall_forall. intros [k v] Hin. apply Hiff in Hin. split; [|by apply (Hv k)].
  apply (Hn k v Hin).
Qed.

Lemma data_bytes m kvs : listing m kvs -> values_ok m -> names_ok 0 m -> Forall is_u8 (data_of kvs).
Proof.
  intros Hk Hv Hn. unfold data_of, export_buffer. assert (H0 : is_u8 0) by (unfold is_u8; lia).
  rewrite !Forall_app. split_and!; [by eapply text_bytes, listing_texts|by repeat constructor|by apply Forall_replicate|constructor].
Qed.

Lemma data_length kvs : needed 0 kvs <= ENV_SIZE -> Z.of_nat (length (data_of kvs)) = ENV_SIZE.
Proof.
  unfold needed, data_of, export_buffer. intros Hn. rewrite !length_app, length_replicate. cbn [length].
  unfold ENV_SIZE, CONFIG_ENV_SIZE, ENV_HEADER_SIZE in *. lia.
Qed.

Lemma data_crc addr d : Forall is_u8 d -> Z.of_nat (length d) = ENV_SIZE -> crc32 0 addr d ENV_SIZE = Some (crc32_of 0 d).
Proof.
  intros Hd Hl. rewrite <- Hl. rewrite crc32_ok.
  - by rewrite Nat2Z.id, take_ge by done.
  - unfold is_u32. lia.
  - done.
  - rewrite Hl. unfold ENV_SIZE, CONFIG_ENV_SIZE, ENV_HEADER_SIZE. lia.
  - lia.
Qed.

Lemma export_ok addr buf st m : represents (env_htab st) m -> values_ok m -> names_ok 0 m -> escapes_counted m 0 ->
  Z.of_nat (length buf) = CONFIG_ENV_SIZE ->
  if ENV_SIZE <? needed 0 (map_to_list m)
  then env_export memory addr buf st = Some (1, buf, set_htab (set_errno ENOMEM (env_htab st)) st)
  else exists image, image_of m image /\ env_export memory addr buf st = Some (0, image, set_htab (env_htab st) st).
Proof.
  intros Hr Hv Hn He Hl.
  assert (Hd : Z.of_nat (length (drop 4 buf)) = ENV_SIZE).
  { rewrite length_drop. unfold ENV_SIZE, CONFIG_ENV_SIZE, ENV_HEADER_SIZE in *. lia. }
  assert (Hsz : 0 < ENV_SIZE <= Z.of_nat (length (drop 4 buf))) by (rewrite Hd; unfold ENV_SIZE, CONFIG_ENV_SIZE, ENV_HEADER_SIZE; lia).
  destruct (hexport_into (env_htab st) m Hr Hv (fun k v Hk => proj1 (Hn k v Hk)) memory 0 0 (drop 4 buf) ENV_SIZE eq_refl He Hsz)
    as (kvs & Hk & Hexp).
  fold (needed 0 kvs) in Hexp. rewrite (listing_needed 0 m kvs Hk) in Hexp.
  rewrite (drop_ge (drop 4 buf)) in Hexp by lia. fold (data_of kvs) in Hexp.
  unfold env_export. rewrite Hexp. destruct (Z.ltb_spec ENV_SIZE (needed 0 (map_to_list m))) as [Hlt|Hge].
  - done.
  - cbn [mbind option_bind]. change (ENV_SIZE <? 0) with false. cbn iota.
    rewrite <- (listing_needed 0 m kvs Hk) in Hge.
    rewrite data_crc by (eauto using data_length, data_bytes). cbn [mbind option_bind].
    eexists. split; [|done]. by exists kvs.
Qed.

Lemma env_image_length m image : image_of m image -> Z.of_nat (length image) = CONFIG_ENV_SIZE.
Proof.
  intros (kvs & _ & Hn & ->). rewrite length_app, Nat2Z.inj_add, data_length by done. reflexivity.
Qed.

Lemma image_bytes m image : image_of m image -> values_ok m -> names_ok 0 m -> Forall is_u8 image.
Proof.
  intros (kvs & Hk & _ & ->) Hv Hn. apply Forall_app. split; [|by eapply data_bytes].
  unfold le32. do 4 (apply Forall_cons_2; [apply land_byte|]). constructor.
Qed.

Lemma block_crc addr d c : Forall is_u8 d -> Z.of_nat (length d) = CONFIG_ENV_SIZE ->
  (crc ← crc32 0 addr (drop 4 d) ENV_SIZE; Some (crc =? c)) = Some (crc32_of 0 (drop 4 d) =? c).
Proof.
  intros Hd Hl. rewrite data_crc; [done|by apply Forall_drop|]. rewrite length_drop.
  unfold ENV_SIZE, CONFIG_ENV_SIZE, ENV_HEADER_SIZE in *. lia.
Qed.

(** A block with a wrong check sum. *)
Lemma import_bad addr d st : Forall is_u8 d -> Z.of_nat (length d) = CONFIG_ENV_SIZE ->
  crc32_of 0 (drop 4 d) <> le_word (take 4 d) ->
  imported addr d true st = st ← defaulted (Some (chars "!bad CRC")) st; Some (0, st).
Proof.
  intros Hd Hl Hne. unfold env_import. rewrite block_crc by done. cbn [mbind option_bind].
  destruct (Z.eqb_spec (crc32_of 0 (drop 4 d)) (le_word (take 4 d))); [done|]. cbn [negb]. done.
Qed.

Lemma image_checks m image : image_of m image -> values_ok m -> names_ok 0 m ->
  crc32_of 0 (drop 4 image) = le_word (take 4 image).
Proof.
  intros (kvs & Hk & _ & ->) Hv Hn. change (drop 4 (le32 ?x ++ data_of kvs)) with (data_of kvs).
  change (take 4 (le32 ?x ++ data_of kvs)) with (le32 (crc32_of 0 (data_of kvs))).
  rewrite le_word_le32, u32_small; [done|]. apply crc32_of_range; [unfold is_u32; lia|by eapply data_bytes].
Qed.

(** The block that was exported. *)
Lemma import_image addr m image st : image_of m image -> values_ok m -> names_ok 0 m ->
  Z.of_nat (base.size m) < import_slots ENV_SIZE -> permissive (env_htab st) ->
  exists h, imported addr image true st = Some (1, set_ready true (set_htab h st)) /\ represents h (nonempty m).
Proof.
  intros Hi Hv Hn Hroom Hp. unfold env_import.
  rewrite block_crc by (eauto using env_image_length, image_bytes). cbn [mbind option_bind].
  rewrite (image_checks m image) by done. rewrite Z.eqb_refl. cbn [negb].
  destruct Hi as (kvs & Hk & Hne & ->). change (drop 4 (le32 ?x ++ data_of kvs)) with (data_of kvs).
  pose proof (data_length kvs Hne) as Hl.
  pose proof prime_fuel_enough as Hfuel.
  assert (Hsz : 0 < ENV_SIZE <= Z.of_nat (length (data_of kvs))) by (rewrite Hl; split; [reflexivity|lia]).
  destruct (import_exported strdup callback_init flags_init (env_htab st) m kvs 0 (data_of kvs) ENV_SIZE prime_fuel)
    as (h & Himp & Hr); try done.
  rewrite drop_ge in Himp by lia. fold (data_of kvs) in Himp. rewrite Himp. cbn [mbind option_bind].
  change (negb (1 =? 0)) with true. cbn iota. by exists h.
Qed.

(** Any block. *)
Lemma import_block addr d kvs st : Forall is_u8 d -> Z.of_nat (length d) = CONFIG_ENV_SIZE -> default_text kvs ->
  permissive (env_htab st) -> import_lines 0 false (drop 4 d) ENV_SIZE + 1 < import_slots ENV_SIZE ->
  exists ret st' m, imported addr d true st = Some (ret, st') /\ ready st' m.
Proof.
  intros Hd Hl Hdef Hp Hlines. destruct (decide (crc32_of 0 (drop 4 d) = le_word (take 4 d))) as [E|E].
  - unfold env_import. rewrite block_crc by done. cbn [mbind option_bind]. rewrite E, Z.eqb_refl. cbn [negb].
    pose proof prime_fuel_enough as Hfuel.
    assert (Hsz : 0 < ENV_SIZE <= Z.of_nat (length (drop 4 d))).
    { rewrite length_drop. unfold ENV_SIZE, CONFIG_ENV_SIZE, ENV_HEADER_SIZE in *. lia. }
    destruct (himport_any strdup callback_init flags_init (env_htab st) (drop 4 d) ENV_SIZE 0 false [] prime_fuel)
      as (ret & h' & m' & Hi & _ & Hr); try done.
    + eapply Forall_impl; [by apply Forall_drop|]. unfold is_u8. lia.
    + rewrite Hi. cbn [mbind option_bind]. destruct (Z.eqb_spec ret 0) as [->|Hne]; cbn [negb].
      * destruct (default_ok kvs (Some (chars "!import failed")) (set_htab h' st) Hdef (wf_permissive _ (proj1 Hr)))
          as (h2 & -> & Hr2). cbn [mbind option_bind]. by eexists _, _, _.
      * by eexists _, _, _.
  - rewrite import_bad by done. destruct (default_ok kvs (Some (chars "!bad CRC")) st Hdef Hp) as (h & -> & Hr).
    cbn [mbind option_bind]. by eexists _, _, _.
Qed.

(** *** The card at the start *)

Lemma relocate_reads addr buf st c : good c -> Z.of_nat (length buf) = CONFIG_ENV_SIZE -> env_valid st <> 0 ->
  exists c', up c' /\ env_block content c' = env_block content c /\
    relocated addr buf st c = '(_, st) ← imported addr (env_block content c) true st; Some (st, c').
Proof.
  intros Hg Hb Hv. unfold env_relocate, env_relocate_spec. destruct (Z.eqb_spec (env_valid st) 0); [done|].
  destruct (init_ok c Hg) as (c1 & -> & Hg1 & E1%env_block_same). cbn [mmc_get_env_addr]. change (negb (0 =? 0)) with false. cbn iota.
  destruct (read_ok c1 buf Hg1 Hb) as (c2 & -> & Hg2 & E2). cbn [mbind option_bind]. change (negb (0 =? 0)) with false. cbn iota.
  exists c2. split; [exact Hg2|]. split; [by rewrite E2|]. by rewrite E1.
Qed.

Lemma saveenv_ok addr buf st m c : good c -> represents (env_htab st) m -> values_ok m -> names_ok 0 m ->
  escapes_counted m 0 -> Z.of_nat (length buf) = CONFIG_ENV_SIZE ->
  exists ret st' c', saveenv memory addr buf st c = Some (ret, st', c') /\ up c' /\ represents (env_htab st') m /\
    (forall a, outside_env a -> content c' a = content c a) /\
    if ENV_SIZE <? needed 0 (map_to_list m) then ret = 1 /\ (forall a, content c' a = content c a)
    else ret = 0 /\ image_of m (env_block content c').
Proof.
  intros Hg Hr Hv Hn He Hb. unfold saveenv. destruct (init_ok c Hg) as (c1 & -> & Hg1 & E1).
  pose proof (export_ok addr buf st m Hr Hv Hn He Hb) as Hx. destruct (ENV_SIZE <? needed 0 (map_to_list m)).
  - rewrite Hx. cbn [mbind option_bind]. eexists _, _, c1. split_and!; [done..|by apply set_errno_wf|by intros a _|done|done].
  - destruct Hx as (image & Hi & ->). cbn [mbind option_bind]. change (negb (0 =? 0)) with false. cbn [mmc_get_env_addr].
    change (negb (0 =? 0)) with false. cbn iota.
    destruct (write_ok c1 image Hg1) as (c2 & -> & Hg2 & E2 & Hout); [by eapply env_image_length|by eapply image_bytes|].
    cbn [mbind option_bind]. change (negb (0 =? 0)) with false. cbn iota.
    eexists _, _, c2. rewrite E2. split_and!; [done..| |done|done]. intros a Ha. by rewrite Hout, E1.
Qed.

Lemma relocate_image addr buf st c m : good c -> Z.of_nat (length buf) = CONFIG_ENV_SIZE -> env_valid st <> 0 ->
  image_of m (env_block content c) -> values_ok m -> names_ok 0 m ->
  Z.of_nat (base.size m) < import_slots ENV_SIZE -> permissive (env_htab st) ->
  exists st' c', relocated addr buf st c = Some (st', c') /\ ready st' (nonempty m).
Proof.
  intros Hg Hb Hval Hi Hv Hn Hroom Hp. destruct (relocate_reads addr buf st c Hg Hb Hval) as (c' & _ & _ & ->).
  destruct (import_image addr m _ st Hi Hv Hn Hroom Hp) as (h & -> & Hr). cbn [mbind option_bind]. by eexists _, c'.
Qed.
End Storing.

(** ** The claims *)

(** Damage to a block: its check sum, or up to four bytes in a row of its data. *)
Inductive damaged : list Z -> list Z -> Prop :=
  | damaged_crc c c' d : length c = 4%nat -> length c' = 4%nat -> c <> c' -> damaged (c ++ d) (c' ++ d)
  | damaged_data c p w w' s : length c = 4%nat -> length w = length w' -> (length w <= 4)%nat -> w <> w' ->
      damaged (c ++ p ++ w ++ s) (c ++ p ++ w' ++ s).

(** A damaged block does not check. *)
Lemma damaged_fails d d' : damaged d d' -> Forall is_u8 d -> Forall is_u8 d' ->
  crc32_of 0 (drop 4 d) = le_word (take 4 d) -> crc32_of 0 (drop 4 d') <> le_word (take 4 d').
Proof.
  assert (Hdt : forall c x : list Z, length c = 4%nat -> drop 4 (c ++ x) = x /\ take 4 (c ++ x) = c).
  { intros c x Hc. by rewrite drop_app_length', take_app_length' by done. }
  intros [c c' x Hc Hc' Hne|c p w w' s Hc Hlen H4 Hne] Hd Hd' E E'.
  - destruct (Hdt c x Hc) as [Hx1 Hx2]. destruct (Hdt c' x Hc') as [Hx1' Hx2'].
    rewrite Hx1, Hx2 in E. rewrite Hx1', Hx2' in E'. apply Hne. apply Forall_app in Hd as [Hd _].
    apply Forall_app in Hd' as [Hd' _]. apply le_word_inj; [done|done|lia|congruence].
  - destruct (Hdt c (p ++ w ++ s) Hc) as [Hx1 Hx2]. destruct (Hdt c (p ++ w' ++ s) Hc) as [Hx1' Hx2'].
    rewrite Hx1, Hx2 in E. rewrite Hx1', Hx2' in E'. apply Forall_app in Hd as [_ Hd]. apply Forall_app in Hd' as [_ Hd'].
    apply Hne. apply (crc32_of_burst 0 p w w' s); try done.
    + rewrite !Forall_app in Hd'. tauto.
    + congruence.
Qed.

(** C5: a saved environment is found again: [saveenv] writes the block of the
    environment and nothing else, and a start from a card whose block has not been touched since, with
    whatever table there is then, leaves exactly the variables whose values are not
    empty; if the text does not fit, [saveenv] fails and the card stays as it was. *)
Theorem saveenv_restores `{Slre} `{HM : Mmc} (good up : card -> Prop) (content : card -> Z -> Z) `{HG : !GoodMmc good up content}
    strdup callback_init flags_init default_env addr buf st m c :
  (forall v, strdup v = Some v) ->
  (forall k f, callback_init k = Some f -> forall k' v op fl, f k' v op fl = false) ->
  good c -> represents (env_htab st) m -> values_ok m -> names_ok 0 m -> escapes_counted m 0 ->
  Z.of_nat (length buf) = CONFIG_ENV_SIZE -> Z.of_nat (base.size m) < import_slots ENV_SIZE ->
  exists ret st' c', saveenv (fun _ => true) addr buf st c = Some (ret, st', c') /\ good c' /\ represents (env_htab st') m /\
    (forall a, outside_env a -> content c' a = content c a) /\
    if ENV_SIZE <? needed 0 (map_to_list m) then ret = 1 /\ (forall a, content c' a = content c a)
    else ret = 0 /\ forall addr2 buf2 st2 c2, good c2 -> env_block content c2 = env_block content c' ->
      Z.of_nat (length buf2) = CONFIG_ENV_SIZE -> env_valid st2 <> 0 -> permissive (env_htab st2) ->
      exists st3 c3, env_relocate strdup (fun _ => true) callback_init flags_init default_env addr2 buf2 st2 c2 = Some (st3, c3) /\
        ready st3 (nonempty m).
Proof.
  intros Hdup Hcb Hg Hr Hv Hn He Hb Hroom.
  destruct (saveenv_ok addr buf st m c Hg Hr Hv Hn He Hb) as (ret & st' & c' & Hs & Hg' & Hr' & Hout & Hres).
  exists ret, st', c'. split; [exact Hs|]. split; [by apply good_up|]. split; [done|]. split; [done|].
  destruct (ENV_SIZE <? needed 0 (map_to_list m)); [done|]. destruct Hres as [-> Hi]. split; [done|].
  intros addr2 buf2 st2 c2 Hg2 E Hb2 Hval Hp. rewrite <- E in Hi.
  exact (relocate_image strdup callback_init flags_init default_env Hdup Hcb addr2 buf2 st2 c2 m Hg2 Hb2 Hval Hi Hv Hn Hroom Hp).
Qed.

(** C6: damage to what was saved, of the check sum or of up to four bytes in a row, is
    noticed at the start, and the default environment is taken. *)
Theorem env_damage_detected `{HM : Mmc} (good up : card -> Prop) (content : card -> Z -> Z) `{HG : !GoodMmc good up content}
    strdup callback_init flags_init default_env kvs addr buf st m image c :
  (forall v, strdup v = Some v) ->
  (forall k f, callback_init k = Some f -> forall k' v op fl, f k' v op fl = false) ->
  default_text default_env kvs -> good c -> image_of m image -> values_ok m -> names_ok 0 m ->
  damaged image (env_block content c) -> Z.of_nat (length buf) = CONFIG_ENV_SIZE -> env_valid st <> 0 ->
  permissive (env_htab st) ->
  exists st' c', env_relocate strdup (fun _ => true) callback_init flags_init default_env addr buf st c = Some (st', c') /\
    ready st' (foldl set_or_delete ∅ kvs).
Proof.
  intros Hdup Hcb Hdef Hg Hi Hv Hn Hd Hb Hval Hp.
  destruct (relocate_reads strdup callback_init flags_init default_env addr buf st c Hg Hb Hval) as (c' & _ & _ & ->).
  assert (Hne : crc32_of 0 (drop 4 (env_block content c)) <> le_word (take 4 (env_block content c))).
  { apply (damaged_fails image); [done|by eapply image_bytes|by apply env_block_bytes|by eapply image_checks]. }
  rewrite (import_bad strdup callback_init flags_init default_env addr _ st (env_block_bytes c Hg) (env_block_length c) Hne).
  destruct (default_ok strdup callback_init flags_init default_env Hdup Hcb kvs (Some (chars "!bad CRC")) st Hdef Hp) as (h & -> & Hr).
  cbn [mbind option_bind]. by eexists _, c'.
Qed.

(** C7: whatever is on the card, the start returns with an environment that can be
    used: never is a byte outside the block accessed, and the table is sound, as long
    as the data has fewer lines than the table made for it has slots. *)
Theorem env_relocate_safe `{HM : Mmc} (good up : card -> Prop) (content : card -> Z -> Z) `{HG : !GoodMmc good up content}
    strdup callback_init flags_init default_env kvs addr buf st c :
  (forall v, strdup v = Some v) ->
  (forall k f, callback_init k = Some f -> forall k' v op fl, f k' v op fl = false) ->
  default_text default_env kvs -> good c -> Z.of_nat (length buf) = CONFIG_ENV_SIZE -> permissive (env_htab st) ->
  import_lines 0 false (drop 4 (env_block content c)) ENV_SIZE + 1 < import_slots ENV_SIZE ->
  exists st' c' m, env_relocate strdup (fun _ => true) callback_init flags_init default_env addr buf st c = Some (st', c') /\
    ready st' m.
Proof.
  intros Hdup Hcb Hdef Hg Hb Hp Hl. destruct (Z.eqb_spec (env_valid st) 0) as [Hz|Hz].
  - unfold env_relocate. rewrite Hz. change (0 =? 0) with true. cbn iota.
    destruct (default_ok strdup callback_init flags_init default_env Hdup Hcb kvs (Some (chars "!bad CRC")) st Hdef Hp) as (h & -> & Hr).
    cbn [mbind option_bind]. by eexists _, c, _.
  - destruct (relocate_reads strdup callback_init flags_init default_env addr buf st c Hg Hb Hz) as (c' & _ & _ & ->).
    destruct (import_block strdup callback_init flags_init default_env Hdup Hcb addr (env_block content c) kvs st
      (env_block_bytes c Hg) (env_block_length c) Hdef Hp Hl) as (ret & st' & m & -> & Hr).
    cbn [mbind option_bind]. by exists st', c', m.
Qed.

Lemma first_value_in kvs k v : first_value kvs k = Some v -> (k, v) ∈ kvs.
Proof.
  induction kvs as [|[k' w] kvs IH]; [done|]. cbn [first_value]. case_decide as E.
  - intros [= ->]. rewrite E. by left.
  - intros Hv. right. by apply IH.
Qed.

Lemma first_value_out kvs k : first_value kvs k = None -> k ∉ kvs.*1.
Proof.
  induction kvs as [|[k' w] kvs IH]; [intros _ Hin; inversion Hin|]. cbn [first_value fmap list_fmap]. case_decide as E; [done|].
  intros Hn. apply not_elem_of_cons. split; [done|by apply IH].
Qed.

(** What a default environment says of a variable; an empty value is none. *)
Definition default_value (kvs : list (list Z * list Z)) (name : list Z) : option (list Z) :=
  v ← first_value kvs name; match v with [] => None | _ => Some v end.

(** C9: a program that reads a variable of the default environment before and after its
    import sees the same variables: after it the value that the text means, before it
    what the text has for that value, cut to the 31 characters that the short buffer
    takes.  The two are equal where the value is short and has no backslash; where it is
    not short, as for the boot command of the board, the first is cut. *)
Theorem getenv_early_late strdup callback_init flags_init default_env kvs name st :
  (forall v, strdup v = Some v) ->
  (forall k f, callback_init k = Some f -> forall k' v op fl, f k' v op fl = false) ->
  default_text default_env kvs -> NoDup kvs.*1 -> plain_name name ->
  env_ready st = false -> reloc st = false -> permissive (env_htab st) ->
  exists st' h,
    getenv strdup callback_init flags_init default_env name (env_init default_env st) = Some (take 31 ∘ escape 0 <$> default_value kvs name, env_init default_env st) /\
    set_default_env strdup (fun _ => true) callback_init flags_init default_env None (env_init default_env st) = Some st' /\
    getenv strdup callback_init flags_init default_env name st' = Some (default_value kvs name, set_htab h st') /\
    forall v, default_value kvs name = Some v -> 92 ∉ v -> (take 31 (escape 0 v) = v <-> (length v < 32)%nat).
Proof.
  intros Hdup Hcb Hdef Hnd Hname Hr Hrel Hp. pose proof Hdef as [Ht Hl _ Hfit _].
  assert (He : entries_ok kvs).
  { eapply Forall_impl; [exact Hl|]. intros [k v] [[Hk _ Hs] Hv]. split; [|done]. split; [done|]. cbn in *.
    intros H61. rewrite Forall_forall in Hs. apply (Hs 61 H61). by left. }
  destruct (default_ok strdup callback_init flags_init default_env Hdup Hcb kvs None (env_init default_env st) Hdef Hp) as (h & Hset & Hrep).
  destruct (getenv_ready strdup callback_init flags_init default_env Hdup (set_ready true (set_htab h (env_init default_env st)))
    (foldl set_or_delete ∅ kvs) name) as (h' & Hg & _); [done|apply Hname|].
  assert (Hval : foldl set_or_delete ∅ kvs !! name = default_value kvs name /\ forall v, first_value kvs name = Some v -> text_ok v).
  { unfold default_value. destruct (first_value kvs name) as [v|] eqn:E; [|by rewrite fold_out by by apply first_value_out].
    pose proof (first_value_in _ _ _ E) as Hin. rewrite (fold_in kvs ∅ name v Hnd Hin). split; [by destruct v|].
    intros w [= <-]. unfold entries_ok in He. rewrite Forall_forall in He. by destruct (He _ Hin). }
  destruct Hval as [Hval Htv]. eexists _, h'. split; [|split; [exact Hset|split; [by rewrite <- Hval|]]].
  - rewrite (getenv_early strdup callback_init flags_init default_env name kvs); try done.
    + unfold default_value. do 2 f_equal. destruct (first_value kvs name) as [v|]; [by destruct v|done].
    + by apply early_chars.
    + rewrite Ht, length_app in Hfit. cbn [length] in Hfit. unfold ENV_SIZE, CONFIG_ENV_SIZE, ENV_HEADER_SIZE in *. lia.
  - intros v Hv H92. rewrite escape_plain; [|apply Htv|done].
    + split; intros E; [rewrite <- E, length_take; lia|apply take_ge; lia].
    + unfold default_value in Hv. destruct (first_value kvs name) as [[|c w]|]; [done|by injection Hv as ->|done].
Qed.

(** ** Witnesses *)

(** A card that is nothing but its bytes. *)
#[local] Instance plain_card : Mmc := {|
  card := Z -> Z;
  find_mmc_device _ _ := true;
  mmc_init c := (0, c);
  write_bl_len _ := 512;
  read_bl_len _ := 512;
  block_write _ start cnt data c :=
    (cnt, fun a => if (512 * start <=? a) && (a <? 512 * (start + cnt)) then nth (Z.to_nat (a - 512 * start)) data 0 else c a);
  block_read _ start cnt c := (cnt, map c (seqZ (512 * start) (512 * cnt)), c);
|}.

Definition plain_good (c : card) : Prop := forall a : Z, 0 <= (c : Z -> Z) a < 256.
Definition plain_content (c : card) (a : Z) : Z := (c : Z -> Z) a.

#[local] Instance plain_good_mmc : GoodMmc plain_good plain_good plain_content.
Proof.
  split.
  - done.
  - intros c Hc. by exists c.
  - done.
  - done.
  - intros c a Hc. apply Hc.
  - intros c start cnt data Hc Hs Hn Hlim Hl Hd. eexists. split; [done|]. split; [|done]. intros a. cbn.
    destruct ((512 * start <=? a) && (a <? 512 * (start + cnt))) eqn:E; [|apply Hc].
    apply andb_true_iff in E as [E1 E2]. apply Z.leb_le in E1. apply Z.ltb_lt in E2.
    rewrite Forall_forall in Hd. apply Hd. rewrite list_elem_of_In. apply nth_In. lia.
  - intros c start cnt Hc Hs Hn _. by exists c.
Qed.

Definition blank : card := fun _ => 255.

Lemma blank_good : plain_good blank.
Proof. intros a. unfold blank. lia. Qed.

Definition env_changes : list change := [one "ip"; Set_var (chars "gw") (chars "10.0.0.1"); Set_var (chars "gone") []].

Definition env_map : gmap (list Z) (list Z) := foldl change_map ∅ env_changes.

Definition env_sample : env_state := mkEnv (default fresh (changes env_changes fresh)) true true 1 [] 1.

Lemma env_sample_represents : represents (env_htab env_sample) env_map.
Proof.
  destruct (changes_ok env_changes fresh ∅ fresh_represents) as (h' & Hc & Hr & _).
  - refine (bool_decide_eq_true_1 _ _). vm_compute. reflexivity.
  - reflexivity.
  - cbn [env_htab env_sample]. rewrite Hc. exact Hr.
Qed.

Lemma env_map_all (P : list Z -> list Z -> Prop) :
  P (chars "ip") (chars "1") -> P (chars "gw") (chars "10.0.0.1") -> P (chars "gone") [] ->
  forall k v, env_map !! k = Some v -> P k v.
Proof.
  intros H1 H2 H3 k v Hk. cbn [env_map env_changes foldl change_map one] in Hk.
  repeat (apply lookup_insert_Some in Hk as [[<- <-]|[_ Hk]]; [done|]). by rewrite lookup_empty in Hk.
Qed.

Lemma env_map_ok : values_ok env_map /\ names_ok 0 env_map /\ escapes_counted env_map 0.
Proof.
  split_and!.
  - refine (env_map_all (fun _ v => text_ok v) _ _ _); repeat constructor.
  - refine (env_map_all (fun k _ => ascii_text k /\ name_ok 0 k) _ _ _);
      (split; [repeat constructor|apply name_ok_by; [repeat constructor|done|done|done]]).
  - right. refine (env_map_all (fun _ v => 92 ∉ v) _ _ _); refine (bool_decide_eq_true_1 _ _); vm_compute; reflexivity.
Qed.

Lemma board_default : default_text default_environment board_entries.
Proof.
  split.
  - exact board_text.
  - assert (Hn : entries_ok board_entries) by (refine (bool_decide_eq_true_1 _ _); vm_compute; reflexivity).
    unfold entries_ok, lines_ok, board_entries in *. rewrite !Forall_cons in Hn.
    destruct Hn as ([[? ?] ?] & [[? ?] ?] & [[? ?] ?] & [[? ?] ?] & _).
    repeat (apply Forall_cons_2; [split; [by apply name_ok_by|done]|]). constructor.
  - discriminate.
  - vm_compute. discriminate.
  - reflexivity.
Qed.

Lemma saveenv_restores_witness : exists ret st' c',
  saveenv (H := no_regex) (fun _ => true) 0x77000000 (replicate (Z.to_nat CONFIG_ENV_SIZE) 170) env_sample blank = Some (ret, st', c') /\
  ret = 0 /\ forall addr2 buf2 st2 c2, plain_good c2 -> env_block plain_content c2 = env_block plain_content c' ->
    Z.of_nat (length buf2) = CONFIG_ENV_SIZE -> env_valid st2 <> 0 -> permissive (env_htab st2) ->
    exists st3 c3, env_relocate Some (fun _ => true) (fun _ => None) (fun _ => 0) default_environment addr2 buf2 st2 c2 = Some (st3, c3) /\
      ready st3 (nonempty env_map).
Proof.
  destruct env_map_ok as (Hv & Hn & He).
  destruct (@saveenv_restores no_regex plain_card plain_good plain_good plain_content plain_good_mmc Some (fun _ => None) (fun _ => 0)
    default_environment 0x77000000 (replicate (Z.to_nat CONFIG_ENV_SIZE) 170) env_sample env_map blank)
    as (ret & st' & c' & Hs & Hg & Hr & _ & Hres).
  - reflexivity.
  - intros k f Hf. discriminate Hf.
  - exact blank_good.
  - exact env_sample_represents.
  - exact Hv.
  - exact Hn.
  - exact He.
  - rewrite length_replicate. reflexivity.
  - vm_compute. reflexivity.
  - assert (E : (ENV_SIZE <? needed 0 (map_to_list env_map)) = false) by (vm_compute; reflexivity).
    rewrite E in Hres. exists ret, st', c'. exact (conj Hs Hres).
Defined.

(** The card with another byte at a place. *)
Definition flipped (c : card) (a : Z) : card := fun x => if x =? a then if plain_content c a =? 0 then 1 else 0 else plain_content c x.

Lemma flipped_good c a : plain_good c -> plain_good (flipped c a).
Proof. intros Hc x. unfold flipped. case_tests; try lia. apply Hc. Qed.

Lemma flipped_damages c : damaged (env_block plain_content c) (env_block plain_content (flipped c (CONFIG_ENV_OFFSET + 104))).
Proof.
  set (B := env_block plain_content c). pose proof (env_block_length (content := plain_content) c) as Hl. fold B in Hl.
  assert (H104 : (104 < length B)%nat) by (unfold CONFIG_ENV_SIZE in Hl; lia).
  set (w' := if plain_content c (CONFIG_ENV_OFFSET + 104) =? 0 then 1 else 0).
  assert (HB : forall j, (j < length B)%nat -> B !! j = Some (plain_content c (CONFIG_ENV_OFFSET + Z.of_nat j))).
  { intros j Hj. unfold B, env_block. rewrite list_lookup_fmap, lookup_seqZ_lt by lia. done. }
  assert (E : env_block plain_content (flipped c (CONFIG_ENV_OFFSET + 104)) = <[104%nat := w']> B).
  { pose proof (env_block_length (content := plain_content) (flipped c (CONFIG_ENV_OFFSET + 104))) as Hl'.
    apply (list_eq_same_length _ _ (length B)); [by rewrite length_insert|lia|].
    intros j x y Hj Hx Hy. unfold env_block in Hx. rewrite list_lookup_fmap, lookup_seqZ_lt in Hx by lia.
    cbn in Hx. injection Hx as <-. unfold flipped, plain_content at 1. destruct (decide (j = 104%nat)) as [->|Hne].
    - rewrite list_lookup_insert_eq in Hy by done. injection Hy as <-. by rewrite Z.eqb_refl.
    - rewrite list_lookup_insert_ne, HB in Hy by done. injection Hy as <-.
      destruct (Z.eqb_spec (CONFIG_ENV_OFFSET + Z.of_nat j) (CONFIG_ENV_OFFSET + 104)); [lia|done]. }
  rewrite E, insert_take_drop by done. clear E.
  rewrite <- (take_drop_middle B 104 _ (HB 104%nat H104)) at 1. rewrite <- (take_drop 4 (take 104 B)), <- !app_assoc.
  apply (damaged_data (take 4 (take 104 B)) (drop 4 (take 104 B)) [plain_content c (CONFIG_ENV_OFFSET + Z.of_nat 104)] [w']).
  - rewrite take_take, length_take. lia.
  - done.
  - cbn [length]. lia.
  - change (Z.of_nat 104) with 104. unfold w'. intros [= Hw]. destruct (Z.eqb_spec (plain_content c (CONFIG_ENV_OFFSET + 104)) 0); lia.
Qed.

Lemma env_damage_detected_witness : exists c st' c', plain_good c /\
  env_relocate Some (fun _ => true) (fun _ => None) (fun _ => 0) default_environment 0x77000000
    (replicate (Z.to_nat CONFIG_ENV_SIZE) 170) early_state c = Some (st', c') /\
  ready st' (foldl set_or_delete ∅ board_entries).
Proof.
  destruct env_map_ok as (Hv & Hn & He).
  assert (Hb : Z.of_nat (length (replicate (Z.to_nat CONFIG_ENV_SIZE) 170)) = CONFIG_ENV_SIZE)
    by (rewrite length_replicate; reflexivity).
  destruct (@saveenv_ok no_regex plain_card plain_good plain_good plain_content plain_good_mmc
    0x77000000 (replicate (Z.to_nat CONFIG_ENV_SIZE) 170) env_sample env_map blank blank_good env_sample_represents Hv Hn He Hb)
    as (ret & st' & c' & _ & Hg & _ & _ & Hres).
  assert (E : (ENV_SIZE <? needed 0 (map_to_list env_map)) = false) by (vm_compute; reflexivity).
  rewrite E in Hres. destruct Hres as [_ Hi].
  exists (flipped c' (CONFIG_ENV_OFFSET + 104)).
  destruct (@env_damage_detected plain_card plain_good plain_good plain_content plain_good_mmc Some (fun _ => None) (fun _ => 0)
    default_environment board_entries 0x77000000 (replicate (Z.to_nat CONFIG_ENV_SIZE) 170) early_state env_map
    (env_block plain_content c') (flipped c' (CONFIG_ENV_OFFSET + 104))) as (st2 & c2 & Hrun & Hready).
  - reflexivity.
  - intros k f Hf. discriminate Hf.
  - exact board_default.
  - apply flipped_good. exact Hg.
  - exact Hi.
  - exact Hv.
  - exact Hn.
  - apply flipped_damages.
  - exact Hb.
  - discriminate.
  - intros e v op fl. reflexivity.
  - exists st2, c2. split; [apply flipped_good; exact Hg|]. split; [exact Hrun|exact Hready].
Defined.

Lemma env_relocate_safe_witness : exists st' c' m,
  env_relocate Some (fun _ => true) (fun _ => None) (fun _ => 0) default_environment 0x77000000
    (replicate (Z.to_nat CONFIG_ENV_SIZE) 170) early_state blank = Some (st', c') /\ ready st' m.
Proof.
  apply (@env_relocate_safe plain_card plain_good plain_good plain_content plain_good_mmc Some (fun _ => None) (fun _ => 0)
    default_environment board_entries 0x77000000 (replicate (Z.to_nat CONFIG_ENV_SIZE) 170) early_state blank).
  - reflexivity.
  - intros k f Hf. discriminate Hf.
  - exact board_default.
  - exact blank_good.
  - rewrite length_replicate. reflexivity.
  - intros e v op fl. reflexivity.
  - vm_compute. reflexivity.
Defined.

Lemma getenv_early_late_witness : exists st' h,
  getenv Some (fun _ => None) (fun _ => 0) default_environment (chars "bootcmd") (env_init default_environment early_state) =
    Some (Some (chars "ext4load mmc 0:1 0x48000000 uIm"), env_init default_environment early_state) /\
  set_default_env Some (fun _ => true) (fun _ => None) (fun _ => 0) default_environment None (env_init default_environment early_state) = Some st' /\
  getenv Some (fun _ => None) (fun _ => 0) default_environment (chars "bootcmd") st' = Some (Some CONFIG_BOOTCOMMAND, set_htab h st').
Proof.
  destruct (getenv_early_late Some (fun _ => None) (fun _ => 0) default_environment board_entries (chars "bootcmd") early_state)
    as (st' & h & He & Hs & Hl & _).
  - reflexivity.
  - intros k f Hf. discriminate Hf.
  - exact board_default.
  - refine (bool_decide_eq_true_1 _ _). vm_compute. reflexivity.
  - refine (bool_decide_eq_true_1 _ _). vm_compute. reflexivity.
  - reflexivity.
  - reflexivity.
  - intros e v op fl. reflexivity.
  - exists st', h. split; [exact He|]. split; [exact Hs|exact Hl].
Defined.
