(* ===== verification/EnvPrint.v ===== *)
(** Numbers and text in and out of the environment (src/U-Boot/common/cmd_nvedit.c).

    The users of [Vsprintf] among the functions on the environment: setting a variable
    to a number, printing one variable or all, and editing one.  The board does not
    set [CONFIG_SYS_VSNPRINTF], so that nothing bounds what is printed.  What is sent
    to the console is part of the result; the reading of a line is a parameter. *)

From S2P Require Import Prelude UStr QSort HashTable EnvText EnvVars EnvStore Vsprintf.

Definition checked : bool := false.

Section EnvPrint.
Context `{Slre}.
Context (strdup : list Z -> option (list Z)) (malloc : Z -> bool).
Context (callback_init : list Z -> option callback_fn) (flags_init : list Z -> Z).
Context (default_env : list Z).

Abbreviation set := (setenv strdup malloc callback_init flags_init).
Abbreviation get := (getenv strdup callback_init flags_init default_env).

(** ** Numbers *)

Definition setenv_ulong (varname : list Z) (value : Z) (st : env_state) : option (Z * env_state) :=
  str ← simple_itoa value; set varname (Some str) st.

(** [str] is an object of 17 bytes on the stack. *)
Definition setenv_hex (str : list Z) (varname : list Z) (value : Z) (st : env_state) : option (Z * env_state) :=
  '(_, str) ← sprintf checked str (chars "%lx" ++ [0]) [Long value];
  set varname (Some (until0 str)) st.

(** ** Printing *)

(** The buffer of [printf] on the stack. *)
Context (printbuffer : list Z).

Definition str (s : list Z) : va := Str (Some (cstr s [])).

(** The length of what is printed, the output and the state. *)
Definition env_print (name : option (list Z)) (flag : Z) (st : env_state) : option (Z * list Z * env_state) :=
  match name with
  | Some name =>
      '(_, ep, h) ← hsearch_r strdup callback_init flags_init name None FIND (env_htab st) flag;
      let st := set_htab h st in
      match ep with
      | None => Some (0, [], st)
      | Some i =>
          s ← slot h i; k ← key (entry s); d ← data (entry s);
          '(len, out) ← printf checked printbuffer (chars "%s=%s\n" ++ [0]) [str k; str d];
          Some (len, out, st)
      end
  | None =>
      '(len, res, h) ← hexport_r malloc (env_htab st) 10 flag None 0 [];
      let st := set_htab h st in
      if 0 <? len then res ← res; Some (len, until0 res, st)
      else
        '(_, out) ← printf checked printbuffer (chars "## Error: cannot export environment\n" ++ [0]) [];
        Some (0, out, st)
  end.

(** The variables named, and how many of them there are not. *)
Fixpoint print_args (args : list (option (list Z))) (env_flag rcode : Z) (st : env_state) : option (Z * list Z * env_state) :=
  match args with
  | [] => Some (rcode, [], st)
  | None :: _ => None
  | Some arg :: args =>
      '(rc, out, st) ← env_print (Some arg) env_flag st;
      '(rcode, out) ← (if rc =? 0 then
          '(_, o) ← printf checked printbuffer (chars "## Error: " ++ 34 :: chars "%s" ++ 34 :: chars " not defined\n" ++ [0]) [str arg];
          Some (rcode + 1, out ++ o)
        else Some (rcode, out));
      '(rcode, outs, st) ← print_args args env_flag rcode st;
      Some (rcode, out ++ outs, st)
  end.

(** The variables whose names start with a dot are only printed for -a. *)
Definition do_env_print (argc : Z) (argv : list (option (list Z))) (st : env_state) : option (Z * list Z * env_state) :=
  a ← (if 1 <? argc then s ← mjoin (argv !! 1%nat); Some ((default 0 (head s) =? 45) && (nth 1 s 0 =? 97)) else Some false);
  let '(argc, argv, env_flag) := if a : bool then (argc - 1, drop 1 argv, 0) else (argc, argv, H_HIDE_DOT) in
  if argc =? 1 then
    '(rcode, out, st) ← env_print None env_flag st;
    if rcode =? 0 then Some (1, out, st) else
    '(_, o) ← printf checked printbuffer (chars "\nEnvironment size: %d/%ld bytes\n" ++ [0]) [Int rcode; Long ENV_SIZE];
    Some (0, out ++ o, st)
  else
    if Z.of_nat (length argv) <? argc then None else
    print_args (take (Z.to_nat argc - 1) (drop 1 argv)) 0 0 st.

(** ** Editing *)

(** [cli_readline_into_buffer]: what is in the buffer at first, then the result and
    the line. *)
Context (readline : list Z -> Z * list Z).

(** [buffer] is an object of [CONFIG_SYS_CBSIZE] bytes on the stack. *)
Definition do_env_edit (buffer : list Z) (argc : Z) (argv : list (option (list Z))) (st : env_state)
    : option (Z * env_state) :=
  if argc <? 2 then Some (CMD_RET_USAGE, st) else
  if negb (env_ready st) then Some (1, st) else
  name ← mjoin (argv !! 1%nat);
  '(init_val, st) ← get name st;
  buffer ← (match init_val with
    | Some v => '(_, b) ← snprintf checked buffer CONFIG_SYS_CBSIZE (chars "%s" ++ [0]) [str v]; Some b
    | None => store_char 0 buffer 0
    end);
  let '(ret, line) := readline (until0 buffer) in
  if ret <? 0 then Some (1, st) else
  match line with
  | [] => _do_env_set strdup malloc callback_init flags_init 2 [Some (chars "setenv"); Some name; None] H_INTERACTIVE st
  | _ => _do_env_set strdup malloc callback_init flags_init 3 [Some (chars "setenv"); Some name; Some line; None] H_INTERACTIVE st
  end.
End EnvPrint.

(** ** What is printed *)

Lemma format_s v : text_ok v -> Z.of_nat (length v) < 2 ^ 31 -> format 3 (chars "%s" ++ [0]) [str v] 0 = Some (v, []).
Proof. intros Hv Hl. unfold str. change (chars "%s" ++ [0]) with [37; 115; 0]. run_format. cbn [app]. by rewrite app_nil_r. Qed.

(** "name=value" and a line feed. *)
Definition line_text (k v : list Z) : list Z := k ++ 61 :: v ++ [10].

Lemma format_line k v : text_ok k -> text_ok v -> Z.of_nat (length k) < 2 ^ 31 -> Z.of_nat (length v) < 2 ^ 31 ->
  format 7 (chars "%s=%s\n" ++ [0]) [str k; str v] 0 = Some (line_text k v, []).
Proof.
  intros Hk Hv Hkl Hvl. unfold str. change (chars "%s=%s\n" ++ [0]) with [37; 115; 61; 37; 115; 10; 0]. run_format. reflexivity.
Qed.

Lemma line_text_length k v : length (line_text k v) = (length k + length v + 2)%nat.
Proof. unfold line_text. rewrite length_app. cbn [length]. rewrite length_app. cbn [length]. lia. Qed.

Lemma line_text_ok k v : text_ok k -> text_ok v -> text_ok (line_text k v).
Proof.
  intros Hk Hv. apply Forall_app. split; [done|]. constructor; [lia|]. apply Forall_app. split; [done|]. repeat constructor; lia.
Qed.

(** ** The claims *)

(** C10: what [setenv_ulong] and [setenv_hex] set a variable to, [getenv_ulong] and
    [getenv_hex] read back, for every number of 64 bits; the buffer of 17 bytes that
    [setenv_hex] prints into is enough. *)
Theorem env_numbers_read_back strdup malloc callback_init flags_init default_env st m k v d buf :
  (forall v, strdup v = Some v) -> (forall n, malloc n = true) ->
  (forall k f, callback_init k = Some f -> forall k' v op fl, f k' v op fl = false) ->
  ready st m -> settable k -> roomy (env_htab st) -> is_u64 v -> length buf = 17%nat ->
  (exists st1 st2, setenv_ulong strdup malloc callback_init flags_init k v st = Some (0, st1) /\
     getenv_ulong strdup callback_init flags_init default_env k 10 d st1 = Some (v, st2)) /\
  (exists st1 st2, setenv_hex strdup malloc callback_init flags_init buf k v st = Some (0, st1) /\
     getenv_hex strdup callback_init flags_init default_env k d st1 = Some (v, st2)).
Proof.
  intros Hdup Hm Hcb Hrd Hk Hroom Hv Hbuf.
  assert (Hset : forall w, text_ok w -> w <> [] -> exists st1 h2, setenv strdup malloc callback_init flags_init k (Some w) st = Some (0, st1) /\
      getenv strdup callback_init flags_init default_env k st1 = Some (Some w, set_htab h2 st1)).
  { intros w Hw Hne.
    destruct (setenv_ready strdup malloc callback_init flags_init Hdup Hm Hcb st m (k, Some w) Hrd (conj Hk Hw) Hroom)
      as (h & Hs & Hr & _). destruct w as [|c w]; [done|]. cbn [fst snd] in Hs. unfold var_change, change_ret in *. cbn [fst snd] in *.
    destruct (getenv_ready strdup callback_init flags_init default_env Hdup (set_htab h (set_id (s32 (env_id st + 1)) st)) _ k
      (conj (proj1 Hrd) Hr) (proj1 (proj1 Hk))) as (h2 & Hg & _). rewrite lookup_insert_eq in Hg. by eexists _, h2. }
  assert (H10 : 2 <= 10 <= 16) by lia. assert (H16 : 2 <= 16 <= 16) by lia.
  split.
  - destruct (Hset (written 10 v) (written_text 10 v H10 Hv) (written_nonempty 10 v H10 Hv)) as (st1 & h2 & Hs & Hg).
    exists st1, (set_htab h2 st1). unfold setenv_ulong, getenv_ulong. rewrite simple_itoa_ok by done. cbn [mbind option_bind].
    split; [exact Hs|]. rewrite Hg. cbn [mbind option_bind]. unfold cstr. by rewrite strtoul_written by (by left || done).
  - destruct (Hset (written 16 v) (written_text 16 v H16 Hv) (written_nonempty 16 v H16 Hv)) as (st1 & h2 & Hs & Hg).
    pose proof (written_room 16 v 16 H16 ltac:(unfold is_u64 in Hv; change (16 ^ Z.of_nat 16) with (2 ^ 64); lia) ltac:(lia)) as Hroom16.
    exists st1, (set_htab h2 st1). unfold setenv_hex, getenv_hex, sprintf, vsprintf, checked.
    rewrite (internal_unchecked buf INT_MAX (chars "%lx" ++ [0]) [Long v] (written 16 v) [] (format_lx v Hv)) by lia.
    destruct (Nat.ltb_spec (length (written 16 v)) (length buf)); [|lia]. cbn [mbind option_bind].
    unfold overlay. rewrite <- app_assoc. cbn [app].
    match goal with |- context [until0 (written 16 v ++ 0 :: ?x)] =>
      change (until0 (written 16 v ++ 0 :: x)) with (until0 (cstr (written 16 v) x)) end.
    rewrite until0_cstr by by apply written_text.
    split; [exact Hs|]. rewrite Hg. cbn [mbind option_bind]. unfold cstr. rewrite strtoul_written by (by right || done).
    cbn [mbind option_bind]. rewrite length_app.
    assert (0 < length (written 16 v))%nat by (pose proof (written_nonempty 16 v H16 Hv); by destruct (written 16 v); [|simpl; lia]).
    cbn [length]. destruct (Nat.eqb_spec 1 (length (written 16 v) + 1)); [lia|done].
Qed.

(** A value in a line longer than the buffer of [printf] overruns it; so does one
    longer than the buffer of the editor, before the user sees it. *)
Lemma env_print_line strdup malloc callback_init flags_init printbuffer `{Slre} st m k v flag :
  (forall v, strdup v = Some v) -> ready st m -> text_ok k -> m !! k = Some v -> text_ok v ->
  Z.of_nat (length (line_text k v)) < 2 ^ 31 ->
  env_print strdup malloc callback_init flags_init printbuffer (Some k) flag st =
    if (length (line_text k v) <? length printbuffer)%nat
    then Some (Z.of_nat (length (line_text k v)), line_text k v, st) else None.
Proof.
  intros Hdup [He Hr] Hk Hm Hv Hl. unfold env_print.
  pose proof (hsearch_finds strdup callback_init flags_init Hdup (env_htab st) m k flag Hr Hk) as Hs. rewrite Hm in Hs.
  destruct Hs as (i & (Hi & s & Hsl & _ & Hkey & Hd) & ->). cbn [mbind option_bind]. rewrite Hsl. cbn [mbind option_bind].
  rewrite Hkey, Hd. cbn [mbind option_bind]. unfold checked.
  pose proof (line_text_length k v) as Hlen.
  rewrite (printf_unchecked printbuffer _ _ (line_text k v)); [|apply format_line; (done || lia)|by apply line_text_ok|done].
  destruct (length (line_text k v) <? length printbuffer)%nat; [|done]. cbn [mbind option_bind]. by destruct st.
Qed.

(** A variable is printed as its name, an equals sign, its value and a line feed,
    if that is shorter than the buffer of [printf], and otherwise the stack is
    overwritten, as in the editor by a value of 1024 characters or more. *)
Theorem env_print_prints strdup malloc callback_init flags_init default_env printbuffer readline buffer `{Slre} st m k v :
  (forall v, strdup v = Some v) -> ready st m -> text_ok k -> m !! k = Some v -> text_ok v ->
  Z.of_nat (length (line_text k v)) < 2 ^ 31 -> Z.of_nat (length buffer) = CONFIG_SYS_CBSIZE ->
  env_print strdup malloc callback_init flags_init printbuffer (Some k) 0 st =
    (if (length (line_text k v) <? length printbuffer)%nat
     then Some (Z.of_nat (length (line_text k v)), line_text k v, st) else None) /\
  (CONFIG_SYS_CBSIZE <= Z.of_nat (length v) ->
   do_env_edit strdup malloc callback_init flags_init default_env readline buffer 2 [Some (chars "edit"); Some k; None] st = None).
Proof.
  intros Hdup Hrd Hk Hm Hv Hl Hb. split; [by apply (env_print_line strdup malloc callback_init flags_init printbuffer st m)|].
  intros Hlong. unfold do_env_edit. change (2 <? 2) with false. cbn [Datatypes.negb]. rewrite (proj1 Hrd). cbn [negb lookup list_lookup mjoin option_join mbind option_bind].
  destruct (getenv_ready strdup callback_init flags_init default_env Hdup st m k Hrd Hk) as (h & -> & _). cbn [mbind option_bind]. rewrite Hm.
  unfold snprintf, vsnprintf, vsprintf, checked, str.
  pose proof (line_text_length k v) as Hlen.
  rewrite (internal_unchecked buffer INT_MAX (chars "%s" ++ [0]) [Str (Some (cstr v []))] v [] (format_s v Hv ltac:(lia))) by lia.
  destruct (Nat.ltb_spec (length v) (length buffer)); [lia|done].
Qed.

(** ** Witnesses *)

Lemma env_numbers_read_back_witness :
  (exists st1 st2, setenv_ulong Some (fun _ => true) (fun _ => None) (fun _ => 0) (chars "filesize") 1234567 fresh_state = Some (0, st1) /\
     getenv_ulong Some (fun _ => None) (fun _ => 0) default_environment (chars "filesize") 10 0 st1 = Some (1234567, st2)) /\
  (exists st1 st2, setenv_hex Some (fun _ => true) (fun _ => None) (fun _ => 0) (replicate 17 0) (chars "filesize") 1234567 fresh_state = Some (0, st1) /\
     getenv_hex Some (fun _ => None) (fun _ => 0) default_environment (chars "filesize") 0 st1 = Some (1234567, st2)).
Proof.
  apply (env_numbers_read_back Some (fun _ => true) (fun _ => None) (fun _ => 0) default_environment fresh_state ∅
    (chars "filesize") 1234567 0 (replicate 17 0)).
  - reflexivity.
  - reflexivity.
  - intros k f Hf. discriminate Hf.
  - split; [reflexivity|exact fresh_represents].
  - refine (bool_decide_eq_true_1 _ _). vm_compute. reflexivity.
  - exact (touched_roomy fresh (proj1 fresh_represents) ltac:(vm_compute; reflexivity)).
  - split; [discriminate|reflexivity].
  - reflexivity.
Defined.

(** A variable that is printed, and one that is too long. *)
Definition print_changes : list change := [one "ip"; Set_var (chars "boot") (replicate (Z.to_nat 1200) 97)].

Definition print_state : env_state := mkEnv (default fresh (changes print_changes fresh)) true true 1 [] 1.

Lemma print_state_ready : ready print_state (foldl change_map ∅ print_changes).
Proof.
  split; [reflexivity|]. destruct (changes_ok print_changes fresh ∅ fresh_represents) as (h' & Hc & Hr & _).
  - refine (bool_decide_eq_true_1 _ _). vm_compute. reflexivity.
  - reflexivity.
  - cbn [env_htab print_state]. rewrite Hc. exact Hr.
Qed.

Lemma env_print_prints_witness :
  env_print (H := no_regex) Some (fun _ => true) (fun _ => None) (fun _ => 0) (replicate (Z.to_nat CONFIG_SYS_PBSIZE) 0)
    (Some (chars "ip")) 0 print_state = Some (5, chars "ip=1" ++ [10], print_state) /\
  do_env_edit Some (fun _ => true) (fun _ => None) (fun _ => 0) default_environment (fun s => (0, s))
    (replicate (Z.to_nat CONFIG_SYS_CBSIZE) 0) 2 [Some (chars "edit"); Some (chars "boot"); None] print_state = None.
Proof.
  set (pb := replicate (Z.to_nat CONFIG_SYS_PBSIZE) 0). set (eb := replicate (Z.to_nat CONFIG_SYS_CBSIZE) 0).
  pose (P := env_print_prints (H := no_regex) Some (fun _ => true) (fun _ => None) (fun _ => 0) default_environment pb (fun s => (0, s)) eb
    print_state (foldl change_map ∅ print_changes)).
  split.
  - destruct (P (chars "ip") (chars "1")) as [-> _].
    + reflexivity.
    + exact print_state_ready.
    + repeat constructor.
    + reflexivity.
    + repeat constructor.
    + reflexivity.
    + unfold eb. rewrite length_replicate. reflexivity.
    + unfold pb. rewrite length_replicate. reflexivity.
  - destruct (P (chars "boot") (replicate (Z.to_nat 1200) 97)) as [_ He].
    + reflexivity.
    + exact print_state_ready.
    + repeat constructor.
    + reflexivity.
    + apply Forall_replicate. lia.
    + rewrite line_text_length, length_replicate. reflexivity.
    + unfold eb. rewrite length_replicate. reflexivity.
    + apply He. rewrite length_replicate. discriminate.
Defined.
