(* ===== verification/MmcPart.v ===== *)
(** Partition tables (src/U-Boot/common/cmd_mmc_fdisk.c and src/U-Boot/disk/part_dos.c).

    [do_fdisk] makes a table of up to eight partitions: up to four primary ones, or
    three and a chain of extended tables; [get_part_table] reads the partitions back
    in order, and [get_partition_info_dos] looks one up by its number.  A table is the
    block of 512 bytes it lies in.  The device is the interface [BlockDev], whose laws
    for a disk that keeps what is written are [GoodDev].  An access outside an array,
    a division by zero or an [int] that overflows is [None], as is a recursion deeper
    than the fuel given.  Messages leave no trace. *)

From S2P Require Import Prelude UStr.

(** ** The device *)

(** The fields of a block device that are used; [block_read] gives its return value
    and the bytes stored at the buffer. *)
Class BlockDev := {
  bdev : Type;
  lba : bdev -> Z;
  blksz : bdev -> Z;
  block_read : Z -> Z -> bdev -> Z * list Z * bdev;
  block_write : Z -> Z -> list Z -> bdev -> Z * bdev;
}.

Definition MMC_BLOCK_SIZE : Z := 512.
Definition MAX_PART_TABLE : Z := 8.
Definition DOS_EBR_BLOCK : Z := 0x100000 / MMC_BLOCK_SIZE.
Definition DOS_PART_DISKSIG_OFFSET : nat := 0x1b8.
Definition DOS_PART_TBL_OFFSET : nat := 0x1be.
Definition DOS_PART_MAGIC_OFFSET : nat := 0x1fe.
Definition DOS_PBR_FSTYPE_OFFSET : nat := 0x36.
Definition DOS_PBR32_FSTYPE_OFFSET : nat := 0x52.
Definition DOS_MBR : Z := 0.
Definition DOS_PBR : Z := 1.
Definition DOS_PART_DEFAULT_SECTOR : Z := 512.

(** include/part.h *)
Definition PART_TYPE_DOS : Z := 2.

(** ** Entries *)

(** An entry of a table: its 16 bytes in order, the two numbers as they are stored. *)
Record dos_partition := mkPart {
  boot_ind : Z; p_head : Z; sector : Z; cyl : Z;
  sys_ind : Z; end_head : Z; end_sector : Z; end_cyl : Z;
  start4 : list Z; size4 : list Z;
}.

Definition int_to_le32 (blocks : Z) : list Z := le32 (u32 blocks).

(** The bytes are shifted into an [int]. *)
Definition le32_to_int (le32 : list Z) : Z := s32 (le_word le32).

Definition is_extended (part_type : Z) : bool :=
  (part_type =? 0x5) || (part_type =? 0xf) || (part_type =? 0x85).

Definition is_bootable (p : dos_partition) : bool := boot_ind p =? 0x80.

(** [boot_ind] and [sys_ind] have been set before. *)
Definition part_mmc_chs (boot sys lba_start lba_size : Z) : dos_partition :=
  let head := 1 in let sector := 1 in let cys := 0 in
  let end_head := 254 in let end_sector := 63 in let end_cys := 1023 in
  mkPart boot (u8 head) (u8 (sector + Z.shiftr (Z.land cys 0x300) 2)) (u8 (Z.land cys 0xff))
    sys (u8 end_head) (u8 (end_sector + Z.shiftr (Z.land end_cys 0x300) 2)) (u8 (Z.land end_cys 0xff))
    (int_to_le32 lba_start) (int_to_le32 lba_size).

Definition entry_bytes (p : dos_partition) : list Z :=
  [boot_ind p; p_head p; sector p; cyl p; sys_ind p; end_head p; end_sector p; end_cyl p] ++ start4 p ++ size4 p.

(** [pt] as a pointer into a buffer: entry [i] of the table there. *)
Definition slot_at (i : nat) : nat := DOS_PART_TBL_OFFSET + 16 * i.

Definition put_entry (i : nat) (p : dos_partition) (buffer : list Z) : list Z :=
  take (slot_at i) buffer ++ entry_bytes p ++ drop (slot_at (S i)) buffer.

Definition get_entry (i : nat) (buffer : list Z) : dos_partition :=
  let b j := nth (slot_at i + j) buffer 0 in
  mkPart (b 0%nat) (b 1%nat) (b 2%nat) (b 3%nat) (b 4%nat) (b 5%nat) (b 6%nat) (b 7%nat)
    (slice (slot_at i + 8) 4 buffer) (slice (slot_at i + 12) 4 buffer).

(** A cleared buffer with the magic number. *)
Definition empty_table : list Z :=
  <[S DOS_PART_MAGIC_OFFSET := 0xAA]> (<[DOS_PART_MAGIC_OFFSET := 0x55]> (replicate (Z.to_nat MMC_BLOCK_SIZE) 0)).

Definition has_magic (buffer : list Z) : bool :=
  (nth DOS_PART_MAGIC_OFFSET buffer 0 =? 0x55) && (nth (S DOS_PART_MAGIC_OFFSET) buffer 0 =? 0xaa).

(** [lldiv]: the divisor is cut to 32 bits. *)
Definition lldiv (dividend divisor : Z) : option Z :=
  if u32 divisor =? 0 then None else Some (u64 dividend / u32 divisor).

(** The sum of two [int]s. *)
Definition int_add (x y : Z) : option Z := if bool_decide (is_s32 (x + y)) then Some (x + y) else None.

Section MmcPart.
Context `{BlockDev}.

(** ** Making a table *)

(** A part of a function that may return: the value it returns, or what goes on. *)
Abbreviation step A := (Z + A)%type.

(** One round of the loop over the primary partitions: the entry and the new
    [last_lba], from [parts[i]]. *)
Definition primary_entry (d : bdev) (p : Z * Z) (last_lba : Z) : option (step (dos_partition * Z)) :=
  lba_s ← lldiv p.1 (blksz d);
  lba_l ← (if negb (p.2 =? 0) then lldiv p.2 (blksz d) else Some (u64 (lba d - last_lba)));
  if lba_s =? 0 then Some (inl (-1))
  else if lba_s <? last_lba then Some (inl (-1))
  else if u64 (lba d - last_lba) <? lba_l then Some (inl (-1))
  else Some (inr (part_mmc_chs 0x00 0x83 lba_s lba_l, u64 (lba_s + lba_l))).

(** [n] rounds from index [i] on. *)
Fixpoint primary_loop (n i : nat) (d : bdev) (parts : list (Z * Z)) (buffer : list Z) (last_lba : Z)
    : option (step (list Z * Z)) :=
  match n with
  | O => Some (inr (buffer, last_lba))
  | S n =>
      p ← parts !! i;
      r ← primary_entry d p last_lba;
      match r with
      | inl ret => Some (inl ret)
      | inr (e, last_lba) => primary_loop n (S i) d parts (put_entry i e buffer) last_lba
      end
  end.

(** One round of the loop of an extended table: the entry, [lba_s] and [last_lba]. *)
Definition extended_entry (d : bdev) (i : nat) (p : Z * Z) (lba_start relative last_lba : Z)
    : option (step (dos_partition * Z * Z)) :=
  lba_s ← lldiv p.1 (blksz d);
  lba_l ← lldiv p.2 (blksz d);
  if lba_s =? 0 then Some (inl (-1))
  else if lba_s <? last_lba then Some (inl (-1))
  else
    let lba_l := if lba_l =? 0 then u64 (lba d - last_lba - DOS_EBR_BLOCK) else lba_l in
    if u64 (lba d - last_lba) <? lba_l then Some (inl (-1))
    else
      let '(sys, lba_s, lba_l) :=
        if (i =? 1)%nat then (0x05, u64 (lba_s - u64 (relative + DOS_EBR_BLOCK)), u64 (lba_l + DOS_EBR_BLOCK))
        else (0x83, u64 (lba_s - lba_start), lba_l) in
      Some (inr (part_mmc_chs 0x00 sys lba_s lba_l, lba_s, u64 (lba_s + lba_l))).

(** [n] rounds from index [i] on; [lba_s] is that of the last round. *)
Fixpoint extended_loop (n i : nat) (d : bdev) (parts : list (Z * Z)) (lba_start relative : Z)
    (buffer : list Z) (lba_s last_lba : Z) : option (step (list Z * Z)) :=
  match n with
  | O => Some (inr (buffer, lba_s))
  | S n =>
      p ← parts !! i;
      r ← extended_entry d i p lba_start relative last_lba;
      match r with
      | inl ret => Some (inl ret)
      | inr (e, lba_s, last_lba) => extended_loop n (S i) d parts lba_start relative (put_entry i e buffer) lba_s last_lba
      end
  end.

(** [part_num] is not negative. *)
Fixpoint mmc_make_part_table_extended (part_num : nat) (d : bdev) (lba_start relative : Z) (parts : list (Z * Z))
    : option (Z * bdev) :=
  r ← extended_loop (Nat.min 2 part_num) 0 d parts lba_start relative empty_table 0 lba_start;
  match r with
  | inl ret => Some (ret, d)
  | inr (buffer, lba_s) =>
      let '(ret, d) := block_write lba_start 1 buffer d in
      let ret := s32 ret in
      if ret <? 0 then Some (ret, d) else
      match part_num with
      | O => Some (ret, d)
      | S n => mmc_make_part_table_extended n d (u64 (lba_s + relative)) relative (drop 1 parts)
      end
  end.

(** The entry of the extended partition: its start and the entry. *)
Definition ebr_entry (d : bdev) (parts : list (Z * Z)) (last_lba : Z) : option (step (Z * dos_partition)) :=
  p ← parts !! 3%nat;
  q ← lldiv p.1 (blksz d);
  let lba_s := u64 (q - DOS_EBR_BLOCK) in
  let lba_l := u64 (lba d - last_lba) in
  if lba_s <? last_lba then Some (inl (-1))
  else Some (inr (lba_s, part_mmc_chs 0x00 0x05 lba_s lba_l)).

Definition mmc_make_part_table (parts : list (Z * Z)) (part_num part_type : Z) (d : bdev) : option (Z * bdev) :=
  if negb (part_type =? PART_TYPE_DOS) then Some (-1, d)
  else if (part_num <? 1) || (MAX_PART_TABLE <? part_num) then Some (-1, d)
  else
    let '(part_tables, part_EBR) := if 4 <? part_num then (3, true) else (part_num, false) in
    p ← parts !! 0%nat;
    first ← lldiv p.1 (blksz d);
    r ← primary_loop (Z.to_nat part_tables) 0 d parts empty_table (u64 (s32 first));
    match r with
    | inl ret => Some (ret, d)
    | inr (buffer, last_lba) =>
        e ← (if part_EBR : bool then
            e ← ebr_entry d parts last_lba;
            Some (match e with
                  | inl ret => inl ret
                  | inr (lba_s, e) => inr (lba_s, put_entry (Z.to_nat part_tables) e buffer)
                  end)
          else Some (inr (0, buffer)));
        match e with
        | inl ret => Some (ret, d)
        | inr (lba_s, buffer) =>
            let '(ret, d) := block_write 0 1 buffer d in
            let ret := s32 ret in
            if ret <? 0 then Some (ret, d)
            else if part_EBR then
              mmc_make_part_table_extended (Z.to_nat (part_num - part_tables)) d lba_s lba_s (drop (Z.to_nat part_tables) parts)
            else Some (ret, d)
        end
    end.

(** ** The command *)

(** The arguments start:length, [argv + 3] on; [Some None] is the return of -1. *)
Fixpoint parse_parts (n : nat) (args : list (option (list Z))) : option (option (list (Z * Z))) :=
  match n with
  | O => Some (Some [])
  | S n =>
      p ← mjoin (head args);
      '(start, _) ← simple_strtoull (cstr p []) 16;
      colon ← strchr (cstr p []) 58;
      match colon with
      | None => Some None
      | Some c =>
          '(len, _) ← simple_strtoull (drop 1 c) 16;
          r ← parse_parts n (tail args);
          Some (match r with None => None | Some r => Some ((start, len) :: r) end)
      end
  end.

Definition CMD_USAGE : Z := -1.

(** [get_device] for "mmc" and the number finds the device, or none; the list of two
    arguments only prints. *)
Definition do_fdisk (get_device : list Z -> bool) (argc : Z) (argv : list (option (list Z))) (d : bdev) : option (Z * bdev) :=
  if argc <? 2 then Some (CMD_USAGE, d) else
  dev ← mjoin (argv !! 1%nat);
  if negb (get_device dev) then Some (1, d)
  else if argc =? 2 then Some (0, d)
  else
    a ← mjoin (argv !! 2%nat);
    '(n, _) ← simple_strtoul (cstr a []) 10;
    let count := s32 n in
    if (count <? 1) || (MAX_PART_TABLE <? count) then Some (-1, d)
    else
      r ← parse_parts (Z.to_nat count) (drop 3 argv);
      match r with
      | None => Some (-1, d)
      | Some parts => '(_, d) ← mmc_make_part_table parts count PART_TYPE_DOS d; Some (0, d)
      end.

(** ** Reading tables *)

(** The test of the entry is made three times over: the pointer does not move. *)
Fixpoint test_slots (n : nat) (slot : Z) (buffer : list Z) : option Z :=
  match n with
  | O => Some DOS_MBR
  | S n =>
      let p := get_entry 0 buffer in
      if negb (boot_ind p =? 0) && negb (boot_ind p =? 0x80) then
        if slot =? 0 then
          f ← strncmp (drop DOS_PBR_FSTYPE_OFFSET buffer) (chars "FAT" ++ [0]) 3;
          f32 ← strncmp (drop DOS_PBR32_FSTYPE_OFFSET buffer) (chars "FAT32" ++ [0]) 5;
          Some (if (f =? 0) || (f32 =? 0) then DOS_PBR else -1)
        else Some (-1)
      else test_slots n (slot + 1) buffer
  end.

Definition test_block_type (buffer : list Z) : option Z :=
  if negb (has_magic buffer) then Some (-1) else test_slots 3 0 buffer.

(** The buffer has the size of a block. *)
Definition test_part_dos (d : bdev) : option (Z * bdev) :=
  let '(n, buffer, d) := block_read 0 1 d in
  if negb (n =? 1) then Some (-1, d)
  else t ← test_block_type buffer; Some (if negb (t =? DOS_MBR) then -1 else 0, d).

(** A partition found: its start, size and block size, and whether it can be booted;
    the name and the serial number of the partition are texts for messages. *)
Record disk_partition := mkInfo { i_start : Z; i_size : Z; i_blksz : Z; i_bootable : bool }.

(** The loop over the entries: the entry found, or the part number at the end. *)
Fixpoint info_slots (n i : nat) (buffer : list Z) (ext_part_sector part_num which_part : Z)
    : option (disk_partition + Z) :=
  match n with
  | O => Some (inr part_num)
  | S n =>
      let pt := get_entry i buffer in
      if (Z.land (boot_ind pt) (Z.lnot 0x80) =? 0) && negb (sys_ind pt =? 0) && (part_num =? which_part) &&
         negb (is_extended (sys_ind pt))
      then
        start ← int_add ext_part_sector (le32_to_int (start4 pt));
        Some (inl (mkInfo (u64 start) (u64 (le32_to_int (size4 pt))) DOS_PART_DEFAULT_SECTOR (is_bootable pt)))
      else
        let part_num :=
          if (ext_part_sector =? 0) || (negb (sys_ind pt =? 0) && negb (is_extended (sys_ind pt))) then part_num + 1 else part_num in
        info_slots n (S i) buffer ext_part_sector part_num which_part
  end.

(** The first extended entry. *)
Definition extended_slot (buffer : list Z) : option dos_partition :=
  head (filter (fun pt => is_extended (sys_ind pt)) ((fun i => get_entry i buffer) <$> seq 0 4)).

Fixpoint get_partition_info_extended (fuel : nat) (ext_part_sector relative part_num which_part : Z) (d : bdev)
    : option (Z * option disk_partition * bdev) :=
  match fuel with
  | O => None
  | S n =>
      let '(got, buffer, d) := block_read (u64 ext_part_sector) 1 d in
      if negb (got =? 1) then Some (-1, None, d)
      else if negb (has_magic buffer) then Some (-1, None, d)
      else
        r ← info_slots 4 0 buffer ext_part_sector part_num which_part;
        match r with
        | inl info => Some (0, Some info, d)
        | inr part_num =>
            match extended_slot buffer with
            | Some pt =>
                lba_start ← int_add (le32_to_int (start4 pt)) relative;
                get_partition_info_extended n lba_start (if ext_part_sector =? 0 then lba_start else relative)
                  part_num which_part d
            | None =>
                t ← test_block_type buffer;
                if t =? DOS_PBR then Some (0, Some (mkInfo 0 (lba d) DOS_PART_DEFAULT_SECTOR false), d)
                else Some (-1, None, d)
            end
        end
  end.

Definition get_partition_info_dos (fuel : nat) (part : Z) (d : bdev) : option (Z * option disk_partition * bdev) :=
  get_partition_info_extended fuel 0 0 1 part d.

(** [parts[*part_num]] of an array of [room] entries is set. *)
Definition add_part (room : nat) (parts : list (Z * Z)) (start len : Z) : option (list (Z * Z)) :=
  if (length parts <? room)%nat then Some (parts ++ [(start, len)]) else None.

Fixpoint table_slots (n i : nat) (room : nat) (d : bdev) (buffer : list Z) (lba_start : Z) (parts : list (Z * Z))
    : option (list (Z * Z)) :=
  match n with
  | O => Some parts
  | S n =>
      let pt := get_entry i buffer in
      let lba_s := u64 (le32_to_int (start4 pt)) in
      let lba_l := u64 (le32_to_int (size4 pt)) in
      parts ← (if is_extended (sys_ind pt) then Some parts
        else if negb (lba_s =? 0) && negb (lba_l =? 0) then
          add_part room parts (u64 (u64 (lba_start + lba_s) * blksz d)) (u64 (lba_l * blksz d))
        else Some parts);
      table_slots n (S i) room d buffer lba_start parts
  end.

(** The loop over the extended entries, each of which is followed by [follow]. *)
Fixpoint follow_slots (n i : nat) (buffer : list Z) (follow : Z -> list (Z * Z) -> bdev -> option (list (Z * Z) * bdev))
    (relative : Z) (parts : list (Z * Z)) (d : bdev) : option (list (Z * Z) * bdev) :=
  match n with
  | O => Some (parts, d)
  | S n =>
      let pt := get_entry i buffer in
      '(parts, d) ← (if is_extended (sys_ind pt) then follow (u64 (le32_to_int (start4 pt) + relative)) parts d
        else Some (parts, d));
      follow_slots n (S i) buffer follow relative parts d
  end.

(** The bytes read lie at the front of a buffer of 512 zeros; the number of blocks
    read, which is not negative, is not looked at. *)
Fixpoint get_part_table_extended (fuel : nat) (room : nat) (lba_start relative : Z) (parts : list (Z * Z)) (d : bdev)
    : option (list (Z * Z) * bdev) :=
  match fuel with
  | O => None
  | S n =>
      let '(_, bytes, d) := block_read lba_start 1 d in
      if (512 <? length bytes)%nat then None else
      let buffer := bytes ++ drop (length bytes) (replicate 512 0) in
      if negb (has_magic buffer) then Some (parts, d)
      else
        parts ← table_slots 4 0 room d buffer lba_start parts;
        follow_slots 4 0 buffer
          (fun lba_s => get_part_table_extended n room lba_s (if lba_start =? 0 then lba_s else relative))
          relative parts d
  end.

(** The partitions found; [*part_num] is their number, and the result is 0. *)
Definition get_part_table (fuel : nat) (room : nat) (d : bdev) : option (list (Z * Z) * bdev) :=
  get_part_table_extended fuel room 0 0 [] d.
End MmcPart.

(** ** A disk that keeps what is written to it *)

(** Blocks have 512 bytes, and there are fewer than 2^31 of them. *)
Class GoodDev `{BlockDev} (good : bdev -> Prop) (content : bdev -> Z -> list Z) := {
  dev_blksz d : good d -> blksz d = MMC_BLOCK_SIZE;
  dev_lba d : good d -> 0 < lba d < 2 ^ 31;
  dev_sector d a : good d -> length (content d a) = 512%nat;
  dev_read d a : good d -> 0 <= a < lba d ->
    exists d', block_read a 1 d = (1, content d a, d') /\ good d' /\ lba d' = lba d /\
      forall x, content d' x = content d x;
  dev_write d a data : good d -> 0 <= a < lba d -> length data = 512%nat ->
    exists d', block_write a 1 data d = (1, d') /\ good d' /\ lba d' = lba d /\
      forall x, content d' x = if x =? a then data else content d x;
}.

(** ** Tables *)

(** An entry as it is in an empty table. *)
Definition no_part : dos_partition := mkPart 0 0 0 0 0 0 0 0 [0; 0; 0; 0] [0; 0; 0; 0].

Definition sized (e : dos_partition) : Prop := length (start4 e) = 4%nat /\ length (size4 e) = 4%nat.

(** A table with the entries given. *)
Definition table (es : list dos_partition) : list Z :=
  replicate DOS_PART_TBL_OFFSET 0 ++ concat (entry_bytes <$> (es ++ replicate (4 - length es) no_part)) ++ [0x55; 0xaa].

Lemma empty_table_ok : empty_table = table [].
Proof. vm_compute. reflexivity. Qed.

Lemma sized_chs b y s l : sized (part_mmc_chs b y s l).
Proof. done. Qed.

Lemma entries_length es : Forall sized es -> length (concat (entry_bytes <$> es)) = (16 * length es)%nat.
Proof.
  induction 1 as [|e es [H1 H2] Hes IH]; [done|]. rewrite fmap_cons. cbn [concat]. rewrite length_app, IH.
  unfold entry_bytes. cbn [app length]. rewrite length_app, H1, H2. lia.
Qed.

Lemma padded_sized es : Forall sized es -> Forall sized (es ++ replicate (4 - length es) no_part).
Proof. intros Hes. apply Forall_app. split; [done|]. by apply Forall_replicate. Qed.

Lemma table_length es : Forall sized es -> (length es <= 4)%nat -> length (table es) = 512%nat.
Proof.
  intros Hes Hl. unfold table. rewrite !length_app, entries_length by by apply padded_sized.
  rewrite length_app, !length_replicate. unfold DOS_PART_TBL_OFFSET. simpl length. lia.
Qed.

(** A table around one of its entries. *)
Lemma table_split es i : Forall sized es -> (length es <= 4)%nat -> (i < 4)%nat ->
  exists A B, table es = A ++ entry_bytes (nth i es no_part) ++ B /\ length A = slot_at i /\
    sized (nth i es no_part) /\ length B = (512 - slot_at (S i))%nat.
Proof.
  intros Hes Hl Hi. pose proof (padded_sized es Hes) as Hp. pose proof (table_length es Hes Hl) as Ht. unfold table in *.
  set (l := es ++ replicate (4 - length es) no_part) in *.
  assert (Hll : length l = 4%nat) by (unfold l; rewrite length_app, length_replicate; lia).
  assert (Hx : l !! i = Some (nth i es no_part)).
  { unfold l. destruct (decide (i < length es)%nat) as [Hlt|Hge].
    - rewrite lookup_app_l by done. destruct (lookup_lt_is_Some_2 es i Hlt) as [x Hx]. rewrite Hx. f_equal. symmetry. by apply nth_lookup_Some.
    - rewrite lookup_app_r by lia. rewrite lookup_replicate_2 by lia. f_equal. symmetry. apply nth_overflow. lia. }
  assert (Hs : sized (nth i es no_part)) by by eapply (Forall_lookup_1 _ _ _ _ Hp).
  assert (E : concat (entry_bytes <$> l) = concat (entry_bytes <$> take i l) ++ entry_bytes (nth i es no_part) ++ concat (entry_bytes <$> drop (S i) l)).
  { rewrite <- (take_drop_middle l i _ Hx) at 1. by rewrite fmap_app, concat_app. }
  assert (HA : length (concat (entry_bytes <$> take i l)) = (16 * i)%nat).
  { rewrite entries_length by by apply Forall_take. rewrite length_take. lia. }
  rewrite E in *. eexists (replicate DOS_PART_TBL_OFFSET 0 ++ concat (entry_bytes <$> take i l)), (concat (entry_bytes <$> drop (S i) l) ++ [0x55; 0xaa]).
  rewrite <- !app_assoc. split; [done|]. split; [|split; [done|]].
  - rewrite length_app, length_replicate, HA. done.
  - rewrite length_app, entries_length by by apply Forall_drop. rewrite length_drop, Hll. unfold slot_at, DOS_PART_TBL_OFFSET. simpl length. lia.
Qed.

Lemma entry_length e : sized e -> length (entry_bytes e) = 16%nat.
Proof. intros [H1 H2]. unfold entry_bytes. cbn [app length]. rewrite length_app, H1, H2. done. Qed.

Lemma get_entry_mid A e B i : length A = slot_at i -> sized e -> get_entry i (A ++ entry_bytes e ++ B) = e.
Proof.
  intros HA [H1 H2]. unfold get_entry. rewrite <- HA. unfold slice.
  assert (Hn : forall j, nth (length A + j) (A ++ entry_bytes e ++ B) 0 = nth j (entry_bytes e ++ B) 0).
  { intros j. rewrite app_nth2 by lia. f_equal. lia. }
  rewrite !Hn. rewrite !drop_app_add. destruct e as [b0 b1 b2 b3 b4 b5 b6 b7 s4 z4]. cbn [start4 size4] in *.
  destruct s4 as [|? [|? [|? [|? [|]]]]]; simplify_eq/=. destruct z4 as [|? [|? [|? [|? [|]]]]]; simplify_eq/=. reflexivity.
Qed.

Lemma get_entry_ok es i : Forall sized es -> (length es <= 4)%nat -> (i < 4)%nat -> get_entry i (table es) = nth i es no_part.
Proof.
  intros Hes Hl Hi. destruct (table_split es i Hes Hl Hi) as (A & B & -> & HA & Hs & _). by apply get_entry_mid.
Qed.

Lemma put_entry_ok es e : Forall sized es -> sized e -> (length es < 4)%nat -> put_entry (length es) e (table es) = table (es ++ [e]).
Proof.
  intros Hes He Hl. unfold put_entry.
  assert (E : exists B, table es = (replicate DOS_PART_TBL_OFFSET 0 ++ concat (entry_bytes <$> es)) ++ entry_bytes no_part ++ B /\
      table (es ++ [e]) = (replicate DOS_PART_TBL_OFFSET 0 ++ concat (entry_bytes <$> es)) ++ entry_bytes e ++ B).
  { exists (concat (entry_bytes <$> replicate (4 - S (length es)) no_part) ++ [0x55; 0xaa]). unfold table. rewrite length_app. cbn [length].
    replace (length es + 1)%nat with (S (length es)) by lia. replace (4 - length es)%nat with (S (4 - S (length es))) by lia.
    rewrite <- !app_assoc, !fmap_app, !concat_app, <- !app_assoc. split; [reflexivity|].
    change (concat (entry_bytes <$> [e])) with (entry_bytes e ++ []). by rewrite app_nil_r. }
  destruct E as (B & -> & ->). set (A := replicate DOS_PART_TBL_OFFSET 0 ++ concat (entry_bytes <$> es)).
  assert (HA : slot_at (length es) = length A).
  { unfold A. rewrite length_app, length_replicate, entries_length by done. done. }
  rewrite HA, take_app_length. f_equal. f_equal.
  replace (slot_at (S (length es))) with (length A + 16)%nat by (rewrite <- HA; unfold slot_at; lia).
  rewrite drop_app_add. reflexivity.
Qed.

Lemma magic_ok es : Forall sized es -> (length es <= 4)%nat -> has_magic (table es) = true.
Proof.
  intros Hes Hl. unfold has_magic, table. rewrite app_assoc.
  assert (E : length (replicate DOS_PART_TBL_OFFSET 0 ++ concat (entry_bytes <$> es ++ replicate (4 - length es) no_part)) = DOS_PART_MAGIC_OFFSET).
  { rewrite length_app, entries_length by by apply padded_sized. rewrite length_app, !length_replicate.
    unfold DOS_PART_TBL_OFFSET, DOS_PART_MAGIC_OFFSET. lia. }
  rewrite <- E. rewrite !app_nth2 by lia. rewrite Nat.sub_diag. by replace (S _ - _)%nat with 1%nat by lia.
Qed.

Lemma le32_back x : 0 <= x < 2 ^ 31 -> le32_to_int (int_to_le32 x) = x.
Proof.
  intros Hx. unfold le32_to_int, int_to_le32. rewrite le_word_le32, u32_idem, u32_small by (unfold is_u32; lia).
  apply s32_small. unfold is_s32. lia.
Qed.

Lemma lldiv_sectors s : 0 <= s < 2 ^ 32 -> lldiv (512 * s) MMC_BLOCK_SIZE = Some s.
Proof.
  intros Hs. unfold lldiv, MMC_BLOCK_SIZE. change (u32 512) with 512. cbn. rewrite u64_small by (unfold is_u64; lia).
  f_equal. rewrite Z.mul_comm. by apply Z.div_mul.
Qed.

(** ** Layouts *)

(** Partitions in sectors: their starts and sizes. *)
Definition bytes_of (p : Z * Z) : Z * Z := (512 * p.1, 512 * p.2).

(** The partitions start at [gap] sectors or more behind [last], in order, are not
    empty, and end within [n] sectors. *)
Fixpoint fits (gap n last : Z) (ps : list (Z * Z)) : Prop :=
  match ps with
  | [] => True
  | p :: ps => last + gap <= p.1 /\ 0 < p.1 /\ 0 < p.2 /\ p.1 + p.2 <= n /\ fits gap n (p.1 + p.2) ps
  end.

(** Where the partitions end. *)
Fixpoint end_of (last : Z) (ps : list (Z * Z)) : Z :=
  match ps with [] => last | p :: ps => end_of (p.1 + p.2) ps end.

(** More than four are three and a chain, each with room for its table in front. *)
Definition layout (n : Z) (ps : list (Z * Z)) : Prop :=
  (1 <= length ps <= 8)%nat /\
  if (4 <? length ps)%nat then
    fits 0 n 0 (take 3 ps) /\ fits DOS_EBR_BLOCK n (end_of 0 (take 3 ps)) (drop 3 ps)
  else fits 0 n 0 ps.

#[global] Instance fits_dec gap n last ps : Decision (fits gap n last ps).
Proof. revert last. induction ps as [|p ps IH]; intros last; cbn [fits]; apply _. Defined.

#[global] Instance layout_dec n ps : Decision (layout n ps).
Proof. unfold layout. destruct (4 <? length ps)%nat; apply _. Defined.

Definition prim (p : Z * Z) : dos_partition := part_mmc_chs 0x00 0x83 p.1 p.2.

Lemma prims_sized ps : Forall sized (prim <$> ps).
Proof. apply Forall_fmap. apply Forall_true. done. Qed.

(** The table of a partition in a chain that begins at [R]. *)
Definition link_table (R : Z) (p : Z * Z) (rest : list (Z * Z)) : list Z :=
  table (prim (DOS_EBR_BLOCK, p.2) ::
    match rest with
    | [] => []
    | q :: _ => [part_mmc_chs 0x00 0x05 (q.1 - DOS_EBR_BLOCK - R) (q.2 + DOS_EBR_BLOCK)]
    end).

(** The sector of a table. *)
Definition link_at (p : Z * Z) : Z := p.1 - DOS_EBR_BLOCK.

Fixpoint chain (c : Z -> list Z) (R : Z) (ps : list (Z * Z)) : Prop :=
  match ps with
  | [] => True
  | p :: ps => c (link_at p) = link_table R p ps /\ chain c R ps
  end.

Lemma chain_ext c c' R ps : (forall a, a ∈ link_at <$> ps -> c' a = c a) -> chain c R ps -> chain c' R ps.
Proof.
  induction ps as [|p ps IH]; intros Hc; [done|]. intros [H1 H2]. cbn [chain]. rewrite Hc by (left; done).
  split; [done|]. apply IH; [|done]. intros a Ha. apply Hc. by right.
Qed.

Lemma fits_links gap n ps : forall last, 0 <= gap -> fits gap n last ps ->
  Forall (fun a => last + gap - DOS_EBR_BLOCK <= a < n - DOS_EBR_BLOCK) (link_at <$> ps).
Proof.
  induction ps as [|p ps IH]; intros last Hg; cbn [fits fmap list_fmap]; [constructor|]. intros (H1 & H2 & H3 & H4 & Hf).
  constructor; [unfold link_at; lia|]. eapply Forall_impl; [exact (IH _ Hg Hf)|]. cbn. intros a Ha. lia.
Qed.

Lemma fits_end gap n ps : forall last, last <= n -> fits gap n last ps -> 0 <= gap -> last <= end_of last ps <= n.
Proof.
  induction ps as [|p ps IH]; intros last Hl; cbn [fits end_of]; [lia|]. intros (H1 & H2 & H3 & H4 & Hf) Hg.
  specialize (IH _ H4 Hf Hg). lia.
Qed.

Section Disk.
Context `{HB : BlockDev} {good : bdev -> Prop} {content : bdev -> Z -> list Z} `{HG : !GoodDev good content}.

(** ** Writing *)

Lemma primary_ok d p last : good d -> 0 <= last <= p.1 -> 0 < p.1 -> 0 < p.2 -> p.1 + p.2 <= lba d ->
  primary_entry d (bytes_of p) last = Some (inr (prim p, p.1 + p.2)).
Proof.
  intros Hg Hl H1 H2 H3. pose proof (dev_lba d Hg) as Hn. unfold primary_entry, bytes_of. cbn [fst snd]. rewrite (dev_blksz d Hg).
  rewrite !lldiv_sectors by lia. cbn [mbind option_bind]. destruct (Z.eqb_spec (512 * p.2) 0); [lia|]. cbn [negb mbind option_bind].
  rewrite !u64_small by (unfold is_u64; lia). destruct (Z.eqb_spec p.1 0); [lia|]. destruct (Z.ltb_spec p.1 last); [lia|].
  destruct (Z.ltb_spec (lba d - last) p.2); [lia|]. done.
Qed.

Lemma primary_loop_ok d ps : forall pre post es last, good d -> fits 0 (lba d) last ps -> 0 <= last ->
  Forall sized es -> (length es + length ps <= 4)%nat -> length pre = length es ->
  primary_loop (length ps) (length es) d ((bytes_of <$> pre) ++ (bytes_of <$> ps) ++ post) (table es) last =
    Some (inr (table (es ++ (prim <$> ps)), end_of last ps)).
Proof.
  induction ps as [|p ps IH]; intros pre post es last Hg Hf Hl Hes Hlen Hpre; cbn [length primary_loop end_of].
  - by rewrite app_nil_r.
  - cbn [fits] in Hf. destruct Hf as (H1 & H2 & H3 & H4 & Hf). cbn [length] in Hlen.
    rewrite lookup_app_r by (rewrite length_fmap; lia). rewrite length_fmap, Hpre, Nat.sub_diag.
    cbn [fmap list_fmap app lookup list_lookup mbind option_bind].
    rewrite primary_ok by (done || lia). cbn [mbind option_bind].
    rewrite put_entry_ok by (done || lia).
    replace (S (length es)) with (length (es ++ [prim p])) by (rewrite length_app; simpl; lia).
    specialize (IH (pre ++ [p]) post (es ++ [prim p]) (p.1 + p.2) Hg Hf). rewrite fmap_app, <- app_assoc in IH. cbn [fmap list_fmap app] in IH.
    rewrite IH; [by rewrite <- app_assoc|lia|apply Forall_app; by repeat constructor|rewrite length_app; simpl; lia|].
    rewrite !length_app, Hpre. done.
Qed.

(** The two entries of a table in a chain. *)
Lemma link_first d p E R : good d -> E = link_at p -> 0 <= E -> 0 < p.2 -> p.1 + p.2 <= lba d ->
  extended_entry d 0 (bytes_of p) E R E = Some (inr (prim (DOS_EBR_BLOCK, p.2), DOS_EBR_BLOCK, DOS_EBR_BLOCK + p.2)).
Proof.
  intros Hg -> HE H2 H3. unfold link_at in *. pose proof (dev_lba d Hg) as Hn. change DOS_EBR_BLOCK with 2048 in *.
  unfold extended_entry, bytes_of. cbn [fst snd]. rewrite (dev_blksz d Hg).
  rewrite !lldiv_sectors by lia. cbn [mbind option_bind]. destruct (Z.eqb_spec p.1 0); [lia|]. destruct (Z.ltb_spec p.1 (p.1 - 2048)); [lia|].
  destruct (Z.eqb_spec p.2 0); [lia|]. rewrite u64_small by (unfold is_u64; lia).
  destruct (Z.ltb_spec (lba d - (p.1 - 2048)) p.2); [lia|]. cbn [Nat.eqb].
  rewrite (u64_small (p.1 - _)) by (unfold is_u64; lia). rewrite u64_small by (unfold is_u64; lia).
  by replace (p.1 - (p.1 - 2048)) with 2048 by lia.
Qed.

Lemma link_next d q E R l : good d -> 0 <= R -> 0 < l -> R + DOS_EBR_BLOCK <= q.1 -> DOS_EBR_BLOCK + l <= q.1 ->
  0 < q.2 -> q.1 + q.2 <= lba d ->
  extended_entry d 1 (bytes_of q) E R (DOS_EBR_BLOCK + l) =
    Some (inr (part_mmc_chs 0x00 0x05 (q.1 - DOS_EBR_BLOCK - R) (q.2 + DOS_EBR_BLOCK), q.1 - DOS_EBR_BLOCK - R,
               q.1 - DOS_EBR_BLOCK - R + (q.2 + DOS_EBR_BLOCK))).
Proof.
  intros Hg HR Hl H1 H2 H3 H4. pose proof (dev_lba d Hg) as Hn. change DOS_EBR_BLOCK with 2048 in *.
  unfold extended_entry, bytes_of. cbn [fst snd]. rewrite (dev_blksz d Hg).
  rewrite !lldiv_sectors by lia. cbn [mbind option_bind]. destruct (Z.eqb_spec q.1 0); [lia|]. destruct (Z.ltb_spec q.1 (2048 + l)); [lia|].
  destruct (Z.eqb_spec q.2 0); [lia|]. rewrite (u64_small (lba d - _)) by (unfold is_u64; lia).
  destruct (Z.ltb_spec (lba d - (2048 + l)) q.2); [lia|]. cbn [Nat.eqb].
  change DOS_EBR_BLOCK with 2048.
  rewrite (u64_small (R + 2048)) by (unfold is_u64; lia). rewrite (u64_small (q.2 + 2048)) by (unfold is_u64; lia).
  rewrite (u64_small (q.1 - (R + 2048))) by (unfold is_u64; lia). rewrite u64_small by (unfold is_u64; lia).
  by replace (q.1 - (R + 2048)) with (q.1 - 2048 - R) by lia.
Qed.

(** The tables of the chain are written, and an empty one over the first sector of the
    first partition of it. *)
Lemma make_chain_ok R ps : forall d E last,
  good d -> 0 < R -> fits DOS_EBR_BLOCK (lba d) last ps ->
  E = match ps with [] => R + DOS_EBR_BLOCK | p :: _ => link_at p end ->
  R + DOS_EBR_BLOCK < lba d ->
  match ps with [] => True | p :: _ => R = link_at p \/ R + DOS_EBR_BLOCK < last end ->
  exists d', mmc_make_part_table_extended (length ps) d E R (bytes_of <$> ps) = Some (1, d') /\ good d' /\ lba d' = lba d /\
    chain (content d') R ps /\ content d' (R + DOS_EBR_BLOCK) = empty_table /\
    forall a, a ∉ link_at <$> ps -> a <> R + DOS_EBR_BLOCK -> content d' a = content d a.
Proof.
  change DOS_EBR_BLOCK with 2048. induction ps as [|p ps IH]; intros d E last Hg HR Hf HE Hroom Hfirst;
    pose proof (dev_lba d Hg) as Hn.
  - destruct (dev_write d E empty_table Hg ltac:(lia) ltac:(by rewrite empty_table_ok)) as (d' & Hw & Hg' & Hn' & Hc).
    cbn [length fmap list_fmap mmc_make_part_table_extended Nat.min extended_loop mbind option_bind]. rewrite Hw.
    change (s32 1 <? 0) with false. exists d'. split; [done|]. split; [done|]. split; [done|]. split; [done|]. subst E.
    split; [by rewrite Hc, Z.eqb_refl|]. intros a _ Ha. rewrite Hc. destruct (Z.eqb_spec a (R + 2048)); [lia|done].
  - cbn [fits] in Hf. change DOS_EBR_BLOCK with 2048 in Hf. destruct Hf as (H1 & H2 & H3 & H4 & Hf).
    assert (HEp : E = p.1 - 2048) by (rewrite HE; reflexivity).
    assert (Hloop : exists s, extended_loop (Nat.min 2 (length (p :: ps))) 0 d (bytes_of <$> p :: ps) E R empty_table 0 E =
        Some (inr (link_table R p ps, s)) /\ s + R = match ps with [] => R + 2048 | q :: _ => link_at q end).
    { cbn [fmap list_fmap length]. assert (He0 : extended_entry d 0 (bytes_of p) E R E = Some (inr (prim (2048, p.2), 2048, 2048 + p.2)))
        by (apply link_first; [done|exact HE|lia|done|done]).
      destruct ps as [|q ps].
      - exists 2048. split; [|lia]. cbn [length Nat.min extended_loop lookup list_lookup mbind option_bind]. rewrite He0.
        cbn [mbind option_bind]. rewrite empty_table_ok. change 0%nat with (length (@nil dos_partition)). rewrite put_entry_ok by (done || simpl; lia). done.
      - cbn [fits] in Hf. change DOS_EBR_BLOCK with 2048 in Hf. destruct Hf as (G1 & G2 & G3 & G4 & Gf).
        exists (q.1 - 2048 - R). split; [|unfold link_at; change DOS_EBR_BLOCK with 2048; lia].
        cbn [length Nat.min extended_loop lookup list_lookup mbind option_bind fmap list_fmap]. rewrite He0. cbn [mbind option_bind].
        rewrite empty_table_ok. change 0%nat with (length (@nil dos_partition)) at 2. rewrite put_entry_ok by (done || simpl; lia).
        assert (He1 := link_next d q E R p.2 Hg). change DOS_EBR_BLOCK with 2048 in He1. rewrite He1 by lia. cbn [mbind option_bind app].
        change 1%nat with (length [prim (2048, p.2)]). rewrite put_entry_ok; [done|by repeat constructor|done|simpl; lia]. }
    destruct Hloop as (s & Hloop & Hs).
    assert (Hsz : length (link_table R p ps) = 512%nat).
    { unfold link_table. apply table_length; [|destruct ps; simpl; lia]. constructor; [done|]. destruct ps; by repeat constructor. }
    destruct (dev_write d E (link_table R p ps) Hg ltac:(lia) Hsz) as (d1 & Hw & Hg1 & Hn1 & Hc1).
    assert (HsR : u64 (s + R) = s + R).
    { rewrite Hs. apply u64_small. unfold is_u64. destruct ps as [|q ps]; [lia|]. cbn [fits] in Hf. change DOS_EBR_BLOCK with 2048 in Hf.
      unfold link_at. change DOS_EBR_BLOCK with 2048. lia. }
    assert (Hf1 : fits 2048 (lba d1) (p.1 + p.2) ps) by by rewrite Hn1.
    destruct (IH d1 (s + R) (p.1 + p.2) Hg1 HR Hf1) as (d' & Hm & Hg' & Hn' & Hch & Hem & Hfr).
    + exact Hs.
    + by rewrite Hn1.
    + destruct ps; [done|]. right. destruct Hfirst as [->|]; [unfold link_at; change DOS_EBR_BLOCK with 2048|]; lia.
    + exists d'. split; [|split; [done|split; [by rewrite Hn'|split; [|split; [done|]]]]].
      * cbn [length mmc_make_part_table_extended]. cbn [length] in Hloop. rewrite Hloop. cbn [mbind option_bind]. rewrite Hw.
        change (s32 1 <? 0) with false. cbn [fmap list_fmap drop]. rewrite HsR. exact Hm.
      * cbn [chain]. split; [|done]. rewrite Hfr.
        -- unfold link_at. change DOS_EBR_BLOCK with 2048. rewrite Hc1, <- HEp, Z.eqb_refl. done.
        -- intros Hin. pose proof (fits_links 2048 (lba d) ps (p.1 + p.2) ltac:(lia) Hf) as Hl. rewrite Forall_forall in Hl.
           specialize (Hl _ Hin). unfold link_at in Hl. change DOS_EBR_BLOCK with 2048 in Hl. lia.
        -- unfold link_at. change DOS_EBR_BLOCK with 2048. destruct Hfirst as [Hx|]; [|lia]. unfold link_at in Hx. change DOS_EBR_BLOCK with 2048 in Hx. lia.
      * intros a Ha Hne. cbn [fmap list_fmap] in Ha. rewrite not_elem_of_cons in Ha. destruct Ha as [Ha1 Ha2].
        rewrite Hfr by done. rewrite Hc1. unfold link_at in Ha1. change DOS_EBR_BLOCK with 2048 in Ha1. destruct (Z.eqb_spec a E); [lia|done].
Qed.

(** ** Reading *)

Lemma chs_start b y s l : 0 <= s < 2 ^ 31 -> le32_to_int (start4 (part_mmc_chs b y s l)) = s.
Proof. apply le32_back. Qed.

Lemma chs_size b y s l : 0 <= l < 2 ^ 31 -> le32_to_int (size4 (part_mmc_chs b y s l)) = l.
Proof. apply le32_back. Qed.

(** What an entry adds to the partitions. *)
Definition slot_part (d : bdev) (a : Z) (pt : dos_partition) : option (Z * Z) :=
  let s := u64 (le32_to_int (start4 pt)) in
  let l := u64 (le32_to_int (size4 pt)) in
  if is_extended (sys_ind pt) then None
  else if negb (s =? 0) && negb (l =? 0) then Some (u64 (u64 (a + s) * blksz d), u64 (l * blksz d)) else None.

Lemma nth_drop_cases (es : list dos_partition) i :
  (exists e, nth i es no_part = e /\ drop i es = e :: drop (S i) es) \/ (nth i es no_part = no_part /\ drop i es = [] /\ drop (S i) es = []).
Proof.
  destruct (decide (i < length es)%nat) as [Hlt|Hge].
  - left. destruct (lookup_lt_is_Some_2 es i Hlt) as [x Hx]. exists x. split; [by apply nth_lookup_Some|by apply drop_S].
  - right. split; [apply nth_overflow; lia|]. split; apply drop_ge; lia.
Qed.

Lemma table_slots_ok es room d a : Forall sized es -> (length es <= 4)%nat -> forall n i parts, (i + n = 4)%nat ->
  (length parts + length (omap (slot_part d a) (drop i es)) <= room)%nat ->
  table_slots n i room d (table es) a parts = Some (parts ++ omap (slot_part d a) (drop i es)).
Proof.
  intros Hes Hl. induction n as [|n IH]; intros i parts Hi Hroom; cbn [table_slots].
  - rewrite drop_ge by lia. cbn. by rewrite app_nil_r.
  - rewrite get_entry_ok by (done || lia). destruct (nth_drop_cases es i) as [(e & -> & Hd)|(-> & Hd & Hd')].
    + rewrite Hd in *. cbn [omap list_omap] in *. unfold slot_part at 1. unfold slot_part at 1 in Hroom.
      destruct (is_extended (sys_ind e)); [cbn [mbind option_bind]; by apply IH; [lia|]|].
      destruct (negb _ && negb _); [|cbn [mbind option_bind]; by apply IH; [lia|]].
      unfold add_part. cbn [length] in Hroom. destruct (Nat.ltb_spec (length parts) room); [|lia]. cbn [mbind option_bind].
      rewrite IH; [by rewrite <- app_assoc|lia|rewrite length_app; simpl; lia].
    + change (is_extended (sys_ind no_part)) with false. change (u64 (le32_to_int (start4 no_part))) with 0.
      change (0 =? 0) with true. cbn [negb andb mbind option_bind]. rewrite IH; [by rewrite Hd, Hd'|lia|]. rewrite Hd'. rewrite Hd in Hroom. exact Hroom.
Qed.

(** What is followed. *)
Fixpoint follow_list (follow : Z -> list (Z * Z) -> bdev -> option (list (Z * Z) * bdev)) (relative : Z)
    (es : list dos_partition) (parts : list (Z * Z)) (d : bdev) : option (list (Z * Z) * bdev) :=
  match es with
  | [] => Some (parts, d)
  | e :: es =>
      if is_extended (sys_ind e) then
        '(parts, d) ← follow (u64 (le32_to_int (start4 e) + relative)) parts d; follow_list follow relative es parts d
      else follow_list follow relative es parts d
  end.

Lemma follow_slots_ok es follow relative : Forall sized es -> (length es <= 4)%nat -> forall n i parts d, (i + n = 4)%nat ->
  follow_slots n i (table es) follow relative parts d = follow_list follow relative (drop i es) parts d.
Proof.
  intros Hes Hl. induction n as [|n IH]; intros i parts d Hi; cbn [follow_slots].
  - rewrite drop_ge by lia. done.
  - rewrite get_entry_ok by (done || lia). destruct (nth_drop_cases es i) as [(e & -> & Hd)|(-> & Hd & Hd')].
    + rewrite Hd. cbn [follow_list]. destruct (is_extended (sys_ind e)).
      * destruct (follow _ _ _) as [[parts' d']|]; [|done]. cbn [mbind option_bind]. apply IH. lia.
      * cbn [mbind option_bind]. apply IH. lia.
    + change (is_extended (sys_ind no_part)) with false. cbn [mbind option_bind]. rewrite IH by lia. by rewrite Hd, Hd'.
Qed.

(** A table is read. *)
Lemma read_table fuel room a R es parts d : good d -> 0 <= a < lba d -> content d a = table es -> Forall sized es -> (length es <= 4)%nat ->
  (length parts + length (omap (slot_part d a) es) <= room)%nat ->
  exists d', good d' /\ lba d' = lba d /\ (forall x, content d' x = content d x) /\
    get_part_table_extended (S fuel) room a R parts d =
      follow_list (fun s => get_part_table_extended fuel room s (if a =? 0 then s else R)) R es (parts ++ omap (slot_part d a) es) d'.
Proof.
  intros Hg Ha Hc Hes Hl Hroom. destruct (dev_read d a Hg Ha) as (d' & Hr & Hg' & Hn & Hx). exists d'. do 3 (split; [done|]).
  cbn [get_part_table_extended]. rewrite Hr, Hc, table_length by done. cbn [Nat.ltb Nat.leb].
  rewrite (drop_ge (replicate 512 0)) by (rewrite length_replicate; lia). rewrite app_nil_r, magic_ok by done. cbn [negb].
  assert (Hs : slot_part d' a = slot_part d a) by (unfold slot_part; by rewrite !dev_blksz).
  rewrite (table_slots_ok es room d' a Hes Hl 4 0) by (done || by rewrite Hs). cbn [mbind option_bind].
  rewrite (follow_slots_ok es _ R Hes Hl 4 0) by done. by rewrite Hs, drop_0.
Qed.

Lemma slot_prim d a p : good d -> 0 <= a -> 0 < p.1 -> 0 < p.2 -> p.2 < 2 ^ 31 -> a + p.1 < 2 ^ 31 ->
  slot_part d a (prim p) = Some (bytes_of (a + p.1, p.2)).
Proof.
  intros Hg Ha H1 H2 H3 H4. unfold slot_part, prim. rewrite chs_start, chs_size by lia. change (is_extended _) with false. cbn iota.
  rewrite (dev_blksz d Hg). unfold MMC_BLOCK_SIZE.
  rewrite (u64_small p.1), (u64_small p.2), (u64_small (a + p.1)) by (unfold is_u64; lia). rewrite !u64_small by (unfold is_u64; lia).
  destruct (Z.eqb_spec p.1 0); [lia|]. destruct (Z.eqb_spec p.2 0); [lia|]. cbn [negb andb].
  unfold bytes_of. cbn [fst snd]. by rewrite !(Z.mul_comm 512).
Qed.

Lemma slot_ext d a s l : slot_part d a (part_mmc_chs 0x00 0x05 s l) = None.
Proof. reflexivity. Qed.

Lemma slot_prims d ps : good d -> forall last, 0 <= last -> fits 0 (lba d) last ps ->
  omap (slot_part d 0) (prim <$> ps) = bytes_of <$> ps.
Proof.
  intros Hg. pose proof (dev_lba d Hg) as Hn. induction ps as [|p ps IH]; intros last Hl Hf; [done|].
  cbn [fits] in Hf. destruct Hf as (H1 & H2 & H3 & H4 & Hf). cbn [fmap list_fmap omap list_omap].
  rewrite slot_prim by (done || lia). rewrite Z.add_0_l. rewrite (IH (p.1 + p.2)) by (done || lia). by destruct p.
Qed.

(** The chain is read back. *)
Lemma read_chain R room ps : forall p fuel d last parts,
  good d -> 0 < R -> fits DOS_EBR_BLOCK (lba d) last (p :: ps) -> R <= last \/ R = link_at p -> chain (content d) R (p :: ps) ->
  (length ps < fuel)%nat -> (length parts + length (p :: ps) <= room)%nat ->
  exists d', get_part_table_extended fuel room (link_at p) R parts d = Some (parts ++ (bytes_of <$> p :: ps), d') /\
    good d' /\ lba d' = lba d /\ forall x, content d' x = content d x.
Proof.
  change DOS_EBR_BLOCK with 2048. induction ps as [|q ps IH]; intros p fuel d last parts Hg HR Hf Hlast [Hc Hch] Hfuel Hroom;
    (destruct fuel as [|fuel]; [simpl in Hfuel; lia|]); pose proof (dev_lba d Hg) as Hn;
    cbn [fits] in Hf; change DOS_EBR_BLOCK with 2048 in Hf; destruct Hf as (H1 & H2 & H3 & H4 & Hf);
    assert (Hat : link_at p = p.1 - 2048) by done; cbn [length] in Hroom; unfold link_table in Hc.
  - assert (Hs : omap (slot_part d (link_at p)) [prim (DOS_EBR_BLOCK, p.2)] = [bytes_of p]).
    { cbn [omap list_omap]. rewrite slot_prim by (done || (change DOS_EBR_BLOCK with 2048; cbn [fst snd]; lia)). cbn [fst snd].
      destruct p as [s l]. unfold link_at. cbn [fst snd]. by replace (s - DOS_EBR_BLOCK + DOS_EBR_BLOCK) with s by lia. }
    destruct (read_table fuel room (link_at p) R [prim (DOS_EBR_BLOCK, p.2)] parts d Hg ltac:(lia) Hc) as (d' & Hg' & Hn' & Hx & Hget).
    + by repeat constructor.
    + simpl. lia.
    + rewrite Hs. simpl. lia.
    + exists d'. rewrite Hget, Hs. cbn [follow_list]. done.
  - set (e := part_mmc_chs 0x00 0x05 (q.1 - DOS_EBR_BLOCK - R) (q.2 + DOS_EBR_BLOCK)) in *.
    pose proof Hf as Hf0. cbn [fits] in Hf. change DOS_EBR_BLOCK with 2048 in Hf. destruct Hf as (G1 & G2 & G3 & G4 & Gf).
    assert (Hs : omap (slot_part d (link_at p)) [prim (DOS_EBR_BLOCK, p.2); e] = [bytes_of p]).
    { cbn [omap list_omap]. rewrite slot_prim by (done || (change DOS_EBR_BLOCK with 2048; cbn [fst snd]; lia)). unfold e. rewrite slot_ext.
      cbn [fst snd]. destruct p as [s l]. unfold link_at. cbn [fst snd]. by replace (s - DOS_EBR_BLOCK + DOS_EBR_BLOCK) with s by lia. }
    destruct (read_table fuel room (link_at p) R [prim (DOS_EBR_BLOCK, p.2); e] parts d Hg ltac:(lia) Hc) as (d' & Hg' & Hn' & Hx & Hget).
    + by repeat constructor.
    + simpl. lia.
    + rewrite Hs. simpl. lia.
    + destruct (IH q fuel d' (p.1 + p.2) (parts ++ [bytes_of p]) Hg' HR) as (d2 & Hrd & Hg2 & Hn2 & Hx2).
      * by rewrite Hn'.
      * left. lia.
      * eapply chain_ext; [|exact Hch]. intros a _. apply Hx.
      * simpl in Hfuel. lia.
      * rewrite length_app. cbn [length] in *. lia.
      * exists d2. rewrite Hget, Hs. cbn [follow_list]. change (is_extended (sys_ind (prim _))) with false.
        change (is_extended (sys_ind e)) with true. cbn iota. unfold e. rewrite chs_start by (change DOS_EBR_BLOCK with 2048; lia).
        replace (u64 (q.1 - DOS_EBR_BLOCK - R + R)) with (link_at q)
          by (unfold link_at; change DOS_EBR_BLOCK with 2048; rewrite u64_small by (unfold is_u64; lia); lia).
        destruct (Z.eqb_spec (link_at p) 0); [lia|]. rewrite Hrd. cbn [mbind option_bind]. rewrite <- app_assoc.
        split; [done|]. split; [done|]. split; [lia|]. intros x. by rewrite Hx2, Hx.
Qed.

(** ** Whole tables *)

Lemma fits_first gap n last ps p : fits gap n last (p :: ps) -> 0 <= gap -> fits 0 n p.1 (p :: ps) \/ gap <> 0.
Proof. intros (H1 & H2 & H3 & H4 & Hf) Hg. destruct (Z.eq_dec gap 0) as [->|]; [|by right]. left. cbn [fits]. split_and!; (done || lia). Qed.

Lemma end_of_last ps : ps <> [] -> forall a b, end_of a ps = end_of b ps.
Proof. by destruct ps. Qed.

(** The sectors that are written: the tables, and the first sector of the fourth
    partition if there are more than four. *)
Definition tables_at (ps : list (Z * Z)) : list Z :=
  0 :: if (4 <? length ps)%nat then (link_at <$> drop 3 ps) ++ take 1 (drop 3 ps).*1 else [].

(** The start of the loop over the primary partitions. *)
Lemma primaries_ok d p ps post : good d -> fits 0 (lba d) 0 (p :: ps) -> (length (p :: ps) <= 4)%nat ->
  primary_loop (length (p :: ps)) 0 d ((bytes_of <$> p :: ps) ++ post) empty_table (u64 (s32 p.1)) =
    Some (inr (table (prim <$> p :: ps), end_of 0 (p :: ps))).
Proof.
  intros Hg Hf Hl. pose proof (dev_lba d Hg) as Hn. destruct (fits_first _ _ _ _ _ Hf ltac:(lia)) as [Hf'|]; [|done].
  cbn [fits] in Hf. destruct Hf as (H1 & H2 & H3 & H4 & _).
  rewrite s32_small, u64_small by (unfold is_s32, is_u64; lia). rewrite empty_table_ok.
  pose proof (primary_loop_ok d (p :: ps) [] post [] p.1 Hg Hf' ltac:(lia) (Forall_nil_2 _) Hl eq_refl) as Hp.
  cbn [app fmap list_fmap length] in *. exact Hp.
Qed.

Lemma make_few d p ps : good d -> fits 0 (lba d) 0 (p :: ps) -> (length (p :: ps) <= 4)%nat ->
  exists d', mmc_make_part_table (bytes_of <$> p :: ps) (Z.of_nat (length (p :: ps))) PART_TYPE_DOS d = Some (1, d') /\
    good d' /\ lba d' = lba d /\ content d' 0 = table (prim <$> p :: ps) /\ forall a, a <> 0 -> content d' a = content d a.
Proof.
  intros Hg Hf Hl. pose proof (dev_lba d Hg) as Hn. pose proof (primaries_ok d p ps [] Hg Hf Hl) as Hp. rewrite app_nil_r in Hp.
  destruct (dev_write d 0 (table (prim <$> p :: ps)) Hg ltac:(lia)) as (d' & Hw & Hg' & Hn' & Hc).
  { apply table_length; [apply prims_sized|by rewrite length_fmap]. }
  exists d'. split; [|split; [done|split; [done|split; [by rewrite Hc|]]]].
  - unfold mmc_make_part_table. change (negb (PART_TYPE_DOS =? PART_TYPE_DOS)) with false. cbn iota.
    destruct (Z.ltb_spec (Z.of_nat (length (p :: ps))) 1); [simpl in *; lia|].
    destruct (Z.ltb_spec MAX_PART_TABLE (Z.of_nat (length (p :: ps)))); [unfold MAX_PART_TABLE in *; lia|]. cbn [orb].
    destruct (Z.ltb_spec 4 (Z.of_nat (length (p :: ps)))); [lia|]. rewrite Nat2Z.id.
    cbn [fmap list_fmap lookup list_lookup mbind option_bind]. cbn [fmap list_fmap] in Hp.
    assert (Hd : lldiv (bytes_of p).1 (blksz d) = Some p.1).
    { unfold bytes_of. cbn [fst]. rewrite (dev_blksz d Hg). cbn [fits] in Hf. apply lldiv_sectors. lia. }
    rewrite Hd. cbn [mbind option_bind]. rewrite Hp. cbn [mbind option_bind]. cbn [fmap list_fmap] in Hw. rewrite Hw. done.
  - intros a Ha. rewrite Hc. by destruct (Z.eqb_spec a 0).
Qed.

Lemma make_many d p ps q qs : good d -> length (p :: ps) = 3%nat -> (length (q :: qs) <= 5)%nat -> qs <> [] ->
  fits 0 (lba d) 0 (p :: ps) -> fits DOS_EBR_BLOCK (lba d) (end_of 0 (p :: ps)) (q :: qs) ->
  exists d', mmc_make_part_table (bytes_of <$> (p :: ps) ++ q :: qs) (Z.of_nat (length ((p :: ps) ++ q :: qs))) PART_TYPE_DOS d = Some (1, d') /\
    good d' /\ lba d' = lba d /\
    content d' 0 = table ((prim <$> p :: ps) ++ [part_mmc_chs 0x00 0x05 (link_at q) (lba d - end_of 0 (p :: ps))]) /\
    chain (content d') (link_at q) (q :: qs) /\ content d' q.1 = empty_table /\
    forall a, a ∉ 0 :: q.1 :: (link_at <$> q :: qs) -> content d' a = content d a.
Proof.
  intros Hg Hl3 Hl5 Hqs Hf Hfq. pose proof (dev_lba d Hg) as Hn.
  pose proof (primaries_ok d p ps (bytes_of <$> q :: qs) Hg Hf ltac:(lia)) as Hp. rewrite Hl3 in Hp.
  assert (Hlast : 0 < end_of 0 (p :: ps)).
  { pose proof Hf as Hx. cbn [fits] in Hx. destruct Hx as (H1 & H2 & H3 & H4 & Hx). cbn [end_of].
    pose proof (fits_end 0 (lba d) ps (p.1 + p.2) ltac:(lia) Hx ltac:(lia)). lia. }
  pose proof (fits_end 0 (lba d) (p :: ps) 0 ltac:(lia) Hf ltac:(lia)) as Hend.
  set (last := end_of 0 (p :: ps)) in *.
  pose proof Hfq as Hx. cbn [fits] in Hx. destruct Hx as (Q1 & Q2 & Q3 & Q4 & _). change DOS_EBR_BLOCK with 2048 in Q1.
  set (R := link_at q) in *. assert (HR : R = q.1 - 2048) by done.
  set (mbr := table ((prim <$> p :: ps) ++ [part_mmc_chs 0x00 0x05 R (lba d - last)])).
  assert (Hms : length mbr = 512%nat).
  { apply table_length; [apply Forall_app; split; [apply prims_sized|by repeat constructor]|]. rewrite length_app, length_fmap, Hl3. simpl. lia. }
  destruct (dev_write d 0 mbr Hg ltac:(lia) Hms) as (d1 & Hw & Hg1 & Hn1 & Hc1).
  assert (Hfq1 : fits DOS_EBR_BLOCK (lba d1) last (q :: qs)) by by rewrite Hn1.
  destruct (make_chain_ok R (q :: qs) d1 R last Hg1) as (d' & Hm & Hg' & Hn' & Hch & Hem & Hfr);
    [lia|exact Hfq1|done|change DOS_EBR_BLOCK with 2048; lia|by left|].
  change DOS_EBR_BLOCK with 2048 in Hem, Hfr. replace (R + 2048) with q.1 in Hem, Hfr by lia.
  exists d'. split; [|split; [done|split; [by rewrite Hn'|split; [|split; [done|split; [done|]]]]]].
  - unfold mmc_make_part_table. change (negb (PART_TYPE_DOS =? PART_TYPE_DOS)) with false. cbn iota.
    assert (Hlen : Z.of_nat (length ((p :: ps) ++ q :: qs)) = 3 + Z.of_nat (length (q :: qs))) by (rewrite length_app, Hl3; lia).
    assert (1 <= Z.of_nat (length qs)) by (destruct qs; [done|]; simpl; lia).
    rewrite Hlen. cbn [length] in *. unfold MAX_PART_TABLE.
    destruct (Z.ltb_spec (3 + Z.of_nat (S (length qs))) 1); [lia|]. destruct (Z.ltb_spec 8 (3 + Z.of_nat (S (length qs)))); [lia|]. cbn [orb].
    destruct (Z.ltb_spec 4 (3 + Z.of_nat (S (length qs)))); [|lia]. rewrite fmap_app.
    assert (Hd : lldiv (bytes_of p).1 (blksz d) = Some p.1).
    { unfold bytes_of. cbn [fst]. rewrite (dev_blksz d Hg). cbn [fits] in Hf. apply lldiv_sectors. lia. }
    assert (Hp0 : ((bytes_of <$> p :: ps) ++ (bytes_of <$> q :: qs)) !! 0%nat = Some (bytes_of p)) by done.
    rewrite Hp0. cbn [mbind option_bind]. rewrite Hd. cbn [mbind option_bind].
    change (Z.to_nat 3) with 3%nat. rewrite Hp. cbn [mbind option_bind].
    assert (He : ebr_entry d ((bytes_of <$> p :: ps) ++ (bytes_of <$> q :: qs)) last = Some (inr (R, part_mmc_chs 0x00 0x05 R (lba d - last)))).
    { unfold ebr_entry. rewrite lookup_app_r by (rewrite length_fmap; simpl; lia). rewrite length_fmap. cbn [length]. rewrite Hl3. cbn [Nat.sub fmap list_fmap lookup list_lookup mbind option_bind].
      unfold bytes_of. cbn [fst]. rewrite (dev_blksz d Hg), lldiv_sectors by lia. cbn [mbind option_bind]. change DOS_EBR_BLOCK with 2048.
      rewrite !u64_small by (unfold is_u64; lia). rewrite <- HR. by destruct (Z.ltb_spec R last); [lia|]. }
    rewrite He. cbn [mbind option_bind].
    assert (Hput : put_entry 3 (part_mmc_chs 0x00 0x05 R (lba d - last)) (table (prim <$> p :: ps)) = mbr).
    { replace 3%nat with (length (prim <$> p :: ps)) by by rewrite length_fmap. rewrite put_entry_ok; [done|apply prims_sized|done|].
      rewrite length_fmap. cbn [length]. lia. }
    rewrite Hput, Hw. change (s32 1 <? 0) with false. cbn iota.
    replace (Z.to_nat (3 + Z.of_nat (S (length qs)) - 3)) with (length (q :: qs)) by (cbn [length]; lia).
    rewrite drop_app_length'; [exact Hm|]. rewrite length_fmap. cbn [length]. lia.
  - rewrite Hfr, Hc1; [done| |lia]. intros Hin. pose proof (fits_links DOS_EBR_BLOCK _ _ _ ltac:(discriminate) Hfq) as Hlk. rewrite Forall_forall in Hlk.
    specialize (Hlk 0 Hin). change DOS_EBR_BLOCK with 2048 in Hlk. lia.
  - intros a Ha. rewrite !not_elem_of_cons in Ha. destruct Ha as (Ha0 & Haq & Ha). rewrite Hfr by done. rewrite Hc1. by destruct (Z.eqb_spec a 0).
Qed.

Lemma follow_prims f R ps es parts d : follow_list f R ((prim <$> ps) ++ es) parts d = follow_list f R es parts d.
Proof. induction ps as [|p ps IH]; [done|]. exact IH. Qed.

Lemma read_few ps d fuel room : good d -> fits 0 (lba d) 0 ps -> (length ps <= 4)%nat -> content d 0 = table (prim <$> ps) ->
  (0 < fuel)%nat -> (length ps <= room)%nat ->
  exists d', get_part_table fuel room d = Some (bytes_of <$> ps, d') /\ good d' /\ lba d' = lba d /\ forall a, content d' a = content d a.
Proof.
  intros Hg Hf Hl Hc Hfuel Hroom. destruct fuel as [|fuel]; [lia|]. pose proof (dev_lba d Hg) as Hn.
  destruct (read_table fuel room 0 0 (prim <$> ps) [] d Hg ltac:(lia) Hc (prims_sized ps)) as (d' & Hg' & Hn' & Hx & Hr);
    [by rewrite length_fmap|by rewrite (slot_prims d ps Hg 0 ltac:(lia) Hf), length_fmap|].
  exists d'. split; [|done]. unfold get_part_table. rewrite Hr, (slot_prims d ps Hg 0 ltac:(lia) Hf).
  rewrite <- (app_nil_r (prim <$> ps)), follow_prims. done.
Qed.

Lemma read_many p ps q qs last d fuel room : good d -> length (p :: ps) = 3%nat ->
  fits 0 (lba d) 0 (p :: ps) -> last = end_of 0 (p :: ps) -> fits DOS_EBR_BLOCK (lba d) last (q :: qs) ->
  content d 0 = table ((prim <$> p :: ps) ++ [part_mmc_chs 0x00 0x05 (link_at q) (lba d - last)]) ->
  chain (content d) (link_at q) (q :: qs) -> (length (q :: qs) < fuel)%nat -> (length ((p :: ps) ++ q :: qs) <= room)%nat ->
  exists d', get_part_table fuel room d = Some (bytes_of <$> (p :: ps) ++ q :: qs, d') /\ good d' /\ lba d' = lba d /\
    forall a, content d' a = content d a.
Proof.
  intros Hg Hl3 Hf -> Hfq Hc Hch Hfuel Hroom. destruct fuel as [|fuel]; [lia|]. pose proof (dev_lba d Hg) as Hn.
  assert (Hlast : 0 < end_of 0 (p :: ps)).
  { pose proof Hf as Hx. cbn [fits] in Hx. destruct Hx as (H1 & H2 & H3 & H4 & Hx). cbn [end_of].
    pose proof (fits_end 0 (lba d) ps (p.1 + p.2) ltac:(lia) Hx ltac:(lia)). lia. }
  set (last := end_of 0 (p :: ps)) in *. set (e := part_mmc_chs 0x00 0x05 (link_at q) (lba d - last)) in *.
  pose proof Hfq as Hx. cbn [fits] in Hx. destruct Hx as (Q1 & Q2 & Q3 & Q4 & _). change DOS_EBR_BLOCK with 2048 in Q1.
  assert (HR : link_at q = q.1 - 2048) by done. rewrite length_app in Hroom.
  assert (Hs : omap (slot_part d 0) ((prim <$> p :: ps) ++ [e]) = bytes_of <$> p :: ps).
  { rewrite omap_app. rewrite (slot_prims d (p :: ps) Hg 0 ltac:(lia) Hf). unfold e. cbn [omap list_omap]. rewrite slot_ext. by rewrite app_nil_r. }
  destruct (read_table fuel room 0 0 ((prim <$> p :: ps) ++ [e]) [] d Hg ltac:(lia) Hc) as (d1 & Hg1 & Hn1 & Hx1 & Hr).
  - apply Forall_app. split; [apply prims_sized|by repeat constructor].
  - rewrite length_app, length_fmap, Hl3. simpl. lia.
  - rewrite Hs, length_fmap. cbn [length] in *. lia.
  - destruct (read_chain (link_at q) room qs q fuel d1 last (bytes_of <$> p :: ps) Hg1 ltac:(lia)) as (d2 & Hr2 & Hg2 & Hn2 & Hx2).
    + by rewrite Hn1.
    + by right.
    + eapply chain_ext; [|exact Hch]. intros a _. apply Hx1.
    + cbn [length] in *. lia.
    + rewrite length_fmap. lia.
    + exists d2. split; [|split; [done|split; [by rewrite Hn2|intros a; by rewrite Hx2, Hx1]]]. unfold get_part_table. rewrite Hr, Hs, follow_prims. cbn [follow_list app].
      change (is_extended (sys_ind e)) with true. cbn iota. unfold e. rewrite chs_start by lia. rewrite Z.add_0_r, u64_small by (unfold is_u64; lia).
      change (0 =? 0) with true. cbn iota. rewrite Hr2. cbn [mbind option_bind]. by rewrite <- (fmap_app bytes_of (p :: ps) (q :: qs)).
Qed.

(** The sectors of the tables. *)
Definition table_places (ps : list (Z * Z)) : list Z := 0 :: if (4 <? length ps)%nat then link_at <$> drop 3 ps else [].

(** The disk has the table of a layout: reading it returns the partitions, and goes on
    to do so as long as the tables stay the same. *)
Definition tabled (ps : list (Z * Z)) (d : bdev) : Prop :=
  forall d1 fuel room, good d1 -> lba d1 = lba d -> (forall x, x ∈ table_places ps -> content d1 x = content d x) ->
    (length ps < fuel)%nat -> (length ps <= room)%nat ->
    exists d2, get_part_table fuel room d1 = Some (bytes_of <$> ps, d2) /\ good d2 /\ lba d2 = lba d1 /\
      forall x, content d2 x = content d1 x.

(** Everything about a layout that is made. *)
Lemma fdisk_ok ps d : good d -> layout (lba d) ps ->
  exists d', mmc_make_part_table (bytes_of <$> ps) (Z.of_nat (length ps)) PART_TYPE_DOS d = Some (1, d') /\ good d' /\ lba d' = lba d /\
    (forall a, a ∉ tables_at ps -> content d' a = content d a) /\
    ((4 < length ps)%nat -> forall q, ps !! 3%nat = Some q -> content d' q.1 = empty_table) /\
    tabled ps d'.
Proof.
  intros Hg [Hl Hlay]. unfold tables_at, tabled, table_places. destruct (Nat.ltb_spec 4 (length ps)) as [Hmany|Hfew].
  - destruct ps as [|p1 [|p2 [|p3 [|q [|q2 qs]]]]]; try (simpl in Hmany; lia). destruct Hlay as [Hf Hfq].
    cbn [take drop] in Hf, Hfq. change (p1 :: p2 :: p3 :: q :: q2 :: qs) with ([p1; p2; p3] ++ q :: q2 :: qs) in *.
    destruct (make_many d p1 [p2; p3] q (q2 :: qs) Hg eq_refl ltac:(simpl in *; lia) ltac:(done) Hf Hfq) as (d' & Hm & Hg' & Hn & H0 & Hch & Hem & Hfr).
    exists d'. split; [exact Hm|]. split; [done|]. split; [done|]. split; [|split].
    + intros a Ha. apply Hfr. cbn [app drop take fmap list_fmap] in *. clear -Ha. set_solver.
    + intros _ q' Hq. by injection Hq as <-.
    + intros d1 fuel room Hg1 Hn1 Hx1 Hfuel Hroom. cbn [app length] in Hfuel, Hroom.
      assert (Hx0 : content d1 0 = content d' 0) by (apply Hx1; by left).
      apply (read_many p1 [p2; p3] q (q2 :: qs) (end_of 0 [p1; p2; p3])); rewrite ?Hn1, ?Hn, ?Hx0; try done; try (cbn [app length]; lia).
      eapply chain_ext; [|exact Hch]. intros a Ha. apply Hx1. by right.
  - destruct ps as [|p ps]; [simpl in Hl; lia|]. destruct (make_few d p ps Hg Hlay Hfew) as (d' & Hm & Hg' & Hn & H0 & Hfr).
    exists d'. split; [done|]. split; [done|]. split; [done|]. split; [|split; [lia|]].
    + intros a Ha. apply Hfr. clear -Ha. set_solver.
    + intros d1 fuel room Hg1 Hn1 Hx1 Hfuel Hroom.
      apply read_few; rewrite ?Hn1, ?Hn, ?(Hx1 0 (list_elem_of_here _ _)); (done || lia).
Qed.

Lemma tabled_stable ps d d' : tabled ps d -> lba d' = lba d -> (forall x, x ∈ table_places ps -> content d' x = content d x) -> tabled ps d'.
Proof.
  intros Ht Hl Hc d1 fuel room Hg Hl1 Hc1 Hf Hr. apply Ht; [done|by rewrite Hl1|intros x Hx; by rewrite Hc1, Hc|done|done].
Qed.

Lemma fits_in gap n ps : forall last p, 0 <= gap -> fits gap n last ps -> p ∈ ps -> last + gap <= p.1 /\ 0 < p.1 /\ 0 < p.2 /\ p.1 + p.2 <= n.
Proof.
  induction ps as [|q ps IH]; intros last p Hg Hf Hp; [by apply not_elem_of_nil in Hp|]. cbn [fits] in Hf. destruct Hf as (H1 & H2 & H3 & H4 & Hf).
  apply elem_of_cons in Hp as [->|Hp]; [done|]. destruct (IH _ p Hg Hf Hp) as (? & ? & ? & ?). split_and!; (done || lia).
Qed.

(** The partitions of a layout are apart, in order. *)
Lemma fits_apart gap n ps : forall last i j p q, 0 <= gap -> fits gap n last ps -> ps !! i = Some p -> ps !! j = Some q -> (i < j)%nat -> p.1 + p.2 + gap <= q.1.
Proof.
  induction ps as [|r ps IH]; intros last i j p q Hg Hf Hi Hj Hij; [done|]. cbn [fits] in Hf. destruct Hf as (H1 & H2 & H3 & H4 & Hf).
  destruct j as [|j]; [lia|]. destruct i as [|i].
  - injection Hi as ->. cbn in Hj. apply list_elem_of_lookup_2 in Hj. pose proof (fits_in gap n ps _ q Hg Hf Hj). lia.
  - apply (IH _ i j p q Hg Hf Hi Hj). lia.
Qed.

Lemma fits_before_end gap n ps : forall last p, 0 <= gap -> fits gap n last ps -> p ∈ ps -> p.1 + p.2 <= end_of last ps.
Proof.
  induction ps as [|q ps IH]; intros last p Hg Hf Hp; [by apply not_elem_of_nil in Hp|]. cbn [fits end_of] in *. destruct Hf as (H1 & H2 & H3 & H4 & Hf).
  apply elem_of_cons in Hp as [->|Hp]; [|by apply IH]. apply (fits_end gap n ps (q.1 + q.2)); (done || lia).
Qed.

Lemma layout_in n ps p : layout n ps -> p ∈ ps -> 0 < p.1 /\ 0 < p.2 /\ p.1 + p.2 <= n.
Proof.
  intros [_ Hl] Hp. destruct (4 <? length ps)%nat.
  - destruct Hl as [H1 H2]. rewrite <- (take_drop 3 ps) in Hp. apply elem_of_app in Hp as [Hp|Hp].
    + pose proof (fits_in 0 n _ 0 p ltac:(lia) H1 Hp). tauto.
    + pose proof (fits_in DOS_EBR_BLOCK n _ _ p ltac:(by vm_compute) H2 Hp). tauto.
  - pose proof (fits_in 0 n _ 0 p ltac:(lia) Hl Hp). tauto.
Qed.

Lemma layout_apart n ps i j p q : layout n ps -> ps !! i = Some p -> ps !! j = Some q -> (i < j)%nat -> p.1 + p.2 <= q.1.
Proof.
  intros [_ Hl] Hi Hj Hij. destruct (4 <? length ps)%nat; [|pose proof (fits_apart 0 n ps 0 i j p q ltac:(lia) Hl Hi Hj Hij); lia].
  destruct Hl as [H1 H2]. change DOS_EBR_BLOCK with 2048 in H2. destruct (decide (j < 3)%nat) as [Hj3|Hj3]; [|destruct (decide (i < 3)%nat) as [Hi3|Hi3]].
  - pose proof (fits_apart 0 n _ 0 i j p q ltac:(lia) H1) as Ha. rewrite !lookup_take_lt in Ha by lia. specialize (Ha Hi Hj Hij). lia.
  - assert (p ∈ take 3 ps) by (apply (list_elem_of_lookup_2 _ i); by rewrite lookup_take_lt).
    assert (q ∈ drop 3 ps) by (apply (list_elem_of_lookup_2 _ (j - 3)); rewrite lookup_drop; by replace (3 + (j - 3))%nat with j by lia).
    pose proof (fits_before_end 0 n _ 0 p ltac:(lia) H1 ltac:(done)). pose proof (fits_in 2048 n _ _ q ltac:(lia) H2 ltac:(done)). lia.
  - pose proof (fits_apart 2048 n _ _ (i - 3) (j - 3) p q ltac:(lia) H2) as Ha. rewrite !lookup_drop in Ha.
    replace (3 + (i - 3))%nat with i in Ha by lia. replace (3 + (j - 3))%nat with j in Ha by lia. specialize (Ha Hi Hj ltac:(lia)). lia.
Qed.

(** No table lies in a partition. *)
Lemma layout_tables n ps p x : layout n ps -> p ∈ ps -> x ∈ table_places ps -> x < p.1 \/ p.1 + p.2 <= x.
Proof.
  intros Hlay Hp Hx. pose proof (layout_in n ps p Hlay Hp). unfold table_places in Hx. apply elem_of_cons in Hx as [->|Hx]; [lia|].
  destruct (Nat.ltb_spec 4 (length ps)); [|by apply not_elem_of_nil in Hx].
  apply list_elem_of_fmap in Hx as (q & -> & Hq). unfold link_at. apply list_elem_of_lookup_1 in Hq as [j Hj].
  apply list_elem_of_lookup_1 in Hp as [i Hi]. rewrite lookup_drop in Hj.
  destruct Hlay as [_ Hlay]. rewrite (proj2 (Nat.ltb_lt _ _)) in Hlay by done. destruct Hlay as [H1 H2].
  change DOS_EBR_BLOCK with 2048 in *. destruct (decide (i < 3)%nat) as [Hi3|Hi3].
  - assert (p ∈ take 3 ps) by (apply (list_elem_of_lookup_2 _ i); by rewrite lookup_take_lt).
    assert (q ∈ drop 3 ps) by (apply (list_elem_of_lookup_2 _ j); by rewrite lookup_drop).
    pose proof (fits_before_end 0 n _ 0 p ltac:(lia) H1 ltac:(done)). pose proof (fits_in 2048 n _ _ q ltac:(lia) H2 ltac:(done)). lia.
  - assert (Hi' : drop 3 ps !! (i - 3)%nat = Some p) by (rewrite lookup_drop; by replace (3 + (i - 3))%nat with i by lia).
    assert (Hj' : drop 3 ps !! j = Some q) by by rewrite lookup_drop.
    destruct (lt_eq_lt_dec (i - 3) j) as [[Hlt|Heq]|Hgt].
    + pose proof (fits_apart 2048 n _ _ (i - 3) j p q ltac:(lia) H2 Hi' Hj' Hlt). lia.
    + rewrite Heq, Hj' in Hi'. injection Hi' as ->. lia.
    + pose proof (fits_apart 2048 n _ _ j (i - 3) q p ltac:(lia) H2 Hj' Hi' Hgt). pose proof (fits_in 2048 n _ _ q ltac:(lia) H2 (list_elem_of_lookup_2 _ _ _ Hj')). lia.
Qed.

(** A table whose extended entry is itself is followed for ever. *)
Lemma loops_ok room fuel : forall d e parts, good d -> content d 0 = table [e] -> sized e -> is_extended (sys_ind e) = true ->
  le32_to_int (start4 e) = 0 -> get_part_table_extended fuel room 0 0 parts d = None.
Proof.
  induction fuel as [|fuel IH]; intros d e parts Hg Hc Hs He Hz; [done|].
  assert (Hse : Forall sized [e]) by (constructor; [done|constructor]). pose proof (dev_lba d Hg) as Hn.
  destruct (decide (length parts <= room)%nat) as [Hroom|Hroom].
  - destruct (read_table fuel room 0 0 [e] parts d Hg ltac:(lia) Hc Hse) as (d' & Hg' & _ & Hx & ->).
    + simpl. lia.
    + cbn [omap list_omap]. unfold slot_part. rewrite He. simpl. lia.
    + cbn [follow_list]. rewrite He, Hz. change (u64 (0 + 0)) with 0. change (0 =? 0) with true. cbn iota.
      by rewrite (IH d' e) by (rewrite ?Hx; done).
  - cbn [get_part_table_extended]. destruct (dev_read d 0 Hg ltac:(lia)) as (d' & -> & Hg' & _ & Hx).
    rewrite Hc, table_length by (done || simpl; lia). cbn [Nat.ltb Nat.leb].
    rewrite (drop_ge (replicate 512 0)) by (rewrite length_replicate; lia). rewrite app_nil_r, magic_ok by (done || simpl; lia). cbn [negb].
    assert (Ht : table_slots 4 0 room d' (table [e]) 0 parts = Some parts).
    { cbn [table_slots]. rewrite !get_entry_ok by (done || simpl; lia). cbn [nth]. rewrite He.
      change (is_extended (sys_ind no_part)) with false. change (u64 (le32_to_int (start4 no_part)) =? 0) with true. reflexivity. }
    rewrite Ht. cbn [mbind option_bind]. rewrite follow_slots_ok by (done || simpl; lia). cbn [drop follow_list].
    rewrite He, Hz. change (u64 (0 + 0)) with 0. change (0 =? 0) with true. cbn iota. by rewrite (IH d' e) by (rewrite ?Hx; done).
Qed.
End Disk.

(** ** The arguments *)

(** A text that is read as a number, whatever ends it but an x. *)
Definition number_text (b v : Z) (t : list Z) : Prop :=
  forall c rest, stops b c -> c <> 120 -> simple_strtoull (t ++ c :: rest) b = Some (v, c :: rest).

Definition fdisk_arg (p : Z * Z) (a : option (list Z)) : Prop :=
  exists t u, a = Some (t ++ 58 :: u) /\ text_ok t /\ (58 ∉ t) /\ number_text 16 p.1 t /\ number_text 16 p.2 u.

Lemma strchr_found c t r : is_u8 c -> text_ok t -> c ∉ t -> strchr (t ++ c :: r) c = Some (Some (c :: r)).
Proof.
  intros Hc Ht. induction Ht as [|x t Hx Ht IH]; intros Hin; cbn [app strchr]; rewrite (u8_small c Hc).
  - by rewrite Z.eqb_refl.
  - rewrite not_elem_of_cons in Hin. destruct (Z.eqb_spec x c) as [->|]; [by destruct Hin|]. destruct (Z.eqb_spec x 0); [lia|].
    rewrite <- IH; [|by destruct Hin]. done.
Qed.

Lemma written_number b v : b = 10 \/ b = 16 -> is_u64 v -> number_text b v (written b v).
Proof.
  intros Hb Hv c rest Hs Hx. assert (H2 : 2 <= b <= 16) by lia. unfold simple_strtoull, simple_strtoul, strtoul_prefix.
  destruct (Z.eq_dec v 0) as [->|Hne].
  - change (written b 0) with [48]. cbn [app head tail mbind option_bind]. change (48 =? 48) with true. cbn iota.
    destruct (Z.eqb_spec c 120); [done|]. unfold stops in Hs. destruct Hb as [->| ->]; cbn; by rewrite Hs.
  - destruct (written_leading b v H2 Hv Hne) as (x & ds & Hw & Hx48).
    pose proof (strtoul_loop_written b v c rest H2 Hv Hs) as Hl. rewrite Hw in *.
    cbn [app head mbind option_bind]. destruct (Z.eqb_spec x 48); [done|]. cbn [mbind option_bind].
    destruct (Z.eqb_spec b 0); [lia|done].
Qed.

Lemma prefixed_number v : is_u64 v -> number_text 16 v ([48; 120] ++ written 16 v).
Proof.
  intros Hv c rest Hs Hx. unfold simple_strtoull. rewrite <- app_assoc. cbn [app].
  pose proof (strtoul_loop_written 16 v c rest ltac:(lia) Hv Hs) as Hl. unfold simple_strtoul, strtoul_prefix.
  destruct (written_horner 16 v ltac:(lia) Hv) as [Hd _]. pose proof (written_nonempty 16 v ltac:(lia) Hv) as Hne.
  destruct (written 16 v) as [|y ys]; [done|]. cbn [app head tail mbind option_bind] in *.
  change (48 =? 48) with true. change (120 =? 120) with true. cbn iota. cbn [mbind option_bind].
  inversion Hd as [|? ? (Hy & _)]; subst. rewrite Hy. cbn iota. change (16 =? 0) with false. cbn iota. exact Hl.
Qed.

(** The arguments as numbers are written in base 16, with or without a prefix. *)
Lemma fdisk_arg_written p pre : pre = [] \/ pre = [48; 120] -> is_u64 p.1 -> is_u64 p.2 ->
  fdisk_arg p (Some ((pre ++ written 16 p.1) ++ 58 :: pre ++ written 16 p.2)).
Proof.
  intros Hpre H1 H2. eexists _, _. split; [done|]. split; [|split].
  - apply Forall_app. split; [destruct Hpre as [->| ->]; repeat constructor|]. by apply written_text.
  - rewrite not_elem_of_app. split; [|by apply written_without]. destruct Hpre as [->| ->]; by apply (bool_decide_unpack _).
  - destruct Hpre as [->| ->]; split; (apply prefixed_number || (apply written_number; [by right|])); done.
Qed.

Lemma parse_parts_ok ps args rest : Forall2 fdisk_arg ps args -> parse_parts (length ps) (args ++ rest) = Some (Some ps).
Proof.
  induction 1 as [|p a ps args (t & u & -> & Ht & Hc & H1 & H2) _ IH]; [done|]. cbn [length parse_parts app head mjoin option_join mbind option_bind tail].
  unfold cstr. rewrite <- app_assoc. cbn [app]. rewrite H1 by done. cbn [mbind option_bind].
  rewrite strchr_found by done. cbn [mbind option_bind]. cbn [drop]. rewrite drop_0, H2 by done. cbn [mbind option_bind]. rewrite IH. cbn [mbind option_bind].
  by destruct p.
Qed.

Lemma do_fdisk_ok `{BlockDev} (get_device : list Z -> bool) dev a args ps d ret d' r : get_device dev = true ->
  simple_strtoul (cstr a []) 10 = Some (Z.of_nat (length ps), r) -> (1 <= length ps <= 8)%nat -> Forall2 fdisk_arg ps args ->
  mmc_make_part_table ps (Z.of_nat (length ps)) PART_TYPE_DOS d = Some (ret, d') ->
  do_fdisk get_device (3 + Z.of_nat (length ps)) (Some (chars "fdisk") :: Some dev :: Some a :: args ++ [None]) d = Some (0, d').
Proof.
  intros Hdev Ha Hl Hargs Hm. unfold do_fdisk. destruct (Z.ltb_spec (3 + Z.of_nat (length ps)) 2); [lia|].
  cbn [lookup list_lookup mjoin option_join mbind option_bind]. rewrite Hdev. cbn [negb].
  destruct (Z.eqb_spec (3 + Z.of_nat (length ps)) 2); [lia|]. rewrite Ha. cbn [mbind option_bind].
  rewrite s32_small by (unfold is_s32; lia). destruct (Z.ltb_spec (Z.of_nat (length ps)) 1); [lia|]. unfold MAX_PART_TABLE.
  destruct (Z.ltb_spec 8 (Z.of_nat (length ps))); [lia|]. cbn [orb drop]. rewrite Nat2Z.id, drop_0, parse_parts_ok by done. cbn [mbind option_bind].
  by rewrite Hm.
Qed.

(** ** The claims *)

Section Claims.
Context `{HB : BlockDev} (good : bdev -> Prop) (content : bdev -> Z -> list Z) `{HG : !GoodDev good content}.

(** C27: what fdisk is told is what the readers of the table find: for every layout of up
    to eight partitions, the command writes the table, with a chain of extended tables
    for more than four, and reading it returns the starts and lengths in the order
    given; nothing else on the disk changes, but for the first sector of the fourth
    partition. *)
Theorem fdisk_roundtrip (get_device : list Z -> bool) dev a args ps d r : good d -> layout (lba d) ps -> get_device dev = true ->
  simple_strtoul (cstr a []) 10 = Some (Z.of_nat (length ps), r) -> Forall2 fdisk_arg (bytes_of <$> ps) args ->
  exists d', do_fdisk get_device (3 + Z.of_nat (length ps)) (Some (chars "fdisk") :: Some dev :: Some a :: args ++ [None]) d = Some (0, d') /\
    good d' /\ (forall x, x ∉ tables_at ps -> content d' x = content d x) /\
    forall fuel room, (length ps < fuel)%nat -> (length ps <= room)%nat ->
      exists d2, get_part_table fuel room d' = Some (bytes_of <$> ps, d2) /\ forall x, content d2 x = content d' x.
Proof.
  intros Hg Hl Hdev Ha Hargs. destruct (fdisk_ok ps d Hg Hl) as (d' & Hm & Hg' & Hn' & Hfr & _ & Hread). exists d'. split.
  2: { split; [done|]. split; [done|]. intros fuel room Hfuel Hroom.
    destruct (Hread d' fuel room Hg' eq_refl (fun _ _ => eq_refl) Hfuel Hroom) as (d2 & Hr & _ & _ & Hx). by exists d2. }
  replace (length ps) with (length (bytes_of <$> ps)) in * by apply length_fmap.
  by apply (do_fdisk_ok get_device dev a args (bytes_of <$> ps) d 1 d' r); [..|rewrite length_fmap; apply Hl|done|].
Qed.

(** With more than four partitions the end of the chain is written over the first
    sector of the fourth partition: an empty table takes the place of what it held. *)
Theorem fdisk_erases ps q d : good d -> layout (lba d) ps -> (4 < length ps)%nat -> ps !! 3%nat = Some q ->
  exists d', mmc_make_part_table (bytes_of <$> ps) (Z.of_nat (length ps)) PART_TYPE_DOS d = Some (1, d') /\ content d' q.1 = empty_table.
Proof.
  intros Hg Hl Hn Hq. destruct (fdisk_ok ps d Hg Hl) as (d' & Hm & _ & _ & _ & He & _). exists d'. split; [done|]. by apply He.
Qed.

(** The space left is counted from the end of the partition before, not from the
    start of the one that is made: behind a gap a partition may end beyond the disk,
    and one of length zero, which stands for all that is left, does. *)
Theorem fdisk_beyond_end p s l d : good d -> fits 0 (lba d) 0 [p] -> p.1 + p.2 < s < 2 ^ 31 -> 0 <= l <= lba d - (p.1 + p.2) ->
  p.1 + p.2 < lba d ->
  let size := if l =? 0 then lba d - (p.1 + p.2) else l in
  exists d', mmc_make_part_table [bytes_of p; bytes_of (s, l)] 2 PART_TYPE_DOS d = Some (1, d') /\
    content d' 0 = table [prim p; prim (s, size)] /\ (l = 0 -> lba d < s + size).
Proof.
  intros Hg Hf Hs Hl Hend size. pose proof (dev_lba d Hg) as Hn. pose proof Hf as Hf0. cbn [fits] in Hf. destruct Hf as (H1 & H2 & H3 & H4 & _).
  destruct (dev_write d 0 (table [prim p; prim (s, size)]) Hg ltac:(lia)) as (d' & Hw & _ & _ & Hc).
  { apply table_length; [by repeat constructor|simpl; lia]. }
  exists d'. split; [|split; [by rewrite Hc|unfold size; intros ->; simpl; lia]].
  unfold mmc_make_part_table. change (negb (PART_TYPE_DOS =? PART_TYPE_DOS)) with false. change (2 <? 1) with false.
  change (MAX_PART_TABLE <? 2) with false. change (4 <? 2) with false. cbn [orb lookup list_lookup mbind option_bind].
  assert (Hd : lldiv (bytes_of p).1 (blksz d) = Some p.1) by (unfold bytes_of; cbn [fst]; rewrite (dev_blksz d Hg); apply lldiv_sectors; lia).
  rewrite Hd. cbn [mbind option_bind]. rewrite s32_small, u64_small by (unfold is_s32, is_u64; lia).
  change (Z.to_nat 2) with 2%nat. cbn [primary_loop lookup list_lookup mbind option_bind]. rewrite primary_ok by (done || lia). cbn [mbind option_bind].
  assert (He : primary_entry d (bytes_of (s, l)) (p.1 + p.2) = Some (inr (prim (s, size), u64 (s + size)))).
  { unfold primary_entry, bytes_of. cbn [fst snd]. rewrite (dev_blksz d Hg), !lldiv_sectors by lia. cbn [mbind option_bind].
    rewrite (u64_small (lba d - _)) by (unfold is_u64; lia). unfold size. destruct (Z.eqb_spec (512 * l) 0), (Z.eqb_spec l 0); try lia; cbn [negb mbind option_bind];
      (destruct (Z.eqb_spec s 0); [lia|]); (destruct (Z.ltb_spec s (p.1 + p.2)); [lia|]); [by rewrite Z.ltb_irrefl|].
    by destruct (Z.ltb_spec (lba d - (p.1 + p.2)) l); [lia|]. }
  rewrite He. cbn [mbind option_bind]. rewrite empty_table_ok. change 0%nat with (length (@nil dos_partition)).
  rewrite put_entry_ok by (done || simpl; lia). cbn [app]. change (S (length (@nil dos_partition))) with (length [prim p]).
  rewrite put_entry_ok; [|by repeat constructor|done|simpl; lia]. cbn [app]. by rewrite Hw.
Qed.

(** A table whose extended entry leads back to the table is read for ever: no depth
    of the recursion is enough. *)
Theorem part_table_loops room fuel e d : good d -> content d 0 = table [e] -> sized e -> is_extended (sys_ind e) = true ->
  le32_to_int (start4 e) = 0 -> get_part_table fuel room d = None.
Proof. intros Hg Hc Hs He Hz. by apply (loops_ok room fuel d e). Qed.
End Claims.

(** ** A disk in memory, and examples on it *)

#[global] Instance ram_disk : BlockDev := {|
  bdev := Z -> list Z;
  lba _ := 2 ^ 20;
  blksz _ := MMC_BLOCK_SIZE;
  block_read a n d := (n, concat (d <$> seqZ a n), d);
  block_write a n data d :=
    (n, fun x => if (a <=? x) && (x <? a + n) then slice (Z.to_nat (512 * (x - a))) 512 data else d x);
|}.

Definition ram_good (d : bdev) : Prop := forall a, length ((d : Z -> list Z) a) = 512%nat.
Definition ram_content (d : bdev) (a : Z) : list Z := (d : Z -> list Z) a.

#[global] Instance ram_good_dev : GoodDev ram_good ram_content.
Proof.
  constructor.
  - done.
  - done.
  - intros d a Hg. apply Hg.
  - intros d a Hg Ha. exists d. split; [|done]. unfold block_read. cbn [ram_disk].
    rewrite (seqZ_cons a 1), seqZ_nil by lia. cbn [fmap list_fmap concat]. by rewrite app_nil_r.
  - intros d a data Hg Ha Hl. eexists. split; [reflexivity|].
    assert (Hc : forall x, (if (a <=? x) && (x <? a + 1) then slice (Z.to_nat (512 * (x - a))) 512 data else d x) = if x =? a then data else d x).
    { intros x. destruct (Z.eqb_spec x a) as [E|E], (Z.leb_spec a x), (Z.ltb_spec x (a + 1)); try lia; try done. cbn [andb].
      rewrite E, Z.sub_diag. unfold slice. cbn [Z.mul Z.to_nat]. rewrite drop_0. apply take_ge. lia. }
    split; [|split; [done|exact Hc]]. intros x. rewrite Hc. by destruct (x =? a).
Qed.

(** A disk of blocks of ones. *)
Definition used_disk : bdev := fun _ => replicate 512 1.

Lemma used_disk_good : ram_good used_disk.
Proof. intros a. apply length_replicate. Qed.

Definition five_parts : list (Z * Z) := [(2048, 4096); (8192, 4096); (16384, 4096); (32768, 4096); (65536, 65536)].

Definition five_args : list (option (list Z)) :=
  (fun p => Some (([48; 120] ++ written 16 p.1) ++ 58 :: [48; 120] ++ written 16 p.2)) <$> (bytes_of <$> five_parts).

Lemma five_layout : layout (lba used_disk) five_parts.
Proof. refine (bool_decide_eq_true_1 _ _). vm_compute. reflexivity. Qed.

Lemma five_args_ok : Forall2 fdisk_arg (bytes_of <$> five_parts) five_args.
Proof.
  unfold five_args. apply Forall2_fmap_r. apply Forall_Forall2_diag.
  assert (Hr : Forall (fun p => is_u64 p.1 /\ is_u64 p.2) (bytes_of <$> five_parts)) by (refine (bool_decide_eq_true_1 _ _); vm_compute; reflexivity).
  eapply Forall_impl; [exact Hr|]. intros p [H1 H2]. apply fdisk_arg_written; [by right|done|done].
Qed.

Example five_args_text : five_args !! 0%nat = Some (Some (chars "0x100000:0x200000")).
Proof. vm_compute. reflexivity. Qed.

Lemma fdisk_roundtrip_witness : exists d',
  do_fdisk (fun _ => true) 8 (Some (chars "fdisk") :: Some (chars "0") :: Some (chars "5") :: five_args ++ [None]) used_disk = Some (0, d') /\
  ram_good d' /\ (forall x, x ∉ tables_at five_parts -> ram_content d' x = ram_content used_disk x) /\
  forall fuel room, (5 < fuel)%nat -> (5 <= room)%nat ->
    exists d2, get_part_table fuel room d' = Some (bytes_of <$> five_parts, d2) /\ forall x, ram_content d2 x = ram_content d' x.
Proof.
  apply (fdisk_roundtrip ram_good ram_content (fun _ => true) (chars "0") (chars "5") five_args five_parts used_disk [0]).
  - exact used_disk_good.
  - exact five_layout.
  - reflexivity.
  - reflexivity.
  - exact five_args_ok.
Defined.

Lemma fdisk_erases_witness : exists d',
  mmc_make_part_table (bytes_of <$> five_parts) 5 PART_TYPE_DOS used_disk = Some (1, d') /\ ram_content d' 32768 = empty_table.
Proof.
  apply (fdisk_erases ram_good ram_content five_parts (32768, 4096) used_disk).
  - exact used_disk_good.
  - exact five_layout.
  - exact (le_n 5).
  - reflexivity.
Defined.

Lemma fdisk_beyond_end_witness : exists d',
  mmc_make_part_table [bytes_of (2048, 4096); bytes_of (0xf0000, 0)] 2 PART_TYPE_DOS used_disk = Some (1, d') /\
  ram_content d' 0 = table [prim (2048, 4096); prim (0xf0000, 2 ^ 20 - 6144)] /\ 2 ^ 20 < 0xf0000 + (2 ^ 20 - 6144).
Proof.
  destruct (fdisk_beyond_end ram_good ram_content (2048, 4096) 0xf0000 0 used_disk) as (d' & Hm & Hc & Hb).
  - exact used_disk_good.
  - refine (bool_decide_eq_true_1 _ _). vm_compute. reflexivity.
  - split; reflexivity.
  - split; discriminate.
  - reflexivity.
  - exists d'. split; [exact Hm|]. split; [exact Hc|]. apply Hb. reflexivity.
Defined.

Lemma part_table_loops_witness :
  get_part_table 1000 8 (fun _ => table [part_mmc_chs 0 5 0 0] : list Z) = None.
Proof.
  apply (part_table_loops ram_good ram_content 8 1000 (part_mmc_chs 0 5 0 0) (fun _ => table [part_mmc_chs 0 5 0 0])).
  - intros a. reflexivity.
  - reflexivity.
  - split; reflexivity.
  - reflexivity.
  - reflexivity.
Defined.

(** Two partitions of a chain that overlap are accepted: the end of the first is
    compared as counted from its table. *)
Example overlap_accepted :
  fst <$> mmc_make_part_table (bytes_of <$> [(2048, 4096); (8192, 4096); (16384, 4096); (32768, 40000); (65536, 4096)]) 5 PART_TYPE_DOS used_disk = Some 1.
Proof. vm_compute. reflexivity. Qed.

(** The fourth partition that [get_part_table] finds has the number 5. *)
Definition five_disk : bdev := default used_disk (snd <$> mmc_make_part_table (bytes_of <$> five_parts) 5 PART_TYPE_DOS used_disk).

Example part_numbers :
  (fun n => snd (fst (default (0, None, five_disk) (get_partition_info_dos 8 n five_disk)))) <$> [1; 3; 4; 5; 6] =
  [Some (mkInfo 2048 4096 512 false); Some (mkInfo 16384 4096 512 false); None;
   Some (mkInfo 32768 4096 512 false); Some (mkInfo 65536 65536 512 false)].
Proof. vm_compute. reflexivity. Qed.

(** A table with more partitions than the array of eight runs over its end. *)
Example table_overruns :
  get_part_table 4 8 (fun a => table (if a =? 0 then [prim (1, 1); prim (2, 1); prim (3, 1); part_mmc_chs 0 5 10 1]
    else if a =? 10 then [prim (1, 1); prim (2, 1); prim (3, 1); part_mmc_chs 0 5 10 1] else [prim (1, 1); prim (2, 1); prim (3, 1)])) = None /\
  is_Some (get_part_table 4 9 (fun a => table (if a =? 0 then [prim (1, 1); prim (2, 1); prim (3, 1); part_mmc_chs 0 5 10 1]
    else if a =? 10 then [prim (1, 1); prim (2, 1); prim (3, 1); part_mmc_chs 0 5 10 1] else [prim (1, 1); prim (2, 1); prim (3, 1)]))).
Proof. split; [|eexists]; vm_compute; reflexivity. Qed.
