(* ===== verification/Ext4Img.v ===== *)
(** Sparse images (src/U-Boot/common/cmd_ext4_img_write.c).

    An image in memory is a header and a list of chunks, each with a header of its own;
    a raw chunk carries blocks of 4096 bytes, the others only say how many blocks to
    pass over.  The command looks the partition up in the table of [MmcPart] and writes
    the raw chunks to their places, each with a command line that is printed by
    [Vsprintf] and run by the shell, which is the interface [Shell]; a chunk that does
    not lie on a multiple of eight bytes is copied to a buffer first, with the [memcpy]
    of [UMem].  Reading an address without a byte is [None], as is hanging.  Messages
    leave no trace. *)

From S2P Require Import Prelude UStr Vsprintf UMem MmcPart.

(** ** Headers *)

Definition SECTOR_BITS : Z := 9.
Definition EXT4_FILE_HEADER_MAGIC : Z := 0xED26FF3A.
Definition EXT4_FILE_HEADER_MAJOR : Z := 1.
Definition EXT4_FILE_BLOCK_SIZE : Z := 0x1000.
Definition EXT4_FILE_HEADER_SIZE : Z := 28.
Definition EXT4_CHUNK_HEADER_SIZE : Z := 12.
Definition EXT4_CHUNK_TYPE_RAW : Z := 0xCAC1.
Definition EXT4_CHUNK_TYPE_FILL : Z := 0xCAC2.
Definition EXT4_CHUNK_TYPE_NONE : Z := 0xCAC3.
Definition ALIGN_BUFFER_SIZE : Z := 0x4000000.
Definition WRITE_SECTOR : Z := 65536.

(** include/configs/s5p6818_drone.h and include/common.h *)
Definition CONFIG_MEM_MALLOC_LENGTH : Z := 32 * 1024 * 1024.
Definition CONFIG_SYS_MALLOC_LEN : Z := CONFIG_MEM_MALLOC_LENGTH - 0x8000.
Definition TOTAL_MALLOC_LEN : Z := CONFIG_SYS_MALLOC_LEN.

(** The bytes of an object, and a number of [n] bytes. *)
Definition read_bytes (m : mem) (p : Z) (n : Z) : option (list Z) := mapM (load m) (seqZ p n).
Definition read_num (m : mem) (p : Z) (n : Z) : option Z := le_word <$> read_bytes m p n.

(** The fields of the two structures, as they are laid out. *)
Record ext4_file_header := mkFile {
  f_magic : Z; f_major : Z; f_minor : Z; f_header_size : Z; f_chunk_header_size : Z;
  f_block_size : Z; f_total_blocks : Z; f_total_chunks : Z; f_crc32 : Z;
}.

Definition file_header (m : mem) (p : Z) : option ext4_file_header :=
  a ← read_num m p 4; b ← read_num m (p + 4) 2; c ← read_num m (p + 6) 2; d ← read_num m (p + 8) 2; e ← read_num m (p + 10) 2;
  f ← read_num m (p + 12) 4; g ← read_num m (p + 16) 4; h ← read_num m (p + 20) 4; i ← read_num m (p + 24) 4;
  Some (mkFile a b c d e f g h i).

Record ext4_chunk_header := mkChunk { c_type : Z; c_reserved : Z; c_chunk_size : Z; c_total_size : Z }.

Definition chunk_header (m : mem) (p : Z) : option ext4_chunk_header :=
  a ← read_num m p 2; b ← read_num m (p + 2) 2; c ← read_num m (p + 4) 4; d ← read_num m (p + 8) 4;
  Some (mkChunk a b c d).

(** ** The shell *)

(** The return value of a command line, and what it does to memory and the disk; and
    the driver's own function, with the bytes it takes. *)
Class Shell `{BlockDev} := {
  run_command : list Z -> mem -> bdev -> Z * mem * bdev;
  mmc_bwrite : Z -> Z -> list Z -> bdev -> Z * bdev;
}.

Section Ext4Img.
Context `{Shell}.

(** [gd->relocaddr]. *)
Context (relocaddr : Z).

(** A command line in an object of 64 bytes on the stack: the arguments are [int]s. *)
Definition mmc_write (addr sector sector_size : Z) (m : mem) (d : bdev) : option (Z * mem * bdev) :=
  '(_, run_cmd) ← sprintf false (replicate 64 0) (chars "mmc write 0x%x 0x%x 0x%x" ++ [0]) [Int (s32 addr); Int sector; Int sector_size];
  Some (run_command (until0 run_cmd) m d).

(** The [do] loop: [offset] stays zero. *)
Fixpoint raw_loop (fuel : nat) (tmp_align data offset sector sector_size : Z) (m : mem) (d : bdev) : option (mem * bdev) :=
  match fuel with
  | O => None
  | S n =>
      '(sector', size', m, d) ← (if WRITE_SECTOR <? sector_size then
          '(_, m) ← memcpy tmp_align (data + offset) (WRITE_SECTOR * 512) m;
          '(_, m, d) ← mmc_write tmp_align sector WRITE_SECTOR m d;
          Some (u32 (sector + WRITE_SECTOR), u32 (sector_size - WRITE_SECTOR), m, d)
        else
          '(_, m) ← memcpy tmp_align (data + offset) (u32 (sector_size * 512)) m;
          '(_, m, d) ← mmc_write tmp_align sector sector_size m d;
          Some (sector, u32 (sector_size - sector_size), m, d));
      if 0 <? size' then raw_loop n tmp_align data offset sector' size' m d else Some (m, d)
  end.

Definition write_raw_chunk (data sector sector_size : Z) (m : mem) (d : bdev) : option (Z * mem * bdev) :=
  if negb (u64 data mod 8 =? 0) then
    let tmp_align := u64 (relocaddr - TOTAL_MALLOC_LEN) in
    let tmp_align := u64 (tmp_align - ALIGN_BUFFER_SIZE) in
    '(m, d) ← raw_loop (S (Z.to_nat (sector_size / WRITE_SECTOR))) tmp_align data 0 sector sector_size m d;
    Some (0, m, d)
  else '(_, m, d) ← mmc_write data sector sector_size m d; Some (0, m, d).

(** The function a chunk is written with; fastboot sets another. *)
Definition write_raw_chunk_cb : Type := Z -> Z -> Z -> mem -> bdev -> option (Z * mem * bdev).

Definition set_write_raw_chunk_cb (cb : write_raw_chunk_cb) (old : write_raw_chunk_cb) : Z * write_raw_chunk_cb := (0, cb).

(** ** Images *)

(** [None] is also the endless loop for an image that is bigger than the partition. *)
Definition check_compress_ext4 (m : mem) (img_base parti_size : Z) : option Z :=
  h ← file_header m img_base;
  if negb (f_magic h =? EXT4_FILE_HEADER_MAGIC) then Some (-1)
  else if negb (f_major h =? EXT4_FILE_HEADER_MAJOR) then Some (-1)
  else if negb (f_header_size h =? EXT4_FILE_HEADER_SIZE) then Some (-1)
  else if negb (f_chunk_header_size h =? EXT4_CHUNK_HEADER_SIZE) then Some (-1)
  else if negb (f_block_size h =? EXT4_FILE_BLOCK_SIZE) then Some (-1)
  else if parti_size / f_block_size h <? f_total_blocks h then None
  else Some 0.

(** [while (total_chunks)] *)
Fixpoint chunks_loop (total_chunks : nat) (cb : write_raw_chunk_cb) (header img_base sector_base : Z) (m : mem) (d : bdev)
    : option (mem * bdev) :=
  match total_chunks with
  | O => Some (m, d)
  | S n =>
      c ← chunk_header m img_base; h ← file_header m header;
      let sector_size := Z.shiftr (u32 (c_chunk_size c * f_block_size h)) SECTOR_BITS in
      '(m, d) ← (if c_type c =? EXT4_CHUNK_TYPE_RAW then
          '(_, m, d) ← cb (img_base + EXT4_CHUNK_HEADER_SIZE) sector_base sector_size m d; Some (m, d)
        else Some (m, d));
      c ← chunk_header m img_base;
      chunks_loop n cb header (img_base + c_total_size c) (u32 (sector_base + sector_size)) m d
  end.

(** A negative number of chunks is counted down until the [int] overflows. *)
Definition write_compressed_ext4 (cb : write_raw_chunk_cb) (img_base sector_base : Z) (m : mem) (d : bdev) : option (Z * mem * bdev) :=
  h ← file_header m img_base;
  let total_chunks := s32 (f_total_chunks h) in
  if total_chunks <? 0 then None else
  '(m, d) ← chunks_loop (Z.to_nat total_chunks) cb img_base (img_base + EXT4_FILE_HEADER_SIZE) sector_base m d;
  Some (0, m, d).

(** ** The command *)

(** The arguments are strings; [cmd] is an object of 32 bytes, [parts] has room for
    eight partitions; the recursion along the table has the fuel given. *)
Definition do_compressed_ext4_write (cb : write_raw_chunk_cb) (get_device : list Z -> bool) (fuel : nat)
    (argc : Z) (argv : list (option (list Z))) (m : mem) (d : bdev) : option (Z * mem * bdev) :=
  if argc <? 5 then Some (1, m, d) else
  a1 ← mjoin (argv !! 1%nat); a2 ← mjoin (argv !! 2%nat); a3 ← mjoin (argv !! 3%nat); a4 ← mjoin (argv !! 4%nat);
  if negb (get_device a1) then Some (1, m, d) else
  '(dev, _) ← simple_strtoul (cstr a1 []) 10;
  '(_, cmd) ← sprintf false (replicate 32 0) (chars "mmc dev %d" ++ [0]) [Int (s32 dev)];
  let '(ret, m, d) := run_command (until0 cmd) m d in
  if ret <? 0 then Some (-1, m, d) else
  '(mem_addr, _) ← simple_strtoul (cstr a2 []) 16;
  '(dst_addr, _) ← simple_strtoull (cstr a3 []) 16;
  '(mem_len, _) ← simple_strtoull (cstr a4 []) 16;
  let p := u32 mem_addr in
  let cnt := u64 (mem_len / MMC_BLOCK_SIZE + (if negb (Z.land mem_len (MMC_BLOCK_SIZE - 1) =? 0) then 1 else 0)) in
  let partno := s32 dst_addr in
  '(parts, d) ← get_part_table fuel 8 d;
  let num := Z.of_nat (length parts) in
  if (num <? partno) || (partno <? 1) then Some (1, m, d) else
  part ← parts !! Z.to_nat (partno - 1);
  let blk := part.1 / MMC_BLOCK_SIZE in
  ok ← check_compress_ext4 m p part.2;
  if ok =? 0 then
    '(_, m, d) ← write_compressed_ext4 cb p (u32 blk) m d; Some (1, m, d)
  else if blk =? 0 then Some (-1, m, d)
  else
    data ← read_bytes m p (cnt * MMC_BLOCK_SIZE);
    let '(ret, d) := mmc_bwrite (s32 dev) blk data d in Some (s32 ret, m, d).
End Ext4Img.

(** ** A shell that writes to the disk *)

(** The command line for writing [n] sectors from [a] to [s]. *)
Definition write_text (a s n : Z) : list Z :=
  chars "mmc write 0x" ++ written 16 a ++ chars " 0x" ++ written 16 s ++ chars " 0x" ++ written 16 n.

Definition dev_text (n : Z) : list Z := chars "mmc dev " ++ written 10 n.

Class GoodShell `{Shell} (disk : Z) (good : bdev -> Prop) (content : bdev -> Z -> list Z) := {
  shell_dev :: GoodDev good content;
  shell_disk : 0 <= disk < 2 ^ 31;
  shell_select m d : good d ->
    exists d', run_command (dev_text disk) m d = (0, m, d') /\ good d' /\ lba d' = lba d /\ forall x, content d' x = content d x;
  shell_write a s n bs m d : good d -> 0 <= a < 2 ^ 32 -> 0 <= s -> 0 < n -> s + n <= lba d ->
    holds m a bs -> Z.of_nat (length bs) = 512 * n ->
    exists d', run_command (write_text a s n) m d = (0, m, d') /\ good d' /\ lba d' = lba d /\
      forall x, content d' x = if (s <=? x) && (x <? s + n) then slice (Z.to_nat (512 * (x - s))) 512 bs else content d x;
}.

Section Writing.
Context `{HS : Shell} {disk : Z} {good : bdev -> Prop} {content : bdev -> Z -> list Z} `{HG : !GoodShell disk good content}.

Lemma written32 v : 0 <= v < 2 ^ 32 -> text_ok (written 16 v) /\ (length (written 16 v) <= 8)%nat.
Proof.
  intros Hv. split; [apply written_text; [lia|unfold is_u64; lia]|]. apply written_room; [lia| |lia].
  change (16 ^ Z.of_nat 8) with (2 ^ 32). lia.
Qed.

Lemma chars_ok s : Forall (fun c => 0 < c < 256) (chars s) -> text_ok (chars s).
Proof. done. Qed.

Lemma write_text_ok a s n : 0 <= a < 2 ^ 32 -> 0 <= s < 2 ^ 32 -> 0 <= n < 2 ^ 32 ->
  text_ok (write_text a s n) /\ (length (write_text a s n) < 64)%nat.
Proof.
  intros Ha Hs Hn. destruct (written32 a Ha) as [H1 L1]. destruct (written32 s Hs) as [H2 L2]. destruct (written32 n Hn) as [H3 L3].
  unfold write_text. split.
  - unfold text_ok. rewrite !Forall_app. split_and!; (done || (apply (bool_decide_unpack _); vm_compute; exact I)).
  - rewrite !length_app. simpl length. lia.
Qed.

(** The command line is printed as it is meant. *)
Lemma mmc_write_ok a s n m d : 0 <= a < 2 ^ 32 -> 0 <= s < 2 ^ 32 -> 0 <= n < 2 ^ 32 ->
  mmc_write a s n m d = Some (run_command (write_text a s n) m d).
Proof.
  intros Ha Hs Hn. destruct (write_text_ok a s n Ha Hs Hn) as [Ht Hl]. unfold mmc_write.
  assert (Hf : format (length (chars "mmc write 0x%x 0x%x 0x%x" ++ [0])) (chars "mmc write 0x%x 0x%x 0x%x" ++ [0])
      [Int (s32 a); Int s; Int n] 0 = Some (write_text a s n, [])).
  { change (length (chars "mmc write 0x%x 0x%x 0x%x" ++ [0])) with 25%nat.
    change (chars "mmc write 0x%x 0x%x 0x%x" ++ [0]) with
      [109; 109; 99; 32; 119; 114; 105; 116; 101; 32; 48; 120; 37; 120; 32; 48; 120; 37; 120; 32; 48; 120; 37; 120; 0].
    run_format. rewrite u32_s32, !u32_small by (unfold is_u32; lia). cbn [app]. by rewrite app_nil_r. }
  destruct (sprintf_text (replicate 64 0) _ _ _ Hf Ht) as (b & -> & Hb & _); [by rewrite length_replicate|done|].
  cbn [mbind option_bind]. by rewrite Hb.
Qed.

Context (relocaddr : Z).

(** The buffer for chunks that are not aligned. *)
Definition align_buffer : Z := u64 (u64 (relocaddr - TOTAL_MALLOC_LEN) - ALIGN_BUFFER_SIZE).

(** Sectors [s] to [s + n] are the first bytes of [bs], the rest is what it was. *)
Definition put_sectors (s n : Z) (bs : list Z) (c c' : Z -> list Z) : Prop :=
  forall x, c' x = if (s <=? x) && (x <? s + n) then slice (Z.to_nat (512 * (x - s))) 512 bs else c x.

(** One command: the bytes at [a] go to the disk. *)
Lemma mmc_write_sectors a s n bs m d : good d -> 0 <= a < 2 ^ 32 -> 0 <= s -> 0 < n -> s + n <= lba d ->
  holds m a bs -> Z.of_nat (length bs) = 512 * n ->
  exists d', mmc_write a s n m d = Some (0, m, d') /\ good d' /\ lba d' = lba d /\ put_sectors s n bs (content d) (content d').
Proof.
  intros Hg Ha Hs Hn Hl Hh Hlen. pose proof (dev_lba d Hg). rewrite mmc_write_ok by lia.
  destruct (shell_write a s n bs m d) as (d' & -> & Hr); [done..|]. by exists d'.
Qed.

(** A copy to the buffer and one command. *)
Lemma buffer_step k tmp data s n bs m d : Z.of_nat k = 512 * n -> good d -> 0 <= tmp < 2 ^ 32 -> 0 <= s -> 0 < n -> s + n <= lba d ->
  holds m data bs -> 512 * n <= Z.of_nat (length bs) -> data + 512 * n <= tmp -> UMem.fits m tmp (512 * n) ->
  exists d', mbind (fun '(_, m) => '(_, m, d) ← mmc_write tmp s n m d; Some (m, d)) (memcpy tmp data (512 * n) m) =
      Some (write tmp (take k bs) m, d') /\
    good d' /\ lba d' = lba d /\ put_sectors s n (take k bs) (content d) (content d').
Proof.
  intros Ek Hg Ht Hs Hn Hl Hh Hlen Hd Hf.
  assert (Hk : Z.of_nat (length (take k bs)) = 512 * n) by (rewrite length_take; lia).
  assert (Hh' : holds m data (take k bs)) by (rewrite <- (take_drop k bs) in Hh; apply holds_app in Hh; tauto).
  assert (Hm := memcpy_ok m tmp data (take k bs) Hh'). rewrite Hk in Hm. rewrite Hm by (done || lia). cbn [mbind option_bind].
  destruct (mmc_write_sectors tmp s n (take k bs) (write tmp (take k bs) m) d) as (d' & -> & Hr); [done..|apply write_holds|done|].
  cbn [mbind option_bind]. by exists d'.
Qed.

(** What is on the disk after the loop: the first 32 megabytes, over and over. *)
Lemma raw_loop_ok tmp data bs fuel : forall s n m d, (Z.to_nat (n / WRITE_SECTOR) < fuel)%nat -> good d -> 0 <= tmp < 2 ^ 32 ->
  0 <= s -> 0 < n -> s + n <= lba d -> holds m data bs -> 512 * n <= Z.of_nat (length bs) ->
  data + Z.of_nat (length bs) <= tmp -> UMem.fits m tmp (512 * Z.min n WRITE_SECTOR) ->
  exists m' d', raw_loop fuel tmp data 0 s n m d = Some (m', d') /\ good d' /\ lba d' = lba d /\
    (forall q, q < tmp -> m' !! q = m !! q) /\ (forall q k, UMem.fits m q k -> UMem.fits m' q k) /\
    forall x, content d' x = if (s <=? x) && (x <? s + n) then slice (Z.to_nat (512 * ((x - s) mod WRITE_SECTOR))) 512 bs else content d x.
Proof.
  assert (Hsl : forall k o (l : list Z), (o + 512 <= k)%nat -> slice o 512 (take k l) = slice o 512 l).
  { intros k o l Ho. unfold slice. rewrite skipn_firstn_comm, take_take. f_equal. lia. }
  induction fuel as [|fuel IH]; intros s n m d Hfuel Hg Ht Hs Hn Hl Hh Hlen Hd Hf; [lia|].
  pose proof (dev_lba d Hg) as Hlba. cbn [raw_loop]. rewrite !Z.add_0_r. unfold WRITE_SECTOR in *.
  destruct (Z.ltb_spec 65536 n) as [Hbig|Hsmall].
  - assert (exists k, Z.of_nat k = 512 * 65536) as [k Ek] by (exists (Z.to_nat (512 * 65536)); apply Z2Nat.id; lia).
    destruct (buffer_step k tmp data s 65536 bs m d) as (d1 & Hb & Hg1 & Hl1 & Hc1); [done|done|done|done|lia|lia|done|lia|lia| |].
    { eapply fits_sub; [exact Hf|lia|lia]. }
    change (65536 * 512) with (512 * 65536).
    destruct (memcpy tmp data (512 * 65536) m) as [[r0 m0]|]; [|done]. cbn [mbind option_bind] in Hb |- *.
    destruct (mmc_write tmp s 65536 m0 d) as [[[r1 m1] dd]|]; [|done]. cbn [mbind option_bind] in Hb |- *. injection Hb as -> ->.
    rewrite !u32_small by (unfold is_u32; lia). destruct (Z.ltb_spec 0 (n - 65536)); [|lia].
    assert (Htk : Z.of_nat (length (take k bs)) = 512 * 65536) by (rewrite length_take; lia).
    destruct (IH (s + 65536) (n - 65536) (write tmp (take k bs) m) d1) as (m' & d' & Hr & Hg' & Hl' & Hm' & Hf' & Hc');
      [|done|done|lia|lia|lia| |lia|lia| |].
    + replace n with (n - 65536 + 1 * 65536) in Hfuel by lia. rewrite Z.div_add in Hfuel by lia.
      assert (0 <= (n - 65536) / 65536) by (apply Z.div_pos; lia). lia.
    + apply holds_write; [done|]. right. lia.
    + apply fits_write. eapply fits_sub; [exact Hf|lia|lia].
    + exists m', d'. split; [done|]. split_and!; [done|lia| | |].
      * intros q Hq. rewrite Hm' by done. apply write_out. by left.
      * intros q j Hq. apply Hf'. by apply fits_write.
      * intros x. rewrite Hc'. rewrite Hc1.
        destruct (Z.leb_spec s x), (Z.ltb_spec x (s + n)), (Z.leb_spec (s + 65536) x), (Z.ltb_spec x (s + 65536 + (n - 65536))),
          (Z.ltb_spec x (s + 65536)); cbn [andb]; try lia; try done.
        -- f_equal. do 2 f_equal. replace (x - (s + 65536)) with (x - s + (-1) * 65536) by lia. by rewrite Z_mod_plus_full.
        -- rewrite Z.mod_small by lia. apply Hsl. lia.
  - replace (u32 (n * 512)) with (512 * n) by (rewrite u32_small by (unfold is_u32; lia); lia).
    destruct (buffer_step (Z.to_nat (512 * n)) tmp data s n bs m d) as (d1 & Hb & Hg1 & Hl1 & Hc1); [apply Z2Nat.id; lia|done|done|done|lia|lia|done|lia|lia| |].
    { eapply fits_sub; [exact Hf|lia|lia]. }
    destruct (memcpy tmp data (512 * n) m) as [[r0 m0]|]; [|done]. cbn [mbind option_bind] in Hb |- *.
    destruct (mmc_write tmp s n m0 d) as [[[r1 m1] dd]|]; [|done]. cbn [mbind option_bind] in Hb |- *. injection Hb as -> ->.
    rewrite Z.sub_diag. change (0 <? u32 0) with false. cbn iota. eexists _, _. split; [done|]. split_and!; [done|done| | |].
    + intros q Hq. apply write_out. by left.
    + intros q j Hq. by apply fits_write.
    + intros x. rewrite Hc1. destruct (Z.leb_spec s x), (Z.ltb_spec x (s + n)); cbn [andb]; try done.
      destruct (Z.eq_dec (x - s) 65536); [lia|]. rewrite Z.mod_small by lia. apply Hsl. lia.
Qed.

(** A chunk that is aligned, or that fits into the buffer of 32 megabytes. *)
Definition placed (a len room : Z) : Prop := a mod 8 = 0 \/ len <= room.

Lemma write_raw_ok a bs room s n m d : good d -> 0 <= a < 2 ^ 32 -> 0 <= align_buffer < 2 ^ 32 -> 0 <= s -> 0 < n -> s + n <= lba d ->
  holds m a bs -> Z.of_nat (length bs) = 512 * n -> a + Z.of_nat (length bs) <= align_buffer ->
  room <= 512 * WRITE_SECTOR -> UMem.fits m align_buffer room -> placed a (512 * n) room ->
  exists m' d', write_raw_chunk relocaddr a s n m d = Some (0, m', d') /\ good d' /\ lba d' = lba d /\
    (forall q, q < align_buffer -> m' !! q = m !! q) /\ (forall q k, UMem.fits m q k -> UMem.fits m' q k) /\
    put_sectors s n bs (content d) (content d').
Proof.
  intros Hg Ha Ht Hs Hn Hl Hh Hlen Hd Hr Hf Hp. unfold write_raw_chunk. rewrite u64_small by (unfold is_u64; lia).
  destruct (Z.eqb_spec (a mod 8) 0) as [E|E]; cbn [negb].
  - destruct (mmc_write_sectors a s n bs m d) as (d' & -> & Hg' & Hl' & Hc'); [done..|]. cbn [mbind option_bind]. by exists m, d'.
  - destruct Hp as [|Hp]; [done|]. unfold WRITE_SECTOR in Hr. change (u64 (u64 (relocaddr - TOTAL_MALLOC_LEN) - ALIGN_BUFFER_SIZE)) with align_buffer.
    destruct (raw_loop_ok align_buffer a bs (S (Z.to_nat (n / WRITE_SECTOR))) s n m d) as (m' & d' & -> & Hg' & Hl' & Hm' & Hf' & Hc');
      [lia|done|done|done|done|done|done|lia|done| |].
    { unfold WRITE_SECTOR. eapply fits_sub; [exact Hf|lia|lia]. }
    cbn [mbind option_bind]. exists m', d'. split_and!; [done|done|done|done|done|]. intros x. rewrite Hc'.
    destruct (Z.leb_spec s x), (Z.ltb_spec x (s + n)); cbn [andb]; try done.
    unfold WRITE_SECTOR. destruct (Z.eq_dec (x - s) 65536); [lia|]. by rewrite Z.mod_small by lia.
Qed.

(** ** Images as data *)

(** A chunk of blocks, or one of another type that passes over blocks. *)
Inductive piece :=
  | Raw (bs : list Z)
  | Pass (ty blocks : Z) (payload : list Z).

Definition payload (p : piece) : list Z := match p with Raw bs => bs | Pass _ _ bs => bs end.

Definition piece_type (p : piece) : Z := match p with Raw _ => EXT4_CHUNK_TYPE_RAW | Pass ty _ _ => ty end.

Definition piece_blocks (p : piece) : Z := match p with Raw bs => Z.of_nat (length bs) / EXT4_FILE_BLOCK_SIZE | Pass _ n _ => n end.

(** Sectors of a block. *)
Definition piece_sectors (p : piece) : Z := 8 * piece_blocks p.

Definition piece_total (p : piece) : Z := EXT4_CHUNK_HEADER_SIZE + Z.of_nat (length (payload p)).

Definition piece_bytes (p : piece) : list Z :=
  le16 (piece_type p) ++ le16 0 ++ le32 (piece_blocks p) ++ le32 (piece_total p) ++ payload p.

Definition piece_ok (p : piece) : Prop :=
  0 <= piece_blocks p < 2 ^ 20 /\ piece_total p < 2 ^ 32 /\
  match p with
  | Raw bs => 0 < piece_blocks p /\ Z.of_nat (length bs) = EXT4_FILE_BLOCK_SIZE * piece_blocks p
  | Pass ty _ _ => 0 <= ty < 2 ^ 16 /\ ty <> EXT4_CHUNK_TYPE_RAW
  end.

Definition pieces_bytes (ps : list piece) : list Z := concat (piece_bytes <$> ps).

(** The sectors the image stands for: [None] where it passes over. *)
Definition sector_at (p : piece) (i : Z) : option (list Z) :=
  match p with Raw bs => Some (slice (Z.to_nat (512 * i)) 512 bs) | Pass _ _ _ => None end.

Fixpoint expanded (ps : list piece) (i : Z) : option (list Z) :=
  match ps with
  | [] => None
  | p :: ps => if i <? piece_sectors p then if 0 <=? i then sector_at p i else None else expanded ps (i - piece_sectors p)
  end.

Definition total_sectors (ps : list piece) : Z := foldr (fun p n => piece_sectors p + n) 0 ps.

(** Each chunk of an image whose chunks begin at [a] can be written. *)
Fixpoint placed_all (room a : Z) (ps : list piece) : Prop :=
  match ps with
  | [] => True
  | p :: ps =>
      match p with Raw bs => placed (a + EXT4_CHUNK_HEADER_SIZE) (Z.of_nat (length bs)) room | _ => True end /\
      placed_all room (a + piece_total p) ps
  end.

Lemma read_num_ok m p bs n : holds m p bs -> Z.of_nat (length bs) = n -> read_num m p n = Some (le_word bs).
Proof.
  intros Hh <-. unfold read_num, read_bytes.
  assert (E : mapM (load m) (seqZ p (Z.of_nat (length bs))) = Some bs) by
    (apply mapM_Some; apply Forall2_same_length_lookup_2; [by rewrite length_seqZ; lia|];
     intros i q c Hq Hc; apply lookup_seqZ in Hq as [-> Hi]; by apply Hh).
  by rewrite E.
Qed.

Lemma le_word_le16 v : 0 <= v < 2 ^ 16 -> le_word (le16 v) = v.
Proof.
  intros Hv. unfold le16. cbn [le_word]. rewrite byte_at, byte_at_0 by lia. Z.div_mod_to_equations. lia.
Qed.

(** Reading one field and going on. *)
Lemma read_field m p b rest n : holds m p (b ++ rest) -> Z.of_nat (length b) = n ->
  read_num m p n = Some (le_word b) /\ holds m (p + n) rest.
Proof. intros Hh <-. apply holds_app in Hh as [Hb Hr]. split; [by apply read_num_ok|done]. Qed.

Lemma chunk_header_ok m a p rest : piece_ok p -> holds m a (piece_bytes p ++ rest) ->
  chunk_header m a = Some (mkChunk (piece_type p) 0 (piece_blocks p) (piece_total p)) /\
  holds m (a + EXT4_CHUNK_HEADER_SIZE) (payload p) /\ holds m (a + piece_total p) rest.
Proof.
  intros (Hb & Ht & Hp) Hh. unfold piece_bytes in Hh. rewrite <- !app_assoc in Hh.
  assert (Hty : 0 <= piece_type p < 2 ^ 16) by (destruct p; [done|cbn; lia]).
  assert (0 <= piece_total p) by (unfold piece_total, EXT4_CHUNK_HEADER_SIZE; lia).
  destruct (read_field _ _ _ _ 2 Hh eq_refl) as [E1 H1]. destruct (read_field _ _ _ _ 2 H1 eq_refl) as [E2 H2].
  destruct (read_field _ _ _ _ 4 H2 eq_refl) as [E3 H3]. destruct (read_field _ _ _ _ 4 H3 eq_refl) as [E4 H4].
  replace (a + 2 + 2) with (a + 4) in * by lia. replace (a + 4 + 4) with (a + 8) in * by lia. replace (a + 8 + 4) with (a + 12) in * by lia.
  split.
  - unfold chunk_header. rewrite E1, E2, E3, E4. cbn [mbind option_bind].
    rewrite !le_word_le16, !le_word_le32, !u32_small by (unfold is_u32; lia). done.
  - apply holds_app in H4 as [H4 H5]. split; [done|]. unfold piece_total, EXT4_CHUNK_HEADER_SIZE. by rewrite Z.add_assoc.
Qed.

Definition total_blocks (ps : list piece) : Z := foldr (fun p n => piece_blocks p + n) 0 ps.

Definition file_bytes (minor crc : Z) (ps : list piece) : list Z :=
  le32 EXT4_FILE_HEADER_MAGIC ++ le16 EXT4_FILE_HEADER_MAJOR ++ le16 minor ++ le16 EXT4_FILE_HEADER_SIZE ++
  le16 EXT4_CHUNK_HEADER_SIZE ++ le32 EXT4_FILE_BLOCK_SIZE ++ le32 (total_blocks ps) ++ le32 (Z.of_nat (length ps)) ++ le32 crc.

Definition image_bytes (minor crc : Z) (ps : list piece) : list Z := file_bytes minor crc ps ++ pieces_bytes ps.

Lemma file_header_ok m a minor crc ps : holds m a (file_bytes minor crc ps) ->
  file_header m a = Some (mkFile EXT4_FILE_HEADER_MAGIC EXT4_FILE_HEADER_MAJOR (le_word (le16 minor)) EXT4_FILE_HEADER_SIZE
    EXT4_CHUNK_HEADER_SIZE EXT4_FILE_BLOCK_SIZE (u32 (total_blocks ps)) (u32 (Z.of_nat (length ps))) (u32 crc)).
Proof.
  intros Hh. unfold file_bytes in Hh.
  destruct (read_field _ _ _ _ 4 Hh eq_refl) as [E1 H1]. destruct (read_field _ _ _ _ 2 H1 eq_refl) as [E2 H2].
  destruct (read_field _ _ _ _ 2 H2 eq_refl) as [E3 H3]. destruct (read_field _ _ _ _ 2 H3 eq_refl) as [E4 H4].
  destruct (read_field _ _ _ _ 2 H4 eq_refl) as [E5 H5]. destruct (read_field _ _ _ _ 4 H5 eq_refl) as [E6 H6].
  destruct (read_field _ _ _ _ 4 H6 eq_refl) as [E7 H7]. destruct (read_field _ _ _ _ 4 H7 eq_refl) as [E8 H8].
  pose proof (read_num_ok _ _ _ 4 H8 eq_refl) as E9. unfold file_header.
  replace (a + 4 + 2) with (a + 6) in * by lia. replace (a + 6 + 2) with (a + 8) in * by lia. replace (a + 8 + 2) with (a + 10) in * by lia.
  replace (a + 10 + 2) with (a + 12) in * by lia. replace (a + 12 + 4) with (a + 16) in * by lia. replace (a + 16 + 4) with (a + 20) in * by lia.
  replace (a + 20 + 4) with (a + 24) in * by lia.
  rewrite E1, E2, E3, E4, E5, E6, E7, E8, E9. cbn [mbind option_bind]. by rewrite !le_word_le32.
Qed.

Lemma holds_below m m' p bs tmp : (forall q, q < tmp -> m' !! q = m !! q) -> p + Z.of_nat (length bs) <= tmp -> holds m p bs -> holds m' p bs.
Proof. intros Hm Hp Hh i c Hi. pose proof (lookup_lt_Some _ _ _ Hi). rewrite Hm by lia. by apply Hh. Qed.

Lemma piece_length p : Z.of_nat (length (piece_bytes p)) = piece_total p.
Proof. unfold piece_bytes, piece_total. rewrite !length_app. cbn [length le16 le32]. unfold EXT4_CHUNK_HEADER_SIZE. lia. Qed.

Lemma expanded_neg ps : forall i, Forall piece_ok ps -> i < 0 -> expanded ps i = None.
Proof.
  induction ps as [|p ps IH]; intros i Hps Hi; [done|]. inversion_clear Hps as [|? ? (Hb & _) Hps']. cbn [expanded].
  unfold piece_sectors in *. destruct (Z.ltb_spec i (8 * piece_blocks p)); [|lia]. destruct (Z.leb_spec 0 i); [lia|done].
Qed.

(** One chunk. *)
Lemma chunk_step p room a s m d : piece_ok p -> good d -> 0 <= a -> 0 <= align_buffer < 2 ^ 32 -> 0 <= s -> s + piece_sectors p <= lba d ->
  holds m (a + EXT4_CHUNK_HEADER_SIZE) (payload p) -> a + piece_total p <= align_buffer ->
  room <= 512 * WRITE_SECTOR -> UMem.fits m align_buffer room ->
  match p with Raw bs => placed (a + EXT4_CHUNK_HEADER_SIZE) (Z.of_nat (length bs)) room | _ => True end ->
  exists m' d', (if piece_type p =? EXT4_CHUNK_TYPE_RAW then
      '(_, m, d) ← write_raw_chunk relocaddr (a + EXT4_CHUNK_HEADER_SIZE) s (piece_sectors p) m d; Some (m, d) else Some (m, d)) = Some (m', d') /\
    good d' /\ lba d' = lba d /\ (forall q, q < align_buffer -> m' !! q = m !! q) /\ (forall q k, UMem.fits m q k -> UMem.fits m' q k) /\
    forall x, content d' x = if x - s <? piece_sectors p then if 0 <=? x - s then default (content d x) (sector_at p (x - s)) else content d x else content d x.
Proof.
  intros (Hb & Ht & Hp) Hg Ha Htmp Hs Hl Hh Hd Hr Hf Hpl. unfold piece_sectors in *.
  destruct p as [bs|ty n bs]; cbn [payload piece_type] in *.
  - change (EXT4_CHUNK_TYPE_RAW =? EXT4_CHUNK_TYPE_RAW) with true. cbn iota. destruct Hp as [Hp Hlen].
    set (n := piece_blocks (Raw bs)) in *. unfold piece_total, EXT4_CHUNK_HEADER_SIZE in *. cbn [payload] in *.
    unfold EXT4_FILE_BLOCK_SIZE in Hlen.
    destruct (write_raw_ok (a + 12) bs room s (8 * n) m d) as (m' & d' & -> & Hg' & Hl' & Hm' & Hf' & Hc'); [done|lia|done|done|lia|lia|done|lia|lia|done|done| |].
    { destruct Hpl as [?|?]; [by left|right; lia]. }
    cbn [mbind option_bind]. exists m', d'. split_and!; [done|done|done|done|done|]. intros x. rewrite Hc'. cbn [sector_at default].
    destruct (Z.leb_spec s x), (Z.ltb_spec x (s + 8 * n)), (Z.ltb_spec (x - s) (8 * n)), (Z.leb_spec 0 (x - s)); cbn [andb]; try done; lia.
  - destruct Hp as [_ Hp]. apply Z.eqb_neq in Hp. rewrite Hp. exists m, d. split_and!; try done. intros x. cbn [sector_at default].
    by repeat case_match.
Qed.

Lemma chunks_loop_ok header minor crc all room ps : forall a s m d, Forall piece_ok ps -> good d ->
  holds m header (file_bytes minor crc all) -> header + EXT4_FILE_HEADER_SIZE <= align_buffer ->
  holds m a (pieces_bytes ps) -> 0 <= a -> a + Z.of_nat (length (pieces_bytes ps)) <= align_buffer ->
  0 <= align_buffer < 2 ^ 32 -> 0 <= s -> s + total_sectors ps <= lba d ->
  room <= 512 * WRITE_SECTOR -> UMem.fits m align_buffer room -> placed_all room a ps ->
  exists m' d', chunks_loop (length ps) (write_raw_chunk relocaddr) header a s m d = Some (m', d') /\ good d' /\ lba d' = lba d /\
    (forall q, q < align_buffer -> m' !! q = m !! q) /\ (forall q k, UMem.fits m q k -> UMem.fits m' q k) /\
    forall x, content d' x = default (content d x) (expanded ps (x - s)).
Proof.
  induction ps as [|p ps IH]; intros a s m d Hps Hg Hh Hha Hc Ha Hal Ht Hs Hl Hr Hf Hpl.
  { exists m, d. by split_and!. }
  inversion_clear Hps as [|? ? Hp Hps']. destruct Hpl as [Hp1 Hpl]. cbn [total_sectors foldr] in Hl.
  unfold pieces_bytes in Hc, Hal. cbn [fmap list_fmap concat] in Hc, Hal. fold (pieces_bytes ps) in Hc, Hal.
  rewrite length_app, Nat2Z.inj_add, piece_length in Hal. fold (total_sectors ps) in Hl.
  assert (Hnn : 0 <= total_sectors ps).
  { clear -Hps'. induction Hps' as [|p ps (Hb & _) _ IH]; [done|]. cbn [total_sectors foldr]. fold (total_sectors ps). unfold piece_sectors. lia. }
  destruct (chunk_header_ok m a p (pieces_bytes ps) Hp Hc) as (E & Hpay & Hrest). pose proof (dev_lba d Hg).
  assert (Hpb : 0 <= piece_blocks p < 2 ^ 20 /\ 0 <= piece_total p) by (destruct Hp as (? & ? & _); unfold piece_total, EXT4_CHUNK_HEADER_SIZE; lia).
  assert (Hsec : Z.shiftr (u32 (piece_blocks p * EXT4_FILE_BLOCK_SIZE)) SECTOR_BITS = piece_sectors p).
  { unfold EXT4_FILE_BLOCK_SIZE, piece_sectors, SECTOR_BITS. rewrite u32_small by (unfold is_u32; lia). rewrite Z.shiftr_div_pow2 by lia.
    replace (piece_blocks p * 0x1000) with (8 * piece_blocks p * 2 ^ 9) by lia. by apply Z.div_mul. }
  destruct (chunk_step p room a s m d) as (m1 & d1 & Hst & Hg1 & Hl1 & Hm1 & Hf1 & Hc1); try done; [unfold piece_sectors in *; lia|lia|].
  destruct (IH (a + piece_total p) (s + piece_sectors p) m1 d1) as (m2 & d2 & Hst2 & Hg2 & Hl2 & Hm2 & Hf2 & Hc2); try done.
  - eapply holds_below; [done|exact Hha|done].
  - eapply holds_below; [done| |done]. lia.
  - lia.
  - lia.
  - unfold piece_sectors. lia.
  - lia.
  - by apply Hf1.
  - exists m2, d2. cbn [chunks_loop length]. rewrite E. rewrite (file_header_ok _ _ _ _ _ Hh). cbn [mbind option_bind c_type c_chunk_size f_block_size].
    rewrite Hsec, Hst. cbn [mbind option_bind].
    assert (Hh1 : holds m1 a (piece_bytes p ++ pieces_bytes ps)).
    { eapply holds_below; [done| |done]. rewrite length_app, Nat2Z.inj_add, piece_length. lia. }
    destruct (chunk_header_ok m1 a p (pieces_bytes ps) Hp Hh1) as (E1 & _). rewrite E1. cbn [mbind option_bind c_total_size].
    rewrite u32_small by (unfold is_u32, piece_sectors in *; lia). rewrite Hst2. split_and!; [done|done|lia| |auto|].
    + intros q Hq. rewrite Hm2, Hm1 by done. done.
    + intros x. rewrite Hc2, Hc1. cbn [expanded]. replace (x - (s + piece_sectors p)) with (x - s - piece_sectors p) by lia.
      destruct (Z.ltb_spec (x - s) (piece_sectors p)); [|done]. rewrite expanded_neg by (done || lia). cbn [default].
      by destruct (0 <=? x - s).
Qed.

Lemma sectors_blocks ps : total_sectors ps = 8 * total_blocks ps.
Proof. induction ps as [|p ps IH]; [done|]. cbn [total_sectors total_blocks foldr]. unfold piece_sectors at 1. fold (total_sectors ps) (total_blocks ps). lia. Qed.

(** Nothing is written outside of the sectors of the image. *)
Lemma expanded_out ps i : Forall piece_ok ps -> i < 0 \/ total_sectors ps <= i -> expanded ps i = None.
Proof.
  intros Hps [Hi|Hi]; [by apply expanded_neg|]. revert i Hi. induction Hps as [|p ps (Hb & _) Hps IH]; intros i Hi; [done|].
  cbn [total_sectors foldr expanded] in *. fold (total_sectors ps) in Hi. assert (0 <= total_sectors ps).
  { clear -Hps. induction Hps as [|p ps (Hb & _) _ IH]; [done|]. cbn [total_sectors foldr]. fold (total_sectors ps). unfold piece_sectors. lia. }
  destruct (Z.ltb_spec i (piece_sectors p)); [lia|]. apply IH. lia.
Qed.

(** The image lies in memory below the buffer, its chunks can be written, and it ends on the disk. *)
Record writable (room img s : Z) (minor crc : Z) (ps : list piece) (m : mem) (d : bdev) : Prop := {
  w_pieces : Forall piece_ok ps;
  w_count : Z.of_nat (length ps) < 2 ^ 31;
  w_holds : holds m img (image_bytes minor crc ps);
  w_addr : 0 <= img;
  w_below : img + Z.of_nat (length (image_bytes minor crc ps)) <= align_buffer;
  w_buffer : 0 <= align_buffer < 2 ^ 32;
  w_room : room <= 512 * WRITE_SECTOR;
  w_fits : UMem.fits m align_buffer room;
  w_placed : placed_all room (img + EXT4_FILE_HEADER_SIZE) ps;
  w_start : 0 <= s;
  w_end : s + total_sectors ps <= lba d;
}.

Lemma image_written room img s minor crc ps m d : good d -> writable room img s minor crc ps m d ->
  exists m' d', write_compressed_ext4 (write_raw_chunk relocaddr) img s m d = Some (0, m', d') /\ good d' /\ lba d' = lba d /\ (forall q k, UMem.fits m q k -> UMem.fits m' q k) /\
    forall x, content d' x = default (content d x) (expanded ps (x - s)).
Proof.
  intros Hg [Hps Hn Hh Ha Hb Ht Hr Hf Hpl Hs Hl]. unfold write_compressed_ext4. unfold image_bytes in Hh, Hb.
  assert (Hfl : Z.of_nat (length (file_bytes minor crc ps)) = EXT4_FILE_HEADER_SIZE) by done.
  apply holds_app in Hh as [Hh1 Hh2]. rewrite length_app, Nat2Z.inj_add, Hfl in Hb. rewrite Hfl in Hh2.
  rewrite (file_header_ok _ _ _ _ _ Hh1). cbn [mbind option_bind f_total_chunks].
  rewrite u32_small, s32_small by (unfold is_u32, is_s32; lia). destruct (Z.ltb_spec (Z.of_nat (length ps)) 0); [lia|].
  rewrite Nat2Z.id. unfold EXT4_FILE_HEADER_SIZE in *.
  destruct (chunks_loop_ok img minor crc ps room ps (img + 28) s m d) as (m' & d' & -> & Hg' & Hl' & _ & Hf' & Hc); (done || (unfold EXT4_FILE_HEADER_SIZE; lia) || idtac).
  cbn [mbind option_bind]. by exists m', d'.
Qed.

Lemma dev_text_ok k n : (32 <= k <= 128)%nat -> 0 <= n < 2 ^ 31 ->
  exists b, sprintf false (replicate k 0) (chars "mmc dev %d" ++ [0]) [Int n] = Some (Z.of_nat (length (dev_text n)), b) /\ until0 b = dev_text n.
Proof.
  intros Hk Hn. assert (Hf : format (length (chars "mmc dev %d" ++ [0])) (chars "mmc dev %d" ++ [0]) [Int n] 0 = Some (dev_text n, [])).
  { change (length (chars "mmc dev %d" ++ [0])) with 11%nat.
    change (chars "mmc dev %d" ++ [0]) with [109; 109; 99; 32; 100; 101; 118; 32; 37; 100; 0].
    run_format. cbn [app]. by rewrite app_nil_r. }
  assert (Ht : text_ok (dev_text n)).
  { apply Forall_app. split; [apply (bool_decide_unpack _); vm_compute; exact I|]. apply written_text; [lia|unfold is_u64; lia]. }
  destruct (sprintf_text (replicate k 0) _ _ _ Hf Ht) as (b & -> & Hb & _); [|rewrite length_replicate; lia|by exists b].
  unfold dev_text. rewrite length_app, length_replicate. assert (length (written 10 n) <= 10)%nat; [apply written_room; [lia|change (10 ^ Z.of_nat 10) with 10000000000; lia|lia]|]. simpl length. lia.
Qed.

Lemma image_command_ok (get_device : list Z -> bool) fuel parts k s n a1 a2 a3 a4 rest img len r1 r2 r3 r4 room minor crc ps m d :
  good d -> tabled (good := good) (content := content) parts d -> parts !! k = Some (s, n) -> (length parts <= 8)%nat -> (length parts < fuel)%nat ->
  get_device a1 = true -> simple_strtoul (cstr a1 []) 10 = Some (disk, r1) ->
  simple_strtoul (cstr a2 []) 16 = Some (img, r2) -> simple_strtoull (cstr a3 []) 16 = Some (Z.of_nat (S k), r3) ->
  simple_strtoull (cstr a4 []) 16 = Some (len, r4) ->
  writable room img s minor crc ps m d -> total_sectors ps <= n ->
  exists m' d', do_compressed_ext4_write (write_raw_chunk relocaddr) get_device fuel 5
      (Some (chars "ext4_img_write") :: Some a1 :: Some a2 :: Some a3 :: Some a4 :: rest) m d = Some (1, m', d') /\ good d' /\ lba d' = lba d /\
    (forall q k, UMem.fits m q k -> UMem.fits m' q k) /\
    (forall x, content d' x = default (content d x) (expanded ps (x - s))) /\
    forall x, x < s \/ s + n <= x -> content d' x = content d x.
Proof.
  intros Hg Htab Hk Hl8 Hfuel Hdev E1 E2 E3 E4 Hw Hn. pose proof shell_disk as Hd. unfold do_compressed_ext4_write. change (5 <? 5) with false. cbn iota.
  cbn [lookup list_lookup mjoin option_join mbind option_bind]. rewrite Hdev. cbn [negb]. rewrite E1. cbn [mbind option_bind].
  rewrite s32_small by (unfold is_s32; lia). destruct (dev_text_ok 32 disk ltac:(lia) Hd) as (b & -> & Hbt). cbn [mbind option_bind]. rewrite Hbt.
  destruct (shell_select m d Hg) as (d1 & -> & Hg1 & Hl1 & Hc1). change (0 <? 0) with false. cbn iota.
  rewrite E2, E3, E4. cbn [mbind option_bind]. pose proof (lookup_lt_Some _ _ _ Hk) as Hklt.
  destruct (Htab d1 fuel 8%nat Hg1 Hl1 (fun x _ => Hc1 x) Hfuel Hl8) as (d2 & -> & Hg2 & Hl2 & Hc2). cbn [mbind option_bind].
  rewrite length_fmap, s32_small by (unfold is_s32; lia).
  destruct (Z.ltb_spec (Z.of_nat (length parts)) (Z.of_nat (S k))); [lia|]. destruct (Z.ltb_spec (Z.of_nat (S k)) 1); [lia|]. cbn [orb].
  replace (Z.to_nat (Z.of_nat (S k) - 1)) with k by lia. rewrite list_lookup_fmap, Hk. cbn [fmap option_fmap option_map mbind option_bind].
  pose proof Hw as [Hps Hcnt Hh Ha Hb Ht Hr Hf Hpl Hs Hend]. pose proof (dev_lba d Hg).
  unfold image_bytes in Hh. apply holds_app in Hh as [Hh1 _]. unfold bytes_of. cbn [fst snd]. unfold MMC_BLOCK_SIZE.
  rewrite u32_small by (unfold is_u32; lia). rewrite (Z.mul_comm 512 s), Z.div_mul by done.
  assert (Htot := sectors_blocks ps). assert (0 <= total_blocks ps).
  { clear -Hps. induction Hps as [|p ps (Hb & _) _ IH]; [done|]. cbn [total_blocks foldr]. fold (total_blocks ps). lia. }
  unfold check_compress_ext4. rewrite (file_header_ok _ _ _ _ _ Hh1).
  cbn [mbind option_bind f_magic f_major f_header_size f_chunk_header_size f_block_size f_total_blocks]. rewrite !Z.eqb_refl. cbn [negb].
  rewrite !u32_small by (unfold is_u32; lia).
  destruct (Z.ltb_spec (512 * n / EXT4_FILE_BLOCK_SIZE) (total_blocks ps)) as [Hbad|_].
  { unfold EXT4_FILE_BLOCK_SIZE in Hbad. exfalso. Z.div_mod_to_equations. lia. }
  change (0 =? 0) with true. cbn iota.
  destruct (image_written room img s minor crc ps m d2 Hg2) as (m' & d' & -> & Hg' & Hl' & Hf' & Hc').
  { destruct Hw. constructor; try done. lia. }
  cbn [mbind option_bind]. exists m', d'. split_and!; [done|done|lia|done| |].
  - intros x. by rewrite Hc', Hc2, Hc1.
  - intros x Hx. rewrite Hc', expanded_out, Hc2, Hc1; [done|done|lia].
Qed.

(** ** Claims *)

(** C28: an image that fits its partition is written there as its chunks say: every sector
    of a raw chunk has its bytes, those that other chunks pass over keep theirs, and
    nothing outside of the partition changes; the command then returns 1. *)
Theorem image_to_partition (get_device : list Z -> bool) fuel parts k s n a1 a2 a3 a4 rest img len r1 r2 r3 r4 room minor crc ps m d :
  good d -> tabled (good := good) (content := content) parts d -> parts !! k = Some (s, n) -> (length parts <= 8)%nat -> (length parts < fuel)%nat ->
  get_device a1 = true -> simple_strtoul (cstr a1 []) 10 = Some (disk, r1) ->
  simple_strtoul (cstr a2 []) 16 = Some (img, r2) -> simple_strtoull (cstr a3 []) 16 = Some (Z.of_nat (S k), r3) ->
  simple_strtoull (cstr a4 []) 16 = Some (len, r4) ->
  writable room img s minor crc ps m d -> total_sectors ps <= n ->
  exists m' d', do_compressed_ext4_write (write_raw_chunk relocaddr) get_device fuel 5
      (Some (chars "ext4_img_write") :: Some a1 :: Some a2 :: Some a3 :: Some a4 :: rest) m d = Some (1, m', d') /\ good d' /\
    (forall x, content d' x = default (content d x) (expanded ps (x - s))) /\
    forall x, x < s \/ s + n <= x -> content d' x = content d x.
Proof.
  intros Hg Ht Hk H8 Hf Hd E1 E2 E3 E4 Hw Hn.
  destruct (image_command_ok get_device fuel parts k s n a1 a2 a3 a4 rest img len r1 r2 r3 r4 room minor crc ps m d
    Hg Ht Hk H8 Hf Hd E1 E2 E3 E4 Hw Hn) as (m' & d' & Hr & Hg' & _ & _ & Hc & Ho). by exists m', d'.
Qed.

(** A chunk of more than 32 megabytes that is not aligned is not written right: the
    address in the chunk never advances, so that its first 32 megabytes are repeated. *)
Theorem unaligned_repeats a bs s n m d : good d -> 0 <= a < 2 ^ 32 -> a mod 8 <> 0 -> 0 <= align_buffer < 2 ^ 32 ->
  0 <= s -> WRITE_SECTOR < n -> s + n <= lba d -> holds m a bs -> Z.of_nat (length bs) = 512 * n ->
  a + Z.of_nat (length bs) <= align_buffer -> UMem.fits m align_buffer (512 * WRITE_SECTOR) ->
  exists m' d', write_raw_chunk relocaddr a s n m d = Some (0, m', d') /\
    content d' (s + WRITE_SECTOR) = slice 0 512 bs /\
    forall x, s <= x < s + n -> content d' x = slice (Z.to_nat (512 * ((x - s) mod WRITE_SECTOR))) 512 bs.
Proof.
  intros Hg Ha Hal Ht Hs Hn Hl Hh Hlen Hd Hf. unfold WRITE_SECTOR in Hn, Hf. unfold write_raw_chunk. rewrite u64_small by (unfold is_u64; lia).
  destruct (Z.eqb_spec (a mod 8) 0); [done|]. cbn [negb].
  change (u64 (u64 (relocaddr - TOTAL_MALLOC_LEN) - ALIGN_BUFFER_SIZE)) with align_buffer.
  destruct (raw_loop_ok align_buffer a bs (S (Z.to_nat (n / WRITE_SECTOR))) s n m d) as (m' & d' & -> & _ & _ & _ & _ & Hc');
    [lia|done|done|done|lia|done|done|lia|done| |].
  { unfold WRITE_SECTOR. eapply fits_sub; [exact Hf|lia|lia]. }
  cbn [mbind option_bind]. exists m', d'. split; [done|].
  assert (Hx : forall x, s <= x < s + n -> content d' x = slice (Z.to_nat (512 * ((x - s) mod WRITE_SECTOR))) 512 bs).
  { intros x Hx. rewrite Hc'. destruct (Z.leb_spec s x), (Z.ltb_spec x (s + n)); cbn [andb]; (done || lia). }
  split; [|done]. rewrite Hx by (unfold WRITE_SECTOR; lia). by replace (s + WRITE_SECTOR - s) with WRITE_SECTOR by lia.
Qed.
End Writing.

(** ** A shell, and examples *)

(** The command lines as the shell understands them, on the disk of [MmcPart]. *)
Definition parse_number (t : list Z) : option (Z * list Z) := simple_strtoull (drop 3 t) 16.

Definition ram_run (line : list Z) (m : mem) (d : Z -> list Z) : Z * mem * (Z -> list Z) :=
  let r :=
    if negb (bool_decide (take 10 line = chars "mmc write ")) then Some d else
    '(a, t) ← parse_number (drop 9 line ++ [0]); '(s, t) ← parse_number t; '(n, _) ← parse_number t;
    bs ← read_bytes m a (512 * n);
    Some (fun x => if (s <=? x) && (x <? s + n) then slice (Z.to_nat (512 * (x - s))) 512 bs else d x) in
  (0, m, default d r).

#[global] Instance ram_shell : Shell := {|
  run_command := ram_run;
  mmc_bwrite _ a data d := block_write a (Z.of_nat (length data) / 512) data d;
|}.

Lemma holds_read m a bs n : holds m a bs -> Z.of_nat (length bs) = n -> read_bytes m a n = Some bs.
Proof.
  intros Hh Hlen. unfold read_bytes. apply mapM_Some. apply Forall2_same_length_lookup_2; [rewrite length_seqZ; lia|].
  intros i q c Hq Hc. apply lookup_seqZ in Hq as [-> Hi]. by apply Hh.
Qed.

Lemma parse_number_ok pre v c rest : length pre = 3%nat -> is_u64 v -> c = 32 \/ c = 0 ->
  parse_number (pre ++ written 16 v ++ c :: rest) = Some (v, c :: rest).
Proof.
  intros Hp Hv Hc. unfold parse_number. rewrite <- Hp, drop_app_length. apply written_number; [by right|done|by destruct Hc as [->| ->]|by destruct Hc as [->| ->]].
Qed.

Lemma slice_length {A} (l : list A) o n : (o + n <= length l)%nat -> length (slice o n l) = n.
Proof. intros H. unfold slice. rewrite length_take, length_drop. lia. Qed.

Lemma write_text_tail a s n : drop 9 (write_text a s n) ++ [0] =
  chars " 0x" ++ written 16 a ++ chars " 0x" ++ written 16 s ++ chars " 0x" ++ written 16 n ++ [0].
Proof.
  unfold write_text. change (chars "mmc write 0x") with (chars "mmc write" ++ chars " 0x").
  rewrite <- (app_assoc (chars "mmc write")). change 9%nat with (length (chars "mmc write")). rewrite drop_app_length.
  by rewrite <- !app_assoc.
Qed.

Lemma ram_good_shell k : 0 <= k < 2 ^ 31 -> GoodShell k ram_good ram_content.
Proof.
  intros Hk. constructor.
  - exact ram_good_dev.
  - exact Hk.
  - intros m d Hg. exists d. split_and!; [|done..]. unfold run_command, ram_shell, ram_run, dev_text.
    change (bool_decide (take 10 (chars "mmc dev " ++ written 10 k) = chars "mmc write ")) with false. reflexivity.
  - intros a s n bs m d Hg Ha Hs Hn Hl Hh Hlen. pose proof (dev_lba d Hg) as Hlba. unfold run_command, ram_shell, ram_run.
    replace (take 10 (write_text a s n)) with (chars "mmc write ") by reflexivity. rewrite bool_decide_true by done. cbn [negb].
    rewrite write_text_tail.
    change (chars " 0x" ++ written 16 s ++ chars " 0x" ++ written 16 n ++ [0]) with (32 :: chars "0x" ++ written 16 s ++ chars " 0x" ++ written 16 n ++ [0]).
    rewrite parse_number_ok by (done || (unfold is_u64; lia) || tauto). cbn [mbind option_bind].
    change (32 :: chars "0x" ++ written 16 s ++ chars " 0x" ++ written 16 n ++ [0]) with
      (chars " 0x" ++ written 16 s ++ 32 :: chars "0x" ++ written 16 n ++ [0]).
    rewrite parse_number_ok by (done || (unfold is_u64; lia) || tauto). cbn [mbind option_bind].
    change (32 :: chars "0x" ++ written 16 n ++ [0]) with (chars " 0x" ++ written 16 n ++ 0 :: []).
    rewrite parse_number_ok by (done || (unfold is_u64; lia) || tauto). cbn [mbind option_bind].
    pose proof (holds_read m a bs (512 * n) Hh Hlen) as E.
    rewrite E. cbn [mbind option_bind default]. eexists. split; [reflexivity|]. split_and!; [|done|done].
    intros x. change (length (if (s <=? x) && (x <? s + n) then slice (Z.to_nat (512 * (x - s))) 512 bs else (d : Z -> list Z) x) = 512%nat).
    destruct (Z.leb_spec s x), (Z.ltb_spec x (s + n)); cbn [andb]; try apply Hg. apply slice_length. lia.
Qed.

#[global] Instance ram_shell_0 : GoodShell 0 ram_good ram_content.
Proof. apply ram_good_shell. lia. Qed.

(** An image of four blocks: one, two passed over, one that is not aligned. *)
Definition small_pieces : list piece :=
  [Raw (replicate 4096 7); Pass EXT4_CHUNK_TYPE_FILL 2 [9; 9; 9; 9]; Raw (replicate 4096 8)].

Definition small_base : Z := 0x48000000.
Definition board_reloc : Z := 0x80000000.

(** The image in memory, and the buffer. *)
Definition small_mem : mem := write (align_buffer board_reloc) (replicate 4096 0) (write small_base (image_bytes 0 0 small_pieces) ∅).

Lemma small_writable : writable board_reloc 4096 small_base 32768 0 0 small_pieces small_mem used_disk.
Proof.
  assert (Hlen : Z.of_nat (length (image_bytes 0 0 small_pieces)) = 8260) by (vm_compute; reflexivity).
  assert (Hb : align_buffer board_reloc = 0x7a008000) by (vm_compute; reflexivity).
  constructor.
  - repeat (constructor; [split_and!; by vm_compute|]). constructor.
  - vm_compute. reflexivity.
  - apply holds_write; [apply write_holds|]. right. rewrite Hlen, Hb. unfold small_base. lia.
  - unfold small_base. lia.
  - rewrite Hlen, Hb. unfold small_base. lia.
  - rewrite Hb. lia.
  - unfold WRITE_SECTOR. lia.
  - unfold small_mem. pose proof (holds_fits _ _ _ (write_holds (align_buffer board_reloc) (replicate 4096 0) (write small_base (image_bytes 0 0 small_pieces) ∅))) as Hf.
    rewrite length_replicate in Hf. exact Hf.
  - split; [left; by vm_compute|]. split; [exact I|]. split; [right; by vm_compute|exact I].
  - lia.
  - by vm_compute.
Qed.

Lemma image_to_partition_witness : exists d0 m' d',
  mmc_make_part_table (bytes_of <$> five_parts) 5 PART_TYPE_DOS used_disk = Some (1, d0) /\
  do_compressed_ext4_write (write_raw_chunk board_reloc) (fun _ => true) 6 5
    [Some (chars "ext4_img_write"); Some (chars "0"); Some (chars "48000000"); Some (chars "4"); Some (chars "2044"); None] small_mem d0 =
    Some (1, m', d') /\
  ram_content d' 32768 = slice 0 512 (replicate 4096 7) /\ ram_content d' (32768 + 24) = slice 0 512 (replicate 4096 8).
Proof.
  destruct (fdisk_ok five_parts used_disk used_disk_good five_layout) as (d0 & Hm & Hg & Hl & _ & _ & Htab).
  destruct (image_to_partition board_reloc (fun _ => true) 6 five_parts 3 32768 4096 (chars "0") (chars "48000000") (chars "4") (chars "2044")
    [None] small_base 0x2044 [0] [0] [0] [0] 4096 0 0 small_pieces small_mem d0) as (m' & d' & Hr & _ & Hc & _).
  - exact Hg.
  - exact Htab.
  - reflexivity.
  - simpl; lia.
  - simpl; lia.
  - reflexivity.
  - vm_compute; reflexivity.
  - vm_compute; reflexivity.
  - vm_compute; reflexivity.
  - vm_compute; reflexivity.
  - destruct small_writable. constructor; assumption.
  - by vm_compute.
  - exists d0, m', d'. split; [exact Hm|]. split; [exact Hr|]. rewrite !Hc. split; vm_compute; reflexivity.
Defined.

(** A chunk of 32 megabytes and a sector. *)
Lemma big_chunk : exists bs : list Z, Z.of_nat (length bs) = 512 * 65537.
Proof. exists (replicate (Z.to_nat (512 * 65537)) 1). rewrite length_replicate. apply Z2Nat.id. lia. Qed.

Lemma big_buffer : exists bs : list Z, Z.of_nat (length bs) = 512 * 65536.
Proof. exists (replicate (Z.to_nat (512 * 65536)) 1). rewrite length_replicate. apply Z2Nat.id. lia. Qed.

Lemma unaligned_repeats_witness : exists bs m m' d', holds m 0x48000044 bs /\ Z.of_nat (length bs) = 512 * 65537 /\
  write_raw_chunk board_reloc 0x48000044 2048 65537 m used_disk = Some (0, m', d') /\
  ram_content d' (2048 + WRITE_SECTOR) = slice 0 512 bs.
Proof.
  destruct big_chunk as [bs Hbs]. destruct big_buffer as [buf Hbuf].
  assert (Hb : align_buffer board_reloc = 0x7a008000) by (vm_compute; reflexivity).
  set (m := write (align_buffer board_reloc) buf (write 0x48000044 bs ∅)).
  assert (Hh : holds m 0x48000044 bs) by (apply holds_write; [apply write_holds|right; rewrite Hb, Hbs; lia]).
  destruct (unaligned_repeats board_reloc 0x48000044 bs 2048 65537 m used_disk) as (m' & d' & Hr & Hc & _);
    [exact used_disk_good|lia|done|rewrite Hb; lia|lia|unfold WRITE_SECTOR; lia|by vm_compute|exact Hh|exact Hbs|rewrite Hb, Hbs; lia| |].
  { pose proof (holds_fits _ _ _ (write_holds (align_buffer board_reloc) buf (write 0x48000044 bs ∅))) as Hf. rewrite Hbuf in Hf. exact Hf. }
  exists bs, m, m', d'. split_and!; [exact Hh|exact Hbs|exact Hr|exact Hc].
Defined.
