(* ===== verification/Fields.v ===== *)
(** Setting a field of a record: [r <| f := v |>].

    A record type that has an instance of [Eta], which builds a value anew from its
    fields, has all of its fields set by one notation; the instance of [Field] for a field
    is found by abstracting the field from that. *)

From S2P Require Import Prelude.

Class Eta (R : Type) := eta : R -> R.
Class Field {R T : Type} (f : R -> T) := update : (T -> T) -> R -> R.

Ltac solve_field :=
  match goal with |- @Field ?R ?T ?f =>
    let i := constr:(_ : Eta R) in
    let e := eval hnf in i in
    match eval pattern f in e with
    | ?b f => let t := eval cbv beta in (fun (h : T -> T) => b (fun r => h (f r))) in exact t
    end
  end.

#[export] Hint Extern 0 (Field _) => solve_field : typeclass_instances.

Declare Scope field_scope.
Notation "r <| f := v |>" := (update (f := f) (fun _ => v) r) (at level 1, f at next level, left associativity) : field_scope.
#[global] Open Scope field_scope.
