(* ===== verification/MmcBlk.v ===== *)
(** Blocks of a memory card (src/U-Boot/drivers/mmc/mmc_write.c and the parts of mmc.c
    that read, wait and select).

    A request for blocks is cut into runs that the host can move, and each run is a
    sequence of commands to the card: the transfer, the end of it, and polls of the
    status until the card is ready.  The host with the card behind it is the interface
    [CardHost]; [GoodCard] is what a card promises.  The driver then is a block device as
    [MmcPart] asks for ([BlockDev], [GoodDev]).  A buffer is the list of its bytes;
    reading behind its end is [None], as is waiting for ever.  Messages leave no trace. *)

From S2P Require Import Prelude Fields UStr Vsprintf UMem MmcPart Ext4Img.

(** ** Constants (include/mmc.h) *)

Definition SD_VERSION_SD : Z := Z.shiftl 1 31.
Definition COMM_ERR : Z := -18.
Definition TIMEOUT : Z := -19.
Definition SWITCH_ERR : Z := -20.
Definition MMC_CMD_SWITCH : Z := 6.
Definition MMC_CMD_STOP_TRANSMISSION : Z := 12.
Definition MMC_CMD_SEND_STATUS : Z := 13.
Definition MMC_CMD_SET_BLOCKLEN : Z := 16.
Definition MMC_CMD_READ_SINGLE_BLOCK : Z := 17.
Definition MMC_CMD_READ_MULTIPLE_BLOCK : Z := 18.
Definition MMC_CMD_WRITE_SINGLE_BLOCK : Z := 24.
Definition MMC_CMD_WRITE_MULTIPLE_BLOCK : Z := 25.
Definition MMC_CMD_ERASE_GROUP_START : Z := 35.
Definition MMC_CMD_ERASE_GROUP_END : Z := 36.
Definition MMC_CMD_ERASE : Z := 38.
Definition SD_CMD_ERASE_WR_BLK_START : Z := 32.
Definition SD_CMD_ERASE_WR_BLK_END : Z := 33.
Definition MMC_ERASE_ARG : Z := 0.
Definition MMC_SWITCH_MODE_WRITE_BYTE : Z := 3.
Definition EXT_CSD_CMD_SET_NORMAL : Z := Z.shiftl 1 0.
Definition EXT_CSD_PART_CONF : Z := 179.
Definition PART_ACCESS_MASK : Z := 7.
Definition MMCPART_NOAVAILABLE : Z := 0xff.
Definition MMC_STATUS_MASK : Z := u32 (Z.lnot 0x0206BF7F).
Definition MMC_STATUS_SWITCH_ERROR : Z := Z.shiftl 1 7.
Definition MMC_STATUS_RDY_FOR_DATA : Z := Z.shiftl 1 8.
Definition MMC_STATUS_CURR_STATE : Z := Z.shiftl 0xf 9.
Definition MMC_STATE_PRG : Z := Z.shiftl 7 9.
Definition MMC_RSP_R1 : Z := 21.
Definition MMC_RSP_R1b : Z := 29.
Definition ENODEV : Z := 19.
Definition EMEDIUMTYPE : Z := 124.

(** ** Devices *)

(** What the host can do. *)
Record mmc_config := mkConfig { host_caps : Z; voltages : Z; f_min : Z; f_max : Z; b_max : Z; cfg_part_type : Z }.

(** [struct mmc], with the fields of its [block_dev] that are used.  The names that are
    printed into the [block_dev] are not kept. *)
Record mmc := mkMmc {
  cfg : mmc_config;
  version : Z; has_init : Z; high_capacity : Z; bus_width : Z; clock : Z; card_caps : Z; ocr : Z; dsr : Z; dsr_imp : Z;
  scr : list Z; csd : list Z; cid : list Z;
  rca : Z; part_support : Z; part_attr : Z; wr_rel_set : Z; part_config : Z; part_num : Z;
  tran_speed : Z; read_bl_len : Z; write_bl_len : Z; erase_grp_size : Z; hc_wp_grp_size : Z;
  capacity : Z; capacity_user : Z; capacity_boot : Z; capacity_rpmb : Z; capacity_gp : list Z; enh_user_start : Z; enh_user_size : Z;
  b_dev : Z; b_type : Z; b_part_type : Z; b_blksz : Z; b_log2blksz : Z; b_lba : Z;
  op_cond_pending : Z; init_in_progress : Z; preinit : Z; ddr_mode : Z;
}.

#[global] Instance eta_mmc : Eta mmc := fun m => mkMmc (cfg m) (version m) (has_init m) (high_capacity m) (bus_width m) (clock m) (card_caps m) (ocr m) (dsr m) (dsr_imp m)
  (scr m) (csd m) (cid m) (rca m) (part_support m) (part_attr m) (wr_rel_set m) (part_config m) (part_num m)
  (tran_speed m) (read_bl_len m) (write_bl_len m) (erase_grp_size m) (hc_wp_grp_size m)
  (capacity m) (capacity_user m) (capacity_boot m) (capacity_rpmb m) (capacity_gp m) (enh_user_start m) (enh_user_size m)
  (b_dev m) (b_type m) (b_part_type m) (b_blksz m) (b_log2blksz m) (b_lba m) (op_cond_pending m) (init_in_progress m) (preinit m) (ddr_mode m).

(** What goes with a command: nothing, the bytes from [src] on, or a place for bytes. *)
Inductive mmc_data :=
  | NoData
  | WriteData (src : list Z) (blocks blocksize : Z)
  | ReadData (blocks blocksize : Z).

(** The host and the card.  A command has its index, argument and kind of response; the
    result is the return value, the words of the response, and the bytes that were read.
    The functions of the host other than [send_cmd] may be missing; time is in
    milliseconds and is waited for in microseconds. *)
Class CardHost := {
  card : Type;
  send_cmd : mmc -> Z -> Z -> Z -> mmc_data -> card -> Z * list Z * list Z * card;
  ops_set_ios : option (mmc -> card -> card);
  ops_init : option (mmc -> card -> Z * card);
  ops_getcd : option (mmc -> card -> Z);
  ops_getwp : option (mmc -> card -> Z);
  get_timer : Z -> card -> Z * card;
  udelay : Z -> card -> card;
}.

(** A word of a response. *)
Definition resp (response : list Z) (i : nat) : Z := nth i response 0.

Section MmcBlk.
Context `{CardHost}.

Definition mmc_send_cmd (mm : mmc) (cmdidx cmdarg resp_type : Z) (data : mmc_data) (c : card) : Z * list Z * list Z * card :=
  send_cmd mm cmdidx cmdarg resp_type data c.

Definition board_mmc_getwp (mm : mmc) : Z := -1.

Definition mmc_getwp (mm : mmc) (c : card) : Z :=
  let wp := board_mmc_getwp mm in
  if wp <? 0 then match ops_getwp with Some f => f mm c | None => 0 end else wp.

(** [while (1)] of mmc_send_status: an error, or what is left of [timeout] and the
    response when the loop is left. *)
Fixpoint status_loop (fuel : nat) (mm : mmc) (timeout retries : Z) (c : card) : option ((Z + Z * Z) * card) :=
  match fuel with
  | O => None
  | S n =>
      let '(err, response, _, c) := mmc_send_cmd mm MMC_CMD_SEND_STATUS (u32 (Z.shiftl (rca mm) 16)) MMC_RSP_R1 NoData c in
      let response := resp response 0 in
      let again retries := if timeout <=? 0 then Some (inr (timeout - 1, response), c) else status_loop n mm (timeout - 1) retries (udelay 1000 c) in
      if err =? 0 then
        if negb (Z.land response MMC_STATUS_RDY_FOR_DATA =? 0) && negb (Z.land response MMC_STATUS_CURR_STATE =? MMC_STATE_PRG)
        then Some (inr (timeout, response), c)
        else if negb (Z.land response MMC_STATUS_MASK =? 0) then Some (inl COMM_ERR, c) else again retries
      else if retries - 1 <? 0 then Some (inl err, c) else again (retries - 1)
  end.

Definition mmc_send_status (mm : mmc) (timeout : Z) (c : card) : option (Z * card) :=
  '(r, c) ← status_loop (S (S (Z.to_nat timeout))) mm timeout 5 c;
  match r with
  | inl err => Some (err, c)
  | inr (timeout, response) =>
      if timeout <=? 0 then Some (TIMEOUT, c)
      else if negb (Z.land response MMC_STATUS_SWITCH_ERROR =? 0) then Some (SWITCH_ERR, c) else Some (0, c)
  end.

Definition mmc_set_blocklen (mm : mmc) (len : Z) (c : card) : Z * card :=
  if negb (ddr_mode mm =? 0) then (0, c) else
  let '(err, _, _, c) := mmc_send_cmd mm MMC_CMD_SET_BLOCKLEN (u32 len) MMC_RSP_R1 NoData c in (err, c).

(** The list of devices. *)
Fixpoint find_mmc_device (mmc_devices : list mmc) (dev_num : Z) : option mmc :=
  match mmc_devices with
  | [] => None
  | m :: ms => if b_dev m =? dev_num then Some m else find_mmc_device ms dev_num
  end.

(** ** Reading *)

(** The result and the bytes that were stored. *)
Definition mmc_read_blocks (mm : mmc) (start blkcnt : Z) (c : card) : Z * list Z * card :=
  let cmdidx := if 1 <? blkcnt then MMC_CMD_READ_MULTIPLE_BLOCK else MMC_CMD_READ_SINGLE_BLOCK in
  let cmdarg := u32 (if negb (high_capacity mm =? 0) then start else start * read_bl_len mm) in
  let '(err, _, bs, c) := mmc_send_cmd mm cmdidx cmdarg MMC_RSP_R1 (ReadData (u32 blkcnt) (read_bl_len mm)) c in
  if negb (err =? 0) then (0, bs, c) else
  if 1 <? blkcnt then
    let '(err, _, _, c) := mmc_send_cmd mm MMC_CMD_STOP_TRANSMISSION 0 MMC_RSP_R1b NoData c in
    if negb (err =? 0) then (0, bs, c) else (s32 blkcnt, bs, c)
  else (s32 blkcnt, bs, c).

(** [do ... while (blocks_todo > 0);] with the bytes stored so far; the result is
    whether it came to its end. *)
Fixpoint bread_loop (fuel : nat) (mm : mmc) (start blocks_todo : Z) (dst : list Z) (c : card) : option (bool * list Z * card) :=
  match fuel with
  | O => None
  | S n =>
      let cur := if b_max (cfg mm) <? blocks_todo then b_max (cfg mm) else blocks_todo in
      let '(r, bs, c) := mmc_read_blocks mm start cur c in
      if negb (u64 r =? cur) then Some (false, dst ++ bs, c) else
      let blocks_todo := blocks_todo - cur in
      if 0 <? blocks_todo then bread_loop n mm (u64 (start + cur)) blocks_todo (dst ++ bs) c else Some (true, dst ++ bs, c)
  end.

Definition mmc_bread (mmc_devices : list mmc) (dev_num start blkcnt : Z) (c : card) : option (Z * list Z * card) :=
  if blkcnt =? 0 then Some (0, [], c) else
  match find_mmc_device mmc_devices dev_num with
  | None => Some (0, [], c)
  | Some mm =>
      if b_lba mm <? u64 (start + blkcnt) then Some (0, [], c) else
      let '(err, c) := mmc_set_blocklen mm (read_bl_len mm) c in
      if negb (err =? 0) then Some (0, [], c) else
      '(ok, dst, c) ← bread_loop (Z.to_nat blkcnt) mm start blkcnt [] c;
      Some (if ok : bool then blkcnt else 0, dst, c)
  end.

(** ** Writing *)

Definition mmc_write_blocks (mm : mmc) (start blkcnt : Z) (src : list Z) (c : card) : option (Z * card) :=
  if b_lba mm <? u64 (start + blkcnt) then Some (0, c) else
  if blkcnt =? 0 then Some (0, c) else
  let cmdidx := if blkcnt =? 1 then MMC_CMD_WRITE_SINGLE_BLOCK else MMC_CMD_WRITE_MULTIPLE_BLOCK in
  let cmdarg := u32 (if negb (high_capacity mm =? 0) then start else start * write_bl_len mm) in
  if Z.of_nat (length src) <? u32 blkcnt * write_bl_len mm then None else
  let '(err, _, _, c) := mmc_send_cmd mm cmdidx cmdarg MMC_RSP_R1 (WriteData (take (Z.to_nat (u32 blkcnt * write_bl_len mm)) src) (u32 blkcnt) (write_bl_len mm)) c in
  if negb (err =? 0) then Some (0, c) else
  let '(err, c) := if 1 <? blkcnt then
      let '(err, _, _, c) := mmc_send_cmd mm MMC_CMD_STOP_TRANSMISSION 0 MMC_RSP_R1b NoData c in (err, c)
    else (0, c) in
  if negb (err =? 0) then Some (0, c) else
  '(err, c) ← mmc_send_status mm 1000 c;
  if negb (err =? 0) then Some (0, c) else Some (blkcnt, c).

Fixpoint bwrite_loop (fuel : nat) (mm : mmc) (start blocks_todo : Z) (src : list Z) (c : card) : option (bool * card) :=
  match fuel with
  | O => None
  | S n =>
      let cur := if b_max (cfg mm) <? blocks_todo then b_max (cfg mm) else blocks_todo in
      '(r, c) ← mmc_write_blocks mm start cur src c;
      if negb (r =? cur) then Some (false, c) else
      let blocks_todo := blocks_todo - cur in
      if 0 <? blocks_todo then bwrite_loop n mm (u64 (start + cur)) blocks_todo (drop (Z.to_nat (cur * write_bl_len mm)) src) c else Some (true, c)
  end.

Definition mmc_bwrite (mmc_devices : list mmc) (dev_num start blkcnt : Z) (src : list Z) (c : card) : option (Z * card) :=
  match find_mmc_device mmc_devices dev_num with
  | None => Some (0, c)
  | Some mm =>
      let '(err, c) := mmc_set_blocklen mm (write_bl_len mm) c in
      if negb (err =? 0) then Some (0, c) else
      '(ok, c) ← bwrite_loop (S (Z.to_nat blkcnt)) mm start blkcnt src c;
      Some (if ok : bool then blkcnt else 0, c)
  end.

(** ** Erasing *)

Definition mmc_erase_t (mm : mmc) (start blkcnt : Z) (c : card) : Z * card :=
  let '(start, end_) :=
    if negb (high_capacity mm =? 0) then (start, u64 (start + blkcnt - 1))
    else (u64 (start * write_bl_len mm), u64 ((start + blkcnt - 1) * write_bl_len mm)) in
  let '(start_cmd, end_cmd) :=
    if negb (Z.land (version mm) SD_VERSION_SD =? 0) then (SD_CMD_ERASE_WR_BLK_START, SD_CMD_ERASE_WR_BLK_END)
    else (MMC_CMD_ERASE_GROUP_START, MMC_CMD_ERASE_GROUP_END) in
  let '(err, _, _, c) := mmc_send_cmd mm start_cmd (u32 start) MMC_RSP_R1 NoData c in
  if negb (err =? 0) then (err, c) else
  let '(err, _, _, c) := mmc_send_cmd mm end_cmd (u32 end_) MMC_RSP_R1 NoData c in
  if negb (err =? 0) then (err, c) else
  let '(err, _, _, c) := mmc_send_cmd mm MMC_CMD_ERASE MMC_ERASE_ARG MMC_RSP_R1b NoData c in
  (err, c).

(** [while (blk < blkcnt)]: the return value. *)
Fixpoint berase_loop (fuel : nat) (mm : mmc) (start blkcnt blk : Z) (c : card) : option (Z * card) :=
  match fuel with
  | O => None
  | S n =>
      if blk <? blkcnt then
        let blk_r := if erase_grp_size mm <? blkcnt - blk then erase_grp_size mm else blkcnt - blk in
        let '(err, c) := mmc_erase_t mm (u64 (start + blk)) blk_r c in
        if negb (err =? 0) then Some (blk, c) else
        let blk := blk + blk_r in
        '(err, c) ← mmc_send_status mm 1000 c;
        if negb (err =? 0) then Some (0, c) else berase_loop n mm start blkcnt blk c
      else Some (blk, c)
  end.

(** The remainders, by a division that a group of no blocks makes fail, are only for a
    message. *)
Definition mmc_berase (mmc_devices : list mmc) (dev_num start blkcnt : Z) (c : card) : option (Z * card) :=
  match find_mmc_device mmc_devices dev_num with
  | None => Some (u64 (-1), c)
  | Some mm => if erase_grp_size mm =? 0 then None else berase_loop (S (Z.to_nat blkcnt)) mm start blkcnt 0 c
  end.

(** ** Selecting a partition of the hardware *)

Definition mmc_switch (mm : mmc) (set index value : Z) (c : card) : option (Z * card) :=
  let cmdarg := Z.lor (Z.lor (Z.shiftl MMC_SWITCH_MODE_WRITE_BYTE 24) (Z.shiftl index 16)) (Z.shiftl value 8) in
  let '(ret, _, _, c) := mmc_send_cmd mm MMC_CMD_SWITCH cmdarg MMC_RSP_R1b NoData c in
  if ret =? 0 then mmc_send_status mm 1000 c else Some (ret, c).

Definition mmc_set_dsr (mm : mmc) (val : Z) : Z * mmc := (0, mm <| dsr := u16 val |>).

(** The result and the device. *)
Definition mmc_set_capacity (mm : mmc) (part_num : Z) : option (Z * mmc) :=
  cap ← (if part_num =? 0 then Some (Some (capacity_user mm))
    else if (part_num =? 1) || (part_num =? 2) then Some (Some (capacity_boot mm))
    else if part_num =? 3 then Some (Some (capacity_rpmb mm))
    else if (4 <=? part_num) && (part_num <=? 7) then gp ← capacity_gp mm !! Z.to_nat (part_num - 4); Some (Some gp)
    else Some None);
  match cap with
  | None => Some (-1, mm)
  | Some cap => n ← lldiv cap (read_bl_len mm); Some (0, mm <| capacity := cap |> <| b_lba := n |>)
  end.

(** A device in its list. *)
Fixpoint put_mmc (mmc_devices : list mmc) (mm : mmc) : list mmc :=
  match mmc_devices with
  | [] => []
  | m :: ms => if b_dev m =? b_dev mm then mm :: ms else m :: put_mmc ms mm
  end.

Definition mmc_switch_part (mmc_devices : list mmc) (dev_num part_num : Z) (c : card) : option (Z * list mmc * card) :=
  match find_mmc_device mmc_devices dev_num with
  | None => Some (-1, mmc_devices, c)
  | Some mm =>
      '(ret, c) ← mmc_switch mm EXT_CSD_CMD_SET_NORMAL EXT_CSD_PART_CONF
        (u8 (Z.lor (Z.land (part_config mm) (Z.lnot PART_ACCESS_MASK)) (Z.land part_num PART_ACCESS_MASK))) c;
      if (ret =? 0) || ((ret =? - ENODEV) && (part_num =? 0)) then
        '(ret, mm) ← mmc_set_capacity mm (s32 part_num); Some (ret, put_mmc mmc_devices mm, c)
      else Some (ret, mmc_devices, c)
  end.

Definition mmc_select_hwpart (mmc_devices : list mmc) (dev_num hwpart : Z) (c : card) : option (Z * list mmc * card) :=
  match find_mmc_device mmc_devices dev_num with
  | None => Some (- ENODEV, mmc_devices, c)
  | Some mm =>
      if part_num mm =? hwpart then Some (0, mmc_devices, c) else
      if part_config mm =? MMCPART_NOAVAILABLE then Some (- EMEDIUMTYPE, mmc_devices, c) else
      '(ret, ms, c) ← mmc_switch_part mmc_devices dev_num (u32 hwpart) c;
      if negb (ret =? 0) then Some (ret, ms, c) else
      mm ← find_mmc_device ms dev_num;
      Some (0, put_mmc ms (mm <| part_num := u8 hwpart |>), c)
  end.
End MmcBlk.

(** ** A card that works *)

(** What a card is doing: [Busy k] still programs for [k] polls, and [Busy 0] is ready;
    [Written] and [Streaming] are after a transfer of several blocks that has not been
    stopped, [Group1] and [Group2] after one or both ends of a range to be erased. *)
Inductive phase :=
  | Busy (k : nat)
  | Written
  | Streaming
  | Group1 (a : Z)
  | Group2 (a b : Z).

Definition says_ready (r : Z) : Prop :=
  Z.land r MMC_STATUS_RDY_FOR_DATA <> 0 /\ Z.land r MMC_STATUS_CURR_STATE <> MMC_STATE_PRG /\ Z.land r MMC_STATUS_SWITCH_ERROR = 0.

Definition says_busy (r : Z) : Prop :=
  (Z.land r MMC_STATUS_RDY_FOR_DATA = 0 \/ Z.land r MMC_STATUS_CURR_STATE = MMC_STATE_PRG) /\ Z.land r MMC_STATUS_MASK = 0.

(** The address of a block: its number, or that of its first byte. *)
Definition card_addr (mm : mmc) (a : Z) : Z := u32 (if negb (high_capacity mm =? 0) then a else a * 512).

Definition group_start (mm : mmc) (a : Z) : Z := erase_grp_size mm * (a / erase_grp_size mm).

Definition erase_cmds (mm : mmc) : Z * Z :=
  if negb (Z.land (version mm) SD_VERSION_SD =? 0) then (SD_CMD_ERASE_WR_BLK_START, SD_CMD_ERASE_WR_BLK_END)
  else (MMC_CMD_ERASE_GROUP_START, MMC_CMD_ERASE_GROUP_END).

Class GoodCard `{CardHost} (mm : mmc) (in_phase : phase -> card -> Prop) (content : card -> Z -> list Z) (blank : list Z) := {
  gc_sector c a : in_phase (Busy 0) c -> length (content c a) = 512%nat;
  gc_blocklen c : in_phase (Busy 0) c ->
    exists r bs c', send_cmd mm MMC_CMD_SET_BLOCKLEN 512 MMC_RSP_R1 NoData c = (0, r, bs, c') /\ in_phase (Busy 0) c' /\ forall x, content c' x = content c x;
  gc_read c a n : in_phase (Busy 0) c -> 0 <= a -> 0 < n <= b_max (cfg mm) -> a + n <= b_lba mm ->
    exists r c', send_cmd mm (if 1 <? n then MMC_CMD_READ_MULTIPLE_BLOCK else MMC_CMD_READ_SINGLE_BLOCK) (card_addr mm a) MMC_RSP_R1 (ReadData n 512) c =
        (0, r, concat (content c <$> seqZ a n), c') /\
      in_phase (if 1 <? n then Streaming else Busy 0) c' /\ forall x, content c' x = content c x;
  gc_write c a n data : in_phase (Busy 0) c -> 0 <= a -> 0 < n <= b_max (cfg mm) -> a + n <= b_lba mm -> Z.of_nat (length data) = 512 * n ->
    exists r bs c' k, send_cmd mm (if n =? 1 then MMC_CMD_WRITE_SINGLE_BLOCK else MMC_CMD_WRITE_MULTIPLE_BLOCK) (card_addr mm a) MMC_RSP_R1 (WriteData data n 512) c =
        (0, r, bs, c') /\
      in_phase (if 1 <? n then Written else Busy k) c' /\ (k < 1000)%nat /\
      forall x, content c' x = if (a <=? x) && (x <? a + n) then slice (Z.to_nat (512 * (x - a))) 512 data else content c x;
  gc_stop_read c : in_phase Streaming c ->
    exists r bs c', send_cmd mm MMC_CMD_STOP_TRANSMISSION 0 MMC_RSP_R1b NoData c = (0, r, bs, c') /\ in_phase (Busy 0) c' /\ forall x, content c' x = content c x;
  gc_stop_write c : in_phase Written c ->
    exists r bs c' k, send_cmd mm MMC_CMD_STOP_TRANSMISSION 0 MMC_RSP_R1b NoData c = (0, r, bs, c') /\ in_phase (Busy k) c' /\ (k < 1000)%nat /\
      forall x, content c' x = content c x;
  gc_status c k : in_phase (Busy k) c ->
    exists r bs c', send_cmd mm MMC_CMD_SEND_STATUS (u32 (Z.shiftl (rca mm) 16)) MMC_RSP_R1 NoData c = (0, r, bs, c') /\
      in_phase (Busy (pred k)) c' /\ match k with O => says_ready (resp r 0) | S _ => says_busy (resp r 0) end /\ forall x, content c' x = content c x;
  gc_delay c n k : in_phase (Busy k) c -> exists j, (j <= k)%nat /\ in_phase (Busy j) (udelay n c) /\ forall x, content (udelay n c) x = content c x;
  gc_start c a : in_phase (Busy 0) c -> 0 <= a < b_lba mm ->
    exists r bs c', send_cmd mm (erase_cmds mm).1 (card_addr mm a) MMC_RSP_R1 NoData c = (0, r, bs, c') /\ in_phase (Group1 a) c' /\ forall x, content c' x = content c x;
  gc_end c a b : in_phase (Group1 a) c -> 0 <= a <= b -> b < b_lba mm ->
    exists r bs c', send_cmd mm (erase_cmds mm).2 (card_addr mm b) MMC_RSP_R1 NoData c = (0, r, bs, c') /\ in_phase (Group2 a b) c' /\ forall x, content c' x = content c x;
  gc_erase c a b : in_phase (Group2 a b) c ->
    exists r bs c' k, send_cmd mm MMC_CMD_ERASE MMC_ERASE_ARG MMC_RSP_R1b NoData c = (0, r, bs, c') /\ in_phase (Busy k) c' /\ (k < 1000)%nat /\
      forall x, content c' x = if (group_start mm a <=? x) && (x <? group_start mm b + erase_grp_size mm) then blank else content c x;
}.

(** A device whose fields describe such a card. *)
Record fitting (mm : mmc) : Prop := {
  fm_rbl : read_bl_len mm = 512;
  fm_wbl : write_bl_len mm = 512;
  fm_max : 1 <= b_max (cfg mm) < 2 ^ 31;
  fm_group : 1 <= erase_grp_size mm < 2 ^ 32;
  fm_lba : 0 < b_lba mm < 2 ^ 31;
}.

Section Working.
Context {HC : CardHost} (mm : mmc) (in_phase : phase -> card -> Prop) (content : card -> Z -> list Z) (blank : list Z).
Context {HG : GoodCard mm in_phase content blank} (Hfit : fitting mm).

(** Polling until the card is ready. *)
Lemma status_loop_ok k : forall fuel timeout retries c, in_phase (Busy k) c -> (k < fuel)%nat -> Z.of_nat k < timeout ->
  exists t r c', status_loop fuel mm timeout retries c = Some (inr (t, r), c') /\ 0 < t /\ in_phase (Busy 0) c' /\ says_ready r /\
    forall x, content c' x = content c x.
Proof.
  induction k as [k IH] using lt_wf_ind. intros fuel timeout retries c Hc Hf Ht. destruct fuel as [|n]; [lia|]. cbn [status_loop]. unfold mmc_send_cmd.
  destruct (gc_status c _ Hc) as (rs & bs & c' & -> & Hp & Hr & Hx). change (0 =? 0) with true. cbn iota. destruct k as [|k]; cbn [pred] in Hp.
  - destruct Hr as (R1 & R2 & R3). destruct (Z.eqb_spec (Z.land (resp rs 0) MMC_STATUS_RDY_FOR_DATA) 0); [done|].
    destruct (Z.eqb_spec (Z.land (resp rs 0) MMC_STATUS_CURR_STATE) MMC_STATE_PRG); [done|]. cbn [negb andb]. by exists timeout, (resp rs 0), c'.
  - destruct Hr as (Hb & Hm).
    assert (negb (Z.land (resp rs 0) MMC_STATUS_RDY_FOR_DATA =? 0) && negb (Z.land (resp rs 0) MMC_STATUS_CURR_STATE =? MMC_STATE_PRG) = false) as ->.
    { destruct Hb as [-> | ->]; [done|]. rewrite Z.eqb_refl. apply andb_false_r. }
    rewrite Hm. change (negb (0 =? 0)) with false. cbn iota. destruct (Z.leb_spec timeout 0); [lia|].
    destruct (gc_delay c' 1000 k Hp) as (j & Hj & Hp1 & Hx1).
    destruct (IH j ltac:(lia) n (timeout - 1) retries _ Hp1 ltac:(lia) ltac:(lia)) as (t & r2 & c2 & -> & Ht2 & Hp2 & Hr2 & Hx2).
    exists t, r2, c2. split; [done|]. split; [done|]. split; [done|]. split; [done|]. intros x. by rewrite Hx2, Hx1.
Qed.

Lemma send_status_ok k c : in_phase (Busy k) c -> (k < 1000)%nat ->
  exists c', mmc_send_status mm 1000 c = Some (0, c') /\ in_phase (Busy 0) c' /\ forall x, content c' x = content c x.
Proof.
  intros Hc Hk. unfold mmc_send_status. change (S (S (Z.to_nat 1000))) with 1002%nat.
  destruct (status_loop_ok k 1002 1000 5 c Hc ltac:(lia) ltac:(lia)) as (t & r & c' & -> & Ht & Hp & (_ & _ & R3) & Hx). cbn [mbind option_bind].
  destruct (Z.leb_spec t 0); [lia|]. rewrite R3. change (negb (0 =? 0)) with false. cbn iota. by exists c'.
Qed.

Lemma blocklen_ok c : in_phase (Busy 0) c -> exists c', mmc_set_blocklen mm 512 c = (0, c') /\ in_phase (Busy 0) c' /\ forall x, content c' x = content c x.
Proof.
  intros Hc. unfold mmc_set_blocklen, mmc_send_cmd. destruct (ddr_mode mm =? 0); cbn [negb]; [|by exists c].
  change (u32 512) with 512. destruct (gc_blocklen c Hc) as (r & bs & c' & -> & Hp & Hx). by exists c'.
Qed.

(** ** Reading *)

Lemma read_blocks_ok c a n : in_phase (Busy 0) c -> 0 <= a -> 0 < n <= b_max (cfg mm) -> a + n <= b_lba mm ->
  exists c', mmc_read_blocks mm a n c = (n, concat (content c <$> seqZ a n), c') /\ in_phase (Busy 0) c' /\ forall x, content c' x = content c x.
Proof.
  intros Hc Ha Hn Hl. destruct Hfit. unfold mmc_read_blocks, mmc_send_cmd. rewrite fm_rbl0, (u32_small n) by (unfold is_u32; lia).
  fold (card_addr mm a). destruct (gc_read c a n Hc Ha Hn Hl) as (r & c1 & -> & Hp & Hx). change (negb (0 =? 0)) with false. cbn iota.
  rewrite s32_small by (unfold is_s32; lia). destruct (1 <? n).
  - destruct (gc_stop_read c1 Hp) as (r2 & bs & c2 & -> & Hp2 & Hx2). change (negb (0 =? 0)) with false. cbn iota. exists c2.
    split; [done|]. split; [done|]. intros x. by rewrite Hx2.
  - by exists c1.
Qed.

Lemma bread_loop_ok fuel : forall a n dst c, in_phase (Busy 0) c -> 0 <= a -> 0 < n -> a + n <= b_lba mm -> (Z.to_nat n <= fuel)%nat ->
  exists c', bread_loop fuel mm a n dst c = Some (true, dst ++ concat (content c <$> seqZ a n), c') /\ in_phase (Busy 0) c' /\ forall x, content c' x = content c x.
Proof.
  destruct Hfit. induction fuel as [|fuel IH]; intros a n dst c Hc Ha Hn Hl Hf; [lia|]. cbn [bread_loop].
  set (cur := if b_max (cfg mm) <? n then b_max (cfg mm) else n). assert (Hcur : 0 < cur <= b_max (cfg mm) /\ cur <= n) by (unfold cur; destruct (Z.ltb_spec (b_max (cfg mm)) n); lia).
  destruct (read_blocks_ok c a cur Hc Ha ltac:(lia) ltac:(lia)) as (c1 & -> & Hp & Hx). rewrite u64_small by (unfold is_u64; lia).
  rewrite Z.eqb_refl. cbn [negb]. destruct (Z.ltb_spec 0 (n - cur)).
  - rewrite u64_small by (unfold is_u64; lia). destruct (IH (a + cur) (n - cur) (dst ++ concat (content c <$> seqZ a cur)) c1) as (c2 & -> & Hp2 & Hx2); [done|lia|lia|lia|lia|].
    exists c2. split; [|split; [done|intros x; by rewrite Hx2]]. rewrite <- app_assoc. do 4 f_equal.
    replace n with (cur + (n - cur)) at 2 by lia. rewrite seqZ_app, fmap_app, concat_app by lia. f_equal. f_equal. apply list_fmap_ext. intros i x _. apply Hx.
  - exists c1. replace n with cur by lia. done.
Qed.

Lemma bread_ok ms k c a n : find_mmc_device ms k = Some mm -> in_phase (Busy 0) c -> 0 <= a -> 0 < n -> a + n <= b_lba mm ->
  exists c', mmc_bread ms k a n c = Some (n, concat (content c <$> seqZ a n), c') /\ in_phase (Busy 0) c' /\ forall x, content c' x = content c x.
Proof.
  intros Hm Hc Ha Hn Hl. pose proof Hfit as []. unfold mmc_bread. destruct (Z.eqb_spec n 0); [lia|]. rewrite Hm, u64_small by (unfold is_u64; lia).
  destruct (Z.ltb_spec (b_lba mm) (a + n)); [lia|]. rewrite fm_rbl0. destruct (blocklen_ok c Hc) as (c1 & -> & Hp & Hx). change (negb (0 =? 0)) with false. cbn iota.
  destruct (bread_loop_ok (Z.to_nat n) a n [] c1 Hp Ha Hn Hl ltac:(lia)) as (c2 & -> & Hp2 & Hx2). cbn [mbind option_bind app]. exists c2.
  split; [|split; [done|intros x; by rewrite Hx2]]. do 4 f_equal. apply list_fmap_ext. intros i x _. apply Hx.
Qed.

(** ** Writing *)

Lemma write_blocks_ok c a n src : in_phase (Busy 0) c -> 0 <= a -> 0 < n <= b_max (cfg mm) -> a + n <= b_lba mm -> 512 * n <= Z.of_nat (length src) ->
  exists c', mmc_write_blocks mm a n src c = Some (n, c') /\ in_phase (Busy 0) c' /\
    forall x, content c' x = if (a <=? x) && (x <? a + n) then slice (Z.to_nat (512 * (x - a))) 512 src else content c x.
Proof.
  intros Hc Ha Hn Hl Hs. pose proof Hfit as []. unfold mmc_write_blocks, mmc_send_cmd. rewrite u64_small by (unfold is_u64; lia).
  destruct (Z.ltb_spec (b_lba mm) (a + n)); [lia|]. destruct (Z.eqb_spec n 0); [lia|]. rewrite fm_wbl0, (u32_small n) by (unfold is_u32; lia).
  destruct (Z.ltb_spec (Z.of_nat (length src)) (n * 512)); [lia|]. fold (card_addr mm a).
  assert (Hd : Z.of_nat (length (take (Z.to_nat (n * 512)) src)) = 512 * n) by (rewrite length_take; lia).
  destruct (gc_write c a n _ Hc Ha Hn Hl Hd) as (r & bs & c1 & k & -> & Hp & Hk & Hx). change (negb (0 =? 0)) with false. cbn iota.
  assert (Hx' : forall x, content c1 x = if (a <=? x) && (x <? a + n) then slice (Z.to_nat (512 * (x - a))) 512 src else content c x).
  { intros x. rewrite Hx. destruct (Z.leb_spec a x), (Z.ltb_spec x (a + n)); cbn [andb]; try done. unfold slice. rewrite skipn_firstn_comm, take_take. f_equal. lia. }
  assert (Hend : exists c2 k2, (if 1 <? n then let '(err, _, _, c) := send_cmd mm MMC_CMD_STOP_TRANSMISSION 0 MMC_RSP_R1b NoData c1 in (err, c) else (0, c1)) = (0, c2) /\
    in_phase (Busy k2) c2 /\ (k2 < 1000)%nat /\ forall x, content c2 x = content c1 x).
  { destruct (1 <? n); [|by exists c1, k]. destruct (gc_stop_write c1 Hp) as (r2 & bs2 & c2 & k2 & -> & Hp2). by exists c2, k2. }
  destruct Hend as (c2 & k2 & -> & Hp2 & Hk2 & Hx2). change (negb (0 =? 0)) with false. cbn iota.
  destruct (send_status_ok k2 c2 Hp2 Hk2) as (c3 & -> & Hp3 & Hx3). cbn [mbind option_bind]. change (negb (0 =? 0)) with false. cbn iota.
  exists c3. split; [done|]. split; [done|]. intros x. by rewrite Hx3, Hx2.
Qed.

Lemma bwrite_loop_ok fuel : forall a n src c, in_phase (Busy 0) c -> 0 <= a -> 0 < n -> a + n <= b_lba mm -> 512 * n <= Z.of_nat (length src) -> (Z.to_nat n <= fuel)%nat ->
  exists c', bwrite_loop fuel mm a n src c = Some (true, c') /\ in_phase (Busy 0) c' /\
    forall x, content c' x = if (a <=? x) && (x <? a + n) then slice (Z.to_nat (512 * (x - a))) 512 src else content c x.
Proof.
  pose proof Hfit as []. induction fuel as [|fuel IH]; intros a n src c Hc Ha Hn Hl Hs Hf; [lia|]. cbn [bwrite_loop].
  set (cur := if b_max (cfg mm) <? n then b_max (cfg mm) else n). assert (Hcur : 0 < cur <= b_max (cfg mm) /\ cur <= n) by (unfold cur; destruct (Z.ltb_spec (b_max (cfg mm)) n); lia).
  destruct (write_blocks_ok c a cur src Hc Ha ltac:(lia) ltac:(lia) ltac:(lia)) as (c1 & -> & Hp & Hx). cbn [mbind option_bind].
  rewrite Z.eqb_refl. cbn [negb]. destruct (Z.ltb_spec 0 (n - cur)).
  - rewrite u64_small by (unfold is_u64; lia). rewrite fm_wbl0.
    destruct (IH (a + cur) (n - cur) (drop (Z.to_nat (cur * 512)) src) c1) as (c2 & -> & Hp2 & Hx2); [done|lia|lia|lia|rewrite length_drop; lia|lia|].
    exists c2. split; [done|]. split; [done|]. intros x. rewrite Hx2, Hx.
    destruct (Z.leb_spec (a + cur) x), (Z.ltb_spec x (a + cur + (n - cur))), (Z.leb_spec a x), (Z.ltb_spec x (a + n)), (Z.ltb_spec x (a + cur)); cbn [andb]; try lia; try done.
    unfold slice. rewrite drop_drop. do 2 f_equal. lia.
  - exists c1. replace n with cur by lia. done.
Qed.

Lemma bwrite_ok ms k c a n src : find_mmc_device ms k = Some mm -> in_phase (Busy 0) c -> 0 <= a -> 0 < n -> a + n <= b_lba mm -> 512 * n <= Z.of_nat (length src) ->
  exists c', mmc_bwrite ms k a n src c = Some (n, c') /\ in_phase (Busy 0) c' /\
    forall x, content c' x = if (a <=? x) && (x <? a + n) then slice (Z.to_nat (512 * (x - a))) 512 src else content c x.
Proof.
  intros Hm Hc Ha Hn Hl Hs. pose proof Hfit as []. unfold mmc_bwrite. rewrite Hm, fm_wbl0.
  destruct (blocklen_ok c Hc) as (c1 & -> & Hp & Hx). change (negb (0 =? 0)) with false. cbn iota.
  destruct (bwrite_loop_ok (S (Z.to_nat n)) a n src c1 Hp Ha Hn Hl Hs ltac:(lia)) as (c2 & -> & Hp2 & Hx2). cbn [mbind option_bind]. exists c2.
  split; [done|]. split; [done|]. intros x. rewrite Hx2, Hx. done.
Qed.

(** ** Erasing *)

(** The groups that a range touches. *)
Definition touched (a n x : Z) : bool := (group_start mm a <=? x) && (x <? group_start mm (a + n - 1) + erase_grp_size mm).

Lemma erase_t_ok c a n : in_phase (Busy 0) c -> 0 <= a -> 0 < n -> a + n <= b_lba mm ->
  exists c' k, mmc_erase_t mm a n c = (0, c') /\ in_phase (Busy k) c' /\ (k < 1000)%nat /\ forall x, content c' x = if touched a n x then blank else content c x.
Proof.
  intros Hc Ha Hn Hl. pose proof Hfit as []. unfold mmc_erase_t, mmc_send_cmd. rewrite fm_wbl0.
  assert (Haddr : forall b, 0 <= b < b_lba mm -> u32 (if negb (high_capacity mm =? 0) then b else u64 (b * 512)) = card_addr mm b).
  { intros b Hb. unfold card_addr. destruct (negb _); [done|]. by rewrite u64_small by (unfold is_u64; lia). }
  pose proof (Haddr a ltac:(lia)) as E1. pose proof (Haddr (a + n - 1) ltac:(lia)) as E2. assert (Har : 0 <= a < b_lba mm) by lia. pose proof (gc_start c a Hc Har) as G1.
  assert (Hargs : exists s e, (if negb (high_capacity mm =? 0) then (a, u64 (a + n - 1)) else (u64 (a * 512), u64 ((a + n - 1) * 512))) = (s, e) /\
    u32 s = card_addr mm a /\ u32 e = card_addr mm (a + n - 1)).
  { revert E1 E2. destruct (negb (high_capacity mm =? 0)); intros E1 E2; [|eauto]. exists a, (u64 (a + n - 1)). rewrite u64_small by (unfold is_u64; lia). eauto. }
  destruct Hargs as (s & e & -> & -> & ->).
  assert (Hcmds : (if negb (Z.land (version mm) SD_VERSION_SD =? 0) then (SD_CMD_ERASE_WR_BLK_START, SD_CMD_ERASE_WR_BLK_END)
    else (MMC_CMD_ERASE_GROUP_START, MMC_CMD_ERASE_GROUP_END)) = ((erase_cmds mm).1, (erase_cmds mm).2)) by (unfold erase_cmds; destruct (Z.land (version mm) SD_VERSION_SD =? 0); reflexivity).
  rewrite Hcmds. clear Hcmds. destruct G1 as (r1 & bs1 & c1 & -> & Hp1 & Hx1). change (negb (0 =? 0)) with false. cbn iota.
  assert (Hbr : 0 <= a <= a + n - 1 /\ a + n - 1 < b_lba mm) by lia. destruct (gc_end c1 a (a + n - 1) Hp1 (proj1 Hbr) (proj2 Hbr)) as (r2 & bs2 & c2 & -> & Hp2 & Hx2). change (negb (0 =? 0)) with false. cbn iota.
  destruct (gc_erase c2 a (a + n - 1) Hp2) as (r3 & bs3 & c3 & k & -> & Hp3 & Hk & Hx3). exists c3, k. split; [done|]. split; [done|]. split; [done|].
  intros x. unfold touched. rewrite Hx3, Hx2, Hx1. done.
Qed.

(** Two ranges behind one another. *)
Lemma touched_app a n1 n2 x : 0 <= a -> 0 < n1 -> 0 < n2 -> touched a (n1 + n2) x = touched a n1 x || touched (a + n1) n2 x.
Proof.
  intros Ha H1 H2. pose proof Hfit as []. unfold touched, group_start. set (g := erase_grp_size mm) in *.
  assert (E : a + (n1 + n2) - 1 = a + n1 + n2 - 1) by lia. rewrite E. clear E.
  set (p := a / g). set (q := (a + n1 - 1) / g). set (r := (a + n1) / g). set (s := (a + n1 + n2 - 1) / g).
  assert (p <= q) by (apply Z.div_le_mono; lia). assert (q <= r) by (apply Z.div_le_mono; lia). assert (r <= s) by (apply Z.div_le_mono; lia).
  assert (r <= q + 1).
  { assert (a + n1 - 1 < g * (q + 1)) by (unfold q; pose proof (Z.mul_succ_div_gt (a + n1 - 1) g ltac:(lia)); lia).
    apply Z.div_le_upper_bound; lia. }
  assert (g * p <= g * q /\ g * q <= g * r /\ g * r <= g * s /\ g * r <= g * q + g) as (? & ? & ? & ?) by nia.
  destruct (Z.leb_spec (g * p) x), (Z.ltb_spec x (g * s + g)), (Z.ltb_spec x (g * q + g)), (Z.leb_spec (g * r) x); cbn; (done || lia).
Qed.

Lemma berase_loop_ok fuel : forall a n b c, in_phase (Busy 0) c -> 0 <= a -> 0 <= b <= n -> a + n <= b_lba mm -> (Z.to_nat (n - b) < fuel)%nat ->
  exists c', berase_loop fuel mm a n b c = Some (n, c') /\ in_phase (Busy 0) c' /\
    forall x, content c' x = if (b <? n) && touched (a + b) (n - b) x then blank else content c x.
Proof.
  pose proof Hfit as []. induction fuel as [|fuel IH]; intros a n b c Hc Ha Hb Hl Hf; [lia|]. cbn [berase_loop]. destruct (Z.ltb_spec b n) as [Hlt|Hge].
  - set (r := if erase_grp_size mm <? n - b then erase_grp_size mm else n - b).
    assert (Hr : 0 < r <= n - b) by (unfold r; destruct (Z.ltb_spec (erase_grp_size mm) (n - b)); lia).
    rewrite u64_small by (unfold is_u64; lia).
    destruct (erase_t_ok c (a + b) r Hc ltac:(lia) ltac:(lia) ltac:(lia)) as (c1 & k & -> & Hp1 & Hk & Hx1). change (negb (0 =? 0)) with false. cbn iota.
    destruct (send_status_ok k c1 Hp1 Hk) as (c2 & -> & Hp2 & Hx2). cbn [mbind option_bind]. change (negb (0 =? 0)) with false. cbn iota.
    destruct (IH a n (b + r) c2 Hp2 Ha ltac:(lia) Hl ltac:(lia)) as (c3 & -> & Hp3 & Hx3). exists c3. split; [done|]. split; [done|]. intros x.
    rewrite Hx3, Hx2, Hx1. cbn [andb]. destruct (Z.ltb_spec (b + r) n) as [Hm|Hm]; cbn [andb].
    + replace (n - b) with (r + (n - (b + r))) by lia. rewrite touched_app by lia. replace (a + (b + r)) with (a + b + r) by lia.
      by destruct (touched (a + b) r x), (touched (a + b + r) (n - (b + r)) x).
    + by replace (n - b) with r by lia.
  - exists c. replace b with n by lia. done.
Qed.

Lemma berase_ok ms k c a n : find_mmc_device ms k = Some mm -> in_phase (Busy 0) c -> 0 <= a -> 0 < n -> a + n <= b_lba mm ->
  exists c', mmc_berase ms k a n c = Some (n, c') /\ in_phase (Busy 0) c' /\ forall x, content c' x = if touched a n x then blank else content c x.
Proof.
  intros Hm Hc Ha Hn Hl. pose proof Hfit as []. unfold mmc_berase. rewrite Hm. destruct (Z.eqb_spec (erase_grp_size mm) 0); [lia|].
  destruct (berase_loop_ok (S (Z.to_nat n)) a n 0 c Hc Ha ltac:(lia) Hl ltac:(lia)) as (c' & -> & Hp & Hx). exists c'. split; [done|]. split; [done|].
  intros x. rewrite Hx. destruct (Z.ltb_spec 0 n); [|lia]. cbn [andb]. by rewrite Z.add_0_r, Z.sub_0_r.
Qed.

(** What is written is read. *)
Lemma concat_slices (src : list Z) (k : nat) : forall a, 512 * Z.of_nat k <= Z.of_nat (length src) ->
  concat ((fun x => slice (Z.to_nat (512 * (x - a))) 512 src) <$> seqZ a (Z.of_nat k)) = take (512 * k) src.
Proof.
  revert src. induction k as [|k IH]; intros src a Hl; [by rewrite seqZ_nil by lia|].
  rewrite seqZ_cons by lia. cbn [fmap list_fmap concat]. replace (Z.pred (Z.of_nat (S k))) with (Z.of_nat k) by lia.
  rewrite Z.sub_diag. change (Z.to_nat (512 * 0)) with O. unfold slice at 1. rewrite drop_0.
  replace (512 * S k)%nat with (512 + 512 * k)%nat by lia. rewrite <- (take_take_drop src 512 (512 * k)). f_equal.
  rewrite <- (IH (drop 512 src) (Z.succ a)) by (rewrite length_drop; lia). f_equal. apply list_fmap_ext. intros i x Hx.
  apply lookup_seqZ in Hx as [-> Hx]. unfold slice. rewrite drop_drop. f_equal. f_equal. lia.
Qed.

(** The driver as a block device. *)
Definition card_device (ms : list mmc) (k : Z) : BlockDev := {|
  bdev := card;
  lba _ := b_lba mm;
  blksz _ := read_bl_len mm;
  block_read a n c := default (0, [], c) (mmc_bread ms k a n c);
  block_write a n data c := default (0, c) (mmc_bwrite ms k a n data c);
|}.

Lemma card_device_good ms k : find_mmc_device ms k = Some mm -> @GoodDev (card_device ms k) (in_phase (Busy 0)) content.
Proof.
  intros Hm. pose proof Hfit as []. constructor.
  - intros c Hc. exact fm_rbl0.
  - intros c Hc. exact fm_lba0.
  - intros c a Hc. by apply gc_sector.
  - intros c a Hc Ha. cbn [lba card_device] in Ha. destruct (bread_ok ms k c a 1 Hm Hc ltac:(lia) ltac:(lia) ltac:(lia)) as (c' & Hr & Hp & Hx).
    exists c'. cbn [block_read card_device]. rewrite Hr. cbn [default]. rewrite (seqZ_cons a 1), seqZ_nil by lia. cbn [fmap list_fmap concat]. rewrite app_nil_r. done.
  - intros c a data Hc Ha Hl. cbn [lba card_device] in Ha. destruct (bwrite_ok ms k c a 1 data Hm Hc ltac:(lia) ltac:(lia) ltac:(lia) ltac:(lia)) as (c' & Hr & Hp & Hx).
    exists c'. cbn [block_write card_device]. rewrite Hr. cbn [default]. split; [done|]. split; [done|]. split; [done|]. intros x. rewrite Hx.
    destruct (Z.leb_spec a x), (Z.ltb_spec x (a + 1)), (Z.eqb_spec x a); cbn [andb]; try lia; try done.
    subst. rewrite Z.sub_diag. unfold slice. change (Z.to_nat (512 * 0)) with O. rewrite drop_0. apply take_ge. lia.
Qed.
End Working.

(** ** Any card *)

Section Any.
Context {HC : CardHost}.

Lemma status_loop_ends mm fuel : forall timeout retries c, (Z.to_nat timeout < fuel)%nat -> exists r, status_loop fuel mm timeout retries c = Some r.
Proof.
  induction fuel as [|n IH]; intros timeout retries c Hf; [lia|]. cbn [status_loop]. destruct (mmc_send_cmd _ _ _ _ _ _) as [[[err r] bs] c'].
  assert (Hagain : forall retries, exists r', (if timeout <=? 0 then Some (inr (timeout - 1, resp r 0), c') else status_loop n mm (timeout - 1) retries (udelay 1000 c')) = Some r').
  { intros rt. destruct (Z.leb_spec timeout 0); [by eexists|]. apply IH. lia. }
  destruct (err =? 0); [destruct (_ && _); [by eexists|]; destruct (negb _); [by eexists|apply Hagain]|]. destruct (_ <? 0); [by eexists|apply Hagain].
Qed.

Lemma send_status_ends mm timeout c : exists r, mmc_send_status mm timeout c = Some r.
Proof.
  unfold mmc_send_status. destruct (status_loop_ends mm (S (S (Z.to_nat timeout))) timeout 5 c ltac:(lia)) as [[[err|[t r]] c'] ->]; cbn [mbind option_bind]; [by eexists|].
  destruct (t <=? 0); [by eexists|]. destruct (negb _); by eexists.
Qed.

Lemma write_blocks_ends mm a n src c : 0 <= n < 2 ^ 32 -> n * write_bl_len mm <= Z.of_nat (length src) ->
  exists r c', mmc_write_blocks mm a n src c = Some (r, c') /\ (r = n \/ r = 0).
Proof.
  intros Hn Hs. unfold mmc_write_blocks. destruct (_ <? _); [eauto|]. destruct (n =? 0); [eauto|]. rewrite (u32_small n) by done.
  destruct (Z.ltb_spec (Z.of_nat (length src)) (n * write_bl_len mm)); [lia|]. destruct (mmc_send_cmd _ _ _ _ _ _) as [[[err r] bs] c1].
  destruct (negb (err =? 0)); [eauto|]. set (e := if 1 <? n then _ else _). destruct e as [err2 c2]. destruct (negb (err2 =? 0)); [eauto|].
  destruct (send_status_ends mm 1000 c2) as [[err3 c3] ->]. cbn [mbind option_bind]. destruct (negb _); eauto.
Qed.

Lemma bwrite_loop_ends mm fuel : 1 <= b_max (cfg mm) < 2 ^ 32 -> 0 <= write_bl_len mm -> forall a n src c, 0 <= n -> n * write_bl_len mm <= Z.of_nat (length src) -> (Z.to_nat n < fuel)%nat ->
  exists r, bwrite_loop fuel mm a n src c = Some r.
Proof.
  intros Hb Hw. induction fuel as [|fuel IH]; intros a n src c Hn Hs Hf; [lia|]. cbn [bwrite_loop].
  set (cur := if b_max (cfg mm) <? n then b_max (cfg mm) else n). assert (Hcur : 0 <= cur <= b_max (cfg mm) /\ cur <= n /\ (0 < n -> 0 < cur)) by (unfold cur; destruct (Z.ltb_spec (b_max (cfg mm)) n); lia).
  destruct (write_blocks_ends mm a cur src c ltac:(lia) ltac:(nia)) as (r & c' & -> & _). cbn [mbind option_bind]. destruct (negb _); [eauto|].
  destruct (Z.ltb_spec 0 (n - cur)); [|eauto]. apply IH; [lia|rewrite length_drop; nia|lia].
Qed.

Lemma bwrite_ends ms k mm a n src c : find_mmc_device ms k = Some mm -> 1 <= b_max (cfg mm) < 2 ^ 32 -> 0 <= write_bl_len mm -> 0 <= n ->
  n * write_bl_len mm <= Z.of_nat (length src) -> exists r c', mmc_bwrite ms k a n src c = Some (r, c') /\ (r = n \/ r = 0).
Proof.
  intros Hm Hb Hw Hn Hs. unfold mmc_bwrite. rewrite Hm. destruct (mmc_set_blocklen _ _ _) as [err c1]. destruct (negb _); [eauto|].
  destruct (bwrite_loop_ends mm (S (Z.to_nat n)) Hb Hw a n src c1 Hn Hs ltac:(lia)) as [[[|] c2] ->]; cbn [mbind option_bind]; eauto.
Qed.
End Any.

(** ** Claims *)

(** C23: blocks that are written are read back, and no others change, however the request
    has to be cut into runs and however long the card is busy. *)
Theorem blocks_roundtrip `{HC : CardHost} mm in_phase content blank `{HG : !GoodCard mm in_phase content blank} ms k c a n src :
  fitting mm -> find_mmc_device ms k = Some mm -> in_phase (Busy 0) c -> 0 <= a -> 0 < n -> a + n <= b_lba mm -> Z.of_nat (length src) = 512 * n ->
  exists c1 c2, mmc_bwrite ms k a n src c = Some (n, c1) /\ mmc_bread ms k a n c1 = Some (n, src, c2) /\ in_phase (Busy 0) c2 /\
    forall x, ~ a <= x < a + n -> content c2 x = content c x.
Proof.
  intros Hfit Hm Hc Ha Hn Hl Hs. destruct (bwrite_ok mm in_phase content blank Hfit ms k c a n src Hm Hc Ha Hn Hl ltac:(lia)) as (c1 & Hw & Hp1 & Hx1).
  destruct (bread_ok mm in_phase content blank Hfit ms k c1 a n Hm Hp1 Ha Hn Hl) as (c2 & Hr & Hp2 & Hx2). exists c1, c2. split; [done|]. split; [|split; [done|]].
  - rewrite Hr. do 4 f_equal. transitivity (concat ((fun x => slice (Z.to_nat (512 * (x - a))) 512 src) <$> seqZ a (Z.of_nat (Z.to_nat n)))).
    + rewrite Z2Nat.id by lia. f_equal. apply list_fmap_ext. intros i x Hx. apply lookup_seqZ in Hx as [-> Hi]. rewrite Hx1.
      destruct (Z.leb_spec a (a + Z.of_nat i)), (Z.ltb_spec (a + Z.of_nat i) (a + n)); cbn [andb]; (done || lia).
    + rewrite concat_slices by lia. apply take_ge. lia.
  - intros x Hx. rewrite Hx2, Hx1. destruct (Z.leb_spec a x), (Z.ltb_spec x (a + n)); cbn [andb]; (done || lia).
Qed.

(** C25: erasing erases whole groups: every block of a group that the range touches is
    gone, be it in the range or not, and the result says that only the range was. *)
Theorem berase_groups `{HC : CardHost} mm in_phase content blank `{HG : !GoodCard mm in_phase content blank} ms k c a n :
  fitting mm -> find_mmc_device ms k = Some mm -> in_phase (Busy 0) c -> 0 <= a -> 0 < n -> a + n <= b_lba mm ->
  exists c', mmc_berase ms k a n c = Some (n, c') /\ in_phase (Busy 0) c' /\
    forall x, content c' x = if touched mm a n x then blank else content c x.
Proof. intros Hfit Hm Hc Ha Hn Hl. by apply berase_ok. Qed.

(** Whatever the host and the card answer, writing ends, and says that all has been
    written or that nothing has. *)
Theorem bwrite_all_or_zero `{HC : CardHost} ms k mm a n src c :
  find_mmc_device ms k = Some mm -> 1 <= b_max (cfg mm) < 2 ^ 32 -> 0 <= write_bl_len mm -> 0 <= n -> n * write_bl_len mm <= Z.of_nat (length src) ->
  exists r c', mmc_bwrite ms k a n src c = Some (r, c') /\ (r = n \/ r = 0).
Proof. intros Hm Hb Hw Hn Hs. by apply (bwrite_ends ms k mm). Qed.

(** ** A card in memory *)

Record ram_card := mkRam { ram_phase : phase; ram_blocks : Z -> list Z }.

Definition ram_erased : list Z := replicate 512 0.

(** The card of the examples: it is busy for one poll after a block, for three after
    several and for two after erasing; its groups have eight blocks. *)
Definition ram_send (mm : mmc) (cmdidx cmdarg resp_type : Z) (data : mmc_data) (c : ram_card) : Z * list Z * list Z * ram_card :=
  let a := if negb (high_capacity mm =? 0) then cmdarg else cmdarg / 512 in
  match data with
  | WriteData src n _ =>
      (0, [0x900], [], mkRam (if 1 <? n then Written else Busy 1)
        (fun x => if (a <=? x) && (x <? a + n) then slice (Z.to_nat (512 * (x - a))) 512 src else ram_blocks c x))
  | ReadData n _ => (0, [0x900], concat (ram_blocks c <$> seqZ a n), mkRam (if 1 <? n then Streaming else Busy 0) (ram_blocks c))
  | NoData =>
      if cmdidx =? MMC_CMD_STOP_TRANSMISSION then
        (0, [0x900], [], mkRam (match ram_phase c with Written => Busy 3 | _ => Busy 0 end) (ram_blocks c))
      else if cmdidx =? MMC_CMD_SEND_STATUS then
        match ram_phase c with
        | Busy (S k) => (0, [0xe00], [], mkRam (Busy k) (ram_blocks c))
        | _ => (0, [0x900], [], c)
        end
      else if (cmdidx =? SD_CMD_ERASE_WR_BLK_START) || (cmdidx =? MMC_CMD_ERASE_GROUP_START) then (0, [0x900], [], mkRam (Group1 a) (ram_blocks c))
      else if (cmdidx =? SD_CMD_ERASE_WR_BLK_END) || (cmdidx =? MMC_CMD_ERASE_GROUP_END) then
        (0, [0x900], [], mkRam (match ram_phase c with Group1 s => Group2 s a | p => p end) (ram_blocks c))
      else if cmdidx =? MMC_CMD_ERASE then
        match ram_phase c with
        | Group2 s e => (0, [0x900], [], mkRam (Busy 2)
            (fun x => if (group_start mm s <=? x) && (x <? group_start mm e + erase_grp_size mm) then ram_erased else ram_blocks c x))
        | _ => (COMM_ERR, [], [], c)
        end
      else (0, [0x900], [], c)
  end.

#[global] Instance ram_host : CardHost := {|
  card := ram_card; send_cmd := ram_send; ops_set_ios := None; ops_init := Some (fun _ c => (0, c)); ops_getcd := None; ops_getwp := None;
  get_timer base c := (u64 (- base), c); udelay _ c := c;
|}.

(** A card of 2^20 blocks, of which the host moves four at a time. *)
Definition ram_config : mmc_config := mkConfig (Z.lor (Z.shiftl 1 0) (Z.lor (Z.shiftl 1 1) (Z.shiftl 1 2))) 0xff8000 400000 50000000 4 0.

Definition ram_mmc_device (k hc v : Z) : mmc :=
  mkMmc ram_config v 1 hc 4 50000000 0 0 0xffffffff 0 [0; 0] [0; 0; 0; 0] [0; 0; 0; 0] 1 0 0 0 0xff 0 50000000 512 512 8 0
    (2 ^ 29) (2 ^ 29) 0 0 [0; 0; 0; 0] 0 0 k 0 2 512 9 (2 ^ 20) 0 0 0 0.

Definition ram_in_phase (p : phase) (c : ram_card) : Prop := ram_phase c = p /\ forall a, length (ram_blocks c a) = 512%nat.

Lemma ram_address mm a : high_capacity mm = 0 \/ high_capacity mm = 1 -> 0 <= a < 2 ^ 20 ->
  (if negb (high_capacity mm =? 0) then card_addr mm a else card_addr mm a / 512) = a.
Proof.
  intros Hhc Ha. unfold card_addr. destruct Hhc as [-> | ->].
  - change (negb (0 =? 0)) with false. cbn iota. rewrite u32_small by (unfold is_u32; lia). by rewrite Z.div_mul.
  - change (negb (1 =? 0)) with true. cbn iota. by rewrite u32_small by (unfold is_u32; lia).
Qed.

Lemma ram_card_good mm : high_capacity mm = 0 \/ high_capacity mm = 1 -> b_lba mm <= 2 ^ 20 -> GoodCard mm ram_in_phase (fun c => ram_blocks c) ram_erased.
Proof.
  intros Hhc Hlim. assert (Haddr := fun a => ram_address mm a Hhc).
  assert (Hsame : forall p (c : ram_card), (forall a, length (ram_blocks c a) = 512%nat) -> ram_in_phase p (mkRam p (ram_blocks c))) by done.
  constructor; cbn [send_cmd ram_host]; unfold ram_send.
  - intros c a [_ Hl]. apply Hl.
  - intros c [Hp Hl]. by eexists _, _, c.
  - intros c a n [Hp Hl] Ha Hn Hlba. rewrite Haddr by lia. eexists _, _. split; [reflexivity|]. by destruct (1 <? n).
  - intros c a n data [Hp Hl] Ha Hn Hlba Hlen. rewrite Haddr by lia. eexists _, _, _, 1%nat. split; [reflexivity|].
    assert (Hls : forall x, length (if (a <=? x) && (x <? a + n) then slice (Z.to_nat (512 * (x - a))) 512 data else ram_blocks c x) = 512%nat).
    { intros x. destruct (Z.leb_spec a x), (Z.ltb_spec x (a + n)); cbn [andb]; try apply Hl. apply slice_length. lia. }
    split; [by destruct (1 <? n)|]. split; [lia|done].
  - intros c [Hp Hl]. eexists _, _, _. split; [reflexivity|]. by rewrite Hp.
  - intros c [Hp Hl]. eexists _, _, _, 3%nat. split; [reflexivity|]. rewrite Hp. split; [done|]. split; [lia|done].
  - intros c j [Hp Hl]. change (MMC_CMD_SEND_STATUS =? MMC_CMD_STOP_TRANSMISSION) with false. change (MMC_CMD_SEND_STATUS =? MMC_CMD_SEND_STATUS) with true.
    cbn iota. rewrite Hp. destruct j as [|j]; eexists _, _, _; (split; [reflexivity|]); (split; [done|]); split; try done.
    unfold says_busy. split; [right|]; by vm_compute.
  - intros c n j Hc. exists j. split; [lia|done].
  - intros c a [Hp Hl] Ha. rewrite Haddr by lia. unfold erase_cmds.
    destruct (negb (Z.land (version mm) SD_VERSION_SD =? 0)); eexists _, _, _; (split; [reflexivity|done]).
  - intros c a b [Hp Hl] Hab Hb. rewrite Haddr by lia. unfold erase_cmds. rewrite Hp.
    destruct (negb (Z.land (version mm) SD_VERSION_SD =? 0)); eexists _, _, _; (split; [reflexivity|done]).
  - intros c a b [Hp Hl]. rewrite Hp. eexists _, _, _, 2%nat. split; [reflexivity|]. split; [|split; [lia|done]]. split; [done|]. intros x. cbn [ram_blocks].
    destruct (_ && _); [apply length_replicate|apply Hl].
Qed.

Definition ram_start : ram_card := mkRam (Busy 0) (fun _ => replicate 512 1).

Lemma ram_start_ok : ram_in_phase (Busy 0) ram_start.
Proof. split; [done|]. intros a. apply length_replicate. Qed.

Lemma ram_fitting k hc v : fitting (ram_mmc_device k hc v).
Proof. constructor; cbn; lia. Qed.

Definition ten_blocks : list Z := concat (replicate 10 (replicate 512 7)).

Lemma ten_blocks_length : Z.of_nat (length ten_blocks) = 5120.
Proof. vm_compute. reflexivity. Qed.

(** Ten blocks, in runs of four, on a card that is addressed by bytes. *)
Lemma blocks_roundtrip_witness : exists c1 c2,
  mmc_bwrite [ram_mmc_device 0 0 0] 0 100 10 ten_blocks ram_start = Some (10, c1) /\
  mmc_bread [ram_mmc_device 0 0 0] 0 100 10 c1 = Some (10, ten_blocks, c2) /\ ram_blocks c2 110 = replicate 512 1.
Proof.
  destruct (@blocks_roundtrip ram_host (ram_mmc_device 0 0 0) ram_in_phase (fun c => ram_blocks c) ram_erased (ram_card_good (ram_mmc_device 0 0 0) (or_introl eq_refl) ltac:(cbn; lia))
    [ram_mmc_device 0 0 0] 0 ram_start 100 10 ten_blocks (ram_fitting 0 0 0) eq_refl ram_start_ok ltac:(lia) ltac:(lia) ltac:(cbn; lia) ltac:(rewrite ten_blocks_length; lia))
    as (c1 & c2 & Hw & Hr & _ & Hx).
  exists c1, c2. split; [exact Hw|]. split; [exact Hr|]. exact (Hx 110 ltac:(lia)).
Defined.

(** Ten blocks of a card with groups of eight: the first and the last block of the groups. *)
Lemma berase_groups_witness : exists c',
  mmc_berase [ram_mmc_device 0 1 0] 0 100 10 ram_start = Some (10, c') /\ ram_blocks c' 96 = ram_erased /\ ram_blocks c' 111 = ram_erased /\ ram_blocks c' 112 = replicate 512 1.
Proof.
  destruct (@berase_groups ram_host (ram_mmc_device 0 1 0) ram_in_phase (fun c => ram_blocks c) ram_erased (ram_card_good (ram_mmc_device 0 1 0) (or_intror eq_refl) ltac:(cbn; lia))
    [ram_mmc_device 0 1 0] 0 ram_start 100 10 (ram_fitting 0 1 0) eq_refl ram_start_ok ltac:(lia) ltac:(lia) ltac:(cbn; lia)) as (c' & Hr & _ & Hx).
  exists c'. split; [exact Hr|]. rewrite !Hx. split_and!; vm_compute; reflexivity.
Defined.

(** A host that only fails. *)
Definition dead_host : CardHost := {|
  card := unit; send_cmd _ _ _ _ _ c := (TIMEOUT, [], [], c); ops_set_ios := None; ops_init := None; ops_getcd := None; ops_getwp := None;
  get_timer base c := (0, c); udelay _ c := c;
|}.

Lemma bwrite_all_or_zero_witness : exists r c', @mmc_bwrite dead_host [ram_mmc_device 0 1 0] 0 100 2 ten_blocks tt = Some (r, c') /\ (r = 2 \/ r = 0).
Proof.
  apply (@bwrite_all_or_zero dead_host [ram_mmc_device 0 1 0] 0 (ram_mmc_device 0 1 0) 100 2 ten_blocks tt); [reflexivity|cbn; lia|cbn; lia|lia|].
  rewrite ten_blocks_length. cbn. lia.
Defined.

(** A card that is ready only at the last poll is taken for one that never is. *)
Example ready_too_late : fst <$> mmc_send_status (ram_mmc_device 0 1 0) 3 (mkRam (Busy 3) (fun _ => [])) = Some TIMEOUT.
Proof. vm_compute. reflexivity. Qed.

(** A host that can move no blocks at all keeps the driver busy for ever. *)
Example no_blocks_hangs :
  mmc_bwrite [(ram_mmc_device 0 1 0) <| cfg := mkConfig 0 0 0 0 0 0 |>] 0 100 10 ten_blocks ram_start = None.
Proof. vm_compute. reflexivity. Qed.
