(* ===== verification/MmcInit.v ===== *)
(** Bringing a memory card up (src/U-Boot/drivers/mmc/mmc.c).

    The functions work on the device and on the host with its card, and most of them
    return at the first command that fails: [init] is the monad of that, where [None] is
    what C leaves undefined, or fuel that ran out.  SPI is not configured, so that
    [mmc_host_is_spi] is 0.  Bytes that a host has not stored are taken for 0.  What
    [init_part] finds on the card is a parameter. *)

From S2P Require Import Prelude Fields UStr Vsprintf UMem MmcPart Ext4Img MmcBlk.

(** ** Constants (include/mmc.h) *)

Definition MMC_VERSION_MMC : Z := Z.shiftl 1 30.
Definition MAKE_SDMMC_VERSION (a b c : Z) : Z := Z.lor (Z.lor (Z.shiftl a 16) (Z.shiftl b 8)) c.
Definition MAKE_SD_VERSION (a b c : Z) : Z := Z.lor SD_VERSION_SD (MAKE_SDMMC_VERSION a b c).
Definition MAKE_MMC_VERSION (a b c : Z) : Z := Z.lor MMC_VERSION_MMC (MAKE_SDMMC_VERSION a b c).
Definition SD_VERSION_3 : Z := MAKE_SD_VERSION 3 0 0.
Definition SD_VERSION_2 : Z := MAKE_SD_VERSION 2 0 0.
Definition SD_VERSION_1_0 : Z := MAKE_SD_VERSION 1 0 0.
Definition SD_VERSION_1_10 : Z := MAKE_SD_VERSION 1 10 0.
Definition MMC_VERSION_UNKNOWN : Z := MAKE_MMC_VERSION 0 0 0.
Definition MMC_VERSION_1_2 : Z := MAKE_MMC_VERSION 1 2 0.
Definition MMC_VERSION_1_4 : Z := MAKE_MMC_VERSION 1 4 0.
Definition MMC_VERSION_2_2 : Z := MAKE_MMC_VERSION 2 2 0.
Definition MMC_VERSION_3 : Z := MAKE_MMC_VERSION 3 0 0.
Definition MMC_VERSION_4 : Z := MAKE_MMC_VERSION 4 0 0.
Definition MMC_VERSION_4_1 : Z := MAKE_MMC_VERSION 4 1 0.
Definition MMC_VERSION_4_2 : Z := MAKE_MMC_VERSION 4 2 0.
Definition MMC_VERSION_4_3 : Z := MAKE_MMC_VERSION 4 3 0.
Definition MMC_VERSION_4_41 : Z := MAKE_MMC_VERSION 4 4 1.
Definition MMC_VERSION_4_5 : Z := MAKE_MMC_VERSION 4 5 0.
Definition MMC_VERSION_5_0 : Z := MAKE_MMC_VERSION 5 0 0.

Definition MMC_MODE_HS : Z := Z.shiftl 1 0.
Definition MMC_MODE_HS_52MHz : Z := Z.shiftl 1 1.
Definition MMC_MODE_4BIT : Z := Z.shiftl 1 2.
Definition MMC_MODE_8BIT : Z := Z.shiftl 1 3.
Definition MMC_MODE_DDR_52MHz : Z := Z.shiftl 1 5.
Definition SD_DATA_4BIT : Z := 0x00040000.

Definition NO_CARD_ERR : Z := -16.
Definition UNUSABLE_ERR : Z := -17.

Definition MMC_CMD_GO_IDLE_STATE : Z := 0.
Definition MMC_CMD_SEND_OP_COND : Z := 1.
Definition MMC_CMD_ALL_SEND_CID : Z := 2.
Definition MMC_CMD_SET_DSR : Z := 4.
Definition MMC_CMD_SELECT_CARD : Z := 7.
Definition MMC_CMD_SEND_EXT_CSD : Z := 8.
Definition MMC_CMD_SEND_CSD : Z := 9.
Definition MMC_CMD_APP_CMD : Z := 55.
Definition SD_CMD_SEND_RELATIVE_ADDR : Z := 3.
Definition SD_CMD_SWITCH_FUNC : Z := 6.
Definition SD_CMD_SEND_IF_COND : Z := 8.
Definition SD_CMD_APP_SET_BUS_WIDTH : Z := 6.
Definition SD_CMD_APP_SEND_OP_COND : Z := 41.
Definition SD_CMD_APP_SEND_SCR : Z := 51.
Definition SD_HIGHSPEED_BUSY : Z := 0x00020000.
Definition SD_HIGHSPEED_SUPPORTED : Z := 0x00020000.
Definition OCR_BUSY : Z := 0x80000000.
Definition OCR_HCS : Z := 0x40000000.
Definition OCR_VOLTAGE_MASK : Z := 0x007FFF80.
Definition OCR_ACCESS_MODE : Z := 0x60000000.
Definition SD_SWITCH_CHECK : Z := 0.
Definition SD_SWITCH_SWITCH : Z := 1.

Definition EXT_CSD_ENH_START_ADDR : nat := 136.
Definition EXT_CSD_ENH_SIZE_MULT : nat := 140.
Definition EXT_CSD_GP_SIZE_MULT : nat := 143.
Definition EXT_CSD_PARTITION_SETTING : nat := 155.
Definition EXT_CSD_PARTITIONS_ATTRIBUTE : nat := 156.
Definition EXT_CSD_MAX_ENH_SIZE_MULT : nat := 157.
Definition EXT_CSD_PARTITIONING_SUPPORT : nat := 160.
Definition EXT_CSD_WR_REL_PARAM : nat := 166.
Definition EXT_CSD_WR_REL_SET : nat := 167.
Definition EXT_CSD_RPMB_MULT : nat := 168.
Definition EXT_CSD_ERASE_GROUP_DEF : nat := 175.
Definition EXT_CSD_BUS_WIDTH : nat := 183.
Definition EXT_CSD_HS_TIMING : nat := 185.
Definition EXT_CSD_REV : nat := 192.
Definition EXT_CSD_CARD_TYPE : nat := 196.
Definition EXT_CSD_SEC_CNT : nat := 212.
Definition EXT_CSD_HC_WP_GRP_SIZE : nat := 221.
Definition EXT_CSD_HC_ERASE_GRP_SIZE : nat := 224.
Definition EXT_CSD_BOOT_MULT : nat := 226.
Definition EXT_CSD_CARD_TYPE_52 : Z := Z.shiftl 1 1.
Definition EXT_CSD_CARD_TYPE_DDR_1_8V : Z := Z.shiftl 1 2.
Definition EXT_CSD_BUS_WIDTH_1 : Z := 0.
Definition EXT_CSD_BUS_WIDTH_4 : Z := 1.
Definition EXT_CSD_BUS_WIDTH_8 : Z := 2.
Definition EXT_CSD_DDR_BUS_WIDTH_4 : Z := 5.
Definition EXT_CSD_DDR_BUS_WIDTH_8 : Z := 6.
Definition EXT_CSD_PARTITION_SETTING_COMPLETED : Z := Z.shiftl 1 0.
Definition EXT_CSD_ENH_USR : Z := Z.shiftl 1 0.
Definition EXT_CSD_ENH_GP (x : Z) : Z := Z.shiftl 1 (x + 1).
Definition EXT_CSD_HS_CTRL_REL : Z := Z.shiftl 1 0.
Definition EXT_CSD_WR_DATA_REL_USR : Z := Z.shiftl 1 0.
Definition EXT_CSD_WR_DATA_REL_GP (x : Z) : Z := Z.shiftl 1 (x + 1).
Definition PART_SUPPORT : Z := 1.
Definition ENHNCD_SUPPORT : Z := 2.
Definition PART_ENH_ATTRIB : Z := 0x1f.
Definition MMC_RSP_NONE : Z := 0.
Definition MMC_RSP_R2 : Z := 7.
Definition MMC_RSP_R3 : Z := 1.
Definition MMC_RSP_R6 : Z := 21.
Definition MMC_RSP_R7 : Z := 21.
Definition MMC_MAX_BLOCK_LEN : Z := 512.
Definition EPERM : Z := 1.
Definition MMC_HWPART_CONF_CHECK : Z := 0.
Definition MMC_HWPART_CONF_SET : Z := 1.
Definition MMC_HWPART_CONF_COMPLETE : Z := 2.

Definition IS_SD (mm : mmc) : bool := negb (Z.land (version mm) SD_VERSION_SD =? 0).

(** [LOG2] of include/part.h *)
Definition LOG2 (x : Z) : Z :=
  let bit mask v := if Z.land x mask =? 0 then 0 else v in
  bit 0xaaaaaaaa 1 + bit 0xcccccccc 2 + bit 0xf0f0f0f0 4 + bit 0xff00ff00 8 + bit 0xffff0000 16.

(** What the hardware partitions are to be. *)
Record user_conf := mkUser { enh_start : Z; enh_size : Z; u_wr_rel_change : Z; u_wr_rel_set : Z }.
Record gp_conf := mkGp { gp_size : Z; enhanced : Z; g_wr_rel_change : Z; g_wr_rel_set : Z }.
Record mmc_hwpart_conf := mkConf { conf_user : user_conf; gp_part : list gp_conf }.

(** The devices in their list, [curr_device] of the mmc command, the number of devices,
    and the hosts with their cards. *)
Record mmc_state `{CardHost} := mkState { mmc_devices : list mmc; curr_device : Z; cur_dev_num : Z; hw : card }.

(** ** The monad *)

Definition init `{CardHost} (A : Type) : Type := mmc * card -> option ((Z + A) * (mmc * card)).

#[global] Instance init_ret `{CardHost} : MRet init := fun A x s => Some (inr x, s).
#[global] Instance init_bind `{CardHost} : MBind init := fun A B k m s =>
  match m s with
  | Some (inl e, s) => Some (inl e, s)
  | Some (inr x, s) => k x s
  | None => None
  end.

Section MmcInit.
Context `{CardHost}.

Definition get : init mmc := fun s => Some (inr s.1, s).
Definition modify (f : mmc -> mmc) : init unit := fun s => Some (inr tt, (f s.1, s.2)).
Definition fail {A} (e : Z) : init A := fun s => Some (inl e, s).
Definition stuck {A} : init A := fun s => None.
Definition the {A} (x : option A) : init A := match x with Some x => mret x | None => stuck end.

(** The error of what is done, or 0. *)
Definition attempt {A} (m : init A) : init Z := fun s =>
  match m s with
  | Some (r, s) => Some (inr (match r with inl e => e | inr _ => 0 end), s)
  | None => None
  end.

(** [if (err) return err;] *)
Definition check (err : Z) : init unit := if err =? 0 then mret tt else fail err.

(** A function that returns an error, of the driver or of the host. *)
Definition call (f : mmc -> card -> option (Z * card)) : init Z := fun s =>
  match f s.1 s.2 with Some (err, c) => Some (inr err, (s.1, c)) | None => None end.

Definition on_card {A} (f : mmc -> card -> A * card) : init A := fun s => let '(x, c) := f s.1 s.2 in Some (inr x, (s.1, c)).

Definition delay (n : Z) : init unit := on_card (fun _ c => (tt, udelay n c)).
Definition timer (base : Z) : init Z := on_card (fun _ c => get_timer base c).

Definition send (cmdidx cmdarg resp_type : Z) (data : mmc_data) : init (Z * list Z * list Z) :=
  on_card (fun mm c => mmc_send_cmd mm cmdidx cmdarg resp_type data c).

(** A command of which an error is returned: its response, and what was read. *)
Definition command (cmdidx cmdarg resp_type : Z) (data : mmc_data) : init (list Z * list Z) :=
  '(err, response, bs) ← send cmdidx cmdarg resp_type data; check err;; mret (response, bs).

Definition run {A} (m : init A) (mm : mmc) (c : card) : option (Z * mmc * card) :=
  match m (mm, c) with
  | Some (inl e, (mm, c)) => Some (e, mm, c)
  | Some (inr _, (mm, c)) => Some (0, mm, c)
  | None => None
  end.

(** ** Operating conditions *)

Definition mmc_go_idle : init unit :=
  delay 1000;; _ ← command MMC_CMD_GO_IDLE_STATE 0 MMC_RSP_NONE NoData; delay 2000.

(** [while (1)]: the response to the last command. *)
Fixpoint op_cond_loop (fuel : nat) (timeout : Z) : init (list Z) :=
  match fuel with
  | O => stuck
  | S n =>
      _ ← command MMC_CMD_APP_CMD 0 MMC_RSP_R1 NoData;
      mm ← get;
      let cmdarg := Z.land (voltages (cfg mm)) 0xff8000 in
      let cmdarg := if version mm =? SD_VERSION_2 then Z.lor cmdarg OCR_HCS else cmdarg in
      '(response, _) ← command SD_CMD_APP_SEND_OP_COND cmdarg MMC_RSP_R3 NoData;
      if negb (Z.land (resp response 0) OCR_BUSY =? 0) then mret response
      else if timeout <=? 0 then fail UNUSABLE_ERR
      else delay 1000;; op_cond_loop n (timeout - 1)
  end.

Definition high_capacity_of (ocr : Z) : Z := if Z.land ocr OCR_HCS =? OCR_HCS then 1 else 0.

Definition sd_send_op_cond : init unit :=
  response ← op_cond_loop 1002 1000;
  modify (fun mm => if negb (version mm =? SD_VERSION_2) then mm <| version := SD_VERSION_1_0 |> else mm);;
  modify (fun mm => mm <| ocr := resp response 0 |> <| high_capacity := high_capacity_of (resp response 0) |> <| rca := 0 |>).

Definition mmc_send_op_cond_iter (use_arg : bool) : init unit :=
  mm ← get;
  let cmdarg := if use_arg then Z.lor (Z.lor OCR_HCS (Z.land (voltages (cfg mm)) (Z.land (ocr mm) OCR_VOLTAGE_MASK))) (Z.land (ocr mm) OCR_ACCESS_MODE) else 0 in
  '(response, _) ← command MMC_CMD_SEND_OP_COND cmdarg MMC_RSP_R3 NoData;
  modify (fun mm => mm <| ocr := resp response 0 |>).

Definition powered (mm : mmc) : bool := negb (Z.land (ocr mm) OCR_BUSY =? 0).

(** The loop runs twice at most. *)
Definition mmc_send_op_cond : init unit :=
  _ ← attempt mmc_go_idle;
  mmc_send_op_cond_iter false;;
  mm ← get;
  (if powered mm then mret tt else mmc_send_op_cond_iter true);;
  modify (fun mm => mm <| op_cond_pending := 1 |>).

Fixpoint complete_loop (fuel : nat) (start timeout : Z) : init unit :=
  match fuel with
  | O => stuck
  | S n =>
      mmc_send_op_cond_iter true;;
      mm ← get;
      if powered mm then mret tt else
      now ← timer start;
      if timeout <? now then fail UNUSABLE_ERR else delay 100;; complete_loop n start timeout
  end.

Context (fuel : nat).

Definition mmc_complete_op_cond : init unit :=
  modify (fun mm => mm <| op_cond_pending := 0 |>);;
  mm ← get;
  (if powered mm then mret tt else start ← timer 0; complete_loop fuel (u32 start) 1000);;
  modify (fun mm => mm <| version := MMC_VERSION_UNKNOWN |> <| high_capacity := high_capacity_of (ocr mm) |> <| rca := 1 |>).

(** The card must answer with the pattern; 2.7 to 3.6 V are announced. *)
Definition mmc_send_if_cond : init unit :=
  mm ← get;
  let cmdarg := Z.lor (Z.shiftl (if Z.land (voltages (cfg mm)) 0xff8000 =? 0 then 0 else 1) 8) 0xaa in
  '(response, _) ← command SD_CMD_SEND_IF_COND cmdarg MMC_RSP_R7 NoData;
  if negb (Z.land (resp response 0) 0xff =? 0xaa) then fail UNUSABLE_ERR
  else modify (fun mm => mm <| version := SD_VERSION_2 |>).

(** ** Registers and modes *)

Definition mmc_send_ext_csd : init (list Z) :=
  '(_, ext_csd) ← command MMC_CMD_SEND_EXT_CSD 0 MMC_RSP_R1 (ReadData 1 MMC_MAX_BLOCK_LEN); mret ext_csd.

Definition byte (bs : list Z) (i : nat) : Z := nth i bs 0.

(** Word [i] of bytes, most significant byte first. *)
Definition be_word (bs : list Z) (i : nat) : Z :=
  Z.lor (Z.lor (Z.shiftl (byte bs (4 * i)) 24) (Z.shiftl (byte bs (4 * i + 1)) 16)) (Z.lor (Z.shiftl (byte bs (4 * i + 2)) 8) (byte bs (4 * i + 3))).

(** The register and its new value. *)
Definition switch (index : nat) (value : Z) : init Z := call (fun mm => mmc_switch mm EXT_CSD_CMD_SET_NORMAL (Z.of_nat index) value).

Definition add_caps (caps : Z) (mm : mmc) : mmc := mm <| card_caps := Z.lor (card_caps mm) caps |>.

Definition mmc_change_freq : init unit :=
  modify (fun mm => mm <| card_caps := 0 |>);;
  mm ← get;
  if version mm <? MMC_VERSION_4 then mret tt else
  modify (add_caps (Z.lor MMC_MODE_4BIT MMC_MODE_8BIT));;
  ext_csd ← mmc_send_ext_csd;
  let cardtype := Z.land (byte ext_csd EXT_CSD_CARD_TYPE) 0xf in
  err ← switch EXT_CSD_HS_TIMING 1;
  if negb (err =? 0) then (if err =? SWITCH_ERR then mret tt else fail err) else
  ext_csd ← mmc_send_ext_csd;
  if byte ext_csd EXT_CSD_HS_TIMING =? 0 then mret tt else
  if negb (Z.land cardtype EXT_CSD_CARD_TYPE_52 =? 0) then
    modify (fun mm => if negb (Z.land cardtype EXT_CSD_CARD_TYPE_DDR_1_8V =? 0) then add_caps MMC_MODE_DDR_52MHz mm else mm);;
    modify (add_caps (Z.lor MMC_MODE_HS_52MHz MMC_MODE_HS))
  else modify (add_caps MMC_MODE_HS).

(** The status, of 64 bytes. *)
Definition sd_switch (mode group value : Z) : init (list Z) :=
  let cmdarg := Z.lor (u32 (Z.shiftl mode 31)) 0xffffff in
  let cmdarg := Z.land cmdarg (not32 (Z.shiftl 0xf (group * 4))) in
  let cmdarg := Z.lor cmdarg (Z.shiftl value (group * 4)) in
  '(_, status) ← command SD_CMD_SWITCH_FUNC cmdarg MMC_RSP_R1 (ReadData 1 64); mret status.

(** [retry_scr]: the register is asked for once more [timeout] times. *)
Fixpoint scr_loop (timeout : nat) : init (list Z) :=
  '(err, _, bs) ← send SD_CMD_APP_SEND_SCR 0 MMC_RSP_R1 (ReadData 1 8);
  if err =? 0 then mret bs else match timeout with O => fail err | S n => scr_loop n end.

(** [while (timeout--)]: the last status. *)
Fixpoint busy_loop (timeout : nat) (status : list Z) : init (list Z) :=
  match timeout with
  | O => mret status
  | S n =>
      status ← sd_switch SD_SWITCH_CHECK 0 1;
      if Z.land (be_word status 7) SD_HIGHSPEED_BUSY =? 0 then mret status else busy_loop n status
  end.

Definition scr_version (scr0 : Z) : Z :=
  let spec := Z.land (Z.shiftr scr0 24) 0xf in
  if spec =? 0 then SD_VERSION_1_0
  else if spec =? 1 then SD_VERSION_1_10
  else if spec =? 2 then if negb (Z.land (Z.shiftr scr0 15) 1 =? 0) then SD_VERSION_3 else SD_VERSION_2
  else SD_VERSION_1_0.

Definition sd_change_freq : init unit :=
  modify (fun mm => mm <| card_caps := 0 |>);;
  mm ← get;
  _ ← command MMC_CMD_APP_CMD (u32 (Z.shiftl (rca mm) 16)) MMC_RSP_R1 NoData;
  bs ← scr_loop 3;
  let scr0 := be_word bs 0 in
  modify (fun mm => mm <| scr := [scr0; be_word bs 1] |> <| version := scr_version scr0 |>);;
  modify (fun mm => if negb (Z.land scr0 SD_DATA_4BIT =? 0) then add_caps MMC_MODE_4BIT mm else mm);;
  if scr_version scr0 =? SD_VERSION_1_0 then mret tt else
  status ← busy_loop 4 [];
  if Z.land (be_word status 3) SD_HIGHSPEED_SUPPORTED =? 0 then mret tt else
  if (Z.land (host_caps (cfg mm)) MMC_MODE_HS_52MHz =? 0) || (Z.land (host_caps (cfg mm)) MMC_MODE_HS =? 0) then mret tt else
  status ← sd_switch SD_SWITCH_SWITCH 0 1;
  modify (fun mm => if Z.land (be_word status 4) 0x0f000000 =? 0x01000000 then add_caps MMC_MODE_HS mm else mm).

(** ** The bus *)

Definition fbase : list Z := [10000; 100000; 1000000; 10000000].
Definition multipliers : list Z := [0; 10; 12; 13; 15; 20; 25; 30; 35; 40; 45; 50; 55; 60; 70; 80].

Definition mmc_set_ios : init unit := on_card (fun mm c => (tt, match ops_set_ios with Some f => f mm c | None => c end)).

Definition mmc_set_clock (clk : Z) : init unit :=
  modify (fun mm =>
    let clk := if f_max (cfg mm) <? clk then f_max (cfg mm) else clk in
    let clk := if clk <? f_min (cfg mm) then f_min (cfg mm) else clk in
    mm <| clock := clk |>);;
  mmc_set_ios.

Definition mmc_set_bus_width (width : Z) : init unit := modify (fun mm => mm <| bus_width := width |>);; mmc_set_ios.

(** ** Starting the card up *)

Definition words4 (response : list Z) : list Z := [resp response 0; resp response 1; resp response 2; resp response 3].

(** The version that the register of a card of unknown version tells. *)
Definition csd_version (csd0 : Z) : Z :=
  let version := Z.land (Z.shiftr csd0 26) 0xf in
  if version =? 0 then MMC_VERSION_1_2
  else if version =? 1 then MMC_VERSION_1_4
  else if version =? 2 then MMC_VERSION_2_2
  else if version =? 3 then MMC_VERSION_3
  else if version =? 4 then MMC_VERSION_4
  else MMC_VERSION_1_2.

(** What the register says of rates and blocks; there are eight units of rates and four
    of them in the table. *)
Definition set_csd (response : list Z) (mm : mmc) : option mmc :=
  let mm := mm <| csd := words4 response |> in
  let mm := if version mm =? MMC_VERSION_UNKNOWN then mm <| version := csd_version (resp response 0) |> else mm in
  freq ← fbase !! Z.to_nat (Z.land (resp response 0) 7);
  mult ← multipliers !! Z.to_nat (Z.land (Z.shiftr (resp response 0) 3) 0xf);
  let mm := mm <| tran_speed := u32 (freq * mult) |> <| dsr_imp := Z.land (Z.shiftr (resp response 1) 12) 1 |>
    <| read_bl_len := Z.shiftl 1 (Z.land (Z.shiftr (resp response 1) 16) 0xf) |> in
  Some (if IS_SD mm then mm <| write_bl_len := read_bl_len mm |>
    else mm <| write_bl_len := Z.shiftl 1 (Z.land (Z.shiftr (resp response 3) 22) 0xf) |>).

(** The capacity by the register, and blocks of at most 512 bytes. *)
Definition csd_capacity (mm : mmc) : mmc :=
  let csd1 := nth 1 (csd mm) 0 in let csd2 := nth 2 (csd mm) 0 in
  let '(csize, cmult) :=
    if negb (high_capacity mm =? 0) then (Z.lor (Z.shiftl (Z.land csd1 0x3f) 16) (Z.shiftr (Z.land csd2 0xffff0000) 16), 8)
    else (Z.lor (Z.shiftl (Z.land csd1 0x3ff) 2) (Z.shiftr (Z.land csd2 0xc0000000) 30), Z.shiftr (Z.land csd2 0x00038000) 15) in
  let mm := mm <| capacity_user := u64 (u64 (Z.shiftl (csize + 1) (cmult + 2)) * read_bl_len mm) |>
    <| capacity_boot := 0 |> <| capacity_rpmb := 0 |> <| capacity_gp := [0; 0; 0; 0] |> in
  let mm := if MMC_MAX_BLOCK_LEN <? read_bl_len mm then mm <| read_bl_len := MMC_MAX_BLOCK_LEN |> else mm in
  if MMC_MAX_BLOCK_LEN <? write_bl_len mm then mm <| write_bl_len := MMC_MAX_BLOCK_LEN |> else mm.

(** The register with the rates and the size, as the card answers it. *)
Definition startup_csd : init (list Z) :=
  '(response, _) ← command MMC_CMD_ALL_SEND_CID 0 MMC_RSP_R2 NoData;
  modify (fun mm => mm <| cid := words4 response |>);;
  mm ← get;
  '(response, _) ← command SD_CMD_SEND_RELATIVE_ADDR (u32 (Z.shiftl (rca mm) 16)) MMC_RSP_R6 NoData;
  modify (fun mm => if IS_SD mm then mm <| rca := Z.land (Z.shiftr (resp response 0) 16) 0xffff |> else mm);;
  mm ← get;
  '(err, response, _) ← send MMC_CMD_SEND_CSD (u32 (Z.shiftl (rca mm) 16)) MMC_RSP_R2 NoData;
  _ ← call (fun mm => mmc_send_status mm 1000);
  check err;;
  mret response.

Definition startup_identify : init unit :=
  response ← startup_csd;
  mm ← get;
  mm ← the (set_csd response mm);
  modify (fun _ => csd_capacity mm).

(** The driver stage register, and into the transfer state. *)
Definition startup_select : init unit :=
  mm ← get;
  (if negb (dsr_imp mm =? 0) && negb (dsr mm =? 0xffffffff)
   then _ ← send MMC_CMD_SET_DSR (u32 (Z.shiftl (Z.land (dsr mm) 0xffff) 16)) MMC_RSP_NONE NoData; mret tt else mret tt);;
  _ ← command MMC_CMD_SELECT_CARD (u32 (Z.shiftl (rca mm) 16)) MMC_RSP_R1 NoData;
  modify (fun mm => mm <| erase_grp_size := 1 |> <| part_config := MMCPART_NOAVAILABLE |>).

(** Three bytes, least significant first. *)
Definition le_three (bs : list Z) (i : nat) : Z := Z.shiftl (byte bs (i + 2)) 16 + Z.shiftl (byte bs (i + 1)) 8 + byte bs i.

(** The number of sectors, put together in an [int]. *)
Definition sec_count (ext_csd : list Z) : Z :=
  let e i := byte ext_csd (EXT_CSD_SEC_CNT + i) in
  u64 (s32 (Z.lor (Z.lor (Z.lor (e 0%nat) (Z.shiftl (e 1%nat) 8)) (Z.shiftl (e 2%nat) 16)) (Z.shiftl (e 3%nat) 24))).

Definition rev_version (rev : Z) (old : Z) : Z :=
  if rev =? 1 then MMC_VERSION_4_1
  else if rev =? 2 then MMC_VERSION_4_2
  else if rev =? 3 then MMC_VERSION_4_3
  else if rev =? 5 then MMC_VERSION_4_41
  else if rev =? 6 then MMC_VERSION_4_5
  else if rev =? 7 then MMC_VERSION_5_0
  else old.

Definition part_completed (ext_csd : list Z) : bool := negb (Z.land (byte ext_csd EXT_CSD_PARTITION_SETTING) EXT_CSD_PARTITION_SETTING_COMPLETED =? 0).

(** A size in groups that are protected together, in bytes. *)
Definition wp_groups (ext_csd : list Z) (mult : Z) : Z :=
  u64 (Z.shiftl (u64 (u64 (mult * byte ext_csd EXT_CSD_HC_ERASE_GRP_SIZE) * byte ext_csd EXT_CSD_HC_WP_GRP_SIZE)) 19).

Definition gp_mult (ext_csd : list Z) (i : nat) : Z := le_three ext_csd (EXT_CSD_GP_SIZE_MULT + i * 3).

(** The fields that the extended register sets, up to the groups that are erased. *)
Definition ext_csd_fields (ext_csd : list Z) (mm : mmc) : mmc :=
  let e i := byte ext_csd i in
  let capacity := u64 (sec_count ext_csd * MMC_MAX_BLOCK_LEN) in
  let mm := if (2 <=? e EXT_CSD_REV) && (2 * 1024 <? Z.shiftr capacity 20) then mm <| capacity_user := capacity |> else mm in
  let mm := mm <| version := rev_version (e EXT_CSD_REV) (version mm) |> in
  let completed := part_completed ext_csd in
  let support := e EXT_CSD_PARTITIONING_SUPPORT in
  let mm := mm <| part_support := support |> in
  let mm := if negb (Z.land support PART_SUPPORT =? 0) || negb (e EXT_CSD_BOOT_MULT =? 0) then mm <| part_config := e (Z.to_nat EXT_CSD_PART_CONF) |> else mm in
  let mm := if completed && negb (Z.land support ENHNCD_SUPPORT =? 0) then mm <| part_attr := e EXT_CSD_PARTITIONS_ATTRIBUTE |> else mm in
  let mm := mm <| capacity_boot := Z.shiftl (e EXT_CSD_BOOT_MULT) 17 |> <| capacity_rpmb := Z.shiftl (e EXT_CSD_RPMB_MULT) 17 |> in
  if completed then
    let start := u64 (s32 (Z.shiftl (e (EXT_CSD_ENH_START_ADDR + 3)%nat) 24 + le_three ext_csd EXT_CSD_ENH_START_ADDR)) in
    mm <| capacity_gp := (fun i => wp_groups ext_csd (gp_mult ext_csd i)) <$> seq 0 4 |>
      <| enh_user_size := wp_groups ext_csd (le_three ext_csd EXT_CSD_ENH_SIZE_MULT) |>
      <| enh_user_start := if negb (high_capacity mm =? 0) then u64 (Z.shiftl start 9) else start |>
  else mm.

Definition has_parts (ext_csd : list Z) : bool :=
  existsb (fun i => negb (gp_mult ext_csd i =? 0)) (seq 0 4) || part_completed ext_csd ||
  (negb (Z.land (byte ext_csd EXT_CSD_PARTITIONING_SUPPORT) PART_SUPPORT =? 0) && negb (Z.land (byte ext_csd EXT_CSD_PARTITIONS_ATTRIBUTE) PART_ENH_ATTRIB =? 0)).

(** The groups that are erased, and those that are protected. *)
Definition ext_csd_groups (ext_csd : list Z) (mm : mmc) : mmc :=
  let mm :=
    if negb (Z.land (byte ext_csd EXT_CSD_ERASE_GROUP_DEF) 1 =? 0) then
      let mm := mm <| erase_grp_size := byte ext_csd EXT_CSD_HC_ERASE_GRP_SIZE * 1024 |> in
      if negb (high_capacity mm =? 0) && part_completed ext_csd then mm <| capacity_user := u64 (sec_count ext_csd * MMC_MAX_BLOCK_LEN) |> else mm
    else
      let csd2 := nth 2 (csd mm) 0 in
      mm <| erase_grp_size := (Z.shiftr (Z.land csd2 0x7c00) 10 + 1) * (Z.shiftr (Z.land csd2 0x3e0) 5 + 1) |> in
  mm <| hc_wp_grp_size := 1024 * byte ext_csd EXT_CSD_HC_ERASE_GRP_SIZE * byte ext_csd EXT_CSD_HC_WP_GRP_SIZE |>
    <| wr_rel_set := byte ext_csd EXT_CSD_WR_REL_SET |>.

(** The register, if the card has it. *)
Definition startup_ext_csd : init (list Z) :=
  mm ← get;
  if IS_SD mm || (version mm <? MMC_VERSION_4) then mret [] else
  ext_csd ← mmc_send_ext_csd;
  modify (ext_csd_fields ext_csd);;
  ext_csd ← (if has_parts ext_csd then err ← switch EXT_CSD_ERASE_GROUP_DEF 1; check err;; mret (<[EXT_CSD_ERASE_GROUP_DEF := 1]> ext_csd) else mret ext_csd);
  modify (ext_csd_groups ext_csd);;
  mret ext_csd.

(** [mmc_set_capacity] for the partition that is selected. *)
Definition startup_capacity : init unit :=
  mm ← get;
  '(err, mm) ← the (mmc_set_capacity mm (part_num mm));
  modify (fun _ => mm);; check err.

(** The widths in order of preference: the value for the card, what both must be capable
    of, and the width. *)
Definition bus_widths : list (Z * Z * Z) :=
  [(EXT_CSD_DDR_BUS_WIDTH_8, Z.lor MMC_MODE_DDR_52MHz MMC_MODE_8BIT, 8); (EXT_CSD_DDR_BUS_WIDTH_4, Z.lor MMC_MODE_DDR_52MHz MMC_MODE_4BIT, 4);
   (EXT_CSD_BUS_WIDTH_8, MMC_MODE_8BIT, 8); (EXT_CSD_BUS_WIDTH_4, MMC_MODE_4BIT, 4); (EXT_CSD_BUS_WIDTH_1, 0, 1)].

(** The fields that cannot have changed are read right. *)
Definition same_fields (ext_csd test_csd : list Z) : bool :=
  forallb (fun i => byte ext_csd i =? byte test_csd i)
    [EXT_CSD_PARTITIONING_SUPPORT; EXT_CSD_HC_WP_GRP_SIZE; EXT_CSD_REV; EXT_CSD_HC_ERASE_GRP_SIZE; EXT_CSD_SEC_CNT; S EXT_CSD_SEC_CNT; S (S EXT_CSD_SEC_CNT); S (S (S EXT_CSD_SEC_CNT))].

(** [for (idx = 0; ...)]: [err] as the loop leaves it. *)
Fixpoint width_loop (widths : list (Z * Z * Z)) (ext_csd : list Z) (err : Z) : init Z :=
  match widths with
  | [] => mret err
  | (extw, caps, width) :: widths =>
      mm ← get;
      if (extw =? EXT_CSD_BUS_WIDTH_1) && (bus_width mm =? 1) then mret 0 else
      if negb (Z.land (card_caps mm) caps =? caps) then width_loop widths ext_csd err else
      err ← switch EXT_CSD_BUS_WIDTH extw;
      if negb (err =? 0) then width_loop widths ext_csd err else
      modify (fun mm => mm <| ddr_mode := if negb (Z.land caps MMC_MODE_DDR_52MHz =? 0) then 1 else 0 |>);;
      mmc_set_bus_width width;;
      '(err, _, test_csd) ← send MMC_CMD_SEND_EXT_CSD 0 MMC_RSP_R1 (ReadData 1 MMC_MAX_BLOCK_LEN);
      if negb (err =? 0) then width_loop widths ext_csd err else
      if same_fields ext_csd test_csd then mret 0 else width_loop widths ext_csd SWITCH_ERR
  end.

Definition sd_bus : init unit :=
  mm ← get;
  (if negb (Z.land (card_caps mm) MMC_MODE_4BIT =? 0) then
     _ ← command MMC_CMD_APP_CMD (u32 (Z.shiftl (rca mm) 16)) MMC_RSP_R1 NoData;
     _ ← command SD_CMD_APP_SET_BUS_WIDTH 2 MMC_RSP_R1 NoData;
     mmc_set_bus_width 4
   else mret tt);;
  modify (fun mm => mm <| tran_speed := if negb (Z.land (card_caps mm) MMC_MODE_HS =? 0) then 50000000 else 25000000 |>).

Definition mmc_bus (ext_csd : list Z) : init unit :=
  err ← width_loop bus_widths ext_csd 0;
  check err;;
  modify (fun mm => if negb (Z.land (card_caps mm) MMC_MODE_HS =? 0)
    then mm <| tran_speed := if negb (Z.land (card_caps mm) MMC_MODE_HS_52MHz =? 0) then 52000000 else 26000000 |> else mm).

(** What [init_part] finds: the type of the table of the partitions. *)
Context (init_part : mmc -> card -> Z * card).

Definition startup_device : init unit :=
  mm ← get;
  mmc_set_clock (tran_speed mm);;
  modify (fun mm => if negb (ddr_mode mm =? 0) then mm <| read_bl_len := MMC_MAX_BLOCK_LEN |> <| write_bl_len := MMC_MAX_BLOCK_LEN |> else mm);;
  mm ← get;
  blocks ← the (lldiv (capacity mm) (read_bl_len mm));
  modify (fun mm => mm <| b_type := 0 |> <| b_blksz := read_bl_len mm |> <| b_log2blksz := LOG2 (read_bl_len mm) |> <| b_lba := blocks |>);;
  type ← on_card init_part;
  modify (fun mm => mm <| b_part_type := type |>).

Definition mmc_startup : init unit :=
  startup_identify;;
  startup_select;;
  ext_csd ← startup_ext_csd;
  startup_capacity;;
  mm ← get;
  (if IS_SD mm then sd_change_freq else mmc_change_freq);;
  modify (fun mm => mm <| card_caps := Z.land (card_caps mm) (host_caps (cfg mm)) |>);;
  mm ← get;
  (if IS_SD mm then sd_bus else if MMC_VERSION_4 <=? version mm then mmc_bus ext_csd else mret tt);;
  startup_device.

(** ** Bringing a device up *)

Definition board_mmc_getcd (mm : mmc) : Z := -1.

Definition mmc_getcd (mm : mmc) (c : card) : Z :=
  let cd := board_mmc_getcd mm in
  if cd <? 0 then match ops_getcd with Some f => f mm c | None => 1 end else cd.

Definition mmc_start_init : init unit :=
  cd ← on_card (fun mm c => (mmc_getcd mm c, c));
  match ops_init with
  | None => modify (fun mm => mm <| has_init := 0 |>);; fail NO_CARD_ERR
  | Some ops_init =>
      if cd =? 0 then modify (fun mm => mm <| has_init := 0 |>);; fail NO_CARD_ERR else
      mm ← get;
      if negb (has_init mm =? 0) then mret tt else
      err ← on_card ops_init;
      check err;;
      modify (fun mm => mm <| ddr_mode := 0 |>);;
      mmc_set_bus_width 1;;
      mmc_set_clock 1;;
      mmc_go_idle;;
      modify (fun mm => mm <| part_num := 0 |>);;
      _ ← attempt mmc_send_if_cond;
      err ← attempt sd_send_op_cond;
      (if err =? TIMEOUT then err ← attempt mmc_send_op_cond; (if negb (err =? 0) then fail UNUSABLE_ERR else mret tt) else check err);;
      modify (fun mm => mm <| init_in_progress := 1 |>)
  end.

Definition mmc_complete_init : init unit :=
  modify (fun mm => mm <| init_in_progress := 0 |>);;
  mm ← get;
  err ← (if negb (op_cond_pending mm =? 0) then attempt mmc_complete_op_cond else mret 0);
  err ← (if err =? 0 then attempt mmc_startup else mret err);
  modify (fun mm => mm <| has_init := if negb (err =? 0) then 0 else 1 |>);;
  check err.

Definition mmc_init : init unit :=
  mm ← get;
  if negb (has_init mm =? 0) then mret tt else
  err ← (if init_in_progress mm =? 0 then attempt mmc_start_init else mret 0);
  if err =? 0 then mmc_complete_init else fail err.

(** ** Hardware partitions *)

(** Bytes of the extended register, one after the other. *)
Fixpoint switches (l : list (nat * Z)) : init unit :=
  match l with
  | [] => mret tt
  | (i, v) :: l => err ← switch i v; check err;; switches l
  end.

Definition value_bytes (index n : nat) (v : Z) : list (nat * Z) := (fun i => (index + i, Z.land (Z.shiftr v (8 * Z.of_nat i)) 0xff)%nat) <$> seq 0 n.

Definition set_rel (change set bit old : Z) : Z :=
  if change =? 0 then old else if negb (set =? 0) then Z.lor old bit else Z.land old (Z.lnot bit).

(** The numbers of the partitions, with what is asked for. *)
Definition numbered (gps : list gp_conf) : list (Z * gp_conf) := zip (seqZ 0 (Z.of_nat (length gps))) gps.

Definition part_attrs (conf : mmc_hwpart_conf) : Z :=
  foldl (fun attrs '(i, g) => if negb (gp_size g =? 0) && negb (enhanced g =? 0) then u8 (Z.lor attrs (EXT_CSD_ENH_GP i)) else attrs)
    (if negb (enh_size (conf_user conf) =? 0) then EXT_CSD_ENH_USR else 0) (numbered (gp_part conf)).

Definition tot_enh_size_mult (conf : mmc_hwpart_conf) (group : Z) : Z :=
  foldl (fun tot g => if negb (gp_size g =? 0) && negb (enhanced g =? 0) then u32 (tot + gp_size g / group) else tot)
    (enh_size (conf_user conf) / group) (gp_part conf).

Definition conf_wr_rel (conf : mmc_hwpart_conf) (old : Z) : Z :=
  foldl (fun rel '(i, g) => set_rel (g_wr_rel_change g) (g_wr_rel_set g) (EXT_CSD_WR_DATA_REL_GP i) rel)
    (set_rel (u_wr_rel_change (conf_user conf)) (u_wr_rel_set (conf_user conf)) EXT_CSD_WR_DATA_REL_USR old) (numbered (gp_part conf)).

Definition unaligned (group size : Z) : bool := negb (size mod group =? 0).

Definition mmc_hwpart_config (conf : mmc_hwpart_conf) (mode : Z) : init unit :=
  if (mode <? MMC_HWPART_CONF_CHECK) || (MMC_HWPART_CONF_COMPLETE <? mode) then fail (- EINVAL) else
  mm ← get;
  if IS_SD mm || (version mm <? MMC_VERSION_4_41) then fail (- EMEDIUMTYPE) else
  if Z.land (part_support mm) PART_SUPPORT =? 0 then fail (- EMEDIUMTYPE) else
  let group := hc_wp_grp_size mm in
  if group =? 0 then fail (- EMEDIUMTYPE) else
  let u := conf_user conf in
  if negb (enh_size u =? 0) && (unaligned group (enh_size u) || unaligned group (enh_start u)) then fail (- EINVAL) else
  let enh_start_addr := if enh_size u =? 0 then 0 else if negb (high_capacity mm =? 0) then enh_start u else u32 (Z.shiftl (enh_start u) 9) in
  if existsb (fun g => unaligned group (gp_size g)) (gp_part conf) then fail (- EINVAL) else
  if negb (part_attrs conf =? 0) && (Z.land (part_support mm) ENHNCD_SUPPORT =? 0) then fail (- EMEDIUMTYPE) else
  ext_csd ← mmc_send_ext_csd;
  if le_three ext_csd EXT_CSD_MAX_ENH_SIZE_MULT <? tot_enh_size_mult conf group then fail (- EMEDIUMTYPE) else
  let old := byte ext_csd EXT_CSD_WR_REL_SET in
  let wr_rel_set := conf_wr_rel conf old in
  if negb (wr_rel_set =? old) && (Z.land (byte ext_csd EXT_CSD_WR_REL_PARAM) EXT_CSD_HS_CTRL_REL =? 0) then fail (- EMEDIUMTYPE) else
  if part_completed ext_csd then fail (- EPERM) else
  if mode =? MMC_HWPART_CONF_CHECK then mret tt else
  (if Z.land (byte ext_csd EXT_CSD_ERASE_GROUP_DEF) 1 =? 0 then
     switches [(EXT_CSD_ERASE_GROUP_DEF, 1)];; modify (fun mm => mm <| erase_grp_size := byte ext_csd EXT_CSD_HC_ERASE_GRP_SIZE * 1024 |>)
   else mret tt);;
  switches (value_bytes EXT_CSD_ENH_START_ADDR 4 enh_start_addr);;
  switches (value_bytes EXT_CSD_ENH_SIZE_MULT 3 (enh_size u / group));;
  switches (concat ((fun '(i, g) => value_bytes (EXT_CSD_GP_SIZE_MULT + Z.to_nat i * 3) 3 (gp_size g / group)) <$> numbered (gp_part conf)));;
  switches [(EXT_CSD_PARTITIONS_ATTRIBUTE, part_attrs conf)];;
  if mode =? MMC_HWPART_CONF_SET then mret tt else
  (if negb (wr_rel_set =? old) then switches [(EXT_CSD_WR_REL_SET, wr_rel_set)] else mret tt);;
  switches [(EXT_CSD_PARTITION_SETTING, EXT_CSD_PARTITION_SETTING_COMPLETED)].

(** ** The list of devices *)

(** A new device at the end of the list; memory for it is there. *)
Definition mmc_create (conf : mmc_config) (s : mmc_state) : option mmc * mmc_state :=
  if (f_min conf =? 0) || (f_max conf =? 0) || (b_max conf =? 0) then (None, s) else
  let mm := mkMmc conf 0 0 0 0 0 0 0 0xffffffff 0 [0; 0] [0; 0; 0; 0] [0; 0; 0; 0] 0 0 0 0 0 0 0 0 0 0 0 0 0 0 0 [0; 0; 0; 0] 0 0
    (cur_dev_num s) 0 (cfg_part_type conf) 0 0 0 0 0 0 0 in
  (Some mm, mkState _ (mmc_devices s ++ [mm]) (curr_device s) (s32 (cur_dev_num s + 1)) (hw s)).

Definition mmc_set_preinit (mm : mmc) (v : Z) : mmc := mm <| preinit := v |>.

Fixpoint do_preinit (ms : list mmc) (c : card) : option (list mmc * card) :=
  match ms with
  | [] => Some ([], c)
  | m :: ms =>
      '(m, c) ← (if negb (preinit m =? 0) then '(_, m, c) ← run mmc_start_init m c; Some (m, c) else Some (m, c));
      '(ms, c) ← do_preinit ms c; Some (m :: ms, c)
  end.

(** What the board and the processor bring up. *)
Context (board_mmc_init cpu_mmc_init : mmc_state -> Z * mmc_state).

Definition mmc_probe (s : mmc_state) : Z * mmc_state :=
  let '(r, s) := board_mmc_init s in if r <? 0 then let '(_, s) := cpu_mmc_init s in (0, s) else (0, s).

(** Only the first call does anything. *)
Definition mmc_initialize (initialized : bool) (s : mmc_state) : option (Z * bool * mmc_state) :=
  if initialized then Some (0, true, s) else
  let '(ret, s) := mmc_probe (mkState _ [] (curr_device s) 0 (hw s)) in
  if negb (ret =? 0) then Some (ret, true, s) else
  '(ms, c) ← do_preinit (mmc_devices s) (hw s); Some (0, true, mkState _ ms (curr_device s) (cur_dev_num s) c).
End MmcInit.

(** ** Whatever the host and the card do *)

Definition sized (mm : mmc) : Prop := 0 < read_bl_len mm <= 512 /\ length (capacity_gp mm) = 4%nat.

(** Fields that bringing a card up does not touch by the way, and sizes that stay. *)
Definition same_device (mm mm' : mmc) : Prop :=
  has_init mm' = has_init mm /\ b_dev mm' = b_dev mm /\ cfg mm' = cfg mm /\ dsr mm' = dsr mm /\ preinit mm' = preinit mm /\ (sized mm -> sized mm').

Ltac same_tac := intros; repeat case_match; unfold same_device; split_and!; first [reflexivity|done|intros [? ?]; split; (assumption || (cbn; unfold MMC_MAX_BLOCK_LEN; lia))].

Section Any.
Context `{HC : CardHost} (time : card -> Z).

(** A clock that waiting and commands do not turn back, and that stops at [time_max]. *)
Definition time_max : Z := 1000 * 2 ^ 64 - 1.

Class Ticking := {
  tk_send mm cmdidx cmdarg resp_type data c : time c <= time (send_cmd mm cmdidx cmdarg resp_type data c).2;
  tk_timer base c : (get_timer base c).1 = u64 (time c / 1000 - base) /\ time c <= time (get_timer base c).2;
  tk_delay n c : 0 <= n -> Z.min (time c + n) time_max <= time (udelay n c);
  tk_ios f mm c : ops_set_ios = Some f -> time c <= time (f mm c);
  tk_init f mm c : ops_init = Some f -> time c <= time (f mm c).2;
  tk_range c : 0 <= time c <= time_max;
}.
Context {HT : Ticking}.

(** [m] ends, keeps the fields, and does not turn the clock back. *)
Definition ends {A} (m : init A) : Prop := forall mm c, exists r mm' c', m (mm, c) = Some (r, (mm', c')) /\ same_device mm mm' /\ time c <= time c'.

Lemma same_device_refl mm : same_device mm mm.
Proof. done. Qed.

Lemma same_device_trans a b c : same_device a b -> same_device b c -> same_device a c.
Proof. unfold same_device. intuition congruence. Qed.

Lemma ends_ret {A} (x : A) : ends (mret x).
Proof. intros mm c. exists (inr x), mm, c. split; [done|]. split; [done|lia]. Qed.

Lemma ends_get : ends get.
Proof. intros mm c. exists (inr mm), mm, c. split; [done|]. split; [done|lia]. Qed.

Lemma ends_fail {A} e : ends (A := A) (fail e).
Proof. intros mm c. exists (inl e), mm, c. split; [done|]. split; [done|lia]. Qed.

Lemma ends_modify f : (forall mm, same_device mm (f mm)) -> ends (modify f).
Proof. intros Hf mm c. exists (inr tt), (f mm), c. split; [done|]. split; [apply Hf|lia]. Qed.

Lemma init_ends_bind {A B} (m : init A) (k : A -> init B) : ends m -> (forall x, ends (k x)) -> ends (m ≫= k).
Proof.
  intros Hm Hk mm c. destruct (Hm mm c) as ([e|x] & mm1 & c1 & E & K & T).
  - exists (inl e), mm1, c1. unfold mbind, init_bind. rewrite E. done.
  - destruct (Hk x mm1 c1) as (r & mm2 & c2 & E2 & K2 & T2). exists r, mm2, c2. unfold mbind, init_bind. rewrite E. split; [done|].
    split; [by eapply same_device_trans|lia].
Qed.

Lemma ends_attempt {A} (m : init A) : ends m -> ends (attempt m).
Proof. intros Hm mm c. destruct (Hm mm c) as (r & mm' & c' & E & HK). eexists _, mm', c'. unfold attempt. rewrite E. done. Qed.

Lemma ends_check e : ends (check e).
Proof. unfold check. destruct (e =? 0); [apply ends_ret|apply ends_fail]. Qed.

Lemma ends_the {A} (x : option A) : (exists y, x = Some y) -> ends (the x).
Proof. intros [y ->]. apply ends_ret. Qed.

Lemma ends_send i a t d : ends (send i a t d).
Proof.
  intros mm c. unfold send, on_card, mmc_send_cmd. cbn [fst snd]. pose proof (tk_send mm i a t d c) as Ht. destruct (send_cmd mm i a t d c) as [x c'] eqn:E.
  exists (inr x), mm, c'. done.
Qed.

Lemma ends_delay n : 0 <= n -> ends (delay n).
Proof. intros Hn mm c. exists (inr tt), mm, (udelay n c). pose proof (tk_delay n c Hn). pose proof (tk_range c). split; [done|]. split; [done|lia]. Qed.

Lemma ends_timer b : ends (timer b).
Proof.
  intros mm c. unfold timer, on_card. cbn [snd]. pose proof (tk_timer b c) as [_ Ht]. destruct (get_timer b c) as [x c']. exists (inr x), mm, c'. done.
Qed.

Lemma ends_command i a t d : ends (command i a t d).
Proof. apply init_ends_bind; [apply ends_send|]. intros [[e r] bs]. apply init_ends_bind; [apply ends_check|]. intros []. apply ends_ret. Qed.

Lemma status_loop_time mm n : forall timeout retries c r c', status_loop n mm timeout retries c = Some (r, c') -> time c <= time c'.
Proof.
  induction n as [|n IH]; intros timeout retries c r c' E; [done|]. cbn [status_loop] in E. unfold mmc_send_cmd in E.
  pose proof (tk_send mm MMC_CMD_SEND_STATUS (u32 (Z.shiftl (rca mm) 16)) MMC_RSP_R1 NoData c) as Ht.
  destruct (send_cmd _ _ _ _ _ _) as [[[err rs] bs] c1]. cbn [snd] in Ht.
  assert (Hagain : forall rt, (if timeout <=? 0 then Some (inr (timeout - 1, resp rs 0), c1) else status_loop n mm (timeout - 1) rt (udelay 1000 c1)) = Some (r, c') -> time c <= time c').
  { intros rt. destruct (timeout <=? 0); [by intros [= <- <-]|]. intros E2. apply IH in E2. pose proof (tk_delay 1000 c1 ltac:(lia)). pose proof (tk_range c1). lia. }
  destruct (err =? 0); [destruct (_ && _); [by injection E as <- <-|]; destruct (negb _); [by injection E as <- <-|by apply (Hagain retries)]|].
  destruct (_ <? 0); [by injection E as <- <-|by apply (Hagain (retries - 1))].
Qed.

Lemma ends_status n : ends (call (fun mm => mmc_send_status mm n)).
Proof.
  intros mm c. unfold call. cbn [fst snd]. destruct (send_status_ends mm n c) as [[e c'] E]. rewrite E. exists (inr e), mm, c'. split; [done|]. split; [done|].
  unfold mmc_send_status in E. destruct (status_loop _ _ _ _ _) as [[r c1]|] eqn:El; [|done]. apply status_loop_time in El. cbn [mbind option_bind] in E.
  destruct r as [er|[t r]]; [by injection E as <- <-|]. repeat case_match; by injection E as <- <-.
Qed.

Lemma ends_switch i v : ends (switch i v).
Proof.
  intros mm c. unfold switch, call, mmc_switch, mmc_send_cmd. cbn [fst snd].
  pose proof (tk_send mm MMC_CMD_SWITCH (Z.lor (Z.lor (Z.shiftl MMC_SWITCH_MODE_WRITE_BYTE 24) (Z.shiftl (Z.of_nat i) 16)) (Z.shiftl v 8)) MMC_RSP_R1b NoData c) as Ht.
  destruct (send_cmd _ _ _ _ _ _) as [[[e r] bs] c1]. cbn [snd] in Ht. destruct (e =? 0); [|by exists (inr e), mm, c1].
  destruct (ends_status 1000 mm c1) as (r2 & mm2 & c2 & E & K & T). unfold call in E. cbn [fst snd] in E. destruct (mmc_send_status mm 1000 c1) as [[e2 c3]|]; [|done].
  injection E as <- <- <-. exists (inr e2), mm, c3. split; [done|]. split; [done|lia].
Qed.

Lemma ends_ios : ends mmc_set_ios.
Proof.
  intros mm c. unfold mmc_set_ios, on_card. cbn [fst snd]. eexists (inr tt), mm, _. split; [reflexivity|]. split; [done|].
  destruct ops_set_ios eqn:E; [by apply tk_ios|lia].
Qed.

Ltac ends_step :=
  match goal with
  | |- ends (if ?b then _ else _) => destruct b
  | |- ends (let '(_, _) := ?x in _) => destruct x
  | |- ends (match ?x with (_, _) => _ end) => destruct x
  | |- ends (match ?x with Some _ => _ | None => _ end) => destruct x
  | |- ends (_ ≫= _) => apply init_ends_bind; [|intros]
  | |- ends (modify _) => apply ends_modify; solve [same_tac]
  | |- ends (delay _) => apply ends_delay; lia
  | _ => first [apply ends_ret|apply ends_get|apply ends_fail|apply ends_check|apply ends_send|apply ends_command|apply ends_timer|apply ends_switch|apply ends_status|apply ends_ios
      |apply ends_attempt]
  end.
Ltac ends_tac := repeat ends_step.

Lemma ends_idle : ends mmc_go_idle.
Proof. unfold mmc_go_idle. ends_tac. Qed.

Lemma ends_op_loop n : forall t, 0 <= t -> t < Z.of_nat n -> ends (op_cond_loop (S n) t).
Proof.
  induction n as [|n IH]; intros t H0 Ht; [lia|]. cbn [op_cond_loop].
  apply init_ends_bind; [ends_tac|]. intros _. apply init_ends_bind; [ends_tac|]. intros mm. apply init_ends_bind; [ends_tac|]. intros [rs bs].
  destruct (negb _); [ends_tac|]. destruct (Z.leb_spec t 0); [ends_tac|]. apply init_ends_bind; [ends_tac|]. intros _. apply IH; lia.
Qed.

Lemma ends_op_cond : ends sd_send_op_cond.
Proof.
  unfold sd_send_op_cond. apply init_ends_bind; [change 1002%nat with (S 1001); apply ends_op_loop; lia|]. intros rs. ends_tac.
Qed.

Lemma ends_iter b : ends (mmc_send_op_cond_iter b).
Proof. unfold mmc_send_op_cond_iter. ends_tac. Qed.

Lemma ends_send_op : ends mmc_send_op_cond.
Proof. unfold mmc_send_op_cond. ends_tac; try apply ends_idle; try apply ends_iter. Qed.

Lemma ends_if_cond : ends mmc_send_if_cond.
Proof. unfold mmc_send_if_cond. ends_tac. Qed.

(** Within a second and a little more, in steps of 100 microseconds. *)
Lemma ends_complete_loop start n : 0 <= start < 2 ^ 32 -> forall mm c, (start + 1001) * 1000 <= time c + 100 * Z.of_nat n ->
  exists r mm' c', complete_loop (S n) start 1000 (mm, c) = Some (r, (mm', c')) /\ same_device mm mm' /\ time c <= time c'.
Proof.
  intros Hs. induction n as [|n IH]; intros mm c Hl; cbn [complete_loop].
  all: unfold mbind, init_bind; destruct (ends_iter true mm c) as ([e|[]] & mm1 & c1 & -> & K1 & T1); [by exists (inl e), mm1, c1|].
  all: cbn [get fst snd]; destruct (powered mm1); [by exists (inr tt), mm1, c1|].
  all: unfold timer, on_card; cbn [fst snd]; pose proof (tk_timer start c1) as [Hv Ht]; destruct (get_timer start c1) as [now c2]; cbn [fst snd] in Hv, Ht.
  all: pose proof (tk_range c1) as Hr; destruct (Z.ltb_spec 1000 now) as [Hn|Hn]; [exists (inl UNUSABLE_ERR), mm1, c2; split; [done|]; split; [done|lia]|].
  all: assert (Hlow : time c1 < (start + 1001) * 1000) by (unfold time_max in Hr; revert Hn; rewrite Hv; unfold u64; intros Hn; Z.div_mod_to_equations; lia).
  - lia.
  - unfold delay, on_card. cbn [fst snd]. pose proof (tk_delay 100 c2 ltac:(lia)). pose proof (tk_range c2). unfold time_max in *. destruct (IH mm1 (udelay 100 c2)) as (r & mm3 & c3 & E & K3 & T3); [lia|].
    cbv beta. exists r, mm3, c3. split; [exact E|]. split; [by eapply same_device_trans|lia].
Qed.

Context (fuel : nat) (Hfuel : 10012 < Z.of_nat fuel).

Lemma ends_complete_op : ends (mmc_complete_op_cond fuel).
Proof.
  unfold mmc_complete_op_cond. apply init_ends_bind; [ends_tac|]. intros _. apply init_ends_bind; [ends_tac|]. intros mm0. apply init_ends_bind; [|intros []; ends_tac].
  destruct (powered mm0); [ends_tac|]. intros mm c. unfold mbind, init_bind, timer, on_card. cbn [fst snd].
  pose proof (tk_timer 0 c) as [Hv Ht]. destruct (get_timer 0 c) as [start c1]. cbn [fst snd] in Hv, Ht. pose proof (tk_range c) as Hr.
  rewrite Z.sub_0_r, u64_small in Hv by (unfold is_u64, time_max in *; Z.div_mod_to_equations; lia).
  destruct fuel as [|n]; [lia|].
  destruct (ends_complete_loop (u32 start) n (u32_range start) mm c1) as (r & mm' & c' & E & K & T).
  - assert (u32 start <= start) by (unfold u32; pose proof (Z.div_pos (time c) 1000); Z.div_mod_to_equations; lia). Z.div_mod_to_equations. lia.
  - cbv beta. exists r, mm', c'. split; [exact E|]. split; [done|lia].
Qed.

(** *** The rest *)

Lemma ends_ext_csd : ends mmc_send_ext_csd.
Proof. unfold mmc_send_ext_csd. ends_tac. Qed.

Lemma ends_change_freq : ends mmc_change_freq.
Proof. unfold mmc_change_freq. ends_tac; try apply ends_ext_csd. Qed.

Lemma ends_sd_switch m g v : ends (sd_switch m g v).
Proof. unfold sd_switch. ends_tac. Qed.

Lemma ends_scr_loop n : ends (scr_loop n).
Proof. induction n as [|n IH]; cbn [scr_loop]; ends_tac; exact IH. Qed.

Lemma ends_busy_loop n st : ends (busy_loop n st).
Proof. revert st. induction n as [|n IH]; intros st; cbn [busy_loop]; ends_tac; [apply ends_sd_switch|apply IH]. Qed.

Lemma ends_sd_change : ends sd_change_freq.
Proof. unfold sd_change_freq. ends_tac; try apply ends_scr_loop; try apply ends_busy_loop; try apply ends_sd_switch. Qed.

Lemma ends_clock n : ends (mmc_set_clock n).
Proof. unfold mmc_set_clock. ends_tac. Qed.

Lemma ends_bus_width n : ends (mmc_set_bus_width n).
Proof. unfold mmc_set_bus_width. ends_tac. Qed.

Lemma ends_width_loop ws ext err : ends (width_loop ws ext err).
Proof.
  revert err. induction ws as [|[[w caps] n] ws IH]; intros err; cbn [width_loop]; ends_tac; try apply IH; apply ends_bus_width.
Qed.

(** *** After the register of the card has been read *)

Definition ends_sized {A} (m : init A) : Prop :=
  forall mm c, sized mm -> exists r mm' c', m (mm, c) = Some (r, (mm', c')) /\ same_device mm mm' /\ time c <= time c'.

Lemma sized_ends {A} (m : init A) : ends m -> ends_sized m.
Proof. intros Hm mm c _. apply Hm. Qed.

Lemma sized_bind {A B} (m : init A) (k : A -> init B) : ends_sized m -> (forall x, ends_sized (k x)) -> ends_sized (m ≫= k).
Proof.
  intros Hm Hk mm c Hs. destruct (Hm mm c Hs) as ([e|x] & mm1 & c1 & E & K & T).
  - exists (inl e), mm1, c1. unfold mbind, init_bind. rewrite E. done.
  - destruct (Hk x mm1 c1) as (r & mm2 & c2 & E2 & K2 & T2); [by apply K|]. exists r, mm2, c2. unfold mbind, init_bind. rewrite E. split; [done|].
    split; [by eapply same_device_trans|lia].
Qed.

Lemma lldiv_some a b : 0 < b <= 512 -> exists q, lldiv a b = Some q.
Proof. intros Hb. unfold lldiv. rewrite u32_small by (unfold is_u32; lia). destruct (Z.eqb_spec b 0); [lia|]. eauto. Qed.

Lemma set_capacity_some mm n : sized mm -> exists e mm', mmc_set_capacity mm n = Some (e, mm') /\ same_device mm mm'.
Proof.
  intros Hsz. pose proof Hsz as [Hr Hl]. unfold mmc_set_capacity.
  assert (Hgo : forall cap, exists e mm', (q ← lldiv cap (read_bl_len mm); Some (0, mm <| capacity := cap |> <| b_lba := q |>)) = Some (e, mm') /\ same_device mm mm').
  { intros cap. destruct (lldiv_some cap _ Hr) as [q ->]. cbn [mbind option_bind]. eexists _, _. split; [reflexivity|]. same_tac. }
  destruct (n =? 0); [apply Hgo|]. destruct (_ || _); [apply Hgo|]. destruct (n =? 3); [apply Hgo|].
  destruct (Z.leb_spec 4 n), (Z.leb_spec n 7); cbn [andb mbind option_bind]; try (eexists _, _; split; [reflexivity|same_tac]).
  destruct (lookup_lt_is_Some_2 (capacity_gp mm) (Z.to_nat (n - 4))) as [gp ->]; [lia|]. cbn [mbind option_bind]. apply Hgo.
Qed.

Lemma sized_capacity : ends_sized startup_capacity.
Proof.
  intros mm c Hs. unfold startup_capacity, mbind, init_bind, get. cbn [fst snd]. destruct (set_capacity_some mm (part_num mm) Hs) as (e & mm' & -> & K).
  cbn [the]. unfold mret, init_ret, modify. cbn [fst snd]. unfold check. destruct (e =? 0); eexists _, mm', c; (split; [reflexivity|]; split; [done|lia]).
Qed.

Lemma ends_select : ends startup_select.
Proof. unfold startup_select. ends_tac. Qed.

Lemma ends_startup_ext : ends startup_ext_csd.
Proof.
  unfold startup_ext_csd. ends_tac; try apply ends_ext_csd.
  - apply ends_modify. intros mm. unfold ext_csd_fields. same_tac.
  - apply ends_modify. intros mm. unfold ext_csd_groups. same_tac.
Qed.

(** Reading the register. *)
Lemma csd_sized rs mm mm' : set_csd rs mm = Some mm' -> same_device mm (csd_capacity mm') /\ sized (csd_capacity mm').
Proof.
  unfold set_csd. intros E. set (m1 := mm <| csd := words4 rs |>) in E. set (m2 := if version m1 =? MMC_VERSION_UNKNOWN then _ else m1) in E.
  assert (K2 : same_device mm m2) by (unfold m2; case_match; same_tac).
  destruct (fbase !! _) as [f|]; [|done]. destruct (multipliers !! _) as [mu|]; [|done]. cbn [mbind option_bind] in E.
  assert (Hb : 0 < read_bl_len mm').
  { assert (0 < Z.shiftl 1 (Z.land (Z.shiftr (resp rs 1) 16) 15)) as Hs.
    { rewrite Z.shiftl_mul_pow2 by (apply Z.land_nonneg; lia). pose proof (Z.pow_pos_nonneg 2 (Z.land (Z.shiftr (resp rs 1) 16) 15) ltac:(lia) ltac:(apply Z.land_nonneg; lia)). lia. }
    injection E as <-. by case_match. }
  assert (Hz : sized (csd_capacity mm')).
  { unfold csd_capacity. destruct (if negb (high_capacity mm' =? 0) then _ else _) as [cs cm]. cbv zeta.
    set (m3 := _ <| capacity_gp := [0; 0; 0; 0] |>). assert (H3 : read_bl_len m3 = read_bl_len mm' /\ length (capacity_gp m3) = 4%nat) by done.
    destruct H3 as [H3 H4]. destruct (Z.ltb_spec MMC_MAX_BLOCK_LEN (read_bl_len m3)) as [Hlt|Hge]; unfold MMC_MAX_BLOCK_LEN in *.
    - destruct (512 <? _); (split; [change (0 < 512 <= 512); lia|done]).
    - assert (0 < read_bl_len m3 <= 512) by lia. by destruct (512 <? _). }
  assert (Hc : forall m, has_init (csd_capacity m) = has_init m /\ b_dev (csd_capacity m) = b_dev m /\ cfg (csd_capacity m) = cfg m /\ dsr (csd_capacity m) = dsr m /\
    preinit (csd_capacity m) = preinit m).
  { intros m. unfold csd_capacity. destruct (if negb (high_capacity m =? 0) then _ else _) as [cs cm]. cbv zeta.
    by destruct (MMC_MAX_BLOCK_LEN <? read_bl_len _), (MMC_MAX_BLOCK_LEN <? write_bl_len _). }
  split; [|done]. destruct K2 as (K1 & K2 & K3 & K4 & K5 & _). unfold same_device.
  destruct (Hc mm') as (-> & -> & -> & -> & ->). injection E as <-. by case_match; split_and!.
Qed.

Lemma set_csd_some rs mm : Z.land (resp rs 0) 7 < 4 -> exists mm', set_csd rs mm = Some mm'.
Proof.
  intros Hr. unfold set_csd. destruct (lookup_lt_is_Some_2 fbase (Z.to_nat (Z.land (resp rs 0) 7))) as [f ->]; [change (length fbase) with 4%nat; lia|].
  destruct (lookup_lt_is_Some_2 multipliers (Z.to_nat (Z.land (Z.shiftr (resp rs 0) 3) 0xf))) as [mu ->].
  { change (length multipliers) with 16%nat. change 0xf with (Z.ones 4). rewrite Z.land_ones by lia. pose proof (Z.mod_pos_bound (Z.shiftr (resp rs 0) 3) (2 ^ 4) ltac:(lia)). lia. }
  cbn [mbind option_bind]. eauto.
Qed.

Lemma set_csd_none rs mm : 4 <= Z.land (resp rs 0) 7 -> set_csd rs mm = None.
Proof. intros Hr. unfold set_csd. rewrite (lookup_ge_None_2 fbase) by (change (length fbase) with 4%nat; lia). done. Qed.

Lemma ends_csd : ends startup_csd.
Proof. unfold startup_csd. ends_tac. Qed.

Lemma bind_inr {A B} (m : init A) (k : A -> init B) s x s' : m s = Some (inr x, s') -> (m ≫= k) s = k x s'.
Proof. intros E. unfold mbind, init_bind. by rewrite E. Qed.

Lemma bind_inl {A B} (m : init A) (k : A -> init B) s e s' : m s = Some (inl e, s') -> (m ≫= k) s = Some (inl e, s').
Proof. intros E. unfold mbind, init_bind. by rewrite E. Qed.

Context (init_part : mmc -> card -> Z * card) (Hpart : forall mm c, time c <= time (init_part mm c).2).

Lemma sized_device : ends_sized (startup_device init_part).
Proof.
  unfold startup_device. apply sized_bind; [apply sized_ends; ends_tac|]. intros mm0. apply sized_bind; [apply sized_ends, ends_clock|]. intros _.
  apply sized_bind; [apply sized_ends; ends_tac|]. intros _. intros mm c Hs. unfold mbind, init_bind, get. cbn [fst snd].
  destruct (lldiv_some (capacity mm) _ (proj1 Hs)) as [q ->]. cbn [the]. unfold mret, init_ret, modify, on_card. cbn [fst snd].
  set (m1 := _ <| b_lba := q |>). pose proof (Hpart m1 c) as Ht. destruct (init_part m1 c) as [ty c1]. cbn [fst snd] in *.
  eexists (inr tt), _, c1. split; [reflexivity|]. split; [unfold m1; same_tac|done].
Qed.

Definition startup_rest : init unit :=
  startup_select;;
  ext_csd ← startup_ext_csd;
  startup_capacity;;
  mm ← get;
  (if IS_SD mm then sd_change_freq else mmc_change_freq);;
  modify (fun mm => mm <| card_caps := Z.land (card_caps mm) (host_caps (cfg mm)) |>);;
  mm ← get;
  (if IS_SD mm then sd_bus else if MMC_VERSION_4 <=? version mm then mmc_bus ext_csd else mret tt);;
  startup_device init_part.

Lemma sized_rest : ends_sized startup_rest.
Proof.
  unfold startup_rest. apply sized_bind; [apply sized_ends, ends_select|]. intros _. apply sized_bind; [apply sized_ends, ends_startup_ext|]. intros ext.
  apply sized_bind; [apply sized_capacity|]. intros _. apply sized_bind; [apply sized_ends; ends_tac|]. intros mm2.
  apply sized_bind; [apply sized_ends; destruct (IS_SD mm2); [apply ends_sd_change|apply ends_change_freq]|]. intros _.
  apply sized_bind; [apply sized_ends; ends_tac|]. intros _. apply sized_bind; [apply sized_ends; ends_tac|]. intros mm3.
  apply sized_bind; [|intros _; apply sized_device]. apply sized_ends. unfold sd_bus, mmc_bus. ends_tac; try apply ends_bus_width; apply ends_width_loop.
Qed.

(** It ends, unless the unit of the rate is not in the table. *)
Lemma startup_ends mm c :
  (exists r mm' c', mmc_startup init_part (mm, c) = Some (r, (mm', c')) /\ same_device mm mm' /\ time c <= time c') \/
  (mmc_startup init_part (mm, c) = None /\ exists rs s', startup_csd (mm, c) = Some (inr rs, s') /\ 4 <= Z.land (resp rs 0) 7).
Proof.
  change (mmc_startup init_part) with (startup_identify;; startup_rest).
  destruct (ends_csd mm c) as ([e|rs] & mm1 & c1 & E & K1 & T1).
  { left. exists (inl e), mm1, c1. erewrite bind_inl by (unfold startup_identify; by erewrite bind_inl by exact E). done. }
  destruct (Z.lt_ge_cases (Z.land (resp rs 0) 7) 4) as [Hr|Hr].
  - left. destruct (set_csd_some rs mm1 Hr) as [mm2 E2]. destruct (csd_sized rs mm1 mm2 E2) as [K2 Hz].
    destruct (sized_rest (csd_capacity mm2) c1 Hz) as (r & mm3 & c3 & E3 & K3 & T3). exists r, mm3, c3.
    erewrite bind_inr.
    2:{ unfold startup_identify. erewrite bind_inr by exact E. erewrite bind_inr by reflexivity. cbn [fst]. rewrite E2. reflexivity. }
    cbn [fst snd]. split; [exact E3|]. split; [by eapply same_device_trans; [exact K1|eapply same_device_trans]|lia].
  - right. split; [|by exists rs, (mm1, c1)]. unfold mbind at 1. unfold init_bind at 1. unfold startup_identify. erewrite bind_inr by exact E.
    erewrite bind_inr by reflexivity. cbn [fst]. by rewrite (set_csd_none rs mm1 Hr).
Qed.

Lemma start_init_ends mm c : has_init mm = 0 -> exists r mm' c', mmc_start_init (mm, c) = Some (r, (mm', c')) /\ same_device mm mm' /\ time c <= time c'.
Proof.
  intros H0. unfold mmc_start_init. unfold mbind at 1. unfold init_bind at 1. unfold on_card at 1. cbn [fst snd].
  assert (Hno : exists r mm' c', (modify (fun mm => mm <| has_init := 0 |>) ;; fail (A := unit) NO_CARD_ERR) (mm, c) = Some (r, (mm', c')) /\ same_device mm mm' /\ time c <= time c').
  { eexists (inl NO_CARD_ERR), _, c. split; [reflexivity|]. split; [|lia]. unfold same_device. cbn. rewrite H0. split_and!; try done. }
  destruct ops_init as [f|] eqn:Ef; [|exact Hno]. destruct (mmc_getcd mm c =? 0); [exact Hno|].
  unfold mbind at 1. unfold init_bind at 1. unfold get at 1. cbn [fst snd]. rewrite H0. change (negb (0 =? 0)) with false. cbn iota.
  revert mm c H0 Hno. enough (Hall : ends (err ← on_card f; check err;;
      modify (fun mm => mm <| ddr_mode := 0 |>);; mmc_set_bus_width 1;; mmc_set_clock 1;; mmc_go_idle;; modify (fun mm => mm <| part_num := 0 |>);;
      _ ← attempt mmc_send_if_cond; err ← attempt sd_send_op_cond;
      (if err =? TIMEOUT then err ← attempt mmc_send_op_cond; (if negb (err =? 0) then fail UNUSABLE_ERR else mret tt) else check err);;
      modify (fun mm => mm <| init_in_progress := 1 |>))) by (intros mm c _ _; exact (Hall mm c)).
  apply init_ends_bind.
  { intros mm c. unfold on_card. cbn [fst snd]. pose proof (tk_init f mm c Ef) as Ht. destruct (f mm c) as [e c1]. by exists (inr e), mm, c1. }
  intros e. ends_tac; first [apply ends_bus_width|apply ends_clock|apply ends_idle|apply ends_if_cond|apply ends_op_cond|apply ends_send_op].
Qed.

Lemma attempt_ends {A} (b : bool) (m : init A) e0 mm c : ends m ->
  exists e mm' c', (if b then attempt m else mret e0) (mm, c) = Some (inr e, (mm', c')) /\ same_device mm mm'.
Proof.
  intros Hm. destruct b; [|by exists e0, mm, c]. destruct (Hm mm c) as (r & mm' & c' & E & K & _). unfold attempt. rewrite E. by eexists _, mm', c'.
Qed.

(** The way to the register of the card. *)
Definition complete_csd : init (list Z) :=
  modify (fun mm => mm <| init_in_progress := 0 |>);;
  mm ← get;
  err ← (if negb (op_cond_pending mm =? 0) then attempt (mmc_complete_op_cond fuel) else mret 0);
  check err;;
  startup_csd.

(** What a card answers for its register while it is brought up, if it comes to that. *)
Definition init_csd : init (list Z) :=
  mm ← get;
  err ← (if init_in_progress mm =? 0 then attempt mmc_start_init else mret 0);
  check err;;
  complete_csd.

Lemma complete_init_ends mm c :
  (exists r mm' c', mmc_complete_init fuel init_part (mm, c) = Some (r, (mm', c')) /\
    (r = inr tt /\ has_init mm' = 1 \/ exists e, r = inl e /\ e <> 0 /\ has_init mm' = 0) /\ b_dev mm' = b_dev mm /\ cfg mm' = cfg mm /\ preinit mm' = preinit mm) \/
  (mmc_complete_init fuel init_part (mm, c) = None /\ exists rs s', complete_csd (mm, c) = Some (inr rs, s') /\ 4 <= Z.land (resp rs 0) 7).
Proof.
  unfold mmc_complete_init, complete_csd. do 2 (erewrite (bind_inr (modify _)) by reflexivity). cbn [fst snd]. do 2 (erewrite (bind_inr get) by reflexivity). cbn [fst snd].
  set (mm0 := mm <| init_in_progress := 0 |>).
  destruct (attempt_ends (negb (op_cond_pending mm0 =? 0)) (mmc_complete_op_cond fuel) 0 mm0 c ends_complete_op) as (e1 & mm1 & c1 & E1 & (_ & D1 & C1 & _ & P1 & _)).
  rewrite !(bind_inr _ _ _ _ _ E1).
  assert (Hstart : (exists e2 mm2 c2, (if e1 =? 0 then attempt (mmc_startup init_part) else mret e1) (mm1, c1) = Some (inr e2, (mm2, c2)) /\ same_device mm1 mm2) \/
    ((if e1 =? 0 then attempt (mmc_startup init_part) else mret e1) (mm1, c1) = None /\ e1 = 0 /\ exists rs s', startup_csd (mm1, c1) = Some (inr rs, s') /\ 4 <= Z.land (resp rs 0) 7)).
  { destruct (Z.eqb_spec e1 0); [|left; by exists e1, mm1, c1]. unfold attempt.
    destruct (startup_ends mm1 c1) as [(r & mm2 & c2 & -> & K & _)|[-> H]]; [left; by eexists _, mm2, c2|by right]. }
  destruct Hstart as [(e2 & mm2 & c2 & E2 & (_ & D2 & C2 & _ & P2 & _))|(E2 & -> & H)].
  - left. erewrite bind_inr by exact E2. erewrite bind_inr by reflexivity. cbn [fst snd]. rewrite D1 in D2. rewrite C1 in C2. rewrite P1 in P2.
    unfold check. destruct (Z.eqb_spec e2 0) as [->|Hne]; cbn [negb].
    + eexists (inr tt), _, c2. split; [reflexivity|]. split; [by left|done].
    + eexists (inl e2), _, c2. split; [reflexivity|]. split; [right; by exists e2|done].
  - right. split; [|exact H]. unfold mbind at 1. unfold init_bind at 1. by rewrite E2.
Qed.

Lemma init_settles_ok mm c : has_init mm = 0 ->
  (exists err mm' c', run (mmc_init fuel init_part) mm c = Some (err, mm', c') /\
    (err = 0 /\ has_init mm' = 1 \/ err <> 0 /\ has_init mm' = 0) /\ b_dev mm' = b_dev mm /\ cfg mm' = cfg mm /\ preinit mm' = preinit mm) \/
  (run (mmc_init fuel init_part) mm c = None /\ exists rs s', init_csd (mm, c) = Some (inr rs, s') /\ 4 <= Z.land (resp rs 0) 7).
Proof.
  intros H0. unfold run, mmc_init, init_csd. do 2 (erewrite (bind_inr get) by reflexivity). cbn [fst snd]. rewrite H0. change (negb (0 =? 0)) with false. cbn iota.
  assert (Hstart : exists e mm1 c1, (if init_in_progress mm =? 0 then attempt mmc_start_init else mret 0) (mm, c) = Some (inr e, (mm1, c1)) /\ same_device mm mm1).
  { destruct (init_in_progress mm =? 0); [|by exists 0, mm, c]. destruct (start_init_ends mm c H0) as (r & mm1 & c1 & E & K & _). unfold attempt. rewrite E. by eexists _, mm1, c1. }
  destruct Hstart as (e & mm1 & c1 & E & (K1 & K2 & K3 & _ & K5 & _)). rewrite !(bind_inr _ _ _ _ _ E). destruct (Z.eqb_spec e 0) as [->|].
  - destruct (complete_init_ends mm1 c1) as [(r & mm2 & c2 & -> & Hr & D & C & P)|[-> H]]; [left|by right]. destruct Hr as [[-> Hi]|(e2 & -> & He & Hi)].
    + exists 0, mm2, c2. split; [done|]. split; [by left|]. rewrite D, C, P. done.
    + exists e2, mm2, c2. split; [done|]. split; [by right|]. rewrite D, C, P. done.
  - left. exists e, mm1, c1. split; [done|]. split; [right; split; [done|congruence]|done].
Qed.
End Any.

(** ** Claims *)

(** C24: whatever a host and a card answer, bringing a device up ends, within the time
    that there is for it: either it returns 0 and the device is in use, or an error and
    it is not. There is one exception: when the register that the card sends has 4 or
    more for the unit of its rate, the code reads behind the table of units
    ([rate_behind_table]). *)
Theorem mmc_init_settles `{HC : CardHost} (time : card -> Z) {HT : Ticking time} fuel init_part mm c :
  10012 < Z.of_nat fuel -> (forall mm c, time c <= time (init_part mm c).2) -> has_init mm = 0 ->
  (exists err mm' c', run (mmc_init fuel init_part) mm c = Some (err, mm', c') /\
    (err = 0 /\ has_init mm' = 1 \/ err <> 0 /\ has_init mm' = 0) /\ b_dev mm' = b_dev mm /\ cfg mm' = cfg mm /\ preinit mm' = preinit mm) \/
  (run (mmc_init fuel init_part) mm c = None /\
    exists response s', init_csd fuel (mm, c) = Some (inr response, s') /\ 4 <= Z.land (resp response 0) 7).
Proof. intros Hf Hp H0. by apply (init_settles_ok time fuel Hf init_part Hp). Qed.

(** A slot with nothing in it, and the time. *)
Definition slot_time (t : Z) : Z := Z.max 0 (Z.min t time_max).

Definition empty_host : CardHost := {|
  card := Z; send_cmd _ _ _ _ _ t := (TIMEOUT, [], [], t); ops_set_ios := None; ops_init := Some (fun _ t => (0, t)); ops_getcd := None; ops_getwp := None;
  get_timer base t := (u64 (slot_time t / 1000 - base), t); udelay n t := slot_time t + n;
|}.

Lemma empty_ticking : @Ticking empty_host slot_time.
Proof.
  constructor; cbn [send_cmd empty_host fst snd get_timer udelay ops_set_ios ops_init].
  - intros. lia.
  - intros base c. split; [done|]. lia.
  - intros n c Hn. unfold slot_time, time_max. lia.
  - done.
  - intros f mm c [= <-]. cbn [snd]. lia.
  - intros c. unfold slot_time, time_max. lia.
Qed.

Lemma mmc_init_settles_witness :
  let mm := (ram_mmc_device 0 0 0) <| has_init := 0 |> in let fuel := Z.to_nat 10013 in
  (exists err mm' c', run (H := empty_host) (mmc_init fuel (fun _ t => (0, t))) mm 5 = Some (err, mm', c') /\
    (err = 0 /\ has_init mm' = 1 \/ err <> 0 /\ has_init mm' = 0) /\ b_dev mm' = b_dev mm /\ cfg mm' = cfg mm /\ preinit mm' = preinit mm) \/
  (run (H := empty_host) (mmc_init fuel (fun _ t => (0, t))) mm 5 = None /\
    exists response s', init_csd (HC := empty_host) fuel (mm, 5) = Some (inr response, s') /\ 4 <= Z.land (resp response 0) 7).
Proof.
  apply (@mmc_init_settles empty_host slot_time empty_ticking (Z.to_nat 10013) (fun _ t => (0, t)) ((ram_mmc_device 0 0 0) <| has_init := 0 |>) 5);
    [lia|intros; cbn [snd]; lia|reflexivity].
Defined.

(** The unit of the rate is looked up behind the end of the table. *)
Example rate_behind_table : set_csd [4; 0; 0; 0] (ram_mmc_device 0 0 0) = None.
Proof. vm_compute. reflexivity. Qed.

(** A card of 2^31 sectors, a terabyte, is taken for one of 2^64 - 2^31. *)
Example sectors_extended : sec_count (replicate 215 0 ++ [128]) = 2 ^ 64 - 2 ^ 31.
Proof. vm_compute. reflexivity. Qed.
