(* ===== verification/SdCard.v ===== *)
(** An SD card of high capacity, and how it is brought up ([MmcInit]).

    [SdCard] is what such a card answers, in the states that the standard gives it; the
    device that [mmc_init] makes of it is [sd_up], whatever it was before: bringing it up
    again changes nothing, which is what [CardStack] asks for. *)

From S2P Require Import Prelude Fields UStr Vsprintf UMem MmcPart Ext4Img MmcBlk MmcInit.

(** The states of a card while it is identified: idle, with the number of times that it
    will say that it is busy, ready, identified, standing by, and ready for transfers; it
    may have been told that the next command is one for applications. *)
Inductive ident :=
  | Idle (polls : nat)
  | IdleApp (polls : nat)
  | Ready
  | Identified
  | Standby
  | Transfer
  | TransferApp.

(** Its registers, with the two answers to the switch function. *)
Record sd_regs := mkRegs { r_ocr : Z; r_cid : list Z; r_csd : list Z; r_rca : Z; r_scr : list Z; r_check : list Z; r_switch : list Z; r_type : Z }.

Definition c_size (csd : list Z) : Z := Z.lor (Z.shiftl (Z.land (nth 1 csd 0) 0x3f) 16) (Z.shiftr (Z.land (nth 2 csd 0) 0xffff0000) 16).

(** A card of version 2 or later with more than two gigabytes. *)
Record sdhc (g : sd_regs) : Prop := {
  hc_ready : Z.land (r_ocr g) OCR_BUSY <> 0;
  hc_high : Z.land (r_ocr g) OCR_HCS = OCR_HCS;
  hc_rate : Z.land (nth 0 (r_csd g) 0) 7 < 4;
  hc_dsr : Z.land (Z.shiftr (nth 1 (r_csd g) 0) 12) 1 = 0;
  hc_block : Z.land (Z.shiftr (nth 1 (r_csd g) 0) 16) 0xf = 9;
  hc_cid : length (r_cid g) = 4%nat;
  hc_csd : length (r_csd g) = 4%nat;
  hc_version : scr_version (be_word (r_scr g) 0) <> SD_VERSION_1_0;
  hc_idle : Z.land (be_word (r_check g) 7) SD_HIGHSPEED_BUSY = 0;
}.

(** What CMD8 and ACMD41 must be asked with: 2.7 to 3.6 V and the pattern, which the card
    repeats; and that the host takes cards of high capacity, and a voltage that the card
    has. The card does not get ready otherwise. *)
Definition if_cond_arg : Z := 0x1aa.

Definition op_cond_arg (g : sd_regs) (arg : Z) : Prop :=
  Z.land arg OCR_HCS <> 0 /\ Z.land (Z.land arg 0xff8000) (r_ocr g) <> 0.

#[global] Instance op_cond_arg_dec g arg : Decision (op_cond_arg g arg).
Proof. unfold op_cond_arg. apply _. Defined.

(** The host of a device has a voltage that the card has. *)
Definition supplied (g : sd_regs) (mm : mmc) : Prop := Z.land (Z.land (voltages (cfg mm)) 0xff8000) (r_ocr g) <> 0.

Lemma supplied_if_cond g mm : supplied g mm ->
  Z.lor (Z.shiftl (if Z.land (voltages (cfg mm)) 0xff8000 =? 0 then 0 else 1) 8) 0xaa = if_cond_arg.
Proof. intros Hv. destruct (Z.eqb_spec (Z.land (voltages (cfg mm)) 0xff8000) 0) as [E|_]; [|done]. destruct Hv. by rewrite E. Qed.

Lemma supplied_op_cond g mm : supplied g mm -> op_cond_arg g (Z.lor (Z.land (voltages (cfg mm)) 0xff8000) OCR_HCS).
Proof.
  intros Hv. split.
  - intros E. apply (f_equal (fun z => Z.testbit z 30)) in E. rewrite Z.land_spec, Z.lor_spec in E. change (Z.testbit OCR_HCS 30) with true in E.
    rewrite orb_true_r, Z.bits_0 in E. discriminate.
  - rewrite Z.land_lor_distr_l. change (Z.land OCR_HCS 0xff8000) with 0. rewrite Z.lor_0_r, <- (Z.land_assoc _ 0xff8000 0xff8000), Z.land_diag. exact Hv.
Qed.

Class SdCard `{CardHost} (k : Z) (powered : card -> Prop) (at_state : ident -> card -> Prop) (content : card -> Z -> list Z)
    (init_part : mmc -> card -> Z * card) (g : sd_regs) := {
  sd_init : exists f, ops_init = Some f /\ forall mm c, b_dev mm = k -> powered c ->
    exists c', f mm c = (0, c') /\ powered c' /\ forall x, content c' x = content c x;
  sd_present mm c : b_dev mm = k -> powered c -> mmc_getcd mm c <> 0;
  sd_ios f mm c : b_dev mm = k -> ops_set_ios = Some f ->
    (powered c -> powered (f mm c)) /\ (forall i, at_state i c -> at_state i (f mm c)) /\ forall x, content (f mm c) x = content c x;
  sd_wait n c : (powered c -> powered (udelay n c)) /\ (forall i, at_state i c -> at_state i (udelay n c)) /\ forall x, content (udelay n c) x = content c x;
  sd_reset mm c : b_dev mm = k -> powered c -> exists p r bs c', send_cmd mm MMC_CMD_GO_IDLE_STATE 0 MMC_RSP_NONE NoData c = (0, r, bs, c') /\
    (p <= 1000)%nat /\ at_state (Idle p) c' /\ forall x, content c' x = content c x;
  sd_voltage mm c p : b_dev mm = k -> at_state (Idle p) c -> exists r bs c', send_cmd mm SD_CMD_SEND_IF_COND if_cond_arg MMC_RSP_R7 NoData c = (0, r, bs, c') /\
    Z.land (resp r 0) 0xff = 0xaa /\ at_state (Idle p) c' /\ forall x, content c' x = content c x;
  sd_app_idle mm c p : b_dev mm = k -> at_state (Idle p) c -> exists r bs c', send_cmd mm MMC_CMD_APP_CMD 0 MMC_RSP_R1 NoData c = (0, r, bs, c') /\
    at_state (IdleApp p) c' /\ forall x, content c' x = content c x;
  sd_op_cond mm c p arg : b_dev mm = k -> op_cond_arg g arg -> at_state (IdleApp p) c -> exists r bs c', send_cmd mm SD_CMD_APP_SEND_OP_COND arg MMC_RSP_R3 NoData c = (0, r, bs, c') /\
    match p with O => resp r 0 = r_ocr g /\ at_state Ready c' | S q => Z.land (resp r 0) OCR_BUSY = 0 /\ at_state (Idle q) c' end /\
    forall x, content c' x = content c x;
  sd_cid mm c : b_dev mm = k -> at_state Ready c -> exists r bs c', send_cmd mm MMC_CMD_ALL_SEND_CID 0 MMC_RSP_R2 NoData c = (0, r, bs, c') /\
    words4 r = r_cid g /\ at_state Identified c' /\ forall x, content c' x = content c x;
  sd_addr mm c arg : b_dev mm = k -> at_state Identified c -> exists r bs c', send_cmd mm SD_CMD_SEND_RELATIVE_ADDR arg MMC_RSP_R6 NoData c = (0, r, bs, c') /\
    Z.land (Z.shiftr (resp r 0) 16) 0xffff = r_rca g /\ at_state Standby c' /\ forall x, content c' x = content c x;
  sd_csd mm c : b_dev mm = k -> rca mm = r_rca g -> at_state Standby c ->
    exists r bs c', send_cmd mm MMC_CMD_SEND_CSD (u32 (Z.shiftl (r_rca g) 16)) MMC_RSP_R2 NoData c = (0, r, bs, c') /\
    words4 r = r_csd g /\ at_state Standby c' /\ forall x, content c' x = content c x;
  sd_status mm c : b_dev mm = k -> rca mm = r_rca g -> at_state Standby c ->
    exists r bs c', send_cmd mm MMC_CMD_SEND_STATUS (u32 (Z.shiftl (r_rca g) 16)) MMC_RSP_R1 NoData c = (0, r, bs, c') /\
    says_ready (resp r 0) /\ at_state Standby c' /\ forall x, content c' x = content c x;
  sd_select mm c : b_dev mm = k -> rca mm = r_rca g -> at_state Standby c ->
    exists r bs c', send_cmd mm MMC_CMD_SELECT_CARD (u32 (Z.shiftl (r_rca g) 16)) MMC_RSP_R1 NoData c = (0, r, bs, c') /\
    at_state Transfer c' /\ forall x, content c' x = content c x;
  sd_app mm c : b_dev mm = k -> rca mm = r_rca g -> at_state Transfer c ->
    exists r bs c', send_cmd mm MMC_CMD_APP_CMD (u32 (Z.shiftl (r_rca g) 16)) MMC_RSP_R1 NoData c = (0, r, bs, c') /\
    at_state TransferApp c' /\ forall x, content c' x = content c x;
  sd_scr mm c : b_dev mm = k -> at_state TransferApp c -> exists r c', send_cmd mm SD_CMD_APP_SEND_SCR 0 MMC_RSP_R1 (ReadData 1 8) c = (0, r, r_scr g, c') /\
    at_state Transfer c' /\ forall x, content c' x = content c x;
  sd_function mm c (b : bool) : b_dev mm = k -> at_state Transfer c ->
    exists r c', send_cmd mm SD_CMD_SWITCH_FUNC (if b then 0x80fffff1 else 0x00fffff1) MMC_RSP_R1 (ReadData 1 64) c = (0, r, if b then r_switch g else r_check g, c') /\
    at_state Transfer c' /\ forall x, content c' x = content c x;
  sd_width mm c : b_dev mm = k -> at_state TransferApp c -> exists r bs c', send_cmd mm SD_CMD_APP_SET_BUS_WIDTH 2 MMC_RSP_R1 NoData c = (0, r, bs, c') /\
    at_state Transfer c' /\ forall x, content c' x = content c x;
  sd_part mm c : b_dev mm = k -> at_state Transfer c -> exists c', init_part mm c = (r_type g, c') /\ at_state Transfer c' /\ forall x, content c' x = content c x;
}.

(** ** The device that it becomes *)

Definition clamp_clock (conf : mmc_config) (clk : Z) : Z :=
  let clk := if f_max conf <? clk then f_max conf else clk in if clk <? f_min conf then f_min conf else clk.

(** What the card can do, by its registers, with this host. *)
Definition card_caps_of (conf : mmc_config) (g : sd_regs) : Z :=
  let caps := if negb (Z.land (be_word (r_scr g) 0) SD_DATA_4BIT =? 0) then Z.lor 0 MMC_MODE_4BIT else 0 in
  if (Z.land (be_word (r_check g) 3) SD_HIGHSPEED_SUPPORTED =? 0) || (Z.land (host_caps conf) MMC_MODE_HS_52MHz =? 0) || (Z.land (host_caps conf) MMC_MODE_HS =? 0) then caps
  else if Z.land (be_word (r_switch g) 4) 0x0f000000 =? 0x01000000 then Z.lor caps MMC_MODE_HS else caps.

Definition sd_caps (conf : mmc_config) (g : sd_regs) : Z := Z.land (card_caps_of conf g) (host_caps conf).

Definition sd_up (g : sd_regs) (mm : mmc) : mmc :=
  let caps := sd_caps (cfg mm) g in
  let speed := if negb (Z.land caps MMC_MODE_HS =? 0) then 50000000 else 25000000 in
  let sectors := 1024 * (c_size (r_csd g) + 1) in
  mm <| version := scr_version (be_word (r_scr g) 0) |> <| has_init := 1 |> <| high_capacity := 1 |>
    <| bus_width := if negb (Z.land caps MMC_MODE_4BIT =? 0) then 4 else 1 |> <| clock := clamp_clock (cfg mm) speed |> <| card_caps := caps |>
    <| ocr := r_ocr g |> <| dsr_imp := 0 |> <| scr := [be_word (r_scr g) 0; be_word (r_scr g) 1] |> <| csd := r_csd g |> <| cid := r_cid g |> <| rca := r_rca g |>
    <| part_config := MMCPART_NOAVAILABLE |> <| part_num := 0 |> <| tran_speed := speed |> <| read_bl_len := 512 |> <| write_bl_len := 512 |> <| erase_grp_size := 1 |>
    <| capacity := 512 * sectors |> <| capacity_user := 512 * sectors |> <| capacity_boot := 0 |> <| capacity_rpmb := 0 |> <| capacity_gp := [0; 0; 0; 0] |>
    <| b_type := 0 |> <| b_part_type := r_type g |> <| b_blksz := 512 |> <| b_log2blksz := 9 |> <| b_lba := sectors |>
    <| op_cond_pending := 0 |> <| init_in_progress := 0 |> <| ddr_mode := 0 |>.

(** The fields of a device, computed. *)
Ltac fields :=
  cbv beta iota zeta delta [update cfg version has_init high_capacity bus_width clock card_caps ocr dsr dsr_imp scr csd cid rca part_support part_attr wr_rel_set part_config
    part_num tran_speed read_bl_len write_bl_len erase_grp_size hc_wp_grp_size capacity capacity_user capacity_boot capacity_rpmb capacity_gp enh_user_start enh_user_size
    b_dev b_type b_part_type b_blksz b_log2blksz b_lba op_cond_pending init_in_progress preinit ddr_mode].

(** Once is enough. *)
Lemma sd_up_again g mm : sd_up g ((sd_up g mm) <| has_init := 0 |>) = sd_up g mm.
Proof. destruct mm. unfold sd_up. fields. reflexivity. Qed.

(** ** Bringing it up *)

Section Up.
Context `{HC : CardHost} (k : Z) (powered : card -> Prop) (at_state : ident -> card -> Prop) (content : card -> Z -> list Z).
Context (init_part : mmc -> card -> Z * card) (g : sd_regs) {HS : SdCard k powered at_state content init_part g} (Hg : sdhc g).

(** [m] returns something of [Q], the device [mm'] and a card of [P] with what it had. *)
Definition reaches {A} (m : init A) (mm : mmc) (c : card) (Q : A -> Prop) (mm' : mmc) (P : card -> Prop) : Prop :=
  exists x c', m (mm, c) = Some (inr x, (mm', c')) /\ Q x /\ P c' /\ forall y, content c' y = content c y.

Lemma reach_bind {A B} (m : init A) (f : A -> init B) mm c Q1 mm1 P1 Q2 mm2 P2 : reaches m mm c Q1 mm1 P1 ->
  (forall x c1, Q1 x -> P1 c1 -> reaches (f x) mm1 c1 Q2 mm2 P2) -> reaches (m ≫= f) mm c Q2 mm2 P2.
Proof.
  intros (x & c1 & E & HQ & HP & Hx) Hk. destruct (Hk x c1 HQ HP) as (y & c2 & E2 & HQ2 & HP2 & Hx2). exists y, c2.
  rewrite (bind_inr m f _ x _ E). split; [done|]. split; [done|]. split; [done|]. intros z. by rewrite Hx2.
Qed.

Lemma reach_ret {A} (x : A) mm c (Q : A -> Prop) (P : card -> Prop) : Q x -> P c -> reaches (mret x) mm c Q mm P.
Proof. intros HQ HP. by exists x, c. Qed.

Lemma reach_get mm c (P : card -> Prop) : P c -> reaches get mm c (fun x => x = mm) mm P.
Proof. intros HP. by exists mm, c. Qed.

Lemma reach_modify f mm mm' c (P : card -> Prop) : P c -> f mm = mm' -> reaches (modify f) mm c (fun _ => True) mm' P.
Proof. intros HP <-. by exists tt, c. Qed.

Lemma reach_check mm c (P : card -> Prop) : P c -> reaches (check 0) mm c (fun _ => True) mm P.
Proof. intros HP. by exists tt, c. Qed.

Lemma reach_send i a t d mm c r bs c' (P : card -> Prop) : send_cmd mm i a t d c = (0, r, bs, c') -> P c' -> (forall y, content c' y = content c y) ->
  reaches (send i a t d) mm c (fun x => x = (0, r, bs)) mm P.
Proof. intros E HP Hx. exists (0, r, bs), c'. split; [|done]. unfold send, on_card, mmc_send_cmd. cbn [fst snd]. by rewrite E. Qed.

Lemma reach_command i a t d mm c r bs c' (P : card -> Prop) : send_cmd mm i a t d c = (0, r, bs, c') -> P c' -> (forall y, content c' y = content c y) ->
  reaches (command i a t d) mm c (fun x => x = (r, bs)) mm P.
Proof.
  intros E HP Hx. unfold command. eapply reach_bind; [by eapply (reach_send _ _ _ _ _ _ _ _ _ P)|]. intros x c1 -> Hc1. eapply reach_bind; [by eapply reach_check|].
  intros _ c2 _ Hc2. by apply reach_ret.
Qed.

Lemma reach_delay n mm c i : at_state i c -> reaches (delay n) mm c (fun _ => True) mm (at_state i).
Proof. intros Hc. destruct (sd_wait n c) as (_ & Hi & Hx). exists tt, (udelay n c). split; [done|]. split; [done|]. split; [by apply Hi|done]. Qed.

Lemma reach_delay_powered n mm c : powered c -> reaches (delay n) mm c (fun _ => True) mm powered.
Proof. intros Hc. destruct (sd_wait n c) as (Hp & _ & Hx). exists tt, (udelay n c). split; [done|]. split; [done|]. split; [by apply Hp|done]. Qed.

Lemma reach_ios mm c (P : card -> Prop) : b_dev mm = k -> P c -> (P = powered \/ exists i, P = at_state i) -> reaches mmc_set_ios mm c (fun _ => True) mm P.
Proof.
  intros Hk Hc HP. unfold mmc_set_ios, on_card. eexists tt, _. split; [reflexivity|]. split; [done|]. cbn [fst snd]. destruct ops_set_ios as [f|] eqn:E; [|done].
  destruct (sd_ios f mm c Hk E) as (H1 & H2 & Hx). split; [|done]. destruct HP as [-> | [i ->]]; [by apply H1|by apply H2].
Qed.

Lemma reach_width w mm c (P : card -> Prop) : b_dev mm = k -> P c -> (P = powered \/ exists i, P = at_state i) ->
  reaches (mmc_set_bus_width w) mm c (fun _ => True) (mm <| bus_width := w |>) P.
Proof. intros Hk Hc HP. eapply reach_bind; [by eapply (reach_modify _ _ _ _ P)|]. intros _ c1 _ Hc1. by apply reach_ios. Qed.

Lemma reach_clock clk mm c (P : card -> Prop) : b_dev mm = k -> P c -> (P = powered \/ exists i, P = at_state i) ->
  reaches (mmc_set_clock clk) mm c (fun _ => True) (mm <| clock := clamp_clock (cfg mm) clk |>) P.
Proof. intros Hk Hc HP. eapply reach_bind; [by eapply (reach_modify _ _ _ _ P)|]. intros _ c1 _ Hc1. by apply reach_ios. Qed.

(** *** Identification *)

Lemma reach_idle mm c : b_dev mm = k -> powered c -> exists p, (p <= 1000)%nat /\ reaches mmc_go_idle mm c (fun _ => True) mm (at_state (Idle p)).
Proof.
  intros Hk Hc. destruct (reach_delay_powered 1000 mm c Hc) as ([] & c1 & E1 & _ & Hp1 & Hx1). destruct (sd_reset mm c1 Hk Hp1) as (p & r & bs & c2 & E2 & Hp & Hc2 & Hx2).
  exists p. split; [done|]. eapply (reach_bind _ _ _ _ (fun _ => True) mm (fun c => c = c1)); [by exists tt, c1|]. intros _ ? _ ->.
  eapply reach_bind; [by eapply (reach_command _ _ _ _ _ _ _ _ _ _ E2 Hc2)|]. intros _ c3 _ Hc3. by apply reach_delay.
Qed.

Lemma reach_voltage mm c p : b_dev mm = k -> supplied g mm -> at_state (Idle p) c -> reaches mmc_send_if_cond mm c (fun _ => True) (mm <| version := SD_VERSION_2 |>) (at_state (Idle p)).
Proof.
  intros Hk Hv Hc. unfold mmc_send_if_cond. eapply reach_bind; [by eapply reach_get|]. intros ? c1 -> Hc1.
  rewrite (supplied_if_cond g mm Hv). destruct (sd_voltage mm c1 p Hk Hc1) as (r & bs & c2 & E & Hr & Hc2 & Hx).
  eapply reach_bind; [by eapply (reach_command _ _ _ _ _ _ _ _ _ _ E Hc2)|]. intros ? c3 -> Hc3. rewrite Hr, Z.eqb_refl. by eapply reach_modify.
Qed.

Lemma reach_op_loop p : forall fuel timeout mm c, b_dev mm = k -> version mm = SD_VERSION_2 -> supplied g mm -> at_state (Idle p) c -> (p < fuel)%nat -> Z.of_nat p <= timeout ->
  reaches (op_cond_loop fuel timeout) mm c (fun r => resp r 0 = r_ocr g) mm (at_state Ready).
Proof.
  induction p as [|p IH]; intros fuel timeout mm c Hk Hv Hs Hc Hf Ht; (destruct fuel as [|n]; [lia|]); cbn [op_cond_loop];
    destruct (sd_app_idle mm c _ Hk Hc) as (r1 & b1 & c1 & E1 & Hc1 & Hx1);
    (eapply reach_bind; [by eapply (reach_command _ _ _ _ _ _ _ _ _ _ E1 Hc1)|]); intros _ c2 _ Hc2;
    (eapply reach_bind; [by eapply reach_get|]); intros ? c3 -> Hc3;
    rewrite Hv, Z.eqb_refl; destruct (sd_op_cond mm c3 _ _ Hk (supplied_op_cond g mm Hs) Hc3) as (r & bs & c4 & E4 & [Hr Hc4] & Hx4);
    (eapply reach_bind; [by eapply (reach_command _ _ _ _ _ _ _ _ _ _ E4 Hc4)|]); intros ? c5 -> Hc5; rewrite Hr.
  - destruct (Z.eqb_spec (Z.land (r_ocr g) OCR_BUSY) 0) as [E|_]; [by destruct (hc_ready _ Hg)|]. cbn [negb]. by apply reach_ret.
  - change (negb (0 =? 0)) with false. cbn iota. destruct (Z.leb_spec timeout 0); [lia|]. eapply reach_bind; [by apply reach_delay|]. intros _ c6 _ Hc6.
    apply IH; [done|done|done|done|lia|lia].
Qed.

Lemma reach_op_cond mm c p : b_dev mm = k -> version mm = SD_VERSION_2 -> supplied g mm -> at_state (Idle p) c -> (p <= 1000)%nat ->
  reaches sd_send_op_cond mm c (fun _ => True) (mm <| ocr := r_ocr g |> <| high_capacity := 1 |> <| rca := 0 |>) (at_state Ready).
Proof.
  intros Hk Hv Hs Hc Hp. unfold sd_send_op_cond. eapply reach_bind; [apply (reach_op_loop p 1002 1000 mm c Hk Hv Hs Hc); lia|]. intros r c1 Hr Hc1.
  eapply reach_bind; [eapply reach_modify; [exact Hc1|rewrite Hv; reflexivity]|]. intros _ c2 _ Hc2. eapply reach_modify; [done|]. rewrite Hr.
  unfold high_capacity_of. by rewrite (hc_high _ Hg), Z.eqb_refl.
Qed.

(** *** The registers *)

Lemma c_size_range csd : 0 <= c_size csd < 2 ^ 22.
Proof.
  unfold c_size. apply lor_bound; [lia| |].
  - assert (0 <= Z.land (nth 1 csd 0) 0x3f < 2 ^ 6) by (change 0x3f with (Z.ones 6); rewrite Z.land_ones by lia; apply Z.mod_pos_bound; lia).
    rewrite Z.shiftl_mul_pow2 by lia. lia.
  - assert (0 <= Z.shiftr (Z.land (nth 2 csd 0) 0xffff0000) 16 < 2 ^ 16); [|lia].
    pose proof (land_bound_r 32 (nth 2 csd 0) 0xffff0000 ltac:(lia) ltac:(lia)). rewrite Z.shiftr_div_pow2 by lia.
    split; [apply Z.div_pos; lia|apply Z.div_lt_upper_bound; lia].
Qed.

Definition csd_up (speed : Z) (mm : mmc) : mmc :=
  mm <| csd := r_csd g |> <| tran_speed := speed |> <| dsr_imp := 0 |> <| read_bl_len := 512 |> <| write_bl_len := 512 |>
    <| capacity_user := 512 * (1024 * (c_size (r_csd g) + 1)) |> <| capacity_boot := 0 |> <| capacity_rpmb := 0 |> <| capacity_gp := [0; 0; 0; 0] |>.

Lemma set_csd_up rs mm : version mm = SD_VERSION_2 -> high_capacity mm = 1 -> words4 rs = r_csd g ->
  exists speed mm', set_csd rs mm = Some mm' /\ csd_capacity mm' = csd_up speed mm.
Proof.
  intros Hv Hh Hw. pose proof (hc_rate _ Hg) as G1. pose proof (hc_dsr _ Hg) as G2. pose proof (hc_block _ Hg) as G3. unfold csd_up.
  pose proof (c_size_range (r_csd g)) as Hc. set (cs := c_size (r_csd g)) in *. assert (Ecs : cs = c_size (words4 rs)) by (by rewrite Hw).
  rewrite <- Hw in *. cbn [nth words4] in G1, G2, G3. unfold set_csd.
  change (version (mm <| csd := words4 rs |>)) with (version mm). rewrite Hv. change (SD_VERSION_2 =? MMC_VERSION_UNKNOWN) with false. cbn iota.
  destruct (lookup_lt_is_Some_2 fbase (Z.to_nat (Z.land (resp rs 0) 7))) as [f ->]; [change (length fbase) with 4%nat; lia|].
  destruct (lookup_lt_is_Some_2 multipliers (Z.to_nat (Z.land (Z.shiftr (resp rs 0) 3) 0xf))) as [mu ->].
  { change (length multipliers) with 16%nat. change 0xf with (Z.ones 4). rewrite Z.land_ones by lia. pose proof (Z.mod_pos_bound (Z.shiftr (resp rs 0) 3) (2 ^ 4) ltac:(lia)). lia. }
  cbn [mbind option_bind]. rewrite G2, G3. change (Z.shiftl 1 9) with 512. exists (u32 (f * mu)). eexists. split; [reflexivity|].
  assert (Hsd : forall m, version m = SD_VERSION_2 -> IS_SD m = true) by (intros m E; unfold IS_SD; by rewrite E). rewrite Hsd by exact Hv.
  destruct mm. cbn [MmcBlk.version MmcBlk.high_capacity] in Hv, Hh. subst. unfold csd_capacity. fields. change (negb (1 =? 0)) with true. cbn iota. change (MMC_MAX_BLOCK_LEN <? 512) with false. cbn iota.
  change (Z.lor (Z.shiftl (Z.land (nth 1 (words4 rs) 0) 0x3f) 16) (Z.shiftr (Z.land (nth 2 (words4 rs) 0) 0xffff0000) 16)) with (c_size (words4 rs)). rewrite <- Ecs.
  change (8 + 2) with 10. rewrite Z.shiftl_mul_pow2 by lia. change (2 ^ 10) with 1024. rewrite (u64_small ((cs + 1) * 1024)) by (unfold is_u64; lia). rewrite u64_small by (unfold is_u64; lia).
  by replace ((cs + 1) * 1024 * 512) with (512 * (1024 * (cs + 1))) by lia.
Qed.

Lemma reach_status mm c : b_dev mm = k -> rca mm = r_rca g -> at_state Standby c -> reaches (call (fun mm => mmc_send_status mm 1000)) mm c (fun x => x = 0) mm (at_state Standby).
Proof.
  intros Hk Hr Hc. destruct (sd_status mm c Hk Hr Hc) as (r & bs & c' & E & (R1 & R2 & R3) & Hc' & Hx). exists 0, c'. split; [|done].
  unfold call. cbn [fst snd]. unfold mmc_send_status. change (S (S (Z.to_nat 1000))) with (S 1001). generalize 1001%nat as n. intros n. cbn [status_loop]. unfold mmc_send_cmd. rewrite Hr, E.
  change (0 =? 0) with true. cbn iota. destruct (Z.eqb_spec (Z.land (resp r 0) MMC_STATUS_RDY_FOR_DATA) 0); [done|].
  destruct (Z.eqb_spec (Z.land (resp r 0) MMC_STATUS_CURR_STATE) MMC_STATE_PRG); [done|]. cbn [negb andb mbind option_bind].
  change (1000 <=? 0) with false. cbn iota. by rewrite R3.
Qed.

Lemma reach_identify mm c : b_dev mm = k -> version mm = SD_VERSION_2 -> high_capacity mm = 1 -> at_state Ready c ->
  exists speed, reaches startup_identify mm c (fun _ => True) (csd_up speed (mm <| cid := r_cid g |> <| rca := r_rca g |>)) (at_state Standby).
Proof.
  intros Hk Hv Hh Hc. set (mm1 := mm <| cid := r_cid g |>). set (mm2 := mm1 <| rca := r_rca g |>).
  destruct (sd_cid mm c Hk Hc) as (r1 & b1 & c1 & E1 & Hw1 & Hc1 & Hx1). destruct (sd_addr mm1 c1 (u32 (Z.shiftl (rca mm) 16)) Hk Hc1) as (r2 & b2 & c2 & E2 & Hr2 & Hc2 & Hx2).
  destruct (sd_csd mm2 c2 Hk eq_refl Hc2) as (r3 & b3 & c3 & E3 & Hw3 & Hc3 & Hx3). destruct (set_csd_up r3 mm2 Hv Hh Hw3) as (speed & mm3 & Es & Ec).
  exists speed. unfold startup_identify. eapply (reach_bind _ _ _ _ (fun x => x = r3) mm2 (at_state Standby)); [unfold startup_csd|].
  - eapply (reach_bind _ _ _ _ (fun x => x = (r1, b1)) mm (fun c => c = c1)); [by eapply reach_command|]. intros ? ? -> ->.
    eapply (reach_bind _ _ _ _ (fun _ => True) mm1 (fun c => c = c1)); [by apply reach_modify; [|rewrite Hw1]|]. intros _ ? _ ->.
    eapply (reach_bind _ _ _ _ (fun x => x = mm1) mm1 (fun c => c = c1)); [by apply reach_get|]. intros ? ? -> ->. change (rca mm1) with (rca mm).
    eapply (reach_bind _ _ _ _ (fun x => x = (r2, b2)) mm1 (fun c => c = c2)); [by eapply reach_command|]. intros ? ? -> ->.
    eapply (reach_bind _ _ _ _ (fun _ => True) mm2 (fun c => c = c2)).
    { apply reach_modify; [done|]. assert (IS_SD mm1 = true) as -> by (unfold IS_SD; change (version mm1) with (version mm); by rewrite Hv). by rewrite Hr2. }
    intros _ ? _ ->. eapply (reach_bind _ _ _ _ (fun x => x = mm2) mm2 (fun c => c = c2)); [by apply reach_get|]. intros ? ? -> ->. change (rca mm2) with (r_rca g).
    eapply reach_bind; [by eapply (reach_send _ _ _ _ _ _ _ _ _ _ E3 Hc3)|]. intros ? c4 -> Hc4. eapply reach_bind; [by apply reach_status|]. intros ? c5 -> Hc5.
    eapply reach_bind; [by eapply reach_check|]. intros _ c6 _ Hc6. by apply reach_ret.
  - intros ? c6 -> Hc6. eapply reach_bind; [by eapply reach_get|]. intros ? c7 -> Hc7.
    eapply reach_bind; [rewrite Es; by apply (reach_ret mm3 mm2 c7 (fun x => x = mm3) _ eq_refl Hc7)|]. intros ? c8 -> Hc8. by apply reach_modify.
Qed.

Lemma reach_select mm c : b_dev mm = k -> rca mm = r_rca g -> dsr_imp mm = 0 -> at_state Standby c ->
  reaches startup_select mm c (fun _ => True) (mm <| erase_grp_size := 1 |> <| part_config := MMCPART_NOAVAILABLE |>) (at_state Transfer).
Proof.
  intros Hk Hr Hd Hc. unfold startup_select. eapply reach_bind; [by eapply reach_get|]. intros ? c1 -> Hc1. rewrite Hd. change (negb (0 =? 0)) with false. cbn [andb].
  eapply reach_bind; [by apply (reach_ret tt mm c1 (fun _ => True) _ I Hc1)|]. intros _ c2 _ Hc2. destruct (sd_select mm c2 Hk Hr Hc2) as (r & bs & c3 & E & Hc3 & Hx). rewrite Hr.
  eapply reach_bind; [by eapply (reach_command _ _ _ _ _ _ _ _ _ _ E Hc3)|]. intros ? c4 -> Hc4. by apply reach_modify.
Qed.

Lemma reach_ext mm c : version mm = SD_VERSION_2 -> at_state Transfer c -> reaches startup_ext_csd mm c (fun _ => True) mm (at_state Transfer).
Proof.
  intros Hv Hc. unfold startup_ext_csd. eapply reach_bind; [by eapply reach_get|]. intros ? c1 -> Hc1. unfold IS_SD. rewrite Hv. change (negb (Z.land SD_VERSION_2 SD_VERSION_SD =? 0)) with true.
  cbn [orb]. by apply reach_ret.
Qed.

Lemma reach_capacity mm c n : part_num mm = 0 -> read_bl_len mm = 512 -> capacity_user mm = 512 * n -> 0 <= n <= 2 ^ 32 -> at_state Transfer c ->
  reaches startup_capacity mm c (fun _ => True) (mm <| capacity := 512 * n |> <| b_lba := n |>) (at_state Transfer).
Proof.
  intros Hp Hb Hu Hn Hc. unfold startup_capacity. eapply reach_bind; [by eapply reach_get|]. intros ? c1 -> Hc1.
  assert (mmc_set_capacity mm (part_num mm) = Some (0, mm <| capacity := 512 * n |> <| b_lba := n |>)) as ->.
  { unfold mmc_set_capacity. rewrite Hp, Hb, Hu. change (0 =? 0) with true. cbn iota. cbn [mbind option_bind]. unfold lldiv. change (u32 512) with 512. change (512 =? 0) with false. cbn iota.
    rewrite u64_small by (unfold is_u64; lia). cbn [mbind option_bind]. by rewrite Z.mul_comm, Z.div_mul. }
  generalize (mm <| capacity := 512 * n |> <| b_lba := n |>) as mm'. intros mm'.
  eapply reach_bind; [by apply (reach_ret (0, mm') mm c1 (fun x => x = (0, mm')) _ eq_refl Hc1)|]. intros ? c2 -> Hc2.
  eapply reach_bind; [by eapply reach_modify|]. intros _ c3 _ Hc3. by apply reach_check.
Qed.

(** *** The switch function, and the bus *)

Lemma reach_function mm c (b : bool) : b_dev mm = k -> at_state Transfer c ->
  reaches (sd_switch (if b then SD_SWITCH_SWITCH else SD_SWITCH_CHECK) 0 1) mm c (fun x => x = if b then r_switch g else r_check g) mm (at_state Transfer).
Proof.
  intros Hk Hc. destruct (sd_function mm c b Hk Hc) as (r & c1 & E & Hc1 & Hx). unfold sd_switch.
  set (arg := Z.lor _ (Z.shiftl 1 (0 * 4))). assert (arg = if b then 0x80fffff1 else 0x00fffff1) as -> by (unfold arg; by destruct b).
  eapply reach_bind; [by eapply (reach_command _ _ _ _ _ _ _ _ _ _ E Hc1)|]. intros ? c2 -> Hc2. by apply reach_ret.
Qed.

Definition freq_up (mm : mmc) : mmc :=
  mm <| version := scr_version (be_word (r_scr g) 0) |> <| card_caps := card_caps_of (cfg mm) g |> <| scr := [be_word (r_scr g) 0; be_word (r_scr g) 1] |>.

Lemma reach_freq mm c : b_dev mm = k -> rca mm = r_rca g -> at_state Transfer c -> reaches sd_change_freq mm c (fun _ => True) (freq_up mm) (at_state Transfer).
Proof.
  intros Hk Hr Hc. set (caps0 := if negb (Z.land (be_word (r_scr g) 0) SD_DATA_4BIT =? 0) then Z.lor 0 MMC_MODE_4BIT else 0).
  set (mm0 := mm <| card_caps := 0 |>). set (mm1 := mm0 <| scr := [be_word (r_scr g) 0; be_word (r_scr g) 1] |> <| version := scr_version (be_word (r_scr g) 0) |>).
  set (mm2 := mm1 <| card_caps := caps0 |>). assert (Hfin : mm2 <| card_caps := card_caps_of (cfg mm) g |> = freq_up mm) by (destruct mm; unfold freq_up, mm2, mm1, mm0; fields; reflexivity).
  unfold sd_change_freq. eapply (reach_bind _ _ _ _ (fun _ => True) mm0); [by apply (reach_modify _ _ _ _ _ Hc)|]. intros _ c1 _ Hc1.
  eapply reach_bind; [by eapply reach_get|]. intros ? c2 -> Hc2. change (rca mm0) with (rca mm). rewrite Hr.
  destruct (sd_app mm0 c2 Hk Hr Hc2) as (r & bs & c3 & E & Hc3 & Hx). eapply reach_bind; [by eapply (reach_command _ _ _ _ _ _ _ _ _ _ E Hc3)|]. intros ? c4 -> Hc4.
  destruct (sd_scr mm0 c4 Hk Hc4) as (r5 & c5 & E5 & Hc5 & Hx5).
  eapply (reach_bind _ _ _ _ (fun x => x = r_scr g) mm0 (at_state Transfer)).
  { cbn [scr_loop]. eapply reach_bind; [by eapply (reach_send _ _ _ _ _ _ _ _ _ _ E5 Hc5)|]. intros ? c6 -> Hc6. by apply reach_ret. }
  intros ? c6 -> Hc6. eapply (reach_bind _ _ _ _ (fun _ => True) mm1); [by apply (reach_modify _ _ _ _ _ Hc6)|]. intros _ c7 _ Hc7.
  eapply (reach_bind _ _ _ _ (fun _ => True) mm2).
  { apply (reach_modify _ _ _ _ _ Hc7). unfold mm2, caps0, mm1, mm0, add_caps. destruct mm. by destruct (negb _); fields. }
  intros _ c8 _ Hc8. destruct (Z.eqb_spec (scr_version (be_word (r_scr g) 0)) SD_VERSION_1_0) as [E8|_]; [by destruct (hc_version _ Hg)|].
  eapply (reach_bind _ _ _ _ (fun x => x = r_check g) mm2 (at_state Transfer)).
  { cbn [busy_loop]. eapply reach_bind; [by apply (reach_function mm2 c8 false)|]. intros ? c9 -> Hc9. rewrite (hc_idle _ Hg). change (0 =? 0) with true. cbn iota. by apply reach_ret. }
  intros ? c9 -> Hc9. change (cfg mm0) with (cfg mm). unfold card_caps_of in Hfin. fold caps0 in Hfin.
  destruct (Z.land (be_word (r_check g) 3) SD_HIGHSPEED_SUPPORTED =? 0).
  { cbn [orb] in Hfin. rewrite <- Hfin. by apply reach_ret. }
  destruct ((Z.land (host_caps (cfg mm)) MMC_MODE_HS_52MHz =? 0) || (Z.land (host_caps (cfg mm)) MMC_MODE_HS =? 0)) eqn:Eh.
  { cbn [orb] in Hfin. rewrite Eh in Hfin. rewrite <- Hfin. by apply reach_ret. }
  cbn [orb] in Hfin. rewrite Eh in Hfin.
  eapply reach_bind; [by apply (reach_function mm2 c9 true)|]. intros ? c10 -> Hc10. apply reach_modify; [done|]. rewrite <- Hfin.
  by destruct (Z.land (be_word (r_switch g) 4) 0x0f000000 =? 0x01000000).
Qed.

Lemma reach_bus mm c : b_dev mm = k -> rca mm = r_rca g -> bus_width mm = 1 -> at_state Transfer c ->
  reaches sd_bus mm c (fun _ => True) (mm <| bus_width := if negb (Z.land (card_caps mm) MMC_MODE_4BIT =? 0) then 4 else 1 |>
    <| tran_speed := if negb (Z.land (card_caps mm) MMC_MODE_HS =? 0) then 50000000 else 25000000 |>) (at_state Transfer).
Proof.
  intros Hk Hr Hb Hc. unfold sd_bus. eapply reach_bind; [by eapply reach_get|]. intros ? c1 -> Hc1.
  eapply (reach_bind _ _ _ _ (fun _ => True) (mm <| bus_width := if negb (Z.land (card_caps mm) MMC_MODE_4BIT =? 0) then 4 else 1 |>) (at_state Transfer)).
  - destruct (negb (Z.land (card_caps mm) MMC_MODE_4BIT =? 0)).
    + rewrite Hr. destruct (sd_app mm c1 Hk Hr Hc1) as (r & bs & c2 & E & Hc2 & Hx). eapply reach_bind; [by eapply (reach_command _ _ _ _ _ _ _ _ _ _ E Hc2)|]. intros ? c3 -> Hc3.
      destruct (sd_width mm c3 Hk Hc3) as (r4 & bs4 & c4 & E4 & Hc4 & Hx4). eapply reach_bind; [by eapply (reach_command _ _ _ _ _ _ _ _ _ _ E4 Hc4)|]. intros ? c5 -> Hc5.
      apply reach_width; [done|done|right; by eexists].
    + assert (mm <| bus_width := 1 |> = mm) as -> by (destruct mm; cbn [MmcBlk.bus_width] in Hb; subst; by fields). by apply reach_ret.
  - intros _ c2 _ Hc2. by apply reach_modify.
Qed.

Lemma reach_device mm c n : b_dev mm = k -> ddr_mode mm = 0 -> read_bl_len mm = 512 -> capacity mm = 512 * n -> 0 <= n <= 2 ^ 32 -> at_state Transfer c ->
  reaches (startup_device init_part) mm c (fun _ => True) (mm <| clock := clamp_clock (cfg mm) (tran_speed mm) |> <| b_type := 0 |> <| b_blksz := 512 |> <| b_log2blksz := 9 |>
    <| b_lba := n |> <| b_part_type := r_type g |>) (at_state Transfer).
Proof.
  intros Hk Hd Hb Hcap Hn Hc. unfold startup_device. eapply reach_bind; [by eapply reach_get|]. intros ? c1 -> Hc1.
  eapply reach_bind; [apply reach_clock; [done|exact Hc1|right; by eexists]|]. intros _ c2 _ Hc2. set (mm1 := mm <| clock := clamp_clock (cfg mm) (tran_speed mm) |>).
  eapply (reach_bind _ _ _ _ (fun _ => True) mm1); [apply (reach_modify _ _ _ _ _ Hc2); change (ddr_mode mm1) with (ddr_mode mm); by rewrite Hd|]. intros _ c3 _ Hc3.
  eapply reach_bind; [by eapply reach_get|]. intros ? c4 -> Hc4.
  assert (lldiv (capacity mm1) (read_bl_len mm1) = Some n) as ->.
  { change (capacity mm1) with (capacity mm). change (read_bl_len mm1) with (read_bl_len mm). rewrite Hb, Hcap. unfold lldiv. change (u32 512) with 512. change (512 =? 0) with false. cbn iota.
    rewrite u64_small by (unfold is_u64; lia). by rewrite Z.mul_comm, Z.div_mul. }
  eapply reach_bind; [by apply (reach_ret n mm1 c4 (fun x => x = n) _ eq_refl Hc4)|]. intros ? c5 -> Hc5.
  set (mm2 := mm1 <| b_type := 0 |> <| b_blksz := 512 |> <| b_log2blksz := 9 |> <| b_lba := n |>).
  eapply (reach_bind _ _ _ _ (fun _ => True) mm2).
  { apply (reach_modify _ _ _ _ _ Hc5). change (read_bl_len mm1) with (read_bl_len mm). unfold mm2, mm1. destruct mm; cbn [MmcBlk.read_bl_len] in Hb; subst. by fields. }
  intros _ c6 _ Hc6. destruct (sd_part mm2 c6 Hk Hc6) as (c7 & E7 & Hc7 & Hx7).
  eapply (reach_bind _ _ _ _ (fun x => x = r_type g) mm2 (at_state Transfer)).
  { exists (r_type g), c7. split; [|done]. unfold on_card. cbn [fst snd]. by rewrite E7. }
  intros ? c8 -> Hc8. by apply reach_modify.
Qed.

(** *** The whole *)

Definition started (mm : mmc) : mmc :=
  mm <| ddr_mode := 0 |> <| bus_width := 1 |> <| clock := clamp_clock (cfg mm) 1 |> <| part_num := 0 |> <| version := SD_VERSION_2 |>
    <| ocr := r_ocr g |> <| high_capacity := 1 |> <| rca := 0 |> <| init_in_progress := 1 |>.

Lemma reach_start mm c : b_dev mm = k -> has_init mm = 0 -> supplied g mm -> powered c -> reaches mmc_start_init mm c (fun _ => True) (started mm) (at_state Ready).
Proof.
  intros Hk Hi Hs Hc. unfold mmc_start_init. eapply (reach_bind _ _ _ _ (fun x => x = mmc_getcd mm c) mm powered); [by exists (mmc_getcd mm c), c|]. intros ? c1 -> Hc1.
  destruct sd_init as (f & Ef & Hf). rewrite Ef. pose proof (sd_present mm c Hk Hc) as Hcd. destruct (Z.eqb_spec (mmc_getcd mm c) 0); [done|].
  eapply reach_bind; [by eapply reach_get|]. intros ? c2 -> Hc2. rewrite Hi. change (negb (0 =? 0)) with false. cbn iota.
  destruct (Hf mm c2 Hk Hc2) as (c3 & E3 & Hc3 & Hx3). eapply (reach_bind _ _ _ _ (fun x => x = 0) mm powered).
  { exists 0, c3. split; [|done]. unfold on_card. cbn [fst snd]. by rewrite E3. }
  intros ? c4 -> Hc4. eapply reach_bind; [by eapply reach_check|]. intros _ c5 _ Hc5. eapply reach_bind; [by eapply reach_modify|]. intros _ c6 _ Hc6.
  eapply reach_bind; [apply reach_width; [done|exact Hc6|by left]|]. intros _ c7 _ Hc7. eapply reach_bind; [apply reach_clock; [done|exact Hc7|by left]|]. intros _ c8 _ Hc8.
  set (mm1 := mm <| ddr_mode := 0 |> <| bus_width := 1 |> <| clock := _ |>). assert (Hk1 : b_dev mm1 = k) by exact Hk.
  destruct (reach_idle mm1 c8 Hk1 Hc8) as (p & Hp & Hr). eapply reach_bind; [exact Hr|]. intros _ c9 _ Hc9.
  set (mm2 := mm1 <| part_num := 0 |>). eapply (reach_bind _ _ _ _ (fun _ => True) mm2); [by apply (reach_modify _ _ _ _ _ Hc9)|]. intros _ c10 _ Hc10.
  set (mm3 := mm2 <| version := SD_VERSION_2 |>). eapply (reach_bind _ _ _ _ (fun _ => True) mm3 (at_state (Idle p))).
  { destruct (reach_voltage mm2 c10 p Hk1 Hs Hc10) as (x & c' & E & HQ). exists 0, c'. split; [|done]. unfold attempt. by rewrite E. }
  intros _ c11 _ Hc11. set (mm4 := mm3 <| ocr := r_ocr g |> <| high_capacity := 1 |> <| rca := 0 |>).
  eapply (reach_bind _ _ _ _ (fun x => x = 0) mm4 (at_state Ready)).
  { destruct (reach_op_cond mm3 c11 p Hk1 eq_refl Hs Hc11 Hp) as (x & c' & E & _ & HQ). exists 0, c'. split; [|done]. unfold attempt. by rewrite E. }
  intros ? c12 -> Hc12. change (0 =? TIMEOUT) with false. cbn iota. eapply reach_bind; [by eapply reach_check|]. intros _ c13 _ Hc13.
  apply (reach_modify _ _ _ _ _ Hc13). by destruct mm.
Qed.

Lemma reach_startup mm c : b_dev mm = k -> version mm = SD_VERSION_2 -> high_capacity mm = 1 -> part_num mm = 0 -> bus_width mm = 1 -> ddr_mode mm = 0 -> ocr mm = r_ocr g ->
  op_cond_pending mm = 0 -> init_in_progress mm = 0 -> at_state Ready c ->
  exists mm', reaches (mmc_startup init_part) mm c (fun _ => True) mm' (at_state Transfer) /\ mm' <| has_init := 1 |> = sd_up g mm.
Proof.
  intros Hk Hv Hh Hp Hbw Hddr Hocr Hop Hin Hc. destruct (reach_identify mm c Hk Hv Hh Hc) as (speed & H1). set (mm1 := csd_up speed _) in H1.
  pose proof (c_size_range (r_csd g)) as Hcs. set (n := 1024 * (c_size (r_csd g) + 1)). assert (Hn : 0 <= n <= 2 ^ 32) by (unfold n; lia).
  set (mm2 := mm1 <| erase_grp_size := 1 |> <| part_config := MMCPART_NOAVAILABLE |>). set (mm3 := mm2 <| capacity := 512 * n |> <| b_lba := n |>).
  set (mm4 := freq_up mm3). set (mm5 := mm4 <| card_caps := sd_caps (cfg mm) g |>).
  set (mm6 := mm5 <| bus_width := if negb (Z.land (sd_caps (cfg mm) g) MMC_MODE_4BIT =? 0) then 4 else 1 |>
    <| tran_speed := if negb (Z.land (sd_caps (cfg mm) g) MMC_MODE_HS =? 0) then 50000000 else 25000000 |>).
  eexists. split.
  - unfold mmc_startup. eapply reach_bind; [exact H1|]. intros _ c1 _ Hc1.
    eapply (reach_bind _ _ _ _ (fun _ => True) mm2); [by apply (reach_select mm1 c1)|]. intros _ c2 _ Hc2.
    eapply (reach_bind _ _ _ _ (fun _ => True) mm2); [by apply (reach_ext mm2 c2)|]. intros ext c3 _ Hc3.
    eapply (reach_bind _ _ _ _ (fun _ => True) mm3); [by apply (reach_capacity mm2 c3 n)|]. intros _ c4 _ Hc4.
    eapply reach_bind; [by eapply reach_get|]. intros ? c5 -> Hc5.
    assert (IS_SD mm3 = true) as -> by (unfold IS_SD; change (version mm3) with (version mm); by rewrite Hv).
    eapply (reach_bind _ _ _ _ (fun _ => True) mm4); [by apply (reach_freq mm3 c5)|]. intros _ c6 _ Hc6.
    eapply (reach_bind _ _ _ _ (fun _ => True) mm5); [by apply (reach_modify _ _ _ _ _ Hc6)|]. intros _ c7 _ Hc7.
    eapply reach_bind; [by eapply reach_get|]. intros ? c8 -> Hc8.
    assert (IS_SD mm5 = true) as ->.
    { unfold IS_SD. change (version mm5) with (scr_version (be_word (r_scr g) 0)). unfold scr_version. repeat case_match; reflexivity. }
    eapply (reach_bind _ _ _ _ (fun _ => True) mm6); [by apply (reach_bus mm5 c8)|]. intros _ c9 _ Hc9.
    apply (reach_device mm6 c9 n); try done.
  - unfold mm6, mm5, mm4, mm3, mm2, mm1, sd_up, csd_up, freq_up, n. destruct mm.
    cbn [MmcBlk.version MmcBlk.high_capacity MmcBlk.part_num MmcBlk.bus_width MmcBlk.ddr_mode MmcBlk.ocr MmcBlk.op_cond_pending MmcBlk.init_in_progress MmcBlk.b_dev] in *.
    subst. fields. reflexivity.
Qed.

Lemma sd_init_ok fuel mm c : b_dev mm = k -> has_init mm = 0 -> init_in_progress mm = 0 -> op_cond_pending mm = 0 -> supplied g mm -> powered c ->
  exists c', run (mmc_init fuel init_part) mm c = Some (0, sd_up g mm, c') /\ at_state Transfer c' /\ forall x, content c' x = content c x.
Proof.
  intros Hk Hi Hp Ho Hs Hc. enough (Hr : reaches (mmc_init fuel init_part) mm c (fun _ => True) (sd_up g mm) (at_state Transfer)).
  { destruct Hr as (x & c' & E & _ & HP & Hx). exists c'. unfold run. by rewrite E. }
  unfold mmc_init. eapply reach_bind; [by eapply reach_get|]. intros ? c1 -> Hc1. rewrite Hi, Hp. change (negb (0 =? 0)) with false. change (0 =? 0) with true. cbn iota.
  eapply (reach_bind _ _ _ _ (fun x => x = 0) (started mm) (at_state Ready)).
  { destruct (reach_start mm c1 Hk Hi Hs Hc1) as (x & c' & E & _ & HQ). exists 0, c'. split; [|done]. unfold attempt. by rewrite E. }
  intros ? c2 -> Hc2. change (0 =? 0) with true. cbn iota. unfold mmc_complete_init. set (mm2 := (started mm) <| init_in_progress := 0 |>).
  assert (Hg2 : sd_up g mm2 = sd_up g mm) by (unfold mm2, started, sd_up; destruct mm; by fields).
  eapply (reach_bind _ _ _ _ (fun _ => True) mm2); [by apply (reach_modify _ _ _ _ _ Hc2)|]. intros _ c3 _ Hc3.
  eapply reach_bind; [by eapply reach_get|]. intros ? c4 -> Hc4. change (op_cond_pending mm2) with (op_cond_pending mm). rewrite Ho. change (negb (0 =? 0)) with false. cbn iota.
  eapply (reach_bind _ _ _ _ (fun x => x = 0) mm2 (at_state Ready)); [by apply reach_ret|]. intros ? c5 -> Hc5. change (0 =? 0) with true. cbn iota.
  destruct (reach_startup mm2 c5) as (mm3 & Hr & E3); [exact Hk|reflexivity|reflexivity|reflexivity|reflexivity|reflexivity|reflexivity|exact Ho|reflexivity|exact Hc5|].
  eapply (reach_bind _ _ _ _ (fun x => x = 0) mm3 (at_state Transfer)).
  { destruct Hr as (x & c' & E & _ & HQ). exists 0, c'. split; [|done]. unfold attempt. by rewrite E. }
  intros ? c6 -> Hc6. eapply (reach_bind _ _ _ _ (fun _ => True) (sd_up g mm)).
  { apply (reach_modify _ _ _ _ _ Hc6). change (negb (0 =? 0)) with false. cbn iota. by rewrite E3. }
  intros _ c7 _ Hc7. by eapply reach_check.
Qed.
End Up.

(** ** Claims *)

(** C22: an SD card of high capacity is brought up from any device that is not in use and
    whose host has a voltage that the card has: the card is told so, and that it may be
    one of high capacity, without which it would not get ready; the result is 0, the card waits for transfers with what it had, and the device is the one
    that the registers describe, which bringing it up again does not change. *)
Theorem sd_brings_up `{HC : CardHost} k powered at_state content init_part g {HS : SdCard k powered at_state content init_part g} fuel mm c :
  sdhc g -> b_dev mm = k -> has_init mm = 0 -> init_in_progress mm = 0 -> op_cond_pending mm = 0 -> supplied g mm -> powered c ->
  exists c', run (mmc_init fuel init_part) mm c = Some (0, sd_up g mm, c') /\ at_state Transfer c' /\ (forall x, content c' x = content c x) /\
    b_lba (sd_up g mm) = 1024 * (c_size (r_csd g) + 1) /\ sd_up g ((sd_up g mm) <| has_init := 0 |>) = sd_up g mm.
Proof.
  intros Hg Hk Hi Hp Ho Hs Hc. destruct (sd_init_ok k powered at_state content init_part g Hg fuel mm c Hk Hi Hp Ho Hs Hc) as (c' & Hr & Ht & Hx).
  exists c'. split; [exact Hr|]. split; [exact Ht|]. split; [exact Hx|]. split; [reflexivity|apply sd_up_again].
Qed.

(** ** A card in a slot *)

(** The card of [MmcBlk] that is identified first; it is busy twice when it powers up. *)
Definition sd_slot : Type := ident * ram_card.

Definition reg_bytes (ws : list Z) : list Z := concat ((fun w => [Z.land (Z.shiftr w 24) 255; Z.land (Z.shiftr w 16) 255; Z.land (Z.shiftr w 8) 255; Z.land w 255]) <$> ws).

(** 512 megabytes; version 2, four bits; high speed. *)
Definition slot_regs : sd_regs :=
  mkRegs 0xc0ff8000 [0x02544d53; 0x41303847; 0x140fa5b3; 0x7e00d7e1] [0x400e0032; 0x5b590000; 0x03ff7f80; 0x0a400089] 0xaaaa
    (reg_bytes [0x02358443; 0]) (reg_bytes [0; 0; 0; 0x00020000; 0; 0; 0; 0; 0; 0; 0; 0; 0; 0; 0; 0])
    (reg_bytes [0; 0; 0; 0x00020000; 0x01000000; 0; 0; 0; 0; 0; 0; 0; 0; 0; 0; 0]) 2.

(** The commands that are not for blocks. *)
Definition slot_special (cmdidx : Z) : bool :=
  bool_decide (cmdidx ∈ [MMC_CMD_GO_IDLE_STATE; SD_CMD_SEND_IF_COND; MMC_CMD_APP_CMD; SD_CMD_APP_SEND_OP_COND; MMC_CMD_ALL_SEND_CID; SD_CMD_SEND_RELATIVE_ADDR;
    MMC_CMD_SEND_CSD; MMC_CMD_SELECT_CARD; SD_CMD_APP_SEND_SCR; SD_CMD_SWITCH_FUNC]).

Definition slot_send (mm : mmc) (cmdidx cmdarg resp_type : Z) (data : mmc_data) (s : sd_slot) : Z * list Z * list Z * sd_slot :=
  let '(i, c) := s in
  if negb (slot_special cmdidx) then
    match i with
    | Standby => (0, [0x700], [], s)
    | _ => let '(e, r, bs, c) := ram_send mm cmdidx cmdarg resp_type data c in (e, r, bs, (i, c))
    end
  else if cmdidx =? MMC_CMD_GO_IDLE_STATE then (0, [], [], (Idle 2, mkRam (Busy 0) (ram_blocks c)))
  else if cmdidx =? SD_CMD_SEND_IF_COND then if cmdarg =? if_cond_arg then (0, [if_cond_arg], [], s) else (TIMEOUT, [], [], s)
  else if cmdidx =? MMC_CMD_APP_CMD then (0, [0x120], [], (match i with Idle p => IdleApp p | _ => TransferApp end, c))
  else if cmdidx =? SD_CMD_APP_SEND_OP_COND then
    match i with
    | IdleApp p =>
        if bool_decide (op_cond_arg slot_regs cmdarg) then
          match p with S p => (0, [0x00ff8000], [], (Idle p, c)) | O => (0, [r_ocr slot_regs], [], (Ready, c)) end
        else (0, [0x00ff8000], [], (Idle p, c))
    | _ => (TIMEOUT, [], [], s)
    end
  else if cmdidx =? MMC_CMD_ALL_SEND_CID then (0, r_cid slot_regs, [], (Identified, c))
  else if cmdidx =? SD_CMD_SEND_RELATIVE_ADDR then (0, [Z.shiftl (r_rca slot_regs) 16], [], (Standby, c))
  else if cmdidx =? MMC_CMD_SEND_CSD then (0, r_csd slot_regs, [], s)
  else if cmdidx =? MMC_CMD_SELECT_CARD then (0, [0x700], [], (Transfer, c))
  else if cmdidx =? SD_CMD_APP_SEND_SCR then (0, [0x920], r_scr slot_regs, (Transfer, c))
  else match data with
    | ReadData _ _ => (0, [0x900], if cmdarg <? 2 ^ 31 then r_check slot_regs else r_switch slot_regs, (Transfer, c))
    | _ => (0, [0x920], [], (Transfer, c))
    end.

#[global] Instance slot_host : CardHost := {|
  card := sd_slot; send_cmd := slot_send; ops_set_ios := Some (fun _ s => s); ops_init := Some (fun _ s => (0, s)); ops_getcd := Some (fun _ _ => 1); ops_getwp := None;
  get_timer base s := (u64 (- base), s); udelay _ s := s;
|}.

Definition slot_powered (s : sd_slot) : Prop := forall a, length (ram_blocks s.2 a) = 512%nat.
Definition slot_at (i : ident) (s : sd_slot) : Prop := s.1 = i /\ ram_in_phase (Busy 0) s.2.

Definition slot_blocks (s : sd_slot) : Z -> list Z := ram_blocks s.2.
Definition slot_part (mm : mmc) (s : sd_slot) : Z * sd_slot := (2, s).

Lemma slot_sdhc : sdhc slot_regs.
Proof.
  constructor; [by vm_compute|by vm_compute|by vm_compute|by vm_compute|by vm_compute|reflexivity|reflexivity| |by vm_compute].
  assert (scr_version (be_word (r_scr slot_regs) 0) = SD_VERSION_3) as -> by (vm_compute; reflexivity). by vm_compute.
Qed.

#[global] Instance slot_card k : @SdCard slot_host k slot_powered slot_at slot_blocks slot_part slot_regs.
Proof.
  constructor; cbn [send_cmd slot_host ops_init ops_set_ios udelay].
  - eexists. split; [reflexivity|]. intros mm c _ Hc. by exists c.
  - intros mm c _ _. discriminate.
  - intros f mm c _ [= <-]. done.
  - done.
  - intros mm [i c] _ Hc. exists 2%nat, [], [], (Idle 2, mkRam (Busy 0) (ram_blocks c)). split; [reflexivity|]. split; [lia|done].
  - intros mm [i c] p _ [Hi Hc]. cbn [fst] in Hi. subst. by exists [if_cond_arg], [], (Idle p, c).
  - intros mm [i c] p _ [Hi Hc]. cbn [fst] in Hi. subst. by exists [0x120], [], (IdleApp p, c).
  - intros mm [i c] p arg _ Ha [Hi Hc]. cbn [fst] in Hi. subst.
    change (slot_send mm SD_CMD_APP_SEND_OP_COND arg MMC_RSP_R3 NoData (IdleApp p, c)) with
      (if bool_decide (op_cond_arg slot_regs arg) then match p with S p => (0, [0x00ff8000], [] : list Z, (Idle p, c)) | O => (0, [r_ocr slot_regs], [], (Ready, c)) end
       else (0, [0x00ff8000], [], (Idle p, c))).
    rewrite bool_decide_eq_true_2 by exact Ha. destruct p as [|p]; [by exists [r_ocr slot_regs], [], (Ready, c)|by exists [0x00ff8000], [], (Idle p, c)].
  - intros mm [i c] _ [Hi Hc]. cbn [fst] in Hi. subst. by exists (r_cid slot_regs), [], (Identified, c).
  - intros mm [i c] arg _ [Hi Hc]. cbn [fst] in Hi. subst. by exists [Z.shiftl (r_rca slot_regs) 16], [], (Standby, c).
  - intros mm [i c] _ _ [Hi Hc]. cbn [fst] in Hi. subst. by exists (r_csd slot_regs), [], (Standby, c).
  - intros mm [i c] _ _ [Hi Hc]. cbn [fst] in Hi. subst. exists [0x700], [], (Standby, c). split; [reflexivity|]. split; [|done]. split_and!; by vm_compute.
  - intros mm [i c] _ _ [Hi Hc]. cbn [fst] in Hi. subst. by exists [0x700], [], (Transfer, c).
  - intros mm [i c] _ _ [Hi Hc]. cbn [fst] in Hi. subst. by exists [0x120], [], (TransferApp, c).
  - intros mm [i c] _ [Hi Hc]. cbn [fst] in Hi. subst. by exists [0x920], (Transfer, c).
  - intros mm [i c] b _ [Hi Hc]. cbn [fst] in Hi. subst. exists [0x900], (Transfer, c). split; [by destruct b|done].
  - intros mm [i c] _ [Hi Hc]. cbn [fst] in Hi. subst. by exists [0x920], [], (Transfer, c).
  - intros mm [i c] _ Hc. by exists (i, c).
Qed.

(** A device with that card in it, which has not been used. *)
Definition slot_mmc (k : Z) : mmc := (ram_mmc_device k 0 0) <| has_init := 0 |>.

Lemma slot_supplied k : supplied slot_regs (slot_mmc k).
Proof. unfold supplied. change (Z.land (Z.land (voltages ram_config) 0xff8000) (r_ocr slot_regs) <> 0). vm_compute. discriminate. Qed.

Definition slot_start : sd_slot := (Idle 0, ram_start).

(** From a host that has no voltage for it the card does not get ready. *)
Example no_voltage : fst ∘ fst <$> run (H := slot_host) (mmc_init 0 slot_part) ((slot_mmc 2) <| cfg := mkConfig 7 0 400000 50000000 4 0 |>) slot_start = Some UNUSABLE_ERR.
Proof. vm_compute. reflexivity. Qed.

Lemma slot_start_powered : slot_powered slot_start.
Proof. intros a. apply length_replicate. Qed.

Lemma sd_brings_up_witness : exists mm' c', run (H := slot_host) (mmc_init 0 slot_part) (slot_mmc 2) slot_start = Some (0, mm', c') /\ b_lba mm' = 2 ^ 20 /\ version mm' = SD_VERSION_3 /\
  bus_width mm' = 4 /\ tran_speed mm' = 50000000 /\ slot_blocks c' 7 = replicate 512 1.
Proof.
  destruct (@sd_brings_up slot_host 2 slot_powered slot_at slot_blocks slot_part slot_regs (slot_card 2) 0 (slot_mmc 2) slot_start slot_sdhc eq_refl eq_refl eq_refl eq_refl (slot_supplied 2) slot_start_powered)
    as (c' & Hr & _ & Hx & Hl & _). exists (sd_up slot_regs (slot_mmc 2)), c'. split; [exact Hr|]. split; [rewrite Hl; by vm_compute|]. split; [by vm_compute|].
  split; [by vm_compute|]. split; [by vm_compute|]. exact (Hx 7).
Defined.

(** Once it is ready for transfers, it is the card of [MmcBlk]. *)
Definition slot_phase (p : phase) (s : sd_slot) : Prop := s.1 = Transfer /\ ram_in_phase p s.2.

Lemma slot_passes mm cmdidx arg t data c e r bs c' : slot_special cmdidx = false -> ram_send mm cmdidx arg t data c = (e, r, bs, c') ->
  slot_send mm cmdidx arg t data (Transfer, c) = (e, r, bs, (Transfer, c')).
Proof. intros Hs E. unfold slot_send. rewrite Hs. change (negb false) with true. cbn iota. by rewrite E. Qed.

Lemma slot_card_good mm : high_capacity mm = 0 \/ high_capacity mm = 1 -> b_lba mm <= 2 ^ 20 -> @GoodCard slot_host mm slot_phase slot_blocks ram_erased.
Proof.
  intros Hhc Hlim. pose proof (ram_card_good mm Hhc Hlim) as HG. constructor; cbn [send_cmd slot_host udelay].
  - intros [i c] a [_ Hc]. exact (gc_sector (GoodCard := HG) c a Hc).
  - intros [i c] [Hi Hc]. cbn in Hi. subst. destruct (gc_blocklen (GoodCard := HG) c Hc) as (r & bs & c' & E & H1). exists r, bs, (Transfer, c').
    split; [by apply slot_passes|]. by destruct H1.
  - intros [i c] a n [Hi Hc] Ha Hn Hl. cbn in Hi. subst. destruct (gc_read (GoodCard := HG) c a n Hc Ha Hn Hl) as (r & c' & E & H1). exists r, (Transfer, c').
    split; [apply slot_passes; [by destruct (1 <? n)|exact E]|]. by destruct H1.
  - intros [i c] a n data [Hi Hc] Ha Hn Hl Hlen. cbn in Hi. subst. destruct (gc_write (GoodCard := HG) c a n data Hc Ha Hn Hl Hlen) as (r & bs & c' & j & E & H1 & H2).
    exists r, bs, (Transfer, c'), j. split; [apply slot_passes; [by destruct (n =? 1)|exact E]|]. by split.
  - intros [i c] [Hi Hc]. cbn in Hi. subst. destruct (gc_stop_read (GoodCard := HG) c Hc) as (r & bs & c' & E & H1). exists r, bs, (Transfer, c').
    split; [by apply slot_passes|]. by destruct H1.
  - intros [i c] [Hi Hc]. cbn in Hi. subst. destruct (gc_stop_write (GoodCard := HG) c Hc) as (r & bs & c' & j & E & H1 & H2). exists r, bs, (Transfer, c'), j.
    split; [by apply slot_passes|]. by split.
  - intros [i c] j [Hi Hc]. cbn in Hi. subst. destruct (gc_status (GoodCard := HG) c j Hc) as (r & bs & c' & E & H1 & H2). exists r, bs, (Transfer, c').
    split; [by apply slot_passes|]. by split.
  - intros s n j Hs. exists j. split; [lia|done].
  - intros [i c] a [Hi Hc] Ha. cbn in Hi. subst. destruct (gc_start (GoodCard := HG) c a Hc Ha) as (r & bs & c' & E & H1). exists r, bs, (Transfer, c').
    split; [apply slot_passes; [unfold erase_cmds; by destruct (negb _)|exact E]|]. by destruct H1.
  - intros [i c] a b [Hi Hc] Hab Hb. cbn in Hi. subst. destruct (gc_end (GoodCard := HG) c a b Hc Hab Hb) as (r & bs & c' & E & H1). exists r, bs, (Transfer, c').
    split; [apply slot_passes; [unfold erase_cmds; by destruct (negb _)|exact E]|]. by destruct H1.
  - intros [i c] a b [Hi Hc]. cbn in Hi. subst. destruct (gc_erase (GoodCard := HG) c a b Hc) as (r & bs & c' & j & E & H1 & H2). exists r, bs, (Transfer, c'), j.
    split; [by apply slot_passes|]. by split.
Qed.
