(* ===== verification/Cli.v ===== *)
(** The simple command line (src/U-Boot/common/cli_simple.c, command.c and parts of cli.c).

    A command line is cut at its semicolons; in each piece the variables are put in by
    [cli_simple_process_macros], [cli_simple_parse_line] splits it into words, and
    [cmd_process] looks the first one up in the command table and calls the command.
    A command, the variables and the Control-C flag work on a state of the shell, which
    is a parameter.  A string is the list of its bytes up to the NUL and beyond, as in
    [UStr]; an access outside an object is [None], and a loop that is not structural
    takes fuel.  Messages leave no trace. *)

From S2P Require Import Prelude UStr EnvVars.

Definition CONFIG_SYS_CBSIZE : Z := 1024.
Definition CONFIG_SYS_MAXARGS : nat := 16.
Definition CMD_RET_SUCCESS : Z := 0.
Definition CMD_RET_FAILURE : Z := 1.
Definition CMD_FLAG_REPEAT : Z := 1.
Definition CMD_FLAG_BOOTD : Z := 2.
Definition CMD_FLAG_ENV : Z := 4.

(** ** Words *)

(** [while (isblank( *line)) ++line;] *)
Fixpoint skip_blanks (line : list Z) : option (list Z) :=
  match line with
  | [] => None
  | c :: r => if isblank c then skip_blanks r else Some line
  end.

(** [while ( *line && !isblank( *line)) ++line;] with the bytes passed. *)
Fixpoint word_end (line word : list Z) : option (list Z * list Z) :=
  match line with
  | [] => None
  | c :: r => if negb (c =? 0) && negb (isblank c) then word_end r (word ++ [c]) else Some (word, line)
  end.

(** The arguments as the strings they point to when the line has been cut; [None] is
    the NULL behind the last one, which is missing if there are too many. *)
Fixpoint parse_words (room : nat) (line : list Z) (argv : list (option (list Z))) : option (Z * list (option (list Z))) :=
  match room with
  | O => Some (Z.of_nat (length argv), argv)
  | S n =>
      line ← skip_blanks line; c ← head line;
      if c =? 0 then Some (Z.of_nat (length argv), argv ++ [None]) else
      '(word, line) ← word_end line [];
      let argv := argv ++ [Some word] in
      c ← head line;
      if c =? 0 then Some (Z.of_nat (length argv), argv ++ [None]) else parse_words n (tail line) argv
  end.

Definition cli_simple_parse_line (line : list Z) : option (Z * list (option (list Z))) := parse_words CONFIG_SYS_MAXARGS line [].

(** ** Variables *)

(** The switch on [state]; the output is what has been stored so far. *)
Definition macro_char (getenv : list Z -> option (list Z)) (c prev : Z) (input : list Z) (state outputcnt : Z)
    (varname_start output : list Z) : option (Z * Z * list Z * list Z) :=
  if state =? 0 then
    if (c =? 39) && negb (prev =? 92) then Some (3, outputcnt, varname_start, output)
    else if (c =? 36) && negb (prev =? 92) then Some (1, outputcnt, varname_start, output)
    else Some (0, outputcnt - 1, varname_start, output ++ [c])
  else if state =? 1 then
    if (c =? 40) || (c =? 123) then Some (2, outputcnt, input, output)
    else
      let outputcnt := outputcnt - 1 in
      if negb (outputcnt =? 0) then Some (0, outputcnt - 1, varname_start, (output ++ [36]) ++ [c])
      else Some (0, outputcnt, varname_start, output ++ [36])
  else if state =? 2 then
    if (c =? 41) || (c =? 125) then
      let envcnt := Z.of_nat (length varname_start) - Z.of_nat (length input) - 1 in
      if CONFIG_SYS_CBSIZE <=? envcnt then None else
      match getenv (take (Z.to_nat envcnt) varname_start) with
      | Some envval =>
          let copied := take (Z.to_nat outputcnt) envval in
          Some (0, outputcnt - Z.of_nat (length copied), varname_start, output ++ copied)
      | None => Some (0, outputcnt, varname_start, output)
      end
    else Some (2, outputcnt, varname_start, output)
  else
    if (c =? 39) && negb (prev =? 92) then Some (0, outputcnt, varname_start, output)
    else Some (3, outputcnt - 1, varname_start, output ++ [c]).

Fixpoint macro_loop (getenv : list Z -> option (list Z)) (fuel : nat) (input : list Z) (inputcnt outputcnt prev state : Z)
    (varname_start output : list Z) : option (list Z * Z) :=
  match fuel with
  | O => None
  | S n =>
      if (inputcnt =? 0) || (outputcnt =? 0) then Some (output, outputcnt) else
      c ← head input;
      let input := tail input in
      let inputcnt := inputcnt - 1 in
      if negb (state =? 3) && ((c =? 92) && negb (prev =? 92)) then
        if inputcnt =? 0 then Some (output, outputcnt) else
        let prev := c in
        c ← head input;
        let input := tail input in
        '(state, outputcnt, varname_start, output) ← macro_char getenv c prev input state outputcnt varname_start output;
        macro_loop getenv n input (inputcnt - 1) outputcnt c state varname_start output
      else
        '(state, outputcnt, varname_start, output) ← macro_char getenv c prev input state outputcnt varname_start output;
        macro_loop getenv n input inputcnt outputcnt c state varname_start output
  end.

(** The string stored at [output], an object of [CONFIG_SYS_CBSIZE] bytes. *)
Definition cli_simple_process_macros (getenv : list Z -> option (list Z)) (input : list Z) : option (list Z) :=
  len ← strlen input;
  let inputcnt := s32 len in
  '(output, outputcnt) ← macro_loop getenv (S (Z.to_nat inputcnt)) input inputcnt CONFIG_SYS_CBSIZE 0 0 [] [];
  Some ((if negb (outputcnt =? 0) then output else removelast output) ++ [0]).

(** ** Commands *)

Section Cli.
(** The state that commands work on, the value of a variable, and Control-C. *)
Context {W : Type} (getenv : W -> list Z -> option (list Z)) (clear_ctrlc : W -> W) (had_ctrlc : W -> bool).

(** An entry of the command table; [cmd] takes the flag, the number of arguments and
    the arguments, and [is_bootd] says whether it is [do_bootd]. *)
Record cmd_tbl := mkCmd {
  name : list Z;
  maxargs : Z;
  repeatable : Z;
  cmd : Z -> Z -> list (option (list Z)) -> W -> option (Z * W);
  is_bootd : bool;
}.

(** [for (cmdtp = table; ...)]: a full match, or the last one that begins so and how
    many did. *)
Fixpoint find_loop (cmd : list Z) (len : Z) (table : list cmd_tbl) (cmdtp_temp : option cmd_tbl) (n_found : Z)
    : option (option cmd_tbl) :=
  match table with
  | [] => Some (if n_found =? 1 then cmdtp_temp else None)
  | cmdtp :: table =>
      r ← strncmp cmd (cstr (name cmdtp) []) len;
      if r =? 0 then
        l ← strlen (cstr (name cmdtp) []);
        if len =? l then Some (Some cmdtp) else find_loop cmd len table (Some cmdtp) (n_found + 1)
      else find_loop cmd len table cmdtp_temp n_found
  end.

(** Only the text before the first dot is compared. *)
Definition find_cmd_tbl (cmd : option (list Z)) (table : list cmd_tbl) : option (option cmd_tbl) :=
  match cmd with
  | None => Some None
  | Some cmd =>
      p ← strchr cmd 46;
      len ← (match p with None => strlen cmd | Some p => Some (Z.of_nat (length cmd) - Z.of_nat (length p)) end);
      find_loop cmd len table None 0
  end.

Context (table : list cmd_tbl).

Definition find_cmd (cmd : option (list Z)) : option (option cmd_tbl) := find_cmd_tbl cmd table.

Definition cmd_usage : Z := 1.

Definition cmd_call (cmdtp : cmd_tbl) (flag argc : Z) (argv : list (option (list Z))) (s : W) : option (Z * W) :=
  cmd cmdtp flag argc argv s.

(** The return value, and [*repeatable]. *)
Definition cmd_process (flag argc : Z) (argv : list (option (list Z))) (repeat : Z) (s : W) : option (Z * Z * W) :=
  arg ← argv !! 0%nat;
  r ← find_cmd ((fun a => cstr a []) <$> arg);
  match r with
  | None => Some (1, repeat, s)
  | Some cmdtp =>
      let '(rc, flag) :=
        if maxargs cmdtp <? argc then (CMD_RET_USAGE, flag)
        else if is_bootd cmdtp then
          if negb (Z.land flag CMD_FLAG_BOOTD =? 0) then (CMD_RET_FAILURE, flag) else (CMD_RET_SUCCESS, Z.lor flag CMD_FLAG_BOOTD)
        else (CMD_RET_SUCCESS, flag) in
      '(rc, repeat, s) ← (if rc =? 0 then
          '(rc, s) ← cmd_call cmdtp flag argc argv s; Some (rc, Z.land repeat (repeatable cmdtp), s)
        else Some (rc, repeat, s));
      Some (if rc =? CMD_RET_USAGE then cmd_usage else rc, repeat, s)
  end.

Definition cmd_process_error (err : Z) : Z := if negb (err =? 0) then 1 else 0.

(** ** Running a line *)

(** The search for the separator: the text passed and what is left with the separator
    or the NUL at its head.  [prev] is the byte before, which does not exist at the
    start of the buffer. *)
Fixpoint find_sep (inquotes at_start : bool) (prev : option Z) (sep token : list Z) : option (list Z * list Z) :=
  match sep with
  | [] => None
  | c :: r =>
      if c =? 0 then Some (token, sep) else
      inquotes ← (if c =? 39 then p ← prev; Some (if negb (p =? 92) then negb inquotes else inquotes) else Some inquotes);
      stop ← (if negb inquotes && (c =? 59) && negb at_start then p ← prev; Some (negb (p =? 92)) else Some false);
      if (stop : bool) then Some (token, sep) else find_sep inquotes false (Some c) r (token ++ [c])
  end.

(** [while ( *str)] *)
Fixpoint run_loop (fuel : nat) (flag : Z) (prev : option Z) (str : list Z) (repeat rc : Z) (s : W) : option (Z * W) :=
  match fuel with
  | O => None
  | S n =>
      c ← head str;
      if c =? 0 then Some (if negb (rc =? 0) then rc else repeat, s) else
      '(token, sep) ← find_sep false true prev str [];
      c ← head sep;
      let '(str, prev) := if negb (c =? 0) then (tail sep, Some 0) else (sep, last token) in
      finaltoken ← cli_simple_process_macros (getenv s) (token ++ [0]);
      '(argc, argv) ← cli_simple_parse_line finaltoken;
      if argc =? 0 then run_loop n flag prev str repeat (-1) s else
      '(r, repeat, s) ← cmd_process flag argc argv repeat s;
      let rc := if negb (r =? 0) then -1 else rc in
      if had_ctrlc s then Some (-1, s) else run_loop n flag prev str repeat rc s
  end.

Definition cli_simple_run_command (cmd : option (list Z)) (flag : Z) (s : W) : option (Z * W) :=
  let s := clear_ctrlc s in
  match cmd with
  | None => Some (-1, s)
  | Some cmd =>
      c ← head cmd;
      if c =? 0 then Some (-1, s) else
      len ← strlen cmd;
      if CONFIG_SYS_CBSIZE <=? len then Some (-1, s)
      else run_loop (S (length cmd)) flag None (take (Z.to_nat (len + 1)) cmd) 1 0 s
  end.

(** common/cli.c, without the other parser. *)
Definition run_command (cmd : list Z) (flag : Z) (s : W) : option (Z * W) :=
  '(r, s) ← cli_simple_run_command (Some cmd) flag s; Some (if r =? -1 then 1 else 0, s).

Definition run_command_repeatable (cmd : list Z) (flag : Z) (s : W) : option (Z * W) := cli_simple_run_command (Some cmd) flag s.

(** [while ( *next)]: the line so far, and what is left. *)
Fixpoint list_loop (next line : list Z) (s : W) : option (Z * list Z * W) :=
  match next with
  | [] => None
  | c :: r =>
      if c =? 0 then Some (0, line, s)
      else if c =? 10 then
        match line with
        | [] => list_loop r [] s
        | _ =>
            '(rc, s) ← cli_simple_run_command (Some (line ++ [0])) 0 s;
            if rc <? 0 then Some (1, line, s) else list_loop r [] s
        end
      else list_loop r (line ++ [c]) s
  end.

Definition cli_simple_run_command_list (cmd : list Z) (s : W) : option (Z * W) :=
  '(rcode, line, s) ← list_loop cmd [] s;
  match line with
  | [] => Some (rcode, s)
  | _ =>
      if rcode =? 0 then '(rc, s) ← cli_simple_run_command (Some (line ++ [0])) 0 s; Some (if rc <? 0 then 1 else 0, s)
      else Some (rcode, s)
  end.

(** Without the other parser the list is copied if it has a newline, or a length. *)
Definition run_command_list (malloc_ok : bool) (cmd : list Z) (len : Z) (s : W) : option (Z * W) :=
  '(len, need_buff) ← (if len =? -1 then l ← strlen cmd; nl ← strchr cmd 10; Some (s32 l, match nl with None => false | Some _ => true end)
    else Some (len, true));
  if (need_buff : bool) then
    if negb malloc_ok then Some (1, s)
    else if (len <? 0) || (Z.of_nat (length cmd) <? len) then None
    else cli_simple_run_command_list (take (Z.to_nat len) cmd ++ [0]) s
  else cli_simple_run_command_list cmd s.

(** [for (i = 1; i < argc; ++i)] over the rest of the arguments. *)
Fixpoint do_run_loop (n : nat) (flag : Z) (args : list (option (list Z))) (s : W) : option (Z * W) :=
  match n with
  | O => Some (0, s)
  | S n =>
      a ← mjoin (head args);
      match getenv s a with
      | None => Some (1, s)
      | Some arg =>
          '(r, s) ← run_command (arg ++ [0]) (Z.lor flag CMD_FLAG_ENV) s;
          if negb (r =? 0) then Some (1, s) else do_run_loop n flag (tail args) s
      end
  end.

Definition do_run (flag argc : Z) (argv : list (option (list Z))) (s : W) : option (Z * W) :=
  if argc <? 2 then Some (CMD_RET_USAGE, s) else do_run_loop (Z.to_nat (argc - 1)) flag (tail argv) s.

(** ** The loop of the prompt *)

(** One round: what [cli_readline] returns and leaves in its buffer, the last command,
    and [rc]. *)
Definition cli_simple_round (len : Z) (console_buffer lastcommand : list Z) (rc : Z) (s : W) : option (list Z * Z * W) :=
  let '(lastcommand, flag) := if 0 <? len then (console_buffer, 0) else if len =? 0 then (lastcommand, CMD_FLAG_REPEAT) else (lastcommand, 0) in
  '(rc, s) ← (if len =? -1 then Some (rc, s) else run_command_repeatable lastcommand flag s);
  Some (if rc <=? 0 then [0] else lastcommand, rc, s).
End Cli.

(** ** Words, as a specification *)

(** The words of a text, which blanks separate; [w] has been read. *)
Fixpoint words_from (w t : list Z) : list (list Z) :=
  match t with
  | [] => match w with [] => [] | _ => [w] end
  | c :: t => if isblank c then match w with [] => words_from [] t | _ => w :: words_from [] t end else words_from (w ++ [c]) t
  end.

Definition words (t : list Z) : list (list Z) := words_from [] t.

Lemma isblank_zero : isblank 0 = false.
Proof. reflexivity. Qed.

(** The blanks in front do not matter. *)
Lemma skip_blanks_ok t x : text_ok t ->
  exists t', skip_blanks (t ++ 0 :: x) = Some (t' ++ 0 :: x) /\ words t = words t' /\ text_ok t' /\ (length t' <= length t)%nat /\
    match t' with [] => True | c :: _ => isblank c = false end.
Proof.
  induction 1 as [|c t Hc Ht IH]; [exists []; split_and!; (done || constructor)|]. cbn [app skip_blanks]. destruct (isblank c) eqn:E.
  - destruct IH as (t' & E1 & E2 & E3 & E4 & E5). exists t'. split_and!; [done| |done|cbn [length]; lia|done].
    rewrite <- E2. unfold words. cbn [words_from]. by rewrite E.
  - exists (c :: t). split_and!; [done|done|by constructor|lia|done].
Qed.

(** The end of a word: the end of the line, or a blank. *)
Lemma word_end_ok t x : text_ok t -> forall w,
  exists u r, word_end (t ++ 0 :: x) w = Some (w ++ u, r) /\
    ((r = 0 :: x /\ forall w', w' <> [] \/ u <> [] -> words_from w' t = [w' ++ u]) \/
     exists b t', r = b :: t' ++ 0 :: x /\ b <> 0 /\ text_ok t' /\ (length t' < length t)%nat /\
       forall w', w' <> [] \/ u <> [] -> words_from w' t = (w' ++ u) :: words t').
Proof.
  induction 1 as [|c t Hc Ht IH]; intros w; cbn [app word_end].
  - exists [], (0 :: x). rewrite app_nil_r. split; [done|]. left. split; [done|]. intros w' [Hw'|]; [|done]. rewrite app_nil_r. by destruct w'.
  - destruct (Z.eqb_spec c 0); [lia|]. destruct (isblank c) eqn:E; cbn [negb andb].
    + exists [], (c :: t ++ 0 :: x). rewrite app_nil_r. split; [done|]. right. exists c, t. split_and!; [done|done|done|cbn; lia|].
      intros w' [Hw'|]; [|done]. cbn [words_from]. rewrite E, app_nil_r. by destruct w'.
    + destruct (IH (w ++ [c])) as (u & r & E1 & E2). exists (c :: u), r. rewrite E1, <- app_assoc. split; [done|].
      destruct E2 as [[-> E2]|(b & t' & -> & Hb & Ht' & Hl & E2)].
      * left. split; [done|]. intros w' _. cbn [words_from]. rewrite E, E2 by (left; by intros [_ ?]%app_eq_nil). by rewrite <- app_assoc.
      * right. exists b, t'. split_and!; [done|done|done|cbn; lia|]. intros w' _. cbn [words_from]. rewrite E, E2 by (left; by intros [_ ?]%app_eq_nil).
        by rewrite <- app_assoc.
Qed.

Lemma parse_words_ok room : forall t x argv, text_ok t -> exists ends,
  parse_words room (t ++ 0 :: x) argv =
    Some (Z.of_nat (length argv + length (take room (words t))), argv ++ (Some <$> take room (words t)) ++ ends) /\
  (ends = [None] \/ ends = [] /\ (room <= length (words t))%nat).
Proof.
  induction room as [|room IH]; intros t x argv Ht.
  { exists []. cbn [parse_words take length fmap list_fmap]. rewrite !app_nil_r, Nat.add_0_r. split; [done|right; split; [done|lia]]. }
  cbn [parse_words]. destruct (skip_blanks_ok t x Ht) as (t1 & -> & Hw & Ht1 & _ & Hb). cbn [mbind option_bind]. rewrite Hw.
  destruct t1 as [|c t1].
  { exists [None]. cbn. rewrite Nat.add_0_r. split; [done|by left]. }
  inversion_clear Ht1 as [|? ? Hc Ht2]. cbn [app head mbind option_bind]. destruct (Z.eqb_spec c 0); [lia|].
  cbn [word_end]. destruct (Z.eqb_spec c 0); [lia|]. rewrite Hb. cbn [negb andb].
  destruct (word_end_ok t1 x Ht2 ([] ++ [c])) as (u & r & -> & Hr). cbn [mbind option_bind app].
  assert (Hwc : words (c :: t1) = words_from [c] t1) by (unfold words; cbn [words_from]; by rewrite Hb). rewrite Hwc.
  destruct Hr as [[-> Hr]|(b & t' & -> & Hb0 & Ht' & _ & Hr)]; rewrite Hr by (by left); cbn [head mbind option_bind].
  - rewrite Z.eqb_refl. exists [None]. rewrite take_ge by (cbn; lia). rewrite length_app, <- app_assoc. cbn [fmap list_fmap length app].
    split; [done|by left].
  - destruct (Z.eqb_spec b 0); [done|]. cbn [tail]. destruct (IH t' x (argv ++ [Some (c :: u)]) Ht') as (ends & -> & He).
    exists ends. cbn [take length fmap list_fmap app]. rewrite length_app, <- app_assoc. cbn [length app].
    split; [do 2 f_equal; lia|]. destruct He as [->|[-> He]]; [by left|right; split; [done|cbn; lia]].
Qed.

(** ** Variables, as a specification *)

(** What a line is made of: characters, escaped ones, variables and quoted texts. *)
Inductive item :=
  | Char (c : Z)
  | Esc (c : Z)
  | Var (brace : bool) (nm : list Z)
  | Quote (t : list Z).

Definition print_item (i : item) : list Z :=
  match i with
  | Char c => [c]
  | Esc c => [92; c]
  | Var brace nm => [36; if brace then 123 else 40] ++ nm ++ [if brace then 125 else 41]
  | Quote t => 39 :: t ++ [39]
  end.

Definition print_items (l : list item) : list Z := concat (print_item <$> l).

Definition item_ok (i : item) : Prop :=
  match i with
  | Char c => 0 < c < 256 /\ c <> 92 /\ c <> 39 /\ c <> 36
  | Esc c => 0 < c < 256 /\ c <> 92
  | Var _ nm => Forall (fun c => 0 < c < 256 /\ c <> 41 /\ c <> 125 /\ c <> 92) nm /\ Z.of_nat (length nm) < CONFIG_SYS_CBSIZE
  | Quote t => Forall (fun c => 0 < c < 256 /\ c <> 39 /\ c <> 92) t
  end.

Definition expand_item (getenv : list Z -> option (list Z)) (i : item) : list Z :=
  match i with Char c => [c] | Esc c => [c] | Var _ nm => default [] (getenv nm) | Quote t => t end.

Definition expand (getenv : list Z -> option (list Z)) (l : list item) : list Z := concat (expand_item getenv <$> l).

Section Macros.
Context (getenv : list Z -> option (list Z)).

(** Where the loop ends when [out] has been made. *)
Definition full (out : list Z) : option (list Z * Z) :=
  Some (take (Z.to_nat CONFIG_SYS_CBSIZE) out, CONFIG_SYS_CBSIZE - Z.of_nat (length (take (Z.to_nat CONFIG_SYS_CBSIZE) out))).

Lemma full_stop out : Z.of_nat (length out) = CONFIG_SYS_CBSIZE -> full out = Some (out, 0) /\ forall l, full (out ++ l) = Some (out, 0).
Proof.
  intros H. unfold full. assert (E : Z.to_nat CONFIG_SYS_CBSIZE = length out) by lia. rewrite E. split.
  - rewrite take_ge by lia. do 2 f_equal. lia.
  - intros l. rewrite take_app_length. do 2 f_equal. lia.
Qed.

Lemma macro_stop fuel input cnt prev state vs out : (0 < fuel)%nat -> Z.of_nat (length out) = CONFIG_SYS_CBSIZE ->
  macro_loop getenv fuel input cnt (CONFIG_SYS_CBSIZE - Z.of_nat (length out)) prev state vs out = full out.
Proof.
  intros Hf Ho. destruct fuel; [lia|]. cbn [macro_loop]. rewrite Ho, Z.sub_diag, orb_true_r. by destruct (full_stop out Ho) as [-> _].
Qed.

Definition room_left (out : list Z) : Z := CONFIG_SYS_CBSIZE - Z.of_nat (length out).

(** Inside of quotes. *)
Lemma macro_quote t : Forall (fun c => 0 < c < 256 /\ c <> 39 /\ c <> 92) t -> forall fuel rest cnt prev vs out,
  (length t < fuel)%nat -> prev <> 92 -> Z.of_nat (length t) < cnt -> 0 <= room_left out ->
  macro_loop getenv fuel (t ++ 39 :: rest) cnt (room_left out) prev 3 vs out =
    if room_left out <=? Z.of_nat (length t) then full (out ++ t)
    else (macro_loop getenv (fuel - length t - 1) rest (cnt - Z.of_nat (length t) - 1) (room_left (out ++ t)) 39 0 vs (out ++ t)).
Proof.
  induction 1 as [|c t (Hc & Hq & Hb) Ht IH]; intros fuel rest cnt prev vs out Hf Hp Hcnt Hr; unfold room_left in *.
  - rewrite app_nil_r. destruct (Z.leb_spec (CONFIG_SYS_CBSIZE - Z.of_nat (length out)) (Z.of_nat (@length Z []))) as [Hle|Hgt]; cbn [length] in *.
    + apply macro_stop; lia.
    + destruct fuel; [lia|]. cbn [macro_loop app head tail]. destruct (Z.eqb_spec cnt 0); [lia|].
      destruct (Z.eqb_spec (CONFIG_SYS_CBSIZE - Z.of_nat (length out)) 0); [lia|]. cbn [orb mbind option_bind].
      change (negb (3 =? 3)) with false. cbn [andb]. unfold macro_char. cbn [mbind option_bind].
      change (3 =? 0) with false. change (3 =? 1) with false. change (3 =? 2) with false. change (39 =? 39) with true. cbn iota.
      destruct (Z.eqb_spec prev 92); [done|]. cbn [negb andb mbind option_bind]. f_equal; lia.
  - destruct (Z.eq_dec (CONFIG_SYS_CBSIZE - Z.of_nat (length out)) 0) as [E|E].
    + rewrite macro_stop by (cbn [length] in *; lia). destruct (Z.leb_spec (CONFIG_SYS_CBSIZE - Z.of_nat (length out)) (Z.of_nat (length (c :: t)))); [|cbn [length] in *; lia].
      destruct (full_stop out ltac:(lia)) as [-> ->]. done.
    + destruct fuel; [lia|]. cbn [macro_loop app head tail length] in *. destruct (Z.eqb_spec cnt 0); [lia|].
      destruct (Z.eqb_spec (CONFIG_SYS_CBSIZE - Z.of_nat (length out)) 0); [lia|]. cbn [orb mbind option_bind].
      change (negb (3 =? 3)) with false. cbn [andb]. unfold macro_char.
      change (3 =? 0) with false. change (3 =? 1) with false. change (3 =? 2) with false. cbn iota.
      destruct (Z.eqb_spec c 39); [done|]. cbn [andb mbind option_bind].
      replace (CONFIG_SYS_CBSIZE - Z.of_nat (length out) - 1) with (CONFIG_SYS_CBSIZE - Z.of_nat (length (out ++ [c]))) by (rewrite length_app; cbn; lia).
      rewrite IH by first [done|lia|rewrite length_app; cbn; lia]. rewrite length_app, <- app_assoc. cbn [app length].
      destruct (Z.leb_spec (CONFIG_SYS_CBSIZE - Z.of_nat (length out + 1)) (Z.of_nat (length t))),
        (Z.leb_spec (CONFIG_SYS_CBSIZE - Z.of_nat (length out)) (Z.of_nat (S (length t)))); try lia; [done|]. f_equal; lia.
Qed.

(** The name of a variable: nothing is stored. *)
Lemma macro_name nm : Forall (fun c => 0 < c < 256 /\ c <> 41 /\ c <> 125 /\ c <> 92) nm -> forall fuel e rest cnt prev vs out,
  e = 41 \/ e = 125 -> (length nm < fuel)%nat -> Z.of_nat (length nm) < cnt -> 0 < room_left out ->
  Z.of_nat (length vs) - Z.of_nat (length rest) - 1 < CONFIG_SYS_CBSIZE ->
  macro_loop getenv fuel (nm ++ e :: rest) cnt (room_left out) prev 2 vs out =
    let v := default [] (getenv (take (Z.to_nat (Z.of_nat (length vs) - Z.of_nat (length rest) - 1)) vs)) in
    let copied := take (Z.to_nat (room_left out)) v in
    macro_loop getenv (fuel - length nm - 1) rest (cnt - Z.of_nat (length nm) - 1) (room_left out - Z.of_nat (length copied)) e 0 vs (out ++ copied).
Proof.
  induction 1 as [|c nm (Hc & H1 & H2 & H3) Hnm IH]; intros fuel e rest cnt prev vs out He Hf Hcnt Hr Hvs; (destruct fuel; [lia|]);
    cbn [macro_loop app head tail length] in *; (destruct (Z.eqb_spec cnt 0); [lia|]); (destruct (Z.eqb_spec (room_left out) 0); [lia|]);
    cbn [orb mbind option_bind]; change (negb (2 =? 3)) with true; cbn [andb].
  - assert ((e =? 92) = false) as -> by (apply Z.eqb_neq; lia). cbn [andb]. unfold macro_char.
    change (2 =? 0) with false. change (2 =? 1) with false. change (2 =? 2) with true. cbn iota.
    assert ((e =? 41) || (e =? 125) = true) as -> by (apply orb_true_iff; rewrite !Z.eqb_eq; done).
    destruct (Z.leb_spec CONFIG_SYS_CBSIZE (Z.of_nat (length vs) - Z.of_nat (length rest) - 1)); [lia|].
    destruct (getenv _) as [v|]; cbn [mbind option_bind default].
    + f_equal; lia.
    + rewrite take_nil, app_nil_r. cbn [length]. f_equal; lia.
  - destruct (Z.eqb_spec c 92); [done|]. cbn [andb]. unfold macro_char.
    change (2 =? 0) with false. change (2 =? 1) with false. change (2 =? 2) with true. cbn iota.
    assert ((c =? 41) || (c =? 125) = false) as -> by (apply orb_false_iff; rewrite !Z.eqb_neq; done).
    cbn [mbind option_bind]. rewrite IH by (done || lia). cbv zeta. f_equal; lia.
Qed.

Lemma full_app out l k : (Z.to_nat CONFIG_SYS_CBSIZE <= length out + k)%nat -> full (out ++ take k l) = full (out ++ l).
Proof.
  intros H. unfold full. assert (E : take (Z.to_nat CONFIG_SYS_CBSIZE) (out ++ take k l) = take (Z.to_nat CONFIG_SYS_CBSIZE) (out ++ l)); [|by rewrite E].
  rewrite !take_app, take_take. f_equal. f_equal. lia.
Qed.

(** One round in the text. *)
Lemma macro_open fuel input cnt prev vs out : 0 < cnt -> 0 < room_left out ->
  macro_loop getenv (S fuel) input cnt (room_left out) prev 0 vs out =
    c ← head input;
    if (c =? 92) && negb (prev =? 92) then
      if cnt - 1 =? 0 then Some (out, room_left out) else
      c' ← head (tail input);
      '(state, outputcnt, varname_start, output) ← macro_char getenv c' c (tail (tail input)) 0 (room_left out) vs out;
      macro_loop getenv fuel (tail (tail input)) (cnt - 1 - 1) outputcnt c' state varname_start output
    else
      '(state, outputcnt, varname_start, output) ← macro_char getenv c prev (tail input) 0 (room_left out) vs out;
      macro_loop getenv fuel (tail input) (cnt - 1) outputcnt c state varname_start output.
Proof.
  intros Hc Hr. cbn [macro_loop]. destruct (Z.eqb_spec cnt 0); [lia|]. destruct (Z.eqb_spec (room_left out) 0); [lia|]. done.
Qed.

Lemma macro_brace fuel b input cnt vs out : b = 40 \/ b = 123 -> 0 < cnt -> 0 < room_left out ->
  macro_loop getenv (S fuel) (b :: input) cnt (room_left out) 36 1 vs out = macro_loop getenv fuel input (cnt - 1) (room_left out) b 2 input out.
Proof.
  intros Hb Hc Hr. cbn [macro_loop]. destruct (Z.eqb_spec cnt 0); [lia|]. destruct (Z.eqb_spec (room_left out) 0); [lia|].
  cbn [orb head tail mbind option_bind]. by destruct Hb as [-> | ->].
Qed.

Lemma full_ge out l : (Z.to_nat CONFIG_SYS_CBSIZE <= length out)%nat -> full (out ++ l) = full out.
Proof. intros H. unfold full. by rewrite take_app_le by lia. Qed.

(** The whole line. *)
Lemma macro_items items : Forall item_ok items -> forall fuel x cnt prev vs out,
  (length (print_items items) < fuel)%nat -> prev <> 92 -> cnt = Z.of_nat (length (print_items items)) -> 0 <= room_left out ->
  macro_loop getenv fuel (print_items items ++ x) cnt (room_left out) prev 0 vs out = full (out ++ expand getenv items).
Proof.
  induction 1 as [|i items Hi Hok IH]; intros fuel x cnt prev vs out Hf Hp -> Hr.
  { destruct fuel; [lia|]. unfold expand. cbn. rewrite app_nil_r. unfold full, room_left in *. by rewrite take_ge by lia. }
  destruct (Z.eq_dec (room_left out) 0) as [E|E].
  { unfold room_left in *. rewrite macro_stop by lia. destruct (full_stop out ltac:(lia)) as [-> ->]. done. }
  unfold print_items, expand in *. cbn [fmap list_fmap concat] in *. rewrite <- !app_assoc. rewrite length_app in *.
  set (rest := concat (print_item <$> items)) in *. set (erest := concat (expand_item getenv <$> items)) in *.
  assert (Hstep : forall f c vs p, (length rest < f)%nat -> c <> 92 -> Z.of_nat (length p) <= room_left out ->
    macro_loop getenv f (rest ++ x) (Z.of_nat (length rest)) (room_left out - Z.of_nat (length p)) c 0 vs (out ++ p) = full (out ++ p ++ erest)).
  { intros f c vs' p Hf' Hcp Hlp. rewrite app_assoc. replace (room_left out - Z.of_nat (length p)) with (room_left (out ++ p)) by (unfold room_left; rewrite length_app; lia).
    apply IH; [done|done|done|]. unfold room_left in *. rewrite length_app. lia. }
  destruct i as [c|c|brace nm|t]; cbn [print_item expand_item] in *; (destruct fuel as [|fuel]; [lia|]).
  - destruct Hi as (Hc & H1 & H2 & H3). rewrite macro_open by (cbn [length app]; lia). cbn [app head tail length] in *.
    cbn [mbind option_bind]. destruct (Z.eqb_spec c 92); [done|]. cbn [andb]. unfold macro_char. change (0 =? 0) with true. cbn iota.
    destruct (Z.eqb_spec c 39); [done|]. destruct (Z.eqb_spec c 36); [done|]. cbn [andb mbind option_bind].
    change (out ++ c :: erest) with (out ++ [c] ++ erest). rewrite <- (Hstep fuel c vs [c]) by (cbn [length]; (lia || done)). f_equal; cbn [length]; lia.
  - destruct Hi as (Hc & H1). rewrite macro_open by (cbn [length app]; lia). cbn [app head tail length mbind option_bind] in *.
    change (92 =? 92) with true. destruct (Z.eqb_spec prev 92); [done|]. cbn [negb andb].
    destruct (Z.eqb_spec (Z.of_nat (2 + length rest) - 1) 0); [lia|]. unfold macro_char. change (0 =? 0) with true. change (92 =? 92) with true.
    cbn [negb]. rewrite !andb_false_r. cbn [mbind option_bind].
    change (out ++ c :: erest) with (out ++ [c] ++ erest). rewrite <- (Hstep fuel c vs [c]) by (cbn [length]; (lia || done)). f_equal; cbn [length]; lia.
  - destruct Hi as (Hnm & Hl). rewrite !length_app in *. cbn [length] in *. rewrite macro_open by lia. cbn [app head tail length mbind option_bind] in *.
    change (36 =? 92) with false. cbn [andb]. unfold macro_char. change (0 =? 0) with true. change (36 =? 39) with false. change (36 =? 36) with true.
    destruct (Z.eqb_spec prev 92); [done|]. cbn [negb andb mbind option_bind].
    destruct fuel as [|fuel]; [lia|]. rewrite macro_brace by (destruct brace; lia).
    rewrite <- app_assoc. cbn [app]. rewrite macro_name; [|done|destruct brace; [by right|by left]|lia|lia|lia|rewrite !length_app; cbn [length]; rewrite length_app; lia].
    replace (Z.of_nat (length (nm ++ (if brace then 125 else 41) :: rest ++ x)) - Z.of_nat (length (rest ++ x)) - 1) with (Z.of_nat (length nm))
      by (rewrite length_app; cbn [length]; lia). rewrite Nat2Z.id, take_app_length. cbv zeta.
    set (v := default [] (getenv nm)). set (k := Z.to_nat (room_left out)).
    assert (Ek : full (out ++ v ++ erest) = full (out ++ take k v ++ erest)).
    { unfold room_left in *. destruct (decide (length v <= k)%nat); [by rewrite take_ge|].
      rewrite !app_assoc, (full_ge (out ++ v)), (full_ge (out ++ take k v)) by (rewrite length_app, ?length_take; lia). symmetry. apply full_app. lia. }
    rewrite Ek, <- (Hstep (fuel - length nm - 1)%nat (if brace then 125 else 41) (nm ++ (if brace then 125 else 41) :: rest ++ x) (take k v)) by first [lia|by destruct brace|rewrite length_take; lia].
    f_equal. lia.
  - cbn [length] in *. rewrite length_app in *. cbn [length] in *. rewrite macro_open by lia. cbn [app head tail mbind option_bind].
    change (39 =? 92) with false. cbn [andb]. unfold macro_char. change (0 =? 0) with true. change (39 =? 39) with true.
    destruct (Z.eqb_spec prev 92); [done|]. cbn [negb andb mbind option_bind]. rewrite <- app_assoc. cbn [app].
    rewrite macro_quote by (done || lia). destruct (Z.leb_spec (room_left out) (Z.of_nat (length t))).
    + unfold room_left in *. by rewrite app_assoc, (full_ge (out ++ t)) by (rewrite length_app; lia).
    + replace (room_left (out ++ t)) with (room_left out - Z.of_nat (length t)) by (unfold room_left; rewrite length_app; lia).
      rewrite <- (Hstep (fuel - length t - 1)%nat 39 vs t) by (done || lia). f_equal; lia.
Qed.

Lemma process_macros_items items x : Forall item_ok items -> Z.of_nat (length (print_items items)) < 2 ^ 31 ->
  cli_simple_process_macros getenv (cstr (print_items items) x) = Some (take (Z.to_nat (CONFIG_SYS_CBSIZE - 1)) (expand getenv items) ++ [0]).
Proof.
  intros Hok Hl. unfold cli_simple_process_macros.
  assert (Ht : text_ok (print_items items)).
  { clear Hl. unfold print_items. induction Hok as [|i items Hi Hok IH]; [constructor|]. cbn [fmap list_fmap concat]. apply Forall_app. split; [|exact IH].
    destruct i as [c|c|brace nm|t]; cbn [print_item item_ok] in *.
    - constructor; [lia|constructor].
    - constructor; [lia|]. constructor; [lia|constructor].
    - constructor; [lia|]. constructor; [by destruct brace|]. apply Forall_app. split; [eapply Forall_impl; [apply Hi|]; cbn; tauto|].
      constructor; [by destruct brace|constructor].
    - constructor; [lia|]. apply Forall_app. split; [eapply Forall_impl; [apply Hi|]; cbn; tauto|]. constructor; [lia|constructor]. }
  rewrite strlen_cstr by done. cbn [mbind option_bind]. rewrite s32_small by (unfold is_s32; lia). unfold cstr.
  change CONFIG_SYS_CBSIZE with (room_left []) at 1. rewrite macro_items by first [done|lia|unfold room_left, CONFIG_SYS_CBSIZE; cbn; lia].
  unfold full. cbn [app mbind option_bind]. f_equal. f_equal. set (e := expand getenv items). change (Z.to_nat CONFIG_SYS_CBSIZE) with 1024%nat.
  change (Z.to_nat (CONFIG_SYS_CBSIZE - 1)) with 1023%nat. change CONFIG_SYS_CBSIZE with 1024.
  destruct (Z.eqb_spec (1024 - Z.of_nat (length (take 1024 e))) 0) as [E|E]; rewrite length_take in E; cbn [negb].
  - rewrite removelast_firstn_len, length_take, take_take. f_equal. lia.
  - rewrite !take_ge by lia. done.
Qed.
End Macros.

(** ** Separators *)

(** The items in which no semicolon and no quote is seen. *)
Definition item_whole (i : item) : Prop :=
  match i with
  | Char c => c <> 59
  | Var _ nm => Forall (fun c => c <> 59 /\ c <> 39) nm
  | Esc _ | Quote _ => True
  end.

Definition is_quote (i : item) : Prop := match i with Quote _ => True | _ => False end.

(** The byte before the scan: at the start of the buffer there is none. *)
Definition before_ok (prev : option Z) (i : item) : Prop :=
  match prev with Some p => p <> 92 | None => ~ is_quote i end.

Lemma find_sep_plain l : Forall (fun c => 0 < c < 256 /\ c <> 39 /\ c <> 59) l -> forall st prev rest tok,
  find_sep false st prev (l ++ rest) tok =
    find_sep false (match l with [] => st | _ => false end) (match last l with Some c => Some c | None => prev end) rest (tok ++ l).
Proof.
  induction 1 as [|c l (Hc & H1 & H2) Hl IH]; intros st prev rest tok; [cbn; by rewrite app_nil_r|].
  cbn [app find_sep]. destruct (Z.eqb_spec c 0); [lia|]. destruct (Z.eqb_spec c 39); [done|]. cbn [mbind option_bind negb].
  destruct (Z.eqb_spec c 59); [done|]. cbn [andb mbind option_bind]. rewrite IH, <- app_assoc. cbn [app].
  rewrite last_cons. destruct l; [done|]. by destruct (last _).
Qed.

Lemma find_sep_quoted t : Forall (fun c => 0 < c < 256 /\ c <> 39 /\ c <> 92) t -> forall p rest tok, p <> 92 ->
  find_sep true false (Some p) (t ++ 39 :: rest) tok = find_sep false false (Some 39) rest (tok ++ t ++ [39]).
Proof.
  induction 1 as [|c t (Hc & H1 & H2) Ht IH]; intros p rest tok Hp; cbn [app find_sep].
  - change (39 =? 0) with false. change (39 =? 39) with true. cbn [mbind option_bind].
    destruct (Z.eqb_spec p 92); [done|]. cbn [negb mbind option_bind]. change (39 =? 59) with false. done.
  - destruct (Z.eqb_spec c 0); [lia|]. destruct (Z.eqb_spec c 39); [done|]. cbn [mbind option_bind negb andb].
    rewrite IH by done. by rewrite <- app_assoc.
Qed.

Lemma find_sep_item i st prev rest tok : item_ok i -> item_whole i -> before_ok prev i ->
  exists p, p <> 92 /\ find_sep false st prev (print_item i ++ rest) tok = find_sep false false (Some p) rest (tok ++ print_item i).
Proof.
  intros Hi Hw Hb. destruct i as [c|c|brace nm|t]; cbn [print_item item_ok item_whole is_quote] in *.
  - destruct Hi as (Hc & H1 & H2 & H3). exists c. split; [done|]. rewrite find_sep_plain by (constructor; [tauto|constructor]). done.
  - destruct Hi as (Hc & H1). exists c. split; [done|]. cbn [app]. change (92 :: c :: rest) with ([92] ++ c :: rest).
    rewrite find_sep_plain by (constructor; [lia|constructor]). cbn [last find_sep]. destruct (Z.eqb_spec c 0); [lia|].
    assert ((if c =? 39 then p ← Some 92; Some (if negb (p =? 92) then negb false else false) else Some false) = Some false) as ->
      by (by destruct (c =? 39)). cbn [mbind option_bind negb andb].
    assert ((if (c =? 59) && true then Some (negb (92 =? 92)) else Some false) = Some false) as -> by (by destruct (c =? 59)).
    cbn [mbind option_bind]. by rewrite <- app_assoc.
  - exists (if brace then 125 else 41). split; [by destruct brace|]. destruct Hi as (Hn & _).
    rewrite find_sep_plain.
    + cbn [app]. by rewrite !last_cons, last_snoc.
    + constructor; [lia|]. cbn [app]. constructor; [by destruct brace|]. apply Forall_app. split; [|constructor; [by destruct brace|constructor]].
      apply Forall_forall. intros c Hc. rewrite Forall_forall in Hn, Hw. specialize (Hn c Hc). specialize (Hw c Hc). tauto.
  - exists 39. split; [done|]. destruct prev as [p|]; [|destruct Hb; exact I]. cbn [app find_sep].
    change (39 =? 0) with false. change (39 =? 39) with true. cbn [mbind option_bind]. destruct (Z.eqb_spec p 92); [done|].
    cbn [negb mbind option_bind andb]. rewrite <- app_assoc. cbn [app]. rewrite find_sep_quoted by done. by rewrite <- app_assoc.
Qed.

Lemma find_sep_more items : Forall item_ok items -> Forall item_whole items -> forall st prev e rest tok,
  match items with [] => st = false /\ exists p, prev = Some p /\ p <> 92 | i :: _ => before_ok prev i end -> e = 0 \/ e = 59 ->
  find_sep false st prev (print_items items ++ e :: rest) tok = Some (tok ++ print_items items, e :: rest).
Proof.
  induction 1 as [|i items Hi Hok IH]; intros Hw st prev e rest tok Hb He.
  - destruct Hb as (-> & p & -> & Hp). cbn [print_items fmap list_fmap concat app find_sep]. rewrite app_nil_r. destruct He as [-> | ->]; [done|].
    change (59 =? 0) with false. change (59 =? 39) with false. change (59 =? 59) with true. cbn [andb negb mbind option_bind].
    by destruct (Z.eqb_spec p 92).
  - inversion_clear Hw as [|? ? Hwi Hws]. unfold print_items. cbn [fmap list_fmap concat]. fold (print_items items). rewrite <- app_assoc.
    destruct (find_sep_item i st prev (print_items items ++ e :: rest) tok Hi Hwi Hb) as (p & Hp & ->).
    rewrite IH; [by rewrite <- app_assoc|done| |done]. destruct items; [split; [done|by exists p]|exact Hp].
Qed.

(** ** Lines, as a specification *)

Section Runs.
Context {W : Type} (getenv : W -> list Z -> option (list Z)) (clear_ctrlc : W -> W) (had_ctrlc : W -> bool) (table : list (@cmd_tbl W)).

(** A line of pieces: the variables of a piece are put in, and its command is called,
    when those before it have been run. *)
Fixpoint run_pieces (flag : Z) (pieces : list (list item)) (repeat rc : Z) (s : W) : option (Z * W) :=
  match pieces with
  | [] => Some (if negb (rc =? 0) then rc else repeat, s)
  | p :: ps =>
      '(argc, argv) ← cli_simple_parse_line (cstr (take (Z.to_nat (CONFIG_SYS_CBSIZE - 1)) (expand (getenv s) p)) []);
      if argc =? 0 then run_pieces flag ps repeat (-1) s else
      '(r, repeat, s) ← cmd_process table flag argc argv repeat s;
      if had_ctrlc s then Some (-1, s) else run_pieces flag ps repeat (if negb (r =? 0) then -1 else rc) s
  end.

Fixpoint pieces_text (pieces : list (list item)) : list Z :=
  match pieces with
  | [] => []
  | [p] => print_items p
  | p :: ps => print_items p ++ 59 :: pieces_text ps
  end.

Definition piece_ok (p : list item) : Prop := p <> [] /\ Forall item_ok p /\ Forall item_whole p.

Lemma print_item_head i : item_ok i -> exists c t, print_item i = c :: t /\ c <> 0.
Proof. destruct i as [c|c|brace nm|t]; cbn; intros Hi; eexists _, _; split; try done; lia. Qed.

Lemma items_head p : piece_ok p -> exists c t, print_items p = c :: t /\ c <> 0.
Proof.
  intros (Hne & Hok & _). destruct p as [|i p]; [done|]. inversion_clear Hok as [|? ? Hi _].
  destruct (print_item_head i Hi) as (c & t & E & Hc). exists c, (t ++ print_items p). split; [|done].
  unfold print_items at 1. cbn [fmap list_fmap concat]. by rewrite E.
Qed.

(** One piece of a line. *)
Lemma run_step n flag prev p e rest repeat rc s : piece_ok p -> match p with [] => True | i :: _ => before_ok prev i end ->
  e = 0 \/ e = 59 -> Z.of_nat (length (print_items p)) < 2 ^ 31 ->
  run_loop getenv had_ctrlc table (S n) flag prev (print_items p ++ e :: rest) repeat rc s =
    let '(str, prev) := if negb (e =? 0) then (rest, Some 0) else (e :: rest, last (print_items p)) in
    '(argc, argv) ← cli_simple_parse_line (cstr (take (Z.to_nat (CONFIG_SYS_CBSIZE - 1)) (expand (getenv s) p)) []);
    if argc =? 0 then run_loop getenv had_ctrlc table n flag prev str repeat (-1) s else
    '(r, repeat, s) ← cmd_process table flag argc argv repeat s;
    if had_ctrlc s then Some (-1, s) else run_loop getenv had_ctrlc table n flag prev str repeat (if negb (r =? 0) then -1 else rc) s.
Proof.
  intros Hp Hb He Hl. destruct (items_head p Hp) as (c & t & E & Hc). cbn [run_loop].
  assert (head (print_items p ++ e :: rest) = Some c) as -> by by rewrite E. cbn [mbind option_bind]. destruct (Z.eqb_spec c 0); [done|].
  destruct Hp as (Hne & Hok & Hw). rewrite find_sep_more by (try done; destruct p; done). cbn [mbind option_bind head app].
  destruct (negb (e =? 0)); cbn [tail]; (pose proof (process_macros_items (getenv s) p [] Hok Hl) as Hm; unfold cstr at 1 in Hm; rewrite Hm); done.
Qed.

Lemma run_loop_done n flag prev rest repeat rc s :
  run_loop getenv had_ctrlc table (S n) flag prev (0 :: rest) repeat rc s = Some (if negb (rc =? 0) then rc else repeat, s).
Proof. reflexivity. Qed.

Lemma run_loop_pieces flag ps : Forall piece_ok ps -> forall fuel prev repeat rc s,
  match ps with (i :: _) :: _ => before_ok prev i | _ => True end -> (length (pieces_text ps) < fuel)%nat ->
  Z.of_nat (length (pieces_text ps)) < 2 ^ 31 ->
  run_loop getenv had_ctrlc table fuel flag prev (pieces_text ps ++ [0]) repeat rc s = run_pieces flag ps repeat rc s.
Proof.
  induction 1 as [|p ps Hp Hps IH]; intros fuel prev repeat rc s Hb Hf Hl; (destruct fuel as [|n]; [lia|]); [done|].
  destruct (items_head p Hp) as (c & t & E & Hc).
  assert (Hpos : (0 < length (print_items p))%nat) by (rewrite E; cbn; lia).
  destruct ps as [|p2 ps].
  - cbn [pieces_text] in *. rewrite run_step; [|done|by destruct p|by left|done]. change (negb (0 =? 0)) with false. cbn iota.
    destruct n; [lia|]. cbn [run_pieces]. destruct (cli_simple_parse_line _) as [[argc argv]|]; [|done]. cbn [mbind option_bind].
    rewrite !run_loop_done. destruct (argc =? 0); [done|]. destruct (cmd_process _ _ _ _ _ _) as [[[r repeat'] s']|]; [|done].
    cbn [mbind option_bind]. destruct (had_ctrlc s'); [done|]. by rewrite run_loop_done.
  - change (pieces_text (p :: p2 :: ps)) with (print_items p ++ 59 :: pieces_text (p2 :: ps)) in *.
    rewrite length_app in *. cbn [length] in Hf, Hl. rewrite <- app_assoc. cbn [app].
    rewrite run_step; [|done|by destruct p|by right|lia]. change (negb (59 =? 0)) with true. cbn iota.
    assert (IH' : forall repeat rc s, run_loop getenv had_ctrlc table n flag (Some 0) (pieces_text (p2 :: ps) ++ [0]) repeat rc s = run_pieces flag (p2 :: ps) repeat rc s).
    { intros. apply IH; [by destruct p2|lia|lia]. }
    change (run_pieces flag (p :: p2 :: ps) repeat rc s) with
      ('(argc, argv) ← cli_simple_parse_line (cstr (take (Z.to_nat (CONFIG_SYS_CBSIZE - 1)) (expand (getenv s) p)) []);
       if argc =? 0 then run_pieces flag (p2 :: ps) repeat (-1) s else
       '(r, repeat, s) ← cmd_process table flag argc argv repeat s;
       if had_ctrlc s then Some (-1, s) else run_pieces flag (p2 :: ps) repeat (if negb (r =? 0) then -1 else rc) s).
    destruct (cli_simple_parse_line _) as [[argc argv]|]; [|done]. cbn [mbind option_bind]. rewrite !IH'.
    destruct (argc =? 0); [done|]. destruct (cmd_process _ _ _ _ _ _) as [[[r repeat'] s']|]; [|done].
    cbn [mbind option_bind]. destruct (had_ctrlc s'); [done|]. by rewrite IH'.
Qed.
End Runs.

(** ** Any line *)

Section Safe.
Context (getenv : list Z -> option (list Z)).
Context (Hgetenv : forall n v, getenv n = Some v -> text_ok v).

(** A reference to a variable whose name does not fit [envname]: [$], perhaps a
    backslash, a bracket, the name, and the first bracket that closes. *)
Definition long_reference (t : list Z) : Prop := exists pre esc b nm e rest,
  t = pre ++ 36 :: esc ++ b :: nm ++ e :: rest /\ (esc = [] \/ esc = [92]) /\ (b = 40 \/ b = 123) /\ (e = 41 \/ e = 125) /\
  Forall (fun c => c <> 41 /\ c <> 125) nm /\ CONFIG_SYS_CBSIZE <= Z.of_nat (length nm).

Lemma long_reference_length t : long_reference t -> CONFIG_SYS_CBSIZE < Z.of_nat (length t).
Proof.
  intros (pre & esc & b & nm & e & rest & -> & _ & _ & _ & _ & H).
  rewrite length_app. cbn [length]. rewrite !length_app. cbn [length]. rewrite !length_app. lia.
Qed.

(** What the loop keeps: the room, the text stored, and, in the text [w], what of it
    is left behind the backslash [esc] and where a reference began. *)
Record macro_inv (w esc input : list Z) (state oc : Z) (vs out : list Z) : Prop := {
  mi_room : oc = room_left out;
  mi_left : 0 <= oc;
  mi_text : text_ok out;
  mi_rest : exists pre, w = pre ++ esc ++ input;
  mi_dollar : state = 1 -> exists pre, w = pre ++ 36 :: esc ++ input;
  mi_name : state = 2 -> exists pre esc' b nm, w = pre ++ 36 :: esc' ++ b :: vs /\ vs = nm ++ esc ++ input /\
    (esc' = [] \/ esc' = [92]) /\ (b = 40 \/ b = 123) /\ Forall (fun c => c <> 41 /\ c <> 125) nm;
}.

(** Behind a backslash. *)
Lemma macro_inv_escape w c input state oc vs out : macro_inv w [] (c :: input) state oc vs out -> macro_inv w [c] input state oc vs out.
Proof. intros [? ? ? ? ? ?]. by constructor. Qed.

Lemma macro_char_safe w esc c prev input state oc vs out : macro_inv w esc (c :: input) state oc vs out -> esc = [] \/ esc = [92] ->
  0 < oc -> 0 < c < 256 ->
  (exists state' oc' vs' out', macro_char getenv c prev input state oc vs out = Some (state', oc', vs', out') /\ macro_inv w [] input state' oc' vs' out') \/
  (macro_char getenv c prev input state oc vs out = None /\ exists pre esc' b nm, w = pre ++ 36 :: esc' ++ b :: nm ++ c :: input /\
    (esc' = [] \/ esc' = [92]) /\ (b = 40 \/ b = 123) /\ (c = 41 \/ c = 125) /\ Forall (fun c => c <> 41 /\ c <> 125) nm /\ CONFIG_SYS_CBSIZE <= Z.of_nat (length nm)).
Proof.
  intros [Hr Hl Ht (pre & Hw) Hd Hn] Hesc Hoc Hc. unfold room_left in *.
  assert (Hrest : exists pre, w = pre ++ [] ++ input) by (exists (pre ++ esc ++ [c]); rewrite Hw, <- !app_assoc; done).
  assert (Happ : forall l, text_ok l -> Z.of_nat (length l) <= oc -> forall vs st, st = 0 \/ st = 3 -> macro_inv w [] input st (oc - Z.of_nat (length l)) vs (out ++ l)).
  { intros l Hl' Hle vs' st [-> | ->]; (constructor; [unfold room_left; rewrite length_app; lia|lia|by apply Forall_app|done..]). }
  assert (Hsame : forall st vs', st = 0 \/ st = 3 -> macro_inv w [] input st oc vs' out) by (intros st vs' [-> | ->]; by constructor).
  assert (H1 : text_ok [c]) by (constructor; [done|constructor]).
  unfold macro_char. destruct (Z.eqb_spec state 0); [|destruct (Z.eqb_spec state 1); [|destruct (Z.eqb_spec state 2)]].
  - left. destruct (_ && _); [|destruct ((c =? 36) && _) eqn:E36]; eexists _, _, _, _; (split; [reflexivity|]); [apply Hsame; tauto| |].
    + apply andb_true_iff in E36 as [->%Z.eqb_eq _]. constructor; try done. intros _. exists (pre ++ esc). by rewrite Hw, <- app_assoc.
    + by apply (Happ [c]); cbn; try lia; tauto.
  - left. destruct ((c =? 40) || (c =? 123)) eqn:Eb; [|destruct (Z.eqb_spec (oc - 1) 0); cbn [negb]]; eexists _, _, _, _; (split; [reflexivity|]).
    + apply orb_true_iff in Eb. rewrite !Z.eqb_eq in Eb. destruct (Hd ltac:(done)) as (p & Hp).
      constructor; try done. intros _. exists p, esc, c, []. by rewrite Hp.
    + apply (Happ [36]); cbn; try lia; try tauto. constructor; [lia|constructor].
    + rewrite <- app_assoc. replace (oc - 1 - 1) with (oc - 2) by lia. apply (Happ [36; c]); cbn; try lia; try tauto. constructor; [lia|done].
  - destruct (Hn ltac:(done)) as (p & esc' & b & nm & Hp & Hvs & He' & Hb & Hnm).
    assert (Hesc' : Forall (fun c => c <> 41 /\ c <> 125) (nm ++ esc)).
    { apply Forall_app. split; [done|]. destruct Hesc as [-> | ->]; repeat constructor; lia. }
    assert (Hvs' : vs = (nm ++ esc) ++ c :: input) by by rewrite Hvs, <- app_assoc.
    destruct ((c =? 41) || (c =? 125)) eqn:Ec.
    + apply orb_true_iff in Ec. rewrite !Z.eqb_eq in Ec.
      replace (Z.of_nat (length vs) - Z.of_nat (length input) - 1) with (Z.of_nat (length (nm ++ esc))) by (rewrite Hvs', (length_app (nm ++ esc)); cbn [length]; lia).
      destruct (Z.leb_spec CONFIG_SYS_CBSIZE (Z.of_nat (length (nm ++ esc)))).
      * right. split; [done|]. exists p, esc', b, (nm ++ esc). by rewrite Hp, Hvs'.
      * left. destruct (getenv _) as [v|] eqn:E; eexists _, _, _, _; (split; [reflexivity|]); [|apply Hsame; tauto].
        apply Happ; [|rewrite length_take; lia|tauto]. apply Forall_take. by eapply Hgetenv.
    + left. apply orb_false_iff in Ec. rewrite !Z.eqb_neq in Ec. eexists _, _, _, _; (split; [reflexivity|]).
      constructor; try done. intros _. exists p, esc', b, ((nm ++ esc) ++ [c]). split_and!; [done|by rewrite Hvs', <- (app_assoc _ [c])|done|done|].
      apply Forall_app. split; [done|]. by constructor.
  - left. destruct (_ && _); eexists _, _, _, _; (split; [reflexivity|]); [apply Hsame; tauto|]. apply (Happ [c]); cbn; try lia; tauto.
Qed.

Lemma macro_loop_safe w x fuel : forall t prev state oc vs out, text_ok t -> (length t < fuel)%nat ->
  macro_inv (w ++ 0 :: x) [] (t ++ 0 :: x) state oc vs out ->
  (exists o, macro_loop getenv fuel (t ++ 0 :: x) (Z.of_nat (length t)) oc prev state vs out = Some (o, room_left o) /\
    text_ok o /\ 0 <= room_left o) \/
  (macro_loop getenv fuel (t ++ 0 :: x) (Z.of_nat (length t)) oc prev state vs out = None /\ long_reference w).
Proof.
  assert (Hend : forall w esc input state oc vs out R, macro_inv w esc input state oc vs out ->
    (exists o, Some (out, oc) = Some (o, room_left o) /\ text_ok o /\ 0 <= room_left o) \/ R) by (intros ? ? ? ? ? ? out R [-> ? ? ? ? ?]; left; by exists out).
  assert (Hlong : forall (t : list Z) c, (exists pre esc' b nm, w ++ 0 :: x = pre ++ 36 :: esc' ++ b :: nm ++ c :: t ++ 0 :: x /\
    (esc' = [] \/ esc' = [92]) /\ (b = 40 \/ b = 123) /\ (c = 41 \/ c = 125) /\ Forall (fun c => c <> 41 /\ c <> 125) nm /\
    CONFIG_SYS_CBSIZE <= Z.of_nat (length nm)) -> long_reference w).
  { intros t c (pre & esc' & b & nm & E & H). exists pre, esc', b, nm, c, t. split; [|done].
    apply (app_inv_tail (0 :: x)). rewrite E, <- !app_assoc. cbn [app]. rewrite <- !app_assoc. cbn [app]. by rewrite <- !app_assoc. }
  induction fuel as [|fuel IH]; intros t prev state oc vs out Ht Hf Hinv; [lia|]. cbn [macro_loop].
  destruct (Z.eqb_spec (Z.of_nat (length t)) 0) as [E|E]; [by eapply Hend|]. destruct (Z.eqb_spec oc 0) as [E2|E2]; [by eapply Hend|].
  cbn [orb]. destruct t as [|c t]; [done|]. inversion_clear Ht as [|? ? Hc Ht']. cbn [app head tail length mbind option_bind] in *.
  pose proof (mi_left _ _ _ _ _ _ _ Hinv). replace (Z.of_nat (S (length t)) - 1) with (Z.of_nat (length t)) by lia.
  destruct (_ && _) eqn:Eesc.
  - apply andb_true_iff in Eesc as [_ [->%Z.eqb_eq _]%andb_true_iff].
    destruct (Z.eqb_spec (Z.of_nat (length t)) 0) as [E3|E3]; [by eapply Hend|]. destruct t as [|c' t]; [done|].
    inversion_clear Ht' as [|? ? Hc' Ht]. cbn [app head tail length mbind option_bind] in *. apply macro_inv_escape in Hinv.
    destruct (macro_char_safe _ _ c' 92 _ _ _ _ _ Hinv) as [(st' & oc' & vs' & out' & -> & Hinv')|[-> Hl]]; [tauto|lia|done| |].
    + cbn [mbind option_bind]. replace (Z.of_nat (S (length t)) - 1) with (Z.of_nat (length t)) by lia. by apply IH; [|lia|].
    + right. split; [done|]. by eapply Hlong.
  - destruct (macro_char_safe _ _ c prev _ _ _ _ _ Hinv) as [(st' & oc' & vs' & out' & -> & Hinv')|[-> Hl]]; [tauto|lia|done| |].
    + cbn [mbind option_bind]. by apply IH; [|lia|].
    + right. split; [done|]. by eapply Hlong.
Qed.

Lemma process_macros_safe t x : text_ok t -> Z.of_nat (length t) < 2 ^ 31 ->
  (exists o, cli_simple_process_macros getenv (cstr t x) = Some (o ++ [0]) /\ text_ok o /\ Z.of_nat (length o) < CONFIG_SYS_CBSIZE) \/
  (cli_simple_process_macros getenv (cstr t x) = None /\ long_reference t).
Proof.
  intros Ht Hl. unfold cli_simple_process_macros. rewrite strlen_cstr by done. cbn [mbind option_bind].
  rewrite s32_small by (unfold is_s32; lia). unfold cstr.
  destruct (macro_loop_safe t x (S (Z.to_nat (Z.of_nat (length t)))) t 0 0 CONFIG_SYS_CBSIZE [] []) as [(o & -> & Ho & Hr)|[-> H]];
    [done|lia|constructor; (done || (by exists []) || constructor)| |by right].
  left. cbn [mbind option_bind]. unfold room_left, CONFIG_SYS_CBSIZE in *. destruct (Z.eqb_spec (1024 - Z.of_nat (length o)) 0); cbn [negb].
  - exists (removelast o). rewrite removelast_firstn_len. split; [done|]. split; [by apply Forall_take|]. rewrite length_take. lia.
  - exists o. split_and!; [done|done|lia].
Qed.
End Safe.

(** ** The command table *)

(** The name in a command word: the text before the first dot. *)
Fixpoint before_dot (t : list Z) : list Z :=
  match t with [] => [] | c :: t => if c =? 46 then [] else c :: before_dot t end.

Lemma strncmp_key k : text_ok k -> forall n rest y, text_ok n ->
  exists r, strncmp (k ++ rest) (cstr n y) (Z.of_nat (length k)) = Some r /\ (r = 0 <-> k `prefix_of` n).
Proof.
  unfold cstr. induction 1 as [|c k Hc Hk IH]; intros n rest y Hn; cbn [app length].
  - exists 0. split; [by destruct rest|]. split; [intros _; apply prefix_nil|done].
  - cbn [strncmp]. destruct (Z.eqb_spec (Z.of_nat (S (length k))) 0); [lia|].
    destruct Hn as [|d n Hd Hn]; cbn [app strncmp].
    + pose proof (s8_diff_zero c 0 ltac:(lia) ltac:(lia)). destruct (Z.eqb_spec (s8 (c - 0)) 0); [lia|]. cbn [negb orb].
      exists (s8 (c - 0)). split; [done|]. split; [lia|]. intros Hp. by apply prefix_nil_inv in Hp.
    + pose proof (s8_diff_zero c d ltac:(lia) ltac:(lia)) as Hcd. destruct (Z.eqb_spec (s8 (c - d)) 0) as [E|E]; cbn [negb orb].
      * apply Hcd in E as ->. destruct (Z.eqb_spec d 0); [lia|]. replace (Z.of_nat (S (length k)) - 1) with (Z.of_nat (length k)) by lia.
        destruct (IH n rest y Hn) as (r & Hr & Hp). exists r. split; [exact Hr|]. rewrite Hp. split; [apply prefix_cons|apply prefix_cons_inv_2].
      * exists (s8 (c - d)). split; [done|]. split; [lia|]. intros Hp. apply prefix_cons_inv_1 in Hp. subst. by destruct Hcd as [_ ->].
Qed.

Section Table.
Context {W : Type}.
Abbreviation cmd_tbl := (@cmd_tbl W).

(** The commands that a name begins, and the first that has it. *)
Definition full_match (k : list Z) (table : list cmd_tbl) : option cmd_tbl := head (filter (fun c => name c = k) table).
Definition abbreviated (k : list Z) (table : list cmd_tbl) : list cmd_tbl := filter (fun c => k `prefix_of` name c) table.

Lemma find_loop_ok k rest table : text_ok k -> Forall (fun c => text_ok (name c)) table -> forall temp n, 0 <= n ->
  find_loop (k ++ rest) (Z.of_nat (length k)) table temp n =
    Some (match full_match k table with
          | Some c => Some c
          | None => if n + Z.of_nat (length (abbreviated k table)) =? 1 then match last (abbreviated k table) with Some c => Some c | None => temp end else None
          end).
Proof.
  intros Hk. induction 1 as [|c table Hc Ht IH]; intros temp n Hn; cbn [find_loop].
  { cbn. by rewrite Z.add_0_r. }
  destruct (strncmp_key k Hk (name c) rest [] Hc) as (r & -> & Hr). cbn [mbind option_bind].
  unfold full_match, abbreviated in *. rewrite !filter_cons. destruct (Z.eqb_spec r 0) as [E|E].
  - apply Hr in E. rewrite strlen_cstr by done. cbn [mbind option_bind]. rewrite (decide_True _ _ E).
    destruct (Z.eqb_spec (Z.of_nat (length k)) (Z.of_nat (length (name c)))) as [El|El].
    + assert (Hn' : name c = k). { destruct E as [l E]. rewrite E, length_app in El. destruct l; [by rewrite app_nil_r in E|cbn in El; lia]. }
      by rewrite (decide_True _ _ Hn').
    + rewrite decide_False by (intros Hn'; apply El; by rewrite Hn'). rewrite IH by lia. rewrite last_cons. cbn [length].
      destruct (head _); [done|].
      replace (n + 1 + Z.of_nat (length (filter (fun c0 => k `prefix_of` name c0) table))) with (n + Z.of_nat (S (length (filter (fun c0 => k `prefix_of` name c0) table)))) by lia.
      by destruct (last _).
  - assert (Hnp : ~ k `prefix_of` name c) by (intros Hp; apply E, Hr, Hp). rewrite (decide_False _ _ Hnp).
    rewrite decide_False by (intros Hn'; apply Hnp; by rewrite Hn'). by apply IH.
Qed.

Lemma before_dot_text t : text_ok t -> text_ok (before_dot t).
Proof. induction 1 as [|c t Hc Ht IH]; [constructor|]. cbn [before_dot]. destruct (c =? 46); constructor; done. Qed.

Lemma before_dot_found t x : text_ok t ->
  (strchr (cstr t x) 46 = Some None /\ before_dot t = t) \/
  exists r, strchr (cstr t x) 46 = Some (Some r) /\ cstr t x = before_dot t ++ r.
Proof.
  unfold cstr. induction 1 as [|c t Hc Ht IH]; cbn [app strchr before_dot].
  - by left.
  - change (u8 46) with 46. destruct (Z.eqb_spec c 46) as [->|E]; [right; by eexists|]. destruct (Z.eqb_spec c 0); [lia|].
    destruct IH as [[-> ->]|(r & -> & E')]; [by left|]. right. exists r. split; [done|]. cbn [app]. by f_equal.
Qed.

Lemma find_cmd_tbl_ok t x table : text_ok t -> Forall (fun c => text_ok (name c)) table ->
  find_cmd_tbl (Some (cstr t x)) table =
    Some (match full_match (before_dot t) table with
          | Some c => Some c
          | None => match abbreviated (before_dot t) table with [c] => Some c | _ => None end
          end).
Proof.
  intros Ht Htab. unfold find_cmd_tbl.
  assert (exists rest, cstr t x = before_dot t ++ rest /\
    (p ← strchr (cstr t x) 46; match p with None => strlen (cstr t x) | Some p => Some (Z.of_nat (length (cstr t x)) - Z.of_nat (length p)) end) =
      Some (Z.of_nat (length (before_dot t)))) as (rest & E & El).
  { destruct (before_dot_found t x Ht) as [[-> E]|(r & -> & E)]; cbn [mbind option_bind].
    - exists (0 :: x). rewrite E. split; [done|]. by rewrite strlen_cstr.
    - exists r. split; [done|]. rewrite E, length_app. f_equal. lia. }
  destruct (strchr (cstr t x) 46) as [p|]; [|done]. cbn [mbind option_bind] in El |- *. rewrite El. cbn [mbind option_bind].
  rewrite E, find_loop_ok by (try done; by apply before_dot_text). destruct (full_match _ _); [done|]. cbn [Z.add].
  destruct (abbreviated _ _) as [|c [|c' l]]; [done|done|]. destruct (Z.eqb_spec (0 + Z.of_nat (length (c :: c' :: l))) 1) as [E1|E1]; [cbn [length] in E1; lia|done].
Qed.
End Table.

(** ** Lines of plain words *)

(** A byte that means nothing to the parser. *)
Definition plain (c : Z) : Prop := 0 < c < 256 /\ isblank c = false /\ c <> 92 /\ c <> 39 /\ c <> 36 /\ c <> 59.
Definition plain_word (w : list Z) : Prop := w <> [] /\ Forall plain w.

#[global] Instance plain_dec c : Decision (plain c) := _.
#[global] Instance plain_word_dec w : Decision (plain_word w) := _.

Fixpoint join (ws : list (list Z)) : list Z :=
  match ws with [] => [] | [w] => w | w :: ws => w ++ 32 :: join ws end.

Lemma join_cons w ws : ws <> [] -> join (w :: ws) = w ++ 32 :: join ws.
Proof. by destruct ws. Qed.

Lemma words_from_plain w t : Forall plain w -> forall u, words_from u (w ++ t) = words_from (u ++ w) t.
Proof.
  induction 1 as [|c w (_ & Hc & _) Hw IH]; intros u; [by rewrite app_nil_r|]. cbn [app words_from]. rewrite Hc, IH, <- app_assoc. done.
Qed.

Lemma words_join ws : Forall plain_word ws -> words (join ws) = ws.
Proof.
  unfold words. induction 1 as [|w ws [Hne Hw] Hws IH]; [done|]. destruct ws as [|w2 ws].
  - cbn [join]. rewrite <- (app_nil_r w) at 1. rewrite words_from_plain by done. cbn [app words_from]. by destruct w.
  - rewrite join_cons by done. rewrite words_from_plain by done. cbn [app words_from]. change (isblank 32) with true. cbn iota. rewrite IH. by destruct w.
Qed.

Lemma join_text ws : Forall plain_word ws -> Forall (fun c => 0 < c < 256 /\ c <> 92 /\ c <> 39 /\ c <> 36 /\ c <> 59) (join ws).
Proof.
  induction 1 as [|w ws [_ Hw] Hws IH]; [constructor|].
  assert (Hw' : Forall (fun c => 0 < c < 256 /\ c <> 92 /\ c <> 39 /\ c <> 36 /\ c <> 59) w) by (eapply Forall_impl; [exact Hw|]; intros c Hc; unfold plain in Hc; tauto).
  destruct ws; [done|]. rewrite join_cons by done. apply Forall_app. split; [done|]. constructor; [lia|done].
Qed.

Lemma expand_chars getenv t : expand getenv (Char <$> t) = t.
Proof. unfold expand. induction t as [|c t IH]; [done|]. cbn [fmap list_fmap concat expand_item app] in *. by f_equal. Qed.

Lemma print_chars t : print_items (Char <$> t) = t.
Proof. unfold print_items. induction t as [|c t IH]; [done|]. cbn [fmap list_fmap concat print_item app] in *. by f_equal. Qed.

Section Plain.
Context {W : Type} (getenv : W -> list Z -> option (list Z)) (clear_ctrlc : W -> W) (had_ctrlc : W -> bool) (table : list (@cmd_tbl W)).

(** Calling a command that is found. *)
Lemma cmd_process_found flag argc w args c repeat s : text_ok w -> Forall (fun c => text_ok (name c)) table ->
  full_match (before_dot w) table = Some c -> argc <= maxargs c -> is_bootd c = false ->
  cmd_process table flag argc (Some w :: args) repeat s =
    '(rc, s) ← cmd c flag argc (Some w :: args) s; Some (if rc =? CMD_RET_USAGE then cmd_usage else rc, Z.land repeat (repeatable c), s).
Proof.
  intros Hw Htab Hc Ha Hb. unfold cmd_process. cbn [lookup list_lookup mbind option_bind fmap option_fmap option_map]. unfold find_cmd.
  rewrite find_cmd_tbl_ok, Hc by done. cbn [mbind option_bind]. destruct (Z.ltb_spec (maxargs c) argc); [lia|]. rewrite Hb. cbn iota.
  change (CMD_RET_SUCCESS =? 0) with true. cbn iota. unfold cmd_call. by destruct (cmd c flag argc _ s) as [[rc s']|].
Qed.

(** A line of plain words calls its command; the result says whether that returned 0. *)
Lemma run_words w ws flag c x s : Forall plain_word (w :: ws) -> (length (w :: ws) < CONFIG_SYS_MAXARGS)%nat ->
  Z.of_nat (length (join (w :: ws))) < CONFIG_SYS_CBSIZE -> Forall (fun c => text_ok (name c)) table ->
  full_match (before_dot w) table = Some c -> Z.of_nat (length (w :: ws)) <= maxargs c -> is_bootd c = false ->
  (forall s, had_ctrlc s = false) ->
  run_command getenv clear_ctrlc had_ctrlc table (cstr (join (w :: ws)) x) flag s =
    '(rc, s) ← cmd c flag (Z.of_nat (length (w :: ws))) ((Some <$> w :: ws) ++ [None]) (clear_ctrlc s); Some (if rc =? 0 then 0 else 1, s).
Proof.
  intros Hws Hn Hl Htab Hc Ha Hb Hno. pose proof (join_text _ Hws) as Hj. set (t := join (w :: ws)) in *.
  assert (Ht : text_ok t) by (eapply Forall_impl; [exact Hj|]; cbn; tauto).
  assert (Hne : t <> []). { unfold t. apply Forall_cons_1 in Hws as [[Hw _] _]. destruct ws; cbn [join]; [done|]. by destruct w. }
  assert (Hp : pieces_text [Char <$> t] = t) by apply print_chars.
  unfold run_command, cli_simple_run_command. destruct t as [|h t'] eqn:Et; [done|]. inversion_clear Ht as [|? ? Hh _]. cbn [cstr app head mbind option_bind].
  destruct (Z.eqb_spec h 0); [lia|]. rewrite <- Et in *. change (h :: t' ++ 0 :: x) with ((h :: t') ++ 0 :: x). rewrite <- Et. clear Et h t' Hh n.
  assert (Ht : text_ok t) by (eapply Forall_impl; [exact Hj|]; cbn; tauto).
  change (t ++ 0 :: x) with (cstr t x). rewrite strlen_cstr by done. cbn [mbind option_bind]. destruct (Z.leb_spec CONFIG_SYS_CBSIZE (Z.of_nat (length t))); [lia|].
  assert (take (Z.to_nat (Z.of_nat (length t) + 1)) (cstr t x) = t ++ [0]) as ->.
  { unfold cstr. rewrite take_app_ge by lia. f_equal. replace (_ - _)%nat with 1%nat by lia. done. }
  unfold CONFIG_SYS_CBSIZE in Hl. replace (t ++ [0]) with (pieces_text [Char <$> t] ++ [0]) by by rewrite Hp. rewrite run_loop_pieces; rewrite ?Hp.
  - cbn [run_pieces]. rewrite expand_chars. assert (take (Z.to_nat (CONFIG_SYS_CBSIZE - 1)) t = t) as -> by (apply take_ge; change (Z.to_nat (CONFIG_SYS_CBSIZE - 1)) with 1023%nat; lia).
    unfold cli_simple_parse_line. destruct (parse_words_ok CONFIG_SYS_MAXARGS t [] [] Ht) as (ends & Hpw & He). unfold cstr at 1. rewrite Hpw. clear Hpw.
    unfold t in He |- *. rewrite words_join in He |- * by done. rewrite take_ge by lia. destruct He as [->|[_ He]]; [|lia]. cbn [mbind option_bind app length Nat.add].
    destruct (Z.eqb_spec (Z.of_nat (S (length ws))) 0); [lia|]. cbn [fmap list_fmap app]. rewrite (cmd_process_found _ _ _ _ c); [|by apply Forall_cons_1 in Hws as [[_ Hw] _]; eapply Forall_impl; [exact Hw|]; intros ? [? _]|done|done|done|done].
    destruct (cmd c flag _ _ _) as [[rc s']|]; [|done]. cbn [mbind option_bind]. rewrite Hno. cbn [mbind option_bind]. f_equal. f_equal.
    assert (Hland : Z.land 1 (repeatable c) <> -1) by (intros E; apply (f_equal (fun z => Z.testbit z 1)) in E; rewrite Z.land_spec in E; change (Z.testbit 1 1) with false in E; change (Z.testbit (-1) 1) with true in E; discriminate).
    unfold CMD_RET_USAGE, cmd_usage. destruct (Z.eqb_spec rc 0) as [->|Hrc]; cbn [negb].
    + change (negb ((if negb ((if 0 =? -1 then 1 else 0) =? 0) then -1 else 0) =? 0)) with false. cbn iota. by destruct (Z.eqb_spec (Z.land 1 (repeatable c)) (-1)).
    + destruct (Z.eqb_spec rc (-1)); [done|]. by destruct (Z.eqb_spec rc 0).
  - constructor; [|constructor]. split_and!.
    + intros E. apply Hne. by apply fmap_nil_inv in E.
    + apply Forall_fmap. eapply Forall_impl; [exact Hj|]. cbn. tauto.
    + apply Forall_fmap. eapply Forall_impl; [exact Hj|]. cbn. tauto.
  - destruct t; [done|]. cbn. tauto.
  - unfold cstr. rewrite length_app. cbn [length]. lia.
  - lia.
Qed.
End Plain.

(** ** Claims *)

(** A line is split into the words that blanks separate; a NULL follows them, unless
    there are as many as there is room for and more is left of the line. *)
Theorem parse_line_words t x : text_ok t -> exists ends,
  cli_simple_parse_line (cstr t x) =
    Some (Z.of_nat (length (take CONFIG_SYS_MAXARGS (words t))), (Some <$> take CONFIG_SYS_MAXARGS (words t)) ++ ends) /\
  (ends = [None] \/ ends = [] /\ (CONFIG_SYS_MAXARGS <= length (words t))%nat).
Proof.
  intros Ht. destruct (parse_words_ok CONFIG_SYS_MAXARGS t x [] Ht) as (ends & E & He). exists ends. split; [exact E|exact He].
Qed.

(** C32: whatever the line (an [int] counts its characters), putting in its variables ends, stays in its buffer, and leaves
    a text that is ended by a NUL, unless the line refers to a variable whose name has
    [CONFIG_SYS_CBSIZE] characters or more: copying that name overflows [envname]
    ([name_overflows]). A line of [cli_simple_run_command] is too short for that; the
    [append] line of a PXE label need not be (cmd_pxe.c:593). *)
Theorem macros_bounded getenv t x : (forall n v, getenv n = Some v -> text_ok v) -> text_ok t -> Z.of_nat (length t) < 2 ^ 31 ->
  (exists o, cli_simple_process_macros getenv (cstr t x) = Some (o ++ [0]) /\ text_ok o /\ Z.of_nat (length o) < CONFIG_SYS_CBSIZE) \/
  (cli_simple_process_macros getenv (cstr t x) = None /\ long_reference t /\ CONFIG_SYS_CBSIZE < Z.of_nat (length t)).
Proof.
  intros Hg Ht Hl. destruct (process_macros_safe getenv Hg t x Ht Hl) as [H|[E H]]; [by left|].
  right. split_and!; [done|done|by apply long_reference_length].
Qed.

(** C31: a line of pieces with semicolons between them runs the pieces one after the
    other: each has its variables put in as they are when it is reached, is split into
    words, and its command is called; the result is -1 if one failed or there was
    nothing to call, and the rest is not run after a Control-C. *)
Theorem run_command_pieces {W} (getenv : W -> list Z -> option (list Z)) clear_ctrlc had_ctrlc table flag ps x s :
  Forall piece_ok ps -> ps <> [] -> match ps with (i :: _) :: _ => ~ is_quote i | _ => True end ->
  Z.of_nat (length (pieces_text ps)) < CONFIG_SYS_CBSIZE -> text_ok (pieces_text ps) ->
  cli_simple_run_command getenv clear_ctrlc had_ctrlc table (Some (cstr (pieces_text ps) x)) flag s =
    run_pieces getenv had_ctrlc table flag ps 1 0 (clear_ctrlc s).
Proof.
  intros Hps Hne Hq Hl Ht. unfold cli_simple_run_command.
  assert (Hh : exists c t, pieces_text ps = c :: t /\ c <> 0).
  { destruct ps as [|p ps]; [done|]. inversion_clear Hps as [|? ? Hp _]. destruct (items_head p Hp) as (c & t & E & Hc).
    destruct ps; cbn [pieces_text]; rewrite E; by eexists _, _. }
  destruct Hh as (c & t & E & Hc). assert (head (cstr (pieces_text ps) x) = Some c) as -> by (by rewrite E). cbn [mbind option_bind].
  destruct (Z.eqb_spec c 0); [done|]. rewrite strlen_cstr by done. cbn [mbind option_bind].
  destruct (Z.leb_spec CONFIG_SYS_CBSIZE (Z.of_nat (length (pieces_text ps)))); [lia|].
  assert (take (Z.to_nat (Z.of_nat (length (pieces_text ps)) + 1)) (cstr (pieces_text ps) x) = pieces_text ps ++ [0]) as ->.
  { unfold cstr. rewrite take_app_ge by lia. f_equal. replace (_ - _)%nat with 1%nat by lia. done. }
  unfold CONFIG_SYS_CBSIZE in Hl. apply run_loop_pieces; [done| | |lia].
  - destruct ps as [|[|i p] ps]; done.
  - unfold cstr. rewrite length_app. cbn [length]. lia.
Qed.

(** A command word names the first command that has its name, up to the first dot,
    or the only one that it abbreviates. *)
Theorem find_cmd_abbreviates {W} (table : list (@cmd_tbl W)) t x : text_ok t -> Forall (fun c => text_ok (name c)) table ->
  find_cmd_tbl (Some (cstr t x)) table =
    Some (match full_match (before_dot t) table with
          | Some c => Some c
          | None => match abbreviated (before_dot t) table with [c] => Some c | _ => None end
          end).
Proof. intros Ht Htab. by apply find_cmd_tbl_ok. Qed.

(** ** Examples *)

Module Demo.
(** Variables, and the arguments of the calls of [echo]. *)
Definition state : Type := list (list Z * list Z) * list (list (list Z)).

Definition getenv (s : state) (n : list Z) : option (list Z) := snd <$> head (filter (fun p => p.1 = n) s.1).

Definition set_cmd (flag argc : Z) (argv : list (option (list Z))) (s : state) : option (Z * state) :=
  n ← mjoin (argv !! 1%nat); v ← mjoin (argv !! 2%nat); Some (0, ((n, v) :: s.1, s.2)).

Definition echo_cmd (flag argc : Z) (argv : list (option (list Z))) (s : state) : option (Z * state) :=
  Some (0, (s.1, s.2 ++ [omap id (tail argv)])).

Definition commands : list cmd_tbl :=
  [mkCmd (chars "setenv") 3 0 set_cmd false; mkCmd (chars "set") 3 0 set_cmd false; mkCmd (chars "echo") 16 1 echo_cmd false].

Definition run (line : string) (s : state) : option (Z * state) :=
  cli_simple_run_command getenv id (fun _ => false) commands (Some (chars line ++ [0])) 0 s.

(** A variable has its value when the command is reached; a quoted semicolon does not
    separate. *)
Example run_sets : run "set x 7;echo $(x) 'a;b'" ([], []) = Some (0, ([(chars "x", chars "7")], [[chars "7"; chars "a;b"]])).
Proof. vm_compute. reflexivity. Qed.

(** An abbreviation; an ambiguous one is unknown. *)
Example run_abbreviated : run "ec a" ([], []) = Some (1, ([], [[chars "a"]])) /\ run "se x 7" ([], []) = Some (-1, ([], [])).
Proof. vm_compute. done. Qed.

(** A quote at the start of a line reads before the buffer. *)
Example quote_first : run "'echo' a" ([], []) = None.
Proof. vm_compute. reflexivity. Qed.

(** After an escaped backslash nothing is special. *)
Example after_backslash : run "echo \\$(x)" ([(chars "x", chars "7")], []) = Some (1, ([(chars "x", chars "7")], [[chars "\$(x)"]])).
Proof. vm_compute. reflexivity. Qed.

Definition pieces : list (list item) :=
  [Char <$> chars "set x 7"; (Char <$> chars "echo ") ++ [Var false (chars "x"); Char 32; Quote (chars "a;b"); Esc 59]].

Lemma pieces_fine : Forall piece_ok pieces.
Proof.
  assert (Hc : forall l, Forall (fun c => 0 < c < 256 /\ c <> 92 /\ c <> 39 /\ c <> 36 /\ c <> 59) l -> Forall item_ok (Char <$> l) /\ Forall item_whole (Char <$> l)).
  { intros l Hl. rewrite !Forall_fmap. split; eapply Forall_impl; try exact Hl; cbn; tauto. }
  destruct (Hc (chars "set x 7")) as [H1 H2]; [apply (bool_decide_unpack _); vm_compute; exact I|].
  destruct (Hc (chars "echo ")) as [H3 H4]; [apply (bool_decide_unpack _); vm_compute; exact I|].
  constructor; [|constructor; [|constructor]]; (split; [done|]).
  - by split.
  - split; (apply Forall_app; split; [done|]); repeat (constructor; [cbn|]); try constructor; try done;
      repeat constructor; try lia; try (apply (bool_decide_unpack _); vm_compute; exact I).
Qed.
End Demo.

Lemma parse_line_words_witness : cli_simple_parse_line (cstr (chars " mmc  dev 0") []) = Some (3, [Some (chars "mmc"); Some (chars "dev"); Some (chars "0"); None]).
Proof.
  destruct (parse_line_words (chars " mmc  dev 0") []) as (ends & E & He); [apply (bool_decide_unpack _); vm_compute; exact I|].
  destruct He as [->|[_ He]]; [exact E|]. vm_compute in He. lia.
Defined.

(** A name of 1023 characters fits [envname]; one of 1024 is copied behind it. *)
Example name_overflows :
  cli_simple_process_macros (fun _ => None) (chars "${" ++ replicate 1023 97 ++ [125; 0]) = Some [0] /\
  cli_simple_process_macros (fun _ => None) (chars "${" ++ replicate 1024 97 ++ [125; 0]) = None.
Proof. vm_compute. done. Qed.

Lemma macros_bounded_witness :
  let value := fun _ : list Z => Some (replicate 2000 97) in
  (exists o, cli_simple_process_macros value (cstr (chars "echo ${x") []) = Some (o ++ [0]) /\
     text_ok o /\ Z.of_nat (length o) < CONFIG_SYS_CBSIZE) \/
  (cli_simple_process_macros value (cstr (chars "echo ${x") []) = None /\ long_reference (chars "echo ${x") /\
     CONFIG_SYS_CBSIZE < Z.of_nat (length (chars "echo ${x"))).
Proof.
  apply (macros_bounded (fun _ => Some (replicate 2000 97)) (chars "echo ${x") []).
  - intros n v [= <-]. apply (bool_decide_unpack _). vm_compute. exact I.
  - apply (bool_decide_unpack _). vm_compute. exact I.
  - vm_compute. reflexivity.
Defined.

Lemma run_command_pieces_witness :
  cli_simple_run_command Demo.getenv id (fun _ => false) Demo.commands (Some (cstr (pieces_text Demo.pieces) [])) 0 ([], []) =
    Some (0, ([(chars "x", chars "7")], [[chars "7"; chars "a;b;"]])).
Proof.
  rewrite (run_command_pieces Demo.getenv id (fun _ => false) Demo.commands 0 Demo.pieces [] ([], []) Demo.pieces_fine).
  - vm_compute. reflexivity.
  - discriminate.
  - vm_compute. tauto.
  - vm_compute. reflexivity.
  - apply (bool_decide_unpack _). vm_compute. exact I.
Defined.

Lemma find_cmd_abbreviates_witness :
  find_cmd_tbl (Some (cstr (chars "ec.b") [])) Demo.commands = Some (Some (mkCmd (chars "echo") 16 1 Demo.echo_cmd false)).
Proof.
  rewrite (find_cmd_abbreviates Demo.commands (chars "ec.b") []).
  - vm_compute. reflexivity.
  - apply (bool_decide_unpack _). vm_compute. exact I.
  - repeat constructor.
Defined.
