(* ===== verification/MmcCmd.v ===== *)
(** The mmc command (src/U-Boot/common/cmd_mmc.c).

    The first word behind "mmc" is looked up in a table of its own, with [find_cmd_tbl]
    of [Cli], and the command works on the current device with the driver of [MmcBlk].
    The state is memory and the devices with the card behind them, which [MmcInit] brings
    up; what [init_part] finds there is a parameter.  The command is what the shells of
    [CmdShell] ask for ([CardStack]).  Messages leave no trace. *)

From S2P Require Import Prelude Fields UStr EnvVars Cli Vsprintf UMem MmcPart Ext4Img MmcBlk MmcInit.

Definition DEV_TYPE_UNKNOWN : Z := 0xff.

Section MmcCmd.
Context `{CardHost}.

(** The fuel for a card that is slow to power up, and what [init_part] finds. *)
Context (fuel : nat) (init_part : mmc -> card -> Z * card).

Definition with_devices (ms : list mmc) (c : card) (s : mmc_state) : mmc_state := mkState _ ms (curr_device s) (cur_dev_num s) c.
Definition with_curr (d : Z) (s : mmc_state) : mmc_state := mkState _ (mmc_devices s) d (cur_dev_num s) (hw s).

(** [mmc_init]: the result, the device, and the card. *)
Definition bring_up (mm : mmc) (c : card) : option (Z * mmc * card) := run (mmc_init fuel init_part) mm c.

Definition get_mmc_num (s : mmc_state) : Z := cur_dev_num s.

Definition init_mmc_device (d : Z) (force_init : bool) (s : mmc_state) : option (option mmc * mmc_state) :=
  match find_mmc_device (mmc_devices s) d with
  | None => Some (None, s)
  | Some mm =>
      let mm := if force_init then mm <| has_init := 0 |> else mm in
      '(err, mm, c) ← bring_up mm (hw s);
      let s := with_devices (put_mmc (mmc_devices s) mm) c s in
      Some (if negb (err =? 0) then None else Some mm, s)
  end.

(** [mmc_get_dev]: the device of the block device. *)
Definition mmc_get_dev (d : Z) (s : mmc_state) : option (option mmc * mmc_state) := init_mmc_device d false s.

(** An argument as a number. *)
Definition number (argv : list (option (list Z))) (i : nat) (base : Z) : option Z :=
  a ← mjoin (argv !! i); '(v, _) ← simple_strtoul (cstr a []) base; Some v.

(** The bytes that there are from an address on, but not more than [n]. *)
Fixpoint bytes_from (n : nat) (p : Z) (m : mem) : list Z :=
  match n with
  | O => []
  | S n => match m !! p with Some c => c :: bytes_from n (p + 1) m | None => [] end
  end.

Definition W : Type := mem * mmc_state.

Definition do_mmcinfo (flag argc : Z) (argv : list (option (list Z))) (w : W) : option (Z * W) :=
  let '(m, s) := w in
  let '(ok, s) := if curr_device s <? 0 then if 0 <? get_mmc_num s then (true, with_curr 0 s) else (false, s) else (true, s) in
  if negb ok then Some (1, (m, s)) else
  '(mm, s) ← init_mmc_device (curr_device s) false s;
  match mm with None => Some (CMD_RET_FAILURE, (m, s)) | Some _ => Some (CMD_RET_SUCCESS, (m, s)) end.

Definition do_mmc_read (flag argc : Z) (argv : list (option (list Z))) (w : W) : option (Z * W) :=
  let '(m, s) := w in
  if negb (argc =? 4) then Some (CMD_RET_USAGE, (m, s)) else
  addr ← number argv 1 16; blk ← number argv 2 16; cnt ← number argv 3 16;
  let blk := u32 blk in let cnt := u32 cnt in
  '(mm, s) ← init_mmc_device (curr_device s) false s;
  match mm with
  | None => Some (CMD_RET_FAILURE, (m, s))
  | Some mm =>
      '(n, bs, c) ← mmc_bread (mmc_devices s) (curr_device s) blk cnt (hw s);
      m ← store_bytes addr bs m;
      Some (if u32 n =? cnt then CMD_RET_SUCCESS else CMD_RET_FAILURE, (m, with_devices (mmc_devices s) c s))
  end.

Definition do_mmc_write (flag argc : Z) (argv : list (option (list Z))) (w : W) : option (Z * W) :=
  let '(m, s) := w in
  if negb (argc =? 4) then Some (CMD_RET_USAGE, (m, s)) else
  addr ← number argv 1 16; blk ← number argv 2 16; cnt ← number argv 3 16;
  let blk := u32 blk in let cnt := u32 cnt in
  '(mm, s) ← init_mmc_device (curr_device s) false s;
  match mm with
  | None => Some (CMD_RET_FAILURE, (m, s))
  | Some mm =>
      if mmc_getwp mm (hw s) =? 1 then Some (CMD_RET_FAILURE, (m, s)) else
      '(n, c) ← mmc_bwrite (mmc_devices s) (curr_device s) blk cnt (bytes_from (Z.to_nat (cnt * write_bl_len mm)) addr m) (hw s);
      Some (if u32 n =? cnt then CMD_RET_SUCCESS else CMD_RET_FAILURE, (m, with_devices (mmc_devices s) c s))
  end.

Definition do_mmc_erase (flag argc : Z) (argv : list (option (list Z))) (w : W) : option (Z * W) :=
  let '(m, s) := w in
  if negb (argc =? 3) then Some (CMD_RET_USAGE, (m, s)) else
  blk ← number argv 1 16; cnt ← number argv 2 16;
  let blk := u32 blk in let cnt := u32 cnt in
  '(mm, s) ← init_mmc_device (curr_device s) false s;
  match mm with
  | None => Some (CMD_RET_FAILURE, (m, s))
  | Some mm =>
      if mmc_getwp mm (hw s) =? 1 then Some (CMD_RET_FAILURE, (m, s)) else
      '(n, c) ← mmc_berase (mmc_devices s) (curr_device s) blk cnt (hw s);
      Some (if u32 n =? cnt then CMD_RET_SUCCESS else CMD_RET_FAILURE, (m, with_devices (mmc_devices s) c s))
  end.

Definition do_mmc_rescan (flag argc : Z) (argv : list (option (list Z))) (w : W) : option (Z * W) :=
  let '(m, s) := w in
  '(mm, s) ← init_mmc_device (curr_device s) true s;
  match mm with None => Some (CMD_RET_FAILURE, (m, s)) | Some _ => Some (CMD_RET_SUCCESS, (m, s)) end.

Definition do_mmc_part (flag argc : Z) (argv : list (option (list Z))) (w : W) : option (Z * W) :=
  let '(m, s) := w in
  '(mm, s) ← init_mmc_device (curr_device s) false s;
  match mm with
  | None => Some (CMD_RET_FAILURE, (m, s))
  | Some _ =>
      '(mmc_dev, s) ← mmc_get_dev (curr_device s) s;
      match mmc_dev with
      | Some d => Some (if negb (b_type d =? DEV_TYPE_UNKNOWN) then CMD_RET_SUCCESS else CMD_RET_FAILURE, (m, s))
      | None => Some (CMD_RET_FAILURE, (m, s))
      end
  end.

(** The device and the partition: [None] inside asks for the usage, or fails. *)
Definition dev_args (argc : Z) (argv : list (option (list Z))) (s : mmc_state) : option (Z + Z * Z) :=
  if argc =? 1 then Some (inr (curr_device s, 0))
  else if argc =? 2 then d ← number argv 1 10; Some (inr (s32 d, 0))
  else if argc =? 3 then
    d ← number argv 1 10; p ← number argv 2 10;
    if PART_ACCESS_MASK <? s32 p then Some (inl CMD_RET_FAILURE) else Some (inr (s32 d, s32 p))
  else Some (inl CMD_RET_USAGE).

Definition do_mmc_dev (flag argc : Z) (argv : list (option (list Z))) (w : W) : option (Z * W) :=
  let '(m, s) := w in
  r ← dev_args argc argv s;
  match r with
  | inl r => Some (r, (m, s))
  | inr (d, part) =>
      '(mm, s) ← init_mmc_device d true s;
      match mm with
      | None => Some (CMD_RET_FAILURE, (m, s))
      | Some mm =>
          '(ret, ms, c) ← mmc_select_hwpart (mmc_devices s) d part (hw s);
          let s := with_devices ms c s in
          if negb (ret =? 0) then Some (1, (m, s)) else Some (CMD_RET_SUCCESS, (m, with_curr d s))
      end
  end.

Definition do_mmc_list (flag argc : Z) (argv : list (option (list Z))) (w : W) : option (Z * W) := Some (CMD_RET_SUCCESS, w).

(** ** Hardware partitions *)

(** [!strcmp(argv[i], t)] *)
Definition is_word (argv : list (option (list Z))) (i : nat) (t : list Z) : option bool :=
  a ← mjoin (argv !! i); r ← strcmp (cstr a []) (cstr t []); Some (r =? 0).

(** "on" and "off". *)
Definition on_off (argv : list (option (list Z))) (i : nat) : option (option Z) :=
  on ← is_word argv i (chars "on");
  if on : bool then Some (Some 1) else off ← is_word argv i (chars "off"); Some (if off : bool then Some 0 else None).

(** [while (i < argc)] over the arguments from [argv] on; [None] inside is -1. *)
Fixpoint user_loop (fuel : nat) (argc i : Z) (argv : list (option (list Z))) (u : user_conf) : option (option Z * user_conf) :=
  match fuel with
  | O => None
  | S n =>
      if i <? argc then
        enh ← is_word argv (Z.to_nat i) (chars "enh");
        if enh : bool then
          if argc <=? i + 2 then Some (None, u) else
          s ← number argv (Z.to_nat (i + 1)) 10; z ← number argv (Z.to_nat (i + 2)) 10;
          user_loop n argc (i + 3) argv (mkUser (u32 s) (u32 z) (u_wr_rel_change u) (u_wr_rel_set u))
        else
          wrrel ← is_word argv (Z.to_nat i) (chars "wrrel");
          if wrrel : bool then
            if argc <=? i + 1 then Some (None, u) else
            let u := mkUser (enh_start u) (enh_size u) 1 (u_wr_rel_set u) in
            v ← on_off argv (Z.to_nat (i + 1));
            match v with
            | None => Some (None, u)
            | Some v => user_loop n argc (i + 2) argv (mkUser (enh_start u) (enh_size u) 1 v)
            end
          else Some (Some i, u)
      else Some (Some i, u)
  end.

Definition parse_hwpart_user (pconf : mmc_hwpart_conf) (argc : Z) (argv : list (option (list Z))) : option (option Z * mmc_hwpart_conf) :=
  '(r, u) ← user_loop (S (Z.to_nat argc)) argc 0 argv (mkUser 0 0 0 0); Some (r, mkConf u (gp_part pconf)).

Fixpoint gp_loop (fuel : nat) (argc i : Z) (argv : list (option (list Z))) (g : gp_conf) : option (option Z * gp_conf) :=
  match fuel with
  | O => None
  | S n =>
      if i <? argc then
        enh ← is_word argv (Z.to_nat i) (chars "enh");
        if enh : bool then gp_loop n argc (i + 1) argv (mkGp (gp_size g) 1 (g_wr_rel_change g) (g_wr_rel_set g))
        else
          wrrel ← is_word argv (Z.to_nat i) (chars "wrrel");
          if wrrel : bool then
            if argc <=? i + 1 then Some (None, g) else
            let g := mkGp (gp_size g) (enhanced g) 1 (g_wr_rel_set g) in
            v ← on_off argv (Z.to_nat (i + 1));
            match v with
            | None => Some (None, g)
            | Some v => gp_loop n argc (i + 2) argv (mkGp (gp_size g) (enhanced g) 1 v)
            end
          else Some (Some i, g)
      else Some (Some i, g)
  end.

Definition parse_hwpart_gp (pconf : mmc_hwpart_conf) (pidx : nat) (argc : Z) (argv : list (option (list Z))) : option (option Z * mmc_hwpart_conf) :=
  let put g := mkConf (conf_user pconf) (<[pidx := g]> (gp_part pconf)) in
  let zero := mkGp 0 0 0 0 in
  if argc <=? 1 then Some (None, put zero) else
  z ← number argv 0 10;
  '(r, g) ← gp_loop (S (Z.to_nat argc)) argc 1 argv (mkGp (u32 z) 0 0 0); Some (r, put g).

(** [while (i < argc)] of the command: the configuration and the mode, unless the usage
    is asked for. *)
Fixpoint hwpart_loop (fuel : nat) (argc i : Z) (argv : list (option (list Z))) (pconf : mmc_hwpart_conf) (mode : Z) : option (option (mmc_hwpart_conf * Z)) :=
  match fuel with
  | O => None
  | S n =>
      if negb (i <? argc) then Some (Some (pconf, mode)) else
      let same t := is_word argv (Z.to_nat i) (chars t) in
      let rest := drop (Z.to_nat (i + 1)) argv in
      user ← same "user"%string;
      if user : bool then
        '(r, pconf) ← parse_hwpart_user pconf (argc - (i + 1)) rest;
        match r with None => Some None | Some r => hwpart_loop n argc (i + 1 + r) argv pconf mode end
      else
        a ← mjoin (argv !! Z.to_nat i);
        d ← strncmp (cstr a []) (cstr (chars "gp") []) 2;
        gp ← (if d =? 0 then l ← strlen (cstr a []); if l =? 3 then c ← a !! 2%nat; Some ((49 <=? c) && (c <=? 52)) else Some false else Some false);
        if gp : bool then
          c ← a !! 2%nat;
          '(r, pconf) ← parse_hwpart_gp pconf (Z.to_nat (c - 49)) (argc - (i + 1)) rest;
          match r with None => Some None | Some r => hwpart_loop n argc (i + 1 + r) argv pconf mode end
        else
          check ← same "check"%string;
          if check : bool then hwpart_loop n argc (i + 1) argv pconf MMC_HWPART_CONF_CHECK else
          set ← same "set"%string;
          if set : bool then hwpart_loop n argc (i + 1) argv pconf MMC_HWPART_CONF_SET else
          complete ← same "complete"%string;
          if complete : bool then hwpart_loop n argc (i + 1) argv pconf MMC_HWPART_CONF_COMPLETE else Some None
  end.

Definition do_mmc_hwpartition (flag argc : Z) (argv : list (option (list Z))) (w : W) : option (Z * W) :=
  let '(m, s) := w in
  let pconf := mkConf (mkUser 0 0 0 0) (replicate 4 (mkGp 0 0 0 0)) in
  '(mm, s) ← init_mmc_device (curr_device s) false s;
  match mm with
  | None => Some (CMD_RET_FAILURE, (m, s))
  | Some mm =>
      if argc <? 1 then Some (CMD_RET_USAGE, (m, s)) else
      r ← hwpart_loop (S (Z.to_nat argc)) argc 1 argv pconf MMC_HWPART_CONF_CHECK;
      match r with
      | None => Some (CMD_RET_USAGE, (m, s))
      | Some (pconf, mode) =>
          '(err, mm, c) ← run (mmc_hwpart_config pconf mode) mm (hw s);
          Some (if err =? 0 then CMD_RET_SUCCESS else CMD_RET_FAILURE, (m, with_devices (put_mmc (mmc_devices s) mm) c s))
      end
  end.

Definition do_mmc_setdsr (flag argc : Z) (argv : list (option (list Z))) (w : W) : option (Z * W) :=
  let '(m, s) := w in
  if negb (argc =? 2) then Some (CMD_RET_USAGE, (m, s)) else
  val ← number argv 2 16;
  match find_mmc_device (mmc_devices s) (curr_device s) with
  | None => Some (CMD_RET_FAILURE, (m, s))
  | Some mm =>
      let '(ret, mm) := mmc_set_dsr mm (u32 val) in
      if ret =? 0 then
        '(err, mm, c) ← bring_up (mm <| has_init := 0 |>) (hw s);
        Some (if negb (err =? 0) then CMD_RET_FAILURE else CMD_RET_SUCCESS, (m, with_devices (put_mmc (mmc_devices s) mm) c s))
      else Some (ret, (m, with_devices (put_mmc (mmc_devices s) mm) (hw s) s))
  end.

(** ** The command *)

Definition cmd_mmc : list (@cmd_tbl W) :=
  [mkCmd (chars "info") 1 0 do_mmcinfo false;
   mkCmd (chars "read") 4 1 do_mmc_read false;
   mkCmd (chars "write") 4 0 do_mmc_write false;
   mkCmd (chars "erase") 3 0 do_mmc_erase false;
   mkCmd (chars "rescan") 1 1 do_mmc_rescan false;
   mkCmd (chars "part") 1 1 do_mmc_part false;
   mkCmd (chars "dev") 3 0 do_mmc_dev false;
   mkCmd (chars "list") 1 1 do_mmc_list false;
   mkCmd (chars "hwpartition") 28 0 do_mmc_hwpartition false;
   mkCmd (chars "setdsr") 2 0 do_mmc_setdsr false].

Definition do_mmcops (flag argc : Z) (argv : list (option (list Z))) (w : W) : option (Z * W) :=
  a1 ← argv !! 1%nat;
  cp ← find_cmd_tbl ((fun a => cstr a []) <$> a1) cmd_mmc;
  let argc := argc - 1 in
  let argv := tail argv in
  match cp with
  | None => Some (CMD_RET_USAGE, w)
  | Some cp =>
      if maxargs cp <? argc then Some (CMD_RET_USAGE, w) else
      if (flag =? CMD_FLAG_REPEAT) && (repeatable cp =? 0) then Some (CMD_RET_SUCCESS, w) else
      let '(m, s) := w in
      let '(ok, s) := if curr_device s <? 0 then if 0 <? get_mmc_num s then (true, with_curr 0 s) else (false, s) else (true, s) in
      if negb ok then Some (CMD_RET_FAILURE, (m, s)) else cmd cp flag argc argv (m, s)
  end.
(** The register is set from the argument behind the last one: there is none. *)
Lemma setdsr_crashes flag a b w : do_mmc_setdsr flag 2 [a; b; None] w = None.
Proof. by destruct w. Qed.

(** A command that does not repeat changes nothing when the line is repeated. *)
Lemma write_not_repeated w rest m s : find_cmd_tbl (Some (cstr w [])) cmd_mmc = Some (Some (mkCmd (chars "write") 4 0 do_mmc_write false)) ->
  do_mmcops CMD_FLAG_REPEAT 5 (Some (chars "mmc") :: Some w :: rest) (m, s) = Some (CMD_RET_SUCCESS, (m, s)).
Proof. intros Hf. unfold do_mmcops. cbn [lookup list_lookup mbind option_bind fmap option_fmap option_map]. by rewrite Hf. Qed.
End MmcCmd.
