(* ===== verification/SdRecovery.v ===== *)
(** Recovery from an SD card (src/U-Boot/common/cmd_sd_recovery.c).

    A file on the card, the partition map, names the partitions of a device and the files
    to be written to them.  The command loads the map, takes the blanks out, reads its
    entries, has [fdisk] ([MmcPart]) make the partition table when the first entry with a
    file system comes, and has each file written by [ext4_img_write] ([Ext4Img]) or by the
    driver.  All of this is done with command lines for the shell, the interface [Shell];
    the files are the interface [Files].  The text of the map is an object of its own
    while it is read: a place in it is an offset, and an access outside is [None], as is
    the use of a null pointer.  Messages and times leave no trace. *)

From S2P Require Import Prelude UStr EnvVars Vsprintf UMem MmcPart Ext4Img.

Definition DEV_PART_MAX : nat := 16.
Definition UPDATE_SDCARD_FS_2NDBOOT : Z := Z.shiftl 1 0.
Definition UPDATE_SDCARD_FS_BOOT : Z := Z.shiftl 1 1.
Definition UPDATE_SDCARD_FS_RAW : Z := Z.shiftl 1 2.
Definition UPDATE_SDCARD_FS_FAT : Z := Z.shiftl 1 4.
Definition UPDATE_SDCARD_FS_EXT4 : Z := Z.shiftl 1 5.
Definition UPDATE_SDCARD_FS_UBI : Z := Z.shiftl 1 6.
Definition UPDATE_SDCARD_FS_UBIFS : Z := Z.shiftl 1 7.
Definition UPDATE_SDCARD_FS_RAW_PART : Z := Z.shiftl 1 8.
Definition UPDATE_SDCARD_FS_ENV : Z := Z.shiftl 1 9.

Definition UPDATE_SDCARD_FS_MASK : Z :=
  foldr Z.lor 0 [UPDATE_SDCARD_FS_RAW; UPDATE_SDCARD_FS_FAT; UPDATE_SDCARD_FS_EXT4; UPDATE_SDCARD_FS_UBI; UPDATE_SDCARD_FS_UBIFS; UPDATE_SDCARD_FS_RAW_PART].

Definition f_part_fs : list (list Z * Z) :=
  [(chars "2nd", UPDATE_SDCARD_FS_2NDBOOT); (chars "boot", UPDATE_SDCARD_FS_BOOT); (chars "raw", UPDATE_SDCARD_FS_RAW);
   (chars "fat", UPDATE_SDCARD_FS_FAT); (chars "ext4", UPDATE_SDCARD_FS_EXT4); (chars "emmc", UPDATE_SDCARD_FS_RAW_PART);
   (chars "ubi", UPDATE_SDCARD_FS_UBI); (chars "ubifs", UPDATE_SDCARD_FS_UBIFS); (chars "env", UPDATE_SDCARD_FS_ENV)].

(** The arrays of characters are the strings in them. *)
Record update_sdcard_part := mkSd {
  sd_device : list Z; sd_dev_no : Z; sd_name : list Z; sd_fs_type : Z;
  sd_start : Z; sd_length : Z; sd_file_name : list Z; sd_part_num : Z;
}.

Definition no_sd_part : update_sdcard_part := mkSd [] 0 [] 0 0 0 [] 0.

(** ** Reading the map *)

(** The byte at an offset, the bytes from there, and the offset of a pointer. *)
Definition byte_of (T : list Z) (i : Z) : option Z := if i <? 0 then None else T !! Z.to_nat i.
Definition text_from (T : list Z) (i : Z) : list Z := drop (Z.to_nat i) T.
Definition offset_of (T r : list Z) : Z := Z.of_nat (length T) - Z.of_nat (length r).

Definition is_blank_or_tab (c : Z) : bool := (c =? 32) || (c =? 9).
Definition is_space (c : Z) : bool := is_blank_or_tab c || (c =? 10).

(** [*ret]: [None] inside is the null pointer. *)
Fixpoint update_sdcard_parse_comment (fuel : nat) (p : list Z) : option (option (list Z)) :=
  match fuel with
  | O => None
  | S n =>
      r ← strchr p 35;
      match r with
      | None => Some (Some p)
      | Some r =>
          p ← strchr (tail r) 10;
          match p with None => Some None | Some p => update_sdcard_parse_comment n (tail p) end
      end
  end.

Fixpoint skip_space (fuel : nat) (T : list Z) (s : Z) : option Z :=
  match fuel with
  | O => None
  | S n => c ← byte_of T s; if is_space c then skip_space n T (s + 1) else Some s
  end.

Fixpoint trim_end (fuel : nat) (T : list Z) (e : Z) : option Z :=
  match fuel with
  | O => None
  | S n => c ← byte_of T e; if is_blank_or_tab c then trim_end n T (e - 1) else Some e
  end.

(** The bytes that [strncpy] stores: nothing is filled up. *)
Fixpoint strncpy_bytes (count : nat) (src : list Z) : option (list Z) :=
  match count with
  | O => Some []
  | S n => c ← head src; if c =? 0 then Some [0] else t ← strncpy_bytes n (tail src); Some (c :: t)
  end.

(** The result, and the buffer [b]; a negative count is a huge one. *)
Definition update_sdcard_parse_string (T : list Z) (s : Z) (e : option Z) (b : list Z) (len : Z) : option (Z * list Z) :=
  s ← skip_space (S (length T)) T s;
  e ← e;
  c ← byte_of T (e - 1);
  '(e, a) ← (if is_blank_or_tab c then e ← trim_end (S (length T)) T (e - 1); Some (e, 1) else Some (e, 0));
  let l := e - s + a in
  if len <? l then Some (-1, b) else
  if l <? 0 then None else
  t ← strncpy_bytes (Z.to_nat l) (text_from T s);
  let b := t ++ drop (length t) b in
  if l <? Z.of_nat (length b) then Some (l, <[Z.to_nat l := 0]> b) else None.

(** The bytes of the string that are kept move to the front. *)
Fixpoint sort_loop (n i j : nat) (p : list Z) : option (nat * list Z) :=
  match n with
  | O => Some (j, p)
  | S n =>
      c ← p !! i;
      if negb (is_space c) then sort_loop n (S i) (S j) (<[j := c]> p) else sort_loop n (S i) j p
  end.

Definition update_sdcard_sort_string (p : list Z) (len : Z) : option (list Z) :=
  '(j, p) ← sort_loop (Z.to_nat len) 0 0 p;
  if (j <? length p)%nat then Some (<[j := 0]> p) else None.

(** The offset behind "flash=", if there is one. *)
Definition update_sdcard_parse_part_head (T : list Z) (p : Z) : option (option Z) :=
  r ← strstr (text_from T p) (cstr (chars "flash=") []);
  Some (match r with None => None | Some r => Some (offset_of T r + 6) end).

Definition update_sdcard_get_string (T : list Z) (p search_c : Z) : option (Z * list Z) :=
  c ← strchr (text_from T p) search_c;
  '(_, buf) ← update_sdcard_parse_string T p (match c with None => None | Some c => Some (offset_of T c) end) (replicate 32 0) 32;
  c ← c;
  Some (offset_of T c + 1, buf).

(** [for (j = 0; ...; j++, fs++)]: the type and the number of the partition. *)
Fixpoint find_fs (fs : list (list Z * Z)) (str : list Z) (fp : update_sdcard_part) (num : Z) : option (Z * Z * Z) :=
  match fs with
  | [] => Some (sd_fs_type fp, sd_part_num fp, num)
  | (nm, ty) :: fs =>
      r ← strcmp (cstr nm []) str;
      if r =? 0 then
        if negb (Z.land ty UPDATE_SDCARD_FS_MASK =? 0) then Some (ty, num + 1, num + 1) else Some (ty, sd_part_num fp, num)
      else find_fs fs str fp num
  end.

(** One entry, behind its head: the place behind it, the entry, and [part_num]. *)
Definition part_entry (T : list Z) (p : Z) (fp : update_sdcard_part) (num : Z) : option (Z * update_sdcard_part * Z) :=
  '(p, s_device) ← update_sdcard_get_string T p 44;
  '(p, s_dev_no) ← update_sdcard_get_string T p 58;
  '(v_dev_no, _) ← simple_strtoul s_dev_no 10;
  '(p, s_name) ← update_sdcard_get_string T p 58;
  '(p, s_fs) ← update_sdcard_get_string T p 58;
  '(v_fs, v_num, num) ← find_fs f_part_fs s_fs fp num;
  '(p, s_start) ← update_sdcard_get_string T p 44;
  '(v_start, _) ← simple_strtoul s_start 16;
  '(p, s_length) ← update_sdcard_get_string T p 58;
  '(v_length, _) ← simple_strtoul s_length 16;
  '(p, s_file) ← update_sdcard_get_string T p 59;
  Some (p, mkSd (until0 s_device) (s32 v_dev_no) (until0 s_name) v_fs v_start v_length (until0 s_file) v_num, num).

(** The result, and the array: [fps] are the entries from [fp] on. *)
Fixpoint entries_loop (fps : list update_sdcard_part) (T : list Z) (p err num : Z) : option (Z * list update_sdcard_part) :=
  match fps with
  | [] => Some (err, [])
  | fp :: fps' =>
      h ← update_sdcard_parse_part_head T p;
      match h with
      | None => Some (err, fps)
      | Some p =>
          '(p, fp, num) ← part_entry T p fp num;
          '(err, fps') ← entries_loop fps' T p 0 num;
          Some (err, fp :: fps')
      end
  end.

(** The text of the map as it is left, too. *)
Definition update_sdcard_part_lists_make (ptable_str : list Z) (ptable_str_len : Z) (f_sdcard_part : list update_sdcard_part)
    : option (Z * list update_sdcard_part * list Z) :=
  p ← update_sdcard_parse_comment (S (length ptable_str)) ptable_str;
  p ← p;
  T ← update_sdcard_sort_string p ptable_str_len;
  let T := take (Z.to_nat (offset_of ptable_str p)) ptable_str ++ T in
  '(err, fps) ← entries_loop f_sdcard_part T (offset_of ptable_str p) (-1) 0;
  Some (err, fps, T).

(** ** Files *)

(** Setting the device to read from, and whether it failed; and reading a file: the
    result, how much was read, and the memory it is in. *)
Class Files `{BlockDev} := {
  fs_set_blk_dev : list Z -> option (list Z) -> Z -> bdev -> bool;
  fs_read : list Z -> Z -> Z -> Z -> mem -> bdev -> Z * Z * mem;
}.

Definition FS_TYPE_FAT : Z := 1.
Definition FS_TYPE_EXT : Z := 2.

(** ** Command lines *)

Section SdRecovery.
Context `{HB : BlockDev} `{HS : !Shell} `{HF : !Files}.
Context (get_device : list Z -> bdev -> bool) (getenv : list Z -> option (list Z)).

(** [for (j = i; j < DEV_PART_MAX; j++, fp_1++)]: the starts and lengths. *)
Fixpoint count_parts (n : nat) (fps : list update_sdcard_part) : option (list (Z * Z)) :=
  match n with
  | O => Some []
  | S n =>
      fp ← head fps;
      r ← strcmp (cstr (sd_device fp) []) (cstr [] []);
      if r =? 0 then Some [] else ps ← count_parts n (tail fps); Some ((sd_start fp, sd_length fp) :: ps)
  end.

(** [l = sprintf(&args[p], ...); p += l;] *)
Definition print_at (args : list Z) (p : nat) (fmt : list Z) (vs : list va) : option (nat * list Z) :=
  '(l, b) ← sprintf false (drop p args) fmt vs; Some ((p + Z.to_nat l)%nat, take p args ++ b).

Fixpoint print_parts (ps : list (Z * Z)) (args : list Z) (p : nat) : option (nat * list Z) :=
  match ps with
  | [] => Some (p, args)
  | q :: ps => '(p, args) ← print_at args p (chars " 0x%llx:0x%llx" ++ [0]) [Long q.1; Long q.2]; print_parts ps args p
  end.

(** [fps] are the entries from the one given to the end of the array. *)
Definition make_mmc_partition (fps : list update_sdcard_part) (m : mem) (d : bdev) : option (Z * mem * bdev) :=
  fp ← head fps;
  ps ← count_parts DEV_PART_MAX fps;
  '(p, args) ← print_at (replicate 1024 0) 0 (chars "fdisk %d %d:" ++ [0]) [Int (sd_dev_no fp); Int (Z.of_nat (length ps))];
  '(p, args) ← print_parts ps args p;
  if (1024 <=? p)%nat then None else
  let args := <[p := 0]> args in
  let '(r, m, d) := run_command (until0 args) m d in
  if r <? 0 then Some (-1, m, d) else Some (0, m, d).

(** A command line that is not asked for more than whether it failed. *)
Definition run_ok (cmd : list Z) (m : mem) (d : bdev) : bool * mem * bdev :=
  let '(r, m, d) := run_command cmd m d in (negb (r <? 0), m, d).

(** The command that writes what was read: the array [cmd] at the end. *)
Definition write_command (fp : update_sdcard_part) (addr length : Z) : option (list Z) :=
  let cmd := replicate 128 0 in
  let fs_type := sd_fs_type fp in
  if (fs_type =? UPDATE_SDCARD_FS_2NDBOOT) || (fs_type =? UPDATE_SDCARD_FS_BOOT) || (fs_type =? UPDATE_SDCARD_FS_ENV) then
    blk ← lldiv length 512;
    let blk_cnt := s32 blk in
    let blk_cnt := if negb (length mod 512 =? 0) then blk_cnt + 1 else blk_cnt in
    '(p, cmd) ← print_at cmd 0 (chars "mmc write " ++ [0]) [];
    first ← lldiv (sd_start fp) 512;
    '(p, cmd) ← print_at cmd p (chars "0x%x 0x%llx 0x%x" ++ [0]) [Int (u32 addr); Long first; Int blk_cnt];
    if (p <? 128)%nat then Some (<[p := 0]> cmd) else None
  else if negb (Z.land fs_type UPDATE_SDCARD_FS_MASK =? 0) then
    '(_, cmd) ← print_at cmd 0 (chars "ext4_img_write %d %x %d %x" ++ [0]) [Int (sd_dev_no fp); Int (u32 addr); Int (sd_part_num fp); Int (u32 length)];
    Some cmd
  else Some cmd.

Definition update_sd_img_wirte (fp : update_sdcard_part) (addr len : Z) (m : mem) (d : bdev) : option (Z * mem * bdev) :=
  let length := u64 len in
  r ← strcmp (cstr (sd_device fp) []) (cstr (chars "mmc") []);
  if negb (r =? 0) then Some (0, m, d) else
  '(_, cmd) ← sprintf false (replicate 128 0) (chars "mmc dev %d" ++ [0]) [Int (sd_dev_no fp)];
  dev ← simple_itoa (u64 (sd_dev_no fp));
  let '(ok, m, d) :=
    if negb (get_device dev d) then
      let '(ok, m, d) := run_ok (until0 cmd) m d in
      if negb ok then (false, m, d) else run_ok (chars "mmc rescan") m d
    else (true, m, d) in
  if negb ok then Some (-1, m, d) else
  let '(ok, m, d) := run_ok (until0 cmd) m d in
  if negb ok then Some (-1, m, d) else
  if negb (get_device dev d) then Some (-1, m, d) else
  cmd ← write_command fp addr length;
  let '(ret, m, d) := run_command (until0 cmd) m d in Some (ret, m, d).

(** ** The command *)

(** [for (i = 0; i < DEV_PART_MAX; i++, fp++)] *)
Fixpoint update_loop (n : nat) (fps : list update_sdcard_part) (addr : Z) (dev : list Z) (fs_type first_fs ret : Z) (m : mem) (d : bdev)
    : option (Z * mem * bdev) :=
  match n with
  | O => Some (ret, m, d)
  | S n =>
      fp ← head fps;
      r ← strcmp (cstr (sd_device fp) []) (cstr [] []);
      if r =? 0 then Some (ret, m, d) else
      r ← strcmp (cstr (sd_file_name fp) []) (cstr (chars "dummy") []);
      if r =? 0 then update_loop n (tail fps) addr dev fs_type first_fs ret m d else
      if fs_set_blk_dev (chars "mmc") (Some dev) fs_type d then Some (-1, m, d) else
      let '(len_read, len, m) := fs_read (sd_file_name fp) addr 0 0 m d in
      '(first_fs, m, d) ← (if (first_fs =? 0) && negb (Z.land (sd_fs_type fp) UPDATE_SDCARD_FS_MASK =? 0) then
          '(_, m, d) ← make_mmc_partition fps m d; Some (1, m, d) else Some (first_fs, m, d));
      if (len <=? 0) || (len_read <? 0) then update_loop n (tail fps) addr dev fs_type first_fs ret m d else
      '(ret, m, d) ← update_sd_img_wirte fp addr len m d;
      update_loop n (tail fps) addr dev fs_type first_fs ret m d
  end.

Definition sdcard_update (fps : list update_sdcard_part) (addr : Z) (dev : list Z) (fs_type : Z) (m : mem) (d : bdev) : option (Z * mem * bdev) :=
  update_loop DEV_PART_MAX fps addr dev fs_type 0 0 m d.

Definition CONFIG_SYS_LOAD_ADDR : Z := 0x48000000.

(** An argument as a number, or what takes its place if there is none. *)
Definition arg_number (argc : Z) (argv : list (option (list Z))) (i : nat) (base : Z) (other : option Z) : option Z :=
  if Z.of_nat (S i) <=? argc then a ← mjoin (argv !! i); '(v, _) ← simple_strtoul (cstr a []) base; Some v else other.

Definition update_sd_do_load (argc : Z) (argv : list (option (list Z))) (fstype cmdline_base : Z) (m : mem) (d : bdev) : option (Z * mem) :=
  if argc <? 2 then Some (CMD_RET_USAGE, m) else
  if 7 <? argc then Some (CMD_RET_USAGE, m) else
  a1 ← mjoin (argv !! 1%nat);
  a2 ← (if 3 <=? argc then argv !! 2%nat else Some None);
  if fs_set_blk_dev a1 a2 fstype d then Some (-1, m) else
  addr ← arg_number argc argv 3 cmdline_base
    (match getenv (chars "loadaddr") with Some s => fst <$> simple_strtoul (cstr s []) 16 | None => Some CONFIG_SYS_LOAD_ADDR end);
  filename ← (if 5 <=? argc then f ← mjoin (argv !! 4%nat); Some (Some f) else Some (getenv (chars "bootfile")));
  match filename with
  | None => Some (-1, m)
  | Some filename =>
      bytes ← arg_number argc argv 5 cmdline_base (Some 0);
      pos ← arg_number argc argv 6 cmdline_base (Some 0);
      let '(ret, len_read, m) := fs_read filename addr pos bytes m d in
      if (len_read <=? 0) || (ret <? 0) then Some (-1, m) else
      '(_, _) ← sprintf false (replicate 12 0) (chars "0x%llx" ++ [0]) [Long len_read];
      Some (s32 len_read, m)
  end.

(** The text of the map is read where it was loaded, and left there as it is then. *)
Definition do_update_sdcard (argc : Z) (argv : list (option (list Z))) (m : mem) (d : bdev) : option (Z * mem * bdev) :=
  if negb (argc =? 5) then Some (-1, m, d) else
  let f_sdcard_part := replicate DEV_PART_MAX no_sd_part in
  '(len_read, m) ← update_sd_do_load argc argv FS_TYPE_FAT 16 m d;
  '(len_read, fs_type, m) ← (if len_read <=? 0 then '(len_read, m) ← update_sd_do_load argc argv FS_TYPE_EXT 16 m d; Some (len_read, FS_TYPE_EXT, m)
    else Some (len_read, FS_TYPE_FAT, m));
  if len_read <=? 0 then Some (-1, m, d) else
  a3 ← mjoin (argv !! 3%nat);
  '(addr, _) ← simple_strtoul (cstr a3 []) 16;
  m ← store (addr + (len_read + 1)) 0 m;
  p ← read_bytes m addr (len_read + 2);
  p ← update_sdcard_sort_string p len_read;
  len ← strlen p;
  '(err, fps, p) ← update_sdcard_part_lists_make p (s32 len) f_sdcard_part;
  let m := UMem.write addr p m in
  if err <? 0 then Some (-1, m, d) else
  a2 ← mjoin (argv !! 2%nat);
  sdcard_update fps addr a2 fs_type m d.
End SdRecovery.

(** ** The map as a specification *)

(** An entry as it is meant: its type is one of [f_part_fs]. *)
Record entry := mkEntry {
  e_device : list Z; e_dev : Z; e_name : list Z; e_fs : list Z; e_start : Z; e_length : Z; e_file : list Z;
}.

Definition hex_text (v : Z) : list Z := [48; 120] ++ written 16 v.

Definition entry_text (e : entry) : list Z :=
  chars "flash=" ++ e_device e ++ 44 :: written 10 (e_dev e) ++ 58 :: e_name e ++ 58 :: e_fs e ++ 58 ::
  hex_text (e_start e) ++ 44 :: hex_text (e_length e) ++ 58 :: e_file e ++ [59].

Definition field_char (c : Z) : Prop := 0 < c < 256 /\ is_space c = false /\ c <> 35 /\ c <> 44 /\ c <> 58 /\ c <> 59.
Definition field (t : list Z) : Prop := Forall field_char t /\ (length t <= 31)%nat.

(** The type of a name. *)
Definition fs_of (n : list Z) : Z := default 0 (snd <$> head (filter (fun p => p.1 = n) f_part_fs)).

Definition entry_ok (e : entry) : Prop :=
  field (e_device e) /\ 0 <= e_dev e < 2 ^ 31 /\ field (e_name e) /\ e_fs e ∈ f_part_fs.*1 /\
  is_u64 (e_start e) /\ is_u64 (e_length e) /\ field (e_file e).

Definition has_fs (e : entry) : bool := negb (Z.land (fs_of (e_fs e)) UPDATE_SDCARD_FS_MASK =? 0).

(** The entries as they are to be read, numbered from [num]. *)
Definition entry_part (num : Z) (e : entry) : update_sdcard_part :=
  mkSd (e_device e) (e_dev e) (e_name e) (fs_of (e_fs e)) (e_start e) (e_length e) (e_file e) (if has_fs e then num + 1 else 0).

Fixpoint entry_parts (num : Z) (es : list entry) : list update_sdcard_part :=
  match es with
  | [] => []
  | e :: es => entry_part num e :: entry_parts (if has_fs e then num + 1 else num) es
  end.

(** ** Taking blanks out *)

Definition kept (t : list Z) : list Z := filter (fun c => is_space c = false) t.

Lemma sort_loop_ok t : forall K M x,
  exists y, sort_loop (length t) (length K + length M) (length K) (K ++ M ++ t ++ x) = Some ((length K + length (kept t))%nat, K ++ kept t ++ y ++ x) /\
    (length (kept t) + length y = length M + length t)%nat.
Proof.
  induction t as [|c t IH]; intros K M x; cbn [length sort_loop].
  - exists M. unfold kept. cbn [filter list_filter length app]. split; [do 2 f_equal; lia|lia].
  - assert (Hc : (K ++ M ++ (c :: t) ++ x) !! (length K + length M)%nat = Some c).
    { rewrite app_assoc, <- length_app, lookup_app_r, Nat.sub_diag by lia. done. }
    rewrite Hc. cbn [mbind option_bind]. unfold kept. rewrite filter_cons. fold (kept t). destruct (is_space c) eqn:E; cbn [negb].
    + rewrite decide_False by done. destruct (IH K (M ++ [c]) x) as (y & Hy & Hl). exists y. rewrite length_app in Hy, Hl. cbn [length] in Hy, Hl.
      rewrite <- app_assoc in Hy. cbn [app] in Hy. replace (S (length K + length M)) with (length K + (length M + 1))%nat by lia.
      split; [exact Hy|lia].
    + rewrite decide_True by done. destruct M as [|m M].
      * assert (Hi : <[length K := c]> (K ++ [] ++ (c :: t) ++ x) = (K ++ [c]) ++ [] ++ t ++ x).
        { rewrite list_insert_id; [by rewrite <- app_assoc|]. rewrite <- Hc. cbn [length]. f_equal. lia. }
        rewrite Hi. destruct (IH (K ++ [c]) [] x) as (y & Hy & Hl). exists y. rewrite length_app in Hy. cbn [length] in *.
        replace (S (length K + 0)) with (length K + 1 + 0)%nat by lia. replace (S (length K)) with (length K + 1)%nat by lia.
        rewrite Hy. rewrite <- app_assoc. split; [do 2 f_equal; lia|lia].
      * assert (Hi : <[length K := c]> (K ++ (m :: M) ++ (c :: t) ++ x) = (K ++ [c]) ++ (M ++ [c]) ++ t ++ x).
        { rewrite insert_app_r_alt, Nat.sub_diag by lia. cbn. by rewrite <- !app_assoc. }
        rewrite Hi. destruct (IH (K ++ [c]) (M ++ [c]) x) as (y & Hy & Hl). exists y. rewrite !length_app in Hy. rewrite length_app in Hl. cbn [length] in *.
        replace (S (length K + S (length M))) with (length K + 1 + (length M + 1))%nat by lia. replace (S (length K)) with (length K + 1)%nat by lia.
        rewrite Hy. rewrite <- app_assoc. split; [do 2 f_equal; lia|lia].
Qed.

Lemma sort_string_ok t x : (length (kept t) < length t + length x)%nat ->
  exists y, update_sdcard_sort_string (t ++ x) (Z.of_nat (length t)) = Some (kept t ++ 0 :: y) /\ S (length y + length (kept t)) = (length t + length x)%nat.
Proof.
  intros Hl. unfold update_sdcard_sort_string. rewrite Nat2Z.id. destruct (sort_loop_ok t [] [] x) as (y & Hy & Hyl).
  cbn [length app] in Hy, Hyl. rewrite Nat.add_0_r in Hy || idtac. cbn [Nat.add] in Hy. rewrite Hy. cbn [mbind option_bind].
  rewrite !length_app. destruct (Nat.ltb_spec (length (kept t)) (length (kept t) + (length y + length x))); [|lia].
  destruct (y ++ x) as [|c z] eqn:Ez; [apply (f_equal length) in Ez; rewrite length_app in Ez; cbn in Ez; lia|].
  exists z. rewrite insert_app_r_alt, Nat.sub_diag by lia. split; [done|]. apply (f_equal length) in Ez. rewrite length_app in Ez. cbn in Ez. lia.
Qed.

Lemma kept_all t : Forall (fun c => is_space c = false) t -> kept t = t.
Proof. induction 1 as [|c t Hc Ht IH]; [done|]. unfold kept. rewrite filter_cons, decide_True by done. by f_equal. Qed.

Lemma kept_only t : Forall (fun c => is_space c = false) (kept t).
Proof. apply Forall_forall. intros c Hc. by apply list_elem_of_filter in Hc as [? _]. Qed.

Lemma kept_kept t : kept (kept t) = kept t.
Proof. apply kept_all, kept_only. Qed.

Lemma kept_length t : (length (kept t) <= length t)%nat.
Proof. induction t as [|c t IH]; [done|]. unfold kept in *. rewrite filter_cons. destruct (decide _); cbn [length] in *; lia. Qed.

Lemma kept_text t : text_ok t -> text_ok (kept t).
Proof. intros Ht. apply Forall_forall. intros c Hc. apply list_elem_of_filter in Hc as [_ Hc]. by apply (proj1 (Forall_forall _ _) Ht). Qed.

(** ** Fields *)

Lemma text_from_app pre r : text_from (pre ++ r) (Z.of_nat (length pre)) = r.
Proof. unfold text_from. by rewrite Nat2Z.id, drop_app_length. Qed.

Lemma byte_of_at pre c r : byte_of (pre ++ c :: r) (Z.of_nat (length pre)) = Some c.
Proof.
  unfold byte_of. destruct (Z.ltb_spec (Z.of_nat (length pre)) 0); [lia|]. by rewrite Nat2Z.id, lookup_app_r, Nat.sub_diag by lia.
Qed.

Lemma offset_of_app pre r : offset_of (pre ++ r) r = Z.of_nat (length pre).
Proof. unfold offset_of. rewrite length_app. lia. Qed.

Lemma strncpy_bytes_ok t r : text_ok t -> strncpy_bytes (length t) (t ++ r) = Some t.
Proof.
  induction 1 as [|c t Hc Ht IH]; [done|]. cbn [length strncpy_bytes app head mbind option_bind tail]. destruct (Z.eqb_spec c 0); [lia|].
  by rewrite IH.
Qed.

Lemma field_text t : field t -> text_ok t.
Proof. intros [Ht _]. eapply Forall_impl; [exact Ht|]. intros c Hc. apply Hc. Qed.

(** A byte of the text that is not a blank. *)
Lemma skip_space_stop n T pre c r : T = pre ++ c :: r -> is_space c = false -> skip_space (S n) T (Z.of_nat (length pre)) = Some (Z.of_nat (length pre)).
Proof. intros -> Hc. cbn [skip_space]. rewrite byte_of_at. cbn [mbind option_bind]. by rewrite Hc. Qed.

(** A field between the byte [b] and the separator [c]. *)
Lemma get_string_ok pre b t c post : is_space b = false -> is_space c = false -> is_u8 c -> c <> 0 -> field t -> c ∉ t ->
  update_sdcard_get_string ((pre ++ [b]) ++ t ++ c :: post) (Z.of_nat (length (pre ++ [b]))) c =
    Some (Z.of_nat (length ((pre ++ [b]) ++ t ++ [c])), cstr t (replicate (31 - length t) 0)).
Proof.
  intros Hb Hc Hu Hc0 Hf Hn. pose proof (field_text t Hf) as Ht. destruct Hf as [Hfc Hl].
  assert (Hns : forall d, is_space d = false -> is_blank_or_tab d = false) by (intros d Hd; unfold is_space in Hd; by apply orb_false_iff in Hd as [? _]).
  set (T := (pre ++ [b]) ++ t ++ c :: post). unfold update_sdcard_get_string.
  assert (Hfrom : text_from T (Z.of_nat (length (pre ++ [b]))) = t ++ c :: post) by apply text_from_app.
  rewrite Hfrom, strchr_found by done. cbn [mbind option_bind].
  assert (Hoff : offset_of T (c :: post) = Z.of_nat (length ((pre ++ [b]) ++ t))) by (unfold T; rewrite app_assoc; apply offset_of_app).
  rewrite Hoff. unfold update_sdcard_parse_string.
  assert (Hs : skip_space (S (length T)) T (Z.of_nat (length (pre ++ [b]))) = Some (Z.of_nat (length (pre ++ [b])))).
  { destruct t as [|d t]; [by apply (skip_space_stop _ _ _ c post)|]. apply (skip_space_stop _ _ _ d (t ++ c :: post)); [done|].
    inversion_clear Hfc as [|? ? Hd _]. apply Hd. }
  rewrite Hs. cbn [mbind option_bind].
  assert (He : exists d, byte_of T (Z.of_nat (length ((pre ++ [b]) ++ t)) - 1) = Some d /\ is_blank_or_tab d = false).
  { destruct (decide (t = [])) as [->|Hne].
    - exists b. split; [|by apply Hns]. unfold T. rewrite app_nil_r, length_app. cbn [length app].
      replace (Z.of_nat (length pre + 1) - 1) with (Z.of_nat (length pre)) by lia. rewrite <- app_assoc. apply byte_of_at.
    - destruct (exists_last Hne) as (t' & d & ->). exists d. split.
      + unfold T. rewrite app_assoc, !length_app. cbn [length].
        replace (Z.of_nat (length pre + 1 + (length t' + 1)) - 1) with (Z.of_nat (length ((pre ++ [b]) ++ t'))) by (rewrite !length_app; cbn [length]; lia).
        rewrite app_assoc, <- app_assoc. cbn [app]. rewrite <- app_assoc. cbn [app]. rewrite app_assoc. apply byte_of_at.
      + apply Hns. apply Forall_app in Hfc as [_ Hd]. inversion_clear Hd as [|? ? Hd' _]. apply Hd'. }
  destruct He as (d & -> & Hd). cbn [mbind option_bind]. rewrite Hd. cbn [mbind option_bind].
  replace (Z.of_nat (length ((pre ++ [b]) ++ t)) - Z.of_nat (length (pre ++ [b])) + 0) with (Z.of_nat (length t)) by (rewrite (length_app _ t); lia).
  destruct (Z.ltb_spec 32 (Z.of_nat (length t))); [lia|]. destruct (Z.ltb_spec (Z.of_nat (length t)) 0); [lia|].
  rewrite Hfrom, Nat2Z.id, strncpy_bytes_ok by done. cbn [mbind option_bind].
  rewrite drop_replicate, (length_app t (replicate _ _)), length_replicate.
  destruct (Z.ltb_spec (Z.of_nat (length t)) (Z.of_nat (length t + (32 - length t)))); [|lia]. cbn [mbind option_bind].
  rewrite insert_app_r_alt, Nat.sub_diag by lia. replace (32 - length t)%nat with (S (31 - length t)) by lia. cbn [replicate].
  f_equal. f_equal. rewrite !length_app. cbn [length]. lia.
Qed.

Lemma written_field b v k : b = 10 \/ b = 16 -> is_u64 v -> v < b ^ Z.of_nat k -> (1 <= k <= 29)%nat -> field (written b v) /\ (length (written b v) <= k)%nat.
Proof.
  intros Hb Hv Hk Hk1. assert (H2 : 2 <= b <= 16) by lia. assert (Hl : (length (written b v) <= k)%nat) by (apply written_room; [lia|unfold is_u64 in Hv; lia|lia]).
  split; [|done]. split; [|lia]. apply Forall_forall. intros c Hc. pose proof (written_text b v H2 Hv) as Ht.
  assert (Hn : forall d, isxdigit d = false -> c <> d) by (intros d Hd ->; by apply (written_without b v d H2 Hv Hd)).
  unfold text_ok in Ht. rewrite Forall_forall in Ht. unfold field_char, is_space, is_blank_or_tab. split; [by apply Ht|].
  assert (c <> 32 /\ c <> 9 /\ c <> 10) as (? & ? & ?) by (split_and!; by apply Hn).
  split; [|split_and!; by apply Hn]. rewrite !orb_false_iff, !Z.eqb_neq. done.
Qed.

Lemma hex_field v : is_u64 v -> field (hex_text v).
Proof.
  intros Hv. destruct (written_field 16 v 16) as [[Hf _] Hl]; [by right|done|unfold is_u64 in Hv; change (16 ^ Z.of_nat 16) with (2 ^ 64); lia|lia|].
  unfold hex_text. split; [|rewrite length_app; cbn [length]; lia]. apply Forall_app. split; [|done].
  repeat constructor; done.
Qed.

Lemma field_without t c : field t -> ~ field_char c -> c ∉ t.
Proof. intros [Ht _] Hc Hin. rewrite Forall_forall in Ht. by apply Hc, Ht. Qed.

Lemma no_sep : ~ field_char 44 /\ ~ field_char 58 /\ ~ field_char 59.
Proof. unfold field_char. split_and!; tauto. Qed.

Lemma field_kept t : field t -> Forall (fun c => is_space c = false) t.
Proof. intros [Ht _]. eapply Forall_impl; [exact Ht|]. intros c Hc. apply Hc. Qed.

Lemma fs_field n : n ∈ f_part_fs.*1 -> field n.
Proof.
  assert (Hall : Forall field f_part_fs.*1).
  { repeat (constructor; [split; [|by vm_compute; lia]; repeat (constructor; [split_and!; (lia || done)|]); constructor|]). constructor. }
  rewrite Forall_forall in Hall. apply Hall.
Qed.

Lemma find_fs_ok n fp num : n ∈ f_part_fs.*1 -> forall z, find_fs f_part_fs (cstr n z) fp num =
  Some (let ty := fs_of n in if negb (Z.land ty UPDATE_SDCARD_FS_MASK =? 0) then (ty, num + 1, num + 1) else (ty, sd_part_num fp, num)).
Proof.
  intros Hn z. assert (Ht : text_ok n) by (apply field_text, fs_field, Hn).
  assert (Hstep : forall nm ty fs, text_ok nm -> find_fs ((nm, ty) :: fs) (cstr n z) fp num =
    if decide (nm = n) then Some (if negb (Z.land ty UPDATE_SDCARD_FS_MASK =? 0) then (ty, num + 1, num + 1) else (ty, sd_part_num fp, num))
    else find_fs fs (cstr n z) fp num).
  { intros nm ty fs Hnm. cbn [find_fs]. destruct (strcmp_cstr nm n [] z Hnm Ht) as (r & -> & Hr). cbn [mbind option_bind].
    destruct (decide (nm = n)) as [E|E]; [rewrite (proj2 Hr E)|destruct (Z.eqb_spec r 0); [by destruct E; apply Hr|done]]. change (0 =? 0) with true. cbn iota.
    by destruct (negb _). }
  unfold f_part_fs. rewrite !Hstep by (apply (bool_decide_unpack _); vm_compute; exact I).
  unfold fs_of, f_part_fs. rewrite !filter_cons. cbn [fst].
  repeat (destruct (decide (_ = n)) as [E|?]; [subst n; vm_compute; reflexivity|]). exfalso.
  unfold f_part_fs in Hn. cbn [fmap list_fmap fst] in Hn. rewrite !elem_of_cons in Hn.
  repeat (destruct Hn as [Hn|Hn]; [by symmetry in Hn|]). by apply not_elem_of_nil in Hn.
Qed.

(** The next field: [Q] has been read, with the byte [b] behind it. *)
Lemma next_field T Q b t c post : T = Q ++ b :: t ++ c :: post -> is_space b = false -> is_space c = false -> is_u8 c -> c <> 0 -> field t -> c ∉ t ->
  update_sdcard_get_string T (Z.of_nat (length (Q ++ [b]))) c =
    Some (Z.of_nat (length ((Q ++ b :: t) ++ [c])), cstr t (replicate (31 - length t) 0)).
Proof.
  intros -> Hb Hc Hu H0 Hf Hn. pose proof (get_string_ok Q b t c post Hb Hc Hu H0 Hf Hn) as E.
  rewrite <- !app_assoc in E. cbn [app] in E. rewrite <- app_assoc. cbn [app]. exact E.
Qed.

Lemma entry_fields e : entry_ok e -> field (e_device e) /\ field (written 10 (e_dev e)) /\ field (e_name e) /\ field (e_fs e) /\
  field (hex_text (e_start e)) /\ field (hex_text (e_length e)) /\ field (e_file e).
Proof.
  intros (H1 & H2 & H3 & H4 & H5 & H6 & H7). split_and!; try done.
  - apply (written_field 10 _ 10); [by left|unfold is_u64; lia|change (10 ^ Z.of_nat 10) with 10000000000; lia|lia].
  - by apply fs_field.
  - by apply hex_field.
  - by apply hex_field.
Qed.

Lemma part_entry_ok Q e rest fp num : entry_ok e -> sd_part_num fp = 0 ->
  let T := Q ++ entry_text e ++ rest in
  part_entry T (Z.of_nat (length (Q ++ chars "flash="))) fp num =
    Some (Z.of_nat (length (Q ++ entry_text e)), entry_part num e, if has_fs e then num + 1 else num).
Proof.
  intros He Hfp T. destruct (entry_fields e He) as (F1 & F2 & F3 & F4 & F5 & F6 & F7). destruct He as (_ & Hdev & _ & Hfs & Hst & Hln & _).
  destruct no_sep as (N1 & N2 & N3).
  set (t1 := e_device e) in *. set (t2 := written 10 (e_dev e)) in *. set (t3 := e_name e) in *. set (t4 := e_fs e) in *.
  set (t5 := hex_text (e_start e)) in *. set (t6 := hex_text (e_length e)) in *. set (t7 := e_file e) in *.
  set (Q0 := Q ++ chars "flash"). assert (E0 : Q ++ chars "flash=" = Q0 ++ [61]) by (unfold Q0; by rewrite <- app_assoc).
  set (Q1 := Q0 ++ 61 :: t1). set (Q2 := Q1 ++ 44 :: t2). set (Q3 := Q2 ++ 58 :: t3). set (Q4 := Q3 ++ 58 :: t4).
  set (Q5 := Q4 ++ 58 :: t5). set (Q6 := Q5 ++ 44 :: t6). set (Q7 := Q6 ++ 58 :: t7).
  assert (HT : T = Q0 ++ 61 :: t1 ++ 44 :: t2 ++ 58 :: t3 ++ 58 :: t4 ++ 58 :: t5 ++ 44 :: t6 ++ 58 :: t7 ++ 59 :: rest).
  { unfold T, entry_text, Q0. fold t1 t2 t3 t4 t5 t6 t7. change (chars "flash=") with (chars "flash" ++ [61]).
    repeat (rewrite <- app_assoc || cbn [app]). done. }
  assert (HT' : forall q b t c r, T = q ++ b :: t ++ c :: r -> T = (q ++ b :: t) ++ c :: r) by (intros q b t c r ->; by rewrite <- app_assoc).
  pose proof HT as HT1. apply HT' in HT1. fold Q1 in HT1. pose proof HT1 as HT2. apply HT' in HT2. fold Q2 in HT2.
  pose proof HT2 as HT3. apply HT' in HT3. fold Q3 in HT3. pose proof HT3 as HT4. apply HT' in HT4. fold Q4 in HT4.
  pose proof HT4 as HT5. apply HT' in HT5. fold Q5 in HT5. pose proof HT5 as HT6. apply HT' in HT6. fold Q6 in HT6.
  assert (Hend : Q ++ entry_text e = Q7 ++ [59]).
  { unfold Q7, Q6, Q5, Q4, Q3, Q2, Q1, Q0, entry_text. fold t1 t2 t3 t4 t5 t6 t7. change (chars "flash=") with (chars "flash" ++ [61]).
    repeat (rewrite <- app_assoc || cbn [app]). done. }
  unfold part_entry. rewrite E0, Hend.
  rewrite (next_field T Q0 61 t1 44 _ HT) by (done || by apply field_without). fold Q1. cbn [mbind option_bind].
  rewrite (next_field T Q1 44 t2 58 _ HT1) by (done || by apply field_without). fold Q2. cbn [mbind option_bind].
  assert (Hd : simple_strtoul (cstr t2 (replicate (31 - length t2) 0)) 10 = Some (e_dev e, 0 :: replicate (31 - length t2) 0)).
  { apply (written_number 10 (e_dev e)); [by left|unfold is_u64; lia|reflexivity|lia]. }
  rewrite Hd. cbn [mbind option_bind].
  rewrite (next_field T Q2 58 t3 58 _ HT2) by (done || by apply field_without). fold Q3. cbn [mbind option_bind].
  rewrite (next_field T Q3 58 t4 58 _ HT3) by (done || by apply field_without). fold Q4. cbn [mbind option_bind].
  rewrite find_fs_ok by done. cbn zeta. rewrite Hfp.
  assert (Hnum : forall (K : Z * Z * Z -> option (Z * update_sdcard_part * Z)),
    mbind K (Some (if negb (Z.land (fs_of t4) UPDATE_SDCARD_FS_MASK =? 0) then (fs_of t4, num + 1, num + 1) else (fs_of t4, 0, num))) =
    K (fs_of t4, if has_fs e then num + 1 else 0, if has_fs e then num + 1 else num)).
  { intros K. unfold has_fs. fold t4. by destruct (negb _). }
  rewrite Hnum.
  rewrite (next_field T Q4 58 t5 44 _ HT4) by (done || by apply field_without). fold Q5. cbn [mbind option_bind].
  assert (Hx : forall v, is_u64 v -> simple_strtoul (cstr (hex_text v) (replicate (31 - length (hex_text v)) 0)) 16 = Some (v, 0 :: replicate (31 - length (hex_text v)) 0)).
  { intros v Hv. apply (prefixed_number v Hv); [reflexivity|lia]. }
  rewrite (Hx (e_start e) Hst : simple_strtoul (cstr t5 (replicate (31 - length t5) 0)) 16 = _). cbn [mbind option_bind].
  rewrite (next_field T Q5 44 t6 58 _ HT5) by (done || by apply field_without). fold Q6. cbn [mbind option_bind].
  rewrite (Hx (e_length e) Hln : simple_strtoul (cstr t6 (replicate (31 - length t6) 0)) 16 = _). cbn [mbind option_bind].
  rewrite (next_field T Q6 58 t7 59 _ HT6) by (done || by apply field_without). fold Q7. cbn [mbind option_bind].
  rewrite !until0_cstr by by apply field_text. unfold entry_part. rewrite s32_small by (unfold is_s32; lia). done.
Qed.

(** ** The map as a whole *)

Definition map_text (es : list entry) : list Z := concat (entry_text <$> es).

Lemma entry_head e : entry_text e = chars "flash=" ++ drop 6 (entry_text e).
Proof. reflexivity. Qed.

Lemma memcmp_same a x y : memcmp (a ++ x) (a ++ y) (Z.of_nat (length a)) = Some 0.
Proof.
  induction a as [|c a IH]; [by destruct x|]. cbn [app length memcmp]. destruct (Z.leb_spec (Z.of_nat (S (length a))) 0); [lia|].
  rewrite Z.sub_diag. change (0 =? 0) with true. cbn [negb]. replace (Z.of_nat (S (length a)) - 1) with (Z.of_nat (length a)) by lia. exact IH.
Qed.

Lemma strstr_head t y : text_ok t -> strstr (chars "flash=" ++ t ++ 0 :: y) (cstr (chars "flash=") []) = Some (Some (chars "flash=" ++ t ++ 0 :: y)).
Proof.
  intros Ht. unfold strstr. rewrite strlen_cstr by (apply (bool_decide_unpack _); vm_compute; exact I). cbn [mbind option_bind].
  rewrite app_assoc. assert (Hl : strlen ((chars "flash=" ++ t) ++ 0 :: y) = Some (Z.of_nat (length (chars "flash=" ++ t)))).
  { apply (strlen_cstr (chars "flash=" ++ t)). apply Forall_app. split; [apply (bool_decide_unpack _); vm_compute; exact I|done]. }
  rewrite Hl. cbn [mbind option_bind]. change (Z.of_nat (length (chars "flash=")) =? 0) with false. cbn iota.
  assert (Hlt : (Z.of_nat (length (chars "flash=" ++ t)) <? Z.of_nat (length (chars "flash="))) = false) by (apply Z.ltb_ge; rewrite length_app; lia).
  pose proof (memcmp_same (chars "flash=") (t ++ 0 :: y) [0]) as Hm. rewrite <- app_assoc.
  revert Hlt Hm. unfold cstr. generalize (Z.of_nat (length (chars "flash=" ++ t))) (Z.of_nat (length (chars "flash="))). intros l1 l2 Hlt Hm.
  destruct (chars "flash=" ++ t ++ 0 :: y) as [|c r]; cbn [strstr_loop]; rewrite Hlt, Hm; reflexivity.
Qed.

Lemma strstr_none y : strstr (0 :: y) (cstr (chars "flash=") []) = Some None.
Proof. reflexivity. Qed.

Lemma entry_text_ok e : entry_ok e -> text_ok (entry_text e) /\ Forall (fun c => is_space c = false) (entry_text e) /\ 35 ∉ entry_text e.
Proof.
  intros He. destruct (entry_fields e He) as (F1 & F2 & F3 & F4 & F5 & F6 & F7).
  assert (Hall : Forall (fun c => 0 < c < 256 /\ is_space c = false /\ c <> 35) (entry_text e)).
  { unfold entry_text. assert (Hf : forall t, field t -> Forall (fun c => 0 < c < 256 /\ is_space c = false /\ c <> 35) t).
    { intros t [Ht _]. eapply Forall_impl; [exact Ht|]. intros c (H1 & H2 & H3 & _). done. }
    repeat (apply Forall_app; split; [first [apply Hf; done|repeat constructor; (done || lia)]|]; try (constructor; [done|])).
    by repeat constructor. }
  split_and!.
  - eapply Forall_impl; [exact Hall|]. cbn. tauto.
  - eapply Forall_impl; [exact Hall|]. cbn. tauto.
  - intros Hin. rewrite Forall_forall in Hall. by destruct (Hall 35 Hin) as (_ & _ & ?).
Qed.

Lemma map_text_ok es : Forall entry_ok es -> text_ok (map_text es) /\ Forall (fun c => is_space c = false) (map_text es) /\ 35 ∉ map_text es.
Proof.
  unfold map_text. induction 1 as [|e es He Hes (IH1 & IH2 & IH3)]; cbn [fmap list_fmap concat].
  - split_and!; [constructor|constructor|apply not_elem_of_nil].
  - destruct (entry_text_ok e He) as (H1 & H2 & H3). split_and!; [by apply Forall_app|by apply Forall_app|]. rewrite not_elem_of_app. done.
Qed.

Lemma entries_loop_ok y es : Forall entry_ok es -> forall Q fps err num, (length es <= length fps)%nat -> Forall (fun fp => sd_part_num fp = 0) fps ->
  entries_loop fps (Q ++ map_text es ++ 0 :: y) (Z.of_nat (length Q)) err num =
    Some (match es with [] => err | _ => 0 end, entry_parts num es ++ drop (length es) fps).
Proof.
  induction 1 as [|e es He Hes IH]; intros Q fps err num Hl Hz.
  - destruct fps as [|fp fps]; [done|]. cbn [entries_loop]. unfold update_sdcard_parse_part_head. rewrite text_from_app.
    cbn [map_text fmap list_fmap concat app]. rewrite strstr_none. done.
  - destruct fps as [|fp fps]; [cbn in Hl; lia|]. inversion_clear Hz as [|? ? Hfp Hz']. cbn [entries_loop].
    unfold map_text. cbn [fmap list_fmap concat]. fold (map_text es). rewrite <- app_assoc.
    unfold update_sdcard_parse_part_head. rewrite text_from_app.
    assert (Hs : strstr (entry_text e ++ map_text es ++ 0 :: y) (cstr (chars "flash=") []) = Some (Some (entry_text e ++ map_text es ++ 0 :: y))).
    { rewrite entry_head, <- app_assoc, app_assoc with (l := drop 6 (entry_text e)). apply strstr_head.
      apply Forall_app. split; [apply Forall_drop; by apply entry_text_ok|by apply map_text_ok]. }
    rewrite Hs. cbn [mbind option_bind]. rewrite offset_of_app.
    replace (Z.of_nat (length Q) + 6) with (Z.of_nat (length (Q ++ chars "flash="))) by (rewrite length_app; cbn; lia).
    rewrite (part_entry_ok Q e (map_text es ++ 0 :: y) fp num He Hfp). cbn [mbind option_bind].
    rewrite app_assoc, IH by (done || cbn in Hl; lia). cbn [mbind option_bind]. f_equal. f_equal. by destruct es.
Qed.

Lemma strchr_absent t c x : is_u8 c -> c <> 0 -> text_ok t -> c ∉ t -> strchr (cstr t x) c = Some None.
Proof.
  intros Hc H0. unfold cstr. induction 1 as [|d t Hd Ht IH]; intros Hn; cbn [app strchr]; rewrite (u8_small c Hc).
  - destruct (Z.eqb_spec 0 c); [lia|]. done.
  - rewrite not_elem_of_cons in Hn. destruct (Z.eqb_spec d c) as [->|]; [by destruct Hn|]. destruct (Z.eqb_spec d 0); [lia|]. apply IH. tauto.
Qed.

Lemma lists_make_ok es t x : Forall entry_ok es -> text_ok t -> 35 ∉ t -> kept t = map_text es -> es <> [] -> (length es <= DEV_PART_MAX)%nat ->
  exists y, update_sdcard_part_lists_make (cstr t x) (Z.of_nat (length t)) (replicate DEV_PART_MAX no_sd_part) =
    Some (0, entry_parts 0 es ++ replicate (DEV_PART_MAX - length es) no_sd_part, map_text es ++ 0 :: y).
Proof.
  intros Hes Ht Hn Hk Hne Hl. unfold update_sdcard_part_lists_make. cbn [update_sdcard_parse_comment].
  rewrite strchr_absent by done. cbn [mbind option_bind]. pose proof (kept_length t).
  destruct (sort_string_ok t (0 :: x)) as (y & Hy & _); [cbn [length]; lia|]. change (cstr t x) with (t ++ 0 :: x). rewrite Hy, Hk. cbn [mbind option_bind].
  assert (offset_of (t ++ 0 :: x) (t ++ 0 :: x) = 0) as -> by (unfold offset_of; lia). change (Z.to_nat 0) with O. rewrite take_0. cbn [app].
  pose proof (entries_loop_ok y es Hes [] (replicate DEV_PART_MAX no_sd_part) (-1) 0) as He. cbn [app length] in He. change (Z.of_nat 0) with 0 in He. rewrite He.
  - cbn [mbind option_bind]. rewrite drop_replicate. exists y. by destruct es.
  - by rewrite length_replicate.
  - by apply Forall_replicate.
Qed.

(** ** Comments *)

Lemma kept_no_newline t : 10 ∉ kept t.
Proof. intros Hin. by apply list_elem_of_filter in Hin as [? _]. Qed.

Lemma strchr_present t c x : is_u8 c -> text_ok t -> c ∈ t -> exists a b, t = a ++ c :: b /\ strchr (cstr t x) c = Some (Some (c :: b ++ 0 :: x)).
Proof.
  intros Hc. unfold cstr. induction 1 as [|d t Hd Ht IH]; intros Hin; [by apply not_elem_of_nil in Hin|].
  cbn [app strchr]. rewrite (u8_small c Hc). destruct (Z.eqb_spec d c) as [->|E]; [by exists [], t|].
  destruct (Z.eqb_spec d 0); [lia|]. apply elem_of_cons in Hin as [?|Hin]; [done|]. destruct (IH Hin) as (a & b & -> & E').
  exists (d :: a), b. split; [done|exact E'].
Qed.

(** A comment that no line ends leaves a null pointer behind. *)
Lemma comment_null t x n : text_ok t -> 35 ∈ t -> 10 ∉ t -> update_sdcard_parse_comment (S n) (cstr t x) = Some None.
Proof.
  intros Ht Hin Hn. destruct (strchr_present t 35 x) as (a & b & -> & E); [done|done|done|]. cbn [update_sdcard_parse_comment].
  rewrite E. cbn [mbind option_bind tail]. apply Forall_app in Ht as [_ Ht]. inversion_clear Ht as [|? ? _ Hb].
  change (b ++ 0 :: x) with (cstr b x). rewrite strchr_absent; [done|done|done|done|]. intros Hb'. apply Hn, elem_of_app. right. by right.
Qed.

(** ** The command, up to the writing *)

Section Update.
Context `{HB : BlockDev} `{HS : !Shell} `{HF : !Files}.
Context (get_device : list Z -> bdev -> bool) (getenv : list Z -> option (list Z)).

(** The map is on the card: [t] is at [addr] when it has been read. *)
Record loaded (a1 a2 a3 a4 t : list Z) (addr : Z) (m m1 : mem) (d : bdev) : Prop := {
  l_device : fs_set_blk_dev a1 (Some a2) FS_TYPE_FAT d = false;
  l_addr : exists r, simple_strtoul (cstr a3 []) 16 = Some (addr, r);
  l_read : fs_read a4 addr 0 0 m d = (0, Z.of_nat (length t), m1);
  l_holds : holds m1 addr t;
  l_room : UMem.fits m1 addr (Z.of_nat (length t) + 2);
  l_text : text_ok t;
  l_length : 0 < Z.of_nat (length t) < 2 ^ 31 - 2;
}.

Lemma do_load_ok a1 a2 a3 a4 t addr m m1 d cmd rest : loaded a1 a2 a3 a4 t addr m m1 d ->
  update_sd_do_load getenv 5 (cmd :: Some a1 :: Some a2 :: Some a3 :: Some a4 :: rest) FS_TYPE_FAT 16 m d = Some (Z.of_nat (length t), m1).
Proof.
  intros [Hd [r Ha] Hr _ _ _ Hl]. unfold update_sd_do_load. change (5 <? 2) with false. change (7 <? 5) with false. change (3 <=? 5) with true.
  change (5 <=? 5) with true. cbn iota. cbn [lookup list_lookup mjoin option_join mbind option_bind]. rewrite Hd.
  unfold arg_number. change (Z.of_nat 4 <=? 5) with true. change (Z.of_nat 6 <=? 5) with false. change (Z.of_nat 7 <=? 5) with false. cbn iota.
  cbn [lookup list_lookup mjoin option_join mbind option_bind]. rewrite Ha. cbn [mbind option_bind]. rewrite Hr.
  destruct (Z.leb_spec (Z.of_nat (length t)) 0); [lia|]. change (0 <? 0) with false. cbn [orb].
  assert (Hf : format (length (chars "0x%llx" ++ [0])) (chars "0x%llx" ++ [0]) [Long (Z.of_nat (length t))] 0 = Some (hex_text (Z.of_nat (length t)), [])).
  { change (length (chars "0x%llx" ++ [0])) with 7%nat. change (chars "0x%llx" ++ [0]) with [48; 120; 37; 108; 108; 120; 0].
    assert (is_u64 (Z.of_nat (length t))) by (unfold is_u64; lia). run_format. cbn [app]. by rewrite app_nil_r. }
  destruct (written_field 16 (Z.of_nat (length t)) 8) as [[Hwf _] Hwl]; [by right|unfold is_u64; lia|change (16 ^ Z.of_nat 8) with (2 ^ 32); lia|lia|].
  destruct (sprintf_text (replicate 12 0) _ _ _ Hf) as (b & -> & _); [|unfold hex_text; rewrite length_app, length_replicate; cbn [length]; lia|done|].
  { apply Forall_app. split; [repeat constructor|]. apply written_text; [lia|unfold is_u64; lia]. }
  cbn [mbind option_bind]. rewrite s32_small by (unfold is_s32; lia). done.
Qed.

(** What is left to do when the map has been loaded, with its blanks taken out. *)
Lemma do_update_loaded a1 a2 a3 a4 t addr m m1 d cmd rest : loaded a1 a2 a3 a4 t addr m m1 d ->
  exists m2 y, (forall q, q < addr \/ addr + Z.of_nat (length t) + 2 <= q -> m2 !! q = m1 !! q) /\ (forall q n, UMem.fits m1 q n -> UMem.fits m2 q n) /\
    (length (kept t) + length y = length t + 1)%nat /\
    do_update_sdcard get_device getenv 5 (cmd :: Some a1 :: Some a2 :: Some a3 :: Some a4 :: rest) m d =
      '(err, fps, p) ← update_sdcard_part_lists_make (cstr (kept t) y) (Z.of_nat (length (kept t))) (replicate DEV_PART_MAX no_sd_part);
      let m := UMem.write addr p m2 in
      if err <? 0 then Some (-1, m, d) else sdcard_update get_device fps addr a2 FS_TYPE_FAT m d.
Proof.
  intros Hl. pose proof (do_load_ok _ _ _ _ _ _ _ _ _ cmd rest Hl) as Hload. destruct Hl as [Hd [r Ha] Hr Hh Hf Ht Hlen].
  set (m2 := <[addr + (Z.of_nat (length t) + 1) := 0]> m1). set (n := length t) in *.
  destruct (Hf (addr + Z.of_nat n)) as [c Hc]; [lia|].
  assert (Hread : read_bytes m2 addr (Z.of_nat n + 2) = Some (t ++ [c; 0])).
  { unfold read_bytes. apply mapM_Some. apply Forall2_same_length_lookup_2; [rewrite length_seqZ, length_app; cbn [length]; unfold n; lia|].
    intros i q b Hq Hb. apply lookup_seqZ in Hq as [-> Hi]. unfold load, m2. destruct (decide (i < n)%nat) as [Hin|Hin].
    - rewrite lookup_insert_ne by lia. apply Hh. by rewrite lookup_app_l in Hb.
    - rewrite lookup_app_r in Hb by (unfold n in *; lia). assert (i - length t = 0 \/ i - length t = 1)%nat as [E|E] by (unfold n in *; lia); rewrite E in Hb; injection Hb as <-.
      + rewrite lookup_insert_ne by (unfold n in *; lia). rewrite <- Hc. f_equal. unfold n in *. lia.
      + replace (addr + Z.of_nat i) with (addr + (Z.of_nat n + 1)) by (unfold n in *; lia). apply lookup_insert_eq. }
  pose proof (kept_length t) as Hk. destruct (sort_string_ok t [c; 0]) as (y & Hy & Hyl); [cbn [length]; lia|].
  exists m2, y. split_and!.
  - intros q Hq. unfold m2. apply lookup_insert_ne. lia.
  - intros q k Hq. by apply fits_insert.
  - cbn [length] in Hyl. unfold n. lia.
  - unfold do_update_sdcard. change (negb (5 =? 5)) with false. cbn iota. rewrite Hload. cbn [mbind option_bind].
    destruct (Z.leb_spec (Z.of_nat n) 0); [lia|]. cbn [mbind option_bind lookup list_lookup mjoin option_join]. rewrite Ha. cbn [mbind option_bind].
    destruct (Z.leb_spec (Z.of_nat n) 0); [lia|].
    rewrite store_ok by (apply Hf; lia). fold m2. cbn [mbind option_bind]. rewrite Hread. cbn [mbind option_bind]. unfold n. rewrite Hy. cbn [mbind option_bind].
    assert (Hs : strlen (kept t ++ 0 :: y) = Some (Z.of_nat (length (kept t)))) by (apply (strlen_cstr (kept t) y); by apply kept_text).
    rewrite Hs. cbn [mbind option_bind]. rewrite s32_small by (unfold is_s32; unfold n in *; lia). done.
Qed.

(** ** Claims *)

(** C30: a partition map, with blanks and newlines wherever one likes, is read into the
    entries it was written from: the device, the type, the start and length and the file
    of each, and partitions with a file system are numbered from 1 on. *)
Theorem partmap_roundtrip es t x : Forall entry_ok es -> text_ok t -> 35 ∉ t -> kept t = map_text es -> es <> [] -> (length es <= DEV_PART_MAX)%nat ->
  exists y, update_sdcard_part_lists_make (cstr t x) (Z.of_nat (length t)) (replicate DEV_PART_MAX no_sd_part) =
    Some (0, entry_parts 0 es ++ replicate (DEV_PART_MAX - length es) no_sd_part, map_text es ++ 0 :: y).
Proof. intros. by apply lists_make_ok. Qed.

(** A map with a comment is never read: newlines are taken out before comments are
    passed over, so that no comment ends, and what is left is a null pointer. *)
Theorem partmap_comment_crashes a1 a2 a3 a4 t addr m m1 d cmd rest : loaded a1 a2 a3 a4 t addr m m1 d -> 35 ∈ t ->
  do_update_sdcard get_device getenv 5 (cmd :: Some a1 :: Some a2 :: Some a3 :: Some a4 :: rest) m d = None.
Proof.
  intros Hl Hc. destruct (do_update_loaded _ _ _ _ _ _ _ _ _ cmd rest Hl) as (m2 & y & _ & _ & _ & ->). unfold update_sdcard_part_lists_make.
  rewrite comment_null; [done|apply kept_text, Hl|by apply list_elem_of_filter|apply kept_no_newline].
Qed.
End Update.

(** ** Examples *)

(** A card with files; every device is there. *)
Definition ram_files {HB : BlockDev} (files : list Z -> option (list Z)) : Files := {|
  fs_set_blk_dev _ _ _ _ := false;
  fs_read name addr _ _ m _ := match files name with Some bs => (0, Z.of_nat (length bs), UMem.write addr bs m) | None => (-1, 0, m) end;
|}.


(** The map of a card, with a comment. *)
Definition noted_map : list Z := chars "# card" ++ [10] ++ chars "flash=mmc,2:a:ext4:0x100000,0x80000:a.img;" ++ [10].

Definition noted_files (name : list Z) : option (list Z) := if bool_decide (name = chars "partmap.txt") then Some noted_map else None.

Definition noted_base : mem := UMem.write small_base (replicate 100 0) ∅.

Definition two_entries : list entry :=
  [mkEntry (chars "mmc") 2 (chars "2ndboot") (chars "2nd") 0x200 0x7e00 (chars "2nd.bin");
   mkEntry (chars "mmc") 2 (chars "boot") (chars "ext4") 0x100000 0x4000000 (chars "boot.img")].

Definition two_lines : list Z := chars "flash= mmc,2:2ndboot:2nd:0x200,0x7e00:2nd.bin;" ++ [10] ++ chars "flash= mmc,2:boot:ext4:0x100000, 0x4000000:boot.img;" ++ [10].

Lemma partmap_roundtrip_witness : exists y,
  update_sdcard_part_lists_make (cstr two_lines []) (Z.of_nat (length two_lines)) (replicate DEV_PART_MAX no_sd_part) =
    Some (0, [mkSd (chars "mmc") 2 (chars "2ndboot") UPDATE_SDCARD_FS_2NDBOOT 0x200 0x7e00 (chars "2nd.bin") 0;
              mkSd (chars "mmc") 2 (chars "boot") UPDATE_SDCARD_FS_EXT4 0x100000 0x4000000 (chars "boot.img") 1] ++ replicate 14 no_sd_part, y).
Proof.
  destruct (partmap_roundtrip two_entries two_lines []) as (y & Hy).
  - assert (field (chars "mmc") /\ field (chars "2ndboot") /\ field (chars "boot") /\ field (chars "2nd.bin") /\ field (chars "boot.img")) as (F1 & F2 & F3 & F4 & F5)
      by (unfold field, field_char; split_and!; refine (bool_decide_eq_true_1 _ _); vm_compute; reflexivity).
    constructor; [|constructor; [|constructor]]; unfold entry_ok; cbn [e_device e_dev e_name e_fs e_start e_length e_file].
    + split; [exact F1|]. split; [lia|]. split; [exact F2|]. split; [by apply (list_elem_of_lookup_2 _ 0)|]. split; [unfold is_u64; lia|]. split; [unfold is_u64; lia|exact F4].
    + split; [exact F1|]. split; [lia|]. split; [exact F3|]. split; [by apply (list_elem_of_lookup_2 _ 4)|]. split; [unfold is_u64; lia|]. split; [unfold is_u64; lia|exact F5].
  - refine (bool_decide_eq_true_1 _ _). vm_compute. reflexivity.
  - refine (bool_decide_eq_true_1 _ _). vm_compute. reflexivity.
  - vm_compute. reflexivity.
  - discriminate.
  - unfold DEV_PART_MAX. simpl. lia.
  - eexists. exact Hy.
Defined.

Lemma partmap_comment_crashes_witness :
  @do_update_sdcard _ ram_shell (ram_files noted_files) (fun _ _ => true) (fun _ => None) 5
    [Some (chars "sd_recovery"); Some (chars "mmc"); Some (chars "0:1"); Some (chars "48000000"); Some (chars "partmap.txt")] noted_base used_disk = None.
Proof.
  apply (@partmap_comment_crashes _ ram_shell (ram_files noted_files) (fun _ _ => true) (fun _ => None)
    (chars "mmc") (chars "0:1") (chars "48000000") (chars "partmap.txt") noted_map small_base noted_base (UMem.write small_base noted_map noted_base)).
  - constructor.
    + reflexivity.
    + exists [0]. vm_compute. reflexivity.
    + cbn [fs_read ram_files]. unfold noted_files. rewrite bool_decide_true by reflexivity. reflexivity.
    + apply write_holds.
    + apply fits_write. pose proof (holds_fits _ _ _ (write_holds small_base (replicate 100 0) ∅)) as Hf. rewrite length_replicate in Hf.
      eapply fits_sub; [exact Hf|lia|vm_compute; discriminate].
    + refine (bool_decide_eq_true_1 _ _). vm_compute. reflexivity.
    + vm_compute. split; reflexivity.
  - refine (bool_decide_eq_true_1 _ _). vm_compute. reflexivity.
Defined.
