(* ===== verification/CmdShell.v ===== *)
(** The command lines that commands print and run: [SdRecovery] prints lines that call
    [fdisk] ([MmcPart]) and [ext4_img_write] ([Ext4Img]), which prints lines that call
    [mmc].  The texts are the ones meant; [RecoveryShell] says that such a line calls its
    command, [GoodFiles] that a file is read into memory.  Both shells are made of the
    simple command line ([Cli]) with a table of these commands, one in the other for as
    deep as commands run lines; [mmc] is a parameter. *)

From S2P Require Import Prelude UStr EnvVars Cli Vsprintf UMem MmcPart Ext4Img SdRecovery.

(** ** Printing *)

Lemma sprintf_fills buf fmt args text : format (length fmt) fmt args 0 = Some (text, []) -> text_ok text ->
  (length text < length buf)%nat -> Z.of_nat (length buf) < 2 ^ 31 ->
  sprintf false buf fmt args = Some (Z.of_nat (length text), text ++ 0 :: drop (S (length text)) buf).
Proof.
  intros Hf Ht Hl Hb. unfold sprintf, vsprintf. rewrite (internal_unchecked buf INT_MAX fmt args text [] Hf) by lia.
  destruct (Nat.ltb_spec (length text) (length buf)); [|lia]. unfold overlay. rewrite <- app_assoc, length_app. cbn [app length].
  by replace (length text + 1)%nat with (S (length text)) by lia.
Qed.

(** Printing behind the text [t]. *)
Lemma print_at_ok t r fmt vs u : format (length fmt) fmt vs 0 = Some (u, []) -> text_ok u -> (length u < length r)%nat ->
  Z.of_nat (length r) < 2 ^ 31 ->
  print_at (t ++ r) (length t) fmt vs = Some (length (t ++ u), (t ++ u) ++ 0 :: drop (S (length u)) r).
Proof.
  intros Hf Hu Hl Hr. unfold print_at. rewrite drop_app_length, (sprintf_fills r fmt vs u Hf Hu Hl Hr). cbn [mbind option_bind].
  rewrite Nat2Z.id, take_app_length, length_app. by rewrite <- app_assoc.
Qed.

Definition part_words (p : Z * Z) : list Z := hex_text p.1 ++ 58 :: hex_text p.2.

Lemma hex_text_ok v : is_u64 v -> text_ok (hex_text v) /\ (length (hex_text v) <= 18)%nat.
Proof.
  intros Hv. split; [by apply field_text, hex_field|]. unfold hex_text. rewrite length_app. cbn [length].
  pose proof (written_room 16 v 16 ltac:(lia)) as H. unfold is_u64 in Hv. specialize (H ltac:(change (16 ^ Z.of_nat 16) with (2 ^ 64); lia) ltac:(lia)). lia.
Qed.

Lemma part_words_ok p : is_u64 p.1 -> is_u64 p.2 -> text_ok (32 :: part_words p) /\ (length (32%Z :: part_words p) <= 38)%nat.
Proof.
  intros H1 H2. destruct (hex_text_ok _ H1) as [T1 L1]. destruct (hex_text_ok _ H2) as [T2 L2]. unfold part_words. split.
  - constructor; [lia|]. apply Forall_app. split; [done|]. constructor; [lia|done].
  - cbn [length]. rewrite length_app. cbn [length]. lia.
Qed.

Lemma print_parts_ok ps : Forall (fun p => is_u64 p.1 /\ is_u64 p.2) ps -> forall t r, (38 * length ps < length r)%nat -> Z.of_nat (length r) < 2 ^ 31 ->
  exists r', print_parts ps (t ++ r) (length t) = Some (length (t ++ concat ((fun p => 32 :: part_words p) <$> ps)), (t ++ concat ((fun p => 32 :: part_words p) <$> ps)) ++ r') /\
    (length r <= length r' + 38 * length ps)%nat.
Proof.
  induction 1 as [|p ps [H1 H2] Hps IH]; intros t r Hl Hr; cbn [print_parts fmap list_fmap concat].
  - exists r. rewrite app_nil_r. split; [done|lia].
  - destruct (part_words_ok p H1 H2) as [Ht Hlen]. set (u := 32 :: part_words p) in *. cbn [length] in Hl.
    assert (Hf : format (length (chars " 0x%llx:0x%llx" ++ [0])) (chars " 0x%llx:0x%llx" ++ [0]) [Long p.1; Long p.2] 0 = Some (u, [])).
    { change (length (chars " 0x%llx:0x%llx" ++ [0])) with 15%nat.
      change (chars " 0x%llx:0x%llx" ++ [0]) with [32; 48; 120; 37; 108; 108; 120; 58; 48; 120; 37; 108; 108; 120; 0].
      run_format. cbn [app]. rewrite app_nil_r. unfold u, part_words, hex_text. by rewrite <- app_assoc. }
    rewrite (print_at_ok t r _ _ u Hf Ht) by (done || lia). cbn [mbind option_bind].
    destruct (IH (t ++ u) (0 :: drop (S (length u)) r)) as (r' & Hp & Hl'); [cbn [length]; rewrite length_drop; lia|cbn [length]; rewrite length_drop; lia|].
    exists r'. rewrite Hp, <- app_assoc. split; [done|]. cbn [length] in Hl'. rewrite length_drop in Hl'. cbn [length]. lia.
Qed.

(** The line that makes the table. *)
Definition fdisk_text (dev : Z) (ps : list (Z * Z)) : list Z :=
  (chars "fdisk " ++ written 10 dev ++ 32 :: written 10 (Z.of_nat (length ps)) ++ [58]) ++ concat ((fun p => 32 :: part_words p) <$> ps).

Lemma written10 v : 0 <= v < 2 ^ 31 -> text_ok (written 10 v) /\ (length (written 10 v) <= 10)%nat.
Proof.
  intros Hv. split; [apply written_text; [lia|unfold is_u64; lia]|]. apply written_room; [lia|change (10 ^ Z.of_nat 10) with 10000000000; lia|lia].
Qed.

Section Making.
Context `{HB : BlockDev} `{HS : !Shell} `{HF : !Files}.

Lemma count_parts_ok es : forall n num, Forall (fun e => entry_ok e /\ e_device e <> []) es -> (length es <= n)%nat ->
  forall tl, (length es < n -> exists fps, tl = no_sd_part :: fps)%nat ->
  count_parts n (entry_parts num es ++ tl) = Some ((fun e => (e_start e, e_length e)) <$> es).
Proof.
  induction es as [|e es IH]; intros n num Hes Hl tl Htl.
  - destruct n; [done|]. destruct Htl as [fps ->]; [cbn; lia|]. done.
  - destruct n; [cbn in Hl; lia|]. inversion_clear Hes as [|? ? [He Hd] Hes']. cbn [count_parts entry_parts app head tail mbind option_bind sd_device entry_part].
    destruct (strcmp_cstr (e_device e) [] [] []) as (r & -> & Hr); [apply field_text, He|constructor|]. cbn [mbind option_bind].
    destruct (Z.eqb_spec r 0) as [E|E]; [by apply Hr in E|].
    rewrite IH; [done|done|cbn in Hl; lia|]. intros Hlt. apply Htl. cbn. lia.
Qed.

(** What [make_mmc_partition] runs. *)
Lemma make_partition_ok e es num tl m d : Forall (fun e => entry_ok e /\ e_device e <> []) (e :: es) -> (length (e :: es) <= DEV_PART_MAX)%nat ->
  (length (e :: es) < DEV_PART_MAX -> exists fps, tl = no_sd_part :: fps)%nat ->
  make_mmc_partition (entry_parts num (e :: es) ++ tl) m d =
    let '(r, m, d) := run_command (fdisk_text (e_dev e) ((fun e => (e_start e, e_length e)) <$> e :: es)) m d in Some (if r <? 0 then -1 else 0, m, d).
Proof.
  intros Hes Hl Htl. unfold make_mmc_partition. rewrite (count_parts_ok (e :: es)) by done. cbn [entry_parts app head mbind option_bind sd_dev_no entry_part].
  set (ps := (fun e => (e_start e, e_length e)) <$> e :: es). assert (Hlp : length ps = length (e :: es)) by apply length_fmap.
  unfold DEV_PART_MAX in Hl. assert (Hps : Forall (fun p => is_u64 p.1 /\ is_u64 p.2) ps).
  { apply Forall_fmap. eapply Forall_impl; [exact Hes|]. intros x [(_ & _ & _ & _ & H1 & H2 & _) _]. done. }
  inversion_clear Hes as [|? ? [(_ & Hdev & _) _] _].
  destruct (written10 _ Hdev) as [T1 L1]. destruct (written10 (Z.of_nat (length ps))) as [T2 L2]; [lia|].
  set (t := chars "fdisk " ++ written 10 (e_dev e) ++ 32 :: written 10 (Z.of_nat (length ps)) ++ [58]).
  assert (Hf : format (length (chars "fdisk %d %d:" ++ [0])) (chars "fdisk %d %d:" ++ [0]) [Int (e_dev e); Int (Z.of_nat (length ps))] 0 = Some (t, [])).
  { change (length (chars "fdisk %d %d:" ++ [0])) with 13%nat.
    change (chars "fdisk %d %d:" ++ [0]) with [102; 100; 105; 115; 107; 32; 37; 100; 32; 37; 100; 58; 0].
    run_format. cbn [app]. done. }
  assert (Ht : text_ok t) by (repeat (apply Forall_app; split); try done; [repeat constructor|constructor; [lia|apply Forall_app; split; [done|repeat constructor]]]).
  assert (Htl' : (length t <= 28)%nat) by (unfold t; rewrite !length_app; cbn [length]; rewrite length_app; cbn [length]; change (length (chars "fdisk ")) with 6%nat; lia).
  pose proof (print_at_ok [] (replicate 1024 0) _ _ t Hf Ht) as Hp. rewrite length_replicate in Hp. cbn [app length] in Hp. rewrite Hp by lia. clear Hp.
  cbn [mbind option_bind]. destruct (print_parts_ok ps Hps t (0 :: drop (S (length t)) (replicate 1024 0))) as (r' & -> & Hr');
    [cbn [length]; rewrite length_drop, length_replicate; lia|cbn [length]; rewrite length_drop, length_replicate; lia|].
  cbn [mbind option_bind]. fold t. cbn [length] in Hr'. rewrite length_drop, length_replicate in Hr'.
  set (body := concat _) in *.
  assert (Hbody : text_ok body /\ (length body <= 38 * length ps)%nat).
  { unfold body. clear -Hps. induction Hps as [|p ps [H1 H2] _ [IH1 IH2]]; cbn [fmap list_fmap concat length]; [split; [constructor|lia]|].
    destruct (part_words_ok p H1 H2) as [Hw Hwl]. split; [by apply Forall_app|]. rewrite length_app. lia. }
  destruct Hbody as [Hb1 Hb2]. rewrite length_app. destruct (Nat.leb_spec 1024 (length t + length body)); [lia|].
  destruct r' as [|c r']; [cbn [length] in Hr'; lia|]. rewrite <- length_app, insert_app_r_alt, Nat.sub_diag by lia. cbn [list_insert insert].
  change ((t ++ body) ++ 0 :: r') with (cstr (t ++ body) r'). rewrite until0_cstr by by apply Forall_app.
  unfold fdisk_text. fold t body. destruct (run_command (t ++ body) m d) as [[r m'] d']. by destruct (r <? 0).
Qed.
End Making.

(** ** The interfaces *)

Definition fdisk_args (dev : Z) (ps : list (Z * Z)) : list (option (list Z)) :=
  Some (chars "fdisk") :: Some (written 10 dev) :: Some (written 10 (Z.of_nat (length ps)) ++ [58]) :: ((fun p => Some (part_words p)) <$> ps) ++ [None].

Definition image_args (dev addr num len : Z) : list (option (list Z)) :=
  [Some (chars "ext4_img_write"); Some (written 10 dev); Some (written 16 addr); Some (written 10 num); Some (written 16 len); None].

Definition image_text (dev addr num len : Z) : list Z :=
  chars "ext4_img_write " ++ written 10 dev ++ 32 :: written 16 addr ++ 32 :: written 10 num ++ 32 :: written 16 len.

(** The lines call the commands; a result other than 0 is 1 to the caller.  The commands
    run lines of their own in a shell [HI]. *)
Class RecoveryShell {HB : BlockDev} (HI HO : Shell) (good : bdev -> Prop) (get_device : list Z -> bool) (relocaddr : Z) (fuel : nat) := {
  rs_fdisk dev ps m d r d' : good d -> 0 <= dev < 2 ^ 31 -> Forall (fun p => is_u64 p.1 /\ is_u64 p.2) ps -> (1 <= length ps <= 12)%nat ->
    do_fdisk get_device (3 + Z.of_nat (length ps)) (fdisk_args dev ps) d = Some (r, d') ->
    @run_command _ HO (fdisk_text dev ps) m d = (if r =? 0 then 0 else 1, m, d');
  rs_image dev addr num len m d r m' d' : good d -> 0 <= dev < 2 ^ 31 -> 0 <= addr < 2 ^ 32 -> 0 <= num < 2 ^ 31 -> 0 <= len < 2 ^ 32 ->
    @do_compressed_ext4_write _ HI (@write_raw_chunk _ HI relocaddr) get_device fuel 5 (image_args dev addr num len) m d = Some (r, m', d') ->
    @run_command _ HO (image_text dev addr num len) m d = (if r =? 0 then 0 else 1, m', d');
}.

Class GoodFiles `{HF : Files} (good : bdev -> Prop) (files : list Z -> option (list Z)) := {
  fs_device_ok dev ty d : good d -> fs_set_blk_dev dev (Some ty) FS_TYPE_FAT d = false;
  fs_read_ok name bs addr m d : good d -> files name = Some bs -> UMem.fits m addr (Z.of_nat (length bs)) ->
    fs_read name addr 0 0 m d = (0, Z.of_nat (length bs), UMem.write addr bs m);
}.

(** ** A shell made of the simple command line *)

Section Shells.
Context {HB : BlockDev} (bwrite : Z -> Z -> list Z -> bdev -> Z * bdev).
Context (mmc_cmd : Z -> Z -> list (option (list Z)) -> mem * bdev -> option (Z * (mem * bdev))).
Context (getenv : list Z -> option (list Z)) (get_device : list Z -> bool) (relocaddr : Z) (fuel : nat).

(** The entries of the table, with the numbers of arguments of their U_BOOT_CMD. *)
Definition mmc_entry : cmd_tbl := mkCmd (chars "mmc") 29 1 mmc_cmd false.

Definition fdisk_entry : cmd_tbl := mkCmd (chars "fdisk") 16 1 (fun _ argc argv (s : mem * bdev) =>
  '(r, d) ← do_fdisk get_device argc argv s.2; Some (r, (s.1, d))) false.

Definition image_entry (HI : Shell) : cmd_tbl := mkCmd (chars "ext4_img_write") (Z.of_nat CONFIG_SYS_MAXARGS) 1 (fun _ argc argv (s : mem * bdev) =>
  '(r, m, d) ← @do_compressed_ext4_write _ HI (@write_raw_chunk _ HI relocaddr) get_device fuel argc argv s.1 s.2; Some (r, (m, d))) false.

(** Nobody presses Control-C. *)
Definition cli_shell (table : list (@cmd_tbl (mem * bdev))) : Shell := {|
  run_command line m d :=
    match Cli.run_command (fun _ => getenv) id (fun _ => false) table (cstr line []) 0 (m, d) with
    | Some (r, (m, d)) => (r, m, d)
    | None => (-1, m, d)
    end;
  mmc_bwrite := bwrite;
|}.

(** The shell of the prompt is [shell 2]; its commands run their lines in [shell 1]. *)
Fixpoint shell (n : nat) : Shell :=
  cli_shell (mmc_entry :: fdisk_entry :: match n with O => [] | S n => [image_entry (shell n)] end).

Definition more (n : nat) : list (@cmd_tbl (mem * bdev)) := match n with O => [] | S n => [image_entry (shell n)] end.

Lemma table_text n : Forall (fun c => text_ok (name c)) (mmc_entry :: fdisk_entry :: more n).
Proof.
  repeat (constructor; [apply (bool_decide_unpack _); vm_compute; exact I|]). destruct n; repeat constructor.
  all: apply (bool_decide_unpack _); vm_compute; exact I.
Qed.

(** A line of plain words on such a shell. *)
Lemma shell_words n w ws c line m d : line = join (w :: ws) -> Forall plain_word (w :: ws) -> (length (w :: ws) < CONFIG_SYS_MAXARGS)%nat ->
  Z.of_nat (length line) < CONFIG_SYS_CBSIZE -> full_match (before_dot w) (mmc_entry :: fdisk_entry :: more n) = Some c ->
  15 <= maxargs c -> is_bootd c = false ->
  @run_command _ (shell n) line m d =
    match cmd c 0 (Z.of_nat (length (w :: ws))) ((Some <$> w :: ws) ++ [None]) (m, d) with
    | Some (r, (m, d)) => (if r =? 0 then 0 else 1, m, d)
    | None => (-1, m, d)
    end.
Proof.
  intros -> Hws Hn Hl Hc Ha Hb. assert (E : @run_command _ (shell n) (join (w :: ws)) m d =
    match Cli.run_command (fun _ => getenv) id (fun _ => false) (mmc_entry :: fdisk_entry :: more n) (cstr (join (w :: ws)) []) 0 (m, d) with
    | Some (r, (m, d)) => (r, m, d) | None => (-1, m, d) end) by (by destruct n). rewrite E. clear E.
  rewrite (run_words _ _ _ _ w ws 0 c); [|done|done|done|apply table_text|done|unfold CONFIG_SYS_MAXARGS in Hn; lia|done|done].
  unfold id. by destruct (cmd c 0 _ _ (m, d)) as [[r [m' d']]|].
Qed.

(** *** The words *)

Lemma written_plain b v : b = 10 \/ b = 16 -> is_u64 v -> plain_word (written b v).
Proof.
  intros Hb Hv. assert (H2 : 2 <= b <= 16) by lia. split; [by apply written_nonempty|]. apply Forall_forall. intros c Hc.
  pose proof (written_text b v H2 Hv) as Ht. unfold text_ok in Ht. rewrite Forall_forall in Ht.
  assert (Hn : forall e, isxdigit e = false -> c <> e) by (intros e He ->; by apply (written_without b v e H2 Hv He)).
  split; [by apply Ht|]. split; [|split_and!; by apply Hn]. unfold isblank. apply orb_false_iff. rewrite !Z.eqb_neq. split; by apply Hn.
Qed.

Lemma plain_app u w : plain_word u -> Forall plain w -> plain_word (u ++ w).
Proof. intros [Hu Hp] Hw. split; [by destruct u|by apply Forall_app]. Qed.

Lemma hex_plain v : is_u64 v -> plain_word (48 :: 120 :: written 16 v).
Proof. intros Hv. apply (plain_app [48; 120]); [apply (bool_decide_unpack _); vm_compute; exact I|]. apply written_plain; [by right|done]. Qed.

Lemma part_words_plain p : is_u64 p.1 -> is_u64 p.2 -> plain_word (part_words p).
Proof.
  intros H1 H2. unfold part_words, hex_text. cbn [app]. change (48 :: 120 :: written 16 p.1 ++ 58 :: 48 :: 120 :: written 16 p.2) with
    ((48 :: 120 :: written 16 p.1) ++ 58 :: 48 :: 120 :: written 16 p.2).
  apply plain_app; [by apply hex_plain|]. constructor; [apply (bool_decide_unpack _); vm_compute; exact I|]. by apply hex_plain.
Qed.

Lemma join_texts ws w : join (w :: ws) = w ++ concat ((fun x => 32 :: x) <$> ws).
Proof.
  revert w. induction ws as [|w2 ws IH]; intros w; [by rewrite app_nil_r|]. rewrite join_cons, IH by done. done.
Qed.

Lemma fdisk_words dev ps : fdisk_text dev ps = join (chars "fdisk" :: written 10 dev :: (written 10 (Z.of_nat (length ps)) ++ [58]) :: (part_words <$> ps)).
Proof.
  rewrite join_texts. cbn [fmap list_fmap concat]. unfold fdisk_text. rewrite <- list_fmap_compose.
  change (chars "fdisk ") with (chars "fdisk" ++ [32]). rewrite <- !app_assoc. cbn [app]. rewrite <- !app_assoc. done.
Qed.

(** *** The laws *)

Class GoodMmcCmd (disk : Z) (good : bdev -> Prop) (content : bdev -> Z -> list Z) := {
  mmc_disk : 0 <= disk < 2 ^ 31;
  mmc_dev m d : good d ->
    exists d', mmc_cmd 0 3 [Some (chars "mmc"); Some (chars "dev"); Some (written 10 disk); None] (m, d) = Some (0, (m, d')) /\
      good d' /\ lba d' = lba d /\ forall x, content d' x = content d x;
  mmc_write_ok a s n bs m d : good d -> 0 <= a < 2 ^ 32 -> 0 <= s -> 0 < n -> s + n <= lba d ->
    holds m a bs -> Z.of_nat (length bs) = 512 * n ->
    exists d', mmc_cmd 0 5 [Some (chars "mmc"); Some (chars "write"); Some (48 :: 120 :: written 16 a); Some (48 :: 120 :: written 16 s); Some (48 :: 120 :: written 16 n); None] (m, d)
        = Some (0, (m, d')) /\ good d' /\ lba d' = lba d /\
      forall x, content d' x = if (s <=? x) && (x <? s + n) then slice (Z.to_nat (512 * (x - s))) 512 bs else content d x;
}.

Context {disk : Z} {good : bdev -> Prop} {content : bdev -> Z -> list Z} {HGD : GoodDev good content} {HGM : GoodMmcCmd disk good content}.

#[global] Instance shell_good n : @GoodShell _ (shell n) disk good content.
Proof.
  constructor; [exact HGD|exact mmc_disk| |].
  - intros m d Hg. pose proof mmc_disk as Hk. destruct (mmc_dev m d Hg) as (d' & Hr & Hd). exists d'. split; [|exact Hd].
    rewrite (shell_words n (chars "mmc") [chars "dev"; written 10 disk] mmc_entry); [|done| | | |done|done|done].
    + cbn [cmd mmc_entry length fmap list_fmap app]. change (Z.of_nat 3) with 3. by rewrite Hr.
    + do 2 (constructor; [apply (bool_decide_unpack _); vm_compute; exact I|]). constructor; [|constructor]. apply written_plain; [by left|unfold is_u64; lia].
    + unfold CONFIG_SYS_MAXARGS. cbn [length]. lia.
    + unfold dev_text. rewrite length_app. change (length (chars "mmc dev ")) with 8%nat. pose proof (proj2 (written10 disk Hk)). unfold CONFIG_SYS_CBSIZE. lia.
  - intros a s k bs m d Hg Ha Hs Hk Hl Hh Hlen. pose proof (dev_lba d Hg) as Hlba.
    destruct (mmc_write_ok a s k bs m d Hg Ha Hs Hk Hl Hh Hlen) as (d' & Hr & Hd). exists d'. split; [|exact Hd].
    assert (is_u64 a /\ is_u64 s /\ is_u64 k) as (Ua & Us & Uk) by (unfold is_u64; lia).
    rewrite (shell_words n (chars "mmc") [chars "write"; 48 :: 120 :: written 16 a; 48 :: 120 :: written 16 s; 48 :: 120 :: written 16 k] mmc_entry);
      [| | | | |done|done|done].
    + cbn [cmd mmc_entry length fmap list_fmap app]. change (Z.of_nat 5) with 5. by rewrite Hr.
    + unfold write_text. cbn [join]. change (chars "mmc write 0x") with (chars "mmc" ++ 32 :: chars "write" ++ [32; 48; 120]). rewrite <- !app_assoc.
      cbn [app]. rewrite <- !app_assoc. done.
    + repeat (constructor; [first [by apply hex_plain|apply (bool_decide_unpack _); vm_compute; exact I]|]). constructor.
    + unfold CONFIG_SYS_MAXARGS. cbn [length]. lia.
    + unfold write_text. rewrite !length_app. change (length (chars "mmc write 0x")) with 12%nat. change (length (chars " 0x")) with 3%nat.
      assert (Hr16 : forall v, 0 <= v < 2 ^ 32 -> (length (written 16 v) <= 8)%nat) by (intros v Hv; apply written32; lia).
      pose proof (Hr16 a Ha). pose proof (Hr16 s ltac:(lia)). pose proof (Hr16 k ltac:(lia)). unfold CONFIG_SYS_CBSIZE. lia.
Qed.

Lemma part_words_length ps : Forall (fun p => is_u64 p.1 /\ is_u64 p.2) ps ->
  (length (concat ((fun p => 32%Z :: part_words p) <$> ps)) <= 38 * length ps)%nat.
Proof.
  induction 1 as [|p ps [H1 H2] _ IH]; cbn [fmap list_fmap concat length]; [lia|]. destruct (part_words_ok p H1 H2) as [_ Hl]. rewrite length_app. lia.
Qed.

#[global] Instance shell_recovery n : RecoveryShell (shell n) (shell (S n)) good get_device relocaddr fuel.
Proof.
  constructor.
  - intros dev ps m d r d' Hg Hd Hps Hl Hr. destruct (written10 _ Hd) as [_ L1]. destruct (written10 (Z.of_nat (length ps))) as [_ L2]; [lia|].
    rewrite (shell_words (S n) (chars "fdisk") (written 10 dev :: (written 10 (Z.of_nat (length ps)) ++ [58]) :: (part_words <$> ps)) fdisk_entry);
      [|apply fdisk_words| | | |done|done|done].
    + cbn [cmd fdisk_entry length]. rewrite length_fmap. replace (Z.of_nat (S (S (S (length ps))))) with (3 + Z.of_nat (length ps)) by lia.
      unfold fdisk_args in Hr. cbn [fmap list_fmap app]. rewrite <- list_fmap_compose. cbn [snd fst]. unfold compose. by rewrite Hr.
    + constructor; [apply (bool_decide_unpack _); vm_compute; exact I|]. constructor; [apply written_plain; [by left|unfold is_u64; lia]|].
      constructor; [apply plain_app; [apply written_plain; [by left|unfold is_u64; lia]|apply (bool_decide_unpack _); vm_compute; exact I]|].
      apply Forall_fmap. eapply Forall_impl; [exact Hps|]. intros p [H1 H2]. by apply part_words_plain.
    + unfold CONFIG_SYS_MAXARGS. cbn [length]. rewrite length_fmap. lia.
    + pose proof (part_words_length ps Hps). unfold fdisk_text. rewrite !length_app. cbn [length]. rewrite length_app. cbn [length].
      change (length (chars "fdisk ")) with 6%nat. unfold CONFIG_SYS_CBSIZE. lia.
  - intros dev addr num len m d r m' d' Hg Hd Ha Hn Hl Hr. destruct (written10 _ Hd) as [_ L1]. destruct (written10 _ Hn) as [_ L2].
    destruct (written32 _ Ha) as [_ L3]. destruct (written32 _ Hl) as [_ L4].
    assert (is_u64 dev /\ is_u64 addr /\ is_u64 num /\ is_u64 len) as (U1 & U2 & U3 & U4) by (unfold is_u64; lia).
    rewrite (shell_words (S n) (chars "ext4_img_write") [written 10 dev; written 16 addr; written 10 num; written 16 len] (image_entry (shell n)));
      [| | | | |done|done|done].
    + cbn [cmd image_entry length fmap list_fmap app fst snd]. change (Z.of_nat 5) with 5. unfold image_args in Hr. by rewrite Hr.
    + unfold image_text. cbn [join]. change (chars "ext4_img_write ") with (chars "ext4_img_write" ++ [32]). by rewrite <- app_assoc.
    + constructor; [apply (bool_decide_unpack _); vm_compute; exact I|].
      repeat (constructor; [by apply written_plain; [first [by left|by right]|]|]). constructor.
    + unfold CONFIG_SYS_MAXARGS. cbn [length]. lia.
    + unfold image_text. rewrite length_app. change (length (chars "ext4_img_write ")) with 15%nat. rewrite length_app. cbn [length].
      rewrite length_app. cbn [length]. rewrite length_app. cbn [length]. unfold CONFIG_SYS_CBSIZE. lia.
Qed.
End Shells.
