(* ===== verification/Recovery.v ===== *)
(** What a recovery from an SD card does ([SdRecovery]): the partition map makes the table
    that [fdisk] ([MmcPart]) makes, each image goes to its partition ([Ext4Img]), and more
    partitions than [fdisk] takes are not noticed.  The shell and the files are the
    interfaces of [CmdShell]; the examples run on the shell made of [Cli] there. *)

From S2P Require Import Prelude UStr EnvVars Cli Vsprintf UMem MmcPart Ext4Img SdRecovery CmdShell.

(** ** Making the table *)

Section Recovery.
Context {HB : BlockDev} {good : bdev -> Prop} {content : bdev -> Z -> list Z} {HI HO : Shell}.
Context (dev : Z) {HGI : @GoodShell _ HI dev good content} {HG : @GoodShell _ HO dev good content}.
Context (get_device : list Z -> bool) (relocaddr : Z) (fuel : nat) {HR : RecoveryShell HI HO good get_device relocaddr fuel}.

Lemma dev_range : 0 <= dev < 2 ^ 31.
Proof. exact (@shell_disk _ HO dev good content _). Qed.

Lemma fdisk_args_ok k ps : 0 <= k < 2 ^ 31 -> Forall (fun p => is_u64 p.1 /\ is_u64 p.2) ps -> (length ps <= 16)%nat ->
  Forall2 fdisk_arg ps ((fun p => Some (part_words p)) <$> ps) /\
  exists r, simple_strtoul (cstr (written 10 (Z.of_nat (length ps)) ++ [58]) []) 10 = Some (Z.of_nat (length ps), r).
Proof.
  intros Hd Hps Hl. split.
  - apply Forall2_fmap_r, Forall_Forall2_diag. eapply Forall_impl; [exact Hps|]. intros p [H1 H2]. by apply (fdisk_arg_written p [48; 120]); [right|..].
  - exists [58; 0]. unfold cstr. rewrite <- app_assoc. cbn [app]. apply (written_number 10); [by left|unfold is_u64; lia|done|done].
Qed.

(** A layout becomes the table of the disk. *)
Lemma line_makes_table ps m d : good d -> get_device (written 10 dev) = true -> layout (lba d) ps ->
  exists d', run_command (fdisk_text dev (bytes_of <$> ps)) m d = (0, m, d') /\ good d' /\ lba d' = lba d /\
    (forall a, a ∉ tables_at ps -> content d' a = content d a) /\ tabled (good := good) (content := content) ps d'.
Proof.
  intros Hg Hdev Hlay. pose proof dev_range as Hd. destruct (fdisk_ok ps d Hg Hlay) as (d' & Hm & Hg' & Hl' & Hfr & _ & Htab). exists d'. split; [|done].
  pose proof (dev_lba d Hg) as Hn. assert (Hps : Forall (fun p => is_u64 p.1 /\ is_u64 p.2) (bytes_of <$> ps)).
  { apply Forall_fmap, Forall_forall. intros p Hp. pose proof (layout_in (lba d) ps p Hlay Hp). unfold is_u64, bytes_of. cbn. lia. }
  assert (Hlen : length (bytes_of <$> ps) = length ps) by apply length_fmap. pose proof Hlay as [Hl8 _].
  destruct (fdisk_args_ok dev (bytes_of <$> ps)) as [Ha [r Hr]]; [done|done|lia|].
  rewrite (rs_fdisk dev (bytes_of <$> ps) m d 0 d'); [done|done|done|done|lia|].
  apply (do_fdisk_ok get_device (written 10 dev) _ _ (bytes_of <$> ps) d 1 d' r); [done|exact Hr|lia|exact Ha|by rewrite Hlen].
Qed.

(** More than eight partitions are refused, and the caller does not notice. *)
Lemma line_refused ps m d : good d -> get_device (written 10 dev) = true ->
  Forall (fun p => is_u64 p.1 /\ is_u64 p.2) ps -> (8 < length ps <= 12)%nat -> run_command (fdisk_text dev ps) m d = (1, m, d).
Proof.
  intros Hg Hdev Hps Hl. pose proof dev_range as Hd. destruct (fdisk_args_ok dev ps) as [_ [r Hr]]; [done|done|lia|].
  rewrite (rs_fdisk dev ps m d (-1) d); [done|done|done|done|lia|].
  unfold do_fdisk, fdisk_args. destruct (Z.ltb_spec (3 + Z.of_nat (length ps)) 2); [lia|]. cbn [lookup list_lookup mjoin option_join mbind option_bind].
  rewrite Hdev. cbn [negb]. destruct (Z.eqb_spec (3 + Z.of_nat (length ps)) 2); [lia|]. rewrite Hr. cbn [mbind option_bind].
  rewrite s32_small by (unfold is_s32; lia). unfold MAX_PART_TABLE. destruct (Z.ltb_spec 8 (Z.of_nat (length ps))); [|lia]. by rewrite orb_true_r.
Qed.

(** ** Writing an image *)

(** A partition with its image: the entry of the map, its sectors, and the image. *)
Record flash := mkFlash { f_entry : entry; f_part : Z * Z; f_minor : Z; f_img_crc : Z; f_pieces : list piece }.

Definition f_image (f : flash) : list Z := image_bytes (f_minor f) (f_img_crc f) (f_pieces f).

Context (files : list Z -> option (list Z)) (addr room : Z).

Record flash_ok (f : flash) : Prop := {
  fo_entry : entry_ok (f_entry f);
  fo_device : e_device (f_entry f) = chars "mmc";
  fo_dev : e_dev (f_entry f) = dev;
  fo_fs : has_fs (f_entry f) = true;
  fo_start : (e_start (f_entry f), e_length (f_entry f)) = bytes_of (f_part f);
  fo_file : e_file (f_entry f) <> chars "dummy";
  fo_image : files (e_file (f_entry f)) = Some (f_image f);
  fo_pieces : Forall piece_ok (f_pieces f);
  fo_count : Z.of_nat (length (f_pieces f)) < 2 ^ 31;
  fo_below : addr + Z.of_nat (length (f_image f)) <= align_buffer relocaddr;
  fo_placed : placed_all room (addr + EXT4_FILE_HEADER_SIZE) (f_pieces f);
  fo_size : total_sectors (f_pieces f) <= (f_part f).2;
}.

Definition write_image (f : flash) (c : Z -> list Z) (x : Z) : list Z := default (c x) (expanded (f_pieces f) (x - (f_part f).1)).

Lemma f_image_length f : 40 <= Z.of_nat (length (f_image f)) + 12.
Proof. unfold f_image, image_bytes. rewrite length_app. assert (length (file_bytes (f_minor f) (f_img_crc f) (f_pieces f)) = 28%nat) by reflexivity. lia. Qed.

Lemma small_number k : (k <= 8)%nat -> written 10 (Z.of_nat k) = written 16 (Z.of_nat k).
Proof. intros Hk. do 9 (destruct k as [|k]; [vm_compute; reflexivity|]). lia. Qed.

(** The line for an image. *)
Lemma write_command_ok fp len : 0 <= sd_dev_no fp < 2 ^ 31 -> 0 <= addr < 2 ^ 32 -> 0 <= sd_part_num fp < 2 ^ 31 -> 0 <= len < 2 ^ 32 ->
  Z.land (sd_fs_type fp) UPDATE_SDCARD_FS_MASK <> 0 ->
  (sd_fs_type fp =? UPDATE_SDCARD_FS_2NDBOOT) || (sd_fs_type fp =? UPDATE_SDCARD_FS_BOOT) || (sd_fs_type fp =? UPDATE_SDCARD_FS_ENV) = false ->
  exists cmd, write_command fp addr len = Some cmd /\ until0 cmd = image_text (sd_dev_no fp) addr (sd_part_num fp) len.
Proof.
  intros Hd Ha Hn Hl Hm Hb. unfold write_command. rewrite Hb. destruct (Z.eqb_spec (Z.land (sd_fs_type fp) UPDATE_SDCARD_FS_MASK) 0); [done|]. cbn [negb].
  destruct (written10 _ Hd) as [T1 L1]. destruct (written10 _ Hn) as [T2 L2]. destruct (written32 addr Ha) as [T3 L3]. destruct (written32 len Hl) as [T4 L4].
  set (t := image_text (sd_dev_no fp) addr (sd_part_num fp) len).
  assert (Hf : format (length (chars "ext4_img_write %d %x %d %x" ++ [0])) (chars "ext4_img_write %d %x %d %x" ++ [0])
      [Int (sd_dev_no fp); Int (u32 addr); Int (sd_part_num fp); Int (u32 len)] 0 = Some (t, [])).
  { change (length (chars "ext4_img_write %d %x %d %x" ++ [0])) with 27%nat.
    change (chars "ext4_img_write %d %x %d %x" ++ [0]) with
      [101; 120; 116; 52; 95; 105; 109; 103; 95; 119; 114; 105; 116; 101; 32; 37; 100; 32; 37; 120; 32; 37; 100; 32; 37; 120; 0].
    run_format. rewrite !u32_idem, !u32_small by (unfold is_u32; lia). cbn [app]. by rewrite app_nil_r. }
  assert (Ht : text_ok t /\ (length t < 128)%nat).
  { unfold t, image_text. split.
    - apply Forall_app. split; [apply (bool_decide_unpack _); vm_compute; exact I|]. apply Forall_app. split; [done|]. constructor; [lia|].
      apply Forall_app. split; [done|]. constructor; [lia|]. apply Forall_app. split; [done|]. constructor; [lia|done].
    - rewrite length_app. change (length (chars "ext4_img_write ")) with 15%nat. rewrite length_app. cbn [length]. rewrite length_app. cbn [length].
      rewrite length_app. cbn [length]. lia. }
  destruct Ht as [Ht Htl]. pose proof (print_at_ok [] (replicate 128 0) _ _ t Hf Ht) as Hp. rewrite length_replicate in Hp. cbn [app length] in Hp.
  rewrite Hp by lia. cbn [mbind option_bind]. eexists. split; [reflexivity|]. by apply (until0_cstr t).
Qed.

Lemma has_fs_kind e : e_fs e ∈ f_part_fs.*1 -> has_fs e = true ->
  Z.land (fs_of (e_fs e)) UPDATE_SDCARD_FS_MASK <> 0 /\
  (fs_of (e_fs e) =? UPDATE_SDCARD_FS_2NDBOOT) || (fs_of (e_fs e) =? UPDATE_SDCARD_FS_BOOT) || (fs_of (e_fs e) =? UPDATE_SDCARD_FS_ENV) = false.
Proof.
  unfold has_fs. intros Hn Hf. apply negb_true_iff, Z.eqb_neq in Hf. split; [done|]. revert Hf. unfold f_part_fs in Hn. cbn [fmap list_fmap fst] in Hn.
  rewrite !elem_of_cons in Hn. repeat (destruct Hn as [->|Hn]; [vm_compute; congruence|]). by apply not_elem_of_nil in Hn.
Qed.

Context (getd : list Z -> bdev -> bool) (Hgetd : forall t d, good d -> getd t d = true).
Context (Hget : get_device (written 10 dev) = true) (Haddr : 0 <= addr).
Context (Hbuf : 0 <= align_buffer relocaddr < 2 ^ 32) (Hroom : room <= 512 * WRITE_SECTOR).

Lemma image_step parts k f m d : good d -> tabled (good := good) (content := content) parts d -> layout (lba d) parts -> (8 < fuel)%nat ->
  parts !! k = Some (f_part f) -> flash_ok f -> UMem.fits m (align_buffer relocaddr) room ->
  exists m' d', update_sd_img_wirte getd (entry_part (Z.of_nat k) (f_entry f)) addr (Z.of_nat (length (f_image f))) (UMem.write addr (f_image f) m) d = Some (1, m', d') /\
    good d' /\ lba d' = lba d /\ tabled (good := good) (content := content) parts d' /\ (forall q n, UMem.fits m q n -> UMem.fits m' q n) /\
    forall x, content d' x = write_image f (content d) x.
Proof.
  intros Hg Ht Hlay Hfuel Hk [He Edev Edn Hfs Est Efile Himg Hps Hcnt Hbelow Hplaced Hsize] Hfit. destruct (layout_in _ _ _ Hlay (list_elem_of_lookup_2 _ _ _ Hk)) as (P1 & P2 & P3).
  pose proof (f_image_length f) as Hil. pose proof Hlay as [[_ Hl8] _]. pose proof (lookup_lt_Some _ _ _ Hk) as Hkl.
  assert (Hlen : 0 <= Z.of_nat (length (f_image f)) < 2 ^ 32) by lia. assert (Ha32 : 0 <= addr < 2 ^ 32) by lia.
  set (m1 := UMem.write addr (f_image f) m). set (len := Z.of_nat (length (f_image f))) in *.
  pose proof dev_range as Hdev. destruct (shell_select m1 d Hg) as (d1 & Hr1 & Hg1 & Hl1 & Hc1).
  assert (Ht1 : tabled (good := good) (content := content) parts d1) by (apply (tabled_stable parts d d1 Ht Hl1); intros x _; apply Hc1).
  assert (Hn10 : forall v, 0 <= v < 2 ^ 32 -> number_text 10 v (written 10 v)) by (intros v Hv; apply written_number; [by left|unfold is_u64; lia]).
  assert (Hn16 : forall v, 0 <= v < 2 ^ 32 -> number_text 16 v (written 16 v)) by (intros v Hv; apply written_number; [by right|unfold is_u64; lia]).
  destruct (@image_command_ok _ HI dev good content _ relocaddr get_device fuel parts k (f_part f).1 (f_part f).2
    (written 10 dev) (written 16 addr) (written 10 (Z.of_nat k + 1)) (written 16 len) [None] addr len [0] [0] [0] [0]
    room (f_minor f) (f_img_crc f) (f_pieces f) m1 d1) as (m' & d' & Hr & Hg' & Hl' & Hf' & Hc' & Ho); try done.
  - by destruct (f_part f).
  - lia.
  - apply (Hn10 dev); [lia|done|done].
  - apply (Hn16 addr); [lia|done|done].
  - replace (Z.of_nat k + 1) with (Z.of_nat (S k)) by lia. rewrite small_number by lia. apply (Hn16 (Z.of_nat (S k))); [lia|done|done].
  - apply (Hn16 len); [lia|done|done].
  - constructor; try done.
    + apply write_holds.
    + by apply fits_write.
    + lia.
    + rewrite Hl1. lia.
  - destruct (write_command_ok (entry_part (Z.of_nat k) (f_entry f)) len) as (cmd & Hcmd & Hu); cbn [entry_part sd_dev_no sd_part_num sd_fs_type].
    + by rewrite Edn.
    + done.
    + rewrite Hfs. lia.
    + done.
    + apply has_fs_kind; [apply He|done].
    + apply has_fs_kind; [apply He|done].
    + exists m', d'. split_and!; [|done|lia| |intros q n Hq; apply Hf'; by apply fits_write|].
      * unfold update_sd_img_wirte. cbn [entry_part sd_device sd_dev_no]. rewrite Edev, Edn.
        change (strcmp (cstr (chars "mmc") []) (cstr (chars "mmc") [])) with (Some 0). cbn [mbind option_bind]. change (negb (0 =? 0)) with false. cbn iota.
        destruct (dev_text_ok 128 dev ltac:(lia) Hdev) as (b & -> & Hb). cbn [mbind option_bind]. rewrite (u64_small len) by (unfold is_u64; lia). rewrite (u64_small dev) by (unfold is_u64; lia).
        rewrite simple_itoa_ok by (unfold is_u64; lia).
        cbn [mbind option_bind]. rewrite (Hgetd _ d Hg). cbn [negb]. unfold run_ok. rewrite Hb, Hr1. change (negb (0 <? 0)) with true. cbn [negb].
        rewrite (Hgetd _ d1 Hg1). cbn [negb]. fold (entry_part (Z.of_nat k) (f_entry f)).
        rewrite Hcmd. cbn [mbind option_bind]. rewrite Hu. cbn [entry_part sd_dev_no sd_part_num]. rewrite Hfs, Edn.
        rewrite (rs_image dev addr (Z.of_nat k + 1) len m1 d1 1 m' d'); [done|done|done|done|lia|done|exact Hr].
      * apply (tabled_stable parts d1 d' Ht1 Hl'). intros x Hx. apply Ho.
        pose proof (layout_tables _ _ _ x Hlay (list_elem_of_lookup_2 _ _ _ Hk) Hx). lia.
      * intros x. by rewrite Hc', Hc1.
Qed.

(** ** All images, after the first one has made the table *)

(** What is in a sector when all images have been written. *)
Definition flashed (fs : list flash) (x : Z) (v : list Z) : list Z := foldl (fun v f => default v (expanded (f_pieces f) (x - (f_part f).1))) v fs.

Context (envdev : list Z) {HFi : Files} {HGF : GoodFiles good files}.

Definition f_parts (num : nat) (fs : list flash) : list update_sdcard_part := entry_parts (Z.of_nat num) (f_entry <$> fs).

Lemma f_parts_cons num f fs : flash_ok f -> f_parts num (f :: fs) = entry_part (Z.of_nat num) (f_entry f) :: f_parts (S num) fs.
Proof. intros Hf. unfold f_parts. cbn [fmap list_fmap entry_parts]. rewrite (fo_fs _ Hf). by replace (Z.of_nat num + 1) with (Z.of_nat (S num)) by lia. Qed.

Lemma names_differ a b x y : text_ok a -> text_ok b -> a <> b -> exists r, strcmp (cstr a x) (cstr b y) = Some r /\ (r =? 0) = false.
Proof.
  intros Ha Hb Hn. destruct (strcmp_cstr a b x y Ha Hb) as (r & Hr & Hz). exists r. split; [done|]. apply Z.eqb_neq. tauto.
Qed.

(** One round of the loop. *)
Lemma update_head num f n tl first ret m d : good d -> flash_ok f -> UMem.fits m addr (Z.of_nat (length (f_image f))) ->
  let fps := entry_part (Z.of_nat num) (f_entry f) :: tl in
  update_loop getd (S n) fps addr envdev FS_TYPE_FAT first ret m d =
    '(first, m, d) ← (if first =? 0 then '(_, m, d) ← make_mmc_partition fps (UMem.write addr (f_image f) m) d; Some (1, m, d)
      else Some (first, UMem.write addr (f_image f) m, d));
    '(ret, m, d) ← update_sd_img_wirte getd (entry_part (Z.of_nat num) (f_entry f)) addr (Z.of_nat (length (f_image f))) m d;
    update_loop getd n tl addr envdev FS_TYPE_FAT first ret m d.
Proof.
  intros Hg [He Edev Edn Hfs Est Efile Himg Hps Hcnt Hbelow Hplaced Hsize] Hfa fps. unfold fps. cbn [update_loop head tail mbind option_bind].
  cbn [entry_part sd_device sd_file_name sd_fs_type].
  destruct (names_differ (e_device (f_entry f)) [] [] []) as (r1 & -> & E1); [apply field_text, He|constructor|by rewrite Edev|].
  cbn [mbind option_bind]. rewrite E1. destruct (names_differ (e_file (f_entry f)) (chars "dummy") [] []) as (r2 & -> & E2);
    [apply field_text, He|apply (bool_decide_unpack _); vm_compute; exact I|done|].
  cbn [mbind option_bind]. rewrite E2, fs_device_ok by done. rewrite (fs_read_ok _ (f_image f)) by done.
  change (negb (Z.land (fs_of (e_fs (f_entry f))) UPDATE_SDCARD_FS_MASK =? 0)) with (has_fs (f_entry f)). rewrite Hfs, andb_true_r.
  pose proof (f_image_length f). destruct (Z.leb_spec (Z.of_nat (length (f_image f))) 0); [lia|]. done.
Qed.

Lemma update_step parts num f n tl first ret m d : good d -> tabled (good := good) (content := content) parts d -> layout (lba d) parts -> (8 < fuel)%nat ->
  parts !! num = Some (f_part f) -> flash_ok f -> UMem.fits m (align_buffer relocaddr) room -> UMem.fits m addr (Z.of_nat (length (f_image f))) -> first <> 0 ->
  exists m' d', update_loop getd (S n) (entry_part (Z.of_nat num) (f_entry f) :: tl) addr envdev FS_TYPE_FAT first ret m d =
      update_loop getd n tl addr envdev FS_TYPE_FAT first 1 m' d' /\
    good d' /\ lba d' = lba d /\ tabled (good := good) (content := content) parts d' /\ (forall q n, UMem.fits m q n -> UMem.fits m' q n) /\
    forall x, content d' x = write_image f (content d) x.
Proof.
  intros Hg Ht Hlay Hfuel Hk Hf Hfit Hfa Hfirst. destruct (image_step parts num f m d) as (m' & d' & Hs & Hr); try done.
  exists m', d'. split; [|exact Hr]. rewrite update_head by done. destruct (Z.eqb_spec first 0); [done|]. cbn [mbind option_bind]. by rewrite Hs.
Qed.

Lemma update_rest parts fs : Forall flash_ok fs -> forall num n tl first ret m d, good d -> tabled (good := good) (content := content) parts d ->
  layout (lba d) parts -> (8 < fuel)%nat -> (forall k f, fs !! k = Some f -> parts !! (num + k)%nat = Some (f_part f)) ->
  UMem.fits m (align_buffer relocaddr) room -> Forall (fun f => UMem.fits m addr (Z.of_nat (length (f_image f)))) fs -> first <> 0 ->
  (length fs <= n)%nat -> (length fs < n -> head tl = Some no_sd_part)%nat ->
  exists m' d', update_loop getd n (f_parts num fs ++ tl) addr envdev FS_TYPE_FAT first ret m d = Some (match fs with [] => ret | _ => 1 end, m', d') /\
    good d' /\ lba d' = lba d /\ tabled (good := good) (content := content) parts d' /\ forall x, content d' x = flashed fs x (content d x).
Proof.
  induction 1 as [|f fs Hf Hfs IH]; intros num n tl first ret m d Hg Ht Hlay Hfuel Hparts Hfit Hfa Hfirst Hl Htl.
  - exists m, d. split; [|done]. destruct n; [done|]. cbn [f_parts fmap list_fmap entry_parts app update_loop]. rewrite Htl by (cbn; lia).
    cbn [mbind option_bind]. by change (strcmp (cstr (sd_device no_sd_part) []) (cstr [] [])) with (Some 0).
  - destruct n as [|n]; [cbn in Hl; lia|]. apply Forall_cons_1 in Hfa as [Hfa1 Hfa].
    rewrite f_parts_cons by done. cbn [app].
    destruct (update_step parts num f n (f_parts (S num) fs ++ tl) first ret m d) as (m1 & d1 & -> & Hg1 & Hl1 & Ht1 & Hf1 & Hc1); try done.
    { rewrite <- (Nat.add_0_r num). by apply Hparts. }
    destruct (IH (S num) n tl first 1 m1 d1) as (m' & d' & Hr & Hg' & Hl' & Ht' & Hc'); try done.
    + by rewrite Hl1.
    + intros k g Hk. rewrite Nat.add_succ_comm. by apply Hparts.
    + by apply Hf1.
    + eapply Forall_impl; [exact Hfa|]. intros g. apply Hf1.
    + cbn in Hl. lia.
    + intros Hlt. apply Htl. cbn. lia.
    + exists m', d'. rewrite Hr. split; [by destruct fs|]. split; [done|]. split; [lia|]. split; [done|]. intros x. rewrite Hc', Hc1. done.
Qed.

(** ** The whole recovery *)

Lemma f_parts_ok fs : Forall flash_ok fs -> Forall (fun e => entry_ok e /\ e_device e <> []) (f_entry <$> fs) /\
  (fun e => (e_start e, e_length e)) <$> (f_entry <$> fs) = bytes_of <$> (f_part <$> fs).
Proof.
  induction 1 as [|f fs Hf Hfs [IH1 IH2]]; [done|]. split.
  - constructor; [|exact IH1]. split; [apply (fo_entry _ Hf)|]. by rewrite (fo_device _ Hf).
  - cbn [fmap list_fmap] in *. by rewrite (fo_start _ Hf), IH2.
Qed.

(** The device is set, the first image is read, the table is made, and all are written. *)
Lemma sdcard_update_ok fs m d : fs <> [] -> Forall flash_ok fs -> good d -> layout (lba d) (f_part <$> fs) -> (8 < fuel)%nat ->
  UMem.fits m (align_buffer relocaddr) room -> Forall (fun f => UMem.fits m addr (Z.of_nat (length (f_image f)))) fs ->
  exists m' d' c, sdcard_update getd (f_parts 0 fs ++ replicate (DEV_PART_MAX - length fs) no_sd_part) addr envdev FS_TYPE_FAT m d = Some (1, m', d') /\
    good d' /\ lba d' = lba d /\ tabled (good := good) (content := content) (f_part <$> fs) d' /\
    (forall x, x ∉ tables_at (f_part <$> fs) -> c x = content d x) /\ forall x, content d' x = flashed fs x (c x).
Proof.
  intros Hne Hfs Hg Hlay Hfuel Hfit Hfa. destruct fs as [|f fs]; [done|]. pose proof Hlay as [[_ Hl8] _]. rewrite length_fmap in Hl8.
  pose proof (f_parts_ok _ Hfs) as [Hes Hps]. unfold DEV_PART_MAX. set (rest := f_parts 1 fs ++ replicate (16 - length (f :: fs)) no_sd_part).
  assert (Hall : f_parts 0 (f :: fs) ++ replicate (16 - length (f :: fs)) no_sd_part = entry_part (Z.of_nat 0) (f_entry f) :: rest).
  { inversion_clear Hfs as [|? ? Hf _]. by rewrite f_parts_cons. }
  set (m0 := UMem.write addr (f_image f) m).
  destruct (line_makes_table (f_part <$> f :: fs) m0 d Hg Hget Hlay) as (d1 & Hr1 & Hg1 & Hl1 & Hc1 & Ht1).
  set (all := f_parts 0 (f :: fs) ++ replicate (16 - length (f :: fs)) no_sd_part) in *.
  apply Forall_cons_1 in Hfs as Hff. destruct Hff as [Hf Hfs']. apply Forall_cons_1 in Hfa as Hfaf. destruct Hfaf as [Hfaf _].
  assert (Hmk : make_mmc_partition all m0 d = Some (0, m0, d1)).
  { unfold all, f_parts. cbn [fmap list_fmap]. rewrite make_partition_ok.
    - rewrite (fo_dev _ Hf). cbn [fmap list_fmap] in Hps, Hr1 |- *. rewrite Hps. by rewrite Hr1.
    - exact Hes.
    - cbn [length] in *. rewrite length_fmap. unfold DEV_PART_MAX. lia.
    - cbn [length]. rewrite length_fmap. unfold DEV_PART_MAX. intros Hlt. destruct (16 - S (length fs))%nat eqn:E; [cbn [length] in Hl8; lia|]. eexists. reflexivity. }
  unfold sdcard_update, DEV_PART_MAX. fold all. rewrite Hall, (update_head 0 f 15 rest 0 0 m d Hg Hf Hfaf), <- Hall. cbv zeta.
  change (0 =? 0) with true. cbn iota. fold m0. rewrite Hmk. cbn [mbind option_bind].
  destruct (image_step (f_part <$> f :: fs) 0 f m d1) as (m2 & d2 & Hs & Hg2 & Hl2 & Ht2 & Hf2 & Hc2); try done.
  { by rewrite Hl1. }
  fold m0 in Hs. rewrite Hs. cbn [mbind option_bind].
  destruct (update_rest (f_part <$> f :: fs) fs Hfs' 1 15 (replicate (16 - length (f :: fs)) no_sd_part) 1 1 m2 d2) as (m' & d' & Hr & Hg' & Hl' & Ht' & Hc'); try done.
  - by rewrite Hl2, Hl1.
  - intros k g Hk. cbn [Nat.add]. change ((f_part <$> fs) !! k = Some (f_part g)). by rewrite list_lookup_fmap, Hk.
  - by apply Hf2.
  - apply Forall_cons_1 in Hfa as [_ Hfa]. eapply Forall_impl; [exact Hfa|]. intros g. apply Hf2.
  - cbn [length] in *. lia.
  - intros Hlt. cbn [length]. destruct (16 - S (length fs))%nat eqn:E; [cbn [length] in *; lia|done].
  - exists m', d', (content d1). split; [unfold rest; rewrite Hr; by destruct fs|]. split; [done|]. split; [lia|]. split; [done|]. split; [done|].
    intros x. by rewrite Hc', Hc2.
Qed.

(** What is in a sector of an image. *)
Lemma flashed_none fs x v : Forall (fun f => expanded (f_pieces f) (x - (f_part f).1) = None) fs -> flashed fs x v = v.
Proof. unfold flashed. intros Hfs. revert v. induction Hfs as [|f fs Hf Hfs IH]; intros v; [done|]. cbn [foldl]. by rewrite Hf, IH. Qed.

Lemma flashed_at n fs k f i s v : layout n (f_part <$> fs) -> Forall flash_ok fs -> fs !! k = Some f -> expanded (f_pieces f) i = Some s ->
  flashed fs ((f_part f).1 + i) v = s.
Proof.
  intros Hlay Hfs Hk Hi. assert (Hin : 0 <= i < (f_part f).2).
  { apply (Forall_lookup_1 _ _ _ _ Hfs) in Hk as Hf. pose proof (fo_size _ Hf). destruct (decide (i < 0 \/ total_sectors (f_pieces f) <= i)) as [Ho|]; [|lia].
    by rewrite expanded_out in Hi by (done || apply Hf). }
  assert (Hother : forall j g, fs !! j = Some g -> j <> k -> expanded (f_pieces g) ((f_part f).1 + i - (f_part g).1) = None).
  { intros j g Hj Hne. apply (Forall_lookup_1 _ _ _ _ Hfs) in Hj as Hg. pose proof (fo_size _ Hg). apply expanded_out; [apply Hg|].
    destruct (decide (j < k)%nat).
    - pose proof (layout_apart n (f_part <$> fs) j k (f_part g) (f_part f) Hlay) as Ha. rewrite !list_lookup_fmap, Hj, Hk in Ha. specialize (Ha eq_refl eq_refl ltac:(done)). lia.
    - pose proof (layout_apart n (f_part <$> fs) k j (f_part f) (f_part g) Hlay) as Ha. rewrite !list_lookup_fmap, Hj, Hk in Ha. specialize (Ha eq_refl eq_refl ltac:(lia)). lia. }
  assert (Hl1 : Forall (fun g => expanded (f_pieces g) ((f_part f).1 + i - (f_part g).1) = None) (take k fs)).
  { apply Forall_lookup. intros j g Hj. apply lookup_take_Some in Hj as [Hj Hlt]. apply (Hother j g Hj). lia. }
  assert (Hl2 : Forall (fun g => expanded (f_pieces g) ((f_part f).1 + i - (f_part g).1) = None) (drop (S k) fs)).
  { apply Forall_lookup. intros j g Hj. rewrite lookup_drop in Hj. apply (Hother _ g Hj). lia. }
  rewrite <- (take_drop_middle fs k f Hk). unfold flashed. rewrite foldl_app. cbn [foldl].
  pose proof (flashed_none _ _ v Hl1) as E1. pose proof (flashed_none _ _ s Hl2) as E2. unfold flashed in E1, E2. rewrite E1.
  replace ((f_part f).1 + i - (f_part f).1) with i by lia. rewrite Hi. exact E2.
Qed.

(** The map, the images and the memory are as they should be. *)
Record recoverable (a1 a3 a4 t : list Z) (fs : list flash) (m m1 : mem) (d : bdev) : Prop := {
  r_loaded : loaded a1 envdev a3 a4 t addr m m1 d;
  r_comment : 35 ∉ t;
  r_map : kept t = map_text (f_entry <$> fs);
  r_some : fs <> [];
  r_ok : Forall flash_ok fs;
  r_layout : layout (lba d) (f_part <$> fs);
  r_buffer : UMem.fits m1 (align_buffer relocaddr) room;
  r_room : Forall (fun f => UMem.fits m1 addr (Z.of_nat (length (f_image f)))) fs;
}.

Lemma card_recovers_ok getenv a1 a3 a4 t fs m m1 d cmd rest : recoverable a1 a3 a4 t fs m m1 d -> good d -> (8 < fuel)%nat ->
  exists m' d', do_update_sdcard getd getenv 5 (cmd :: Some a1 :: Some envdev :: Some a3 :: Some a4 :: rest) m d = Some (1, m', d') /\ good d' /\
    tabled (good := good) (content := content) (f_part <$> fs) d' /\
    (forall k f i s, fs !! k = Some f -> expanded (f_pieces f) i = Some s -> content d' ((f_part f).1 + i) = s) /\
    forall x, x ∉ tables_at (f_part <$> fs) -> Forall (fun f => x < (f_part f).1 \/ (f_part f).1 + (f_part f).2 <= x) fs -> content d' x = content d x.
Proof.
  intros [Hld Hcom Hmap Hne Hfs Hlay Hbuf1 Hrm] Hg Hfuel. pose proof Hlay as [[_ Hl8] _]. rewrite length_fmap in Hl8.
  pose proof (f_parts_ok _ Hfs) as [Hes Hps].
  destruct (do_update_loaded getd getenv _ _ _ _ _ _ _ _ _ cmd rest Hld) as (m2 & y & _ & Hf2 & _ & ->).
  assert (Hk35 : 35 ∉ kept t) by (intros Hin; apply Hcom; by apply list_elem_of_filter in Hin as [_ ?]).
  destruct (lists_make_ok (f_entry <$> fs) (kept t) y) as (z & ->).
  - eapply Forall_impl; [exact Hes|]. by intros ? [? _].
  - apply kept_text, Hld.
  - done.
  - by rewrite kept_kept.
  - by destruct fs.
  - rewrite length_fmap. unfold DEV_PART_MAX. lia.
  - cbn [mbind option_bind]. change (0 <? 0) with false. cbn iota. rewrite length_fmap.
    destruct (sdcard_update_ok fs (UMem.write addr (map_text (f_entry <$> fs) ++ 0 :: z) m2) d) as (m' & d' & c & Hr & Hg' & _ & Ht' & Hc & Hc'); try done.
    + by apply fits_write, Hf2.
    + eapply Forall_impl; [exact Hrm|]. intros f Hf. by apply fits_write, Hf2.
    + exists m', d'. split; [exact Hr|]. split; [done|]. split; [done|]. split.
      * intros k f i s Hk Hi. rewrite Hc'. by apply (flashed_at (lba d) fs k f i s).
      * intros x Hx Hout. rewrite Hc', <- Hc by done. apply flashed_none. rewrite Forall_forall in Hfs, Hout |- *. intros f Hf.
        pose proof (Hfs f Hf) as Hok. pose proof (fo_size _ Hok). pose proof (Hout f Hf). apply expanded_out; [apply Hok|lia].
Qed.

(** A recovery with a good map makes the partition table of the map, and writes every
    image to its partition: a sector that the image has is there as it is in the image.
    Other sectors, apart from those of tables, are as before.  The command returns 1. *)
Theorem card_recovers getenv a1 a3 a4 t fs m m1 d cmd rest : recoverable a1 a3 a4 t fs m m1 d -> good d -> (8 < fuel)%nat ->
  exists m' d', do_update_sdcard getd getenv 5 (cmd :: Some a1 :: Some envdev :: Some a3 :: Some a4 :: rest) m d = Some (1, m', d') /\ good d' /\
    tabled (good := good) (content := content) (f_part <$> fs) d' /\
    (forall k f i s, fs !! k = Some f -> expanded (f_pieces f) i = Some s -> content d' ((f_part f).1 + i) = s) /\
    forall x, x ∉ tables_at (f_part <$> fs) -> Forall (fun f => x < (f_part f).1 \/ (f_part f).1 + (f_part f).2 <= x) fs -> content d' x = content d x.
Proof. intros Hr Hg Hfuel. by apply (card_recovers_ok getenv a1 a3 a4 t fs m m1). Qed.

(** More than eight partitions are refused by [fdisk], and the recovery does not
    notice: there is no table, and the function says that it succeeded. *)
Theorem many_parts_unnoticed es m d : Forall (fun e => entry_ok e /\ e_device e <> [] /\ e_dev e = dev) es -> (8 < length es <= 12)%nat -> good d ->
  make_mmc_partition (entry_parts 0 es ++ replicate (DEV_PART_MAX - length es) no_sd_part) m d = Some (0, m, d).
Proof.
  intros Hes Hl Hg. destruct es as [|e es]; [cbn in Hl; lia|]. rewrite make_partition_ok.
  - apply Forall_cons_1 in Hes as He. destruct He as [(_ & _ & ->) _]. rewrite line_refused; [done|done|done| |by rewrite length_fmap].
    apply Forall_fmap. eapply Forall_impl; [exact Hes|]. intros x ((_ & _ & _ & _ & H1 & H2 & _) & _). done.
  - eapply Forall_impl; [exact Hes|]. tauto.
  - unfold DEV_PART_MAX. lia.
  - unfold DEV_PART_MAX. intros Hlt. destruct (16 - length (e :: es))%nat eqn:E; [lia|]. eexists. reflexivity.
Qed.
End Recovery.

(** ** A recovery on a disk in memory *)

(** [mmc write], and a [mmc dev] that selects the only device. *)
Definition ram_mmc (flag argc : Z) (argv : list (option (list Z))) (s : mem * bdev) : option (Z * (mem * bdev)) :=
  let number i := t ← mjoin (argv !! i); fst <$> simple_strtoul (cstr t []) 16 in
  w ← mjoin (argv !! 1%nat);
  if bool_decide (w = chars "dev") then Some (0, s) else
  a ← number 2%nat; b ← number 3%nat; n ← number 4%nat;
  bs ← read_bytes s.1 a (512 * n);
  Some (0, (s.1, fun x => if (b <=? x) && (x <? b + n) then slice (Z.to_nat (512 * (x - b))) 512 bs else s.2 x)).

#[global] Instance ram_good_mmc : GoodMmcCmd ram_mmc 2 ram_good ram_content.
Proof.
  constructor.
  - lia.
  - intros m d Hg. exists d. split; [|done]. reflexivity.
  - intros a s n bs m d Hg Ha Hs Hn Hl Hh Hlen. pose proof (dev_lba d Hg) as Hlba.
    assert (Hx : forall v, is_u64 v -> simple_strtoul (cstr (48 :: 120 :: written 16 v) []) 16 = Some (v, [0])) by (intros v Hv; by apply (prefixed_number v Hv 0 [])).
    unfold ram_mmc. cbn [lookup list_lookup mjoin option_join mbind option_bind].
    change (bool_decide (chars "write" = chars "dev")) with false. cbn iota. rewrite !Hx by (unfold is_u64; lia). cbn [fmap option_fmap option_map fst snd mbind option_bind].
    rewrite (holds_read m a bs) by done. cbn [mbind option_bind]. eexists. split; [reflexivity|]. split_and!; [|done|done].
    intros x. change (length (if (s <=? x) && (x <? s + n) then slice (Z.to_nat (512 * (x - s))) 512 bs else (d : Z -> list Z) x) = 512%nat).
    destruct (Z.leb_spec s x), (Z.ltb_spec x (s + n)); cbn [andb]; try apply Hg. apply slice_length. lia.
Qed.

#[global] Instance ram_good_files {HB : BlockDev} (good : bdev -> Prop) files : @GoodFiles _ (ram_files files) good files.
Proof. constructor; [done|]. intros name bs addr m d Hg Hf Hfit. cbn. by rewrite Hf. Qed.

(** A card with a map of five partitions, one line each, and one image for all of them. *)
Definition card_flash (p : Z * Z) : flash :=
  mkFlash (mkEntry (chars "mmc") 2 (chars "system") (chars "ext4") (512 * p.1) (512 * p.2) (chars "system.img")) p 0 0 small_pieces.

Definition card_flashes : list flash := card_flash <$> five_parts.
Definition card_map : list Z := concat ((fun f => entry_text (f_entry f) ++ [10]) <$> card_flashes).

Definition card_files (name : list Z) : option (list Z) :=
  if bool_decide (name = chars "system.img") then Some (image_bytes 0 0 small_pieces)
  else if bool_decide (name = chars "partmap.txt") then Some card_map else None.

Definition card_base : mem := UMem.write (align_buffer board_reloc) (replicate 4096 0) (UMem.write small_base (replicate (Z.to_nat 9000) 0) ∅).

Lemma card_fits : UMem.fits card_base small_base 9000 /\ UMem.fits card_base (align_buffer board_reloc) 4096.
Proof.
  assert (Hh : forall p (n : nat) m, UMem.fits (UMem.write p (replicate n 0) m) p (Z.of_nat n)).
  { intros p n m. pose proof (holds_fits _ _ _ (write_holds p (replicate n 0) m)) as Hf. by rewrite length_replicate in Hf. }
  unfold card_base. split; [apply fits_write; exact (Hh _ (Z.to_nat 9000) _)|exact (Hh _ 4096%nat _)].
Qed.

Lemma card_flash_ok p : p ∈ five_parts -> flash_ok 2 board_reloc card_files small_base 4096 (card_flash p).
Proof.
  intros Hp. destruct small_writable as [W1 W2 W3 W4 W5 W6 W7 W8 W9 W10 W11].
  assert (Hr : 0 <= p.1 < 2 ^ 20 /\ 64 <= p.2 < 2 ^ 20).
  { assert (Hall : Forall (fun p => 0 <= p.1 < 2 ^ 20 /\ 64 <= p.2 < 2 ^ 20) five_parts) by (refine (bool_decide_eq_true_1 _ _); vm_compute; reflexivity).
    rewrite Forall_forall in Hall. by apply Hall. }
  constructor; cbn [card_flash f_entry f_part f_minor f_img_crc f_pieces e_device e_dev e_fs e_start e_length e_file].
  - unfold entry_ok. cbn [e_device e_dev e_name e_fs e_start e_length e_file].
    assert (field (chars "mmc") /\ field (chars "system") /\ field (chars "system.img")) as (F1 & F2 & F3)
      by (unfold field, field_char; split_and!; refine (bool_decide_eq_true_1 _ _); vm_compute; reflexivity).
    split; [exact F1|]. split; [lia|]. split; [exact F2|]. split; [by apply (list_elem_of_lookup_2 _ 4)|].
    split; [unfold is_u64; lia|]. split; [unfold is_u64; lia|exact F3].
  - reflexivity.
  - reflexivity.
  - vm_compute. reflexivity.
  - reflexivity.
  - discriminate.
  - unfold card_files. rewrite bool_decide_true by reflexivity. reflexivity.
  - exact W1.
  - exact W2.
  - exact W5.
  - exact W9.
  - assert (total_sectors small_pieces = 32) as -> by (vm_compute; reflexivity). lia.
Qed.

Definition card_shell (n : nat) : Shell :=
  shell (fun _ a data d => block_write a (Z.of_nat (length data) / 512) data d) ram_mmc (fun _ => None) (fun _ => true) board_reloc 9 n.

#[global] Instance card_good n : @GoodShell _ (card_shell n) 2 ram_good ram_content := shell_good _ _ _ _ _ _ n.

#[global] Instance card_recovery n : RecoveryShell (card_shell n) (card_shell (S n)) ram_good (fun _ => true) board_reloc 9 :=
  shell_recovery (good := ram_good) _ _ _ _ _ _ n.

Lemma card_flashes_ok : Forall (flash_ok 2 board_reloc card_files small_base 4096) card_flashes.
Proof. unfold card_flashes. apply Forall_fmap, Forall_forall. exact card_flash_ok. Qed.

Lemma card_recoverable {HB : BlockDev} (d : bdev) : layout (lba d) five_parts -> @recoverable _ 2 board_reloc card_files small_base 4096 (chars "0:1") (ram_files card_files)
  (chars "mmc") (chars "48000000") (chars "partmap.txt") card_map card_flashes card_base (UMem.write small_base card_map card_base) d.
Proof.
  intros Hlay. destruct card_fits as [Hf1 Hf2]. assert (Hlen : 0 < Z.of_nat (length card_map) < 1000) by (vm_compute; split; reflexivity).
  assert (Hil : Z.of_nat (length (image_bytes 0 0 small_pieces)) = 8260) by (vm_compute; reflexivity).
  constructor.
  - constructor.
    + reflexivity.
    + exists [0]. vm_compute. reflexivity.
    + cbn [fs_read ram_files]. unfold card_files. rewrite bool_decide_false by discriminate. rewrite bool_decide_true by reflexivity. reflexivity.
    + apply write_holds.
    + apply fits_write. eapply fits_sub; [exact Hf1|lia|lia].
    + refine (bool_decide_eq_true_1 _ _). vm_compute. reflexivity.
    + lia.
  - refine (bool_decide_eq_true_1 _ _). vm_compute. reflexivity.
  - vm_compute. reflexivity.
  - discriminate.
  - exact card_flashes_ok.
  - unfold card_flashes. rewrite <- list_fmap_compose. exact Hlay.
  - by apply fits_write.
  - unfold card_flashes. apply Forall_fmap, Forall_forall. intros p _. apply fits_write. unfold compose, f_image. cbn [card_flash f_minor f_img_crc f_pieces].
    rewrite Hil. eapply fits_sub; [exact Hf1|lia|lia].
Qed.

(** The first and the last sector that the images have, and a sector between partitions. *)
Lemma card_recovers_witness : exists m' d',
  @do_update_sdcard _ (card_shell 2) (ram_files card_files) (fun _ _ => true) (fun _ => None) 5
    [Some (chars "sd_recovery"); Some (chars "mmc"); Some (chars "0:1"); Some (chars "48000000"); Some (chars "partmap.txt")] card_base used_disk = Some (1, m', d') /\
  ram_content d' 32768 = slice 0 512 (replicate 4096 7) /\ ram_content d' (65536 + 24) = slice 0 512 (replicate 4096 8) /\ ram_content d' 7000 = replicate 512 1.
Proof.
  destruct (@card_recovers _ ram_good ram_content (card_shell 1) (card_shell 2) 2 _ _ (fun _ => true) board_reloc 9 _ card_files small_base 4096 (fun _ _ => true)
    (fun _ _ _ => eq_refl) eq_refl ltac:(unfold small_base; lia) ltac:(vm_compute; split; discriminate || reflexivity) ltac:(unfold WRITE_SECTOR; lia) (chars "0:1") (ram_files card_files) _
    (fun _ => None) (chars "mmc") (chars "48000000") (chars "partmap.txt") card_map card_flashes card_base (UMem.write small_base card_map card_base) used_disk
    (Some (chars "sd_recovery")) [] (card_recoverable used_disk five_layout) used_disk_good ltac:(lia)) as (m' & d' & Hr & _ & _ & Hin & Hout).
  exists m', d'. split; [exact Hr|]. split; [|split].
  - apply (Hin 3%nat (card_flash (32768, 4096)) 0); vm_compute; reflexivity.
  - apply (Hin 4%nat (card_flash (65536, 65536)) 24); vm_compute; reflexivity.
  - rewrite (Hout 7000); [reflexivity| |]; refine (bool_decide_eq_true_1 _ _); vm_compute; reflexivity.
Defined.

(** Nine entries. *)
Definition nine_entries : list entry :=
  (fun k : nat => mkEntry (chars "mmc") 2 (chars "p") (chars "ext4") (0x100000 * (Z.of_nat k + 1)) 0x80000 (chars "dummy")) <$> seq 0 9.

Lemma many_parts_unnoticed_witness :
  @make_mmc_partition _ (card_shell 2) (entry_parts 0 nine_entries ++ replicate 7 no_sd_part) ∅ used_disk = Some (0, ∅, used_disk).
Proof.
  refine (@many_parts_unnoticed _ ram_good ram_content (card_shell 1) (card_shell 2) 2 _ (fun _ => true) board_reloc 9 _ eq_refl _ nine_entries ∅ used_disk _ _ used_disk_good).
  - vm_compute. split; [discriminate|reflexivity].
  - unfold nine_entries. apply Forall_fmap, Forall_seq. intros k Hk. unfold compose, entry_ok. cbn [e_device e_dev e_name e_fs e_start e_length e_file].
    assert (field (chars "mmc") /\ field (chars "p") /\ field (chars "dummy")) as (F1 & F2 & F3)
      by (unfold field, field_char; split_and!; refine (bool_decide_eq_true_1 _ _); vm_compute; reflexivity).
    split; [|split; [discriminate|reflexivity]]. split; [exact F1|]. split; [lia|]. split; [exact F2|]. split; [by apply (list_elem_of_lookup_2 _ 4)|].
    split; [unfold is_u64; lia|]. split; [unfold is_u64; lia|exact F3].
  - vm_compute. lia.
Defined.
