(* ===== verification/CardStack.v ===== *)
(** The commands on the card: [Recovery] on the shell of [CmdShell], whose mmc command is
    the one of [MmcCmd], on the driver of [MmcBlk].

    The disk of the recovery is the driver with the card behind it, and [mmc_command]
    discharges what the shell asks of the mmc command.  What is left is what the card and
    the host promise ([GoodCard]), that bringing a card up again changes nothing
    ([Bringing]), and the files. *)

From S2P Require Import Prelude UStr EnvVars Cli Vsprintf UMem MmcPart Ext4Img SdRecovery CmdShell Recovery Fields MmcBlk MmcInit SdCard MmcCmd.

Section Stack.
Context {HC : CardHost} (ifuel : nat) (init_part : mmc -> card -> Z * card).
Context (k : Z).

(** The driver as the disk: device [k] of the state. *)
Definition disk_mmc (s : mmc_state) : option mmc := find_mmc_device (mmc_devices s) k.

Definition driver_disk : BlockDev := {|
  bdev := mmc_state;
  lba s := default 0 (b_lba <$> disk_mmc s);
  blksz s := default 0 (read_bl_len <$> disk_mmc s);
  block_read a n s := let '(r, bs, c) := default (0, [], hw s) (mmc_bread (mmc_devices s) k a n (hw s)) in (r, bs, with_devices (mmc_devices s) c s);
  block_write a n data s := let '(r, c) := default (0, hw s) (MmcBlk.mmc_bwrite (mmc_devices s) k a n data (hw s)) in (r, with_devices (mmc_devices s) c s);
|}.

Definition driver_bwrite (dev_num a : Z) (data : list Z) (s : mmc_state) : Z * mmc_state :=
  let '(r, c) := default (0, hw s) (MmcBlk.mmc_bwrite (mmc_devices s) dev_num a (Z.of_nat (length data) / 512) data (hw s)) in (r, with_devices (mmc_devices s) c s).

Abbreviation mmc_command := (do_mmcops ifuel init_part).

Context (mm : mmc) (in_phase : phase -> card -> Prop) (content : card -> Z -> list Z) (blank : list Z) {HG : GoodCard mm in_phase content blank}.

(** A device that is in use, and comes up again as it was. *)
Class Bringing := {
  br_fitting : fitting mm;
  br_init : has_init mm <> 0;
  br_part : part_num mm = 0;
  br_dev : b_dev mm = k;
  br_range : 0 <= k < 2 ^ 31;
  br_unprotected c : in_phase (Busy 0) c -> mmc_getwp mm c <> 1;
  br_again c : in_phase (Busy 0) c ->
    exists c', bring_up ifuel init_part (mm <| has_init := 0 |>) c = Some (0, mm, c') /\ in_phase (Busy 0) c' /\ forall x, content c' x = content c x;
}.
Context {HB : Bringing}.

(** Device [k] is the current one, and its card is ready. *)
Definition ready (s : mmc_state) : Prop := disk_mmc s = Some mm /\ curr_device s = k /\ in_phase (Busy 0) (hw s).
Definition sectors (s : mmc_state) (x : Z) : list Z := content (hw s) x.

Lemma put_same ms : find_mmc_device ms k = Some mm -> put_mmc ms mm = ms.
Proof.
  induction ms as [|m ms IH]; [done|]. cbn [find_mmc_device put_mmc]. rewrite br_dev. destruct (b_dev m =? k); [by intros [= ->]|]. intros H. by rewrite IH.
Qed.

Lemma ready_with s c : ready s -> in_phase (Busy 0) c -> ready (with_devices (mmc_devices s) c s).
Proof. intros (Hm & Hcur & _) Hc. done. Qed.

#[global] Instance driver_good : @GoodDev driver_disk ready sectors.
Proof.
  pose proof br_fitting as Hfit. pose proof Hfit as [Hrbl Hwbl Hmax Hgroup Hl0].
  assert (Hlba : forall s, ready s -> @lba driver_disk s = b_lba mm) by (intros s (Hm & _); cbn [lba driver_disk]; by rewrite Hm).
  constructor.
  - intros s (Hm & _). cbn [blksz driver_disk]. by rewrite Hm.
  - intros s Hs. rewrite Hlba by done. exact Hl0.
  - intros s a (_ & _ & Hp). exact (gc_sector (hw s) a Hp).
  - intros s a Hs Ha. rewrite Hlba in Ha by done. pose proof Hs as (Hm & _ & Hp).
    destruct (bread_ok mm in_phase content blank Hfit (mmc_devices s) k (hw s) a 1 Hm Hp ltac:(lia) ltac:(lia) ltac:(lia)) as (c' & Hr & Hp' & Hx).
    exists (with_devices (mmc_devices s) c' s). pose proof (ready_with s c' Hs Hp') as Hs'. split; [|split; [exact Hs'|]].
    + cbn [block_read driver_disk]. rewrite Hr. cbn [default]. rewrite (seqZ_cons a 1), seqZ_nil by lia. cbn [fmap list_fmap concat]. by rewrite app_nil_r.
    + split; [by rewrite !Hlba|exact Hx].
  - intros s a data Hs Ha Hl. rewrite Hlba in Ha by done. pose proof Hs as (Hm & _ & Hp).
    destruct (bwrite_ok mm in_phase content blank Hfit (mmc_devices s) k (hw s) a 1 data Hm Hp ltac:(lia) ltac:(lia) ltac:(lia) ltac:(lia)) as (c' & Hr & Hp' & Hx).
    exists (with_devices (mmc_devices s) c' s). pose proof (ready_with s c' Hs Hp') as Hs'. split; [|split; [exact Hs'|split; [by rewrite !Hlba|]]].
    + cbn [block_write driver_disk]. rewrite Hr. done.
    + intros x. cbn [sectors hw with_devices]. unfold sectors. cbn [hw with_devices]. rewrite Hx.
      destruct (Z.leb_spec a x), (Z.ltb_spec x (a + 1)), (Z.eqb_spec x a); cbn [andb]; try lia; try done.
      subst. rewrite Z.sub_diag. unfold slice. change (Z.to_nat (512 * 0)) with O. rewrite drop_0. apply take_ge. lia.
Qed.
(** *** The mmc command *)

(** A device that is in use stays as it is. *)
Lemma up_already mm' c : has_init mm' <> 0 -> run (mmc_init ifuel init_part) mm' c = Some (0, mm', c).
Proof.
  intros Hi. unfold run, mmc_init, mbind, init_bind, get. apply Z.eqb_neq in Hi. cbn [fst]. by rewrite Hi.
Qed.

Lemma holds_bytes_from m p bs : holds m p bs -> bytes_from (length bs) p m = bs.
Proof.
  revert p. induction bs as [|c bs IH]; intros p Hh; [done|]. apply holds_cons in Hh as [Hc Hh]. cbn [length bytes_from]. by rewrite Hc, IH.
Qed.

Lemma init_ready s : ready s -> init_mmc_device ifuel init_part (curr_device s) false s = Some (Some mm, with_devices (mmc_devices s) (hw s) s).
Proof.
  intros (Hm & Hcur & Hp). unfold init_mmc_device. rewrite Hcur. unfold disk_mmc in Hm. rewrite Hm. unfold bring_up. rewrite up_already by exact br_init.
  cbn [mbind option_bind]. change (negb (0 =? 0)) with false. cbn iota. by rewrite put_same.
Qed.

Lemma init_again s : ready s -> exists c', init_mmc_device ifuel init_part k true s = Some (Some mm, with_devices (mmc_devices s) c' s) /\ in_phase (Busy 0) c' /\
  forall x, content c' x = content (hw s) x.
Proof.
  intros (Hm & Hcur & Hp). unfold init_mmc_device. unfold disk_mmc in Hm. rewrite Hm. destruct (br_again (hw s) Hp) as (c' & E & Hp' & Hx). cbn iota. rewrite E.
  cbn [mbind option_bind]. change (negb (0 =? 0)) with false. cbn iota. rewrite put_same by done. by exists c'.
Qed.

Lemma mmc_word w c a2 rest flag m s : find_cmd_tbl (Some (cstr w [])) (cmd_mmc ifuel init_part) = Some (Some c) ->
  0 <= curr_device s -> flag = 0 -> Z.of_nat (length (Some w :: a2)) <= maxargs c ->
  mmc_command flag (1 + Z.of_nat (length (Some w :: a2))) (Some (chars "mmc") :: (Some w :: a2) ++ rest) (m, s) =
    cmd c flag (Z.of_nat (length (Some w :: a2))) ((Some w :: a2) ++ rest) (m, s).
Proof.
  intros Hf Hcur -> Ha. unfold do_mmcops. cbn [lookup list_lookup app mbind option_bind fmap option_fmap option_map tail]. rewrite Hf. cbn [mbind option_bind].
  replace (1 + Z.of_nat (length (Some w :: a2)) - 1) with (Z.of_nat (length (Some w :: a2))) by lia.
  unfold W in *. destruct (Z.ltb_spec (maxargs c) (Z.of_nat (length (Some w :: a2)))); [lia|]. change (0 =? CMD_FLAG_REPEAT) with false. cbn [andb].
  destruct (Z.ltb_spec (curr_device s) 0); [lia|]. done.
Qed.

Lemma number_ok argv i base t v : argv !! i = Some (Some t) -> number_text base v t -> number argv i base = Some v.
Proof. intros Hi Ht. unfold number. rewrite Hi. cbn [mjoin option_join mbind option_bind]. 
  change (simple_strtoul (cstr t []) base) with (simple_strtoull (t ++ 0 :: []) base). rewrite Ht; [done|by destruct (base =? 10)|done].
Qed.

(** Selecting the device brings its card up again. *)
Lemma dev_runs m s : ready s -> exists c', mmc_command 0 3 [Some (chars "mmc"); Some (chars "dev"); Some (written 10 k); None] (m, s) =
    Some (0, (m, with_curr k (with_devices (mmc_devices s) c' s))) /\ in_phase (Busy 0) c' /\ forall x, content c' x = content (hw s) x.
Proof.
  intros Hs. pose proof Hs as (Hm & Hcur & Hp). pose proof br_range as Hk. destruct (init_again s Hs) as (c' & Hi & Hp' & Hx). exists c'. split; [|done].
  etransitivity; [apply (mmc_word (chars "dev") (mkCmd (chars "dev") 3 0 (do_mmc_dev ifuel init_part) false) [Some (written 10 k)] [None] 0 m s); [reflexivity|lia|done|cbn; lia]|].
  cbn [cmd length app]. change (Z.of_nat 2) with 2. unfold do_mmc_dev, dev_args. change (2 =? 1) with false. change (2 =? 2) with true. cbn iota.
  rewrite (number_ok _ 1 10 (written 10 k) k); [|reflexivity|apply written_number; [by left|unfold is_u64; lia]].
  cbn [mbind option_bind]. rewrite s32_small by (unfold is_s32; lia). rewrite Hi. cbn [mbind option_bind mmc_devices with_devices hw].
  unfold mmc_select_hwpart. unfold disk_mmc in Hm. rewrite Hm, br_part. change (0 =? 0) with true. done.
Qed.

Lemma write_runs a b n bs m s : ready s -> 0 <= a < 2 ^ 32 -> 0 <= b -> 0 < n -> b + n <= b_lba mm -> holds m a bs -> Z.of_nat (length bs) = 512 * n ->
  exists c', mmc_command 0 5 [Some (chars "mmc"); Some (chars "write"); Some (48 :: 120 :: written 16 a); Some (48 :: 120 :: written 16 b); Some (48 :: 120 :: written 16 n); None] (m, s) =
      Some (0, (m, with_devices (mmc_devices s) c' s)) /\ in_phase (Busy 0) c' /\
    forall x, content c' x = if (b <=? x) && (x <? b + n) then slice (Z.to_nat (512 * (x - b))) 512 bs else content (hw s) x.
Proof.
  intros Hs Ha Hb Hn Hl Hh Hlen. pose proof Hs as (Hm & Hcur & Hp). pose proof br_fitting as Hfit. pose proof Hfit as [_ Hwbl _ _ Hl0]. pose proof br_range as Hk.
  destruct (bwrite_ok mm in_phase content blank Hfit (mmc_devices s) k (hw s) b n bs Hm Hp ltac:(lia) ltac:(lia) ltac:(lia) ltac:(lia)) as (c' & Hr & Hp' & Hx).
  exists c'. split; [|done].
  etransitivity; [apply (mmc_word (chars "write") (mkCmd (chars "write") 4 0 (do_mmc_write ifuel init_part) false)
    [Some (48 :: 120 :: written 16 a); Some (48 :: 120 :: written 16 b); Some (48 :: 120 :: written 16 n)] [None] 0 m s); [reflexivity|lia|done|cbn; lia]|].
  cbn [cmd length app]. change (Z.of_nat 4) with 4. unfold do_mmc_write. change (negb (4 =? 4)) with false. cbn iota.
  rewrite (number_ok _ 1 16 (48 :: 120 :: written 16 a) a); [|reflexivity|apply prefixed_number; unfold is_u64; lia].
  rewrite (number_ok _ 2 16 (48 :: 120 :: written 16 b) b); [|reflexivity|apply prefixed_number; unfold is_u64; lia].
  rewrite (number_ok _ 3 16 (48 :: 120 :: written 16 n) n); [|reflexivity|apply prefixed_number; unfold is_u64; lia].
  cbn [mbind option_bind]. rewrite (u32_small b), (u32_small n) by (unfold is_u32; lia). rewrite init_ready by done. cbn [mbind option_bind mmc_devices with_devices hw curr_device].
  pose proof (br_unprotected (hw s) Hp) as Hwp. destruct (Z.eqb_spec (mmc_getwp mm (hw s)) 1); [done|]. rewrite Hwbl.
  replace (Z.to_nat (n * 512)) with (length bs) by lia. rewrite holds_bytes_from by done. rewrite Hcur, Hr. cbn [mbind option_bind].
  by rewrite u32_small, Z.eqb_refl by (unfold is_u32; lia).
Qed.

#[global] Instance driver_mmc : @GoodMmcCmd driver_disk mmc_command k ready sectors.
Proof.
  assert (Hlba : forall s, ready s -> @lba driver_disk s = b_lba mm) by (intros s (Hm & _); cbn [lba driver_disk]; by rewrite Hm).
  constructor; [exact br_range| |].
  - intros m s Hs. destruct (dev_runs m s Hs) as (c' & Hr & Hp & Hx). exists (with_curr k (with_devices (mmc_devices s) c' s)).
    assert (Hs' : ready (with_curr k (with_devices (mmc_devices s) c' s))) by (destruct Hs as (Hm & _); done).
    split; [exact Hr|]. split; [exact Hs'|]. split; [by rewrite !Hlba|exact Hx].
  - intros a b n bs m s Hs Ha Hb Hn Hl Hh Hlen. rewrite Hlba in Hl by done. destruct (write_runs a b n bs m s Hs Ha Hb Hn Hl Hh Hlen) as (c' & Hr & Hp & Hx).
    exists (with_devices (mmc_devices s) c' s). pose proof (ready_with s c' Hs Hp) as Hs'.
    split; [exact Hr|]. split; [exact Hs'|]. split; [by rewrite !Hlba|exact Hx].
Qed.
(** ** A recovery with this driver *)

Context (getenv : list Z -> option (list Z)) (get_device : list Z -> bool) (relocaddr : Z) (fuel : nat).

Definition driver_shell (n : nat) : @Shell driver_disk := @shell driver_disk driver_bwrite mmc_command getenv get_device relocaddr fuel n.

#[global] Instance driver_shell_good n : @GoodShell _ (driver_shell n) k ready sectors := shell_good _ _ _ _ _ _ n.

#[global] Instance driver_recovery n : @RecoveryShell driver_disk (driver_shell n) (driver_shell (S n)) ready get_device relocaddr fuel :=
  shell_recovery (HB := driver_disk) (good := ready) _ _ _ _ _ _ n.

(** C4: the whole way down: with the mmc command and the driver of the card behind the
    shell, a recovery leaves every sector of every image on the card itself, whatever the
    host can move at once and however the card is addressed, the card is ready again, and
    no other sectors, apart from those of tables, have changed. *)
Theorem driver_recovers files addr room getd envdev {HFi : @Files driver_disk} {HGF : @GoodFiles driver_disk HFi ready files} a1 a3 a4 t fs m m1 s cmd rest :
  @recoverable driver_disk k relocaddr files addr room envdev HFi a1 a3 a4 t fs m m1 s -> ready s -> (8 < fuel)%nat ->
  (forall t s, ready s -> getd t s = true) -> get_device (written 10 k) = true -> 0 <= addr -> 0 <= align_buffer relocaddr < 2 ^ 32 -> room <= 512 * WRITE_SECTOR ->
  exists m' s', @do_update_sdcard _ (driver_shell 2) HFi getd getenv 5 (cmd :: Some a1 :: Some envdev :: Some a3 :: Some a4 :: rest) m s = Some (1, m', s') /\
    in_phase (Busy 0) (hw s') /\
    (forall j f i b, fs !! j = Some f -> expanded (f_pieces f) i = Some b -> content (hw s') ((f_part f).1 + i) = b) /\
    forall x, x ∉ tables_at (f_part <$> fs) -> Forall (fun f => x < (f_part f).1 \/ (f_part f).1 + (f_part f).2 <= x) fs -> content (hw s') x = content (hw s) x.
Proof.
  intros Hr Hs Hfuel Hgetd Hget Ha Hb Hroom.
  destruct (@card_recovers_ok driver_disk ready sectors (driver_shell 1) (driver_shell 2) k _ _ get_device relocaddr fuel _ files addr room getd Hgetd Hget Ha Hb Hroom
    envdev HFi HGF getenv a1 a3 a4 t fs m m1 s cmd rest Hr Hs Hfuel) as (m' & s' & Hrun & (_ & _ & Hp) & _ & Hin & Hout).
  exists m', s'. done.
Qed.
End Stack.

(** ** An SD card *)

(** An SD card of high capacity that has been brought up comes up again as it was. *)
Lemma sd_bringing {HC : CardHost} ifuel init_part k powered at_state content in_phase g {HS : SdCard k powered at_state content init_part g} mm :
  sdhc g -> b_dev mm = k -> 0 <= k < 2 ^ 31 -> supplied g mm -> fitting (sd_up g mm) ->
  (forall c, in_phase (Busy 0) c -> powered c /\ mmc_getwp (sd_up g mm) c <> 1) -> (forall c, at_state Transfer c -> in_phase (Busy 0) c) ->
  Bringing ifuel init_part k (sd_up g mm) in_phase content.
Proof.
  intros Hg Hk Hr Hs Hfit Hin Hat. constructor; [done|discriminate|done|exact Hk|exact Hr|by intros c Hc; apply Hin|].
  intros c Hc. set (mm0 := (sd_up g mm) <| has_init := 0 |>).
  assert (H0 : has_init mm0 = 0 /\ init_in_progress mm0 = 0 /\ op_cond_pending mm0 = 0) by done. destruct H0 as (Hh & Hi & Ho).
  destruct (sd_init_ok k powered at_state content init_part g Hg ifuel mm0 c Hk Hh Hi Ho Hs (proj1 (Hin c Hc))) as (c' & E & Ht & Hx). exists c'. split; [|by auto]. unfold bring_up. rewrite E. unfold mm0. by rewrite sd_up_again.
Qed.

(** The card of [SdCard] in slot 2. *)
Definition slot_up : mmc := sd_up slot_regs (slot_mmc 2).

Lemma slot_fitting : fitting slot_up.
Proof. constructor; vm_compute; try split; try discriminate; reflexivity. Qed.

#[global] Instance slot_bringing : Bringing (HC := slot_host) 0 slot_part 2 slot_up slot_phase slot_blocks.
Proof.
  apply (@sd_bringing slot_host 0 slot_part 2 slot_powered slot_at slot_blocks slot_phase slot_regs (slot_card 2) (slot_mmc 2)).
  - exact slot_sdhc.
  - reflexivity.
  - lia.
  - exact (slot_supplied 2).
  - exact slot_fitting.
  - intros c [_ [_ Hl]]. split; [exact Hl|]. discriminate.
  - done.
Qed.

Definition slot_state : mmc_state (H := slot_host) := mkState slot_host [slot_up] 2 3 (Transfer, ram_start).

Lemma slot_state_ready : ready (HC := slot_host) 2 slot_up slot_phase slot_state.
Proof. split; [done|]. split; [done|]. split; [done|exact ram_start_ok]. Qed.

Lemma driver_recovers_witness : exists m' s',
  @do_update_sdcard _ (driver_shell (HC := slot_host) 0 slot_part 2 (fun _ => None) (fun _ => true) board_reloc 9 2) (ram_files card_files) (fun _ _ => true) (fun _ => None) 5
    [Some (chars "sd_recovery"); Some (chars "mmc"); Some (chars "0:1"); Some (chars "48000000"); Some (chars "partmap.txt")] card_base slot_state = Some (1, m', s') /\
  slot_blocks (hw s') 32768 = slice 0 512 (replicate 4096 7) /\ slot_blocks (hw s') (65536 + 24) = slice 0 512 (replicate 4096 8) /\ slot_blocks (hw s') 7000 = replicate 512 1.
Proof.
  pose proof (slot_card_good slot_up (or_intror eq_refl) ltac:(vm_compute; discriminate)) as HG.
  destruct (@driver_recovers slot_host 0 slot_part 2 slot_up slot_phase slot_blocks ram_erased HG slot_bringing
    (fun _ => None) (fun _ => true) board_reloc 9 card_files small_base 4096 (fun _ _ => true) (chars "0:1") (ram_files card_files) _
    (chars "mmc") (chars "48000000") (chars "partmap.txt") card_map card_flashes card_base (UMem.write small_base card_map card_base) slot_state
    (Some (chars "sd_recovery")) []) as (m' & s' & Hr & _ & Hin & Hout).
  - apply card_recoverable. exact five_layout.
  - exact slot_state_ready.
  - lia.
  - done.
  - reflexivity.
  - unfold small_base. lia.
  - vm_compute. split; discriminate || reflexivity.
  - unfold WRITE_SECTOR. lia.
  - exists m', s'. split; [exact Hr|]. split; [|split].
    + apply (Hin 3%nat (card_flash (32768, 4096)) 0); vm_compute; reflexivity.
    + apply (Hin 4%nat (card_flash (65536, 65536)) 24); vm_compute; reflexivity.
    + rewrite (Hout 7000); [reflexivity| |]; refine (bool_decide_eq_true_1 _ _); vm_compute; reflexivity.
Defined.
