(* ===== verification/EnvCard.v ===== *)
(** The environment on a memory card: [EnvStore] on the driver of [MmcBlk] and [MmcInit].

    The card of [EnvStore] is the list of devices with the card behind the one of the
    environment; what it asks for holds if that device is brought up as it should
    ([EnvDevice]), which an SD card of high capacity is, be it in use or not. *)

From S2P Require Import Prelude Fields UStr HashTable EnvText EnvVars EnvStore MmcPart Ext4Img MmcBlk MmcInit SdCard MmcCmd.

(** ** The driver as the card of the environment *)

Section EnvCard.
Context {HC : CardHost} (fuel : nat) (init_part : mmc -> card -> Z * card).

Definition env_device (s : mmc_state) : option mmc := find_mmc_device (mmc_devices s) mmc_get_env_dev.

(** What C leaves undefined is a failure here; it does not happen below. *)
Definition driver_env : Mmc := {|
  EnvStore.card := mmc_state;
  EnvStore.find_mmc_device d s := bool_decide (is_Some (find_mmc_device (mmc_devices s) d));
  EnvStore.mmc_init s :=
    match env_device s with
    | None => (NO_CARD_ERR, s)
    | Some mm =>
        let '(err, mm, c) := default (UNUSABLE_ERR, mm, hw s) (bring_up fuel init_part mm (hw s)) in
        (err, with_devices (put_mmc (mmc_devices s) mm) c s)
    end;
  EnvStore.write_bl_len s := default 0 (write_bl_len <$> env_device s);
  EnvStore.read_bl_len s := default 0 (read_bl_len <$> env_device s);
  EnvStore.block_write d a n data s := let '(r, c) := default (0, hw s) (mmc_bwrite (mmc_devices s) d a n data (hw s)) in (r, with_devices (mmc_devices s) c s);
  EnvStore.block_read d a n s := let '(r, bs, c) := default (0, [], hw s) (mmc_bread (mmc_devices s) d a n (hw s)) in (r, bs, with_devices (mmc_devices s) c s);
|}.

Context (unused used : mmc) (waiting : card -> Prop) (in_phase : phase -> card -> Prop) (content : card -> Z -> list Z) (blank : list Z).
Context {HG : GoodCard used in_phase content blank}.

(** The device [unused], with a card that is [waiting], becomes [used]. *)
Class EnvDevice := {
  ed_fitting : fitting used;
  ed_room : CONFIG_ENV_OFFSET + CONFIG_ENV_SIZE <= 512 * b_lba used;
  ed_used : has_init used <> 0;
  ed_dev : b_dev unused = mmc_get_env_dev /\ b_dev used = mmc_get_env_dev;
  ed_up c : waiting c -> exists c', bring_up fuel init_part unused c = Some (0, used, c') /\ in_phase (Busy 0) c' /\ forall x, content c' x = content c x;
}.
Context {HD : EnvDevice}.

Definition all_bytes (s : mmc_state) : Prop := forall x, Forall (fun b => 0 <= b < 256) (content (hw s) x).
Definition env_up (s : mmc_state) : Prop := env_device s = Some used /\ in_phase (Busy 0) (hw s) /\ all_bytes s.
Definition env_good (s : mmc_state) : Prop := env_up s \/ env_device s = Some unused /\ waiting (hw s) /\ all_bytes s.

(** A byte of the card. *)
Definition byte_at (s : mmc_state) (a : Z) : Z := nth (Z.to_nat (a mod 512)) (content (hw s) (a / 512)) 0.

Lemma put_device ms m m' : find_mmc_device ms mmc_get_env_dev = Some m -> b_dev m' = mmc_get_env_dev ->
  find_mmc_device (put_mmc ms m') mmc_get_env_dev = Some m'.
Proof.
  intros Hm Hd. induction ms as [|m0 ms IH]; [done|]. cbn [find_mmc_device put_mmc] in *. rewrite Hd.
  destruct (Z.eqb_spec (b_dev m0) mmc_get_env_dev) as [E|E]; cbn [find_mmc_device].
  - by rewrite Hd, Z.eqb_refl.
  - apply Z.eqb_neq in E. rewrite E. by apply IH.
Qed.

Lemma byte_in_sector s x i : 0 <= i < 512 -> byte_at s (512 * x + i) = nth (Z.to_nat i) (content (hw s) x) 0.
Proof. intros Hi. unfold byte_at. replace (512 * x + i) with (i + x * 512) by lia. rewrite Z.mod_add, Z.div_add by lia. by rewrite Z.mod_small, Z.div_small by lia. Qed.

Lemma sector_bytes s x : length (content (hw s) x) = 512%nat -> map (byte_at s) (seqZ (512 * x) 512) = content (hw s) x.
Proof.
  intros Hl. apply list_eq_same_length with 512%nat; [done|by rewrite length_map, length_seqZ|]. intros i b b' Hi Hb Hb'.
  rewrite list_lookup_fmap, lookup_seqZ_lt in Hb by lia. injection Hb as <-. rewrite byte_in_sector by lia. rewrite Nat2Z.id. by apply nth_lookup_Some.
Qed.

Lemma sectors_bytes s n : forall a, (forall x, length (content (hw s) x) = 512%nat) ->
  concat (content (hw s) <$> seqZ a (Z.of_nat n)) = map (byte_at s) (seqZ (512 * a) (512 * Z.of_nat n)).
Proof.
  induction n as [|n IH]; intros a Hl; [done|]. rewrite seqZ_cons by lia. cbn [fmap list_fmap concat]. rewrite <- (sector_bytes s a (Hl a)).
  replace (Z.pred (Z.of_nat (S n))) with (Z.of_nat n) by lia. replace (512 * Z.of_nat (S n)) with (512 + 512 * Z.of_nat n) by lia.
  rewrite seqZ_app by lia. rewrite map_app. f_equal. etransitivity; [apply (IH (Z.succ a) Hl)|]. do 2 f_equal. lia.
Qed.

Lemma same_bytes s s' : (forall x, content (hw s') x = content (hw s) x) -> all_bytes s -> all_bytes s' /\ forall a, byte_at s' a = byte_at s a.
Proof. intros Hx Hb. split; [intros x; rewrite Hx; apply Hb|]. intros a. unfold byte_at. by rewrite Hx. Qed.

(** A sector of what was written, and the bytes of it. *)
Lemma slice_bytes (P : Z -> Prop) o (data : list Z) : Forall P data -> Forall P (slice o 512 data).
Proof. intros H. unfold slice. by apply Forall_take, Forall_drop. Qed.

Lemma slice_byte (data : list Z) n x i : Z.of_nat (length data) = 512 * n -> 0 <= x < n -> (i < 512)%nat ->
  nth i (slice (Z.to_nat (512 * x)) 512 data) 0 = nth (Z.to_nat (512 * x) + i) data 0.
Proof.
  intros Hl Hx Hi. unfold slice. assert (Hn : (Z.to_nat (512 * x) + i < length data)%nat) by lia.
  destruct (lookup_lt_is_Some_2 data _ Hn) as [b Hb]. rewrite (nth_lookup_Some _ _ 0 b Hb). apply nth_lookup_Some.
  rewrite lookup_take_lt by lia. by rewrite lookup_drop.
Qed.

#[global] Instance driver_good_env : @GoodMmc driver_env env_good env_up byte_at.
Proof.
  pose proof ed_fitting as Hfit. pose proof Hfit as [Hrbl Hwbl _ _ Hl0]. pose proof ed_room as Hroom. pose proof ed_dev as [Hd0 Hd1].
  constructor; cbn [EnvStore.find_mmc_device EnvStore.mmc_init EnvStore.write_bl_len EnvStore.read_bl_len EnvStore.block_write EnvStore.block_read driver_env].
  - intros s [(Hm & _)|(Hm & _)]; unfold env_device in Hm; rewrite Hm; by apply bool_decide_eq_true_2.
  - intros s [(Hm & Hp & Hb)|(Hm & Hp & Hb)]; rewrite Hm.
    + unfold bring_up, run. assert (E : mmc_init fuel init_part (used, hw s) = Some (inr tt, (used, hw s))).
      { unfold mmc_init, mbind, init_bind, get. pose proof ed_used as Hu. apply Z.eqb_neq in Hu. cbn [fst]. by rewrite Hu. }
      rewrite E. cbn [default]. eexists. split; [done|]. split; [|done]. split; [by apply (put_device _ used)|done].
    + destruct (ed_up (hw s) Hp) as (c' & -> & Hp' & Hx). cbn [default]. eexists. split; [done|].
      destruct (same_bytes s (with_devices (put_mmc (mmc_devices s) used) c' s) Hx Hb) as [Hb' Hx']. split; [|exact Hx'].
      split; [by apply (put_device _ unused)|done].
  - intros s Hs. by left.
  - intros s (Hm & _). rewrite Hm. done.
  - intros s a Hs. assert (Hb : all_bytes s) by (destruct Hs as [(_ & _ & Hb)|(_ & _ & Hb)]; exact Hb). unfold byte_at.
    destruct (nth_in_or_default (Z.to_nat (a mod 512)) (content (hw s) (a / 512)) 0) as [Hin|E]; [|rewrite E; lia].
    specialize (Hb (a / 512)). rewrite Forall_forall in Hb. apply Hb. by apply list_elem_of_In.
  - intros s start n data (Hm & Hp & Hb) Hs Hn Hlim Hl Hdata.
    destruct (bwrite_ok used in_phase content blank Hfit (mmc_devices s) mmc_get_env_dev (hw s) start n data Hm Hp Hs Hn ltac:(lia) ltac:(lia)) as (c' & -> & Hp' & Hx).
    cbn [default]. eexists. split; [done|]. split; [split; [exact Hm|split; [exact Hp'|]]|].
    + intros x. cbn [hw with_devices]. rewrite Hx. destruct (_ && _); [by apply slice_bytes|apply Hb].
    + intros a. unfold byte_at at 1. cbn [hw with_devices]. rewrite Hx. pose proof (Z.div_mod a 512 ltac:(lia)) as E. pose proof (Z.mod_pos_bound a 512 ltac:(lia)) as Hi.
      destruct (Z.leb_spec start (a / 512)), (Z.ltb_spec (a / 512) (start + n)), (Z.leb_spec (512 * start) a), (Z.ltb_spec a (512 * (start + n))); cbn [andb]; try lia; try done.
      rewrite (slice_byte data n) by lia. f_equal. lia.
  - intros s start n (Hm & Hp & Hb) Hs Hn Hlim.
    destruct (bread_ok used in_phase content blank Hfit (mmc_devices s) mmc_get_env_dev (hw s) start n Hm Hp Hs Hn ltac:(lia)) as (c' & -> & Hp' & Hx).
    cbn [default]. exists (with_devices (mmc_devices s) c' s). destruct (same_bytes s (with_devices (mmc_devices s) c' s) Hx Hb) as [Hb' Hx']. split; [|split; [split; [exact Hm|done]|exact Hx']].
    do 2 f_equal. replace n with (Z.of_nat (Z.to_nat n)) by lia. apply sectors_bytes. intros x. exact (gc_sector (hw s) x Hp).
Qed.
End EnvCard.

(** An SD card of high capacity in the slot of the environment, in use or not. *)
Lemma sd_env {HC : CardHost} fuel init_part powered at_state content in_phase g mm {HS : SdCard mmc_get_env_dev powered at_state content init_part g} :
  sdhc g -> b_dev mm = mmc_get_env_dev -> has_init mm = 0 -> init_in_progress mm = 0 -> op_cond_pending mm = 0 -> supplied g mm ->
  fitting (sd_up g mm) -> CONFIG_ENV_OFFSET + CONFIG_ENV_SIZE <= 512 * b_lba (sd_up g mm) -> (forall c, at_state Transfer c -> in_phase (Busy 0) c) ->
  EnvDevice fuel init_part mm (sd_up g mm) powered in_phase content.
Proof.
  intros Hg Hk Hi Hp Ho Hs Hfit Hroom Hat. constructor; [done|done|discriminate|done|]. intros c Hc.
  destruct (sd_init_ok mmc_get_env_dev powered at_state content init_part g Hg fuel mm c Hk Hi Hp Ho Hs Hc) as (c' & E & Ht & Hx). exists c'. by auto.
Qed.

(** ** Claims *)

(** C26: the environment on the card itself: [saveenv], through the driver, and from a
    device that may not have been in use, writes the block of the environment and no
    other byte of the card; if the device is then started anew, with the same bytes on
    the card, the environment is found again; if the text does not fit, nothing on the
    card has changed. *)
Theorem card_keeps_env `{HC : CardHost} `{Slre} fuel init_part unused used waiting in_phase content blank {HG : GoodCard used in_phase content blank}
    {HD : EnvDevice fuel init_part unused used waiting in_phase content} strdup callback_init flags_init default_env addr buf st m s :
  (forall v, strdup v = Some v) ->
  (forall k f, callback_init k = Some f -> forall k' v op fl, f k' v op fl = false) ->
  env_good unused used waiting in_phase content s -> represents (env_htab st) m -> values_ok m -> names_ok 0 m -> escapes_counted m 0 ->
  Z.of_nat (length buf) = CONFIG_ENV_SIZE -> Z.of_nat (base.size m) < import_slots ENV_SIZE ->
  exists ret st' s', saveenv (H0 := driver_env fuel init_part) (fun _ => true) addr buf st s = Some (ret, st', s') /\ env_up used in_phase content s' /\
    (forall a, outside_env a -> byte_at content s' a = byte_at content s a) /\
    if ENV_SIZE <? needed 0 (map_to_list m) then ret = 1 /\ (forall a, byte_at content s' a = byte_at content s a)
    else ret = 0 /\ forall addr2 buf2 st2 s2, env_good unused used waiting in_phase content s2 -> (forall x, content (hw s2) x = content (hw s') x) ->
      Z.of_nat (length buf2) = CONFIG_ENV_SIZE -> env_valid st2 <> 0 -> permissive (env_htab st2) ->
      exists st3 s3, env_relocate (H0 := driver_env fuel init_part) strdup (fun _ => true) callback_init flags_init default_env addr2 buf2 st2 s2 = Some (st3, s3) /\
        ready st3 (nonempty m).
Proof.
  intros Hdup Hcb Hg Hr Hv Hn He Hb Hroom.
  destruct (saveenv_ok (HM := driver_env fuel init_part) addr buf st m s Hg Hr Hv Hn He Hb) as (ret & st' & s' & Hs & Hup & _ & Hout & Hres).
  exists ret, st', s'. split; [exact Hs|]. split; [exact Hup|]. split; [exact Hout|].
  destruct (ENV_SIZE <? needed 0 (map_to_list m)); [exact Hres|]. destruct Hres as [-> Hi]. split; [done|].
  intros addr2 buf2 st2 s2 Hg2 Hx Hb2 Hval Hp.
  refine (relocate_image (HM := driver_env fuel init_part) strdup callback_init flags_init default_env Hdup Hcb addr2 buf2 st2 s2 m Hg2 Hb2 Hval _ Hv Hn Hroom Hp).
  rewrite (env_block_same (HM := driver_env fuel init_part) (content := byte_at content) s' s2); [exact Hi|]. intros a. unfold byte_at. by rewrite Hx.
Qed.

(** The card of [SdCard] in slot 0, which has not been used, and which is taken out of
    power afterwards. *)
Definition env_slot_up : mmc := sd_up slot_regs (slot_mmc 0).

#[global] Instance slot_env : EnvDevice (HC := slot_host) 0 slot_part (slot_mmc 0) env_slot_up slot_powered slot_phase slot_blocks.
Proof.
  apply (@sd_env slot_host 0 slot_part slot_powered slot_at slot_blocks slot_phase slot_regs (slot_mmc 0) (slot_card 0)).
  - exact slot_sdhc.
  - reflexivity.
  - reflexivity.
  - reflexivity.
  - reflexivity.
  - exact (slot_supplied 0).
  - constructor; vm_compute; try split; try discriminate; reflexivity.
  - vm_compute. discriminate.
  - done.
Qed.

Definition slot_off (c : sd_slot) : mmc_state (H := slot_host) := mkState slot_host [slot_mmc 0] (-1) 1 (Idle 0, mkRam (Busy 0) (ram_blocks c.2)).

Lemma slot_off_good s : env_up (HC := slot_host) env_slot_up slot_phase slot_blocks s -> 
  env_good (HC := slot_host) (slot_mmc 0) env_slot_up slot_powered slot_phase slot_blocks (slot_off (hw s)).
Proof. intros (_ & [_ [_ Hl]] & Hb). right. by split. Qed.

Definition env_buffer : list Z := replicate (Z.to_nat CONFIG_ENV_SIZE) 170.

Lemma card_keeps_env_witness : exists st' s' st3 s3,
  saveenv (H := no_regex) (H0 := driver_env (HC := slot_host) 0 slot_part) (fun _ => true) 0x77000000 env_buffer env_sample (slot_off slot_start) = Some (0, st', s') /\
  byte_at (HC := slot_host) slot_blocks s' 100 = 1 /\
  env_relocate (H0 := driver_env (HC := slot_host) 0 slot_part) Some (fun _ => true) (fun _ => None) (fun _ => 0) default_environment 0x77000000 env_buffer early_state
    (slot_off (hw s')) = Some (st3, s3) /\ ready st3 (nonempty env_map).
Proof.
  pose proof (slot_card_good env_slot_up (or_intror eq_refl) ltac:(vm_compute; discriminate)) as HG. destruct env_map_ok as (Hv & Hn & He).
  assert (Hbuf : Z.of_nat (length env_buffer) = CONFIG_ENV_SIZE) by (unfold env_buffer; rewrite length_replicate; reflexivity).
  assert (Hoff : env_good (HC := slot_host) (slot_mmc 0) env_slot_up slot_powered slot_phase slot_blocks (slot_off slot_start)).
  { right. split; [reflexivity|]. split; [exact slot_start_powered|]. intros x. apply Forall_replicate. lia. }
  assert (Hcb : forall k (f : callback_fn), (fun _ : list Z => None) k = Some f -> forall k' v op fl, f k' v op fl = false) by (intros k f Hf; discriminate Hf).
  destruct (@card_keeps_env slot_host no_regex 0 slot_part (slot_mmc 0) env_slot_up slot_powered slot_phase slot_blocks ram_erased HG slot_env
    Some (fun _ => None) (fun _ => 0) default_environment 0x77000000 env_buffer env_sample env_map (slot_off slot_start)
    (fun v => eq_refl) Hcb Hoff env_sample_represents Hv Hn He Hbuf ltac:(vm_compute; reflexivity)) as (ret & st' & s' & Hs & Hup & Hout & Hres).
  assert (E : (ENV_SIZE <? needed 0 (map_to_list env_map)) = false) by (vm_compute; reflexivity). rewrite E in Hres. destruct Hres as [-> Hres].
  destruct (Hres 0x77000000 env_buffer early_state (slot_off (hw s')) (slot_off_good s' Hup) (fun _ => eq_refl) Hbuf) as (st3 & s3 & Hrun & Hready).
  - discriminate.
  - intros e v op fl. reflexivity.
  - exists st', s', st3, s3. split; [exact Hs|]. split; [|split; [exact Hrun|exact Hready]].
    rewrite (Hout 100); [reflexivity|]. left. vm_compute. reflexivity.
Defined.
