(* ===== verification/NxClock.v ===== *)
(** The clock tree of the board support
    (src/U-Boot/arch/arm/mach-nexell/clock.c): the rates of the four PLLs and of
    the core clocks computed from the clock controller's registers, the table of
    peripheral clocks, and the operations on a clock: look up, set the rate,
    enable, disable.  Pointers to clocks are indices into the table of clocks. *)

From S2P Require Import Prelude Machine UStr.

(** ** Sources of a peripheral clock *)

Definition I_PLL0_BIT : Z := 0.
Definition I_PLL1_BIT : Z := 1.
Definition I_PLL2_BIT : Z := 2.
Definition I_PLL3_BIT : Z := 3.
Definition I_EXT1_BIT : Z := 4.
Definition I_EXT2_BIT : Z := 5.
Definition I_CLKn_BIT : Z := 7.
Definition I_EXT1_BIT_FORCE : Z := 8.
Definition I_CLOCK_NUM : Z := 6.
Definition I_EXECEPT_CLK : Z := 0.
Definition I_CLOCK_MASK : Z := Z.land (Z.shiftl 1 I_CLOCK_NUM - 1) (Z.lnot I_EXECEPT_CLK).
Definition I_PLL0 : Z := Z.shiftl 1 I_PLL0_BIT.
Definition I_PLL1 : Z := Z.shiftl 1 I_PLL1_BIT.
Definition I_PLL2 : Z := Z.shiftl 1 I_PLL2_BIT.
Definition I_PLL3 : Z := Z.shiftl 1 I_PLL3_BIT.
Definition I_EXTCLK1 : Z := Z.shiftl 1 I_EXT1_BIT.
Definition I_EXTCLK1_FORCE : Z := Z.shiftl 1 I_EXT1_BIT_FORCE.
Definition I_PLL_0_1 : Z := Z.lor I_PLL0 I_PLL1.
Definition I_PLL_0_2 : Z := Z.lor I_PLL_0_1 I_PLL2.
Definition I_PLL_0_3 : Z := Z.lor I_PLL_0_2 I_PLL3.
Definition I_CLKnOUT : Z := 0.
Definition I_PCLK : Z := Z.shiftl 1 16.
Definition I_BCLK : Z := Z.shiftl 1 17.
Definition I_GATE_PCLK : Z := Z.shiftl 1 20.
Definition I_GATE_BCLK : Z := Z.shiftl 1 21.
Definition I_PCLK_MASK : Z := Z.lor I_GATE_PCLK I_PCLK.
Definition I_BCLK_MASK : Z := Z.lor I_GATE_BCLK I_BCLK.

(** ** Data *)

(** [struct clk_dev_peri] *)
Record clk_dev_peri := Peri {
  dev_name : option (list Z);
  base : Z;
  dev_id : Z;
  periph_id : Z;
  clk_step : Z;
  in_mask : Z;
  in_mask1 : Z;
  div_src_0 : Z;
  div_val_0 : Z;
  invert_0 : Z;
  div_src_1 : Z;
  div_val_1 : Z;
  invert_1 : Z;
  in_extclk_1 : Z;
  in_extclk_2 : Z;
}.

(** [struct clk_dev], the rate of its [struct clk] first; [link] is the index
    of another clock, [peri] an index into [clk_periphs]. *)
Record clk_dev := Dev {
  clk_rate : Z;
  link : option Z;
  name : option (list Z);
  peri : option Z;
}.

(** [struct clk_dev_map] *)
Definition clk_dev_map : list field := [word "con_enb"; words "con_gen" 4].

Definition CLK_PERI_1S (nm : string) (devid id addr mk : Z) : clk_dev_peri :=
  Peri (Some (chars nm)) addr devid id 1 mk 0 0 0 0 0 0 0 0 0.

Definition CLK_PERI_2S (nm : string) (devid id addr mk mk2 : Z) : clk_dev_peri :=
  Peri (Some (chars nm)) addr devid id 2 mk mk2 0 0 0 0 0 0 0 0.

Definition clk_core : list string :=
  ["pll0"; "pll1"; "pll2"; "pll3"; "fclk"; "mclk"; "bclk"; "pclk"; "hclk"].

(** The addresses of the clock generators, from 0 on. *)
Definition PHY_BASEADDR_CLKGEN (n : nat) : Z :=
  nth n [0xC00BB000; 0xC00BC000; 0xC00BD000; 0xC00BE000; 0xC00BF000; 0xC00C0000; 0xC00AE000;
    0xC00AF000; 0xC00B0000; 0xC00CA000; 0xC00C8000; 0xC00B8000; 0xC00B7000; 0xC00BA000;
    0xC00B9000; 0xC00B2000; 0xC00B3000; 0xC00B4000; 0xC00C5000; 0xC00CC000; 0xC00CD000;
    0xC00C3000; 0xC00A9000; 0xC00AA000; 0xC00A8000; 0xC00AB000; 0xC006E000; 0xC0084000;
    0xC00B5000; 0xC00C4000; 0xC00C1000; 0xC00C2000; 0xC006B000; 0xC00C7000; 0xC00C6000;
    0xC00B6000; 0xC00CB000; 0xC00AC000; 0xC00AD000; 0xC00A7000; 0xC009A000] 0.

Abbreviation DEV_NAME_TIMER := "nx-timer"%string.
Abbreviation DEV_NAME_UART := "nx-uart"%string.
Abbreviation DEV_NAME_PWM := "nx-pwm"%string.
Abbreviation DEV_NAME_I2C := "nx-i2c"%string.
Abbreviation DEV_NAME_GMAC := "nx-gmac"%string.
Abbreviation DEV_NAME_I2S := "nx-i2s"%string.
Abbreviation DEV_NAME_SDHC := "nx-sdhc"%string.
Abbreviation DEV_NAME_SPI := "nx-spi"%string.

(** The initialisers of [clk_periphs], each with its index (the [CLK_ID] of
    nexell.h) first. *)
Definition periph_inits : list (Z * clk_dev_peri) :=
  [(14, CLK_PERI_1S DEV_NAME_TIMER 0 14 (PHY_BASEADDR_CLKGEN 14) I_PLL_0_2);
   (0, CLK_PERI_1S DEV_NAME_TIMER 1 0 (PHY_BASEADDR_CLKGEN 0) I_PLL_0_2);
   (1, CLK_PERI_1S DEV_NAME_TIMER 2 1 (PHY_BASEADDR_CLKGEN 1) I_PLL_0_2);
   (2, CLK_PERI_1S DEV_NAME_TIMER 3 2 (PHY_BASEADDR_CLKGEN 2) I_PLL_0_2);
   (22, CLK_PERI_1S DEV_NAME_UART 0 22 (PHY_BASEADDR_CLKGEN 22) I_PLL_0_2);
   (24, CLK_PERI_1S DEV_NAME_UART 1 24 (PHY_BASEADDR_CLKGEN 24) I_PLL_0_2);
   (23, CLK_PERI_1S DEV_NAME_UART 2 23 (PHY_BASEADDR_CLKGEN 23) I_PLL_0_2);
   (25, CLK_PERI_1S DEV_NAME_UART 3 25 (PHY_BASEADDR_CLKGEN 25) I_PLL_0_2);
   (26, CLK_PERI_1S DEV_NAME_UART 4 26 (PHY_BASEADDR_CLKGEN 26) I_PLL_0_2);
   (27, CLK_PERI_1S DEV_NAME_UART 5 27 (PHY_BASEADDR_CLKGEN 27) I_PLL_0_2);
   (13, CLK_PERI_1S DEV_NAME_PWM 0 13 (PHY_BASEADDR_CLKGEN 13) I_PLL_0_2);
   (3, CLK_PERI_1S DEV_NAME_PWM 1 3 (PHY_BASEADDR_CLKGEN 3) I_PLL_0_2);
   (4, CLK_PERI_1S DEV_NAME_PWM 2 4 (PHY_BASEADDR_CLKGEN 4) I_PLL_0_2);
   (5, CLK_PERI_1S DEV_NAME_PWM 3 5 (PHY_BASEADDR_CLKGEN 5) I_PLL_0_2);
   (6, CLK_PERI_1S DEV_NAME_I2C 0 6 (PHY_BASEADDR_CLKGEN 6) I_GATE_PCLK);
   (7, CLK_PERI_1S DEV_NAME_I2C 1 7 (PHY_BASEADDR_CLKGEN 7) I_GATE_PCLK);
   (8, CLK_PERI_1S DEV_NAME_I2C 2 8 (PHY_BASEADDR_CLKGEN 8) I_GATE_PCLK);
   (10, CLK_PERI_2S DEV_NAME_GMAC 0 10 (PHY_BASEADDR_CLKGEN 10) (Z.lor (Z.lor I_PLL_0_3 I_EXTCLK1) I_EXTCLK1_FORCE) I_CLKnOUT);
   (15, CLK_PERI_2S DEV_NAME_I2S 0 15 (PHY_BASEADDR_CLKGEN 15) (Z.lor I_PLL_0_3 I_EXTCLK1) I_CLKnOUT);
   (16, CLK_PERI_2S DEV_NAME_I2S 1 16 (PHY_BASEADDR_CLKGEN 16) (Z.lor I_PLL_0_3 I_EXTCLK1) I_CLKnOUT);
   (17, CLK_PERI_2S DEV_NAME_I2S 2 17 (PHY_BASEADDR_CLKGEN 17) (Z.lor I_PLL_0_3 I_EXTCLK1) I_CLKnOUT);
   (18, CLK_PERI_1S DEV_NAME_SDHC 0 18 (PHY_BASEADDR_CLKGEN 18) (Z.lor I_PLL_0_2 I_GATE_PCLK));
   (19, CLK_PERI_1S DEV_NAME_SDHC 1 19 (PHY_BASEADDR_CLKGEN 19) (Z.lor I_PLL_0_2 I_GATE_PCLK));
   (20, CLK_PERI_1S DEV_NAME_SDHC 2 20 (PHY_BASEADDR_CLKGEN 20) (Z.lor I_PLL_0_2 I_GATE_PCLK));
   (37, CLK_PERI_1S DEV_NAME_SPI 0 37 (PHY_BASEADDR_CLKGEN 37) I_PLL_0_2);
   (38, CLK_PERI_1S DEV_NAME_SPI 1 38 (PHY_BASEADDR_CLKGEN 38) I_PLL_0_2);
   (39, CLK_PERI_1S DEV_NAME_SPI 2 39 (PHY_BASEADDR_CLKGEN 39) I_PLL_0_2)].

(** [clk_periphs] at start: an index without an initialiser is all zero. *)
Definition zero_peri : clk_dev_peri := Peri None 0 0 0 0 0 0 0 0 0 0 0 0 0 0.

Definition CLK_PERI_NUM : Z := 40.
Definition CLK_CORE_NUM : Z := 9.
Definition CLK_DEVS_NUM : Z := CLK_CORE_NUM + CLK_PERI_NUM.
Definition MAX_DIVIDER : Z := Z.shiftl 1 8 - 1.

Definition clk_periphs0 : list clk_dev_peri :=
  foldl (fun l p => <[Z.to_nat p.1 := p.2]> l) (replicate (Z.to_nat CLK_PERI_NUM) zero_peri)
    periph_inits.

(** The fields of [struct _core_hz_]. *)
Inductive hz_field :=
  | pll (n : Z)
  | cpu_fclk | cpu_bclk | mem_fclk | mem_dclk | mem_bclk | mem_pclk | bus_bclk | bus_pclk
  | cci4_bclk | cci4_pclk | g3d_bclk | coda_bclk | coda_pclk | disp_bclk | disp_pclk | hdmi_pclk.

#[global] Instance hz_field_eq_dec : EqDecision hz_field.
Proof. solve_decision. Defined.

(** The file's static variables. *)
Record clk_vars := ClkVars {
  clk_periphs : list clk_dev_peri;
  st_clk_devs : list clk_dev;
  core_hz : hz_field -> Z;
}.

Definition zero_dev : clk_dev := Dev 0 None None None.

Definition vars0 : clk_vars :=
  ClkVars clk_periphs0 (replicate (Z.to_nat CLK_DEVS_NUM) zero_dev) (fun _ => 0).

(** [struct nx_clkpwr_registerset] *)
Definition nx_clkpwr_registerset : list field :=
  [word "clkmodereg0"; word "__reserved0"; words "pllsetreg" 4; words "__reserved1" 2;
   words "dvoreg" 9; word "__Reserved2"; words "pllsetreg_sscg" 6; words "__reserved3" 8;
   Field "__reserved4" (0x200 - 0x80); word "gpiowakeupriseenb"; word "gpiowakeupfallenb";
   word "gpiorstenb"; word "gpiowakeupenb"; word "gpiointenb"; word "gpiointpend";
   word "resetstatus"; word "intenable"; word "intpend"; word "pwrcont"; word "pwrmode";
   word "__reserved5"; words "scratch" 3; word "sysrstconfig";
   Field "__reserved6" (0x2A0 - 0x240); word "cpupowerdownreq"; word "cpupoweronreq";
   word "cpuresetmode"; word "cpuwarmresetreq"; word "__reserved7"; word "cpustatus";
   Field "__reserved8" (0x400 - 0x2B8)].

Definition PHY_BASEADDR_CLKPWR : Z := 0xC0010000.
Definition CONFIG_SYS_PLLFIN : Z := 24000000.

Definition DIV_CPUG0 : Z := 0.
Definition DIV_BUS : Z := 1.
Definition DIV_MEM : Z := 2.
Definition DIV_G3D : Z := 3.
Definition DIV_CODA : Z := 4.
Definition DIV_DISP : Z := 5.
Definition DIV_HDMI : Z := 6.
Definition DIV_CCI4 : Z := 8.

Definition DVO0 : Z := 3.
Definition DVO1 : Z := 9.
Definition DVO2 : Z := 15.
Definition DVO3 : Z := 21.

Definition CORECLK_ID_BCLK : Z := 6.
Definition CORECLK_ID_PCLK : Z := 7.

(** ** Arithmetic on [long] and [int]: an overflow, or a division by zero, is
    undefined. *)

Definition long (x : Z) : option Z :=
  if (- 2 ^ 63 <=? x) && (x <? 2 ^ 63) then Some x else None.

Definition int (x : Z) : option Z :=
  if (- 2 ^ 31 <=? x) && (x <? 2 ^ 31) then Some x else None.

Definition ldiv (a b : Z) : option Z := if b =? 0 then None else long (Z.quot a b).

(** [abs (a - b)] on [long] operands. *)
Definition distance (a b : Z) : option Z := d ← long (a - b); long (Z.abs d).

(** [abs (a - b)] on [unsigned long] operands: the difference wraps round, and
    is read as [long]. *)
Definition udistance (a b : Z) : option Z := long (Z.abs (s64 (u64 (a - b)))).

(** The rate reached and the divider; every caller passes a place for it. *)
Definition clk_divide (rate request align : Z) : option (Z * Z) :=
  q ← ldiv rate request;
  let div := s32 q in
  let max := Z.land MAX_DIVIDER (Z.lnot (align - 1)) in
  adv ← int (Z.land div (Z.lnot (align - 1)) + align);
  if div =? 0 then Some (rate, 1) else
  let div := if div =? 1 then div else Z.land div (Z.lnot (align - 1)) in
  div ← (if div =? adv then Some div else
           a ← ldiv rate div; da ← distance request a;
           b ← ldiv rate adv; db ← distance request b;
           Some (if db <? da then adv else div));
  let div := if max <? div then max else div in
  r ← ldiv rate div; Some (r, div).

(** [for (i = 0; step > i ; i++) rate = clk_divide(rate, request, 2, &div[i]);] *)
Fixpoint divide_steps (ks : list Z) (rate request : Z) (div : list Z) : option (Z * list Z) :=
  match ks with
  | [] => Some (rate, div)
  | i :: ks =>
      '(r, d) ← clk_divide (s64 rate) (s64 request) 2;
      if i <? Z.of_nat (length div)
      then divide_steps ks (u64 r) request (<[Z.to_nat i := d]> div) else None
  end.

(** The rate of source [n]: an external clock of the peripheral, or a PLL. *)
Definition source_rate (g : clk_vars) (p : clk_dev_peri) (n : Z) : option Z :=
  if n =? I_EXT1_BIT then Some (u64 (in_extclk_1 p))
  else if n =? I_EXT2_BIT then Some (u64 (in_extclk_2 p))
  else clk_rate <$> st_clk_devs g !! Z.to_nat n.

(** The variables of [clk_round_rate] that outlive a round of its loop. *)
Record choice := Choice {
  rate_hz : Z;
  s1 : Z;
  s2 : Z;
  d1 : Z;
  d2 : Z;
  divs : list Z;
}.

(** The loop over the sources; the fields [s1] to [d2] are [short]s. *)
Fixpoint try_sources (ns : list Z) (g : clk_vars) (p : clk_dev_peri) (mask step request : Z)
    (clk2 : bool) (c : choice) : option choice :=
  match ns with
  | [] => Some c
  | n :: ns =>
      if Z.land (Z.shiftr (Z.land mask I_CLOCK_MASK) n) 1 =? 0
      then try_sources ns g p mask step request clk2 c else
      rate ← source_rate g p n;
      if rate =? 0 then try_sources ns g p mask step request clk2 c else
      '(rate, div) ← divide_steps (seqZ 0 step) rate request (divs c);
      worse ← (if rate_hz c =? 0 then Some false else
                 a ← udistance rate request; b ← udistance (rate_hz c) request; Some (b <? a));
      let c :=
        if worse : bool then Choice (rate_hz c) (s1 c) (s2 c) (d1 c) (d2 c) div
        else if clk2 then Choice rate (-1) n (-1) (s16 (nth 0 div 0)) div
        else Choice rate n I_CLKn_BIT (s16 (nth 0 div 0)) (s16 (nth 1 div 0)) div in
      try_sources ns g p mask step request clk2 c
  end.

Definition set_peri (g : clk_vars) (i : Z) (p : clk_dev_peri) : clk_vars :=
  ClkVars (<[Z.to_nat i := p]> (clk_periphs g)) (st_clk_devs g) (core_hz g).

Definition set_dev (g : clk_vars) (i : Z) (d : clk_dev) : clk_vars :=
  ClkVars (clk_periphs g) (<[Z.to_nat i := d]> (st_clk_devs g)) (core_hz g).

Definition set_hz (g : clk_vars) (f : hz_field) (v : Z) : clk_vars :=
  ClkVars (clk_periphs g) (st_clk_devs g)
    (fun x => if decide (x = f) then v else core_hz g x).

Definition with_rate (d : clk_dev) (r : Z) : clk_dev := Dev r (link d) (name d) (peri d).

Definition with_divs (p : clk_dev_peri) (c : choice) : clk_dev_peri :=
  Peri (dev_name p) (base p) (dev_id p) (periph_id p) (clk_step p) (in_mask p) (in_mask1 p)
    (s1 c) (d1 c) (invert_0 p) (s2 c) (d2 c) (invert_1 p) (in_extclk_1 p) (in_extclk_2 p).

Section Code.
Context {D : Type} `{Machine D}.

#[local] Abbreviation code A := (prog D clk_vars A).

(** [None] is undefined behaviour. *)
Definition need {A} (o : option A) : code A :=
  match o with Some a => ret a | None => halt Undef end.

Definition dev_at (clk : Z) : code clk_dev := g <-- gget ;; need (st_clk_devs g !! Z.to_nat clk).

Definition peri_at (i : Z) : code clk_dev_peri := g <-- gget ;; need (clk_periphs g !! Z.to_nat i).

(** *** The registers of a clock generator *)

Definition con_enb (b : Z) : Z := b + offsetof clk_dev_map "con_enb".
Definition con_gen (b i : Z) : Z := b + offsetof clk_dev_map "con_gen" + 4 * i.

Definition clk_dev_bclk (b : Z) (on : bool) : code unit :=
  v <-- rd32 (con_enb b) ;;
  wr32 (con_enb b) (Z.lor (Z.land v (not32 0x3)) (Z.land (if on then 3 else 0) 0x3)).

Definition clk_dev_pclk (b : Z) (on : bool) : code unit :=
  if on then
    v <-- rd32 (con_enb b) ;;
    wr32 (con_enb b) (Z.lor (Z.land v (not32 (Z.shiftl 1 3))) (Z.shiftl 1 3))
  else ret tt.

Definition clk_dev_rate (b step src div : Z) : code unit :=
  val <-- rd32 (con_gen b (Z.shiftl step 1)) ;;
  let val := Z.land val (not32 (Z.shiftl 0x07 2)) in
  let val := Z.lor val (shl32 src 2) in
  let val := Z.land val (not32 (Z.shiftl 0xFF 5)) in
  let val := Z.lor val (shl32 (div - 1) 5) in
  wr32 (con_gen b (Z.shiftl step 1)) val.

Definition clk_dev_inv (b step inv : Z) : code unit :=
  v <-- rd32 (con_gen b (Z.shiftl step 1)) ;;
  wr32 (con_gen b (Z.shiftl step 1)) (Z.lor (Z.land v (not32 (Z.shiftl 1 1))) (shl32 inv 1)).

Definition clk_dev_enb (b : Z) (on : bool) : code unit :=
  v <-- rd32 (con_enb b) ;;
  wr32 (con_enb b) (Z.lor (Z.land v (not32 (Z.shiftl 1 2))) (Z.shiftl (if on then 1 else 0) 2)).

(** *** The core clocks *)

Definition clkpwr (n : string) (i : Z) : Z :=
  PHY_BASEADDR_CLKPWR + offsetof nx_clkpwr_registerset n + 4 * i.

(** An [unsigned int] division, and a shift right of one. *)
Definition udiv (a b : Z) : option Z := if b =? 0 then None else Some (u32 a / b).
Definition ushr (a n : Z) : option Z := if n <? 32 then Some (Z.shiftr a n) else None.

(** The arithmetic of [pll_rate] on the words of the two registers. *)
Definition pll_hz (plln xtal val val1 : Z) : option Z :=
  let xtal := u32 xtal / 1000 in
  let nP := Z.land (Z.shiftr val 18) 0x03F in
  let nM := Z.land (Z.shiftr val 8) 0x3FF in
  let nS := Z.land (Z.shiftr val 0) 0x0FF in
  let nK := Z.land (Z.shiftr val1 16) 0xFFFF in
  temp ← (if (1 <? plln) && negb (nK =? 0) then
            a ← udiv (nK * 1000) 65536; b ← udiv (a * xtal) nP; ushr b nS
          else Some 0);
  m ← udiv (nM * xtal) nP; m ← ushr m nS;
  Some (u32 (m * 1000 + temp)).

(** The arrays have four and six words: the selector of a divider can be past both. *)
Definition pll_rate (plln xtal : Z) : code Z :=
  if plln <? countof nx_clkpwr_registerset "pllsetreg" then
    val <-- rd32 (clkpwr "pllsetreg" plln) ;;
    val1 <-- rd32 (clkpwr "pllsetreg_sscg" plln) ;;
    need (pll_hz plln xtal val val1)
  else halt Undef.

Definition pll_dvo (dvo : Z) : code Z :=
  v <-- rd32 (clkpwr "dvoreg" dvo) ;; ret (Z.land v 0x7).

Definition pll_div (dvo : Z) : code Z :=
  val <-- rd32 (clkpwr "dvoreg" dvo) ;;
  ret (Z.lor (Z.lor (Z.lor
    (Z.shiftl (Z.land (Z.shiftr val DVO3) 0x3F + 1) 24)
    (Z.shiftl (Z.land (Z.shiftr val DVO2) 0x3F + 1) 16))
    (Z.shiftl (Z.land (Z.shiftr val DVO1) 0x3F + 1) 8))
    (Z.shiftl (Z.land (Z.shiftr val DVO0) 0x3F + 1) 0)).

(** [((pll_div(n) >> sh)&0x3F)], for each [sh] in turn the divisor of what is
    to the left of it. *)
Fixpoint divided (r : Z) (n : Z) (shs : list Z) : code Z :=
  match shs with
  | [] => ret r
  | sh :: shs =>
      d <-- pll_div n ;;
      r <-- need (udiv r (Z.land (Z.shiftr d sh) 0x3F)) ;;
      divided r n shs
  end.

Definition PLLN_RATE (n : Z) : code Z := pll_rate n CONFIG_SYS_PLLFIN.

(** The rate of the PLL divider [n] selects, divided. *)
Definition div_rate (n : Z) (shs : list Z) : code Z :=
  plln <-- pll_dvo n ;; r <-- pll_rate plln CONFIG_SYS_PLLFIN ;; divided r n shs.

Definition CPU_FCLK_RATE (n : Z) : code Z := div_rate n [0].
Definition CPU_BCLK_RATE (n : Z) : code Z := div_rate n [0; 8].
Definition MEM_FCLK_RATE : code Z := div_rate DIV_MEM [0; 8].
Definition MEM_DCLK_RATE : code Z := div_rate DIV_MEM [0].
Definition MEM_BCLK_RATE : code Z := div_rate DIV_MEM [0; 8; 16].
Definition MEM_PCLK_RATE : code Z := div_rate DIV_MEM [0; 8; 16; 24].
Definition BUS_BCLK_RATE : code Z := div_rate DIV_BUS [0].
Definition BUS_PCLK_RATE : code Z := div_rate DIV_BUS [0; 8].
Definition G3D_BCLK_RATE : code Z := div_rate DIV_G3D [0].
Definition MPG_BCLK_RATE : code Z := div_rate DIV_CODA [0].
Definition MPG_PCLK_RATE : code Z := div_rate DIV_CODA [0; 8].
Definition DISP_BCLK_RATE : code Z := div_rate DIV_DISP [0].
Definition DISP_PCLK_RATE : code Z := div_rate DIV_DISP [0; 8].
Definition HDMI_PCLK_RATE : code Z := div_rate DIV_HDMI [0].
Definition CCI4_BCLK_RATE : code Z := div_rate DIV_CCI4 [0].
Definition CCI4_PCLK_RATE : code Z := div_rate DIV_CCI4 [0; 8].

Definition hz_put (f : hz_field) (m : code Z) : code unit :=
  v <-- m ;; g <-- gget ;; gput (set_hz g f v).

(** [switch (type)] of [core_update_rate]: any other type does nothing. *)
Definition core_update_rate (type : Z) : code unit :=
  match type with
  | 0 => hz_put (pll 0) (PLLN_RATE 0)
  | 1 => hz_put (pll 1) (PLLN_RATE 1)
  | 2 => hz_put (pll 2) (PLLN_RATE 2)
  | 3 => hz_put (pll 3) (PLLN_RATE 3)
  | 4 => hz_put cpu_fclk (CPU_FCLK_RATE DIV_CPUG0)
  | 5 => hz_put mem_fclk MEM_FCLK_RATE
  | 6 => hz_put bus_bclk BUS_BCLK_RATE
  | 7 => hz_put bus_pclk BUS_PCLK_RATE
  | 8 => hz_put cpu_bclk (CPU_BCLK_RATE DIV_CPUG0)
  | 9 => hz_put mem_dclk MEM_DCLK_RATE
  | 10 => hz_put mem_bclk MEM_BCLK_RATE
  | 11 => hz_put mem_pclk MEM_PCLK_RATE
  | 12 => hz_put g3d_bclk G3D_BCLK_RATE
  | 13 => hz_put coda_bclk MPG_BCLK_RATE
  | 14 => hz_put coda_pclk MPG_PCLK_RATE
  | 15 => hz_put disp_bclk DISP_BCLK_RATE
  | 16 => hz_put disp_pclk DISP_PCLK_RATE
  | 17 => hz_put hdmi_pclk HDMI_PCLK_RATE
  | 18 => hz_put cci4_bclk CCI4_BCLK_RATE
  | 19 => hz_put cci4_pclk CCI4_PCLK_RATE
  | _ => ret tt
  end.

(** The field [core_get_rate] reads, by type. *)
Definition hz_of_type (type : Z) : option hz_field :=
  match type with
  | 0 => Some (pll 0) | 1 => Some (pll 1) | 2 => Some (pll 2) | 3 => Some (pll 3)
  | 4 => Some cpu_fclk | 5 => Some mem_fclk | 6 => Some bus_bclk | 7 => Some bus_pclk
  | 8 => Some cpu_bclk | 9 => Some mem_dclk | 10 => Some mem_bclk | 11 => Some mem_pclk
  | 12 => Some g3d_bclk | 13 => Some coda_bclk | 14 => Some coda_pclk | 15 => Some disp_bclk
  | 16 => Some disp_pclk | 17 => Some hdmi_pclk | 18 => Some cci4_bclk | 19 => Some cci4_pclk
  | _ => None
  end.

(** [%d] of the message for an unknown type. *)
Definition decimal (v : Z) : list Z :=
  if v <? 0 then 45 :: written 10 (- v) else written 10 v.

Definition core_get_rate (type : Z) : code Z :=
  match hz_of_type type with
  | Some f => g <-- gget ;; ret (core_hz g f)
  | None =>
      output Stdout (chars "unknown core clock type " ++ decimal type ++ chars " ...\n") ;;;
      ret 0
  end.

(** A core clock keeps its rate. *)
Definition core_set_rate (clk rate : Z) : code Z := d <-- dev_at clk ;; ret (s64 (clk_rate d)).

(** [sizeof(core_hz)/4]: twenty fields of eight bytes. *)
Definition CORE_HZ_SIZE : Z := 20 * 8 / 4.

Definition core_rate_init : code unit := for_each 0 CORE_HZ_SIZE core_update_rate.

(** *** The operations on a clock *)

Definition clk_put (clk : Z) : code unit := ret tt.

(** The loop over the clocks: the index where it stops. *)
Fixpoint clk_find (i : Z) (devs : list clk_dev) (peris : list clk_dev_peri) (str : list Z)
    : option Z :=
  match devs with
  | [] => Some i
  | cdev :: devs =>
      match name cdev with
      | None => clk_find (i + 1) devs peris str
      | Some nm =>
          n ← strlen (cstr nm []);
          r ← strncmp (cstr nm []) str n;
          if r =? 0 then
            c ← strrchr str 46;
            match c, peri cdev with
            | None, _ => Some i
            | _, None => Some i
            | Some c, Some pi =>
                '(v, _) ← simple_strtoul (tail c) 10;
                p ← peris !! Z.to_nat pi;
                if dev_id p =? s32 v then Some i else clk_find (i + 1) devs peris str
            end
          else clk_find (i + 1) devs peris str
      end
  end.

(** [id] ends with a NUL; a clock is always found, an error never returned. *)
Definition clk_get (id : list Z) : code Z :=
  g <-- gget ;;
  i <-- need (clk_find 0 (st_clk_devs g) (clk_periphs g) (cstr id [])) ;;
  ret (if i <? CLK_DEVS_NUM then i else 7).

Definition clk_round_rate (clk rate : Z) : code Z :=
  cdev <-- dev_at clk ;;
  match peri cdev with
  | None => core_set_rate clk rate
  | Some pi =>
      p <-- peri_at pi ;;
      let mask := in_mask p in
      if Z.land I_CLOCK_MASK mask =? 0 then
        if negb (Z.land I_PCLK_MASK mask =? 0) then r <-- core_get_rate CORECLK_ID_PCLK ;; ret (s64 r)
        else if negb (Z.land I_BCLK_MASK mask =? 0)
        then r <-- core_get_rate CORECLK_ID_BCLK ;; ret (s64 r)
        else ret (s64 (clk_rate cdev))
      else
      g <-- gget ;;
      let force := negb (Z.land mask I_EXTCLK1_FORCE =? 0) in
      let ns := if force then seqZ 4 (5 - 4) else seqZ 0 I_CLOCK_NUM in
      c <-- need (try_sources ns g p mask (clk_step p) rate false (Choice 0 0 0 0 0 [0; 0])) ;;
      off <-- need (udistance (rate_hz c) rate) ;;
      c <-- (if negb (off =? 0) && negb (Z.land (in_mask1 p) (Z.shiftl 1 I_CLOCK_NUM - 1) =? 0)
             then need (try_sources ns g p (in_mask1 p) 1 rate true c)
             else ret c) ;;
      let c := if force && (s1 c =? 0) then Choice (rate_hz c) 4 7 1 1 (divs c) else c in
      gput (set_dev (set_peri g pi (with_divs p c)) clk (with_rate cdev (rate_hz c))) ;;;
      ret (s64 (rate_hz c))
  end.

Definition clk_get_rate (clk : Z) : code Z :=
  cdev <-- dev_at clk ;;
  match link cdev with
  | None => ret (clk_rate cdev)
  | Some l => d <-- dev_at l ;; ret (clk_rate d)
  end.

(** [for (i = 0; peri->clk_step > i ; i++)]: source and divider of each step. *)
Definition program_steps (p : clk_dev_peri) : code unit :=
  for_each 0 (clk_step p) (fun i =>
    let s := if 0 =? i then div_src_0 p else div_src_1 p in
    let d := if 0 =? i then div_val_0 p else div_val_1 p in
    if -1 =? s then ret tt else clk_dev_rate (base p) i s d).

Definition clk_set_rate (clk rate : Z) : code Z :=
  cdev <-- dev_at clk ;;
  match peri cdev with
  | None => r <-- core_set_rate clk (s64 rate) ;; ret (s32 r)
  | Some pi =>
      _ <-- clk_round_rate clk rate ;;
      p <-- peri_at pi ;;
      program_steps p ;;;
      d <-- dev_at clk ;;
      ret (s32 (clk_rate d))
  end.

Definition gate (p : clk_dev_peri) (on : bool) : code unit :=
  (if negb (Z.land I_GATE_BCLK (in_mask p) =? 0) then clk_dev_bclk (base p) on else ret tt) ;;;
  (if negb (Z.land I_GATE_PCLK (in_mask p) =? 0) then clk_dev_pclk (base p) on else ret tt).

Definition clk_enable (clk : Z) : code Z :=
  cdev <-- dev_at clk ;;
  match peri cdev with
  | None => ret 0
  | Some pi =>
      p <-- peri_at pi ;;
      if Z.land I_CLOCK_MASK (in_mask p) =? 0 then gate p true ;;; ret 0 else
      for_each 0 (clk_step p) (fun i =>
        clk_dev_inv (base p) i (if i =? 0 then invert_0 p else invert_1 p)) ;;;
      gate p true ;;;
      program_steps p ;;;
      clk_dev_enb (base p) true ;;;
      ret 0
  end.

Definition clk_disable (clk : Z) : code unit :=
  cdev <-- dev_at clk ;;
  match peri cdev with
  | None => ret tt
  | Some pi =>
      p <-- peri_at pi ;;
      if Z.land I_CLOCK_MASK (in_mask p) =? 0 then gate p false else
      clk_dev_rate (base p) 0 7 256 ;;;
      clk_dev_enb (base p) false ;;;
      gate p false
  end.

(** The round of [clk_init]'s loop for clock [i]. *)
Definition init_clock (i : Z) : code unit :=
  g <-- gget ;;
  cdev <-- dev_at i ;;
  if i <? CLK_CORE_NUM then
    nm <-- need (clk_core !! Z.to_nat i) ;;
    gput (set_dev g i (Dev (clk_rate cdev) (link cdev) (Some (chars nm)) (peri cdev))) ;;;
    r <-- core_get_rate i ;;
    g <-- gget ;;
    cdev <-- dev_at i ;;
    gput (set_dev g i (with_rate cdev r))
  else
    let pi := i - CLK_CORE_NUM in
    p <-- peri_at pi ;;
    gput (set_dev g i (Dev (clk_rate cdev) (link cdev) (dev_name p) (Some pi))) ;;;
    if Z.land I_CLOCK_MASK (in_mask p) =? 0 then
      (if negb (Z.land I_BCLK_MASK (in_mask p) =? 0) then
         r <-- core_get_rate CORECLK_ID_BCLK ;;
         g <-- gget ;; cdev <-- dev_at i ;; gput (set_dev g i (with_rate cdev r))
       else ret tt) ;;;
      (if negb (Z.land I_PCLK_MASK (in_mask p) =? 0) then
         r <-- core_get_rate CORECLK_ID_PCLK ;;
         g <-- gget ;; cdev <-- dev_at i ;; gput (set_dev g i (with_rate cdev r))
       else ret tt)
    else ret tt.

(** [memset], the rates, the loop; the rest prints only in a debug build. *)
Definition clk_init : code unit :=
  g <-- gget ;;
  gput (ClkVars (clk_periphs g) (replicate (Z.to_nat CLK_DEVS_NUM) zero_dev) (core_hz g)) ;;;
  core_rate_init ;;;
  for_each 0 CLK_DEVS_NUM init_clock.
End Code.

Lemma shiftl_word x n : 0 <= n -> 0 <= x * 2 ^ n < 2 ^ 32 -> is_u32 (Z.shiftl x n).
Proof. intros Hn Hx. unfold is_u32. by rewrite Z.shiftl_mul_pow2. Qed.

Lemma shl32_small x n : is_u32 (Z.shiftl x n) -> shl32 x n = Z.shiftl x n.
Proof. apply u32_small. Qed.

(** ** The divider *)

(** The dividers the hardware is given: 1, and the even ones up to 254. *)
Definition divider (d : Z) : Prop := d = 1 \/ 2 <= d <= 254 /\ d mod 2 = 0.

(** [rate / d] is at least as near to the request as [rate / d'] for any other divider. *)
Definition nearest (rate request d : Z) : Prop :=
  forall d', divider d' -> Z.abs (rate / d - request) <= Z.abs (rate / d' - request).

Lemma land_even x : Z.land x (Z.lnot (2 - 1)) = x - x mod 2.
Proof.
  change (2 - 1) with (Z.ones 1). rewrite <- Z.ldiff_land, Z.ldiff_ones_r by lia.
  rewrite Z.shiftl_mul_pow2, Z.shiftr_div_pow2 by lia. change (2 ^ 1) with 2.
  pose proof (Z.div_mod x 2). lia.
Qed.

Lemma long_ok x : is_s64 x -> long x = Some x.
Proof.
  unfold is_s64, long. intros Hx.
  destruct (Z.leb_spec (- 2 ^ 63) x), (Z.ltb_spec x (2 ^ 63)); done || lia.
Qed.

Lemma ldiv_ok a b : 0 <= a < 2 ^ 63 -> 0 < b -> ldiv a b = Some (a / b).
Proof.
  intros Ha Hb. unfold ldiv. destruct (Z.eqb_spec b 0); [lia|].
  rewrite Z.quot_div_nonneg by lia. apply long_ok.
  pose proof (Z.div_pos a b). pose proof (Z.div_le_upper_bound a b a). unfold is_s64. nia.
Qed.

Lemma distance_ok a b : 0 <= a < 2 ^ 63 -> 0 <= b < 2 ^ 63 -> distance a b = Some (Z.abs (b - a)).
Proof.
  intros Ha Hb. unfold distance. rewrite long_ok by (unfold is_s64; lia).
  cbn [mbind option_bind]. rewrite long_ok by (unfold is_s64; lia). f_equal. lia.
Qed.

Lemma udistance_ok a b : 0 <= a < 2 ^ 63 -> 0 <= b < 2 ^ 63 ->
  udistance a b = Some (Z.abs (a - b)).
Proof.
  intros Ha Hb. unfold udistance.
  replace (s64 (u64 (a - b))) with (a - b); [apply long_ok; unfold is_s64; lia|].
  cint.
Qed.

Lemma div_nonneg a b : 0 <= a -> 0 < b -> 0 <= a / b <= a.
Proof. intros. split; [by apply Z.div_pos|]. apply Z.div_le_upper_bound; nia. Qed.

(** A smaller divisor gives a larger quotient. *)
Lemma div_anti a d d' : 0 <= a -> 0 < d <= d' -> a / d' <= a / d.
Proof. intros. by apply Z.div_le_compat_l. Qed.

Lemma max_divider : Z.land MAX_DIVIDER (Z.lnot (2 - 1)) = 254.
Proof. by vm_compute. Qed.

(** What lies outside of two divisors around the quotient is no nearer. *)
Lemma bracket rate request lo hi d' :
  0 <= rate -> 0 < request -> 0 < lo -> lo <= rate / request < hi ->
  0 < d' -> d' <= lo \/ hi <= d' ->
  Z.abs (rate / lo - request) <= Z.abs (rate / d' - request) \/
  Z.abs (rate / hi - request) <= Z.abs (rate / d' - request).
Proof.
  intros Hr Hq Hlo Hb Hd' Hout.
  assert (H1 : request <= rate / lo).
  { apply Z.div_le_lower_bound; [lia|]. pose proof (Z.mul_div_le rate request Hq). nia. }
  assert (H2 : rate / hi < request).
  { apply Z.div_lt_upper_bound; [lia|]. pose proof (Z.mul_succ_div_gt rate request Hq). nia. }
  destruct Hout as [Ho|Ho]; [left|right].
  - pose proof (div_anti rate d' lo). lia.
  - pose proof (div_anti rate hi d'). lia.
Qed.

(** The comparison of [clk_divide] picks the nearer of the two. *)
Lemma nearer_ok rate request div adv :
  0 <= rate < 2 ^ 63 -> 0 < request < 2 ^ 63 -> 0 < div -> 0 < adv -> div <> adv ->
  (if div =? adv then Some div else
     a ← ldiv rate div; da ← distance request a;
     b ← ldiv rate adv; db ← distance request b;
     Some (if db <? da then adv else div))
  = Some (if Z.abs (rate / adv - request) <? Z.abs (rate / div - request) then adv else div).
Proof.
  intros Hr Hq Hd Ha Hne. destruct (Z.eqb_spec div adv); [done|].
  pose proof (div_nonneg rate div). pose proof (div_nonneg rate adv).
  rewrite !ldiv_ok by lia. cbn [mbind option_bind]. rewrite distance_ok by lia.
  cbn [mbind option_bind]. rewrite distance_ok by lia. done.
Qed.

(** [clk_divide] finds a divider whose rate is nearest to the request. *)
Lemma clk_divide_nearest rate request :
  0 <= rate < 2 ^ 63 -> 0 < request < 2 ^ 63 -> rate < (2 ^ 31 - 4) * request ->
  exists d, clk_divide rate request 2 = Some (rate / d, d) /\ divider d /\ nearest rate request d.
Proof.
  intros Hr Hq Hsm. unfold clk_divide. rewrite ldiv_ok by lia. cbn [mbind option_bind].
  assert (Hdq : 0 <= rate / request < 2 ^ 31 - 4).
  { split; [apply Z.div_pos; lia|]. apply Z.div_lt_upper_bound; lia. }
  rewrite s32_small by (unfold is_s32; lia). rewrite max_divider, !land_even.
  set (q := rate / request) in *. pose proof (Z.mod_pos_bound q 2 ltac:(lia)).
  unfold int. destruct (Z.leb_spec (- 2 ^ 31) (q - q mod 2 + 2)); [|lia].
  destruct (Z.ltb_spec (q - q mod 2 + 2) (2 ^ 31)); [|lia]. cbn [andb mbind option_bind].
  destruct (Z.eqb_spec q 0) as [Hz|Hz].
  { exists 1. rewrite Z.div_1_r. split; [done|]. split; [by left|]. intros d' Hd'.
    assert (rate < request) by (subst q; by apply Z.div_small_iff in Hz; lia).
    pose proof (div_nonneg rate d'). rewrite Z.div_1_r. unfold divider in Hd'. lia. }
  destruct (Z.eqb_spec q 1) as [Hone|Hone].
  - rewrite Hone. change (1 - 1 mod 2 + 2) with 2. rewrite nearer_ok by lia. cbn [mbind option_bind].
    set (d := if _ <? _ then 2 else 1).
    assert (Hd : d = 1 \/ d = 2) by (unfold d; case_tests; auto).
    assert (Hpos : 0 < d <= 254) by (destruct Hd; subst d; lia).
    destruct (Z.ltb_spec 254 d); [lia|]. rewrite (ldiv_ok rate d) by apply Hpos || exact Hr. cbn [mbind option_bind].
    exists d. split; [done|]. split; [destruct Hd as [-> | ->]; [by left|by right]|]. intros d' Hd'.
    pose proof (bracket rate request 1 2 d') as Hbr. unfold divider in Hd'. unfold d.
    destruct (Z.ltb_spec (Z.abs (rate / 2 - request)) (Z.abs (rate / 1 - request))); lia.
  - set (e := q - q mod 2). assert (He : e mod 2 = 0) by (unfold e; Z.div_mod_to_equations; lia).
    rewrite nearer_ok by lia. cbn [mbind option_bind].
    set (d := if _ <? _ then e + 2 else e).
    assert (Hd : d = e \/ d = e + 2) by (unfold d; case_tests; auto).
    set (c := if 254 <? d then 254 else d).
    assert (Hc : 0 < c) by (unfold c; case_tests; lia).
    rewrite ldiv_ok by lia. cbn [mbind option_bind]. exists c. split; [done|].
    split; [unfold divider, c; case_tests; Z.div_mod_to_equations; lia|].
    intros d' Hd'.
    assert (Hpos : 0 < d' <= 254) by (unfold divider in Hd'; lia).
    assert (Hout : d' <= e \/ e + 2 <= d') by (unfold divider in Hd'; Z.div_mod_to_equations; lia).
    unfold c. destruct (Z.ltb_spec 254 d).
    + assert (254 <= e) by (Z.div_mod_to_equations; lia).
      assert (request <= rate / 254).
      { apply Z.div_le_lower_bound; [lia|]. pose proof (Z.mul_div_le rate request). nia. }
      pose proof (div_anti rate d' 254). lia.
    + pose proof (bracket rate request e (e + 2) d') as Hbr. unfold d.
      destruct (Z.ltb_spec (Z.abs (rate / (e + 2) - request)) (Z.abs (rate / e - request))); lia.
Qed.

(** ** The search of a source *)

(** The rate of clock [n], 0 where there is none. *)
Definition hz_at (g : clk_vars) (n : Z) : Z :=
  default 0 (clk_rate <$> st_clk_devs g !! Z.to_nat n).

(** A PLL the mask allows and that runs. *)
Definition candidate (g : clk_vars) (mask n : Z) : Prop :=
  0 <= n < 4 /\ Z.testbit mask n = true /\ 0 < hz_at g n.

(** The PLLs are there, and run at most at 4 GHz. *)
Definition plls_ok (g : clk_vars) : Prop :=
  forall n, 0 <= n < 4 -> exists d, st_clk_devs g !! Z.to_nat n = Some d /\ is_u32 (clk_rate d).

Lemma mask_bit mask n :
  0 <= n < 6 -> (Z.land (Z.shiftr (Z.land mask I_CLOCK_MASK) n) 1 =? 0) = negb (Z.testbit mask n).
Proof.
  intros Hn. change 1 with (Z.ones 1). change (Z.land (Z.shiftr ?x n) (Z.ones 1)) with (bits_get 1 n x).
  rewrite bits_get_1, Z.land_spec by lia. change I_CLOCK_MASK with (Z.ones 6).
  rewrite Z.ones_spec_low, andb_true_r by lia. by destruct (Z.testbit mask n).
Qed.

(** Of a nearest divider the rate is not zero. *)
Lemma nearest_pos rate request d :
  0 < rate < 2 ^ 63 -> 0 < request < 2 ^ 63 -> divider d -> nearest rate request d -> 0 < rate / d.
Proof.
  intros Hr Hq Hd Hn. assert (Hp : 0 < d <= 254) by (unfold divider in Hd; lia).
  destruct (Z.lt_ge_cases 0 (rate / d)) as [|Hz]; [done|exfalso].
  assert (H0 : rate / d = 0) by (pose proof (div_nonneg rate d); lia).
  assert (Hlt : rate < d) by (apply Z.div_small_iff in H0; lia). clear Hz.
  set (e := if rate <? 2 * request then 1 else 2 * (rate / (2 * request))).
  assert (He : divider e /\ 0 < rate / e < 2 * request).
  2: { destruct He as [He He']. specialize (Hn e He). lia. }
  unfold e. destruct (Z.ltb_spec rate (2 * request)).
  { split; [by left|]. rewrite Z.div_1_r. lia. }
  set (k := rate / (2 * request)).
  pose proof (Z.mul_div_le rate (2 * request) ltac:(lia)) as H1. fold k in H1.
  pose proof (Z.mul_succ_div_gt rate (2 * request) ltac:(lia)) as H2. fold k in H2.
  assert (Hk : 1 <= k) by (apply Z.div_le_lower_bound; lia).
  assert (Hk2 : 2 * k <= rate) by nia.
  split; [|split].
  - right. split; [lia|]. rewrite Z.mul_comm. apply Z.mod_mul. lia.
  - apply Z.div_str_pos. lia.
  - apply Z.div_lt_upper_bound; nia.
Qed.

(** What the loop has found in the sources it has seen. *)
Definition found (g : clk_vars) (mask request : Z) (seen : list Z) (c : choice) : Prop :=
  length (divs c) = 2%nat /\
  ((rate_hz c = 0 /\ forall n, n ∈ seen -> ~ candidate g mask n) \/
   (candidate g mask (s1 c) /\ divider (d1 c) /\ s2 c = I_CLKn_BIT /\
    rate_hz c = hz_at g (s1 c) / d1 c /\ 0 < rate_hz c /\
    forall n d, n ∈ seen -> candidate g mask n -> divider d ->
      Z.abs (rate_hz c - request) <= Z.abs (hz_at g n / d - request))).

Lemma in_snoc {A} (l : list A) x k : k ∈ l ++ [x] -> k ∈ l \/ k = x.
Proof. intros [Hk| ->%list_elem_of_singleton]%elem_of_app; auto. Qed.

(** A source that cannot be used, and one that is no nearer, change nothing. *)
Lemma found_skip g mask request seen n c :
  (candidate g mask n -> 0 < rate_hz c /\ forall d, divider d ->
     Z.abs (rate_hz c - request) <= Z.abs (hz_at g n / d - request)) ->
  found g mask request seen c -> found g mask request (seen ++ [n]) c.
Proof.
  intros Hno [Hl Hf]. split; [done|].
  destruct Hf as [[Hz Hf]|(H1 & H2 & H3 & H4 & H5 & H6)]; [left|right].
  - split; [done|]. intros k [Hk| ->]%in_snoc; [auto|]. intros Hc. destruct (Hno Hc). lia.
  - repeat (split; [done|]). intros k d [Hk| ->]%in_snoc Hc Hd; [auto|]. by apply Hno.
Qed.

(** A source whose nearest divider beats what was found is taken. *)
Lemma found_take g mask request seen n c d ds :
  candidate g mask n -> divider d -> nearest (hz_at g n) request d -> 0 < hz_at g n / d ->
  length ds = 2%nat -> nth 0 ds 0 = d ->
  (0 < rate_hz c -> Z.abs (hz_at g n / d - request) <= Z.abs (rate_hz c - request)) ->
  found g mask request seen c ->
  found g mask request (seen ++ [n])
    (Choice (hz_at g n / d) n I_CLKn_BIT (s16 (nth 0 ds 0)) (s16 (nth 1 ds 0)) ds).
Proof.
  intros Hc Hd Hn Hp Hl Hw Hb [_ Hf]. split; [done|]. right. cbn [rate_hz s1 s2 d1].
  assert (Hs : s16 (nth 0 ds 0) = d) by (rewrite Hw; unfold divider in Hd; cint).
  rewrite Hs. repeat (split; [done|]). intros k d' [Hk| ->]%in_snoc Hck Hd'; [|auto].
  destruct Hf as [[_ Hf]|(_ & _ & _ & _ & H5 & H6)].
  - by destruct (Hf k Hk).
  - specialize (H6 k d' Hk Hck Hd'). specialize (Hb H5). lia.
Qed.

Lemma found_bound g mask request seen c :
  plls_ok g -> found g mask request seen c -> 0 <= rate_hz c < 2 ^ 32.
Proof.
  intros Hg [_ [[-> _]|((Hs & _) & H2 & _ & -> & _)]]; [done|].
  destruct (Hg _ Hs) as (e & He & Heu). unfold is_u32 in Heu. unfold hz_at. rewrite He. cbn.
  pose proof (div_nonneg (clk_rate e) (d1 c)). unfold divider in H2. lia.
Qed.

(** One division, of a rate of at most 32 bits. *)
Lemma divide_once rate request ds d r :
  is_u32 rate -> 4 <= request < 2 ^ 63 -> length ds = 2%nat ->
  clk_divide rate request 2 = Some (r, d) -> is_u32 r ->
  divide_steps (seqZ 0 1) rate request ds = Some (r, <[O := d]> ds).
Proof.
  intros Hr Hq Hl Hd Hu. unfold is_u32 in *. change (seqZ 0 1) with [0]. cbn [divide_steps].
  rewrite !s64_small by (unfold is_s64; lia). rewrite Hd. cbn [mbind option_bind].
  rewrite Hl. change (0 <? Z.of_nat 2) with true. cbn iota.
  by rewrite u64_small by (unfold is_u64; lia).
Qed.

Lemma try_sources_found g p mask request ns : forall seen c,
  plls_ok g -> 4 <= request < 2 ^ 63 ->
  (forall n, n ∈ ns -> 0 <= n < 6 /\ (Z.testbit mask n = true -> n < 4)) ->
  found g mask request seen c ->
  exists c', try_sources ns g p mask 1 request false c = Some c' /\
    found g mask request (seen ++ ns) c'.
Proof.
  induction ns as [|n ns IH]; intros seen c Hg Hq Hns Hf.
  { exists c. by rewrite app_nil_r. }
  assert (Hn : 0 <= n < 6 /\ (Z.testbit mask n = true -> n < 4)) by (apply Hns; left).
  destruct Hn as [Hn Hn4].
  replace (seen ++ n :: ns) with ((seen ++ [n]) ++ ns) by by rewrite <- app_assoc.
  assert (Hnext : forall c, found g mask request (seen ++ [n]) c -> exists c',
    try_sources ns g p mask 1 request false c = Some c' /\
    found g mask request ((seen ++ [n]) ++ ns) c').
  { intros c1 Hc1. apply IH; [done|done| |done]. intros k Hk. apply Hns. by right. }
  cbn [try_sources]. rewrite mask_bit by lia.
  destruct (Z.testbit mask n) eqn:Hbit; cbn [negb];
    [|apply Hnext, found_skip; [intros (_ & Hb & _); congruence|done]].
  specialize (Hn4 eq_refl). destruct (Hg n) as (dv & Hdv & Hu); [lia|].
  assert (Hhz : hz_at g n = clk_rate dv) by by unfold hz_at; rewrite Hdv.
  unfold source_rate. change I_EXT1_BIT with 4. change I_EXT2_BIT with 5.
  destruct (Z.eqb_spec n 4); [lia|]. destruct (Z.eqb_spec n 5); [lia|].
  rewrite Hdv. cbn [fmap option_fmap option_map mbind option_bind].
  destruct (Z.eqb_spec (clk_rate dv) 0) as [Hz|Hz];
    [apply Hnext, found_skip; [unfold candidate; lia|done]|].
  pose proof (found_bound _ _ _ _ _ Hg Hf) as Hb. unfold is_u32 in Hu.
  destruct (clk_divide_nearest (clk_rate dv) request) as (d & Hd & Hdiv & Hnear); [lia|lia|lia|].
  assert (Hpos : 0 < clk_rate dv / d) by (apply (nearest_pos _ request); [lia|lia|done|done]).
  assert (Hle : clk_rate dv / d <= clk_rate dv)
    by (apply div_nonneg; [lia|unfold divider in Hdiv; lia]).
  assert (Hl : length (divs c) = 2%nat) by apply Hf.
  rewrite (divide_once _ _ _ d (clk_rate dv / d)) by (done || (unfold is_u32; lia)).
  cbn [mbind option_bind].
  assert (Hcand : candidate g mask n) by (unfold candidate; rewrite Hhz; split; [lia|split; [done|lia]]).
  assert (Hdl : length (<[O := d]> (divs c)) = 2%nat) by by rewrite length_insert.
  assert (Hw : nth 0 (<[O := d]> (divs c)) 0 = d) by by destruct (divs c).
  rewrite <- Hhz in *.
  destruct (Z.eqb_spec (rate_hz c) 0); cbn [mbind option_bind].
  { apply Hnext. apply found_take with (c := c); try done. lia. }
  rewrite !udistance_ok by lia. cbn [mbind option_bind].
  destruct (Z.ltb_spec (Z.abs (rate_hz c - request)) (Z.abs (hz_at g n / d - request))) as [Hlt|Hge].
  - apply Hnext. apply found_skip.
    + intros _. cbn [rate_hz]. split; [lia|]. intros d' Hd'. specialize (Hnear d' Hd'). lia.
    + by split; [|apply Hf].
  - apply Hnext. apply found_take with (c := c); done.
Qed.

(** ** Register effects *)

(** The registers after the updates [us] of registers [R], in order. *)
Definition apply_updates (us : list (Z * (Z -> Z))) (R : Z -> Z) : Z -> Z :=
  foldl (fun R u b => if b =? u.1 then u.2 (R u.1) else R b) R us.

(** Values a register can take stay 32-bit words. *)
Definition word_fun (f : Z -> Z) : Prop := forall v, is_u32 v -> is_u32 (f v).

Section Effects.
Context {D : Type} `{Storage D plain}.

(** A run whose only effect is the updates [us]. *)
Definition effect (us : list (Z * (Z -> Z))) (s s' : st D clk_vars) : Prop :=
  glb s' = glb s /\ Forall (fun u => plain u.1 = true) us /\
  forall b, plain b = true -> reg (dev s') b = apply_updates us (reg (dev s)) b.

Lemma apply_updates_agree us : forall R R',
  Forall (fun u => plain u.1 = true) us -> (forall b, plain b = true -> R b = R' b) ->
  forall b, plain b = true -> apply_updates us R b = apply_updates us R' b.
Proof.
  induction us as [|[a f] us IH]; intros R R' Hus HR b Hb; [by apply HR|].
  inversion_clear Hus as [|? ? Ha Hus']. cbn in Ha |- *. apply IH; [done| |done].
  intros c Hc. case_tests; [by rewrite HR|by apply HR].
Qed.

Lemma effect_trans us vs s1 s2 s3 :
  effect us s1 s2 -> effect vs s2 s3 -> effect (us ++ vs) s1 s3.
Proof.
  intros (Hg1 & Hp1 & H1) (Hg2 & Hp2 & H2). split; [by rewrite Hg2|].
  split; [by apply Forall_app|]. intros b Hb. rewrite H2 by done.
  unfold apply_updates. rewrite foldl_app. by apply apply_updates_agree.
Qed.

Lemma effect_nil s : effect [] s s.
Proof. split; [done|]. by split; [constructor|]. Qed.

(** Runs with an effect, in sequence. *)
Definition does (us : list (Z * (Z -> Z))) (m : prog D clk_vars unit) : Prop :=
  forall s, returns m s (fun _ s' _ => effect us s s').

Lemma does_ret : does [] (ret tt).
Proof. intros s. apply returns_ret, effect_nil. Qed.

Lemma does_bind us vs m k : does us m -> does vs k -> does (us ++ vs) (m ;;; k).
Proof.
  intros Hm Hk s. apply returns_bind. eapply returns_weaken; [apply Hm|].
  intros [] s1 t1 H1. eapply returns_weaken; [apply Hk|]. intros [] s2 t2 H2.
  by eapply effect_trans.
Qed.

(** A store of a function of the register's word. *)
Lemma does_update a (f : Z -> Z) :
  plain a = true -> word_fun f -> does [(a, f)] (v <-- rd32 a ;; wr32 a (f v)).
Proof.
  intros Ha Hf s. apply returns_bind, (returns_rd32_plain (plain := plain)); [done|].
  intros d1 H1. apply (returns_wr32_plain (plain := plain)); [done|]. intros d2 H2.
  cbn [dev glb] in *. split; [done|]. split; [by repeat constructor|].
  intros b Hb. rewrite H2 by done. cbn.
  rewrite u32_small by (apply Hf, storage_word; done). case_tests; [done|by apply H1].
Qed.

Lemma does_proper us m m' : m ≈ m' -> does us m' -> does us m.
Proof. intros He Hm s. rewrite He. apply Hm. Qed.

(** *** The operations on a clock generator *)

Context (b : Z) (Henb : plain (con_enb b) = true).

Definition put_rate (src div v : Z) : Z := bits_put 8 5 (bits_put 3 2 v src) (div - 1).

Lemma word_put w sh x : 0 <= w -> 0 <= sh -> sh + w <= 32 -> 0 <= x < 2 ^ w ->
  word_fun (fun v => bits_put w sh v x).
Proof. intros ? ? ? ? v Hv. by apply (bits_put_range 32 w sh). Qed.

Lemma word_put_rate src div : 0 <= src < 8 -> 1 <= div <= 256 -> word_fun (put_rate src div).
Proof.
  intros Hs Hd v Hv. unfold put_rate.
  apply word_put; [lia|lia|lia|lia|]. apply word_put; [lia|lia|lia|lia|done].
Qed.

(** A program that loads, computes and stores as [f] does, on words. *)
Lemma does_as a (f g : Z -> Z) :
  plain a = true -> word_fun f -> (forall v, is_u32 v -> g v = f v) ->
  does [(a, f)] (v <-- rd32 a ;; wr32 a (g v)).
Proof.
  intros Ha Hf Hg. eapply does_proper; [|by apply does_update].
  intros s. unfold bind, rd32. destruct (hw_rd a (dev s)) as [v d].
  by rewrite Hg by apply u32_range.
Qed.

Lemma does_rate i src div :
  plain (con_gen b (Z.shiftl i 1)) = true -> 0 <= src < 8 -> 1 <= div <= 256 ->
  does [(con_gen b (Z.shiftl i 1), put_rate src div)] (clk_dev_rate b i src div).
Proof.
  intros Hp Hs Hd. unfold clk_dev_rate.
  eapply does_proper; [|apply does_as with
    (g := fun val => Z.lor (Z.land (Z.lor (Z.land val (not32 (Z.shiftl 0x07 2))) (shl32 src 2))
            (not32 (Z.shiftl 0xFF 5))) (shl32 (div - 1) 5)); [exact Hp|by apply word_put_rate|]].
  { done. }
  intros v Hv. rewrite (land_not32 v) by done. rewrite !shl32_small by (apply shiftl_word; lia).
  apply word_put with (w := 3) (sh := 2) (x := src) in Hv; [|lia..].
  change (Z.lor (Z.land v _) (Z.shiftl src 2)) with (bits_put 3 2 v src).
  by rewrite land_not32.
Qed.

Lemma does_inv i inv :
  plain (con_gen b (Z.shiftl i 1)) = true -> 0 <= inv < 2 ->
  does [(con_gen b (Z.shiftl i 1), fun v => bits_put 1 1 v inv)] (clk_dev_inv b i inv).
Proof.
  intros Hp Hi. apply does_as; [done|by apply word_put; lia|]. intros v Hv.
  by rewrite land_not32, shl32_small by first [done|apply shiftl_word; lia].
Qed.

Lemma does_enb (on : bool) :
  does [(con_enb b, fun v => bits_put 1 2 v (Z.b2z on))] (clk_dev_enb b on).
Proof.
  apply does_as; [done|apply word_put; by destruct on|]. intros v Hv.
  rewrite land_not32 by done. by destruct on.
Qed.

Lemma does_bclk (on : bool) :
  does [(con_enb b, fun v => bits_put 2 0 v (if on then 3 else 0))] (clk_dev_bclk b on).
Proof.
  apply does_as; [done|apply word_put; by destruct on|]. intros v Hv.
  rewrite land_not32 by done. by destruct on.
Qed.

Lemma does_pclk (on : bool) :
  does (if on then [(con_enb b, fun v => bits_put 1 3 v 1)] else []) (clk_dev_pclk b on).
Proof.
  destruct on; [|apply does_ret]. apply does_as; [done|by apply word_put|]. intros v Hv.
  by rewrite land_not32.
Qed.
End Effects.

(** ** Setting a rate *)

(** A peripheral with one divider, fed by PLLs alone: the timers, serial
    ports, PWMs, SD hosts and SPIs of the table. *)
Definition one_step (p : clk_dev_peri) : bool :=
  (clk_step p =? 1) && (in_mask1 p =? 0) && negb (Z.land I_CLOCK_MASK (in_mask p) =? 0)
  && negb (Z.testbit (in_mask p) 4) && negb (Z.testbit (in_mask p) 5)
  && (Z.land (in_mask p) I_EXTCLK1_FORCE =? 0).

Section Setting.
Context {D : Type} `{Storage D plain}.

Lemma returns_need {A} (o : option A) a (s : st D clk_vars) Q :
  o = Some a -> Q a s [] -> returns (need o) s Q.
Proof. by intros ->. Qed.

Lemma returns_dev_at clk d (s : st D clk_vars) Q :
  st_clk_devs (glb s) !! Z.to_nat clk = Some d -> Q d s [] -> returns (dev_at clk) s Q.
Proof. intros Hd HQ. apply returns_bind, returns_gget. by eapply returns_need. Qed.

Lemma returns_peri_at i p (s : st D clk_vars) Q :
  clk_periphs (glb s) !! Z.to_nat i = Some p -> Q p s [] -> returns (peri_at i) s Q.
Proof. intros Hp HQ. apply returns_bind, returns_gget. by eapply returns_need. Qed.

(** The choice for a request, among the candidates and dividers. *)
Definition best (g : clk_vars) (mask request n d : Z) : Prop :=
  candidate g mask n /\ divider d /\ 0 < hz_at g n / d /\
  forall n' d', candidate g mask n' -> divider d' ->
    Z.abs (hz_at g n / d - request) <= Z.abs (hz_at g n' / d' - request).

(** The peripheral with a choice recorded. *)
Definition chosen (p : clk_dev_peri) (n d x : Z) : clk_dev_peri :=
  with_divs p (Choice 0 n I_CLKn_BIT d x []).

Lemma round_rate_one clk pi cdev p request (s : st D clk_vars) :
  let g := glb s in
  plls_ok g -> st_clk_devs g !! Z.to_nat clk = Some cdev -> peri cdev = Some pi ->
  clk_periphs g !! Z.to_nat pi = Some p -> one_step p = true -> 4 <= request < 2 ^ 63 ->
  (exists n, candidate g (in_mask p) n) ->
  returns (clk_round_rate clk request) s (fun r s' _ => dev s' = dev s /\
    exists n d x, best g (in_mask p) request n d /\ r = hz_at g n / d /\
      glb s' = set_dev (set_peri g pi (chosen p n d x)) clk (with_rate cdev (hz_at g n / d))).
Proof.
  intros g Hg Hdev Hpi Hp Hone Hq [n0 Hn0]. unfold one_step in Hone.
  rewrite !andb_true_iff, !negb_true_iff in Hone. destruct Hone as [[[[[H1 H2] H3] H4] H5] H6].
  apply Z.eqb_eq in H1, H2. unfold clk_round_rate.
  apply returns_bind, (returns_dev_at _ cdev); [done|]. rewrite Hpi.
  apply returns_bind, (returns_peri_at _ p); [done|]. rewrite H3, H6.
  apply returns_bind, returns_gget. cbn [negb].
  destruct (try_sources_found g p (in_mask p) request (seqZ 0 I_CLOCK_NUM) []
    (Choice 0 0 0 0 0 [0; 0])) as (c & Hc & Hl & Hf); [done|done| | |].
  { intros n Hn. apply elem_of_seqZ in Hn. change (0 + I_CLOCK_NUM) with 6 in Hn. split; [lia|].
    intros Hb. destruct (Z.eq_dec n 4) as [->|]; [congruence|].
    destruct (Z.eq_dec n 5) as [->|]; [congruence|lia]. }
  { split; [done|]. left. split; [done|]. intros n Hn. by apply elem_of_nil in Hn. }
  pose proof (found_bound _ _ _ _ c Hg (conj Hl Hf)) as Hb.
  rewrite H1. apply returns_bind, (returns_need _ c); [done|].
  apply returns_bind, (returns_need _ (Z.abs (rate_hz c - request))); [by rewrite udistance_ok by lia|].
  rewrite H2. change (Z.land 0 _ =? 0) with true. rewrite andb_false_r. cbn iota.
  apply returns_bind, returns_ret. cbn [andb]. apply returns_bind, returns_gput, returns_ret.
  split; [done|].
  assert (Hin : forall n, candidate g (in_mask p) n -> n ∈ seqZ 0 I_CLOCK_NUM).
  { intros n [Hn _]. apply elem_of_seqZ. change (0 + I_CLOCK_NUM) with 6. lia. }
  destruct Hf as [[_ Hno]|(F1 & F2 & F3 & F4 & F5 & F6)].
  { destruct (Hno n0 (Hin n0 Hn0) Hn0). }
  exists (s1 c), (d1 c), (d2 c). rewrite <- F4. split; [|split].
  - repeat (split; [first [done|by rewrite <- F4]|]). intros n' d' Hn' Hd'. rewrite <- F4. auto.
  - by rewrite s64_small by (unfold is_s64; lia).
  - unfold chosen, with_divs. cbn. by rewrite F3.
Qed.
Lemma program_one p :
  clk_step p = 1 -> div_src_0 p <> -1 -> 0 <= div_src_0 p < 8 -> 1 <= div_val_0 p <= 256 ->
  plain (con_gen (base p) 0) = true ->
  does (plain := plain) [(con_gen (base p) 0, put_rate (div_src_0 p) (div_val_0 p))] (program_steps p).
Proof.
  intros Hs Hn Hsrc Hval Hp. unfold program_steps, for_each. rewrite Hs.
  change (seqZ 0 (1 - 0)) with [0]. cbn [each]. change (0 =? 0) with true. cbn iota.
  destruct (Z.eqb_spec (-1) (div_src_0 p)); [lia|].
  change [(con_gen (base p) 0, put_rate (div_src_0 p) (div_val_0 p))]
    with ([(con_gen (base p) (Z.shiftl 0 1), put_rate (div_src_0 p) (div_val_0 p))] ++ []).
  apply does_bind; [by apply does_rate|apply does_ret].
Qed.

(** C17: setting the rate of a clock with one divider: of the running PLLs its mask
    allows and of the dividers the hardware has (1 and the even numbers up to
    254) the pair whose rate is nearest to the request is found; the clock
    generator's register gets exactly that source and that divider, its other
    bits and every other register are as before; the clock remembers the rate,
    which is the result, and the peripheral its source and divider. *)
Theorem clk_set_rate_nearest clk pi cdev p request (s : st D clk_vars) :
  let g := glb s in
  plls_ok g -> st_clk_devs g !! Z.to_nat clk = Some cdev -> peri cdev = Some pi ->
  clk_periphs g !! Z.to_nat pi = Some p -> one_step p = true -> 4 <= request < 2 ^ 63 ->
  (exists n, candidate g (in_mask p) n) -> plain (con_gen (base p) 0) = true ->
  returns (clk_set_rate clk request) s (fun r s' _ => exists n d x,
    best g (in_mask p) request n d /\ r = s32 (hz_at g n / d) /\
    glb s' = set_dev (set_peri g pi (chosen p n d x)) clk (with_rate cdev (hz_at g n / d)) /\
    (forall b, plain b = true -> reg (dev s') b =
       if b =? con_gen (base p) 0 then put_rate n d (reg (dev s) b) else reg (dev s) b)).
Proof.
  intros g Hg Hdev Hpi Hp Hone Hq Hex Hpl. unfold clk_set_rate.
  apply returns_bind, (returns_dev_at _ cdev); [done|]. rewrite Hpi.
  apply returns_bind. eapply returns_weaken; [by apply (round_rate_one clk pi cdev p)|].
  intros r s1 t1 (Hd1 & n & d & x & Hb & -> & Hg1). fold g in Hb, Hg1.
  pose proof Hb as ((Hn & Hnb & Hn0) & Hdiv & Hpos & Hbest).
  assert (Hpin : (Z.to_nat pi < length (clk_periphs g))%nat) by by eapply lookup_lt_Some.
  assert (Hclk : (Z.to_nat clk < length (st_clk_devs g))%nat) by by eapply lookup_lt_Some.
  apply returns_bind, (returns_peri_at _ (chosen p n d x)).
  { rewrite Hg1. cbn. by apply list_lookup_insert_eq. }
  assert (Hstep : clk_step p = 1).
  { unfold one_step in Hone. rewrite !andb_true_iff in Hone.
    destruct Hone as [[[[[H1 _] _] _] _] _]. by apply Z.eqb_eq. }
  assert (Hdo : does (plain := plain) [(con_gen (base p) 0, put_rate n d)] (program_steps (chosen p n d x))).
  { unfold divider in Hdiv. apply (program_one (chosen p n d x)); cbn; [done|lia|lia|lia|done]. }
  apply returns_bind. eapply returns_weaken; [apply Hdo|].
  intros [] s2 t2 (Hg2 & _ & Hr2).
  apply returns_bind, (returns_dev_at _ (with_rate cdev (hz_at g n / d))).
  { rewrite Hg2, Hg1. cbn. by apply list_lookup_insert_eq. }
  apply returns_ret. exists n, d, x. split; [done|]. split; [done|].
  split; [by rewrite Hg2|]. intros a Ha. rewrite Hr2 by done. cbn. rewrite Hd1.
  case_tests; [by subst|done].
Qed.
End Setting.

(** ** Enabling and disabling *)

Section Gating.
Context {D : Type} `{Storage D plain}.

Definition gate_updates (p : clk_dev_peri) (on : bool) : list (Z * (Z -> Z)) :=
  (if negb (Z.land I_GATE_BCLK (in_mask p) =? 0)
   then [(con_enb (base p), fun v => bits_put 2 0 v (if on then 3 else 0))] else []) ++
  (if negb (Z.land I_GATE_PCLK (in_mask p) =? 0)
   then (if on then [(con_enb (base p), fun v => bits_put 1 3 v 1)] else []) else []).

Definition enable_updates (p : clk_dev_peri) : list (Z * (Z -> Z)) :=
  [(con_gen (base p) 0, fun v => bits_put 1 1 v (invert_0 p))] ++ gate_updates p true ++
  [(con_gen (base p) 0, put_rate (div_src_0 p) (div_val_0 p))] ++
  [(con_enb (base p), fun v => bits_put 1 2 v 1)].

Definition disable_updates (p : clk_dev_peri) : list (Z * (Z -> Z)) :=
  [(con_gen (base p) 0, put_rate 7 256)] ++ [(con_enb (base p), fun v => bits_put 1 2 v 0)] ++
  gate_updates p false.

(** A clock with one divider that has been given a source and a divider. *)
Definition settled (p : clk_dev_peri) : Prop :=
  clk_step p = 1 /\ Z.land I_CLOCK_MASK (in_mask p) <> 0 /\ 0 <= invert_0 p < 2 /\
  0 <= div_src_0 p < 8 /\ 1 <= div_val_0 p <= 256.

Context (p : clk_dev_peri) (Hset : settled p).
Context (Henb : plain (con_enb (base p)) = true) (Hgen : plain (con_gen (base p) 0) = true).

Lemma does_gate (on : bool) : does (plain := plain) (gate_updates p on) (gate p on).
Proof.
  unfold gate, gate_updates. apply does_bind.
  - destruct (negb _); [by apply does_bclk|apply does_ret].
  - destruct (negb _); [by apply does_pclk|apply does_ret].
Qed.

Lemma clk_enable_effect clk pi cdev (s : st D clk_vars) :
  st_clk_devs (glb s) !! Z.to_nat clk = Some cdev -> peri cdev = Some pi ->
  clk_periphs (glb s) !! Z.to_nat pi = Some p ->
  returns (clk_enable clk) s (fun r s' _ => r = 0 /\ effect (plain := plain) (enable_updates p) s s').
Proof.
  intros Hdev Hpi Hp. destruct Hset as (H1 & H2 & H3 & H4 & H5). unfold clk_enable.
  apply returns_bind, (returns_dev_at _ cdev); [done|]. rewrite Hpi.
  apply returns_bind, (returns_peri_at _ p); [done|].
  destruct (Z.eqb_spec (Z.land I_CLOCK_MASK (in_mask p)) 0); [done|].
  unfold for_each. rewrite H1. change (seqZ 0 (1 - 0)) with [0]. cbn [each].
  change (0 =? 0) with true. cbn iota.
  assert (Hinv : does (plain := plain) [(con_gen (base p) 0, fun v => bits_put 1 1 v (invert_0 p))]
    (clk_dev_inv (base p) 0 (invert_0 p) ;;; ret tt)).
  { rewrite <- (app_nil_r [_]). apply does_bind; [by apply (does_inv _ 0)|apply does_ret]. }
  assert (Hprog : does (plain := plain)
    [(con_gen (base p) 0, put_rate (div_src_0 p) (div_val_0 p))] (program_steps p))
    by (apply program_one; first [done|lia]).
  apply returns_bind. eapply returns_weaken; [apply Hinv|]. intros [] s1 t1 E1.
  apply returns_bind. eapply returns_weaken; [apply (does_gate true)|]. intros [] s2 t2 E2.
  apply returns_bind. eapply returns_weaken; [apply Hprog|]. intros [] s3 t3 E3.
  apply returns_bind. eapply returns_weaken; [by apply (does_enb _ Henb true)|].
  intros [] s4 t4 E4. apply returns_ret. split; [done|].
  unfold enable_updates. eapply effect_trans; [exact E1|].
  eapply effect_trans; [exact E2|]. by eapply effect_trans.
Qed.

Lemma clk_disable_effect clk pi cdev (s : st D clk_vars) :
  st_clk_devs (glb s) !! Z.to_nat clk = Some cdev -> peri cdev = Some pi ->
  clk_periphs (glb s) !! Z.to_nat pi = Some p ->
  returns (clk_disable clk) s (fun _ s' _ => effect (plain := plain) (disable_updates p) s s').
Proof.
  intros Hdev Hpi Hp. destruct Hset as (H1 & H2 & H3 & H4 & H5). unfold clk_disable.
  apply returns_bind, (returns_dev_at _ cdev); [done|]. rewrite Hpi.
  apply returns_bind, (returns_peri_at _ p); [done|].
  destruct (Z.eqb_spec (Z.land I_CLOCK_MASK (in_mask p)) 0); [done|].
  assert (Hdo : does (plain := plain) (disable_updates p)
    (clk_dev_rate (base p) 0 7 256 ;;; clk_dev_enb (base p) false ;;; gate p false)).
  { apply does_bind; [by apply (does_rate _ 0 7 256)|].
    apply does_bind; [by apply (does_enb _ Henb false)|apply does_gate]. }
  apply Hdo.
Qed.

(** The two registers of the generator are apart. *)
Lemma generator_apart : con_gen (base p) 0 <> con_enb (base p).
Proof. unfold con_gen, con_enb. change (offsetof clk_dev_map "con_gen") with 4.
  change (offsetof clk_dev_map "con_enb") with 0. lia. Qed.

(** What a word of the generator becomes. *)
Lemma enable_at R a : apply_updates (enable_updates p) R a =
  if a =? con_gen (base p) 0
  then put_rate (div_src_0 p) (div_val_0 p) (bits_put 1 1 (R a) (invert_0 p))
  else if a =? con_enb (base p) then
    bits_put 1 2
      (let v := if negb (Z.land I_GATE_BCLK (in_mask p) =? 0) then bits_put 2 0 (R a) 3 else R a in
       if negb (Z.land I_GATE_PCLK (in_mask p) =? 0) then bits_put 1 3 v 1 else v) 1
  else R a.
Proof.
  pose proof generator_apart. unfold enable_updates, gate_updates, apply_updates.
  destruct (negb (Z.land I_GATE_BCLK _ =? 0)), (negb (Z.land I_GATE_PCLK _ =? 0)); cbn;
    case_tests; try congruence; try done; by subst.
Qed.

Lemma disable_at R a : apply_updates (disable_updates p) R a =
  if a =? con_gen (base p) 0 then put_rate 7 256 (R a)
  else if a =? con_enb (base p) then
    let v := bits_put 1 2 (R a) 0 in
    if negb (Z.land I_GATE_BCLK (in_mask p) =? 0) then bits_put 2 0 v 0 else v
  else R a.
Proof.
  pose proof generator_apart. unfold disable_updates, gate_updates, apply_updates.
  destruct (negb (Z.land I_GATE_BCLK _ =? 0)), (negb (Z.land I_GATE_PCLK _ =? 0)); cbn;
    case_tests; try congruence; try done; by subst.
Qed.
(** Fields put again are as if put once. *)
Lemma gen_again v src div inv : 0 <= src < 8 -> 1 <= div <= 256 -> 0 <= inv < 2 ->
  let f v := put_rate src div (bits_put 1 1 v inv) in f (put_rate 7 256 (f v)) = f v.
Proof.
  intros Hs Hd Hi f. unfold f, put_rate. apply Z.bits_inj'. intros i Hi0.
  rewrite !bits_put_testbit by lia.
  destruct (Z.leb_spec 5 i), (Z.ltb_spec i (5 + 8)), (Z.leb_spec 2 i), (Z.ltb_spec i (2 + 3)),
    (Z.leb_spec 1 i), (Z.ltb_spec i (1 + 1)); try done; lia.
Qed.

Lemma enb_again v (bclk pclk : bool) :
  let f v := bits_put 1 2
    (let v := if bclk then bits_put 2 0 v 3 else v in if pclk then bits_put 1 3 v 1 else v) 1 in
  f (let v := bits_put 1 2 (f v) 0 in if bclk then bits_put 2 0 v 0 else v) = f v.
Proof.
  intros f. unfold f. apply Z.bits_inj'. intros i Hi.
  destruct bclk, pclk; rewrite !bits_put_testbit by lia;
    destruct (Z.leb_spec 2 i), (Z.ltb_spec i (2 + 1)), (Z.leb_spec 0 i), (Z.ltb_spec i (0 + 2)),
      (Z.leb_spec 3 i), (Z.ltb_spec i (3 + 1)); try done; lia.
Qed.

Lemma put_rate_fields v src div : 0 <= src < 8 -> 1 <= div <= 256 ->
  bits_get 3 2 (put_rate src div v) = src /\ bits_get 8 5 (put_rate src div v) + 1 = div.
Proof.
  intros Hs Hd. unfold put_rate. rewrite bits_get_put_ne, !bits_get_put by lia. lia.
Qed.

(** A clock that has a source and a divider is switched on with them;
    switching it off parks the divider and clears the enable bit; switching it
    on again brings every register back to what it was, without setting the
    rate again. *)
Theorem clk_disable_enable clk pi cdev (s : st D clk_vars) :
  st_clk_devs (glb s) !! Z.to_nat clk = Some cdev -> peri cdev = Some pi ->
  clk_periphs (glb s) !! Z.to_nat pi = Some p ->
  let src R := bits_get 3 2 (R (con_gen (base p) 0)) in
  let div R := bits_get 8 5 (R (con_gen (base p) 0)) + 1 in
  let on R := bits_get 1 2 (R (con_enb (base p))) in
  returns (clk_enable clk) s (fun r s1 _ => r = 0 /\
    src (reg (dev s1)) = div_src_0 p /\ div (reg (dev s1)) = div_val_0 p /\ on (reg (dev s1)) = 1 /\
    returns (clk_disable clk) s1 (fun _ s2 _ =>
      src (reg (dev s2)) = 7 /\ on (reg (dev s2)) = 0 /\
      returns (clk_enable clk) s2 (fun r s3 _ => r = 0 /\ glb s3 = glb s1 /\
        forall b, plain b = true -> reg (dev s3) b = reg (dev s1) b))).
Proof.
  intros Hdev Hpi Hp src div on. pose proof Hset as (H1 & H2 & H3 & H4 & H5).
  eapply returns_weaken; [by apply (clk_enable_effect clk pi cdev)|].
  intros r s1 t1 (-> & Hg1 & _ & E1). split; [done|].
  pose proof (enable_at (reg (dev s))) as Hen.
  pose proof generator_apart as Hap. apply Z.eqb_neq in Hap. rewrite Z.eqb_sym in Hap.
  split; [|split; [|split]].
  - unfold src. rewrite E1, Hen, Z.eqb_refl by done. by apply put_rate_fields.
  - unfold div. rewrite E1, Hen, Z.eqb_refl by done. by apply put_rate_fields.
  - unfold on. rewrite E1, Hen, Hap, Z.eqb_refl by done. by rewrite bits_get_put.
  - eapply returns_weaken; [apply (clk_disable_effect clk pi cdev); by rewrite ?Hg1|].
    intros [] s2 t2 (Hg2 & _ & E2). pose proof (disable_at (reg (dev s1))) as Hdi.
    split; [|split].
    + unfold src. rewrite E2, Hdi, Z.eqb_refl by done. by apply put_rate_fields.
    + unfold on. rewrite E2, Hdi, Hap, Z.eqb_refl by done. cbn zeta.
      destruct (negb _); [rewrite bits_get_put_ne by lia|]; by rewrite bits_get_put.
    + eapply returns_weaken; [apply (clk_enable_effect clk pi cdev); by rewrite ?Hg2, ?Hg1|].
      intros r s3 t3 (-> & Hg3 & _ & E3). split; [done|]. split; [by rewrite Hg3|].
      intros b Hb. rewrite E3, enable_at, E2, Hdi, E1, Hen by done.
      destruct (Z.eqb_spec b (con_gen (base p) 0)); [by apply gen_again|].
      destruct (Z.eqb_spec b (con_enb (base p))); [apply enb_again|done].
Qed.
End Gating.

(** ** Start-up: the rates the registers say *)

(** The rate of PLL [n] in hertz, from its factors P, M, S and (PLL 2 and 3) K:
    the 24 MHz crystal times M + K / 65536, over P and over 2 to the S. *)
Section Rates.
Context (R : Z -> Z).

Definition pll_P (n : Z) : Z := bits_get 6 18 (R (clkpwr "pllsetreg" n)).
Definition pll_M (n : Z) : Z := bits_get 10 8 (R (clkpwr "pllsetreg" n)).
Definition pll_S (n : Z) : Z := bits_get 8 0 (R (clkpwr "pllsetreg" n)).
Definition pll_K (n : Z) : Z := bits_get 16 16 (R (clkpwr "pllsetreg_sscg" n)).

Definition pll_spec (n : Z) : Z :=
  1000 * (24000 * pll_M n / pll_P n / 2 ^ pll_S n) +
  (if (1 <? n) && negb (pll_K n =? 0)
   then pll_K n * 1000 / 65536 * 24000 / pll_P n / 2 ^ pll_S n else 0).

Definition pll_good (n : Z) : Prop := pll_P n <> 0 /\ pll_S n < 32 /\ pll_spec n < 2 ^ 32.

(** Divider block [n]: the PLL it selects and its four factors. *)
Definition dv_sel (n : Z) : Z := bits_get 3 0 (R (clkpwr "dvoreg" n)).
Definition dv_factor (n j : Z) : Z := bits_get 6 (3 + 6 * j) (R (clkpwr "dvoreg" n)) + 1.

(** Divided by the first [k] factors in turn. *)
Definition div_spec (n k : Z) : Z :=
  foldl (fun r j => r / dv_factor n j) (pll_spec (dv_sel n)) (seqZ 0 k).

Definition div_good (n : Z) : Prop := dv_sel n < 4 /\ forall j, 0 <= j < 4 -> dv_factor n j < 64.

Definition hz_spec (f : hz_field) : Z :=
  match f with
  | pll n => pll_spec n
  | cpu_fclk => div_spec DIV_CPUG0 1 | cpu_bclk => div_spec DIV_CPUG0 2
  | mem_dclk => div_spec DIV_MEM 1 | mem_fclk => div_spec DIV_MEM 2
  | mem_bclk => div_spec DIV_MEM 3 | mem_pclk => div_spec DIV_MEM 4
  | bus_bclk => div_spec DIV_BUS 1 | bus_pclk => div_spec DIV_BUS 2
  | cci4_bclk => div_spec DIV_CCI4 1 | cci4_pclk => div_spec DIV_CCI4 2
  | g3d_bclk => div_spec DIV_G3D 1
  | coda_bclk => div_spec DIV_CODA 1 | coda_pclk => div_spec DIV_CODA 2
  | disp_bclk => div_spec DIV_DISP 1 | disp_pclk => div_spec DIV_DISP 2
  | hdmi_pclk => div_spec DIV_HDMI 1
  end.

(** The settings the rates can be computed from. *)
Definition rates_good : Prop :=
  (forall n, 0 <= n < 4 -> pll_good n) /\
  Forall div_good [DIV_CPUG0; DIV_BUS; DIV_MEM; DIV_G3D; DIV_CODA; DIV_DISP; DIV_HDMI; DIV_CCI4].

Lemma pll_spec_nonneg n : 0 <= pll_spec n.
Proof.
  unfold pll_spec, pll_P, pll_M, pll_S, pll_K.
  pose proof (bits_get_range 10 8 (R (clkpwr "pllsetreg" n)) ltac:(lia)).
  pose proof (bits_get_range 6 18 (R (clkpwr "pllsetreg" n)) ltac:(lia)).
  pose proof (bits_get_range 8 0 (R (clkpwr "pllsetreg" n)) ltac:(lia)).
  pose proof (bits_get_range 16 16 (R (clkpwr "pllsetreg_sscg" n)) ltac:(lia)).
  assert (Hdn : forall a b, 0 <= a -> 0 <= b -> 0 <= a / b) by apply Z_div_nonneg_nonneg.
  apply Z.add_nonneg_nonneg.
  - apply Z.mul_nonneg_nonneg; [lia|]. repeat apply Hdn; lia.
  - destruct (_ && _); [|lia]. repeat apply Hdn; try lia.
    apply Z.mul_nonneg_nonneg; [|lia]. apply Hdn; lia.
Qed.

Lemma udiv_ok a b : is_u32 a -> b <> 0 -> udiv a b = Some (a / b).
Proof. intros Ha Hb. unfold udiv. destruct (Z.eqb_spec b 0); [done|]. by rewrite u32_small. Qed.

Lemma pll_hz_ok n : pll_good n ->
  pll_hz n CONFIG_SYS_PLLFIN (R (clkpwr "pllsetreg" n)) (R (clkpwr "pllsetreg_sscg" n))
  = Some (pll_spec n).
Proof.
  intros (HP & HS & Hlt). unfold pll_hz.
  change (u32 CONFIG_SYS_PLLFIN / 1000) with 24000.
  change (Z.land (Z.shiftr (R (clkpwr "pllsetreg" n)) 18) 0x03F) with (pll_P n).
  change (Z.land (Z.shiftr (R (clkpwr "pllsetreg" n)) 8) 0x3FF) with (pll_M n).
  change (Z.land (Z.shiftr (R (clkpwr "pllsetreg" n)) 0) 0x0FF) with (pll_S n).
  change (Z.land (Z.shiftr (R (clkpwr "pllsetreg_sscg" n)) 16) 0xFFFF) with (pll_K n).
  assert (HM : 0 <= pll_M n < 1024) by by apply (bits_get_range 10).
  assert (HK : 0 <= pll_K n < 65536) by by apply (bits_get_range 16).
  assert (HS0 : 0 <= pll_S n) by by apply (bits_get_range 8).
  assert (HP0 : 0 <= pll_P n) by by apply (bits_get_range 6).
  assert (Hsh : forall a, ushr a (pll_S n) = Some (a / 2 ^ pll_S n)).
  { intros a. unfold ushr. destruct (Z.ltb_spec (pll_S n) 32); [|lia]. by rewrite Z.shiftr_div_pow2. }
  pose proof (pll_spec_nonneg n). rewrite (udiv_ok (pll_M n * 24000)) by (unfold is_u32; lia).
  cbn [mbind option_bind]. rewrite Hsh. cbn [mbind option_bind].
  unfold pll_spec in *. destruct ((1 <? n) && negb (pll_K n =? 0)).
  - assert (Ha : 0 <= pll_K n * 1000 / 65536 < 1000).
    { split; [apply Z.div_pos; lia|]. apply Z.div_lt_upper_bound; lia. }
    rewrite (udiv_ok (pll_K n * 1000)) by (unfold is_u32; lia). cbn [mbind option_bind].
    rewrite udiv_ok by (unfold is_u32; lia). cbn [mbind option_bind]. rewrite Hsh.
    cbn [mbind option_bind]. f_equal.
    rewrite u32_small by (unfold is_u32; rewrite (Z.mul_comm (pll_M n)), (Z.mul_comm _ 1000); lia).
    rewrite (Z.mul_comm (pll_M n)). lia.
  - cbn [mbind option_bind]. f_equal.
    rewrite u32_small by (unfold is_u32; rewrite (Z.mul_comm (pll_M n)), (Z.mul_comm _ 1000); lia).
    rewrite (Z.mul_comm (pll_M n)). lia.
Qed.
End Rates.

(** The four factors [pll_div] packs come apart again. *)
Lemma unpack x0 x1 x2 x3 j :
  0 <= x0 < 128 -> 0 <= x1 < 128 -> 0 <= x2 < 128 -> 0 <= x3 < 128 -> 0 <= j < 4 ->
  bits_get 6 (8 * j)
    (Z.lor (Z.lor (Z.lor (Z.shiftl x3 24) (Z.shiftl x2 16)) (Z.shiftl x1 8)) (Z.shiftl x0 0))
  = (if j =? 0 then x0 else if j =? 1 then x1 else if j =? 2 then x2 else x3) mod 64.
Proof.
  intros H0 H1 H2 H3 Hj. change 64 with (2 ^ 6). rewrite <- Z.land_ones by lia.
  apply Z.bits_inj'. intros i Hi. rewrite bits_get_testbit, Z.land_spec, Z.testbit_ones by lia.
  rewrite !Z.lor_spec, !Z.shiftl_spec by lia.
  destruct (Z.ltb_spec i 6); [|by rewrite !andb_false_r].
  destruct (Z.leb_spec 0 i); [|lia]. rewrite andb_true_r. cbn [andb].
  assert (Hh : forall x k, 0 <= x < 128 -> 8 <= k \/ k < 0 -> Z.testbit x k = false).
  { intros x k Hx [Hk|Hk]; [by apply (testbit_high x 7); lia|by apply Z.testbit_neg_r]. }
  assert (Hc : j = 0 \/ j = 1 \/ j = 2 \/ j = 3) by lia.
  destruct Hc as [-> | [-> | [-> | ->]]]; cbn [Z.eqb Z.mul Pos.mul Pos.eqb];
    [rewrite (Hh x1), (Hh x2), (Hh x3)|rewrite (Hh x0), (Hh x2), (Hh x3)|
     rewrite (Hh x0), (Hh x1), (Hh x3)|rewrite (Hh x0), (Hh x1), (Hh x2)];
    try done; try lia; rewrite ?orb_false_r, ?orb_false_l; f_equal; lia.
Qed.

(** An element of a range, by what comes before it. *)
Lemma app_eq_seqZ lo n (dn : list Z) i rest :
  seqZ lo n = dn ++ i :: rest -> lo + Z.of_nat (length dn) = i /\ lo <= i < lo + n.
Proof.
  intros Hl. assert (Hi : seqZ lo n !! length dn = Some i).
  { rewrite Hl. by apply list_lookup_middle. }
  apply lookup_seqZ in Hi. lia.
Qed.

Section Boot.
Context {D : Type} `{Storage D plain}.

(** The registers of the clock controller the rates come from. *)
Definition clkpwr_plain : Prop :=
  (forall n, 0 <= n < 4 -> plain (clkpwr "pllsetreg" n) = true /\ plain (clkpwr "pllsetreg_sscg" n) = true) /\
  forall n, 0 <= n < 9 -> plain (clkpwr "dvoreg" n) = true.

Context (Hpl : clkpwr_plain).

(** A run that computes [v] from the plain registers [R] and changes nothing. *)
Definition yields {A} (R : Z -> Z) (m : prog D clk_vars A) (v : A) : Prop :=
  forall s, (forall b, plain b = true -> reg (dev s) b = R b) ->
    returns m s (fun x s' _ => x = v /\ glb s' = glb s /\
      forall b, plain b = true -> reg (dev s') b = R b).

Lemma yields_ret {A} R (v : A) : yields R (ret v) v.
Proof. intros s Hs. by apply returns_ret. Qed.

Lemma yields_need {A} R o (v : A) : o = Some v -> yields R (need o) v.
Proof. intros -> s Hs. by apply returns_ret. Qed.

Lemma yields_bind {A B} R (m : prog D clk_vars A) k (v : A) (w : B) :
  yields R m v -> yields R (k v) w -> yields R (bind m k) w.
Proof.
  intros Hm Hk s Hs. apply returns_bind. eapply returns_weaken; [by apply Hm|].
  intros a s1 t1 (-> & Hg & H1). eapply returns_weaken; [by apply Hk|].
  intros b s2 t2 (-> & Hg2 & H2). split; [done|]. by rewrite Hg2.
Qed.

Lemma yields_rd32 R a : plain a = true -> yields R (rd32 a) (R a).
Proof.
  intros Ha s Hs. apply (returns_rd32_plain (plain := plain)); [done|]. intros d Hd.
  split; [by apply Hs|]. split; [done|]. intros b Hb. cbn. rewrite Hd by done. by apply Hs.
Qed.

Lemma pll_rate_yields R n : 0 <= n < 4 -> pll_good R n ->
  yields R (pll_rate n CONFIG_SYS_PLLFIN) (pll_spec R n).
Proof.
  intros Hn Hg. unfold pll_rate. change (countof nx_clkpwr_registerset "pllsetreg") with 4.
  destruct (Z.ltb_spec n 4); [|lia]. destruct Hpl as [Hp _]. destruct (Hp n Hn) as [Hp1 Hp2].
  eapply yields_bind; [by apply yields_rd32|]. eapply yields_bind; [by apply yields_rd32|].
  by apply yields_need, pll_hz_ok.
Qed.

Lemma factor_range R n j : 1 <= dv_factor R n j < 65.
Proof.
  unfold dv_factor. pose proof (bits_get_range 6 (3 + 6 * j) (R (clkpwr "dvoreg" n)) ltac:(lia)). lia.
Qed.

Lemma divided_yields R n js : forall r, 0 <= n < 9 -> is_u32 r ->
  Forall (fun j => 0 <= j < 4 /\ dv_factor R n j < 64) js ->
  yields R (divided r n (map (Z.mul 8) js)) (foldl (fun r j => r / dv_factor R n j) r js).
Proof.
  induction js as [|j js IH]; intros r Hn Hr Hjs; cbn [map divided foldl]; [apply yields_ret|].
  inversion_clear Hjs as [|? ? [Hj Hf] Hjs']. destruct Hpl as [_ Hp].
  pose proof (factor_range R n) as Hrange. unfold pll_div.
  eapply yields_bind; [eapply yields_bind; [by apply yields_rd32, Hp|apply yields_ret]|].
  change (Z.land (Z.shiftr ?x (8 * j)) 0x3F) with (bits_get 6 (8 * j) x).
  set (v := R (clkpwr "dvoreg" n)).
  change (Z.land (Z.shiftr v DVO3) 63 + 1) with (dv_factor R n 3).
  change (Z.land (Z.shiftr v DVO2) 63 + 1) with (dv_factor R n 2).
  change (Z.land (Z.shiftr v DVO1) 63 + 1) with (dv_factor R n 1).
  change (Z.land (Z.shiftr v DVO0) 63 + 1) with (dv_factor R n 0).
  rewrite unpack by (try apply Hj; pose proof (Hrange 0); pose proof (Hrange 1);
    pose proof (Hrange 2); pose proof (Hrange 3); lia).
  assert (Hsel : (if j =? 0 then dv_factor R n 0 else if j =? 1 then dv_factor R n 1
    else if j =? 2 then dv_factor R n 2 else dv_factor R n 3) = dv_factor R n j).
  { assert (Hc : j = 0 \/ j = 1 \/ j = 2 \/ j = 3) by lia. by destruct Hc as [-> | [-> | [-> | ->]]]. }
  rewrite Hsel, Z.mod_small by (pose proof (Hrange j); lia). pose proof (Hrange j).
  eapply yields_bind; [by apply yields_need, udiv_ok; [done|lia]|].
  apply IH; [done| |done]. unfold is_u32 in *. pose proof (div_nonneg r (dv_factor R n j)). lia.
Qed.

Lemma div_rate_yields R n k : rates_good R -> div_good R n -> 0 <= n < 9 -> 0 <= k <= 4 ->
  yields R (div_rate n (map (Z.mul 8) (seqZ 0 k))) (div_spec R n k).
Proof.
  intros [Hpll _] [Hs Hf] Hn Hk. pose proof (bits_get_range 3 0 (R (clkpwr "dvoreg" n)) ltac:(lia)).
  assert (Hsel : 0 <= dv_sel R n < 4) by (unfold dv_sel in *; lia).
  unfold div_rate, pll_dvo. destruct Hpl as [_ Hp].
  eapply yields_bind; [eapply yields_bind; [by apply yields_rd32, Hp|apply yields_ret]|].
  change (Z.land (R (clkpwr "dvoreg" n)) 7) with (dv_sel R n).
  eapply yields_bind; [by apply pll_rate_yields; [|apply Hpll]|].
  destruct (Hpll _ Hsel) as (_ & _ & Hlt). pose proof (pll_spec_nonneg R (dv_sel R n)).
  apply divided_yields; [done|done|]. apply Forall_forall. intros j Hj.
  apply elem_of_seqZ in Hj. split; [lia|apply Hf; lia].
Qed.

(** A run whose effect is a change of the variables. *)
Definition changes (R : Z -> Z) (m : prog D clk_vars unit) (F : clk_vars -> clk_vars) : Prop :=
  forall s, (forall b, plain b = true -> reg (dev s) b = R b) ->
    returns m s (fun _ s' _ => glb s' = F (glb s) /\
      forall b, plain b = true -> reg (dev s') b = R b).

Lemma hz_put_changes R f m v : yields R m v -> changes R (hz_put f m) (fun g => set_hz g f v).
Proof.
  intros Hm s Hs. apply returns_bind. eapply returns_weaken; [by apply Hm|].
  intros x s1 t1 (-> & Hg & H1). apply returns_bind, returns_gget, returns_gput.
  split; [by rewrite Hg|done].
Qed.

(** Each type stores the rate of its field. *)
Lemma core_update_changes R : rates_good R ->
  Forall (fun ty => changes R (core_update_rate ty) (fun g =>
    match hz_of_type ty with Some f => set_hz g f (hz_spec R f) | None => g end))
    (seqZ 0 CORE_HZ_SIZE).
Proof.
  intros HR. pose proof HR as [Hp Hd]. rewrite !Forall_cons in Hd.
  destruct Hd as (K0 & K1 & K2 & K3 & K4 & K5 & K6 & K8 & _).
  assert (Hpll : forall n, 0 <= n < 4 -> yields R (PLLN_RATE n) (pll_spec R n))
    by (intros n Hn; apply pll_rate_yields; auto).
  assert (Hdiv : forall n k, div_good R n -> 0 <= n < 9 -> 0 <= k <= 4 ->
    yields R (div_rate n (map (Z.mul 8) (seqZ 0 k))) (div_spec R n k))
    by (intros; by apply div_rate_yields).
  assert (Hnone : changes R (ret tt) (fun g => g)) by (intros s Hs; by apply returns_ret).
  change (seqZ 0 CORE_HZ_SIZE) with (seqZ 0 20 ++ seqZ 20 20). apply Forall_app. split.
  - change (seqZ 0 20) with [0; 1; 2; 3; 4; 5; 6; 7; 8; 9; 10; 11; 12; 13; 14; 15; 16; 17; 18; 19].
    repeat apply Forall_cons_2; [..|constructor]; cbn [hz_of_type core_update_rate hz_spec];
      apply hz_put_changes; first [by apply Hpll|idtac].
    + by apply (Hdiv DIV_CPUG0 1).
    + by apply (Hdiv DIV_MEM 2).
    + by apply (Hdiv DIV_BUS 1).
    + by apply (Hdiv DIV_BUS 2).
    + by apply (Hdiv DIV_CPUG0 2).
    + by apply (Hdiv DIV_MEM 1).
    + by apply (Hdiv DIV_MEM 3).
    + by apply (Hdiv DIV_MEM 4).
    + by apply (Hdiv DIV_G3D 1).
    + by apply (Hdiv DIV_CODA 1).
    + by apply (Hdiv DIV_CODA 2).
    + by apply (Hdiv DIV_DISP 1).
    + by apply (Hdiv DIV_DISP 2).
    + by apply (Hdiv DIV_HDMI 1).
    + by apply (Hdiv DIV_CCI4 1).
    + by apply (Hdiv DIV_CCI4 2).
  - change (seqZ 20 20) with [20; 21; 22; 23; 24; 25; 26; 27; 28; 29; 30; 31; 32; 33; 34; 35; 36; 37; 38; 39].
    repeat apply Forall_cons_2; [..|constructor]; exact Hnone.
Qed.

(** The fields that have a type. *)
Definition hz_known (f : hz_field) : Prop := exists ty, 0 <= ty < 20 /\ hz_of_type ty = Some f.

Lemma core_rate_init_changes R : rates_good R -> forall s,
  (forall b, plain b = true -> reg (dev s) b = R b) ->
  returns core_rate_init s (fun _ s' _ =>
    clk_periphs (glb s') = clk_periphs (glb s) /\ st_clk_devs (glb s') = st_clk_devs (glb s) /\
    (forall f, hz_known f -> core_hz (glb s') f = hz_spec R f) /\
    forall b, plain b = true -> reg (dev s') b = R b).
Proof.
  intros HR s Hs. pose proof (core_update_changes R HR) as Hup. rewrite Forall_forall in Hup.
  unfold core_rate_init, for_each. rewrite Z.sub_0_r.
  eapply returns_weaken.
  { apply (returns_each _ _ s (fun dn s' _ =>
      clk_periphs (glb s') = clk_periphs (glb s) /\ st_clk_devs (glb s') = st_clk_devs (glb s) /\
      (forall ty f, ty ∈ dn -> hz_of_type ty = Some f -> core_hz (glb s') f = hz_spec R f) /\
      forall b, plain b = true -> reg (dev s') b = R b)).
    { do 2 (split; [done|]). split; [|done]. intros ty f Hty. by apply elem_of_nil in Hty. }
    intros dn i rest s1 t1 Hl (H1 & H2 & H3 & H4). eapply returns_weaken.
    { apply Hup; [|done]. rewrite Hl. apply elem_of_app. right. left. }
    intros [] s2 t2 (-> & H5). destruct (hz_of_type i) as [f|] eqn:Hi.
    - cbn. do 2 (split; [done|]). split; [|done]. intros ty f' Hty Hf'.
      destruct (decide (f' = f)) as [->|]; [done|].
      apply elem_of_app in Hty as [Hty| ->%list_elem_of_singleton]; [by eapply H3|congruence].
    - do 2 (split; [done|]). split; [|done]. intros ty f' Hty Hf'.
      apply elem_of_app in Hty as [Hty| ->%list_elem_of_singleton]; [by eapply H3|congruence]. }
  intros [] s' t (H1 & H2 & H3 & H4). do 2 (split; [done|]). split; [|done].
  intros f (ty & Hty & Hf). eapply H3; [|done]. apply elem_of_seqZ. change CORE_HZ_SIZE with 40. lia.
Qed.

(** *** The table of clocks *)

(** The rate of core clock type [i]. *)
Definition type_rate (g : clk_vars) (i : Z) : Z :=
  match hz_of_type i with Some f => core_hz g f | None => 0 end.

(** Clock [i] after start-up. *)
Definition clock_spec (g : clk_vars) (i : Z) : clk_dev :=
  if i <? CLK_CORE_NUM
  then Dev (type_rate g i) None (Some (chars (nth (Z.to_nat i) clk_core ""%string))) None
  else
    let p := nth (Z.to_nat (i - CLK_CORE_NUM)) (clk_periphs g) zero_peri in
    Dev (if Z.land I_CLOCK_MASK (in_mask p) =? 0 then
           if negb (Z.land I_PCLK_MASK (in_mask p) =? 0) then core_hz g bus_pclk
           else if negb (Z.land I_BCLK_MASK (in_mask p) =? 0) then core_hz g bus_bclk else 0
         else 0) None (dev_name p) (Some (i - CLK_CORE_NUM)).

Lemma type_of_core i : 0 <= i < CLK_CORE_NUM -> is_Some (hz_of_type i).
Proof.
  intros Hi. assert (Hin : i ∈ seqZ 0 CLK_CORE_NUM) by (apply elem_of_seqZ; lia). revert i Hin Hi.
  apply (proj1 (Forall_forall (fun i => 0 <= i < CLK_CORE_NUM -> is_Some (hz_of_type i)) _)).
  change (seqZ 0 CLK_CORE_NUM) with [0; 1; 2; 3; 4; 5; 6; 7; 8].
  repeat constructor; intros; by eexists.
Qed.

(** [cdev->clk.rate = core_get_rate(id);] *)
Lemma rate_stored i id f d (s : st D clk_vars) (Q : unit -> st D clk_vars -> list event -> Prop) :
  hz_of_type id = Some f -> st_clk_devs (glb s) !! Z.to_nat i = Some d ->
  Q tt (St (dev s) (set_dev (glb s) i (with_rate d (core_hz (glb s) f)))) [] ->
  returns (r <-- core_get_rate id ;; g <-- gget ;; cdev <-- dev_at i ;; gput (set_dev g i (with_rate cdev r))) s Q.
Proof.
  intros Hf Hd HQ. unfold core_get_rate. rewrite Hf.
  apply returns_bind, returns_bind, returns_gget, returns_ret.
  apply returns_bind, returns_gget. by apply returns_bind, (returns_dev_at _ d), returns_gput.
Qed.

Lemma init_clock_changes i devs (s : st D clk_vars) :
  0 <= i < CLK_DEVS_NUM -> Z.of_nat (length (clk_periphs (glb s))) = CLK_PERI_NUM ->
  st_clk_devs (glb s) = map (clock_spec (glb s)) devs ++ replicate (Z.to_nat (CLK_DEVS_NUM - i)) zero_dev ->
  Z.of_nat (length devs) = i ->
  returns (init_clock i) s (fun _ s' _ => dev s' = dev s /\
    clk_periphs (glb s') = clk_periphs (glb s) /\ core_hz (glb s') = core_hz (glb s) /\
    st_clk_devs (glb s') = map (clock_spec (glb s)) (devs ++ [i]) ++
      replicate (Z.to_nat (CLK_DEVS_NUM - (i + 1))) zero_dev).
Proof.
  intros Hi Hper Hdevs Hlen.
  set (rest := replicate (Z.to_nat (CLK_DEVS_NUM - (i + 1))) zero_dev).
  assert (Hsplit : st_clk_devs (glb s) = map (clock_spec (glb s)) devs ++ zero_dev :: rest).
  { rewrite Hdevs. f_equal. unfold rest.
    replace (Z.to_nat (CLK_DEVS_NUM - i)) with (S (Z.to_nat (CLK_DEVS_NUM - (i + 1)))) by lia. done. }
  assert (Hat : forall x, (map (clock_spec (glb s)) devs ++ x :: rest) !! Z.to_nat i = Some x).
  { intros x. replace (Z.to_nat i) with (length (map (clock_spec (glb s)) devs)) by (rewrite length_map; lia).
    by apply list_lookup_middle. }
  assert (Hput : forall x y, <[Z.to_nat i := y]> (map (clock_spec (glb s)) devs ++ x :: rest)
    = map (clock_spec (glb s)) devs ++ y :: rest).
  { intros x y. replace (Z.to_nat i) with (length (map (clock_spec (glb s)) devs) + 0)%nat
      by (rewrite length_map; lia). by rewrite insert_app_r. }
  assert (Hend : forall x, x = clock_spec (glb s) i ->
    map (clock_spec (glb s)) devs ++ x :: rest = map (clock_spec (glb s)) (devs ++ [i]) ++ rest).
  { intros x ->. by rewrite map_app, <- app_assoc. }
  unfold init_clock. apply returns_bind, returns_gget.
  apply returns_bind, (returns_dev_at _ zero_dev); [by rewrite Hsplit|].
  unfold clock_spec in Hend. destruct (Z.ltb_spec i CLK_CORE_NUM) as [Hc|Hc].
  - destruct (lookup_lt_is_Some_2 clk_core (Z.to_nat i)) as [nm Hnm].
    { change (length clk_core) with 9%nat. change CLK_CORE_NUM with 9 in Hc. lia. }
    apply returns_bind, (returns_need _ nm); [done|]. apply returns_bind, returns_gput.
    destruct (type_of_core i) as [f Hf]; [lia|]. cbn [glb].
    apply (rate_stored i i f (Dev 0 None (Some (chars nm)) None)); [done|cbn; by rewrite Hsplit, Hput|].
    cbn. repeat (split; [done|]). rewrite Hsplit, !Hput. apply Hend.
    unfold type_rate. rewrite Hf. by rewrite (nth_lookup_Some _ _ _ nm Hnm).
  - set (pi := i - CLK_CORE_NUM) in *.
    assert (Hpi : (Z.to_nat pi < length (clk_periphs (glb s)))%nat)
      by (change CLK_CORE_NUM with 9 in *; change CLK_DEVS_NUM with 49 in *;
          change CLK_PERI_NUM with 40 in *; lia).
    destruct (lookup_lt_is_Some_2 _ _ Hpi) as [p Hp].
    apply returns_bind, (returns_peri_at _ p); [done|]. apply returns_bind, returns_gput.
    rewrite (nth_lookup_Some _ _ _ p Hp) in Hend.
    destruct (Z.land I_CLOCK_MASK (in_mask p) =? 0).
    2: { apply returns_ret. cbn. repeat (split; [done|]). rewrite Hsplit, Hput. by apply Hend. }
    destruct (Z.land I_PCLK_MASK (in_mask p) =? 0), (Z.land I_BCLK_MASK (in_mask p) =? 0);
      cbn [negb] in *; apply returns_bind;
      repeat first [apply returns_ret
        |eapply rate_stored; [done|cbn; rewrite Hsplit, ?Hput; apply Hat|]];
      cbn; repeat (split; [done|]); rewrite Hsplit, !Hput; by apply Hend.
Qed.

(** The table of clocks as start-up leaves it. *)
Definition booted (g : clk_vars) : Prop :=
  clk_periphs g = clk_periphs0 /\ st_clk_devs g = map (clock_spec g) (seqZ 0 CLK_DEVS_NUM).

Lemma clk_init_boots R (s : st D clk_vars) :
  rates_good R -> (forall b, plain b = true -> reg (dev s) b = R b) ->
  clk_periphs (glb s) = clk_periphs0 ->
  returns clk_init s (fun _ s' _ => booted (glb s') /\
    (forall f, hz_known f -> core_hz (glb s') f = hz_spec R f) /\
    forall b, plain b = true -> reg (dev s') b = R b).
Proof.
  intros HR Hs Hper. unfold clk_init. apply returns_bind, returns_gget.
  apply returns_bind, returns_gput, returns_bind.
  eapply returns_weaken; [by apply (core_rate_init_changes R)|].
  cbn [glb clk_periphs st_clk_devs]. intros [] s1 t1 (Hp1 & Hd1 & Hr1 & H1).
  unfold for_each. rewrite Z.sub_0_r.
  eapply returns_weaken.
  { apply (returns_each _ _ s1 (fun dn s' _ => dev s' = dev s1 /\
      clk_periphs (glb s') = clk_periphs0 /\ core_hz (glb s') = core_hz (glb s1) /\
      st_clk_devs (glb s') = map (clock_spec (glb s')) dn ++
        replicate (Z.to_nat (CLK_DEVS_NUM - Z.of_nat (length dn))) zero_dev)).
    { split; [done|]. split; [by rewrite Hp1|]. by split; [|rewrite Hd1]. }
    intros dn i rest s2 t2 Hl (E1 & E2 & E3 & E4).
    destruct (app_eq_seqZ 0 CLK_DEVS_NUM dn i rest Hl) as [Hdn Hi].
    eapply returns_weaken; [apply (init_clock_changes i dn)|].
    { lia. }
    { by rewrite E2. }
    { rewrite E4. by rewrite <- Hdn. }
    { lia. }
    intros [] s3 t3 (F1 & F2 & F3 & F4). split; [congruence|]. split; [congruence|].
    split; [congruence|]. rewrite F4, length_app. cbn [length]. f_equal.
    - apply map_ext. intros k. unfold clock_spec, type_rate. by rewrite F2, F3.
    - f_equal. lia. }
  intros [] s' t (E1 & E2 & E3 & E4). split; [|split].
  - split; [done|]. rewrite E4, length_seqZ. change (Z.to_nat (CLK_DEVS_NUM - _)) with O.
    by rewrite app_nil_r.
  - intros f Hf. rewrite E3. by apply Hr1.
  - by rewrite E1.
Qed.
End Boot.

(** ** Finding a clock by name *)

(** [nx-uart.0], say. *)
Definition clock_name (p : clk_dev_peri) : list Z :=
  default [] (dev_name p) ++ 46 :: written 10 (dev_id p).

(** The search looks at names and peripherals only. *)
Lemma clk_find_ext peris str devs devs' : forall i,
  Forall2 (fun d d' => name d = name d' /\ peri d = peri d') devs devs' ->
  clk_find i devs peris str = clk_find i devs' peris str.
Proof.
  intros i Hd. revert i. induction Hd as [|d d' l l' [H1 H2] Hl IH]; intros i; [done|].
  cbn [clk_find]. rewrite H1, H2, IH. done.
Qed.

Definition names_of (l : list clk_dev) : list (option (list Z)) := map name l.

(** A table with the names of a started one, for computing with. *)
Definition sample : list clk_dev :=
  map (clock_spec (ClkVars clk_periphs0 [] (fun _ => 0))) (seqZ 0 CLK_DEVS_NUM).

Lemma booted_find g str : booted g ->
  clk_find 0 (st_clk_devs g) (clk_periphs g) str = clk_find 0 sample clk_periphs0 str.
Proof.
  intros [Hp Hd]. rewrite Hd, Hp. apply clk_find_ext. unfold sample.
  apply Forall2_fmap, Forall_Forall2_diag, Forall_true. intros i.
  unfold clock_spec. cbn [clk_periphs]. rewrite Hp. by destruct (i <? CLK_CORE_NUM).
Qed.

(** Whether each clock of the table is found under its name. *)
Lemma sample_found :
  Forall (fun e => clk_find 0 sample clk_periphs0 (cstr (clock_name e.2) []) = Some (CLK_CORE_NUM + e.1))
    periph_inits /\
  Forall (fun i => clk_find 0 sample clk_periphs0
    (cstr (chars (nth (Z.to_nat i) clk_core ""%string)) []) = Some i) (seqZ 0 CLK_CORE_NUM).
Proof. split; repeat (constructor; [by vm_compute|]); constructor. Qed.

(** Two strings can be compared. *)
Lemma strncmp_total a : forall b x y n, text_ok a ->
  exists r, strncmp (cstr a x) (cstr b y) n = Some r.
Proof.
  induction a as [|c a IH]; intros b x y n Ha.
  - unfold cstr. cbn [app]. destruct b as [|d b]; cbn [app strncmp]; destruct (n =? 0);
      rewrite ?orb_true_r; by eexists.
  - inversion_clear Ha as [|? ? Hc Ha']. unfold cstr in *. cbn [app].
    destruct b as [|d b]; cbn [app strncmp]; (destruct (n =? 0); [by eexists|]).
    + pose proof (s8_diff_zero c 0 ltac:(lia) ltac:(lia)).
      destruct (Z.eqb_spec (s8 (c - 0)) 0); [lia|]. by eexists.
    + destruct (negb _ || _); [by eexists|]. by apply (IH b x y (n - 1)).
Qed.

(** A name that is no prefix of the text differs from its start. *)
Lemma prefix_differs nm id : text_ok nm -> text_ok id -> take (length nm) id <> nm ->
  exists r, strncmp (cstr nm []) (cstr id []) (Z.of_nat (length nm)) = Some r /\ r <> 0.
Proof.
  intros Hnm Hid Hne. destruct (strncmp_total nm id [] [] (Z.of_nat (length nm)) Hnm) as [r Hr].
  exists r. split; [done|]. intros ->. apply strncmp_prefix in Hr; [|done|].
  - unfold cstr in Hr. destruct (decide (length nm <= length id)%nat).
    + by rewrite take_app_le in Hr.
    + assert (Hz : nm !! length id = Some 0).
      { rewrite <- Hr, lookup_take_lt by lia. by apply list_lookup_middle. }
      apply Forall_lookup_1 with (1 := Hnm) in Hz. lia.
  - apply Forall_app. split; [|by repeat constructor]. eapply Forall_impl; [exact Hid|].
    intros c Hc. cbn beta in Hc. unfold is_u8. lia.
Qed.

(** A text that starts with no clock's name is not found. *)
Lemma clk_find_none devs peris id : forall i, text_ok id ->
  Forall (fun d => match name d with
    | Some nm => text_ok nm /\ take (length nm) id <> nm | None => True end) devs ->
  clk_find i devs peris (cstr id []) = Some (i + Z.of_nat (length devs)).
Proof.
  induction devs as [|d devs IH]; intros i Hid Hall; cbn [clk_find length].
  { f_equal. lia. }
  inversion_clear Hall as [|? ? Hd Hds]. specialize (IH (i + 1) Hid Hds).
  replace (i + Z.of_nat (S (length devs))) with (i + 1 + Z.of_nat (length devs)) by lia.
  destruct (name d) as [nm|]; [|done]. destruct Hd as (Hnm & Hne).
  rewrite strlen_cstr by done. cbn [mbind option_bind].
  destruct (prefix_differs nm id) as (r & -> & Hr); [done..|]. cbn [mbind option_bind].
  by destruct (Z.eqb_spec r 0).
Qed.

Lemma inits_small : Forall (fun e => e.1 < CLK_PERI_NUM) periph_inits.
Proof. repeat constructor. Qed.

(** The names of the table are texts. *)
Lemma sample_texts : Forall (fun d => match name d with Some nm => text_ok nm | None => True end) sample.
Proof. vm_compute. repeat constructor. Qed.

Lemma sample_no id :
  Forall (fun d => match name d with Some nm => take (length nm) id <> nm | None => True end) sample ->
  Forall (fun d => match name d with
    | Some nm => text_ok nm /\ take (length nm) id <> nm | None => True end) sample.
Proof.
  intros Hno. pose proof sample_texts as Ht. rewrite Forall_forall in Hno, Ht |- *.
  intros d Hd. specialize (Hno d Hd). specialize (Ht d Hd). by destruct (name d).
Qed.

Section Names.
Context {D : Type} `{Storage D plain}.

Lemma clk_get_of i id (s : st D clk_vars) :
  clk_find 0 (st_clk_devs (glb s)) (clk_periphs (glb s)) (cstr id []) = Some i ->
  clk_get id s = Ok (if i <? CLK_DEVS_NUM then i else 7) s [].
Proof. intros Hf. unfold clk_get, bind, gget, need, ret. cbn. by rewrite Hf. Qed.

(** Start-up of the clock tree on a board whose PLLs run at most at 4 GHz
    and whose dividers are not at their largest: it returns, and every core
    clock has the rate that the crystal, the PLL its divider block selects and
    the factors of the block make; every clock of the table is found under its
    name, with its index; a text that starts with no clock's name gets the
    peripheral bus clock. *)
Theorem clk_init_rates (s : st D clk_vars) :
  let R := reg (dev s) in
  clkpwr_plain (plain := plain) -> rates_good R -> clk_periphs (glb s) = clk_periphs0 ->
  returns clk_init s (fun _ s' _ =>
    (forall i, 0 <= i < CLK_CORE_NUM -> exists f, hz_of_type i = Some f /\
       clk_get (chars (nth (Z.to_nat i) clk_core ""%string)) s' = Ok i s' [] /\
       clk_get_rate i s' = Ok (hz_spec R f) s' []) /\
    (forall i p, (i, p) ∈ periph_inits -> clk_get (clock_name p) s' = Ok (CLK_CORE_NUM + i) s' []) /\
    (forall id, text_ok id ->
       Forall (fun d => match name d with Some nm => take (length nm) id <> nm | None => True end) sample ->
       clk_get id s' = Ok CORECLK_ID_PCLK s' []) /\
    forall b, plain b = true -> reg (dev s') b = R b).
Proof.
  intros R Hpl HR Hper. eapply returns_weaken; [by apply (clk_init_boots Hpl R)|].
  intros [] s' t (Hb & Hhz & Hreg). destruct sample_found as [Hfp Hfc].
  rewrite Forall_forall in Hfp. rewrite Forall_forall in Hfc.
  split; [|split; [|split]]; [| | |done].
  - intros i Hi. assert (Hin : i ∈ seqZ 0 CLK_CORE_NUM) by (apply elem_of_seqZ; lia).
    destruct (type_of_core i Hi) as [f Hf]. exists f. split; [done|].
    assert (Hlt : i < CLK_DEVS_NUM) by (change CLK_CORE_NUM with 9 in Hi; change CLK_DEVS_NUM with 49; lia).
    split.
    + rewrite (clk_get_of i); [|by rewrite booted_find; [apply Hfc|]].
      by destruct (Z.ltb_spec i CLK_DEVS_NUM); [|lia].
    + assert (Hd : st_clk_devs (glb s') !! Z.to_nat i = Some (clock_spec (glb s') i)).
      { destruct Hb as [_ ->]. rewrite list_lookup_fmap, lookup_seqZ_lt by lia.
        by replace (0 + Z.of_nat (Z.to_nat i)) with i by lia. }
      unfold clk_get_rate, dev_at, bind, gget, need. rewrite Hd. unfold clock_spec.
      destruct (Z.ltb_spec i CLK_CORE_NUM); [|lia]. cbn. unfold ret, type_rate. rewrite Hf, Hhz; [done|].
      exists i. split; [|done]. change CLK_CORE_NUM with 9 in Hi. lia.
  - intros i p Hip. rewrite (clk_get_of (CLK_CORE_NUM + i)).
    + assert (Hi : i < CLK_PERI_NUM).
      { revert Hip. apply (proj1 (Forall_forall (fun e => e.1 < CLK_PERI_NUM) _) inits_small (i, p)). }
      destruct (Z.ltb_spec (CLK_CORE_NUM + i) CLK_DEVS_NUM); [done|].
      change CLK_DEVS_NUM with (CLK_CORE_NUM + CLK_PERI_NUM) in *. lia.
    + rewrite booted_find by done. by apply (Hfp (i, p)).
  - intros id Hid Hno. rewrite (clk_get_of CLK_DEVS_NUM); [done|].
    rewrite booted_find, (clk_find_none sample _ id 0) by (done || by apply sample_no). done.
Qed.
End Names.

(** ** Examples *)

(** A board with PLLs at 800, 800, 246 and 246 MHz and bus dividers 2, 2. *)
Definition board_regs : gmap Z Z := list_to_map
  (map (fun i => (clkpwr "dvoreg" i, 0)) (seqZ 2 7) ++
   [(clkpwr "pllsetreg" 0, Z.shiftl 6 18 + Z.shiftl 200 8);
    (clkpwr "pllsetreg" 1, Z.shiftl 6 18 + Z.shiftl 200 8);
    (clkpwr "pllsetreg" 2, Z.shiftl 3 18 + Z.shiftl 123 8 + 2);
    (clkpwr "pllsetreg" 3, Z.shiftl 3 18 + Z.shiftl 123 8 + 2);
    (clkpwr "dvoreg" 1, Z.shiftl 1 3 + Z.shiftl 1 9)]).

Definition board : ram := Ram board_regs (fun _ => 0).

Lemma board_good : rates_good (fun a => u32 (default 0 (board_regs !! a))).
Proof.
  split.
  - intros n Hn. assert (Hc : n = 0 \/ n = 1 \/ n = 2 \/ n = 3) by lia.
    destruct Hc as [-> | [-> | [-> | ->]]]; unfold pll_good; (split; [|split]); by vm_compute.
  - repeat constructor; try (by vm_compute); intros j Hj;
      (assert (Hc : j = 0 \/ j = 1 \/ j = 2 \/ j = 3) by lia);
      destruct Hc as [-> | [-> | [-> | ->]]]; by vm_compute.
Qed.

(** Its tables after start-up. *)
Definition board_vars : clk_vars :=
  let hz := hz_spec (reg (plain := fun _ => true) board) in
  ClkVars clk_periphs0 (map (clock_spec (ClkVars clk_periphs0 [] hz)) (seqZ 0 CLK_DEVS_NUM)) hz.

Definition on_board : st ram clk_vars := St board board_vars.

Lemma board_plls : plls_ok board_vars.
Proof.
  intros n Hn. assert (Hc : n = 0 \/ n = 1 \/ n = 2 \/ n = 3) by lia.
  destruct Hc as [-> | [-> | [-> | ->]]]; eexists; (split; [by vm_compute|]); by vm_compute.
Qed.

Lemma clk_init_rates_witness :
  rates_good (reg (plain := fun _ => true) board) /\
  returns clk_init (St board vars0) (fun _ s' _ =>
    (forall i, 0 <= i < CLK_CORE_NUM -> exists f, hz_of_type i = Some f /\
       clk_get (chars (nth (Z.to_nat i) clk_core ""%string)) s' = Ok i s' [] /\
       clk_get_rate i s' = Ok (hz_spec (reg (plain := fun _ => true) board) f) s' []) /\
    (forall i p, (i, p) ∈ periph_inits -> clk_get (clock_name p) s' = Ok (CLK_CORE_NUM + i) s' []) /\
    (forall id, text_ok id ->
       Forall (fun d => match name d with Some nm => take (length nm) id <> nm | None => True end) sample ->
       clk_get id s' = Ok CORECLK_ID_PCLK s' []) /\
    forall b, true = true -> reg (plain := fun _ => true) (dev s') b = reg (plain := fun _ => true) board b).
Proof.
  assert (HR : rates_good (reg (plain := fun _ => true) board)) by exact board_good.
  split; [exact HR|].
  apply (clk_init_rates (plain := fun _ => true) (St board vars0)); [by split|exact HR|reflexivity].
Defined.

Lemma clk_set_rate_nearest_witness :
  exists cdev p, st_clk_devs board_vars !! 31%nat = Some cdev /\
  returns (clk_set_rate 31 50000000) on_board (fun r s' _ => exists n d x,
    best board_vars (in_mask p) 50000000 n d /\ r = s32 (hz_at board_vars n / d) /\
    glb s' = set_dev (set_peri board_vars 22 (chosen p n d x)) 31 (with_rate cdev (hz_at board_vars n / d)) /\
    (forall b, true = true -> reg (plain := fun _ => true) (dev s') b =
       if b =? con_gen (base p) 0 then put_rate n d (reg (plain := fun _ => true) board b)
       else reg (plain := fun _ => true) board b)).
Proof.
  eexists (clock_spec board_vars 31), (nth 22 clk_periphs0 zero_peri). split; [by vm_compute|].
  apply (clk_set_rate_nearest (plain := fun _ => true) 31 22 (clock_spec board_vars 31)
    (nth 22 clk_periphs0 zero_peri) 50000000 on_board).
  - exact board_plls.
  - by vm_compute.
  - by vm_compute.
  - by vm_compute.
  - by vm_compute.
  - lia.
  - exists 0. split; [lia|]. split; by vm_compute.
  - reflexivity.
Defined.

(** What it is on this board: PLL 1, the last of the two that fit, over 16. *)
Example uart_clock :
  match clk_set_rate 31 50000000 on_board with
  | Ok r s _ => (r, div_src_0 <$> clk_periphs (glb s) !! 22%nat, div_val_0 <$> clk_periphs (glb s) !! 22%nat)
  | Stop _ _ _ => (0, None, None)
  end = (50000000, Some 1, Some 16).
Proof. by vm_compute. Qed.

(** Serial port 0 with a source and a divider. *)
Definition uart_set : clk_dev_peri := chosen (nth 22 clk_periphs0 zero_peri) 0 16 0.

Lemma clk_disable_enable_witness :
  settled uart_set /\
  let s := St board (set_peri board_vars 22 uart_set) in
  let reg := reg (plain := fun _ => true) in
  let src R := bits_get 3 2 (R (con_gen (base uart_set) 0)) in
  let div R := bits_get 8 5 (R (con_gen (base uart_set) 0)) + 1 in
  let on R := bits_get 1 2 (R (con_enb (base uart_set))) in
  returns (clk_enable 31) s (fun r s1 _ => r = 0 /\
    src (reg (dev s1)) = div_src_0 uart_set /\ div (reg (dev s1)) = div_val_0 uart_set /\
    on (reg (dev s1)) = 1 /\
    returns (clk_disable 31) s1 (fun _ s2 _ =>
      src (reg (dev s2)) = 7 /\ on (reg (dev s2)) = 0 /\
      returns (clk_enable 31) s2 (fun r s3 _ => r = 0 /\ glb s3 = glb s1 /\
        forall b, true = true -> reg (dev s3) b = reg (dev s1) b))).
Proof.
  assert (Hs : settled uart_set) by (unfold settled; repeat split; by vm_compute).
  split; [exact Hs|].
  apply (clk_disable_enable (plain := fun _ => true) uart_set Hs eq_refl eq_refl 31 22
    (clock_spec board_vars 31) (St board (set_peri board_vars 22 uart_set))); by vm_compute.
Defined.

(** Enabling a clock whose rate was never set: its divider is still 0, so minus
    one is shifted over the register; all the bits above the divider field are
    set. *)
Theorem clk_enable_unset :
  match clk_enable 31 on_board with
  | Ok r s _ => r = 0 /\ reg (plain := fun _ => true) (dev s) (con_gen 0xC00A9000 0) = 0xFFFFFFE0
  | Stop _ _ _ => False
  end.
Proof. vm_compute. split; reflexivity. Qed.

(** A divider field at its maximum, 63, stands for 64; masked to six bits it is
    0, and the rate of the bus clock is a division by zero. *)
Theorem div_field_max :
  match BUS_BCLK_RATE (St (Ram (<[clkpwr "dvoreg" 1 := Z.shiftl 63 3]> board_regs) (fun _ => 0)) vars0) with
  | Ok _ _ _ => False
  | Stop w _ _ => w = Undef
  end.
Proof. by vm_compute. Qed.
