(* ===== verification/NxTimeBase.v ===== *)
(** The time base of the boot loader: the system timer (NxTimer) on top of the
    clock tree (NxClock).  The clock tree is an instance of the interface the
    timer asks for, and starting both gives the timer the rate that the
    registers of the clock controller say. *)

From S2P Require Import Prelude Machine UStr NxClock NxTimer.

(** The clock tree after [clk_init] is what the timer needs. *)
#[global] Instance clock_tree {D} `{Machine D} : ClkTree D clk_vars.
Proof.
  refine {|
    NxTimer.clk_get := NxClock.clk_get;
    NxTimer.clk_get_rate := NxClock.clk_get_rate;
    tree_ok g := booted g /\ is_u32 (core_hz g bus_pclk);
    tree_rate g := core_hz g bus_pclk |}.
  - intros s [Hb _]. erewrite bind_quiet.
    2: { apply (clk_get_of 7). rewrite booted_find by done. by vm_compute. }
    assert (Hd : st_clk_devs (glb s) !! Z.to_nat 7 = Some (clock_spec (glb s) 7)).
    { destruct Hb as [_ ->]. by rewrite list_lookup_fmap, lookup_seqZ_lt. }
    change (if 7 <? CLK_DEVS_NUM then 7 else 7) with 7.
    unfold NxClock.clk_get_rate, dev_at, bind, gget, need. by rewrite Hd.
  - intros c [_ Hu]. unfold is_u32, is_u64 in *. lia.
Defined.

Section Start.
Context {D : Type} `{Storage D plain}.

#[local] Abbreviation T := PHY_BASEADDR_TIMER.
#[local] Abbreviation timer_regs := [REG_TCFG0; REG_TCFG1; REG_TCON; REG_TCNTB0; REG_TCMPB0; REG_CSTAT].

(** The registers after the timer has been programmed, from registers [R]. *)
Definition timer_programmed (rate mux : Z) (R : Z -> Z) : Z -> Z :=
  set REG_TCON (bits_put 4 0 (R (T + REG_TCON)) 9)
    (set REG_TCNTB0 0xFFFFFFFF (set REG_TCMPB0 0xFFFFFFFF
      (set REG_TCFG0 (bits_put 8 0 (R (T + REG_TCFG0)) (scl_of rate mux - 1))
        (set REG_TCFG1 (bits_put 4 0 (R (T + REG_TCFG1)) mux)
          (set REG_CSTAT (bits_put 5 5 (bits_put 1 0 (R (T + REG_CSTAT)) 0) 1) R))))).

Lemma timer_programmed_agree rate mux R R' :
  (forall o, o ∈ timer_regs -> plain (T + o) = true) ->
  (forall b, plain b = true -> R b = R' b) ->
  forall b, plain b = true -> timer_programmed rate mux R b = timer_programmed rate mux R' b.
Proof.
  intros Hpl HR b Hb. unfold timer_programmed, set.
  rewrite !(HR (T + _)) by (apply Hpl; set_solver). by rewrite HR.
Qed.

(** C29: starting the clock tree and then the timer, on a board whose peripheral
    bus clock [rate] is between 16 MHz and 4 GHz by its clock controller
    registers: both return; the timer's input is the one nearest to a megahertz,
    its registers are programmed for that rate and no other register is
    touched; the time stamp starts at zero. *)
Theorem timebase_starts (s : st D (timer_vars * clk_vars)) :
  let R := reg (dev s) in
  let rate := hz_spec R bus_pclk in
  clkpwr_plain (plain := plain) -> (forall o, o ∈ timer_regs -> plain (T + o) = true) ->
  (forall d v d', hw_rd (T + REG_TCNT0) d = (v, d') -> forall b, plain b = true -> reg d' b = reg d b) ->
  rates_good R -> clk_periphs (glb s).2 = clk_periphs0 ->
  timerinit (glb s).1 = 0 -> TIMER_FREQ (glb s).1 = 1000000 ->
  16000000 <= rate < 257 * 16000000 ->
  returns (in_tree clk_init ;;; timer_init) s (fun r s' _ => r = 0 /\ exists mux,
    best_of rate [0; 1; 2; 3; 4] (tick_of rate mux) mux (scl_of rate mux) /\
    TIMER_FREQ (glb s').1 = tick_of rate mux /\ timerinit (glb s').1 = 1 /\
    timestamp (glb s').1 = 0 /\ booted (glb s').2 /\
    forall b, plain b = true -> reg (dev s') b = timer_programmed rate mux R b).
Proof.
  intros R rate Hclk Htim Hcnt Hgood Hper Hi Hf Hr. apply returns_bind.
  pose proof (clk_init_boots Hclk R (St (dev s) (glb s).2) Hgood (fun _ _ => eq_refl) Hper) as Hinit.
  unfold returns at 1, in_tree. unfold returns in Hinit.
  destruct (clk_init (St (dev s) (glb s).2)) as [[] s1 t1|]; [|done].
  destruct Hinit as (Hb & Hhz & H1).
  assert (Hrate : core_hz (glb s1) bus_pclk = rate) by (apply Hhz; by exists 7).
  set (s2 := St (dev s1) ((glb s).1, glb s1)).
  assert (Hok : tree_ok (glb s2).2) by (split; [done|]; cbn; rewrite Hrate; unfold is_u32; lia).
  eapply returns_weaken;
    [apply (timer_init_starts Htim Hcnt s2 Hok); [done|done|]|]; cbn [glb snd s2 tree_rate clock_tree] in *.
  { cbn. by rewrite Hrate. }
  cbn. rewrite Hrate. intros r s3 t3 (-> & mux & Hbest & P1 & P2 & P3 & _ & P5 & P6).
  split; [done|]. exists mux. split; [done|]. split; [done|]. split; [done|]. split; [done|].
  split; [by rewrite P5|]. intros b Hb'. rewrite P6 by done.
  exact (timer_programmed_agree rate mux (reg (dev s1)) R Htim H1 b Hb').
Qed.
End Start.

(** The board of NxClock with the running counter of NxTimer: 200 MHz. *)
Definition cold : st tickram (timer_vars * clk_vars) :=
  St (TickRam board_regs 7) (NxTimer.vars0, NxClock.vars0).

Lemma clkpwr_not_count n i : 0 <= i < 16 -> n ∈ ["pllsetreg"%string; "pllsetreg_sscg"%string; "dvoreg"%string] ->
  not_count (clkpwr n i) = true.
Proof.
  intros Hi Hn. unfold not_count, clkpwr.
  destruct (Z.eqb_spec (PHY_BASEADDR_CLKPWR + offsetof nx_clkpwr_registerset n + 4 * i)
    (PHY_BASEADDR_TIMER + REG_TCNT0)) as [He|]; [exfalso|done].
  change PHY_BASEADDR_CLKPWR with 0xC0010000 in He. change (PHY_BASEADDR_TIMER + REG_TCNT0) with 0xC0017014 in He.
  repeat (apply elem_of_cons in Hn as [->|Hn]; [clear -He Hi; vm_compute offsetof in He; lia|]).
  by apply not_elem_of_nil in Hn.
Qed.

Lemma timebase_starts_witness :
  let rate := hz_spec (reg (plain := not_count) (dev cold)) bus_pclk in
  rate = 200000000 /\
  returns (in_tree clk_init ;;; timer_init) cold (fun r s' _ => r = 0 /\ exists mux,
    best_of rate [0; 1; 2; 3; 4] (tick_of rate mux) mux (scl_of rate mux) /\
    TIMER_FREQ (glb s').1 = tick_of rate mux /\ timerinit (glb s').1 = 1 /\
    timestamp (glb s').1 = 0 /\ booted (glb s').2 /\
    forall b, not_count b = true -> reg (plain := not_count) (dev s') b =
      timer_programmed rate mux (reg (plain := not_count) (dev cold)) b).
Proof.
  split; [by vm_compute|].
  assert (Hgood : rates_good (reg (plain := not_count) (dev cold))) by exact board_good.
  refine (timebase_starts (plain := not_count) cold _ _ _ Hgood _ _ _ _).
  - split; intros n Hn; [split|]; apply clkpwr_not_count; [lia|set_solver|lia|set_solver|lia|set_solver].
  - intros o Ho. unfold not_count. repeat (apply elem_of_cons in Ho as [->|Ho]; [reflexivity|]).
    by apply not_elem_of_nil in Ho.
  - intros d v d' Hrd b _. cbn in Hrd. injection Hrd as <- <-. reflexivity.
  - reflexivity.
  - reflexivity.
  - reflexivity.
  - split; vm_compute; [discriminate|reflexivity].
Defined.
