(* ===== verification/Lmb.v ===== *)
(** Logical memory blocks (src/U-Boot/lib/lmb.c, include/lmb.h).

    The tables of memory and of reserved regions that U-Boot keeps while it boots
    an image, as the code has them: a count and an array of nine entries, of which
    the entries past the count keep what they had.  An access outside the array is
    [None].  The addresses of a table are the union of its regions; the theorems
    relate every operation to that union, and show what the allocator finds. *)

From S2P Require Import Prelude.

(** ** Data *)

Definition MAX_LMB_REGIONS : Z := 8.

Definition LMB_ALLOC_ANYWHERE : Z := 0.

Record lmb_property := mkProp { pbase : Z; psize : Z }.

Record lmb_region := mkRegion { cnt : Z; size : Z; region : list lmb_property }.

Record lmb := mkLmb { memory : lmb_region; reserved : lmb_region }.

#[global] Instance lmb_property_eq_dec : EqDecision lmb_property.
Proof. solve_decision. Defined.

(** The entry [rgn->region[i]], read and written. *)
Definition reg (rgn : lmb_region) (i : Z) : option lmb_property :=
  if i <? 0 then None else region rgn !! Z.to_nat i.

Definition set_reg (rgn : lmb_region) (i : Z) (p : lmb_property) : option lmb_region :=
  if (i <? 0) || (Z.of_nat (length (region rgn)) <=? i) then None
  else Some (mkRegion (cnt rgn) (size rgn) (<[Z.to_nat i := p]> (region rgn))).

Definition set_cnt (rgn : lmb_region) (n : Z) : lmb_region := mkRegion n (size rgn) (region rgn).

(** ** Ranges *)

Definition lmb_addrs_overlap (base1 size1 base2 size2 : Z) : bool :=
  (base1 <? u64 (base2 + size2)) && (base2 <? u64 (base1 + size1)).

Definition lmb_addrs_adjacent (base1 size1 base2 size2 : Z) : Z :=
  if base2 =? u64 (base1 + size1) then 1
  else if base1 =? u64 (base2 + size2) then -1
  else 0.

Definition lmb_regions_adjacent (rgn : lmb_region) (r1 r2 : Z) : option Z :=
  p1 ← reg rgn r1; p2 ← reg rgn r2;
  Some (lmb_addrs_adjacent (pbase p1) (psize p1) (pbase p2) (psize p2)).

(** ** Removing and joining entries *)

(** The loop that moves the entries after [i] down by one. *)
Fixpoint remove_loop (fuel : nat) (i : Z) (rgn : lmb_region) : option lmb_region :=
  match fuel with
  | O => None
  | S fuel =>
      if i <? u64 (cnt rgn - 1) then
        p ← reg rgn (i + 1); rgn ← set_reg rgn i p; remove_loop fuel (i + 1) rgn
      else Some rgn
  end.

(** Every round but the last reads an entry of the array, so the fuel is enough. *)
Definition lmb_remove_region (rgn : lmb_region) (r : Z) : option lmb_region :=
  rgn ← remove_loop (S (length (region rgn))) r rgn;
  Some (set_cnt rgn (u64 (cnt rgn - 1))).

Definition lmb_coalesce_regions (rgn : lmb_region) (r1 r2 : Z) : option lmb_region :=
  p1 ← reg rgn r1; p2 ← reg rgn r2;
  rgn ← set_reg rgn r1 (mkProp (pbase p1) (u64 (psize p1 + psize p2)));
  lmb_remove_region rgn r2.

(** ** Initialisation *)

(** The first entry is a region of no bytes; the rest keeps what it had. *)
Definition empty_region (rgn : lmb_region) : option lmb_region :=
  rgn ← set_reg rgn 0 (mkProp 0 0); Some (mkRegion 1 0 (region rgn)).

Definition lmb_init (l : lmb) : option lmb :=
  m ← empty_region (memory l); r ← empty_region (reserved l); Some (mkLmb m r).

(** ** Adding a region *)

(** What the first loop ends with: the region is there already, or it was joined
    to entry [i], or no entry touches it. *)
Inductive scan :=
  | Present
  | Joined (rgn : lmb_region) (i : Z)
  | Apart (i : Z).

Fixpoint coalesce_loop (fuel : nat) (i : Z) (rgn : lmb_region) (base size : Z) : option scan :=
  match fuel with
  | O => None
  | S fuel =>
      if i <? cnt rgn then
        p ← reg rgn i;
        if (pbase p =? base) && (psize p =? size) then Some Present
        else
          let adjacent := lmb_addrs_adjacent base size (pbase p) (psize p) in
          if 0 <? adjacent then
            rgn ← set_reg rgn i (mkProp (u64 (pbase p - size)) (u64 (psize p + size))); Some (Joined rgn i)
          else if adjacent <? 0 then
            rgn ← set_reg rgn i (mkProp (pbase p) (u64 (psize p + size))); Some (Joined rgn i)
          else coalesce_loop fuel (i + 1) rgn base size
      else Some (Apart i)
  end.

(** The loop that shifts the entries above [base] up, from entry [n - 1] down. *)
Fixpoint insert_loop (n : nat) (rgn : lmb_region) (base size : Z) : option lmb_region :=
  match n with
  | O => Some rgn
  | S i =>
      p ← reg rgn (Z.of_nat i);
      if base <? pbase p then
        rgn ← set_reg rgn (Z.of_nat i + 1) p; insert_loop i rgn base size
      else set_reg rgn (Z.of_nat i + 1) (mkProp base size)
  end.

(** An entry that was joined to may now touch the next one. *)
Definition join_next (rgn : lmb_region) (i coalesced : Z) : option (lmb_region * Z) :=
  if i <? u64 (cnt rgn - 1) then
    a ← lmb_regions_adjacent rgn i (i + 1);
    if a =? 0 then Some (rgn, coalesced)
    else rgn ← lmb_coalesce_regions rgn i (i + 1); Some (rgn, coalesced + 1)
  else Some (rgn, coalesced).

(** The entry goes to its place in the sorted table. *)
Definition insert_region (rgn : lmb_region) (base size : Z) : option (lmb_region * Z) :=
  rgn ← insert_loop (Z.to_nat (s64 (cnt rgn - 1) + 1)) rgn base size;
  first ← reg rgn 0;
  rgn ← (if base <? pbase first then set_reg rgn 0 (mkProp base size) else Some rgn);
  Some (set_cnt rgn (u64 (cnt rgn + 1)), 0).

Definition lmb_add_region (rgn : lmb_region) (base size : Z) : option (lmb_region * Z) :=
  first ← reg rgn 0;
  if (cnt rgn =? 1) && (psize first =? 0) then
    rgn ← set_reg rgn 0 (mkProp base size); Some (rgn, 0)
  else
    s ← coalesce_loop (S (length (region rgn))) 0 rgn base size;
    match s with
    | Present => Some (rgn, 0)
    | Joined rgn i => join_next rgn i 1
    | Apart i =>
        '(rgn, coalesced) ← join_next rgn i 0;
        if negb (coalesced =? 0) then Some (rgn, coalesced)
        else if MAX_LMB_REGIONS <=? cnt rgn then Some (rgn, -1)
        else insert_region rgn base size
    end.

Definition lmb_add (l : lmb) (base size : Z) : option (lmb * Z) :=
  '(m, ret) ← lmb_add_region (memory l) base size; Some (mkLmb m (reserved l), ret).

Definition lmb_reserve (l : lmb) (base size : Z) : option (lmb * Z) :=
  '(r, ret) ← lmb_add_region (reserved l) base size; Some (mkLmb (memory l) r, ret).

(** ** Freeing *)

(** The first entry that holds the range, with its begin and end. *)
Fixpoint find_loop (fuel : nat) (i : Z) (rgn : lmb_region) (base end' : Z) : option (option (Z * Z * Z)) :=
  match fuel with
  | O => None
  | S fuel =>
      if i <? cnt rgn then
        p ← reg rgn i;
        let rgnbegin := pbase p in
        let rgnend := u64 (rgnbegin + psize p) in
        if (rgnbegin <=? base) && (end' <=? rgnend) then Some (Some (i, rgnbegin, rgnend))
        else find_loop fuel (i + 1) rgn base end'
      else Some None
  end.

Definition free_region (rgn : lmb_region) (base size : Z) : option (lmb_region * Z) :=
  let end' := u64 (base + size) in
  found ← find_loop (S (length (region rgn))) 0 rgn base end';
  match found with
  | None => Some (rgn, -1)
  | Some (i, rgnbegin, rgnend) =>
      if (rgnbegin =? base) && (rgnend =? end') then
        rgn ← lmb_remove_region rgn i; Some (rgn, 0)
      else
        p ← reg rgn i;
        if rgnbegin =? base then
          rgn ← set_reg rgn i (mkProp end' (u64 (psize p - size))); Some (rgn, 0)
        else if rgnend =? end' then
          rgn ← set_reg rgn i (mkProp (pbase p) (u64 (psize p - size))); Some (rgn, 0)
        else
          rgn ← set_reg rgn i (mkProp (pbase p) (u64 (base - pbase p)));
          lmb_add_region rgn end' (u64 (rgnend - end'))
  end.

Definition lmb_free (l : lmb) (base size : Z) : option (lmb * Z) :=
  '(r, ret) ← free_region (reserved l) base size; Some (mkLmb (memory l) r, ret).

(** ** Searching *)

Fixpoint overlaps_loop (fuel : nat) (i : Z) (rgn : lmb_region) (base size : Z) : option Z :=
  match fuel with
  | O => None
  | S fuel =>
      if i <? cnt rgn then
        p ← reg rgn i;
        if lmb_addrs_overlap base size (pbase p) (psize p) then Some i
        else overlaps_loop fuel (i + 1) rgn base size
      else Some (-1)
  end.

Definition lmb_overlaps_region (rgn : lmb_region) (base size : Z) : option Z :=
  overlaps_loop (S (length (region rgn))) 0 rgn base size.

Fixpoint reserved_loop (fuel : nat) (i : Z) (rgn : lmb_region) (addr : Z) : option Z :=
  match fuel with
  | O => None
  | S fuel =>
      if i <? cnt rgn then
        p ← reg rgn i;
        let upper := u64 (pbase p + psize p - 1) in
        if (pbase p <=? addr) && (addr <=? upper) then Some 1
        else reserved_loop fuel (i + 1) rgn addr
      else Some 0
  end.

Definition lmb_is_reserved (l : lmb) (addr : Z) : option Z :=
  reserved_loop (S (length (region (reserved l)))) 0 (reserved l) addr.

(** ** Allocating *)

(** [~x] on 64 bits. *)
Definition not64 (x : Z) : Z := u64 (Z.lnot x).

Definition lmb_align_down (addr size : Z) : Z := Z.land addr (not64 (u64 (size - 1))).

Definition lmb_align_up (addr size : Z) : Z := Z.land (u64 (addr + u64 (size - 1))) (not64 (u64 (size - 1))).

(** What the search in one region of memory ends with. *)
Inductive tried :=
  | Taken (l : lmb) (base : Z)
  | NoRoom.

(** The loop down from [base] in one region: each round passes a reserved region
    for good. *)
Fixpoint alloc_loop (fuel : nat) (l : lmb) (lmbbase base size align : Z) : option tried :=
  match fuel with
  | O => None
  | S fuel =>
      if negb (base =? 0) && (lmbbase <=? base) then
        j ← lmb_overlaps_region (reserved l) base size;
        if j <? 0 then
          '(r, ret) ← lmb_add_region (reserved l) base (lmb_align_up size align);
          Some (Taken (mkLmb (memory l) r) (if ret <? 0 then 0 else base))
        else
          res ← reg (reserved l) j;
          if pbase res <? size then Some NoRoom
          else alloc_loop fuel l lmbbase (lmb_align_down (u64 (pbase res - size)) align) size align
      else Some NoRoom
  end.

(** Where the search in a region starts, if it may. *)
Definition alloc_start (p : lmb_property) (size align max_addr : Z) : option Z :=
  if psize p <? size then None
  else if max_addr =? LMB_ALLOC_ANYWHERE then Some (lmb_align_down (u64 (u64 (pbase p + psize p) - size)) align)
  else if pbase p <? max_addr then
    let base := u64 (pbase p + psize p) in
    let base := if base <? pbase p then u64 (-1) else base in
    let base := Z.min base max_addr in
    Some (lmb_align_down (u64 (base - size)) align)
  else None.

(** The loop over the regions of memory, from entry [n - 1] down. *)
Fixpoint memory_loop (n : nat) (l : lmb) (size align max_addr : Z) : option (lmb * Z) :=
  match n with
  | O => Some (l, 0)
  | S i =>
      p ← reg (memory l) (Z.of_nat i);
      match alloc_start p size align max_addr with
      | None => memory_loop i l size align max_addr
      | Some base =>
          t ← alloc_loop (S (S (length (region (reserved l))))) l (pbase p) base size align;
          match t with
          | Taken l base => Some (l, base)
          | NoRoom => memory_loop i l size align max_addr
          end
      end
  end.

Definition __lmb_alloc_base (l : lmb) (size align max_addr : Z) : option (lmb * Z) :=
  memory_loop (Z.to_nat (s64 (cnt (memory l) - 1) + 1)) l size align max_addr.

(** The message for a failure leaves no trace. *)
Definition lmb_alloc_base (l : lmb) (size align max_addr : Z) : option (lmb * Z) :=
  __lmb_alloc_base l size align max_addr.

Definition lmb_alloc (l : lmb) (size align : Z) : option (lmb * Z) :=
  lmb_alloc_base l size align LMB_ALLOC_ANYWHERE.

(** ** The addresses of a table *)

(** Where a region ends. *)
Definition pend (p : lmb_property) : Z := pbase p + psize p.

(** The addresses of a list of regions. *)
Definition covers (l : list lmb_property) (a : Z) : Prop := Exists (fun p => pbase p <= a < pend p) l.

(** [q] starts after [p], with a gap between. *)
Definition before (p q : lmb_property) : Prop := pend p < pbase q.

(** No address is in both. *)
Definition disjoint (p q : lmb_property) : Prop := pend p <= pbase q \/ pend q <= pbase p.

Definition sound (p : lmb_property) : Prop := 0 <= pbase p /\ 0 < psize p /\ pend p < 2 ^ 64.

(** The lists of regions the tables hold: sound, in order, and no two touch. *)
Fixpoint tidy (l : list lmb_property) : Prop :=
  match l with
  | [] => True
  | p :: l => sound p /\ Forall (before p) l /\ tidy l
  end.

(** The lists with regions in the order of their bases, which may overlap. *)
Fixpoint orderly (l : list lmb_property) : Prop :=
  match l with
  | [] => True
  | p :: l => sound p /\ Forall (fun q => pbase p <= pbase q) l /\ orderly l
  end.

(** [rgn] holds the entries [l]. *)
Definition holds (rgn : lmb_region) (l : list lmb_property) : Prop :=
  cnt rgn = Z.of_nat (length l) /\ exists junk, region rgn = l ++ junk /\ length (l ++ junk) = 9%nat.

(** The entries of a table's array that are in use: a region of no bytes at zero if
    there is none. *)
Definition entries (l : list lmb_property) : list lmb_property :=
  match l with [] => [mkProp 0 0] | _ => l end.

(** The table stands for the list of regions [l], or at least keeps it. *)
Definition stands (rgn : lmb_region) (l : list lmb_property) : Prop :=
  tidy l /\ (length l <= 8)%nat /\ holds rgn (entries l).

Definition keeps (rgn : lmb_region) (l : list lmb_property) : Prop :=
  orderly l /\ (length l <= 8)%nat /\ holds rgn (entries l).

Lemma covers_app l1 l2 a : covers (l1 ++ l2) a <-> covers l1 a \/ covers l2 a.
Proof. apply Exists_app. Qed.

Lemma covers_cons p l a : covers (p :: l) a <-> pbase p <= a < pend p \/ covers l a.
Proof. apply Exists_cons. Qed.

Lemma covers_nil a : covers [] a <-> False.
Proof. apply Exists_nil. Qed.

Lemma tidy_app l1 l2 :
  tidy (l1 ++ l2) <-> tidy l1 /\ tidy l2 /\ Forall (fun p => Forall (before p) l2) l1.
Proof.
  induction l1 as [|p l1 IH]; cbn [app tidy].
  - split; [intros H; split_and!; [done..|constructor]|intros (_ & H & _); done].
  - rewrite IH, Forall_app, Forall_cons. tauto.
Qed.

Lemma tidy_cons p l : tidy (p :: l) <-> sound p /\ Forall (before p) l /\ tidy l.
Proof. done. Qed.

(** The shape the proofs about an entry work with. *)
Lemma tidy_mid l1 p l2 :
  tidy (l1 ++ p :: l2) <->
    tidy (l1 ++ l2) /\ sound p /\ Forall (fun q => before q p) l1 /\ Forall (before p) l2.
Proof.
  rewrite !tidy_app, tidy_cons. setoid_rewrite Forall_cons. rewrite Forall_and. tauto.
Qed.

Lemma tidy_sound l : tidy l -> Forall sound l.
Proof. induction l; [by constructor|]. cbn [tidy]. intros (? & _ & ?). constructor; auto. Qed.

Lemma orderly_app l1 l2 :
  orderly (l1 ++ l2) <->
    orderly l1 /\ orderly l2 /\ Forall (fun p => Forall (fun q => pbase p <= pbase q) l2) l1.
Proof.
  induction l1 as [|p l1 IH]; cbn [app orderly].
  - split; [intros H; split_and!; [done..|constructor]|intros (_ & H & _); done].
  - rewrite IH, Forall_app, Forall_cons. tauto.
Qed.

Lemma orderly_mid l1 p l2 :
  orderly (l1 ++ p :: l2) <->
    orderly (l1 ++ l2) /\ sound p /\ Forall (fun q => pbase q <= pbase p) l1 /\ Forall (fun q => pbase p <= pbase q) l2.
Proof.
  rewrite !orderly_app. cbn [orderly]. setoid_rewrite Forall_cons. rewrite Forall_and. tauto.
Qed.

Lemma orderly_sound l : orderly l -> Forall sound l.
Proof. induction l; [by constructor|]. cbn [orderly]. intros (? & _ & ?). constructor; auto. Qed.

Lemma tidy_orderly l : tidy l -> orderly l.
Proof.
  induction l as [|p l IH]; [done|]. cbn [tidy orderly]. intros (Hs & Hb & Ht). split; [done|]. split; [|auto].
  eapply Forall_impl; [exact Hb|]. unfold before, sound, pend in *. intros q. lia.
Qed.

Lemma stands_keeps rgn l : stands rgn l -> keeps rgn l.
Proof. intros (Ht & H). split; [by apply tidy_orderly|done]. Qed.

(** Goals about the lengths of lists of entries. *)
Ltac count := repeat first [progress cbn [length] in *|rewrite length_app in *]; lia.

(** [each r] takes an arbitrary element [r] of a list, and what is known of all. *)
Ltac each r :=
  apply Forall_forall; let Hr := fresh in intros r Hr;
  repeat match goal with
  | H : Forall _ ?l, Hr : r ∈ ?l |- _ => apply (fun h => proj1 (Forall_forall _ _) h r Hr) in H; cbn beta in H
  end.

(** *** Entries of the array *)

Lemma reg_mid rgn l1 p l2 i :
  region rgn = l1 ++ p :: l2 -> i = Z.of_nat (length l1) -> reg rgn i = Some p.
Proof.
  intros Hr ->. unfold reg. destruct (Z.ltb_spec (Z.of_nat (length l1)) 0); [lia|].
  rewrite Nat2Z.id, Hr. by apply list_lookup_middle.
Qed.

Lemma insert_mid {A} (l1 l2 : list A) p q : <[length l1 := q]> (l1 ++ p :: l2) = l1 ++ q :: l2.
Proof. induction l1; simpl; [done|by f_equal]. Qed.

Lemma set_reg_mid rgn l1 p l2 i q :
  region rgn = l1 ++ p :: l2 -> i = Z.of_nat (length l1) ->
  set_reg rgn i q = Some (mkRegion (cnt rgn) (size rgn) (l1 ++ q :: l2)).
Proof.
  intros Hr ->. unfold set_reg. rewrite Hr, length_app. cbn [length].
  destruct (Z.ltb_spec (Z.of_nat (length l1)) 0); [lia|].
  destruct (Z.leb_spec (Z.of_nat (length l1 + S (length l2))) (Z.of_nat (length l1))); [lia|].
  cbn [orb]. by rewrite Nat2Z.id, insert_mid.
Qed.

(** [at_entry E] rewrites an access to the entry that the equation [E] for the
    array shows. *)
Ltac at_entry E :=
  lazymatch type of E with region ?r = ?l1 ++ _ =>
    match goal with
    | |- context [reg r ?i] => rewrite (reg_mid r l1 _ _ i E) by count
    | |- context [set_reg r ?i ?q] => rewrite (set_reg_mid r l1 _ _ i q E) by count
    end
  end; cbn [mbind option_bind].

Lemma remove_loop_ok l2 : forall fuel rgn l1 p junk,
  region rgn = l1 ++ p :: l2 ++ junk -> cnt rgn = Z.of_nat (length l1 + S (length l2)) -> cnt rgn < 2 ^ 64 ->
  (length l2 < fuel)%nat ->
  exists rgn', remove_loop fuel (Z.of_nat (length l1)) rgn = Some rgn' /\ cnt rgn' = cnt rgn /\
    exists q, region rgn' = l1 ++ l2 ++ q :: junk.
Proof.
  induction l2 as [|p' l2 IH]; intros fuel rgn l1 p junk Hr Hc Hb Hf;
    (destruct fuel as [|fuel]; [simpl in Hf; lia|]); cbn [remove_loop length] in *;
    rewrite (u64_small (cnt rgn - 1)) by (unfold is_u64; lia).
  - destruct (Z.ltb_spec (Z.of_nat (length l1)) (cnt rgn - 1)); [lia|]. eauto 10.
  - destruct (Z.ltb_spec (Z.of_nat (length l1)) (cnt rgn - 1)); [|lia].
    assert (Hr' : region rgn = (l1 ++ [p]) ++ p' :: l2 ++ junk) by (rewrite Hr, <- app_assoc; done).
    at_entry Hr'. at_entry Hr.
    destruct (IH fuel (mkRegion (cnt rgn) (size rgn) (l1 ++ p' :: (p' :: l2) ++ junk)) (l1 ++ [p']) p' junk)
      as (rgn' & Hrun & Hc' & q & Hq); cbn [region cnt] in *; try count.
    { by rewrite <- app_assoc. }
    replace (Z.of_nat (length l1) + 1) with (Z.of_nat (length (l1 ++ [p']))) by count.
    exists rgn'. split; [done|]. split; [done|]. exists q. rewrite Hq, <- app_assoc. done.
Qed.

Lemma remove_ok rgn l1 p l2 :
  holds rgn (l1 ++ p :: l2) ->
  exists rgn', lmb_remove_region rgn (Z.of_nat (length l1)) = Some rgn' /\ holds rgn' (l1 ++ l2).
Proof.
  intros (Hc & junk & Hr & Hl). rewrite <- app_assoc in Hr. cbn [app] in Hr.
  rewrite length_app in Hc. cbn [length] in Hc. rewrite <- app_assoc in Hl. lens.
  destruct (remove_loop_ok l2 (S (length (region rgn))) rgn l1 p junk) as (rgn' & Hrun & Hc' & q & Hq);
    [done|lia|lia|rewrite Hr; count|].
  unfold lmb_remove_region. rewrite Hrun. cbn [mbind option_bind]. eexists. split; [done|].
  unfold holds, set_cnt. cbn [cnt region]. rewrite u64_small by (unfold is_u64; lia).
  split; [count|]. exists (q :: junk). rewrite Hq, app_assoc. split; [done|]. count.
Qed.

(** *** Adding *)

(** The entry [p] is not the region, and does not touch it. *)
Definition untouched (base size : Z) (p : lmb_property) : Prop :=
  p <> mkProp base size /\ pbase p <> base + size /\ base <> pend p.

Section Adding.
Context (base size : Z).
Hypothesis Hnew : sound (mkProp base size).

Lemma adjacent_ok p : sound p ->
  lmb_addrs_adjacent base size (pbase p) (psize p) =
    if pbase p =? base + size then 1 else if base =? pend p then -1 else 0.
Proof.
  intros Hp. unfold sound, pend in *. cbn [pbase psize] in *. unfold lmb_addrs_adjacent.
  by rewrite !u64_small by (unfold is_u64; lia).
Qed.

Lemma coalesce_ok l2 : forall fuel rgn l1,
  holds rgn (l1 ++ l2) -> Forall sound l2 -> (length l2 < fuel)%nat ->
  let res := coalesce_loop fuel (Z.of_nat (length l1)) rgn base size in
  (Forall (untouched base size) l2 /\ res = Some (Apart (Z.of_nat (length (l1 ++ l2))))) \/
  exists m p n, l2 = m ++ p :: n /\ Forall (untouched base size) m /\
    ((p = mkProp base size /\ res = Some Present) \/
     (pbase p = base + size /\ exists rgn', res = Some (Joined rgn' (Z.of_nat (length (l1 ++ m)))) /\
        holds rgn' (l1 ++ m ++ mkProp base (psize p + size) :: n)) \/
     (base = pend p /\ exists rgn', res = Some (Joined rgn' (Z.of_nat (length (l1 ++ m)))) /\
        holds rgn' (l1 ++ m ++ mkProp (pbase p) (psize p + size) :: n))).
Proof.
  induction l2 as [|p l2 IH]; intros fuel rgn l1 (Hc & junk & Hr & Hl) Hs Hf res; subst res;
    (destruct fuel as [|fuel]; [simpl in Hf; lia|]); cbn [coalesce_loop].
  - left. split; [constructor|]. rewrite app_nil_r in *.
    destruct (Z.ltb_spec (Z.of_nat (length l1)) (cnt rgn)); [lia|]. done.
  - apply Forall_cons in Hs as [Hp Hs].
    destruct (Z.ltb_spec (Z.of_nat (length l1)) (cnt rgn)); [|count].
    rewrite <- app_assoc in Hr. cbn [app] in Hr. at_entry Hr. rewrite adjacent_ok by done.
    assert (Hdec : (pbase p =? base) && (psize p =? size) = bool_decide (p = mkProp base size)).
    { apply eq_bool_prop_intro. rewrite bool_decide_spec, andb_True. destruct p as [b s']. cbn [pbase psize].
      split; [intros [Hb Hz]; apply Is_true_true, Z.eqb_eq in Hb, Hz; by subst|].
      intros [= -> ->]. by rewrite !Z.eqb_refl. }
    rewrite Hdec. case_bool_decide as Hpres.
    { right. exists [], p, l2. split; [done|]. split; [constructor|]. by left. }
    unfold sound, pend in *. cbn [pbase psize] in *.
    assert (Hset : forall b q, region rgn = l1 ++ p :: l2 ++ junk -> b = q ->
      holds (mkRegion (cnt rgn) (Lmb.size rgn) (l1 ++ q :: l2 ++ junk)) (l1 ++ [] ++ b :: l2)).
    { intros b q _ ->. split; [cbn [cnt app]; rewrite Hc; count|]. exists junk. cbn [region app]. rewrite <- app_assoc.
      split; [done|]. clear - Hl. count. }
    destruct (Z.eqb_spec (pbase p) (base + size)) as [Hfront|Hfront]; [|destruct (Z.eqb_spec base (pbase p + psize p)) as [Hback|Hback]].
    + change (0 <? 1) with true. cbv iota. at_entry Hr. right. exists [], p, l2. split; [done|]. split; [constructor|].
      right. left. split; [done|]. rewrite app_nil_r. eexists. split; [done|]. apply Hset; [done|].
      rewrite !u64_small by (unfold is_u64; lia). f_equal; lia.
    + change (0 <? -1) with false. change (-1 <? 0) with true. cbv iota. at_entry Hr. right. exists [], p, l2.
      split; [done|]. split; [constructor|]. right. right. split; [done|]. rewrite app_nil_r. eexists. split; [done|].
      apply Hset; [done|]. by rewrite u64_small by (unfold is_u64; lia).
    + change (0 <? 0) with false. cbv iota.
      assert (Hun : untouched base size p) by done.
      replace (Z.of_nat (length l1) + 1) with (Z.of_nat (length (l1 ++ [p]))) by count.
      replace (l1 ++ p :: l2) with ((l1 ++ [p]) ++ l2) in * by (by rewrite <- app_assoc).
      destruct (IH fuel rgn (l1 ++ [p])) as [[Ha Hres]|(m & p' & n & -> & Hm & Hres)];
        [split; [done|]; exists junk; rewrite <- !app_assoc; cbn [app]; rewrite <- app_assoc in Hl; cbn [app] in *|done|simpl in Hf; lia|..].
      { split; [done|]. clear - Hl. count. }
      * left. split; [by constructor|done].
      * right. exists (p :: m), p', n. split; [done|]. split; [by constructor|].
        rewrite <- !app_assoc in Hres. cbn [app] in Hres.
        destruct Hres as [?|[[? (rgn' & ? & Hh)]|[? (rgn' & ? & Hh)]]];
          [by left|right; left; split; [done|]; by exists rgn'|right; right; split; [done|]; by exists rgn'].
Qed.

(** Joining with the next entry, if they touch. *)
Lemma join_next_ok rgn l1 q n c :
  holds rgn (l1 ++ q :: n) -> Forall sound (q :: n) ->
  match n with r :: _ => pbase q <= pbase r | [] => True end ->
  exists rgn' c', join_next rgn (Z.of_nat (length l1)) c = Some (rgn', c') /\
    ((rgn' = rgn /\ c' = c /\ match n with r :: _ => pend q <> pbase r | [] => True end) \/
     (c' = c + 1 /\ exists r n', n = r :: n' /\ pend q = pbase r /\
        holds rgn' (l1 ++ mkProp (pbase q) (psize q + psize r) :: n'))).
Proof.
  intros Hh Hs Hle. pose proof Hh as (Hc & junk & Hr & Hl). rewrite <- app_assoc in Hr. cbn [app] in Hr.
  unfold join_next. rewrite (u64_small (cnt rgn - 1)) by (unfold is_u64; count).
  destruct n as [|r n'].
  { destruct (Z.ltb_spec (Z.of_nat (length l1)) (cnt rgn - 1)); [count|]. eauto 10. }
  destruct (Z.ltb_spec (Z.of_nat (length l1)) (cnt rgn - 1)); [|count].
  apply Forall_cons in Hs as [Hq Hs]. apply Forall_cons in Hs as [Hsr _].
  assert (Hr' : region rgn = (l1 ++ [q]) ++ r :: n' ++ junk) by (by rewrite <- app_assoc).
  unfold lmb_regions_adjacent. at_entry Hr. at_entry Hr'.
  unfold sound, pend in *. cbn [pbase psize] in *. unfold lmb_addrs_adjacent.
  rewrite !u64_small by (unfold is_u64; lia).
  destruct (Z.eqb_spec (pbase r) (pbase q + psize q)) as [Ht|Ht].
  - change (1 =? 0) with false. cbv iota. unfold lmb_coalesce_regions. at_entry Hr. at_entry Hr'. at_entry Hr.
    rewrite u64_small by (unfold is_u64; lia).
    destruct (remove_ok (mkRegion (cnt rgn) (Lmb.size rgn) (l1 ++ mkProp (pbase q) (psize q + psize r) :: r :: n' ++ junk))
      (l1 ++ [mkProp (pbase q) (psize q + psize r)]) r n') as (rgn' & Hrun & Hh').
    { split; [cbn [cnt]; count|]. exists junk. cbn [region]. rewrite <- !app_assoc. cbn [app].
      split; [done|]. clear - Hl. count. }
    replace (Z.of_nat (length l1) + 1) with (Z.of_nat (length (l1 ++ [mkProp (pbase q) (psize q + psize r)]))) by count.
    cbn [app] in *. rewrite Hrun. cbn [mbind option_bind]. rewrite <- app_assoc in Hh'. exists rgn', (c + 1). split; [done|]. right.
    split; [done|]. exists r, n'. split; [done|]. split; [lia|done].
  - destruct (Z.eqb_spec (pbase q) (pbase r + psize r)); [lia|]. change (0 =? 0) with true. cbv iota.
    exists rgn, c. split; [done|]. left. split; [done|]. split; [done|]. lia.
Qed.

Lemma join_next_end rgn l c : holds rgn l -> (0 < length l)%nat ->
  join_next rgn (Z.of_nat (length l)) c = Some (rgn, c).
Proof.
  intros (Hc & junk & Hr & Hl) Hne. unfold join_next. rewrite u64_small by (unfold is_u64; count).
  destruct (Z.ltb_spec (Z.of_nat (length l)) (cnt rgn - 1)); [lia|done].
Qed.

(** The shift leaves the entries that start above [base] after the new one. *)
Lemma insert_loop_ok la : forall rgn x t,
  region rgn = la ++ x :: t -> orderly la ->
  exists l1 l3 rgn' y, la = l1 ++ l3 /\ insert_loop (length la) rgn base size = Some rgn' /\
    cnt rgn' = cnt rgn /\ region rgn' = l1 ++ y :: l3 ++ t /\
    Forall (fun p => pbase p <= base) l1 /\ Forall (fun p => base < pbase p) l3 /\
    (match l1 with [] => y = match la with p :: _ => p | [] => x end | _ => y = mkProp base size end).
Proof.
  induction la as [|p la IH] using rev_ind; intros rgn x t Hr Ht.
  { exists [], [], rgn, x. cbn. split_and!; try done; constructor. }
  assert (Hr1 : region rgn = la ++ p :: x :: t) by (rewrite Hr, <- app_assoc; done).
  replace (length (la ++ [p])) with (S (length la)) by count. cbn [insert_loop]. at_entry Hr1.
  replace (Z.of_nat (length la) + 1) with (Z.of_nat (length (la ++ [p]))) by count.
  apply orderly_app in Ht as (Hta & Htp & Hlt). destruct (Z.ltb_spec base (pbase p)) as [Hb|Hb].
  - at_entry Hr.
    destruct (IH (mkRegion (cnt rgn) (Lmb.size rgn) ((la ++ [p]) ++ p :: t)) p (p :: t))
      as (l1 & l3 & rgn' & y & -> & Hrun & Hc & Hr' & Hf1 & Hf3 & Hy); [by cbn [region]; rewrite <- app_assoc|done|].
    exists l1, (l3 ++ [p]), rgn', y. split; [by rewrite app_assoc|]. split; [exact Hrun|]. split; [done|].
    split; [by rewrite <- app_assoc|]. split; [done|]. split; [apply Forall_app; split; [done|by repeat constructor]|].
    destruct l1; [|done]. by destruct l3.
  - at_entry Hr. eexists (la ++ [p]), [], _, _. rewrite app_nil_r. split; [done|]. split; [done|]. split; [done|].
    split; [done|]. split; [|split; [constructor|by destruct la]].
    apply Forall_app. split; [|by repeat constructor].
    eapply Forall_impl; [exact Hlt|]. cbn beta. intros q [Hq _]%Forall_cons. lia.
Qed.

Lemma insert_ok rgn l : holds rgn l -> orderly l -> l <> [] -> (length l < 8)%nat ->
  exists l1 l2 rgn', l = l1 ++ l2 /\ insert_region rgn base size = Some (rgn', 0) /\
    holds rgn' (l1 ++ mkProp base size :: l2) /\
    Forall (fun p => pbase p <= base) l1 /\ Forall (fun p => base < pbase p) l2.
Proof.
  intros (Hc & junk & Hr & Hl) Ht Hne Hlt. destruct junk as [|x junk]; [count|].
  destruct (insert_loop_ok l rgn x junk Hr Ht) as (l1 & l2 & rgn' & y & -> & Hrun & Hc' & Hr' & Hf1 & Hf2 & Hy).
  exists l1, l2. unfold insert_region. rewrite s64_small by (unfold is_s64; lia).
  replace (Z.to_nat (cnt rgn - 1 + 1)) with (length (l1 ++ l2)) by lia. rewrite Hrun. cbn [mbind option_bind].
  assert (Hfin : forall r, cnt r = cnt rgn' -> region r = l1 ++ mkProp base size :: l2 ++ junk ->
    holds (set_cnt r (u64 (cnt r + 1))) (l1 ++ mkProp base size :: l2)).
  { intros r Hcr Hrr. unfold set_cnt. split; cbn [cnt region].
    - rewrite u64_small by (unfold is_u64; count). count.
    - exists junk. rewrite <- app_assoc. split; [done|]. clear - Hl. count. }
  destruct l1 as [|p l1].
  - cbn [app] in *. at_entry (Hr' : region rgn' = [] ++ y :: l2 ++ junk). destruct l2 as [|p l2]; [done|]. subst y.
    apply Forall_cons in Hf2 as Hp. destruct (Z.ltb_spec base (pbase p)); [|lia].
    at_entry (Hr' : region rgn' = [] ++ p :: (p :: l2) ++ junk). eexists. split; [done|]. split; [done|].
    split; [by apply Hfin|done].
  - subst y. at_entry (Hr' : region rgn' = [] ++ p :: l1 ++ mkProp base size :: l2 ++ junk).
    apply Forall_cons in Hf1 as Hp. destruct (Z.ltb_spec base (pbase p)); [lia|]. cbn [mbind option_bind].
    eexists. split; [done|]. split; [done|]. split; [by apply Hfin|done].
Qed.

(** The entries of a table that hold the region already, or have no address of it. *)
Definition fresh (l : list lmb_property) : Prop :=
  mkProp base size ∈ l \/ Forall (disjoint (mkProp base size)) l.

(** What a call that joins or inserts leaves behind. *)
Definition added (l : list lmb_property) (rgn' : lmb_region) : Prop :=
  exists l', stands rgn' l' /\ forall a, covers l' a <-> covers l a \/ base <= a < base + size.

Lemma stands_mid rgn l1 p l2 : holds rgn (l1 ++ p :: l2) -> tidy (l1 ++ p :: l2) ->
  (length (l1 ++ p :: l2) <= 8)%nat -> stands rgn (l1 ++ p :: l2).
Proof. intros. split_and!; [done..|]. by destruct l1. Qed.

(** Whichever way an entry touches the region, the region is new. *)
Lemma fresh_apart l1 p l2 : fresh (l1 ++ p :: l2) -> tidy (l1 ++ p :: l2) -> Forall (untouched base size) l1 ->
  pbase p = base + size \/ base = pend p -> Forall (disjoint (mkProp base size)) (l1 ++ p :: l2).
Proof.
  intros [Hin|]; [|done]. intros Ht Hun Hp. exfalso. apply tidy_mid in Ht as (_ & Hs & _ & Hl2).
  unfold sound, pend, before in *. cbn [pbase psize] in *.
  apply elem_of_app in Hin as [Hin|[<-|Hin]%elem_of_cons]; cbn [pbase psize] in *; [|lia|].
  - rewrite Forall_forall in Hun. by destruct (Hun _ Hin).
  - rewrite Forall_forall in Hl2. specialize (Hl2 _ Hin). cbn [pbase psize] in *. unfold pend in *. lia.
Qed.

Lemma joined_front rgn l1 p l2 :
  tidy (l1 ++ p :: l2) -> (length (l1 ++ p :: l2) <= 8)%nat -> Forall (untouched base size) l1 ->
  Forall (disjoint (mkProp base size)) (l1 ++ p :: l2) -> pbase p = base + size ->
  holds rgn (l1 ++ mkProp base (psize p + size) :: l2) ->
  exists rgn', join_next rgn (Z.of_nat (length l1)) 1 = Some (rgn', 1) /\ added (l1 ++ p :: l2) rgn'.
Proof.
  intros Ht Hlen Hun Hd Hp Hh. apply tidy_mid in Ht as (Ht & Hs & Hb1 & Hb2).
  apply Forall_app in Hd as [Hd1 Hd2]. pose proof (tidy_sound _ Ht) as [Hs1 Hs2]%Forall_app.
  set (q := mkProp base (psize p + size)) in *.
  assert (Hq : sound q) by (unfold sound, pend in *; cbn [pbase psize q] in *; lia).
  assert (Hqe : pend q = pend p) by (unfold pend; cbn [pbase psize q]; lia).
  destruct (join_next_ok rgn l1 q l2 1 Hh) as (rgn' & c' & Hrun & Hres); [by constructor|destruct l2; [done|]|].
  { apply Forall_cons in Hb2 as [Hb2 _]. unfold before, sound, pend in *. cbn [pbase psize q] in *. lia. }
  destruct Hres as [(-> & -> & _)|(_ & r & n' & -> & Hr & _)];
    [|apply Forall_cons in Hb2 as [Hb2 _]; unfold before in Hb2; lia].
  exists rgn. split; [done|]. exists (l1 ++ q :: l2). split.
  - apply stands_mid; [done| |rewrite length_app in *; cbn [length] in *; lia].
    apply tidy_mid. split_and!; [done|done| |].
    + each r. unfold untouched, disjoint, before, sound, pend in *; cbn [pbase psize q] in *. lia.
    + each r. unfold before in *. lia.
  - intros a. rewrite !covers_app, !covers_cons. unfold sound, pend in *. cbn [pbase psize q] in *. 
    assert (base <= a < base + (psize p + size) <-> pbase p <= a < pbase p + psize p \/ base <= a < base + size) by lia.
    tauto.
Qed.

Lemma joined_back rgn l1 p l2 :
  tidy (l1 ++ p :: l2) -> (length (l1 ++ p :: l2) <= 8)%nat ->
  Forall (disjoint (mkProp base size)) (l1 ++ p :: l2) -> base = pend p ->
  holds rgn (l1 ++ mkProp (pbase p) (psize p + size) :: l2) ->
  exists rgn' ret, join_next rgn (Z.of_nat (length l1)) 1 = Some (rgn', ret) /\ 0 <= ret /\ added (l1 ++ p :: l2) rgn'.
Proof.
  intros Ht Hlen Hd Hp Hh. apply tidy_mid in Ht as (Ht & Hs & Hb1 & Hb2).
  apply Forall_app in Hd as [_ Hd2]. apply Forall_cons in Hd2 as [_ Hd2].
  pose proof (tidy_sound _ Ht) as [Hs1 Hs2]%Forall_app.
  set (q := mkProp (pbase p) (psize p + size)) in *.
  assert (Hq : sound q) by (unfold sound, pend in *; cbn [pbase psize q] in *; lia).
  assert (Hqe : pend q = base + size) by (unfold pend in *; cbn [pbase psize q]; lia).
  assert (Hle : Forall (fun r => pend q <= pbase r) l2).
  { each r. unfold disjoint, before, sound, pend in *; cbn [pbase psize q] in *. lia. }
  destruct (join_next_ok rgn l1 q l2 1 Hh) as (rgn' & c' & Hrun & Hres); [by constructor|destruct l2; [done|]|].
  { apply Forall_cons in Hle as [? _]. unfold sound, pend in *. cbn [pbase psize q] in *. lia. }
  assert (Hq1 : forall q', pbase q' = pbase p -> Forall (fun r => before r q') l1).
  { intros q' Hq'. each r. unfold before in *. lia. }
  rewrite length_app in Hlen. cbn [length] in Hlen.
  destruct Hres as [(-> & -> & Hlt)|(-> & r & n' & -> & Hr & Hh')].
  - exists rgn, 1. split; [done|]. split; [lia|]. exists (l1 ++ q :: l2). split.
    + apply stands_mid; [done| |count]. apply tidy_mid. split_and!; [done|done|by apply Hq1|].
      apply tidy_app in Ht as (_ & Ht2 & _). destruct l2 as [|r l2]; [done|].
      assert (Hlt' : before q r) by (apply Forall_cons in Hle as [? _]; unfold before; lia). constructor; [done|].
      apply tidy_cons in Ht2 as (Hsr & Hbr & _). each r'. unfold before, sound, pend in *. lia.
    + intros a. rewrite !covers_app, !covers_cons. unfold sound, pend in *. cbn [pbase psize q] in *.
      assert (pbase p <= a < pbase p + (psize p + size) <-> pbase p <= a < pbase p + psize p \/ base <= a < base + size) by lia.
      tauto.
  - exists rgn', 2. split; [done|]. split; [lia|]. exists (l1 ++ mkProp (pbase q) (psize q + psize r) :: n').
    apply tidy_mid in Ht as (Ht & Hsr & _ & Hbr). split.
    + apply stands_mid; [done| |clear - Hlen; count]. apply tidy_mid.
      split_and!; [done|unfold sound, pend in *; cbn [pbase psize q] in *; lia|by apply Hq1|].
      each r'. unfold before, pend in *. cbn [pbase psize q] in *. lia.
    + intros a. rewrite !covers_app, !covers_cons. unfold sound, pend in *. cbn [pbase psize q] in *.
      assert (pbase p <= a < pbase p + (psize p + size + psize r) <->
        pbase p <= a < pbase p + psize p \/ base <= a < base + size \/ pbase r <= a < pbase r + psize r) by lia.
      tauto.
Qed.

Lemma inserted rgn l : stands rgn l -> l <> [] -> (length l < 8)%nat -> Forall (untouched base size) l ->
  Forall (disjoint (mkProp base size)) l ->
  exists rgn', insert_region rgn base size = Some (rgn', 0) /\ added l rgn'.
Proof.
  intros (Ht & _ & Hh) Hne Hlen Hun Hd. assert (Hh0 : holds rgn l) by (by destruct l). clear Hh. rename Hh0 into Hh.
  destruct (insert_ok rgn l Hh (tidy_orderly _ Ht) Hne Hlen) as (l1 & l2 & rgn' & -> & Hrun & Hh' & Hle & Hgt).
  exists rgn'. split; [done|]. pose proof (tidy_sound _ Ht) as [Hs1 Hs2]%Forall_app.
  apply Forall_app in Hun as [Hun1 Hun2]. apply Forall_app in Hd as [Hd1 Hd2].
  exists (l1 ++ mkProp base size :: l2). split.
  - apply stands_mid; [done| |count]. apply tidy_mid. split_and!; [done|done| |].
    + each r. unfold untouched, disjoint, before, sound, pend in *; cbn [pbase psize] in *. lia.
    + each r. unfold untouched, disjoint, before, sound, pend in *; cbn [pbase psize] in *. lia.
  - intros a. rewrite !covers_app, covers_cons. unfold pend. cbn [pbase psize]. tauto.
Qed.

Lemma add_first rgn : holds rgn [mkProp 0 0] ->
  exists rgn', lmb_add_region rgn base size = Some (rgn', 0) /\ holds rgn' [mkProp base size].
Proof.
  intros (Hc & junk & Hr & Hl). unfold lmb_add_region. at_entry (Hr : region rgn = [] ++ mkProp 0 0 :: junk).
  rewrite Hc. cbn. at_entry (Hr : region rgn = [] ++ mkProp 0 0 :: junk). eexists. split; [done|].
  split; [exact Hc|]. by exists junk.
Qed.

Lemma add_ok rgn l : stands rgn l -> fresh l ->
  exists rgn' ret, lmb_add_region rgn base size = Some (rgn', ret) /\
    ((ret = -1 /\ rgn' = rgn /\ length l = 8%nat) \/ (0 <= ret /\ added l rgn')).
Proof.
  intros Hst Hf. pose proof Hst as (Ht & Hlen & Hh). destruct l as [|p0 l].
  { destruct (add_first rgn Hh) as (rgn' & Hrun & Hh'). exists rgn', 0. split; [done|]. right. split; [lia|].
    exists [mkProp base size]. split.
    - split; [split; [exact Hnew|split; [constructor|done]]|]. split; [simpl; lia|done].
    - intros a. rewrite covers_cons, covers_nil. unfold pend. cbn [pbase psize]. tauto. }
  unfold lmb_add_region.
  pose proof Hh as (Hc & junk & Hr & Hl). at_entry (Hr : region rgn = [] ++ p0 :: l ++ junk).
  pose proof (tidy_sound _ Ht) as Hsl. apply Forall_cons in Hsl as Hs0. destruct Hs0 as [Hs0 _].
  destruct (Z.eqb_spec (psize p0) 0); [unfold sound in Hs0; lia|]. rewrite andb_false_r.
  rewrite (eq_trans (f_equal length Hr) Hl).
  pose proof (coalesce_ok (p0 :: l) 10 rgn [] Hh Hsl ltac:(simpl in *; lia)) as Hco. change (Z.of_nat (length [])) with 0 in Hco.
  destruct Hco as [[Hun ->]|(m & p & n' & E & Hm & Hres)]; cbn [app] in *.
  - cbn [mbind option_bind]. rewrite join_next_end by (done || simpl; lia). cbn [mbind option_bind]. change (negb (0 =? 0)) with false. cbv iota.
    unfold MAX_LMB_REGIONS. destruct (Z.leb_spec 8 (cnt rgn)).
    + exists rgn, (-1). split; [done|]. left. split_and!; [done..|simpl in *; lia].
    + assert (Hd : Forall (disjoint (mkProp base size)) (p0 :: l)).
      { destruct Hf as [Hin|]; [|done]. rewrite Forall_forall in Hun. by destruct (Hun _ Hin). }
      destruct (inserted rgn (p0 :: l) Hst ltac:(done) ltac:(simpl in *; lia) Hun Hd) as (rgn' & -> & Ha).
      exists rgn', 0. split; [done|]. by right.
  - rewrite E in *. destruct Hres as [(-> & ->)|[(Hp & r & -> & Hr')|(Hp & r & -> & Hr')]]; cbn [mbind option_bind].
    + exists rgn, 0. split; [done|]. right. split; [lia|]. exists (m ++ mkProp base size :: n'). split; [done|].
      intros a. rewrite covers_app, covers_cons. unfold pend. cbn [pbase psize]. tauto.
    + assert (Hd : Forall (disjoint (mkProp base size)) (m ++ p :: n')) by (eapply fresh_apart; eauto).
      destruct (joined_front r m p n') as (rgn' & -> & Ha); try done. exists rgn', 1. split; [done|]. by right.
    + assert (Hd : Forall (disjoint (mkProp base size)) (m ++ p :: n')) by (eapply fresh_apart; eauto).
      destruct (joined_back r m p n') as (rgn' & ret & -> & Hret & Ha); try done. exists rgn', ret. split; [done|]. by right.
Qed.

(** *** Adding a region that may run into others *)

(** The region starts in none of the entries, and does not run over the start of an
    entry to touch another. *)
Definition clean (l : list lmb_property) : Prop :=
  Forall (fun p => pend p <= base \/ base < pbase p) l /\
  (Exists (fun p => pbase p = base + size) l -> Forall (fun p => pbase p <= base \/ base + size <= pbase p) l).

(** The set gains the range; no region starts where none did, but for the new one. *)
Definition kept (l : list lmb_property) (rgn' : lmb_region) : Prop :=
  exists l', keeps rgn' l' /\ (forall a, covers l' a <-> covers l a \/ base <= a < base + size) /\
    (forall x, Exists (fun q => pbase q = x) l' -> x = base \/ Exists (fun q => pbase q = x) l) /\
    (length l' <= S (length l))%nat.

Lemma keeps_mid rgn l1 p l2 : holds rgn (l1 ++ p :: l2) -> orderly (l1 ++ p :: l2) ->
  (length (l1 ++ p :: l2) <= 8)%nat -> keeps rgn (l1 ++ p :: l2).
Proof. intros. split_and!; [done..|]. by destruct l1. Qed.

(** An entry grew by what the region covers; it may touch the next one now. *)
Lemma kept_grown rgn l1 p q l2 :
  orderly (l1 ++ q :: l2) -> (length (l1 ++ q :: l2) <= 8)%nat -> Forall sound l2 ->
  holds rgn (l1 ++ q :: l2) ->
  (forall a, pbase q <= a < pend q <-> pbase p <= a < pend p \/ base <= a < base + size) ->
  pbase q = base \/ pbase q = pbase p ->
  exists rgn' ret, join_next rgn (Z.of_nat (length l1)) 1 = Some (rgn', ret) /\ 0 <= ret /\ kept (l1 ++ p :: l2) rgn'.
Proof.
  intros Ho Hlen Hs2 Hh Hcov Hbq. pose proof Ho as (Ho' & Hq & Hb1 & Hb2)%orderly_mid.
  destruct (join_next_ok rgn l1 q l2 1 Hh) as (rgn' & c' & Hrun & Hres); [by constructor|destruct l2; [done|]|].
  { by apply Forall_cons in Hb2 as [? _]. }
  destruct Hres as [(-> & -> & _)|(-> & r & n' & -> & Hr & Hh')].
  - exists rgn, 1. split; [done|]. split; [lia|]. exists (l1 ++ q :: l2). split; [by apply keeps_mid|].
    split; [intros a; rewrite !covers_app, !covers_cons, Hcov; tauto|].
    split; [|count]. intros x. rewrite !Exists_app, !Exists_cons. intuition congruence.
  - exists rgn', 2. split; [done|]. split; [lia|]. exists (l1 ++ mkProp (pbase q) (psize q + psize r) :: n').
    apply orderly_mid in Ho' as (Ho' & Hsr & _ & Hbr). unfold sound in *. split.
    + apply keeps_mid; [done| |clear - Hlen; count]. apply orderly_mid.
      split_and!; [done|unfold sound, pend in *; cbn [pbase psize]; lia|done|].
      apply Forall_cons in Hb2 as [_ Hb2]. done.
    + split.
      * intros a. rewrite !covers_app, !covers_cons. unfold pend in *. cbn [pbase psize]. specialize (Hcov a).
        assert (pbase q <= a < pbase q + (psize q + psize r) <->
          pbase q <= a < pbase q + psize q \/ pbase r <= a < pbase r + psize r) by lia.
        tauto.
      * split; [|clear; count]. intros x. rewrite !Exists_app, !Exists_cons. cbn [pbase]. intuition congruence.
Qed.

Lemma add_kept rgn l : keeps rgn l -> clean l ->
  exists rgn' ret, lmb_add_region rgn base size = Some (rgn', ret) /\
    ((ret = -1 /\ rgn' = rgn /\ length l = 8%nat) \/ (0 <= ret /\ kept l rgn')).
Proof.
  intros Hst [Hstart Hclean]. pose proof Hst as (Ho & Hlen & Hh). destruct l as [|p0 l].
  { destruct (add_first rgn Hh) as (rgn' & Hrun & Hh'). exists rgn', 0. split; [done|]. right. split; [lia|].
    exists [mkProp base size]. split_and!.
    - split; [split; [exact Hnew|split; [constructor|done]]|]. split; [simpl; lia|done].
    - intros a. rewrite covers_cons, covers_nil. unfold pend. cbn [pbase psize]. tauto.
    - intros x [H|[]%Exists_nil]%Exists_cons. by left.
    - simpl. lia. }
  pose proof Hh as (Hc & junk & Hr & Hl). unfold lmb_add_region. at_entry (Hr : region rgn = [] ++ p0 :: l ++ junk).
  pose proof (orderly_sound _ Ho) as Hsl. apply Forall_cons in Hsl as Hs0. destruct Hs0 as [Hs0 _].
  destruct (Z.eqb_spec (psize p0) 0); [unfold sound in Hs0; lia|]. rewrite andb_false_r.
  rewrite (eq_trans (f_equal length Hr) Hl).
  pose proof (coalesce_ok (p0 :: l) 10 rgn [] Hh Hsl ltac:(simpl in *; lia)) as Hco. change (Z.of_nat (length [])) with 0 in Hco.
  destruct Hco as [[Hun ->]|(m & p & n' & E & Hm & Hres)]; cbn [app] in *.
  - cbn [mbind option_bind]. rewrite join_next_end by (done || simpl; lia). cbn [mbind option_bind].
    change (negb (0 =? 0)) with false. cbv iota. unfold MAX_LMB_REGIONS. destruct (Z.leb_spec 8 (cnt rgn)).
    + exists rgn, (-1). split; [done|]. left. cbn [entries length] in *. split_and!; [done..|lia].
    + destruct (insert_ok rgn (p0 :: l) Hh Ho) as (l1 & l2 & rgn' & E & -> & Hh' & Hle & Hgt); [done|cbn [entries length] in *; lia|].
      exists rgn', 0. split; [done|]. right. split; [lia|]. rewrite E in *. exists (l1 ++ mkProp base size :: l2). split.
      * apply keeps_mid; [done| |clear - Hlen Hc H E; rewrite <- E in *; cbn [entries] in Hc; rewrite E in Hc; count].
        apply orderly_mid. split_and!; [done|done|done|]. each r. cbn [pbase]. lia.
      * split; [intros a; rewrite !covers_app, covers_cons; unfold pend; cbn [pbase psize]; tauto|].
        split; [|clear; count]. intros x. rewrite !Exists_app, !Exists_cons. cbn [pbase]. intuition congruence.
  - rewrite E in *. pose proof Ho as (Ho' & Hsp & Hb1 & Hb2)%orderly_mid.
    pose proof (orderly_sound _ Ho') as [Hs1 Hs2]%Forall_app. unfold sound in Hsp.
    pose proof Hstart as [Hst1 [Hstp _]%Forall_cons]%Forall_app.
    destruct Hres as [(-> & ->)|[(Hp & r & -> & Hr')|(Hp & r & -> & Hr')]]; cbn [mbind option_bind].
    + exfalso. unfold pend in *. cbn [pbase psize] in *. lia.
    + assert (Hc2 : Forall (fun q => pbase q <= base \/ base + size <= pbase q) (m ++ p :: n')).
      { apply Hclean, Exists_app. right. by constructor. }
      apply Forall_app in Hc2 as [Hc2 _].
      destruct (kept_grown r m p (mkProp base (psize p + size)) n') as (rgn' & ret & -> & Hret & Ha);
        [|clear - Hlen; count|done|done| |cbn [pbase]; auto|exists rgn', ret; split; [done|]; by right].
      * apply orderly_mid. split_and!; [done|unfold sound, pend in *; cbn [pbase psize] in *; lia| |].
        -- apply Forall_forall. intros q Hq. rewrite Forall_forall in Hc2, Hm, Hst1, Hb1, Hs1.
           specialize (Hc2 q Hq). specialize (Hm q Hq). specialize (Hst1 q Hq). specialize (Hb1 q Hq). specialize (Hs1 q Hq).
           unfold untouched, sound, pend in *. cbn [pbase psize] in *. lia.
        -- each q. cbn [pbase]. unfold sound in Hnew. cbn [pbase psize] in Hnew. lia.
      * intros a. unfold sound, pend in *. cbn [pbase psize] in *. lia.
    + destruct (kept_grown r m p (mkProp (pbase p) (psize p + size)) n') as (rgn' & ret & -> & Hret & Ha);
        [|clear - Hlen; count|done|done| |cbn [pbase]; auto|exists rgn', ret; split; [done|]; by right].
      * apply orderly_mid. unfold sound, pend in *. cbn [pbase psize] in *. split_and!; (done || lia).
      * intros a. unfold sound, pend in *. cbn [pbase psize] in *. lia.
Qed.
End Adding.

(** ** Freeing *)

Section Freeing.
Context (base size : Z).
Hypothesis Hgone : sound (mkProp base size).

(** The entry that holds the range, if there is one. *)
Definition within (p : lmb_property) : Prop := pbase p <= base /\ base + size <= pend p.

Lemma find_ok l2 : forall fuel rgn l1,
  holds rgn (l1 ++ l2) -> Forall sound l2 -> (length l2 < fuel)%nat ->
  let res := find_loop fuel (Z.of_nat (length l1)) rgn base (base + size) in
  (Forall (fun p => ~ within p) l2 /\ res = Some None) \/
  exists m p n, l2 = m ++ p :: n /\ within p /\
    res = Some (Some (Z.of_nat (length (l1 ++ m)), pbase p, pend p)).
Proof.
  induction l2 as [|p l2 IH]; intros fuel rgn l1 (Hc & junk & Hr & Hl) Hs Hf res; subst res;
    (destruct fuel as [|fuel]; [simpl in Hf; lia|]); cbn [find_loop].
  - left. split; [constructor|]. rewrite app_nil_r in *.
    destruct (Z.ltb_spec (Z.of_nat (length l1)) (cnt rgn)); [lia|]. done.
  - apply Forall_cons in Hs as [Hp Hs]. destruct (Z.ltb_spec (Z.of_nat (length l1)) (cnt rgn)); [|count].
    pose proof Hr as Hr'. rewrite <- app_assoc in Hr'. cbn [app] in Hr'. at_entry Hr'.
    rewrite u64_small by (unfold sound, pend, is_u64 in *; lia). fold (pend p).
    destruct ((pbase p <=? base) && (base + size <=? pend p)) eqn:E.
    + right. apply andb_true_iff in E as [E1%Z.leb_le E2%Z.leb_le]. exists [], p, l2. rewrite app_nil_r. done.
    + assert (Hn : ~ within p) by (intros [H1%Z.leb_le H2%Z.leb_le]; by rewrite H1, H2 in E).
      replace (Z.of_nat (length l1) + 1) with (Z.of_nat (length (l1 ++ [p]))) by count.
      destruct (IH fuel rgn (l1 ++ [p])) as [[Ha Hres]|(m & p' & n & -> & Hm & Hres)];
        [rewrite <- app_assoc; split; [exact Hc|by exists junk]|done|simpl in Hf; lia|..].
      * left. split; [by constructor|done].
      * right. exists (p :: m), p', n. rewrite <- app_assoc in Hres. done.
Qed.

(** What the table stands for when the addresses from [lo] to [hi] are gone. *)
Definition freed (l : list lmb_property) (lo hi : Z) (rgn' : lmb_region) : Prop :=
  exists l', stands rgn' l' /\ forall a, covers l' a <-> covers l a /\ ~ (lo <= a < hi).

Lemma freed_covers l1 p ps l2 lo hi a :
  tidy (l1 ++ p :: l2) -> pbase p <= lo -> hi <= pend p ->
  (covers ps a <-> pbase p <= a < pend p /\ ~ (lo <= a < hi)) ->
  covers (l1 ++ ps ++ l2) a <-> covers (l1 ++ p :: l2) a /\ ~ (lo <= a < hi).
Proof.
  intros Ht Hlo Hhi Hps.
  apply tidy_mid in Ht as (Ht & Hsp & H1 & H2). pose proof (tidy_sound _ Ht) as [Hs1 Hs2]%Forall_app.
  rewrite !covers_app, covers_cons, Hps.
  assert (Ha1 : covers l1 a -> a < pbase p).
  { intros (q & Hq & Ha)%Exists_exists. rewrite Forall_forall in H1. specialize (H1 q Hq). unfold before in H1. lia. }
  assert (Ha2 : covers l2 a -> pend p <= a).
  { intros (q & Hq & Ha)%Exists_exists. rewrite Forall_forall in H2. specialize (H2 q Hq). unfold before in H2. lia. }
  unfold sound in Hsp. intuition lia.
Qed.

Lemma freed_mid l1 p ps l2 lo hi rgn' :
  tidy (l1 ++ p :: l2) -> stands rgn' (l1 ++ ps ++ l2) -> pbase p <= lo -> hi <= pend p ->
  (forall a, covers ps a <-> pbase p <= a < pend p /\ ~ (lo <= a < hi)) ->
  freed (l1 ++ p :: l2) lo hi rgn'.
Proof. intros Ht Hs Hlo Hhi Hps. exists (l1 ++ ps ++ l2). split; [done|]. intros a. by apply freed_covers. Qed.

Lemma find_none rgn l : stands rgn l -> Forall (fun p => ~ within p) l ->
  find_loop (S (length (region rgn))) 0 rgn base (base + size) = Some None.
Proof.
  intros (Ht & Hlen & Hh) Hw. pose proof Hh as (Hc & junk & Hr & Hl). rewrite (eq_trans (f_equal length Hr) Hl).
  destruct l as [|p0 l].
  - cbn [find_loop]. rewrite Hc. at_entry (Hr : region rgn = [] ++ mkProp 0 0 :: junk). cbn [pbase psize length].
    unfold sound, pend in Hgone. cbn [pbase psize] in Hgone. change (u64 (0 + 0)) with 0.
    destruct (Z.leb_spec (base + size) 0); [lia|]. rewrite andb_false_r. reflexivity.
  - destruct (find_ok (p0 :: l) 10 rgn [] Hh (tidy_sound _ Ht) ltac:(simpl in *; lia)) as [[_ E]|(m & p & n' & E & Hp & _)]; [exact E|].
    exfalso. rewrite E in Hw. apply Forall_app in Hw as [_ Hw]. by apply Forall_cons in Hw as [Hw _].
Qed.

Lemma find_some rgn l : stands rgn l -> Exists within l ->
  exists l1 p l2, l = l1 ++ p :: l2 /\ within p /\
    find_loop (S (length (region rgn))) 0 rgn base (base + size) =
      Some (Some (Z.of_nat (length l1), pbase p, pend p)).
Proof.
  intros (Ht & Hlen & Hh) Hw. destruct l as [|p0 l]; [by apply Exists_nil in Hw|].
  pose proof Hh as (Hc & junk & Hr & Hl). rewrite (eq_trans (f_equal length Hr) Hl).
  destruct (find_ok (p0 :: l) 10 rgn [] Hh (tidy_sound _ Ht) ltac:(simpl in *; lia)) as [[Hn _]|(m & p & n' & E & Hp & Hres)].
  - apply Exists_exists in Hw as (q & Hq & Hw). rewrite Forall_forall in Hn. by destruct (Hn q Hq).
  - exists m, p, n'. split; [exact E|]. split; [done|]. exact Hres.
Qed.

Lemma free_missing rgn l : stands rgn l -> Forall (fun p => ~ within p) l ->
  free_region rgn base size = Some (rgn, -1).
Proof.
  intros Hs Hw. unfold free_region. rewrite u64_small by (unfold sound, pend, is_u64 in *; cbn [pbase psize] in *; lia).
  by rewrite (find_none rgn l).
Qed.

(** An entry of the array is replaced. *)
Lemma set_mid rgn l1 p l2 q :
  holds rgn (l1 ++ p :: l2) ->
  exists rgn', set_reg rgn (Z.of_nat (length l1)) q = Some rgn' /\ holds rgn' (l1 ++ q :: l2).
Proof.
  intros (Hc & junk & Hr & Hl). rewrite <- app_assoc in Hr. cbn [app] in Hr. at_entry Hr.
  eexists. split; [done|]. split; cbn [cnt region]; [rewrite Hc; count|].
  exists junk. rewrite <- app_assoc. split; [done|]. clear - Hl. count.
Qed.

(** An entry is cut in two. *)
Lemma free_inside rgn l1 p l2 :
  stands rgn (l1 ++ p :: l2) -> pbase p < base -> base + size < pend p ->
  exists rgn' ret,
    (rgn ← set_reg rgn (Z.of_nat (length l1)) (mkProp (pbase p) (u64 (base - pbase p)));
     lmb_add_region rgn (base + size) (u64 (pend p - (base + size)))) = Some (rgn', ret) /\
    ((0 <= ret /\ freed (l1 ++ p :: l2) base (base + size) rgn') \/
     (ret = -1 /\ length (l1 ++ p :: l2) = 8%nat /\ exists q, q ∈ l1 ++ p :: l2 /\ pbase q < base /\ base + size < pend q /\
        freed (l1 ++ p :: l2) base (pend q) rgn')).
Proof.
  intros (Ht & Hlen & Hh) Hlo Hhi. assert (Hh' : holds rgn (l1 ++ p :: l2)) by (destruct l1; exact Hh). clear Hh.
  pose proof Ht as (Ht' & Hsp & Hb1 & Hb2)%tidy_mid. pose proof (tidy_sound _ Ht') as [Hs1 Hs2]%Forall_app.
  assert (Hz : 0 < size /\ 0 <= base) by (unfold sound in Hgone; cbn [pbase psize] in Hgone; lia). unfold sound in Hsp.
  destruct (set_mid rgn l1 p l2 (mkProp (pbase p) (u64 (base - pbase p))) Hh') as (rgn1 & -> & Hh2). cbn [mbind option_bind].
  rewrite u64_small in Hh2 by (unfold is_u64, pend in *; lia). rewrite u64_small by (unfold is_u64, pend in *; lia).
  set (q := mkProp (pbase p) (base - pbase p)) in *.
  assert (Hsq : stands rgn1 (l1 ++ q :: l2)).
  { apply stands_mid; [done| |clear - Hlen; count]. apply tidy_mid.
    split_and!; [done|unfold sound, pend in *; cbn [pbase psize q]; lia|done|].
    each r. unfold before, pend in *. cbn [pbase psize q]. lia. }
  destruct (add_ok (base + size) (pend p - (base + size))) with (rgn := rgn1) (l := l1 ++ q :: l2)
    as (rgn' & ret & Hadd & Hres).
  { unfold sound, pend in *. cbn [pbase psize] in *. lia. }
  { exact Hsq. }
  { right. apply Forall_app. split; [|constructor].
    - each r. unfold disjoint, before, sound, pend in *. cbn [pbase psize] in *. lia.
    - unfold disjoint, pend in *. cbn [pbase psize q] in *. lia.
    - each r. unfold disjoint, before, sound, pend in *. cbn [pbase psize] in *. lia. }
  exists rgn', ret. split; [exact Hadd|].
  assert (Hcov : forall a, covers (l1 ++ q :: l2) a <-> covers (l1 ++ p :: l2) a /\ ~ (base <= a < pend p)).
  { intros a. apply (freed_covers l1 p [q] l2); [done|lia|lia|]. rewrite covers_cons, covers_nil.
    unfold pend in *. cbn [pbase psize q]. lia. }
  destruct Hres as [(-> & -> & H8)|(Hret & l' & Hst' & Hc)]; [right|left].
  - split; [done|]. split; [rewrite length_app in *; cbn [length] in *; lia|]. exists p.
    split; [rewrite elem_of_app, elem_of_cons; auto|]. split; [lia|]. split; [lia|]. by exists (l1 ++ q :: l2).
  - split; [done|]. exists l'. split; [done|]. intros a. rewrite Hc, Hcov, (covers_app l1 (p :: l2)), covers_cons.
    destruct (Z_lt_le_dec a base), (Z_lt_le_dec a (base + size)), (Z_lt_le_dec a (pend p)); intuition lia.
Qed.

Lemma free_ok rgn l : stands rgn l -> Exists within l -> l <> [mkProp base size] ->
  exists rgn' ret, free_region rgn base size = Some (rgn', ret) /\
    ((0 <= ret /\ freed l base (base + size) rgn') \/
     (ret = -1 /\ length l = 8%nat /\ exists p, p ∈ l /\ pbase p < base /\ base + size < pend p /\
        freed l base (pend p) rgn')).
Proof.
  intros Hst Hw Hne. destruct (find_some rgn l Hst Hw) as (l1 & p & l2 & -> & [Hw1 Hw2] & Hfind).
  unfold free_region. rewrite (u64_small (base + size)) by (unfold sound, pend, is_u64 in *; cbn [pbase psize] in *; lia).
  rewrite Hfind. cbn [mbind option_bind]. pose proof Hst as (Ht & Hlen & Hh).
  assert (Hh' : holds rgn (l1 ++ p :: l2)) by (destruct l1; exact Hh). clear Hh.
  pose proof Ht as (Ht' & Hsp & Hb1 & Hb2)%tidy_mid.
  assert (Hrep : forall q, sound q -> pbase p <= pbase q -> pend q <= pend p -> tidy (l1 ++ q :: l2)).
  { intros q Hq H1 H2. apply tidy_mid. split_and!; [done|done|each r; unfold before in *; lia|each r; unfold before in *; lia]. }
  assert (Hget : reg rgn (Z.of_nat (length l1)) = Some p).
  { destruct Hh' as (_ & junk & Hr & _). rewrite <- app_assoc in Hr. by at_entry (Hr : region rgn = l1 ++ p :: l2 ++ junk). }
  rewrite Hget. cbn [mbind option_bind].
  assert (Hz : 0 < size /\ 0 <= base) by (unfold sound in Hgone; cbn [pbase psize] in Hgone; lia).
  unfold sound in Hsp. destruct (Z.eqb_spec (pbase p) base) as [Hfront|Hfront]; [destruct (Z.eqb_spec (pend p) (base + size)) as [Hback|Hback]|]; cbn [andb].
  - destruct (remove_ok _ _ _ _ Hh') as (rgn' & -> & Hh2). exists rgn', 0. split; [done|]. left. split; [lia|].
    apply (freed_mid l1 p [] l2); try lia; [done| |].
    + split; [done|]. split; [clear - Hlen; count|]. cbn [app]. destruct (l1 ++ l2) eqn:E; [|done].
      apply app_eq_nil in E as [-> ->]. destruct Hne. destruct p as [b z]. unfold pend in *. cbn in *.
      do 2 f_equal; lia.
    + intros a. rewrite covers_nil. lia.
  - destruct (set_mid rgn l1 p l2 (mkProp (base + size) (u64 (psize p - size))) Hh') as (rgn' & -> & Hh2). exists rgn', 0.
    split; [done|]. left. split; [lia|]. unfold pend in *.
    rewrite u64_small in Hh2 by (unfold is_u64; lia).
    apply (freed_mid l1 p [mkProp (base + size) (psize p - size)] l2); unfold pend; try lia; [done| |].
    + apply stands_mid; [done| |clear - Hlen; count]. apply Hrep; unfold sound, pend; cbn [pbase psize]; lia.
    + intros a. rewrite covers_cons, covers_nil. unfold pend. cbn [pbase psize]. lia.
  - destruct (Z.eqb_spec (pend p) (base + size)) as [Hback|Hback].
    + destruct (set_mid rgn l1 p l2 (mkProp (pbase p) (u64 (psize p - size))) Hh') as (rgn' & -> & Hh2). exists rgn', 0.
      split; [done|]. left. split; [lia|]. unfold pend in *.
      rewrite u64_small in Hh2 by (unfold is_u64; lia).
      apply (freed_mid l1 p [mkProp (pbase p) (psize p - size)] l2); unfold pend; try lia; [done| |].
      * apply stands_mid; [done| |clear - Hlen; count]. apply Hrep; unfold sound, pend; cbn [pbase psize]; lia.
      * intros a. rewrite covers_cons, covers_nil. unfold pend. cbn [pbase psize]. lia.
    + unfold within in *. destruct (free_inside rgn l1 p l2 Hst ltac:(lia) ltac:(lia)) as (rgn' & ret & Hrun & Hres).
      rewrite Hrun. eauto.
Qed.
End Freeing.

(** ** Searching and allocating *)

(** What the search needs of the entries. *)
Definition weak (p : lmb_property) : Prop := 0 <= pbase p /\ 0 <= psize p /\ pend p < 2 ^ 64.

Lemma keeps_entries rgn l : keeps rgn l ->
  holds rgn (entries l) /\ Forall weak (entries l) /\ length (region rgn) = 9%nat /\ (0 < length (entries l) <= 8)%nat.
Proof.
  intros (Ht & Hlen & Hh). split; [done|]. split; [|split].
  - destruct l; [constructor; [|done]; done|]. eapply Forall_impl; [by apply orderly_sound|].
    unfold sound, weak. intros q. lia.
  - destruct Hh as (_ & junk & -> & Hl). exact Hl.
  - destruct l; simpl in *; lia.
Qed.

Lemma overlap_ok b size p : 0 <= b -> 0 < size -> b + size < 2 ^ 64 -> weak p ->
  lmb_addrs_overlap b size (pbase p) (psize p) = bool_decide (~ disjoint (mkProp b size) p).
Proof.
  intros Hb Hs Hlt Hp. unfold lmb_addrs_overlap, weak, disjoint, pend in *. cbn [pbase psize].
  rewrite !u64_small by (unfold is_u64; lia).
  destruct (Z.ltb_spec b (pbase p + psize p)), (Z.ltb_spec (pbase p) (b + size)); symmetry;
    first [apply bool_decide_eq_true_2; lia|apply bool_decide_eq_false_2; lia].
Qed.

Lemma overlaps_loop_ok b size l2 : forall fuel rgn l1,
  0 <= b -> 0 < size -> b + size < 2 ^ 64 ->
  holds rgn (l1 ++ l2) -> Forall weak l2 -> (length l2 < fuel)%nat ->
  let res := overlaps_loop fuel (Z.of_nat (length l1)) rgn b size in
  (Forall (disjoint (mkProp b size)) l2 /\ res = Some (-1)) \/
  exists m p n, l2 = m ++ p :: n /\ ~ disjoint (mkProp b size) p /\ res = Some (Z.of_nat (length (l1 ++ m))).
Proof.
  induction l2 as [|p l2 IH]; intros fuel rgn l1 Hb Hsz Hlt Hh Hs Hf res; subst res;
    (destruct fuel as [|fuel]; [simpl in Hf; lia|]); cbn [overlaps_loop]; pose proof Hh as (Hc & junk & Hr & Hl).
  - left. split; [constructor|]. rewrite app_nil_r in *.
    destruct (Z.ltb_spec (Z.of_nat (length l1)) (cnt rgn)); [lia|]. done.
  - apply Forall_cons in Hs as [Hp Hs]. destruct (Z.ltb_spec (Z.of_nat (length l1)) (cnt rgn)); [|count].
    rewrite <- app_assoc in Hr. cbn [app] in Hr. at_entry Hr. rewrite overlap_ok by done. case_bool_decide as Hd.
    + right. exists [], p, l2. by rewrite app_nil_r.
    + assert (Hd' : disjoint (mkProp b size) p) by (unfold disjoint, pend in *; cbn [pbase psize] in *; lia).
      replace (Z.of_nat (length l1) + 1) with (Z.of_nat (length (l1 ++ [p]))) by count.
      destruct (IH fuel rgn (l1 ++ [p])) as [[Ha Hres]|(m & p' & n & -> & Hm & Hres)];
        [done..|by rewrite <- app_assoc|done|simpl in Hf; lia|left|right].
      * split; [by constructor|done].
      * exists (p :: m), p', n. by rewrite <- app_assoc in Hres.
Qed.

Lemma overlaps_ok rgn l b size : keeps rgn l -> 0 <= b -> 0 < size -> b + size < 2 ^ 64 ->
  (Forall (disjoint (mkProp b size)) (entries l) /\ lmb_overlaps_region rgn b size = Some (-1)) \/
  exists m p n, entries l = m ++ p :: n /\ ~ disjoint (mkProp b size) p /\
    lmb_overlaps_region rgn b size = Some (Z.of_nat (length m)) /\ reg rgn (Z.of_nat (length m)) = Some p.
Proof.
  intros Hst Hb Hs Hlt. destruct (keeps_entries _ _ Hst) as (Hh & Hw & H9 & Hlen). unfold lmb_overlaps_region. rewrite H9.
  destruct (overlaps_loop_ok b size (entries l) 10 rgn [] Hb Hs Hlt Hh Hw ltac:(lia)) as [?|(m & p & n & E & Hd & Hres)]; [by left|].
  right. exists m, p, n. split_and!; [done..|]. destruct Hh as (_ & junk & Hr & _). rewrite E, <- app_assoc in Hr. cbn [app] in Hr.
  by at_entry Hr.
Qed.

(** *** Alignment *)

Section Align.
Context (k : Z).
Hypothesis Hk : 0 <= k < 64.

Lemma land_not64 x : is_u64 x -> Z.land x (not64 (2 ^ k - 1)) = x - x mod 2 ^ k.
Proof.
  intros Hx. assert (Hland : Z.land x (not64 (2 ^ k - 1)) = Z.ldiff x (Z.ones k)).
  { unfold not64. rewrite Z.ones_equiv. rewrite <- Z.sub_1_r. apply Z.bits_inj'. intros i Hi.
    rewrite Z.land_spec, Z.ldiff_spec. unfold u64. destruct (Z.ltb_spec i 64).
    - rewrite Z.mod_pow2_bits_low, Z.lnot_spec by lia. done.
    - rewrite (testbit_high x 64) by (unfold is_u64 in Hx; lia). done. }
  rewrite Hland, Z.ldiff_ones_r, Z.shiftl_mul_pow2, Z.shiftr_div_pow2 by lia.
  pose proof (Z.div_mod x (2 ^ k) ltac:(apply Z.pow_nonzero; lia)). lia.
Qed.

Lemma pow_small : 0 < 2 ^ k < 2 ^ 64.
Proof. split; [apply Z.pow_pos_nonneg; lia|apply Z.pow_lt_mono_r; lia]. Qed.

Lemma align_down_ok x : is_u64 x -> lmb_align_down x (2 ^ k) = x - x mod 2 ^ k.
Proof.
  intros Hx. pose proof pow_small. unfold lmb_align_down. rewrite u64_small by (unfold is_u64; lia). by apply land_not64.
Qed.

(** The greatest multiple that is not above. *)
Lemma align_down_le x : is_u64 x -> 0 <= lmb_align_down x (2 ^ k) <= x.
Proof.
  intros Hx. rewrite align_down_ok by done. pose proof pow_small. unfold is_u64 in Hx.
  pose proof (Z.mod_pos_bound x (2 ^ k)). pose proof (Z.mod_le x (2 ^ k)). lia.
Qed.

Lemma align_down_multiple x : is_u64 x -> (2 ^ k | lmb_align_down x (2 ^ k)).
Proof.
  intros Hx. rewrite align_down_ok by done. pose proof pow_small. exists (x / 2 ^ k).
  pose proof (Z.div_mod x (2 ^ k)). lia.
Qed.

Lemma align_down_greatest x b : is_u64 x -> (2 ^ k | b) -> b <= x -> b <= lmb_align_down x (2 ^ k).
Proof.
  intros Hx [c ->] Hle. rewrite align_down_ok by done. pose proof pow_small.
  assert (c <= x / 2 ^ k) by (apply Z.div_le_lower_bound; lia). pose proof (Z.div_mod x (2 ^ k)). nia.
Qed.

Lemma align_up_multiple x : 0 <= x < 2 ^ 64 - 2 ^ k -> (2 ^ k | x) -> lmb_align_up x (2 ^ k) = x.
Proof.
  intros Hx [c ->]. pose proof pow_small. unfold lmb_align_up. rewrite (u64_small (2 ^ k - 1)) by (unfold is_u64; lia). rewrite u64_small by (unfold is_u64; lia).
  rewrite land_not64 by (unfold is_u64; lia). rewrite (Z.add_comm (c * 2 ^ k)), Z_mod_plus_full, Z.mod_small by lia. lia.
Qed.
End Align.

Section Allocating.
Context (k size : Z).
Hypotheses (Hk : 0 <= k < 64) (Hsize : 0 < size < 2 ^ 64 - 2 ^ k).
Abbreviation align := (2 ^ k).

(** No address of [b, ..., b + size - 1] is reserved. *)
Definition free_at (rl : list lmb_property) (b : Z) : Prop := Forall (disjoint (mkProp b size)) rl.

(** The block at [b] is reserved, up to a multiple of the alignment. *)
Definition take_at (l : lmb) (b : Z) : option (lmb * Z) :=
  '(r, ret) ← lmb_add_region (reserved l) b (lmb_align_up size align);
  Some (mkLmb (memory l) r, if ret <? 0 then 0 else b).

Lemma free_entries rl b : 0 <= b -> Forall (disjoint (mkProp b size)) (entries rl) <-> free_at rl b.
Proof.
  intros Hb. destruct rl; [|done]. unfold free_at. cbn [entries]. split; [constructor|].
  intros _. constructor; [|done]. right. unfold pend. cbn [pbase psize]. lia.
Qed.

(** The search goes down from [b]; the entries of [n] are above. *)
Lemma alloc_loop_ok l rl lo : keeps (reserved l) rl -> 0 <= lo ->
  forall fuel b m n, entries rl = m ++ n -> (length m < fuel)%nat ->
  0 <= b -> b + size < 2 ^ 64 -> (align | b) -> Forall (fun q => b + size <= pbase q) n ->
  let res := alloc_loop fuel l lo b size align in
  (res = Some NoRoom /\ forall b', 0 < b' <= b -> lo <= b' -> (align | b') -> ~ free_at rl b') \/
  exists b0, 0 < b0 <= b /\ lo <= b0 /\ (align | b0) /\ free_at rl b0 /\ res = ('(l, b) ← take_at l b0; Some (Taken l b)) /\
    forall b', b0 < b' <= b -> (align | b') -> ~ free_at rl b'.
Proof.
  intros Hst Hlo. induction fuel as [|fuel IH]; intros b m n E Hf Hb Hlt Hal Hn res; subst res; [lia|]. cbn [alloc_loop].
  destruct (Z.eqb_spec b 0) as [->|Hb0]; cbn [negb andb].
  { left. split; [done|]. intros b' Hb'. lia. }
  destruct (Z.leb_spec lo b) as [Hlob|Hlob]; [|left; split; [done|]; intros b' Hb' Hlo'; lia].
  destruct (overlaps_ok _ _ b size Hst Hb ltac:(lia) Hlt) as [[Hfree ->]|(m1 & p & n1 & E1 & Hd & -> & Hreg)]; cbn [mbind option_bind].
  { right. exists b. rewrite free_entries in Hfree by lia. split_and!; [lia..|done|done| |intros b' Hb'; lia]. unfold take_at.
    by destruct (lmb_add_region (reserved l) b (lmb_align_up size align)) as [[r ret]|]. }
  destruct (Z.ltb_spec (Z.of_nat (length m1)) 0); [lia|]. rewrite Hreg. cbn [mbind option_bind].
  destruct (keeps_entries _ _ Hst) as (_ & Hw & _ & _).
  assert (Hp : weak p). { rewrite E1 in Hw. apply Forall_app in Hw as [_ Hw]. by apply Forall_cons in Hw as [Hw _]. }
  assert (Hover : pbase p < b + size /\ b < pend p) by (unfold disjoint, pend in *; cbn [pbase psize] in *; lia).
  assert (Hpin : p ∈ entries rl) by (rewrite E1, elem_of_app, elem_of_cons; auto).
  assert (Hno : forall b', b' <= b -> pbase p < b' + size -> 0 <= b' -> ~ free_at rl b').
  { intros b' Hle Hgt Hb' Hfr. rewrite <- free_entries in Hfr by lia. rewrite Forall_forall in Hfr. specialize (Hfr p Hpin).
    unfold disjoint, pend in *. cbn [pbase psize] in *. lia. }
  destruct (Z.ltb_spec (pbase p) size).
  { left. split; [done|]. intros b' Hb' _ _. apply Hno; lia. }
  unfold weak in Hp. rewrite u64_small by (unfold is_u64, pend in *; lia).
  assert (Hu : is_u64 (pbase p - size)) by (unfold is_u64, pend in *; lia).
  pose proof (align_down_le k Hk _ Hu) as Hle. set (b2 := lmb_align_down (pbase p - size) align) in *.
  assert (Hm1 : (length m1 < length m)%nat /\ Forall (fun q => b2 + size <= pbase q) (p :: n1)).
  { destruct (decide (length m1 < length m)%nat) as [Hlen|Hlen].
    - split; [done|]. destruct rl as [|q0 rl].
      + cbn [entries] in E1. destruct m1 as [|? [|? ?]]; [|done..]. injection E1 as <- <-. constructor; [lia|constructor].
      + cbn [entries] in E1. pose proof Hst as (Ht & _ & _). rewrite E1 in Ht. apply orderly_mid in Ht as (_ & _ & _ & Hb2).
        constructor; [lia|]. each q. lia.
    - exfalso. assert (Hin : p ∈ n).
      { assert (Hlk : (m ++ n) !! length m1 = Some p) by (rewrite <- E, E1; by apply list_lookup_middle).
        rewrite lookup_app_r in Hlk by lia. by eapply list_elem_of_lookup_2. }
      rewrite Forall_forall in Hn. specialize (Hn p Hin). lia. }
  destruct Hm1 as [Hlen Hn1].
  destruct (IH b2 m1 (p :: n1)) as [[-> Hnone]|(b0 & Hb00 & Hlo0 & Hal0 & Hfr & -> & Hnone)];
    [done|lia|lia|lia|by apply align_down_multiple|done|left|right].
  - split; [done|]. intros b' Hb' Hlo' Hal'. destruct (Z_le_gt_dec b' b2); [apply Hnone; (done || lia)|].
    apply Hno; [lia| |lia]. destruct (Z_le_gt_dec (b' + size) (pbase p)); [|lia].
    pose proof (align_down_greatest k Hk (pbase p - size) b' Hu Hal' ltac:(lia)). lia.
  - exists b0. split_and!; [lia|lia|done..|]. intros b' Hb' Hal'. destruct (Z_le_gt_dec b' b2); [apply Hnone; (done || lia)|].
    apply Hno; [lia| |lia]. destruct (Z_le_gt_dec (b' + size) (pbase p)); [|lia].
    pose proof (align_down_greatest k Hk (pbase p - size) b' Hu Hal' ltac:(lia)). lia.
Qed.

(** An aligned block of free addresses in a region of memory, below the bound. *)
Definition room_in (p : lmb_property) (rl : list lmb_property) (max_addr b : Z) : Prop :=
  0 < b /\ (align | b) /\ pbase p <= b /\ b + size <= pend p /\ (max_addr = 0 \/ b + size <= max_addr) /\ free_at rl b.

Definition room (ml rl : list lmb_property) (max_addr b : Z) : Prop := Exists (fun p => room_in p rl max_addr b) ml.

Lemma alloc_start_ok p max_addr : sound p -> max_addr = 0 \/ size <= max_addr < 2 ^ 64 ->
  match alloc_start p size align max_addr with
  | None => forall rl b, ~ room_in p rl max_addr b
  | Some b0 => 0 <= b0 /\ b0 + size <= pend p /\ (align | b0) /\ (max_addr = 0 \/ b0 + size <= max_addr) /\
      forall rl b, room_in p rl max_addr b -> b <= b0
  end.
Proof.
  intros Hp Hmax. unfold alloc_start, LMB_ALLOC_ANYWHERE. unfold sound in Hp. 
  destruct (Z.ltb_spec (psize p) size).
  { intros rl b (? & ? & ? & ? & _). unfold pend in *. lia. }
  rewrite (u64_small (pbase p + psize p)) by (unfold is_u64, pend in *; lia). fold (pend p).
  destruct (Z.eqb_spec max_addr 0) as [->|Hm0].
  - assert (Hu : is_u64 (pend p - size)) by (unfold is_u64, pend in *; lia). rewrite u64_small by done.
    pose proof (align_down_le k Hk _ Hu). split; [lia|]. split; [lia|]. split; [by apply align_down_multiple|].
    split; [by left|]. intros rl b (_ & Hal & _ & Hle & _). apply align_down_greatest; [done..|lia].
  - destruct (Z.ltb_spec (pbase p) max_addr); [|intros rl b (? & ? & ? & ? & ? & _); lia].
    destruct (Z.ltb_spec (pend p) (pbase p)); [unfold pend in *; lia|].
    assert (Hu : is_u64 (Z.min (pend p) max_addr - size)) by (unfold is_u64, pend in *; lia). rewrite u64_small by done.
    pose proof (align_down_le k Hk _ Hu). split; [lia|]. split; [lia|]. split; [by apply align_down_multiple|].
    split; [lia|]. intros rl b (_ & Hal & _ & Hle & Hle' & _). apply align_down_greatest; [done..|lia].
Qed.

(** What the search ends with: there is no room, or the highest is taken. *)
Definition searched (l : lmb) (ml rl : list lmb_property) (max_addr : Z) (res : option (lmb * Z)) : Prop :=
  (res = Some (l, 0) /\ forall b, ~ room ml rl max_addr b) \/
  exists b, room ml rl max_addr b /\ (forall b', room ml rl max_addr b' -> b' <= b) /\ res = take_at l b.

Lemma memory_loop_ok l rl max_addr : keeps (reserved l) rl -> max_addr = 0 \/ size <= max_addr < 2 ^ 64 ->
  forall m n, (exists junk, region (memory l) = m ++ n ++ junk) -> tidy (m ++ n) ->
  (forall b, ~ room n rl max_addr b) ->
  searched l (m ++ n) rl max_addr (memory_loop (length m) l size align max_addr).
Proof.
  intros Hst Hmax. induction m as [|p m IH] using rev_ind; intros n [junk Hr] Ht Hn; [by left|].
  rewrite <- app_assoc in Hr, Ht |- *. cbn [app] in *.
  replace (length (m ++ [p])) with (S (length m)) by count. cbn [memory_loop]. at_entry Hr.
  pose proof Ht as (Ht' & Hsp & Hb1 & Hb2)%tidy_mid.
  pose proof (alloc_start_ok p max_addr Hsp Hmax) as Hstart.
  assert (Hskip : (forall b, ~ room_in p rl max_addr b) ->
    searched l (m ++ p :: n) rl max_addr (memory_loop (length m) l size align max_addr)).
  { intros Hp. apply IH; [by exists junk|done|]. intros b [Hb|Hb]%Exists_cons; [by apply (Hp b)|by apply (Hn b)]. }
  destruct (alloc_start p size align max_addr) as [b0|]; [|by apply Hskip].
  destruct Hstart as (Hb0 & Hend & Hal0 & Hm0 & Hgreat).
  destruct (keeps_entries _ _ Hst) as (_ & _ & H9 & Hlen). rewrite H9. unfold sound in Hsp.
  destruct (alloc_loop_ok l rl (pbase p) Hst ltac:(lia) 11 b0 (entries rl) []) as [[-> Hnone]|(b & Hb & Hlo & Halb & Hfr & -> & Hnone)];
    [by rewrite app_nil_r|lia|lia|lia|done|constructor|..].
  - apply Hskip. intros b Hroom. pose proof (Hgreat _ _ Hroom). destruct Hroom as (H1 & H2 & H3 & _ & _ & H4).
    by apply (Hnone b ltac:(lia)).
  - right. exists b. split; [|split].
    + apply Exists_app. right. constructor. unfold room_in. split_and!; (done || lia).
    + intros b' [Hb'|[Hb'|Hb']%Exists_cons]%Exists_app; [| |by destruct (Hn b')].
      * apply Exists_exists in Hb' as (q & Hq & (? & _ & _ & Hqe & _)). rewrite Forall_forall in Hb1. specialize (Hb1 q Hq).
        unfold before in Hb1. lia.
      * pose proof (Hgreat _ _ Hb'). destruct Hb' as (H1 & H2 & H3 & _ & _ & H4).
        destruct (Z_le_gt_dec b' b); [done|]. by destruct (Hnone b' ltac:(lia) H2).
    + by destruct (take_at l b) as [[l' b']|].
Qed.

Lemma search_ok l ml rl max_addr :
  stands (memory l) ml -> keeps (reserved l) rl -> max_addr = 0 \/ size <= max_addr < 2 ^ 64 ->
  searched l ml rl max_addr (__lmb_alloc_base l size align max_addr).
Proof.
  intros Hm Hr Hmax. unfold __lmb_alloc_base.
  destruct (keeps_entries _ _ (stands_keeps _ _ Hm)) as ((Hc & junk & Harr & Hl) & _ & H9 & Hlen).
  rewrite s64_small by (unfold is_s64; lia). replace (Z.to_nat (cnt (memory l) - 1 + 1)) with (length (entries ml)) by lia.
  destruct ml as [|p ml].
  - left. split; [|intros b Hb; by apply Exists_nil in Hb]. cbn [entries length memory_loop].
    at_entry (Harr : region (memory l) = [] ++ mkProp 0 0 :: junk). unfold alloc_start. cbn [psize].
    destruct (Z.ltb_spec 0 size); [done|lia].
  - pose proof (memory_loop_ok l rl max_addr Hr Hmax (p :: ml) []) as Hrun. rewrite app_nil_r in Hrun.
    apply Hrun; [by exists junk|apply Hm|intros b Hb; by apply Exists_nil in Hb].
Qed.

(** What a call of the allocator ends with, if the size is a multiple. *)
Inductive alloc_result (l : lmb) (ml rl : list lmb_property) (max_addr : Z) : lmb -> Z -> Prop :=
  | alloc_none : (forall b, ~ room ml rl max_addr b) -> alloc_result l ml rl max_addr l 0
  | alloc_full b : length rl = 8%nat -> room ml rl max_addr b -> alloc_result l ml rl max_addr l 0
  | alloc_found r b : room ml rl max_addr b -> (forall b', room ml rl max_addr b' -> b' <= b) ->
      added b size rl r -> alloc_result l ml rl max_addr (mkLmb (memory l) r) b.

Lemma room_sound ml rl max_addr b s : Forall sound ml -> room ml rl max_addr b -> 0 < s <= size -> sound (mkProp b s).
Proof.
  intros Hml (p & Hp & H1 & _ & H3 & H4 & _)%Exists_exists Hs. rewrite Forall_forall in Hml. specialize (Hml p Hp).
  unfold sound, pend in *. cbn [pbase psize]. lia.
Qed.

Lemma room_free ml rl max_addr b : room ml rl max_addr b -> free_at rl b.
Proof. by intros (p & Hp & _ & _ & _ & _ & _ & H)%Exists_exists. Qed.

Lemma alloc_base_ok l ml rl max_addr :
  stands (memory l) ml -> stands (reserved l) rl -> (align | size) -> max_addr = 0 \/ size <= max_addr < 2 ^ 64 ->
  exists l' b, __lmb_alloc_base l size align max_addr = Some (l', b) /\ alloc_result l ml rl max_addr l' b.
Proof.
  intros Hm Hr Hal Hmax. destruct (search_ok l ml rl max_addr Hm (stands_keeps _ _ Hr) Hmax) as [[-> Hn]|(b & Hroom & Hhigh & ->)].
  { exists l, 0. split; [done|]. by constructor. }
  unfold take_at. rewrite align_up_multiple by (done || lia).
  assert (Hs : sound (mkProp b size)) by (eapply room_sound; [apply tidy_sound, Hm|done|lia]).
  destruct (add_ok b size Hs (reserved l) rl Hr (or_intror (room_free _ _ _ _ Hroom))) as (r & ret & -> & [(-> & -> & H8)|[Hret Ha]]);
    cbn [mbind option_bind].
  - exists l, 0. split; [by destruct l|]. by apply alloc_full with b.
  - destruct (Z.ltb_spec ret 0); [lia|]. exists (mkLmb (memory l) r), b. split; [done|]. by constructor.
Qed.

(** *** Blocks of any size *)

Lemma align_up_bounds : size <= lmb_align_up size align < size + align /\ (align | lmb_align_up size align).
Proof.
  pose proof (pow_small k Hk). unfold lmb_align_up. rewrite (u64_small (align - 1)) by (unfold is_u64; lia).
  rewrite u64_small by (unfold is_u64; lia). rewrite (land_not64 k Hk) by (unfold is_u64; lia).
  pose proof (Z.mod_pos_bound (size + (align - 1)) align ltac:(lia)). split; [lia|].
  exists ((size + (align - 1)) / align). pose proof (Z.div_mod (size + (align - 1)) align ltac:(lia)). lia.
Qed.

(** All is reserved from [top] to [lim], and the regions below start at multiples of
    the alignment. *)
Definition topped (top lim : Z) (l : list lmb_property) : Prop :=
  Forall (fun p => pbase p <= top /\ ((align | pbase p) \/ pbase p = top)) l /\
  forall a, top <= a < lim -> covers l a.

Lemma topped_clean top lim l b : Forall sound l -> topped top lim l -> (align | b) -> 0 <= b -> free_at l b ->
  clean b (lmb_align_up size align) l.
Proof.
  intros Hso [Hl _] Hal Hb Hfr. destruct align_up_bounds as [Hup Hmul]. split.
  - eapply Forall_impl; [exact Hfr|]. unfold disjoint, pend. cbn [pbase psize]. intros p. lia.
  - intros (p & Hp & Hpb)%Exists_exists. pose proof (proj1 (Forall_forall _ _) Hl p Hp) as [Hpt _].
    unfold free_at in Hfr. each q. destruct Hl as [_ [Hq|Hq]]; [|lia].
    destruct (Z_le_gt_dec (pbase q) b); [by left|right]. unfold disjoint, pend in *. cbn [pbase psize] in *.
    destruct Hal as [x ->], Hq as [y Hy], Hmul as [z Hz]. rewrite Hz, Hy in *. unfold sound in *.
    pose proof (pow_small k Hk). assert (x + z < y + 1) by (apply Z.mul_lt_mono_pos_r with (2 ^ k); lia).
    rewrite <- Z.mul_add_distr_r. apply Z.mul_le_mono_nonneg_r; lia.
Qed.

Lemma kept_topped top lim l b s r : topped top lim l -> (align | b) -> b <= top -> kept b s l r ->
  exists l', keeps r l' /\ topped top lim l' /\ (length l' <= S (length l))%nat /\
    forall a, covers l' a <-> covers l a \/ b <= a < b + s.
Proof.
  intros [Hl Hall] Hal Hbt (l' & Hk' & Hcov & Hstarts & Hlen). exists l'. split_and!; [done| |done|done]. split.
  - apply Forall_forall. intros q Hq. destruct (Hstarts (pbase q)) as [->|(p' & Hp' & <-)%Exists_exists].
    + apply Exists_exists. by exists q.
    + split; [lia|by left].
    + rewrite Forall_forall in Hl. by apply Hl.
  - intros a Ha. apply Hcov. left. by apply Hall.
Qed.

Lemma covered_not_free l b a : covers l a -> b <= a < b + size -> ~ free_at l b.
Proof.
  intros (p & Hp & Ha)%Exists_exists Hb Hfr. unfold free_at in Hfr. rewrite Forall_forall in Hfr. specialize (Hfr p Hp).
  unfold disjoint, pend in *. cbn [pbase psize] in *. lia.
Qed.

Lemma free_at_covers l b : Forall sound l -> free_at l b <-> forall a, b <= a < b + size -> ~ covers l a.
Proof.
  intros Hs. split.
  - intros Hfr a Ha Hc. by apply (covered_not_free l b a).
  - intros Hn. apply Forall_forall. intros p Hp. rewrite Forall_forall in Hs. specialize (Hs p Hp).
    unfold disjoint, sound, pend in *. cbn [pbase psize].
    destruct (Z_le_gt_dec (b + size) (pbase p)); [by left|]. destruct (Z_le_gt_dec (pbase p + psize p) b); [by right|exfalso].
    apply (Hn (Z.max b (pbase p))); [lia|]. apply Exists_exists. exists p. split; [done|]. unfold pend. lia.
Qed.

(** A block is taken below the top, and the table stays as it was otherwise. *)
Lemma alloc_topped l ml rl max_addr top lim :
  stands (memory l) ml -> keeps (reserved l) rl -> max_addr = 0 \/ size <= max_addr < 2 ^ 64 ->
  topped top lim rl -> Forall (fun p => pend p <= lim) ml -> top + align < 2 ^ 64 ->
  exists l' b, __lmb_alloc_base l size align max_addr = Some (l', b) /\
    ((b = 0 /\ l' = l /\ ((forall b', ~ room ml rl max_addr b') \/ length rl = 8%nat)) \/
     (room ml rl max_addr b /\ b + size <= top /\ (forall b', room ml rl max_addr b' -> b' <= b) /\ memory l' = memory l /\
      exists rl', keeps (reserved l') rl' /\ topped top lim rl' /\ (length rl' <= S (length rl))%nat /\
        forall a, covers rl' a <-> covers rl a \/ b <= a < b + lmb_align_up size align)).
Proof.
  intros Hm Hr Hmax Htop Hlim Hfit.
  destruct (search_ok l ml rl max_addr Hm Hr Hmax) as [[-> Hn]|(b & Hroom & Hhigh & ->)].
  { exists l, 0. split; [done|]. left. split; [done|]. split; [done|]. by left. }
  pose proof (room_free _ _ _ _ Hroom) as Hfr. pose proof Hroom as (p & Hp & Hb0 & Hbal & Hbp & Hbe & _)%Exists_exists.
  rewrite Forall_forall in Hlim. specialize (Hlim p Hp). destruct align_up_bounds as [Hup _].
  assert (Hbt : b + size <= top).
  { destruct (Z_le_gt_dec (b + size) top) as [|Hgt]; [done|exfalso].
    destruct (Z_lt_le_dec b top) as [Hlt|Hge].
    - apply (covered_not_free rl b top); [apply Htop; lia|lia|done].
    - apply (covered_not_free rl b b); [apply Htop; lia|lia|done]. }
  assert (Hs : sound (mkProp b (lmb_align_up size align))) by (unfold sound, pend; cbn [pbase psize]; lia).
  pose proof (topped_clean top lim rl b (orderly_sound _ (proj1 Hr)) Htop Hbal ltac:(lia) Hfr) as Hcl. unfold take_at.
  destruct (add_kept b (lmb_align_up size align) Hs (reserved l) rl Hr Hcl) as (r & ret & -> & [(-> & -> & H8)|[Hret Hkept]]);
    cbn [mbind option_bind].
  - exists l, 0. split; [by destruct l|]. left. auto.
  - destruct (Z.ltb_spec ret 0); [lia|]. exists (mkLmb (memory l) r), b. split; [done|]. right.
    split; [done|]. split; [done|]. split; [done|]. split; [done|]. apply (kept_topped top lim rl); (done || lia).
Qed.
End Allocating.

(** ** The operations as steps on sets of addresses *)

Inductive op :=
  | Add (base size : Z)
  | Reserve (base size : Z)
  | Free (base size : Z)
  | Alloc (k size max_addr : Z).

Definition exec (o : op) (l : lmb) : option (lmb * Z) :=
  match o with
  | Add b s => lmb_add l b s
  | Reserve b s => lmb_reserve l b s
  | Free b s => lmb_free l b s
  | Alloc k s max_addr => lmb_alloc_base l s (2 ^ k) max_addr
  end.

(** What the callers must see to: a new region has no address that is in the table,
    the last region is not freed whole, and blocks are a multiple of a power of two. *)
Definition legal (o : op) (ml rl : list lmb_property) : Prop :=
  match o with
  | Add b s => sound (mkProp b s) /\ fresh b s ml
  | Reserve b s => sound (mkProp b s) /\ fresh b s rl
  | Free b s => sound (mkProp b s) /\ rl <> [mkProp b s]
  | Alloc k s max_addr =>
      0 <= k < 64 /\ 0 < s < 2 ^ 64 - 2 ^ k /\ (2 ^ k | s) /\ (max_addr = 0 \/ s <= max_addr < 2 ^ 64)
  end.

(** The set gains the range, or the table was full. *)
Definition grows (l l' : list lmb_property) (b s ret : Z) : Prop :=
  (ret = -1 /\ l' = l /\ length l = 8%nat) \/
  (0 <= ret /\ forall a, covers l' a <-> covers l a \/ b <= a < b + s).

Definition effect (o : op) (ret : Z) (ml rl ml' rl' : list lmb_property) : Prop :=
  match o with
  | Add b s => rl' = rl /\ grows ml ml' b s ret
  | Reserve b s => ml' = ml /\ grows rl rl' b s ret
  | Free b s =>
      ml' = ml /\
      ((ret = -1 /\ rl' = rl /\ Forall (fun p => ~ within b s p) rl) \/
       (0 <= ret /\ Exists (within b s) rl /\ forall a, covers rl' a <-> covers rl a /\ ~ (b <= a < b + s)) \/
       (ret = -1 /\ length rl = 8%nat /\ exists p, p ∈ rl /\ pbase p < b /\ b + s < pend p /\
          forall a, covers rl' a <-> covers rl a /\ ~ (b <= a < pend p)))
  | Alloc k s max_addr =>
      ml' = ml /\
      ((ret = 0 /\ rl' = rl /\ forall b, ~ room k s ml rl max_addr b) \/
       (ret = 0 /\ rl' = rl /\ length rl = 8%nat) \/
       (room k s ml rl max_addr ret /\ (forall b, room k s ml rl max_addr b -> b <= ret) /\
          forall a, covers rl' a <-> covers rl a \/ ret <= a < ret + s))
  end.

#[global] Instance within_dec b s p : Decision (within b s p).
Proof. unfold within; apply _. Defined.

Lemma add_grows rgn l b s : stands rgn l -> sound (mkProp b s) -> fresh b s l ->
  exists rgn' ret l', lmb_add_region rgn b s = Some (rgn', ret) /\ stands rgn' l' /\ grows l l' b s ret.
Proof.
  intros Hst Hs Hf. destruct (add_ok b s Hs rgn l Hst Hf) as (r & ret & Hrun & [(-> & -> & H8)|(Hret & l' & Hst' & Hc)]).
  - exists rgn, (-1), l. split; [done|]. split; [done|]. by left.
  - exists r, ret, l'. split; [done|]. split; [done|]. by right.
Qed.

(** Each operation takes tables that are tidy to tables that are, and does to the
    sets of addresses what it is for. *)
Lemma exec_ok l ml rl o : stands (memory l) ml -> stands (reserved l) rl -> legal o ml rl ->
  exists l' ret ml' rl', exec o l = Some (l', ret) /\
    stands (memory l') ml' /\ stands (reserved l') rl' /\ effect o ret ml rl ml' rl'.
Proof.
  intros Hm Hr Hl. destruct o as [b s|b s|b s|k s max_addr]; cbn [exec legal effect] in *.
  - destruct Hl as [Hs Hf]. destruct (add_grows _ _ b s Hm Hs Hf) as (r & ret & ml' & Hrun & Hst & Hg).
    unfold lmb_add. rewrite Hrun. cbn [mbind option_bind]. eexists _, _, ml', rl. by split_and!.
  - destruct Hl as [Hs Hf]. destruct (add_grows _ _ b s Hr Hs Hf) as (r & ret & rl' & Hrun & Hst & Hg).
    unfold lmb_reserve. rewrite Hrun. cbn [mbind option_bind]. eexists _, _, ml, rl'. by split_and!.
  - destruct Hl as [Hs Hne]. unfold lmb_free. destruct (Exists_dec (within b s) rl) as [Hw|Hw%not_Exists_Forall].
    + destruct (free_ok b s Hs _ rl Hr Hw Hne) as (r & ret & -> & [(Hret & rl' & Hst & Hc)|(-> & H8 & p & Hp & H1 & H2 & rl' & Hst & Hc)]);
        cbn [mbind option_bind]; eexists _, _, ml, rl'; (split; [done|]; split; [done|]; split; [done|]; split; [done|]).
      * right. left. by split_and!.
      * right. right. split; [done|]. split; [done|]. by exists p.
    + rewrite (free_missing b s Hs _ rl) by done. cbn [mbind option_bind]. eexists _, _, ml, rl.
      split; [done|]. split; [done|]. split; [done|]. split; [done|]. by left.
    + intros p. apply within_dec.
  - destruct Hl as (Hk & Hs & Hal & Hmax). unfold lmb_alloc_base.
    destruct (alloc_base_ok k s Hk Hs l ml rl max_addr Hm Hr Hal Hmax) as (l' & b & -> & Hres).
    destruct Hres as [Hn|b H8 _|r b Hroom Hhigh (rl' & Hst & Hc)].
    + exists l, 0, ml, rl. split_and!; [done..|]. by left.
    + exists l, 0, ml, rl. split_and!; [done..|]. right. by left.
    + eexists _, _, ml, rl'. split; [done|]. split; [done|]. split; [done|]. split; [done|]. right. right. by split_and!.
Qed.

(** A table stands for one list. *)
Lemma stands_unique rgn l1 l2 : stands rgn l1 -> stands rgn l2 -> l1 = l2.
Proof.
  intros (Ht1 & _ & Hh1) (Ht2 & _ & Hh2). fold (entries l1) (entries l2) in *.
  assert (E : entries l1 = entries l2).
  { destruct Hh1 as (Hc1 & j1 & Hr1 & _), Hh2 as (Hc2 & j2 & Hr2 & _).
    rewrite Hr1 in Hr2. apply app_inj_1 in Hr2 as [? _]; [done|lia]. }
  assert (Hno : forall p l, tidy (p :: l) -> p <> mkProp 0 0).
  { intros p l ((? & ? & _) & _) ->. cbn in *. lia. }
  destruct l1 as [|p1 l1], l2 as [|p2 l2]; cbn [entries] in E; [done| | |done]; injection E as E _;
    exfalso; [eapply (Hno p2)|eapply (Hno p1)]; eauto.
Qed.

(** The tables that calls with legal arguments lead to. *)
Inductive reachable : lmb -> Prop :=
  | reach_init l0 l : lmb_init l0 = Some l -> length (region (memory l0)) = 9%nat ->
      length (region (reserved l0)) = 9%nat -> reachable l
  | reach_step l ml rl o l' ret : reachable l -> stands (memory l) ml -> stands (reserved l) rl -> legal o ml rl ->
      exec o l = Some (l', ret) -> reachable l'.

Lemma empty_ok rgn : length (region rgn) = 9%nat -> exists rgn', empty_region rgn = Some rgn' /\ stands rgn' [].
Proof.
  intros H9. destruct (region rgn) as [|p0 r] eqn:Hr; [done|]. unfold empty_region.
  rewrite (set_reg_mid rgn [] p0 r 0 (mkProp 0 0) Hr eq_refl). cbn [mbind option_bind]. eexists. split; [done|].
  split; [done|]. split; [simpl; lia|]. split; [done|]. exists r. done.
Qed.

Lemma reachable_tidy l : reachable l -> exists ml rl, stands (memory l) ml /\ stands (reserved l) rl.
Proof.
  induction 1 as [l0 l Hi H1 H2|l ml rl o l' ret _ _ Hm Hr Hl He].
  - destruct (empty_ok _ H1) as (m & Em & Hm), (empty_ok _ H2) as (r & Er & Hr). unfold lmb_init in Hi.
    rewrite Em in Hi. cbn [mbind option_bind] in Hi. rewrite Er in Hi. injection Hi as <-. by exists [], [].
  - destruct (exec_ok l ml rl o Hm Hr Hl) as (l2 & ret2 & ml' & rl' & He2 & Hm' & Hr' & _).
    rewrite He in He2. injection He2 as <- <-. eauto.
Qed.

(** ** Any region at all *)

(** The shape of a table: between one and eight entries of an array of nine.  It is
    enough for a call to return, whatever the region and the entries are. *)
Definition shaped (rgn : lmb_region) : Prop := 1 <= cnt rgn <= 8 /\ length (region rgn) = 9%nat.

(** [rgn'] has as many entries as [rgn]. *)
Definition as_many (rgn rgn' : lmb_region) : Prop := cnt rgn' = cnt rgn /\ length (region rgn') = length (region rgn).

Lemma keeps_shaped rgn l : keeps rgn l -> shaped rgn.
Proof.
  intros (_ & Hl & Hc & junk & Hr & H9). unfold shaped. rewrite Hc, Hr, H9. destruct l; cbn [entries length] in *; split; (done || lia).
Qed.

Lemma reg_total rgn i : length (region rgn) = 9%nat -> 0 <= i < 9 -> exists p, reg rgn i = Some p.
Proof.
  intros Hl Hi. unfold reg. destruct (Z.ltb_spec i 0); [lia|]. apply lookup_lt_is_Some. lia.
Qed.

Lemma set_reg_total rgn i p : length (region rgn) = 9%nat -> 0 <= i < 9 -> exists rgn', set_reg rgn i p = Some rgn' /\ as_many rgn rgn'.
Proof.
  intros Hl Hi. unfold set_reg. destruct (Z.ltb_spec i 0), (Z.leb_spec (Z.of_nat (length (region rgn))) i); try lia.
  eexists. split; [done|]. split; [done|]. cbn [region]. apply length_insert.
Qed.

Lemma remove_loop_total fuel : forall i rgn, shaped rgn -> 0 <= i -> cnt rgn - 1 < i + Z.of_nat fuel -> (0 < fuel)%nat ->
  exists rgn', remove_loop fuel i rgn = Some rgn' /\ as_many rgn rgn'.
Proof.
  induction fuel as [|fuel IH]; intros i rgn [Hc Hl] Hi Hf Hf'; [lia|]. cbn [remove_loop].
  rewrite u64_small by (unfold is_u64; lia). destruct (Z.ltb_spec i (cnt rgn - 1)); [|by exists rgn].
  destruct (reg_total rgn (i + 1) Hl ltac:(lia)) as [p ->]. cbn [mbind option_bind].
  destruct (set_reg_total rgn i p Hl ltac:(lia)) as (r & -> & [Hc' Hl']). cbn [mbind option_bind].
  destruct (IH (i + 1) r) as (r' & -> & [Hc'' Hl'']); [split; [by rewrite Hc'|by rewrite Hl']|lia|lia|destruct fuel; lia|].
  exists r'. split; [done|]. split; congruence.
Qed.

Lemma join_next_total rgn i c : shaped rgn -> 0 <= i -> exists rgn' c', join_next rgn i c = Some (rgn', c') /\
  (shaped rgn' /\ (c' = c -> cnt rgn' = cnt rgn)).
Proof.
  intros [Hc Hl] Hi. unfold join_next. rewrite u64_small by (unfold is_u64; lia). destruct (Z.ltb_spec i (cnt rgn - 1)); [|by eexists _, _].
  unfold lmb_regions_adjacent, lmb_coalesce_regions. destruct (reg_total rgn i Hl ltac:(lia)) as [p ->], (reg_total rgn (i + 1) Hl ltac:(lia)) as [q ->].
  cbn [mbind option_bind]. destruct (_ =? 0); [by eexists _, _|].
  destruct (set_reg_total rgn i (mkProp (pbase p) (u64 (psize p + psize q))) Hl ltac:(lia)) as (r & -> & [Hc' Hl']). cbn [mbind option_bind].
  unfold lmb_remove_region. destruct (remove_loop_total (S (length (region r))) (i + 1) r) as (r' & -> & [Hc'' Hl'']); [split; [by rewrite Hc'|by rewrite Hl']|lia..|].
  cbn [mbind option_bind]. eexists _, _. split; [reflexivity|]. rewrite Hc'', Hc', u64_small by (unfold is_u64; lia).
  split; [|lia]. split; cbn [cnt region set_cnt]; [lia|congruence].
Qed.

Lemma coalesce_loop_total base size fuel : forall i rgn, shaped rgn -> 0 <= i <= cnt rgn -> cnt rgn - i < Z.of_nat fuel ->
  exists s, coalesce_loop fuel i rgn base size = Some s /\
    match s with Present => True | Joined r j => shaped r /\ 0 <= j | Apart j => 0 <= j end.
Proof.
  induction fuel as [|fuel IH]; intros i rgn [Hc Hl] Hi Hf; [lia|]. cbn [coalesce_loop].
  destruct (Z.ltb_spec i (cnt rgn)); [|eexists; split; [done|cbn; lia]].
  destruct (reg_total rgn i Hl ltac:(lia)) as [p ->]. cbn [mbind option_bind]. destruct (_ && _); [by eexists|].
  assert (Hset : forall q, exists s, (r ← set_reg rgn i q; Some (Joined r i)) = Some s /\
    match s with Present => True | Joined r j => shaped r /\ 0 <= j | Apart j => 0 <= j end).
  { intros q. destruct (set_reg_total rgn i q Hl ltac:(lia)) as (r & -> & [Hc' Hl']). cbn [mbind option_bind]. eexists. split; [done|].
    split; [|lia]. split; [by rewrite Hc'|by rewrite Hl']. }
  cbv zeta. destruct (0 <? _); [apply Hset|]. destruct (_ <? 0); [apply Hset|]. apply IH; [done|lia|lia].
Qed.

Lemma insert_loop_total base size n : forall rgn, length (region rgn) = 9%nat -> (n <= 8)%nat ->
  exists rgn', insert_loop n rgn base size = Some rgn' /\ as_many rgn rgn'.
Proof.
  induction n as [|n IH]; intros rgn Hl Hn; cbn [insert_loop]; [by exists rgn|].
  destruct (reg_total rgn (Z.of_nat n) Hl ltac:(lia)) as [p ->]. cbn [mbind option_bind].
  destruct (base <? pbase p); [|by apply set_reg_total; [|lia]].
  destruct (set_reg_total rgn (Z.of_nat n + 1) p Hl ltac:(lia)) as (r & -> & [Hc' Hl']). cbn [mbind option_bind].
  destruct (IH r) as (r' & -> & [Hc'' Hl'']); [congruence|lia|]. exists r'. split; [done|]. split; congruence.
Qed.

Lemma add_region_total rgn base size : shaped rgn -> exists rgn' ret, lmb_add_region rgn base size = Some (rgn', ret) /\ shaped rgn'.
Proof.
  intros [Hc Hl]. pose proof (conj Hc Hl : shaped rgn) as Hsh. unfold lmb_add_region. destruct (reg_total rgn 0 Hl ltac:(lia)) as [p ->]. cbn [mbind option_bind].
  destruct (_ && _).
  { destruct (set_reg_total rgn 0 (mkProp base size) Hl ltac:(lia)) as (r & -> & [Hc' Hl']). eexists _, _. split; [done|]. unfold shaped. by rewrite Hc', Hl'. }
  destruct (coalesce_loop_total base size (S (length (region rgn))) 0 rgn Hsh ltac:(lia) ltac:(lia)) as (s & -> & Hs). cbn [mbind option_bind].
  destruct s as [|r j|j].
  - by eexists _, _.
  - destruct Hs as [Hr Hj]. destruct (join_next_total r j 1 Hr Hj) as (r' & c & -> & Hr' & _). by eexists _, _.
  - destruct (join_next_total rgn j 0 Hsh Hs) as (r & c & -> & Hr & Hcnt). cbn [mbind option_bind].
    destruct (Z.eqb_spec c 0) as [->|]; cbn [negb]; [|by eexists _, _]. specialize (Hcnt eq_refl).
    destruct (Z.leb_spec MAX_LMB_REGIONS (cnt r)) as [|Hmax]; [by eexists _, _|]. unfold MAX_LMB_REGIONS in Hmax. destruct Hr as [Hrc Hrl].
    unfold insert_region. rewrite s64_small by (unfold is_s64; lia).
    destruct (insert_loop_total base size (Z.to_nat (cnt r - 1 + 1)) r Hrl ltac:(lia)) as (r1 & -> & [Hc1 Hl1]). cbn [mbind option_bind].
    destruct (reg_total r1 0 ltac:(congruence) ltac:(lia)) as [q ->]. cbn [mbind option_bind].
    assert (Hfirst : exists r2, (if base <? pbase q then set_reg r1 0 (mkProp base size) else Some r1) = Some r2 /\ as_many r1 r2).
    { destruct (base <? pbase q); [apply set_reg_total; [congruence|lia]|by exists r1]. }
    destruct Hfirst as (r2 & -> & [Hc2 Hl2]). cbn [mbind option_bind]. eexists _, _. split; [reflexivity|].
    split; cbn [cnt region set_cnt]; [rewrite u64_small by (unfold is_u64; lia); lia|congruence].
Qed.

Lemma reserve_total l base size : shaped (reserved l) -> exists l' ret, lmb_reserve l base size = Some (l', ret) /\ memory l' = memory l /\ shaped (reserved l').
Proof.
  intros Hs. destruct (add_region_total (reserved l) base size Hs) as (r & ret & E & Hr). unfold lmb_reserve. rewrite E. by eexists _, _.
Qed.

(** ** Whether an address is reserved *)

Lemma reserved_loop_ok a l2 : forall fuel rgn l1,
  holds rgn (l1 ++ l2) -> Forall sound l2 -> (length l2 < fuel)%nat ->
  exists v, reserved_loop fuel (Z.of_nat (length l1)) rgn a = Some v /\ (v = 1 \/ v = 0) /\ (v = 1 <-> covers l2 a).
Proof.
  induction l2 as [|p l2 IH]; intros fuel rgn l1 Hh Hs Hf;
    (destruct fuel as [|fuel]; [simpl in Hf; lia|]); cbn [reserved_loop]; pose proof Hh as (Hc & junk & Hr & Hl).
  - rewrite app_nil_r in *. destruct (Z.ltb_spec (Z.of_nat (length l1)) (cnt rgn)); [lia|]. exists 0.
    rewrite covers_nil. split; [done|]. lia.
  - apply Forall_cons in Hs as [Hp Hs]. destruct (Z.ltb_spec (Z.of_nat (length l1)) (cnt rgn)); [|count].
    rewrite <- app_assoc in Hr. cbn [app] in Hr. at_entry Hr. unfold sound, pend in Hp.
    rewrite u64_small by (unfold is_u64; lia).
    replace (Z.of_nat (length l1) + 1) with (Z.of_nat (length (l1 ++ [p]))) by count.
    destruct (IH fuel rgn (l1 ++ [p])) as (v & Hv & H01 & Hcov); [by rewrite <- app_assoc|done|simpl in Hf; lia|].
    setoid_rewrite covers_cons. rewrite Hv. unfold pend.
    destruct (Z.leb_spec (pbase p) a), (Z.leb_spec a (pbase p + psize p - 1)); cbn [andb];
      [exists 1|exists v..]; (split; [done|]; split; [lia|]); intuition lia.
Qed.

Lemma is_reserved_ok l rl a : keeps (reserved l) rl -> is_u64 a ->
  exists v, lmb_is_reserved l a = Some v /\ (v = 1 \/ v = 0) /\ (v = 1 <-> covers rl a \/ rl = []).
Proof.
  intros Hst Ha. destruct (keeps_entries _ _ Hst) as (Hh & _ & H9 & Hlen). unfold lmb_is_reserved. rewrite H9.
  destruct rl as [|p rl].
  - exists 1. destruct Hh as (Hc & junk & Hr & _). cbn [reserved_loop]. rewrite Hc. cbn [entries length].
    at_entry (Hr : region (reserved l) = [] ++ mkProp 0 0 :: junk). cbn [pbase psize].
    unfold is_u64 in Ha. destruct (Z.leb_spec 0 a); [|lia]. change (u64 (0 + 0 - 1)) with (2 ^ 64 - 1).
    destruct (Z.leb_spec a (2 ^ 64 - 1)); [|lia]. split; [done|]. split; [by left|]. tauto.
  - destruct (reserved_loop_ok a (p :: rl) 10 (reserved l) [] Hh) as (v & Hv & H01 & Hcov); [apply orderly_sound, Hst|cbn [entries] in Hlen; lia|].
    exists v. split; [exact Hv|]. split; [done|]. rewrite Hcov. split; [by left|by intros [?|?]].
Qed.

(** ** Freeing the last region *)

(** The count drops to zero, and the entry stays in the array. *)
Lemma free_last rgn p junk : region rgn = p :: junk -> length junk = 8%nat -> cnt rgn = 1 -> sound p ->
  free_region rgn (pbase p) (psize p) = Some (set_cnt rgn 0, 0).
Proof.
  intros Hr Hl Hc Hp. unfold free_region, sound in *. rewrite u64_small by (unfold is_u64, pend in *; lia).
  replace (length (region rgn)) with 9%nat by (by rewrite Hr; simpl; lia). cbn [find_loop].
  rewrite Hc. change (0 <? 1) with true. cbv iota. at_entry (Hr : region rgn = [] ++ p :: junk).
  rewrite u64_small by (unfold is_u64, pend in *; lia). rewrite !Z.leb_refl. cbn [andb mbind option_bind].
  rewrite !Z.eqb_refl. cbn [andb]. unfold lmb_remove_region. rewrite Hr. cbn [length remove_loop]. rewrite Hc.
  change (0 <? u64 (1 - 1)) with false. cbv iota. cbn [mbind option_bind]. rewrite Hc. done.
Qed.

(** With no entry, the first one of the array is taken for one all the same. *)
Lemma reserve_after rgn p r junk q : region rgn = p :: r :: junk -> length junk = 7%nat -> cnt rgn = 0 ->
  sound p -> lmb_addrs_adjacent (pbase p) (psize p) (pbase r) (psize r) = 0 -> pbase p <= pbase q ->
  lmb_add_region rgn (pbase q) (psize q) = Some (set_cnt rgn 1, 0).
Proof.
  intros Hr Hl Hc Hp Hadj Hq. unfold lmb_add_region. at_entry (Hr : region rgn = [] ++ p :: r :: junk). rewrite Hc.
  change (0 =? 1) with false. cbn [andb]. rewrite Hr at 1. cbn [length coalesce_loop]. rewrite Hc.
  change (0 <? 0) with false. cbn [mbind option_bind]. unfold join_next. rewrite Hc.
  change (0 <? u64 (0 - 1)) with true. cbv iota. unfold lmb_regions_adjacent.
  at_entry (Hr : region rgn = [] ++ p :: r :: junk).
  rewrite (reg_mid rgn [p] r junk) by done. cbn [mbind option_bind]. rewrite Hadj. change (0 =? 0) with true. cbv iota.
  cbn [mbind option_bind negb]. unfold MAX_LMB_REGIONS. rewrite Hc. change (8 <=? 0) with false. cbv iota.
  unfold insert_region. rewrite Hc. change (Z.to_nat (s64 (0 - 1) + 1)) with 0%nat. cbn [insert_loop mbind option_bind].
  at_entry (Hr : region rgn = [] ++ p :: r :: junk). destruct (Z.ltb_spec (pbase q) (pbase p)); [lia|].
  cbn [mbind option_bind]. by rewrite Hc.
Qed.

Lemma free_reserve l p r junk q :
  region (reserved l) = p :: r :: junk -> length junk = 7%nat -> cnt (reserved l) = 1 ->
  sound p -> lmb_addrs_adjacent (pbase p) (psize p) (pbase r) (psize r) = 0 -> pbase p <= pbase q ->
  exists l1 l2, lmb_free l (pbase p) (psize p) = Some (l1, 0) /\
    lmb_reserve l1 (pbase q) (psize q) = Some (l2, 0) /\ stands (reserved l2) [p].
Proof.
  intros Hr Hl Hc Hp Hadj Hq. exists (mkLmb (memory l) (set_cnt (reserved l) 0)), (mkLmb (memory l) (set_cnt (reserved l) 1)).
  unfold lmb_free, lmb_reserve. rewrite (free_last _ p (r :: junk)) by (done || simpl; lia). cbn [mbind option_bind].
  split; [done|]. cbn [reserved memory]. rewrite (reserve_after (set_cnt (reserved l) 0) p r junk q) by done.
  split; [done|]. cbn [reserved]. split; [split; [done|by repeat constructor]|]. split; [simpl; lia|]. split; [done|].
  exists (r :: junk). split; [exact Hr|]. simpl. lia.
Qed.

(** ** The theorems *)

(** C19: calls with legal arguments, in any order, never leave the arrays, whatever
    they held before, and keep both tables tidy: every region has a byte and ends
    below the top of the address space, the regions are in order, no two touch, and
    there are at most eight; and the next legal call does not fault either. *)
Theorem lmb_stays_tidy l o : reachable l ->
  exists ml rl, stands (memory l) ml /\ stands (reserved l) rl /\ tidy ml /\ tidy rl /\
    (legal o ml rl -> is_Some (exec o l)).
Proof.
  intros Hl. destruct (reachable_tidy l Hl) as (ml & rl & Hm & Hr). exists ml, rl.
  split; [done|]. split; [done|]. split; [apply Hm|]. split; [apply Hr|]. intros Hlegal.
  destruct (exec_ok l ml rl o Hm Hr Hlegal) as (l' & ret & _ & _ & He & _). rewrite He. by eexists.
Qed.

(** C18: the operations implement steps on two sets of addresses: adding and reserving
    join the range to its set, or leave it alone if the table is full; freeing takes
    the range out, if one region holds it; but if the range is in the midst of a
    region and the table is full, all of the region from the range on is lost. *)
Theorem lmb_refines_sets l ml rl o :
  stands (memory l) ml -> stands (reserved l) rl -> legal o ml rl ->
  exists l' ret ml' rl', exec o l = Some (l', ret) /\
    stands (memory l') ml' /\ stands (reserved l') rl' /\ effect o ret ml rl ml' rl'.
Proof. apply exec_ok. Qed.

(** C20: the allocator ends, and finds the highest aligned block of free addresses in
    memory below the bound; it returns zero only if there is none, or if there is no
    room in the table to reserve it; and it reserves just the block. *)
Theorem lmb_alloc_highest k size l ml rl max_addr :
  stands (memory l) ml -> stands (reserved l) rl -> 0 <= k < 64 -> 0 < size < 2 ^ 64 - 2 ^ k -> (2 ^ k | size) ->
  max_addr = 0 \/ size <= max_addr < 2 ^ 64 ->
  exists l' b, lmb_alloc_base l size (2 ^ k) max_addr = Some (l', b) /\
    alloc_result k size l ml rl max_addr l' b.
Proof. intros Hm Hr Hk Hs Hal Hmax. by apply alloc_base_ok. Qed.

(** Whether an address is reserved is answered rightly if any is; but as long as
    none is, every address is said to be reserved. *)
Theorem lmb_is_reserved_answers l rl a : keeps (reserved l) rl -> is_u64 a ->
  exists v, lmb_is_reserved l a = Some v /\ (v = 1 \/ v = 0) /\ (v = 1 <-> covers rl a \/ rl = []).
Proof. apply is_reserved_ok. Qed.

(** Once the only reserved region has been freed, reserving one that starts no
    lower reserves the freed region instead, and reports success. *)
Theorem lmb_free_resurrects l p r junk q :
  region (reserved l) = p :: r :: junk -> length junk = 7%nat -> cnt (reserved l) = 1 ->
  sound p -> lmb_addrs_adjacent (pbase p) (psize p) (pbase r) (psize r) = 0 -> pbase p <= pbase q ->
  exists l1 l2, lmb_free l (pbase p) (psize p) = Some (l1, 0) /\
    lmb_reserve l1 (pbase q) (psize q) = Some (l2, 0) /\ stands (reserved l2) [p].
Proof. apply free_reserve. Qed.

(** An [lmb] in memory that is all zeros. *)
Definition zeroed : lmb :=
  let r := mkRegion 0 0 (replicate 9 (mkProp 0 0)) in mkLmb r r.

Definition calls (os : list op) : option lmb :=
  l ← lmb_init zeroed; foldl (fun l o => l ← l; '(l, _) ← exec o l; Some l) (Some l) os.

Definition said (os : list op) (a : Z) : option Z := l ← calls os; lmb_is_reserved l a.

(** Regions that overlap are not legal: reserving one that does can take another
    out of the table. *)
Theorem lmb_overlap_loses :
  let os := [Reserve 0x10000 0x10000; Reserve 0x15000 0x3000; Reserve 0x5000 0x10000] in
  said os 0x1F000 = Some 1 /\ said (os ++ [Reserve 0x8000 0x1000]) 0x1F000 = Some 0.
Proof. vm_compute. auto. Qed.

(** A block whose size is not a multiple of the alignment is reserved up to the next
    multiple, over what is reserved there. *)
Theorem lmb_alloc_overlaps :
  (l ← calls [Add 0x40000000 0x1000000; Reserve 0x40F00800 0xFF800; Alloc 12 0x1400 0];
   Some (take 2 (region (reserved l)))) =
  Some [mkProp 0x40EFF000 0x2000; mkProp 0x40F00800 0xFF800].
Proof. vm_compute. auto. Qed.

(** Where the bound is below the size, the address wraps, and what is returned is no
    memory at all. *)
Theorem lmb_alloc_wraps :
  (l ← calls [Add 0x1000 0x1000000];
   '(_, b) ← lmb_alloc_base l 0x4000 0x1000 0x2000; Some b) = Some 0xFFFFFFFFFFFFE000.
Proof. vm_compute. auto. Qed.

(** ** Witnesses *)

#[local] Instance sound_dec p : Decision (sound p).
Proof. unfold sound; apply _. Defined.

#[local] Instance before_dec p q : Decision (before p q).
Proof. unfold before; apply _. Defined.

#[local] Instance tidy_dec l : Decision (tidy l).
Proof. induction l; cbn [tidy]; apply _. Defined.

(** A decidable goal that evaluates to [true]. *)
Ltac by_decision := refine (bool_decide_eq_true_1 _ _); vm_compute; reflexivity.

(** The memory of the board with what is above the stack reserved. *)
Definition ram : lmb_property := mkProp 0x40000000 0x38000000.
Definition stack : lmb_property := mkProp 0x77000000 0x1000000.

Definition board : lmb :=
  mkLmb (mkRegion 1 0 (ram :: replicate 8 (mkProp 0 0))) (mkRegion 1 0 (stack :: replicate 8 (mkProp 0 0))).

Lemma board_memory : stands (memory board) [ram].
Proof.
  split; [by_decision|]. split; [simpl; lia|]. split; [done|].
  by exists (replicate 8 (mkProp 0 0)).
Qed.

Lemma board_reserved : stands (reserved board) [stack].
Proof.
  split; [by_decision|]. split; [simpl; lia|]. split; [done|].
  by exists (replicate 8 (mkProp 0 0)).
Qed.

Lemma lmb_stays_tidy_witness :
  let l := mkLmb (mkRegion 1 0 (replicate 9 (mkProp 0 0))) (mkRegion 1 0 (replicate 9 (mkProp 0 0))) in
  exists ml rl, stands (memory l) ml /\ stands (reserved l) rl /\ tidy ml /\ tidy rl /\
    (legal (Add 0x40000000 0x38000000) ml rl -> is_Some (exec (Add 0x40000000 0x38000000) l)).
Proof. refine (lmb_stays_tidy _ _ _). exact (reach_init zeroed _ eq_refl eq_refl eq_refl). Defined.

Lemma lmb_refines_sets_witness :
  exists l' ret ml' rl', exec (Free 0x77100000 0x1000) board = Some (l', ret) /\
    stands (memory l') ml' /\ stands (reserved l') rl' /\
    effect (Free 0x77100000 0x1000) ret [ram] [stack] ml' rl'.
Proof.
  refine (lmb_refines_sets board [ram] [stack] _ board_memory board_reserved _).
  split; [by_decision|discriminate].
Defined.

Lemma lmb_alloc_highest_witness :
  exists l' b, lmb_alloc_base board 0x3000 (2 ^ 12) 0 = Some (l', b) /\
    alloc_result 12 0x3000 board [ram] [stack] 0 l' b.
Proof.
  refine (lmb_alloc_highest 12 0x3000 board [ram] [stack] 0 board_memory board_reserved _ _ _ _).
  - lia.
  - vm_compute. auto.
  - by exists 3.
  - by left.
Defined.

Lemma lmb_is_reserved_answers_witness :
  exists v, lmb_is_reserved board 0x77100000 = Some v /\ (v = 1 \/ v = 0) /\
    (v = 1 <-> covers [stack] 0x77100000 \/ [stack] = []).
Proof. refine (lmb_is_reserved_answers board [stack] _ (stands_keeps _ _ board_reserved) _). unfold is_u64. lia. Defined.

Lemma lmb_free_resurrects_witness :
  exists l1 l2, lmb_free board (pbase stack) (psize stack) = Some (l1, 0) /\
    lmb_reserve l1 0x77800000 0x1000 = Some (l2, 0) /\ stands (reserved l2) [stack].
Proof.
  refine (lmb_free_resurrects board stack (mkProp 0 0) (replicate 7 (mkProp 0 0)) (mkProp 0x77800000 0x1000) _ _ _ _ _ _).
  - reflexivity.
  - reflexivity.
  - reflexivity.
  - by_decision.
  - reflexivity.
  - simpl. lia.
Defined.
