(* ===== verification/BootMem.v ===== *)
(** Where the images go when U-Boot boots a kernel (src/U-Boot/common/image.c,
    image-fdt.c and bootm.c, arch/arm/lib/bootm.c, the memory of the board in
    board/nexell/s5p6818/drone/board.c).

    The clients of [Lmb]: the environment says how much memory may be used, the
    stack and the kernel are reserved, and the RAM disk and the device tree are
    given blocks of what is left.  The environment is a parameter, a function from
    names to texts with their NULs, and so is what the device tree library says of a
    tree.  Numbers are read with [UStr].  The theorem: the RAM disk overlaps neither
    the kernel nor the stack, and the device tree none of the three, unless the
    environment keeps it in place, as the board's own does. *)

From S2P Require Import Prelude UStr Lmb.

(** ** The memory of the board *)

Definition CONFIG_SYS_SDRAM_BASE : Z := 0x40000000.
Definition CONFIG_SYS_SDRAM_SIZE : Z := 0x38000000.

(** [gd->bd->bi_dram[0]]. *)
Record dram := mkDram { dram_start : Z; dram_size : Z }.

Definition dram_init_banksize : dram := mkDram CONFIG_SYS_SDRAM_BASE CONFIG_SYS_SDRAM_SIZE.

Section Env.
Context (getenv : string -> option (list Z)) (bi_dram : dram).

(** ** The environment *)

(** The value of a number in base 16. *)
Definition number (s : list Z) : option Z := '(v, _) ← simple_strtoul s 16; Some v.

Definition getenv_bootm_low : option Z :=
  match getenv "bootm_low" with
  | Some s => number s
  | None => Some CONFIG_SYS_SDRAM_BASE
  end.

Definition getenv_bootm_size : option Z :=
  match getenv "bootm_size" with
  | Some s => number s
  | None =>
      tmp ← (match getenv "bootm_low" with Some s => number s | None => Some 0 end);
      Some (u64 (dram_size bi_dram - tmp))
  end.

Definition getenv_bootm_mapsize : option Z :=
  match getenv "bootm_mapsize" with
  | Some s => number s
  | None => getenv_bootm_size
  end.

(** ** The tables *)

(** The stack, from a page below [sp], and all above it. *)
Definition arch_lmb_reserve (sp : Z) (l : lmb) : option lmb :=
  let sp := u64 (sp - 4096) in
  '(l, _) ← lmb_reserve l sp (u64 (dram_start bi_dram + dram_size bi_dram - sp)); Some l.

(** Nothing more is reserved for the board. *)
Definition board_lmb_reserve (l : lmb) : option lmb := Some l.

Definition boot_start_lmb (sp : Z) (l : lmb) : option lmb :=
  l ← lmb_init l;
  mem_start ← getenv_bootm_low;
  mem_size ← getenv_bootm_size;
  '(l, _) ← lmb_add l mem_start mem_size;
  l ← arch_lmb_reserve sp l;
  board_lmb_reserve l.

(** ** The RAM disk *)

(** A move of bytes: where to, where from, how many. *)
Record move := mkMove { to : Z; from : Z; len : Z }.

(** The return value, the tables, [*initrd_start], [*initrd_end] and what is moved. *)
Definition boot_ramdisk_high (l : lmb) (rd_data rd_len initrd_end : Z) : option (Z * lmb * Z * Z * list move) :=
  '(initrd_high, copy_to_ram) ←
    (match getenv "initrd_high" with
     | Some s => v ← number s; Some (v, negb (v =? u64 (-1)))
     | None => Some (u64 (-1), true)
     end);
  if negb (rd_data =? 0) then
    if negb copy_to_ram then
      '(l, _) ← lmb_reserve l rd_data rd_len;
      Some (0, l, rd_data, u64 (rd_data + rd_len), [])
    else
      '(l, start) ←
        (if negb (initrd_high =? 0) then lmb_alloc_base l rd_len 0x1000 initrd_high else lmb_alloc l rd_len 0x1000);
      if start =? 0 then Some (-1, l, start, initrd_end, [])
      else Some (0, l, start, u64 (start + rd_len), [mkMove start rd_data rd_len])
  else Some (0, l, 0, 0, []).

(** ** The device tree *)

Definition CONFIG_SYS_FDT_PAD : Z := 0x3000.

(** What the library says of the tree: whether its header is good, its list of
    reserved regions, and whether it can be opened at an address in so many bytes. *)
Record fdt_blob := mkFdt {
  fdt_check_header : bool;
  fdt_mem_rsv : list (option (Z * Z));
  fdt_open_into : Z -> Z -> bool
}.

Definition boot_fdt_add_mem_rsv_regions (l : lmb) (fdt : fdt_blob) : option lmb :=
  if negb (fdt_check_header fdt) then Some l
  else
    foldl (fun l rsv =>
      l ← l;
      match rsv with
      | None => Some l
      | Some (addr, size) => '(l, _) ← lmb_reserve l addr size; Some l
      end) (Some l) (fdt_mem_rsv fdt).

(** Where the tree is to be, and whether it stays in place; no place is an error. *)
Definition fdt_place (l : lmb) (of_flat_tree of_len : Z) : option (lmb * Z * bool) :=
  match getenv "fdt_high" with
  | Some s =>
      desired_addr ← number s;
      if desired_addr =? u64 (-1) then
        '(l, _) ← lmb_reserve l of_flat_tree of_len; Some (l, of_flat_tree, true)
      else if negb (desired_addr =? 0) then
        '(l, b) ← lmb_alloc_base l of_len 0x1000 desired_addr; Some (l, b, false)
      else '(l, b) ← lmb_alloc l of_len 0x1000; Some (l, b, false)
  | None =>
      mapsize ← getenv_bootm_mapsize; low ← getenv_bootm_low;
      '(l, b) ← lmb_alloc_base l of_len 0x1000 (u64 (mapsize + low)); Some (l, b, false)
  end.

(** The return value, the tables, [*of_flat_tree] and [*of_size]. *)
Definition boot_relocate_fdt (l : lmb) (fdt : fdt_blob) (of_flat_tree of_size : Z) : option (Z * lmb * Z * Z) :=
  if of_size =? 0 then Some (0, l, of_flat_tree, of_size)
  else if negb (fdt_check_header fdt) then Some (1, l, of_flat_tree, of_size)
  else
    let of_len := u64 (of_size + CONFIG_SYS_FDT_PAD) in
    '(l, of_start, in_place) ← fdt_place l of_flat_tree of_len;
    if of_start =? 0 then Some (1, l, of_flat_tree, of_size)
    else if negb in_place && negb (fdt_open_into fdt of_start of_len) then Some (1, l, of_flat_tree, of_size)
    else Some (0, l, of_start, of_len).

(** ** Loading the images *)

(** The fields of [bootm_headers_t] that matter here. *)
Record images := mkImages {
  i_lmb : lmb; os_load : Z; rd_start : Z; rd_end : Z;
  initrd_start : Z; initrd_end : Z; ft_addr : Z; ft_len : Z
}.

Definition set_lmb (l : lmb) (i : images) : images :=
  mkImages l (os_load i) (rd_start i) (rd_end i) (initrd_start i) (initrd_end i) (ft_addr i) (ft_len i).

(** The states of [do_bootm_states] from the kernel that has been loaded up to
    [load_end], to the RAM disk and the device tree. *)
Definition bootm_place (fdt : fdt_blob) (load_end : Z) (i : images) : option (Z * images) :=
  '(l, _) ← lmb_reserve (i_lmb i) (os_load i) (u64 (load_end - os_load i));
  '(ret, l, s, e, _) ← boot_ramdisk_high l (rd_start i) (u64 (rd_end i - rd_start i)) (initrd_end i);
  let i := mkImages l (os_load i) (rd_start i) (rd_end i) s e (ft_addr i) (ft_len i) in
  if negb (ret =? 0) then Some (ret, i)
  else
    l ← boot_fdt_add_mem_rsv_regions (i_lmb i) fdt;
    '(ret, l, a, n) ← boot_relocate_fdt l fdt (ft_addr i) (ft_len i);
    Some (ret, mkImages l (os_load i) (rd_start i) (rd_end i) (initrd_start i) (initrd_end i) a n).

End Env.

(** ** Where the images go *)

(** The end of the memory of the board. *)
Definition RAM_END : Z := CONFIG_SYS_SDRAM_BASE + CONFIG_SYS_SDRAM_SIZE.

Definition ram : lmb_property := mkProp CONFIG_SYS_SDRAM_BASE CONFIG_SYS_SDRAM_SIZE.

(** A block of whole pages from [b] in memory, of which nothing is taken. *)
Definition usable (taken : Z -> Prop) (len b : Z) : Prop :=
  (2 ^ 12 | b) /\ CONFIG_SYS_SDRAM_BASE <= b /\ b + len <= RAM_END /\ forall a, b <= a < b + len -> ~ taken a.

(** It ends at the limit at the latest; 0 is no limit. *)
Definition usable_to (limit : Z) (taken : Z -> Prop) (len b : Z) : Prop := usable taken len b /\ (limit = 0 \/ b + len <= limit).

Lemma room_usable rl len max_addr b : Forall sound rl -> 0 < len < 2 ^ 64 - 2 ^ 12 ->
  room 12 len [ram] rl max_addr b <-> usable_to max_addr (covers rl) len b.
Proof.
  intros Hs Hlen. unfold room. rewrite Exists_cons, Exists_nil. unfold room_in, usable_to, usable.
  rewrite (free_at_covers 12 len ltac:(lia) Hlen rl b Hs). unfold pend, RAM_END in *. cbn [pbase psize ram] in *.
  unfold CONFIG_SYS_SDRAM_BASE, CONFIG_SYS_SDRAM_SIZE in *. intuition lia.
Qed.

Lemma usable_ext t t' len b : (forall a, t a <-> t' a) -> usable t len b <-> usable t' len b.
Proof. intros H. unfold usable. by setoid_rewrite H. Qed.

(** The limit for the device tree: the end of memory, or what the environment says;
    all ones keep it in place. *)
Definition fdt_limit (getenv : string -> option (list Z)) : option Z :=
  match getenv "fdt_high" with None => Some RAM_END | Some s => number s end.

Definition IN_PLACE : Z := 2 ^ 64 - 1.

(** The variables that are not set, as in the environment that the board has. *)
Record plain_env (getenv : string -> option (list Z)) : Prop := {
  no_low : getenv "bootm_low" = None;
  no_size : getenv "bootm_size" = None;
  no_mapsize : getenv "bootm_mapsize" = None;
  no_initrd_high : getenv "initrd_high" = None;
}.

Section Default.
Context (getenv : string -> option (list Z)) (Henv : plain_env getenv).

Abbreviation gd := dram_init_banksize.

(** What is reserved for the stack. *)
Definition above (sp a : Z) : Prop := sp - 4096 <= a < RAM_END.

Lemma start_ok sp l0 :
  length (region (memory l0)) = 9%nat -> length (region (reserved l0)) = 9%nat ->
  CONFIG_SYS_SDRAM_BASE + 4096 < sp <= RAM_END ->
  exists l, boot_start_lmb getenv gd sp l0 = Some l /\
    stands (memory l) [ram] /\ stands (reserved l) [mkProp (sp - 4096) (RAM_END - (sp - 4096))].
Proof.
  intros Hm Hr Hsp. destruct (empty_ok _ Hm) as (m & Em & _ & _ & Hm0), (empty_ok _ Hr) as (r & Er & _ & _ & Hr0).
  assert (Hone : forall rgn p, sound p -> holds rgn [p] -> stands rgn [p]).
  { intros rgn p Hp Hh. split; [split; [exact Hp|split; [constructor|done]]|]. split; [simpl; lia|done]. }
  unfold boot_start_lmb, lmb_init. rewrite Em. cbn [mbind option_bind]. rewrite Er. cbn [mbind option_bind].
  unfold getenv_bootm_low, getenv_bootm_size. rewrite (no_low _ Henv), (no_size _ Henv). cbn [mbind option_bind].
  change (u64 (dram_size gd - 0)) with CONFIG_SYS_SDRAM_SIZE. unfold lmb_add. cbn [memory].
  destruct (add_first CONFIG_SYS_SDRAM_BASE CONFIG_SYS_SDRAM_SIZE m Hm0) as (m' & -> & Hm').
  cbn [mbind option_bind]. unfold arch_lmb_reserve, lmb_reserve. cbn [reserved memory dram_start dram_size gd].
  fold RAM_END. assert (Hb : CONFIG_SYS_SDRAM_BASE = 0x40000000 /\ RAM_END = 0x78000000) by done.
  rewrite (u64_small (sp - 4096)) by (unfold is_u64; lia). rewrite u64_small by (unfold is_u64; lia).
  destruct (add_first (sp - 4096) (RAM_END - (sp - 4096)) r Hr0) as (r' & -> & Hr').
  cbn [mbind option_bind]. eexists. split; [done|]. cbn [memory reserved].
  split; (apply Hone; [|done]); unfold sound, pend; cbn [pbase psize ram]; [done|lia].
Qed.

(** The state of the tables between the calls: what is taken, and how many regions. *)
Definition tables (top : Z) (n : nat) (taken : Z -> Prop) (l : lmb) : Prop :=
  stands (memory l) [ram] /\ exists rl, keeps (reserved l) rl /\ topped 12 top RAM_END rl /\ (length rl <= n)%nat /\
    forall a, covers rl a <-> taken a.

Lemma tables_ext top n t t' l : (forall a, t a <-> t' a) -> tables top n t l -> tables top n t' l.
Proof.
  intros H (Hm & rl & Hk & Ht & Hn & Hc). split; [done|]. exists rl. split_and!; try done. intros a. by rewrite Hc.
Qed.

(** The kernel is where the caller says. *)
Lemma tables_reserve top n taken l b e :
  tables top n taken l -> (n <= 7)%nat -> (2 ^ 12 | b) -> 0 <= b -> b < e <= top -> top <= RAM_END ->
  (forall a, taken a -> top <= a) ->
  exists l' ret, lmb_reserve l b (u64 (e - b)) = Some (l', ret) /\ tables top (S n) (fun a => taken a \/ b <= a < e) l'.
Proof.
  intros (Hm & rl & Hk & Htop & Hn & Hcov) Hn7 Hal Hb He Ht Habove.
  assert (Hend : RAM_END < 2 ^ 64) by done.
  rewrite u64_small by (unfold is_u64; lia).
  assert (Hs : sound (mkProp b (e - b))) by (unfold sound, pend; cbn [pbase psize]; lia).
  assert (Hfr : forall p, p ∈ rl -> top <= pbase p).
  { intros p Hp. apply Habove, Hcov, Exists_exists. exists p. split; [done|].
    pose proof (orderly_sound _ (proj1 Hk)) as Hso. rewrite Forall_forall in Hso. specialize (Hso p Hp).
    unfold sound, pend in *. lia. }
  destruct (add_kept b (e - b) Hs (reserved l) rl Hk) as (r & ret & Hrun & [(-> & -> & H8)|[Hret Hkept]]).
  { split; [|intros _]; apply Forall_forall; intros p Hp; specialize (Hfr p Hp); lia. }
  { lia. }
  exists (mkLmb (memory l) r), ret. unfold lmb_reserve. rewrite Hrun. split; [done|]. split; [done|].
  destruct (kept_topped 12 top RAM_END rl b (e - b) r Htop Hal ltac:(lia) Hkept) as (rl' & Hk' & Ht' & Hlen & Hc').
  exists rl'. split_and!; [done..|lia|]. intros a. rewrite Hc', Hcov. intuition lia.
Qed.

(** A block for an image: the highest that is usable, or none is. *)
Definition placed (limit : Z) (taken : Z -> Prop) (len b : Z) : Prop :=
  usable_to limit taken len b /\ forall b', usable_to limit taken len b' -> b' <= b.

(** The pages of a block. *)
Definition pages (len b a : Z) : Prop := b <= a < b + lmb_align_up len 0x1000.

Lemma tables_alloc top n taken l len max_addr :
  tables top n taken l -> (n <= 7)%nat -> 0 < len < 2 ^ 64 - 2 ^ 12 -> max_addr = 0 \/ len <= max_addr < 2 ^ 64 ->
  top <= RAM_END ->
  exists l' b, lmb_alloc_base l len 0x1000 max_addr = Some (l', b) /\
    ((b = 0 /\ forall b', ~ usable_to max_addr taken len b') \/
     (0 < b /\ b + len <= top /\ placed max_addr taken len b /\ tables top (S n) (fun a => taken a \/ pages len b a) l')).
Proof.
  intros (Hm & rl & Hk & Htop & Hn & Hcov) Hn7 Hlen Hmax Ht.
  assert (Hend : RAM_END + 2 ^ 12 < 2 ^ 64) by done.
  assert (Hso : Forall sound rl) by (apply orderly_sound, Hk).
  assert (Hu : forall b, room 12 len [ram] rl max_addr b <-> usable_to max_addr taken len b).
  { intros b. rewrite room_usable by done. unfold usable_to. by rewrite (usable_ext _ taken). }
  destruct (alloc_topped 12 len ltac:(lia) Hlen l [ram] rl max_addr top RAM_END Hm Hk Hmax)
    as (l' & b & Hrun & Hres); [done|by repeat constructor|lia|].
  exists l', b. split; [exact Hrun|]. destruct Hres as [(-> & -> & [Hno|H8])|(Hroom & Hbt & Hhigh & Hm' & rl' & Hk' & Ht' & Hl' & Hc')].
  - left. split; [done|]. intros b'. by rewrite <- Hu.
  - lia.
  - right. pose proof (proj1 (Hu b) Hroom) as Hus. split; [destruct Hus as [Hus _]; unfold usable, CONFIG_SYS_SDRAM_BASE in Hus; lia|]. split; [done|].
    split; [split; [done|]; intros b' Hb'; by apply Hhigh, Hu|]. split; [by rewrite Hm'|].
    exists rl'. split_and!; [done..|lia|]. intros a. by rewrite Hc', Hcov.
Qed.

Lemma tables_shaped top n taken l : tables top n taken l -> shaped (reserved l).
Proof. intros (_ & rl & Hk & _). by eapply keeps_shaped. Qed.

(** What the list of reserved regions of a tree does to the tables. *)
Lemma rsv_total fdt l : shaped (reserved l) -> exists l', boot_fdt_add_mem_rsv_regions l fdt = Some l' /\ shaped (reserved l').
Proof.
  intros Hs. unfold boot_fdt_add_mem_rsv_regions. destruct (negb _); [by exists l|]. revert l Hs.
  induction (fdt_mem_rsv fdt) as [|[[addr size]|] rsv IH]; intros l Hs; cbn [foldl mbind option_bind]; [by exists l| |by apply IH].
  destruct (reserve_total l addr size Hs) as (l' & ret & -> & _ & Hs'). cbn [mbind option_bind]. by apply IH.
Qed.

(** ** The outcome *)

Section Outcome.
Context (fdt : fdt_blob) (limit : Z) (taken : Z -> Prop) (i : images).

Abbreviation rd_len := (rd_end i - rd_start i).
Abbreviation ft_size := (ft_len i + CONFIG_SYS_FDT_PAD).

(** The RAM disk, if there is one, is in the highest free pages. *)
Definition disk_placed (i' : images) : Prop :=
  (rd_start i = 0 /\ initrd_start i' = 0 /\ initrd_end i' = 0) \/
  (rd_start i <> 0 /\ placed 0 taken rd_len (initrd_start i') /\ initrd_end i' = initrd_start i' + rd_len).

(** What is taken when the device tree gets its place. *)
Definition disk_taken (i' : images) (a : Z) : Prop := taken a \/ rd_start i <> 0 /\ pages rd_len (initrd_start i') a.

Inductive outcome : Z -> images -> Prop :=
  | NoDisk ret i' : ret <> 0 -> rd_start i <> 0 -> initrd_start i' = 0 -> (forall b, ~ usable taken rd_len b) -> outcome ret i'
  | NoTree ret i' : ret <> 0 -> disk_placed i' ->
      (fdt_check_header fdt = false \/
       limit <> IN_PLACE /\ (forall b, ~ usable_to limit (disk_taken i') ft_size b) \/
       limit <> IN_PLACE /\ exists b, placed limit (disk_taken i') ft_size b /\ fdt_open_into fdt b ft_size = false) -> outcome ret i'
  | Moved i' : limit <> IN_PLACE -> disk_placed i' -> placed limit (disk_taken i') ft_size (ft_addr i') -> ft_len i' = ft_size -> outcome 0 i'
  | InPlace i' : limit = IN_PLACE -> disk_placed i' -> ft_addr i' = ft_addr i -> ft_len i' = ft_size ->
      (rd_start i <> 0 -> (exists b, usable taken rd_len b /\ ft_addr i + ft_size <= b) -> ft_addr i' + ft_size <= initrd_start i') -> outcome 0 i'.
End Outcome.

Section Place.
Context (fdt : fdt_blob) (limit : Z) (i : images) (Hlim : fdt_limit getenv = Some limit).
Context (Hft0 : 0 < ft_len i) (Hft : ft_len i + CONFIG_SYS_FDT_PAD <= RAM_END) (Hfta : 0 < ft_addr i).
Context (Hmode : limit = IN_PLACE \/ fdt_mem_rsv fdt = [] /\ (limit = 0 \/ ft_len i + CONFIG_SYS_FDT_PAD <= limit < IN_PLACE)).

Abbreviation rd_len := (rd_end i - rd_start i).
Abbreviation ft_size := (ft_len i + CONFIG_SYS_FDT_PAD).

(** The place of the tree. *)
Lemma fdt_place_ok top n taken l : tables top n taken l -> (n <= 7)%nat -> top <= RAM_END -> limit <> IN_PLACE ->
  exists l' b, fdt_place getenv gd l (ft_addr i) ft_size = Some (l', b, false) /\
    ((b = 0 /\ forall b', ~ usable_to limit taken ft_size b') \/ (0 < b /\ placed limit taken ft_size b)).
Proof.
  intros Ht Hn Htop Hne. assert (Hram : RAM_END = 0x78000000) by done. assert (Hpad : CONFIG_SYS_FDT_PAD = 0x3000) by done.
  assert (Hmax : limit = 0 \/ ft_size <= limit < 2 ^ 64) by (unfold IN_PLACE in *; lia).
  destruct (tables_alloc top n taken l ft_size limit Ht Hn ltac:(lia) Hmax Htop) as (l' & b & Hrun & Hb).
  exists l', b. split; [|destruct Hb as [?|(? & _ & ? & _)]; [by left|by right]].
  unfold fdt_place, fdt_limit in *. destruct (getenv "fdt_high") as [s|].
  - rewrite Hlim. cbn [mbind option_bind]. change (u64 (-1)) with IN_PLACE. destruct (Z.eqb_spec limit IN_PLACE); [done|].
    destruct (Z.eqb_spec limit 0) as [->|]; cbn [negb].
    + unfold lmb_alloc, LMB_ALLOC_ANYWHERE. by rewrite Hrun.
    + by rewrite Hrun.
  - injection Hlim as <-. unfold getenv_bootm_mapsize, getenv_bootm_size, getenv_bootm_low.
    rewrite (no_mapsize _ Henv), (no_size _ Henv), (no_low _ Henv). cbn [mbind option_bind].
    change (u64 (u64 (dram_size gd - 0) + CONFIG_SYS_SDRAM_BASE)) with RAM_END. by rewrite Hrun.
Qed.

(** The device tree, when the RAM disk has its place. *)
Lemma tree_ok top n taken l i1 : tables top n (disk_taken taken i i1) l -> (n <= 7)%nat -> top <= RAM_END -> disk_placed taken i i1 ->
  ft_addr i1 = ft_addr i -> ft_len i1 = ft_len i ->
  exists ret l' a k, (l ← boot_fdt_add_mem_rsv_regions l fdt; boot_relocate_fdt getenv gd l fdt (ft_addr i1) (ft_len i1)) = Some (ret, l', a, k) /\
    outcome fdt limit taken i ret (mkImages l' (os_load i1) (rd_start i1) (rd_end i1) (initrd_start i1) (initrd_end i1) a k).
Proof.
  intros Ht Hn Htop Hd Ea El. assert (Hram : RAM_END = 0x78000000) by done. assert (Hpad : CONFIG_SYS_FDT_PAD = 0x3000) by done.
  destruct (rsv_total fdt l (tables_shaped _ _ _ _ Ht)) as (l1 & E1 & Hs1). rewrite E1. cbn [mbind option_bind].
  unfold boot_relocate_fdt. rewrite Ea, El. destruct (Z.eqb_spec (ft_len i) 0); [lia|].
  destruct (fdt_check_header fdt) eqn:Hhdr; cbn [negb].
  2:{ eexists _, _, _, _. split; [reflexivity|]. apply NoTree; [done|exact Hd|by left]. }
  rewrite (u64_small ft_size) by (unfold is_u64; lia). destruct (Z.eq_dec limit IN_PLACE) as [Hin|Hne].
  - unfold fdt_place, fdt_limit in *. destruct (getenv "fdt_high") as [s|]; [|injection Hlim as Hl; unfold IN_PLACE in *; lia]. rewrite Hlim. cbn [mbind option_bind].
    change (u64 (-1)) with IN_PLACE. destruct (Z.eqb_spec limit IN_PLACE); [|done].
    destruct (reserve_total l1 (ft_addr i) ft_size Hs1) as (l2 & r2 & -> & _). cbn [mbind option_bind]. destruct (Z.eqb_spec (ft_addr i) 0); [lia|].
    cbn [negb andb]. eexists _, _, _, _. split; [reflexivity|]. apply InPlace; [done|exact Hd|done|done|].
    cbn [initrd_start ft_addr]. intros Hr (b & Hb & Hab). destruct Hd as [[? _]|(_ & [_ Hhigh] & _)]; [done|].
    specialize (Hhigh b (conj Hb (or_introl eq_refl))). lia.
  - destruct Hmode as [?|[Hrsv _]]; [done|]. unfold boot_fdt_add_mem_rsv_regions in E1. rewrite Hhdr, Hrsv in E1. injection E1 as <-.
    destruct (fdt_place_ok top n _ l Ht Hn Htop Hne) as (l2 & b & -> & Hb). cbn [mbind option_bind]. destruct Hb as [[-> Hno]|[Hb Hpl]].
    + eexists _, _, _, _. split; [reflexivity|]. apply NoTree; [done|exact Hd|]. right. left. split; [done|exact Hno].
    + destruct (Z.eqb_spec b 0); [lia|]. cbn [negb andb]. destruct (fdt_open_into fdt b ft_size) eqn:Ho; cbn [negb].
      * eexists _, _, _, _. split; [reflexivity|]. by apply Moved.
      * eexists _, _, _, _. split; [reflexivity|]. apply NoTree; [done|exact Hd|]. right. right. split; [done|]. by exists b.
Qed.

(** The whole placement, from memory of which only the stack is reserved. *)
Lemma place_ok sp load_end :
  stands (memory (i_lmb i)) [ram] -> stands (reserved (i_lmb i)) [mkProp (sp - 4096) (RAM_END - (sp - 4096))] ->
  CONFIG_SYS_SDRAM_BASE + 4096 < sp <= RAM_END ->
  (2 ^ 12 | os_load i) -> 0 <= os_load i < load_end -> load_end <= sp - 4096 ->
  (rd_start i <> 0 -> 0 < rd_len < 2 ^ 64 - 2 ^ 12) ->
  exists ret i', bootm_place getenv gd fdt load_end i = Some (ret, i') /\
    outcome fdt limit (fun a => above sp a \/ os_load i <= a < load_end) i ret i'.
Proof.
  intros Hm Hr Hsp Hal Hload Hend Hrdl. set (taken := fun a => above sp a \/ os_load i <= a < load_end).
  assert (Hram : RAM_END = 0x78000000) by done. assert (Hpad : CONFIG_SYS_FDT_PAD = 0x3000) by done.
  assert (H0 : tables (sp - 4096) 1 (above sp) (i_lmb i)).
  { split; [done|]. eexists. split; [by apply stands_keeps|].
    assert (Hcov : forall a, covers [mkProp (sp - 4096) (RAM_END - (sp - 4096))] a <-> above sp a).
    { intros a. rewrite covers_cons, covers_nil. unfold above, pend. cbn [pbase psize]. lia. }
    split; [|split; [simpl; lia|done]]. split; [constructor; [cbn [pbase]; lia|done]|]. intros a Ha. by apply Hcov. }
  unfold bootm_place. destruct (tables_reserve _ _ _ _ (os_load i) load_end H0 ltac:(lia) Hal) as (l1 & r1 & -> & H1);
    [lia|lia|lia|unfold above; lia|]. cbn [mbind option_bind].
  unfold boot_ramdisk_high. rewrite (no_initrd_high _ Henv). cbn [mbind option_bind].
  assert (Htree : forall n l s e, tables (sp - 4096) n (fun a => taken a \/ rd_start i <> 0 /\ pages rd_len s a) l -> (n <= 7)%nat ->
    disk_placed taken i (mkImages l (os_load i) (rd_start i) (rd_end i) s e (ft_addr i) (ft_len i)) ->
    exists ret i', (let i := mkImages l (os_load i) (rd_start i) (rd_end i) s e (ft_addr i) (ft_len i) in
      l ← boot_fdt_add_mem_rsv_regions (i_lmb i) fdt; '(ret, l, a, n) ← boot_relocate_fdt getenv gd l fdt (ft_addr i) (ft_len i);
      Some (ret, mkImages l (os_load i) (rd_start i) (rd_end i) (initrd_start i) (initrd_end i) a n)) = Some (ret, i') /\
      outcome fdt limit taken i ret i').
  { intros n l s e Ht Hn Hd. set (i1 := mkImages l _ _ _ s e _ _) in *.
    destruct (tree_ok (sp - 4096) n taken l i1 Ht Hn ltac:(lia) Hd eq_refl eq_refl) as (ret & l' & a & k & E & Ho).
    eexists ret, _. split; [|exact Ho]. cbv zeta. change (i_lmb i1) with l. destruct (boot_fdt_add_mem_rsv_regions l fdt) as [l2|]; [|done].
    cbn [mbind option_bind] in *. by rewrite E. }
  destruct (Z.eqb_spec (rd_start i) 0) as [Hz|Hnz]; cbn [negb mbind option_bind].
  - change (0 =? 0) with true. cbn [negb]. apply (Htree 2%nat l1 0 0); [|lia|by left].
    eapply tables_ext; [|exact H1]. intros a. unfold taken. tauto.
  - specialize (Hrdl Hnz). rewrite (u64_small rd_len) by (unfold is_u64; lia). change (u64 (-1) =? u64 (-1)) with true. change (negb (u64 (-1) =? 0)) with true. cbn [negb].
    destruct (tables_alloc _ _ _ _ rd_len (u64 (-1)) H1) as (l2 & b & -> & Hb);
      [lia|done|right; change (u64 (-1)) with (2 ^ 64 - 1); lia|lia|]. cbn [mbind option_bind].
    assert (Hany : forall b', usable_to (u64 (-1)) taken rd_len b' <-> usable_to 0 taken rd_len b').
    { intros b'. unfold usable_to. change (u64 (-1)) with (2 ^ 64 - 1). split; (intros [Hus _]; split; [done|]); [by left|right; unfold usable in Hus; lia]. }
    destruct Hb as [[-> Hno]|(Hb0 & Hbt & [Hpl Hhigh] & H2)].
    + eexists _, _. split; [reflexivity|]. apply NoDisk; [done|done|done|]. intros b' Hb'. apply (Hno b'), Hany. by split; [|left].
    + destruct (Z.eqb_spec b 0); [lia|]. cbn [mbind option_bind]. change (negb (0 =? 0)) with false. cbv iota.
      assert (Hbe : u64 (b + rd_len) = b + rd_len) by (apply u64_small; unfold is_u64; lia). rewrite Hbe.
      apply (Htree 3%nat l2 b (b + rd_len)); [|lia|].
      * eapply tables_ext; [|exact H2]. intros a. cbn beta. unfold taken. intuition.
      * right. split; [done|]. split; [|done]. split; [by apply Hany|]. intros b' Hb'. by apply Hhigh, Hany.
Qed.
End Place.
End Default.

(** C21: with the variables that bound memory and the RAM disk not set, as in the
    environment of the board, booting puts the RAM disk, if there is one, in the highest
    free pages of memory, apart from the kernel and the stack, or fails if there are
    none. The device tree with its padding goes to the highest pages below [fdt_high]
    that are free then, so that the four are apart; it fails only if the tree is damaged,
    cannot be moved, or finds no place. When [fdt_high] is all ones, as on the board, the
    tree stays in place instead, whatever regions it reserves: it is apart from the RAM
    disk if there are free pages for that above it, but not always ([tree_overwritten]).
    There is a tree; the kernel has to start at a page below the stack; the tree reserves no regions if it
    is to be moved, and the limit leaves room for its size. *)
Theorem boot_images_apart getenv fdt limit sp load_end i :
  plain_env getenv -> fdt_limit getenv = Some limit ->
  length (region (memory (i_lmb i))) = 9%nat -> length (region (reserved (i_lmb i))) = 9%nat ->
  CONFIG_SYS_SDRAM_BASE + 4096 < sp <= RAM_END ->
  (2 ^ 12 | os_load i) -> 0 <= os_load i < load_end -> load_end <= sp - 4096 ->
  (rd_start i <> 0 -> 0 < rd_end i - rd_start i < 2 ^ 64 - 2 ^ 12) ->
  0 < ft_addr i -> 0 < ft_len i -> ft_len i + CONFIG_SYS_FDT_PAD <= RAM_END ->
  limit = IN_PLACE \/ fdt_mem_rsv fdt = [] /\ (limit = 0 \/ ft_len i + CONFIG_SYS_FDT_PAD <= limit < IN_PLACE) ->
  exists l ret i', boot_start_lmb getenv dram_init_banksize sp (i_lmb i) = Some l /\
    bootm_place getenv dram_init_banksize fdt load_end (set_lmb l i) = Some (ret, i') /\
    outcome fdt limit (fun a => above sp a \/ os_load i <= a < load_end) i ret i'.
Proof.
  intros Henv Hlim Hm Hr Hsp Hal Hload Hend Hrdl Hfta Hft0 Hft Hmode.
  destruct (start_ok getenv Henv sp (i_lmb i) Hm Hr Hsp) as (l & Hstart & Hml & Hrl).
  destruct (place_ok getenv Henv fdt limit (set_lmb l i) Hlim Hft0 Hft Hfta Hmode sp load_end Hml Hrl Hsp Hal Hload Hend Hrdl) as (ret & i' & Hrun & Hres).
  exists l, ret, i'. split; [done|]. split; [exact Hrun|].
  destruct Hres; [by apply NoDisk|by apply NoTree|by apply Moved|by apply InPlace].
Qed.

(** The environment with one variable. *)
Definition one_var (name : string) (value : list Z) : string -> option (list Z) :=
  fun n => if String.eqb n name then Some value else None.

(** If [bootm_low] says where memory starts, the size of memory wraps around, as
    the start is taken off the size; and no block is ever found without a bound. *)
Theorem bootm_low_starves sp size :
  CONFIG_SYS_SDRAM_BASE + 4096 < sp <= RAM_END -> 0 < size <= CONFIG_SYS_SDRAM_SIZE ->
  let env := one_var "bootm_low" (chars "40000000" ++ [0]) in
  getenv_bootm_size env dram_init_banksize = Some (2 ^ 64 - 0x8000000) /\
  exists l, boot_start_lmb env dram_init_banksize sp zeroed = Some l /\ lmb_alloc l size 0x1000 = Some (l, 0).
Proof.
  intros Hsp Hs env. assert (Hsz : getenv_bootm_size env dram_init_banksize = Some (2 ^ 64 - 0x8000000)) by (vm_compute; done).
  split; [exact Hsz|]. unfold boot_start_lmb. rewrite Hsz.
  replace (getenv_bootm_low env) with (Some 0x40000000) by (vm_compute; done).
  set (m := mkRegion 1 0 (replicate 9 (mkProp 0 0))). change (lmb_init zeroed) with (Some (mkLmb m m)).
  cbn [mbind option_bind]. unfold lmb_add. cbn [memory reserved].
  set (m1 := mkRegion 1 0 (mkProp 0x40000000 (2 ^ 64 - 0x8000000) :: replicate 8 (mkProp 0 0))).
  change (lmb_add_region m 0x40000000 (2 ^ 64 - 0x8000000)) with (Some (m1, 0)). cbn [mbind option_bind].
  unfold arch_lmb_reserve, lmb_reserve. cbn [reserved memory].
  destruct (add_first (u64 (sp - 4096)) (u64 (dram_start dram_init_banksize + dram_size dram_init_banksize - u64 (sp - 4096))) m)
    as (r & -> & _).
  { split; [done|]. by exists (replicate 8 (mkProp 0 0)). }
  cbn [mbind option_bind]. eexists. split; [reflexivity|]. unfold lmb_alloc, lmb_alloc_base, __lmb_alloc_base. cbn [memory].
  change (cnt m1) with 1. change (Z.to_nat (s64 (1 - 1) + 1)) with 1%nat. cbn [memory_loop].
  change (reg _ (Z.of_nat 0)) with (Some (mkProp 0x40000000 (2 ^ 64 - 0x8000000))). cbn [mbind option_bind].
  unfold alloc_start, LMB_ALLOC_ANYWHERE, CONFIG_SYS_SDRAM_SIZE in *. cbn [psize pbase].
  destruct (Z.ltb_spec (2 ^ 64 - 0x8000000) size); [lia|]. cbn [Z.eqb].
  change (u64 (0x40000000 + (2 ^ 64 - 0x8000000))) with 0x38000000. rewrite u64_small by (unfold is_u64; lia).
  pose proof (align_down_le 12 ltac:(lia) (0x38000000 - size) ltac:(unfold is_u64; lia)) as Hd. change (2 ^ 12) with 0x1000 in Hd.
  cbn [alloc_loop]. destruct (Z.leb_spec 0x40000000 (lmb_align_down (0x38000000 - size) 0x1000)); [lia|].
  by rewrite andb_false_r.
Qed.

(** ** Witnesses *)

Definition sample_fdt : fdt_blob := mkFdt true [Some (0x40000000, 0x1000); None] (fun _ _ => true).

Definition sample_images : images := mkImages zeroed 0x40080000 0x4A000000 0x4A123456 0 0 0x49000000 0x4321.

(** The environment of the board (CONFIG_EXTRA_ENV_SETTINGS). *)
Definition board_env : string -> option (list Z) := one_var "fdt_high" (chars "0xffffffffffffffff" ++ [0]).

Lemma boot_images_apart_witness :
  let i := sample_images in
  let taken a := above 0x77FFEE70 a \/ os_load i <= a < 0x41000001 in
  (exists l ret i', boot_start_lmb board_env dram_init_banksize 0x77FFEE70 (i_lmb i) = Some l /\
    bootm_place board_env dram_init_banksize sample_fdt 0x41000001 (set_lmb l i) = Some (ret, i') /\ outcome sample_fdt IN_PLACE taken i ret i') /\
  (exists l ret i', boot_start_lmb (fun _ => None) dram_init_banksize 0x77FFEE70 (i_lmb i) = Some l /\
    bootm_place (fun _ => None) dram_init_banksize (mkFdt true [] (fun _ _ => true)) 0x41000001 (set_lmb l i) = Some (ret, i') /\
    outcome (mkFdt true [] (fun _ _ => true)) RAM_END taken i ret i').
Proof.
  assert (Hal : (2 ^ 12 | os_load sample_images)) by (exists 0x40080; reflexivity).
  split.
  - refine (boot_images_apart board_env sample_fdt IN_PLACE 0x77FFEE70 0x41000001 sample_images _ _ eq_refl eq_refl _ Hal _ _ _ _ _ _ (or_introl eq_refl)).
    + by constructor.
    + vm_compute. reflexivity.
    + vm_compute. split; [reflexivity|discriminate].
    + simpl. lia.
    + lia.
    + simpl. lia.
    + simpl. lia.
    + simpl. lia.
    + vm_compute. discriminate.
  - refine (boot_images_apart (fun _ => None) (mkFdt true [] (fun _ _ => true)) RAM_END 0x77FFEE70 0x41000001 sample_images _ eq_refl eq_refl eq_refl _ Hal _ _ _ _ _ _ _).
    + by constructor.
    + vm_compute. split; [reflexivity|discriminate].
    + simpl. lia.
    + lia.
    + simpl. lia.
    + simpl. lia.
    + simpl. lia.
    + vm_compute. discriminate.
    + right. split; [reflexivity|]. right. split; [vm_compute; discriminate|reflexivity].
Defined.

Lemma bootm_low_starves_witness :
  let env := one_var "bootm_low" (chars "40000000" ++ [0]) in
  getenv_bootm_size env dram_init_banksize = Some (2 ^ 64 - 0x8000000) /\
  exists l, boot_start_lmb env dram_init_banksize 0x77FFEE70 zeroed = Some l /\ lmb_alloc l 0x1000 0x1000 = Some (l, 0).
Proof.
  refine (bootm_low_starves 0x77FFEE70 0x1000 _ _).
  - vm_compute. split; [reflexivity|discriminate].
  - vm_compute. split; [reflexivity|discriminate].
Defined.

(** The addresses of the sample: the device tree below the RAM disk, whose last page
    runs into what is reserved for the stack. *)
Example sample_places :
  option_map (fun r => (fst r, initrd_start (snd r), initrd_end (snd r), ft_addr (snd r)))
    (l ← boot_start_lmb (fun _ => None) dram_init_banksize 0x77FFEE70 zeroed;
     bootm_place (fun _ => None) dram_init_banksize (mkFdt true [] (fun _ _ => true)) 0x41000001 (set_lmb l sample_images)) =
  Some (0, 0x77EDA000, 0x77FFD456, 0x77ED2000).
Proof. vm_compute. reflexivity. Qed.

(** In the environment of the board a tree high in memory stays where it is, and the
    RAM disk is copied over it. *)
Example tree_overwritten :
  option_map (fun r => (fst r, initrd_start (snd r), initrd_end (snd r), ft_addr (snd r)))
    (l ← boot_start_lmb board_env dram_init_banksize 0x77FFEE70 zeroed;
     bootm_place board_env dram_init_banksize sample_fdt 0x41000001
       (set_lmb l (mkImages zeroed 0x40080000 0x4A000000 0x4A123456 0 0 0x77F00000 0x4321))) =
  Some (0, 0x77EDA000, 0x77FFD456, 0x77F00000).
Proof. vm_compute. reflexivity. Qed.
